(* ===== verification/_CoqProject ===== *)
-Q . S2P
Prelude.v
Params.v
Str.v
Spinlock.v
Sched.v
Ring.v
Bio.v
Cache.v
Drivers.v
BlockIf.v
Log.v
Crash.v
Trans.v
Balloc.v
Inode.v
FileData.v
Dir.v
Namei.v
Mkfs.v
Image.v
Kalloc.v
Vm.v
VmFree.v
VmCopy.v
Grep.v
Printf.v
Fifo.v
Kbd.v
Console.v
Pipe.v
Sh.v
User.v
Shell.v
Uprog.v
Gmain.v
Usertests.v
Umalloc.v
Sys.v
File.v
Proc.v
Exec.v
Bootmain.v
Syscall.v
Sysfile.v
Life.v
Fork.v
First.v
Grow.v
Load.v
Trap.v
Testrun.v
Boot.v
