(* ===== verification/Prelude.v ===== *)
(** * A verification of xv6 for the mist32

    xv6 is a small Unix-like kernel with its user programs, here in the port
    to the mist32 processor (src/). This library translates its C code into
    Rocq functions, part by part, and proves what makes each part correct.

    ** How the code is modelled

    A routine is a computation [M S A] on a state [S] (this file): it returns
    a value and a new state, panics with a message, gives the CPU to the
    scheduler ([Switch], with what it does when it is switched back to, in
    whatever state it is then), never returns ([Diverge]) or does something C
    leaves undefined ([Fault]: an access outside an object, a null pointer
    followed). Integers are in Z, cut to their width where the code computes
    at that width ([u8], [u16], [u32], [s16], [s32]); memory is big endian, as
    the mist32 is. A part's state is a record; a part inside a larger state is
    reached through a [Lens] and its operations run with [zoom]. Pointers to
    elements of kernel tables are indices; the null pointer is 0 or [None].

    Loops are Fixpoints: over the data where the code walks over it, else with
    fuel, where running out is [Diverge], never a result. The theorems show
    that the fuel suffices: they state what the call returns, not what holds
    if it returns. Loops around [sleep] get [wakeups] = 64 rounds (Params):
    each round ends in a [Switch], so that one round is all a theorem about a
    call that does not block needs; sys_sleep's loop gets one round for each
    tick it waits for. Loops over addresses get 2^20 rounds, the number of
    pages there are, and malloc's and free's as many as blocks fit the memory.

    ** The files and the parts they model

    - Prelude: machine integers, arrays, byte order, flags, computations,
      total correctness ([wp]), lenses, counted loops, tactics and hints.
    - Params: the constants of param.h, fs.h, buf.h, file.h, stat.h, fcntl.h.
    - Str: string.c (module Kstr) and the string routines of ulib.c (module
      Ulib), on a byte-addressed memory.
    - Spinlock: spinlock.c; module Smp runs acquire and release on several
      CPUs one instruction at a time.
    - Sched: struct proc and sched, yield, sleep, wakeup, kill of proc.c.
    - Ring, Bio, Cache: bio.c over ide.c's iderw. Ring has the doubly linked
      lists; Bio the operations; Cache the abstract view (which sector has
      which contents, which buffers are held) and that every operation keeps
      to it. Drivers: ide.c over its controller and memide.c with the disk in
      memory, and that both do what iderw of Bio does.
    - BlockIf: the interfaces between the layers as type classes: what bio.c
      offers (BufOps), what log.c offers (LogOps) and promises (LogLaws). The
      file system is written and verified against these.
    - Log, Crash: log.c. Log proves LogLaws for it; Crash runs commit and
      recovery with a crash after any disk write.
    - Balloc, Inode, FileData, Dir: fs.c, from the free bitmap over inodes and
      file contents to directories and paths. Namei: what a path names, and
      that namex finds it, over the references the inode cache holds.
    - Kalloc, Vm: kalloc.c and vm.c on a memory of pages, the page tables being
      words of such pages.
    - VmFree: what deallocuvm and freevm give back; VmCopy: what freerange,
      setupkvm, inituvm and copyuvm take from the free pages and make of them.
    - Fifo: ring buffers with wrapping counters; Console: console.c, uart.c,
      the interrupt routine of kbd.c, procdump of proc.c; Kbd: the tables of
      kbd.h and what kbdgetc does with a scan code; Pipe: pipe.c.
    - Printf: printf.c, and the digit loop console.c shares with it; Grep:
      the matcher of grep.c and its loop over a file; Sh: the parser of sh.c; Umalloc: umalloc.c on the headers in
      memory, sbrk being a parameter.
    - User: a user program as an interaction tree of the system calls of
      user.h, with printf, gets and stat of the user library; [run] is the
      kernel as a program sees it: the descriptor table and what each
      descriptor stands for, forked children, and an [oracle] that decides
      which calls fail, the process ids and what wait returns. A process's
      [input] is what its reads return, piece by piece.
    - Shell: runcmd, getcmd and main of sh.c over User and Sh. Uprog: init.c,
      cat.c, echo.c, kill.c, ln.c, ls.c, mkdir.c, rm.c, wc.c, zombie.c,
      forktest.c and stressfs.c, a module each. Gmain: grep.c as such a
      program, on the buffer its pieces are read to.
    - Usertests: usertests.c, every test of it, as a program of system calls
      and of reads and writes of its own memory. Testrun: [on_kernel] runs a
      program that does not fork on the kernel's model, each call by its
      number through syscall, with the arguments in registers and user memory.
    - Trans: begin_trans and commit_trans as an interface (TransLaws) to the
      system calls, with log.c as its instance.
    - Mkfs: mkfs.c, the whole program, on an image that is a list of sectors;
      the files of the build host are a parameter. Image: what [main] leaves,
      in the terms of Balloc, Inode, FileData and Dir.
    - Sys: the whole kernel's state, joined from the parts' states, the
      current process, and user memory: an address is translated through the
      page table the register holds, and one without a valid entry is a
      [Fault].
    - File: file.c and the two ends of a pipe (pipealloc, pipeclose).
    - Proc: the rest of proc.c (allocproc, userinit, growproc, fork, exit,
      wait, scheduler, forkret), kvmalloc and the switch routines of vm.c.
    - Exec: exec.c and loaduvm; the bytes of the header a failed read leaves
      on the stack are a parameter. Bootmain: bootmain.c, the boot sector of
      the x86 original, in the tree but not in this port's build.
    - Syscall, Sysfile: the argument fetching of syscall.c and all of
      sysfile.c; Trap: sysproc.c, the table of calls, trap.c with its
      descriptor table. The console's interrupt routines and the timer's
      acknowledgement are parameters of trap (their models are in Console and
      Boot, on other states), the device routines devsw and the addresses
      kernel.ld defines parameters of what uses them.
    - Life: theorems on the life of a process, across Proc, File, the log and
      the page allocator; Fork: fork; First: userinit; Grow: allocuvm and
      growproc; Load: exec, from the path to the first instruction.
    - Boot: main.c with the parts only it calls (mp.c, lapic.c, gci.c, timer.c,
      ideinit, seginit), on a state of the whole machine in which a device
      register is a word at an address; and the interrupt routines that
      acknowledge a device by reading such a register.

    ** What the theorems show

    Storage: a crash at any point of a commit is recovered to before or after
    the transaction, recovery can itself be interrupted ([Crash]); blocks are
    allocated and freed one bit at a time ([Balloc]); inodes survive the trip
    to their disk block and the cache has one entry for each ([Inode]); bytes
    written to a file are read back and nothing else changes ([FileData]);
    names added to a directory are found ([Dir]); a path leads to the inode
    its elements name, with one more reference and no lock left ([Namei]); the
    image mkfs builds is a file system on which the kernel boots and reads the files back ([Image]).

    Memory: the page allocator is a stack of distinct pages ([Kalloc]);
    mappages changes exactly the entries of its range ([Vm]); deallocuvm and
    freevm return exactly the pages of their range and of an address space,
    each once ([VmFree]); copyuvm copies an address space to pages of its own
    and, when it fails, gives back or loses exactly the pages stated
    ([VmCopy]); allocuvm adds zeroed pages or none, and growproc leaves a
    process's memory mapped exactly up to the size recorded, but in the two
    cases stated ([Grow]); the user allocator's blocks tile its memory and are
    merged again when freed ([Umalloc]).

    Start-up: from the memory and variables a loader leaves, main reaches the
    scheduler, and what it leaves satisfies what the other theorems assume:
    the free pages, the two page tables and the first process's stack are all
    the pages there are, each in one place, the buffer cache holds nothing
    over the disk's contents, and fork's conditions hold for the first process
    ([Boot]). setupkvm is shown to need at most 41 pages, so that the 42 the
    kernel must leave below 4 megabytes suffice.

    Processes: allocproc hands out distinct ids and fails cleanly; fork makes
    a child with a copy of the address space and everything else shared and
    counted, or leaves no trace but what copyuvm loses ([Fork]); exec replaces
    the address space by the program's segments and its arguments, or fails
    with all memory as it was ([Load]); exit
    gives up everything the process holds and wakes who waits for it; wait
    returns a dead child's memory and misses no exit; a pass of the scheduler
    runs every process that can run; sleep(n) comes back after n ticks; a
    fault ends the program and not the kernel ([Life], [Trap]). Where such a
    routine gives up the CPU, [drive] runs it on through any environment that
    keeps to a stated contract.

    Files: a write of any length is split into transactions that fit the log
    and can be read back through another descriptor ([File]); the reference
    count of an open file is the number of descriptors that name it, and dup,
    close and exit keep it so ([Sysfile], [Life]); a pointer argument lies in
    the process's memory ([Syscall]).

    Concurrency: locks exclude each other under every interleaving
    ([Spinlock]); sleep loses no wakeup, wakeup and kill touch exactly the
    processes they should ([Sched]).

    Streams: the console's ring buffer is a queue and a line editor, a pipe is
    a bounded queue ([Console], [Pipe]).

    Programs: grep's matcher decides the language of its pattern, the shell's
    parser reads back printed syntax trees and terminates on every line,
    printed numbers read back ([Grep], [Sh], [Printf], [Str]). runcmd runs
    every command of a line with its descriptors wired as the line says, also
    when calls fail, and a session with the shell does line after line what is
    typed ([Shell]); cat copies and wc counts whatever pieces read returns
    ([Uprog]); grep writes the lines that match ([Gmain]). [run] has fuel and
    [ends] says that some amount suffices.

    The tests: nine file system tests of usertests.c, run one after the other
    on the kernel with a disk mkfs has made, print what success prints
    ([Testrun]): mkfs, system call table, argument checks, file table, paths,
    inodes, log and buffer cache work together there by evaluation, without a
    hypothesis. [run3]'s fuel of 5000 steps is more than they make. The tests
    that fork, and the ones that write files of many blocks, are translated
    but not run.

    Some theorems state where the code fails: interrupts stay off after the
    first lock, uva2ka follows a null pointer, grep overruns its buffer, the
    user library's memmove ignores overlap, a process that exits in a removed
    directory brings the kernel down, a negative length passes argptr, malloc
    of a huge size returns a tiny block, sbrk to size 0 fails after freeing,
    kill(0) marks a process not yet born.

    ** What is not modelled

    swtch and the assembly files (a switch is [Switch]); the machine itself: a
    device register is a word that is stored and read, the disk controller a
    parameter with the two laws [Drivers] states; more than one processor
    outside [Spinlock.Smp], as the port has one; the declarations of defs.h
    and types.h, which have no behaviour. *)
From stdpp Require Import base list numbers strings.
From Stdlib Require Import ZArith Lia.

Declare Scope kernel_scope.
Delimit Scope kernel_scope with kernel.
Global Open Scope Z_scope.

Create HintDb kernel.
Create Rewrite HintDb kernel.
Create HintDb bytes.
Create Rewrite HintDb bytes.

#[local] Ltac Zify.zify_post_hook ::= Z.div_mod_to_equations.

(** ** Machine integers

    [uint] is 32 bits wide, [ushort] 16 and [uchar] 8 (types.h); C's [int]
    and [short] are read in two's complement. *)
Module Word.
Definition u8 (x : Z) : Z := x mod 2 ^ 8.
Definition u16 (x : Z) : Z := x mod 2 ^ 16.
Definition u32 (x : Z) : Z := x mod 2 ^ 32.
Definition s16 (x : Z) : Z := (x + 2 ^ 15) mod 2 ^ 16 - 2 ^ 15.
Definition s32 (x : Z) : Z := (x + 2 ^ 31) mod 2 ^ 32 - 2 ^ 31.

Definition is_u8 (x : Z) : Prop := 0 <= x < 2 ^ 8.
Definition is_u16 (x : Z) : Prop := 0 <= x < 2 ^ 16.
Definition is_u32 (x : Z) : Prop := 0 <= x < 2 ^ 32.
Definition is_s16 (x : Z) : Prop := - 2 ^ 15 <= x < 2 ^ 15.
Definition is_s32 (x : Z) : Prop := - 2 ^ 31 <= x < 2 ^ 31.

Lemma u8_range x : is_u8 (u8 x).
  Proof. unfold is_u8, u8. lia. Qed.
Lemma u16_range x : is_u16 (u16 x).
  Proof. unfold is_u16, u16. lia. Qed.
Lemma u32_range x : is_u32 (u32 x).
  Proof. unfold is_u32, u32. lia. Qed.
Lemma s16_range x : is_s16 (s16 x).
  Proof. unfold is_s16, s16. lia. Qed.
Lemma s32_range x : is_s32 (s32 x).
  Proof. unfold is_s32, s32. lia. Qed.

Lemma u8_id x : is_u8 x -> u8 x = x.
  Proof. unfold is_u8, u8. intros. apply Z.mod_small. lia. Qed.
Lemma u16_id x : is_u16 x -> u16 x = x.
  Proof. unfold is_u16, u16. intros. apply Z.mod_small. lia. Qed.
Lemma u32_id x : is_u32 x -> u32 x = x.
  Proof. unfold is_u32, u32. intros. apply Z.mod_small. lia. Qed.
Lemma s16_id x : is_s16 x -> s16 x = x.
  Proof. unfold is_s16, s16. intros. rewrite Z.mod_small; lia. Qed.
Lemma s32_id x : is_s32 x -> s32 x = x.
  Proof. unfold is_s32, s32. intros. rewrite Z.mod_small; lia. Qed.

  (** A signed short stored in an unsigned 16-bit cell and read back. *)
Lemma s16_u16 x : is_s16 x -> s16 (u16 x) = x.
  Proof. unfold is_s16, s16, u16. lia. Qed.
Lemma s32_u32 x : is_s32 x -> s32 (u32 x) = x.
  Proof. unfold is_s32, s32, u32. lia. Qed.
End Word.
Export Word.

#[export] Hint Resolve u8_range u16_range u32_range s16_range s32_range : bytes.

(** ** Lists as arrays *)
Module Arr.
  Section arr.
    Context {A : Type}.
    Implicit Types (l x : list A) (i n : nat).

    (** Bytes [off, off+n) of a buffer. *)
Definition slice (off n : nat) l : list A := take n (drop off l).

    (** A copy of [x] written over a buffer from offset [off] on. *)
Definition splice (off : nat) x l : list A :=
      take off l ++ x ++ drop (off + length x) l.

Lemma length_slice off n l :
      (off + n <= length l)%nat -> length (slice off n l) = n.
    Proof. intros. unfold slice. rewrite length_take, length_drop. lia. Qed.

Lemma length_splice off x l :
      (off + length x <= length l)%nat -> length (splice off x l) = length l.
    Proof.
      intros. unfold splice.
      rewrite !length_app, length_take, length_drop. lia.
    Qed.

    (** Reading back exactly what was written. *)
Lemma slice_splice_eq off x l :
      (off + length x <= length l)%nat -> slice off (length x) (splice off x l) = x.
    Proof.
      intros. unfold slice, splice.
      rewrite drop_app_length' by (rewrite length_take; lia).
      apply take_app_length.
    Qed.

Lemma lookup_splice off x l i :
      (off + length x <= length l)%nat ->
      splice off x l !! i =
        if decide (off <= i < off + length x)%nat then x !! (i - off)%nat else l !! i.
    Proof.
      intros Hle. unfold splice. case_decide as Hi.
      - rewrite lookup_app_r by (rewrite length_take; lia).
        rewrite length_take, lookup_app_l by lia. f_equal. lia.
      - destruct (decide (i < off)%nat).
        + rewrite lookup_app_l by (rewrite length_take; lia).
          apply lookup_take_lt. lia.
        + rewrite lookup_app_r by (rewrite length_take; lia).
          rewrite length_take, lookup_app_r by lia.
          rewrite lookup_drop. f_equal. lia.
    Qed.

Lemma lookup_slice off n l i :
      slice off n l !! i = if decide (i < n)%nat then l !! (off + i)%nat else None.
    Proof.
      unfold slice. case_decide.
      - rewrite lookup_take_lt by lia. apply lookup_drop.
      - apply lookup_take_ge. lia.
    Qed.

    (** Reading bytes the write did not touch. *)
Lemma slice_splice_ne off x l o n :
      (off + length x <= length l)%nat ->
      (o + n <= off \/ off + length x <= o)%nat ->
      slice o n (splice off x l) = slice o n l.
    Proof.
      intros Hle Hdis. apply list_eq. intros i.
      rewrite !lookup_slice. case_decide; [|done].
      rewrite lookup_splice by done. case_decide; [lia|done].
    Qed.

    (** Two writes next to each other are one. *)
Lemma splice_snoc off x y l :
      (off + length x + length y <= length l)%nat ->
      splice (off + length x) y (splice off x l) = splice off (x ++ y) l.
    Proof.
      intros Hl. apply list_eq. intros i.
      rewrite !lookup_splice by (rewrite ?length_splice, ?length_app by lia; lia).
      rewrite length_app. repeat case_decide; try lia; try done.
      - rewrite lookup_app_r by lia. f_equal. lia.
      - by rewrite lookup_app_l by lia.
    Qed.

    (** Reading a part of what was written. *)
Lemma slice_splice_in off x l o n :
      (off + length x <= length l)%nat -> (o + n <= length x)%nat ->
      slice (off + o) n (splice off x l) = slice o n x.
    Proof.
      intros Hl Ho. apply list_eq. intros i. rewrite !lookup_slice. case_decide; [|done].
      rewrite lookup_splice by done. rewrite decide_True by lia. f_equal. lia.
    Qed.

Lemma splice_all x l : length x = length l -> splice 0 x l = x.
    Proof.
      intros. unfold splice. simpl. rewrite drop_ge by lia. apply app_nil_r.
    Qed.

Lemma Forall_splice (P : A -> Prop) off x l :
      Forall P x -> Forall P l -> Forall P (splice off x l).
    Proof. intros. unfold splice. auto using Forall_app_2, Forall_take, Forall_drop. Qed.

Lemma Forall_slice (P : A -> Prop) off n l : Forall P l -> Forall P (slice off n l).
    Proof. intros. unfold slice. auto using Forall_take, Forall_drop. Qed.
  End arr.
End Arr.
Export Arr.


#[export] Hint Rewrite @length_slice @length_splice using (simpl; lia) : bytes.

(** Updating one cell of an array. *)
Lemma alter_alter {A} (f g : A -> A) i (l : list A) :
  alter f i (alter g i l) = alter (fun x => f (g x)) i l.
Proof.
  apply list_eq. intros j. destruct (decide (i = j)) as [<-|].
  - rewrite !list_lookup_alter_eq. by destruct (l !! i).
  - by rewrite !list_lookup_alter_ne.
Qed.

Lemma alter_ext_at {A} (f g : A -> A) i (l : list A) x :
  l !! i = Some x -> f x = g x -> alter f i l = alter g i l.
Proof.
  intros Hx Hfg. apply list_eq. intros j. destruct (decide (i = j)) as [<-|].
  - rewrite !list_lookup_alter_eq, Hx. simpl. by rewrite Hfg.
  - by rewrite !list_lookup_alter_ne.
Qed.

(** ** Big-endian integers in byte buffers

    The mist32 is big endian: mkfs.c's [xshort] and [xint] convert to that
    order, and the kernel reads the same bytes through struct pointers. *)
Module Bytes.
Definition be16 (x : Z) : list Z := [u8 (Z.shiftr x 8); u8 x].
Definition be32 (x : Z) : list Z :=
    [u8 (Z.shiftr x 24); u8 (Z.shiftr x 16); u8 (Z.shiftr x 8); u8 x].

  (** The unsigned integer a byte string denotes. *)
Definition be_val (l : list Z) : Z := foldl (fun acc b => acc * 256 + b) 0 l.

Definition get16 (off : nat) (l : list Z) : Z := be_val (slice off 2 l).
Definition get32 (off : nat) (l : list Z) : Z := be_val (slice off 4 l).
Definition put16 (off : nat) (x : Z) (l : list Z) : list Z := splice off (be16 x) l.
Definition put32 (off : nat) (x : Z) (l : list Z) : list Z := splice off (be32 x) l.

Lemma be_val_be16 x : be_val (be16 x) = u16 x.
  Proof.
    unfold be_val, be16, u8, u16. cbn [foldl].
    rewrite Z.shiftr_div_pow2 by lia. lia.
  Qed.

Lemma be_val_be32 x : be_val (be32 x) = u32 x.
  Proof.
    unfold be_val, be32, u8, u32. cbn [foldl].
    rewrite !Z.shiftr_div_pow2 by lia. lia.
  Qed.

Lemma be32_be_val (l : list Z) :
    length l = 4%nat -> Forall is_u8 l -> be32 (be_val l) = l.
  Proof.
    intros Hl HF. do 5 (destruct l as [|? l]; try discriminate Hl).
    repeat (apply Forall_cons in HF; destruct HF as [? HF]).
    unfold be32, be_val, u8, is_u8 in *. cbn [foldl].
    rewrite !Z.shiftr_div_pow2 by lia. repeat (f_equal; [lia|]). f_equal. lia.
  Qed.

Lemma be16_u8 x : Forall is_u8 (be16 x).
  Proof. unfold be16. auto with bytes. Qed.
Lemma be32_u8 x : Forall is_u8 (be32 x).
  Proof. unfold be32. auto with bytes. Qed.

Lemma length_be16 x : length (be16 x) = 2%nat.
  Proof. done. Qed.
Lemma length_be32 x : length (be32 x) = 4%nat.
  Proof. done. Qed.

Lemma get32_put32_eq off x l :
    (off + 4 <= length l)%nat -> get32 off (put32 off x l) = u32 x.
  Proof.
    intros. unfold get32, put32. change 4%nat with (length (be32 x)).
    rewrite slice_splice_eq by (simpl; lia). apply be_val_be32.
  Qed.

Lemma get32_put32_ne off o x l :
    (off + 4 <= length l)%nat -> (o + 4 <= off \/ off + 4 <= o)%nat ->
    get32 o (put32 off x l) = get32 o l.
  Proof.
    intros. unfold get32, put32. rewrite slice_splice_ne; simpl; (lia || done).
  Qed.

Lemma length_put32 off x l :
    (off + 4 <= length l)%nat -> length (put32 off x l) = length l.
  Proof. intros. unfold put32. apply length_splice. simpl. lia. Qed.

Lemma get32_range off l : Forall is_u8 l -> is_u32 (get32 off l).
  Proof.
    intros HF. unfold get32. apply (Forall_slice _ off 4) in HF.
    assert (length (slice off 4 l) <= 4)%nat as Hlen
      by (unfold slice; rewrite length_take; lia).
    revert HF Hlen. generalize (slice off 4 l). intros s HF Hlen.
    do 5 (try destruct s as [|? s]; simpl in Hlen; try lia);
      repeat (apply Forall_cons in HF; destruct HF as [? HF]);
      unfold is_u32, is_u8, be_val in *; cbn [foldl]; lia.
  Qed.
End Bytes.
Export Bytes.

#[export] Hint Resolve be16_u8 be32_u8 get32_range Forall_splice Forall_slice : bytes.
#[export] Hint Rewrite @length_put32 using (simpl; lia) : bytes.

(** ** Bit flags *)
Module Flag.
  (** [flags & bit] as a truth value. *)
Definition has (flags bit : Z) : bool := negb (Z.land flags bit =? 0).

Lemma land_pow2 f k :
    0 <= k -> Z.land f (2 ^ k) = if Z.testbit f k then 2 ^ k else 0.
  Proof.
    intros Hk. apply Z.bits_inj'. intros i Hi. rewrite Z.land_spec, Z.pow2_bits_eqb by done.
    destruct (Z.eqb_spec k i) as [<-|Hne].
    - rewrite andb_true_r. destruct (Z.testbit f k); [by rewrite Z.pow2_bits_true|].
      by rewrite Z.bits_0.
    - rewrite andb_false_r. destruct (Z.testbit f k); [by rewrite Z.pow2_bits_false|].
      by rewrite Z.bits_0.
  Qed.

  (** A test of one bit. *)
Lemma land_eqb_0 f k : 0 <= k -> (Z.land f (2 ^ k) =? 0) = negb (Z.testbit f k).
  Proof.
    intros Hk. rewrite land_pow2 by done. destruct (Z.testbit f k); [|done].
    apply Z.eqb_neq. lia.
  Qed.
Lemma has_testbit f k : 0 <= k -> has f (2 ^ k) = Z.testbit f k.
  Proof. intros Hk. unfold has. by rewrite land_eqb_0, negb_involutive. Qed.
End Flag.

(** ** Computations

    A kernel routine runs on a state and does one of five things: it
    returns, it calls [panic], it gives the CPU to the scheduler (the
    [swtch] in [sched]) with a continuation that runs when the process is
    switched back to in a possibly different state, it never returns (a
    spin on a lock nobody will release, or an exhausted loop bound), or it
    does something the C language does not define (an access outside an
    object, a null pointer followed). *)
Inductive outcome (S A : Type) : Type :=
| Ok (a : A) (s : S)
| Panic (msg : string)
| Switch (s : S) (k : S -> outcome S A)
| Diverge
| Fault.
Arguments Ok {S A} a s.
Arguments Panic {S A} msg.
Arguments Switch {S A} s k.
Arguments Diverge {S A}.
Arguments Fault {S A}.

Definition M (S A : Type) : Type := S -> outcome S A.

Module Comp.
Fixpoint obind {S A B} (o : outcome S A) (f : A -> M S B) : outcome S B :=
    match o with
    | Ok a s => f a s
    | Panic m => Panic m
    | Switch s k => Switch s (fun s' => obind (k s') f)
    | Diverge => Diverge
    | Fault => Fault
    end.

Definition ret {S A} (a : A) : M S A := fun s => Ok a s.
Definition bind {S A B} (m : M S A) (f : A -> M S B) : M S B := fun s => obind (m s) f.
Definition get {S} : M S S := fun s => Ok s s.
Definition gets {S A} (f : S -> A) : M S A := fun s => Ok (f s) s.
Definition modify {S} (f : S -> S) : M S unit := fun s => Ok tt (f s).
Definition panic {S A} (msg : string) : M S A := fun _ => Panic msg.
Definition fault {S A} : M S A := fun _ => Fault.
Definition diverge {S A} : M S A := fun _ => Diverge.

  (** [swtch] to the scheduler; the routine goes on from the state in which
      the scheduler switches back. *)
Definition swtch {S} : M S unit := fun s => Switch s (fun s' => Ok tt s').

Definition when {S} (c : bool) (m : M S unit) : M S unit := if c then m else ret tt.

  (** The value of an array cell, undefined out of range. *)
Definition some {S A} (o : option A) : M S A :=
    match o with Some a => ret a | None => fault end.
End Comp.
Export Comp.

Declare Scope comp_scope.
Delimit Scope comp_scope with comp.
Notation "x <- m ;; k" := (bind m (fun x => k))
  (at level 20, m at level 99, k at level 200, right associativity) : comp_scope.
Notation "m ;;; k" := (bind m (fun _ => k)) (at level 100, k at level 200, right associativity) : comp_scope.
Global Open Scope comp_scope.

(** ** Total correctness

    [wp m Q s]: from [s], [m] returns without blocking, panicking, diverging
    or faulting, and the result and the final state satisfy [Q]. *)
Module Wp.
Definition post {S A} (Q : A -> S -> Prop) (o : outcome S A) : Prop :=
    match o with Ok a s => Q a s | _ => False end.

Definition wp {S A} (m : M S A) (Q : A -> S -> Prop) (s : S) : Prop := post Q (m s).

  Section rules.
    Context {S : Type}.
    Implicit Types (s : S).

Lemma wp_ret {A} (a : A) (Q : A -> S -> Prop) s : Q a s -> wp (ret a) Q s.
    Proof. done. Qed.

Lemma wp_bind {A B} (m : M S A) (f : A -> M S B) Q s :
      wp m (fun a => wp (f a) Q) s -> wp (bind m f) Q s.
    Proof. unfold wp, bind. destruct (m s); simpl; done. Qed.

Lemma wp_mono {A} (m : M S A) (Q R : A -> S -> Prop) s :
      wp m Q s -> (forall a s', Q a s' -> R a s') -> wp m R s.
    Proof. unfold wp. destruct (m s); simpl; auto. Qed.

Lemma wp_get (Q : S -> S -> Prop) s : Q s s -> wp get Q s.
    Proof. done. Qed.
Lemma wp_gets {A} (f : S -> A) (Q : A -> S -> Prop) s : Q (f s) s -> wp (gets f) Q s.
    Proof. done. Qed.
Lemma wp_modify f (Q : unit -> S -> Prop) s : Q tt (f s) -> wp (modify f) Q s.
    Proof. done. Qed.
Lemma wp_when (c : bool) m (Q : unit -> S -> Prop) s :
      (c = true -> wp m Q s) -> (c = false -> Q tt s) -> wp (when c m) Q s.
    Proof. destruct c; unfold wp; simpl; auto. Qed.
Lemma wp_some {A} (o : option A) (a : A) (Q : A -> S -> Prop) s :
      o = Some a -> Q a s -> wp (some o) Q s.
    Proof. intros -> ?. done. Qed.

    (** The outcome itself, from a total-correctness fact. *)
Lemma wp_outcome {A} (m : M S A) (Q : A -> S -> Prop) s :
      wp m Q s -> exists a s', m s = Ok a s' /\ Q a s'.
    Proof. unfold wp. destruct (m s); simpl; naive_solver. Qed.

Lemma outcome_wp {A} (m : M S A) (Q : A -> S -> Prop) s a s' :
      m s = Ok a s' -> Q a s' -> wp m Q s.
    Proof. unfold wp. by intros -> ?. Qed.

Lemma bind_ok {A B} (m : M S A) (f : A -> M S B) s a s' :
      m s = Ok a s' -> bind m f s = f a s'.
    Proof. unfold bind. by intros ->. Qed.
Lemma bind_panic {A B} (m : M S A) (f : A -> M S B) s msg : m s = Panic msg -> bind m f s = Panic msg.
    Proof. unfold bind. by intros ->. Qed.
Lemma bind_switch {A B} (m : M S A) (f : A -> M S B) s s' k :
      m s = Switch s' k -> bind m f s = Switch s' (fun s2 => obind (k s2) f).
    Proof. unfold bind. by intros ->. Qed.
  End rules.
End Wp.
Export Wp.

(** ** Components inside larger states *)
Class Lens (S T : Type) : Type := {
  lget : S -> T;
  lset : T -> S -> S;
  lget_lset : forall t s, lget (lset t s) = t;
  lset_lget : forall s, lset (lget s) s = s;
  lset_lset : forall t t' s, lset t (lset t' s) = lset t s;
}.

Module Zoom.
  Section zoom.
    Context {S T : Type} `{L : !Lens S T}.

Fixpoint ozoom {A} (s : S) (o : outcome T A) : outcome S A :=
      match o with
      | Ok a t => Ok a (lset t s)
      | Panic m => Panic m
      | Switch t k => Switch (lset t s) (fun s' => ozoom s' (k (lget s')))
      | Diverge => Diverge
      | Fault => Fault
      end.

    (** Run a component's operation on its part of the state. *)
Definition zoom {A} (m : M T A) : M S A := fun s => ozoom s (m (lget s)).

Lemma wp_zoom {A} (m : M T A) (Q : A -> S -> Prop) s :
      wp m (fun a t => Q a (lset t s)) (lget s) -> wp (zoom m) Q s.
    Proof. unfold wp, zoom. destruct (m (lget s)); simpl; done. Qed.

    (** Use a component's specification from the larger state. *)
Lemma wp_zoom_call {A} (m : M T A) (P : A -> T -> Prop) (Q : A -> S -> Prop) s :
      wp m P (lget s) -> (forall a t, P a t -> Q a (lset t s)) -> wp (zoom m) Q s.
    Proof. intros Hm HQ. apply wp_zoom. by eapply wp_mono. Qed.

Lemma zoom_ok {A} (m : M T A) s a t :
      m (lget s) = Ok a t -> zoom m s = Ok a (lset t s).
    Proof. unfold zoom. by intros ->. Qed.

Lemma zoom_switch {A} (m : M T A) s t k :
      m (lget s) = Switch t k ->
      zoom m s = Switch (lset t s) (fun s' => ozoom s' (k (lget s'))).
    Proof. unfold zoom. by intros ->. Qed.

Lemma zoom_panic {A} (m : M T A) s msg :
      m (lget s) = Panic msg -> zoom m s = Panic msg.
    Proof. unfold zoom. by intros ->. Qed.
  End zoom.
End Zoom.
Export Zoom.

#[export] Hint Rewrite @lget_lset @lset_lget @lset_lset : kernel.

(** Symbolic execution of straight-line code: one step at a time, leaving
    the calls of other routines to their lemmas. *)
Ltac wp_step :=
  lazymatch goal with
  | |- wp (bind _ _) _ _ => apply wp_bind
  | |- wp (ret _) _ _ => apply wp_ret
  | |- wp get _ _ => apply wp_get
  | |- wp (gets _) _ _ => apply wp_gets; cbv beta
  | |- wp (modify _) _ _ => apply wp_modify; cbv beta
  | |- wp (when _ _) _ _ => apply wp_when
  | |- wp (if ?b then _ else _) _ _ => destruct b eqn:?
  | |- wp (match ?x with _ => _ end) _ _ => destruct x eqn:?
  end.
Ltac wp_steps := repeat (wp_step; cbv beta).

(** Continue after a call whose specification [H] is known. *)
Tactic Notation "wp_call" uconstr(H) := eapply wp_mono; [eapply H|]; cbv beta.

(** ** Counted loops

    [for_ n f] runs [f 0], ..., [f (n-1)] in order. *)
Module Loop.
  Section loop.
    Context {S : Type}.

Fixpoint for_from (i n : nat) (f : nat -> M S unit) : M S unit :=
      match n with
      | O => ret tt
      | Datatypes.S n' => f i ;;; for_from (Datatypes.S i) n' f
      end.
Definition for_ (n : nat) (f : nat -> M S unit) : M S unit := for_from 0 n f.

    (** Invariant rule. *)
Lemma wp_for_from (I : nat -> S -> Prop) n f :
      forall i s, I i s ->
      (forall j s', (i <= j < i + n)%nat -> I j s' ->
         wp (f j) (fun _ s'' => I (Datatypes.S j) s'') s') ->
      wp (for_from i n f) (fun _ s' => I (i + n)%nat s') s.
    Proof.
      induction n as [|n IH]; intros i s Hi Hf; simpl.
      - apply wp_ret. by rewrite Nat.add_0_r.
      - apply wp_bind. eapply wp_mono; [apply Hf; [lia|done]|].
        intros [] s' Hs'. rewrite Nat.add_succ_r. apply (IH (Datatypes.S i)); [done|].
        intros j s'' Hj. apply Hf. lia.
    Qed.

Lemma wp_for (I : nat -> S -> Prop) n f s :
      I 0%nat s ->
      (forall j s', (j < n)%nat -> I j s' -> wp (f j) (fun _ s'' => I (Datatypes.S j) s'') s') ->
      wp (for_ n f) (fun _ s' => I n s') s.
    Proof. intros. apply (wp_for_from I n f 0); [done|]. intros; auto with lia. Qed.
  End loop.
End Loop.
Export Loop.
