(* ===== verification/Params.v ===== *)
(** Constants of the kernel's headers: param.h, fs.h, buf.h, file.h, stat.h
    and fcntl.h. *)
From stdpp Require Import base list numbers.
From S2P Require Import Prelude.

(** *** param.h *)
Definition NPROC : nat := 64.       (* maximum number of processes *)
Definition KSTACKSIZE : Z := 4096.  (* size of per-process kernel stack *)
Definition NCPU : nat := 8.         (* maximum number of CPUs *)
Definition NOFILE : nat := 16.      (* open files per process *)
Definition NFILE : nat := 100.      (* open files per system *)
Definition NBUF : nat := 10.        (* size of disk block cache *)
Definition NINODE : nat := 50.      (* maximum number of active i-nodes *)
Definition NDEV : Z := 10.          (* maximum major device number *)
Definition ROOTDEV : Z := 1.        (* device number of file system root disk *)
Definition MAXARG : nat := 32.      (* max exec arguments *)
Definition LOGSIZE : nat := 10.     (* max data sectors in on-disk log *)

(** *** fs.h *)
Definition ROOTINO : Z := 1.
Definition BSIZE : Z := 512.
Definition NDIRECT : Z := 12.
Definition NINDIRECT : Z := BSIZE / 4.
Definition MAXFILE : Z := NDIRECT + NINDIRECT.
(** [sizeof(struct dinode)]: four shorts, a uint and thirteen block addresses. *)
Definition DINODE_SIZE : Z := 4 * 2 + 4 + 4 * (NDIRECT + 1).
Definition IPB : Z := BSIZE / DINODE_SIZE.
Definition IBLOCK (i : Z) : Z := i / IPB + 2.
Definition BPB : Z := BSIZE * 8.
Definition BBLOCK (b ninodes : Z) : Z := b / BPB + ninodes / IPB + 3.
Definition DIRSIZ : Z := 14.
(** [sizeof(struct dirent)]: a ushort and the name. *)
Definition DIRENT_SIZE : Z := 2 + DIRSIZ.

(** *** buf.h *)
Definition B_BUSY : Z := 1.
Definition B_VALID : Z := 2.
Definition B_DIRTY : Z := 4.

(** *** file.h *)
Definition I_BUSY : Z := 1.
Definition I_VALID : Z := 2.
Definition CONSOLE : Z := 1.

(** *** stat.h *)
Definition T_DIR : Z := 1.
Definition T_FILE : Z := 2.
Definition T_DEV : Z := 3.

(** *** fcntl.h *)
Definition O_RDONLY : Z := 0.
Definition O_WRONLY : Z := 1.
Definition O_RDWR : Z := 2.
Definition O_CREATE : Z := 512.

(** How often a blocked routine may be woken and find that it has to block
    again before the model gives up on it ([Diverge]). *)
Definition wakeups : nat := 64.
