(* ===== verification/Str.v ===== *)
(** String and memory routines: string.c (module [Kstr], the kernel's) and
    ulib.c (module [Ulib], the user library's), on a byte-addressed memory.
    The theorems relate the loops, with their word-at-a-time and overlap
    cases, to one copy, one fill and the C strings they work on. *)
From stdpp Require Import base numbers list strings.
From S2P Require Import Prelude.

(** ** Memory

    Byte [a] of the memory is element [a] of the list; touching anything
    outside is undefined. *)
Abbreviation mem := (list Z).

Definition load8 (a : nat) : M mem Z := m <- get ;; some (m !! a).
Definition store8 (a : nat) (v : Z) : M mem unit :=
  m <- get ;; if decide (a < length m)%nat then modify (<[a := u8 v]>) else fault.
Definition load32 (a : nat) : M mem Z :=
  m <- get ;; if decide (a + 4 <= length m)%nat then ret (get32 a m) else fault.
Definition store32 (a : nat) (v : Z) : M mem unit :=
  m <- get ;; if decide (a + 4 <= length m)%nat then modify (put32 a v) else fault.

Module Kstr.
  (** *** memset *)
Definition memset (dst : nat) (c : Z) (n : nat) : M mem nat :=
    (if (Z.of_nat dst mod 4 =? 0) && (Z.of_nat n mod 4 =? 0) then
       let c := Z.land c 255 in
       for_ (n / 4) (fun i =>
         store32 (dst + 4 * i)
           (Z.lor (Z.lor (Z.lor (Z.shiftl c 24) (Z.shiftl c 16)) (Z.shiftl c 8)) c))
     else
       for_ n (fun i => store8 (dst + i) c)) ;;;
    ret dst.

  (** *** memcmp *)
Fixpoint memcmp (s1 s2 : nat) (n : nat) : M mem Z :=
    match n with
    | O => ret 0
    | S n =>
        a <- load8 s1 ;; b <- load8 s2 ;;
        if negb (a =? b) then ret (a - b) else memcmp (S s1) (S s2) n
    end.

  (** *** memmove: the three loops *)
Definition copy_down (d s n : nat) : M mem unit :=
    for_ n (fun i => x <- load8 (s + (n - 1 - i)) ;; store8 (d + (n - 1 - i)) x).
Definition copy_up (d s n : nat) : M mem unit :=
    for_ n (fun i => x <- load8 (s + i) ;; store8 (d + i) x).
Definition copy_words (d s n : nat) : M mem unit :=
    for_ (n / 4) (fun i => x <- load32 (s + 4 * i) ;; store32 (d + 4 * i) x).

Definition memmove (dst src n : nat) : M mem nat :=
    (if decide (src < dst /\ dst < src + n)%nat then copy_down dst src n
     else if (Flag.has (Z.of_nat src) 3) || (Flag.has (Z.of_nat dst) 3) || (Flag.has (Z.of_nat n) 3)
     then copy_up dst src n
     else copy_words dst src n) ;;;
    ret dst.

  (** *** memcpy *)
Definition memcpy (dst src n : nat) : M mem nat := memmove dst src n.

  (** *** strncmp *)
Fixpoint strncmp (p q : nat) (n : nat) : M mem Z :=
    match n with
    | O => ret 0
    | S n' =>
        a <- load8 p ;;
        if a =? 0 then b <- load8 q ;; ret (a - b)
        else b <- load8 q ;; if a =? b then strncmp (S p) (S q) n' else ret (a - b)
    end.

  (** *** strncpy *)
Definition pad (s n : nat) : M mem unit := for_ n (fun i => store8 (s + i) 0).

Fixpoint strncpy_loop (s t n : nat) : M mem unit :=
    match n with
    | O => ret tt
    | S n =>
        c <- load8 t ;;
        store8 s c ;;;
        if c =? 0 then pad (S s) n else strncpy_loop (S s) (S t) n
    end.
Definition strncpy (s t : nat) (n : Z) : M mem nat :=
    strncpy_loop s t (Z.to_nat n) ;;; ret s.

  (** *** safestrcpy *)
Fixpoint safestrcpy_loop (s t n : nat) : M mem unit :=
    match n with
    | O => store8 s 0
    | S n =>
        c <- load8 t ;;
        store8 s c ;;;
        if c =? 0 then store8 (S s) 0 else safestrcpy_loop (S s) (S t) n
    end.
Definition safestrcpy (s t : nat) (n : Z) : M mem nat :=
    if n <=? 0 then ret s else
    safestrcpy_loop s t (Z.to_nat (n - 1)) ;;; ret s.

  (** *** strlen; the memory's length bounds the search. *)
Fixpoint strlen_loop (fuel : nat) (s n : nat) : M mem Z :=
    match fuel with
    | O => diverge
    | S fuel => c <- load8 (s + n) ;; if c =? 0 then ret (Z.of_nat n) else strlen_loop fuel s (S n)
    end.
Definition strlen (s : nat) : M mem Z := m <- get ;; strlen_loop (S (length m)) s 0.
End Kstr.

Module Ulib.
  (** *** strcpy *)
Fixpoint strcpy_loop (fuel : nat) (s t : nat) : M mem unit :=
    match fuel with
    | O => diverge
    | S fuel =>
        c <- load8 t ;;
        store8 s c ;;;
        if c =? 0 then ret tt else strcpy_loop fuel (S s) (S t)
    end.
Definition strcpy (s t : nat) : M mem nat :=
    m <- get ;; strcpy_loop (S (length m)) s t ;;; ret s.

  (** *** strcmp *)
Fixpoint strcmp_loop (fuel : nat) (p q : nat) : M mem Z :=
    match fuel with
    | O => diverge
    | S fuel =>
        a <- load8 p ;;
        if a =? 0 then b <- load8 q ;; ret (a - b)
        else b <- load8 q ;; if a =? b then strcmp_loop fuel (S p) (S q) else ret (a - b)
    end.
Definition strcmp (p q : nat) : M mem Z := m <- get ;; strcmp_loop (S (length m)) p q.

  (** *** strlen: as the kernel's, the result as a uint. *)
Definition strlen (s : nat) : M mem Z := n <- Kstr.strlen s ;; ret (u32 n).

  (** *** memset *)
Definition memset (dst : nat) (c : Z) (n : nat) : M mem nat :=
    for_ n (fun i => store8 (dst + i) c) ;;; ret dst.

  (** *** strchr; [None] is the null pointer. *)
Fixpoint strchr_loop (fuel : nat) (s : nat) (c : Z) : M mem (option nat) :=
    match fuel with
    | O => diverge
    | S fuel =>
        x <- load8 s ;;
        if x =? 0 then ret None
        else if x =? u8 c then ret (Some s) else strchr_loop fuel (S s) c
    end.
Definition strchr (s : nat) (c : Z) : M mem (option nat) :=
    m <- get ;; strchr_loop (S (length m)) s c.

  (** *** atoi; ['0'] is 48 and ['9'] is 57. *)
Fixpoint atoi_loop (fuel : nat) (s : nat) (n : Z) : M mem Z :=
    match fuel with
    | O => diverge
    | S fuel =>
        c <- load8 s ;;
        if (48 <=? c) && (c <=? 57) then atoi_loop fuel (S s) (s32 (n * 10 + c - 48)) else ret n
    end.
Definition atoi (s : nat) : M mem Z := m <- get ;; atoi_loop (S (length m)) s 0.

  (** *** memmove: always upwards *)
Definition memmove (vdst vsrc : nat) (n : Z) : M mem nat :=
    Kstr.copy_up vdst vsrc (Z.to_nat n) ;;; ret vdst.
End Ulib.

(** ** Loads and stores *)
Definition bytes (m : mem) : Prop := Forall is_u8 m.

Lemma load8_run m a x : m !! a = Some x -> load8 a m = Ok x m.
Proof. intros H. unfold load8. erewrite bind_ok by reflexivity. by rewrite H. Qed.

Lemma store8_run m a v : (a < length m)%nat -> store8 a v m = Ok tt (<[a := u8 v]> m).
Proof. intros H. unfold store8. erewrite bind_ok by reflexivity. by rewrite decide_True. Qed.

Lemma load32_run m a : (a + 4 <= length m)%nat -> load32 a m = Ok (get32 a m) m.
Proof. intros H. unfold load32. erewrite bind_ok by reflexivity. by rewrite decide_True. Qed.

Lemma store32_run m a v : (a + 4 <= length m)%nat -> store32 a v m = Ok tt (put32 a v m).
Proof. intros H. unfold store32. erewrite bind_ok by reflexivity. by rewrite decide_True. Qed.

Lemma bytes_lookup m a : bytes m -> (a < length m)%nat -> exists x, m !! a = Some x /\ is_u8 x.
Proof.
  intros HF Ha. destruct (lookup_lt_is_Some_2 m a Ha) as [x Hx]. exists x. split; [done|].
  by eapply Forall_lookup_1.
Qed.

(** One byte more of a copy, at its front. *)
Lemma splice_cons (off : nat) (x : Z) (y : list Z) m :
  (off + S (length y) <= length m)%nat ->
  splice off [x] (splice (S off) y m) = splice off (x :: y) m.
Proof.
  intros Hl. apply list_eq. intros i.
  rewrite !lookup_splice by (rewrite ?length_splice by lia; simpl; lia). simpl.
  repeat case_decide; try lia; try done.
  - by replace (i - off)%nat with 0%nat by lia.
  - by replace (i - off)%nat with (S (i - S off)) by lia.
Qed.

Lemma insert_splice (m : mem) a v : (a < length m)%nat -> <[a := v]> m = splice a [v] m.
Proof.
  intros Ha. apply list_eq. intros i. rewrite lookup_splice by (simpl; lia). simpl.
  destruct (decide (i = a)) as [->|Hne].
  - rewrite list_lookup_insert_eq by done. rewrite decide_True by lia. by rewrite Nat.sub_diag.
  - rewrite list_lookup_insert_ne by done. by rewrite decide_False by lia.
Qed.

Lemma splice_nil (a : nat) (m : mem) : splice a [] m = m.
Proof. unfold splice. simpl. rewrite Nat.add_0_r. apply take_drop. Qed.

Lemma slice_snoc (off n : nat) (m : mem) x :
  m !! (off + n)%nat = Some x -> slice off (S n) m = slice off n m ++ [x].
Proof. intros Hx. unfold slice. apply take_S_r. by rewrite lookup_drop. Qed.

(** The filled and the copied memory. *)
Lemma fill_bytes m dst c n :
  (dst + n <= length m)%nat ->
  for_ n (fun i => store8 (dst + i) c) m = Ok tt (splice dst (replicate n (u8 c)) m).
Proof.
  intros Hl.
  destruct (wp_outcome (for_ n (fun i => store8 (dst + i) c))
    (fun _ m' => m' = splice dst (replicate n (u8 c)) m) m) as ([] & ? & Hm & ->); [|done].
  apply (wp_for (fun i m' => m' = splice dst (replicate i (u8 c)) m)); [by rewrite splice_nil|].
  intros i m' Hi ->. eapply outcome_wp.
  { apply store8_run. rewrite length_splice; rewrite ?length_replicate; lia. }
  rewrite insert_splice by (rewrite length_splice; rewrite ?length_replicate; lia).
  rewrite <- (length_replicate i (u8 c)) at 1.
  rewrite splice_snoc by (rewrite !length_replicate; simpl; lia).
  by rewrite replicate_S_end.
Qed.

Lemma fill_words m dst b n :
  (dst + 4 * n <= length m)%nat -> is_u8 b ->
  for_ n (fun i => store32 (dst + 4 * i)
    (Z.lor (Z.lor (Z.lor (Z.shiftl b 24) (Z.shiftl b 16)) (Z.shiftl b 8)) b)) m =
  Ok tt (splice dst (replicate (4 * n) b) m).
Proof.
  intros Hl Hb. set (w := Z.lor _ b).
  assert (Hw : be32 w = [b; b; b; b]).
  { unfold is_u8 in Hb.
    assert (Hall : forallb (fun k => bool_decide (be32 (let b := Z.of_nat k in
        Z.lor (Z.lor (Z.lor (Z.shiftl b 24) (Z.shiftl b 16)) (Z.shiftl b 8)) b) =
        [Z.of_nat k; Z.of_nat k; Z.of_nat k; Z.of_nat k])) (seq 0 256) = true)
      by (vm_compute; reflexivity).
    rewrite forallb_forall in Hall. specialize (Hall (Z.to_nat b)).
    rewrite Z2Nat.id in Hall by lia. apply bool_decide_eq_true in Hall; [done|].
    apply in_seq. lia. }
  destruct (wp_outcome (for_ n (fun i => store32 (dst + 4 * i) w))
    (fun _ m' => m' = splice dst (replicate (4 * n) b) m) m) as ([] & ? & Hm & ->); [|done].
  apply (wp_for (fun i m' => m' = splice dst (replicate (4 * i) b) m)); [by rewrite splice_nil|].
  intros i m' Hi ->. eapply outcome_wp.
  { apply store32_run. rewrite length_splice; rewrite ?length_replicate; lia. }
  unfold put32. rewrite Hw. rewrite <- (length_replicate (4 * i) b) at 1.
  rewrite splice_snoc by (rewrite !length_replicate; simpl; lia).
  f_equal. replace (4 * S i)%nat with (4 * i + 4)%nat by lia. by rewrite replicate_add.
Qed.

(** The source is not overwritten before it is read. *)
Definition safe_up (d s n : nat) : Prop := (d <= s \/ s + n <= d)%nat.

Lemma copy_up_run m d s n :
  bytes m -> (d + n <= length m)%nat -> (s + n <= length m)%nat -> safe_up d s n ->
  Kstr.copy_up d s n m = Ok tt (splice d (slice s n m) m).
Proof.
  intros Hm Hd Hs Hsafe. unfold safe_up in Hsafe.
  destruct (wp_outcome (Kstr.copy_up d s n)
    (fun _ m' => m' = splice d (slice s n m) m) m) as ([] & ? & He & ->); [|done].
  apply (wp_for (fun i m' => m' = splice d (slice s i m) m)); [by rewrite splice_nil|].
  intros i m' Hi ->. destruct (bytes_lookup m (s + i)) as (x & Hx & Hu); [done|lia|].
  assert (Hsl : length (slice s i m) = i) by (apply length_slice; lia).
  assert (Hx' : splice d (slice s i m) m !! (s + i)%nat = Some x).
  { rewrite lookup_splice by (rewrite Hsl; lia). rewrite decide_False by (rewrite Hsl; lia). done. }
  apply wp_bind. eapply outcome_wp; [by apply load8_run|].
  eapply outcome_wp; [apply store8_run; rewrite length_splice; lia|].
  rewrite u8_id by done. rewrite insert_splice by (rewrite length_splice; lia).
  rewrite (slice_snoc s i m x) by done. rewrite <- Hsl at 1. apply splice_snoc. simpl. lia.
Qed.

Lemma copy_down_run m d s n :
  bytes m -> (d + n <= length m)%nat -> (s < d)%nat ->
  Kstr.copy_down d s n m = Ok tt (splice d (slice s n m) m).
Proof.
  intros Hm Hd Hsafe.
  destruct (wp_outcome (Kstr.copy_down d s n)
    (fun _ m' => m' = splice (d + n - n) (slice (s + n - n) n m) m) m) as ([] & ? & He & ->).
  2:{ by rewrite !Nat.add_sub in He. }
  apply (wp_for (fun i m' => m' = splice (d + n - i) (slice (s + n - i) i m) m)).
  { by rewrite splice_nil. }
  intros i m' Hi ->. destruct (bytes_lookup m (s + (n - 1 - i))) as (x & Hx & Hu); [done|lia|].
  assert (Hsl : length (slice (s + n - i) i m) = i) by (apply length_slice; lia).
  assert (Hx' : splice (d + n - i) (slice (s + n - i) i m) m !! (s + (n - 1 - i))%nat = Some x).
  { rewrite lookup_splice by (rewrite Hsl; lia). rewrite decide_False by (rewrite Hsl; lia). done. }
  apply wp_bind. eapply outcome_wp; [by apply load8_run|].
  eapply outcome_wp; [apply store8_run; rewrite length_splice; lia|].
  rewrite u8_id by done. rewrite insert_splice by (rewrite length_splice; lia).
  replace (d + n - i)%nat with (S (d + (n - 1 - i))) by lia.
  rewrite splice_cons by (rewrite Hsl; lia).
  replace (d + n - S i)%nat with (d + (n - 1 - i))%nat by lia. f_equal.
  replace (s + n - S i)%nat with (s + (n - 1 - i))%nat by lia.
  unfold slice. rewrite (drop_S m _ (s + (n - 1 - i))) by done. cbn [take].
  by replace (S (s + (n - 1 - i))) with (s + n - i)%nat by lia.
Qed.

Lemma copy_words_run m d s n :
  bytes m -> (d + 4 * n <= length m)%nat -> (s + 4 * n <= length m)%nat -> safe_up d s (4 * n) ->
  for_ n (fun i => x <- load32 (s + 4 * i) ;; store32 (d + 4 * i) x) m =
    Ok tt (splice d (slice s (4 * n) m) m).
Proof.
  intros Hm Hd Hs Hsafe. unfold safe_up in Hsafe.
  destruct (wp_outcome (for_ n (fun i => x <- load32 (s + 4 * i) ;; store32 (d + 4 * i) x))
    (fun _ m' => m' = splice d (slice s (4 * n) m) m) m) as ([] & ? & He & ->); [|done].
  apply (wp_for (fun i m' => m' = splice d (slice s (4 * i) m) m)); [by rewrite splice_nil|].
  intros i m' Hi ->. assert (Hsl : length (slice s (4 * i) m) = (4 * i)%nat) by (apply length_slice; lia).
  apply wp_bind. eapply outcome_wp; [apply load32_run; rewrite length_splice; lia|].
  eapply outcome_wp; [apply store32_run; rewrite length_splice; lia|].
  assert (Hx : get32 (s + 4 * i) (splice d (slice s (4 * i) m) m) = get32 (s + 4 * i) m).
  { unfold get32. rewrite slice_splice_ne; [done|lia|]. rewrite Hsl. lia. }
  rewrite Hx. unfold put32, get32. rewrite be32_be_val.
  2:{ apply length_slice. lia. }
  2:{ by apply Forall_slice. }
  rewrite <- Hsl at 1. rewrite splice_snoc by (rewrite Hsl, length_slice by lia; lia).
  f_equal. unfold slice. replace (4 * S i)%nat with (4 * i + 4)%nat by lia.
  rewrite <- take_take_drop, drop_drop. done.
Qed.

Lemma has3 (n : nat) : Flag.has (Z.of_nat n) 3 = false -> (n = 4 * (n / 4))%nat.
Proof.
  unfold Flag.has. intros Hz%negb_false_iff%Z.eqb_eq.
  change 3 with (Z.ones 2) in Hz. rewrite Z.land_ones in Hz by lia. change (2 ^ 2) with 4 in Hz.
  pose proof (Nat.div_mod_eq n 4). pose proof (Nat2Z.inj_mod n 4). lia.
Qed.

(** The kernel's memmove copies: whichever of its three loops it takes
    (downwards on an overlap, word by word when everything is aligned, byte
    by byte otherwise), the destination holds what the source held before the
    call, however the two overlap, and every other byte is as before. *)
Theorem memmove_copies (m : mem) (dst src n : nat) :
  bytes m -> (dst + n <= length m)%nat -> (src + n <= length m)%nat ->
  Kstr.memmove dst src n m = Ok dst (splice dst (slice src n m) m).
Proof.
  intros Hm Hd Hs. unfold Kstr.memmove. case_decide as Ho.
  { erewrite bind_ok by (apply copy_down_run; [done|lia..]). done. }
  destruct (Flag.has (Z.of_nat src) 3) eqn:E1; cbn [orb].
  { erewrite bind_ok by (apply copy_up_run; [done..|unfold safe_up; lia]). done. }
  destruct (Flag.has (Z.of_nat dst) 3) eqn:E2; cbn [orb].
  { erewrite bind_ok by (apply copy_up_run; [done..|unfold safe_up; lia]). done. }
  destruct (Flag.has (Z.of_nat n) 3) eqn:E3; cbn [orb].
  { erewrite bind_ok by (apply copy_up_run; [done..|unfold safe_up; lia]). done. }
  apply has3 in E3. unfold Kstr.copy_words.
  erewrite bind_ok by (apply copy_words_run; [done|lia|lia|unfold safe_up; lia]).
  by rewrite <- E3.
Qed.

Definition mem0 : mem := [0; 1; 2; 3; 4; 5; 6; 7; 8; 9; 10; 11].

Lemma memmove_copies_witness :
  Kstr.memmove 4 0 8 mem0 = Ok 4%nat (splice 4 (slice 0 8 mem0) mem0) /\
  Kstr.memmove 4 0 8 mem0 = Ok 4%nat [0; 1; 2; 3; 0; 1; 2; 3; 4; 5; 6; 7].
Proof.
  split; [|reflexivity]. apply (memmove_copies mem0 4 0 8); [|simpl; lia..].
  repeat constructor; lia.
Defined.

(** The user library's memmove copies when the source is not below the
    destination or the two do not overlap; it has no downward loop, so when
    the destination starts inside the source it repeats the source's first
    bytes instead. *)
Theorem user_memmove (m : mem) (dst src : nat) (n : Z) :
  bytes m -> (dst + Z.to_nat n <= length m)%nat -> (src + Z.to_nat n <= length m)%nat ->
  (safe_up dst src (Z.to_nat n) ->
   Ulib.memmove dst src n m = Ok dst (splice dst (slice src (Z.to_nat n) m) m)) /\
  Ulib.memmove 1 0 3 [1; 2; 3; 4] = Ok 1%nat [1; 1; 1; 1].
Proof.
  intros Hm Hd Hs. split; [|reflexivity]. intros Hsafe. unfold Ulib.memmove.
  by erewrite bind_ok by (by apply copy_up_run).
Qed.

Lemma user_memmove_witness :
  safe_up 0 4 8 /\
  (safe_up 0 4 8 -> Ulib.memmove 0 4 8 mem0 = Ok 0%nat (splice 0 (slice 4 8 mem0) mem0)) /\
  Ulib.memmove 1 0 3 [1; 2; 3; 4] = Ok 1%nat [1; 1; 1; 1].
Proof.
  split; [left; lia|]. apply (user_memmove mem0 0 4 8); [|simpl; lia..].
  repeat constructor; lia.
Defined.

(** The kernel's memset writes the low byte of [c] to [n] bytes and
    touches no other: the word loop, with its replicated byte, and the byte
    loop agree, and both agree with the user library's. *)
Theorem memset_fills (m : mem) (dst n : nat) (c : Z) :
  (dst + n <= length m)%nat ->
  Kstr.memset dst c n m = Ok dst (splice dst (replicate n (u8 c)) m) /\
  Ulib.memset dst c n m = Kstr.memset dst c n m.
Proof.
  intros Hl.
  assert (Hk : Kstr.memset dst c n m = Ok dst (splice dst (replicate n (u8 c)) m)).
  { unfold Kstr.memset. destruct (Z.of_nat dst mod 4 =? 0); cbn [andb].
    2:{ by erewrite bind_ok by (by apply fill_bytes). }
    destruct (Z.of_nat n mod 4 =? 0) eqn:E.
    2:{ by erewrite bind_ok by (by apply fill_bytes). }
    assert (Hn : (n = 4 * (n / 4))%nat).
    { pose proof (Nat.div_mod_eq n 4). pose proof (Nat2Z.inj_mod n 4). lia. }
    assert (Hc : Z.land c 255 = u8 c) by (exact (Z.land_ones c 8 ltac:(lia))).
    cbv zeta. rewrite Hc. erewrite bind_ok by (apply fill_words; [lia|apply u8_range]).
    by rewrite <- Hn. }
  split; [done|]. rewrite Hk. unfold Ulib.memset. by erewrite bind_ok by (by apply fill_bytes).
Qed.

Lemma memset_fills_witness :
  Kstr.memset 4 511 8 mem0 = Ok 4%nat (splice 4 (replicate 8 (u8 511)) mem0) /\
  Ulib.memset 4 511 8 mem0 = Kstr.memset 4 511 8 mem0.
Proof. apply (memset_fills mem0 4 8 511). simpl. lia. Defined.

(** ** Strings in memory *)

(** The bytes of [s] from address [p] on. *)
Definition at_ (m : mem) (p : nat) (s : list Z) : Prop :=
  forall i x, s !! i = Some x -> m !! (p + i)%nat = Some x.

(** A character: a byte that does not end a string. *)
Definition is_char (c : Z) : Prop := 0 < c < 2 ^ 8.

(** A field of [n] bytes at [p] holding [s], cut short by a NUL when [s] does
    not fill it (the form of a directory entry's name). *)
Definition field (m : mem) (p n : nat) (s : list Z) : Prop :=
  at_ m p s /\ Forall is_char s /\ (length s <= n)%nat /\
  ((length s < n)%nat -> m !! (p + length s)%nat = Some 0).

(** A C string. *)
Definition cstr (m : mem) (p : nat) (s : list Z) : Prop :=
  at_ m p s /\ Forall is_char s /\ m !! (p + length s)%nat = Some 0.

Lemma at_cons m p x s : at_ m p (x :: s) <-> m !! p = Some x /\ at_ m (S p) s.
Proof.
  unfold at_. split.
  - intros H. split; [specialize (H 0%nat x eq_refl); by rewrite Nat.add_0_r in H|].
    intros i y Hy. specialize (H (S i) y Hy). by rewrite Nat.add_succ_r in H.
  - intros [Hx H] [|i] y Hy; [rewrite Nat.add_0_r; naive_solver|].
    rewrite Nat.add_succ_r. by apply H.
Qed.

Lemma at_bound m p s : at_ m p s -> s <> [] -> (p + length s <= length m)%nat.
Proof.
  intros H Hs. destruct s as [|x s _] using rev_ind; [done|].
  specialize (H (length s) x). rewrite lookup_app_r, Nat.sub_diag in H by lia.
  specialize (H eq_refl). apply lookup_lt_Some in H. rewrite length_app. simpl. lia.
Qed.

Lemma cstr_nil m p : cstr m p [] <-> m !! p = Some 0.
Proof.
  unfold cstr. rewrite Nat.add_0_r. split; [tauto|]. intros. split_and!; [|constructor|done].
  intros i x. by rewrite lookup_nil.
Qed.

Lemma cstr_cons m p x s :
  cstr m p (x :: s) <-> m !! p = Some x /\ is_char x /\ cstr m (S p) s.
Proof.
  unfold cstr. rewrite at_cons, Forall_cons. simpl. rewrite Nat.add_succ_r. tauto.
Qed.

Lemma cstr_bound m p s : cstr m p s -> (p + length s < length m)%nat.
Proof. intros (_ & _ & H). by apply lookup_lt_Some in H. Qed.

Lemma char_nz x : is_char x -> (x =? 0) = false.
Proof. unfold is_char. lia. Qed.

(** [strlen] returns the number of characters before the NUL. *)
Theorem strlen_spec (m : mem) (p : nat) (s : list Z) :
  cstr m p s -> Kstr.strlen p m = Ok (Z.of_nat (length s)) m.
Proof.
  intros Hs. unfold Kstr.strlen. erewrite bind_ok by reflexivity.
  assert (Hgo : forall s k fuel, cstr m (p + k) s -> (length s < fuel)%nat ->
    Kstr.strlen_loop fuel p k m = Ok (Z.of_nat (k + length s)) m).
  { induction s0 as [|x s0 IH]; intros k [|fuel] H Hf; simpl in *; try lia.
    - apply cstr_nil in H. erewrite bind_ok by (by apply load8_run). by rewrite Nat.add_0_r.
    - apply cstr_cons in H as (Hx & Hc & H). erewrite bind_ok by (by apply load8_run).
      rewrite char_nz by done. replace (k + S (length s0))%nat with (S k + length s0)%nat by lia.
      apply IH; [|lia].
      by rewrite Nat.add_succ_r. }
  pose proof (cstr_bound _ _ _ Hs). rewrite (Hgo s 0%nat); [done|by rewrite Nat.add_0_r|lia].
Qed.

Definition mem_abc : mem := [97; 98; 0; 97; 98; 99; 0; 49; 50; 51; 0; 9; 9; 9; 9; 9; 9; 9].

Ltac cstr_tac := repeat (apply cstr_cons; split; [reflexivity|split; [unfold is_char; lia|]]);
  apply cstr_nil; reflexivity.

Lemma strlen_spec_witness : cstr mem_abc 3 [97; 98; 99] /\ Kstr.strlen 3 mem_abc = Ok 3 mem_abc.
Proof.
  assert (H : cstr mem_abc 3 [97; 98; 99]) by cstr_tac.
  split; [exact H|]. exact (strlen_spec mem_abc 3 [97; 98; 99] H).
Defined.

(** *** Comparison *)

(** The difference at the first place where two strings, each followed by a
    NUL, differ. *)
Fixpoint diff (s t : list Z) : Z :=
  match s, t with
  | [], [] => 0
  | [], y :: _ => 0 - y
  | x :: _, [] => x - 0
  | x :: s, y :: t => if x =? y then diff s t else x - y
  end.

Lemma diff_0 s t : Forall is_char s -> Forall is_char t -> diff s t = 0 <-> s = t.
Proof.
  revert t. induction s as [|x s IH]; intros [|y t] Hs Ht; simpl; try done.
  - apply Forall_cons in Ht as [Hy _]. unfold is_char in Hy. split; [lia|done].
  - apply Forall_cons in Hs as [Hx _]. unfold is_char in Hx. split; [lia|done].
  - apply Forall_cons in Hs as [Hx Hs], Ht as [Hy Ht]. destruct (x =? y) eqn:E.
    + rewrite IH by done. split; [intros ->; f_equal; lia|by intros [= _ ->]].
    + split; [lia|]. intros [= -> _]. lia.
Qed.

Lemma diff_antisym s t : diff t s = - diff s t.
Proof.
  revert t. induction s as [|x s IH]; intros [|y t]; simpl; try lia.
  rewrite Z.eqb_sym. destruct (x =? y); [apply IH|lia].
Qed.

(** [strcmp] compares two C strings: it returns the difference of the
    first characters that differ, so 0 exactly for equal strings, and the
    opposite sign with the arguments swapped. *)
Theorem strcmp_spec (m : mem) (p q : nat) (s t : list Z) :
  cstr m p s -> cstr m q t ->
  Ulib.strcmp p q m = Ok (diff s t) m /\ Ulib.strcmp q p m = Ok (- diff s t) m /\
  (diff s t = 0 <-> s = t).
Proof.
  assert (Hgo : forall s t p q fuel, cstr m p s -> cstr m q t -> (length s < fuel)%nat ->
    Ulib.strcmp_loop fuel p q m = Ok (diff s t) m).
  { clear. induction s as [|x s IH]; intros t p q [|fuel] Hs Ht Hf; simpl in *; try lia.
    - apply cstr_nil in Hs. erewrite bind_ok by (by apply load8_run). rewrite Z.eqb_refl.
      destruct t as [|y t]; [apply cstr_nil in Ht|apply cstr_cons in Ht as (Ht & _)];
        by erewrite bind_ok by (by apply load8_run).
    - apply cstr_cons in Hs as (Hx & Hc & Hs). erewrite bind_ok by (by apply load8_run).
      rewrite char_nz by done. destruct t as [|y t].
      + apply cstr_nil in Ht. erewrite bind_ok by (by apply load8_run). by rewrite char_nz.
      + apply cstr_cons in Ht as (Hy & Hcy & Ht). erewrite bind_ok by (by apply load8_run).
        destruct (x =? y); [|done]. apply IH; [done|done|lia]. }
  intros Hs Ht. pose proof (cstr_bound _ _ _ Hs). pose proof (cstr_bound _ _ _ Ht).
  unfold Ulib.strcmp. split_and!.
  - erewrite bind_ok by reflexivity. apply Hgo; [done|done|lia].
  - erewrite bind_ok by reflexivity. rewrite <- diff_antisym. apply Hgo; [done|done|lia].
  - apply diff_0; [apply Hs|apply Ht].
Qed.

Lemma strcmp_spec_witness :
  Ulib.strcmp 0 3 mem_abc = Ok (diff [97; 98] [97; 98; 99]) mem_abc /\
  Ulib.strcmp 3 0 mem_abc = Ok (- diff [97; 98] [97; 98; 99]) mem_abc /\
  (diff [97; 98] [97; 98; 99] = 0 <-> [97; 98] = [97; 98; 99]).
Proof. apply (strcmp_spec mem_abc 0 3 [97; 98] [97; 98; 99]); cstr_tac. Defined.

Lemma field_cons m p n x s :
  field m p (S n) (x :: s) <-> m !! p = Some x /\ is_char x /\ field m (S p) n s.
Proof.
  unfold field. rewrite at_cons, Forall_cons. simpl. rewrite Nat.add_succ_r, <- !Nat.succ_lt_mono.
  rewrite <- Nat.succ_le_mono. tauto.
Qed.

Lemma field_nil m p n : field m p (S n) [] <-> m !! p = Some 0.
Proof.
  unfold field. simpl. rewrite Nat.add_0_r. split.
  - intros (_ & _ & _ & H). apply H. lia.
  - intros H. split_and!; [|constructor|lia|done]. intros i x. by rewrite lookup_nil.
Qed.

(** [strncmp] on two name fields. *)
Lemma strncmp_run m n : forall p q s t,
  field m p n s -> field m q n t -> Kstr.strncmp p q n m = Ok (diff s t) m.
Proof.
  induction n as [|n IH]; intros p q s t Hs Ht; cbn [Kstr.strncmp].
  - destruct Hs as (_ & _ & Hs & _), Ht as (_ & _ & Ht & _).
    destruct s, t; simpl in *; try lia. done.
  - destruct s as [|x s].
    + apply field_nil in Hs. erewrite bind_ok by (by apply load8_run). rewrite Z.eqb_refl.
      destruct t as [|y t]; [apply field_nil in Ht|apply field_cons in Ht as (Ht & _)];
        by erewrite bind_ok by (by apply load8_run).
    + apply field_cons in Hs as (Hx & Hc & Hs). erewrite bind_ok by (by apply load8_run).
      rewrite char_nz by done. destruct t as [|y t].
      * apply field_nil in Ht. erewrite bind_ok by (by apply load8_run). simpl. by rewrite char_nz.
      * apply field_cons in Ht as (Hy & Hcy & Ht). erewrite bind_ok by (by apply load8_run). simpl.
        destruct (x =? y); [by apply IH|done].
Qed.

(** *** Copying strings *)

Lemma field_store m p n s a v :
  field m p n s -> (a < p \/ p + n <= a)%nat -> field (<[a := v]> m) p n s.
Proof.
  intros (Ha & Hc & Hl & H0) Hd. split_and!; [|done|done|].
  - intros i x Hi. rewrite list_lookup_insert_ne; [by apply Ha|].
    apply lookup_lt_Some in Hi. lia.
  - intros Hlt. rewrite list_lookup_insert_ne by lia. auto.
Qed.

(** A C string, cut to [n] bytes, as a field. *)
Lemma cstr_field m p n s : cstr m p s -> field m p n (take n s).
Proof.
  intros (Ha & Hc & H0). split_and!.
  - intros i x Hi. apply lookup_take_Some in Hi as [Hi _]. by apply Ha.
  - by apply Forall_take.
  - rewrite length_take. lia.
  - rewrite length_take. intros Hlt. by replace (n `min` length s)%nat with (length s) by lia.
Qed.

Definition padded (n : nat) (s : list Z) : list Z := s ++ replicate (n - length s) 0.

Lemma length_padded n s : (length s <= n)%nat -> length (padded n s) = n.
Proof. intros. unfold padded. rewrite length_app, length_replicate. lia. Qed.

Lemma store_splice (m : mem) d x l :
  (d + S (length l) <= length m)%nat -> splice (S d) l (<[d := x]> m) = splice d (x :: l) m.
Proof.
  intros Hl. rewrite insert_splice by lia. change (x :: l) with ([x] ++ l).
  rewrite <- splice_snoc by (simpl; lia). by rewrite Nat.add_1_r.
Qed.

Lemma strncpy_run n : forall m d t s,
  field m t n s -> (d + n <= t \/ t + n <= d)%nat -> (d + n <= length m)%nat ->
  Kstr.strncpy_loop d t n m = Ok tt (splice d (padded n s) m).
Proof.
  induction n as [|n IH]; intros m d t s Hs Hd Hl; cbn [Kstr.strncpy_loop].
  - destruct Hs as (_ & _ & Hs & _). destruct s; [|simpl in Hs; lia]. by rewrite splice_nil.
  - destruct s as [|x s].
    + apply field_nil in Hs. erewrite bind_ok by (by apply load8_run).
      erewrite bind_ok by (apply store8_run; lia). rewrite Z.eqb_refl. unfold Kstr.pad.
      rewrite fill_bytes by (rewrite length_insert; lia). f_equal.
      change (u8 0) with 0. rewrite store_splice by (rewrite length_replicate; lia). done.
    + apply field_cons in Hs as (Hx & Hc & Hs). erewrite bind_ok by (by apply load8_run).
      erewrite bind_ok by (apply store8_run; lia). rewrite char_nz by done.
      rewrite u8_id by (unfold is_char, is_u8 in *; lia).
      rewrite (IH _ (S d) (S t) s); [|apply field_store; [done|lia]|lia|rewrite length_insert; lia].
      f_equal. destruct Hs as (_ & _ & Hln & _).
      rewrite store_splice by (rewrite length_padded by done; lia). done.
Qed.

(** Reading a padded field back. *)
Lemma field_padded m d n s :
  Forall is_char s -> (length s <= n)%nat -> (d + n <= length m)%nat ->
  field (splice d (padded n s) m) d n s.
Proof.
  intros Hc Hs Hl. assert (Hp : length (padded n s) = n) by (by apply length_padded).
  split_and!; [|done|done|].
  - intros i x Hi. pose proof (lookup_lt_Some _ _ _ Hi). rewrite lookup_splice by lia.
    rewrite decide_True by lia. replace (d + i - d)%nat with i by lia.
    unfold padded. by rewrite lookup_app_l.
  - intros Hlt. rewrite lookup_splice by lia. rewrite decide_True by lia.
    replace (d + length s - d)%nat with (length s) by lia. unfold padded.
    rewrite lookup_app_r, Nat.sub_diag by lia. apply lookup_replicate_2. lia.
Qed.

Lemma field_frame m d l p n s :
  field m p n s -> (d + length l <= length m)%nat -> (d + length l <= p \/ p + n <= d)%nat ->
  field (splice d l m) p n s.
Proof.
  intros (Ha & Hc & Hn & H0) Hl Hd. split_and!; [|done|done|].
  - intros i x Hi. pose proof (lookup_lt_Some _ _ _ Hi). rewrite lookup_splice by lia.
    rewrite decide_False by lia. by apply Ha.
  - intros Hlt. rewrite lookup_splice by lia. rewrite decide_False by lia. auto.
Qed.

(** A name stored with [strncpy] compares as itself: after
    [strncpy(d, t, n)] the [n] bytes at [d] are the string cut to [n] bytes
    and padded with NULs, and [strncmp] of that field with any other name
    field of [n] bytes returns 0 exactly when the other holds the cut
    string. *)
Theorem strncpy_strncmp (m : mem) (d t q n : nat) (s name : list Z) :
  cstr m t s -> field m q n name -> (d + n <= length m)%nat ->
  (d + n <= t \/ t + n <= d)%nat -> (d + n <= q \/ q + n <= d)%nat ->
  exists m', Kstr.strncpy d t (Z.of_nat n) m = Ok d m' /\
    m' = splice d (padded n (take n s)) m /\
    exists r, Kstr.strncmp d q n m' = Ok r m' /\ (r = 0 <-> take n s = name).
Proof.
  intros Hs Hq Hl Hd Hdq. pose proof (cstr_field m t n s Hs) as Hf.
  pose proof Hf as (_ & Hc & Hlen & _). eexists. split; [|split; [reflexivity|]].
  - unfold Kstr.strncpy. rewrite Nat2Z.id. by erewrite bind_ok by (by apply strncpy_run).
  - exists (diff (take n s) name). split.
    + apply strncmp_run; [by apply field_padded|]. apply field_frame; [done|..];
        rewrite length_padded by done; lia.
    + apply diff_0; [done|apply Hq].
Qed.

Lemma strncpy_strncmp_witness :
  exists m', Kstr.strncpy 12 3 2 mem_abc = Ok 12%nat m' /\
    m' = splice 12 (padded 2 (take 2 [97; 98; 99])) mem_abc /\
    exists r, Kstr.strncmp 12 0 2 m' = Ok r m' /\ (r = 0 <-> take 2 [97; 98; 99] = [97; 98]).
Proof.
  apply (strncpy_strncmp mem_abc 12 3 0 2 [97; 98; 99] [97; 98]); [cstr_tac| |simpl; lia|lia|lia].
  apply field_cons. split; [reflexivity|]. split; [unfold is_char; lia|].
  apply field_cons. split; [reflexivity|]. split; [unfold is_char; lia|].
  split_and!; [|constructor|simpl; lia|simpl; lia]. intros i x. by rewrite lookup_nil.
Defined.

Lemma cstr_store m p s a v :
  cstr m p s -> (a < p \/ p + length s < a)%nat -> cstr (<[a := v]> m) p s.
Proof.
  intros (Ha & Hc & H0) Hd. split_and!; [|done|].
  - intros i x Hi. rewrite list_lookup_insert_ne; [by apply Ha|].
    apply lookup_lt_Some in Hi. lia.
  - by rewrite list_lookup_insert_ne by lia.
Qed.

(** What [safestrcpy] writes: the string cut to [n] characters, a NUL, and
    one more NUL when the string's own was copied. *)
Definition safe_text (n : nat) (s : list Z) : list Z :=
  if decide (length s < n)%nat then s ++ [0; 0] else take n s ++ [0].

Lemma safestrcpy_run n : forall m d t s,
  cstr m t s -> (d + S n <= t \/ t + length s < d)%nat -> (d + S n <= length m)%nat ->
  Kstr.safestrcpy_loop d t n m = Ok tt (splice d (safe_text n s) m).
Proof.
  induction n as [|n IH]; intros m d t s Hs Hd Hl; cbn [Kstr.safestrcpy_loop].
  - rewrite store8_run by lia. rewrite insert_splice by lia.
    unfold safe_text. by rewrite decide_False by lia.
  - destruct s as [|x s].
    + apply cstr_nil in Hs. erewrite bind_ok by (by apply load8_run).
      erewrite bind_ok by (apply store8_run; lia). rewrite Z.eqb_refl.
      rewrite store8_run by (rewrite length_insert; lia). change (u8 0) with 0.
      rewrite (insert_splice (<[d:=0]> m)) by (rewrite length_insert; lia).
      rewrite store_splice by (simpl; lia). unfold safe_text. by rewrite decide_True by (simpl; lia).
    + apply cstr_cons in Hs as (Hx & Hc & Hs). erewrite bind_ok by (by apply load8_run).
      erewrite bind_ok by (apply store8_run; lia). rewrite char_nz by done.
      rewrite u8_id by (unfold is_char, is_u8 in *; lia). simpl in Hd.
      rewrite (IH _ (S d) (S t) s); [|apply cstr_store; [done|lia]|lia|rewrite length_insert; lia].
      f_equal. unfold safe_text. simpl.
      repeat case_decide; try lia; rewrite store_splice; try done;
        rewrite ?length_app, ?length_take; simpl; lia.
Qed.

(** [safestrcpy] never writes past [n] bytes and always ends what it
    copied with a NUL: the destination holds the string cut to [n - 1]
    characters as a C string. *)
Theorem safestrcpy_terminates (m : mem) (d t : nat) (n : Z) (s : list Z) :
  cstr m t s -> 0 < n -> (d + Z.to_nat n <= length m)%nat ->
  (d + Z.to_nat n <= t \/ t + length s < d)%nat ->
  exists m', Kstr.safestrcpy d t n m = Ok d m' /\ length m' = length m /\
    cstr m' d (take (Z.to_nat (n - 1)) s) /\
    forall i, (i < d \/ d + Z.to_nat n <= i)%nat -> m' !! i = m !! i.
Proof.
  intros Hs Hn Hl Hd. set (k := Z.to_nat (n - 1)).
  assert (Hk : Z.to_nat n = S k) by (unfold k; lia). rewrite Hk in *.
  assert (Hlen : (length (safe_text k s) <= S k)%nat).
  { unfold safe_text. case_decide; rewrite length_app, ?length_take; simpl; lia. }
  exists (splice d (safe_text k s) m). split.
  { unfold Kstr.safestrcpy. destruct (n <=? 0) eqn:E; [lia|]. fold k.
    by erewrite bind_ok by (by apply safestrcpy_run). }
  split; [apply length_splice; lia|]. split.
  - assert (Htext : exists tl, safe_text k s = take k s ++ 0 :: tl).
    { unfold safe_text. case_decide; [exists [0]; by rewrite take_ge by lia|by exists []]. }
    destruct Htext as [tl Ht]. rewrite Ht in *. rewrite length_app in Hlen. simpl in Hlen. split_and!.
    + intros i x Hi. pose proof (lookup_lt_Some _ _ _ Hi).
      rewrite lookup_splice by (rewrite length_app; simpl; lia).
      rewrite decide_True by (rewrite length_app; lia).
      replace (d + i - d)%nat with i by lia. by rewrite lookup_app_l.
    + apply Forall_take, Hs.
    + rewrite lookup_splice by (rewrite length_app; simpl; lia).
      rewrite decide_True by (rewrite length_app; simpl; lia).
      rewrite Nat.add_comm, Nat.add_sub, lookup_app_r, Nat.sub_diag by lia. done.
  - intros i Hi. rewrite lookup_splice by lia. by rewrite decide_False by lia.
Qed.

Lemma safestrcpy_terminates_witness :
  exists m', Kstr.safestrcpy 12 3 3 mem_abc = Ok 12%nat m' /\ length m' = length mem_abc /\
    cstr m' 12 (take 2 [97; 98; 99]) /\
    forall i, (i < 12 \/ 12 + 3 <= i)%nat -> m' !! i = mem_abc !! i.
Proof.
  apply (safestrcpy_terminates mem_abc 12 3 3 [97; 98; 99]); [cstr_tac|lia|simpl; lia|simpl; lia].
Defined.

(** *** atoi *)

(** The number a string of digits denotes. *)
Definition digits_val (n : Z) (ds : list Z) : Z := foldl (fun n c => n * 10 + c - 48) n ds.

Lemma digits_val_mono ds : forall n, 0 <= n -> Forall (fun c => 48 <= c <= 57) ds -> n <= digits_val n ds.
Proof.
  induction ds as [|c ds IH]; intros n Hn HF; [unfold digits_val; simpl; lia|].
  apply Forall_cons in HF as [Hc HF]. change (digits_val n (c :: ds)) with (digits_val (n * 10 + c - 48) ds).
  specialize (IH (n * 10 + c - 48) ltac:(lia) HF). lia.
Qed.

(** [atoi] returns the number its leading digits denote, when that number fits
    an int. *)
Lemma atoi_spec (m : mem) (p : nat) (ds : list Z) (c : Z) :
  at_ m p (ds ++ [c]) -> Forall (fun x => 48 <= x <= 57) ds -> ~ (48 <= c <= 57) ->
  digits_val 0 ds < 2 ^ 31 -> Ulib.atoi p m = Ok (digits_val 0 ds) m.
Proof.
  intros Ha Hds Hc Hv. unfold Ulib.atoi. erewrite bind_ok by reflexivity.
  assert (Hgo : forall ds p n fuel, at_ m p (ds ++ [c]) -> Forall (fun x => 48 <= x <= 57) ds ->
    0 <= n -> digits_val n ds < 2 ^ 31 -> (length ds < fuel)%nat ->
    Ulib.atoi_loop fuel p n m = Ok (digits_val n ds) m).
  { clear -Hc. induction ds as [|x ds IH]; intros p n [|fuel] Ha Hds Hn Hv Hf; simpl in *; try lia.
    - apply at_cons in Ha as [Hx _]. erewrite bind_ok by (by apply load8_run).
      destruct ((48 <=? c) && (c <=? 57)) eqn:E; [lia|done].
    - apply at_cons in Ha as [Hx Ha]. apply Forall_cons in Hds as [Hd Hds].
      erewrite bind_ok by (by apply load8_run).
      destruct ((48 <=? x) && (x <=? 57)) eqn:E; [|lia].
      change (digits_val n (x :: ds)) with (digits_val (n * 10 + x - 48) ds) in *.
      pose proof (digits_val_mono ds (n * 10 + x - 48) ltac:(lia) Hds).
      rewrite s32_id by (unfold is_s32; lia). apply IH; [done|done|lia|done|lia]. }
  apply Hgo; try done. apply at_bound in Ha; [|by destruct ds].
  rewrite length_app in Ha. simpl in Ha. lia.
Qed.

(** ** Strings as lists *)

(** The C string a buffer starts with. *)
Fixpoint upto0 (l : list Z) : list Z :=
  match l with
  | [] => []
  | x :: l => if x =? 0 then [] else x :: upto0 l
  end.

Lemma upto0_cstr m l : forall p, cstr m p l -> upto0 (drop p m) = l.
Proof.
  induction l as [|x l IH]; intros p.
  - intros H%cstr_nil. by rewrite (drop_S _ _ _ H).
  - intros (Hx & Hc & H)%cstr_cons. rewrite (drop_S _ _ _ Hx). cbn [upto0]. rewrite char_nz by done. by rewrite IH.
Qed.

(** The characters of a string literal. *)
Definition text (s : string) : list Z :=
  map (fun c => Z.of_N (Ascii.N_of_ascii c)) (String.list_ascii_of_string s).
