(* ===== verification/Spinlock.v ===== *)
(** Spin locks and interrupt nesting: spinlock.c, with the per-CPU record of
    proc.h and the test-and-set and interrupt-enable instructions of
    mist32.h. The second half runs [acquire] and [release] on several CPUs,
    one instruction at a time, and shows mutual exclusion. *)
From stdpp Require Import base list numbers strings.
From S2P Require Import Prelude.

(** *** struct cpu (proc.h)

    [ie] is the CPU's interrupt-enable register, which [srieir] reads and
    [srieiw] writes; [cproc] is the current process, an index into the
    process table. *)
Record cpu := Cpu {
  cpu_id : Z;
  ncli : Z;
  intena : bool;
  ie : bool;
  cproc : option nat;
}.

(** *** struct spinlock (spinlock.h); the holder is named by its CPU id. *)
Record spinlock := Spinlock {
  locked : Z;
  lk_name : string;
  lk_cpu : option Z;
  lk_pcs : list Z;
}.

#[export] Instance cpu_eq_dec : EqDecision cpu.
Proof. solve_decision. Defined.
#[export] Instance spinlock_eq_dec : EqDecision spinlock.
Proof. solve_decision. Defined.

Definition set_ie (b : bool) (c : cpu) : cpu :=
  Cpu (cpu_id c) (ncli c) (intena c) b (cproc c).
Definition set_ncli (n : Z) (c : cpu) : cpu :=
  Cpu (cpu_id c) n (intena c) (ie c) (cproc c).
Definition set_intena (b : bool) (c : cpu) : cpu :=
  Cpu (cpu_id c) (ncli c) b (ie c) (cproc c).
Definition set_cproc (p : option nat) (c : cpu) : cpu :=
  Cpu (cpu_id c) (ncli c) (intena c) (ie c) p.

Definition initlock (name : string) (lk : spinlock) : spinlock :=
  Spinlock 0 name None (lk_pcs lk).

(** *** pushcli / popcli *)
Definition pushcli : M cpu unit :=
  modify (set_ie false) ;;;
  n <- gets ncli ;;
  modify (set_ncli (n + 1)) ;;;
  if n =? 0
  then c <- get ;; modify (set_intena (ie c))
  else ret tt.

Definition popcli : M cpu unit :=
  c <- get ;;
  if ie c then panic "popcli - interruptible" else
  modify (set_ncli (ncli c - 1)) ;;;
  c <- get ;;
  if ncli c <? 0 then panic "popcli" else
  if (ncli c =? 0) && intena c then modify (set_ie true) else ret tt.

(** *** acquire / release, on a CPU and a lock *)
Definition on_cpu : Lens (cpu * spinlock) cpu.
Proof.
  refine {| lget := fst; lset c s := (c, snd s) |}; [done|by intros []|done].
Defined.

Definition holding (c : cpu) (lk : spinlock) : bool :=
  negb (locked lk =? 0) && bool_decide (lk_cpu lk = Some (cpu_id c)).

(** [tas] (mist32.h): read the word and set it, atomically. *)
Definition tas : M (cpu * spinlock) Z :=
  s <- get ;;
  let lk := snd s in
  modify (fun s => (fst s, Spinlock 1 (lk_name lk) (lk_cpu lk) (lk_pcs lk))) ;;;
  ret (locked lk).

(** As compiled here the routine only clears the array. *)
Definition getcallerpcs : list Z := replicate 10 0.

Definition acquire : M (cpu * spinlock) unit :=
  zoom (L := on_cpu) pushcli ;;;
  s <- get ;;
  if holding (fst s) (snd s) then panic "acquire" else
  t <- tas ;;
  if negb (t =? 0) then diverge else
  modify (fun s => (fst s, Spinlock (locked (snd s)) (lk_name (snd s))
                             (Some (cpu_id (fst s))) getcallerpcs)).

Definition release : M (cpu * spinlock) unit :=
  s <- get ;;
  if negb (holding (fst s) (snd s)) then panic "release" else
  modify (fun s => (fst s, Spinlock (locked (snd s)) (lk_name (snd s)) None
                             (<[0%nat := 0]> (lk_pcs (snd s))))) ;;;
  modify (fun s => (fst s, Spinlock 0 (lk_name (snd s)) (lk_cpu (snd s)) (lk_pcs (snd s)))) ;;;
  zoom (L := on_cpu) popcli.

(** ** What they do *)

(** The CPU after a lock has been taken: interrupts off, one level deeper. *)
Definition cli (c : cpu) : cpu :=
  Cpu (cpu_id c) (ncli c + 1) (if ncli c =? 0 then false else intena c) false (cproc c).

(** The CPU after a lock has been taken and dropped again. *)
Definition quiet (c : cpu) : cpu :=
  Cpu (cpu_id c) (ncli c) (if ncli c =? 0 then false else intena c) false (cproc c).

(** The lock [c] holds, and a free lock. *)
Definition taken (c : cpu) (lk : spinlock) : spinlock :=
  Spinlock 1 (lk_name lk) (Some (cpu_id c)) getcallerpcs.
Definition dropped (lk : spinlock) : spinlock := Spinlock 0 (lk_name lk) None getcallerpcs.

Definition free (lk : spinlock) : Prop := locked lk = 0.

Lemma pushcli_ok c : pushcli c = Ok tt (cli c).
Proof.
  destruct c as [id n i e p]. cbv -[Z.eqb Z.add]. destruct (n =? 0); reflexivity.
Qed.

Lemma popcli_cli c : 0 <= ncli c -> popcli (cli c) = Ok tt (quiet c).
Proof.
  destruct c as [id n i e p]. simpl. intros Hn. cbn.
  replace (n + 1 - 1) with n by lia.
  destruct (n <? 0) eqn:E1; [lia|]. destruct (n =? 0); reflexivity.
Qed.

Lemma quiet_quiet c : quiet (quiet c) = quiet c.
Proof. destruct c as [id n i e p]. cbv -[Z.eqb]. by destruct (n =? 0). Qed.

Lemma cli_quiet c : cli (quiet c) = cli c.
Proof. destruct c as [id n i e p]. cbv -[Z.eqb Z.add]. by destruct (n =? 0). Qed.

Lemma quiet_cli c : 0 <= ncli c -> quiet (cli c) = cli c.
Proof.
  intros. unfold quiet, cli. simpl. destruct (ncli c + 1 =? 0) eqn:E; [lia|done].
Qed.

Lemma acquire_ok c lk : free lk -> acquire (c, lk) = Ok tt (cli c, taken c lk).
Proof.
  unfold free. intros Hf. unfold acquire, bind, zoom. cbn [lget on_cpu fst].
  rewrite pushcli_ok. cbn. unfold holding. simpl. rewrite Hf. simpl. rewrite Hf. reflexivity.
Qed.

Lemma acquire_held c lk :
  locked lk <> 0 -> lk_cpu lk = Some (cpu_id c) -> acquire (c, lk) = Panic "acquire".
Proof.
  intros Hl Hc. unfold acquire, bind, zoom. cbn [lget on_cpu fst].
  rewrite pushcli_ok. cbn. unfold holding. simpl.
  rewrite Hc, bool_decide_eq_true_2 by done.
  destruct (locked lk =? 0) eqn:E; [lia|]. reflexivity.
Qed.

Lemma acquire_other c lk :
  locked lk <> 0 -> lk_cpu lk <> Some (cpu_id c) -> acquire (c, lk) = Diverge.
Proof.
  intros Hl Hc. unfold acquire, bind, zoom. cbn [lget on_cpu fst].
  rewrite pushcli_ok. cbn. unfold holding. simpl.
  rewrite bool_decide_eq_false_2 by done. rewrite andb_false_r. simpl.
  destruct (locked lk =? 0) eqn:E; [lia|]. reflexivity.
Qed.

Lemma release_taken c lk :
  0 <= ncli c -> release (cli c, taken c lk) = Ok tt (quiet c, dropped lk).
Proof.
  intros Hn. unfold release, bind, zoom. cbn [get obind fst snd].
  unfold holding at 1. cbn [locked taken lk_cpu cli cpu_id].
  rewrite bool_decide_eq_true_2 by done. cbn [obind modify fst snd lget on_cpu].
  change (negb (negb (1 =? 0) && true)) with false. cbv iota beta. cbn [fst snd].
  rewrite popcli_cli by done. reflexivity.
Qed.

Lemma release_not_held c lk : holding c lk = false -> release (c, lk) = Panic "release".
Proof. intros H. unfold release, bind. cbn. by rewrite H. Qed.

Lemma free_dropped lk : free (dropped lk).
Proof. reflexivity. Qed.
#[export] Hint Resolve free_dropped : kernel.
#[export] Hint Rewrite quiet_quiet cli_quiet : kernel.

(** ** Matched sections

    [section n body]: [n] nested pushcli, the matching popcli. *)
Fixpoint nest (n : nat) : M cpu unit :=
  match n with
  | O => ret tt
  | S n' => pushcli ;;; nest n' ;;; popcli
  end.

(** Matched pushcli/popcli pairs, nested to any depth, return with the
    nesting depth they started at and with interrupts off -- whether or not
    they were on before: pushcli reads the interrupt-enable register after it
    has cleared it, so [intena] never records that interrupts were on. *)
Theorem nest_leaves_interrupts_off (n : nat) (c : cpu) :
  0 <= ncli c ->
  exists c', nest (S n) c = Ok tt c' /\ ie c' = false /\ ncli c' = ncli c /\
             (ncli c = 0 -> intena c' = false).
Proof.
  intros Hn. exists (quiet c).
  assert (forall m d, 0 <= ncli d -> nest m (cli d) = Ok tt (cli d)) as Hin.
  { induction m as [|m IH]; intros d Hd; [done|]. cbn [nest]. unfold bind at 1.
    rewrite pushcli_ok. cbn [obind]. unfold bind. rewrite IH by (simpl; lia). cbn [obind].
    rewrite popcli_cli by (simpl; lia). f_equal.
    unfold quiet, cli. simpl. destruct (ncli d + 1 =? 0) eqn:E; [lia|done]. }
  cbn [nest]. unfold bind at 1. rewrite pushcli_ok. cbn [obind]. unfold bind.
  rewrite Hin by done. cbn [obind]. rewrite popcli_cli by done.
  repeat split. intros H0. unfold quiet. simpl. by rewrite H0.
Qed.

Definition boot_cpu : cpu := Cpu 0 0 false true None.

Lemma nest_leaves_interrupts_off_witness :
  ie boot_cpu = true /\
  exists c', nest 3 boot_cpu = Ok tt c' /\ ie c' = false /\ ncli c' = ncli boot_cpu /\
             (ncli boot_cpu = 0 -> intena c' = false).
Proof.
  split; [reflexivity|]. apply (nest_leaves_interrupts_off 2 boot_cpu). simpl. lia.
Defined.

(** ** Several CPUs

    One lock, any number of CPUs. Each CPU runs the instructions of [acquire]
    and [release] in order; between two instructions of one CPU the others may
    run any number of theirs. *)
Module Smp.
  (** Where a CPU is. [Spin]: in the while loop of [acquire], interrupts off.
      [Claim]: its test-and-set read 0, [lk->cpu] not yet written.
      [Crit]: [acquire] returned. [Clear]: [release] has cleared [lk->cpu].
      [Open]: it has cleared [lk->locked], popcli not yet run. *)
Inductive pc := Out | Spin | Claim | Crit | Clear | Open.
#[export] Instance pc_eq_dec : EqDecision pc.
  Proof. solve_decision. Defined.

Record state := State { word : Z; owner : option nat; at_pc : nat -> pc }.

Definition goto (i : nat) (p : pc) (f : nat -> pc) : nat -> pc :=
    fun j => if decide (j = i) then p else f j.

Inductive step (n : nat) : state -> state -> Prop :=
  | s_push i w o f : (i < n)%nat -> f i = Out -> ~ (w <> 0 /\ o = Some i) ->
      step n (State w o f) (State w o (goto i Spin f))
  | s_tas_busy i w o f : (i < n)%nat -> f i = Spin -> w <> 0 ->
      step n (State w o f) (State 1 o (goto i Spin f))
  | s_tas_free i w o f : (i < n)%nat -> f i = Spin -> w = 0 ->
      step n (State w o f) (State 1 o (goto i Claim f))
  | s_own i w o f : (i < n)%nat -> f i = Claim ->
      step n (State w o f) (State w (Some i) (goto i Crit f))
  | s_clear i w o f : (i < n)%nat -> f i = Crit -> w <> 0 /\ o = Some i ->
      step n (State w o f) (State w None (goto i Clear f))
  | s_open i w o f : (i < n)%nat -> f i = Clear ->
      step n (State w o f) (State 0 o (goto i Open f))
  | s_pop i w o f : (i < n)%nat -> f i = Open ->
      step n (State w o f) (State w o (goto i Out f)).

Definition init : state := State 0 None (fun _ => Out).

Definition inside (p : pc) : bool :=
    match p with Claim | Crit | Clear => true | _ => false end.

Inductive reach (n : nat) : state -> Prop :=
  | reach_init : reach n init
  | reach_step s t : reach n s -> step n s t -> reach n t.

  (** The word is 0 exactly when nobody is inside, and one CPU at most is. *)
Definition excl (w : Z) (g : nat -> bool) : Prop :=
    (w = 0 <-> forall i, g i = false) /\
    (forall i j, g i = true -> g j = true -> i = j).

  (** Besides, the CPU in the critical section is the recorded owner. *)
Definition inv (s : state) : Prop :=
    excl (word s) (fun i => inside (at_pc s i)) /\
    (forall i, at_pc s i = Crit -> owner s = Some i).

Lemma excl_ext w w' g g' :
    (w = 0 <-> w' = 0) -> (forall i, g' i = g i) -> excl w g -> excl w' g'.
  Proof.
    intros Hw Hg [H1 H2]. split.
    - rewrite <- Hw, H1. by setoid_rewrite Hg.
    - intros i j. rewrite !Hg. apply H2.
  Qed.

Lemma goto_eq i p f : goto i p f i = p.
  Proof. unfold goto. by rewrite decide_True. Qed.

  (** Moving a CPU without entering or leaving. *)
Lemma inside_goto i p f :
    inside p = inside (f i) -> forall j, inside (goto i p f j) = inside (f j).
  Proof. intros H j. unfold goto. case_decide; by subst. Qed.

Lemma crit_goto i p f j o :
    (forall j, f j = Crit -> o = Some j) -> p <> Crit -> goto i p f j = Crit -> o = Some j.
  Proof. unfold goto. intros ? ?. case_decide; [done|auto]. Qed.

  (** A CPU enters: the word was 0. *)
Lemma excl_enter i f : excl 0 (fun j => inside (f j)) -> inside (f i) = false ->
    excl 1 (fun j => inside (goto i Claim f j)).
  Proof.
    intros [H1 H2] Hi. split.
    - split; [done|]. intros Hall. specialize (Hall i). by rewrite goto_eq in Hall.
    - assert (forall j, inside (f j) = false) as Hf by (by apply H1).
      intros a b. unfold goto. repeat case_decide; subst; rewrite ?Hf; done.
  Qed.

  (** The only CPU inside leaves. *)
Lemma excl_leave i w f : excl w (fun j => inside (f j)) -> inside (f i) = true ->
    excl 0 (fun j => inside (goto i Open f j)).
  Proof.
    intros [H1 H2] Hi.
    assert (forall j, inside (goto i Open f j) = false) as Hf.
    { intros j. unfold goto. case_decide; [done|].
      destruct (inside (f j)) eqn:E; [|done]. by rewrite (H2 j i E Hi) in *. }
    split; [done|]. intros a b. by rewrite Hf.
  Qed.

Lemma step_inv n s t : inv s -> step n s t -> inv t.
  Proof.
    intros [Hx Ho] Hs.
    destruct Hs as [i w o f Hi Hp H|i w o f Hi Hp H|i w o f Hi Hp ->|i w o f Hi Hp
      |i w o f Hi Hp H|i w o f Hi Hp|i w o f Hi Hp]; unfold inv in *; simpl in *.
    all: split; [|try (intros j; apply crit_goto; [exact Ho|done])].
    - revert Hx. apply excl_ext; [done|]. apply inside_goto. by rewrite Hp.
    - revert Hx. apply excl_ext; [lia|]. apply inside_goto. by rewrite Hp.
    - apply excl_enter; [done|by rewrite Hp].
    - revert Hx. apply excl_ext; [done|]. apply inside_goto. by rewrite Hp.
    - intros j Hj. f_equal. destruct Hx as [_ Hu]. apply Hu; [by rewrite Hp|].
      unfold goto in Hj. case_decide; [subst; by rewrite Hp|by rewrite Hj].
    - revert Hx. apply excl_ext; [done|]. apply inside_goto. by rewrite Hp.
    - intros j Hj. unfold goto in Hj. case_decide; [done|].
      rewrite (Ho _ Hj) in H. destruct H; congruence.
    - eapply excl_leave; [exact Hx|by rewrite Hp].
    - revert Hx. apply excl_ext; [done|]. apply inside_goto. by rewrite Hp.
  Qed.

Lemma inv_init : inv init.
  Proof. repeat split; simpl; try done. Qed.

Lemma reach_inv n s : reach n s -> inv s.
  Proof. induction 1; eauto using inv_init, step_inv. Qed.

  (** C25. Mutual exclusion: in every reachable state of any number of CPUs
      running [acquire] and [release] on one lock, two CPUs are never both
      past their test-and-set and before the store that frees the lock; the
      CPU in its critical section is the one [holding] names; and the lock
      word is 0 exactly when nobody is inside. *)
Theorem mutual_exclusion n s i j :
    reach n s ->
    (inside (at_pc s i) = true -> inside (at_pc s j) = true -> i = j) /\
    (at_pc s i = Crit -> word s <> 0 /\ owner s = Some i) /\
    (word s = 0 <-> forall k, inside (at_pc s k) = false).
  Proof.
    intros Hr. apply reach_inv in Hr as [[Hw Hu] Ho]. split; [|split; [|done]].
    - apply Hu.
    - intros Hc. split; [|by apply Ho]. intros Hz. rewrite Hw in Hz.
      specialize (Hz i). by rewrite Hc in Hz.
  Qed.

  (** CPU 0 holds the lock while CPU 1 spins. *)
Definition contended : state :=
    State 1 (Some 0%nat) (goto 1 Spin (goto 1 Spin (goto 0 Crit (goto 0 Claim (goto 0 Spin (fun _ => Out)))))).

Lemma mutual_exclusion_witness :
    reach 2 contended /\ at_pc contended 0%nat = Crit /\
    (inside (at_pc contended 0%nat) = true -> inside (at_pc contended 1%nat) = true -> 0%nat = 1%nat) /\
    (at_pc contended 0%nat = Crit -> word contended <> 0 /\ owner contended = Some 0%nat) /\
    (word contended = 0 <-> forall k, inside (at_pc contended k) = false).
  Proof.
    assert (reach 2 contended) as H.
    { eapply reach_step; [|apply (s_tas_busy 2 1 1); [lia|done|done]].
      eapply reach_step; [|apply (s_push 2 1); [lia|done|by intros [_ [=]]]].
      eapply reach_step; [|apply (s_own 2 0 1 None); [lia|done]].
      eapply reach_step; [|apply (s_tas_free 2 0 0); [lia|done|done]].
      eapply reach_step; [|apply (s_push 2 0); [lia|done|by intros [_ [=]]]].
      apply reach_init. }
    split; [exact H|]. split; [reflexivity|]. apply (mutual_exclusion 2 contended 0 1 H).
  Defined.
End Smp.
