(* ===== verification/Sched.v ===== *)
(** The process table and the scheduling primitives every other component
    uses: struct proc (proc.h) and [sched], [yield], [sleep], [wakeup1],
    [wakeup], [kill] (proc.c). *)
From stdpp Require Import base list numbers strings.
From S2P Require Import Prelude Params Spinlock.

(** *** Sleep channels

    A channel is the address of a kernel object; distinct objects have
    distinct addresses. *)
Inductive chan :=
| ChBuf (i : nat)        (* a buffer of the cache (bio.c) *)
| ChInode (i : nat)      (* an in-core inode (fs.c) *)
| ChLog                  (* &log (log.c) *)
| ChNread (p : nat)      (* &p->nread of a pipe (pipe.c) *)
| ChNwrite (p : nat)     (* &p->nwrite of a pipe (pipe.c) *)
| ChTicks                (* &ticks (trap.c, sysproc.c) *)
| ChInput                (* &input.r (console.c) *)
| ChProc (i : nat).      (* a process, for wait() (proc.c) *)
#[export] Instance chan_eq_dec : EqDecision chan.
Proof. solve_decision. Defined.

(** *** enum procstate, struct trapframe, struct context, struct proc *)
Inductive procstate := UNUSED | EMBRYO | SLEEPING | RUNNABLE | RUNNING | ZOMBIE.
#[export] Instance procstate_eq_dec : EqDecision procstate.
Proof. solve_decision. Defined.

(** The registers the C code reads or writes; [tf_saved] holds the others. *)
Record trapframe := Trapframe {
  tf_ppsr : Z; tf_ppcr : Z; tf_uspr : Z; tf_rret : Z;
  tf_r0 : Z; tf_r1 : Z; tf_r2 : Z; tf_r3 : Z; tf_r4 : Z; tf_r5 : Z; tf_r6 : Z;
  tf_trapno : Z;
  tf_saved : list Z;
}.

(** [ofile] holds indices into the file table and [cwd] an index into the
    inode cache, as the pointers do; [pgdir] and [kstack] are kernel addresses
    with 0 for the null pointer. *)
Record proc := Proc {
  p_sz : Z;
  p_pgdir : Z;
  p_kstack : Z;
  p_state : procstate;
  p_pid : Z;
  p_parent : option nat;
  p_tf : trapframe;
  p_chan : option chan;
  p_killed : Z;
  p_ofile : list (option nat);
  p_cwd : option nat;
  p_name : list Z;
}.

Definition set_state (st : procstate) (p : proc) : proc :=
  Proc (p_sz p) (p_pgdir p) (p_kstack p) st (p_pid p) (p_parent p) (p_tf p) (p_chan p)
    (p_killed p) (p_ofile p) (p_cwd p) (p_name p).
Definition set_chan (c : option chan) (p : proc) : proc :=
  Proc (p_sz p) (p_pgdir p) (p_kstack p) (p_state p) (p_pid p) (p_parent p) (p_tf p) c
    (p_killed p) (p_ofile p) (p_cwd p) (p_name p).
Definition set_killed (k : Z) (p : proc) : proc :=
  Proc (p_sz p) (p_pgdir p) (p_kstack p) (p_state p) (p_pid p) (p_parent p) (p_tf p) (p_chan p)
    k (p_ofile p) (p_cwd p) (p_name p).

(** The bottom of the kernel state: the CPU, [ptable.lock], [ptable.proc]. *)
Record base := Base { b_cpu : cpu; b_lock : spinlock; b_procs : list proc }.

Definition ptable : Lens base (cpu * spinlock).
Proof.
  refine {| lget s := (b_cpu s, b_lock s); lset t s := Base (fst t) (snd t) (b_procs s) |};
    [by intros []|by intros []|done].
Defined.

Definition upd_proc (i : nat) (f : proc -> proc) : M base unit :=
  modify (fun s => Base (b_cpu s) (b_lock s) (alter f i (b_procs s))).

(** [proc()]: the current process; dereferencing it when there is none is a
    null pointer access. *)
Definition myproc : M base nat := s <- get ;; some (cproc (b_cpu s)).
Definition get_proc (i : nat) : M base proc := s <- get ;; some (b_procs s !! i).

(** *** sched *)
Definition sched : M base unit :=
  s <- get ;;
  if negb (holding (b_cpu s) (b_lock s)) then panic "sched ptable.lock" else
  if negb (ncli (b_cpu s) =? 1) then panic "sched locks" else
  i <- myproc ;;
  p <- get_proc i ;;
  if bool_decide (p_state p = RUNNING) then panic "sched running" else
  s <- get ;;
  if ie (b_cpu s) then panic "sched interruptible" else
  let ena := intena (b_cpu s) in
  swtch ;;;
  modify (fun s => Base (set_intena ena (b_cpu s)) (b_lock s) (b_procs s)).

(** *** yield *)
Definition yield : M base unit :=
  zoom (L := ptable) acquire ;;;
  i <- myproc ;;
  upd_proc i (set_state RUNNABLE) ;;;
  sched ;;;
  zoom (L := ptable) release.

(** *** wakeup1 / wakeup *)
Definition wake (ch : chan) (p : proc) : proc :=
  if bool_decide (p_state p = SLEEPING /\ p_chan p = Some ch)
  then set_state RUNNABLE p else p.

Definition wakeup1 (ch : chan) : M base unit :=
  modify (fun s => Base (b_cpu s) (b_lock s) (wake ch <$> b_procs s)).

Definition wakeup (ch : chan) : M base unit :=
  zoom (L := ptable) acquire ;;;
  wakeup1 ch ;;;
  zoom (L := ptable) release.

(** *** kill *)
Fixpoint find_pid (pid : Z) (ps : list proc) : option nat :=
  match ps with
  | [] => None
  | p :: ps => if p_pid p =? pid then Some 0%nat else S <$> find_pid pid ps
  end.

Definition kill (pid : Z) : M base Z :=
  zoom (L := ptable) acquire ;;;
  s <- get ;;
  match find_pid pid (b_procs s) with
  | Some i =>
      upd_proc i (set_killed 1) ;;;
      p <- get_proc i ;;
      (if bool_decide (p_state p = SLEEPING) then upd_proc i (set_state RUNNABLE) else ret tt) ;;;
      zoom (L := ptable) release ;;;
      ret 0
  | None =>
      zoom (L := ptable) release ;;;
      ret (-1)
  end.

(** *** sleep

    [lk] is the lock to release, [None] for [&ptable.lock] itself; the code's
    test for a null [lk] has no counterpart. *)
Section sleep.
  Context {S : Type} (BL : Lens S base).

Definition sleep (ch : chan) (lk : option (Lens S (cpu * spinlock))) : M S unit :=
    s <- get ;;
    match cproc (b_cpu (lget s)) with
    | None => panic "sleep"
    | Some i =>
        match lk with
        | Some L =>
            zoom (L := BL) (zoom (L := ptable) acquire) ;;;
            zoom (L := L) release
        | None => ret tt
        end ;;;
        zoom (L := BL) (
          upd_proc i (set_chan (Some ch)) ;;;
          upd_proc i (set_state SLEEPING) ;;;
          sched ;;;
          j <- myproc ;;
          upd_proc j (set_chan None)) ;;;
        match lk with
        | Some L =>
            zoom (L := BL) (zoom (L := ptable) release) ;;;
            zoom (L := L) acquire
        | None => ret tt
        end
    end.
End sleep.

(** ** What they do *)

(** Nobody holds [ptable.lock]. *)
Definition base_ok (s : base) : Prop := free (b_lock s) /\ 0 <= ncli (b_cpu s).

(** The table after a call that took and dropped [ptable.lock]. *)
Definition settled (s : base) (ps : list proc) : base :=
  Base (quiet (b_cpu s)) (dropped (b_lock s)) ps.

Lemma settled_ok s ps : base_ok s -> base_ok (settled s ps).
Proof. intros [_ H]. split; [apply free_dropped|exact H]. Qed.
#[export] Hint Resolve settled_ok : kernel.

Lemma ptable_acquire s :
  free (b_lock s) ->
  zoom (L := ptable) acquire s =
    Ok tt (Base (cli (b_cpu s)) (taken (b_cpu s) (b_lock s)) (b_procs s)).
Proof. intros Hf. erewrite zoom_ok by (by apply acquire_ok). done. Qed.

Lemma ptable_release c lk ps :
  0 <= ncli c ->
  zoom (L := ptable) release (Base (cli c) (taken c lk) ps) =
    Ok tt (Base (quiet c) (dropped lk) ps).
Proof. intros Hf. erewrite zoom_ok by (by apply release_taken). done. Qed.

Lemma wakeup_run ch s :
  base_ok s -> wakeup ch s = Ok tt (settled s (wake ch <$> b_procs s)).
Proof.
  intros [Hf Hn]. unfold wakeup. erewrite bind_ok by (by apply ptable_acquire).
  erewrite bind_ok by reflexivity. cbn [b_cpu b_lock b_procs]. by apply ptable_release.
Qed.

Lemma wp_wakeup ch (Q : unit -> base -> Prop) s :
  base_ok s -> Q tt (settled s (wake ch <$> b_procs s)) -> wp (wakeup ch) Q s.
Proof. intros. eapply outcome_wp; [by apply wakeup_run|done]. Qed.

Lemma find_pid_Some pid ps i :
  find_pid pid ps = Some i <->
  exists p, ps !! i = Some p /\ p_pid p = pid /\
    forall j q, (j < i)%nat -> ps !! j = Some q -> p_pid q <> pid.
Proof.
  revert i. induction ps as [|p ps IH]; intros i; simpl.
  { split; [done|]. intros (q & Hq & _). by rewrite lookup_nil in Hq. }
  destruct (p_pid p =? pid) eqn:E.
  - split.
    + intros [= <-]. exists p. split_and!; [done|lia|lia].
    + intros (q & Hq & Hpid & Hmin). destruct i as [|i]; [done|].
      destruct (Hmin 0%nat p); [lia|done|lia].
  - rewrite fmap_Some. split.
    + intros (j & Hj & ->). apply IH in Hj as (q & Hq & Hpid & Hmin).
      exists q. split_and!; [done|done|]. intros [|k] r Hk Hr; simpl in *.
      * injection Hr as <-. lia.
      * apply (Hmin k r); [lia|done].
    + intros (q & Hq & Hpid & Hmin). destruct i as [|i]; simpl in *.
      { injection Hq as <-. lia. }
      exists i. split; [|done]. apply IH. exists q. split_and!; [done|done|].
      intros j r Hj Hr. apply (Hmin (S j) r); [lia|done].
Qed.

Lemma find_pid_None pid ps :
  find_pid pid ps = None <-> Forall (fun p => p_pid p <> pid) ps.
Proof.
  induction ps as [|p ps IH]; simpl; [by split|].
  destruct (p_pid p =? pid) eqn:E.
  - split; [done|]. intros HF. apply Forall_cons in HF as [? _]. lia.
  - rewrite fmap_None, IH, Forall_cons. split; [|tauto]. intros; split; [lia|done].
Qed.

(** What [kill] does to the process it finds. *)
Definition killed_proc (p : proc) : proc :=
  let p' := set_killed 1 p in
  if bool_decide (p_state p = SLEEPING) then set_state RUNNABLE p' else p'.

(** [kill] marks the first process with that pid and makes it runnable
    when it sleeps, changes no other process, and returns 0; with no such
    process it returns -1 and changes none. [ptable.lock] is free again. *)
Theorem kill_spec (pid : Z) (s : base) :
  base_ok s ->
  kill pid s =
    match find_pid pid (b_procs s) with
    | Some i => Ok 0 (settled s (alter killed_proc i (b_procs s)))
    | None => Ok (-1) (settled s (b_procs s))
    end.
Proof.
  intros [Hf Hn]. unfold kill. erewrite bind_ok by (by apply ptable_acquire).
  erewrite bind_ok by reflexivity. cbn [b_procs].
  destruct (find_pid pid (b_procs s)) as [i|] eqn:Hfind.
  - apply find_pid_Some in Hfind as (p & Hp & _).
    erewrite bind_ok by reflexivity. cbn [b_cpu b_lock b_procs].
    erewrite (bind_ok (get_proc i)); [|].
    2:{ unfold get_proc. erewrite bind_ok by reflexivity. cbn [b_procs].
        rewrite list_lookup_alter_eq, Hp. reflexivity. }
    change (p_state (set_killed 1 p)) with (p_state p).
    case_bool_decide as Hs.
    + erewrite bind_ok by reflexivity. cbn [b_cpu b_lock b_procs].
      erewrite bind_ok by (by apply ptable_release).
      unfold ret, settled. do 2 f_equal. rewrite alter_alter.
      eapply alter_ext_at; [done|]. unfold killed_proc. by rewrite bool_decide_eq_true_2.
    + erewrite bind_ok by reflexivity. cbn [b_cpu b_lock b_procs].
      erewrite bind_ok by (by apply ptable_release).
      unfold ret, settled. do 2 f_equal.
      eapply alter_ext_at; [done|]. unfold killed_proc. by rewrite bool_decide_eq_false_2.
  - erewrite bind_ok by (by apply ptable_release). reflexivity.
Qed.

(** A process table for the examples: process 0 runs, process 1 sleeps. *)
Definition tf0 : trapframe := Trapframe 0 0 0 0 0 0 0 0 0 0 0 0 [].
Definition proc0 (st : procstate) (pid : Z) (ch : option chan) : proc :=
  Proc 4096 0 0 st pid None tf0 ch 0 (replicate NOFILE None) None [].
Definition ptable0 : base :=
  Base (Cpu 0 0 false true (Some 0%nat)) (Spinlock 0 "ptable" None [])
    [proc0 RUNNING 1 None; proc0 SLEEPING 2 (Some ChTicks); proc0 UNUSED 0 None].

Lemma base_ok0 : base_ok ptable0.
Proof. split; [reflexivity|simpl; lia]. Qed.

Lemma kill_spec_witness :
  find_pid 2 (b_procs ptable0) = Some 1%nat /\
  kill 2 ptable0 = Ok 0 (settled ptable0 (alter killed_proc 1%nat (b_procs ptable0))).
Proof. split; [reflexivity|]. exact (kill_spec 2 ptable0 base_ok0). Defined.

(** [wakeup ch] makes runnable exactly the processes that sleep on [ch]:
    process by process, a sleeper on [ch] changes only its state, and every
    other process is as before; [ptable.lock] is free again and the nesting
    depth is unchanged. *)
Theorem wakeup_spec (ch : chan) (s : base) :
  base_ok s ->
  exists s', wakeup ch s = Ok tt s' /\ base_ok s' /\ ncli (b_cpu s') = ncli (b_cpu s) /\
    forall i, b_procs s' !! i =
      match b_procs s !! i with
      | Some p => Some (if decide (p_state p = SLEEPING /\ p_chan p = Some ch)
                        then set_state RUNNABLE p else p)
      | None => None
      end.
Proof.
  intros Hok. eexists. split; [by apply wakeup_run|].
  split; [by apply settled_ok|]. split; [done|]. intros i. simpl.
  rewrite list_lookup_fmap. destruct (b_procs s !! i) as [p|]; [|done]. simpl.
  unfold wake. case_bool_decide; case_decide; tauto.
Qed.

Lemma wakeup_spec_witness :
  base_ok ptable0 /\
  exists s', wakeup ChTicks ptable0 = Ok tt s' /\ base_ok s' /\
    ncli (b_cpu s') = ncli (b_cpu ptable0) /\
    forall i, b_procs s' !! i =
      match b_procs ptable0 !! i with
      | Some p => Some (if decide (p_state p = SLEEPING /\ p_chan p = Some ChTicks)
                        then set_state RUNNABLE p else p)
      | None => None
      end.
Proof. split; [exact base_ok0|]. exact (wakeup_spec ChTicks ptable0 base_ok0). Defined.

Lemma sched_run c plk ps i p :
  ncli c = 0 -> cproc c = Some i ->
  ps !! i = Some p -> p_state p <> RUNNING ->
  sched (Base (cli c) (taken c plk) ps) =
    Switch (Base (cli c) (taken c plk) ps)
      (fun s' => Ok tt (Base (set_intena false (b_cpu s')) (b_lock s') (b_procs s'))).
Proof.
  intros Hn Hp Hps Hst. unfold sched. erewrite bind_ok by reflexivity.
  cbn [b_cpu b_lock]. unfold holding. cbn [locked taken lk_cpu cli cpu_id].
  rewrite bool_decide_eq_true_2 by done. simpl. rewrite Hn. simpl.
  unfold myproc, get_proc, bind, obind. simpl. rewrite Hp. simpl. rewrite Hps. simpl.
  rewrite bool_decide_eq_false_2 by done. simpl. rewrite Hn. reflexivity.
Qed.

(** ** Sleeping with a lock held

    The caller's state: the process table beside the lock it passes. *)
Module Locked.
Definition base_l : Lens (base * spinlock) base.
  Proof. refine {| lget := fst; lset b s := (b, snd s) |}; [done|by intros []|done]. Defined.

Definition lock_l : Lens (base * spinlock) (cpu * spinlock).
  Proof.
    refine {| lget s := (b_cpu (fst s), snd s);
              lset t s := (Base (fst t) (b_lock (fst s)) (b_procs (fst s)), snd t) |};
      [by intros []|by intros [[]]|done].
  Defined.

  (** The caller runs as process [i] and holds [lk] and nothing else. *)
Definition caller (c : cpu) (i : nat) (plk lk : spinlock) (ps : list proc) : base * spinlock :=
    (Base (cli c) plk ps, taken c lk).

  (** What the scheduler guarantees when it switches back to process [i]: it
      holds [ptable.lock] on this CPU with no other lock, and [i] is current. *)
Definition resumable (c : cpu) (i : nat) (s : base * spinlock) : Prop :=
    exists d plk, cpu_id d = cpu_id c /\ ncli d = 0 /\ cproc d = Some i /\
      b_cpu (fst s) = cli d /\ b_lock (fst s) = taken d plk /\
      free (snd s) /\ is_Some (b_procs (fst s) !! i).


Definition caller0 : base * spinlock :=
    caller (Cpu 0 0 false false (Some 0%nat)) 0 (Spinlock 0 "ptable" None [])
      (Spinlock 0 "time" None []) (b_procs ptable0).

End Locked.

(** A process but for its scheduling state. *)
Definition still (p : proc) : proc := set_state UNUSED p.

Lemma wake_still ch (ps : list proc) : still <$> (wake ch <$> ps) = still <$> ps.
Proof.
  rewrite <- list_fmap_compose. apply list_fmap_ext. intros _ p _. unfold compose, wake.
  by case_bool_decide; destruct p.
Qed.

(** A routine that returns leaves the CPU at the nesting depth and on the
    process it found, and of the processes changes only whether they are
    ready to run. *)
Definition calm (s s' : base) : Prop :=
  cpu_id (b_cpu s') = cpu_id (b_cpu s) /\ ncli (b_cpu s') = ncli (b_cpu s) /\
  cproc (b_cpu s') = cproc (b_cpu s) /\ still <$> b_procs s' = still <$> b_procs s.

Lemma calm_settled s ch : calm s (settled s (wake ch <$> b_procs s)).
Proof. split_and!; try done. apply wake_still. Qed.
#[export] Hint Resolve calm_settled wake_still : core.

#[export] Instance calm_preorder : PreOrder calm.
Proof.
  split; [by intros ?|]. intros x y z (?&?&?&?) (?&?&?&?). unfold calm. intuition congruence.
Qed.
