(* ===== verification/Ring.v ===== *)
(** Circular doubly linked lists: the theory behind the buffer cache's LRU
    list (bio.c). Links are functions from nodes to nodes; [seg] says that the
    chain from one node to another runs through a given list of nodes, forward
    by [N] and backward by [P]. *)
From stdpp Require Import base list numbers sets.
From S2P Require Import Prelude.

Set Warnings "-clear-no-such-hyp".

Section ring.
  Implicit Types (N P : nat -> nat) (x y z h b : nat) (l : list nat).

Definition upd (f : nat -> nat) (i v : nat) : nat -> nat :=
    fun j => if decide (j = i) then v else f j.

Lemma upd_eq f i v : upd f i v i = v.
  Proof. unfold upd. by rewrite decide_True. Qed.
Lemma upd_ne f i j v : j <> i -> upd f i v j = f j.
  Proof. intros. unfold upd. by rewrite decide_False. Qed.

Lemma upd_ext f g i v j : (forall k, f k = g k) -> upd f i v j = upd g i v j.
  Proof. intros H. unfold upd. by case_decide. Qed.

Fixpoint seg N P x l y : Prop :=
    match l with
    | [] => N x = y /\ P y = x
    | z :: l => N x = z /\ P z = x /\ seg N P z l y
    end.

Lemma seg_app N P l1 : forall x z l2 y,
    seg N P x (l1 ++ z :: l2) y <-> seg N P x l1 z /\ seg N P z l2 y.
  Proof.
    induction l1 as [|a l1 IH]; intros x z l2 y; simpl; [tauto|].
    rewrite IH. tauto.
  Qed.

Lemma seg_rev N P l : forall x y, seg N P x l y -> seg P N y (reverse l) x.
  Proof.
    induction l as [|a l IH]; intros x y; simpl; [tauto|].
    intros (H1 & H2 & H3). rewrite reverse_cons. apply seg_app. split; [by apply IH|done].
  Qed.

Lemma seg_ext N P N' P' l : forall x y,
    (forall a, a ∈ x :: l -> N' a = N a) ->
    (forall a, a ∈ l ++ [y] -> P' a = P a) ->
    seg N P x l y -> seg N' P' x l y.
  Proof.
    induction l as [|a l IH]; intros x y HN HP; simpl in *.
    - intros [<- H]. rewrite HN, HP by set_solver. by split.
    - intros (H1 & H2 & H3). split_and!.
      + rewrite HN by set_solver. done.
      + rewrite HP by set_solver. done.
      + apply IH; [| |done]; intros; [apply HN|apply HP]; set_solver.
  Qed.

  (** The first node of a segment follows its start, the last precedes its end. *)
Lemma seg_next N P x l y : seg N P x l y -> N x = hd y l.
  Proof. destruct l; simpl; tauto. Qed.
Lemma seg_prev N P x l y : seg N P x l y -> P y = List.last l x.
  Proof.
    intros H. apply seg_rev in H. apply seg_next in H.
    rewrite H. destruct l as [|a l _] using rev_ind; [done|].
    rewrite reverse_snoc, List.last_last. done.
  Qed.

  (** A ring: from the head through [l] back to the head. *)
Definition ring N P h l : Prop := seg N P h l h /\ NoDup (h :: l).

  (** Unlinking a node. *)
Lemma ring_unlink N P h l1 b l2 :
    ring N P h (l1 ++ b :: l2) ->
    ring (upd N (P b) (N b)) (upd P (N b) (P b)) h (l1 ++ l2).
  Proof.
    intros [Hs Hnd]. apply seg_app in Hs as [H1 H2].
    assert (Hnd' : NoDup (h :: l1 ++ l2)).
    { apply NoDup_cons in Hnd as [Hh Hnd]. apply NoDup_app in Hnd as (? & Hd & Hb).
      apply NoDup_cons in Hb as [? ?]. apply NoDup_cons. split; [set_solver|].
      apply NoDup_app. split_and!; [done| |done]. set_solver. }
    split; [|done].
    rewrite (seg_next _ _ _ _ _ H2), (seg_prev _ _ _ _ _ H1).
    apply NoDup_cons in Hnd as [Hh Hnd]. apply NoDup_app in Hnd as (Hn1 & Hd & Hb).
    apply NoDup_cons in Hb as [Hb Hn2].
    destruct l1 as [|a l1 _] using rev_ind; rewrite ?List.last_last in *.
    - simpl in *. destruct l2 as [|c l2]; simpl in *.
      + by rewrite !upd_eq.
      + destruct H2 as (Hc & Hpc & H2). rewrite !upd_eq. split_and!; [done|done|].
        apply NoDup_cons in Hn2 as [Hc2 _].
        apply (seg_ext N P); [| |done]; intros; apply upd_ne; set_solver.
    - apply seg_app in H1 as [H1 [Ha Hpb]]. rewrite <- app_assoc. simpl.
      apply NoDup_app in Hn1 as (Hn1 & Hd1 & _). apply seg_app. split.
      + apply (seg_ext N P); [| |done]; intros; apply upd_ne.
        * set_solver.
        * destruct l2 as [|c l2]; simpl; set_solver.
      + destruct l2 as [|c l2]; simpl in *.
        * by rewrite !upd_eq.
        * destruct H2 as (Hc & Hpc & H2). rewrite !upd_eq. split_and!; [done|done|].
          apply NoDup_cons in Hn2 as [Hc2 _].
          apply (seg_ext N P); [| |done]; intros e He; apply upd_ne; intros ->.
          -- apply (Hd a); clear -He; set_solver.
          -- apply elem_of_app in He as [He|He%list_elem_of_singleton]; [done|].
             apply Hh. rewrite <- He. clear. set_solver.
  Qed.

  (** Linking a node in after the head. *)
Lemma ring_push N P h l b :
    ring N P h l -> b ∉ h :: l ->
    ring (upd (upd N b (N h)) h b) (upd (upd P b h) (N h) b) h (b :: l).
  Proof.
    intros [Hs Hnd] Hb.
    assert (b <> h /\ b ∉ l) as [Hbh Hbl] by set_solver.
    apply NoDup_cons in Hnd as [Hh Hnd]. split.
    2:{ apply NoDup_cons. split; [set_solver|]. by apply NoDup_cons. }
    rewrite (seg_next _ _ _ _ _ Hs). simpl. rewrite upd_eq. split_and!; [done| |].
    - rewrite upd_ne, upd_eq; [done|]. destruct l; simpl; set_solver.
    - destruct l as [|c l]; simpl in *.
      + rewrite !upd_eq, upd_ne, upd_eq by done. done.
      + destruct Hs as (Hc & Hpc & Hs). rewrite upd_eq, upd_ne, upd_eq by done.
        split_and!; [done|done|].
        apply NoDup_cons in Hnd as [? ?].
        apply (seg_ext N P); [| |done]; intros; rewrite !upd_ne; set_solver.
  Qed.

Lemma ring_nil N P h : N h = h -> P h = h -> ring N P h [].
  Proof. intros. split; [done|]. apply NoDup_singleton. Qed.
End ring.
