(* ===== verification/Bio.v ===== *)
(** The buffer cache and the disk under it: bio.c (binit, bget, bread, bwrite,
    brelse) over the disk driver's [iderw] (ide.c, memide.c). The cache is the
    array of NBUF buffers and the list head, linked by [prev] and [next]
    exactly as in the code; the theorems show that the links always form one
    ring through every buffer, and what each call does to it. *)
From stdpp Require Import base list numbers strings sets.
From S2P Require Import Prelude Params Spinlock Sched Ring.

Set Warnings "-clear-no-such-hyp".

(** *** The disk

    [dk_size] sectors; the contents are an image and the sector writes made
    since, latest first: what the disk holds after a crash is the image with
    some suffix of that list applied. *)
Record disk := Disk { dk_size : Z; dk_img : Z -> list Z; dk_writes : list (Z * list Z) }.

Fixpoint written (ws : list (Z * list Z)) (sec : Z) : option (list Z) :=
  match ws with
  | [] => None
  | (n, d) :: ws => if n =? sec then Some d else written ws sec
  end.

Definition disk_get (d : disk) (sec : Z) : list Z :=
  match written (dk_writes d) sec with Some b => b | None => dk_img d sec end.

Definition disk_put (sec : Z) (b : list Z) (d : disk) : disk :=
  Disk (dk_size d) (dk_img d) ((sec, b) :: dk_writes d).

(** *** struct buf (buf.h); [prev] and [next] are indices into the cache. *)
Record buf := Buf {
  flags : Z;
  dev : Z;
  sector : Z;
  prev : nat;
  next : nat;
  data : list Z;
}.

Definition set_flags (f : Z) (b : buf) : buf := Buf f (dev b) (sector b) (prev b) (next b) (data b).
Definition set_dev (x : Z) (b : buf) : buf := Buf (flags b) x (sector b) (prev b) (next b) (data b).
Definition set_sector (x : Z) (b : buf) : buf := Buf (flags b) (dev b) x (prev b) (next b) (data b).
Definition set_prev (p : nat) (b : buf) : buf := Buf (flags b) (dev b) (sector b) p (next b) (data b).
Definition set_next (n : nat) (b : buf) : buf := Buf (flags b) (dev b) (sector b) (prev b) n (data b).
Definition set_data (d : list Z) (b : buf) : buf := Buf (flags b) (dev b) (sector b) (prev b) (next b) d.

(** [bcache]: the lock, [bcache.buf] and, at index NBUF, [bcache.head]. *)
Record bio := Bio {
  io_base : base;
  io_lock : spinlock;
  io_bufs : list buf;
  io_disk : disk;
}.

Definition HEAD : nat := NBUF.

Definition set_bufs (bs : list buf) (s : bio) : bio := Bio (io_base s) (io_lock s) bs (io_disk s).
Definition set_disk (d : disk) (s : bio) : bio := Bio (io_base s) (io_lock s) (io_bufs s) d.

#[export] Instance io_base_l : Lens bio base.
Proof.
  refine {| lget := io_base; lset b s := Bio b (io_lock s) (io_bufs s) (io_disk s) |};
    [done|by intros []|done].
Defined.

Definition bcache_lock : Lens bio (cpu * spinlock).
Proof.
  refine {| lget s := (b_cpu (io_base s), io_lock s);
            lset t s := Bio (Base (fst t) (b_lock (io_base s)) (b_procs (io_base s)))
                          (snd t) (io_bufs s) (io_disk s) |};
    [by intros []|by intros [[]]|done].
Defined.

Definition getb (i : nat) : M bio buf := s <- get ;; some (io_bufs s !! i).
Definition updb (i : nat) (f : buf -> buf) : M bio unit :=
  modify (fun s => set_bufs (alter f i (io_bufs s)) s).

(** *** binit *)
Definition binit : M bio unit :=
  modify (fun s => Bio (io_base s) (initlock "bcache" (io_lock s)) (io_bufs s) (io_disk s)) ;;;
  updb HEAD (set_prev HEAD) ;;;
  updb HEAD (set_next HEAD) ;;;
  for_ NBUF (fun b =>
    h <- getb HEAD ;;
    updb b (set_next (next h)) ;;;
    updb b (set_prev HEAD) ;;;
    updb b (set_dev (u32 (-1))) ;;;
    h <- getb HEAD ;;
    updb (next h) (set_prev b) ;;;
    updb HEAD (set_next b)).

(** *** bget

    The two scans, forward over [next] for the sector and backward over [prev]
    for a buffer to recycle. *)
Fixpoint scan_cached (fuel : nat) (d sec : Z) (b : nat) : M bio (option nat) :=
  match fuel with
  | O => diverge
  | S fuel =>
      if bool_decide (b = HEAD) then ret None else
      bb <- getb b ;;
      if (dev bb =? d) && (sector bb =? sec) then ret (Some b)
      else scan_cached fuel d sec (next bb)
  end.

Fixpoint scan_free (fuel : nat) (b : nat) : M bio (option nat) :=
  match fuel with
  | O => diverge
  | S fuel =>
      if bool_decide (b = HEAD) then ret None else
      bb <- getb b ;;
      if (Z.land (flags bb) B_BUSY =? 0) && (Z.land (flags bb) B_DIRTY =? 0) then ret (Some b)
      else scan_free fuel (prev bb)
  end.

(** The label [loop]: [n] bounds how often the call is woken and starts over. *)
Fixpoint bget_loop (n : nat) (d sec : Z) : M bio nat :=
  match n with
  | O => diverge
  | S n =>
      h <- getb HEAD ;;
      r <- scan_cached (S NBUF) d sec (next h) ;;
      match r with
      | Some b =>
          bb <- getb b ;;
          if negb (Flag.has (flags bb) B_BUSY) then
            updb b (fun x => set_flags (Z.lor (flags x) B_BUSY) x) ;;;
            zoom (L := bcache_lock) release ;;;
            ret b
          else
            sleep io_base_l (ChBuf b) (Some bcache_lock) ;;;
            bget_loop n d sec
      | None =>
          h <- getb HEAD ;;
          r <- scan_free (S NBUF) (prev h) ;;
          match r with
          | Some b =>
              updb b (set_dev d) ;;;
              updb b (set_sector sec) ;;;
              updb b (set_flags B_BUSY) ;;;
              zoom (L := bcache_lock) release ;;;
              ret b
          | None => panic "bget: no buffers"
          end
      end
  end.

Definition bget (d sec : Z) : M bio nat :=
  zoom (L := bcache_lock) acquire ;;;
  bget_loop wakeups d sec.

(** *** iderw

    The checks and the transfer; the sector reaches the disk, or the buffer,
    as a whole. *)
Definition iderw (b : nat) : M bio unit :=
  bb <- getb b ;;
  s <- get ;;
  if negb (Flag.has (flags bb) B_BUSY) then panic "iderw: buf not busy" else
  if Z.land (flags bb) (Z.lor B_VALID B_DIRTY) =? B_VALID then panic "iderw: nothing to do" else
  if negb (dev bb =? 1) then panic "iderw: request not for disk 1" else
  if sector bb >=? dk_size (io_disk s) then panic "iderw: sector out of range" else
  (if Flag.has (flags bb) B_DIRTY then
     updb b (fun x => set_flags (Z.land (flags x) (Z.lnot B_DIRTY)) x) ;;;
     modify (fun s => set_disk (disk_put (sector bb) (data bb) (io_disk s)) s)
   else
     modify (fun s => set_bufs (alter (set_data (disk_get (io_disk s) (sector bb))) b (io_bufs s)) s)) ;;;
  updb b (fun x => set_flags (Z.lor (flags x) B_VALID) x).

(** *** bread, bwrite, brelse *)
Definition bread (d sec : Z) : M bio nat :=
  b <- bget d sec ;;
  bb <- getb b ;;
  (if negb (Flag.has (flags bb) B_VALID) then iderw b else ret tt) ;;;
  ret b.

Definition bwrite (b : nat) : M bio unit :=
  bb <- getb b ;;
  if Z.land (flags bb) B_BUSY =? 0 then panic "bwrite" else
  updb b (fun x => set_flags (Z.lor (flags x) B_DIRTY) x) ;;;
  iderw b.

Definition brelse (b : nat) : M bio unit :=
  bb <- getb b ;;
  if Z.land (flags bb) B_BUSY =? 0 then panic "brelse" else
  zoom (L := bcache_lock) acquire ;;;
  bb <- getb b ;; updb (next bb) (set_prev (prev bb)) ;;;
  bb <- getb b ;; updb (prev bb) (set_next (next bb)) ;;;
  h <- getb HEAD ;; updb b (set_next (next h)) ;;;
  updb b (set_prev HEAD) ;;;
  h <- getb HEAD ;; updb (next h) (set_prev b) ;;;
  updb HEAD (set_next b) ;;;
  updb b (fun x => set_flags (Z.land (flags x) (Z.lnot B_BUSY)) x) ;;;
  zoom (L := io_base_l) (wakeup (ChBuf b)) ;;;
  zoom (L := bcache_lock) release.

(** ** The ring of buffers *)

Definition nxt (bs : list buf) (i : nat) : nat := default 0%nat (next <$> bs !! i).
Definition prv (bs : list buf) (i : nat) : nat := default 0%nat (prev <$> bs !! i).

(** The cache's buffers, most recently released first. *)
Definition lru (bs : list buf) (l : list nat) : Prop :=
  length bs = S NBUF /\ ring (nxt bs) (prv bs) HEAD l /\ l ≡ₚ seq 0 NBUF.

(** A buffer without its links, and the cache without its list. *)
Definition strip (b : buf) : buf := Buf (flags b) (dev b) (sector b) 0 0 (data b).
Definition pay (s : bio) : list buf := strip <$> io_bufs s.

Lemma lru_lt bs l i : lru bs l -> i ∈ l <-> (i < NBUF)%nat.
Proof.
  intros (_ & _ & Hp). rewrite Hp. rewrite elem_of_seq. unfold NBUF. lia.
Qed.

Lemma ring_ext N P N' P' h l :
  (forall i, N' i = N i) -> (forall i, P' i = P i) -> ring N P h l -> ring N' P' h l.
Proof. intros HN HP [Hs Hn]. split; [|done]. eapply seg_ext; eauto. Qed.

(** Changes that leave the links alone leave the ring alone. *)
Lemma nxt_alter_frame f i bs :
  (forall b, next (f b) = next b) -> forall j, nxt (alter f i bs) j = nxt bs j.
Proof.
  intros Hf j. unfold nxt. destruct (decide (i = j)) as [<-|Hne].
  - rewrite list_lookup_alter_eq. destruct (bs !! i); simpl; [apply Hf|done].
  - by rewrite list_lookup_alter_ne.
Qed.
Lemma prv_alter_frame f i bs :
  (forall b, prev (f b) = prev b) -> forall j, prv (alter f i bs) j = prv bs j.
Proof.
  intros Hf j. unfold prv. destruct (decide (i = j)) as [<-|Hne].
  - rewrite list_lookup_alter_eq. destruct (bs !! i); simpl; [apply Hf|done].
  - by rewrite list_lookup_alter_ne.
Qed.

Lemma lru_alter f i bs l :
  (forall b, next (f b) = next b /\ prev (f b) = prev b) -> lru bs l -> lru (alter f i bs) l.
Proof.
  intros Hf (Hl & Hr & Hp). split_and!; [by rewrite length_alter| |done].
  eapply ring_ext; [| |exact Hr]; intros; [apply nxt_alter_frame|apply prv_alter_frame]; apply Hf.
Qed.

Lemma nxt_set_next v i bs :
  (i < length bs)%nat -> forall j, nxt (alter (set_next v) i bs) j = upd (nxt bs) i v j.
Proof.
  intros Hi j. unfold upd. case_decide as Hj; [subst j|]; unfold nxt.
  - rewrite list_lookup_alter_eq. by destruct (lookup_lt_is_Some_2 bs i Hi) as [b ->].
  - rewrite list_lookup_alter_ne by congruence. done.
Qed.
Lemma prv_set_prev v i bs :
  (i < length bs)%nat -> forall j, prv (alter (set_prev v) i bs) j = upd (prv bs) i v j.
Proof.
  intros Hi j. unfold upd. case_decide as Hj; [subst j|]; unfold prv.
  - rewrite list_lookup_alter_eq. by destruct (lookup_lt_is_Some_2 bs i Hi) as [b ->].
  - rewrite list_lookup_alter_ne by congruence. done.
Qed.

(** The pointer assignments of [brelse]. *)
Definition unlink (b : nat) (bs : list buf) : list buf :=
  let bs := alter (set_prev (prv bs b)) (nxt bs b) bs in
  alter (set_next (nxt bs b)) (prv bs b) bs.
Definition push_front (b : nat) (bs : list buf) : list buf :=
  let bs := alter (set_next (nxt bs HEAD)) b bs in
  let bs := alter (set_prev HEAD) b bs in
  let bs := alter (set_prev b) (nxt bs HEAD) bs in
  alter (set_next b) HEAD bs.

Lemma length_unlink b bs : length (unlink b bs) = length bs.
Proof. unfold unlink. by rewrite !length_alter. Qed.
Lemma length_push_front b bs : length (push_front b bs) = length bs.
Proof. unfold push_front. by rewrite !length_alter. Qed.

Lemma seg_nodes N P x l y a : seg N P x l y -> a ∈ l -> P a ∈ x :: l /\ N a ∈ l ++ [y].
Proof.
  intros Hs [l1 [l2 ->]]%list_elem_of_split. apply seg_app in Hs as [H1 H2].
  rewrite (seg_prev _ _ _ _ _ H1), (seg_next _ _ _ _ _ H2). split.
  - destruct l1 as [|c l1 _] using rev_ind; simpl; [set_solver|].
    rewrite List.last_last. set_solver.
  - destruct l2; simpl; set_solver.
Qed.

Lemma lru_bounds bs l i :
  lru bs l -> (i < NBUF)%nat -> (nxt bs i < length bs)%nat /\ (prv bs i < length bs)%nat.
Proof.
  intros Hl Hi. pose proof Hl as (Hlen & [Hs _] & Hp).
  apply (lru_lt _ _ i Hl) in Hi. destruct (seg_nodes _ _ _ _ _ i Hs Hi) as [HP HN].
  rewrite Hlen. split.
  - apply elem_of_app in HN as [HN|HN%list_elem_of_singleton].
    + apply (lru_lt _ _ _ Hl) in HN. lia.
    + rewrite HN. unfold HEAD. lia.
  - apply elem_of_cons in HP as [->|HP]; [unfold HEAD; lia|].
    apply (lru_lt _ _ _ Hl) in HP. lia.
Qed.

(** Pushing a buffer that is not in the ring. *)
Lemma ring_push_front us l b :
  length us = S NBUF -> ring (nxt us) (prv us) HEAD l -> b ∉ HEAD :: l -> (b < NBUF)%nat ->
  (forall x, x ∈ l -> (x < NBUF)%nat) ->
  ring (nxt (push_front b us)) (prv (push_front b us)) HEAD (b :: l).
Proof.
  intros Hlu Hu Hbu Hb Hl. assert (Hhb : HEAD <> b) by (unfold HEAD; lia).
  assert (Hnh : (nxt us HEAD < S NBUF)%nat).
  { destruct Hu as [Hs _]. rewrite (seg_next _ _ _ _ _ Hs).
    destruct l as [|c l']; simpl; [unfold HEAD; lia|].
    assert (c < NBUF)%nat by (apply Hl; left). lia. }
  apply (ring_push _ _ _ _ b) in Hu; [|done].
  eapply ring_ext; [| |exact Hu]; intros i; unfold push_front.
  - rewrite nxt_set_next by (rewrite !length_alter; unfold HEAD; lia).
    apply upd_ext. intros j. rewrite !nxt_alter_frame by done. apply nxt_set_next. lia.
  - rewrite prv_alter_frame by done.
    rewrite (nxt_alter_frame (set_prev HEAD)) by done.
    rewrite (nxt_set_next _ b) by lia. rewrite (upd_ne _ b HEAD) by done.
    rewrite prv_set_prev by (rewrite !length_alter; lia).
    apply upd_ext. intros j. rewrite prv_set_prev by (rewrite length_alter; lia).
    apply upd_ext. intros k. by apply prv_alter_frame.
Qed.

(** Unlinking a buffer and pushing it to the front keeps the ring a ring and
    makes the buffer the most recent one. *)
Lemma lru_move_front bs l1 b l2 :
  lru bs (l1 ++ b :: l2) -> lru (push_front b (unlink b bs)) (b :: l1 ++ l2).
Proof.
  intros Hl. pose proof Hl as (Hlen & Hr & Hp).
  assert (Hb : (b < NBUF)%nat) by (apply (lru_lt _ _ b Hl); set_solver).
  destruct (lru_bounds _ _ b Hl Hb) as [HN HP].
  split_and!; [by rewrite length_push_front, length_unlink| |].
  2:{ rewrite <- Hp. by rewrite Permutation_middle. }
  assert (Hne : nxt bs b <> b).
  { destruct Hr as [[_ H2]%seg_app Hnd]. rewrite (seg_next _ _ _ _ _ H2).
    apply NoDup_cons in Hnd as [Hh Hnd]. apply NoDup_app in Hnd as (_ & _ & [Hb2 _]%NoDup_cons).
    destruct l2; simpl; set_solver. }
  assert (Hpb : prv (alter (set_prev (prv bs b)) (nxt bs b) bs) b = prv bs b).
  { rewrite prv_set_prev by done. by apply upd_ne. }
  assert (Hu : ring (nxt (unlink b bs)) (prv (unlink b bs)) HEAD (l1 ++ l2)).
  { apply ring_unlink in Hr. eapply ring_ext; [| |exact Hr]; intros i; unfold unlink;
      rewrite Hpb, (nxt_alter_frame (set_prev (prv bs b))) by done.
    - rewrite nxt_set_next by (by rewrite length_alter).
      apply upd_ext. intros j. by apply nxt_alter_frame.
    - rewrite prv_alter_frame by done. by apply prv_set_prev. }
  assert (Hbu : b ∉ HEAD :: l1 ++ l2).
  { destruct Hr as [_ [Hh Hnd]%NoDup_cons]. apply NoDup_app in Hnd as (_ & Hd & [Hb2 _]%NoDup_cons).
    set_solver. }
  assert (Hlu : length (unlink b bs) = S NBUF) by (by rewrite length_unlink).
  apply ring_push_front; try done. intros x Hx. apply (lru_lt _ _ _ Hl). clear -Hx. set_solver.
Qed.

Lemma strip_alter_link f (i : nat) (bs : list buf) :
  (forall b, strip (f b) = strip b) -> strip <$> alter f i bs = strip <$> bs.
Proof.
  intros Hf. apply list_eq. intros j. rewrite !list_lookup_fmap.
  destruct (decide (i = j)) as [<-|].
  - rewrite list_lookup_alter_eq. destruct (bs !! i); simpl; [by rewrite Hf|done].
  - by rewrite list_lookup_alter_ne.
Qed.

Lemma strip_alter f (i : nat) (bs : list buf) :
  (forall b, strip (f b) = f (strip b)) -> strip <$> alter f i bs = alter f i (strip <$> bs).
Proof.
  intros Hf. apply list_eq. intros j. rewrite list_lookup_fmap.
  destruct (decide (i = j)) as [<-|].
  - rewrite !list_lookup_alter_eq, list_lookup_fmap. destruct (bs !! i); simpl; [by rewrite Hf|done].
  - by rewrite !list_lookup_alter_ne, list_lookup_fmap.
Qed.

Lemma strip_move_front b bs : strip <$> push_front b (unlink b bs) = strip <$> bs.
Proof. unfold push_front, unlink. by rewrite !strip_alter_link. Qed.

(** ** Scanning the list *)

Fixpoint first (p : nat -> bool) (l : list nat) : option nat :=
  match l with
  | [] => None
  | i :: l => if p i then Some i else first p l
  end.

Lemma first_Some p l i : first p l = Some i -> i ∈ l /\ p i = true.
Proof.
  induction l as [|a l IH]; simpl; [done|]. destruct (p a) eqn:E.
  - intros [= ->]. split; [left|done].
  - intros H. apply IH in H as [? ?]. split; [by right|done].
Qed.

Lemma first_None p l : first p l = None <-> forall i, i ∈ l -> p i = false.
Proof.
  induction l as [|a l IH]; simpl; [set_solver|]. destruct (p a) eqn:E.
  - split; [done|]. intros H. by rewrite (H a ltac:(left)) in E.
  - rewrite IH. set_solver.
Qed.

(** The test of the first scan, and of the second. *)
Definition caches (bs : list buf) (d sec : Z) (i : nat) : bool :=
  match bs !! i with Some b => (dev b =? d) && (sector b =? sec) | None => false end.
Definition spare (b : buf) : bool :=
  (Z.land (flags b) B_BUSY =? 0) && (Z.land (flags b) B_DIRTY =? 0).
Definition is_spare (bs : list buf) (i : nat) : bool :=
  match bs !! i with Some b => spare b | None => false end.

Lemma getb_run s i b : io_bufs s !! i = Some b -> getb i s = Ok b s.
Proof. intros H. unfold getb. erewrite bind_ok by reflexivity. by rewrite H. Qed.

Lemma scan_cached_run s d sec l : forall fuel x,
  seg (nxt (io_bufs s)) (prv (io_bufs s)) x l HEAD -> HEAD ∉ l ->
  (forall i, i ∈ l -> is_Some (io_bufs s !! i)) -> (length l < fuel)%nat ->
  scan_cached fuel d sec (nxt (io_bufs s) x) s = Ok (first (caches (io_bufs s) d sec) l) s.
Proof.
  induction l as [|a l IH]; intros [|fuel] x Hs Hh Hb Hf; simpl in *; try lia.
  - destruct Hs as [-> _]. by rewrite bool_decide_eq_true_2.
  - destruct Hs as (-> & _ & Hs). rewrite bool_decide_eq_false_2 by set_solver.
    destruct (Hb a ltac:(left)) as [b Hab]. erewrite bind_ok by (by apply getb_run).
    replace (caches (io_bufs s) d sec a) with ((dev b =? d) && (sector b =? sec))
      by (unfold caches; by rewrite Hab).
    destruct ((dev b =? d) && (sector b =? sec)); [done|].
    replace (next b) with (nxt (io_bufs s) a) by (unfold nxt; by rewrite Hab).
    apply IH; [done|set_solver| |lia]. intros i Hi. apply Hb. by right.
Qed.

Lemma scan_free_run s l : forall fuel x,
  seg (prv (io_bufs s)) (nxt (io_bufs s)) x l HEAD -> HEAD ∉ l ->
  (forall i, i ∈ l -> is_Some (io_bufs s !! i)) -> (length l < fuel)%nat ->
  scan_free fuel (prv (io_bufs s) x) s = Ok (first (is_spare (io_bufs s)) l) s.
Proof.
  induction l as [|a l IH]; intros [|fuel] x Hs Hh Hb Hf; simpl in *; try lia.
  - destruct Hs as [-> _]. by rewrite bool_decide_eq_true_2.
  - destruct Hs as (-> & _ & Hs). rewrite bool_decide_eq_false_2 by set_solver.
    destruct (Hb a ltac:(left)) as [b Hab]. erewrite bind_ok by (by apply getb_run).
    replace (is_spare (io_bufs s) a) with (spare b) by (unfold is_spare; by rewrite Hab).
    unfold spare. destruct ((Z.land (flags b) B_BUSY =? 0) && (Z.land (flags b) B_DIRTY =? 0)); [done|].
    replace (prev b) with (prv (io_bufs s) a) by (unfold prv; by rewrite Hab).
    apply IH; [done|set_solver| |lia]. intros i Hi. apply Hb. by right.
Qed.

Section scans.
  Context (s : bio) (l : list nat) (Hl : lru (io_bufs s) l).

Lemma lru_facts :
    (HEAD ∉ l) /\ (forall i, i ∈ l -> is_Some (io_bufs s !! i)) /\ (length l < S NBUF)%nat /\
    (exists h, io_bufs s !! HEAD = Some h /\ next h = nxt (io_bufs s) HEAD /\
               prev h = prv (io_bufs s) HEAD).
  Proof.
    pose proof Hl as (Hlen & [Hs [Hh _]%NoDup_cons] & Hp). split_and!; [done| | |].
    - intros i Hi. apply (lru_lt _ _ _ Hl) in Hi. apply lookup_lt_is_Some. lia.
    - rewrite Hp, length_seq. lia.
    - destruct (lookup_lt_is_Some_2 (io_bufs s) HEAD) as [h Hh']; [rewrite Hlen; unfold HEAD; lia|].
      exists h. unfold nxt, prv. by rewrite Hh'.
  Qed.

  (** The first scan finds the most recent buffer that caches the sector. *)
Lemma scan_cached_lru d sec h :
    io_bufs s !! HEAD = Some h ->
    scan_cached (S NBUF) d sec (next h) s = Ok (first (caches (io_bufs s) d sec) l) s.
  Proof.
    intros Hhd. destruct lru_facts as (Hh & Hb & Hlen & h' & Hhd' & Hn & _).
    pose proof Hl as (_ & [Hs _] & _). replace h with h' by congruence. rewrite Hn.
    by apply scan_cached_run.
  Qed.

  (** The second scan finds the least recent spare buffer. *)
Lemma scan_free_lru h :
    io_bufs s !! HEAD = Some h ->
    scan_free (S NBUF) (prev h) s = Ok (first (is_spare (io_bufs s)) (reverse l)) s.
  Proof.
    intros Hhd. destruct lru_facts as (Hh & Hb & Hlen & h' & Hhd' & _ & Hp).
    pose proof Hl as (_ & [Hs _] & _). replace h with h' by congruence. rewrite Hp.
    apply scan_free_run; [by apply seg_rev in Hs|set_solver| |by rewrite length_reverse].
    intros i Hi. apply Hb. set_solver.
  Qed.
End scans.

(** ** What the calls do *)

Definition locks_ok (s : bio) : Prop := base_ok (io_base s) /\ free (io_lock s).
Definition bio_ok (s : bio) : Prop := locks_ok s /\ exists l, lru (io_bufs s) l.

(** Inside and after a section under [bcache.lock]. *)
Definition io_in (bs : list buf) (s : bio) : bio :=
  Bio (Base (cli (b_cpu (io_base s))) (b_lock (io_base s)) (b_procs (io_base s)))
    (taken (b_cpu (io_base s)) (io_lock s)) bs (io_disk s).
Definition io_done (bs : list buf) (s : bio) : bio :=
  Bio (Base (quiet (b_cpu (io_base s))) (b_lock (io_base s)) (b_procs (io_base s)))
    (dropped (io_lock s)) bs (io_disk s).

Lemma bcache_acquire s :
  locks_ok s -> zoom (L := bcache_lock) acquire s = Ok tt (io_in (io_bufs s) s).
Proof. intros [_ Hf]. erewrite zoom_ok by (by apply acquire_ok). done. Qed.

Lemma bcache_release bs s :
  locks_ok s -> zoom (L := bcache_lock) release (io_in bs s) = Ok tt (io_done bs s).
Proof. intros [[_ Hn] _]. erewrite zoom_ok by (by apply release_taken). done. Qed.

Lemma locks_ok_done bs s : locks_ok s -> locks_ok (io_done bs s).
Proof. intros [[Hf Hn] _]. split; [split; [exact Hf|exact Hn]|apply free_dropped]. Qed.
#[export] Hint Resolve locks_ok_done : kernel.

Lemma updb_run i f s : updb i f s = Ok tt (set_bufs (alter f i (io_bufs s)) s).
Proof. reflexivity. Qed.

Lemma set_bufs_in bs bs' s : set_bufs bs (io_in bs' s) = io_in bs s.
Proof. reflexivity. Qed.

Section bget.
  Context (s : bio) (l : list nat) (d sec : Z).
  Hypothesis Hok : locks_ok s.
  Hypothesis Hl : lru (io_bufs s) l.

  (** Up to the end of the first scan. *)
Lemma bget_scan {A} (k : nat -> option nat -> M bio A) :
    (zoom (L := bcache_lock) acquire ;;;
     h <- getb HEAD ;;
     r <- scan_cached (S NBUF) d sec (next h) ;; k 0%nat r) s =
    k 0%nat (first (caches (io_bufs s) d sec) l) (io_in (io_bufs s) s).
  Proof.
    erewrite bind_ok by (by apply bcache_acquire).
    destruct (lru_facts s l Hl) as (_ & _ & _ & h & Hh & _).
    erewrite (bind_ok (getb HEAD)) by (by apply getb_run).
    erewrite bind_ok; [reflexivity|].
    by apply (scan_cached_lru (io_in (io_bufs s) s)).
  Qed.

  (** The sector is cached and not in use. *)
Lemma bget_hit i b :
    first (caches (io_bufs s) d sec) l = Some i -> io_bufs s !! i = Some b ->
    Z.land (flags b) B_BUSY = 0 ->
    bget d sec s = Ok i (io_done (alter (fun x => set_flags (Z.lor (flags x) B_BUSY) x) i (io_bufs s)) s).
  Proof.
    intros Hi Hb Hf. unfold bget, wakeups. cbn [bget_loop].
    rewrite (bget_scan (fun _ r => match r with Some b => _ | None => _ end)), Hi.
    erewrite bind_ok by (by apply getb_run).
    unfold Flag.has. rewrite Hf. cbn [Z.eqb negb].
    erewrite bind_ok by apply updb_run. rewrite set_bufs_in.
    erewrite bind_ok by (by apply bcache_release). reflexivity.
  Qed.

  (** The sector is not cached: the least recent spare buffer is recycled. *)
Lemma bget_miss i :
    first (caches (io_bufs s) d sec) l = None ->
    first (is_spare (io_bufs s)) (reverse l) = Some i ->
    bget d sec s = Ok i (io_done (alter (fun x => set_flags B_BUSY (set_sector sec (set_dev d x))) i
                                    (io_bufs s)) s).
  Proof.
    intros Hc Hi. unfold bget, wakeups. cbn [bget_loop].
    rewrite (bget_scan (fun _ r => match r with Some b => _ | None => _ end)), Hc.
    destruct (lru_facts s l Hl) as (_ & _ & _ & h & Hh & _).
    erewrite (bind_ok (getb HEAD)) by (by apply getb_run).
    erewrite bind_ok by (by apply (scan_free_lru (io_in (io_bufs s) s) l)).
    cbn [io_bufs io_in]. rewrite Hi.
    erewrite bind_ok by apply updb_run. rewrite set_bufs_in.
    erewrite bind_ok by apply updb_run. rewrite set_bufs_in.
    erewrite bind_ok by apply updb_run. rewrite set_bufs_in.
    erewrite bind_ok by (by apply bcache_release). cbn [io_bufs io_in].
    by rewrite !alter_alter.
  Qed.

  (** Neither cached nor a spare buffer left. *)
Lemma bget_full :
    first (caches (io_bufs s) d sec) l = None ->
    first (is_spare (io_bufs s)) (reverse l) = None ->
    bget d sec s = Panic "bget: no buffers".
  Proof.
    intros Hc Hi. unfold bget, wakeups. cbn [bget_loop].
    rewrite (bget_scan (fun _ r => match r with Some b => _ | None => _ end)), Hc.
    destruct (lru_facts s l Hl) as (_ & _ & _ & h & Hh & _).
    erewrite (bind_ok (getb HEAD)) by (by apply getb_run).
    erewrite bind_ok by (by apply (scan_free_lru (io_in (io_bufs s) s) l)).
    cbn [io_bufs io_in]. by rewrite Hi.
  Qed.
End bget.

(** Reading a link through a buffer that exists. *)
Lemma getb_in bs s i :
  (i < length bs)%nat -> exists b, getb i (io_in bs s) = Ok b (io_in bs s) /\
    next b = nxt bs i /\ prev b = prv bs i.
Proof.
  intros Hi. destruct (lookup_lt_is_Some_2 bs i Hi) as [b Hb]. exists b.
  unfold nxt, prv. rewrite Hb. split; [by apply getb_run|done].
Qed.

(** The state once the sleepers on a channel have been woken. *)
Definition woken (ch : chan) (s : bio) : bio :=
  Bio (Base (b_cpu (io_base s)) (dropped (b_lock (io_base s))) (wake ch <$> b_procs (io_base s)))
    (io_lock s) (io_bufs s) (io_disk s).

Lemma locks_ok_woken ch s : locks_ok s -> locks_ok (woken ch s).
Proof. intros [[Hf Hn] ?]. split; [split; [apply free_dropped|done]|done]. Qed.
#[export] Hint Resolve locks_ok_woken : kernel.

Lemma wakeup_in ch bs s :
  locks_ok s ->
  zoom (L := io_base_l) (wakeup ch) (io_in bs s) = Ok tt (io_in bs (woken ch s)).
Proof.
  intros [[Hf Hn] _]. erewrite zoom_ok.
  2:{ apply wakeup_run. split; [exact Hf|]. simpl. lia. }
  unfold settled, io_in, woken. simpl. by rewrite quiet_cli.
Qed.

Definition clear_busy (x : buf) : buf := set_flags (Z.land (flags x) (Z.lnot B_BUSY)) x.

Lemma brelse_run s l1 b l2 bb :
  locks_ok s -> lru (io_bufs s) (l1 ++ b :: l2) -> io_bufs s !! b = Some bb ->
  Z.land (flags bb) B_BUSY <> 0 ->
  brelse b s =
    Ok tt (io_done (alter clear_busy b (push_front b (unlink b (io_bufs s)))) (woken (ChBuf b) s)).
Proof.
  intros Hok Hl Hb Hbusy.
  assert (Hlt : (b < NBUF)%nat) by (apply (lru_lt _ _ b Hl); set_solver).
  pose proof Hl as (Hlen & _).
  unfold brelse. erewrite bind_ok by (by apply getb_run).
  destruct (Z.land (flags bb) B_BUSY =? 0) eqn:E; [lia|].
  erewrite bind_ok by (by apply bcache_acquire).
  assert (Hbl : (b < S NBUF)%nat) by lia. assert (Hhl : (HEAD < S NBUF)%nat) by (unfold HEAD; lia).
  unfold unlink, push_front.
  repeat match goal with
  | |- bind (getb ?i) _ (io_in ?bs _) = _ =>
      let x := fresh "x" in let Hx := fresh "Hx" in
      let Hn := fresh "Hn" in let Hp := fresh "Hp" in
      destruct (getb_in bs s i) as (x & Hx & Hn & Hp);
        [rewrite ?length_alter; lia|];
      rewrite (bind_ok _ _ _ _ _ Hx); clear Hx; rewrite ?Hn, ?Hp; clear Hn Hp x
  | |- bind (updb ?i ?f) _ (io_in ?bs _) = _ =>
      rewrite (bind_ok _ _ _ _ _ (updb_run i f (io_in bs s))), set_bufs_in; cbn [io_bufs io_in]
  end.
  erewrite bind_ok by (by apply wakeup_in). apply bcache_release. auto with kernel.
Qed.

Lemma brelse_not_busy s b bb :
  io_bufs s !! b = Some bb -> Z.land (flags bb) B_BUSY = 0 -> brelse b s = Panic "brelse".
Proof.
  intros Hb Hf. unfold brelse. erewrite bind_ok by (by apply getb_run). by rewrite Hf.
Qed.

(** The transfers: a write of a dirty buffer and a read into an invalid one. *)
Definition mark_valid (x : buf) : buf := set_flags (Z.lor (flags x) B_VALID) x.
Definition mark_dirty (x : buf) : buf := set_flags (Z.lor (flags x) B_DIRTY) x.
Definition clear_dirty (x : buf) : buf := set_flags (Z.land (flags x) (Z.lnot B_DIRTY)) x.

(** *** The flag bits *)
Definition busy (b : buf) : bool := Z.testbit (flags b) 0.
Definition valid (b : buf) : bool := Z.testbit (flags b) 1.
Definition dirty (b : buf) : bool := Z.testbit (flags b) 2.

Lemma land_busy b : (Z.land (flags b) B_BUSY =? 0) = negb (busy b).
Proof. exact (Flag.land_eqb_0 (flags b) 0 ltac:(lia)). Qed.
Lemma land_dirty b : (Z.land (flags b) B_DIRTY =? 0) = negb (dirty b).
Proof. exact (Flag.land_eqb_0 (flags b) 2 ltac:(lia)). Qed.
Lemma has_busy b : Flag.has (flags b) B_BUSY = busy b.
Proof. exact (Flag.has_testbit (flags b) 0 ltac:(lia)). Qed.
Lemma has_valid b : Flag.has (flags b) B_VALID = valid b.
Proof. exact (Flag.has_testbit (flags b) 1 ltac:(lia)). Qed.
Lemma has_dirty b : Flag.has (flags b) B_DIRTY = dirty b.
Proof. exact (Flag.has_testbit (flags b) 2 ltac:(lia)). Qed.

Lemma land_clean b :
  (Z.land (flags b) (Z.lor B_VALID B_DIRTY) =? B_VALID) = valid b && negb (dirty b).
Proof.
  change (Z.lor B_VALID B_DIRTY) with (Z.lor (2 ^ 1) (2 ^ 2)).
  rewrite Z.land_lor_distr_r, !Flag.land_pow2 by lia. fold (valid b) (dirty b).
  by destruct (valid b), (dirty b).
Qed.

#[export] Hint Rewrite land_busy land_dirty has_busy has_valid has_dirty land_clean : kernel.

Ltac flag_bits :=
  intros; unfold busy, valid, dirty, mark_valid, mark_dirty, clear_dirty, clear_busy; simpl flags;
  rewrite ?Z.lor_spec, ?Z.land_spec, ?Z.lnot_spec by lia;
  repeat match goal with |- context [Z.testbit (flags ?x) ?k] =>
    generalize (Z.testbit (flags x) k); intros [] end; reflexivity.

Definition mark_busy (x : buf) : buf := set_flags (Z.lor (flags x) B_BUSY) x.

Section flag_lemmas.
  Context (x : buf).
Lemma busy_mark_busy : busy (mark_busy x) = true. Proof. unfold mark_busy. flag_bits. Qed.
Lemma valid_mark_busy : valid (mark_busy x) = valid x. Proof. unfold mark_busy. flag_bits. Qed.
Lemma dirty_mark_busy : dirty (mark_busy x) = dirty x. Proof. unfold mark_busy. flag_bits. Qed.
Lemma busy_clear_busy : busy (clear_busy x) = false. Proof. flag_bits. Qed.
Lemma valid_clear_busy : valid (clear_busy x) = valid x. Proof. flag_bits. Qed.
Lemma dirty_clear_busy : dirty (clear_busy x) = dirty x. Proof. flag_bits. Qed.
Lemma busy_mark_valid : busy (mark_valid x) = busy x. Proof. flag_bits. Qed.
Lemma valid_mark_valid : valid (mark_valid x) = true. Proof. flag_bits. Qed.
Lemma dirty_mark_valid : dirty (mark_valid x) = dirty x. Proof. flag_bits. Qed.
Lemma busy_mark_dirty : busy (mark_dirty x) = busy x. Proof. flag_bits. Qed.
Lemma valid_mark_dirty : valid (mark_dirty x) = valid x. Proof. flag_bits. Qed.
Lemma dirty_mark_dirty : dirty (mark_dirty x) = true. Proof. flag_bits. Qed.
Lemma busy_clear_dirty : busy (clear_dirty x) = busy x. Proof. flag_bits. Qed.
Lemma valid_clear_dirty : valid (clear_dirty x) = valid x. Proof. flag_bits. Qed.
Lemma dirty_clear_dirty : dirty (clear_dirty x) = false. Proof. flag_bits. Qed.
End flag_lemmas.

#[export] Hint Rewrite busy_mark_busy valid_mark_busy dirty_mark_busy
  busy_clear_busy valid_clear_busy dirty_clear_busy
  busy_mark_valid valid_mark_valid dirty_mark_valid
  busy_mark_dirty valid_mark_dirty dirty_mark_dirty
  busy_clear_dirty valid_clear_dirty dirty_clear_dirty : kernel.

Section iderw.
  Context (s : bio) (b : nat) (bb : buf).
  Hypothesis Hb : io_bufs s !! b = Some bb.
  Hypothesis Hbusy : busy bb = true.
  Hypothesis Hdev : dev bb = 1.
  Hypothesis Hsec : sector bb < dk_size (io_disk s).

Lemma iderw_write :
    dirty bb = true ->
    iderw b s = Ok tt (set_disk (disk_put (sector bb) (data bb) (io_disk s))
                         (set_bufs (alter (fun x => mark_valid (clear_dirty x)) b (io_bufs s)) s)).
  Proof.
    intros Hd. unfold iderw. erewrite bind_ok by (by apply getb_run).
    erewrite bind_ok by reflexivity. autorewrite with kernel. rewrite Hbusy, Hd, Hdev, andb_false_r.
    destruct (sector bb >=? dk_size (io_disk s)) eqn:E; [lia|]. cbn [negb Z.eqb Pos.eqb].
    unfold bind, obind, updb, modify. cbn [io_bufs set_bufs set_disk io_base io_lock io_disk].
    by rewrite alter_alter.
  Qed.

Lemma iderw_read :
    dirty bb = false -> valid bb = false ->
    iderw b s = Ok tt (set_bufs (alter (fun x => mark_valid
                         (set_data (disk_get (io_disk s) (sector bb)) x)) b (io_bufs s)) s).
  Proof.
    intros Hd Hv. unfold iderw. erewrite bind_ok by (by apply getb_run).
    erewrite bind_ok by reflexivity. autorewrite with kernel. rewrite Hbusy, Hd, Hv, Hdev.
    destruct (sector bb >=? dk_size (io_disk s)) eqn:E; [lia|]. cbn [andb negb Z.eqb Pos.eqb].
    unfold bind, obind, updb, modify. cbn [io_bufs set_bufs set_disk io_base io_lock io_disk].
    by rewrite alter_alter.
  Qed.

End iderw.

(** A buffer once its contents have reached the disk. *)
Definition flushed (x : buf) : buf := mark_valid (clear_dirty (mark_dirty x)).

Lemma bwrite_run s b bb :
  io_bufs s !! b = Some bb -> busy bb = true -> dev bb = 1 -> sector bb < dk_size (io_disk s) ->
  bwrite b s = Ok tt (set_disk (disk_put (sector bb) (data bb) (io_disk s))
                        (set_bufs (alter flushed b (io_bufs s)) s)).
Proof.
  intros Hb Hbusy Hdev Hsec. unfold bwrite. erewrite bind_ok by (by apply getb_run).
  rewrite land_busy, Hbusy. cbn [negb]. erewrite bind_ok by apply updb_run.
  set (s1 := set_bufs _ _). change (io_disk s) with (io_disk s1).
  assert (H1 : io_bufs s1 !! b = Some (mark_dirty bb)).
  { simpl. by rewrite list_lookup_alter_eq, Hb. }
  rewrite (iderw_write s1 b (mark_dirty bb)); autorewrite with kernel; try done.
  subst s1. unfold set_bufs. cbn [io_bufs]. by rewrite alter_alter.
Qed.

Lemma bwrite_not_busy s b bb :
  io_bufs s !! b = Some bb -> busy bb = false -> bwrite b s = Panic "bwrite".
Proof.
  intros Hb Hf. unfold bwrite. erewrite bind_ok by (by apply getb_run).
  by rewrite land_busy, Hf.
Qed.

(** ** binit *)

(** The cache after the loop of [binit] has run for buffers [0 .. i-1]. *)
Definition fresh_upto (i : nat) (bs : list buf) : list buf :=
  imap (fun j b => if decide (j < i)%nat then set_dev (u32 (-1)) (strip b) else strip b) bs.

Lemma binit_body (s : bio) (b : nat) (l : list nat) (bs0 : list buf) :
  length (io_bufs s) = S NBUF -> (b < NBUF)%nat ->
  ring (nxt (io_bufs s)) (prv (io_bufs s)) HEAD l -> b ∉ HEAD :: l ->
  (forall x, x ∈ l -> (x < NBUF)%nat) -> strip <$> io_bufs s = fresh_upto b bs0 ->
  wp (h <- getb HEAD ;;
      updb b (set_next (next h)) ;;;
      updb b (set_prev HEAD) ;;;
      updb b (set_dev (u32 (-1))) ;;;
      h <- getb HEAD ;;
      updb (next h) (set_prev b) ;;;
      updb HEAD (set_next b))
    (fun _ s' => exists bs, s' = set_bufs bs s /\ length bs = S NBUF /\
       ring (nxt bs) (prv bs) HEAD (b :: l) /\ strip <$> bs = fresh_upto (S b) bs0) s.
Proof.
  intros Hlen Hb Hr Hbl Hl Hst. assert (Hhb : HEAD <> b) by (unfold HEAD; lia).
  destruct (lookup_lt_is_Some_2 (io_bufs s) HEAD) as [h Hh]; [rewrite Hlen; unfold HEAD; lia|].
  assert (Hn : next h = nxt (io_bufs s) HEAD) by (unfold nxt; by rewrite Hh).
  eapply outcome_wp.
  { erewrite bind_ok by (by apply getb_run).
    do 3 (erewrite bind_ok by apply updb_run). erewrite bind_ok.
    2:{ apply getb_run. cbn [io_bufs set_bufs]. rewrite !list_lookup_alter_ne by done. exact Hh. }
    erewrite bind_ok by apply updb_run. apply updb_run. }
  cbn [io_bufs set_bufs]. rewrite Hn. eexists. split; [reflexivity|].
  split; [by rewrite !length_alter|]. split.
  - pose proof (ring_push_front _ _ b Hlen Hr Hbl Hb Hl) as Hp.
    eapply ring_ext; [| |exact Hp]; intros i; unfold push_front.
    + rewrite !nxt_set_next by (rewrite !length_alter, Hlen; unfold HEAD; lia).
      apply upd_ext. intros j.
      by rewrite !(nxt_alter_frame (set_prev _)), (nxt_alter_frame (set_dev _)), !(nxt_alter_frame (set_prev _)).
    + rewrite (nxt_alter_frame (set_prev HEAD)) by done.
      rewrite (nxt_set_next _ b) by lia. rewrite (upd_ne _ b HEAD) by done.
      assert (Hnh : (nxt (io_bufs s) HEAD < S NBUF)%nat).
      { destruct Hr as [Hs _]. rewrite (seg_next _ _ _ _ _ Hs).
        destruct l as [|c l']; simpl; [unfold HEAD; lia|].
        assert (c < NBUF)%nat by (apply Hl; left). lia. }
      rewrite !(prv_alter_frame (set_next b)) by done.
      rewrite !prv_set_prev by (rewrite !length_alter; lia).
      apply upd_ext. intros j. by rewrite (prv_alter_frame (set_dev _)).
  - rewrite !strip_alter_link by done. rewrite strip_alter by done.
    rewrite !strip_alter_link, Hst by done. apply list_eq. intros j. unfold fresh_upto.
    destruct (decide (j = b)) as [->|Hne].
    + rewrite list_lookup_alter_eq, !list_lookup_imap. destruct (bs0 !! b); [|done]. simpl.
      rewrite decide_False by lia. rewrite decide_True by lia. done.
    + rewrite list_lookup_alter_ne by done. rewrite !list_lookup_imap.
      destruct (bs0 !! j); [|done]. simpl. repeat case_decide; (done || lia).
Qed.

Lemma binit_run (s : bio) :
  length (io_bufs s) = S NBUF ->
  wp binit (fun _ s' => exists bs,
    s' = Bio (io_base s) (initlock "bcache" (io_lock s)) bs (io_disk s) /\
    lru bs (reverse (seq 0 NBUF)) /\ strip <$> bs = fresh_upto NBUF (io_bufs s)) s.
Proof.
  intros Hlen. unfold binit. wp_step. wp_step. apply wp_bind.
  eapply outcome_wp; [apply updb_run|]. apply wp_bind. eapply outcome_wp; [apply updb_run|].
  cbn [io_bufs set_bufs]. set (bs0 := alter _ _ _).
  assert (Hl0 : length bs0 = S NBUF) by (unfold bs0; by rewrite !length_alter).
  assert (Hst0 : strip <$> bs0 = strip <$> io_bufs s) by (unfold bs0; by rewrite !strip_alter_link).
  eapply wp_mono.
  { apply (wp_for (fun i s' => exists bs,
      s' = Bio (io_base s) (initlock "bcache" (io_lock s)) bs (io_disk s) /\ length bs = S NBUF /\
      ring (nxt bs) (prv bs) HEAD (reverse (seq 0 i)) /\ strip <$> bs = fresh_upto i (io_bufs s))).
    - exists bs0. split_and!; [done|done| |].
      + apply ring_nil; unfold bs0.
        * rewrite nxt_set_next by (rewrite length_alter, Hlen; unfold HEAD; lia). apply upd_eq.
        * rewrite prv_alter_frame by done.
          rewrite prv_set_prev by (rewrite Hlen; unfold HEAD; lia). apply upd_eq.
      + rewrite Hst0. apply list_eq. intros j. unfold fresh_upto.
        rewrite list_lookup_imap, list_lookup_fmap. by destruct (io_bufs s !! j).
    - intros i s' Hi (bs & -> & Hlb & Hr & Hst). wp_call binit_body; [done|done|exact Hr| | |exact Hst|].
      + rewrite elem_of_cons, elem_of_reverse, elem_of_seq. unfold HEAD. lia.
      + intros x. rewrite elem_of_reverse, elem_of_seq. lia.
      + intros _ s' (bs' & -> & Hl' & Hr' & Hst'). exists bs'. split_and!; try done.
        rewrite seq_S, reverse_app. exact Hr'. }
  intros _ s' (bs & -> & Hlb & Hr & Hst). exists bs. split_and!; try done.
  split_and!; [done|done|]. by rewrite reverse_Permutation.
Qed.

(** [binit] links every buffer of the cache, and only those, into one
    ring through the list head, in both directions, and leaves none of them
    caching a sector of a device in use. *)
Theorem binit_ring (s : bio) :
  length (io_bufs s) = S NBUF ->
  exists s', binit s = Ok tt s' /\ lru (io_bufs s') (reverse (seq 0 NBUF)) /\
    io_disk s' = io_disk s /\ free (io_lock s') /\
    forall i b, (i < NBUF)%nat -> io_bufs s' !! i = Some b -> dev b = 2 ^ 32 - 1.
Proof.
  intros Hlen. destruct (wp_outcome _ _ _ (binit_run s Hlen)) as ([] & s' & Hs & bs & -> & Hl & Hst).
  eexists. split; [exact Hs|]. split_and!; [exact Hl|done|done|].
  intros i b Hi Hb. cbn [io_bufs] in Hb. assert ((strip <$> bs) !! i = Some (strip b)) as Hx
    by (by rewrite list_lookup_fmap, Hb).
  rewrite Hst in Hx. unfold fresh_upto in Hx. rewrite list_lookup_imap in Hx.
  destruct (io_bufs s !! i) as [b0|]; [|done]. simpl in Hx. rewrite decide_True in Hx by lia.
  injection Hx as _ Hd _ _. by rewrite <- Hd.
Qed.

(** A zeroed cache over a disk, as at boot. *)
Definition bio0 (base : base) (d : disk) : bio :=
  Bio base (Spinlock 0 "" None []) (replicate (S NBUF) (Buf 0 0 0 0 0 (replicate 512 0))) d.

Definition disk0 : disk := Disk 1024 (fun _ => replicate 512 0) [].

Lemma binit_ring_witness :
  exists s', binit (bio0 ptable0 disk0) = Ok tt s' /\ lru (io_bufs s') (reverse (seq 0 NBUF)) /\
    io_disk s' = io_disk (bio0 ptable0 disk0) /\ free (io_lock s') /\
    forall i b, (i < NBUF)%nat -> io_bufs s' !! i = Some b -> dev b = 2 ^ 32 - 1.
Proof. apply (binit_ring (bio0 ptable0 disk0)). reflexivity. Defined.
