(* ===== verification/Cache.v ===== *)
(** The buffer cache as its clients see it: every sector has one current
    content, a client holds some buffers, and the calls of bio.c act on those.
    [cache_rel] relates the cache and the disk to that view; each call is
    shown to follow it. *)
From stdpp Require Import base list numbers strings sets gmap.
From S2P Require Import Prelude Params Spinlock Sched Ring Bio.

Set Warnings "-clear-no-such-hyp".

(** The buffers a client holds: index, sector and contents. *)
Abbreviation held := (gmap nat (Z * list Z)).

(** One buffer [b] at index [i] of the cache. [V] is the content of every
    sector, [H] the held buffers, [D] the sectors kept dirty in the cache. *)
Record buf_rel (V : Z -> list Z) (H : held) (D : list Z) (size : Z) (i : nat) (b : buf) : Prop := {
  br_dead : dev b <> 1 -> busy b = false /\ dirty b = false /\ H !! i = None;
  br_valid : dev b = 1 -> valid b = true;
  br_range : dev b = 1 -> 0 <= sector b < size;
  br_busy : dev b = 1 -> busy b = true -> H !! i = Some (sector b, data b);
  br_idle : dev b = 1 -> busy b = false -> H !! i = None /\ data b = V (sector b);
  br_dirty : dev b = 1 -> dirty b = true -> sector b ∈ D;
}.

(** A dirty buffer holds the sector. *)
Definition cached_dirty (bs : list buf) (sec : Z) : Prop :=
  exists i b, (i < NBUF)%nat /\ bs !! i = Some b /\ dev b = 1 /\ dirty b = true /\ sector b = sec.

Record cache_rel (s : bio) (V : Z -> list Z) (H : held) (D : list Z) : Prop := {
  cr_ok : bio_ok s;
  cr_bufs : forall i b, (i < NBUF)%nat -> pay s !! i = Some b ->
    buf_rel V H D (dk_size (io_disk s)) i b;
  cr_held : forall i x, H !! i = Some x -> (i < NBUF)%nat;
  cr_uniq : forall i j b b', (i < NBUF)%nat -> (j < NBUF)%nat ->
    pay s !! i = Some b -> pay s !! j = Some b' ->
    dev b = 1 -> dev b' = 1 -> sector b = sector b' -> i = j;
  cr_disk : forall sec, V sec = disk_get (io_disk s) sec \/ cached_dirty (pay s) sec;
  cr_pinned : forall sec, sec ∈ D -> cached_dirty (pay s) sec;
}.

Lemma pay_lookup s i b : io_bufs s !! i = Some b -> pay s !! i = Some (strip b).
Proof. intros Hb. unfold pay. by rewrite list_lookup_fmap, Hb. Qed.

Lemma pay_lookup_inv s i b :
  pay s !! i = Some b -> exists b', io_bufs s !! i = Some b' /\ strip b' = b.
Proof.
  unfold pay. rewrite list_lookup_fmap. destruct (io_bufs s !! i) as [b'|]; simpl; [|done].
  intros [= <-]. eauto.
Qed.

Lemma pay_alter s f i :
  (forall b, strip (f b) = f (strip b)) ->
  strip <$> alter f i (io_bufs s) = alter f i (pay s).
Proof. apply strip_alter. Qed.

(** A held buffer is in the cache, busy, with the recorded contents. *)
Lemma held_buf s V H D h sec d :
  cache_rel s V H D -> H !! h = Some (sec, d) ->
  exists b, io_bufs s !! h = Some b /\ (h < NBUF)%nat /\ busy b = true /\ valid b = true /\
    dev b = 1 /\ sector b = sec /\ data b = d /\ 0 <= sec < dk_size (io_disk s).
Proof.
  intros R Hh. pose proof (cr_held _ _ _ _ R _ _ Hh) as Hlt.
  destruct (cr_ok _ _ _ _ R) as [_ [l (Hlen & _)]].
  destruct (lookup_lt_is_Some_2 (io_bufs s) h) as [b Hb]; [lia|].
  pose proof (cr_bufs _ _ _ _ R _ _ Hlt (pay_lookup _ _ _ Hb)) as B. exists b.
  destruct (decide (dev b = 1)) as [Hd|Hd].
  2:{ destruct (br_dead _ _ _ _ _ _ B Hd) as (_ & _ & ?). congruence. }
  pose proof (br_valid _ _ _ _ _ _ B Hd). pose proof (br_range _ _ _ _ _ _ B Hd).
  destruct (busy b) eqn:E.
  - pose proof (br_busy _ _ _ _ _ _ B Hd E) as Hx. simpl in *.
    assert (sec = sector b /\ d = data b) as [-> ->] by (simpl in Hx; split; congruence).
    split_and!; (done || lia).
  - destruct (br_idle _ _ _ _ _ _ B Hd E). congruence.
Qed.

(** Distinct held buffers hold distinct sectors. *)
Lemma held_inj s V H D h h' sec d d' :
  cache_rel s V H D -> H !! h = Some (sec, d) -> H !! h' = Some (sec, d') -> h = h'.
Proof.
  intros R H1 H2.
  destruct (held_buf _ _ _ _ _ _ _ R H1) as (b & Hb & Hl & _ & _ & Hd & Hs & _).
  destruct (held_buf _ _ _ _ _ _ _ R H2) as (b' & Hb' & Hl' & _ & _ & Hd' & Hs' & _).
  apply (cr_uniq _ _ _ _ R h h' (strip b) (strip b')); auto using pay_lookup.
  simpl. congruence.
Qed.

(** Establishing the relation for a busy buffer. *)
Lemma buf_rel_busy V H D size i b :
  dev b = 1 -> valid b = true -> busy b = true -> 0 <= sector b < size ->
  H !! i = Some (sector b, data b) -> (dev b = 1 -> dirty b = true -> sector b ∈ D) ->
  buf_rel V H D size i b.
Proof. intros Hd Hv Hb Hr Hi HD. split; try done. intros _ ?. congruence. Qed.

(** One buffer changes, to hold sector [sec] as [b']; the others keep their
    contents, and [sec] is nobody else's. *)
Lemma cache_update s s' V V' H H' D D' h b b' sec :
  cache_rel s V H D -> bio_ok s' -> dk_size (io_disk s') = dk_size (io_disk s) ->
  (h < NBUF)%nat -> pay s !! h = Some b -> pay s' = <[h := b']> (pay s) ->
  (sector b = sec \/ dirty b = false) ->
  dev b' = 1 -> sector b' = sec ->
  buf_rel V' H' D' (dk_size (io_disk s)) h b' ->
  (forall i, i <> h -> H' !! i = H !! i) ->
  (forall x, x <> sec -> V' x = V x) ->
  (forall x, x <> sec -> x ∈ D <-> x ∈ D') -> (sec ∈ D' -> dirty b' = true) ->
  (forall i b, (i < NBUF)%nat -> i <> h -> pay s !! i = Some b -> dev b = 1 -> sector b <> sec) ->
  (forall x, x <> sec -> disk_get (io_disk s') x = disk_get (io_disk s) x) ->
  (V' sec = disk_get (io_disk s') sec \/ dirty b' = true) ->
  cache_rel s' V' H' D'.
Proof.
  intros R Hok Hsz Hh Hpb Hpay Hold Hd Hsec Hb' HH HV HD HDs Huniq Hdisk Hnew.
  assert (Hlk : forall i b, i <> h -> pay s' !! i = Some b -> pay s !! i = Some b).
  { intros i c Hne. rewrite Hpay, list_lookup_insert_ne by congruence. done. }
  assert (Hlh : forall b, pay s' !! h = Some b -> b = b').
  { intros c. rewrite Hpay. intros Hc. pose proof (lookup_lt_Some _ _ _ Hc) as Hlt.
    rewrite length_insert in Hlt. rewrite list_lookup_insert_eq in Hc by done. congruence. }
  assert (Hother : forall x, x <> sec -> cached_dirty (pay s) x -> cached_dirty (pay s') x).
  { intros x Hx (i & c & Hi & Hc & Hdv & Hdc & Hsc). assert (i <> h) as Hne.
    { intros ->. rewrite Hpb in Hc. injection Hc as <-. destruct Hold; congruence. }
    exists i, c. split_and!; try done. by rewrite Hpay, list_lookup_insert_ne. }
  assert (Hself : dirty b' = true -> cached_dirty (pay s') sec).
  { intros Hn. exists h, b'. split_and!; try done.
    rewrite Hpay. apply list_lookup_insert_eq. by eapply lookup_lt_Some. }
  split; [done| | | | |].
  - clear b Hpb Hold. intros i b Hi Hb. rewrite Hsz. destruct (decide (i = h)) as [->|Hne].
    + by apply Hlh in Hb as ->.
    + apply Hlk in Hb; [|done]. pose proof (cr_bufs _ _ _ _ R _ _ Hi Hb) as B.
      pose proof (Huniq _ _ Hi Hne Hb) as Hns. destruct B.
      split; rewrite ?(HH i Hne); auto.
      2:{ intros Hdb Hdi. apply HD; auto. }
      * intros Hdb Hbz. destruct (br_idle0 Hdb Hbz) as [-> Hda]. split; [done|].
        rewrite HV; auto.
  - intros i x Hi. destruct (decide (i = h)) as [->|Hne]; [done|].
    rewrite HH in Hi by done. by eapply cr_held.
  - clear b Hpb Hold. intros i j b c Hi Hj Hb Hc Hdb Hdc Hbc.
    destruct (decide (i = h)) as [->|Hni]; destruct (decide (j = h)) as [->|Hnj]; [done| | |].
    + apply Hlh in Hb as ->. apply Hlk in Hc; [|done].
      destruct (Huniq _ _ Hj Hnj Hc Hdc). congruence.
    + apply Hlh in Hc as ->. apply Hlk in Hb; [|done].
      destruct (Huniq _ _ Hi Hni Hb Hdb). congruence.
    + apply Hlk in Hb; [|done]. apply Hlk in Hc; [|done]. eapply (cr_uniq _ _ _ _ R); eauto.
  - intros x. destruct (decide (x = sec)) as [->|Hx].
    + destruct Hnew as [?|Hn]; [by left|right; auto].
    + rewrite HV, Hdisk by done. destruct (cr_disk _ _ _ _ R x) as [?|?]; [by left|right; auto].
  - intros x Hx. destruct (decide (x = sec)) as [->|Hne]; [auto|].
    apply Hother; [done|]. apply (cr_pinned _ _ _ _ R). by apply HD.
Qed.

(** The only buffer with a sector is the dirty one. *)
Lemma cached_dirty_at s V H D i b :
  cache_rel s V H D -> (i < NBUF)%nat -> pay s !! i = Some b -> dev b = 1 ->
  cached_dirty (pay s) (sector b) -> dirty b = true.
Proof.
  intros R Hi Hb Hd (j & c & Hj & Hc & Hdc & Hdi & Hsc).
  assert (j = i) as -> by (by apply (cr_uniq _ _ _ _ R j i c b)). congruence.
Qed.

(** A held buffer's sector is in no other buffer. *)
Lemma held_sole s V H D h sec d :
  cache_rel s V H D -> H !! h = Some (sec, d) ->
  forall i b, (i < NBUF)%nat -> i <> h -> pay s !! i = Some b -> dev b = 1 -> sector b <> sec.
Proof.
  intros R Hh i b Hi Hne Hb Hd Hs.
  destruct (held_buf _ _ _ _ _ _ _ R Hh) as (b' & Hb' & Hl & _ & _ & Hd' & Hs' & _).
  apply Hne, (cr_uniq _ _ _ _ R i h b (strip b')); auto using pay_lookup.
  simpl. congruence.
Qed.

Lemma pay_alter_insert s f h b :
  io_bufs s !! h = Some b -> (forall x, strip (f x) = f (strip x)) ->
  strip <$> alter f h (io_bufs s) = <[h := f (strip b)]> (pay s).
Proof.
  intros Hb Hf. rewrite pay_alter by done. apply list_eq. intros i.
  destruct (decide (i = h)) as [->|Hne].
  - rewrite list_lookup_alter_eq. rewrite (pay_lookup _ _ _ Hb).
    rewrite list_lookup_insert_eq; [done|]. unfold pay. rewrite length_fmap.
    by eapply lookup_lt_Some.
  - by rewrite list_lookup_alter_ne, list_lookup_insert_ne by congruence.
Qed.

Definition vset (V : Z -> list Z) (sec : Z) (d : list Z) : Z -> list Z :=
  fun x => if decide (x = sec) then d else V x.
Lemma vset_eq V sec d : vset V sec d sec = d.
Proof. unfold vset. by rewrite decide_True. Qed.
Lemma vset_ne V sec d x : x <> sec -> vset V sec d x = V x.
Proof. intros. unfold vset. by rewrite decide_False. Qed.

Lemma disk_get_put d sec b x :
  disk_get (disk_put sec b d) x = if decide (x = sec) then b else disk_get d x.
Proof.
  unfold disk_get, disk_put. simpl. case_decide as Hx.
  - subst. by rewrite Z.eqb_refl.
  - destruct (sec =? x) eqn:E; [lia|done].
Qed.

Lemma bio_ok_alter s f i :
  (forall b, next (f b) = next b /\ prev (f b) = prev b) ->
  bio_ok s -> bio_ok (set_bufs (alter f i (io_bufs s)) s).
Proof. intros Hf [Hl [l Hr]]. split; [done|]. exists l. simpl. by apply lru_alter. Qed.

(** *** Assigning to [b->data] of a held buffer *)
Definition bset (h : nat) (d : list Z) : M bio unit := updb h (set_data d).

Lemma cache_bset s V H D h sec d0 d :
  cache_rel s V H D -> H !! h = Some (sec, d0) ->
  wp (bset h d) (fun _ s' => cache_rel s' V (<[h := (sec, d)]> H) D /\ io_disk s' = io_disk s /\
                             calm (io_base s) (io_base s')) s.
Proof.
  intros R Hh. destruct (held_buf _ _ _ _ _ _ _ R Hh) as (b & Hb & Hl & Hbu & Hv & Hd & <- & <- & Hr).
  pose proof (cr_bufs _ _ _ _ R _ _ Hl (pay_lookup _ _ _ Hb)) as B.
  eapply outcome_wp; [apply updb_run|]. split; [|split; [done|reflexivity]].
  eapply (cache_update s _ V V H _ D D h (strip b) (set_data d (strip b)) (sector b) R); try done.
  - apply bio_ok_alter; [done|apply R].
  - by apply pay_lookup.
  - unfold pay at 1. simpl. by apply pay_alter_insert.
  - by left.
  - apply buf_rel_busy; try done; [simpl; by rewrite lookup_insert_eq|apply B].
  - intros i Hi. by rewrite lookup_insert_ne.
  - intros Hx%(cr_pinned _ _ _ _ R).
    by apply (cached_dirty_at _ _ _ _ _ _ R Hl (pay_lookup _ _ _ Hb)).
  - by eapply held_sole.
  - destruct (cr_disk _ _ _ _ R (sector b)) as [?|Hcd]; [by left|right].
    by apply (cached_dirty_at _ _ _ _ _ _ R Hl (pay_lookup _ _ _ Hb)).
Qed.

(** *** bwrite *)
Lemma cache_bwrite s V H D D' h sec d :
  cache_rel s V H D -> H !! h = Some (sec, d) ->
  (forall x, x <> sec -> x ∈ D <-> x ∈ D') -> sec ∉ D' ->
  wp (bwrite h) (fun _ s' => cache_rel s' (vset V sec d) H D' /\
    io_disk s' = disk_put sec d (io_disk s) /\ calm (io_base s) (io_base s')) s.
Proof.
  intros R Hh HD HnD.
  destruct (held_buf _ _ _ _ _ _ _ R Hh) as (b & Hb & Hl & Hbu & Hv & Hd & <- & <- & Hr).
  eapply outcome_wp; [apply bwrite_run; (done || lia)|]. split; [|split; [done|reflexivity]].
  eapply (cache_update s _ V _ H _ D D' h (strip b) (flushed (strip b)) (sector b) R); try done.
  - apply (bio_ok_alter s flushed h); [done|apply R].
  - by apply pay_lookup.
  - unfold pay at 1. simpl. by apply pay_alter_insert.
  - by left.
  - apply buf_rel_busy; unfold flushed; autorewrite with kernel; try done.
  - intros x Hx. by apply vset_ne.
  - by eapply held_sole.
  - intros x Hx. simpl. rewrite disk_get_put. by rewrite decide_False.
  - left. simpl. rewrite vset_eq, disk_get_put. by rewrite decide_True.
Qed.

(** *** Marking a held buffer dirty, as [log_write] does *)
Lemma cache_mark_dirty s V H D D' h sec d :
  cache_rel s V H D -> H !! h = Some (sec, d) ->
  (forall x, x <> sec -> x ∈ D <-> x ∈ D') -> sec ∈ D' ->
  wp (updb h mark_dirty) (fun _ s' => cache_rel s' (vset V sec d) H D' /\
    io_disk s' = io_disk s /\ calm (io_base s) (io_base s')) s.
Proof.
  intros R Hh HD Hin.
  destruct (held_buf _ _ _ _ _ _ _ R Hh) as (b & Hb & Hl & Hbu & Hv & Hd & <- & <- & Hr).
  eapply outcome_wp; [apply updb_run|]. split; [|split; [done|reflexivity]].
  eapply (cache_update s _ V _ H _ D D' h (strip b) (mark_dirty (strip b)) (sector b) R); try done.
  - apply (bio_ok_alter s mark_dirty h); [done|apply R].
  - by apply pay_lookup.
  - unfold pay at 1. simpl. by apply pay_alter_insert.
  - by left.
  - apply buf_rel_busy; autorewrite with kernel; try done.
  - intros x Hx. by apply vset_ne.
  - by autorewrite with kernel.
  - by eapply held_sole.
  - right. by autorewrite with kernel.
Qed.

(** *** brelse *)
Lemma cache_brelse s V H D h sec :
  cache_rel s V H D -> H !! h = Some (sec, V sec) ->
  wp (brelse h) (fun _ s' => cache_rel s' V (delete h H) D /\
    io_disk s' = io_disk s /\ calm (io_base s) (io_base s')) s.
Proof.
  intros R Hh.
  destruct (held_buf _ _ _ _ _ _ _ R Hh) as (b & Hb & Hl & Hbu & Hv & Hd & Hs & Hda & Hr).
  destruct (cr_ok _ _ _ _ R) as [Hlk [l Hlru]].
  pose proof (proj2 (lru_lt _ _ h Hlru) Hl) as [l1 [l2 ->]]%list_elem_of_split.
  eapply outcome_wp.
  { eapply brelse_run; [done|exact Hlru|done|]. pose proof (land_busy b) as Hx. rewrite Hbu in Hx.
    simpl in Hx. lia. }
  split; [|split; [done|split_and!; try done; apply wake_still]].
  eapply (cache_update s _ V _ H _ D D h (strip b) (clear_busy (strip b)) sec R); try done.
  - split; [auto with kernel|]. eexists. apply lru_alter; [done|]. apply lru_move_front. exact Hlru.
  - by apply pay_lookup.
  - unfold pay at 1. simpl. rewrite strip_alter by done. rewrite strip_move_front.
    rewrite <- strip_alter by done. by apply pay_alter_insert.
  - by left.
  - pose proof (cr_bufs _ _ _ _ R _ _ Hl (pay_lookup _ _ _ Hb)) as B.
    split; autorewrite with kernel; simpl; try done.
    + intros _. by rewrite Hs.
    + intros _ _. rewrite lookup_delete_eq, Hs. by split.
    + apply B.
  - intros i Hi. by rewrite lookup_delete_ne.
  - intros Hx%(cr_pinned _ _ _ _ R). autorewrite with kernel. rewrite <- Hs in Hx.
    by apply (cached_dirty_at _ _ _ _ _ _ R Hl (pay_lookup _ _ _ Hb)).
  - by eapply held_sole.
  - destruct (cr_disk _ _ _ _ R sec) as [?|Hx]; [by left|right].
    autorewrite with kernel. rewrite <- Hs in Hx.
    by apply (cached_dirty_at _ _ _ _ _ _ R Hl (pay_lookup _ _ _ Hb)).
Qed.

(** ** A spare buffer exists while fewer than NBUF are held or kept dirty. *)
Section room.
  Context (s : bio) (V : Z -> list Z) (H : held) (D : list Z) (l : list nat).
  Hypothesis R : cache_rel s V H D.
  Hypothesis Hl : lru (io_bufs s) l.

Definition sec_at (i : nat) : Z := match pay s !! i with Some b => sector b | None => 0 end.
Definition dirty_at (i : nat) : bool := match pay s !! i with Some b => dirty b | None => false end.

Lemma not_spare_cases i :
    (i < NBUF)%nat -> is_spare (io_bufs s) i = false ->
    i ∈ dom H \/ (dirty_at i = true /\ sec_at i ∈ D).
  Proof.
    intros Hi Hsp. pose proof Hl as (Hlen & _).
    destruct (lookup_lt_is_Some_2 (io_bufs s) i) as [b Hb]; [lia|].
    pose proof (cr_bufs _ _ _ _ R _ _ Hi (pay_lookup _ _ _ Hb)) as B.
    unfold is_spare in Hsp. rewrite Hb in Hsp. unfold spare in Hsp.
    rewrite land_busy, land_dirty in Hsp.
    unfold sec_at, dirty_at. rewrite (pay_lookup _ _ _ Hb).
    destruct (decide (dev b = 1)) as [Hd|Hd].
    - destruct (busy b) eqn:E.
      + left. apply elem_of_dom. eexists. by apply (br_busy _ _ _ _ _ _ B).
      + right. destruct (dirty b) eqn:Ed; [|done]. split; [done|].
        by apply (br_dirty _ _ _ _ _ _ B).
    - destruct (br_dead _ _ _ _ _ _ B Hd) as (Hb1 & Hb2 & _).
      unfold busy, dirty in *. simpl in *. rewrite Hb1, Hb2 in Hsp. done.
  Qed.

Lemma spare_exists :
    (size H + length D < NBUF)%nat ->
    exists i, first (is_spare (io_bufs s)) (reverse l) = Some i.
  Proof.
    intros Hroom. destruct (first _ (reverse l)) as [i|] eqn:E; [by exists i|exfalso].
    rewrite first_None in E.
    assert (Hall : forall i, (i < NBUF)%nat -> is_spare (io_bufs s) i = false).
    { intros i Hi. apply E. apply elem_of_reverse. by apply (lru_lt _ _ i Hl). }
    set (A := filter (fun i => i ∈ dom H) (seq 0 NBUF)).
    set (C := filter (fun i => i ∉ dom H) (seq 0 NBUF)).
    assert (HA : (length A <= size H)%nat).
    { rewrite <- size_dom. unfold A.
      rewrite <- (size_list_to_set (C := gset nat)) by (apply NoDup_filter, NoDup_seq).
      apply subseteq_size. intros x Hx. apply elem_of_list_to_set, list_elem_of_filter in Hx.
      tauto. }
    assert (HC : (length C <= length D)%nat).
    { rewrite <- (length_fmap sec_at C). apply submseteq_length, NoDup_submseteq.
      - apply (NoDup_fmap_2_strong sec_at).
        + intros x y Hx Hy Hxy.
          apply list_elem_of_filter in Hx as [Hx Hxs], Hy as [Hy Hys].
          apply elem_of_seq in Hxs, Hys.
          destruct (not_spare_cases x) as [?|[Hdx _]]; [lia|apply Hall; lia|done|].
          destruct (not_spare_cases y) as [?|[Hdy _]]; [lia|apply Hall; lia|done|].
          unfold sec_at, dirty_at in *.
          destruct (pay s !! x) as [b|] eqn:Hb; [|done]. destruct (pay s !! y) as [c|] eqn:Hc; [|done].
          apply (cr_uniq _ _ _ _ R x y b c); try done; try lia.
          * destruct (decide (dev b = 1)) as [|Hd]; [done|].
            pose proof (cr_bufs _ _ _ _ R x b ltac:(lia) Hb) as B.
            destruct (br_dead _ _ _ _ _ _ B Hd) as (_ & ? & _). congruence.
          * destruct (decide (dev c = 1)) as [|Hd]; [done|].
            pose proof (cr_bufs _ _ _ _ R y c ltac:(lia) Hc) as B.
            destruct (br_dead _ _ _ _ _ _ B Hd) as (_ & ? & _). congruence.
        + apply NoDup_filter, NoDup_seq.
      - intros x Hx. apply list_elem_of_fmap in Hx as (i & -> & Hi).
        apply list_elem_of_filter in Hi as [Hi Hs]. apply elem_of_seq in Hs.
        destruct (not_spare_cases i) as [?|[_ ?]]; [lia|apply Hall; lia|done|done]. }
    assert (Hsum : (length A + length C = NBUF)%nat); [|lia].
    rewrite <- (length_seq NBUF 0). unfold A, C. clear.
    induction (seq 0 NBUF) as [|x xs IH]; [done|]. rewrite !filter_cons.
    repeat case_decide; simpl; try tauto; lia.
  Qed.
End room.

(** *** bread *)
Lemma caches_Some s d sec i :
  caches (io_bufs s) d sec i = true ->
  exists b, io_bufs s !! i = Some b /\ dev b = d /\ sector b = sec.
Proof.
  unfold caches. destruct (io_bufs s !! i) as [b|]; [|done]. intros Hx.
  exists b. split; [done|]. lia.
Qed.

Lemma bread_hit s V H D l i sec :
  cache_rel s V H D -> lru (io_bufs s) l ->
  (forall h d, H !! h <> Some (sec, d)) ->
  first (caches (io_bufs s) 1 sec) l = Some i ->
  wp (bread 1 sec) (fun h s' => H !! h = None /\ cache_rel s' V (<[h := (sec, V sec)]> H) D /\
    io_disk s' = io_disk s /\ calm (io_base s) (io_base s')) s.
Proof.
  intros R Hl Hfree Hi. pose proof Hi as [Hin (b & Hb & Hd & Hs)%caches_Some]%first_Some.
  apply (lru_lt _ _ i Hl) in Hin. destruct (cr_ok _ _ _ _ R) as [Hlk _].
  pose proof (cr_bufs _ _ _ _ R _ _ Hin (pay_lookup _ _ _ Hb)) as B.
  assert (Hbz : busy b = false).
  { destruct (busy b) eqn:E; [|done]. destruct (Hfree i (data b)).
    rewrite <- Hs. by apply (br_busy _ _ _ _ _ _ B). }
  assert (Hv : valid b = true) by (by apply (br_valid _ _ _ _ _ _ B)).
  destruct (br_idle _ _ _ _ _ _ B Hd Hbz) as [HNone Hda]. simpl in HNone, Hda.
  eapply outcome_wp.
  { unfold bread. erewrite bind_ok.
    2:{ eapply (bget_hit s l); [done|done|exact Hi|exact Hb|].
        pose proof (land_busy b) as Hx. rewrite Hbz in Hx. simpl in Hx. lia. }
    erewrite (bind_ok (getb i)).
    2:{ apply getb_run. simpl. rewrite list_lookup_alter_eq, Hb. reflexivity. }
    fold (mark_busy b). autorewrite with kernel. rewrite Hv. reflexivity. }
  split; [done|]. split; [|split; [done|split_and!; done]].
  eapply (cache_update s _ V _ H _ D D i (strip b) (mark_busy (strip b)) sec R); try done.
  - split; [auto with kernel|]. exists l. by apply lru_alter.
  - by apply pay_lookup.
  - unfold pay at 1. simpl. by apply pay_alter_insert.
  - by left.
  - apply buf_rel_busy; autorewrite with kernel; try done.
    + apply B. done.
    + rewrite lookup_insert_eq. simpl. by rewrite Hda, Hs.
    + apply B.
  - intros j Hj. by rewrite lookup_insert_ne.
  - intros Hx%(cr_pinned _ _ _ _ R). autorewrite with kernel. rewrite <- Hs in Hx.
    by apply (cached_dirty_at _ _ _ _ _ _ R Hin (pay_lookup _ _ _ Hb)).
  - intros j c Hj Hne Hc Hdc Hsc. apply Hne.
    apply (cr_uniq _ _ _ _ R j i c (strip b)); auto using pay_lookup. simpl. congruence.
  - destruct (cr_disk _ _ _ _ R sec) as [?|Hx]; [by left|right].
    autorewrite with kernel. rewrite <- Hs in Hx.
    by apply (cached_dirty_at _ _ _ _ _ _ R Hin (pay_lookup _ _ _ Hb)).
Qed.

(** A recycled buffer, filled from the disk. *)
Definition filled (sec : Z) (d : list Z) (x : buf) : buf :=
  mark_valid (set_data d (set_flags B_BUSY (set_sector sec (set_dev 1 x)))).

Lemma bread_miss s V H D l i sec :
  cache_rel s V H D -> lru (io_bufs s) l -> 0 <= sec < dk_size (io_disk s) ->
  first (caches (io_bufs s) 1 sec) l = None ->
  first (is_spare (io_bufs s)) (reverse l) = Some i ->
  wp (bread 1 sec) (fun h s' => H !! h = None /\ cache_rel s' V (<[h := (sec, V sec)]> H) D /\
    io_disk s' = io_disk s /\ calm (io_base s) (io_base s')) s.
Proof.
  intros R Hl Hr Hc Hi. destruct (cr_ok _ _ _ _ R) as [Hlk _]. rewrite first_None in Hc.
  assert (Hnone : forall j c, (j < NBUF)%nat -> pay s !! j = Some c -> dev c = 1 -> sector c <> sec).
  { intros j c Hj (c' & Hc' & <-)%pay_lookup_inv Hd Hs.
    assert (caches (io_bufs s) 1 sec j = false) as Hx by (apply Hc; by apply (lru_lt _ _ j Hl)).
    unfold caches in Hx. rewrite Hc' in Hx. simpl in *. lia. }
  pose proof Hi as [Hin Hsp]%first_Some. apply elem_of_reverse, (lru_lt _ _ i Hl) in Hin.
  unfold is_spare in Hsp. destruct (io_bufs s !! i) as [b|] eqn:Hb; [|done].
  unfold spare in Hsp. rewrite land_busy, land_dirty in Hsp.
  pose proof (cr_bufs _ _ _ _ R _ _ Hin (pay_lookup _ _ _ Hb)) as B.
  assert (Hbz : busy b = false) by (destruct (busy b); done).
  assert (Hdz : dirty b = false) by (destruct (dirty b); [by rewrite andb_false_r in Hsp|done]).
  assert (HNone : H !! i = None).
  { destruct (decide (dev b = 1)) as [Hd|Hd]; [by apply (br_idle _ _ _ _ _ _ B)|].
    by apply (br_dead _ _ _ _ _ _ B). }
  assert (HV : V sec = disk_get (io_disk s) sec).
  { destruct (cr_disk _ _ _ _ R sec) as [?|(j & c & Hj & Hcj & Hdc & _ & Hsc)]; [done|].
    by destruct (Hnone j c Hj Hcj Hdc). }
  eapply outcome_wp.
  { unfold bread. erewrite bind_ok.
    2:{ eapply (bget_miss s l); [done|done| |exact Hi]. by rewrite first_None. }
    set (x := set_flags B_BUSY (set_sector sec (set_dev 1 b))).
    set (s1 := io_done _ _).
    assert (Hx : io_bufs s1 !! i = Some x) by (simpl; by rewrite list_lookup_alter_eq, Hb).
    erewrite (bind_ok (getb i)) by (by apply getb_run). rewrite has_valid.
    change (valid x) with false. cbn [negb].
    erewrite bind_ok; [reflexivity|].
    apply (iderw_read s1 i x); [done|done|done|simpl; lia|done|done]. }
  split; [done|]. split; [|split; [done|split_and!; done]].
  eapply (cache_update s _ V _ H _ D D i (strip b)
            (filled sec (disk_get (io_disk s) sec) (strip b)) sec R); try done.
  - split; [apply (locks_ok_done (io_bufs s) s Hlk)|]. exists l. simpl.
    by apply lru_alter, lru_alter.
  - by apply pay_lookup.
  - unfold pay at 1. simpl. rewrite alter_alter. by apply pay_alter_insert.
  - right. done.
  - apply buf_rel_busy; try done. rewrite lookup_insert_eq. simpl. by rewrite HV.
  - intros j Hj. by rewrite lookup_insert_ne.
  - intros (j & c & Hj & Hcj & Hdc & _ & Hsc)%(cr_pinned _ _ _ _ R).
    by destruct (Hnone j c Hj Hcj Hdc).
  - intros j c Hj _. by apply Hnone.
  - by left.
Qed.

Lemma cache_bread s V H D sec :
  cache_rel s V H D -> 0 <= sec < dk_size (io_disk s) ->
  (forall h d, H !! h <> Some (sec, d)) -> sec ∈ D \/ (size H + length D < NBUF)%nat ->
  wp (bread 1 sec) (fun h s' => H !! h = None /\ cache_rel s' V (<[h := (sec, V sec)]> H) D /\
    io_disk s' = io_disk s /\ calm (io_base s) (io_base s')) s.
Proof.
  intros R Hr Hfree Hroom. destruct (cr_ok _ _ _ _ R) as [_ [l Hl]].
  destruct (first (caches (io_bufs s) 1 sec) l) as [i|] eqn:E.
  - by eapply bread_hit.
  - destruct Hroom as [(i & b & Hi & (c & Hc & <-)%pay_lookup_inv & Hd & _ & Hs)%(cr_pinned _ _ _ _ R)|Hroom].
    + rewrite first_None in E. specialize (E i (proj2 (lru_lt _ _ i Hl) Hi)).
      unfold caches in E. rewrite Hc in E. simpl in *. lia.
    + destruct (spare_exists s V H D l R Hl Hroom) as [i Hi]. by eapply bread_miss.
Qed.

(** The cache does not depend on the process table beneath it. *)
Lemma cache_rel_base s s' V H D :
  cache_rel s V H D -> locks_ok s' -> io_bufs s' = io_bufs s -> io_disk s' = io_disk s ->
  cache_rel s' V H D.
Proof.
  intros [[_ Hl] ? ? ? ? ?] Hlk Hb Hd. split; unfold pay, bio_ok in *; rewrite ?Hb, ?Hd; auto.
Qed.
