(* ===== verification/Drivers.v ===== *)
(** The two disk drivers: ide.c, over the MMC controller, and memide.c, with
    the disk in memory. Both do to a buffer and a disk what [iderw] of Bio
    does, which the buffer cache is verified with. *)
From stdpp Require Import base numbers list strings sets gmap.
From S2P Require Import Prelude Params Spinlock Sched Bio.

Set Warnings "-clear-no-such-hyp".

(** ** iderw over a device

    The two files have the same routine but for the transfer: [disksize] is
    the number of sectors, [wr] and [rd] move the data of a buffer to and
    from a sector. *)
Record drv (X : Type) := Drv { d_bufs : list buf; d_dev : X }.
Arguments Drv {X}. Arguments d_bufs {X}. Arguments d_dev {X}.

Section iderw.
  Context {X : Type} (disksize : X -> Z) (wr : Z -> list Z -> X -> X) (rd : Z -> X -> X * list Z).

Definition upd_buf (b : nat) (f : buf -> buf) : M (drv X) unit := modify (fun s => Drv (alter f b (d_bufs s)) (d_dev s)).

Definition iderw_dev (b : nat) : M (drv X) unit :=
    s <- get ;;
    bb <- some (d_bufs s !! b) ;;
    if negb (Flag.has (flags bb) B_BUSY) then panic "iderw: buf not busy" else
    if Z.land (flags bb) (Z.lor B_VALID B_DIRTY) =? B_VALID then panic "iderw: nothing to do" else
    if negb (dev bb =? 1) then panic "iderw: request not for disk 1" else
    if sector bb >=? disksize (d_dev s) then panic "iderw: sector out of range" else
    (if Flag.has (flags bb) B_DIRTY then
       upd_buf b (fun x => set_flags (Z.land (flags x) (Z.lnot B_DIRTY)) x) ;;;
       modify (fun s => Drv (d_bufs s) (wr (sector bb) (data bb) (d_dev s)))
     else
       let (x, d) := rd (sector bb) (d_dev s) in
       modify (fun s => Drv (alter (set_data d) b (d_bufs s)) x)) ;;;
    upd_buf b (fun x => set_flags (Z.lor (flags x) B_VALID) x).
End iderw.

(** What a driver promises: [view] is the contents of each sector. *)
Class DriverLaws {X : Type} (disksize : X -> Z) (wr : Z -> list Z -> X -> X) (rd : Z -> X -> X * list Z)
    (view : X -> Z -> list Z) (good : X -> Prop) := {
  dl_wr : forall x sec d, good x -> 0 <= sec < disksize x -> length d = 512%nat ->
    good (wr sec d x) /\ disksize (wr sec d x) = disksize x /\
    forall n, 0 <= n < disksize x -> view (wr sec d x) n = if decide (n = sec) then d else view x n;
  dl_rd : forall x sec, good x -> 0 <= sec < disksize x ->
    good (fst (rd sec x)) /\ disksize (fst (rd sec x)) = disksize x /\ snd (rd sec x) = view x sec /\
    forall n, 0 <= n < disksize x -> view (fst (rd sec x)) n = view x n;
}.

Section refine.
  Context {X : Type} {disksize : X -> Z} {wr : Z -> list Z -> X -> X} {rd : Z -> X -> X * list Z}
    {view : X -> Z -> list Z} {good : X -> Prop} {DL : DriverLaws disksize wr rd view good}.

  (** The same buffers and the same disk. *)
Record same_disk (s : drv X) (t : bio) : Prop := {
    sd_bufs : d_bufs s = io_bufs t;
    sd_good : good (d_dev s);
    sd_size : disksize (d_dev s) = dk_size (io_disk t);
    sd_view : forall n, 0 <= n < dk_size (io_disk t) -> view (d_dev s) n = disk_get (io_disk t) n;
    sd_data : forall i b, io_bufs t !! i = Some b -> 0 <= sector b /\ length (data b) = 512%nat;
  }.

  (** A run of the driver that follows one over the abstract disk. *)
Definition follows (t : bio) (o : outcome bio unit) (o' : outcome (drv X) unit) : Prop :=
    match o with
    | Ok _ t' => exists s', o' = Ok tt s' /\ d_bufs s' = io_bufs t' /\ good (d_dev s') /\
        disksize (d_dev s') = dk_size (io_disk t') /\ (forall n, 0 <= n < dk_size (io_disk t') -> view (d_dev s') n = disk_get (io_disk t') n) /\
        io_base t' = io_base t /\ io_lock t' = io_lock t /\ dk_size (io_disk t') = dk_size (io_disk t)
    | Panic msg => o' = Panic msg
    | Fault => o' = Fault
    | _ => False
    end.

Lemma iderw_refines s t b : same_disk s t -> follows t (iderw b t) (iderw_dev disksize wr rd b s).
  Proof.
    intros [H1 H2 H3 H4 H5]. unfold follows, iderw, iderw_dev, getb. rewrite <- H1 in H5.
    unfold bind, get, some, modify, ret, fault, panic, updb, upd_buf. cbn [obind]. rewrite H1. destruct (io_bufs t !! b) as [bb|] eqn:Eb; cbn [obind]; [|done].
    rewrite <- H1 in Eb. destruct (H5 b bb Eb) as [Hs Hd].
    destruct (negb (Flag.has (flags bb) B_BUSY)); [done|]. destruct (Z.land (flags bb) (Z.lor B_VALID B_DIRTY) =? B_VALID); [done|].
    destruct (negb (dev bb =? 1)); [done|]. cbn [obind]. rewrite H3. destruct (Z.geb_spec (sector bb) (dk_size (io_disk t))) as [|Hin]; [done|].
    assert (Hr : 0 <= sector bb < disksize (d_dev s)) by lia. destruct (Flag.has (flags bb) B_DIRTY); cbn [obind].
    - destruct (dl_wr (d_dev s) (sector bb) (data bb) H2 Hr Hd) as (G & Hsz & Hv). eexists. split; [reflexivity|].
      cbn. rewrite H1. split_and!; try done; [congruence|]. intros n Hn. rewrite Hv by lia. rewrite H4 by done.
      unfold disk_get, disk_put. cbn [dk_writes written]. destruct (Z.eqb_spec (sector bb) n); [by rewrite decide_True by done|by rewrite decide_False by congruence].
    - destruct (dl_rd (d_dev s) (sector bb) H2 Hr) as (G & Hsz & Hrd & Hv). destruct (rd (sector bb) (d_dev s)) as [x d] eqn:Er. cbn [fst snd] in *.
      eexists. split; [reflexivity|]. cbn. rewrite Hrd, H4, H1 by lia. split_and!; try done; [congruence|].
      intros n Hn. rewrite Hv by lia. by apply H4.
  Qed.
End refine.

(** ** ide.c

    The controller is not code: [on_write] and [on_read] say what it does to
    its buffer and to itself when the registers sector_write and sector_read
    are written, [sectors] what its card holds. *)
Section ide.
  Context {D : Type} (on_write on_read : Z -> list Z * D -> list Z * D) (sectors : D -> Z -> list Z).

Definition ide_disksize (c : list Z * D) : Z := 0x200000.
Definition ide_write (sec : Z) (d : list Z) (c : list Z * D) : list Z * D :=
    on_write (u32 (Z.shiftl sec 9)) (splice 0 (take 512 d) (fst c), snd c).
Definition ide_read (sec : Z) (c : list Z * D) : (list Z * D) * list Z :=
    let c := on_read (u32 (Z.shiftl sec 9)) c in (c, take 512 (fst c)).
Definition ide_iderw : nat -> M (drv (list Z * D)) unit := iderw_dev ide_disksize ide_write ide_read.

  (** A byte address of a sector moves the 512 bytes of the buffer. *)
  Hypothesis write_law : forall sec b x, 0 <= sec < 0x200000 -> length b = 512%nat ->
    length (fst (on_write (512 * sec) (b, x))) = 512%nat /\
    forall n, 0 <= n < 0x200000 -> sectors (snd (on_write (512 * sec) (b, x))) n = if decide (n = sec) then b else sectors x n.
  Hypothesis read_law : forall sec b x, 0 <= sec < 0x200000 -> length b = 512%nat ->
    fst (on_read (512 * sec) (b, x)) = sectors x sec /\ length (sectors x sec) = 512%nat /\
    forall n, 0 <= n < 0x200000 -> sectors (snd (on_read (512 * sec) (b, x))) n = sectors x n.

Lemma sector_addr sec : 0 <= sec < 0x200000 -> u32 (Z.shiftl sec 9) = 512 * sec.
  Proof. intros H. rewrite Z.shiftl_mul_pow2 by lia. change (2 ^ 9) with 512. rewrite u32_id by (unfold is_u32; lia). lia. Qed.

Lemma ide_laws : DriverLaws ide_disksize ide_write ide_read (fun c => sectors (snd c)) (fun c => length (fst c) = 512%nat).
  Proof using write_law read_law.
    split.
    - intros [b x] sec d Hb Hs Hd. cbn [fst snd] in *. unfold ide_write, ide_disksize in *. rewrite sector_addr, take_ge by lia. cbn [fst snd].
      rewrite splice_all by lia. destruct (write_law sec d x Hs Hd) as [H1 H2]. by split_and!.
    - intros [b x] sec Hb Hs. cbn [fst snd] in *. unfold ide_read, ide_disksize in *. rewrite sector_addr by lia. cbn [fst snd].
      destruct (read_law sec b x Hs Hb) as (H1 & H2 & H3). rewrite H1, take_ge by lia. by split_and!.
  Qed.

  (** Over such a controller ide.c follows the abstract disk. *)
Theorem ide_refines s t b :
    let view := fun c => sectors (snd c) in let good := fun c => length (fst c) = 512%nat in
    same_disk (disksize := ide_disksize) (view := view) (good := good) s t ->
    follows (disksize := ide_disksize) (view := view) (good := good) t (iderw b t) (ide_iderw b s).
  Proof using write_law read_law. intros view good H. exact (iderw_refines (DL := ide_laws) s t b H). Qed.
End ide.

(** A card, as a list of writes; the laws hold for it. *)
Definition card_write (a : Z) (c : list Z * (Z -> list Z)) : list Z * (Z -> list Z) :=
  (fst c, fun n => if decide (n = a / 512) then fst c else snd c n).
Definition card_read (a : Z) (c : list Z * (Z -> list Z)) : list Z * (Z -> list Z) := (take 512 (snd c (a / 512) ++ replicate 512 0), snd c).
Definition card_sectors (x : Z -> list Z) (n : Z) : list Z := take 512 (x n ++ replicate 512 0).

Lemma card_laws : DriverLaws ide_disksize (ide_write card_write) (ide_read card_read) (fun c => card_sectors (snd c)) (fun c => length (fst c) = 512%nat).
Proof.
  apply ide_laws.
  - intros sec b x Hs Hb. cbn [card_write fst snd]. rewrite (Z.mul_comm 512), Z.div_mul by done. split; [done|]. intros n Hn. unfold card_sectors.
    case_decide; [|done]. by rewrite take_app_le, take_ge by lia.
  - intros sec b x Hs Hb. cbn [card_read fst snd]. rewrite (Z.mul_comm 512), Z.div_mul by done. split_and!; [done| |done].
    unfold card_sectors. rewrite length_take, length_app, length_replicate. lia.
Qed.

(** ** memide.c *)
Record memdisk := Memdisk { md_bytes : list Z; md_size : Z }.
Definition mem_ideinit (img : list Z) : memdisk := Memdisk img (Z.of_nat (length img) / 512).
Definition mem_write (sec : Z) (d : list Z) (m : memdisk) : memdisk :=
  Memdisk (splice (Z.to_nat (sec * 512)) (take 512 d) (md_bytes m)) (md_size m).
Definition mem_read (sec : Z) (m : memdisk) : memdisk * list Z := (m, slice (Z.to_nat (sec * 512)) 512 (md_bytes m)).
Definition mem_iderw : nat -> M (drv memdisk) unit := iderw_dev md_size mem_write mem_read.

Definition mem_sector (m : memdisk) (n : Z) : list Z := slice (Z.to_nat (n * 512)) 512 (md_bytes m).

#[export] Instance memide_laws : DriverLaws md_size mem_write mem_read mem_sector (fun m => md_size m * 512 <= Z.of_nat (length (md_bytes m))).
Proof.
  split.
  - intros [l sz] sec d Hg Hs Hd. cbn [md_bytes md_size] in *. unfold mem_write. cbn [md_bytes md_size]. rewrite take_ge by lia.
    split_and!; [rewrite length_splice by lia; lia|done|]. intros n Hn. unfold mem_sector. cbn [md_bytes].
    apply list_eq. intros i. unfold slice. destruct (decide (i < 512)%nat) as [Hi|Hi].
    + rewrite lookup_take_lt, lookup_drop by done. rewrite lookup_splice by lia. case_decide as Hin.
      * rewrite decide_True by lia. f_equal. lia.
      * destruct (decide (n = sec)) as [->|]; [lia|]. by rewrite lookup_take_lt, lookup_drop by done.
    + rewrite lookup_take_ge by lia. symmetry. apply lookup_ge_None_2. case_decide; [lia|]. rewrite length_take. lia.
  - intros [l sz] sec Hg Hs. by split_and!.
Qed.

(** The disk in memory: on an image, every call of [iderw] does to the buffer
    and to the sectors what it does over the abstract disk, and panics with
    the same message when it does. *)
Theorem memide_refines (img : list Z) bufs base lock w b :
  (forall i bb, bufs !! i = Some bb -> 0 <= sector bb /\ length (data bb) = 512%nat) ->
  let m := mem_ideinit img in
  let t := Bio base lock bufs (Disk (md_size m) w []) in
  (forall n, 0 <= n < md_size m -> w n = mem_sector m n) ->
  match iderw b t with
  | Ok _ t' => exists s', mem_iderw b (Drv bufs m) = Ok tt s' /\ d_bufs s' = io_bufs t' /\
      forall n, 0 <= n < md_size m -> mem_sector (d_dev s') n = disk_get (io_disk t') n
  | Panic msg => mem_iderw b (Drv bufs m) = Panic msg
  | Fault => mem_iderw b (Drv bufs m) = Fault
  | _ => False
  end.
Proof.
  intros Hb m t Hw. assert (Hs : same_disk (disksize := md_size) (view := mem_sector) (good := fun m => md_size m * 512 <= Z.of_nat (length (md_bytes m))) (Drv bufs m) t).
  { split; try done; [|intros n Hn; symmetry; by apply Hw]. cbn. pose proof (Z.mul_div_le (Z.of_nat (length img)) 512 ltac:(lia)). lia. }
  pose proof (iderw_refines (Drv bufs m) t b Hs) as H. unfold follows in H.
  destruct (iderw b t) as [[] t'| | | |]; try done.
  destruct H as (s' & E & H1 & _ & H2 & H3 & _ & _ & Hsz). exists s'. split_and!; try done. intros n Hn. apply H3. by rewrite Hsz.
Qed.

(** A read of sector 1 of an image of two sectors. *)
Definition buf1 : buf := Buf B_BUSY 1 1 0 0 (replicate 512 0).
Definition img1 : list Z := replicate 512 3 ++ replicate 512 4.
Lemma memide_refines_witness :
  exists s', mem_iderw 0 (Drv [buf1] (mem_ideinit img1)) = Ok tt s' /\
    d_bufs s' = [Buf (Z.lor B_BUSY B_VALID) 1 1 0 0 (replicate 512 4)].
Proof.
  pose proof (memide_refines img1 [buf1] ptable0 (Spinlock 0 "bcache" None []) (mem_sector (mem_ideinit img1)) 0) as H. cbv zeta in H.
  destruct H as (s' & E & Hb & _).
  - intros i bb Hi. apply list_lookup_singleton_Some in Hi as [_ <-]. split; [cbn; lia|reflexivity].
  - reflexivity.
  - exists s'. split; [exact E|]. rewrite Hb. vm_compute. reflexivity.
Defined.
