(* ===== verification/BlockIf.v ===== *)
(** What the layers above the buffer cache call, as interfaces.

    [BufOps] is bio.c's interface (bread, the data of a buffer, brelse);
    [LogOps] adds log.c's. [LogLaws] states what log.c promises to the file
    system: every home sector has one content, buffers are handed out with
    that content, and [log_write] is what changes it. The file system is
    modelled and verified against these classes; bio.c and log.c implement
    them. *)
From stdpp Require Import base list numbers gmap.
From S2P Require Import Prelude Params Spinlock Sched Bio Cache.

Class BufOps (S : Type) : Type := {
  bo_base :: Lens S base;
  bo_bread : Z -> Z -> M S nat;
  bo_data : nat -> S -> list Z;          (* bp->data *)
  bo_set : nat -> list Z -> M S unit;    (* assignments to bp->data *)
  bo_brelse : nat -> M S unit;
}.

Class LogOps (S : Type) : Type := {
  lo_buf :: BufOps S;
  lo_begin : M S unit;
  lo_log_write : nat -> M S unit;
  lo_commit : M S unit;
}.

(** [rel s V H L]: home sector contents [V], buffers held [H], sectors logged
    so far in the open transaction [L]. [home s] home sectors, [room s] the
    number of sectors a transaction may log. *)
Class LogLaws (S : Type) {O : LogOps S} : Type := {
  ll_rel : S -> (Z -> list Z) -> held -> list Z -> Prop;
  ll_home : S -> Z;
  ll_room : S -> nat;

  ll_base : forall s V H L, ll_rel s V H L -> base_ok (lget s);
  ll_lset : forall s V H L b, ll_rel s V H L -> base_ok b ->
    ll_rel (lset b s) V H L /\ ll_home (lset b s) = ll_home s /\ ll_room (lset b s) = ll_room s;

  ll_data : forall s V H L h sec d,
    ll_rel s V H L -> H !! h = Some (sec, d) -> bo_data h s = d;

  ll_bread : forall s V H L sec,
    ll_rel s V H L -> 0 <= sec < ll_home s -> (forall h d, H !! h <> Some (sec, d)) ->
    sec ∈ L \/ (size H + length L < NBUF)%nat ->
    wp (bo_bread 1 sec) (fun h s' => H !! h = None /\
      ll_rel s' V (<[h := (sec, V sec)]> H) L /\
      ll_home s' = ll_home s /\ ll_room s' = ll_room s /\ calm (lget s) (lget s')) s;

  ll_set : forall s V H L h sec d0 d,
    ll_rel s V H L -> H !! h = Some (sec, d0) ->
    wp (bo_set h d) (fun _ s' => ll_rel s' V (<[h := (sec, d)]> H) L /\
      ll_home s' = ll_home s /\ ll_room s' = ll_room s /\ calm (lget s) (lget s')) s;

  ll_log_write : forall s V H L h sec d,
    ll_rel s V H L -> H !! h = Some (sec, d) ->
    (length L < ll_room s)%nat -> (size H + length L < NBUF)%nat ->
    wp (lo_log_write h) (fun _ s' =>
      ll_rel s' (vset V sec d) H (if decide (sec ∈ L) then L else L ++ [sec]) /\
      ll_home s' = ll_home s /\ ll_room s' = ll_room s /\ calm (lget s) (lget s')) s;

  ll_brelse : forall s V H L h sec,
    ll_rel s V H L -> H !! h = Some (sec, V sec) ->
    wp (bo_brelse h) (fun _ s' => ll_rel s' V (delete h H) L /\
      ll_home s' = ll_home s /\ ll_room s' = ll_room s /\ calm (lget s) (lget s')) s;
}.

(** ** Using the interface *)

(** The sectors a transaction has logged, once it logs [sec]. *)
Definition log_add (sec : Z) (L : list Z) : list Z := if decide (sec ∈ L) then L else L ++ [sec].

Lemma length_log_add sec L : (length L <= length (log_add sec L) <= S (length L))%nat.
Proof. unfold log_add. case_decide; rewrite ?length_app; simpl; lia. Qed.
Lemma elem_of_log_add sec L x : x ∈ log_add sec L <-> x ∈ L \/ x = sec.
Proof.
  unfold log_add. case_decide.
  - split; [tauto|]. by intros [?| ->].
  - by rewrite elem_of_app, list_elem_of_singleton.
Qed.

Section laws.
  Context {S : Type} {O : LogOps S} {LL : LogLaws S}.

  (** What the calls leave alone. *)
Definition stay (s s' : S) : Prop :=
    ll_home s' = ll_home s /\ ll_room s' = ll_room s /\ calm (lget s) (lget s').

#[export] Instance stay_preorder : PreOrder stay.
  Proof.
    split; [intros ?; by split_and!|]. intros x y z (?&?&?) (?&?&?).
    split_and!; [congruence..|]. by etransitivity.
  Qed.

  (** Nobody holds the sector. *)
Definition unheld (H : held) (sec : Z) : Prop := forall h d, H !! h <> Some (sec, d).

Lemma unheld_insert H h sec d x : unheld H x -> x <> sec -> unheld (<[h := (sec, d)]> H) x.
  Proof. intros HH Hx h' d' [[_ ?]|[_ ?]]%lookup_insert_Some; [congruence|by eapply HH]. Qed.

  (** bread and brelse around a body that uses the buffer's contents only. *)
Lemma wp_read_block {A} (f : list Z -> A) s V H L sec (Q : A -> S -> Prop) :
    ll_rel s V H L -> 0 <= sec < ll_home s -> unheld H sec ->
    sec ∈ L \/ (size H + length L < NBUF)%nat ->
    (forall s', ll_rel s' V H L -> stay s s' -> Q (f (V sec)) s') ->
    wp (bp <- bo_bread 1 sec ;; d <- gets (bo_data bp) ;; bo_brelse bp ;;; ret (f d)) Q s.
  Proof.
    intros R Hsec HH Hroom HQ. apply wp_bind. wp_call (ll_bread _ _ _ _ sec R); [done..|].
    intros h s1 (Hh & R1 & S1). wp_step. wp_step.
    rewrite (ll_data _ _ _ _ h sec (V sec) R1) by (by rewrite lookup_insert_eq). apply wp_bind.
    wp_call (ll_brelse _ _ _ _ h sec R1); [by rewrite lookup_insert_eq|].
    intros _ s2 (R2 & S2). rewrite delete_insert_id in R2 by done. apply wp_ret. apply HQ; [done|].
    by transitivity s1.
  Qed.

  (** Filling a held buffer and logging it. *)
Lemma wp_fill_log {A} (k : M S A) s V H L h sec d0 d (Q : A -> S -> Prop) :
    ll_rel s V H L -> H !! h = Some (sec, d0) ->
    (length L < ll_room s)%nat -> (size H + length L < NBUF)%nat ->
    (forall s', ll_rel s' (vset V sec d) (<[h := (sec, d)]> H) (log_add sec L) -> stay s s' -> wp k Q s') ->
    wp (bo_set h d ;;; lo_log_write h ;;; k) Q s.
  Proof.
    intros R Hh Hroom Hn Hk. apply wp_bind. wp_call (ll_set _ _ _ _ h sec d0 d R Hh).
    intros _ s1 (R1 & S1). apply wp_bind.
    wp_call (ll_log_write _ _ _ _ h sec d R1).
    - by rewrite lookup_insert_eq.
    - destruct S1 as (_ & -> & _). done.
    - by rewrite map_size_insert_Some by (by eexists).
    - intros _ s2 (R2 & S2). apply Hk; [done|]. by transitivity s1.
  Qed.

Lemma wp_release {A} (k : M S A) s V H L h sec d (Q : A -> S -> Prop) :
    ll_rel s V (<[h := (sec, d)]> H) L -> H !! h = None -> V sec = d ->
    (forall s', ll_rel s' V H L -> stay s s' -> wp k Q s') ->
    wp (bo_brelse h ;;; k) Q s.
  Proof.
    intros R Hh <- Hk. apply wp_bind. wp_call (ll_brelse _ _ _ _ h sec R); [by rewrite lookup_insert_eq|].
    intros _ s1 (R1 & S1). rewrite delete_insert_id in R1 by done. by apply Hk.
  Qed.
End laws.

(** *** struct superblock (fs.h) and readsb (fs.c) *)
Record superblock := Superblock { sb_size : Z; sb_nblocks : Z; sb_ninodes : Z; sb_nlog : Z }.

Definition sb_decode (d : list Z) : superblock :=
  Superblock (get32 0 d) (get32 4 d) (get32 8 d) (get32 12 d).

Definition sb_encode (sb : superblock) : list Z :=
  be32 (sb_size sb) ++ be32 (sb_nblocks sb) ++ be32 (sb_ninodes sb) ++ be32 (sb_nlog sb).

Definition readsb {S} `{BufOps S} (dev : Z) : M S superblock :=
  bp <- bo_bread dev 1 ;;
  d <- gets (bo_data bp) ;;
  bo_brelse bp ;;;
  ret (sb_decode d).
