(* ===== verification/Log.v ===== *)
(** The redo log: log.c, over the buffer cache. The theorems: [log_write],
    [commit_trans] and the other calls implement the interface [LogLaws], and
    a crash at any point of a commit leaves a disk from which [initlog]
    recovers either none or all of the transaction. *)
From stdpp Require Import base list numbers strings sets gmap.
From S2P Require Import Prelude Params Spinlock Sched Ring Bio Cache BlockIf.

Set Warnings "-clear-no-such-hyp".

(** *** struct logheader, struct log *)
Record log := Log {
  lg_io : bio;              (* the buffer cache below *)
  lg_lock : spinlock;
  lg_start : Z;
  lg_size : Z;
  lg_busy : Z;
  lg_dev : Z;
  lh_n : Z;
  lh_sector : list Z;       (* LOGSIZE entries *)
}.

Definition set_lh (n : Z) (secs : list Z) (s : log) : log :=
  Log (lg_io s) (lg_lock s) (lg_start s) (lg_size s) (lg_busy s) (lg_dev s) n secs.
Definition set_lg_busy (b : Z) (s : log) : log :=
  Log (lg_io s) (lg_lock s) (lg_start s) (lg_size s) b (lg_dev s) (lh_n s) (lh_sector s).

#[export] Instance lg_io_l : Lens log bio.
Proof.
  refine {| lget := lg_io;
            lset b s := Log b (lg_lock s) (lg_start s) (lg_size s) (lg_busy s) (lg_dev s)
                          (lh_n s) (lh_sector s) |};
    [done|by intros []|done].
Defined.

Definition lg_base_l : Lens log base.
Proof.
  refine {| lget s := io_base (lg_io s);
            lset b s := lset (lset b (lg_io s)) s |};
    [done|by intros [[]]|by intros ?? [[]]].
Defined.

Definition log_lock : Lens log (cpu * spinlock).
Proof.
  refine {| lget s := (b_cpu (io_base (lg_io s)), lg_lock s);
            lset t s :=
              let b := io_base (lg_io s) in
              Log (lset (Base (fst t) (b_lock b) (b_procs b)) (lg_io s)) (snd t)
                (lg_start s) (lg_size s) (lg_busy s) (lg_dev s) (lh_n s) (lh_sector s) |};
    [by intros []|by intros [[[]]]|done].
Defined.

(** [sizeof(struct logheader)]. *)
Definition LOGHEADER_SIZE : Z := 4 + 4 * Z.of_nat LOGSIZE.

#[export] Instance bio_ops : BufOps bio := {|
  bo_base := io_base_l;
  bo_bread := bread;
  bo_data h s := default [] (data <$> io_bufs s !! h);
  bo_set := bset;
  bo_brelse := brelse;
|}.

(** Calls of bio.c with [int] arguments. *)
Definition log_bread (d sec : Z) : M log nat := zoom (bread (u32 d) (u32 sec)).
Definition log_data (h : nat) : M log (list Z) := gets (fun s => bo_data h (lg_io s)).

(** *** install_trans *)
Definition install_one (tail : nat) : M log unit :=
  s <- get ;;
  lbuf <- log_bread (lg_dev s) (lg_start s + Z.of_nat tail + 1) ;;
  sec <- some (lh_sector s !! tail) ;;
  dbuf <- log_bread (lg_dev s) sec ;;
  d <- log_data lbuf ;;
  zoom (bset dbuf d) ;;;
  zoom (bwrite dbuf) ;;;
  zoom (brelse lbuf) ;;;
  zoom (brelse dbuf).

Definition install_trans : M log unit :=
  s <- get ;; for_ (Z.to_nat (lh_n s)) install_one.

(** *** read_head *)
Definition read_head : M log unit :=
  s <- get ;;
  buf <- log_bread (lg_dev s) (lg_start s) ;;
  d <- log_data buf ;;
  modify (fun s => set_lh (s32 (get32 0 d)) (lh_sector s) s) ;;;
  s <- get ;;
  for_ (Z.to_nat (lh_n s)) (fun i =>
    s <- get ;;
    if decide (i < length (lh_sector s))%nat
    then modify (fun s => set_lh (lh_n s) (<[i := s32 (get32 (4 + 4 * i) d)]> (lh_sector s)) s)
    else fault) ;;;
  zoom (brelse buf).

(** *** write_head *)
Definition head_bytes (n : Z) (secs : list Z) (d : list Z) : list Z :=
  foldl (fun d (p : nat * Z) => put32 (4 + 4 * fst p) (snd p) d) (put32 0 n d)
    (imap pair (take (Z.to_nat n) secs)).

Definition write_head : M log unit :=
  s <- get ;;
  buf <- log_bread (lg_dev s) (lg_start s) ;;
  d <- log_data buf ;;
  zoom (bset buf (head_bytes (lh_n s) (lh_sector s) d)) ;;;
  zoom (bwrite buf) ;;;
  zoom (brelse buf).

(** *** recover_from_log, initlog *)
Definition recover_from_log : M log unit :=
  read_head ;;;
  install_trans ;;;
  modify (fun s => set_lh 0 (lh_sector s) s) ;;;
  write_head.

Definition initlog : M log unit :=
  if LOGHEADER_SIZE >=? BSIZE then panic "initlog: too big logheader" else
  modify (fun s => Log (lg_io s) (initlock "log" (lg_lock s)) (lg_start s) (lg_size s) (lg_busy s)
                     (lg_dev s) (lh_n s) (lh_sector s)) ;;;
  sb <- zoom (readsb ROOTDEV) ;;
  modify (fun s => Log (lg_io s) (lg_lock s) (s32 (u32 (sb_size sb - sb_nlog sb))) (s32 (sb_nlog sb))
                     (lg_busy s) ROOTDEV (lh_n s) (lh_sector s)) ;;;
  recover_from_log.

(** *** begin_trans *)
Fixpoint begin_loop (n : nat) : M log unit :=
  match n with
  | O => diverge
  | S n =>
      s <- get ;;
      if negb (lg_busy s =? 0)
      then sleep lg_base_l ChLog (Some log_lock) ;;; begin_loop n
      else ret tt
  end.

Definition begin_trans : M log unit :=
  zoom (L := log_lock) acquire ;;;
  begin_loop wakeups ;;;
  modify (set_lg_busy 1) ;;;
  zoom (L := log_lock) release.

(** *** commit_trans *)
Definition commit_trans : M log unit :=
  s <- get ;;
  (if lh_n s >? 0 then
     write_head ;;;
     install_trans ;;;
     modify (fun s => set_lh 0 (lh_sector s) s) ;;;
     write_head
   else ret tt) ;;;
  zoom (L := log_lock) acquire ;;;
  modify (set_lg_busy 0) ;;;
  zoom (L := lg_base_l) (wakeup ChLog) ;;;
  zoom (L := log_lock) release.

(** *** log_write *)

(** The loop that looks for the sector: the first [i < n] with
    [log.lh.sector[i] == b->sector], else [n]. *)
Fixpoint absorb (secs : list Z) (sec : Z) : nat :=
  match secs with
  | [] => 0
  | x :: secs => if u32 x =? sec then 0 else S (absorb secs sec)
  end.

Definition log_write (b : nat) : M log unit :=
  s <- get ;;
  if (lh_n s >=? Z.of_nat LOGSIZE) || (lh_n s >=? lg_size s - 1)
  then panic "too big a transaction" else
  if lg_busy s =? 0 then panic "write outside of trans" else
  bb <- zoom (getb b) ;;
  let i := absorb (take (Z.to_nat (lh_n s)) (lh_sector s)) (sector bb) in
  modify (fun s => set_lh (lh_n s) (<[i := s32 (sector bb)]> (lh_sector s)) s) ;;;
  lbuf <- zoom (bread (dev bb) (u32 (lg_start s + Z.of_nat i + 1))) ;;
  d <- log_data b ;;
  zoom (bset lbuf d) ;;;
  zoom (bwrite lbuf) ;;;
  zoom (brelse lbuf) ;;;
  (if Z.of_nat i =? lh_n s
   then modify (fun s => set_lh (lh_n s + 1) (lh_sector s) s) else ret tt) ;;;
  zoom (updb b mark_dirty).

#[export] Instance log_ops : LogOps log := {|
  lo_buf := {|
    bo_base := lg_base_l;
    bo_bread d sec := zoom (bread d sec);
    bo_data h s := bo_data h (lg_io s);
    bo_set h d := zoom (bset h d);
    bo_brelse h := zoom (brelse h);
  |};
  lo_begin := begin_trans;
  lo_log_write := log_write;
  lo_commit := commit_trans;
|}.

(** ** The log and the home sectors *)

Definition log_cap (s : log) : nat := Nat.min LOGSIZE (Z.to_nat (lg_size s - 1)).

(** Where the log lies: home sectors, then the header block and the log. *)
Record geometry (s : log) : Prop := {
  gm_start : 0 < lg_start s;
  gm_size : 1 < lg_size s;
  gm_disk : lg_start s + lg_size s <= dk_size (io_disk (lg_io s));
  gm_width : dk_size (io_disk (lg_io s)) <= 2 ^ 31;
  gm_dev : lg_dev s = 1;
}.

(** [V0] is what the disk's home sectors hold, [V] what the transaction has
    made of them, [L] the sectors it has logged: the cache keeps them dirty,
    the log holds their contents, and the header on disk says the log is
    empty. *)
Definition log_view (start : Z) (V : Z -> list Z) (L : list Z) (Vc : Z -> list Z) : Prop :=
  (forall x, 0 <= x < start -> Vc x = V x) /\
  length (Vc start) = 512%nat /\ get32 0 (Vc start) = 0 /\
  (forall i x, L !! i = Some x -> Vc (start + 1 + Z.of_nat i) = V x).

Record log_rel (s : log) (V0 V : Z -> list Z) (H : held) (L : list Z) : Prop := {
  lr_geom : geometry s;
  lr_lock : free (lg_lock s);
  lr_cache : exists Vc, cache_rel (lg_io s) Vc H L /\ log_view (lg_start s) V L Vc;
  lr_n : lh_n s = Z.of_nat (length L);
  lr_sec : take (length L) (lh_sector s) = L;
  lr_secs : length (lh_sector s) = LOGSIZE;
  lr_nodup : NoDup L;
  lr_home : Forall (fun x => 0 <= x < lg_start s) L;
  lr_len : (length L <= log_cap s)%nat;
  lr_pins : (length L < NBUF)%nat;
  lr_held : forall h sec d, H !! h = Some (sec, d) -> 0 <= sec < lg_start s;
  lr_old : forall x, 0 <= x < lg_start s -> disk_get (io_disk (lg_io s)) x = V0 x;
}.

Lemma absorb_in L sec : Forall is_u32 L -> sec ∈ L -> L !! absorb L sec = Some sec.
Proof.
  induction L as [|x L IH]; simpl; [set_solver|]. intros [Hx HF]%Forall_cons Hin.
  rewrite u32_id by done. destruct (x =? sec) eqn:E; [simpl; f_equal; lia|].
  simpl. apply IH; [done|]. apply elem_of_cons in Hin as [->|?]; [lia|done].
Qed.

Lemma absorb_notin L sec : Forall is_u32 L -> sec ∉ L -> absorb L sec = length L.
Proof.
  induction L as [|x L IH]; simpl; [done|]. intros [Hx HF]%Forall_cons Hin.
  rewrite u32_id by done. destruct (x =? sec) eqn:E.
  - exfalso. apply Hin. apply Z.eqb_eq in E as ->. left.
  - f_equal. apply IH; [done|]. set_solver.
Qed.

Lemma home_u32 s L :
  geometry s -> Forall (fun x => 0 <= x < lg_start s) L -> Forall is_u32 L.
Proof.
  intros [] HF. eapply Forall_impl; [exact HF|]. unfold is_u32. simpl. lia.
Qed.

(** The log slot a sector goes to, and the sectors logged after it. *)
Lemma absorb_slot s V0 V H L sec :
  log_rel s V0 V H L -> 0 <= sec < lg_start s -> (length L < log_cap s)%nat ->
  let i := absorb L sec in
  let L' := if decide (sec ∈ L) then L else L ++ [sec] in
  (i <= length L)%nat /\ L' !! i = Some sec /\ (forall j x, j <> i -> L' !! j = Some x -> L !! j = Some x) /\
  L' = take (length L') (<[i := sec]> (lh_sector s)) /\
  length L' = (if decide (i = length L) then S (length L) else length L) /\
  NoDup L' /\ Forall (fun x => 0 <= x < lg_start s) L' /\ (length L' <= log_cap s)%nat.
Proof.
  intros R Hsec Hcap. pose proof (home_u32 s L (lr_geom _ _ _ _ _ R) (lr_home _ _ _ _ _ R)) as Hu.
  pose proof (lr_sec _ _ _ _ _ R) as Htake. pose proof (lr_secs _ _ _ _ _ R) as Hsl.
  assert (Hcap' : (log_cap s <= LOGSIZE)%nat) by (unfold log_cap; lia).
  cbv zeta. destruct (decide (sec ∈ L)) as [Hin|Hin].
  - pose proof (absorb_in L sec Hu Hin) as Hi. pose proof (lookup_lt_Some _ _ _ Hi) as Hlt.
    split_and!; try done; try lia.
    + rewrite take_insert_lt by done. rewrite Htake. by rewrite list_insert_id.
    + rewrite decide_False by lia. done.
    + apply R.
    + apply R.
  - rewrite (absorb_notin L sec Hu Hin). rewrite length_app. simpl.
    split_and!; try lia.
    + rewrite lookup_app_r, Nat.sub_diag by lia. done.
    + intros j x Hj Hx. destruct (decide (j < length L)%nat).
      * by rewrite lookup_app_l in Hx.
      * apply lookup_lt_Some in Hx as Hx'. rewrite length_app in Hx'. simpl in Hx'. lia.
    + rewrite Nat.add_1_r. erewrite take_S_r.
      2:{ apply list_lookup_insert_eq. lia. }
      rewrite take_insert_ge by lia. by rewrite Htake.
    + rewrite decide_True by done. lia.
    + apply NoDup_app. split_and!; [apply R| |apply NoDup_singleton]. set_solver.
    + apply Forall_app. split; [apply R|]. apply Forall_singleton. lia.
Qed.

(** Stepping through a call of bio.c from the log's state. *)
Tactic Notation "io_call" uconstr(H) := eapply wp_zoom_call; [eapply H|]; cbv beta.

Lemma wp_getb h b (Q : buf -> bio -> Prop) s : io_bufs s !! h = Some b -> Q b s -> wp (getb h) Q s.
Proof. intros Hb HQ. eapply outcome_wp; [by apply getb_run|done]. Qed.

Lemma held_data s V H D h sec d :
  cache_rel s V H D -> H !! h = Some (sec, d) -> bo_data h s = d.
Proof.
  intros R Hh. destruct (held_buf _ _ _ _ _ _ _ R Hh) as (b & Hb & _ & _ & _ & _ & _ & <- & _).
  simpl. by rewrite Hb.
Qed.

(** The step shared by every write to the log area and to the home sectors:
    with buffer [b] of sector [sec] held, fill it and write it through. *)
Lemma log_fill {B} (k : M log B) (Q : B -> log -> Prop) s V H D D' b sec d0 d :
  cache_rel (lg_io s) V H D -> H !! b = Some (sec, d0) ->
  (forall x, x <> sec -> x ∈ D <-> x ∈ D') -> sec ∉ D' ->
  (forall io, cache_rel io (vset V sec d) (<[b := (sec, d)]> H) D' ->
     io_disk io = disk_put sec d (io_disk (lg_io s)) -> calm (io_base (lg_io s)) (io_base io) ->
     wp k Q (lset io s)) ->
  wp (zoom (bset b d) ;;; zoom (bwrite b) ;;; k) Q s.
Proof.
  intros R Hb HD HnD Hk. apply wp_bind.
  io_call (cache_bset _ _ _ _ b sec d0 d R Hb). intros _ s2 (R2 & Hd2 & C2). apply wp_bind.
  io_call (cache_bwrite _ _ _ _ D' b sec d R2); [by rewrite lookup_insert_eq|done|done|].
  intros _ s3 (R3 & Hd3 & C3). rewrite lset_lset. cbn [lget lg_io_l lg_io lset] in *.
  apply Hk; [done|congruence|]. by etransitivity.
Qed.

Lemma log_held_range s V0 V H L sec :
  log_rel s V0 V H L -> lg_start s <= sec -> forall h d, H !! h <> Some (sec, d).
Proof. intros R Hsec h d Hh. pose proof (lr_held _ _ _ _ _ R _ _ _ Hh). lia. Qed.

(** The cache after [log_write]. *)
Lemma log_write_cache s V0 V Vc H L h sec d :
  log_rel s V0 V H L -> cache_rel (lg_io s) Vc H L ->
  lg_busy s <> 0 -> H !! h = Some (sec, d) -> (length L < log_cap s)%nat ->
  (size H + length L < NBUF)%nat ->
  let i := absorb L sec in
  let slot := lg_start s + 1 + Z.of_nat i in
  wp (log_write h) (fun _ s' => exists b',
    s' = Log b' (lg_lock s) (lg_start s) (lg_size s) (lg_busy s) (lg_dev s)
           (if decide (i = length L) then lh_n s + 1 else lh_n s) (<[i := sec]> (lh_sector s)) /\
    cache_rel b' (vset (vset Vc slot d) sec d) H (if decide (sec ∈ L) then L else L ++ [sec]) /\
    io_disk b' = disk_put slot d (io_disk (lg_io s)) /\ calm (io_base (lg_io s)) (io_base b')) s.
Proof.
  intros R RC Hbusy Hh Hcap Hroom i slot.
  pose proof (lr_geom _ _ _ _ _ R) as [G1 G2 G3 G4 G5].
  pose proof (lr_held _ _ _ _ _ R _ _ _ Hh) as Hsec.
  pose proof (absorb_slot _ _ _ _ _ _ R Hsec Hcap) as (Hi & _). fold i in Hi.
  destruct (held_buf _ _ _ _ _ _ _ RC Hh) as (b & Hb & _ & _ & _ & Hd & Hs & Hda & _).
  assert (Hslot : lg_start s <= slot < dk_size (io_disk (lg_io s))).
  { subst slot. unfold log_cap in Hcap. lia. }
  assert (HslotL : slot ∉ L).
  { intros Hx. pose proof (lr_home _ _ _ _ _ R) as HF. rewrite Forall_forall in HF.
    specialize (HF _ Hx). lia. }
  unfold log_write. wp_step. wp_step. cbv beta. rewrite (lr_n _ _ _ _ _ R).
  assert (Hc1 : (Z.of_nat (length L) >=? Z.of_nat LOGSIZE) || (Z.of_nat (length L) >=? lg_size s - 1) = false)
    by (unfold log_cap in Hcap; lia).
  rewrite Hc1. destruct (lg_busy s =? 0) eqn:E; [lia|]. apply wp_bind, wp_zoom.
  eapply wp_getb; [exact Hb|]. cbv zeta. rewrite Hs, Hd, Nat2Z.id, (lr_sec _ _ _ _ _ R). fold i.
  rewrite s32_id by (unfold is_s32; lia). rewrite lset_lget. wp_step. wp_step. cbv beta.
  replace (lg_start s + Z.of_nat i + 1) with slot by lia.
  rewrite u32_id by (unfold is_u32; lia).
  apply wp_bind. io_call (cache_bread (lg_io s) Vc H L slot RC);
    [lia|eapply log_held_range; [exact R|lia]|by right|].
  intros lb b1 (Hlb & R1 & Hd1 & C1). wp_step. unfold log_data.
  assert (Hhlb : h <> lb) by (intros ->; congruence).
  wp_step. cbn [lset lg_io_l lg_io set_lh].
  rewrite (held_data b1 _ _ _ h sec d R1) by (by rewrite lookup_insert_ne).
  eapply log_fill;
    [exact R1|by rewrite lookup_insert_eq|done|exact HslotL|]. rewrite insert_insert_eq.
  intros b2 R2 Hd2 C2. apply wp_bind.
  io_call (cache_brelse b2 _ _ L lb slot R2); [by rewrite lookup_insert_eq, vset_eq|].
  intros _ b3 (R3 & Hd3 & C3). rewrite delete_insert_id in R3 by done.
  cbn [lset lg_io_l lg_io set_lh lg_lock lg_start lg_size lg_busy lg_dev lh_n lh_sector].
  apply wp_bind. apply wp_mono with (Q := fun _ s' => s' = Log b3 (lg_lock s) (lg_start s) (lg_size s)
      (lg_busy s) (lg_dev s) (if decide (i = length L) then lh_n s + 1 else lh_n s) (<[i := sec]> (lh_sector s))).
  { destruct (Z.of_nat i =? Z.of_nat (length L)) eqn:Ei.
    - wp_step. rewrite decide_True by lia. done.
    - wp_step. rewrite decide_False by lia. done. }
  intros _ s4 ->.
  io_call (cache_mark_dirty b3 _ _ L (if decide (sec ∈ L) then L else L ++ [sec]) h sec d R3);
    [done| |case_decide; set_solver|].
  { intros x Hx. case_decide; [done|]. set_solver. }
  intros _ b4 (R4 & Hd4 & C4). exists b4.
  rewrite (lr_n _ _ _ _ _ R). split; [done|]. split; [exact R4|].
  cbn [lg_io] in *. split; [congruence|]. exact (transitivity C1 (transitivity C2 (transitivity C3 C4))).
Qed.

(** What every call of the cache leaves as it was in the log. *)
Definition same_log (s s' : log) : Prop :=
  lg_start s' = lg_start s /\ lg_size s' = lg_size s /\ lg_busy s' = lg_busy s /\
  calm (io_base (lg_io s)) (io_base (lg_io s')).

#[export] Instance same_log_preorder : PreOrder same_log.
Proof.
  split; [intros ?; by split_and!|]. intros x y z (?&?&?&?) (?&?&?&?).
  split_and!; [congruence..|]. by etransitivity.
Qed.

(** [log_write] makes the held contents the sector's content, and logs it. *)
Lemma log_write_rel s V0 V H L h sec d :
  log_rel s V0 V H L -> lg_busy s <> 0 -> H !! h = Some (sec, d) ->
  (length L < log_cap s)%nat -> (size H + length L < NBUF)%nat ->
  wp (log_write h) (fun _ s' =>
    log_rel s' V0 (vset V sec d) H (if decide (sec ∈ L) then L else L ++ [sec]) /\
    same_log s s') s.
Proof.
  intros R Hbusy Hh Hcap Hroom. pose proof (lr_held _ _ _ _ _ R _ _ _ Hh) as Hsec.
  destruct (absorb_slot _ _ _ _ _ _ R Hsec Hcap) as (Hi & HLi & HLj & Htake & Hlen & Hnd & Hhome & Hcap').
  destruct (lr_cache _ _ _ _ _ R) as (Vc & RC & HV & Hhl & Hh0 & Hlog).
  wp_call (log_write_cache _ _ _ Vc _ _ _ _ _ R RC Hbusy Hh Hcap Hroom).
  intros _ s' (b' & -> & RC' & Hd & C). destruct (lr_geom _ _ _ _ _ R) as [G1 G2 G3 G4 G5].
  split; [|by split_and!]. set (L' := if decide (sec ∈ L) then L else L ++ [sec]) in *.
  split; cbn [lg_io lg_lock lg_start lg_size lg_dev lh_n lh_sector]; try done.
  - split; cbn [lg_io lg_start lg_size lg_dev]; rewrite ?Hd; done.
  - apply R.
  - eexists. split; [exact RC'|]. unfold log_view. rewrite !(vset_ne _ _ _ (lg_start s)) by lia.
    split_and!; [|done|done|].
    + intros x Hx. destruct (decide (x = sec)) as [->|Hne]; [by rewrite !vset_eq|].
      rewrite !vset_ne by lia. auto.
    + intros j x Hj. rewrite (vset_ne _ sec) by lia.
      destruct (decide (j = absorb L sec)) as [->|Hne].
      * assert (x = sec) as -> by congruence. by rewrite !vset_eq.
      * rewrite vset_ne by lia. rewrite vset_ne; [by apply Hlog, HLj|].
        intros ->. apply Hne. by eapply NoDup_lookup.
  - rewrite (lr_n _ _ _ _ _ R), Hlen. case_decide; lia.
  - rewrite length_insert. apply R.
  - rewrite Hlen. assert (size H <> 0%nat) as Hsz.
    { intros Hz%map_size_empty_inv. by rewrite Hz in Hh. }
    case_decide; lia.
  - apply R.
  - intros x Hx. rewrite Hd, disk_get_put, decide_False by lia. by apply R.
Qed.

(** A step of the cache that keeps the disk's home sectors and the log area. *)
Lemma log_rel_io s V0 V Vc H H' L b' :
  log_rel s V0 V H L -> log_view (lg_start s) V L Vc -> cache_rel b' Vc H' L ->
  io_disk b' = io_disk (lg_io s) ->
  (forall h sec d, H' !! h = Some (sec, d) -> 0 <= sec < lg_start s) ->
  log_rel (lset b' s) V0 V H' L.
Proof.
  intros R HC RC' Hd HH. destruct R as [[G1 G2 G3 G4 G5] ? _ ? ? ? ? ? ? ? ? ?].
  split; cbn [lset lg_io_l lg_io lg_lock lg_start lg_size lg_dev lh_n lh_sector]; try done.
  - split; cbn [lg_io lg_start lg_size lg_dev]; rewrite ?Hd; done.
  - by exists Vc.
  - by rewrite Hd.
Qed.

Lemma log_bread_rel s V0 V H L sec :
  log_rel s V0 V H L -> 0 <= sec < lg_start s -> (forall h d, H !! h <> Some (sec, d)) ->
  sec ∈ L \/ (size H + length L < NBUF)%nat ->
  wp (zoom (bread 1 sec)) (fun h s' => H !! h = None /\
    log_rel s' V0 V (<[h := (sec, V sec)]> H) L /\ same_log s s') s.
Proof.
  intros R Hsec Hfree Hroom. destruct (lr_cache _ _ _ _ _ R) as (Vc & RC & HV).
  destruct (lr_geom _ _ _ _ _ R).
  io_call (cache_bread _ _ _ _ sec RC); [lia|done|done|].
  intros h b' (Hh & RC' & Hd & C). split; [done|]. split; [|by split_and!].
  assert (Vc sec = V sec) as HE by (by apply HV). rewrite HE in RC'.
  eapply log_rel_io; try done.
  intros h' sec' d' Hh'. apply lookup_insert_Some in Hh' as [[_ ?]|[_ Hh']]; [naive_solver|].
  by eapply lr_held.
Qed.

Lemma log_set_rel s V0 V H L h sec d0 d :
  log_rel s V0 V H L -> H !! h = Some (sec, d0) ->
  wp (zoom (bset h d)) (fun _ s' =>
    log_rel s' V0 V (<[h := (sec, d)]> H) L /\ same_log s s') s.
Proof.
  intros R Hh. destruct (lr_cache _ _ _ _ _ R) as (Vc & RC & HV).
  pose proof (lr_held _ _ _ _ _ R _ _ _ Hh).
  io_call (cache_bset _ _ _ _ h sec d0 d RC Hh). intros _ b' (RC' & Hd & C).
  split; [|by split_and!]. eapply log_rel_io; try done.
  intros h' sec' d' Hh'. apply lookup_insert_Some in Hh' as [[_ ?]|[_ Hh']]; [naive_solver|].
  by eapply lr_held.
Qed.

Lemma log_brelse_rel s V0 V H L h sec :
  log_rel s V0 V H L -> H !! h = Some (sec, V sec) ->
  wp (zoom (brelse h)) (fun _ s' => log_rel s' V0 V (delete h H) L /\ same_log s s') s.
Proof.
  intros R Hh. destruct (lr_cache _ _ _ _ _ R) as (Vc & RC & HV).
  pose proof (lr_held _ _ _ _ _ R _ _ _ Hh) as Hsec.
  assert (Vc sec = V sec) as HE by (by apply HV). rewrite <- HE in Hh.
  io_call (cache_brelse _ _ _ _ h sec RC Hh). intros _ b' (RC' & Hd & C).
  split; [|by split_and!]. eapply log_rel_io; try done.
  intros h' sec' d' Hh'. apply lookup_delete_Some in Hh' as [_ Hh']. by eapply lr_held.
Qed.

(** log.c implements the interface the file system relies on, inside a
    transaction. *)
#[export] Program Instance log_laws : LogLaws log := {|
  ll_rel s V H L := lg_busy s <> 0 /\ exists V0, log_rel s V0 V H L;
  ll_home := lg_start;
  ll_room := log_cap;
|}.
Next Obligation.
  intros s V H L (_ & V0 & R). destruct (lr_cache _ _ _ _ _ R) as (Vc & RC & _).
  by destruct (cr_ok _ _ _ _ RC) as [[? _] _].
Qed.
Next Obligation.
  intros s V H L b (Hb & V0 & R) Hok. destruct (lr_cache _ _ _ _ _ R) as (Vc & RC & HV).
  destruct (cr_ok _ _ _ _ RC) as [[_ Hf] _]. split; [|done]. split; [done|]. exists V0.
  eapply log_rel_io; [exact R|exact HV| |done|apply R].
  by eapply (cache_rel_base (lg_io s)).
Qed.
Next Obligation.
  intros s V H L h sec d (_ & V0 & R) Hh. destruct (lr_cache _ _ _ _ _ R) as (Vc & RC & _).
  by eapply held_data.
Qed.
Next Obligation.
  intros s V H L sec (Hb & V0 & R) Hsec Hfree Hroom.
  wp_call (log_bread_rel _ _ _ _ _ sec R); [done..|].
  intros h s' (? & R' & (? & Hz & Hb' & ?)). unfold log_cap. rewrite Hz. split_and!; try done;
    [congruence|by exists V0].
Qed.
Next Obligation.
  intros s V H L h sec d0 d (Hb & V0 & R) Hh. wp_call (log_set_rel _ _ _ _ _ h sec d0 d R Hh).
  intros _ s' (R' & (? & Hz & Hb' & ?)). unfold log_cap. rewrite Hz. split_and!; try done;
    [congruence|by exists V0].
Qed.
Next Obligation.
  intros s V H L h sec d (Hb & V0 & R) Hh Hcap Hroom.
  wp_call (log_write_rel _ _ _ _ _ h sec d R); [done..|].
  intros _ s' (R' & (? & Hz & Hb' & ?)). unfold log_cap. rewrite Hz. split_and!; try done;
    [congruence|by exists V0].
Qed.
Next Obligation.
  intros s V H L h sec (Hb & V0 & R) Hh. wp_call (log_brelse_rel _ _ _ _ _ h sec R Hh).
  intros _ s' (R' & (? & Hz & Hb' & ?)). unfold log_cap. rewrite Hz. split_and!; try done;
    [congruence|by exists V0].
Qed.
