(* ===== verification/Crash.v ===== *)
(** Commit, recovery and crashes: [write_head], [install_trans],
    [commit_trans], [recover_from_log] and [initlog] (log.c) run on the
    buffer cache, and the disks a crash can leave behind while they run. *)
From stdpp Require Import base list numbers strings sets gmap.
From S2P Require Import Prelude Params Spinlock Sched Ring Bio Cache BlockIf Log.

Set Warnings "-clear-no-such-hyp".

(** ** The header block *)

(** The block says: these sectors are committed. *)
Definition header (d : list Z) (secs : list Z) : Prop :=
  length d = 512%nat /\ get32 0 d = Z.of_nat (length secs) /\
  forall i x, secs !! i = Some x -> get32 (4 + 4 * i) d = x.

Lemma put_all_get L : forall (k : nat) d o,
  (4 + 4 * (k + length L) <= length d)%nat ->
  let d' := foldl (fun d (p : nat * Z) => put32 (4 + 4 * fst p) (snd p) d) d
              (imap (fun i => pair (k + i)%nat) L) in
  length d' = length d /\
  ((o + 4 <= 4 + 4 * k)%nat -> get32 o d' = get32 o d) /\
  (forall i x, L !! i = Some x -> get32 (4 + 4 * (k + i)) d' = u32 x).
Proof.
  induction L as [|y L IH]; intros k d o Hlen; [done|]. cbn [length] in Hlen.
  cbn [imap foldl fst snd]. rewrite Nat.add_0_r.
  rewrite (imap_ext _ (fun i => pair (S k + i)%nat)) by (intros; simpl; f_equal; lia).
  set (d1 := put32 (4 + 4 * k) y d).
  assert (Hl1 : length d1 = length d) by (unfold d1; apply length_put32; lia).
  destruct (IH (S k) d1 o) as (Hl & Ho & Hi); [lia|].
  cbv zeta in *. split_and!; [congruence| |].
  - intros Hok. rewrite Ho by lia. unfold d1. apply get32_put32_ne; lia.
  - intros [|i] x Hx; cbn in Hx.
    + injection Hx as <-. rewrite Nat.add_0_r.
      destruct (IH (S k) d1 (4 + 4 * k)%nat) as (_ & Ho' & _); [lia|].
      rewrite Ho' by lia. unfold d1. apply get32_put32_eq. lia.
    + replace (k + S i)%nat with (S k + i)%nat by lia. by apply Hi.
Qed.

(** [write_head] writes what [read_head] reads. *)
Lemma header_bytes n secs d L :
  n = Z.of_nat (length L) -> take (length L) secs = L -> (length L <= LOGSIZE)%nat ->
  Forall is_u32 L -> length d = 512%nat -> header (head_bytes n secs d) L.
Proof.
  intros -> Ht Hn Hu Hd. unfold head_bytes. rewrite Nat2Z.id, Ht.
  change (imap pair L) with (imap (fun i => @pair nat Z (0 + i)%nat) L).
  assert (HL : (length L <= 10)%nat) by exact Hn.
  destruct (put_all_get L 0 (put32 0 (Z.of_nat (length L)) d) 0) as (Hl & Ho & Hi).
  { rewrite length_put32 by lia. lia. }
  split_and!.
  - rewrite Hl, length_put32 by lia. done.
  - rewrite Ho by lia. rewrite get32_put32_eq by lia. apply u32_id. unfold is_u32. lia.
  - intros i x Hx. etransitivity; [exact (Hi i x Hx)|]. apply u32_id.
    rewrite Forall_forall in Hu. apply Hu. by eapply list_elem_of_lookup_2.
Qed.

(** ** One transfer *)

(** Numbers that fit the cache's calls. *)
Lemma log_bread_eq s sec : lg_dev s = 1 -> is_u32 sec -> log_bread (lg_dev s) sec = zoom (bread 1 sec).
Proof. intros -> Hs. unfold log_bread. by rewrite (u32_id sec). Qed.

Section transfer.
  Context (s : log) (Vc : Z -> list Z) (D : list Z).
  Hypothesis RC : cache_rel (lg_io s) Vc ∅ D.
  Hypothesis Hdev : lg_dev s = 1.
  Hypothesis Hwide : dk_size (io_disk (lg_io s)) <= 2 ^ 31.
  Hypothesis Hroom : (length D < NBUF)%nat.

Lemma write_head_cache :
    0 <= lg_start s < dk_size (io_disk (lg_io s)) -> lg_start s ∉ D ->
    let hd := head_bytes (lh_n s) (lh_sector s) (Vc (lg_start s)) in
    wp write_head (fun _ s' => exists b', s' = lset b' s /\
      cache_rel b' (vset Vc (lg_start s) hd) ∅ D /\
      io_disk b' = disk_put (lg_start s) hd (io_disk (lg_io s)) /\
      calm (io_base (lg_io s)) (io_base b')) s.
  Proof.
    intros Hst HnD hd. unfold write_head. wp_step. wp_step. cbv beta.
    rewrite log_bread_eq by (done || unfold is_u32; lia). apply wp_bind.
    io_call (cache_bread _ _ _ _ (lg_start s) RC); [done|done|by right; rewrite map_size_empty|].
    intros h b1 (_ & R1 & Hd1 & C1). wp_step. unfold log_data. wp_step.
    cbn [lset lg_io_l lg_io]. rewrite (held_data b1 _ _ _ h _ _ R1) by (by rewrite lookup_insert_eq).
    eapply log_fill; [exact R1|by rewrite lookup_insert_eq|done|exact HnD|].
    rewrite insert_insert_eq. intros b2 R2 Hd2 C2.
    io_call (cache_brelse b2 _ _ D h (lg_start s) R2); [by rewrite lookup_insert_eq, vset_eq|].
    intros _ b3 (R3 & Hd3 & C3). rewrite delete_insert_id in R3 by done. exists b3.
    cbn [lget lg_io_l lg_io] in *. split_and!; [done|exact R3|by rewrite Hd3, Hd2, Hd1|].
    exact (transitivity C1 (transitivity C2 C3)).
  Qed.

Lemma install_one_cache D' i x :
    let slot := lg_start s + 1 + Z.of_nat i in
    lh_sector s !! i = Some x -> 0 <= x < dk_size (io_disk (lg_io s)) ->
    0 <= slot < dk_size (io_disk (lg_io s)) -> x <> slot ->
    x ∈ D \/ (1 + length D < NBUF)%nat ->
    (forall y, y <> x -> y ∈ D <-> y ∈ D') -> x ∉ D' ->
    wp (install_one i) (fun _ s' => exists b', s' = lset b' s /\
      cache_rel b' (vset Vc x (Vc slot)) ∅ D' /\
      io_disk b' = disk_put x (Vc slot) (io_disk (lg_io s)) /\
      calm (io_base (lg_io s)) (io_base b')) s.
  Proof.
    intros slot Hx Hxr Hsr Hne Hxroom HD HnD. unfold install_one. wp_step. wp_step. cbv beta.
    replace (lg_start s + Z.of_nat i + 1) with slot by lia.
    rewrite !log_bread_eq by (done || unfold is_u32; lia). apply wp_bind.
    io_call (cache_bread _ _ _ _ slot RC); [done|done|by right; rewrite map_size_empty|].
    intros h b1 (_ & R1 & Hd1 & C1). apply wp_bind. eapply wp_some; [exact Hx|].
    rewrite log_bread_eq by (done || unfold is_u32; lia). apply wp_bind.
    io_call (cache_bread b1 _ _ _ x R1).
    { by rewrite Hd1. }
    { intros h' d'. rewrite lookup_insert_Some. rewrite lookup_empty. naive_solver. }
    { destruct Hxroom; [by left|right]. rewrite map_size_insert_None by done. by rewrite map_size_empty. }
    intros g b2 (Hg & R2 & Hd2 & C2). apply lookup_insert_None in Hg as [_ Hg].
    wp_step. unfold log_data. wp_step. cbn [lset lg_io_l lg_io].
    rewrite (held_data b2 _ _ _ h slot (Vc slot) R2) by (by rewrite lookup_insert_ne, lookup_insert_eq).
    eapply log_fill; [exact R2|by rewrite lookup_insert_eq|exact HD|exact HnD|].
    rewrite insert_insert_eq. intros b3 R3 Hd3 C3. apply wp_bind.
    io_call (cache_brelse b3 _ _ D' h slot R3).
    { by rewrite lookup_insert_ne, lookup_insert_eq, vset_ne by done. }
    intros _ b4 (R4 & Hd4 & C4).
    rewrite (delete_insert_ne _ h g), delete_insert_id in R4 by done.
    io_call (cache_brelse b4 _ _ D' g x R4); [by rewrite lookup_insert_eq, vset_eq|].
    intros _ b5 (R5 & Hd5 & C5). rewrite delete_insert_id in R5 by done.
    exists b5. cbn [lget lg_io_l lg_io] in *. split_and!; [done|exact R5|congruence|].
    exact (transitivity C1 (transitivity C2 (transitivity C3 (transitivity C4 C5)))).
  Qed.
End transfer.

(** ** The disks in between

    [crash_of d d' x]: [x] is the disk after some of the sector writes that
    lead from [d] to [d'], all of [d]'s included. *)
Definition crash_of (d d' x : disk) : Prop :=
  dk_size x = dk_size d /\ dk_img x = dk_img d /\
  exists ws ws', dk_writes x = ws ++ dk_writes d /\ dk_writes d' = ws' ++ dk_writes x.

(** Sector writes through disks that all satisfy [P]. *)
Inductive dsteps (P : disk -> Prop) : disk -> disk -> Prop :=
| ds_refl d : P d -> dsteps P d d
| ds_put d d' sec b : dsteps P d d' -> P (disk_put sec b d') -> dsteps P d (disk_put sec b d').

Lemma dsteps_last P d d' : dsteps P d d' -> P d'.
Proof. by destruct 1. Qed.

Lemma dsteps_first P d d' : dsteps P d d' -> P d.
Proof. by induction 1. Qed.

Lemma dsteps_trans P d d' d'' : dsteps P d d' -> dsteps P d' d'' -> dsteps P d d''.
Proof. intros H. induction 1; [done|]. constructor; auto. Qed.

Lemma dsteps_mono (P Q : disk -> Prop) d d' :
  (forall x, P x -> Q x) -> dsteps P d d' -> dsteps Q d d'.
Proof. intros HPQ. induction 1; constructor; auto. Qed.

Lemma dsteps_writes P d d' :
  dsteps P d d' -> dk_size d' = dk_size d /\ dk_img d' = dk_img d /\
  exists ws, dk_writes d' = ws ++ dk_writes d.
Proof.
  induction 1 as [d|d d' sec b _ (IH1 & IH2 & ws & IH3)]; [by split_and!; try exists []|].
  simpl. split_and!; [done..|]. exists ((sec, b) :: ws). by rewrite IH3.
Qed.

Lemma dsteps_crash P d d' x : dsteps P d d' -> crash_of d d' x -> P x.
Proof.
  intros Hd. revert x. induction Hd as [d HP|d d' sec b Hd IH HP];
    intros x (Hs & Hi & ws & ws' & Hx & Hx').
  - assert (length ws = 0%nat) as Hw.
    { apply (f_equal length) in Hx'. rewrite Hx, !length_app in Hx'. lia. }
    destruct ws; [|done]. destruct x, d; simpl in *. by subst.
  - destruct (dsteps_writes _ _ _ Hd) as (Hs' & Hi' & _). destruct ws' as [|w ws']; simpl in Hx'.
    + destruct x as [xs xi xw]. simpl in *. subst xs xi. rewrite <- Hs', <- Hi', <- Hx'. exact HP.
    + apply IH. split_and!; [done..|]. exists ws, ws'. split; [done|]. by injection Hx'.
Qed.

(** ** Installing the log *)
Section install.
  Context (s : log) (Vc : Z -> list Z) (L : list Z) (D : nat -> list Z) (P : disk -> Prop).
  Hypothesis RC : cache_rel (lg_io s) Vc ∅ (D 0%nat).
  Hypothesis Hgeom : geometry s.
  Hypothesis Hn : lh_n s = Z.of_nat (length L).
  Hypothesis Hsec : take (length L) (lh_sector s) = L.
  Hypothesis Hnd : NoDup L.
  Hypothesis Hhome : Forall (fun x => 0 <= x < lg_start s) L.
  Hypothesis Hcap : (length L <= log_cap s)%nat.
  Hypothesis Hroom : forall i x, L !! i = Some x -> (length (D i) < NBUF)%nat /\
    (x ∈ D i \/ (1 + length (D i) < NBUF)%nat).
  Hypothesis HD : forall i x, L !! i = Some x ->
    (x ∉ D (S i)) /\ forall y, y <> x -> y ∈ D i <-> y ∈ D (S i).
  Hypothesis HP0 : P (io_disk (lg_io s)).
  Hypothesis HP : forall d i x, P d -> L !! i = Some x ->
    P (disk_put x (Vc (lg_start s + 1 + Z.of_nat i)) d).

Lemma install_trans_cache :
    wp install_trans (fun _ s' => exists b' W, s' = lset b' s /\
      cache_rel b' W ∅ (D (length L)) /\ dsteps P (io_disk (lg_io s)) (io_disk b') /\
      calm (io_base (lg_io s)) (io_base b') /\
      (forall i x, L !! i = Some x -> W x = Vc (lg_start s + 1 + Z.of_nat i)) /\
      (forall x, x ∉ L -> W x = Vc x)) s.
  Proof.
    destruct Hgeom as [G1 G2 G3 G4 G5]. unfold install_trans. wp_step. wp_step. cbv beta.
    rewrite Hn, Nat2Z.id. eapply wp_mono.
    - apply (wp_for (fun i s' => exists b' W, s' = lset b' s /\
        cache_rel b' W ∅ (D i) /\ dsteps P (io_disk (lg_io s)) (io_disk b') /\
        calm (io_base (lg_io s)) (io_base b') /\
        (forall j x, (j < i)%nat -> L !! j = Some x -> W x = Vc (lg_start s + 1 + Z.of_nat j)) /\
        (forall x, x ∉ take i L -> W x = Vc x))).
      + exists (lg_io s), Vc. split_and!; try done; try lia; [by destruct s|by apply ds_refl].
      + intros i s' Hi (b & W & -> & RW & Hst & C & HW1 & HW2).
        destruct (lookup_lt_is_Some_2 L i Hi) as [x Hx].
        pose proof (proj1 (Forall_lookup _ _) Hhome _ _ Hx) as Hxr. cbv beta in Hxr.
        destruct (Hroom i x Hx) as [Hr1 Hr2]. destruct (HD i x Hx) as [HD1 HD2].
        destruct (dsteps_writes _ _ _ Hst) as (Hsz & _). unfold log_cap in Hcap.
        assert (Hslot : W (lg_start s + 1 + Z.of_nat i) = Vc (lg_start s + 1 + Z.of_nat i)).
        { apply HW2. intros [j Hj]%list_elem_of_lookup. apply lookup_take_Some in Hj as [Hj _].
          pose proof (proj1 (Forall_lookup _ _) Hhome _ _ Hj) as Hjr. cbv beta in Hjr. lia. }
        wp_call (install_one_cache _ W (D i));
          cbn [lset lg_io_l lg_io lg_start lh_sector] in *; try done; try lia.
        { rewrite <- Hsec in Hx. by apply lookup_take_Some in Hx as [? _]. }
        intros _ s' (b' & -> & RW' & Hd & C'). exists b', (vset W x (W (lg_start s + 1 + Z.of_nat i))).
        rewrite Hslot in *. split_and!; try done.
        * rewrite Hd. apply ds_put; [done|]. apply HP; [|done]. by eapply dsteps_last.
        * by etransitivity.
        * intros j y Hj Hy. destruct (decide (j = i)) as [->|Hne].
          -- assert (y = x) as -> by congruence. apply vset_eq.
          -- rewrite vset_ne; [apply HW1; [lia|done]|]. intros ->. apply Hne. by eapply NoDup_lookup.
        * intros y Hy. erewrite take_S_r in Hy by exact Hx. rewrite vset_ne by set_solver.
          apply HW2. set_solver.
    - intros _ s' (b & W & -> & RW & Hst & C & HW1 & HW2). exists b, W. split_and!; try done.
      + intros i x Hx. apply HW1; [by eapply lookup_lt_Some|done].
      + by rewrite take_ge in HW2.
  Qed.
End install.

(** A sector not kept dirty is on the disk as the cache's clients see it. *)
Lemma cache_disk s V H D x : cache_rel s V H D -> x ∉ D -> V x = disk_get (io_disk s) x.
Proof.
  intros R Hx. destruct (cr_disk _ _ _ _ R x) as [?|(i & b & Hi & Hb & Hd & Hdi & Hs)]; [done|].
  destruct Hx. rewrite <- Hs. by apply (br_dirty _ _ _ _ _ _ (cr_bufs _ _ _ _ R _ _ Hi Hb)).
Qed.

(** ** Disks that recover to [W]

    The header names the sectors [L]; the log has the contents of those, and
    the home sectors those of the others. *)
Record recovers (start size : Z) (L : list Z) (d : disk) (W : Z -> list Z) : Prop := {
  rc_header : header (disk_get d start) L;
  rc_nodup : NoDup L;
  rc_home : Forall (fun x => 0 <= x < start) L;
  rc_len : (length L <= Nat.min LOGSIZE (Z.to_nat (size - 1)))%nat;
  rc_old : forall x, 0 <= x < start -> x ∉ L -> disk_get d x = W x;
  rc_log : forall i x, L !! i = Some x -> disk_get d (start + 1 + Z.of_nat i) = W x;
}.

(** An empty header: the home sectors are as they stand. *)
Lemma recovers_nil start size d W :
  length (disk_get d start) = 512%nat -> get32 0 (disk_get d start) = 0 ->
  (forall x, 0 <= x < start -> disk_get d x = W x) -> recovers start size [] d W.
Proof. intros Hl H0 HW. split; try done; [constructor|simpl; lia|auto]. Qed.

(** Installing one of the logged sectors changes nothing. *)
Lemma recovers_install start size L d W i x :
  recovers start size L d W -> L !! i = Some x -> recovers start size L (disk_put x (W x) d) W.
Proof.
  intros [R1 R2 R3 R4 R5 R6] Hx. pose proof (proj1 (Forall_lookup _ _) R3 _ _ Hx) as Hxr.
  cbv beta in Hxr. split; try done; intros; rewrite disk_get_put.
  - rewrite decide_False by lia. done.
  - case_decide; [by subst|auto].
  - rewrite decide_False by lia. auto.
Qed.

(** Writing the header of a filled log commits it. *)
Lemma recovers_commit start size L d W hd :
  header hd L -> NoDup L -> Forall (fun x => 0 <= x < start) L ->
  (length L <= Nat.min LOGSIZE (Z.to_nat (size - 1)))%nat ->
  (forall x, 0 <= x < start -> x ∉ L -> disk_get d x = W x) ->
  (forall i x, L !! i = Some x -> disk_get d (start + 1 + Z.of_nat i) = W x) ->
  recovers start size L (disk_put start hd d) W.
Proof.
  intros. split; try done; intros; rewrite disk_get_put.
  - by rewrite decide_True.
  - rewrite decide_False by lia. auto.
  - rewrite decide_False by lia. auto.
Qed.

(** ** Leaving a transaction *)
(** The end of [commit_trans]. *)
Lemma commit_tail s V H D :
  cache_rel (lg_io s) V H D -> free (lg_lock s) ->
  wp (zoom (L := log_lock) acquire ;;;
      modify (set_lg_busy 0) ;;;
      zoom (L := lg_base_l) (wakeup ChLog) ;;;
      zoom (L := log_lock) release)
    (fun _ s' => exists b', s' = Log b' (dropped (lg_lock s)) (lg_start s) (lg_size s) 0 (lg_dev s)
                                   (lh_n s) (lh_sector s) /\
      cache_rel b' V H D /\ io_disk b' = io_disk (lg_io s) /\
      calm (io_base (lg_io s)) (io_base b')) s.
Proof.
  intros RC Hf. destruct (cr_ok _ _ _ _ RC) as [[[Hpf Hn] Hbf] _].
  eapply outcome_wp.
  { erewrite bind_ok by (erewrite zoom_ok; [reflexivity|by apply acquire_ok]).
    erewrite bind_ok by reflexivity.
    erewrite bind_ok.
    2:{ erewrite zoom_ok; [reflexivity|]. apply wakeup_run. split; [exact Hpf|]. simpl. lia. }
    cbn [lset lg_base_l log_lock lget lg_io_l lg_io io_base_l io_base set_lg_busy b_cpu b_lock
         b_procs settled fst snd lg_lock].
    unfold settled. cbn [b_cpu b_lock]. rewrite quiet_cli by lia. erewrite zoom_ok; [reflexivity|]. by apply release_taken. }
  eexists. split; [reflexivity|]. split; [|split; [reflexivity|exact (calm_settled (io_base (lg_io s)) ChLog)]].
  eapply cache_rel_base; [exact RC| |done|done].
  split; [|done]. split; [apply free_dropped|]. simpl. lia.
Qed.

(** The disk recovers to [W], with the superblock of [d0]. *)
Definition durable (start size : Z) (sb : list Z) (W : Z -> list Z) (d : disk) : Prop :=
  disk_get d 1 = sb /\ exists L, (1 ∉ L) /\ recovers start size L d W.

(** The end of a commit and of a recovery: install a committed log, then
    empty it. *)
Section settle.
  Context (s : log) (Vc W : Z -> list Z) (L : list Z) (D : nat -> list Z) (sb : list Z).
  Hypothesis RC : cache_rel (lg_io s) Vc ∅ (D 0%nat).
  Hypothesis Hgeom : geometry s.
  Hypothesis Hn : lh_n s = Z.of_nat (length L).
  Hypothesis Hsec : take (length L) (lh_sector s) = L.
  Hypothesis HR : recovers (lg_start s) (lg_size s) L (io_disk (lg_io s)) W.
  Hypothesis Hroom : forall i x, L !! i = Some x -> (length (D i) < NBUF)%nat /\
    (x ∈ D i \/ (1 + length (D i) < NBUF)%nat).
  Hypothesis HD : forall i x, L !! i = Some x ->
    (x ∉ D (S i)) /\ forall y, y <> x -> y ∈ D i <-> y ∈ D (S i).
  Hypothesis HDL : D (length L) = [].
  Hypothesis HD0 : forall x, x ∈ D 0%nat -> x ∈ L.
  Hypothesis Hsb : disk_get (io_disk (lg_io s)) 1 = sb.
  Hypothesis H1 : 1 < lg_start s /\ 1 ∉ L.

Lemma settle_log :
    wp (install_trans ;;; modify (fun s => set_lh 0 (lh_sector s) s) ;;; write_head)
      (fun _ s' => exists b' Vc', s' = set_lh 0 (lh_sector s) (lset b' s) /\
        cache_rel b' Vc' ∅ [] /\ log_view (lg_start s) W [] Vc' /\
        dsteps (durable (lg_start s) (lg_size s) sb W) (io_disk (lg_io s)) (io_disk b') /\
        calm (io_base (lg_io s)) (io_base b')) s.
  Proof.
    pose proof HR as [(Hhl & _) R2 R3 R4 R5 R6]. destruct H1 as [H1s H1L].
    assert (HVd : forall x, x ∉ L -> Vc x = disk_get (io_disk (lg_io s)) x).
    { intros x Hx. eapply cache_disk; [exact RC|]. auto. }
    assert (Hout : forall x, lg_start s <= x -> x ∉ L).
    { intros x Hx [i Hi]%list_elem_of_lookup.
      pose proof (proj1 (Forall_lookup _ _) R3 _ _ Hi) as Hxr. cbv beta in Hxr. lia. }
    assert (Hslot : forall i x, L !! i = Some x -> Vc (lg_start s + 1 + Z.of_nat i) = W x).
    { intros i x Hi. rewrite HVd by (apply Hout; lia). eauto. }
    apply wp_bind.
    wp_call (install_trans_cache s Vc L D
      (fun d => disk_get d 1 = sb /\ recovers (lg_start s) (lg_size s) L d W)); try done.
    { intros d i x [Hd1 HRd] Hi. rewrite (Hslot i x Hi). split; [|by eapply recovers_install].
      rewrite disk_get_put, decide_False; [done|]. intros <-. apply H1L.
      by eapply list_elem_of_lookup_2. }
    intros _ s' (b' & W' & -> & RW & Hst & C & HW1 & HW2). rewrite HDL in RW.
    destruct (dsteps_writes _ _ _ Hst) as (Hsz & _). destruct Hgeom as [G1 G2 G3 G4 G5].
    assert (HW : forall x, 0 <= x < lg_start s -> W' x = W x).
    { intros x Hx. destruct (decide (x ∈ L)) as [[i Hi]%list_elem_of_lookup|Hni].
      - rewrite (HW1 i x Hi). auto.
      - rewrite HW2, HVd by done. auto. }
    assert (HWs : W' (lg_start s) = disk_get (io_disk (lg_io s)) (lg_start s)).
    { rewrite HW2, HVd by (apply Hout; lia). done. }
    apply wp_bind, wp_modify. eapply wp_mono.
    { eapply (write_head_cache _ W' []); cbn [lset lg_io_l lg_io set_lh lg_dev lg_start lh_sector];
        [exact RW|done|lia|unfold NBUF; simpl; lia|lia|set_solver]. }
    cbn [lset lg_io_l lg_io set_lh lg_dev lg_start lh_sector lh_n lg_lock lg_size lg_busy].
    set (hd := head_bytes 0 (lh_sector s) (W' (lg_start s))).
    assert (Hhd : header hd []).
    { apply header_bytes; [done|done|simpl; lia|constructor|by rewrite HWs]. }
    intros _ s' (b2 & -> & R2' & Hd2 & C2). eexists b2, _. split; [done|]. split; [exact R2'|].
    unfold log_view. split_and!.
    - intros x Hx. rewrite vset_ne by lia. auto.
    - rewrite vset_eq. by destruct Hhd.
    - rewrite vset_eq. by destruct Hhd as (_ & ? & _).
    - done.
    - destruct (dsteps_last _ _ _ Hst) as [Hb1 _]. rewrite Hd2. apply ds_put.
      + eapply dsteps_mono; [|exact Hst]. intros x [??]. split; [done|by exists L].
      + split; [rewrite disk_get_put, decide_False by lia; done|]. exists []. split; [set_solver|].
        destruct Hhd as (Hh1 & Hh2 & _).
        apply recovers_nil; rewrite ?disk_get_put, ?decide_True by done; try done.
        intros x Hx. rewrite disk_get_put, decide_False by lia.
        rewrite <- (cache_disk _ _ _ _ x RW) by set_solver. auto.
    - by etransitivity.
  Qed.
End settle.

(** ** commit_trans *)

(** The log as it is between transactions holds one disk image. *)
Lemma log_rel_idle s V0 V Vc L b' lk busy' dev' secs :
  log_rel s V0 V ∅ L -> cache_rel b' Vc ∅ [] -> log_view (lg_start s) V [] Vc ->
  dk_size (io_disk b') = dk_size (io_disk (lg_io s)) -> dev' = lg_dev s ->
  free lk -> length secs = LOGSIZE ->
  log_rel (Log b' lk (lg_start s) (lg_size s) busy' dev' 0 secs) V V ∅ [].
Proof.
  intros R RC HV Hsz -> Hlk Hsecs. destruct (lr_geom _ _ _ _ _ R) as [G1 G2 G3 G4 G5].
  split; cbn [lg_io lg_lock lg_start lg_size lg_dev lh_n lh_sector]; try done.
  - split; cbn [lg_io lg_start lg_size lg_dev]; rewrite ?Hsz; done.
  - by exists Vc.
  - constructor.
  - simpl. lia.
  - simpl. unfold NBUF. lia.
  - intros x Hx. rewrite <- (cache_disk _ _ _ _ x RC) by set_solver. by apply HV.
Qed.

(** Before the commit the disk recovers to the old contents. *)
Lemma log_rel_durable s V0 V H L :
  log_rel s V0 V H L ->
  durable (lg_start s) (lg_size s) (disk_get (io_disk (lg_io s)) 1) V0 (io_disk (lg_io s)).
Proof.
  intros R. split; [done|]. exists []. split; [set_solver|]. destruct (lr_cache _ _ _ _ _ R) as (Vc & RC & _ & Hl & H0 & _).
  assert (lg_start s ∉ L) as Hs.
  { intros [i Hi]%list_elem_of_lookup.
    pose proof (proj1 (Forall_lookup _ _) (lr_home _ _ _ _ _ R) _ _ Hi) as Hxr. cbv beta in Hxr. lia. }
  rewrite (cache_disk _ _ _ _ _ RC Hs) in Hl, H0. apply recovers_nil; [done..|]. apply R.
Qed.

Section commit.
  Context (s : log) (V0 V : Z -> list Z) (L : list Z).
  Hypothesis R : log_rel s V0 V ∅ L.
  Hypothesis H1 : 1 < lg_start s /\ 1 ∉ L.
Let sb := disk_get (io_disk (lg_io s)) 1.
Let P (d : disk) : Prop :=
    durable (lg_start s) (lg_size s) sb V0 d \/ durable (lg_start s) (lg_size s) sb V d.

Lemma commit_body :
    wp (write_head ;;; install_trans ;;; modify (fun s => set_lh 0 (lh_sector s) s) ;;; write_head)
      (fun _ s' => exists b' Vc', s' = set_lh 0 (lh_sector s) (lset b' s) /\
        cache_rel b' Vc' ∅ [] /\ log_view (lg_start s) V [] Vc' /\
        dsteps P (io_disk (lg_io s)) (io_disk b') /\
        calm (io_base (lg_io s)) (io_base b')) s.
  Proof.
    pose proof (log_rel_durable _ _ _ _ _ R) as Hdur.
    destruct R as [[G1 G2 G3 G4 G5] Hlk (Vc & RC & HV1 & HV2 & HV3 & HV4) Hn Hsec Hsecs Hnd Hhome Hlen Hpins _ Hold].
    assert (Hout : forall x, lg_start s <= x -> x ∉ L).
    { intros x Hx [i Hi]%list_elem_of_lookup.
      pose proof (proj1 (Forall_lookup _ _) Hhome _ _ Hi) as Hxr. cbv beta in Hxr. lia. }
    apply wp_bind. eapply wp_mono.
    { apply (write_head_cache s Vc L RC G5 G4 Hpins); [lia|apply Hout; lia]. }
    set (hd := head_bytes _ _ _). intros _ s' (b & -> & RC1 & Hd1 & C1).
    assert (Hhd : header hd L).
    { apply header_bytes; try done; [unfold log_cap in Hlen; lia|by eapply home_u32]. }
    assert (Hrec : recovers (lg_start s) (lg_size s) L (io_disk b) V).
    { rewrite Hd1. apply recovers_commit; try done.
      - intros x Hx Hxl. rewrite <- (cache_disk _ _ _ _ x RC Hxl). by apply HV1.
      - intros i x Hi. rewrite <- (cache_disk _ _ _ _ _ RC); [by apply HV4|]. apply Hout. lia. }
    wp_call (settle_log _ _ V L (fun i => drop i L) sb); [exact RC1| | | |exact Hrec|..];
      cbn [lset lg_io_l lg_io lg_start lg_size lh_n lh_sector]; try done.
    - split; cbn [lg_io lg_start lg_size lg_dev]; rewrite ?Hd1; done.
    - intros i x Hi. rewrite length_drop. split; [lia|left].
      rewrite (drop_S _ _ _ Hi). left.
    - intros i x Hi. rewrite (drop_S _ _ _ Hi). split; [|set_solver].
      rewrite <- (take_drop i L), (drop_S _ _ _ Hi) in Hnd.
      apply NoDup_app in Hnd as (_ & _ & Hnd). by apply NoDup_cons in Hnd as [? _].
    - by rewrite drop_all.
    - rewrite Hd1, disk_get_put, decide_False by lia. done.
    - intros _ s' (b' & Vc' & -> & RC' & Hv' & Hst & C'). exists b', Vc'.
      split_and!; try done; [|by etransitivity].
      eapply dsteps_trans; [|eapply dsteps_mono; [|exact Hst]; intros; by right].
      rewrite Hd1. apply ds_put; [apply ds_refl; by left|]. right. rewrite <- Hd1.
      exact (dsteps_first _ _ _ Hst).
  Qed.
End commit.

Lemma commit_run s V0 V L :
  log_rel s V0 V ∅ L -> 1 < lg_start s /\ 1 ∉ L ->
  let sb := disk_get (io_disk (lg_io s)) 1 in
  wp commit_trans (fun _ s' => log_rel s' V V ∅ [] /\ lg_busy s' = 0 /\
    lg_start s' = lg_start s /\ lg_size s' = lg_size s /\
    calm (io_base (lg_io s)) (io_base (lg_io s')) /\
    dsteps (fun d => durable (lg_start s) (lg_size s) sb V0 d \/
                     durable (lg_start s) (lg_size s) sb V d)
      (io_disk (lg_io s)) (io_disk (lg_io s'))) s.
Proof.
  intros R H1 sb. unfold commit_trans. wp_step. wp_step. cbv beta. apply wp_bind.
  apply wp_mono with (Q := fun _ s' => exists b' Vc', s' = set_lh 0 (lh_sector s) (lset b' s) /\
        cache_rel b' Vc' ∅ [] /\ log_view (lg_start s) V [] Vc' /\
        dsteps (fun d => durable (lg_start s) (lg_size s) sb V0 d \/
                         durable (lg_start s) (lg_size s) sb V d) (io_disk (lg_io s)) (io_disk b') /\
        calm (io_base (lg_io s)) (io_base b')).
  { destruct (lh_n s >? 0) eqn:E; [exact (commit_body s V0 V L R H1)|]. wp_step.
    pose proof (log_rel_durable _ _ _ _ _ R) as Hdur. pose proof (lr_n _ _ _ _ _ R) as Hn.
    destruct L as [|? L]; [|cbn in Hn; lia]. destruct (lr_cache _ _ _ _ _ R) as (Vc & RC & Hv).
    exists (lg_io s), Vc. split_and!; try done; [|by apply ds_refl; left].
    destruct s; cbn in *. by subst. }
  intros _ s' (b' & Vc' & -> & RC & Hv & Hst & C). destruct (dsteps_writes _ _ _ Hst) as (Hsz & _).
  eapply wp_mono; [eapply commit_tail; [exact RC|apply R]|].
  intros _ s' (b2 & -> & RC2 & Hd2 & C2).
  cbn [lset lg_io_l lg_io lg_lock lg_start lg_size lg_dev lh_n lh_sector set_lh lg_busy] in *.
  split_and!; try done; [|by etransitivity|by rewrite Hd2].
  apply (log_rel_idle s V0 V Vc' L); try done; [by rewrite Hd2|apply R].
Qed.

(** ** Recovery *)
Lemma read_head_cache s Vc L :
  cache_rel (lg_io s) Vc ∅ [] -> geometry s -> header (Vc (lg_start s)) L ->
  (length L <= LOGSIZE)%nat -> Forall (fun x => 0 <= x < lg_start s) L ->
  length (lh_sector s) = LOGSIZE ->
  wp read_head (fun _ s' => exists b' secs,
    s' = set_lh (Z.of_nat (length L)) secs (lset b' s) /\ cache_rel b' Vc ∅ [] /\
    io_disk b' = io_disk (lg_io s) /\ calm (io_base (lg_io s)) (io_base b') /\
    take (length L) secs = L /\ length secs = LOGSIZE) s.
Proof.
  intros RC [G1 G2 G3 G4 G5] (Hh1 & Hh2 & Hh3) Hlen Hhome Hsecs.
  unfold read_head. wp_step. wp_step. cbv beta.
  rewrite log_bread_eq by (done || unfold is_u32; lia). apply wp_bind.
  io_call (cache_bread _ _ _ _ (lg_start s) RC); [lia|done|by right; rewrite map_size_empty; unfold NBUF; simpl; lia|].
  intros h b1 (_ & R1 & Hd1 & C1). wp_step. unfold log_data. wp_step.
  cbn [lset lg_io_l lg_io]. rewrite (held_data b1 _ _ _ h _ _ R1) by (by rewrite lookup_insert_eq).
  wp_step. wp_step. wp_step. wp_step. cbn [set_lh lh_n lh_sector].
  assert (Hn : s32 (get32 0 (Vc (lg_start s))) = Z.of_nat (length L)).
  { rewrite Hh2. apply s32_id. unfold is_s32. unfold LOGSIZE in Hlen. lia. }
  rewrite Hn, Nat2Z.id. apply wp_bind. eapply wp_mono.
  { apply (wp_for (fun i s' => exists secs, s' = set_lh (Z.of_nat (length L)) secs (lset b1 s) /\
      take i secs = take i L /\ length secs = LOGSIZE)).
    - eexists. split; [reflexivity|]. done.
    - intros i s' Hi (secs & -> & Ht & Hsl). wp_step. wp_step. cbn [set_lh lh_sector].
      rewrite decide_True by lia. wp_step. eexists. split; [reflexivity|]. rewrite length_insert.
      split; [|done]. destruct (lookup_lt_is_Some_2 L i Hi) as [x Hx].
      pose proof (proj1 (Forall_lookup _ _) Hhome _ _ Hx) as Hxr. cbv beta in Hxr.
      erewrite (take_S_r L) by exact Hx. rewrite (take_S_r _ i _ (list_lookup_insert_eq secs i _ ltac:(lia))).
      rewrite take_insert_ge by lia. rewrite Ht. do 2 f_equal. rewrite (Hh3 i x Hx).
      apply s32_id. unfold is_s32. lia. }
  intros _ s' (secs & -> & Ht & Hsl).
  io_call (cache_brelse b1 _ _ [] h (lg_start s) R1); [by rewrite lookup_insert_eq|].
  intros _ b2 (R2 & Hd2 & C2). rewrite delete_insert_id in R2 by done.
  exists b2, secs. rewrite (take_ge L) in Ht by done. split_and!; try done; [congruence|by etransitivity].
Qed.

Lemma recover_run s W :
  cache_rel (lg_io s) (disk_get (io_disk (lg_io s))) ∅ [] -> geometry s -> 1 < lg_start s ->
  length (lh_sector s) = LOGSIZE -> free (lg_lock s) ->
  (exists L, (1 ∉ L) /\ recovers (lg_start s) (lg_size s) L (io_disk (lg_io s)) W) ->
  wp recover_from_log (fun _ s' => log_rel s' W W ∅ [] /\ lg_busy s' = lg_busy s /\
    lg_start s' = lg_start s /\ lg_size s' = lg_size s /\
    dsteps (durable (lg_start s) (lg_size s) (disk_get (io_disk (lg_io s)) 1) W)
      (io_disk (lg_io s)) (io_disk (lg_io s'))) s.
Proof.
  intros RC G H1 Hsecs Hlk (L & H1L & HR). pose proof HR as [R1 R2 R3 R4 R5 R6].
  unfold recover_from_log. apply wp_bind. eapply wp_mono.
  { eapply read_head_cache; try done. lia. }
  intros _ s' (b & secs & -> & RCb & Hd & C & Ht & Hsl). destruct G as [G1 G2 G3 G4 G5].
  eapply wp_mono.
  { eapply (settle_log _ _ W L (fun _ => [])); [exact RCb|..];
      cbn [lset lg_io_l lg_io set_lh lg_start lg_size lh_n lh_sector]; rewrite ?Hd; try done.
    - split; cbn [set_lh lg_io lg_start lg_size lg_dev]; rewrite ?Hd; done.
    - intros. unfold NBUF. simpl. split; [|right]; lia.
    - set_solver.
    - set_solver. }
  cbn [lset lg_io_l lg_io set_lh lg_start lg_size lh_n lh_sector]. rewrite Hd.
  intros _ s' (b' & Vc & -> & RC' & Hv & Hst & C'). destruct (dsteps_writes _ _ _ Hst) as (Hsz & _).
  cbn [lset lg_io_l lg_io set_lh lg_start lg_size lh_n lh_sector lg_lock lg_busy lg_dev].
  split_and!; try done.
  split; cbn [lset lg_io_l lg_io lg_lock lg_start lg_size lg_dev lh_n lh_sector set_lh]; try done.
  - split; cbn [lset lg_io_l lg_io lg_start lg_size lg_dev set_lh]; rewrite ?Hsz; done.
  - by exists Vc.
  - constructor.
  - simpl. lia.
  - simpl. unfold NBUF. lia.
  - intros x Hx. rewrite <- (cache_disk _ _ _ _ x RC') by set_solver. by apply Hv.
Qed.

(** What the superblock says, within the disk. *)
Definition placed (start size : Z) (sb : list Z) : Prop :=
  s32 (u32 (sb_size (sb_decode sb) - sb_nlog (sb_decode sb))) = start /\
  s32 (sb_nlog (sb_decode sb)) = size.

Lemma initlog_run s start size W :
  let d := io_disk (lg_io s) in
  cache_rel (lg_io s) (disk_get d) ∅ [] -> length (lh_sector s) = LOGSIZE ->
  placed start size (disk_get d 1) -> 1 < start -> 1 < size ->
  start + size <= dk_size d -> dk_size d <= 2 ^ 31 ->
  durable start size (disk_get d 1) W d ->
  wp initlog (fun _ s' => log_rel s' W W ∅ [] /\ lg_busy s' = lg_busy s /\
    lg_start s' = start /\ lg_size s' = size /\
    dsteps (durable start size (disk_get d 1) W) d (io_disk (lg_io s'))) s.
Proof.
  intros d RC Hsecs [Hst Hsz] H1 H2 H3 H4 [_ HR]. unfold initlog.
  change (LOGHEADER_SIZE >=? BSIZE) with false. cbv iota. wp_step. wp_step. apply wp_bind.
  apply wp_zoom. unfold readsb. cbn [bo_bread bio_ops]. apply wp_bind.
  change ROOTDEV with 1. cbn [lget lg_io_l lg_io].
  wp_call (cache_bread _ _ _ _ 1 RC);
    [unfold d in *; lia|done|by right; rewrite map_size_empty; unfold NBUF; simpl; lia|].
  intros h b1 (_ & R1 & Hd1 & C1). wp_step. wp_step.
  rewrite (held_data b1 _ _ _ h _ _ R1) by (by rewrite lookup_insert_eq). apply wp_bind.
  wp_call (cache_brelse b1 _ _ [] h 1 R1); [by rewrite lookup_insert_eq|].
  intros _ b2 (R2 & Hd2 & C2). rewrite delete_insert_id in R2 by done. wp_step. wp_step. wp_step.
  cbn [lset lg_io_l lg_io lg_lock lh_n lh_sector lg_busy]. rewrite Hst, Hsz.
  assert (Hdd : io_disk b2 = d) by (unfold d; congruence).
  wp_call (recover_run _ W); cbn [lg_io lg_start lg_size lh_sector lg_lock lg_busy];
    rewrite ?Hdd; try done.
  split; cbn [lg_io lg_start lg_size lg_dev]; rewrite ?Hdd; (done || lia).
Qed.

(** ** Starting from a disk *)

(** The zeroed kernel data over a disk. *)
Definition log0 (base : base) (d : disk) : log :=
  Log (bio0 base d) (Spinlock 0 "" None []) 0 0 0 0 0 (replicate LOGSIZE 0).

(** main.c runs [binit], the first process's [forkret] runs [initlog]. *)
Definition boot_log : M log unit := zoom binit ;;; initlog.

Lemma binit_cache base d :
  base_ok base ->
  wp binit (fun _ s' => cache_rel s' (disk_get d) ∅ [] /\ io_disk s' = d) (bio0 base d).
Proof.
  intros Hb. wp_call binit_run; [done|]. intros _ s' (bs & -> & Hl & Hst). split; [|done].
  assert (Hdev : forall i b, (i < NBUF)%nat -> (strip <$> bs) !! i = Some b ->
                   b = Buf 0 (u32 (-1)) 0 0 0 (replicate 512 0)).
  { intros i b Hi Hib. rewrite Hst in Hib. unfold fresh_upto in Hib.
    rewrite list_lookup_imap in Hib. cbn [io_bufs bio0] in Hib.
    rewrite lookup_replicate_2 in Hib by lia. simpl in Hib. rewrite decide_True in Hib by lia.
    by injection Hib as <-. }
  split; unfold pay; cbn [io_bufs io_disk].
  - split; [done|]. eauto.
  - intros i b Hi Hib. rewrite (Hdev i b Hi Hib). by split.
  - intros i x. by rewrite lookup_empty.
  - intros i j b b' Hi _ Hib _ Hd1. by rewrite (Hdev i b Hi Hib) in Hd1.
  - by left.
  - set_solver.
Qed.

Lemma boot_run base d start size W :
  base_ok base -> placed start size (disk_get d 1) -> 1 < start -> 1 < size ->
  start + size <= dk_size d -> dk_size d <= 2 ^ 31 ->
  durable start size (disk_get d 1) W d ->
  exists s', boot_log (log0 base d) = Ok tt s' /\
    log_rel s' W W ∅ [] /\ lg_busy s' = 0 /\ lg_start s' = start /\ lg_size s' = size /\
    dsteps (durable start size (disk_get d 1) W) d (io_disk (lg_io s')).
Proof.
  intros Hb Hp H1 H2 H3 H4 HR.
  assert (wp boot_log (fun _ s' => log_rel s' W W ∅ [] /\ lg_busy s' = 0 /\
    lg_start s' = start /\ lg_size s' = size /\
    dsteps (durable start size (disk_get d 1) W) d (io_disk (lg_io s'))) (log0 base d)) as Hw.
  { unfold boot_log. apply wp_bind. io_call (binit_cache base d Hb).
    intros _ b (RC & Hd). wp_call (initlog_run _ start size W);
      cbn [lset lg_io_l lg_io log0 lh_sector]; rewrite ?Hd; done. }
  apply wp_outcome in Hw as ([] & s' & Hs & HQ). by exists s'.
Qed.

(** ** begin_trans *)
Lemma log_rel_base s V0 V H L b' lk busy' :
  log_rel s V0 V H L -> locks_ok b' -> io_bufs b' = io_bufs (lg_io s) ->
  io_disk b' = io_disk (lg_io s) -> free lk ->
  log_rel (Log b' lk (lg_start s) (lg_size s) busy' (lg_dev s) (lh_n s) (lh_sector s)) V0 V H L.
Proof.
  intros R Hlk Hb Hd Hf. destruct R as [[G1 G2 G3 G4 G5] ? (Vc & RC & HV) ? ? ? ? ? ? ? ? ?].
  split; cbn [lg_io lg_lock lg_start lg_size lg_dev lh_n lh_sector]; rewrite ?Hd; try done.
  - split; cbn [lg_io lg_start lg_size lg_dev]; rewrite ?Hd; done.
  - exists Vc. split; [|done]. by eapply cache_rel_base.
Qed.

Lemma begin_run s V0 V H L :
  log_rel s V0 V H L -> lg_busy s = 0 ->
  wp begin_trans (fun _ s' => log_rel s' V0 V H L /\ lg_busy s' = 1 /\
    lg_start s' = lg_start s /\ lg_size s' = lg_size s /\ io_disk (lg_io s') = io_disk (lg_io s) /\
    calm (io_base (lg_io s)) (io_base (lg_io s'))) s.
Proof.
  intros R Hb. pose proof (lr_lock _ _ _ _ _ R) as Hf.
  destruct (lr_cache _ _ _ _ _ R) as (Vc & RC & _).
  destruct (cr_ok _ _ _ _ RC) as [[[Hpf Hn] Hbf] _]. eapply outcome_wp.
  { unfold begin_trans. erewrite bind_ok by (erewrite zoom_ok; [reflexivity|by apply acquire_ok]).
    unfold wakeups. cbn [begin_loop]. erewrite bind_ok.
    2:{ erewrite bind_ok by reflexivity. cbn [lset log_lock lg_busy]. rewrite Hb. reflexivity. }
    erewrite bind_ok by reflexivity. erewrite zoom_ok; [reflexivity|]. by apply release_taken. }
  split_and!; try done. by apply (log_rel_base s V0 V H L).
Qed.

(** ** The crash theorems *)

(** C1. A transaction is atomic. [commit_trans] returns, with the
    transaction's contents [V] on the disk and an empty log; and whatever
    prefix of its sector writes a crash lets through, the kernel that boots
    from that disk gets through [initlog] and finds either every home sector
    as before the transaction ([V0]) or every one as after it ([V]). *)
Theorem crash_atomic s V0 V L base :
  log_rel s V0 V ∅ L -> placed (lg_start s) (lg_size s) (V0 1) ->
  1 < lg_start s -> 1 ∉ L -> base_ok base ->
  exists s', commit_trans s = Ok tt s' /\ log_rel s' V V ∅ [] /\ lg_busy s' = 0 /\
    forall x, crash_of (io_disk (lg_io s)) (io_disk (lg_io s')) x ->
    exists s'', boot_log (log0 base x) = Ok tt s'' /\
      (log_rel s'' V0 V0 ∅ [] \/ log_rel s'' V V ∅ []).
Proof.
  intros R Hp H1 HL Hb.
  destruct (wp_outcome _ _ _ (commit_run s V0 V L R (conj H1 HL)))
    as ([] & s' & Hs & R' & Hbusy & Hst' & Hsz' & _ & Hsteps).
  exists s'. split_and!; try done. intros x Hx.
  rewrite <- (lr_old _ _ _ _ _ R 1) in Hp by lia. destruct (lr_geom _ _ _ _ _ R).
  pose proof Hx as (Hxs & _). pose proof (dsteps_crash _ _ _ _ Hsteps Hx) as Hdur.
  assert (Hboot : forall W, durable (lg_start s) (lg_size s) (disk_get (io_disk (lg_io s)) 1) W x ->
    exists s'', boot_log (log0 base x) = Ok tt s'' /\ log_rel s'' W W ∅ []).
  { intros W HW. pose proof (proj1 HW) as H1x. rewrite <- H1x in HW, Hp.
    destruct (boot_run base x (lg_start s) (lg_size s) W) as (s'' & ? & ? & _); try done.
    - by rewrite Hxs.
    - by rewrite Hxs.
    - eauto. }
  destruct Hdur as [HW|HW]; destruct (Hboot _ HW) as (s'' & ? & ?); eauto.
Qed.

(** C38. Recovery may itself crash. From a disk whose committed log recovers
    to [W], booting returns with [W] in the home sectors, and from every disk
    a crash leaves on the way booting again ends with the same [W]. *)
Theorem recovery_idempotent base d start size W :
  base_ok base -> placed start size (disk_get d 1) -> 1 < start -> 1 < size ->
  start + size <= dk_size d -> dk_size d <= 2 ^ 31 ->
  durable start size (disk_get d 1) W d ->
  exists s', boot_log (log0 base d) = Ok tt s' /\ log_rel s' W W ∅ [] /\
    forall x, crash_of d (io_disk (lg_io s')) x ->
    exists s'', boot_log (log0 base x) = Ok tt s'' /\ log_rel s'' W W ∅ [].
Proof.
  intros Hb Hp H1 H2 H3 H4 HR.
  destruct (boot_run base d start size W) as (s' & Hs & R' & _ & _ & _ & Hsteps); try done.
  exists s'. split_and!; try done. intros x Hx. pose proof Hx as (Hxs & _).
  pose proof (dsteps_crash _ _ _ _ Hsteps Hx) as HW. rewrite <- Hxs in H3, H4.
  pose proof (proj1 HW) as H1x. rewrite <- H1x in HW, Hp.
  destruct (boot_run base x start size W) as (s'' & ? & ? & _); eauto.
Qed.

(** *** A formatted disk, and a transaction on it

    The layout mkfs.c gives it; blocks 0 to 28 are in use, the last of them
    the bitmap. *)
Definition sb0 : superblock := Superblock 1024 985 200 10.
Definition fs_disk : disk :=
  Disk 1024 (fun x => if x =? 1 then sb_encode sb0 ++ replicate 496 0
                      else if x =? 28 then [255; 255; 255; 31] ++ replicate 508 0
                      else replicate 512 0) [].

Lemma fs_disk_durable : durable 1014 10 (disk_get fs_disk 1) (disk_get fs_disk) fs_disk.
Proof.
  split; [done|]. exists []. split; [set_solver|]. by apply recovers_nil.
Qed.

(** One home sector overwritten inside a transaction. *)
Definition tx (sec : Z) (d : list Z) : M log unit :=
  begin_trans ;;;
  h <- zoom (bread 1 sec) ;;
  zoom (bset h d) ;;;
  log_write h ;;;
  zoom (brelse h).

Lemma tx_run s W sec d :
  log_rel s W W ∅ [] -> lg_busy s = 0 -> 0 <= sec < lg_start s ->
  wp (tx sec d) (fun _ s' => log_rel s' W (vset W sec d) ∅ [sec] /\
    lg_start s' = lg_start s /\ lg_size s' = lg_size s /\ lg_busy s' = 1) s.
Proof.
  intros R Hb Hsec. unfold tx. apply wp_bind. wp_call (begin_run _ _ _ _ _ R Hb).
  intros _ s1 (R1 & Hb1 & Hst1 & Hsz1 & _). apply wp_bind. destruct (lr_geom _ _ _ _ _ R).
  wp_call (log_bread_rel _ _ _ _ _ sec R1); [lia|done|right; rewrite map_size_empty; unfold NBUF; simpl; lia|].
  intros h s2 (_ & R2 & Hst2 & Hsz2 & Hb2 & _). apply wp_bind.
  wp_call (log_set_rel _ _ _ _ _ h sec (W sec) d R2); [by rewrite lookup_insert_eq|].
  intros _ s3 (R3 & Hst3 & Hsz3 & Hb3 & _). rewrite insert_insert_eq in R3. apply wp_bind.
  wp_call (log_write_rel _ _ _ _ _ h sec d R3);
    [congruence|by rewrite lookup_insert_eq|unfold log_cap, LOGSIZE; rewrite Hsz3, Hsz2, Hsz1; cbn [length]; lia| |].
  { rewrite map_size_insert_None by done. rewrite map_size_empty. unfold NBUF. simpl. lia. }
  intros _ s4 (R4 & Hst4 & Hsz4 & Hb4 & _). rewrite decide_False in R4 by set_solver.
  wp_call (log_brelse_rel _ _ _ _ _ h sec R4); [by rewrite lookup_insert_eq, vset_eq|].
  intros _ s5 (R5 & Hst5 & Hsz5 & Hb5 & _). rewrite delete_insert_id in R5 by done.
  split_and!; [exact R5|congruence..].
Qed.

Definition run_or {A} (m : M log A) (s : log) : log := match m s with Ok _ s' => s' | _ => s end.
Definition seven : list Z := replicate 512 7.
Definition tx_state : log := run_or (tx 40 seven) (run_or boot_log (log0 ptable0 fs_disk)).

Lemma tx_state_rel :
  log_rel tx_state (disk_get fs_disk) (vset (disk_get fs_disk) 40 seven) ∅ [40] /\
  lg_start tx_state = 1014 /\ lg_size tx_state = 10.
Proof.
  destruct (boot_run ptable0 fs_disk 1014 10 (disk_get fs_disk)) as (s & Hs & R & Hb & Hst & Hsz & _);
    [exact base_ok0|split; reflexivity|lia|lia|simpl; lia|simpl; lia|exact fs_disk_durable|].
  unfold tx_state, run_or. rewrite Hs.
  destruct (wp_outcome _ _ _ (tx_run s _ 40 seven R Hb ltac:(lia))) as ([] & s' & Hs' & R' & Hst' & Hsz' & _).
  rewrite Hs'. split_and!; [done|congruence..].
Qed.

Lemma crash_atomic_witness :
  log_rel tx_state (disk_get fs_disk) (vset (disk_get fs_disk) 40 seven) ∅ [40] /\
  exists s', commit_trans tx_state = Ok tt s' /\
    log_rel s' (vset (disk_get fs_disk) 40 seven) (vset (disk_get fs_disk) 40 seven) ∅ [] /\
    lg_busy s' = 0 /\
    forall x, crash_of (io_disk (lg_io tx_state)) (io_disk (lg_io s')) x ->
    exists s'', boot_log (log0 ptable0 x) = Ok tt s'' /\
      (log_rel s'' (disk_get fs_disk) (disk_get fs_disk) ∅ [] \/
       log_rel s'' (vset (disk_get fs_disk) 40 seven) (vset (disk_get fs_disk) 40 seven) ∅ []).
Proof.
  destruct tx_state_rel as (R & Hst & Hsz). split; [exact R|].
  apply (crash_atomic tx_state _ _ [40] ptable0 R).
  - rewrite Hst, Hsz. split; reflexivity.
  - rewrite Hst. lia.
  - by rewrite list_elem_of_singleton.
  - exact base_ok0.
Defined.

Lemma recovery_idempotent_witness :
  exists s', boot_log (log0 ptable0 fs_disk) = Ok tt s' /\
    log_rel s' (disk_get fs_disk) (disk_get fs_disk) ∅ [] /\
    forall x, crash_of fs_disk (io_disk (lg_io s')) x ->
    exists s'', boot_log (log0 ptable0 x) = Ok tt s'' /\
      log_rel s'' (disk_get fs_disk) (disk_get fs_disk) ∅ [].
Proof.
  apply (recovery_idempotent ptable0 fs_disk 1014 10 (disk_get fs_disk));
    [exact base_ok0|split; reflexivity|lia|lia|simpl; lia|simpl; lia|exact fs_disk_durable].
Defined.

(** The formatted disk booted, with a transaction open. *)
Definition open_state : log := run_or begin_trans (run_or boot_log (log0 ptable0 fs_disk)).

Lemma open_state_rel :
  ll_rel open_state (disk_get fs_disk) ∅ [] /\ ll_home open_state = 1014 /\ ll_room open_state = 9%nat.
Proof.
  destruct (boot_run ptable0 fs_disk 1014 10 (disk_get fs_disk)) as (s & Hs & R & Hb & Hst & Hsz & _);
    [exact base_ok0|split; reflexivity|lia|lia|simpl; lia|simpl; lia|exact fs_disk_durable|].
  unfold open_state, run_or. rewrite Hs.
  destruct (wp_outcome _ _ _ (begin_run s _ _ _ _ R Hb)) as ([] & s' & Hs' & R' & Hb' & Hst' & Hsz' & _).
  rewrite Hs'. cbn [ll_rel ll_home ll_room log_laws]. unfold log_cap. rewrite Hst', Hsz', Hst, Hsz, Hb'.
  split_and!; [done|eauto|done..].
Qed.
