(* ===== verification/Trans.v ===== *)
(** Transactions as an interface: what [begin_trans] and [commit_trans]
    promise to the system calls, and log.c's implementation of it. Outside a
    transaction the laws of the log hold with no room to write. *)
From stdpp Require Import base numbers list strings sets gmap.
From S2P Require Import Prelude Params Spinlock Sched Bio Cache BlockIf Log Crash.

Class TransLaws (S : Type) {O : LogOps S} : Type := {
  (* between transactions, when one may log so many sectors *)
  tl_read : nat -> LogLaws S;
  (* in a transaction *)
  tl_open : LogLaws S;
  tl_home : forall n s, ll_home (LogLaws := tl_open) s = ll_home (LogLaws := tl_read n) s;
  tl_begin : forall n s V,
    ll_rel (LogLaws := tl_read n) s V ∅ [] ->
    wp lo_begin (fun _ s' => ll_rel (LogLaws := tl_open) s' V ∅ [] /\
      ll_room (LogLaws := tl_open) s' = n /\
      ll_home (LogLaws := tl_open) s' = ll_home (LogLaws := tl_open) s /\ calm (lget s) (lget s')) s;
  tl_commit : forall s V L,
    ll_rel (LogLaws := tl_open) s V ∅ L -> 1 < ll_home (LogLaws := tl_open) s -> 1 ∉ L ->
    wp lo_commit (fun _ s' => ll_rel (LogLaws := tl_read (ll_room (LogLaws := tl_open) s)) s' V ∅ [] /\
      ll_home (LogLaws := tl_open) s' = ll_home (LogLaws := tl_open) s /\ calm (lget s) (lget s')) s;
  (* a write that belongs to no transaction is caught *)
  tl_outside : forall n s V H h sec d,
    ll_rel (LogLaws := tl_read n) s V H [] -> (0 < n)%nat -> H !! h = Some (sec, d) ->
    lo_log_write h s = Panic "write outside of trans";
}.

(** ** log.c between transactions *)
Lemma log_cap_same s s' : same_log s s' -> log_cap s' = log_cap s.
Proof. intros (_ & Hz & _). unfold log_cap. by rewrite Hz. Qed.

Program Definition log_read_laws (n : nat) : LogLaws log := {|
  ll_rel s V H L := (lg_busy s = 0 /\ log_cap s = n) /\ L = [] /\ log_rel s V V H [];
  ll_home := lg_start;
  ll_room _ := 0%nat;
|}.
Next Obligation.
  intros n s V H L (_ & -> & R). destruct (lr_cache _ _ _ _ _ R) as (Vc & RC & _).
  by destruct (cr_ok _ _ _ _ RC) as [[? _] _].
Qed.
Next Obligation.
  intros n s V H L b ([Hb Hc] & -> & R) Hok. destruct (lr_cache _ _ _ _ _ R) as (Vc & RC & HV).
  destruct (cr_ok _ _ _ _ RC) as [[_ Hf] _]. split; [|done]. split_and!; [done|done|done|].
  eapply log_rel_io; [exact R|exact HV| |done|apply R].
  by eapply (cache_rel_base (lg_io s)).
Qed.
Next Obligation.
  intros n s V H L h sec d (_ & -> & R) Hh. destruct (lr_cache _ _ _ _ _ R) as (Vc & RC & _).
  by eapply held_data.
Qed.
Next Obligation.
  intros n s V H L sec ([Hb Hc] & -> & R) Hsec Hfree Hroom.
  wp_call (log_bread_rel _ _ _ _ _ sec R); [done..|].
  intros h s' (? & R' & HS). pose proof HS as (? & Hz & Hb' & ?).
  split_and!; try done; [congruence|]. by rewrite (log_cap_same s).
Qed.
Next Obligation.
  intros n s V H L h sec d0 d ([Hb Hc] & -> & R) Hh. wp_call (log_set_rel _ _ _ _ _ h sec d0 d R Hh).
  intros _ s' (R' & HS). pose proof HS as (? & Hz & Hb' & ?).
  split_and!; try done; [congruence|]. by rewrite (log_cap_same s).
Qed.
Next Obligation. intros n s V H L h sec d _ _ Hroom. simpl in Hroom. lia. Qed.
Next Obligation.
  intros n s V H L h sec ([Hb Hc] & -> & R) Hh. wp_call (log_brelse_rel _ _ _ _ _ h sec R Hh).
  intros _ s' (R' & HS). pose proof HS as (? & Hz & Hb' & ?).
  split_and!; try done; [congruence|]. by rewrite (log_cap_same s).
Qed.

#[export] Program Instance log_trans : TransLaws log := {|
  tl_read := log_read_laws;
  tl_open := log_laws;
|}.
Next Obligation. done. Qed.
Next Obligation.
  intros n s V ([Hb Hc] & _ & R). wp_call (begin_run s V V ∅ [] R Hb).
  intros _ s' (R' & Hb' & Hst & Hsz & _ & C). split; [split; [lia|by exists V]|].
  split_and!; [|done|done]. cbn. rewrite <- Hc. unfold log_cap. by rewrite Hsz.
Qed.
Next Obligation.
  intros s V L (Hb & V0 & R) H1 HL. wp_call (commit_run s V0 V L R (conj H1 HL)).
  intros _ s' (R' & Hb' & Hst & Hsz & C & _). split; [|by split].
  split_and!; [done| |done|done]. cbn. unfold log_cap. by rewrite Hsz.
Qed.
Next Obligation.
  intros n s V H h sec d ([Hb Hc] & _ & R) Hn _. assert (Hln : lh_n s = 0) by exact (lr_n _ _ _ _ _ R).
  unfold log_cap in Hc. cbn [lo_log_write log_ops]. unfold log_write. erewrite bind_ok by reflexivity.
  rewrite Hln. change (0 >=? Z.of_nat LOGSIZE) with false. destruct (Z.geb_spec 0 (lg_size s - 1)); [lia|].
  cbn [orb]. by rewrite Hb.
Qed.
