(* ===== verification/Balloc.v ===== *)
(** The block allocator of fs.c: bzero, balloc and bfree over the log's
    interface. The bitmap says which blocks are in use; [balloc] takes the
    first free one, marks it and zeroes it, [bfree] gives one back. *)
From stdpp Require Import base list numbers strings sets gmap.
From S2P Require Import Prelude Params Spinlock Sched Bio Cache BlockIf Log Crash.

Set Warnings "-clear-no-such-hyp".

Section ops.
  Context {St : Type} {LO : LogOps St}.

  (** *** bzero *)
Definition bzero (dev bno : Z) : M St unit :=
    bp <- bo_bread (u32 dev) (u32 bno) ;;
    bo_set bp (replicate (Z.to_nat BSIZE) 0) ;;;
    lo_log_write bp ;;;
    bo_brelse bp.

  (** [m = 1 << (bi % 8)], and the byte [bp->data[bi/8]] it is tested on. *)
Definition bit_mask (bi : nat) : Z := Z.shiftl 1 (Z.of_nat (bi mod 8)).
Definition bit_byte (d : list Z) (bi : nat) : Z := default 0 (d !! (bi / 8)%nat).
Definition bit_free (d : list Z) (bi : nat) : bool := Z.land (bit_byte d bi) (bit_mask bi) =? 0.
Definition bit_set (bi : nat) (d : list Z) : list Z :=
    alter (fun x => u8 (Z.lor x (bit_mask bi))) (bi / 8)%nat d.
Definition bit_clear (bi : nat) (d : list Z) : list Z :=
    alter (fun x => u8 (Z.land x (Z.lnot (bit_mask bi)))) (bi / 8)%nat d.

  (** The inner loop of [balloc]: the first free bit from [bi] on, among the
      [n] that are left of the block and below [size]. *)
Fixpoint scan_bits (n : nat) (d : list Z) (b size : Z) (bi : nat) : option nat :=
    match n with
    | O => None
    | S n =>
        if negb (b + Z.of_nat bi <? size) then None
        else if bit_free d bi then Some bi
        else scan_bits n d b size (S bi)
    end.

  (** The outer loop. *)
Fixpoint balloc_from (fuel : nat) (dev : Z) (sb : superblock) (b : Z) : M St Z :=
    match fuel with
    | O => diverge
    | S fuel =>
        if negb (b <? sb_size sb) then panic "balloc: out of blocks" else
        bp <- bo_bread dev (u32 (BBLOCK b (sb_ninodes sb))) ;;
        d <- gets (bo_data bp) ;;
        match scan_bits (Z.to_nat BPB) d b (sb_size sb) 0 with
        | Some bi =>
            bo_set bp (bit_set bi d) ;;;
            lo_log_write bp ;;;
            bo_brelse bp ;;;
            bzero dev (b + Z.of_nat bi) ;;;
            ret (u32 (b + Z.of_nat bi))
        | None =>
            bo_brelse bp ;;;
            balloc_from fuel dev sb (b + BPB)
        end
    end.

  (** *** balloc *)
Definition balloc (dev : Z) : M St Z :=
    sb <- readsb dev ;;
    balloc_from (Z.to_nat (sb_size sb / BPB + 2)) dev sb 0.

  (** *** bfree *)
Definition bfree (dev b : Z) : M St unit :=
    sb <- readsb dev ;;
    bp <- bo_bread dev (u32 (BBLOCK b (sb_ninodes sb))) ;;
    let bi := Z.to_nat (b mod BPB) in
    d <- gets (bo_data bp) ;;
    if bit_free d bi then panic "freeing free block" else
    bo_set bp (bit_clear bi d) ;;;
    lo_log_write bp ;;;
    bo_brelse bp.
End ops.

(** ** The bitmap *)

(** The bit of block [b] is clear. *)
Definition bfree_at (V : Z -> list Z) (ninodes b : Z) : bool :=
  bit_free (V (BBLOCK b ninodes)) (Z.to_nat (b mod BPB)).

Lemma bit_mask_pow bi : bit_mask bi = 2 ^ Z.of_nat (bi mod 8).
Proof. unfold bit_mask. rewrite Z.shiftl_1_l. done. Qed.

Lemma bit_free_testbit d bi :
  bit_free d bi = negb (Z.testbit (bit_byte d bi) (Z.of_nat (bi mod 8))).
Proof. unfold bit_free. rewrite bit_mask_pow. apply Flag.land_eqb_0. lia. Qed.

Lemma bit_byte_alter f d k bi :
  (k < length d)%nat ->
  bit_byte (alter f k d) bi = if decide (bi / 8 = k)%nat then f (bit_byte d bi) else bit_byte d bi.
Proof.
  intros Hk. unfold bit_byte. case_decide as Hb.
  - rewrite Hb, list_lookup_alter_eq. by destruct (lookup_lt_is_Some_2 d k Hk) as [x ->].
  - by rewrite list_lookup_alter_ne by congruence.
Qed.

Lemma testbit_u8 x k : 0 <= k < 8 -> Z.testbit (u8 x) k = Z.testbit x k.
Proof. intros Hk. unfold u8. by rewrite Z.mod_pow2_bits_low by lia. Qed.

Lemma mod8_lt bi : (bi mod 8 < 8)%nat.
Proof. apply Nat.mod_upper_bound. lia. Qed.

(** Setting and clearing one bit changes that bit and no other. *)
Lemma bit_free_set d bi bj :
  (bi / 8 < length d)%nat ->
  bit_free (bit_set bi d) bj = if decide (bj = bi) then false else bit_free d bj.
Proof.
  intros Hl. rewrite !bit_free_testbit. unfold bit_set. rewrite bit_byte_alter by done.
  pose proof (mod8_lt bi). pose proof (mod8_lt bj). pose proof (Nat.div_mod_eq bi 8).
  pose proof (Nat.div_mod_eq bj 8). case_decide as Hb; case_decide as He; subst; try lia; try done.
  - rewrite testbit_u8 by lia. rewrite Z.lor_spec, bit_mask_pow, Z.pow2_bits_true by lia.
    by rewrite orb_true_r.
  - rewrite testbit_u8 by lia. rewrite Z.lor_spec, bit_mask_pow, Z.pow2_bits_false by lia.
    by rewrite orb_false_r.
Qed.

Lemma bit_free_clear d bi bj :
  (bi / 8 < length d)%nat ->
  bit_free (bit_clear bi d) bj = if decide (bj = bi) then true else bit_free d bj.
Proof.
  intros Hl. rewrite !bit_free_testbit. unfold bit_clear. rewrite bit_byte_alter by done.
  pose proof (mod8_lt bi). pose proof (mod8_lt bj). pose proof (Nat.div_mod_eq bi 8).
  pose proof (Nat.div_mod_eq bj 8). case_decide as Hb; case_decide as He; subst; try lia; try done.
  - rewrite testbit_u8 by lia. rewrite Z.land_spec, Z.lnot_spec, bit_mask_pow, Z.pow2_bits_true by lia.
    by rewrite andb_false_r.
  - rewrite testbit_u8 by lia.
    rewrite Z.land_spec, Z.lnot_spec, bit_mask_pow, Z.pow2_bits_false by lia.
    by rewrite andb_true_r.
Qed.

(** Freeing what was allocated gives the block of the bitmap back. *)
Lemma bit_clear_set d bi x :
  d !! (bi / 8)%nat = Some x -> is_u8 x -> bit_free d bi = true ->
  bit_clear bi (bit_set bi d) = d.
Proof.
  intros Hx Hu Hf. unfold bit_clear, bit_set. rewrite alter_alter. apply list_eq. intros j.
  destruct (decide (bi / 8 = j)%nat) as [<-|Hne]; [|by rewrite list_lookup_alter_ne].
  rewrite list_lookup_alter_eq, Hx. simpl. f_equal. rewrite bit_free_testbit in Hf.
  unfold bit_byte in Hf. rewrite Hx in Hf. simpl in Hf. pose proof (mod8_lt bi).
  rewrite <- (u8_id x) at 2 by done. apply Z.bits_inj'. intros k Hk. unfold u8.
  destruct (decide (k < 8)).
  - rewrite !Z.mod_pow2_bits_low, Z.land_spec, Z.lnot_spec by lia.
    rewrite Z.mod_pow2_bits_low, Z.lor_spec, bit_mask_pow, Z.pow2_bits_eqb by lia.
    destruct (Z.eqb_spec (Z.of_nat (bi mod 8)) k) as [<-|]; simpl.
    + rewrite andb_false_r. by apply negb_true_iff in Hf.
    + by rewrite orb_false_r, andb_true_r.
  - by rewrite !Z.mod_pow2_bits_high by lia.
Qed.

Lemma length_bit_set bi d : length (bit_set bi d) = length d.
Proof. apply length_alter. Qed.
Lemma length_bit_clear bi d : length (bit_clear bi d) = length d.
Proof. apply length_alter. Qed.

(** The scan finds the first free bit. *)
Lemma scan_bits_Some n d b size : forall bi r,
  scan_bits n d b size bi = Some r ->
  (bi <= r < bi + n)%nat /\ bit_free d r = true /\ b + Z.of_nat r < size /\
  forall j, (bi <= j < r)%nat -> bit_free d j = false.
Proof.
  induction n as [|n IH]; intros bi r; simpl; [done|].
  destruct (b + Z.of_nat bi <? size) eqn:E1; simpl; [|done].
  destruct (bit_free d bi) eqn:E2.
  - intros [= <-]. split_and!; try lia; done.
  - intros (Hr & Hf & Hlt & Hmin)%IH. split_and!; try lia; try done.
    intros j Hj. destruct (decide (j = bi)) as [->|]; [done|]. apply Hmin. lia.
Qed.

Lemma scan_bits_None n d b size : forall bi,
  scan_bits n d b size bi = None ->
  forall j, (bi <= j < bi + n)%nat -> b + Z.of_nat j < size -> bit_free d j = false.
Proof.
  induction n as [|n IH]; intros bi; simpl; [lia|].
  destruct (b + Z.of_nat bi <? size) eqn:E1; simpl; [|intros _ j Hj Hlt; lia].
  destruct (bit_free d bi) eqn:E2; [done|]. intros Hs j Hj Hlt.
  destruct (decide (j = bi)) as [->|]; [done|]. apply (IH _ Hs); lia.
Qed.

Lemma BBLOCK_add b bi n :
  0 <= b -> b mod BPB = 0 -> (bi < 4096)%nat -> BBLOCK (b + Z.of_nat bi) n = BBLOCK b n /\
  Z.to_nat ((b + Z.of_nat bi) mod BPB) = bi.
Proof.
  unfold BBLOCK. change BPB with 4096. intros Hb Hm Hbi.
  assert (Hq : (b + Z.of_nat bi) / 4096 = b / 4096)
    by (symmetry; apply (Z.div_unique _ _ _ (Z.of_nat bi)); [lia|]; pose proof (Z.div_mod b 4096); lia).
  assert (Hr : (b + Z.of_nat bi) mod 4096 = Z.of_nat bi)
    by (symmetry; apply (Z.mod_unique _ _ (b / 4096)); [lia|]; pose proof (Z.div_mod b 4096); lia).
  rewrite Hq, Hr. split; lia.
Qed.

(** What the allocator needs of the disk: a superblock, and a bitmap block
    among the home sectors for every block. *)
Record layout (V : Z -> list Z) (home : Z) : Prop := {
  lay_home : 1 < home <= 2 ^ 31;
  lay_size : 0 <= sb_size (sb_decode (V 1)) < 2 ^ 31;
  lay_bitmap : forall b, 0 <= b < sb_size (sb_decode (V 1)) ->
    1 < BBLOCK b (sb_ninodes (sb_decode (V 1))) < home;
  lay_len : forall x, 0 <= x < home -> length (V x) = 512%nat;
}.

Definition zeros : list Z := replicate (Z.to_nat BSIZE) 0.

(** The sectors as [balloc] leaves them when it takes block [b]. *)
Definition balloc_V (V : Z -> list Z) (b : Z) : Z -> list Z :=
  let bb := BBLOCK b (sb_ninodes (sb_decode (V 1))) in
  vset (vset V bb (bit_set (Z.to_nat (b mod BPB)) (V bb))) b zeros.

(** The first free block. *)
Definition first_free (V : Z -> list Z) (b : Z) : Prop :=
  let sb := sb_decode (V 1) in
  0 <= b < sb_size sb /\ bfree_at V (sb_ninodes sb) b = true /\
  forall j, 0 <= j < b -> bfree_at V (sb_ninodes sb) j = false.

Section alloc.
  Context {St : Type} {LO : LogOps St} {LL : LogLaws St}.

Lemma bzero_run s V H L bno :
    ll_rel s V H L -> 0 <= bno < ll_home s -> ll_home s <= 2 ^ 31 -> unheld H bno ->
    (length L < ll_room s)%nat -> (size H + length L + 1 < NBUF)%nat ->
    wp (bzero 1 bno) (fun _ s' => ll_rel s' (vset V bno zeros) H (log_add bno L) /\ stay s s') s.
  Proof.
    intros R Hb Hh HH Hroom Hn. unfold bzero. rewrite !u32_id by (unfold is_u32; lia). apply wp_bind.
    wp_call (ll_bread _ _ _ _ bno R); [done|done|right; lia|]. intros h s1 (Hh1 & R1 & S1).
    eapply wp_fill_log; [exact R1|by rewrite lookup_insert_eq| | |].
    - destruct S1 as (_ & -> & _). done.
    - rewrite map_size_insert_None by done. lia.
    - rewrite insert_insert_eq. intros s2 R2 S2.
      wp_call (ll_brelse _ _ _ _ h bno R2); [by rewrite lookup_insert_eq, vset_eq|].
      intros _ s3 (R3 & S3). rewrite delete_insert_id in R3 by done. split; [done|].
      by transitivity s1; [|transitivity s2].
  Qed.

Lemma balloc_from_run V H L b0 : forall fuel s b,
    let sb := sb_decode (V 1) in
    let bb0 := BBLOCK b0 (sb_ninodes sb) in
    ll_rel s V H L -> layout V (ll_home s) -> first_free V b0 -> b0 < ll_home s ->
    (forall x, 0 <= x < sb_size sb -> unheld H (BBLOCK x (sb_ninodes sb))) -> unheld H b0 ->
    (length L + 1 < ll_room s)%nat -> (size H + length L + 2 < NBUF)%nat ->
    0 <= b <= b0 -> b mod BPB = 0 -> b0 < b + Z.of_nat fuel * BPB ->
    wp (balloc_from fuel 1 sb b) (fun r s' => r = b0 /\
      ll_rel s' (balloc_V V b0) H (log_add b0 (log_add bb0 L)) /\ stay s s') s.
  Proof.
    induction fuel as [|fuel IH]; intros s b sb bb0 R Lay Hff Hhome HHb HH0 Hroom Hn Hb Hm Hf;
      [lia|]. pose proof Hff as (Hb0 & Hfree & Hmin). fold sb in Hb0, Hfree, Hmin.
    cbn [balloc_from]. destruct (b <? sb_size sb) eqn:E; [|lia]. cbn [negb].
    pose proof (lay_bitmap _ _ Lay b) as Hbb. fold sb in Hbb. pose proof (lay_home _ _ Lay).
    rewrite u32_id by (unfold is_u32; lia). apply wp_bind.
    wp_call (ll_bread _ _ _ _ (BBLOCK b (sb_ninodes sb)) R); [lia|apply HHb; lia|right; lia|].
    intros h s1 (Hh1 & R1 & S1). wp_step. wp_step.
    rewrite (ll_data _ _ _ _ h _ _ R1) by (by rewrite lookup_insert_eq).
    set (d := V (BBLOCK b (sb_ninodes sb))).
    assert (Hbit : forall j, (j < 4096)%nat ->
      bit_free d j = bfree_at V (sb_ninodes sb) (b + Z.of_nat j)).
    { intros j Hj. unfold bfree_at. destruct (BBLOCK_add b j (sb_ninodes sb)) as [-> ->]; [lia|done|lia|].
      done. }
    change BPB with 4096 in *. change (Z.to_nat 4096) with 4096%nat.
    destruct (scan_bits 4096 d b (sb_size sb) 0) as [bi|] eqn:Es.
    - apply scan_bits_Some in Es as (Hbi & Hbf & Hlt & Hbm). rewrite Hbit in Hbf by lia.
      assert (b + Z.of_nat bi = b0) as Heq.
      { destruct (Z.lt_trichotomy (b + Z.of_nat bi) b0) as [Hc|[Hc|Hc]]; [|done|].
        - rewrite Hmin in Hbf by lia. done.
        - specialize (Hbm (Z.to_nat (b0 - b)) ltac:(lia)). rewrite Hbit in Hbm by lia.
          rewrite Z2Nat.id in Hbm by lia. replace (b + (b0 - b)) with b0 in Hbm by lia. congruence. }
      assert (Hbb0 : bb0 = BBLOCK b (sb_ninodes sb) /\ Z.to_nat (b0 mod 4096) = bi).
      { unfold bb0. rewrite <- Heq. by apply BBLOCK_add; [lia|..|lia]. }
      destruct Hbb0 as [Hbb0 Hbi0]. rewrite <- Hbb0 in *.
      eapply wp_fill_log; [exact R1|by rewrite lookup_insert_eq| | |].
      + destruct S1 as (_ & -> & _). lia.
      + rewrite map_size_insert_None by done. lia.
      + rewrite insert_insert_eq. intros s2 R2 S2.
        eapply wp_release; [exact R2|done|apply vset_eq|]. intros s3 R3 S3. rewrite Heq.
        assert (S13 : stay s s3) by (by transitivity s1; [|transitivity s2]).
        destruct S13 as (Hhm & Hrm & _). pose proof (length_log_add bb0 L). apply wp_bind.
        wp_call (bzero_run s3 _ _ _ b0 R3); rewrite ?Hhm, ?Hrm; try done; try lia.
        intros _ s4 (R4 & S4). apply wp_ret. split; [apply u32_id; unfold is_u32; lia|].
        split; [|by transitivity s1; [|transitivity s2; [|transitivity s3]]].
        unfold balloc_V. fold sb bb0. change BPB with 4096. rewrite Hbi0.
        replace (V bb0) with d by (unfold d; by rewrite <- Hbb0). exact R4.
    - eapply wp_release; [exact R1|done|done|]. intros s2 R2 S2.
      assert (S12 : stay s s2) by (by transitivity s1). pose proof S12 as (Hhm & Hrm & _).
      assert (Hnext : b + 4096 <= b0).
      { destruct (decide (b + 4096 <= b0)); [done|exfalso].
        pose proof (scan_bits_None _ _ _ _ _ Es (Z.to_nat (b0 - b)) ltac:(lia) ltac:(lia)) as Hx.
        rewrite Hbit in Hx by lia. rewrite Z2Nat.id in Hx by lia.
        replace (b + (b0 - b)) with b0 in Hx by lia. congruence. }
      wp_call (IH s2 (b + 4096)); rewrite ?Hhm, ?Hrm; try done; try lia.
      + rewrite <- Z.add_mod_idemp_l, Hm by lia. done.
      + intros r s' (-> & R' & S'). split_and!; [done|exact R'|]. by transitivity s2.
  Qed.

Lemma readsb_run s V H L :
    ll_rel s V H L -> 1 < ll_home s -> unheld H 1 ->
    1 ∈ L \/ (size H + length L < NBUF)%nat ->
    wp (readsb 1) (fun sb s' => sb = sb_decode (V 1) /\ ll_rel s' V H L /\ stay s s') s.
  Proof. intros. unfold readsb. eapply wp_read_block; [done|lia|done|done|]. auto. Qed.

Lemma balloc_run s V H L b0 :
    let sb := sb_decode (V 1) in
    ll_rel s V H L -> layout V (ll_home s) -> first_free V b0 -> b0 < ll_home s ->
    unheld H 1 -> (forall x, 0 <= x < sb_size sb -> unheld H (BBLOCK x (sb_ninodes sb))) -> unheld H b0 ->
    (length L + 1 < ll_room s)%nat -> (size H + length L + 2 < NBUF)%nat ->
    wp (balloc 1) (fun r s' => r = b0 /\
      ll_rel s' (balloc_V V b0) H (log_add b0 (log_add (BBLOCK b0 (sb_ninodes sb)) L)) /\ stay s s') s.
  Proof.
    intros sb R Lay Hff Hhome H1 HHb HH0 Hroom Hn. unfold balloc. apply wp_bind.
    pose proof (lay_home _ _ Lay). pose proof (lay_size _ _ Lay) as Hsz.
    wp_call (readsb_run _ _ _ _ R); [lia|done|right; lia|].
    intros ? s1 (-> & R1 & S1). pose proof S1 as (Hhm & Hrm & _). pose proof Hff as (Hb0 & _).
    fold sb in Hsz, Hb0 |- *. change BPB with 4096 in *.
    wp_call (balloc_from_run V H L b0 _ s1 0); rewrite ?Hhm, ?Hrm; try done; try lia.
    - change BPB with 4096. rewrite Z2Nat.id; pose proof (Z.div_mod (sb_size sb) 4096);
        pose proof (Z.mod_pos_bound (sb_size sb) 4096); lia.
    - intros r s' (-> & R' & S'). split_and!; [done|exact R'|]. by transitivity s1.
  Qed.

  (** *** bfree *)
Lemma bfree_run s V H L b :
    let sb := sb_decode (V 1) in
    let bb := BBLOCK b (sb_ninodes sb) in
    ll_rel s V H L -> layout V (ll_home s) -> 0 <= b < sb_size sb ->
    bfree_at V (sb_ninodes sb) b = false -> unheld H 1 -> unheld H bb ->
    (length L < ll_room s)%nat -> (size H + length L + 1 < NBUF)%nat ->
    wp (bfree 1 b) (fun _ s' =>
      ll_rel s' (vset V bb (bit_clear (Z.to_nat (b mod BPB)) (V bb))) H (log_add bb L) /\ stay s s') s.
  Proof.
    intros sb bb R Lay Hb Hused H1 HH Hroom Hn. unfold bfree. apply wp_bind.
    pose proof (lay_home _ _ Lay). pose proof (lay_bitmap _ _ Lay b Hb) as Hbb. fold sb bb in Hbb.
    wp_call (readsb_run _ _ _ _ R); [lia|done|right; lia|].
    intros ? s1 (-> & R1 & S1). fold sb bb. rewrite u32_id by (unfold is_u32; lia). apply wp_bind.
    pose proof S1 as (Hhm & Hrm & _).
    wp_call (ll_bread _ _ _ _ bb R1); [lia|done|right; lia|]. intros h s2 (Hh2 & R2 & S2).
    wp_step. wp_step. rewrite (ll_data _ _ _ _ h _ _ R2) by (by rewrite lookup_insert_eq).
    unfold bfree_at in Hused. fold bb in Hused. rewrite Hused.
    eapply wp_fill_log; [exact R2|by rewrite lookup_insert_eq| | |].
    - destruct S2 as (_ & -> & _). lia.
    - rewrite map_size_insert_None by done. lia.
    - rewrite insert_insert_eq. intros s3 R3 S3.
      wp_call (ll_brelse _ _ _ _ h bb R3); [by rewrite lookup_insert_eq, vset_eq|].
      intros _ s4 (R4 & S4). rewrite delete_insert_id in R4 by done. split; [done|].
      by transitivity s1; [|transitivity s2; [|transitivity s3]].
  Qed.

  (** A block that is free already. *)
Lemma bfree_free s V H L b :
    let sb := sb_decode (V 1) in
    let bb := BBLOCK b (sb_ninodes sb) in
    ll_rel s V H L -> layout V (ll_home s) -> 0 <= b < sb_size sb ->
    bfree_at V (sb_ninodes sb) b = true -> unheld H 1 -> unheld H bb ->
    (size H + length L < NBUF)%nat -> bfree 1 b s = Panic "freeing free block".
  Proof.
    intros sb bb R Lay Hb Hused H1 HH Hn. unfold bfree.
    pose proof (lay_home _ _ Lay). pose proof (lay_bitmap _ _ Lay b Hb) as Hbb. fold sb bb in Hbb.
    destruct (wp_outcome _ _ _ (readsb_run _ _ _ _ R ltac:(lia) H1 ltac:(right; lia)))
      as (? & s1 & Hs1 & -> & R1 & S1).
    rewrite (bind_ok _ _ _ _ _ Hs1). fold sb bb. rewrite u32_id by (unfold is_u32; lia).
    pose proof S1 as (Hhm & Hrm & _).
    destruct (wp_outcome _ _ _ (ll_bread _ _ _ _ bb R1 ltac:(lia) HH ltac:(right; lia)))
      as (h & s2 & Hs2 & Hh2 & R2 & S2).
    rewrite (bind_ok _ _ _ _ _ Hs2). erewrite bind_ok by reflexivity.
    rewrite (ll_data _ _ _ _ h _ _ R2) by (by rewrite lookup_insert_eq).
    unfold bfree_at in Hused. fold bb in Hused. by rewrite Hused.
  Qed.

  (** No block is free. *)
Lemma balloc_from_full V H L : forall fuel s b,
    let sb := sb_decode (V 1) in
    ll_rel s V H L -> layout V (ll_home s) ->
    (forall j, 0 <= j < sb_size sb -> bfree_at V (sb_ninodes sb) j = false) ->
    (forall x, 0 <= x < sb_size sb -> unheld H (BBLOCK x (sb_ninodes sb))) ->
    (size H + length L < NBUF)%nat -> 0 <= b < sb_size sb + BPB -> b mod BPB = 0 ->
    sb_size sb < b + (Z.of_nat fuel - 1) * BPB ->
    balloc_from fuel 1 sb b s = Panic "balloc: out of blocks".
  Proof.
    induction fuel as [|fuel IH]; intros s b sb R Lay Hall HHb Hn Hb Hm Hf; [lia|];
      cbn [balloc_from]; destruct (b <? sb_size sb) eqn:E; cbn [negb]; try done; try lia.
    pose proof (lay_bitmap _ _ Lay b) as Hbb. fold sb in Hbb. pose proof (lay_home _ _ Lay).
    rewrite u32_id by (unfold is_u32; lia).
    destruct (wp_outcome _ _ _ (ll_bread _ _ _ _ (BBLOCK b (sb_ninodes sb)) R ltac:(lia)
                (HHb b ltac:(lia)) ltac:(right; lia))) as (h & s1 & Hs1 & Hh1 & R1 & S1).
    rewrite (bind_ok _ _ _ _ _ Hs1). erewrite bind_ok by reflexivity.
    rewrite (ll_data _ _ _ _ h _ _ R1) by (by rewrite lookup_insert_eq).
    change BPB with 4096 in *. change (Z.to_nat 4096) with 4096%nat.
    destruct (scan_bits 4096 _ b (sb_size sb) 0) as [bi|] eqn:Es.
    - apply scan_bits_Some in Es as (Hbi & Hbf & Hlt & _).
      specialize (Hall (b + Z.of_nat bi) ltac:(lia)). unfold bfree_at in Hall.
      destruct (BBLOCK_add b bi (sb_ninodes sb)) as [E1 E2]; [lia|done|lia|].
      rewrite E1, E2 in Hall. congruence.
    - destruct (wp_outcome _ _ _ (ll_brelse _ _ _ _ h _ R1 ltac:(by rewrite lookup_insert_eq)))
        as ([] & s2 & Hs2 & R2 & S2).
      rewrite (bind_ok _ _ _ _ _ Hs2). rewrite delete_insert_id in R2 by done.
      destruct S1 as (Hh & _), S2 as (Hh' & _).
      apply IH; rewrite ?Hh', ?Hh; try done; fold sb; try lia.
      rewrite <- Z.add_mod_idemp_l, Hm by lia. done.
  Qed.

Lemma balloc_full s V H L :
    let sb := sb_decode (V 1) in
    ll_rel s V H L -> layout V (ll_home s) ->
    (forall j, 0 <= j < sb_size sb -> bfree_at V (sb_ninodes sb) j = false) ->
    unheld H 1 -> (forall x, 0 <= x < sb_size sb -> unheld H (BBLOCK x (sb_ninodes sb))) ->
    (size H + length L < NBUF)%nat -> balloc 1 s = Panic "balloc: out of blocks".
  Proof.
    intros sb R Lay Hall H1 HHb Hn. unfold balloc. pose proof (lay_home _ _ Lay).
    pose proof (lay_size _ _ Lay) as Hsz.
    destruct (wp_outcome _ _ _ (readsb_run _ _ _ _ R ltac:(lia) H1 ltac:(right; lia)))
      as (? & s1 & Hs1 & -> & R1 & S1).
    rewrite (bind_ok _ _ _ _ _ Hs1). fold sb in Hsz |- *. destruct S1 as (Hh & _).
    apply (balloc_from_full V H L); rewrite ?Hh; try done; fold sb; [change BPB with 4096; lia|].
    change BPB with 4096. pose proof (Z.div_mod (sb_size sb) 4096).
    pose proof (Z.mod_pos_bound (sb_size sb) 4096). lia.
  Qed.
End alloc.

(** The bitmap after one bit of it changed. *)
Lemma bfree_at_set V home b c :
  let sb := sb_decode (V 1) in
  let bb := BBLOCK b (sb_ninodes sb) in
  layout V home -> 0 <= b < sb_size sb -> 0 <= c < sb_size sb ->
  bfree_at (vset V bb (bit_set (Z.to_nat (b mod BPB)) (V bb))) (sb_ninodes sb) c =
    (if decide (c = b) then false else bfree_at V (sb_ninodes sb) c) /\
  bfree_at (vset V bb (bit_clear (Z.to_nat (b mod BPB)) (V bb))) (sb_ninodes sb) c =
    (if decide (c = b) then true else bfree_at V (sb_ninodes sb) c).
Proof.
  intros sb bb Lay Hb Hc. pose proof (lay_bitmap _ _ Lay b Hb) as Hbb. fold sb bb in Hbb.
  pose proof (lay_len _ _ Lay bb ltac:(lia)) as Hlen. unfold bfree_at. change BPB with 4096.
  pose proof (Z.mod_pos_bound b 4096 ltac:(lia)). pose proof (Z.mod_pos_bound c 4096 ltac:(lia)).
  assert (Hdiv : (Z.to_nat (b mod 4096) / 8 < length (V bb))%nat).
  { rewrite Hlen. apply Nat.Div0.div_lt_upper_bound. lia. }
  destruct (decide (BBLOCK c (sb_ninodes sb) = bb)) as [He|Hne].
  - rewrite He, !vset_eq, bit_free_set, bit_free_clear by done.
    assert (c / 4096 = b / 4096) as Hq.
    { unfold bb, BBLOCK in He. change BPB with 4096 in He. lia. }
    pose proof (Z.div_mod c 4096). pose proof (Z.div_mod b 4096).
    split; repeat case_decide; (done || lia).
  - rewrite !vset_ne by done. split; (case_decide; [by subst|done]).
Qed.

Section specs.
  Context {St : Type} {LO : LogOps St} {LL : LogLaws St}.

  (** C19. [balloc] takes the first free block of the disk: it returns that
      block, zeroed, marks it in use, and changes no other mark and no other
      sector than the block and its bitmap block. With every block in use it
      panics. *)
Theorem balloc_spec s V L :
    let sb := sb_decode (V 1) in
    ll_rel s V ∅ L -> layout V (ll_home s) ->
    (length L + 1 < ll_room s)%nat -> (length L + 2 < NBUF)%nat ->
    (forall b0, first_free V b0 -> 1 < b0 < ll_home s ->
       (forall x, 0 <= x < sb_size sb -> b0 <> BBLOCK x (sb_ninodes sb)) ->
       exists s' V' L', balloc 1 s = Ok b0 s' /\ ll_rel s' V' ∅ L' /\ V' b0 = zeros /\
         (forall b, 0 <= b < sb_size sb -> bfree_at V' (sb_ninodes sb) b =
            if decide (b = b0) then false else bfree_at V (sb_ninodes sb) b) /\
         (forall x, x <> b0 -> x <> BBLOCK b0 (sb_ninodes sb) -> V' x = V x)) /\
    ((forall j, 0 <= j < sb_size sb -> bfree_at V (sb_ninodes sb) j = false) ->
       balloc 1 s = Panic "balloc: out of blocks").
  Proof.
    intros sb R Lay Hroom Hn. split.
    - intros b0 Hff Hb0 Hdata. pose proof Hff as (Hr & _). fold sb in Hr.
      destruct (wp_outcome _ _ _ (balloc_run s V ∅ L b0 R Lay Hff ltac:(lia) ltac:(done) ltac:(done)
                  ltac:(done) Hroom ltac:(rewrite map_size_empty; lia)))
        as (r & s' & Hs & -> & R' & _).
      eexists s', _, _. split_and!; [done|exact R'|apply vset_eq| |].
      + intros b Hb. unfold bfree_at, balloc_V. fold sb. rewrite (vset_ne _ b0) by auto using not_eq_sym.
        apply (bfree_at_set V (ll_home s) b0 b); done.
      + intros x Hx1 Hx2. unfold balloc_V. by rewrite !vset_ne.
    - intros Hall. apply (balloc_full s V ∅ L); try done. rewrite map_size_empty. lia.
  Qed.

  (** [bfree] clears the block's mark and changes no other mark and no
      other sector; a block that is already free makes it panic. *)
Theorem bfree_spec s V L b :
    let sb := sb_decode (V 1) in
    ll_rel s V ∅ L -> layout V (ll_home s) -> 0 <= b < sb_size sb ->
    (length L < ll_room s)%nat -> (length L + 1 < NBUF)%nat ->
    (bfree_at V (sb_ninodes sb) b = true -> bfree 1 b s = Panic "freeing free block") /\
    (bfree_at V (sb_ninodes sb) b = false ->
     exists s' V' L', bfree 1 b s = Ok tt s' /\ ll_rel s' V' ∅ L' /\
       (forall c, 0 <= c < sb_size sb -> bfree_at V' (sb_ninodes sb) c =
          if decide (c = b) then true else bfree_at V (sb_ninodes sb) c) /\
       (forall x, x <> BBLOCK b (sb_ninodes sb) -> V' x = V x)).
  Proof.
    intros sb R Lay Hb Hroom Hn. split.
    - intros Hf. apply (bfree_free s V ∅ L); try done. rewrite map_size_empty. lia.
    - intros Hf. destruct (wp_outcome _ _ _ (bfree_run s V ∅ L b R Lay Hb Hf ltac:(done) ltac:(done)
        Hroom ltac:(rewrite map_size_empty; lia))) as ([] & s' & Hs & R' & _).
      eexists s', _, _. split_and!; [done|exact R'| |].
      + intros c Hc. apply (bfree_at_set V (ll_home s) b c); done.
      + intros x Hx. by rewrite vset_ne.
  Qed.
End specs.

(** *** On the formatted disk *)
Lemma fs_layout : layout (disk_get fs_disk) 1014.
Proof.
  assert (Hs : sb_decode (disk_get fs_disk 1) = sb0) by (vm_compute; reflexivity).
  split; rewrite ?Hs; cbn [sb0 sb_size sb_ninodes]; try lia.
  - intros b Hb. unfold BBLOCK. change BPB with 4096. rewrite Z.div_small by lia.
    change (200 / IPB) with 25. lia.
  - intros x Hx. unfold disk_get. cbn [fs_disk dk_writes written dk_img].
    destruct (x =? 1); [done|]. destruct (x =? 28); [done|]. apply length_replicate.
Qed.

Lemma fs_first_free : first_free (disk_get fs_disk) 29.
Proof.
  assert (Hs : sb_decode (disk_get fs_disk 1) = sb0) by (vm_compute; reflexivity).
  unfold first_free. rewrite Hs. cbn [sb0 sb_size sb_ninodes]. split_and!; [lia|lia|by vm_compute|].
  intros j Hj. assert (Hall : forallb (fun k => negb (bfree_at (disk_get fs_disk) 200 (Z.of_nat k))) (seq 0 29) = true)
    by (vm_compute; reflexivity).
  rewrite forallb_forall in Hall. specialize (Hall (Z.to_nat j)).
  rewrite Z2Nat.id in Hall by lia. apply negb_true_iff, Hall. apply in_seq. lia.
Qed.

Lemma balloc_spec_witness :
  exists s' V' L', balloc 1 open_state = Ok 29 s' /\ ll_rel s' V' ∅ L' /\ V' 29 = zeros /\
    (forall b, 0 <= b < 1024 -> bfree_at V' 200 b =
       if decide (b = 29) then false else bfree_at (disk_get fs_disk) 200 b) /\
    (forall x, x <> 29 -> x <> 28 -> V' x = disk_get fs_disk x).
Proof.
  destruct open_state_rel as (R & Hh & Hr).
  apply (balloc_spec open_state (disk_get fs_disk) [] R).
  - rewrite Hh. exact fs_layout.
  - rewrite Hr. simpl. lia.
  - unfold NBUF. simpl. lia.
  - exact fs_first_free.
  - rewrite Hh. lia.
  - intros x Hx. assert (Hb : BBLOCK x 200 = 28).
    { unfold BBLOCK. change BPB with 4096. change (0 <= x < 1024) in Hx. rewrite Z.div_small by lia. done. }
    change (29 <> BBLOCK x 200). rewrite Hb. lia.
Defined.

Lemma bfree_spec_witness :
  bfree_at (disk_get fs_disk) 200 28 = false /\
  exists s' V' L', bfree 1 28 open_state = Ok tt s' /\ ll_rel s' V' ∅ L' /\
    (forall c, 0 <= c < 1024 -> bfree_at V' 200 c =
       if decide (c = 28) then true else bfree_at (disk_get fs_disk) 200 c) /\
    (forall x, x <> 28 -> V' x = disk_get fs_disk x).
Proof.
  destruct open_state_rel as (R & Hh & Hr). split; [by vm_compute|].
  apply (bfree_spec open_state (disk_get fs_disk) [] 28 R).
  - rewrite Hh. exact fs_layout.
  - change (0 <= 28 < 1024). lia.
  - rewrite Hr. simpl. lia.
  - unfold NBUF. simpl. lia.
  - by vm_compute.
Defined.
