(* ===== verification/Inode.v ===== *)
(** Inodes: the inode cache and the on-disk inodes of fs.c (iinit, ialloc,
    iupdate, iget, idup, ilock, iunlock, iput, iunlockput), the map from file
    blocks to disk blocks (bmap, itrunc) and reading and writing file contents
    (stati, readi, writei). *)
From stdpp Require Import base numbers list strings sets gmap.
From S2P Require Import Prelude Params Spinlock Sched Bio Cache BlockIf Log Crash Balloc.

Set Warnings "-clear-no-such-hyp".

(** *** struct inode (file.h) *)
Record inode := Inode {
  i_dev : Z; i_inum : Z; i_ref : Z; i_flags : Z;
  i_type : Z; i_major : Z; i_minor : Z; i_nlink : Z; i_size : Z;
  i_addrs : list Z;
}.

Definition set_iref (r : Z) (ip : inode) : inode :=
  Inode (i_dev ip) (i_inum ip) r (i_flags ip) (i_type ip) (i_major ip) (i_minor ip) (i_nlink ip)
    (i_size ip) (i_addrs ip).
Definition set_iflags (f : Z) (ip : inode) : inode :=
  Inode (i_dev ip) (i_inum ip) (i_ref ip) f (i_type ip) (i_major ip) (i_minor ip) (i_nlink ip)
    (i_size ip) (i_addrs ip).
Definition set_itype (t : Z) (ip : inode) : inode :=
  Inode (i_dev ip) (i_inum ip) (i_ref ip) (i_flags ip) t (i_major ip) (i_minor ip) (i_nlink ip)
    (i_size ip) (i_addrs ip).
Definition set_imeta (major minor nlink : Z) (ip : inode) : inode :=
  Inode (i_dev ip) (i_inum ip) (i_ref ip) (i_flags ip) (i_type ip) major minor nlink
    (i_size ip) (i_addrs ip).
Definition set_isize (n : Z) (ip : inode) : inode :=
  Inode (i_dev ip) (i_inum ip) (i_ref ip) (i_flags ip) (i_type ip) (i_major ip) (i_minor ip)
    (i_nlink ip) n (i_addrs ip).
Definition set_iaddr (k : nat) (a : Z) (ip : inode) : inode :=
  Inode (i_dev ip) (i_inum ip) (i_ref ip) (i_flags ip) (i_type ip) (i_major ip) (i_minor ip)
    (i_nlink ip) (i_size ip) (<[k := a]> (i_addrs ip)).

(** *** struct dinode (fs.h): where inode [inum] lies in its block, and the
    assignments that fill it. *)
Definition dinode_off (inum : Z) : nat := Z.to_nat (inum mod IPB * DINODE_SIZE).

Definition words (l : list Z) : list Z := mjoin (be32 <$> l).

Definition dinode_put (off : nat) (ip : inode) (d : list Z) : list Z :=
  splice (off + 12) (words (i_addrs ip))
    (put32 (off + 8) (i_size ip)
      (put16 (off + 6) (i_nlink ip)
        (put16 (off + 4) (i_minor ip)
          (put16 (off + 2) (i_major ip)
            (put16 off (i_type ip) d))))).

(** The fields [ilock] reads. *)
Definition dinode_get (off : nat) (d : list Z) (ip : inode) : inode :=
  Inode (i_dev ip) (i_inum ip) (i_ref ip) (i_flags ip)
    (s16 (get16 off d)) (s16 (get16 (off + 2) d)) (s16 (get16 (off + 4) d)) (s16 (get16 (off + 6) d))
    (get32 (off + 8) d) ((fun k => get32 (off + 12 + 4 * k) d) <$> seq 0 13).

(** *** struct stat (stat.h) *)
Record stat := Stat { st_type : Z; st_dev : Z; st_ino : Z; st_nlink : Z; st_size : Z }.

Section ops.
  Context {St : Type} {LO : LogOps St}.

  (** The file system's state: the log and what is below it, [icache.lock]
      and [icache.inode]; a pointer to an inode is its index there. *)
Record fs := Fs { fs_log : St; ic_lock : spinlock; ic_inodes : list inode }.

Definition set_inodes (l : list inode) (s : fs) : fs := Fs (fs_log s) (ic_lock s) l.

#[export] Instance fs_log_l : Lens fs St.
  Proof.
    refine {| lget := fs_log; lset t s := Fs t (ic_lock s) (ic_inodes s) |};
      [done|by intros []|done].
  Defined.

Definition fs_base_l : Lens fs base.
  Proof.
    refine {| lget s := lget (fs_log s);
              lset b s := Fs (lset b (fs_log s)) (ic_lock s) (ic_inodes s) |}.
    - intros b s. simpl. apply lget_lset.
    - intros []. simpl. by rewrite lset_lget.
    - intros b b' s. simpl. by rewrite lset_lset.
  Defined.

Definition icache_lock : Lens fs (cpu * spinlock).
  Proof.
    refine {| lget s := (b_cpu (lget (fs_log s)), ic_lock s);
              lset t s := let b := lget (fs_log s) in
                Fs (lset (Base (fst t) (b_lock b) (b_procs b)) (fs_log s)) (snd t) (ic_inodes s) |}.
    - intros [c lk] s. simpl. by rewrite lget_lset.
    - intros [l lk ns]. simpl. f_equal. transitivity (lset (lget l) l); [by destruct (lget l)|apply lset_lget].
    - intros [c lk] [c' lk'] s. simpl. by rewrite lset_lset, lget_lset.
  Defined.

Definition getip (i : nat) : M fs inode := s <- get ;; some (ic_inodes s !! i).
Definition updip (i : nat) (f : inode -> inode) : M fs unit :=
    modify (fun s => set_inodes (alter f i (ic_inodes s)) s).

  (** Calls of bio.c and log.c. *)
Definition fbread (dev sec : Z) : M fs nat := zoom (bo_bread dev sec).
Definition fdata (bp : nat) : M fs (list Z) := gets (fun s => bo_data bp (fs_log s)).
Definition fset (bp : nat) (d : list Z) : M fs unit := zoom (bo_set bp d).
Definition flog_write (bp : nat) : M fs unit := zoom (lo_log_write bp).
Definition fbrelse (bp : nat) : M fs unit := zoom (bo_brelse bp).

  (** *** iinit *)
Definition iinit : M fs unit :=
    modify (fun s => Fs (fs_log s) (initlock "icache" (ic_lock s)) (ic_inodes s)).

  (** *** iget: the loop's two results, the cached entry and the first empty
      slot before it. *)
Definition cached (dev inum : Z) (ip : inode) : bool :=
    (i_ref ip >? 0) && (i_dev ip =? dev) && (i_inum ip =? inum).

Fixpoint find_ip (p : inode -> bool) (l : list inode) : option nat :=
    match l with
    | [] => None
    | ip :: l => if p ip then Some 0%nat else S <$> find_ip p l
    end.

Definition iget (dev inum : Z) : M fs nat :=
    zoom (L := icache_lock) acquire ;;;
    s <- get ;;
    match find_ip (cached dev inum) (ic_inodes s) with
    | Some i =>
        updip i (fun ip => set_iref (i_ref ip + 1) ip) ;;;
        zoom (L := icache_lock) release ;;;
        ret i
    | None =>
        match find_ip (fun ip => i_ref ip =? 0) (ic_inodes s) with
        | None => panic "iget: no inodes"
        | Some i =>
            updip i (fun ip => Inode dev inum 1 0 (i_type ip) (i_major ip) (i_minor ip)
                                 (i_nlink ip) (i_size ip) (i_addrs ip)) ;;;
            zoom (L := icache_lock) release ;;;
            ret i
        end
    end.

  (** *** ialloc *)
Fixpoint ialloc_from (n : nat) (dev type inum : Z) : M fs nat :=
    match n with
    | O => panic "ialloc: no inodes"
    | S n =>
        bp <- fbread dev (u32 (IBLOCK inum)) ;;
        d <- fdata bp ;;
        let off := dinode_off inum in
        if s16 (get16 off d) =? 0 then
          fset bp (put16 off type (splice off (replicate (Z.to_nat DINODE_SIZE) 0) d)) ;;;
          flog_write bp ;;;
          fbrelse bp ;;;
          iget dev inum
        else
          fbrelse bp ;;;
          ialloc_from n dev type (inum + 1)
    end.

Definition ialloc (dev type : Z) : M fs nat :=
    sb <- zoom (readsb dev) ;;
    ialloc_from (Z.to_nat (sb_ninodes sb - 1)) dev type 1.

  (** *** iupdate *)
Definition iupdate (i : nat) : M fs unit :=
    ip <- getip i ;;
    bp <- fbread (i_dev ip) (u32 (IBLOCK (i_inum ip))) ;;
    d <- fdata bp ;;
    fset bp (dinode_put (dinode_off (i_inum ip)) ip d) ;;;
    flog_write bp ;;;
    fbrelse bp.

  (** *** idup *)
Definition idup (i : nat) : M fs nat :=
    zoom (L := icache_lock) acquire ;;;
    updip i (fun ip => set_iref (i_ref ip + 1) ip) ;;;
    zoom (L := icache_lock) release ;;;
    ret i.

  (** *** ilock *)
Fixpoint ilock_loop (n : nat) (i : nat) : M fs unit :=
    match n with
    | O => diverge
    | S n =>
        ip <- getip i ;;
        if Flag.has (i_flags ip) I_BUSY
        then sleep fs_base_l (ChInode i) (Some icache_lock) ;;; ilock_loop n i
        else ret tt
    end.

Definition ilock (i : nat) : M fs unit :=
    ip <- getip i ;;
    if i_ref ip <? 1 then panic "ilock" else
    zoom (L := icache_lock) acquire ;;;
    ilock_loop wakeups i ;;;
    updip i (fun ip => set_iflags (Z.lor (i_flags ip) I_BUSY) ip) ;;;
    zoom (L := icache_lock) release ;;;
    ip <- getip i ;;
    if negb (Flag.has (i_flags ip) I_VALID) then
      bp <- fbread (i_dev ip) (u32 (IBLOCK (i_inum ip))) ;;
      d <- fdata bp ;;
      updip i (dinode_get (dinode_off (i_inum ip)) d) ;;;
      fbrelse bp ;;;
      updip i (fun ip => set_iflags (Z.lor (i_flags ip) I_VALID) ip) ;;;
      ip <- getip i ;;
      if i_type ip =? 0 then panic "ilock: no type" else ret tt
    else ret tt.

  (** *** iunlock *)
Definition iunlock (i : nat) : M fs unit :=
    ip <- getip i ;;
    if negb (Flag.has (i_flags ip) I_BUSY) || (i_ref ip <? 1) then panic "iunlock" else
    zoom (L := icache_lock) acquire ;;;
    updip i (fun ip => set_iflags (Z.land (i_flags ip) (Z.lnot I_BUSY)) ip) ;;;
    zoom (L := fs_base_l) (wakeup (ChInode i)) ;;;
    zoom (L := icache_lock) release.

  (** *** bmap *)
Definition bmap (i : nat) (bn : Z) : M fs Z :=
    ip <- getip i ;;
    if bn <? NDIRECT then
      addr <- some (i_addrs ip !! Z.to_nat bn) ;;
      if addr =? 0 then
        addr <- zoom (balloc (i_dev ip)) ;;
        updip i (set_iaddr (Z.to_nat bn) addr) ;;;
        ret addr
      else ret addr
    else
    let bn := bn - NDIRECT in
    if bn <? NINDIRECT then
      addr <- some (i_addrs ip !! Z.to_nat NDIRECT) ;;
      addr <- (if addr =? 0 then
                 addr <- zoom (balloc (i_dev ip)) ;;
                 updip i (set_iaddr (Z.to_nat NDIRECT) addr) ;;;
                 ret addr
               else ret addr) ;;
      bp <- fbread (i_dev ip) addr ;;
      d <- fdata bp ;;
      let addr := get32 (4 * Z.to_nat bn) d in
      if addr =? 0 then
        addr <- zoom (balloc (i_dev ip)) ;;
        d <- fdata bp ;;
        fset bp (put32 (4 * Z.to_nat bn) addr d) ;;;
        flog_write bp ;;;
        fbrelse bp ;;;
        ret addr
      else
        fbrelse bp ;;;
        ret addr
    else panic "bmap: out of range".

  (** *** itrunc *)
Definition itrunc (i : nat) : M fs unit :=
    for_ (Z.to_nat NDIRECT) (fun k =>
      ip <- getip i ;;
      addr <- some (i_addrs ip !! k) ;;
      if negb (addr =? 0) then
        zoom (bfree (i_dev ip) addr) ;;;
        updip i (set_iaddr k 0)
      else ret tt) ;;;
    ip <- getip i ;;
    addr <- some (i_addrs ip !! Z.to_nat NDIRECT) ;;
    (if negb (addr =? 0) then
       bp <- fbread (i_dev ip) addr ;;
       for_ (Z.to_nat NINDIRECT) (fun j =>
         d <- fdata bp ;;
         let a := get32 (4 * j) d in
         if negb (a =? 0) then zoom (bfree (i_dev ip) a) else ret tt) ;;;
       fbrelse bp ;;;
       zoom (bfree (i_dev ip) addr) ;;;
       updip i (set_iaddr (Z.to_nat NDIRECT) 0)
     else ret tt) ;;;
    updip i (set_isize 0) ;;;
    iupdate i.

  (** *** iput, iunlockput *)
Definition iput (i : nat) : M fs unit :=
    zoom (L := icache_lock) acquire ;;;
    ip <- getip i ;;
    (if (i_ref ip =? 1) && Flag.has (i_flags ip) I_VALID && (i_nlink ip =? 0) then
       if Flag.has (i_flags ip) I_BUSY then panic "iput busy" else
       updip i (fun ip => set_iflags (Z.lor (i_flags ip) I_BUSY) ip) ;;;
       zoom (L := icache_lock) release ;;;
       itrunc i ;;;
       updip i (set_itype 0) ;;;
       iupdate i ;;;
       zoom (L := icache_lock) acquire ;;;
       updip i (set_iflags 0) ;;;
       zoom (L := fs_base_l) (wakeup (ChInode i))
     else ret tt) ;;;
    updip i (fun ip => set_iref (i_ref ip - 1) ip) ;;;
    zoom (L := icache_lock) release.

Definition iunlockput (i : nat) : M fs unit := iunlock i ;;; iput i.

  (** *** stati *)
Definition stati (i : nat) : M fs stat :=
    ip <- getip i ;;
    ret (Stat (i_type ip) (s32 (i_dev ip)) (i_inum ip) (i_nlink ip) (i_size ip)).

  (** *** readi and writei

      [devsw] is the table of device routines: what a device's read returns
      and puts at [dst], and what its write does. The bytes [readi] puts at
      [dst] are the second component of its result. *)
Record devops := Devops {
    dev_read : option (nat -> Z -> M fs (Z * list Z));
    dev_write : option (nat -> list Z -> Z -> M fs Z);
  }.
  Context (devsw : Z -> devops).

Fixpoint readi_loop (fuel : nat) (i : nat) (tot off n : Z) (dst : list Z) : M fs (list Z) :=
    match fuel with
    | O => diverge
    | S fuel =>
        if negb (tot <? n) then ret dst else
        ip <- getip i ;;
        b <- bmap i (off / BSIZE) ;;
        bp <- fbread (i_dev ip) b ;;
        let m := Z.min (n - tot) (BSIZE - off mod BSIZE) in
        d <- fdata bp ;;
        let dst := dst ++ slice (Z.to_nat (off mod BSIZE)) (Z.to_nat m) d in
        fbrelse bp ;;;
        readi_loop fuel i (u32 (tot + m)) (u32 (off + m)) n dst
    end.

Definition readi (i : nat) (off n : Z) : M fs (Z * list Z) :=
    ip <- getip i ;;
    if i_type ip =? T_DEV then
      if (i_major ip <? 0) || (i_major ip >=? NDEV) then ret (-1, []) else
      match dev_read (devsw (i_major ip)) with
      | None => ret (-1, [])
      | Some rd => rd i (s32 n)
      end
    else
    if (off >? i_size ip) || (u32 (off + n) <? off) then ret (-1, []) else
    let n := if u32 (off + n) >? i_size ip then u32 (i_size ip - off) else n in
    dst <- readi_loop (S (Z.to_nat n)) i 0 off n [] ;;
    ret (s32 n, dst).

Fixpoint writei_loop (fuel : nat) (i : nat) (tot off n : Z) (src : list Z) : M fs Z :=
    match fuel with
    | O => diverge
    | S fuel =>
        if negb (tot <? n) then ret off else
        ip <- getip i ;;
        b <- bmap i (off / BSIZE) ;;
        bp <- fbread (i_dev ip) b ;;
        let m := Z.min (n - tot) (BSIZE - off mod BSIZE) in
        d <- fdata bp ;;
        fset bp (splice (Z.to_nat (off mod BSIZE)) (take (Z.to_nat m) src) d) ;;;
        flog_write bp ;;;
        fbrelse bp ;;;
        writei_loop fuel i (u32 (tot + m)) (u32 (off + m)) n (drop (Z.to_nat m) src)
    end.

Definition writei (i : nat) (src : list Z) (off n : Z) : M fs Z :=
    ip <- getip i ;;
    if i_type ip =? T_DEV then
      if (i_major ip <? 0) || (i_major ip >=? NDEV) then ret (-1) else
      match dev_write (devsw (i_major ip)) with
      | None => ret (-1)
      | Some wr => wr i src (s32 n)
      end
    else
    if (off >? i_size ip) || (u32 (off + n) <? off) then ret (-1) else
    if u32 (off + n) >? MAXFILE * BSIZE then ret (-1) else
    off <- writei_loop (S (Z.to_nat n)) i 0 off n src ;;
    ip <- getip i ;;
    (if (n >? 0) && (off >? i_size ip) then
       updip i (set_isize off) ;;;
       iupdate i
     else ret tt) ;;;
    ret (s32 n).
End ops.
Arguments fs St : clear implicits.

(** ** The on-disk inode *)

Definition dinode_bytes (ip : inode) : list Z :=
  be16 (i_type ip) ++ be16 (i_major ip) ++ be16 (i_minor ip) ++ be16 (i_nlink ip) ++
  be32 (i_size ip) ++ words (i_addrs ip).

Lemma length_words l : length (words l) = (4 * length l)%nat.
Proof.
  induction l as [|x l IH]; [done|]. change (words (x :: l)) with (be32 x ++ words l).
  rewrite length_app, IH. simpl. lia.
Qed.

(** The assignments fill the inode's 64 bytes. *)
Lemma dinode_put_splice off ip d :
  (off + 64 <= length d)%nat -> length (i_addrs ip) = 13%nat ->
  dinode_put off ip d = splice off (dinode_bytes ip) d.
Proof.
  intros Hd Ha. assert (Hw : length (words (i_addrs ip)) = 52%nat) by (rewrite length_words; lia).
  assert (Hs : forall k x y, length x = k -> (k + length y <= 64)%nat ->
    splice (off + k) y (splice off x d) = splice off (x ++ y) d)
    by (intros k x y <- ?; apply splice_snoc; lia).
  unfold dinode_put, put16, put32, dinode_bytes.
  rewrite (Hs 2%nat), (Hs 4%nat), (Hs 6%nat), (Hs 8%nat), (Hs 12%nat) by (simpl; lia || done).
  by rewrite <- !app_assoc.
Qed.

(** The values the fields of an inode can have. *)
Record inode_range (ip : inode) : Prop := {
  ir_type : is_s16 (i_type ip); ir_major : is_s16 (i_major ip);
  ir_minor : is_s16 (i_minor ip); ir_nlink : is_s16 (i_nlink ip);
  ir_size : is_u32 (i_size ip); ir_addrs : Forall is_u32 (i_addrs ip);
  ir_len : length (i_addrs ip) = 13%nat;
}.

(** What [ilock] keeps of the cache entry and what it takes from the disk. *)
Definition meta (ip : inode) : Z * Z * Z * Z * Z * list Z :=
  (i_type ip, i_major ip, i_minor ip, i_nlink ip, i_size ip, i_addrs ip).

Lemma s16_be16 x : is_s16 x -> s16 (be_val (be16 x)) = x.
Proof. intros. rewrite be_val_be16. by apply s16_u16. Qed.
Lemma u32_be32 x : is_u32 x -> be_val (be32 x) = x.
Proof. intros. rewrite be_val_be32. by apply u32_id. Qed.

Lemma dinode_get_put off ip jp d :
  (off + 64 <= length d)%nat -> inode_range ip ->
  meta (dinode_get off (dinode_put off ip d) jp) = meta ip.
Proof.
  intros Hd [R1 R2 R3 R4 R5 R6 R7]. rewrite dinode_put_splice by done.
  assert (Hl : length (dinode_bytes ip) = 64%nat).
  { unfold dinode_bytes. rewrite !length_app, length_words, R7. done. }
  assert (Hin : forall o n, (o + n <= 64)%nat ->
    slice (off + o) n (splice off (dinode_bytes ip) d) = slice o n (dinode_bytes ip))
    by (intros; apply slice_splice_in; lia).
  unfold meta, dinode_get, get16, get32. cbn [i_type i_major i_minor i_nlink i_size i_addrs].
  rewrite <- (Nat.add_0_r off) at 1. rewrite !Hin by lia.
  destruct ip as [? ? ? ? ty ma mi nl sz addrs]. cbn [i_type i_major i_minor i_nlink i_size i_addrs] in *.
  do 14 (destruct addrs as [|? addrs]; try discriminate R7).
  assert (Hx : (fun k => be_val (slice (off + 12 + 4 * k) 4
      (splice off (dinode_bytes (Inode i_dev0 i_inum0 i_ref0 i_flags0 ty ma mi nl sz
        [z; z0; z1; z2; z3; z4; z5; z6; z7; z8; z9; z10; z11])) d))) <$> seq 0 13 =
    (fun k => be_val (slice (12 + 4 * k) 4 (dinode_bytes (Inode i_dev0 i_inum0 i_ref0 i_flags0 ty ma mi nl sz
        [z; z0; z1; z2; z3; z4; z5; z6; z7; z8; z9; z10; z11])))) <$> seq 0 13).
  { apply list_fmap_ext. intros j k Hk. apply lookup_seq in Hk as [-> Hk].
    rewrite <- Nat.add_assoc. rewrite Hin by lia. done. }
  rewrite Hx. clear Hx Hin.
  repeat (apply Forall_cons in R6; let H := fresh "Hz" in destruct R6 as [H R6]).
  change (s16 (be_val (slice 0 2 _))) with (s16 (be_val (be16 ty))).
  change (s16 (be_val (slice 2 2 _))) with (s16 (be_val (be16 ma))).
  change (s16 (be_val (slice 4 2 _))) with (s16 (be_val (be16 mi))).
  change (s16 (be_val (slice 6 2 _))) with (s16 (be_val (be16 nl))).
  change (be_val (slice 8 4 _)) with (be_val (be32 sz)).
  rewrite !s16_be16, u32_be32 by done. f_equal.
  cbn [seq fmap list_fmap].
  repeat match goal with |- context [be_val (slice (12 + 4 * ?k) 4 (dinode_bytes ?i))] =>
    let w := eval cbv [nth] in (nth k [z; z0; z1; z2; z3; z4; z5; z6; z7; z8; z9; z10; z11] 0) in
    change (be_val (slice (12 + 4 * k) 4 (dinode_bytes i))) with (be_val (be32 w));
    rewrite (u32_be32 w) by done
  end.
  reflexivity.
Qed.

(** Another inode of the same block. *)
Lemma dinode_get_put_ne off off' ip jp d :
  (off + 64 <= length d)%nat -> length (i_addrs ip) = 13%nat ->
  (off' + 64 <= off \/ off + 64 <= off')%nat ->
  dinode_get off' (dinode_put off ip d) jp = dinode_get off' d jp.
Proof.
  intros Hd Ha Hne. rewrite dinode_put_splice by done.
  assert (Hl : length (dinode_bytes ip) = 64%nat).
  { unfold dinode_bytes. rewrite !length_app, length_words, Ha. done. }
  assert (Hout : forall o n, (o + n <= 64)%nat ->
    slice (off' + o) n (splice off (dinode_bytes ip) d) = slice (off' + o) n d)
    by (intros; apply slice_splice_ne; lia).
  unfold dinode_get, get16, get32. rewrite <- (Nat.add_0_r off') at 1. rewrite !Hout by lia.
  rewrite Nat.add_0_r. f_equal. apply list_fmap_ext. intros j k Hk.
  apply lookup_seq in Hk as [-> Hk]. rewrite <- Nat.add_assoc. by rewrite Hout by lia.
Qed.

Lemma dinode_off_bound inum : (dinode_off inum + 64 <= 512)%nat.
Proof.
  unfold dinode_off. change IPB with 8. change DINODE_SIZE with 64.
  pose proof (Z.mod_pos_bound inum 8). lia.
Qed.

Lemma dinode_off_ne i j :
  IBLOCK i = IBLOCK j -> i <> j -> (dinode_off i + 64 <= dinode_off j \/ dinode_off j + 64 <= dinode_off i)%nat.
Proof.
  unfold IBLOCK, dinode_off. change IPB with 8. change DINODE_SIZE with 64. intros Hb Hne.
  pose proof (Z.div_mod i 8). pose proof (Z.div_mod j 8).
  pose proof (Z.mod_pos_bound i 8). pose proof (Z.mod_pos_bound j 8).
  assert (i mod 8 <> j mod 8) by lia. lia.
Qed.

(** ** The inode cache *)

(** No inode is cached twice, and no count is negative. *)
Definition icache_ok (l : list inode) : Prop :=
  (forall i ip, l !! i = Some ip -> 0 <= i_ref ip) /\
  (forall i j ip jp, l !! i = Some ip -> l !! j = Some jp -> 0 < i_ref ip -> 0 < i_ref jp ->
     i_dev ip = i_dev jp -> i_inum ip = i_inum jp -> i = j).

Lemma find_ip_Some p l i :
  find_ip p l = Some i <->
  exists ip, l !! i = Some ip /\ p ip = true /\ forall j jp, (j < i)%nat -> l !! j = Some jp -> p jp = false.
Proof.
  revert i. induction l as [|a l IH]; intros i; simpl.
  { split; [done|]. intros (? & H & _). by rewrite lookup_nil in H. }
  destruct (p a) eqn:E.
  - split.
    + intros [= <-]. exists a. split_and!; [done|done|lia].
    + intros (ip & Hi & Hp & Hmin). destruct i as [|i]; [done|].
      by rewrite (Hmin 0%nat a ltac:(lia) eq_refl) in E.
  - rewrite fmap_Some. split.
    + intros (j & Hj & ->). apply IH in Hj as (ip & Hi & Hp & Hmin). exists ip.
      split_and!; [done|done|]. intros [|k] kp Hk Hkp; [by injection Hkp as <-|].
      apply (Hmin k kp); [lia|done].
    + intros (ip & Hi & Hp & Hmin). destruct i as [|i]; simpl in Hi; [injection Hi as <-; congruence|].
      exists i. split; [|done]. apply IH. exists ip. split_and!; [done|done|].
      intros j jp Hj Hjp. apply (Hmin (S j) jp); [lia|done].
Qed.

Lemma find_ip_None p l : find_ip p l = None <-> forall i ip, l !! i = Some ip -> p ip = false.
Proof.
  induction l as [|a l IH]; simpl.
  { split; [|done]. intros _ i ip. by rewrite lookup_nil. }
  destruct (p a) eqn:E.
  - split; [done|]. intros H. by rewrite (H 0%nat a eq_refl) in E.
  - rewrite fmap_None, IH. split.
    + intros H [|i] ip Hi; [by injection Hi as <-|]. by apply (H i).
    + intros H i ip Hi. by apply (H (S i)).
Qed.

(** One entry of the cache changes to hold inode ([d], [n]), which no other
    entry holds. *)
Lemma icache_ok_alter l i ip f :
  icache_ok l -> l !! i = Some ip -> 0 <= i_ref (f ip) ->
  (forall j jp, j <> i -> l !! j = Some jp -> 0 < i_ref jp -> 0 < i_ref (f ip) ->
     i_dev jp = i_dev (f ip) -> i_inum jp <> i_inum (f ip)) ->
  icache_ok (alter f i l).
Proof.
  intros [H1 H2] Hi H0 Hu.
  assert (Hlk : forall j jp, alter f i l !! j = Some jp ->
    (j = i /\ jp = f ip) \/ (j <> i /\ l !! j = Some jp)).
  { intros j jp. destruct (decide (j = i)) as [->|Hne].
    - rewrite list_lookup_alter_eq, Hi. intros [= <-]. by left.
    - rewrite list_lookup_alter_ne by done. by right. }
  split.
  - intros j jp [[-> ->]|[_ Hj]]%Hlk; [done|by eapply H1].
  - intros j k jp kp [[-> ->]|[Hnj Hj]]%Hlk [[-> ->]|[Hnk Hk]]%Hlk Rj Rk Hd Hn; try done.
    + destruct (Hu k kp Hnk Hk); congruence.
    + destruct (Hu j jp Hnj Hj); congruence.
    + by eapply H2.
Qed.

Section icache.
  Context {St : Type} {LO : LogOps St} {LL : LogLaws St}.
  Implicit Types (s : fs St).

Definition fs_rel s (V : Z -> list Z) (H : held) (L : list Z) : Prop :=
    ll_rel (fs_log s) V H L /\ free (ic_lock s).
Definition fs_stay s s' : Prop := stay (fs_log s) (fs_log s').

#[export] Instance fs_stay_preorder : PreOrder fs_stay.
  Proof. split; [intros ?; unfold fs_stay; reflexivity|]. intros x y z. unfold fs_stay. by intros; transitivity (fs_log y). Qed.

  (** Inside and after a section under [icache.lock]. *)
Definition ic_in (l : list inode) s : fs St :=
    let b := lget (fs_log s) in
    Fs (lset (Base (cli (b_cpu b)) (b_lock b) (b_procs b)) (fs_log s)) (taken (b_cpu b) (ic_lock s)) l.
Definition ic_out (l : list inode) s : fs St :=
    let b := lget (fs_log s) in
    Fs (lset (Base (quiet (b_cpu b)) (b_lock b) (b_procs b)) (fs_log s)) (dropped (ic_lock s)) l.

Lemma ic_acquire s : free (ic_lock s) -> zoom (L := icache_lock) acquire s = Ok tt (ic_in (ic_inodes s) s).
  Proof. intros Hf. erewrite zoom_ok by (by apply acquire_ok). done. Qed.

Lemma ic_release l s :
    base_ok (lget (fs_log s)) -> zoom (L := icache_lock) release (ic_in l s) = Ok tt (ic_out l s).
  Proof.
    intros [_ Hn]. unfold ic_in, ic_out. erewrite zoom_ok.
    2:{ cbn [lget icache_lock fs_log ic_lock]. rewrite lget_lset. by apply release_taken. }
    cbn [lset icache_lock fs_log ic_lock ic_inodes fst snd]. by rewrite lset_lset, lget_lset.
  Qed.

Lemma ic_out_rel l s V H L : fs_rel s V H L -> fs_rel (ic_out l s) V H L /\ fs_stay s (ic_out l s).
  Proof.
    intros [R Hf]. pose proof (ll_base _ _ _ _ R) as [Hb1 Hb2].
    destruct (ll_lset _ _ _ _ (Base (quiet (b_cpu (lget (fs_log s)))) (b_lock (lget (fs_log s)))
      (b_procs (lget (fs_log s)))) R) as (R' & Hh & Hr); [by split|].
    split; [split; [exact R'|apply free_dropped]|]. split_and!; [done|done|].
    unfold ic_out, calm. cbn [fs_log]. by rewrite lget_lset.
  Qed.

Lemma updip_in i f l s : updip i f (ic_in l s) = Ok tt (ic_in (alter f i l) s).
  Proof. reflexivity. Qed.

Lemma getip_run i ip s : ic_inodes s !! i = Some ip -> getip i s = Ok ip s.
  Proof. intros Hi. unfold getip. erewrite bind_ok by reflexivity. by rewrite Hi. Qed.

  (** The state once the sleepers on a channel have been woken. *)
Definition fs_woken (ch : chan) s : fs St :=
    let b := lget (fs_log s) in
    Fs (lset (Base (b_cpu b) (dropped (b_lock b)) (wake ch <$> b_procs b)) (fs_log s)) (ic_lock s) (ic_inodes s).

Lemma fs_woken_rel ch s V H L : fs_rel s V H L -> fs_rel (fs_woken ch s) V H L /\ fs_stay s (fs_woken ch s).
  Proof.
    intros [R Hf]. pose proof (ll_base _ _ _ _ R) as [Hb1 Hb2].
    destruct (ll_lset _ _ _ _ (Base (b_cpu (lget (fs_log s))) (dropped (b_lock (lget (fs_log s))))
      (wake ch <$> b_procs (lget (fs_log s)))) R) as (R' & Hh & Hr); [split; [apply free_dropped|done]|].
    split; [by split|]. split_and!; [done|done|].
    unfold fs_woken, calm. cbn [fs_log]. rewrite lget_lset. split_and!; try done. apply wake_still.
  Qed.

Lemma ic_wakeup ch l s :
    base_ok (lget (fs_log s)) ->
    zoom (L := fs_base_l) (wakeup ch) (ic_in l s) = Ok tt (ic_in l (fs_woken ch s)).
  Proof.
    intros [Hf Hn]. erewrite zoom_ok.
    2:{ cbn [lget fs_base_l]. unfold ic_in. cbn [fs_log]. rewrite lget_lset. apply wakeup_run.
        split; [exact Hf|]. simpl. lia. }
    unfold ic_in, fs_woken, settled. cbn [lset fs_base_l fs_log ic_lock ic_inodes b_cpu b_lock b_procs].
    rewrite !lset_lset, !lget_lset. cbn [b_cpu b_lock b_procs]. by rewrite quiet_cli.
  Qed.

  (** *** iget *)
Lemma iget_hit s V H L dev inum i :
    fs_rel s V H L -> find_ip (cached dev inum) (ic_inodes s) = Some i ->
    iget dev inum s = Ok i (ic_out (alter (fun ip => set_iref (i_ref ip + 1) ip) i (ic_inodes s)) s).
  Proof.
    intros [R Hf] Hi. unfold iget. rewrite (bind_ok _ _ _ _ _ (ic_acquire s Hf)).
    erewrite bind_ok by reflexivity. cbn [ic_inodes ic_in]. rewrite Hi.
    rewrite (bind_ok _ _ _ _ _ (updip_in _ _ _ _)).
    by rewrite (bind_ok _ _ _ _ _ (ic_release _ _ (ll_base _ _ _ _ R))).
  Qed.

Lemma iget_miss s V H L dev inum i :
    fs_rel s V H L -> find_ip (cached dev inum) (ic_inodes s) = None ->
    find_ip (fun ip => i_ref ip =? 0) (ic_inodes s) = Some i ->
    iget dev inum s = Ok i (ic_out (alter (fun ip => Inode dev inum 1 0 (i_type ip) (i_major ip)
      (i_minor ip) (i_nlink ip) (i_size ip) (i_addrs ip)) i (ic_inodes s)) s).
  Proof.
    intros [R Hf] Hn Hi. unfold iget. rewrite (bind_ok _ _ _ _ _ (ic_acquire s Hf)).
    erewrite bind_ok by reflexivity. cbn [ic_inodes ic_in]. rewrite Hn, Hi.
    rewrite (bind_ok _ _ _ _ _ (updip_in _ _ _ _)).
    by rewrite (bind_ok _ _ _ _ _ (ic_release _ _ (ll_base _ _ _ _ R))).
  Qed.

Lemma iget_full s V H L dev inum :
    fs_rel s V H L -> find_ip (cached dev inum) (ic_inodes s) = None ->
    find_ip (fun ip => i_ref ip =? 0) (ic_inodes s) = None ->
    iget dev inum s = Panic "iget: no inodes".
  Proof.
    intros [R Hf] Hn Hi. unfold iget. rewrite (bind_ok _ _ _ _ _ (ic_acquire s Hf)).
    erewrite bind_ok by reflexivity. cbn [ic_inodes ic_in]. by rewrite Hn, Hi.
  Qed.

  (** *** Calls of the log from here *)
Lemma wp_flift {A} (m : M St A) (P : A -> St -> Prop) (Q : A -> fs St -> Prop) s :
    wp m P (fs_log s) -> (forall a t, P a t -> Q a (Fs t (ic_lock s) (ic_inodes s))) ->
    wp (zoom m) Q s.
  Proof. intros Hm HQ. eapply (wp_zoom_call (L := fs_log_l)); [exact Hm|exact HQ]. Qed.

Lemma wp_fbread s V H L sec (Q : nat -> fs St -> Prop) :
    fs_rel s V H L -> 0 <= sec < ll_home (fs_log s) -> unheld H sec ->
    sec ∈ L \/ (size H + length L < NBUF)%nat ->
    (forall h s', H !! h = None -> fs_rel s' V (<[h := (sec, V sec)]> H) L -> fs_stay s s' ->
       ic_inodes s' = ic_inodes s -> Q h s') ->
    wp (fbread 1 sec) Q s.
  Proof.
    intros [R Hf] Hsec HH Hroom HQ. eapply wp_flift; [by apply (ll_bread _ _ _ _ sec R)|].
    intros h t (Hh & R' & S'). by apply HQ.
  Qed.

Lemma wp_fdata s V H L h sec d (Q : list Z -> fs St -> Prop) :
    fs_rel s V H L -> H !! h = Some (sec, d) -> Q d s -> wp (fdata h) Q s.
  Proof. intros [R _] Hh HQ. apply wp_gets. by rewrite (ll_data _ _ _ _ _ _ _ R Hh). Qed.

Lemma wp_ffill_log {A} (k : M (fs St) A) s V H L h sec d0 d (Q : A -> fs St -> Prop) :
    fs_rel s V H L -> H !! h = Some (sec, d0) ->
    (length L < ll_room (fs_log s))%nat -> (size H + length L < NBUF)%nat ->
    (forall s', fs_rel s' (vset V sec d) (<[h := (sec, d)]> H) (log_add sec L) -> fs_stay s s' ->
       ic_inodes s' = ic_inodes s -> wp k Q s') ->
    wp (fset h d ;;; flog_write h ;;; k) Q s.
  Proof.
    intros [R Hf] Hh Hroom Hn Hk. apply wp_bind.
    eapply wp_flift; [by apply (ll_set _ _ _ _ h sec d0 d R)|]. intros [] t (R1 & S1).
    apply wp_bind. eapply wp_flift.
    { cbn [fs_log]. apply (ll_log_write _ _ _ _ h sec d R1).
      - by rewrite lookup_insert_eq.
      - by destruct S1 as (_ & -> & _).
      - by rewrite map_size_insert_Some by (by eexists). }
    intros [] t' (R2 & S2). apply Hk; [by split| |done]. unfold fs_stay. cbn [fs_log].
    by transitivity t.
  Qed.

Lemma wp_fbrelse s V H L h sec d (Q : unit -> fs St -> Prop) :
    fs_rel s V (<[h := (sec, d)]> H) L -> H !! h = None -> V sec = d ->
    (forall s', fs_rel s' V H L -> fs_stay s s' -> ic_inodes s' = ic_inodes s -> Q tt s') ->
    wp (fbrelse h) Q s.
  Proof.
    intros [R Hf] Hh <- HQ. eapply wp_flift.
    { apply (ll_brelse _ _ _ _ h sec R). by rewrite lookup_insert_eq. }
    intros [] t (R' & S'). rewrite delete_insert_id in R' by done. by apply HQ.
  Qed.

Lemma wp_getip s i ip (Q : inode -> fs St -> Prop) :
    ic_inodes s !! i = Some ip -> Q ip s -> wp (getip i) Q s.
  Proof. intros Hi HQ. eapply outcome_wp; [by apply getip_run|done]. Qed.

Lemma wp_updip s V H L i f (Q : unit -> fs St -> Prop) :
    fs_rel s V H L ->
    (forall s', fs_rel s' V H L -> fs_stay s s' -> ic_inodes s' = alter f i (ic_inodes s) -> Q tt s') ->
    wp (updip i f) Q s.
  Proof. intros R HQ. apply wp_modify. apply HQ; [exact R|unfold fs_stay; reflexivity|done]. Qed.

  (** *** iupdate *)
Lemma iupdate_run s V H L i ip :
    let blk := IBLOCK (i_inum ip) in
    fs_rel s V H L -> ic_inodes s !! i = Some ip -> i_dev ip = 1 ->
    0 <= blk < ll_home (fs_log s) -> blk < 2 ^ 32 -> unheld H blk ->
    (length L < ll_room (fs_log s))%nat -> (size H + length L + 1 < NBUF)%nat ->
    wp (iupdate i) (fun _ s' =>
      fs_rel s' (vset V blk (dinode_put (dinode_off (i_inum ip)) ip (V blk))) H (log_add blk L) /\
      fs_stay s s' /\ ic_inodes s' = ic_inodes s) s.
  Proof.
    intros blk R Hi Hdev Hblk Hw HH Hroom Hn. unfold iupdate. apply wp_bind.
    eapply wp_getip; [exact Hi|]. fold blk. rewrite Hdev, u32_id by (unfold is_u32; lia). apply wp_bind.
    eapply wp_fbread; [exact R|done|done|right; lia|]. intros h s1 Hh R1 S1 I1. apply wp_bind.
    eapply wp_fdata; [exact R1|by rewrite lookup_insert_eq|].
    eapply wp_ffill_log; [exact R1|by rewrite lookup_insert_eq| | |].
    - by destruct S1 as (_ & -> & _).
    - rewrite map_size_insert_None by done. lia.
    - rewrite insert_insert_eq. intros s2 R2 S2 I2.
      eapply wp_fbrelse; [exact R2|done|apply vset_eq|]. intros s3 R3 S3 I3.
      split_and!; [done| |congruence]. by transitivity s1; [|transitivity s2].
  Qed.

  (** *** ilock of an inode nobody has locked *)
Definition locked_ip (V : Z -> list Z) (ip : inode) : inode :=
    let ip := set_iflags (Z.lor (i_flags ip) I_BUSY) ip in
    if Flag.has (i_flags ip) I_VALID then ip
    else let ip := dinode_get (dinode_off (i_inum ip)) (V (IBLOCK (i_inum ip))) ip in
         set_iflags (Z.lor (i_flags ip) I_VALID) ip.

Lemma has_or_busy f : Flag.has (Z.lor f I_BUSY) I_VALID = Flag.has f I_VALID.
  Proof.
    change I_VALID with (2 ^ 1). rewrite !Flag.has_testbit, Z.lor_spec by lia.
    change (Z.testbit I_BUSY 1) with false. by rewrite orb_false_r.
  Qed.

Lemma ilock_take s V H L i ip :
    fs_rel s V H L -> ic_inodes s !! i = Some ip -> 1 <= i_ref ip ->
    Flag.has (i_flags ip) I_BUSY = false ->
    forall Q k, wp k Q (ic_out (alter (fun ip => set_iflags (Z.lor (i_flags ip) I_BUSY) ip) i (ic_inodes s)) s) ->
    wp (zoom (L := icache_lock) acquire ;;;
        ilock_loop wakeups i ;;;
        updip i (fun ip => set_iflags (Z.lor (i_flags ip) I_BUSY) ip) ;;;
        zoom (L := icache_lock) release ;;; (k : M (fs St) unit)) Q s.
  Proof.
    intros [R Hf] Hi Href Hb Q k Hk. apply wp_bind. eapply outcome_wp; [by apply ic_acquire|].
    apply wp_bind. unfold wakeups. cbn [ilock_loop].
    apply wp_bind. eapply wp_getip; [exact Hi|]. rewrite Hb. apply wp_ret.
    apply wp_bind. eapply outcome_wp; [apply updip_in|].
    apply wp_bind. eapply outcome_wp; [apply ic_release; by eapply ll_base|]. exact Hk.
  Qed.

Lemma ilock_run s V H L i ip :
    let blk := IBLOCK (i_inum ip) in
    fs_rel s V H L -> ic_inodes s !! i = Some ip -> 1 <= i_ref ip ->
    Flag.has (i_flags ip) I_BUSY = false ->
    (Flag.has (i_flags ip) I_VALID = false ->
       i_dev ip = 1 /\ 0 <= blk < ll_home (fs_log s) /\ blk < 2 ^ 32 /\ unheld H blk /\
       (size H + length L < NBUF)%nat /\ s16 (get16 (dinode_off (i_inum ip)) (V blk)) <> 0) ->
    wp (ilock i) (fun _ s' => fs_rel s' V H L /\ fs_stay s s' /\
      ic_inodes s' = <[i := locked_ip V ip]> (ic_inodes s)) s.
  Proof.
    intros blk R Hi Href Hb Hload. unfold ilock. apply wp_bind. eapply wp_getip; [exact Hi|].
    destruct (i_ref ip <? 1) eqn:E; [lia|].
    apply (ilock_take s V H L i ip R Hi Href Hb).
    set (f := fun ip => set_iflags (Z.lor (i_flags ip) I_BUSY) ip).
    destruct (ic_out_rel (alter f i (ic_inodes s)) s V H L R) as [R1 S1].
    assert (Hi1 : alter f i (ic_inodes s) !! i = Some (f ip)) by (by rewrite list_lookup_alter_eq, Hi).
    pose proof (lookup_lt_Some _ _ _ Hi) as Hlt.
    assert (Hal : forall g, alter g i (ic_inodes s) = <[i := g ip]> (ic_inodes s)).
    { intros g. apply list_eq. intros j. destruct (decide (j = i)) as [->|Hne].
      - by rewrite list_lookup_alter_eq, Hi, list_lookup_insert_eq.
      - by rewrite list_lookup_alter_ne, list_lookup_insert_ne. }
    apply wp_bind. eapply wp_getip; [exact Hi1|].
    unfold f at 1. cbn [set_iflags i_flags]. rewrite has_or_busy. unfold locked_ip.
    cbn [set_iflags i_flags]. rewrite has_or_busy. destruct (Flag.has (i_flags ip) I_VALID) eqn:Ev; cbn [negb].
    { apply wp_ret. split_and!; [done|done|]. cbn [ic_inodes ic_out]. by rewrite Hal. }
    destruct Hload as (Hdev & Hblk & Hw & HH & Hn & Hty); [done|].
    unfold f at 1 2. cbn [set_iflags i_dev i_inum]. fold blk.
    rewrite Hdev, u32_id by (unfold is_u32; lia). apply wp_bind.
    pose proof S1 as (Hhm & _). cbn [fs_log ic_out] in Hhm.
    eapply wp_fbread; [exact R1|cbn [fs_log ic_out]; by rewrite Hhm|done|by right|].
    intros h s2 Hh R2 S2 I2. apply wp_bind.
    eapply wp_fdata; [exact R2|by rewrite lookup_insert_eq|]. apply wp_bind.
    eapply wp_updip; [exact R2|]. intros s3 R3 S3 I3. apply wp_bind.
    eapply wp_fbrelse; [exact R3|done|done|]. intros s4 R4 S4 I4. apply wp_bind.
    eapply wp_updip; [exact R4|]. intros s5 R5 S5 I5. apply wp_bind.
    rewrite I4, I3, I2 in I5. cbn [ic_inodes ic_out] in I5. rewrite !alter_alter, Hal in I5.
    eapply wp_getip; [rewrite I5, list_lookup_insert_eq; done|].
    unfold f. cbn [set_iflags i_type dinode_get i_inum i_flags].
    fold blk. destruct (s16 _ =? 0) eqn:E0; [lia|]. apply wp_ret.
    split_and!; [done| |done].
    by transitivity (ic_out (alter f i (ic_inodes s)) s); [|transitivity s2; [|transitivity s3; [|transitivity s4]]].
  Qed.

  (** *** iunlock *)
Lemma iunlock_run s V H L i ip :
    fs_rel s V H L -> ic_inodes s !! i = Some ip -> 1 <= i_ref ip ->
    Flag.has (i_flags ip) I_BUSY = true ->
    wp (iunlock i) (fun _ s' => fs_rel s' V H L /\ fs_stay s s' /\
      ic_inodes s' = alter (fun ip => set_iflags (Z.land (i_flags ip) (Z.lnot I_BUSY)) ip) i (ic_inodes s)) s.
  Proof.
    intros R Hi Href Hb. pose proof R as [Rl Hf]. unfold iunlock. apply wp_bind.
    eapply wp_getip; [exact Hi|]. rewrite Hb. cbn [negb orb].
    destruct (i_ref ip <? 1) eqn:E; [lia|].
    apply wp_bind. eapply outcome_wp; [by apply ic_acquire|].
    apply wp_bind. eapply outcome_wp; [apply updip_in|].
    apply wp_bind. eapply outcome_wp; [apply ic_wakeup; by eapply ll_base|].
    destruct (fs_woken_rel (ChInode i) s V H L R) as [Rw Sw].
    eapply outcome_wp; [apply ic_release; eapply ll_base; apply Rw|].
    destruct (ic_out_rel (alter (fun ip => set_iflags (Z.land (i_flags ip) (Z.lnot I_BUSY)) ip) i (ic_inodes s))
                (fs_woken (ChInode i) s) V H L Rw) as [R' S'].
    split_and!; [exact R'| |done]. by transitivity (fs_woken (ChInode i) s).
  Qed.

  (** *** idup, and iput of an inode that stays *)
Lemma idup_run s V H L i :
    fs_rel s V H L ->
    wp (idup i) (fun r s' => r = i /\ fs_rel s' V H L /\ fs_stay s s' /\
      ic_inodes s' = alter (fun ip => set_iref (i_ref ip + 1) ip) i (ic_inodes s)) s.
  Proof.
    intros R. pose proof R as [Rl Hf]. unfold idup. apply wp_bind. eapply outcome_wp; [by apply ic_acquire|].
    apply wp_bind. eapply outcome_wp; [apply updip_in|]. apply wp_bind.
    eapply outcome_wp; [apply ic_release; by eapply ll_base|]. apply wp_ret.
    destruct (ic_out_rel (alter (fun ip => set_iref (i_ref ip + 1) ip) i (ic_inodes s)) s V H L R) as [R' S'].
    by split_and!.
  Qed.

Lemma iput_run s V H L i ip :
    fs_rel s V H L -> ic_inodes s !! i = Some ip ->
    (i_ref ip =? 1) && Flag.has (i_flags ip) I_VALID && (i_nlink ip =? 0) = false ->
    wp (iput i) (fun _ s' => fs_rel s' V H L /\ fs_stay s s' /\
      ic_inodes s' = alter (fun ip => set_iref (i_ref ip - 1) ip) i (ic_inodes s)) s.
  Proof.
    intros R Hi Hc. pose proof R as [Rl Hf]. unfold iput. apply wp_bind. eapply outcome_wp; [by apply ic_acquire|].
    apply wp_bind. eapply wp_getip; [exact Hi|]. rewrite Hc. apply wp_bind, wp_ret.
    apply wp_bind. eapply outcome_wp; [apply updip_in|].
    eapply outcome_wp; [apply ic_release; by eapply ll_base|].
    destruct (ic_out_rel (alter (fun ip => set_iref (i_ref ip - 1) ip) i (ic_inodes s)) s V H L R) as [R' S'].
    by split_and!.
  Qed.
End icache.

Section specs.
  Context {St : Type} {LO : LogOps St} {LL : LogLaws St}.
  Implicit Types (s : fs St).

Lemma alter_insert (f : inode -> inode) i (l : list inode) ip :
    l !! i = Some ip -> alter f i l = <[i := f ip]> l.
  Proof.
    intros Hi. apply list_eq. intros j. destruct (decide (j = i)) as [->|Hne].
    - rewrite list_lookup_alter_eq, Hi, list_lookup_insert_eq; [done|]. by eapply lookup_lt_Some.
    - by rewrite list_lookup_alter_ne, list_lookup_insert_ne.
  Qed.

  (** [iget] keeps one entry per inode: when the inode is cached it
      returns that entry with one more reference; otherwise it takes an
      unreferenced entry, makes it that inode's with one reference and nothing
      read yet; every other entry stays as it was, and no inode ever has two
      referenced entries. It panics exactly when the inode is not cached and
      every entry is referenced. *)
Theorem iget_spec s V H L dev inum :
    fs_rel s V H L -> icache_ok (ic_inodes s) ->
    (forall i ip, ic_inodes s !! i = Some ip -> 0 < i_ref ip -> i_dev ip = dev -> i_inum ip = inum ->
       exists s', iget dev inum s = Ok i s' /\ fs_rel s' V H L /\ icache_ok (ic_inodes s') /\
         ic_inodes s' = <[i := set_iref (i_ref ip + 1) ip]> (ic_inodes s)) /\
    ((forall i ip, ic_inodes s !! i = Some ip -> 0 < i_ref ip -> ~ (i_dev ip = dev /\ i_inum ip = inum)) ->
       (exists i ip ip' s', iget dev inum s = Ok i s' /\ fs_rel s' V H L /\ icache_ok (ic_inodes s') /\
          ic_inodes s !! i = Some ip /\ i_ref ip = 0 /\
          ic_inodes s' = <[i := ip']> (ic_inodes s) /\
          i_dev ip' = dev /\ i_inum ip' = inum /\ i_ref ip' = 1 /\ i_flags ip' = 0) \/
       ((forall i ip, ic_inodes s !! i = Some ip -> 0 < i_ref ip) /\
        iget dev inum s = Panic "iget: no inodes")).
  Proof.
    intros R [Hpos Huniq]. split.
    - intros i ip Hi Href Hd Hn.
      assert (Hf : find_ip (cached dev inum) (ic_inodes s) = Some i).
      { apply find_ip_Some. exists ip. unfold cached. split_and!; [done|lia|].
        intros j jp Hj Hjp. destruct (_ && _) eqn:E; [exfalso|done].
        assert (j = i) by (apply (Huniq j i jp ip); try done; lia). lia. }
      eexists. split; [by eapply iget_hit|]. pose proof (ic_out_rel
        (alter (fun ip => set_iref (i_ref ip + 1) ip) i (ic_inodes s)) s V H L R) as [R' _].
      split; [exact R'|]. cbn [ic_out ic_inodes]. split; [|by rewrite (alter_insert _ _ _ _ Hi)].
      eapply icache_ok_alter; [by split|exact Hi|simpl; lia|].
      intros j jp Hne Hj Hrj _ Hdj Hnj. simpl in *. apply Hne. by apply (Huniq j i jp ip).
    - intros Hnone.
      assert (Hf : find_ip (cached dev inum) (ic_inodes s) = None).
      { apply find_ip_None. intros i ip Hi. unfold cached. destruct (_ && _) eqn:E; [exfalso|done].
        apply (Hnone i ip Hi); lia. }
      destruct (find_ip (fun ip => i_ref ip =? 0) (ic_inodes s)) as [i|] eqn:He.
      + left. pose proof He as (ip & Hi & Hz & _)%find_ip_Some.
        eexists i, ip, _, _. split; [by eapply iget_miss|]. pose proof (ic_out_rel
          (alter (fun ip => Inode dev inum 1 0 (i_type ip) (i_major ip) (i_minor ip) (i_nlink ip)
             (i_size ip) (i_addrs ip)) i (ic_inodes s)) s V H L R) as [R' _].
        split; [exact R'|]. cbn [ic_out ic_inodes].
        split_and!; [|done|lia|by rewrite (alter_insert _ _ _ _ Hi)|done..].
        eapply icache_ok_alter; [by split|exact Hi|simpl; lia|].
        intros j jp Hne Hj Hrj _ Hdj Hnj. simpl in *. apply (Hnone j jp Hj Hrj). done.
      + right. split; [|by eapply iget_full]. intros i ip Hi.
        rewrite find_ip_None in He. specialize (He i ip Hi). specialize (Hpos i ip Hi). simpl in He. lia.
  Qed.

  (** What [iupdate] writes is what [ilock] reads: after [iupdate] of an
      entry, locking any unlocked, not yet valid entry of the same inode
      brings exactly the same type, device numbers, link count, size and block
      addresses back, and every other inode stored in the same block reads as
      before. *)
Theorem iupdate_ilock s V L i j ip jp :
    let blk := IBLOCK (i_inum ip) in
    fs_rel s V ∅ L -> ic_inodes s !! i = Some ip -> ic_inodes s !! j = Some jp ->
    inode_range ip -> i_type ip <> 0 -> i_dev ip = 1 -> i_dev jp = 1 -> i_inum jp = i_inum ip ->
    1 <= i_ref jp -> i_flags jp = 0 ->
    0 <= blk < ll_home (fs_log s) -> blk < 2 ^ 32 -> length (V blk) = 512%nat ->
    (length L < ll_room (fs_log s))%nat -> (length L + 1 < NBUF)%nat ->
    exists s' jp' V', (iupdate i ;;; ilock j) s = Ok tt s' /\
      ic_inodes s' !! j = Some jp' /\ meta jp' = meta ip /\
      fs_rel s' V' ∅ (log_add blk L) /\ (forall x, x <> blk -> V' x = V x) /\
      forall n kp, IBLOCK n = blk -> n <> i_inum ip ->
        dinode_get (dinode_off n) (V' blk) kp = dinode_get (dinode_off n) (V blk) kp.
  Proof.
    intros blk R Hi Hj Hr Hty Hdi Hdj Hnj Href Hfl Hblk Hw Hlen Hroom Hn.
    pose proof (dinode_off_bound (i_inum ip)) as Hoff. pose proof (length_log_add blk L).
    set (d' := dinode_put (dinode_off (i_inum ip)) ip (V blk)).
    assert (Hget : meta (dinode_get (dinode_off (i_inum ip)) d' jp) = meta ip)
      by (apply dinode_get_put; [lia|done]).
    assert (Hwp : wp (iupdate i ;;; ilock j) (fun _ s' =>
      fs_rel s' (vset V blk d') ∅ (log_add blk L) /\
      ic_inodes s' = <[j := locked_ip (vset V blk d') jp]> (ic_inodes s)) s).
    { apply wp_bind. wp_call (iupdate_run s V ∅ L i ip R); try done.
      intros _ s1 (R1 & (Hh & Hrm & _) & I1). fold blk d' in R1.
      wp_call (ilock_run s1 _ _ _ j jp R1); rewrite ?I1; try done.
      - rewrite Hfl. done.
      - intros _. rewrite Hnj. fold blk. rewrite vset_eq, Hh, map_size_empty.
        split_and!; try done; try lia.
        injection Hget as Hty' _ _ _ _ _. rewrite Hty'. done.
      - intros _ s2 (R2 & _ & I2). done. }
    apply wp_outcome in Hwp as ([] & s' & Hs & R' & I').
    exists s', (locked_ip (vset V blk d') jp), (vset V blk d'). split_and!; try done.
    - rewrite I'. apply list_lookup_insert_eq. by eapply lookup_lt_Some.
    - unfold locked_ip. cbn [set_iflags i_flags i_inum]. rewrite Hfl, Hnj. fold blk.
      rewrite vset_eq. change (Flag.has (Z.lor 0 I_BUSY) I_VALID) with false. exact Hget.
    - intros x Hx. by rewrite vset_ne.
    - intros n kp Hnb Hne. rewrite vset_eq. apply dinode_get_put_ne; [lia|apply Hr|].
      apply dinode_off_ne; [exact Hnb|done].
  Qed.
End specs.

(** *** On the formatted disk: a locked inode, a free entry and another entry
    of the same inode *)
Definition ip0 (inum ref flags type size : Z) : inode :=
  Inode 1 inum ref flags type 0 0 1 size (replicate 13 0).
Definition fs0 : fs log :=
  Fs open_state (Spinlock 0 "icache" None []) [ip0 5 1 3 2 0; ip0 0 0 0 0 0; ip0 6 2 0 2 0].

Lemma fs0_rel : fs_rel fs0 (disk_get fs_disk) ∅ [].
Proof. split; [apply open_state_rel|reflexivity]. Qed.

Lemma fs0_ok : icache_ok (ic_inodes fs0).
Proof.
  split.
  - intros i ip Hi. do 3 (destruct i as [|i]; [injection Hi as <-; simpl; lia|]). done.
  - intros i j ip jp Hi Hj. do 3 (destruct i as [|i];
      [injection Hi as <-; do 3 (destruct j as [|j]; [injection Hj as <-; simpl; try done; lia|]); done|]).
    done.
Qed.

Lemma iget_spec_witness :
  exists s', iget 1 6 fs0 = Ok 2%nat s' /\ fs_rel s' (disk_get fs_disk) ∅ [] /\
    icache_ok (ic_inodes s') /\
    ic_inodes s' = <[2%nat := set_iref 3 (ip0 6 2 0 2 0)]> (ic_inodes fs0).
Proof.
  destruct (iget_spec fs0 (disk_get fs_disk) ∅ [] 1 6 fs0_rel fs0_ok) as [Hhit _].
  apply (Hhit 2%nat (ip0 6 2 0 2 0)); [reflexivity|simpl; lia|reflexivity|reflexivity].
Defined.

Definition fs1 : fs log :=
  Fs open_state (Spinlock 0 "icache" None []) [ip0 5 1 3 2 700; ip0 5 1 0 0 0].

Lemma ip0_range : inode_range (ip0 5 1 3 2 700).
Proof.
  split; cbn [ip0 i_type i_major i_minor i_nlink i_size i_addrs];
    unfold is_s16, is_u32; try lia; [|reflexivity].
  simpl. repeat constructor; lia.
Qed.

Lemma iupdate_ilock_witness :
  exists s' jp' V', (iupdate 0 ;;; ilock 1) fs1 = Ok tt s' /\
    ic_inodes s' !! 1%nat = Some jp' /\ meta jp' = meta (ip0 5 1 3 2 700) /\
    fs_rel s' V' ∅ (log_add 2 []) /\ (forall x, x <> 2 -> V' x = disk_get fs_disk x) /\
    forall n kp, IBLOCK n = 2 -> n <> 5 ->
      dinode_get (dinode_off n) (V' 2) kp = dinode_get (dinode_off n) (disk_get fs_disk 2) kp.
Proof.
  destruct open_state_rel as (R & Hh & Hr).
  apply (iupdate_ilock fs1 (disk_get fs_disk) [] 0 1 (ip0 5 1 3 2 700) (ip0 5 1 0 0 0)).
  - split; [exact R|reflexivity].
  - reflexivity.
  - reflexivity.
  - exact ip0_range.
  - discriminate.
  - reflexivity.
  - reflexivity.
  - reflexivity.
  - discriminate.
  - reflexivity.
  - cbn [fs_log fs1]. rewrite Hh. split; [discriminate|reflexivity].
  - reflexivity.
  - reflexivity.
  - cbn [fs_log fs1]. rewrite Hr. simpl. lia.
  - unfold NBUF. simpl. lia.
Defined.
