(* ===== verification/FileData.v ===== *)
(** File contents: what [bmap], [readi] and [writei] (fs.c) do to the bytes of
    a file, seen through the inode's direct and indirect block addresses. *)
From stdpp Require Import base numbers list strings sets gmap.
From S2P Require Import Prelude Params Spinlock Sched Bio Cache BlockIf Log Crash Balloc Inode.

Set Warnings "-clear-no-such-hyp".

(** The block addresses of an inode. *)
Definition addr_of (ip : inode) (k : nat) : Z := default 0 (i_addrs ip !! k).
Definition blockof (V : Z -> list Z) (ip : inode) (bn : Z) : Z :=
  if bn <? NDIRECT then addr_of ip (Z.to_nat bn)
  else get32 (4 * Z.to_nat (bn - NDIRECT)) (V (addr_of ip 12)).

(** Byte [k] of the file, and [n] bytes from [off] on. *)
Definition file_byte (V : Z -> list Z) (ip : inode) (k : Z) : Z :=
  default 0 (V (blockof V ip (k / BSIZE)) !! Z.to_nat (k mod BSIZE)).
Definition file_bytes (V : Z -> list Z) (ip : inode) (off : Z) (n : nat) : list Z :=
  (fun k => file_byte V ip (off + Z.of_nat k)) <$> seq 0 n.

Lemma length_file_bytes V ip off n : length (file_bytes V ip off n) = n.
Proof. unfold file_bytes. by rewrite length_fmap, length_seq. Qed.

Lemma file_bytes_app V ip off a b :
  file_bytes V ip off (a + b) = file_bytes V ip off a ++ file_bytes V ip (off + Z.of_nat a) b.
Proof.
  unfold file_bytes. rewrite seq_app, fmap_app. f_equal. rewrite Nat.add_0_l.
  replace (seq a b) with ((fun k => (a + k)%nat) <$> seq 0 b).
  - rewrite <- list_fmap_compose. apply list_fmap_ext. intros j k _. simpl. f_equal. lia.
  - apply list_eq. intros j. rewrite list_lookup_fmap.
    destruct (decide (j < b)%nat) as [Hj|Hj].
    + rewrite !lookup_seq_lt by done. done.
    + rewrite !lookup_seq_ge by lia. done.
Qed.

(** A stretch inside one block. *)
Lemma file_bytes_block V ip off n :
  0 <= off -> off mod BSIZE + Z.of_nat n <= BSIZE -> length (V (blockof V ip (off / BSIZE))) = 512%nat ->
  slice (Z.to_nat (off mod BSIZE)) n (V (blockof V ip (off / BSIZE))) = file_bytes V ip off n.
Proof.
  change BSIZE with 512. intros Ho Hn Hl. apply list_eq. intros k. rewrite lookup_slice.
  unfold file_bytes. rewrite list_lookup_fmap. pose proof (Z.mod_pos_bound off 512 ltac:(lia)).
  case_decide as Hk.
  - rewrite lookup_seq_lt by done. simpl. unfold file_byte. change BSIZE with 512.
    pose proof (Z.div_mod off 512 ltac:(lia)).
    assert (Hq : (off + Z.of_nat k) / 512 = off / 512)
      by (symmetry; apply (Z.div_unique _ _ _ (off mod 512 + Z.of_nat k)); lia).
    assert (Hr : (off + Z.of_nat k) mod 512 = off mod 512 + Z.of_nat k)
      by (symmetry; apply (Z.mod_unique _ _ (off / 512)); lia).
    rewrite Hq, Hr. replace (Z.to_nat (off mod 512 + Z.of_nat k)) with (Z.to_nat (off mod 512) + k)%nat by lia.
    destruct (lookup_lt_is_Some_2 (V (blockof V ip (off / 512))) (Z.to_nat (off mod 512) + k)) as [x Hx];
      [lia|]. by rewrite Hx.
  - by rewrite lookup_seq_ge by lia.
Qed.

(** Every block of the file up to byte [lim] is there, among the home
    sectors, and no block is used twice. *)
Record mapped (V : Z -> list Z) (ip : inode) (home lim : Z) : Prop := {
  mp_len : length (i_addrs ip) = 13%nat;
  mp_max : lim <= MAXFILE * BSIZE;
  mp_block : forall bn, 0 <= bn -> bn * BSIZE < lim ->
    0 < blockof V ip bn < home /\ length (V (blockof V ip bn)) = 512%nat;
  mp_ind : NDIRECT * BSIZE < lim -> 0 < addr_of ip 12 < home;
  mp_inj : forall b c, 0 <= b -> 0 <= c -> b * BSIZE < lim -> c * BSIZE < lim ->
    blockof V ip b = blockof V ip c -> b = c;
  mp_data : forall bn, 0 <= bn -> bn * BSIZE < lim -> NDIRECT * BSIZE < lim ->
    blockof V ip bn <> addr_of ip 12;
}.

(** Writing a stretch inside one block of the file. *)
Section chunk.
  Context (V : Z -> list Z) (ip : inode) (home lim off : Z) (x : list Z).
  Hypothesis Hm : mapped V ip home lim.
  Hypothesis Hoff : 0 <= off.
  Hypothesis Hx : 0 < Z.of_nat (length x).
  Hypothesis Hend : off + Z.of_nat (length x) <= lim.
  Hypothesis Hin : off mod BSIZE + Z.of_nat (length x) <= BSIZE.
Let b := blockof V ip (off / BSIZE).
Let V' := vset V b (splice (Z.to_nat (off mod BSIZE)) x (V b)).

Lemma chunk_bn : 0 <= off / BSIZE /\ off / BSIZE * BSIZE < lim.
  Proof.
    change BSIZE with 512 in *. pose proof (Z.div_mod off 512 ltac:(lia)).
    pose proof (Z.mod_pos_bound off 512 ltac:(lia)). split; [apply Z.div_pos; lia|lia].
  Qed.

Lemma chunk_blockof bn : 0 <= bn -> bn * BSIZE < lim -> blockof V' ip bn = blockof V ip bn.
  Proof.
    intros H0 Hl. unfold blockof. destruct (bn <? NDIRECT) eqn:E; [done|].
    unfold V'. rewrite vset_ne; [done|]. destruct chunk_bn as [Hb1 Hb2].
    apply not_eq_sym, (mp_data _ _ _ _ Hm); [done|done|]. change BSIZE with 512 in *. change NDIRECT with 12 in *. lia.
  Qed.

Lemma chunk_len : length (splice (Z.to_nat (off mod BSIZE)) x (V b)) = length (V b) /\ length (V b) = 512%nat.
  Proof.
    destruct chunk_bn as [Hb1 Hb2]. destruct (mp_block _ _ _ _ Hm _ Hb1 Hb2) as [_ Hl].
    split; [|exact Hl]. fold b in Hl. apply length_splice.
    change BSIZE with 512 in *. pose proof (Z.mod_pos_bound off 512 ltac:(lia)). lia.
  Qed.

Lemma chunk_mapped : mapped V' ip home lim.
  Proof.
    destruct chunk_len as [Hl1 Hl2]. split; try apply Hm.
    - intros bn H0 Hl. rewrite chunk_blockof by done. destruct (mp_block _ _ _ _ Hm bn H0 Hl) as [Hr Hlb].
      split; [done|]. unfold V', vset. case_decide; [congruence|done].
    - intros c d Hc Hd Hlc Hld. rewrite !chunk_blockof by done. by apply (mp_inj _ _ _ _ Hm).
    - intros bn H0 Hl Hi. rewrite chunk_blockof by done. by apply (mp_data _ _ _ _ Hm).
  Qed.

Lemma chunk_byte k :
    0 <= k < lim ->
    file_byte V' ip k = if decide (off <= k < off + Z.of_nat (length x))
                        then default 0 (x !! Z.to_nat (k - off)) else file_byte V ip k.
  Proof.
    intros Hk. destruct chunk_bn as [Hb1 Hb2]. destruct chunk_len as [_ Hl].
    unfold file_byte. change BSIZE with 512 in *.
    pose proof (Z.div_mod k 512 ltac:(lia)). pose proof (Z.mod_pos_bound k 512 ltac:(lia)).
    pose proof (Z.div_mod off 512 ltac:(lia)). pose proof (Z.mod_pos_bound off 512 ltac:(lia)).
    assert (Hkb : 0 <= k / 512) by (apply Z.div_pos; lia).
    rewrite chunk_blockof by (done || change BSIZE with 512; lia).
    destruct (decide (k / 512 = off / 512)) as [Hq|Hq].
    - rewrite Hq. fold b. unfold V'. rewrite vset_eq. change BSIZE with 512.
      rewrite lookup_splice by lia. case_decide; case_decide; try lia; try done.
      do 2 f_equal. lia.
    - rewrite decide_False.
      + unfold V'. rewrite vset_ne; [done|]. intros He. apply Hq.
        apply (mp_inj _ _ _ _ Hm); change BSIZE with 512; (done || lia).
      + intros [? ?]. apply Hq. symmetry. apply (Z.div_unique _ _ _ (off mod 512 + (k - off))); lia.
  Qed.
End chunk.

(** The number of blocks a write of [n] bytes at [off] touches. *)
Definition touched (off n : Z) : Z := if n =? 0 then 0 else (off mod BSIZE + n + 511) / BSIZE.

Lemma touched_step off n :
  0 <= off -> 0 < n -> let m := Z.min n (BSIZE - off mod BSIZE) in
  0 <= touched (off + m) (n - m) /\ 1 + touched (off + m) (n - m) <= touched off n.
Proof.
  intros Ho Hn m. unfold touched. change BSIZE with 512 in *.
  pose proof (Z.div_mod off 512 ltac:(lia)). pose proof (Z.mod_pos_bound off 512 ltac:(lia)).
  destruct (n =? 0) eqn:E; [lia|]. destruct (n - m =? 0) eqn:E2.
  - split; [lia|]. apply Z.div_le_lower_bound; lia.
  - assert (m = 512 - off mod 512) as Hmm by lia.
    assert ((off + m) mod 512 = 0) as ->.
    { symmetry. apply (Z.mod_unique _ _ (off / 512 + 1)); lia. }
    split; [apply Z.div_pos; lia|].
    replace (off mod 512 + n + 511) with (0 + (n - m) + 511 + 1 * 512) by lia.
    rewrite Z.div_add by lia. lia.
Qed.

(** Changes elsewhere leave a file alone. *)
Section frame.
  Context (V W : Z -> list Z) (ip : inode) (home lim : Z).
  Hypothesis Hm : mapped V ip home lim.
  Hypothesis Hblocks : forall bn, 0 <= bn -> bn * BSIZE < lim -> W (blockof V ip bn) = V (blockof V ip bn).
  Hypothesis Hind : NDIRECT * BSIZE < lim -> W (addr_of ip 12) = V (addr_of ip 12).

Lemma frame_blockof bn : 0 <= bn -> bn * BSIZE < lim -> blockof W ip bn = blockof V ip bn.
  Proof.
    intros H0 Hl. unfold blockof. destruct (bn <? NDIRECT) eqn:E; [done|].
    rewrite Hind; [done|]. change BSIZE with 512 in *. change NDIRECT with 12 in *. lia.
  Qed.

Lemma frame_mapped : mapped W ip home lim.
  Proof.
    split; try apply Hm.
    - intros bn H0 Hl. rewrite frame_blockof by done. rewrite Hblocks by done. by apply Hm.
    - intros c d Hc Hd Hlc Hld. rewrite !frame_blockof by done. by apply (mp_inj _ _ _ _ Hm).
    - intros bn H0 Hl Hi. rewrite frame_blockof by done. by apply (mp_data _ _ _ _ Hm).
  Qed.

Lemma frame_byte k : 0 <= k < lim -> file_byte W ip k = file_byte V ip k.
  Proof.
    intros Hk. unfold file_byte. change BSIZE with 512.
    pose proof (Z.div_mod k 512 ltac:(lia)). pose proof (Z.mod_pos_bound k 512 ltac:(lia)).
    assert (0 <= k / 512) by (apply Z.div_pos; lia).
    rewrite frame_blockof by (change BSIZE with 512; lia).
    by rewrite Hblocks by (change BSIZE with 512; lia).
  Qed.
End frame.

Lemma mapped_size V ip home lim n : mapped V ip home lim -> mapped V (set_isize n ip) home lim.
Proof. intros [? ? ? ? ? ?]. by split. Qed.

(** The inode block is none of the file's. *)
Definition apart (V : Z -> list Z) (ip : inode) (lim : Z) : Prop :=
  (forall bn, 0 <= bn -> bn * BSIZE < lim -> blockof V ip bn <> IBLOCK (i_inum ip)) /\
  addr_of ip 12 <> IBLOCK (i_inum ip).

Section data.
  Context {St : Type} {LO : LogOps St} {LL : LogLaws St}.
  Implicit Types (s : fs St).

  (** *** bmap of a block that is there *)
Lemma bmap_mapped s V L i ip lim bn :
    fs_rel s V ∅ L -> ic_inodes s !! i = Some ip -> i_dev ip = 1 ->
    mapped V ip (ll_home (fs_log s)) lim -> 0 <= bn -> bn * BSIZE < lim -> (length L < NBUF)%nat ->
    wp (bmap i bn) (fun r s' => r = blockof V ip bn /\ fs_rel s' V ∅ L /\ fs_stay s s' /\
      ic_inodes s' = ic_inodes s) s.
  Proof.
    intros R Hi Hdev [M1 M2 M3 M4 M5 M6] Hbn Hlim Hn. unfold bmap.
    destruct (M3 bn Hbn Hlim) as [Hb _].
    change MAXFILE with 140 in M2. change BSIZE with 512 in *. change NDIRECT with 12 in *.
    apply wp_bind. eapply wp_getip; [exact Hi|]. revert Hb. unfold blockof. change NDIRECT with 12.
    destruct (bn <? 12) eqn:E; intros Hb.
    - unfold addr_of in *. destruct (lookup_lt_is_Some_2 (i_addrs ip) (Z.to_nat bn)) as [a Ha]; [lia|].
      rewrite Ha in *. apply wp_bind. eapply wp_some; [reflexivity|]. simpl in *.
      destruct (a =? 0) eqn:E0; [lia|]. apply wp_ret. by split_and!.
    - change NINDIRECT with 128. destruct (bn - 12 <? 128) eqn:E2; [|lia].
      specialize (M4 ltac:(lia)). unfold addr_of in M4, Hb |- *. change (Z.to_nat 12) with 12%nat.
      destruct (lookup_lt_is_Some_2 (i_addrs ip) 12%nat) as [a Ha]; [lia|].
      rewrite Ha in *. apply wp_bind. eapply wp_some; [reflexivity|]. simpl in M4, Hb |- *.
      destruct (a =? 0) eqn:E0; [lia|]. apply wp_bind, wp_ret. rewrite Hdev. apply wp_bind.
      eapply wp_fbread; [exact R|lia|done|right; rewrite map_size_empty; lia|].
      intros h s1 Hh R1 S1 I1. apply wp_bind. eapply wp_fdata; [exact R1|by rewrite lookup_insert_eq|].
      cbv zeta. destruct (get32 _ _ =? 0) eqn:E3; [lia|]. apply wp_bind.
      eapply wp_fbrelse; [exact R1|done|done|]. intros s2 R2 S2 I2. apply wp_ret.
      split_and!; [done|done|by transitivity s1|congruence].
  Qed.

  (** *** readi *)
Lemma readi_loop_run V L i ip off0 n lim : forall fuel s tot off dst,
    fs_rel s V ∅ L -> ic_inodes s !! i = Some ip -> i_dev ip = 1 ->
    mapped V ip (ll_home (fs_log s)) lim -> 0 <= off0 -> off0 + n <= lim -> (length L < NBUF)%nat ->
    0 <= tot <= n -> off = off0 + tot -> dst = file_bytes V ip off0 (Z.to_nat tot) ->
    n - tot < Z.of_nat fuel ->
    wp (readi_loop fuel i tot off n dst) (fun r s' => r = file_bytes V ip off0 (Z.to_nat n) /\
      fs_rel s' V ∅ L /\ fs_stay s s' /\ ic_inodes s' = ic_inodes s) s.
  Proof.
    induction fuel as [|fuel IH]; intros s tot off dst R Hi Hdev Hm Ho Hlim Hn Ht -> -> Hf; [lia|].
    cbn [readi_loop]. destruct (tot <? n) eqn:E; cbn [negb].
    2:{ apply wp_ret. replace tot with n by lia. by split_and!. }
    pose proof (mp_max _ _ _ _ Hm) as Hmax. change (MAXFILE * BSIZE) with 71680 in Hmax.
    apply wp_bind. eapply wp_getip; [exact Hi|]. rewrite Hdev. apply wp_bind.
    set (off := off0 + tot). change BSIZE with 512.
    pose proof (Z.div_mod off 512 ltac:(lia)). pose proof (Z.mod_pos_bound off 512 ltac:(lia)).
    assert (Hbn : 0 <= off / 512) by (apply Z.div_pos; lia).
    assert (Hbl : off / 512 * BSIZE < lim) by (change BSIZE with 512; lia).
    destruct (mp_block _ _ _ _ Hm (off / 512) Hbn Hbl) as [Hb Hlen].
    wp_call (bmap_mapped s V L i ip lim (off / 512) R); [done..|]. intros ? s1 (-> & R1 & S1 & I1).
    pose proof S1 as (Hh1 & _). apply wp_bind.
    eapply wp_fbread; [exact R1|lia|done|right; rewrite map_size_empty; lia|].
    intros h s2 Hh R2 S2 I2. apply wp_bind. eapply wp_fdata; [exact R2|by rewrite lookup_insert_eq|].
    apply wp_bind. eapply wp_fbrelse; [exact R2|done|done|]. intros s3 R3 S3 I3.
    assert (S13 : fs_stay s s3) by (by transitivity s1; [|transitivity s2]).
    pose proof S13 as (Hh3 & _). set (m := Z.min (n - tot) (512 - off mod 512)).
    rewrite !u32_id by (unfold is_u32; lia). wp_call (IH s3); try done; try lia.
    - by rewrite I3, I2, I1.
    - by rewrite Hh3.
    - replace (Z.to_nat (tot + m)) with (Z.to_nat tot + Z.to_nat m)%nat by lia.
      rewrite file_bytes_app. f_equal. replace (off0 + Z.of_nat (Z.to_nat tot)) with off by lia.
      apply file_bytes_block; [lia|change BSIZE with 512; lia|done].
    - intros r s4 (-> & R4 & S4 & I4). split_and!; [done|done|by transitivity s3|congruence].
  Qed.

  (** What [readi] returns of a file that is no device. *)
Lemma readi_run devsw s V L i ip off n :
    fs_rel s V ∅ L -> ic_inodes s !! i = Some ip -> i_dev ip = 1 -> i_type ip <> T_DEV ->
    mapped V ip (ll_home (fs_log s)) (i_size ip) -> (length L < NBUF)%nat ->
    0 <= off <= i_size ip -> 0 <= n -> off + n < 2 ^ 32 ->
    let k := Z.min n (i_size ip - off) in
    wp (readi devsw i off n) (fun r s' => r = (k, file_bytes V ip off (Z.to_nat k)) /\
      fs_rel s' V ∅ L /\ fs_stay s s' /\ ic_inodes s' = ic_inodes s) s.
  Proof.
    intros R Hi Hdev Hty Hm Hn Hoff Hn0 Hw k.
    pose proof (mp_max _ _ _ _ Hm) as Hmax. change (MAXFILE * BSIZE) with 71680 in Hmax.
    unfold readi. apply wp_bind. eapply wp_getip; [exact Hi|].
    destruct (i_type ip =? T_DEV) eqn:E; [lia|]. rewrite u32_id by (unfold is_u32; lia).
    destruct ((off >? i_size ip) || (off + n <? off)) eqn:E2; [lia|].
    replace (if off + n >? i_size ip then u32 (i_size ip - off) else n) with k.
    2:{ unfold k. rewrite u32_id by (unfold is_u32; lia). destruct (off + n >? i_size ip) eqn:E3; lia. }
    apply wp_bind. wp_call (readi_loop_run V L i ip off k (i_size ip)); try done; try lia.
    intros r s' (-> & R' & S' & I'). apply wp_ret. split_and!; try done.
    f_equal. apply s32_id. unfold is_s32. lia.
  Qed.

  (** *** writei over blocks that are there *)
Lemma writei_loop_run i ip n lim : forall fuel s V L tot off src,
    let k := n - tot in
    fs_rel s V ∅ L -> ic_inodes s !! i = Some ip -> i_dev ip = 1 ->
    mapped V ip (ll_home (fs_log s)) lim -> 0 <= off -> off + k <= lim ->
    0 <= tot <= n -> n < 2 ^ 32 -> length src = Z.to_nat k ->
    Z.of_nat (length L) + touched off k <= Z.of_nat (ll_room (fs_log s)) ->
    Z.of_nat (length L) + touched off k + 1 < Z.of_nat NBUF -> k < Z.of_nat fuel ->
    wp (writei_loop fuel i tot off n src) (fun r s' => r = off + k /\ exists V' L',
      fs_rel s' V' ∅ L' /\ mapped V' ip (ll_home (fs_log s)) lim /\
      (forall j, 0 <= j < lim -> file_byte V' ip j =
         if decide (off <= j < off + k) then default 0 (src !! Z.to_nat (j - off)) else file_byte V ip j) /\
      (forall x, (forall bn, 0 <= bn -> bn * BSIZE < lim -> x <> blockof V ip bn) -> V' x = V x) /\
      Z.of_nat (length L') <= Z.of_nat (length L) + touched off k /\
      (forall x, x ∈ L' -> x ∈ L \/ exists bn, 0 <= bn /\ bn * BSIZE < lim /\ x = blockof V ip bn) /\
      fs_stay s s' /\ ic_inodes s' = ic_inodes s) s.
  Proof.
    induction fuel as [|fuel IH];
      intros s V L tot off src k R Hi Hdev Hm Ho Hlim Ht Hn32 Hsrc Hroom Hn Hf; [lia|].
    cbn [writei_loop]. destruct (tot <? n) eqn:E; cbn [negb].
    2:{ apply wp_ret. replace (off + k) with off by lia. split; [done|]. exists V, L.
        assert (touched off k = 0) as Htk by (unfold touched; replace k with 0 by lia; done).
        split_and!; try done; [|lia|by intros x Hx; left]. intros j Hj. by rewrite decide_False by lia. }
    pose proof (mp_max _ _ _ _ Hm) as Hmax. change (MAXFILE * BSIZE) with 71680 in Hmax.
    apply wp_bind. eapply wp_getip; [exact Hi|]. rewrite Hdev. apply wp_bind.
    destruct (touched_step off k Ho ltac:(lia)) as [Ht1 Ht2].
    pose proof (Z.mod_pos_bound off 512 ltac:(lia)) as Hmod.
    set (m := Z.min k (BSIZE - off mod BSIZE)) in *. set (x := take (Z.to_nat m) src).
    assert (Hm0 : 0 < m <= k) by (unfold m; change BSIZE with 512; lia).
    assert (Hxl : Z.of_nat (length x) = m) by (unfold x; rewrite length_take; lia).
    assert (Hxin : off mod BSIZE + Z.of_nat (length x) <= BSIZE) by (rewrite Hxl; unfold m; lia).
    assert (0 <= off / BSIZE /\ off / BSIZE * BSIZE < lim) as [Hb1 Hb2].
    { apply (chunk_bn V ip lim off x); (done || lia). }
    destruct (mp_block _ _ _ _ Hm _ Hb1 Hb2) as [Hb Hlen].
    wp_call (bmap_mapped s V L i ip lim (off / BSIZE) R); try done; [lia|].
    intros ? s1 (-> & R1 & S1 & I1). pose proof S1 as (Hh1 & Hr1 & _). apply wp_bind.
    eapply wp_fbread; [exact R1|lia|done|right; rewrite map_size_empty; lia|].
    intros h s2 Hh R2 S2 I2. apply wp_bind. eapply wp_fdata; [exact R2|by rewrite lookup_insert_eq|].
    cbv zeta. fold k m x. eapply wp_ffill_log; [exact R2|by rewrite lookup_insert_eq| | |].
    - destruct S2 as (_ & -> & _). lia.
    - rewrite map_size_insert_None, map_size_empty by done. lia.
    - rewrite insert_insert_eq. intros s3 R3 S3 I3. apply wp_bind.
      eapply wp_fbrelse; [exact R3|done|apply vset_eq|]. intros s4 R4 S4 I4.
      assert (S14 : fs_stay s s4) by (by transitivity s1; [|transitivity s2; [|transitivity s3]]).
      pose proof S14 as (Hh4 & Hr4 & _). rewrite !u32_id by (unfold is_u32; lia).
      set (b := blockof V ip (off / BSIZE)) in *.
      set (V1 := vset V b (splice (Z.to_nat (off mod BSIZE)) x (V b))) in *.
      pose proof (length_log_add b L) as HlL.
      assert (Hk' : n - (tot + m) = k - m) by lia.
      wp_call (IH s4 V1 (log_add b L)); rewrite ?Hk', ?Hh4, ?Hr4; try done; try lia.
      + congruence.
      + by apply chunk_mapped; try lia.
      + rewrite length_drop, Hsrc. lia.
      + intros r s5 (-> & V' & L' & R5 & M5 & F5 & O5 & HL5 & W5 & S5 & I5).
        split; [lia|]. exists V', L'. split_and!; try done; try lia.
        * intros j Hj. rewrite F5 by done. unfold V1, b. rewrite chunk_byte with (lim := lim) (home := ll_home (fs_log s)) by (done || lia).
          rewrite Hxl. destruct (decide (off <= j < off + k)) as [Hin|Hout].
          -- destruct (decide (off <= j < off + m)) as [Hc|Hc].
             ++ rewrite decide_False by lia. unfold x. by rewrite lookup_take_lt by lia.
             ++ rewrite decide_True by lia. rewrite lookup_drop. do 2 f_equal. lia.
          -- rewrite !decide_False by lia. done.
        * intros y Hy. rewrite O5.
          -- unfold V1. rewrite vset_ne; [done|]. by apply Hy.
          -- intros bn Hbn Hbl. unfold V1, b. rewrite (chunk_blockof V ip (ll_home (fs_log s)) lim) by (done || lia).
             by apply Hy.
        * intros y [Hy|(bn & Hbn & Hbl & ->)]%W5.
          -- apply elem_of_log_add in Hy as [Hy|Hy]; [by left|]. subst y. right. by exists (off / BSIZE).
          -- right. exists bn. split_and!; [done|done|]. unfold V1, b.
             by rewrite (chunk_blockof V ip (ll_home (fs_log s)) lim) by (done || lia).
        * by transitivity s4.
        * congruence.
  Qed.

Definition written_size (ip : inode) (off n : Z) : inode :=
    if (n >? 0) && (off + n >? i_size ip) then set_isize (off + n) ip else ip.

Lemma writei_run devsw s V L i ip off n src lim :
    let blk := IBLOCK (i_inum ip) in
    fs_rel s V ∅ L -> ic_inodes s !! i = Some ip -> i_dev ip = 1 -> i_type ip <> T_DEV ->
    mapped V ip (ll_home (fs_log s)) lim -> apart V ip lim ->
    0 <= blk < ll_home (fs_log s) -> blk < 2 ^ 32 ->
    0 <= off <= i_size ip -> 0 <= n -> off + n <= lim -> length src = Z.to_nat n ->
    Z.of_nat (length L) + touched off n + 1 <= Z.of_nat (ll_room (fs_log s)) ->
    Z.of_nat (length L) + touched off n + 1 < Z.of_nat NBUF ->
    wp (writei devsw i src off n) (fun r s' => r = n /\ exists V' L',
      fs_rel s' V' ∅ L' /\ fs_stay s s' /\
      ic_inodes s' = <[i := written_size ip off n]> (ic_inodes s) /\
      mapped V' (written_size ip off n) (ll_home (fs_log s)) lim /\
      (forall j, 0 <= j < lim -> file_byte V' (written_size ip off n) j =
         if decide (off <= j < off + n) then default 0 (src !! Z.to_nat (j - off)) else file_byte V ip j) /\
      (forall x, x <> blk -> (forall bn, 0 <= bn -> bn * BSIZE < lim -> x <> blockof V ip bn) -> V' x = V x) /\
      Z.of_nat (length L') <= Z.of_nat (length L) + touched off n + 1 /\
      (forall x, x ∈ L' -> x ∈ L \/ x = blk \/ exists bn, 0 <= bn /\ bn * BSIZE < lim /\ x = blockof V ip bn)) s.
  Proof.
    intros blk R Hi Hdev Hty Hm [Ha1 Ha2] Hblk Hw Hoff Hn0 Hlim Hsrc Hroom Hn.
    pose proof (mp_max _ _ _ _ Hm) as Hmax. pose proof (lookup_lt_Some _ _ _ Hi) as Hlt.
    change (MAXFILE * BSIZE) with 71680 in Hmax.
    unfold writei. apply wp_bind. eapply wp_getip; [exact Hi|].
    destruct (i_type ip =? T_DEV) eqn:E; [lia|]. rewrite u32_id by (unfold is_u32; lia).
    destruct ((off >? i_size ip) || (off + n <? off)) eqn:E2; [lia|].
    change (MAXFILE * BSIZE) with 71680. destruct (off + n >? 71680) eqn:E3; [lia|].
    apply wp_bind. wp_call (writei_loop_run i ip n lim (S (Z.to_nat n)) s V L 0 off src);
      rewrite ?Z.sub_0_r; try done; try lia.
    intros r s1 (-> & V1 & L1 & R1 & M1 & F1 & O1 & HL1 & W1 & S1 & I1). pose proof S1 as (Hh1 & Hr1 & _).
    apply wp_bind. eapply wp_getip; [by rewrite I1|]. unfold written_size. apply wp_bind.
    destruct ((n >? 0) && (off + n >? i_size ip)) eqn:Eg.
    2:{ apply wp_ret, wp_ret. split; [apply s32_id; unfold is_s32; lia|]. exists V1, L1.
        split_and!; try done; [|auto|lia|by intros x [?|?]%W1; auto]. rewrite I1. by rewrite list_insert_id. }
    apply wp_bind. eapply wp_updip; [exact R1|]. intros s2 R2 S2 I2.
    rewrite I1, (alter_insert _ _ _ _ Hi) in I2.
    pose proof S2 as (Hh2 & Hr2 & _). pose proof (length_log_add blk L1).
    set (ip' := set_isize (off + n) ip) in *.
    wp_call (iupdate_run s2 V1 ∅ L1 i ip' R2); rewrite ?map_size_empty; cbn [i_inum i_dev ip' set_isize];
      fold blk; try done; try lia.
    { by rewrite I2, list_lookup_insert_eq. }
    intros _ s3 (R3 & S3 & I3). apply wp_ret. split; [apply s32_id; unfold is_s32; lia|].
    set (V3 := vset V1 blk (dinode_put (dinode_off (i_inum ip)) ip' (V1 blk))) in *.
    assert (HV : forall bn, 0 <= bn -> bn * BSIZE < lim -> blockof V1 ip bn = blockof V ip bn).
    { apply frame_blockof. intros Hl. apply O1. intros bn H0 Hbl. apply not_eq_sym.
      by apply (mp_data _ _ _ _ Hm). }
    assert (HV3 : forall bn, 0 <= bn -> bn * BSIZE < lim -> V3 (blockof V1 ip bn) = V1 (blockof V1 ip bn)).
    { intros bn H0 Hbl. unfold V3. apply vset_ne. rewrite HV by done. by apply Ha1. }
    assert (HV4 : NDIRECT * BSIZE < lim -> V3 (addr_of ip 12) = V1 (addr_of ip 12)).
    { intros _. unfold V3. by apply vset_ne. }
    exists V3, (log_add blk L1). split_and!; try done; try lia.
    - by transitivity s1; [|transitivity s2].
    - congruence.
    - apply mapped_size. by eapply frame_mapped.
    - intros j Hj. change (file_byte V3 ip' j) with (file_byte V3 ip j).
      rewrite (frame_byte V1 V3 ip lim) by done. by apply F1.
    - intros x Hx Hbn. unfold V3. rewrite vset_ne by done. by apply O1.
    - intros x [[?|?]%W1| ->]%elem_of_log_add; auto.
  Qed.
End data.

Lemma mapped_mono V ip home lim lim' : lim' <= lim -> mapped V ip home lim -> mapped V ip home lim'.
Proof.
  intros Hle [M1 M2 M3 M4 M5 M6]. split.
  - done.
  - lia.
  - intros. apply M3; lia.
  - intros. apply M4. lia.
  - intros. apply M5; (done || lia).
  - intros. apply M6; lia.
Qed.

Lemma file_bytes_eq V ip off (src : list Z) :
  (forall k, (k < length src)%nat -> file_byte V ip (off + Z.of_nat k) = default 0 (src !! k)) ->
  file_bytes V ip off (length src) = src.
Proof.
  intros Hk. apply list_eq. intros j. unfold file_bytes. rewrite list_lookup_fmap.
  destruct (decide (j < length src)%nat) as [Hj|Hj].
  - rewrite lookup_seq_lt by done. simpl. rewrite Hk by done.
    by destruct (lookup_lt_is_Some_2 src j Hj) as [x ->].
  - rewrite lookup_seq_ge by lia. symmetry. apply lookup_ge_None. lia.
Qed.

Section specs.
  Context {St : Type} {LO : LogOps St} {LL : LogLaws St} (devsw : Z -> @devops St).
  Implicit Types (s : fs St).

  (** [readi] of a file returns the bytes of the file from [off] on, cut
      at the end of the file, whatever blocks they lie in, and changes
      nothing; with [off] past the end or an offset that wraps around it
      returns -1. *)
Theorem readi_spec s V L i ip off n :
    fs_rel s V ∅ L -> ic_inodes s !! i = Some ip -> i_dev ip = 1 -> i_type ip <> T_DEV ->
    mapped V ip (ll_home (fs_log s)) (i_size ip) -> (length L < NBUF)%nat ->
    is_u32 off -> is_u32 n ->
    if (off >? i_size ip) || (u32 (off + n) <? off)
    then readi devsw i off n s = Ok (-1, []) s
    else exists s', let k := Z.min n (i_size ip - off) in
      readi devsw i off n s = Ok (k, file_bytes V ip off (Z.to_nat k)) s' /\
      fs_rel s' V ∅ L /\ ic_inodes s' = ic_inodes s.
  Proof.
    intros R Hi Hdev Hty Hm Hn Ho Hn32. unfold is_u32 in *.
    destruct ((off >? i_size ip) || (u32 (off + n) <? off)) eqn:E.
    - unfold readi. erewrite bind_ok by (by apply getip_run).
      destruct (i_type ip =? T_DEV) eqn:E2; [lia|]. by rewrite E.
    - assert (Hw : off + n < 2 ^ 32).
      { destruct (decide (off + n < 2 ^ 32)); [done|]. exfalso.
        assert (u32 (off + n) = off + n - 2 ^ 32) as Hu.
        { unfold u32. symmetry. apply (Z.mod_unique _ _ 1); lia. }
        rewrite Hu in E. lia. }
      destruct (wp_outcome _ _ _ (readi_run devsw s V L i ip off n R Hi Hdev Hty Hm Hn ltac:(lia) ltac:(lia) Hw))
        as (r & s' & Hs & -> & R' & _ & I').
      by exists s'.
  Qed.

  (** [writei] over blocks the file has: it returns [n], the file's bytes
      from [off] to [off + n] become [src], every other byte of the file and
      every sector that is neither one of the file's blocks nor its inode's
      block stays, and the size grows to [off + n] when that is larger. A
      write past the end, one that wraps around and one beyond the largest
      file return -1 and change nothing. *)
Theorem writei_spec s V L i ip off n src lim :
    let blk := IBLOCK (i_inum ip) in
    fs_rel s V ∅ L -> ic_inodes s !! i = Some ip -> i_dev ip = 1 -> i_type ip <> T_DEV ->
    mapped V ip (ll_home (fs_log s)) lim -> apart V ip lim ->
    0 <= blk < ll_home (fs_log s) -> blk < 2 ^ 32 -> is_u32 off -> is_u32 n -> length src = Z.to_nat n ->
    Z.of_nat (length L) + touched off n + 1 <= Z.of_nat (ll_room (fs_log s)) ->
    Z.of_nat (length L) + touched off n + 1 < Z.of_nat NBUF ->
    (((off >? i_size ip) || (u32 (off + n) <? off) || (u32 (off + n) >? MAXFILE * BSIZE) = true ->
      writei devsw i src off n s = Ok (-1) s) /\
     (off <= i_size ip -> off + n <= lim ->
      exists s' V' L', writei devsw i src off n s = Ok n s' /\ fs_rel s' V' ∅ L' /\
        ic_inodes s' = <[i := written_size ip off n]> (ic_inodes s) /\
        (forall j, 0 <= j < lim -> file_byte V' (written_size ip off n) j =
           if decide (off <= j < off + n) then default 0 (src !! Z.to_nat (j - off)) else file_byte V ip j) /\
        (forall x, x <> blk -> (forall bn, 0 <= bn -> bn * BSIZE < lim -> x <> blockof V ip bn) -> V' x = V x))).
  Proof.
    intros blk R Hi Hdev Hty Hm Ha Hblk Hw Ho Hn32 Hsrc Hroom Hn. unfold is_u32 in *. split.
    - intros Hbad. unfold writei. erewrite bind_ok by (by apply getip_run).
      destruct (i_type ip =? T_DEV) eqn:E2; [lia|].
      destruct ((off >? i_size ip) || (u32 (off + n) <? off)) eqn:E; [done|].
      cbn [orb] in Hbad. by rewrite Hbad.
    - intros Hoff Hlim.
      destruct (wp_outcome _ _ _ (writei_run devsw s V L i ip off n src lim R Hi Hdev Hty Hm Ha Hblk Hw
        ltac:(lia) ltac:(lia) Hlim Hsrc Hroom Hn)) as (r & s' & Hs & -> & V' & L' & R' & _ & I' & _ & F' & O' & _).
      exists s', V', L'. by split_and!.
  Qed.

End specs.

(** *** A file of two blocks on the formatted disk *)
Definition ip2 : inode := Inode 1 5 1 3 2 0 0 1 700 ([100; 101] ++ replicate 11 0).
Definition fs2 : fs log := Fs open_state (Spinlock 0 "icache" None []) [ip2].
Definition no_devs : Z -> @devops log := fun _ => Devops None None.

Lemma ip2_blocks bn : 0 <= bn -> bn * BSIZE < 1024 -> bn = 0 \/ bn = 1.
Proof. change BSIZE with 512. lia. Qed.

Lemma ip2_mapped home lim : 101 < home -> lim <= 1024 -> mapped (disk_get fs_disk) ip2 home lim.
Proof.
  intros Hh Hl. apply (mapped_mono _ _ _ 1024); [done|]. split.
  - reflexivity.
  - vm_compute. congruence.
  - intros bn H0 Hb. destruct (ip2_blocks bn H0 Hb) as [->| ->]; (split; [|reflexivity]);
      [change (0 < 100 < home)|change (0 < 101 < home)]; lia.
  - intros Hx. exfalso. revert Hx. vm_compute. congruence.
  - intros b c Hb Hc Hb2 Hc2.
    destruct (ip2_blocks b Hb Hb2) as [->| ->]; destruct (ip2_blocks c Hc Hc2) as [->| ->];
      vm_compute; congruence.
  - intros bn _ _ Hx. exfalso. revert Hx. vm_compute. congruence.
Qed.

Lemma ip2_apart : apart (disk_get fs_disk) ip2 1024.
Proof.
  split; [|vm_compute; congruence]. intros bn H0 Hb.
  destruct (ip2_blocks bn H0 Hb) as [->| ->]; vm_compute; congruence.
Qed.

Lemma fs2_facts :
  fs_rel fs2 (disk_get fs_disk) ∅ [] /\ ll_home (fs_log fs2) = 1014 /\ ll_room (fs_log fs2) = 9%nat.
Proof. destruct open_state_rel as (R & Hh & Hr). split_and!; [split; [exact R|reflexivity]|exact Hh|exact Hr]. Qed.

Lemma readi_spec_witness :
  exists s', readi no_devs 0 500 50 fs2 = Ok (50, file_bytes (disk_get fs_disk) ip2 500 50) s' /\
    fs_rel s' (disk_get fs_disk) ∅ [] /\ ic_inodes s' = ic_inodes fs2.
Proof.
  destruct fs2_facts as (R & Hh & _).
  apply (readi_spec no_devs fs2 (disk_get fs_disk) [] 0 ip2 500 50 R); [reflexivity|reflexivity|discriminate| | | |].
  - rewrite Hh. apply ip2_mapped; simpl; lia.
  - unfold NBUF. simpl. lia.
  - unfold is_u32. lia.
  - unfold is_u32. lia.
Defined.

Definition src0 : list Z := replicate 300 7.

Lemma writei_spec_witness :
  (writei no_devs 0 src0 800 300 fs2 = Ok (-1) fs2) /\
  exists s' V' L', writei no_devs 0 src0 500 300 fs2 = Ok 300 s' /\ fs_rel s' V' ∅ L' /\
    ic_inodes s' = <[0%nat := written_size ip2 500 300]> (ic_inodes fs2) /\
    (forall j, 0 <= j < 1024 -> file_byte V' (written_size ip2 500 300) j =
       if decide (500 <= j < 500 + 300) then default 0 (src0 !! Z.to_nat (j - 500))
       else file_byte (disk_get fs_disk) ip2 j) /\
    (forall x, x <> 2 -> (forall bn, 0 <= bn -> bn * BSIZE < 1024 -> x <> blockof (disk_get fs_disk) ip2 bn) ->
       V' x = disk_get fs_disk x).
Proof.
  destruct fs2_facts as (R & Hh & Hr).
  assert (Hw : forall off, is_u32 off -> touched off 300 <= 2 ->
    ((off >? 700) || (u32 (off + 300) <? off) || (u32 (off + 300) >? MAXFILE * BSIZE) = true ->
      writei no_devs 0 src0 off 300 fs2 = Ok (-1) fs2) /\
     (off <= 700 -> off + 300 <= 1024 ->
      exists s' V' L', writei no_devs 0 src0 off 300 fs2 = Ok 300 s' /\ fs_rel s' V' ∅ L' /\
        ic_inodes s' = <[0%nat := written_size ip2 off 300]> (ic_inodes fs2) /\
        (forall j, 0 <= j < 1024 -> file_byte V' (written_size ip2 off 300) j =
           if decide (off <= j < off + 300) then default 0 (src0 !! Z.to_nat (j - off))
           else file_byte (disk_get fs_disk) ip2 j) /\
        (forall x, x <> 2 -> (forall bn, 0 <= bn -> bn * BSIZE < 1024 ->
           x <> blockof (disk_get fs_disk) ip2 bn) -> V' x = disk_get fs_disk x))).
  { intros off Ho Ht.
    apply (writei_spec no_devs fs2 (disk_get fs_disk) [] 0 ip2 off 300 src0 1024 R);
      [reflexivity|reflexivity|discriminate|rewrite Hh; apply ip2_mapped; lia|exact ip2_apart
      |rewrite Hh; split; [discriminate|reflexivity]|reflexivity|exact Ho|unfold is_u32; lia|reflexivity| |].
    - rewrite Hr. simpl. lia.
    - unfold NBUF. simpl. lia. }
  split.
  - apply (Hw 800); [unfold is_u32; lia|vm_compute; congruence|reflexivity].
  - apply (Hw 500); [unfold is_u32; lia|vm_compute; congruence|lia|lia].
Defined.

