(* ===== verification/Dir.v ===== *)
(** Directories and path names: namecmp, dirlookup, dirlink, skipelem, namex,
    namei and nameiparent (fs.c). *)
From stdpp Require Import base numbers list strings sets gmap.
From S2P Require Import Prelude Params Spinlock Sched Bio Cache BlockIf Log Crash Str Balloc Inode FileData.

Set Warnings "-clear-no-such-hyp".

(** A name is the characters of a field of DIRSIZ bytes: up to the first NUL,
    or all of them. *)
Fixpoint cut (l : list Z) : list Z :=
  match l with
  | [] => []
  | x :: l => if x =? 0 then [] else x :: cut l
  end.

(** *** namecmp, on two names: [strncmp] of two fields of DIRSIZ bytes. *)
Definition namecmp (s t : list Z) : Z := diff s t.

(** *** struct dirent *)
Definition de_inum (de : list Z) : Z := get16 0 de.
Definition de_name (de : list Z) : list Z := cut (slice 2 (Z.to_nat DIRSIZ) de).
Definition de_make (inum : Z) (name : list Z) : list Z := be16 inum ++ padded (Z.to_nat DIRSIZ) name.

(** *** skipelem: the rest of the path and the name it copies. *)
Fixpoint skip_slashes (path : list Z) : list Z :=
  match path with
  | c :: path' => if c =? 47 then skip_slashes path' else path
  | [] => []
  end.
Fixpoint take_elem (path : list Z) : list Z * list Z :=
  match path with
  | c :: path' => if c =? 47 then ([], path) else let (e, r) := take_elem path' in (c :: e, r)
  | [] => ([], [])
  end.
Definition skipelem (path : list Z) : option (list Z * list Z) :=
  match skip_slashes path with
  | [] => None
  | path =>
      let (s, path) := take_elem path in
      let name := if Z.of_nat (length s) >=? DIRSIZ then take (Z.to_nat DIRSIZ) s else s in
      Some (skip_slashes path, name)
  end.

Section ops.
  Context {St : Type} {LO : LogOps St} (devsw : Z -> @devops St).

  (** *** dirlookup: the entry and its offset *)
Fixpoint dirlookup_from (fuel : nat) (dp : nat) (name : list Z) (off : Z) : M (fs St) (option (nat * Z)) :=
    match fuel with
    | O => diverge
    | S fuel =>
        d <- getip dp ;;
        if negb (off <? i_size d) then ret None else
        r <- readi devsw dp off DIRENT_SIZE ;;
        if negb (fst r =? DIRENT_SIZE) then panic "dirlink read" else
        let de := snd r in
        if de_inum de =? 0 then dirlookup_from fuel dp name (u32 (off + DIRENT_SIZE)) else
        if namecmp name (de_name de) =? 0 then
          i <- iget (i_dev d) (de_inum de) ;;
          ret (Some (i, off))
        else dirlookup_from fuel dp name (u32 (off + DIRENT_SIZE))
    end.

Definition dirlookup (dp : nat) (name : list Z) : M (fs St) (option (nat * Z)) :=
    d <- getip dp ;;
    if negb (i_type d =? T_DIR) then panic "dirlookup not DIR" else
    dirlookup_from (S (Z.to_nat (i_size d))) dp name 0.

  (** *** dirlink *)
Fixpoint find_empty (fuel : nat) (dp : nat) (off : Z) : M (fs St) Z :=
    match fuel with
    | O => diverge
    | S fuel =>
        d <- getip dp ;;
        if negb (u32 off <? i_size d) then ret off else
        r <- readi devsw dp (u32 off) DIRENT_SIZE ;;
        if negb (fst r =? DIRENT_SIZE) then panic "dirlink read" else
        if de_inum (snd r) =? 0 then ret off else find_empty fuel dp (s32 (off + DIRENT_SIZE))
    end.

Definition dirlink (dp : nat) (name : list Z) (inum : Z) : M (fs St) Z :=
    r <- dirlookup dp name ;;
    match r with
    | Some (ip, _) => iput ip ;;; ret (-1)
    | None =>
        d <- getip dp ;;
        off <- find_empty (S (Z.to_nat (i_size d))) dp 0 ;;
        r <- writei devsw dp (de_make inum name) (u32 off) DIRENT_SIZE ;;
        if negb (r =? DIRENT_SIZE) then panic "dirlink" else ret 0
    end.

  (** *** namex; the name is the last element copied. *)
Fixpoint namex_walk (fuel : nat) (ip : nat) (path : list Z) (parent : bool) (name : list Z)
    : M (fs St) (option (nat * list Z)) :=
    match fuel with
    | O => diverge
    | S fuel =>
        match skipelem path with
        | None => if parent then iput ip ;;; ret None else ret (Some (ip, name))
        | Some (path, name) =>
            ilock ip ;;;
            d <- getip ip ;;
            if negb (i_type d =? T_DIR) then iunlockput ip ;;; ret None else
            if parent && bool_decide (path = []) then iunlock ip ;;; ret (Some (ip, name)) else
            r <- dirlookup ip name ;;
            match r with
            | None => iunlockput ip ;;; ret None
            | Some (next, _) => iunlockput ip ;;; namex_walk fuel next path parent name
            end
        end
    end.

Definition namex (path : list Z) (parent : bool) : M (fs St) (option (nat * list Z)) :=
    ip <- (if bool_decide (head path = Some 47) then iget ROOTDEV ROOTINO
           else
             s <- get ;;
             p <- some (cproc (b_cpu (lget (fs_log s)))) ;;
             pr <- some (b_procs (lget (fs_log s)) !! p) ;;
             cwd <- some (p_cwd pr) ;;
             idup cwd) ;;
    namex_walk (S (length path)) ip path parent [].

Definition namei (path : list Z) : M (fs St) (option nat) :=
    r <- namex path false ;; ret (fst <$> r).
Definition nameiparent (path : list Z) : M (fs St) (option (nat * list Z)) := namex path true.
End ops.

(** ** Path elements *)

(** The elements of a path: the maximal stretches without a slash. *)
Fixpoint elems_from (cur : list Z) (path : list Z) : list (list Z) :=
  match path with
  | [] => if bool_decide (cur = []) then [] else [cur]
  | c :: path =>
      if c =? 47 then (if bool_decide (cur = []) then [] else [cur]) ++ elems_from [] path
      else elems_from (cur ++ [c]) path
  end.
Definition elems (path : list Z) : list (list Z) := elems_from [] path.

Lemma elems_skip path : elems (skip_slashes path) = elems path.
Proof.
  unfold elems. induction path as [|c path IH]; simpl; [done|].
  destruct (c =? 47) eqn:E; [done|]. simpl. by rewrite E.
Qed.

Lemma elems_take path : forall cur,
  cur <> [] \/ fst (take_elem path) <> [] ->
  elems_from cur path = (cur ++ fst (take_elem path)) :: elems (snd (take_elem path)).
Proof.
  induction path as [|c path IH]; intros cur Hne; simpl in *.
  - rewrite app_nil_r. rewrite bool_decide_eq_false_2 by tauto. done.
  - destruct (c =? 47) eqn:E; simpl in *.
    + rewrite app_nil_r. rewrite bool_decide_eq_false_2 by tauto. unfold elems. simpl. by rewrite E.
    + destruct (take_elem path) as [e r] eqn:Et. simpl in *.
      rewrite (IH (cur ++ [c])) by (left; by destruct cur). by rewrite <- app_assoc.
Qed.

Lemma skip_slashes_head path c r : skip_slashes path = c :: r -> c <> 47.
Proof.
  induction path as [|d path IH]; simpl; [done|]. destruct (d =? 47) eqn:E; [apply IH|].
  intros [= -> _]. lia.
Qed.

Lemma skip_slashes_length path : (length (skip_slashes path) <= length path)%nat.
Proof. induction path as [|c path IH]; simpl; [done|]. destruct (c =? 47); simpl; lia. Qed.

Lemma take_elem_length path : (length (fst (take_elem path)) + length (snd (take_elem path)) = length path)%nat.
Proof.
  induction path as [|c path IH]; simpl; [done|]. destruct (c =? 47); simpl; [done|].
  destruct (take_elem path). simpl in *. lia.
Qed.

(** [skipelem] takes a path apart element by element: on a path with no
    element left it returns the null pointer; otherwise it copies the first
    element, cut to DIRSIZ characters, and returns what follows it, shorter
    than the path and without leading slashes, with exactly the remaining
    elements. *)
Theorem skipelem_spec (path : list Z) :
  match skipelem path with
  | None => elems path = []
  | Some (rest, name) => exists e, elems path = e :: elems rest /\ e <> [] /\
      name = take (Z.to_nat DIRSIZ) e /\ head rest <> Some 47 /\ (length rest < length path)%nat
  end.
Proof.
  unfold skipelem. rewrite <- elems_skip. pose proof (skip_slashes_length path) as Hlen.
  destruct (skip_slashes path) as [|c p] eqn:Es; [done|].
  pose proof (skip_slashes_head _ _ _ Es) as Hc.
  assert (Hne : fst (take_elem (c :: p)) <> []).
  { simpl. destruct (c =? 47) eqn:E; [lia|]. by destruct (take_elem p). }
  pose proof (elems_take (c :: p) [] (or_intror Hne)) as He.
  pose proof (take_elem_length (c :: p)) as Hl.
  destruct (take_elem (c :: p)) as [e r] eqn:Et. cbn [fst snd] in *. exists e. split_and!.
  - rewrite elems_skip. exact He.
  - done.
  - change DIRSIZ with 14. destruct (Z.of_nat (length e) >=? 14) eqn:E; [done|].
    rewrite take_ge; [done|]. lia.
  - destruct (skip_slashes r) as [|d q] eqn:Er; [done|]. simpl.
    apply skip_slashes_head in Er. congruence.
  - pose proof (skip_slashes_length r). destruct e; [done|]. simpl in Hl. simpl in Hlen. lia.
Qed.

Lemma skipelem_spec_witness :
  skipelem [47; 47; 97; 47; 47; 98; 98] = Some ([98; 98], [97]) /\
  skipelem [47; 47] = None.
Proof. split; reflexivity. Defined.

(** ** Directory entries *)

(** Entry [k] of a directory: its sixteen bytes. *)
Definition entry (V : Z -> list Z) (ip : inode) (k : Z) : list Z :=
  file_bytes V ip (DIRENT_SIZE * k) (Z.to_nat DIRENT_SIZE).

(** The entry is in use and has that name. *)
Definition hit (V : Z -> list Z) (ip : inode) (name : list Z) (k : Z) : bool :=
  negb (de_inum (entry V ip k) =? 0) && (namecmp name (de_name (entry V ip k)) =? 0).

(** [namecmp] is [strncmp] of the fields that hold the names. *)
Lemma namecmp_strncmp (m : mem) (p q : nat) (s t : list Z) :
  field m p (Z.to_nat DIRSIZ) s -> field m q (Z.to_nat DIRSIZ) t ->
  Kstr.strncmp p q (Z.to_nat DIRSIZ) m = Ok (namecmp s t) m.
Proof. apply strncmp_run. Qed.

Lemma cut_padded n s : Forall is_char s -> cut (padded n s) = s.
Proof.
  intros HF. unfold padded. generalize (n - length s)%nat. intros k.
  induction HF as [|x s Hx HF IH]; simpl; [by destruct k|].
  rewrite char_nz by done. by f_equal.
Qed.

(** Reading an entry back. *)
Lemma de_make_inum inum name : is_u16 inum -> de_inum (de_make inum name) = inum.
Proof. intros Hi. unfold de_inum, get16, de_make. change (slice 0 2 _) with (be16 inum). rewrite be_val_be16. by apply u16_id. Qed.

Lemma de_make_name inum name :
  Forall is_char name -> (length name <= 14)%nat -> de_name (de_make inum name) = name.
Proof.
  intros Hc Hl. unfold de_name, de_make, slice. change (Z.to_nat DIRSIZ) with 14%nat.
  change (drop 2 (be16 inum ++ padded 14 name)) with (padded 14 name).
  rewrite take_ge by (rewrite length_padded by done; lia). by apply cut_padded.
Qed.

Lemma length_de_make inum name : (length name <= 14)%nat -> length (de_make inum name) = 16%nat.
Proof.
  intros Hl. unfold de_make. rewrite length_app. change (Z.to_nat DIRSIZ) with 14%nat.
  rewrite length_padded by done. done.
Qed.

Lemma namecmp_refl s : namecmp s s = 0.
Proof. unfold namecmp. induction s as [|x s IH]; simpl; [done|]. by rewrite Z.eqb_refl. Qed.

Section dir.
  Context {St : Type} {LO : LogOps St} {LL : LogLaws St} (devsw : Z -> @devops St).
  Implicit Types (s : fs St).

  (** A directory in the cache, its blocks in place. *)
Record dir_ok s (V : Z -> list Z) (L : list Z) (dp : nat) (d : inode) (n : Z) : Prop := {
    do_rel : fs_rel s V ∅ L;
    do_ip : ic_inodes s !! dp = Some d;
    do_dev : i_dev d = 1;
    do_type : i_type d = T_DIR;
    do_size : i_size d = DIRENT_SIZE * n;
    do_n : 0 <= n;
    do_map : mapped V d (ll_home (fs_log s)) (i_size d);
    do_room : (length L < NBUF)%nat;
  }.

Lemma dir_ok_keep s s' V L dp d n :
    dir_ok s V L dp d n -> fs_rel s' V ∅ L -> fs_stay s s' -> ic_inodes s' = ic_inodes s ->
    dir_ok s' V L dp d n.
  Proof. intros [] R' (Hh & _) I'. split; try done; congruence. Qed.

  (** Reading one entry. *)
Lemma read_entry s V L dp d n k (Q : Z * list Z -> fs St -> Prop) :
    dir_ok s V L dp d n -> 0 <= k < n ->
    (forall s', dir_ok s' V L dp d n -> fs_stay s s' -> ic_inodes s' = ic_inodes s ->
       Q (DIRENT_SIZE, entry V d k) s') ->
    wp (readi devsw dp (DIRENT_SIZE * k) DIRENT_SIZE) Q s.
  Proof.
    intros D Hk HQ. pose proof D as [R Hi Hdev Hty Hsz Hn Hm Hroom].
    pose proof (mp_max _ _ _ _ Hm) as Hmax. change (MAXFILE * BSIZE) with 71680 in Hmax.
    change DIRENT_SIZE with 16 in *.
    wp_call (readi_run devsw s V L dp d (16 * k) 16 R Hi Hdev); try done; try lia.
    { rewrite Hty. done. }
    intros r s' (-> & R' & S' & I'). replace (Z.min 16 (i_size d - 16 * k)) with 16 by lia.
    apply HQ; [by eapply dir_ok_keep|done|done].
  Qed.

Lemma read_entry_run s V L dp d n k :
    dir_ok s V L dp d n -> 0 <= k < n ->
    exists s', readi devsw dp (DIRENT_SIZE * k) DIRENT_SIZE s = Ok (DIRENT_SIZE, entry V d k) s' /\
      dir_ok s' V L dp d n /\ fs_stay s s' /\ ic_inodes s' = ic_inodes s.
  Proof.
    intros D Hk. assert (Hw : wp (readi devsw dp (DIRENT_SIZE * k) DIRENT_SIZE) (fun r s' =>
      r = (DIRENT_SIZE, entry V d k) /\ dir_ok s' V L dp d n /\ fs_stay s s' /\
      ic_inodes s' = ic_inodes s) s) by (eapply read_entry; [exact D|done|]; by intros; split_and!).
    apply wp_outcome in Hw as (r & s' & Hs & -> & ?). by exists s'.
  Qed.

Lemma dirlookup_from_run V L dp d n name : forall fuel s k,
    dir_ok s V L dp d n -> 0 <= k <= n -> n - k < Z.of_nat fuel ->
    exists s', dir_ok s' V L dp d n /\ fs_stay s s' /\ ic_inodes s' = ic_inodes s /\
      (((forall j, k <= j < n -> hit V d name j = false) /\
        dirlookup_from devsw fuel dp name (DIRENT_SIZE * k) s = Ok None s') \/
       (exists j, k <= j < n /\ hit V d name j = true /\ (forall i, k <= i < j -> hit V d name i = false) /\
        dirlookup_from devsw fuel dp name (DIRENT_SIZE * k) s =
          (i <- iget 1 (de_inum (entry V d j)) ;; ret (Some (i, DIRENT_SIZE * j))) s')).
  Proof.
    induction fuel as [|fuel IH]; intros s k D Hk Hf; [lia|].
    pose proof D as [R Hi Hdev Hty Hsz Hn Hm Hroom].
    pose proof (mp_max _ _ _ _ Hm) as Hmax. change (MAXFILE * BSIZE) with 71680 in Hmax.
    cbn [dirlookup_from]. change DIRENT_SIZE with 16 in *.
    rewrite (bind_ok _ _ _ _ _ (getip_run _ _ _ Hi)). rewrite Hsz.
    destruct (16 * k <? 16 * n) eqn:E; cbn [negb].
    2:{ exists s. split_and!; try done. left. split; [intros; lia|done]. }
    destruct (read_entry_run s V L dp d n k D ltac:(lia)) as (s1 & Hs1 & D1 & S1 & I1).
    change DIRENT_SIZE with 16 in Hs1.
    rewrite (bind_ok _ _ _ _ _ Hs1). cbn [fst snd]. change (16 =? 16) with true. cbn [negb].
    rewrite u32_id by (unfold is_u32; lia). replace (16 * k + 16) with (16 * (k + 1)) by lia.
    assert (Hnext : hit V d name k = false -> exists s', dir_ok s' V L dp d n /\ fs_stay s s' /\
      ic_inodes s' = ic_inodes s /\
      (((forall j, k <= j < n -> hit V d name j = false) /\
        dirlookup_from devsw fuel dp name (16 * (k + 1)) s1 = Ok None s') \/
       (exists j, k <= j < n /\ hit V d name j = true /\ (forall i, k <= i < j -> hit V d name i = false) /\
        dirlookup_from devsw fuel dp name (16 * (k + 1)) s1 =
          (i <- iget 1 (de_inum (entry V d j)) ;; ret (Some (i, 16 * j))) s'))).
    { intros Hmiss. destruct (IH s1 (k + 1) D1 ltac:(lia) ltac:(lia)) as (s2 & D2 & S2 & I2 & Hr).
      exists s2. split_and!; [done|by transitivity s1|congruence|]. destruct Hr as [[Hall Hd]|(j & Hj & Hh & Hmin & Hd)].
      - left. split; [|done]. intros j Hj. destruct (decide (j = k)) as [->|]; [done|]. apply Hall. lia.
      - right. exists j. split_and!; try done; try lia. intros i Hi'.
        destruct (decide (i = k)) as [->|]; [done|]. apply Hmin. lia. }
    unfold hit in Hnext at 1. destruct (de_inum (entry V d k) =? 0) eqn:E1; cbn [negb andb] in *; [by apply Hnext|].
    destruct (namecmp name (de_name (entry V d k)) =? 0) eqn:E2; [|by apply Hnext].
    exists s1. split_and!; try done. right. exists k. rewrite Hdev. split_and!; try done; try lia.
    unfold hit. by rewrite E1, E2.
  Qed.

Lemma dirlookup_run V L dp d n name s :
    dir_ok s V L dp d n ->
    exists s', dir_ok s' V L dp d n /\ fs_stay s s' /\ ic_inodes s' = ic_inodes s /\
      (((forall j, 0 <= j < n -> hit V d name j = false) /\ dirlookup devsw dp name s = Ok None s') \/
       (exists j, 0 <= j < n /\ hit V d name j = true /\ (forall i, 0 <= i < j -> hit V d name i = false) /\
        dirlookup devsw dp name s =
          (i <- iget 1 (de_inum (entry V d j)) ;; ret (Some (i, DIRENT_SIZE * j))) s')).
  Proof.
    intros D. pose proof D as [R Hi Hdev Hty Hsz Hn Hm Hroom].
    unfold dirlookup. rewrite (bind_ok _ _ _ _ _ (getip_run _ _ _ Hi)), Hty.
    change (T_DIR =? T_DIR) with true. cbn [negb]. change 0 with (DIRENT_SIZE * 0) at 2 4.
    apply dirlookup_from_run; [done|lia|]. change DIRENT_SIZE with 16 in Hsz. lia.
  Qed.

  (** [dirlookup] finds a name exactly when the directory has it: it
      returns the inode of the first entry in use with that name, with one
      reference more, and the entry's offset; with no such entry it returns
      the null pointer. Neither changes the directory or the disk. *)
Theorem dirlookup_spec s V L dp d n name :
    dir_ok s V L dp d n ->
    exists s', fs_rel s' V ∅ L /\ ic_inodes s' = ic_inodes s /\
      (((forall j, 0 <= j < n -> hit V d name j = false) /\ dirlookup devsw dp name s = Ok None s') \/
       (exists j, 0 <= j < n /\ hit V d name j = true /\ (forall i, 0 <= i < j -> hit V d name i = false) /\
        dirlookup devsw dp name s =
          (i <- iget 1 (de_inum (entry V d j)) ;; ret (Some (i, DIRENT_SIZE * j))) s')).
  Proof.
    intros D. destruct (dirlookup_run V L dp d n name s D) as (s' & D' & _ & I' & Hr).
    exists s'. split_and!; [apply D'|done|done].
  Qed.

Lemma find_empty_run V L dp d n : forall fuel s k,
    dir_ok s V L dp d n -> 0 <= k <= n -> n - k < Z.of_nat fuel ->
    (forall j, 0 <= j < k -> de_inum (entry V d j) <> 0) ->
    exists s' j, dir_ok s' V L dp d n /\ fs_stay s s' /\ ic_inodes s' = ic_inodes s /\
      find_empty devsw fuel dp (DIRENT_SIZE * k) s = Ok (DIRENT_SIZE * j) s' /\
      k <= j <= n /\ (forall i, 0 <= i < j -> de_inum (entry V d i) <> 0) /\
      (j < n -> de_inum (entry V d j) = 0).
  Proof.
    induction fuel as [|fuel IH]; intros s k D Hk Hf Hbusy; [lia|].
    pose proof D as [R Hi Hdev Hty Hsz Hn Hm Hroom].
    pose proof (mp_max _ _ _ _ Hm) as Hmax. change (MAXFILE * BSIZE) with 71680 in Hmax.
    cbn [find_empty]. change DIRENT_SIZE with 16 in *.
    rewrite (bind_ok _ _ _ _ _ (getip_run _ _ _ Hi)). rewrite Hsz. rewrite u32_id by (unfold is_u32; lia).
    destruct (16 * k <? 16 * n) eqn:E; cbn [negb].
    2:{ exists s, k. split_and!; try done; lia. }
    destruct (read_entry_run s V L dp d n k D ltac:(lia)) as (s1 & Hs1 & D1 & S1 & I1).
    change DIRENT_SIZE with 16 in Hs1.
    rewrite (bind_ok _ _ _ _ _ Hs1). cbn [fst snd]. change (16 =? 16) with true. cbn [negb].
    destruct (de_inum (entry V d k) =? 0) eqn:E1.
    - exists s1, k. split_and!; try done; lia.
    - rewrite s32_id by (unfold is_s32; lia). replace (16 * k + 16) with (16 * (k + 1)) by lia.
      destruct (IH s1 (k + 1) D1 ltac:(lia) ltac:(lia)) as (s2 & j & D2 & S2 & I2 & Hr & Hj & Hb & He).
      { intros j Hj. destruct (decide (j = k)) as [->|]; [lia|]. apply Hbusy. lia. }
      exists s2, j. split_and!; try done; try lia; [by transitivity s1|congruence].
  Qed.

Lemma touched_entry j : 0 <= j -> touched (DIRENT_SIZE * j) DIRENT_SIZE = 1.
  Proof.
    intros Hj. unfold touched. change DIRENT_SIZE with 16. change BSIZE with 512. change (16 =? 0) with false.
    cbv iota. assert (16 * j mod 512 = 16 * (j mod 32)) as ->.
    { rewrite <- Z.mul_mod_distr_l by lia. done. }
    pose proof (Z.mod_pos_bound j 32 ltac:(lia)). symmetry.
    apply (Z.div_unique _ _ _ (16 * (j mod 32) + 15)); lia.
  Qed.

Lemma file_bytes_ext V V' ip ip' off n :
    (forall k, (k < n)%nat -> file_byte V' ip' (off + Z.of_nat k) = file_byte V ip (off + Z.of_nat k)) ->
    file_bytes V' ip' off n = file_bytes V ip off n.
  Proof.
    intros Hk. apply list_fmap_ext. intros i k Hi. apply lookup_seq in Hi as [-> Hi]. by apply Hk.
  Qed.

  (** What [dirlink] does when the name is not there yet. *)
Lemma dirlink_run s V L dp d n name inum :
    let blk := IBLOCK (i_inum d) in
    let lim := DIRENT_SIZE * (n + 1) in
    dir_ok s V L dp d n -> mapped V d (ll_home (fs_log s)) lim -> apart V d lim ->
    0 <= blk < ll_home (fs_log s) -> blk < 2 ^ 32 ->
    Forall is_char name -> (length name <= 14)%nat -> is_u16 inum ->
    (forall j, 0 <= j < n -> hit V d name j = false) ->
    (length L + 2 <= ll_room (fs_log s))%nat -> (length L + 3 < NBUF)%nat ->
    exists s' V' L' d' n' j, dirlink devsw dp name inum s = Ok 0 s' /\ dir_ok s' V' L' dp d' n' /\
      0 <= j < n' /\ n' = Z.max n (j + 1) /\ j <= n /\ (j < n -> de_inum (entry V d j) = 0) /\
      entry V' d' j = de_make inum name /\
      (forall k, 0 <= k < n -> k <> j -> entry V' d' k = entry V d k).
  Proof.
    intros blk lim D Hm Ha Hblk Hw Hc Hlen Hi Hmiss Hroom Hn.
    pose proof (do_ip _ _ _ _ _ _ D) as Hd. pose proof (do_size _ _ _ _ _ _ D) as Hsz.
    pose proof (do_n _ _ _ _ _ _ D) as Hn0.
    pose proof (mp_max _ _ _ _ Hm) as Hmax. change (MAXFILE * BSIZE) with 71680 in Hmax.
    unfold lim in *. change DIRENT_SIZE with 16 in *.
    destruct (dirlookup_run V L dp d n name s D) as (s1 & D1 & S1 & I1 & [[_ Hl]|(j & Hj & Hh & _)]);
      [|by rewrite Hmiss in Hh].
    unfold dirlink. rewrite (bind_ok _ _ _ _ _ Hl).
    rewrite (bind_ok _ _ _ _ _ (getip_run _ _ _ (do_ip _ _ _ _ _ _ D1))).
    destruct (find_empty_run V L dp d n (S (Z.to_nat (i_size d))) s1 0 D1) as (s2 & j & D2 & S2 & I2 & Hf & Hj & _ & He);
      [lia|lia|intros; lia|].
    change (DIRENT_SIZE * 0) with 0 in Hf. rewrite (bind_ok _ _ _ _ _ Hf). change DIRENT_SIZE with 16 in *.
    rewrite u32_id by (unfold is_u32; lia).
    assert (S12 : fs_stay s s2) by (by transitivity s1). pose proof S12 as (Hh2 & Hr2 & _).
    pose proof (touched_entry j ltac:(lia)) as Htj. change DIRENT_SIZE with 16 in Htj.
    destruct (wp_outcome _ _ _ (writei_run devsw s2 V L dp d (16 * j) 16 (de_make inum name) (16 * (n + 1))
      (do_rel _ _ _ _ _ _ D2) (do_ip _ _ _ _ _ _ D2) (do_dev _ _ _ _ _ _ D2)
      ltac:(rewrite (do_type _ _ _ _ _ _ D2); done) ltac:(by rewrite Hh2) Ha ltac:(by rewrite Hh2) Hw
      ltac:(lia) ltac:(lia) ltac:(lia) ltac:(by rewrite length_de_make) ltac:(lia) ltac:(lia)))
      as (r & s3 & Hs3 & -> & V' & L' & R3 & S3 & I3 & M3 & F3 & _ & HL3 & _).
    rewrite (bind_ok _ _ _ _ _ Hs3). change (16 =? 16) with true. cbn [negb].
    set (d' := written_size d (16 * j) 16) in *.
    assert (Hd' : i_dev d' = 1 /\ i_type d' = T_DIR /\ i_size d' = 16 * Z.max n (j + 1)).
    { unfold d', written_size. change (16 >? 0) with true. cbn [andb].
      destruct (16 * j + 16 >? i_size d) eqn:Eg; cbn [set_isize i_dev i_type i_size];
        (split_and!; [apply D|apply D|lia]). }
    destruct Hd' as (Hdv & Hdt & Hds).
    assert (S13 : fs_stay s s3) by (by transitivity s2). pose proof S13 as (Hh3 & _).
    exists s3, V', L', d', (Z.max n (j + 1)), j. split_and!; try done; try lia.
    - split; try done; try lia.
      + rewrite I3. apply list_lookup_insert_eq. eapply lookup_lt_Some. apply D2.
      + rewrite Hh3. rewrite Hh2 in M3. eapply mapped_mono; [|exact M3]. lia.
    - unfold entry. change DIRENT_SIZE with 16. change (Z.to_nat 16) with 16%nat.
      rewrite <- (length_de_make inum name) at 1 by done. apply file_bytes_eq.
      rewrite length_de_make by done. intros k Hk. rewrite F3 by lia. rewrite decide_True by lia.
      do 2 f_equal. lia.
    - intros k Hk Hkj. unfold entry. change DIRENT_SIZE with 16. apply file_bytes_ext.
      change (Z.to_nat 16) with 16%nat. intros b Hb. rewrite F3 by lia. by rewrite decide_False by lia.
  Qed.

End dir.

(** *** A directory of two free entries on the formatted disk *)
Definition ipd : inode := Inode 1 1 1 3 1 0 0 1 32 ([100] ++ replicate 12 0).
Definition fs3 : fs log := Fs open_state (Spinlock 0 "icache" None []) [ipd].

Lemma ipd_blocks bn : 0 <= bn -> bn * BSIZE < 48 -> bn = 0.
Proof. change BSIZE with 512. lia. Qed.

Lemma ipd_mapped home lim : 100 < home -> lim <= 48 -> mapped (disk_get fs_disk) ipd home lim.
Proof.
  intros Hh Hl. apply (mapped_mono _ _ _ 48); [done|]. split.
  - reflexivity.
  - vm_compute. congruence.
  - intros bn H0 Hb. rewrite (ipd_blocks bn H0 Hb). split; [change (0 < 100 < home); lia|reflexivity].
  - intros Hx. exfalso. revert Hx. vm_compute. congruence.
  - intros b c Hb Hc Hb2 Hc2 _. by rewrite (ipd_blocks b Hb Hb2), (ipd_blocks c Hc Hc2).
  - intros bn _ _ Hx. exfalso. revert Hx. vm_compute. congruence.
Qed.

Lemma fs3_dir : dir_ok fs3 (disk_get fs_disk) [] 0 ipd 2 /\
  ll_home (fs_log fs3) = 1014 /\ ll_room (fs_log fs3) = 9%nat.
Proof.
  destruct open_state_rel as (R & Hh & Hr). split; [|split; [exact Hh|exact Hr]].
  split; [split; [exact R|reflexivity]|reflexivity|reflexivity|reflexivity|reflexivity|lia| |unfold NBUF; simpl; lia].
  cbn [fs_log fs3]. rewrite Hh. apply ipd_mapped; simpl; lia.
Qed.

Lemma fs3_misses name j : 0 <= j < 2 -> hit (disk_get fs_disk) ipd name j = false.
Proof.
  intros Hj. unfold hit. assert (j = 0 \/ j = 1) as [->| ->] by lia.
  - replace (de_inum (entry (disk_get fs_disk) ipd 0)) with 0 by (vm_compute; reflexivity). done.
  - replace (de_inum (entry (disk_get fs_disk) ipd 1)) with 0 by (vm_compute; reflexivity). done.
Qed.

Lemma dirlookup_spec_witness :
  exists s', fs_rel s' (disk_get fs_disk) ∅ [] /\ ic_inodes s' = ic_inodes fs3 /\
    dirlookup no_devs 0 [97] fs3 = Ok None s'.
Proof.
  destruct fs3_dir as (D & _).
  destruct (dirlookup_spec no_devs fs3 (disk_get fs_disk) [] 0 ipd 2 [97] D)
    as (s' & R & I & [[_ Hn]|(j & Hj & Hh & _)]); [exact (ex_intro _ s' (conj R (conj I Hn)))|].
  rewrite (fs3_misses [97] j Hj) in Hh. discriminate.
Defined.

