(* ===== verification/Namei.v ===== *)
(** Path names: namei (fs.c) walks the tree of directories on the disk. The
    cache of inodes is seen as the references to each inode number. *)
From stdpp Require Import base numbers list strings sets gmap.
From S2P Require Import Prelude Params Spinlock Sched Bio Cache BlockIf Log Crash Trans Str Balloc Inode FileData Dir.

Set Warnings "-clear-no-such-hyp".

(** ** The cache as a map from inode numbers to reference counts *)
Definition synced (V : Z -> list Z) (ip : inode) : Prop := dinode_get (dinode_off (i_inum ip)) (V (IBLOCK (i_inum ip))) ip = ip.
Definition entry_ok (V : Z -> list Z) (lk : bool) (ip : inode) : Prop :=
  if lk then i_flags ip = 3 /\ synced V ip else i_flags ip = 0 \/ (i_flags ip = I_VALID /\ synced V ip).

Lemma synced_ref V r ip : synced V ip -> synced V (set_iref r ip).
Proof.
  unfold synced. cbn [i_inum set_iref]. intros E. change (set_iref r (dinode_get (dinode_off (i_inum ip)) (V (IBLOCK (i_inum ip))) ip) = set_iref r ip). by rewrite E.
Qed.
Lemma synced_flags V fl ip : synced V ip -> synced V (set_iflags fl ip).
Proof.
  unfold synced. cbn [i_inum set_iflags]. intros E. change (set_iflags fl (dinode_get (dinode_off (i_inum ip)) (V (IBLOCK (i_inum ip))) ip) = set_iflags fl ip). by rewrite E.
Qed.
Lemma entry_ok_ref V lk r ip : entry_ok V lk ip -> entry_ok V lk (set_iref r ip).
Proof. destruct lk; [intros [? ?]|intros [?|[? ?]]]; [split|left|right; split]; try done; by apply synced_ref. Qed.

(** [f] gives the number of references to each inode in use, of which the one
    at index [b] is locked; what is in the cache is what is on the disk. *)
Record cache (V : Z -> list Z) (f : gmap Z Z) (b : option nat) (Is : list inode) : Prop := {
  ca_pos : forall i ip, Is !! i = Some ip -> 0 <= i_ref ip;
  ca_ref : forall i ip, Is !! i = Some ip -> 0 < i_ref ip ->
    i_dev ip = 1 /\ f !! i_inum ip = Some (i_ref ip) /\ entry_ok V (bool_decide (b = Some i)) ip;
  ca_uniq : forall i j ip jp, Is !! i = Some ip -> Is !! j = Some jp -> 0 < i_ref ip -> 0 < i_ref jp -> i_inum ip = i_inum jp -> i = j;
  ca_all : forall x r, f !! x = Some r -> exists i ip, Is !! i = Some ip /\ i_ref ip = r /\ 0 < r /\ i_inum ip = x;
}.
Definition holds (Is : list inode) (i : nat) (x : Z) : Prop := exists ip, Is !! i = Some ip /\ 0 < i_ref ip /\ i_inum ip = x.

Definition bump (f : gmap Z Z) (x : Z) : gmap Z Z := <[x := default 0 (f !! x) + 1]> f.
Definition unbump (f : gmap Z Z) (x : Z) : gmap Z Z := if decide (f !! x = Some 1) then delete x f else <[x := default 0 (f !! x) - 1]> f.

(** One entry changes; it is for the inode [x] before or was not in use. *)
Lemma cache_set V f f' b b' Is i ip ip' x :
  cache V f b Is -> Is !! i = Some ip -> i_inum ip' = x -> i_dev ip' = 1 -> 0 <= i_ref ip' ->
  (0 < i_ref ip /\ i_inum ip = x) \/ (i_ref ip = 0 /\ f !! x = None) ->
  (forall y, y <> x -> f' !! y = f !! y) -> f' !! x = (if decide (i_ref ip' = 0) then None else Some (i_ref ip')) ->
  (0 < i_ref ip' -> entry_ok V (bool_decide (b' = Some i)) ip') -> (forall j, j <> i -> b' = Some j <-> b = Some j) ->
  cache V f' b' (<[i := ip']> Is).
Proof.
  intros [C1 C2 C3 C4] Hi Hx Hdev H0 Hcase Hfo Hfx He Hb. pose proof (lookup_lt_Some _ _ _ Hi) as Hlt.
  assert (Hlk : forall j jp, <[i := ip']> Is !! j = Some jp -> (j = i /\ jp = ip') \/ (j <> i /\ Is !! j = Some jp)).
  { intros j jp Hj. destruct (decide (j = i)) as [->|Hne]; [rewrite list_lookup_insert_eq in Hj by done|rewrite list_lookup_insert_ne in Hj by done]; [left; naive_solver|by right]. }
  assert (Hother : forall j jp, j <> i -> Is !! j = Some jp -> 0 < i_ref jp -> i_inum jp <> x).
  { intros j jp Hne Hj Hr Ej. destruct Hcase as [[Hr0 Hx0]|[_ Hn]].
    - apply Hne. apply (C3 j i jp ip); try done. congruence.
    - destruct (C2 j jp Hj Hr) as (_ & Hf & _). rewrite Ej in Hf. congruence. }
  split.
  - intros j jp [[-> ->]|[_ Hj]]%Hlk; [done|by eapply C1].
  - intros j jp [[-> ->]|[Hne Hj]]%Hlk Hr.
    + rewrite Hx, Hfx, decide_False by lia. split_and!; [done|done|by apply He].
    + destruct (C2 j jp Hj Hr) as (D1 & D2 & D3). rewrite Hfo by (by eapply Hother). split_and!; [done|done|].
      replace (bool_decide (b' = Some j)) with (bool_decide (b = Some j)); [done|]. apply bool_decide_ext. symmetry. by apply Hb.
  - intros j k jp kp [[-> ->]|[Hnj Hj]]%Hlk [[-> ->]|[Hnk Hk]]%Hlk Rj Rk E; [done| | |by apply (C3 j k jp kp)].
    + exfalso. apply (Hother k kp Hnk Hk Rk). congruence.
    + exfalso. apply (Hother j jp Hnj Hj Rj). congruence.
  - intros y r Hy. destruct (decide (y = x)) as [->|Hne].
    + rewrite Hfx in Hy. case_decide as Hz; [done|]. injection Hy as <-. exists i, ip'. rewrite list_lookup_insert_eq by done. split_and!; (done || lia).
    + rewrite Hfo in Hy by done. destruct (C4 y r Hy) as (j & jp & J1 & J2 & J3 & J4). exists j, jp. split_and!; try done.
      rewrite list_lookup_insert_ne; [done|]. intros <-. rewrite Hi in J1. injection J1 as <-.
      destruct Hcase as [[_ Hx0]|[Hr0 _]]; [|lia]. apply Hne. congruence.
Qed.

(** The last reference or one of several given up. *)
Lemma put_cache V f b Is i r x ip ip' :
  cache V f b Is -> Is !! i = Some ip -> 0 < i_ref ip -> i_inum ip = x -> f !! x = Some r -> 0 < r ->
  (forall j, b = Some j -> j = i) -> i_inum ip' = x -> i_dev ip' = 1 -> i_ref ip' = r - 1 -> entry_ok V false ip' ->
  cache V (unbump f x) None (<[i := ip']> Is).
Proof.
  intros C Hi Hr Hx Hf Hr0 Hb Hx' Hd' Hr' He. apply (cache_set V f _ b None Is i ip _ x); try done.
  - lia.
  - by left.
  - intros y Hy. unfold unbump. case_decide; [by apply lookup_delete_ne|by apply lookup_insert_ne].
  - unfold unbump. rewrite Hf, Hr'. cbn [default]. destruct (decide (r = 1)) as [->|Hne].
    + rewrite decide_True by done. by rewrite lookup_delete_eq.
    + rewrite (decide_False (P := Some r = Some 1)) by congruence. rewrite decide_False by lia. apply lookup_insert_eq.
  - intros j Hne. split; [done|]. intros E. by destruct Hne; apply Hb.
Qed.

(** Fewer inodes in use than entries leave one unused. *)
Lemma cache_spare V f b Is : cache V f b Is -> (size f < length Is)%nat -> exists i ip, Is !! i = Some ip /\ i_ref ip = 0.
Proof.
  intros [C1 C2 C3 C4] Hsz. destruct (decide (Forall (fun ip => 0 < i_ref ip) Is)) as [Hall|Hex].
  - exfalso. rewrite Forall_lookup in Hall. assert (Hle : (length (i_inum <$> Is) <= length (elements (dom f)))%nat).
    { apply submseteq_length, NoDup_submseteq.
      - apply NoDup_alt. intros i j x Hi Hj. rewrite list_lookup_fmap, fmap_Some in Hi, Hj.
        destruct Hi as (ip & Hi & ->), Hj as (jp & Hj & E). apply (C3 i j ip jp); eauto.
      - intros x (ip & -> & Hip)%list_elem_of_fmap. apply elem_of_elements, elem_of_dom.
        apply list_elem_of_lookup in Hip as [i Hi]. destruct (C2 i ip Hi) as (_ & -> & _); eauto. }
    rewrite length_fmap in Hle. change (length (elements (dom f))) with (size (dom f)) in Hle. rewrite size_dom in Hle. lia.
  - apply not_Forall_Exists in Hex; [|intros ?; apply _]. apply Exists_exists in Hex as (ip & Hip & Hr).
    apply list_elem_of_lookup in Hip as [i Hi]. exists i, ip. split; [done|]. pose proof (C1 i ip Hi). cbn in Hr. lia.
Qed.

Lemma size_bump f x : (size (bump f x) <= S (size f))%nat.
Proof. unfold bump. rewrite map_size_insert. destruct (f !! x); cbn; lia. Qed.
Lemma unbump_bump f x y : (forall z r, f !! z = Some r -> 0 < r) -> unbump (bump (bump f x) y) x = bump f y.
Proof.
  intros Hpos. unfold unbump, bump. destruct (decide (x = y)) as [->|Hne].
  - rewrite !lookup_insert_eq. cbn [default]. assert (0 <= default 0 (f !! y)) by (destruct (f !! y) as [r|] eqn:E; cbn; [specialize (Hpos _ _ E); lia|lia]).
    rewrite decide_False by (intros [= ?]; lia). rewrite !insert_insert_eq. f_equal. cbn. lia.
  - rewrite lookup_insert_ne, lookup_insert_eq by done. rewrite (lookup_insert_ne f x y) by done. cbn [default].
    destruct (f !! x) as [r|] eqn:E; cbn [default].
    + specialize (Hpos _ _ E). rewrite decide_False by (intros [= ?]; lia). rewrite insert_insert_ne by done. rewrite insert_insert_eq.
      f_equal. apply insert_id. rewrite E. f_equal. cbn. lia.
    + rewrite decide_True by done. rewrite delete_insert_ne by done. rewrite delete_insert_eq. by rewrite delete_id.
Qed.

(** ** The calls of the inode cache on this view *)

(** An inode as it is on the disk, and the inodes a path may lead through. *)
Definition disk_ip (V : Z -> list Z) (x : Z) : inode :=
  dinode_get (dinode_off x) (V (IBLOCK x)) (Inode 1 x 1 3 0 0 0 0 0 []).
Record good_ino (V : Z -> list Z) (h x : Z) : Prop := {
  gi_blk : 0 <= IBLOCK x < h /\ IBLOCK x < 2 ^ 32;
  gi_type : i_type (disk_ip V x) <> 0;
  gi_link : i_nlink (disk_ip V x) <> 0;
  gi_dir : i_type (disk_ip V x) = T_DIR -> exists n, 0 <= n /\ i_size (disk_ip V x) = DIRENT_SIZE * n /\ mapped V (disk_ip V x) h (i_size (disk_ip V x));
}.

Section calls.
  Context {St : Type} {LO : LogOps St} {LL : LogLaws St} (V : Z -> list Z) (L : list Z).
  Hypothesis HL : (length L < NBUF)%nat.
  Implicit Types (s : fs St).

  (** The state a call leaves: [f] and [b] describe the cache. *)
Definition cached_in s0 (f : gmap Z Z) (b : option nat) s : Prop :=
    fs_rel s V ∅ L /\ fs_stay s0 s /\ cache V f b (ic_inodes s) /\ length (ic_inodes s) = length (ic_inodes s0).

Lemma cached_trans s0 s1 s2 f f' b b' : cached_in s0 f b s1 -> cached_in s1 f' b' s2 -> cached_in s0 f' b' s2.
  Proof. intros (_ & S1 & _ & L1) (R2 & S2 & C2 & L2). split_and!; [done|by transitivity s1|done|congruence]. Qed.

Lemma ic_out_cached s i ip g f f' b b' x :
    fs_rel s V ∅ L -> cache V f b (ic_inodes s) -> ic_inodes s !! i = Some ip ->
    cache V f' b' (<[i := g ip]> (ic_inodes s)) -> i_inum (g ip) = x -> 0 < i_ref (g ip) ->
    cached_in s f' b' (ic_out (alter g i (ic_inodes s)) s) /\ holds (ic_inodes (ic_out (alter g i (ic_inodes s)) s)) i x.
  Proof.
    intros R C Hi C' Hx Hr. destruct (ic_out_rel (alter g i (ic_inodes s)) s V ∅ L R) as [R' S']. cbn [ic_out ic_inodes].
    split; [split_and!; [done|done| |apply length_alter]|]; cbn [ic_out ic_inodes]; rewrite (alter_insert _ _ _ _ Hi); [done|].
    exists (g ip). rewrite list_lookup_insert_eq by (by eapply lookup_lt_Some). done.
  Qed.

  (** A new reference; a locked inode stays locked. *)
Lemma iget_cache s f b x :
    fs_rel s V ∅ L -> cache V f b (ic_inodes s) -> (size f < length (ic_inodes s))%nat -> (forall j, b = Some j -> exists y, holds (ic_inodes s) j y) ->
    exists i s', iget 1 x s = Ok i s' /\ cached_in s (bump f x) b s' /\ holds (ic_inodes s') i x /\
      forall j y, holds (ic_inodes s) j y -> holds (ic_inodes s') j y.
  Proof.
    intros R C Hsz Hb. pose proof C as [C1 C2 C3 C4]. set (Is := ic_inodes s) in *.
    destruct (find_ip (cached 1 x) Is) as [i|] eqn:Ef.
    - pose proof (proj1 (find_ip_Some _ _ _) Ef) as (ip & Hi & Hc & _). unfold cached in Hc. destruct (C2 i ip Hi ltac:(lia)) as (D1 & D2 & D3).
      assert (Hx : i_inum ip = x) by lia. exists i. eexists. split; [by apply (iget_hit s V ∅ L)|].
      destruct (ic_out_cached s i ip (fun ip => set_iref (i_ref ip + 1) ip) f (bump f x) b b x R C Hi) as [K1 K2]; [|done|cbn; lia|].
      + apply (cache_set V f _ b b Is i ip _ x); try done.
        * cbn. lia.
        * left. split; [lia|done].
        * intros y Hy. by apply lookup_insert_ne.
        * unfold bump. rewrite lookup_insert_eq, decide_False by (cbn; lia). rewrite <- Hx, D2. done.
        * intros _. by apply entry_ok_ref.
      + split_and!; [exact K1|exact K2|]. intros j y (jp & J1 & J2 & J3). cbn [ic_out ic_inodes]. fold Is. rewrite (alter_insert _ _ _ _ Hi).
        destruct (decide (j = i)) as [->|Hne]; [|exists jp; by rewrite list_lookup_insert_ne].
        assert (jp = ip) as -> by congruence. eexists. rewrite list_lookup_insert_eq by (by eapply lookup_lt_Some). split_and!; [done|cbn; lia|done].
    - destruct (cache_spare V f b Is C Hsz) as (i0 & ip0 & Hi0 & Hr0).
      destruct (find_ip (fun ip => i_ref ip =? 0) Is) as [i|] eqn:Eg; [|rewrite find_ip_None in Eg; specialize (Eg _ _ Hi0); lia].
      pose proof (proj1 (find_ip_Some _ _ _) Eg) as (ip & Hi & Hr & _).
      assert (Hfx : f !! x = None).
      { destruct (f !! x) as [r|] eqn:E; [|done]. destruct (C4 x r E) as (j & jp & J1 & J2 & J3 & J4).
        rewrite find_ip_None in Ef. specialize (Ef _ _ J1). unfold cached in Ef. destruct (C2 j jp J1 ltac:(lia)) as (D1 & _). lia. }
      exists i. eexists. split; [by apply (iget_miss s V ∅ L)|]. set (g := fun ip => Inode 1 x 1 0 _ _ _ _ _ _).
      destruct (ic_out_cached s i ip g f (bump f x) b b x R C Hi) as [K1 K2]; [|done|cbn; lia|].
      + apply (cache_set V f _ b b Is i ip _ x); try done.
        * right. split; [lia|done].
        * intros y Hy. by apply lookup_insert_ne.
        * unfold bump. by rewrite lookup_insert_eq, Hfx.
        * intros _. rewrite bool_decide_eq_false_2; [by left|]. intros E. destruct (Hb i E) as (y & jp & J1 & J2 & _). assert (jp = ip) as -> by congruence. lia.
      + split_and!; [exact K1|exact K2|]. intros j y (jp & J1 & J2 & J3). cbn [ic_out ic_inodes]. fold Is. rewrite (alter_insert _ _ _ _ Hi).
        destruct (decide (j = i)) as [->|Hne]; [assert (jp = ip) as -> by congruence; lia|]. exists jp. by rewrite list_lookup_insert_ne.
  Qed.

  (** The inode as [ilock] leaves it. *)
Lemma locked_ip_disk ip x :
    entry_ok V false ip -> i_dev ip = 1 -> i_inum ip = x -> locked_ip V ip = set_iref (i_ref ip) (disk_ip V x).
  Proof.
    intros [Hf|[Hf Hs]] Hd <-; unfold locked_ip; cbn [set_iflags i_flags]; rewrite Hf; cbn.
    - destruct ip; cbn in *. by subst.
    - revert Hs. unfold synced, disk_ip. destruct ip; cbn in *. unfold dinode_get. cbn. intros [= <- <- <- <- <- <-]. by subst.
  Qed.
Lemma synced_disk x r fl : synced V (set_iflags fl (set_iref r (disk_ip V x))).
  Proof. done. Qed.
Lemma disk_entry_ok x r : entry_ok V true (set_iref r (disk_ip V x)).
  Proof. done. Qed.

Lemma ilock_cache s f i ip x :
    fs_rel s V ∅ L -> cache V f None (ic_inodes s) -> ic_inodes s !! i = Some ip -> 0 < i_ref ip -> i_inum ip = x ->
    good_ino V (ll_home (fs_log s)) x ->
    exists s', ilock i s = Ok tt s' /\ cached_in s f (Some i) s' /\ ic_inodes s' = <[i := set_iref (i_ref ip) (disk_ip V x)]> (ic_inodes s).
  Proof.
    intros R C Hi Hr Hx [Gb Gt Gl _]. destruct (ca_ref _ _ _ _ C i ip Hi Hr) as (D1 & D2 & D3).
    rewrite bool_decide_eq_false_2 in D3 by done. pose proof (locked_ip_disk ip x D3 D1 Hx) as El.
    assert (Hw : Flag.has (i_flags ip) I_BUSY = false) by (destruct D3 as [-> | [-> _]]; done).
    pose proof (ilock_run s V ∅ L i ip R Hi ltac:(lia) Hw) as W. cbn zeta in W. rewrite Hx in W.
    apply wp_outcome in W as ([] & s' & E & R' & S' & I'); [|intros _; split_and!; try done; lia].
    rewrite El in I'. exists s'. split_and!; [done|split_and!; [done|done| |by rewrite I', length_insert]|done]. rewrite I'.
    apply (cache_set V f f None (Some i) (ic_inodes s) i ip _ x); try done.
    - cbn. lia.
    - by left.
    - rewrite decide_False by (cbn; lia). cbn [set_iref i_ref]. by rewrite <- Hx.
    - intros _. rewrite bool_decide_eq_true_2 by done. apply disk_entry_ok.
    - intros j Hne. split; [intros [= ->]; done|done].
  Qed.

  (** The lock and the reference given up. *)
Definition put_ip (r x : Z) : inode := set_iref (r - 1) (set_iflags I_VALID (disk_ip V x)).

Lemma unlockput_cache s f i r x :
    fs_rel s V ∅ L -> cache V f (Some i) (ic_inodes s) -> ic_inodes s !! i = Some (set_iref r (disk_ip V x)) -> 0 < r ->
    i_nlink (disk_ip V x) <> 0 ->
    exists s', iunlockput i s = Ok tt s' /\ cached_in s (unbump f x) None s' /\ ic_inodes s' = <[i := put_ip r x]> (ic_inodes s).
  Proof.
    intros R C Hi Hr Hl. destruct (ca_ref _ _ _ _ C i _ Hi ltac:(done)) as (_ & Hf & _). cbn [set_iref disk_ip dinode_get i_ref i_inum] in Hf.
    pose proof (iunlock_run s V ∅ L i _ R Hi ltac:(cbn; lia) ltac:(done)) as W.
    apply wp_outcome in W as ([] & s1 & E1 & R1 & S1 & I1). rewrite (alter_insert _ _ _ _ Hi) in I1. cbn in I1.
    pose proof (lookup_lt_Some _ _ _ Hi) as Hlt.
    assert (H1 : ic_inodes s1 !! i = Some (set_iflags I_VALID (set_iref r (disk_ip V x)))) by (by rewrite I1, list_lookup_insert_eq).
    pose proof (iput_run s1 V ∅ L i _ R1 H1) as W. apply wp_outcome in W as ([] & s2 & E2 & R2 & S2 & I2).
    2: { cbn [set_iflags set_iref i_nlink i_ref i_flags]. apply andb_false_iff. right. by apply Z.eqb_neq. }
    rewrite (alter_insert _ _ _ _ H1), I1, list_insert_insert_eq in I2.
    exists s2. unfold iunlockput. rewrite (bind_ok _ _ _ _ _ E1). split; [done|]. split; [|exact I2].
    split_and!; [done|by transitivity s1| |by rewrite I2, length_insert].
    rewrite I2. by apply (put_cache V f (Some i) _ i r x _ (put_ip r x) C Hi); [|done|done|done|intros j [= ->]|done|done|done|right].
  Qed.
End calls.

(** ** What a path names *)

(** The inode of the first entry in use with this name. *)
Definition look (V : Z -> list Z) (d : inode) (name : list Z) : option Z :=
  (fun p => de_inum (entry V d p.2)) <$> list_find (fun k => hit V d name k = true) (seqZ 0 (i_size d / DIRENT_SIZE)).

(** From inode [x], one element after the other, each cut to [DIRSIZ] bytes;
    with [parent] the walk stops before the last, which is returned. *)
Fixpoint resolve (V : Z -> list Z) (parent : bool) (x : Z) (es : list (list Z)) (name : list Z) : option (Z * list Z) :=
  match es with
  | [] => if parent then None else Some (x, name)
  | e :: es' =>
      if negb (i_type (disk_ip V x) =? T_DIR) then None else
      if parent && bool_decide (es' = []) then Some (x, take (Z.to_nat DIRSIZ) e) else
      match look V (disk_ip V x) (take (Z.to_nat DIRSIZ) e) with
      | Some y => resolve V parent y es' (take (Z.to_nat DIRSIZ) e)
      | None => None
      end
  end.

(** The inodes on the way are in place. *)
Fixpoint sound (V : Z -> list Z) (h : Z) (x : Z) (es : list (list Z)) : Prop :=
  good_ino V h x /\
  match es with
  | [] => True
  | e :: es' => i_type (disk_ip V x) = T_DIR -> forall y, look V (disk_ip V x) (take (Z.to_nat DIRSIZ) e) = Some y -> sound V h y es'
  end.

Lemma sound_good V h x es : sound V h x es -> good_ino V h x.
Proof. by destruct es; intros []. Qed.

Lemma look_none V d name n : i_size d = DIRENT_SIZE * n -> (forall j, 0 <= j < n -> hit V d name j = false) -> look V d name = None.
Proof.
  intros Hs Hno. unfold look. rewrite Hs, Z.mul_comm, Z.div_mul by done.
  destruct (list_find _ _) as [[i j]|] eqn:E; [|done]. apply list_find_Some in E as (H1 & H2 & _).
  apply lookup_seqZ in H1 as [-> H1]. rewrite Hno in H2 by lia. done.
Qed.
Lemma look_some V d name n j : i_size d = DIRENT_SIZE * n -> 0 <= j < n -> hit V d name j = true -> (forall i, 0 <= i < j -> hit V d name i = false) ->
  look V d name = Some (de_inum (entry V d j)).
Proof.
  intros Hs Hj Hh Hno. unfold look. rewrite Hs, Z.mul_comm, Z.div_mul by done.
  replace (list_find _ _) with (Some (Z.to_nat j, j)); [done|]. symmetry. apply list_find_Some. split_and!; [|done|].
  - apply lookup_seqZ. lia.
  - intros i y [-> Hi]%lookup_seqZ Hlt. rewrite Hno by lia. done.
Qed.

Lemma unbump_one f x : (forall z r, f !! z = Some r -> 0 < r) -> unbump (bump f x) x = f.
Proof.
  intros Hpos. unfold unbump, bump. rewrite lookup_insert_eq. cbn [default]. destruct (f !! x) as [r|] eqn:E; cbn [default].
  - specialize (Hpos _ _ E). rewrite decide_False by (intros [= ?]; lia). rewrite insert_insert_eq. apply insert_id. rewrite E. f_equal. cbn. lia.
  - rewrite decide_True by done. rewrite delete_insert_eq. by rewrite delete_id.
Qed.
Lemma cache_pos V f b Is : cache V f b Is -> forall z r, f !! z = Some r -> 0 < r.
Proof. intros C z r Hz. destruct (ca_all _ _ _ _ C z r Hz) as (i & ip & _ & _ & Hr & _). done. Qed.

(** ** The walk *)
Lemma mapped_ref V r d h n : mapped V d h n -> mapped V (set_iref r d) h n.
Proof. intros []. by split. Qed.

Lemma locked_is_disk V f i Is ip : cache V f (Some i) Is -> Is !! i = Some ip -> 0 < i_ref ip -> ip = set_iref (i_ref ip) (disk_ip V (i_inum ip)).
Proof.
  intros C Hi Hr. destruct (ca_ref _ _ _ _ C i ip Hi Hr) as (D1 & _ & D3). rewrite bool_decide_eq_true_2 in D3 by done. destruct D3 as [Hf Hs].
  revert Hs. unfold synced, disk_ip. destruct ip; cbn in *. unfold dinode_get. cbn. intros [= <- <- <- <- <- <-]. by subst.
Qed.

Section walk.
  Context {St : Type} {LO : LogOps St} {LL : LogLaws St} (devsw : Z -> @devops St) (V : Z -> list Z) (L : list Z).
  Hypothesis HL : (length L < NBUF)%nat.
  Implicit Types (s : fs St).

  (** The name looked up in the locked directory [x]. *)
Lemma dirlookup_cache s g i r x name :
    fs_rel s V ∅ L -> cache V g (Some i) (ic_inodes s) -> (size g < length (ic_inodes s))%nat ->
    ic_inodes s !! i = Some (set_iref r (disk_ip V x)) -> 0 < r -> good_ino V (ll_home (fs_log s)) x -> i_type (disk_ip V x) = T_DIR ->
    exists s', match look V (disk_ip V x) name with
      | None => dirlookup devsw i name s = Ok None s' /\ cached_in V L s g (Some i) s' /\ ic_inodes s' = ic_inodes s
      | Some y => exists j off r', dirlookup devsw i name s = Ok (Some (j, off)) s' /\ cached_in V L s (bump g y) (Some i) s' /\
          holds (ic_inodes s') j y /\ 0 < r' /\ ic_inodes s' !! i = Some (set_iref r' (disk_ip V x))
      end.
  Proof.
    intros R C Hsz Hi Hr [_ _ _ Gd] Ht. destruct (Gd Ht) as (n & Hn & Hs & Hm).
    assert (D : dir_ok s V L i (set_iref r (disk_ip V x)) n) by (split; try done; by apply mapped_ref).
    destruct (dirlookup_run devsw V L i _ n name s D) as (s1 & D1 & S1 & I1 & Hc). pose proof (do_rel _ _ _ _ _ _ D1) as R1.
    destruct Hc as [[Hno E]|(j & Hj & Hh & Hmin & E)].
    { exists s1. rewrite (look_none V _ name n Hs Hno). split_and!; [done| |done]. split_and!; rewrite ?I1; done. }
    rewrite (look_some V _ name n j Hs Hj Hh Hmin). set (y := de_inum (entry V (disk_ip V x) j)).
    change (de_inum (entry V (set_iref r (disk_ip V x)) j)) with y in E.
    assert (Hx : holds (ic_inodes s1) i x) by (rewrite I1; eexists; split; [exact Hi|done]).
    destruct (iget_cache V L HL s1 g (Some i) y R1) as (k & s2 & E2 & K2 & Hk & Hkeep); [by rewrite I1..|intros ? [= <-]; by exists x|].
    exists s2, k, (DIRENT_SIZE * j). destruct (Hkeep _ _ Hx) as (ip & Hip & Hr' & Hin). exists (i_ref ip).
    rewrite E, (bind_ok _ _ _ _ _ E2). split_and!; try done.
    - destruct K2 as (R2 & S2 & C2 & L2). split_and!; [done|by transitivity s1|done|congruence].
    - rewrite Hip, <- Hin. f_equal. destruct K2 as (_ & _ & C2 & _). by eapply locked_is_disk.
  Qed.

  (** The next inode stays in use when this one is put. *)
Lemma holds_put f x y i j r Is s' :
    cache V (bump (bump f x) y) (Some i) Is -> (forall z q, f !! z = Some q -> 0 < q) -> Is !! i = Some (set_iref r (disk_ip V x)) -> 0 < r ->
    holds Is j y -> ic_inodes s' = <[i := put_ip V r x]> Is -> holds (ic_inodes s') j y.
  Proof.
    intros C Hpos Hi Hr (jp & Hj & Hjr & Hjy) ->. destruct (decide (j = i)) as [->|Hne].
    - assert (jp = set_iref r (disk_ip V x)) as -> by congruence. cbn in Hjy. subst y.
      destruct (ca_ref _ _ _ _ C i _ Hi ltac:(done)) as (_ & Hf & _). cbn [set_iref disk_ip dinode_get i_ref i_inum] in Hf.
      unfold bump in Hf. rewrite !lookup_insert_eq in Hf. cbn [default] in Hf. injection Hf as Hf.
      assert (0 <= default 0 (f !! x)) by (destruct (f !! x) as [q|] eqn:Eq; cbn; [specialize (Hpos _ _ Eq); lia|lia]).
      eexists. rewrite list_lookup_insert_eq by (by eapply lookup_lt_Some). split_and!; [done| |done]. cbn. lia.
    - exists jp. by rewrite list_lookup_insert_ne.
  Qed.

  (** What the walk returns, from a state with [f] references to the rest. *)
Definition landed s0 (f : gmap Z Z) (want : option (Z * list Z)) (o : outcome (fs St) (option (nat * list Z))) : Prop :=
    exists r s', o = Ok r s' /\
    match want with
    | Some (y, name) => exists i, r = Some (i, name) /\ holds (ic_inodes s') i y /\ cached_in V L s0 (bump f y) None s'
    | None => r = None /\ cached_in V L s0 f None s'
    end.

Lemma landed_trans s0 s1 f b want o : cached_in V L s0 b None s1 -> landed s1 f want o -> landed s0 f want o.
  Proof.
    intros K (r & s' & E & H). exists r, s'. split; [done|]. destruct want as [[y name]|].
    - destruct H as (i & H1 & H2 & H3). exists i. split_and!; [done|done|]. by eapply cached_trans.
    - destruct H as (H1 & H2). split; [done|]. by eapply cached_trans.
  Qed.

  (** Giving up the inode the walk has reached. *)
Lemma let_go s0 s f i r x :
    cached_in V L s0 (bump f x) (Some i) s -> (forall z q, f !! z = Some q -> 0 < q) -> ic_inodes s !! i = Some (set_iref r (disk_ip V x)) ->
    0 < r -> i_nlink (disk_ip V x) <> 0 -> landed s0 f None ((iunlockput i ;;; ret None) s).
  Proof.
    intros K Hpos Hi Hr Hl. pose proof K as (R & _ & C & _).
    destruct (unlockput_cache V L HL s _ i r x R C Hi Hr Hl) as (s' & E & K' & _). rewrite unbump_one in K' by done.
    exists None, s'. rewrite (bind_ok _ _ _ _ _ E). split_and!; [done|done|]. by eapply cached_trans.
  Qed.

Lemma put_run s f i ip x :
    fs_rel s V ∅ L -> cache V (bump f x) None (ic_inodes s) -> (forall z q, f !! z = Some q -> 0 < q) ->
    ic_inodes s !! i = Some ip -> 0 < i_ref ip -> i_inum ip = x -> good_ino V (ll_home (fs_log s)) x ->
    landed s f None ((iput i ;;; ret None) s).
  Proof.
    intros R C Hpos Hi Hr Hx [_ _ Gl _]. destruct (ca_ref _ _ _ _ C i ip Hi Hr) as (D1 & D2 & D3).
    rewrite bool_decide_eq_false_2 in D3 by done.
    pose proof (iput_run s V ∅ L i ip R Hi) as W. apply wp_outcome in W as ([] & s' & E & R' & S' & I').
    2: { destruct D3 as [-> | [-> Hs]]; [by destruct (i_ref ip =? 1)|]. apply andb_false_iff. right. apply Z.eqb_neq.
         unfold synced in Hs. rewrite Hx in Hs. rewrite <- Hs. exact Gl. }
    rewrite (alter_insert _ _ _ _ Hi) in I'. exists None, s'. rewrite (bind_ok _ _ _ _ _ E). split; [done|]. split; [done|].
    split_and!; [done|done| |by rewrite I', length_insert]. rewrite <- (unbump_one f x) by done. rewrite Hx in D2.
    rewrite I'. apply (put_cache V _ None _ i (i_ref ip) x ip (set_iref (i_ref ip - 1) ip) C Hi); try done. by apply entry_ok_ref.
  Qed.

Lemma unlock_run s0 s f i r x name :
    cached_in V L s0 (bump f x) (Some i) s -> ic_inodes s !! i = Some (set_iref r (disk_ip V x)) -> 0 < r ->
    landed s0 f (Some (x, name)) ((iunlock i ;;; ret (Some (i, name))) s).
  Proof.
    intros K Hi Hr. pose proof K as (R & _ & C & _). destruct (ca_ref _ _ _ _ C i _ Hi ltac:(done)) as (_ & Hf & _).
    pose proof (iunlock_run s V ∅ L i _ R Hi ltac:(cbn; lia) ltac:(done)) as W.
    apply wp_outcome in W as ([] & s1 & E1 & R1 & S1 & I1). rewrite (alter_insert _ _ _ _ Hi) in I1.
    pose proof (lookup_lt_Some _ _ _ Hi) as Hlt.
    exists (Some (i, name)), s1. rewrite (bind_ok _ _ _ _ _ E1). split; [done|]. exists i. split_and!; [done| |].
    - eexists. rewrite I1, list_lookup_insert_eq by done. done.
    - eapply cached_trans; [exact K|]. split_and!; [done|done| |by rewrite I1, length_insert]. rewrite I1.
      apply (cache_set V (bump f x) _ (Some i) None (ic_inodes s) i _ _ x C Hi); try done.
      + cbn. lia.
      + by left.
      + rewrite decide_False by (cbn; lia). exact Hf.
      + intros _. rewrite bool_decide_eq_false_2 by done. by right.
      + intros j Hne. split; [done|intros [= ->]; done].
  Qed.

Lemma elems_nil path : head path <> Some 47 -> elems path = [] -> path = [].
  Proof.
    intros Hh E. destruct path as [|c path]; [done|]. exfalso. pose proof (skipelem_spec (c :: path)) as Hs.
    unfold skipelem in Hs. cbn [skip_slashes] in Hs. cbn in Hh. destruct (c =? 47) eqn:Ec; [apply Hh; f_equal; lia|].
    destruct (take_elem (c :: path)) as [e rest]. destruct Hs as (e' & Hs & _). congruence.
  Qed.

Lemma namex_walk_run f parent : (forall z q, f !! z = Some q -> 0 < q) -> forall fuel s i x path name,
    fs_rel s V ∅ L -> cache V (bump f x) None (ic_inodes s) -> (S (size f) < length (ic_inodes s))%nat -> holds (ic_inodes s) i x ->
    sound V (ll_home (fs_log s)) x (elems path) -> (length path < fuel)%nat ->
    landed s f (resolve V parent x (elems path) name) (namex_walk devsw fuel i path parent name s).
  Proof.
    intros Hpos. induction fuel as [|fuel IH]; intros s i x path name R C Hsz (ip & Hi & Hr & Hx) Hgood Hf; [lia|].
    cbn [namex_walk]. pose proof (skipelem_spec path) as Hs. pose proof (sound_good _ _ _ _ Hgood) as G.
    destruct (skipelem path) as [[rest nm]|]; [destruct Hs as (e & He & _ & -> & Hhd & Hlen)|]; rewrite ?He, ?Hs in *; cbn [resolve].
    2: { destruct parent; [by eapply put_run|]. exists (Some (i, name)), s. split; [done|]. exists i. split_and!; [done|by exists ip|].
         by split_and!. }
    set (nm := take (Z.to_nat DIRSIZ) e). destruct (ilock_cache V L HL s _ i ip x R C Hi Hr Hx G) as (s1 & E1 & K1 & I1).
    rewrite (bind_ok _ _ _ _ _ E1). pose proof (lookup_lt_Some _ _ _ Hi) as Hlt.
    assert (H1 : ic_inodes s1 !! i = Some (set_iref (i_ref ip) (disk_ip V x))) by (by rewrite I1, list_lookup_insert_eq).
    erewrite bind_ok by (by apply getip_run). cbn [set_iref i_type]. destruct (i_type (disk_ip V x) =? T_DIR) eqn:Et; cbn [negb].
    2: { eapply let_go; try done. apply G. }
    destruct (parent && bool_decide (elems rest = [])) eqn:Ep.
    { apply andb_true_iff in Ep as [-> Ep%bool_decide_eq_true]. rewrite (elems_nil rest Hhd Ep). cbn [andb]. rewrite bool_decide_eq_true_2 by done.
      by eapply unlock_run. }
    replace (parent && bool_decide (rest = [])) with false.
    2: { destruct parent; [|done]. cbn [andb] in *. rewrite bool_decide_eq_false in Ep. symmetry. apply bool_decide_eq_false_2. by intros ->. }
    pose proof K1 as (R1 & S1 & C1 & L1). assert (Hh1 : ll_home (fs_log s1) = ll_home (fs_log s)) by apply S1.
    destruct (dirlookup_cache s1 (bump f x) i (i_ref ip) x nm R1 C1) as (s2 & Hl); try done; [pose proof (size_bump f x); lia|by rewrite Hh1|lia|].
    cbn [sound] in Hgood. destruct Hgood as [_ Hnext]. specialize (Hnext ltac:(lia)). fold nm in Hnext.
    destruct (look V (disk_ip V x) nm) as [y|].
    2: { destruct Hl as (E2 & K2 & I2). rewrite (bind_ok _ _ _ _ _ E2). eapply let_go; [by eapply cached_trans|done|by rewrite I2|done|apply G]. }
    destruct Hl as (j & off & r' & E2 & K2 & Hj & Hr' & H2). rewrite (bind_ok _ _ _ _ _ E2). pose proof K2 as (R2 & S2 & C2 & L2).
    destruct (unlockput_cache V L HL s2 _ i r' x R2 C2 H2 Hr' ltac:(apply G)) as (s3 & E3 & K3 & I3). rewrite (bind_ok _ _ _ _ _ E3).
    rewrite unbump_bump in K3 by done. pose proof K3 as (R3 & S3 & C3 & L3).
    assert (K : cached_in V L s (bump f y) None s3) by (eapply cached_trans; [|exact K3]; by eapply cached_trans).
    eapply landed_trans; [exact K|]. apply IH; [done|done|lia|by eapply holds_put| |lia].
    replace (ll_home (fs_log s3)) with (ll_home (fs_log s)); [by apply Hnext|]. destruct K as (_ & [-> _] & _). done.
  Qed.

  (** Where a path starts: at the root, or at the directory of the process. *)
Definition starts s (path : list Z) (x : Z) : Prop :=
    if bool_decide (head path = Some 47) then x = ROOTINO
    else exists me pr cwd, cproc (b_cpu (lget (fs_log s))) = Some me /\ b_procs (lget (fs_log s)) !! me = Some pr /\
      p_cwd pr = Some cwd /\ holds (ic_inodes s) cwd x.

Lemma idup_cache s f i x :
    fs_rel s V ∅ L -> cache V f None (ic_inodes s) -> holds (ic_inodes s) i x ->
    exists s', idup i s = Ok i s' /\ cached_in V L s (bump f x) None s' /\ holds (ic_inodes s') i x.
  Proof.
    intros R C (ip & Hi & Hr & Hx). destruct (ca_ref _ _ _ _ C i ip Hi Hr) as (D1 & D2 & D3).
    pose proof (idup_run s V ∅ L i R) as W. apply wp_outcome in W as (? & s' & E & -> & R' & S' & I'). rewrite (alter_insert _ _ _ _ Hi) in I'.
    pose proof (lookup_lt_Some _ _ _ Hi) as Hlt. exists s'. split_and!; [done|split_and!; [done|done| |by rewrite I', length_insert]|].
    - rewrite I'. apply (cache_set V f _ None None (ic_inodes s) i ip _ x C Hi); try done.
      + cbn. lia.
      + by left.
      + intros y Hy. by apply lookup_insert_ne.
      + unfold bump. rewrite lookup_insert_eq, decide_False by (cbn; lia). by rewrite <- Hx, D2.
      + intros _. by apply entry_ok_ref.
    - exists (set_iref (i_ref ip + 1) ip). rewrite I', list_lookup_insert_eq by done. split_and!; [done|cbn; lia|done].
  Qed.

Lemma namex_run s f path parent x :
    fs_rel s V ∅ L -> cache V f None (ic_inodes s) -> (S (size f) < length (ic_inodes s))%nat -> starts s path x ->
    sound V (ll_home (fs_log s)) x (elems path) ->
    landed s f (resolve V parent x (elems path) []) (namex devsw path parent s).
  Proof.
    intros R C Hsz Hst Hgood. pose proof (cache_pos _ _ _ _ C) as Hpos.
    assert (Hgo : forall i s', cached_in V L s (bump f x) None s' -> holds (ic_inodes s') i x ->
      landed s f (resolve V parent x (elems path) []) (namex_walk devsw (S (length path)) i path parent [] s')).
    { intros i s' K Hi. eapply landed_trans; [exact K|]. destruct K as (R' & [Hh _] & C' & L'). apply namex_walk_run; try done; [lia|by rewrite Hh|lia]. }
    unfold namex, starts in *. case_bool_decide.
    - subst x. destruct (iget_cache V L HL s f None ROOTINO R C) as (i & s' & E & K & Hi & _); [lia|done|].
      change ROOTDEV with 1. rewrite (bind_ok _ _ _ _ _ E). by apply Hgo.
    - destruct Hst as (me & pr & cwd & Ec & Ep & Ed & Hc). destruct (idup_cache s f cwd x R C Hc) as (s' & E & K & Hi).
      erewrite bind_ok; [by apply Hgo|]. erewrite bind_ok by reflexivity. rewrite Ec. erewrite bind_ok by reflexivity. rewrite Ep.
      erewrite bind_ok by reflexivity. rewrite Ed. erewrite bind_ok by reflexivity. exact E.
  Qed.

  (** C4. Path resolution. When the inodes on the way are in place, [namei]
      of a path returns the inode that the elements of the path, each cut to
      [DIRSIZ] bytes, name one after the other, from the root for a path that
      starts with a slash and from the process's directory for any other;
      [nameiparent] stops before the last element and returns it. The inode
      returned has one reference more and every other inode the references
      it had, and none is left locked. When an element is not found, or is
      looked for in an inode that is no directory, the result is no inode
      and all references are as before. *)
Theorem namex_spec s f path parent x :
    fs_rel s V ∅ L -> cache V f None (ic_inodes s) -> (S (size f) < length (ic_inodes s))%nat -> starts s path x ->
    sound V (ll_home (fs_log s)) x (elems path) ->
    exists r s', namex devsw path parent s = Ok r s' /\ fs_rel s' V ∅ L /\ fs_stay s s' /\
    match resolve V parent x (elems path) [] with
    | Some (y, name) => exists i, r = Some (i, name) /\ holds (ic_inodes s') i y /\ cache V (bump f y) None (ic_inodes s')
    | None => r = None /\ cache V f None (ic_inodes s')
    end.
  Proof.
    intros R C Hsz Hst Hgood. destruct (namex_run s f path parent x R C Hsz Hst Hgood) as (r & s' & E & Hres).
    exists r, s'. split; [done|]. destruct (resolve _ _ _ _ _) as [[y name]|].
    - destruct Hres as (i & -> & Hi & R' & S' & C' & _). split_and!; [done|done|by exists i].
    - destruct Hres as (-> & R' & S' & C' & _). by split_and!.
  Qed.
End walk.

Lemma mapped_one V ip h a lim : i_addrs ip = a :: replicate 12 0 -> lim <= BSIZE -> 0 < a < h -> length (V a) = 512%nat -> mapped V ip h lim.
Proof.
  intros Ha Hl Hr Hv. change BSIZE with 512 in Hl.
  assert (Hone : forall bn, 0 <= bn -> bn * BSIZE < lim -> bn = 0) by (intros bn; change BSIZE with 512; lia).
  assert (Hb : blockof V ip 0 = a) by (unfold blockof, addr_of; rewrite Ha; done).
  split.
  - by rewrite Ha.
  - change (MAXFILE * BSIZE) with 71680. lia.
  - intros bn H0 H1. rewrite (Hone bn H0 H1), Hb. done.
  - change (NDIRECT * BSIZE) with 6144. lia.
  - intros b c B0 C0 B1 C1 _. rewrite (Hone b B0 B1), (Hone c C0 C1). done.
  - change (NDIRECT * BSIZE) with 6144. lia.
Qed.

(** *** A disk with a file "a" in the root directory *)
Section tree.
  Context (content : list Z).

Definition dinode (type nlink size addr : Z) : list Z :=
    be16 type ++ be16 0 ++ be16 0 ++ be16 nlink ++ be32 size ++ be32 addr ++ replicate 48 0.
Definition tree_disk : disk :=
    Disk 1024 (fun x => if x =? 1 then sb_encode sb0 ++ replicate 496 0
                        else if x =? 2 then replicate 64 0 ++ dinode T_DIR 1 48 100 ++ dinode T_FILE 1 512 101 ++ replicate 320 0
                        else if x =? 28 then [255; 255; 255; 31] ++ replicate 508 0
                        else if x =? 100 then de_make 1 [46] ++ de_make 1 [46; 46] ++ de_make 2 [97] ++ replicate 464 0
                        else if x =? 101 then content
                        else replicate 512 0) [].
Definition tree_V : Z -> list Z := disk_get tree_disk.
Definition tree_state (b : base) : log := run_or boot_log (log0 b tree_disk).

Lemma tree_rel b : base_ok b ->
    ll_rel (LogLaws := log_read_laws 9) (tree_state b) tree_V ∅ [] /\ lg_start (tree_state b) = 1014.
  Proof.
    intros Hb. destruct (boot_run b tree_disk 1014 10 tree_V) as (s & Hs & R & Hbu & Hst & Hsz & _);
      [exact Hb|split; reflexivity|lia|lia|simpl; lia|simpl; lia| |].
    { split; [done|]. exists []. split; [set_solver|]. by apply recovers_nil. }
    unfold tree_state, run_or. rewrite Hs. split; [|exact Hst]. split; [|split; [reflexivity|exact R]].
    split; [exact Hbu|]. unfold log_cap. by rewrite Hsz.
  Qed.

Definition root_ip : inode := Inode 1 1 1 3 T_DIR 0 0 1 48 (100 :: replicate 12 0).
Definition file_ip : inode := Inode 1 2 1 3 T_FILE 0 0 1 512 (101 :: replicate 12 0).
Lemma tree_root : disk_ip tree_V 1 = root_ip.
  Proof. by vm_compute. Qed.
Lemma tree_file : disk_ip tree_V 2 = file_ip.
  Proof. by vm_compute. Qed.
Lemma tree_look : look tree_V root_ip [97] = Some 2.
  Proof. by vm_compute. Qed.

Lemma tree_sound : sound tree_V 1014 ROOTINO [[97]].
  Proof.
    change ROOTINO with 1. split; [split; rewrite ?tree_root|].
    - by vm_compute.
    - done.
    - done.
    - intros _. exists 3. split_and!; [lia|done|]. apply (mapped_one _ _ _ 100); [done|by vm_compute|lia|by vm_compute].
    - rewrite tree_root. intros _ y Hy. change (take (Z.to_nat DIRSIZ) [97]) with [97] in Hy. rewrite tree_look in Hy. injection Hy as <-.
      split; [|done]. split; rewrite ?tree_file; [by vm_compute|done|done|done].
  Qed.
Lemma tree_resolve : resolve tree_V false ROOTINO [[97]] [] = Some (2, [97]).
  Proof. change ROOTINO with 1. cbn [resolve]. rewrite tree_root. change (take (Z.to_nat DIRSIZ) [97]) with [97]. by rewrite tree_look. Qed.

  (** Nothing in use. *)
Definition unused : inode := Inode 0 0 0 0 0 0 0 0 0 [].
Lemma cache_unused n : cache tree_V ∅ None (replicate n unused).
  Proof.
    split; try (intros i ip [-> _]%lookup_replicate; cbn; lia).
    - intros i j ip jp [-> _]%lookup_replicate. cbn. lia.
    - intros x r. by rewrite lookup_empty.
  Qed.
End tree.

Definition blank_file : list Z := replicate 512 0.
Definition tree_fs : fs log := Fs (tree_state blank_file ptable0) (Spinlock 0 "icache" None []) (replicate 3 unused).

Lemma namex_spec_witness :
  exists i s', namex no_devs [47; 47; 97] false tree_fs = Ok (Some (i, [97])) s' /\ holds (ic_inodes s') i 2.
Proof.
  destruct (tree_rel blank_file ptable0 base_ok0) as [R Hst].
  destruct (namex_spec (LL := log_read_laws 9) no_devs (tree_V blank_file) [] ltac:(unfold NBUF; simpl; lia) tree_fs ∅ [47; 47; 97] false ROOTINO)
    as (r & s' & E & _ & _ & Hr).
  - split; [exact R|reflexivity].
  - apply cache_unused.
  - rewrite map_size_empty. simpl. lia.
  - reflexivity.
  - cbn [ll_home log_read_laws]. change (fs_log tree_fs) with (tree_state blank_file ptable0). rewrite Hst. apply tree_sound.
  - change (elems [47; 47; 97]) with [[97]] in Hr. rewrite tree_resolve in Hr. destruct Hr as (i & -> & Hi & _). exists i, s'. split; assumption.
Defined.
