(* ===== verification/Mkfs.v ===== *)
(** The file system image builder: mkfs.c, and that what it builds is what
    the kernel's file system (Balloc, Inode, FileData, Dir) expects. *)
From stdpp Require Import base numbers list strings sets gmap.
From S2P Require Import Prelude Params Spinlock Sched Bio Cache BlockIf Log Crash Balloc Inode FileData Dir.

Set Warnings "-clear-no-such-hyp".

(** ** The program

    The image file as its sectors, and the program's counters. *)
Module Mkfs.
Definition nblocks : Z := 985.
Definition nlog : Z := Z.of_nat LOGSIZE.
Definition ninodes : Z := 200.
Definition size : Z := 1024.

Record mst := Mst { img : list (list Z); freeblock : Z; usedblocks : Z; bitblocks : Z; freeinode : Z }.

Definition zeroes : list Z := replicate 512 0.
Definition start : mst := Mst [] 0 0 0 1.

(** *** xshort, xint: the bytes of the converted number in memory *)
Definition xshort (x : Z) : list Z := be16 x.
Definition xint (x : Z) : list Z := be32 x.

(** *** wsect, rsect. A write past the end of the file leaves zeros between;
    a read there comes back short, and the program exits. *)
Definition write_at (n : nat) (buf : list Z) (l : list (list Z)) : list (list Z) :=
  if decide (n < length l)%nat then <[n := buf]> l
  else l ++ replicate (n - length l) zeroes ++ [buf].

Definition wsect (sec : Z) (buf : list Z) : M mst unit :=
  modify (fun s => Mst (write_at (Z.to_nat sec) buf (img s)) (freeblock s) (usedblocks s) (bitblocks s) (freeinode s)).

Definition rsect (sec : Z) : M mst (list Z) :=
  s <- get ;;
  match img s !! Z.to_nat sec with
  | Some buf => ret buf
  | None => panic "read"
  end.

(** *** i2b, winode, rinode: an inode is its 64 bytes *)
Definition i2b (inum : Z) : Z := u32 (inum / IPB + 2).

Definition winode (inum : Z) (ip : list Z) : M mst unit :=
  let bn := i2b inum in
  buf <- rsect bn ;;
  wsect bn (splice (Z.to_nat (inum mod IPB * DINODE_SIZE)) ip buf).

Definition rinode (inum : Z) : M mst (list Z) :=
  let bn := i2b inum in
  buf <- rsect bn ;;
  ret (slice (Z.to_nat (inum mod IPB * DINODE_SIZE)) (Z.to_nat DINODE_SIZE) buf).

(** *** ialloc *)
Definition din_new (type : Z) : list Z :=
  splice 8 (xint 0) (splice 6 (xshort 1) (splice 0 (xshort type) (replicate (Z.to_nat DINODE_SIZE) 0))).

Definition ialloc (type : Z) : M mst Z :=
  s <- get ;;
  let inum := freeinode s in
  modify (fun s => Mst (img s) (freeblock s) (usedblocks s) (bitblocks s) (u32 (freeinode s + 1))) ;;;
  winode inum (din_new type) ;;;
  ret inum.

(** *** balloc *)
Fixpoint set_bits (i n : nat) (buf : list Z) : list Z :=
  match n with
  | O => buf
  | S n => set_bits (S i) n (alter (fun x => u8 (Z.lor x (Z.shiftl 1 (Z.of_nat (i mod 8))))) (i / 8)%nat buf)
  end.

Definition balloc (used : Z) : M mst unit :=
  if negb (used <? 512 * 8) then panic "assert" else
  wsect (ninodes / IPB + 3) (set_bits 0 (Z.to_nat used) zeroes).

(** *** iappend *)
Definition din_size (din : list Z) : Z := get32 8 din.
Definition din_addr (k : Z) (din : list Z) : Z := get32 (12 + 4 * Z.to_nat k) din.
Definition set_din_size (n : Z) (din : list Z) : list Z := splice 8 (xint n) din.
Definition set_din_addr (k a : Z) (din : list Z) : list Z := splice (12 + 4 * Z.to_nat k) (xint a) din.

(** [freeblock++; usedblocks++] *)
Definition take_block : M mst Z :=
  s <- get ;;
  modify (fun s => Mst (img s) (u32 (freeblock s + 1)) (u32 (usedblocks s + 1)) (bitblocks s) (freeinode s)) ;;;
  ret (freeblock s).

(** The inode with the address of block [fbn] filled in, and that address. *)
Definition block_addr (din : list Z) (fbn : Z) : M mst (list Z * Z) :=
  if fbn <? NDIRECT then
    din <- (if din_addr fbn din =? 0 then b <- take_block ;; ret (set_din_addr fbn b din) else ret din) ;;
    ret (din, din_addr fbn din)
  else
    din <- (if din_addr NDIRECT din =? 0 then b <- take_block ;; ret (set_din_addr NDIRECT b din) else ret din) ;;
    indirect <- rsect (din_addr NDIRECT din) ;;
    let k := (4 * Z.to_nat (fbn - NDIRECT))%nat in
    indirect <- (if get32 k indirect =? 0 then
        b <- take_block ;;
        wsect (din_addr NDIRECT din) (splice k (xint b) indirect) ;;;
        ret (splice k (xint b) indirect)
      else ret indirect) ;;
    ret (din, get32 k indirect).

Fixpoint append_loop (fuel : nat) (din : list Z) (off : Z) (p : list Z) (n : Z) : M mst (list Z * Z) :=
  match fuel with
  | O => diverge
  | S fuel =>
      if negb (n >? 0) then ret (din, off) else
      let fbn := off / 512 in
      if negb (fbn <? MAXFILE) then panic "assert" else
      r <- block_addr din fbn ;;
      let '(din, x) := r in
      let n1 := Z.min n ((fbn + 1) * 512 - off) in
      buf <- rsect x ;;
      wsect x (splice (Z.to_nat (off - fbn * 512)) (take (Z.to_nat n1) p) buf) ;;;
      append_loop fuel din (u32 (off + n1)) (drop (Z.to_nat n1) p) (n - n1)
  end.

(** Each round moves on by at least a byte. *)
Definition iappend (inum : Z) (xp : list Z) (n : Z) : M mst unit :=
  din <- rinode inum ;;
  r <- append_loop (S (Z.to_nat n)) din (din_size din) xp n ;;
  let '(din, off) := r in
  winode inum (set_din_size off din).

(** *** main. [host] is what [open] and [read] find on the build host, and
    [creat] whether the image can be created; the arguments are those after
    the program's name. *)
Section main.
  Context (creat : list Z -> bool) (host : list Z -> option (list Z)).

Definition zero_all : M mst unit :=
    s <- get ;;
    for_ (Z.to_nat (nblocks + usedblocks s + nlog)) (fun i => wsect (Z.of_nat i) zeroes).

Definition sb_bytes : list Z := xint size ++ xint nblocks ++ xint ninodes ++ xint nlog.

  (** [while((cc = read(fd, buf, sizeof(buf))) > 0) iappend(inum, buf, cc)] *)
Fixpoint copy_in (fuel : nat) (inum : Z) (c : list Z) : M mst unit :=
    match fuel with
    | O => diverge
    | S fuel =>
        let buf := take 512 c in
        if negb (Z.of_nat (length buf) >? 0) then ret tt else
        iappend inum buf (Z.of_nat (length buf)) ;;;
        copy_in fuel inum (drop 512 c)
    end.

  (** The name without its leading [_]. *)
Definition skip_underscore (arg : list Z) : list Z := match arg with 95 :: name => name | _ => arg end.

Definition add_file (rootino : Z) (arg : list Z) : M mst unit :=
    if existsb (Z.eqb 47) arg then panic "assert" else
    match host arg with
    | None => panic "open"
    | Some c =>
        inum <- ialloc T_FILE ;;
        iappend rootino (de_make inum (take (Z.to_nat DIRSIZ) (skip_underscore arg))) DIRENT_SIZE ;;;
        copy_in (S (length c)) inum c
    end.

Fixpoint add_files (rootino : Z) (args : list (list Z)) : M mst unit :=
    match args with
    | [] => ret tt
    | a :: args => add_file rootino a ;;; add_files rootino args
    end.

Definition main (argv : list (list Z)) : M mst unit :=
    match argv with
    | [] => panic "Usage: mkfs fs.img files..."
    | image :: args =>
        if negb (creat image) then panic "open" else
        modify (fun s =>
          let bitblocks := size / (512 * 8) + 1 in
          let used := ninodes / IPB + 3 + bitblocks in
          Mst (img s) used used bitblocks (freeinode s)) ;;;
        s <- get ;;
        if negb (nblocks + usedblocks s + nlog =? size) then panic "assert" else
        zero_all ;;;
        wsect 1 (splice 0 sb_bytes zeroes) ;;;
        rootino <- ialloc T_DIR ;;
        if negb (rootino =? ROOTINO) then panic "assert" else
        iappend rootino (de_make rootino [46]) DIRENT_SIZE ;;;
        iappend rootino (de_make rootino [46; 46]) DIRENT_SIZE ;;;
        add_files rootino args ;;;
        din <- rinode rootino ;;
        let off := din_size din in
        winode rootino (set_din_size (u32 ((off / BSIZE + 1) * BSIZE)) din) ;;;
        s <- get ;;
        balloc (usedblocks s)
    end.
End main.
Arguments main : simpl never.

(** ** What the image holds *)

Definition view (s : mst) (a : Z) : list Z := if 0 <=? a then default [] (img s !! Z.to_nat a) else [].
Definition counters (s : mst) : Z * Z * Z * Z := (freeblock s, usedblocks s, bitblocks s, freeinode s).

Record disk_ok (s : mst) : Prop := {
  do_len : length (img s) = 1024%nat;
  do_sec : Forall (fun b : list Z => length b = 512%nat) (img s);
}.

Lemma view_lookup s a : disk_ok s -> 0 <= a < 1024 -> img s !! Z.to_nat a = Some (view s a).
Proof.
  intros [Hl _] Ha. unfold view. destruct (0 <=? a) eqn:E; [|lia].
  destruct (lookup_lt_is_Some_2 (img s) (Z.to_nat a)) as [b Hb]; [lia|]. by rewrite Hb.
Qed.
Lemma length_view s a : disk_ok s -> 0 <= a < 1024 -> length (view s a) = 512%nat.
Proof.
  intros Hd Ha. pose proof (view_lookup s a Hd Ha) as Hl. destruct Hd as [_ HF].
  by apply (Forall_lookup_1 _ _ _ _ HF Hl).
Qed.

Lemma wp_rsect s a (Q : list Z -> mst -> Prop) :
  disk_ok s -> 0 <= a < 1024 -> Q (view s a) s -> wp (rsect a) Q s.
Proof. intros Hd Ha HQ. unfold rsect. apply wp_bind, wp_get. rewrite view_lookup by done. by apply wp_ret. Qed.

Lemma wp_wsect s a d (Q : unit -> mst -> Prop) :
  disk_ok s -> 0 <= a < 1024 -> length d = 512%nat ->
  (forall s', disk_ok s' -> (forall x, view s' x = vset (view s) a d x) -> counters s' = counters s -> Q tt s') ->
  wp (wsect a d) Q s.
Proof.
  intros [Hl HF] Ha Hd HQ. unfold wsect. apply wp_modify. apply HQ; [| |done].
  - split; simpl; unfold write_at; rewrite decide_True by lia.
    + by rewrite length_insert.
    + by apply Forall_insert.
  - intros x. unfold view, vset, write_at. simpl. rewrite decide_True by lia. case_decide as Hx.
    + subst. destruct (0 <=? a) eqn:E; [|lia]. by rewrite list_lookup_insert_eq by lia.
    + destruct (0 <=? x) eqn:E; [|done]. by rewrite list_lookup_insert_ne by lia.
Qed.
(** *** An inode in the 64 bytes of a [struct dinode] *)
Lemma slice_app_r {A} (x y : list A) o n : slice (length x + o) n (x ++ y) = slice o n y.
Proof. unfold slice. f_equal. apply drop_app_add. Qed.
Lemma splice_app_r {A} (x y z : list A) o : splice (length x + o) z (x ++ y) = x ++ splice o z y.
Proof.
  unfold splice. rewrite take_app_add, <- app_assoc. f_equal. f_equal. f_equal.
  rewrite <- Nat.add_assoc. apply drop_app_add.
Qed.
Lemma splice_slice {A} off (x d : list A) : slice off (length x) d = x -> splice off x d = d.
Proof.
  intros Hs. unfold splice. rewrite <- Hs at 1. unfold slice.
  rewrite <- drop_drop, take_drop. apply take_drop.
Qed.

Lemma slice_words k l a : l !! k = Some a -> slice (4 * k) 4 (words l) = be32 a.
Proof.
  revert k. induction l as [|b l IH]; intros [|k] Hk; try discriminate Hk; change (words (b :: l)) with (be32 b ++ words l).
  - by injection Hk as ->.
  - replace (4 * S k)%nat with (length (be32 b) + 4 * k)%nat by (simpl; lia). rewrite slice_app_r. by apply IH.
Qed.
Lemma splice_words k l a : (k < length l)%nat -> splice (4 * k) (be32 a) (words l) = words (<[k := a]> l).
Proof.
  revert k. induction l as [|b l IH]; intros [|k] Hk; simpl in Hk; try lia; change (words (b :: l)) with (be32 b ++ words l).
  - done.
  - replace (4 * S k)%nat with (length (be32 b) + 4 * k)%nat by (simpl; lia). rewrite splice_app_r.
    rewrite IH by lia. done.
Qed.

Definition din_head (ip : inode) : list Z :=
  be16 (i_type ip) ++ be16 (i_major ip) ++ be16 (i_minor ip) ++ be16 (i_nlink ip) ++ be32 (i_size ip).
Lemma dinode_bytes_head ip : dinode_bytes ip = din_head ip ++ words (i_addrs ip).
Proof. unfold dinode_bytes, din_head. by rewrite <- !app_assoc. Qed.
Lemma length_dinode_bytes ip : length (i_addrs ip) = 13%nat -> length (dinode_bytes ip) = 64%nat.
Proof. intros H. rewrite dinode_bytes_head, length_app, length_words, H. done. Qed.

Lemma din_size_bytes ip : is_u32 (i_size ip) -> din_size (dinode_bytes ip) = i_size ip.
Proof.
  intros Hs. unfold din_size, get32. change (slice 8 4 (dinode_bytes ip)) with (be32 (i_size ip)).
  by apply u32_be32.
Qed.
Lemma set_din_size_bytes n ip : set_din_size n (dinode_bytes ip) = dinode_bytes (set_isize n ip).
Proof. reflexivity. Qed.
Lemma din_addr_bytes k ip :
  inode_range ip -> 0 <= k <= NDIRECT -> din_addr k (dinode_bytes ip) = addr_of ip (Z.to_nat k).
Proof.
  change NDIRECT with 12. intros R Hk. pose proof (ir_len _ R) as Hl. unfold din_addr, get32, addr_of.
  destruct (lookup_lt_is_Some_2 (i_addrs ip) (Z.to_nat k)) as [a Ha]; [lia|].
  rewrite dinode_bytes_head. change 12%nat with (length (din_head ip)) at 1. rewrite slice_app_r.
  rewrite (slice_words _ _ _ Ha), Ha. simpl default. apply u32_be32.
  by apply (Forall_lookup_1 _ _ _ _ (ir_addrs _ R) Ha).
Qed.
Lemma set_din_addr_bytes k a ip :
  inode_range ip -> 0 <= k <= NDIRECT ->
  set_din_addr k a (dinode_bytes ip) = dinode_bytes (set_iaddr (Z.to_nat k) a ip).
Proof.
  change NDIRECT with 12. intros R Hk. pose proof (ir_len _ R) as Hl. unfold set_din_addr, xint.
  rewrite !dinode_bytes_head. change 12%nat with (length (din_head ip)) at 1. rewrite splice_app_r.
  rewrite splice_words by lia. done.
Qed.
Lemma range_iaddr k a ip : inode_range ip -> is_u32 a -> inode_range (set_iaddr k a ip).
Proof.
  intros [? ? ? ? ? ? Hl] Ha. split; try done; cbn [i_addrs set_iaddr].
  - by apply Forall_insert.
  - by rewrite length_insert.
Qed.
Lemma range_isize n ip : inode_range ip -> is_u32 n -> inode_range (set_isize n ip).
Proof. intros [? ? ? ? ? ? ?] Hn. by split. Qed.

(** *** The inodes on the image *)
Definition dino (V : Z -> list Z) (inum : Z) : list Z := slice (dinode_off inum) 64 (V (IBLOCK inum)).

Lemma IBLOCK_range inum : 0 <= inum < ninodes -> 2 <= IBLOCK inum <= 26.
Proof.
  unfold IBLOCK, ninodes. change IPB with 8. intros H. pose proof (Z.div_mod inum 8 ltac:(lia)).
  pose proof (Z.mod_pos_bound inum 8 ltac:(lia)). lia.
Qed.
Lemma i2b_IBLOCK inum : 0 <= inum < ninodes -> i2b inum = IBLOCK inum.
Proof. intros H. pose proof (IBLOCK_range inum H). unfold i2b. fold (IBLOCK inum). apply u32_id. unfold is_u32. lia. Qed.

Lemma wp_rinode s inum (Q : list Z -> mst -> Prop) :
  disk_ok s -> 0 <= inum < ninodes -> Q (dino (view s) inum) s -> wp (rinode inum) Q s.
Proof.
  intros Hd Hi HQ. pose proof (IBLOCK_range inum Hi). unfold rinode. rewrite i2b_IBLOCK by done.
  apply wp_bind, wp_rsect; [done|lia|]. apply wp_ret. exact HQ.
Qed.

Lemma wp_winode s inum b (Q : unit -> mst -> Prop) :
  disk_ok s -> 0 <= inum < ninodes -> length b = 64%nat ->
  (forall s', disk_ok s' -> dino (view s') inum = b ->
     (forall i, i <> inum -> dino (view s') i = dino (view s) i) ->
     (forall x, x <> IBLOCK inum -> view s' x = view s x) -> counters s' = counters s -> Q tt s') ->
  wp (winode inum b) Q s.
Proof.
  intros Hd Hi Hb HQ. pose proof (IBLOCK_range inum Hi). pose proof (dinode_off_bound inum) as Ho.
  unfold winode. rewrite i2b_IBLOCK by done. apply wp_bind, wp_rsect; [done|lia|].
  assert (Hlv : length (view s (IBLOCK inum)) = 512%nat) by (apply length_view; [done|lia]).
  fold (dinode_off inum). apply wp_wsect; [done|lia|rewrite length_splice; lia|].
  intros s' Hd' Hv Hc. apply HQ; try done.
  - unfold dino. rewrite Hv, vset_eq, <- Hb. apply slice_splice_eq. lia.
  - intros i Hne. unfold dino. rewrite Hv. unfold vset. case_decide as He; [|done].
    rewrite He. apply slice_splice_ne; [lia|]. destruct (dinode_off_ne _ _ He Hne); lia.
  - intros x Hx. by rewrite Hv, vset_ne.
Qed.
(** *** The blocks of a file

    [G] lists the owner of each block handed out so far, from the first data
    block on: the file, and which of its blocks it is ([MAXFILE] for the
    block of indirect addresses). *)
Definition first_data : Z := 29.
Definition owner (G : list (nat * Z)) (a : Z) : option (nat * Z) :=
  if a <? first_data then None else G !! Z.to_nat (a - first_data).

Lemma owner_range G a x : owner G a = Some x -> first_data <= a < first_data + Z.of_nat (length G).
Proof.
  unfold owner. destruct (a <? first_data) eqn:E; [done|]. intros H%lookup_lt_Some. lia.
Qed.
Lemma owner_app G G' a x : owner G a = Some x -> owner (G ++ G') a = Some x.
Proof. unfold owner. destruct (a <? first_data); [done|]. apply lookup_app_l_Some. Qed.
Lemma owner_new G x : owner (G ++ [x]) (first_data + Z.of_nat (length G)) = Some x.
Proof.
  unfold owner. destruct (first_data + Z.of_nat (length G) <? first_data) eqn:E; [apply Z.ltb_lt in E; lia|]. rewrite lookup_app_r by lia.
  replace (Z.to_nat _ - length G)%nat with 0%nat by lia. done.
Qed.

(** File [j] has its first [nb] blocks, and [ind] its block of indirect
    addresses; they hold [c] and then zeros. *)
Record file_at (V : Z -> list Z) (G : list (nat * Z)) (j : nat) (ip : inode) (nb : Z) (ind : bool)
    (c : list Z) : Prop := {
  fa_len : length (i_addrs ip) = 13%nat;
  fa_nb : 0 <= nb <= MAXFILE;
  fa_need : NDIRECT < nb -> ind = true;
  fa_fit : Z.of_nat (length c) <= nb * BSIZE;
  fa_ind : if ind then owner G (addr_of ip 12) = Some (j, MAXFILE) else addr_of ip 12 = 0;
  fa_block : forall bn, 0 <= bn < nb -> owner G (blockof V ip bn) = Some (j, bn);
  fa_none : forall bn, nb <= bn < MAXFILE -> bn < NDIRECT \/ ind = true -> blockof V ip bn = 0;
  fa_byte : forall k, 0 <= k < nb * BSIZE -> file_byte V ip k = default 0 (c !! Z.to_nat k);
}.

Lemma blockof_frame V W ip bn :
  bn < NDIRECT \/ W (addr_of ip 12) = V (addr_of ip 12) -> blockof W ip bn = blockof V ip bn.
Proof. unfold blockof. destruct (bn <? NDIRECT) eqn:E; [done|]. intros [?| ->]; [lia|done]. Qed.

Lemma block_of_byte k nb : 0 <= k < nb * BSIZE -> 0 <= k / BSIZE < nb.
Proof.
  change BSIZE with 512. intros. pose proof (Z.div_mod k 512 ltac:(lia)).
  pose proof (Z.mod_pos_bound k 512 ltac:(lia)). lia.
Qed.

(** Other files' blocks, and more blocks handed out. *)
Lemma file_at_frame V W G G' j ip nb ind c :
  file_at V G j ip nb ind c -> (forall a x, owner G a = Some (j, x) -> W a = V a) ->
  file_at W (G ++ G') j ip nb ind c.
Proof.
  intros [F1 F2 F3 F4 F5 F6 F7 F8] HW.
  assert (Hb : forall bn, bn < NDIRECT \/ ind = true -> blockof W ip bn = blockof V ip bn).
  { intros bn [Hd|Hd]; apply blockof_frame; [by left|right]. rewrite Hd in F5. by eapply HW. }
  assert (Hn : forall bn, 0 <= bn < nb -> bn < NDIRECT \/ ind = true).
  { intros bn Hbn. destruct (decide (bn < NDIRECT)); [by left|right]. apply F3. lia. }
  split; try done.
  - destruct ind; [by apply owner_app|done].
  - intros bn Hbn. rewrite Hb by auto. apply owner_app. auto.
  - intros bn Hbn Hc. rewrite Hb by done. auto.
  - intros k Hk. rewrite <- F8 by done. unfold file_byte. pose proof (block_of_byte k nb Hk) as Hq.
    rewrite Hb by auto. erewrite HW; [done|]. by apply F6.
Qed.

(** The kernel's view of such a file. *)
Lemma file_at_mapped V G j ip nb ind c home lim :
  file_at V G j ip nb ind c -> first_data + Z.of_nat (length G) <= home ->
  (forall a, 0 <= a < home -> length (V a) = 512%nat) -> lim <= nb * BSIZE -> mapped V ip home lim.
Proof.
  intros [F1 F2 F3 F4 F5 F6 F7 F8] Hh Hl Hlim. change BSIZE with 512 in *. change MAXFILE with 140 in *.
  change NDIRECT with 12 in *.
  assert (Hb : forall bn, 0 <= bn -> bn * 512 < lim -> owner G (blockof V ip bn) = Some (j, bn)).
  { intros bn H0 H1. apply F6. lia. }
  assert (Hi : 12 * 512 < lim -> owner G (addr_of ip 12) = Some (j, 140)).
  { intros H1. rewrite F3 in F5 by lia. done. }
  split; change BSIZE with 512; change MAXFILE with 140; change NDIRECT with 12; try done.
  - lia.
  - intros bn H0 H1. pose proof (owner_range _ _ _ (Hb bn H0 H1)). unfold first_data in *.
    split; [lia|]. apply Hl. lia.
  - intros H1. pose proof (owner_range _ _ _ (Hi H1)). unfold first_data in *. lia.
  - intros b d Hb0 Hd0 Hb1 Hd1 He. pose proof (Hb b Hb0 Hb1) as H1. rewrite He, Hb in H1 by done. congruence.
  - intros bn H0 H1 H2 He. pose proof (Hb bn H0 H1) as H3. rewrite He, Hi in H3 by done.
    injection H3 as H3. lia.
Qed.

(** Writing a stretch at the end of the file. *)
Lemma file_at_write V G j ip nb ind c x home :
  let off := Z.of_nat (length c) in
  let b := blockof V ip (off / BSIZE) in
  file_at V G j ip nb ind c -> first_data + Z.of_nat (length G) <= home ->
  (forall a, 0 <= a < home -> length (V a) = 512%nat) ->
  0 < Z.of_nat (length x) -> off mod BSIZE + Z.of_nat (length x) <= BSIZE ->
  off + Z.of_nat (length x) <= nb * BSIZE ->
  file_at (vset V b (splice (Z.to_nat (off mod BSIZE)) x (V b))) G j ip nb ind (c ++ x).
Proof.
  intros off b HF Hh Hl Hx Hin Hend.
  pose proof (file_at_mapped _ _ _ _ _ _ _ home (nb * BSIZE) HF Hh Hl ltac:(lia)) as Hm.
  destruct HF as [F1 F2 F3 F4 F5 F6 F7 F8]. set (V' := vset V b _).
  assert (Hoff : 0 <= off) by lia.
  assert (Hbo : forall bn, bn < NDIRECT \/ ind = true -> blockof V' ip bn = blockof V ip bn).
  { intros bn [Hd|Hd]; apply blockof_frame; [by left|right]. unfold V'. apply vset_ne. intros He.
    rewrite Hd in F5. unfold b in He. rewrite He, F6 in F5.
    - injection F5 as F5. revert F5. pose proof (block_of_byte off nb ltac:(lia)). lia.
    - apply block_of_byte. lia. }
  split; try done.
  - rewrite length_app. lia.
  - intros bn Hbn. rewrite Hbo; [by apply F6|].
    destruct (decide (bn < NDIRECT)); [by left|right]. apply F3. lia.
  - intros bn Hbn Hc. rewrite Hbo by done. by apply F7.
  - intros k Hk. unfold V', b. rewrite (chunk_byte V ip home (nb * BSIZE) off x Hm Hoff Hx Hend Hin k Hk).
    case_decide as Hd.
    + rewrite lookup_app_r by lia. f_equal. f_equal. lia.
    + rewrite F8 by done. f_equal. destruct (decide (k < off)).
      * by rewrite lookup_app_l by lia.
      * rewrite !lookup_ge_None_2; [done|rewrite length_app; lia|lia].
Qed.
(** One more block, full of zeros. *)
Lemma file_at_extend V V' G j ip ip' nb ind c :
  let a := first_data + Z.of_nat (length G) in
  file_at V G j ip nb ind c -> nb < MAXFILE -> (NDIRECT <= nb -> ind = true) ->
  length (i_addrs ip') = 13%nat -> addr_of ip' 12 = addr_of ip 12 ->
  (forall bn, 0 <= bn < MAXFILE -> bn < NDIRECT \/ ind = true ->
     blockof V' ip' bn = if decide (bn = nb) then a else blockof V ip bn) ->
  (forall bn, 0 <= bn < nb -> V' (blockof V ip bn) = V (blockof V ip bn)) -> V' a = zeroes ->
  file_at V' (G ++ [(j, nb)]) j ip' (nb + 1) ind c.
Proof.
  intros a [F1 F2 F3 F4 F5 F6 F7 F8] Hnb Hind Hl H12 Hbo Hbl Hz. change BSIZE with 512 in *.
  change MAXFILE with 140 in *. change NDIRECT with 12 in *.
  assert (Hn : forall bn, 0 <= bn < nb + 1 -> bn < 12 \/ ind = true).
  { intros bn Hbn. destruct (decide (bn < 12)); [by left|right]. apply Hind. lia. }
  split; change BSIZE with 512; change MAXFILE with 140; change NDIRECT with 12; try done; try lia.
  - intros ?. apply Hind. lia.
  - rewrite H12. destruct ind; [by apply owner_app|done].
  - intros bn Hbn. rewrite Hbo by (lia || auto). case_decide as Hd.
    + subst. apply owner_new.
    + apply owner_app, F6. lia.
  - intros bn Hbn Hc. rewrite Hbo by (lia || done). rewrite decide_False by lia. apply F7; [lia|done].
  - intros k Hk. unfold file_byte. pose proof (block_of_byte k (nb + 1) Hk) as Hq. change BSIZE with 512 in *.
    rewrite Hbo by (lia || auto). case_decide as Hd.
    + rewrite Hz. unfold zeroes. pose proof (Z.mod_pos_bound k 512 ltac:(lia)).
      pose proof (Z.div_mod k 512 ltac:(lia)). rewrite lookup_replicate_2 by lia.
      by rewrite lookup_ge_None_2 by lia.
    + rewrite Hbl by lia. rewrite <- F8; [done|]. pose proof (Z.div_mod k 512 ltac:(lia)).
      pose proof (Z.mod_pos_bound k 512 ltac:(lia)). lia.
Qed.

(** The block of indirect addresses. *)
Lemma file_at_indirect V G j ip c :
  let a := first_data + Z.of_nat (length G) in
  file_at V G j ip NDIRECT false c -> V a = zeroes ->
  file_at V (G ++ [(j, MAXFILE)]) j (set_iaddr 12 a ip) NDIRECT true c.
Proof.
  intros a [F1 F2 F3 F4 F5 F6 F7 F8] Hz.
  assert (H12 : addr_of (set_iaddr 12 a ip) 12 = a).
  { unfold addr_of. cbn [set_iaddr i_addrs]. by rewrite list_lookup_insert_eq by lia. }
  assert (Hb : forall bn, 0 <= bn < NDIRECT -> blockof V (set_iaddr 12 a ip) bn = blockof V ip bn).
  { change NDIRECT with 12. intros bn Hbn. unfold blockof. change NDIRECT with 12. destruct (bn <? 12) eqn:E; [|lia].
    unfold addr_of. cbn [set_iaddr i_addrs]. by rewrite list_lookup_insert_ne by lia. }
  split; try done.
  - cbn [set_iaddr i_addrs]. by rewrite length_insert.
  - rewrite H12. apply owner_new.
  - intros bn Hbn. rewrite Hb by done. by apply owner_app, F6.
  - intros bn Hbn _. unfold blockof. destruct (bn <? NDIRECT) eqn:E; [lia|]. rewrite H12, Hz.
    unfold get32, zeroes. change MAXFILE with 140 in Hbn. change NDIRECT with 12 in *.
    assert (slice (4 * Z.to_nat (bn - 12)) 4 (replicate 512 0) = replicate 4 0) as ->; [|done].
    unfold slice. rewrite drop_replicate, take_replicate. f_equal. lia.
  - intros k Hk. rewrite <- F8 by done. unfold file_byte. rewrite Hb; [done|by apply block_of_byte].
Qed.

Lemma file_at_direct V G j ip nb c :
  let a := first_data + Z.of_nat (length G) in
  file_at V G j ip nb false c -> nb < NDIRECT -> V a = zeroes ->
  file_at V (G ++ [(j, nb)]) j (set_iaddr (Z.to_nat nb) a ip) (nb + 1) false c.
Proof.
  intros a HF Hnb Hz. pose proof HF as [F1 F2 F3 F4 F5 F6 F7 F8]. change NDIRECT with 12 in *.
  assert (Ha : forall k, addr_of (set_iaddr (Z.to_nat nb) a ip) k = if decide (k = Z.to_nat nb) then a else addr_of ip k).
  { intros k. unfold addr_of. cbn [set_iaddr i_addrs]. case_decide as Hd.
    - subst. by rewrite list_lookup_insert_eq by lia.
    - by rewrite list_lookup_insert_ne by congruence. }
  apply (file_at_extend V V G j ip); try done; change NDIRECT with 12; try (change MAXFILE with 140; lia).
  - cbn [set_iaddr i_addrs]. by rewrite length_insert.
  - rewrite Ha, decide_False by lia. done.
  - intros bn Hbn [Hd|Hd]; [|done]. unfold blockof. change NDIRECT with 12. destruct (bn <? 12) eqn:E; [|lia].
    rewrite Ha. case_decide; case_decide; try lia; done.
Qed.

Lemma file_at_high V G j ip nb c :
  let a := first_data + Z.of_nat (length G) in
  let b := addr_of ip 12 in
  file_at V G j ip nb true c -> NDIRECT <= nb < MAXFILE -> V a = zeroes -> length (V b) = 512%nat -> is_u32 a ->
  file_at (vset V b (splice (4 * Z.to_nat (nb - NDIRECT)) (be32 a) (V b))) (G ++ [(j, nb)]) j ip (nb + 1) true c.
Proof.
  intros a b HF Hnb Hz Hl Hu. pose proof HF as [F1 F2 F3 F4 F5 F6 F7 F8]. cbv beta iota in F5.
  pose proof (owner_range _ _ _ F5) as Hb. change NDIRECT with 12 in *. change MAXFILE with 140 in *.
  apply (file_at_extend V _ G j ip); try done; change NDIRECT with 12; change MAXFILE with 140.
  - lia.
  - intros bn Hbn _. unfold blockof. change NDIRECT with 12. destruct (bn <? 12) eqn:E.
    + by rewrite decide_False by lia.
    + fold b. rewrite vset_eq. case_decide as Hd.
      * subst. fold (put32 (4 * Z.to_nat (nb - 12)) a (V b)).
        rewrite get32_put32_eq by lia. by apply u32_id.
      * fold (put32 (4 * Z.to_nat (nb - 12)) a (V b)). apply get32_put32_ne; lia.
  - intros bn Hbn. apply vset_ne. intros He. pose proof (F6 bn Hbn) as H6. rewrite He in H6.
    unfold b in H6. rewrite F5 in H6. injection H6 as H6. lia.
  - rewrite vset_ne; [done|]. unfold a, b. lia.
Qed.
(** *** Handing out blocks

    The data blocks end where the log begins. *)
Definition log_start : Z := size - nlog.

Record pool (s : mst) (G : list (nat * Z)) : Prop := {
  po_disk : disk_ok s;
  po_free : freeblock s = first_data + Z.of_nat (length G);
  po_used : usedblocks s = freeblock s;
  po_room : freeblock s <= log_start;
  po_zero : forall a, freeblock s <= a < size -> view s a = zeroes;
}.

Lemma pool_len s G a : pool s G -> 0 <= a < log_start -> length (view s a) = 512%nat.
Proof. intros P Ha. apply length_view; [apply P|]. change log_start with 1014 in Ha. lia. Qed.

Lemma wp_take s G x (Q : Z -> mst -> Prop) :
  let a := first_data + Z.of_nat (length G) in
  pool s G -> a < log_start ->
  (forall s', pool s' (G ++ [x]) -> view s' = view s -> freeinode s' = freeinode s -> view s a = zeroes -> Q a s') ->
  wp take_block Q s.
Proof.
  intros a [P1 P2 P3 P4 P5] Ha HQ. unfold take_block. apply wp_bind, wp_get, wp_bind, wp_modify, wp_ret.
  rewrite P2. fold a. change log_start with 1014 in *. change size with 1024 in *.
  assert (0 <= a) by (unfold a, first_data; lia).
  apply HQ; try done.
  - destruct P1. split; try done; cbn [freeblock usedblocks img]; rewrite ?P3, ?P2; fold a;
      rewrite ?u32_id by (unfold is_u32; lia).
    + rewrite length_app. simpl. unfold a. lia.
    + done.
    + change log_start with 1014. lia.
    + intros b Hb. apply P5. rewrite P2. fold a. change size with 1024 in Hb. lia.
  - apply P5. rewrite P2. fold a. lia.
Qed.

Lemma pool_write s s' G b d :
  pool s G -> disk_ok s' -> (forall x, view s' x = vset (view s) b d x) -> counters s' = counters s ->
  b < first_data + Z.of_nat (length G) -> pool s' G.
Proof.
  intros [P1 P2 P3 P4 P5] Hd Hv Hc Hb. injection Hc as H1 H2 H3 H4. split; try done; rewrite ?H1, ?H2; try done.
  intros a Ha. rewrite Hv, vset_ne by lia. by apply P5.
Qed.

Lemma file_at_ext V W G j ip nb ind c :
  (forall x, W x = V x) -> file_at V G j ip nb ind c -> file_at W G j ip nb ind c.
Proof. intros HW HF. rewrite <- (app_nil_r G). by eapply file_at_frame. Qed.

(** How many blocks [n] bytes take, and with the block of addresses. *)
Definition blocks (n : Z) : Z := (n + 511) / BSIZE.
Definition cost (nb : Z) : Z := nb + (if NDIRECT <? nb then 1 else 0).
Definition needs (n : Z) : Z := cost (blocks n).

Lemma cost_mono a b : a <= b -> cost a <= cost b.
Proof. unfold cost. destruct (NDIRECT <? a) eqn:E1, (NDIRECT <? b) eqn:E2; lia. Qed.
Lemma blocks_mono a b : a <= b -> blocks a <= blocks b.
Proof. intros. unfold blocks. apply Z.div_le_mono; [done|lia]. Qed.
Lemma needs_mono a b : a <= b -> needs a <= needs b.
Proof. intros. by apply cost_mono, blocks_mono. Qed.
Lemma blocks_range n : 0 <= n -> n <= blocks n * BSIZE < n + BSIZE /\ 0 <= blocks n.
Proof.
  intros Hn. unfold blocks. change BSIZE with 512. pose proof (Z.div_mod (n + 511) 512 ltac:(lia)).
  pose proof (Z.mod_pos_bound (n + 511) 512 ltac:(lia)). lia.
Qed.

(** Everything of the inode but its size and addresses. *)
Definition kind_of (ip : inode) : Z * Z * Z * Z := (i_type ip, i_major ip, i_minor ip, i_nlink ip).

(** The addresses are filled in up to block [bn]. *)
Definition grown (s : mst) (G : list (nat * Z)) (j : nat) (ip : inode) (nb : Z) (c : list Z)
    (s' : mst) (ip' : inode) (nb' : Z) (c' : list Z) : Prop :=
  exists xs, pool s' (G ++ xs) /\ Z.of_nat (length xs) = cost nb' - cost nb /\
    file_at (view s') (G ++ xs) j ip' nb' (NDIRECT <? nb') c' /\ inode_range ip' /\
    kind_of ip' = kind_of ip /\ i_size ip' = i_size ip /\ freeinode s' = freeinode s /\
    (forall a, a < first_data + Z.of_nat (length G) -> (forall x, owner G a <> Some (j, x)) -> view s' a = view s a).

Lemma block_addr_old s G j ip nb c bn :
  pool s G -> file_at (view s) G j ip nb (NDIRECT <? nb) c -> inode_range ip -> 0 <= bn < nb ->
  wp (block_addr (dinode_bytes ip) bn) (fun r s' => r = (dinode_bytes ip, blockof (view s) ip bn) /\ s' = s) s.
Proof.
  intros P HF R Hbn. pose proof HF as [F1 F2 F3 F4 F5 F6 F7 F8]. change NDIRECT with 12 in *. change MAXFILE with 140 in *.
  pose proof (owner_range _ _ _ (F6 bn Hbn)) as Hb. unfold block_addr, blockof in *. change NDIRECT with 12 in *.
  pose proof (po_room _ _ P) as Hr. pose proof (po_free _ _ P) as Hf. change log_start with 1014 in Hr.
  unfold first_data in *. destruct (bn <? 12) eqn:E.
  - rewrite !din_addr_bytes by (done || change NDIRECT with 12; lia).
    destruct (addr_of ip (Z.to_nat bn) =? 0) eqn:E0; [lia|]. apply wp_bind, wp_ret, wp_ret.
    by rewrite din_addr_bytes by (done || change NDIRECT with 12; lia).
  - rewrite F3 in F5 by lia. pose proof (owner_range _ _ _ F5) as Hi. unfold first_data in *.
    rewrite !din_addr_bytes by (done || change NDIRECT with 12; lia). change (Z.to_nat 12) with 12%nat.
    destruct (addr_of ip 12 =? 0) eqn:E0; [lia|]. apply wp_bind, wp_ret, wp_bind.
    rewrite din_addr_bytes by (done || change NDIRECT with 12; lia). change (Z.to_nat 12) with 12%nat.
    apply wp_rsect; [apply P|lia|]. cbv zeta. destruct (get32 _ _ =? 0) eqn:E1; [lia|]. by apply wp_bind, wp_ret, wp_ret.
Qed.
Lemma block_addr_direct s G j ip nb c :
  pool s G -> file_at (view s) G j ip nb (NDIRECT <? nb) c -> inode_range ip -> nb < NDIRECT ->
  first_data + Z.of_nat (length G) + 1 <= log_start ->
  wp (block_addr (dinode_bytes ip) nb) (fun r s' => exists ip',
    r = (dinode_bytes ip', blockof (view s') ip' nb) /\ grown s G j ip nb c s' ip' (nb + 1) c) s.
Proof.
  intros P HF R Hnb Hroom. pose proof (fa_nb _ _ _ _ _ _ _ HF) as Hn.
  pose proof (fa_none _ _ _ _ _ _ _ HF nb) as H0. unfold block_addr, blockof in *.
  change NDIRECT with 12 in *. change MAXFILE with 140 in *.
  destruct (nb <? 12) eqn:E; [|lia].
  rewrite din_addr_bytes by (done || change NDIRECT with 12; lia). rewrite H0 by lia. simpl (0 =? 0).
  apply wp_bind, wp_bind. eapply (wp_take s G (j, nb)); [done|lia|]. intros s' P' Hv Hi Hz. apply wp_ret, wp_ret.
  rewrite set_din_addr_bytes by (done || change NDIRECT with 12; lia).
  set (a := first_data + Z.of_nat (length G)) in *.
  assert (Hu : is_u32 a) by (unfold is_u32; pose proof (po_room _ _ P'); change log_start with 1014 in *; unfold a, first_data in *; lia).
  exists (set_iaddr (Z.to_nat nb) a ip). pose proof (range_iaddr (Z.to_nat nb) a ip R Hu) as R'.
  rewrite din_addr_bytes by (done || change NDIRECT with 12; lia). split; [done|].
  exists [(j, nb)]. split_and!; try done.
  - unfold cost. change NDIRECT with 12. simpl. destruct (12 <? nb + 1) eqn:E1; [lia|]. destruct (12 <? nb) eqn:E2; lia.
  - destruct (12 <? nb) eqn:E2 in HF; [lia|]. change NDIRECT with 12. destruct (12 <? nb + 1) eqn:E1; [lia|].
    rewrite Hv. by apply file_at_direct.
  - intros b _ _. by rewrite Hv.
Qed.
(** The entry of block [nb] in the block of indirect addresses. *)
Lemma fill_indirect s G j ip nb c :
  let b := addr_of ip 12 in
  let k := (4 * Z.to_nat (nb - NDIRECT))%nat in
  pool s G -> file_at (view s) G j ip nb true c -> NDIRECT <= nb < MAXFILE ->
  first_data + Z.of_nat (length G) + 1 <= log_start ->
  wp (indirect <- rsect b ;;
      indirect <- (if get32 k indirect =? 0 then
        x <- take_block ;; wsect b (splice k (xint x) indirect) ;;; ret (splice k (xint x) indirect)
      else ret indirect) ;;
      ret (dinode_bytes ip, get32 k indirect)) (fun r s' =>
    r = (dinode_bytes ip, blockof (view s') ip nb) /\ pool s' (G ++ [(j, nb)]) /\
    file_at (view s') (G ++ [(j, nb)]) j ip (nb + 1) true c /\ freeinode s' = freeinode s /\
    (forall a, a <> b -> view s' a = view s a)) s.
Proof.
  intros b k P HF Hnb Hroom. assert (Hfd : first_data = 29) by done. pose proof HF as [F1 F2 F3 F4 F5 F6 F7 F8]. cbv beta iota in F5.
  pose proof (owner_range _ _ _ F5) as Hb. fold b in Hb, F5.
  pose proof (po_room _ _ P) as Hr. pose proof (po_free _ _ P) as Hf. change log_start with 1014 in *.
  pose proof (F7 nb ltac:(lia) ltac:(by right)) as H0. unfold blockof in H0.
  destruct (nb <? NDIRECT) eqn:E; [lia|]. fold b k in H0. assert (Hlen : length (view s b) = 512%nat).
  { apply (pool_len s G); [done|]. change log_start with 1014. lia. }
  apply wp_bind, wp_rsect; [apply P|lia|]. rewrite H0. simpl (0 =? 0). apply wp_bind, wp_bind.
  eapply (wp_take s G (j, nb)); [done|change log_start with 1014; lia|]. intros s1 P1 Hv1 Hi1 Hz.
  set (a := first_data + Z.of_nat (length G)) in *.
  assert (Hu : is_u32 a) by (unfold is_u32, a; lia).
  change MAXFILE with 140 in *. change NDIRECT with 12 in *.
  apply wp_bind, wp_wsect; [apply P1|lia|unfold xint; rewrite length_splice; rewrite ?length_be32; unfold k; lia|].
  intros s2 D2 Hv2 Hc2. rewrite Hv1 in Hv2. apply wp_ret, wp_ret. unfold xint in *.
  injection Hc2 as C1 C2 C3 C4. split_and!.
  - unfold blockof. change NDIRECT with 12. rewrite E. fold b k. by rewrite Hv2, vset_eq.
  - eapply (pool_write s1 s2); [done|done|by rewrite Hv1|unfold counters; congruence|].
    rewrite length_app. simpl. lia.
  - eapply file_at_ext; [exact Hv2|]. unfold k. change 12 with NDIRECT. by apply file_at_high.
  - congruence.
  - intros x Hx. by rewrite Hv2, vset_ne.
Qed.
Lemma block_addr_high s G j ip nb c :
  pool s G -> file_at (view s) G j ip nb (NDIRECT <? nb) c -> inode_range ip -> NDIRECT <= nb < MAXFILE ->
  first_data + Z.of_nat (length G) + (cost (nb + 1) - cost nb) <= log_start ->
  wp (block_addr (dinode_bytes ip) nb) (fun r s' => exists ip',
    r = (dinode_bytes ip', blockof (view s') ip' nb) /\ grown s G j ip nb c s' ip' (nb + 1) c) s.
Proof.
  intros P HF R Hnb Hroom. assert (Hfd : first_data = 29) by done. unfold cost in Hroom.
  pose proof (fa_ind _ _ _ _ _ _ _ HF) as F5. unfold block_addr.
  rewrite (din_addr_bytes NDIRECT) by (done || lia). destruct (nb <? NDIRECT) eqn:E; [lia|].
  destruct (NDIRECT <? nb + 1) eqn:E1; [|lia]. change (Z.to_nat NDIRECT) with 12%nat.
  destruct (NDIRECT <? nb) eqn:E2; cbv beta iota in F5.
  - pose proof (owner_range _ _ _ F5) as Hi. destruct (addr_of ip 12 =? 0) eqn:E0; [lia|].
    apply wp_bind, wp_ret. rewrite din_addr_bytes by (done || lia). change (Z.to_nat NDIRECT) with 12%nat.
    eapply wp_mono; [apply (fill_indirect s G j ip nb c); (done || lia)|]. cbv beta.
    intros r s' (-> & P' & F' & I' & V'). exists ip. split; [done|]. exists [(j, nb)]. split_and!; try done.
    + unfold cost. rewrite E1, E2. simpl. lia.
    + by rewrite E1.
    + intros a Ha Ho. apply V'. intros ->. by apply (Ho MAXFILE).
  - assert (nb = NDIRECT) as -> by lia. rewrite F5. simpl (0 =? 0). apply wp_bind, wp_bind.
    eapply (wp_take s G (j, MAXFILE)); [done|lia|]. intros s1 P1 Hv1 Hi1 Hz. apply wp_ret.
    set (a := first_data + Z.of_nat (length G)) in *. change log_start with 1014 in *.
    assert (Hu : is_u32 a) by (unfold is_u32, a; lia).
    rewrite set_din_addr_bytes by (done || lia). change (Z.to_nat NDIRECT) with 12%nat.
    pose proof (range_iaddr 12 a ip R Hu) as R1. set (ip1 := set_iaddr 12 a ip) in *.
    rewrite din_addr_bytes by (done || lia). change (Z.to_nat NDIRECT) with 12%nat.
    assert (Ha12 : addr_of ip1 12 = a).
    { unfold addr_of, ip1. cbn [set_iaddr i_addrs]. rewrite list_lookup_insert_eq; [done|]. rewrite (ir_len _ R). lia. }
    eapply wp_mono.
    + apply (fill_indirect s1 (G ++ [(j, MAXFILE)]) j ip1 NDIRECT c); [done| |done|].
      * rewrite Hv1. by apply file_at_indirect.
      * rewrite length_app. simpl length. change log_start with 1014. lia.
    + cbv beta. intros r s' (-> & P' & F' & I' & V'). exists ip1. split; [done|].
      exists [(j, MAXFILE); (j, NDIRECT)]. rewrite <- app_assoc in P', F'. split_and!; try done; [congruence|].
      intros x Hx _. rewrite V', Hv1; [done|]. rewrite Ha12. unfold a. lia.
Qed.

(** [iappend]'s block for the bytes at the end of the file. *)
Lemma block_addr_run s G j ip c :
  let off := Z.of_nat (length c) in
  pool s G -> file_at (view s) G j ip (blocks off) (NDIRECT <? blocks off) c -> inode_range ip ->
  off / BSIZE < MAXFILE ->
  first_data + Z.of_nat (length G) + (cost (off / BSIZE + 1) - needs off) <= log_start ->
  wp (block_addr (dinode_bytes ip) (off / BSIZE)) (fun r s' => exists ip',
    r = (dinode_bytes ip', blockof (view s') ip' (off / BSIZE)) /\
    grown s G j ip (blocks off) c s' ip' (off / BSIZE + 1) c) s.
Proof.
  intros off P HF R Hbn Hroom. unfold needs in Hroom.
  assert (Hc : blocks off = off / BSIZE \/ blocks off = off / BSIZE + 1).
  { destruct (blocks_range off ltac:(lia)). change BSIZE with 512 in *. pose proof (Z.div_mod off 512 ltac:(lia)).
    pose proof (Z.mod_pos_bound off 512 ltac:(lia)). lia. }
  assert (H0 : 0 <= off / BSIZE) by (apply Z.div_pos; [lia|done]).
  destruct Hc as [He|He].
  - rewrite He in *. destruct (decide (off / BSIZE < NDIRECT)) as [Hd|Hd].
    + apply block_addr_direct; try done. revert Hroom. unfold cost.
      destruct (NDIRECT <? off / BSIZE + 1) eqn:E1; [lia|]. destruct (NDIRECT <? off / BSIZE) eqn:E2; lia.
    + apply block_addr_high; try done. lia.
  - eapply wp_mono; [apply (block_addr_old s G j ip (blocks off) c); (done || lia)|]. cbv beta.
    intros r s' [-> ->]. exists ip. split; [done|]. exists []. rewrite app_nil_r, He in *.
    split_and!; try done. simpl. lia.
Qed.
Lemma owner_old G xs a : a < first_data + Z.of_nat (length G) -> owner (G ++ xs) a = owner G a.
Proof.
  intros Ha. unfold owner. destruct (a <? first_data) eqn:E; [done|]. apply Z.ltb_ge in E.
  apply lookup_app_l. lia.
Qed.

Lemma grown_refl s G j ip nb c :
  pool s G -> file_at (view s) G j ip nb (NDIRECT <? nb) c -> inode_range ip -> grown s G j ip nb c s ip nb c.
Proof. intros P F R. exists []. rewrite app_nil_r. split_and!; try done. simpl. lia. Qed.

(** Writing the bytes [x] into the block that is there for them. *)
Lemma grown_write s G j ip nb c s1 ip1 nb1 x s2 :
  let off := Z.of_nat (length c) in
  let b := blockof (view s1) ip1 (off / BSIZE) in
  grown s G j ip nb c s1 ip1 nb1 c -> disk_ok s2 ->
  (forall a, view s2 a = vset (view s1) b (splice (Z.to_nat (off mod BSIZE)) x (view s1 b)) a) ->
  counters s2 = counters s1 -> 0 < Z.of_nat (length x) ->
  off mod BSIZE + Z.of_nat (length x) <= BSIZE -> off + Z.of_nat (length x) <= nb1 * BSIZE ->
  grown s G j ip nb c s2 ip1 nb1 (c ++ x).
Proof.
  intros off b (xs & P & Hn & F & R & K & Z & I & Hv) D2 Hv2 Hc2 Hx Hin Hend.
  assert (Hob : owner (G ++ xs) b = Some (j, off / BSIZE)).
  { apply (fa_block _ _ _ _ _ _ _ F). apply block_of_byte. lia. }
  pose proof (owner_range _ _ _ Hob) as Hb. exists xs. split_and!; try done.
  - by eapply pool_write; [exact P|done|exact Hv2|done|lia].
  - eapply file_at_ext; [exact Hv2|]. eapply (file_at_write _ _ _ _ _ _ _ _ log_start); try done.
    + rewrite <- (po_free _ _ P). apply P.
    + intros a Ha. by apply (pool_len s1 (G ++ xs)).
  - injection Hc2 as _ _ _ ->. done.
  - intros a Ha Ho. rewrite Hv2, vset_ne; [by apply Hv|]. intros ->.
    rewrite owner_old in Hob by done. by eapply Ho.
Qed.

Lemma grown_trans s G j ip nb c s1 ip1 nb1 c1 (Q : mst -> inode -> Prop) :
  grown s G j ip nb c s1 ip1 nb1 c1 ->
  (forall xs, pool s1 (G ++ xs) -> Z.of_nat (length xs) = cost nb1 - cost nb ->
     file_at (view s1) (G ++ xs) j ip1 nb1 (NDIRECT <? nb1) c1 -> inode_range ip1 ->
     (forall s2 ip2 nb2 c2, grown s1 (G ++ xs) j ip1 nb1 c1 s2 ip2 nb2 c2 -> grown s G j ip nb c s2 ip2 nb2 c2) ->
     Q s1 ip1) -> Q s1 ip1.
Proof.
  intros (xs & P & Hn & F & R & K & Z & I & Hv) HQ. apply (HQ xs); try done.
  intros s2 ip2 nb2 c2 (ys & P2 & Hn2 & F2 & R2 & K2 & Z2 & I2 & Hv2). exists (xs ++ ys).
  rewrite <- app_assoc in P2, F2. split_and!; try done; try congruence.
  - rewrite length_app. lia.
  - intros a Ha Ho. rewrite Hv2; [by apply Hv|rewrite length_app; lia|]. by rewrite owner_old.
Qed.

Lemma grown_block s G j ip nb c s1 ip1 nb1 c1 bn :
  grown s G j ip nb c s1 ip1 nb1 c1 -> 0 <= bn < nb1 -> disk_ok s1 /\ 0 <= blockof (view s1) ip1 bn < log_start.
Proof.
  intros (xs & P & _ & F & _) Hbn. split; [apply P|].
  pose proof (owner_range _ _ _ (fa_block _ _ _ _ _ _ _ F bn Hbn)) as Hr.
  pose proof (po_room _ _ P) as Hr2. rewrite (po_free _ _ P) in Hr2. unfold first_data in *. lia.
Qed.

(** The blocks after a stretch inside block [off / BSIZE]. *)
Lemma blocks_step off n :
  0 <= off -> 0 < n -> off mod BSIZE + n <= BSIZE -> blocks (off + n) = off / BSIZE + 1.
Proof.
  change BSIZE with 512. intros Ho Hn Hin. unfold blocks. change BSIZE with 512. pose proof (Z.div_mod off 512 ltac:(lia)).
  pose proof (Z.mod_pos_bound off 512 ltac:(lia)). symmetry.
  apply (Z.div_unique _ _ _ (off mod 512 + n - 1)); lia.
Qed.

Lemma append_loop_run j : forall fuel s G ip c p,
  let off := Z.of_nat (length c) in
  let n := Z.of_nat (length p) in
  pool s G -> file_at (view s) G j ip (blocks off) (NDIRECT <? blocks off) c -> inode_range ip ->
  off + n <= MAXFILE * BSIZE ->
  first_data + Z.of_nat (length G) + (needs (off + n) - needs off) <= log_start -> (length p < fuel)%nat ->
  wp (append_loop fuel (dinode_bytes ip) off p n) (fun r s' => exists ip', r = (dinode_bytes ip', off + n) /\
    grown s G j ip (blocks off) c s' ip' (blocks (off + n)) (c ++ p)) s.
Proof.
  induction fuel as [|fuel IH]; intros s G ip c p off n P F R Hmax Hroom Hf; [lia|].
  cbn [append_loop]. destruct (n >? 0) eqn:E; cbn [negb].
  2:{ apply wp_ret. exists ip. assert (p = []) as -> by (destruct p; [done|simpl in n; lia]).
      rewrite app_nil_r. replace (off + n) with off by lia. split; [done|]. by apply grown_refl. }
  change 512 with BSIZE. assert (Hmod : 0 <= off mod BSIZE < BSIZE) by (apply Z.mod_pos_bound; done).
  pose proof (Z.div_mod off BSIZE ltac:(done)) as Hdm.
  assert (Hq : 0 <= off / BSIZE < MAXFILE).
  { split; [apply Z.div_pos; [lia|done]|]. apply Z.div_lt_upper_bound; [done|].
    change (MAXFILE * BSIZE) with 71680 in Hmax. change (BSIZE * MAXFILE) with 71680. lia. }
  destruct (off / BSIZE <? MAXFILE) eqn:E1; [cbn [negb]|lia].
  set (m := Z.min n ((off / BSIZE + 1) * BSIZE - off)).
  assert (Hm : 0 < m <= n /\ off mod BSIZE + m <= BSIZE) by (unfold m; change BSIZE with 512 in *; lia).
  pose proof (blocks_step off m ltac:(lia) ltac:(lia) ltac:(lia)) as Hbm.
  assert (Hcost : cost (off / BSIZE + 1) <= needs (off + n)).
  { rewrite <- Hbm. apply cost_mono, blocks_mono. lia. }
  apply wp_bind. eapply wp_mono; [apply (block_addr_run s G j ip c P F R); [exact (proj2 Hq)|fold off; lia]|]. cbv beta.
  intros r s1 (ip1 & -> & Hg). fold off in Hg |- *. set (b := blockof (view s1) ip1 (off / BSIZE)).
  destruct (grown_block _ _ _ _ _ _ _ _ _ _ (off / BSIZE) Hg ltac:(lia)) as [D1 Hb]. fold b in Hb.
  set (x := take (Z.to_nat m) p). assert (Hx : Z.of_nat (length x) = m) by (unfold x; rewrite length_take; lia).
  replace (off - off / BSIZE * BSIZE) with (off mod BSIZE) by lia. change log_start with 1014 in Hb.
  apply wp_bind, wp_rsect; [done|lia|]. apply wp_bind. fold x.
  apply wp_wsect; [done|lia| |].
  { assert (length (view s1 b) = 512%nat) by (apply length_view; [done|lia]). change BSIZE with 512 in *.
    rewrite length_splice; [done|lia]. }
  intros s2 D2 Hv2 Hc2.
  assert (Hg2 : grown s G j ip (blocks off) c s2 ip1 (off / BSIZE + 1) (c ++ x)).
  { apply (grown_write s G j ip (blocks off) c s1 ip1 _ x s2 Hg D2); try done; try lia.
    fold off. rewrite Hx. change BSIZE with 512 in *. lia. }
  assert (Hoff : Z.of_nat (length (c ++ x)) = off + m) by (rewrite length_app; lia).
  rewrite u32_id by (unfold is_u32; change (MAXFILE * BSIZE) with 71680 in Hmax; lia).
  rewrite <- Hoff. replace (n - m) with (Z.of_nat (length (drop (Z.to_nat m) p))) by (rewrite length_drop; lia).
  rewrite <- Hbm, <- Hoff in Hg2. revert Hg2. intros Hg2.
  apply (grown_trans _ _ _ _ _ _ _ _ _ _
    (fun s2 ip1 => wp (append_loop fuel (dinode_bytes ip1) (Z.of_nat (length (c ++ x))) (drop (Z.to_nat m) p)
       (Z.of_nat (length (drop (Z.to_nat m) p)))) _ s2) Hg2).
  intros xs P2 Hxs F2 R2 Htr. rewrite Hoff in *.
  assert (Hdl : Z.of_nat (length (drop (Z.to_nat m) p)) = n - m) by (rewrite length_drop; lia).
  pose proof (IH s2 (G ++ xs) ip1 (c ++ x) (drop (Z.to_nat m) p)) as IH'. cbv zeta in IH'.
  rewrite Hoff, Hdl in IH'. replace (off + m + (n - m)) with (off + n) in IH' by lia. rewrite Hdl.
  eapply wp_mono; [apply IH'; try done; try lia|].
  - rewrite length_app. unfold needs in *. lia.
  - cbv beta. intros r s3 (ip3 & -> & Hg3). exists ip3. split; [done|]. apply Htr in Hg3.
    rewrite <- app_assoc in Hg3. unfold x in Hg3. by rewrite take_drop in Hg3.
Qed.
End Mkfs.
