(* ===== verification/Image.v ===== *)
(** The image mkfs.c builds is a file system the kernel reads: the files,
    the root directory, the bitmap and the superblock that [main] leaves. *)
From stdpp Require Import base numbers list strings sets gmap.
From S2P Require Import Prelude Params Str Spinlock Sched Bio Cache BlockIf Log Crash Balloc Inode FileData Dir Mkfs.
Import Mkfs.

Set Warnings "-clear-no-such-hyp".

(** ** The image while it is built

    [F] lists the files by inode, from inode 1 on, with type and contents. *)
Definition file_on (s : mst) (G : list (nat * Z)) (j : nat) (t : Z) (c : list Z) : Prop :=
  exists ip, dino (view s) (Z.of_nat j + 1) = dinode_bytes ip /\ inode_range ip /\
    kind_of ip = (t, 0, 0, 1) /\ i_size ip = Z.of_nat (length c) /\
    file_at (view s) G j ip (blocks (Z.of_nat (length c))) (NDIRECT <? blocks (Z.of_nat (length c))) c.

Definition total (F : list (Z * list Z)) : Z := foldr (fun x n => needs (Z.of_nat (length x.2)) + n) 0 F.

Record built (s : mst) (F : list (Z * list Z)) (G : list (nat * Z)) : Prop := {
  bu_pool : pool s G;
  bu_cost : Z.of_nat (length G) = total F;
  bu_ino : freeinode s = 1 + Z.of_nat (length F);
  bu_max : 1 + Z.of_nat (length F) <= ninodes;
  bu_sb : view s 1 = splice 0 sb_bytes zeroes;
  bu_file : forall j t c, F !! j = Some (t, c) -> file_on s G j t c;
  bu_none : forall i, 0 <= i < ninodes -> i = 0 \/ freeinode s <= i -> dino (view s) i = replicate 64 0;
}.

Lemma needs_nonneg n : 0 <= n -> 0 <= needs n.
Proof.
  intros Hn. destruct (blocks_range n Hn) as [_ Hb]. unfold needs, cost.
  destruct (NDIRECT <? blocks n); lia.
Qed.
Lemma total_cons x F : total (x :: F) = needs (Z.of_nat (length x.2)) + total F.
Proof. done. Qed.
Lemma total_app F F' : total (F ++ F') = total F + total F'.
Proof. induction F as [|x F IH]; simpl; [done|]. rewrite IH. lia. Qed.
Lemma total_insert F j x y :
  F !! j = Some x ->
  total (<[j := y]> F) = total F - needs (Z.of_nat (length x.2)) + needs (Z.of_nat (length y.2)).
Proof.
  revert j. induction F as [|z F IH]; intros [|j] Hj; try discriminate Hj.
  - injection Hj as ->. simpl. lia.
  - simpl. simpl in Hj. rewrite (IH j Hj). lia.
Qed.
Lemma total_nonneg F : 0 <= total F.
Proof. induction F as [|x F IH]; simpl; [done|]. pose proof (needs_nonneg (Z.of_nat (length x.2))). lia. Qed.

Lemma file_on_frame s s' G xs j t c :
  file_on s G j t c -> dino (view s') (Z.of_nat j + 1) = dino (view s) (Z.of_nat j + 1) ->
  (forall a x, owner G a = Some (j, x) -> view s' a = view s a) -> file_on s' (G ++ xs) j t c.
Proof.
  intros (ip & Hd & R & K & Hs & F) He Hv. exists ip. split_and!; try done; [congruence|].
  by eapply file_at_frame.
Qed.

(** A block of inodes is nobody's data. *)
Lemma owner_ne G a x inum : owner G a = Some x -> 0 <= inum < ninodes -> a <> IBLOCK inum.
Proof. intros Ho%owner_range Hi%IBLOCK_range. unfold first_data in Ho. lia. Qed.

Lemma pool_winode s s' G inum :
  pool s G -> disk_ok s' -> 0 <= inum < ninodes -> counters s' = counters s ->
  (forall x, x <> IBLOCK inum -> view s' x = view s x) -> pool s' G.
Proof.
  intros [P1 P2 P3 P4 P5] D Hi%IBLOCK_range Hc Hv. injection Hc as H1 H2 H3 H4.
  split; try done; rewrite ?H1, ?H2; try done. intros a Ha. unfold first_data in *.
  rewrite Hv by lia. by apply P5.
Qed.

(** *** ialloc *)
Definition new_inode (t : Z) : inode := Inode 0 0 0 0 t 0 0 1 0 (replicate 13 0).

Lemma din_new_bytes t : din_new t = dinode_bytes (new_inode t).
Proof. reflexivity. Qed.

Lemma file_at_new V G j t : file_at V G j (new_inode t) 0 false [].
Proof.
  split; try done; simpl; try lia. intros bn Hbn [Hd|Hd]; [|done]. unfold blockof.
  destruct (bn <? NDIRECT) eqn:E; [|lia]. unfold addr_of, new_inode. cbn [i_addrs].
  change NDIRECT with 12 in Hd. by rewrite lookup_replicate_2 by lia.
Qed.

Lemma ialloc_run s F G t :
  built s F G -> 1 + Z.of_nat (length F) < ninodes -> 0 <= t < 2 ^ 15 ->
  wp (ialloc t) (fun r s' => r = 1 + Z.of_nat (length F) /\ built s' (F ++ [(t, [])]) G) s.
Proof.
  intros [B1 B2 B3 B4 B5 B6 B7] Hm Ht. unfold ialloc. apply wp_bind, wp_get, wp_bind, wp_modify.
  set (s1 := Mst _ _ _ _ _). change ninodes with 200 in *. rewrite B3. apply wp_bind.
  assert (Hu : freeinode s1 = 1 + Z.of_nat (length F) + 1).
  { unfold s1. cbn [freeinode]. rewrite B3. apply u32_id. unfold is_u32. lia. }
  pose proof (IBLOCK_range (1 + Z.of_nat (length F)) ltac:(change ninodes with 200; lia)) as Hib.
  assert (D1 : disk_ok s1) by (by destruct (po_disk _ _ B1); split).
  apply wp_winode; [done|change ninodes with 200; lia|done|].
  intros s' D Hd Hne Hv Hc. apply wp_ret. split; [done|].
  assert (H28 : forall G a x, owner G a = Some x -> view s' a = view s a).
  { intros G' a x Ho. apply (Hv a). eapply owner_ne; [exact Ho|]. change ninodes with 200. lia. }
  assert (Hc4 : freeinode s' = freeinode s1) by (by injection Hc).
  assert (Hc' : (freeblock s', usedblocks s', bitblocks s') = (freeblock s, usedblocks s, bitblocks s)) by (by injection Hc as -> -> -> _).
  split.
  - destruct B1 as [P1 P2 P3 P4 P5]. injection Hc' as C1 C2 C3. split; rewrite ?C1, ?C2; try done.
    intros a Ha. rewrite Hv; [by apply P5|]. unfold first_data in *. lia.
  - rewrite total_app, B2. change (total [(t, [])]) with 0. lia.
  - rewrite Hc4, Hu, length_app. simpl. lia.
  - rewrite length_app. simpl. change ninodes with 200. lia.
  - rewrite Hv; [done|lia].
  - intros j t' c Hj. apply lookup_app_Some in Hj as [Hj|[Hj1 Hj]].
    + rewrite <- (app_nil_r G). pose proof (lookup_lt_Some _ _ _ Hj). eapply file_on_frame; [by apply B6|..].
      * rewrite Hne by lia. done.
      * intros a x. apply H28.
    + apply list_lookup_singleton_Some in Hj as [Hj0 [= <- <-]]. exists (new_inode t).
      replace (Z.of_nat j + 1) with (1 + Z.of_nat (length F)) by lia. split_and!; try done.
      * split; try done; unfold is_s16; cbn [new_inode i_type]; (lia || by repeat constructor).
      * apply file_at_new.
  - intros i Hi Hc0. rewrite Hc4, Hu in Hc0. rewrite Hne by lia. apply B7; [done|]. rewrite B3. lia.
Qed.

(** *** iappend *)
Lemma grown_low s G j ip nb c s' ip' nb' c' :
  grown s G j ip nb c s' ip' nb' c' -> forall a, a < first_data -> view s' a = view s a.
Proof.
  intros (xs & _ & _ & _ & _ & _ & _ & _ & Hv) a Ha. apply Hv; [lia|]. intros x Ho%owner_range. lia.
Qed.

Lemma iappend_run s F G j t c p :
  built s F G -> F !! j = Some (t, c) -> Z.of_nat (length c + length p) <= MAXFILE * BSIZE ->
  first_data + total (<[j := (t, c ++ p)]> F) <= log_start ->
  wp (iappend (Z.of_nat j + 1) p (Z.of_nat (length p))) (fun _ s' => exists G', built s' (<[j := (t, c ++ p)]> F) G') s.
Proof.
  intros [B1 B2 B3 B4 B5 B6 B7] Hj Hmax Hroom. pose proof (lookup_lt_Some _ _ _ Hj) as Hlt.
  destruct (B6 j t c Hj) as (ip & Hdi & R & K & Hs & HF).
  assert (Hi : 0 <= Z.of_nat j + 1 < ninodes) by lia. pose proof (IBLOCK_range _ Hi) as Hib.
  rewrite (total_insert _ _ _ _ Hj) in Hroom. cbn [snd] in Hroom. rewrite length_app, Nat2Z.inj_add in Hroom.
  rewrite Nat2Z.inj_add in Hmax. change (MAXFILE * BSIZE) with 71680 in *.
  unfold iappend. apply wp_bind, wp_rinode; [apply B1|done|]. rewrite Hdi, Nat2Z.id.
  rewrite din_size_bytes by apply R. rewrite Hs. apply wp_bind.
  eapply wp_mono; [apply (append_loop_run j (S (length p)) s G ip c p); try done; lia|].
  cbv beta. intros r s1 (ip1 & -> & Hg). pose proof (grown_low _ _ _ _ _ _ _ _ _ _ Hg) as Hlow.
  destruct Hg as (xs & P1 & Hxs & F1 & R1 & K1 & Z1 & I1 & Hv1). rewrite set_din_size_bytes.
  assert (Hdn : forall i, 0 <= i < ninodes -> dino (view s1) i = dino (view s) i).
  { intros i Hi'. unfold dino. rewrite Hlow; [done|]. pose proof (IBLOCK_range i Hi'). unfold first_data. lia. }
  apply wp_winode; [apply P1|done|apply length_dinode_bytes, R1|].
  intros s2 D2 Hd2 Hne Hv2 Hc2. injection Hc2 as C1 C2 C3 C4. exists (G ++ xs). split.
  - eapply (pool_winode s1 s2); [done|done|exact Hi|unfold counters; congruence|done].
  - rewrite (total_insert _ _ _ _ Hj). cbn [snd]. rewrite !length_app, !Nat2Z.inj_add. unfold needs in *. lia.
  - rewrite length_insert. congruence.
  - by rewrite length_insert.
  - rewrite Hv2, Hlow by (unfold first_data; lia). done.
  - intros j' t' c' Hj'. destruct (decide (j' = j)) as [->|Hjj].
    + rewrite list_lookup_insert_eq in Hj' by done. injection Hj' as <- <-.
      exists (set_isize (Z.of_nat (length c) + Z.of_nat (length p)) ip1). rewrite length_app, Nat2Z.inj_add.
      split_and!; try done.
      * apply range_isize; [done|]. unfold is_u32. lia.
      * by rewrite <- K, <- K1.
      * destruct F1 as [Q1 Q2 Q3 Q4 Q5 Q6 Q7 Q8]. rewrite <- (app_nil_r (G ++ xs)).
        eapply (file_at_frame (view s1)); [by split|]. intros a x Ho. apply Hv2. by eapply owner_ne.
    + rewrite list_lookup_insert_ne in Hj' by congruence. pose proof (lookup_lt_Some _ _ _ Hj') as Hlt'.
      eapply file_on_frame; [by apply B6|..].
      * rewrite Hne, Hdn by lia. done.
      * intros a x Ho. rewrite Hv2 by (by eapply owner_ne). apply Hv1; [apply owner_range in Ho; lia|].
        intros y Hy. rewrite Ho in Hy. congruence.
  - intros i Hi' Hc. rewrite C4, I1, B3 in Hc. rewrite Hne, Hdn by lia. apply B7; [done|]. lia.
Qed.

(** *** The files *)
Definition good (host : list Z -> option (list Z)) (arg c : list Z) : Prop :=
  host arg = Some c /\ existsb (Z.eqb 47) arg = false /\ Z.of_nat (length c) <= MAXFILE * BSIZE.

(** The directory entry of a file, and the entries of all. *)
Definition de_of (i : nat) (arg : list Z) : list Z :=
  de_make (Z.of_nat i + 1) (take (Z.to_nat DIRSIZ) (skip_underscore arg)).
Fixpoint entries (i : nat) (args : list (list Z)) : list Z :=
  match args with
  | [] => []
  | a :: args => de_of i a ++ entries (S i) args
  end.

Lemma length_de_of i a : length (de_of i a) = 16%nat.
Proof. apply length_de_make. rewrite length_take. change (Z.to_nat DIRSIZ) with 14%nat. lia. Qed.
Lemma length_entries i args : length (entries i args) = (16 * length args)%nat.
Proof.
  revert i. induction args as [|a args IH]; intros i; [done|]. cbn [entries].
  rewrite length_app, length_de_of, IH. simpl. lia.
Qed.

(** More bytes in a file need no less room. *)
Lemma total_grow F j t c c' :
  F !! j = Some (t, c) -> (length c <= length c')%nat -> total F <= total (<[j := (t, c')]> F).
Proof.
  intros Hj Hl. rewrite (total_insert _ _ _ _ Hj). cbn [snd].
  pose proof (needs_mono (Z.of_nat (length c)) (Z.of_nat (length c'))). lia.
Qed.

Lemma copy_in_run j t : forall fuel s F G c0 c,
  built s F G -> F !! j = Some (t, c0) -> Z.of_nat (length c0 + length c) <= MAXFILE * BSIZE ->
  first_data + total (<[j := (t, c0 ++ c)]> F) <= log_start -> (length c < fuel)%nat ->
  wp (copy_in fuel (Z.of_nat j + 1) c) (fun _ s' => exists G', built s' (<[j := (t, c0 ++ c)]> F) G') s.
Proof.
  induction fuel as [|fuel IH]; intros s F G c0 c B Hj Hmax Hroom Hf; [lia|]. cbn [copy_in].
  pose proof (lookup_lt_Some _ _ _ Hj) as Hlt.
  destruct (Z.of_nat (length (take 512 c)) >? 0) eqn:E; cbn [negb].
  2:{ apply wp_ret. exists G. assert (c = []) as ->.
      { rewrite length_take, Z.gtb_ltb in E. apply Z.ltb_ge in E. destruct c; [done|simpl in E; lia]. }
      by rewrite app_nil_r, list_insert_id. }
  apply Z.gtb_lt in E. rewrite length_take in E.
  assert (Hj1 : <[j := (t, c0 ++ take 512 c)]> F !! j = Some (t, c0 ++ take 512 c)) by (by rewrite list_lookup_insert_eq).
  assert (Hcat : (c0 ++ take 512 c) ++ drop 512 c = c0 ++ c) by (by rewrite <- app_assoc, take_drop).
  assert (Hins : <[j := (t, (c0 ++ take 512 c) ++ drop 512 c)]> (<[j := (t, c0 ++ take 512 c)]> F) = <[j := (t, c0 ++ c)]> F)
    by (by rewrite list_insert_insert_eq, Hcat).
  pose proof (total_grow _ _ _ _ ((c0 ++ take 512 c) ++ drop 512 c) Hj1 ltac:(rewrite !length_app; lia)) as Hg.
  rewrite Hins in Hg. apply wp_bind.
  eapply wp_mono; [apply (iappend_run s F G j t c0 (take 512 c) B Hj); [rewrite length_take; lia|lia]|].
  cbv beta. intros _ s1 (G1 & B1).
  pose proof (IH s1 _ G1 (c0 ++ take 512 c) (drop 512 c) B1 Hj1) as IH'. rewrite Hins in IH'.
  apply IH'; [rewrite length_app, length_take, length_drop; lia|done|rewrite length_drop; lia].
Qed.

Section files.
  Context (host : list Z -> option (list Z)).

Lemma add_file_run s r fs G arg c :
  let F' := (T_DIR, r ++ de_of (S (length fs)) arg) :: fs ++ [(T_FILE, c)] in
  built s ((T_DIR, r) :: fs) G -> good host arg c -> Z.of_nat (length F') < ninodes ->
  Z.of_nat (length r) + 16 <= MAXFILE * BSIZE -> first_data + total F' <= log_start ->
  wp (add_file host ROOTINO arg) (fun _ s' => exists G', built s' F' G') s.
Proof.
  intros F' B (Hh & Hsl & Hc) Hn Hr Hroom. unfold add_file. rewrite Hsl, Hh. unfold F' in Hn. simpl in Hn.
  rewrite length_app in Hn. simpl in Hn. apply wp_bind.
  eapply wp_mono; [apply (ialloc_run _ _ _ T_FILE B); [simpl; lia|done]|]. cbv beta.
  intros r0 s1 [-> B1]. replace (1 + Z.of_nat (length ((T_DIR, r) :: fs))) with (Z.of_nat (S (length fs)) + 1) by (simpl; lia).
  fold (de_of (S (length fs)) arg). set (de := de_of (S (length fs)) arg) in *.
  assert (Hde : length de = 16%nat) by apply length_de_of.
  assert (HF : F' = (T_DIR, r ++ de) :: fs ++ [(T_FILE, c)]) by done.
  rewrite HF, total_cons, total_app, total_cons in Hroom. cbn [snd] in Hroom. change (total []) with 0 in Hroom.
  pose proof (needs_nonneg (Z.of_nat (length c)) ltac:(lia)) as Hnn.
  assert (Hlast : forall x : Z * list Z, (fs ++ [x]) !! length fs = Some x) by (intros; by rewrite lookup_app_r, Nat.sub_diag by lia).
  assert (Hins : forall x y : Z * list Z, <[length fs := y]> (fs ++ [x]) = fs ++ [y])
    by (intros; by rewrite insert_app_r_alt, Nat.sub_diag by lia).
  apply wp_bind. change DIRENT_SIZE with (Z.of_nat 16). rewrite <- Hde. change ROOTINO with (Z.of_nat 0 + 1).
  eapply wp_mono; [apply (iappend_run s1 _ G 0 T_DIR r de B1); [done|lia|]|].
  { simpl (<[_ := _]> _). rewrite total_cons, total_app. cbn [snd]. change (total [(T_FILE, [])]) with 0. lia. }
  cbv beta. intros _ s2 (G2 & B2). simpl (<[_ := _]> _) in B2.
  pose proof (copy_in_run (S (length fs)) T_FILE (S (length c)) s2 _ G2 [] c B2) as Hcp.
  simpl (<[_ := _]> _) in Hcp. rewrite Hins in Hcp. rewrite HF. apply Hcp; [apply Hlast|simpl; lia| |lia].
  rewrite total_cons, total_app, total_cons. cbn [snd]. change (total []) with 0. lia.
Qed.

Lemma add_files_run args cs : Forall2 (good host) args cs -> forall s r fs G,
  let F' := (T_DIR, r ++ entries (S (length fs)) args) :: fs ++ ((fun c => (T_FILE, c)) <$> cs) in
  built s ((T_DIR, r) :: fs) G -> Z.of_nat (length F') < ninodes ->
  Z.of_nat (length r + 16 * length args) <= MAXFILE * BSIZE -> first_data + total F' <= log_start ->
  wp (add_files host ROOTINO args) (fun _ s' => exists G', built s' F' G') s.
Proof.
  induction 1 as [|a c args cs Ha HF IH]; intros s r fs G F' B Hn Hr Hroom; cbn [add_files].
  - apply wp_ret. exists G. unfold F'. simpl. by rewrite !app_nil_r.
  - set (de := de_of (S (length fs)) a).
    assert (HF' : F' = (T_DIR, (r ++ de) ++ entries (S (length (fs ++ [(T_FILE, c)]))) args) ::
        (fs ++ [(T_FILE, c)]) ++ ((fun c => (T_FILE, c)) <$> cs)).
    { unfold F'. cbn [entries]. rewrite fmap_cons, <- !app_assoc. fold de.
      rewrite length_app. simpl. by rewrite Nat.add_1_r. }
    clearbody F'. subst F'. rewrite length_cons, length_app in Hn. rewrite length_cons in Hr.
    pose proof (length_de_of (S (length fs)) a) as Hde. fold de in Hde.
    apply wp_bind. eapply wp_mono; [apply (add_file_run s r fs G a c B Ha)|]; fold de.
    + rewrite length_cons. lia.
    + lia.
    + revert Hroom. rewrite !total_cons, total_app. cbn [snd].
      pose proof (total_nonneg ((fun c => (T_FILE, c)) <$> cs)).
      pose proof (needs_mono (Z.of_nat (length (r ++ de)))
        (Z.of_nat (length ((r ++ de) ++ entries (S (length (fs ++ [(T_FILE, c)]))) args)))
        ltac:(rewrite (length_app (r ++ de)); lia)). lia.
    + cbv beta. intros _ s1 (G1 & B1). apply (IH s1 (r ++ de) (fs ++ [(T_FILE, c)]) G1 B1); [|rewrite length_app; lia|done].
      rewrite length_cons, length_app. lia.
Qed.
End files.

(** *** The bitmap *)
Lemma set_bits_free n : forall i buf bj, (i + n <= 8 * length buf)%nat ->
  bit_free (set_bits i n buf) bj = if decide (i <= bj < i + n)%nat then false else bit_free buf bj.
Proof.
  induction n as [|n IH]; intros i buf bj Hl; cbn [set_bits].
  - by rewrite decide_False by lia.
  - fold (bit_mask i). fold (bit_set i buf). rewrite IH by (rewrite length_bit_set; lia).
    assert (i / 8 < length buf)%nat by (apply Nat.Div0.div_lt_upper_bound; lia).
    rewrite bit_free_set by done. repeat case_decide; try lia; done.
Qed.
Lemma length_set_bits n : forall i buf, length (set_bits i n buf) = length buf.
Proof. induction n as [|n IH]; intros i buf; cbn [set_bits]; [done|]. by rewrite IH, length_alter. Qed.

Lemma bit_free_zeroes bj : (bj < 4096)%nat -> bit_free zeroes bj = true.
Proof.
  intros Hb. unfold bit_free, bit_byte, zeroes.
  rewrite lookup_replicate_2 by (apply Nat.Div0.div_lt_upper_bound; lia). done.
Qed.

(** *** The empty image *)
Lemma zero_all_run s :
  img s = [] -> usedblocks s = first_data ->
  wp zero_all (fun _ s' => img s' = replicate 1024 zeroes /\ counters s' = counters s) s.
Proof.
  intros Hi Hu. unfold zero_all. apply wp_bind, wp_get. rewrite Hu.
  change (Z.to_nat (nblocks + first_data + nlog)) with 1024%nat.
  apply (wp_for (fun i s' => img s' = replicate i zeroes /\ counters s' = counters s)); [done|].
  intros i s' Hi' [Him Hc]. unfold wsect. apply wp_modify. split; [|done]. cbn [img].
  rewrite Him, Nat2Z.id. unfold write_at. rewrite length_replicate, decide_False by lia.
  rewrite Nat.sub_diag, replicate_S_end. done.
Qed.

Lemma view_zero s a : img s = replicate 1024 zeroes -> 0 <= a < 1024 -> view s a = zeroes.
Proof. intros Hi Ha. unfold view. destruct (0 <=? a) eqn:E; [|lia]. rewrite Hi, lookup_replicate_2 by lia. done. Qed.

Lemma built_empty s :
  img s = replicate 1024 zeroes -> freeblock s = first_data -> usedblocks s = first_data -> freeinode s = 1 ->
  wp (wsect 1 (splice 0 sb_bytes zeroes)) (fun _ s' => built s' [] []) s.
Proof.
  intros Hi Hf Hu Hn.
  assert (D : disk_ok s) by (split; rewrite Hi; [apply length_replicate|by apply Forall_replicate]).
  apply wp_wsect; [done|lia|done|]. intros s' D' Hv Hc. injection Hc as C1 C2 C3 C4.
  assert (Hz : forall a, 2 <= a < 1024 -> view s' a = zeroes).
  { intros a Ha. rewrite Hv, vset_ne by lia. apply view_zero; [done|lia]. }
  split; try done; try congruence.
  - split; rewrite ?C1, ?C2, ?Hf, ?Hu; try done. intros a Ha. change size with 1024 in Ha.
    unfold first_data in Ha. apply Hz. lia.
  - by rewrite C4, Hn.
  - intros i Hi' _. pose proof (IBLOCK_range i Hi'). pose proof (dinode_off_bound i). unfold dino.
    rewrite Hz by lia. unfold zeroes, slice. rewrite drop_replicate, take_replicate. f_equal. lia.
Qed.

(** ** The finished image *)
Definition root_bytes (args : list (list Z)) : list Z :=
  de_make ROOTINO [46] ++ de_make ROOTINO [46; 46] ++ entries 1 args.
Definition files (args cs : list (list Z)) : list (Z * list Z) :=
  (T_DIR, root_bytes args) :: ((fun c => (T_FILE, c)) <$> cs).

(** The directory's size, rounded to a block more than it fills. *)
Definition root_size (args : list (list Z)) : Z := (Z.of_nat (length (root_bytes args)) / BSIZE + 1) * BSIZE.

Lemma length_root_bytes args : length (root_bytes args) = (32 + 16 * length args)%nat.
Proof. unfold root_bytes. rewrite !length_app, length_entries, !length_de_make; simpl; lia. Qed.

Record finished (s : mst) (args cs : list (list Z)) (G : list (nat * Z)) (ip : inode) : Prop := {
  fi_disk : disk_ok s;
  fi_used : Z.of_nat (length G) = total (files args cs);
  fi_room : first_data + Z.of_nat (length G) <= log_start;
  fi_sb : view s 1 = splice 0 sb_bytes zeroes;
  fi_map : view s 28 = set_bits 0 (Z.to_nat (first_data + Z.of_nat (length G))) zeroes;
  fi_file : forall j c, cs !! j = Some c -> file_on s G (S j) T_FILE c;
  fi_root : dino (view s) ROOTINO = dinode_bytes ip;
  fi_range : inode_range ip;
  fi_kind : kind_of ip = (T_DIR, 0, 0, 1);
  fi_size : i_size ip = root_size args;
  fi_data : let nb := blocks (Z.of_nat (length (root_bytes args))) in
    file_at (view s) G 0 ip nb (NDIRECT <? nb) (root_bytes args);
  fi_log : forall a, log_start <= a < size -> view s a = zeroes;
  fi_none : forall i, 0 <= i < ninodes -> i = 0 \/ 1 + Z.of_nat (length (files args cs)) <= i ->
    dino (view s) i = replicate 64 0;
}.

(** The last steps of [main]. *)
Lemma finish_run s args cs G :
  built s (files args cs) G ->
  wp (din <- rinode ROOTINO ;;
      let off := din_size din in
      winode ROOTINO (set_din_size (u32 ((off / BSIZE + 1) * BSIZE)) din) ;;;
      s <- get ;; balloc (usedblocks s)) (fun _ s' => exists ip, finished s' args cs G ip) s.
Proof.
  intros [B1 B2 B3 B4 B5 B6 B7]. destruct (B6 0%nat T_DIR (root_bytes args) eq_refl) as (ip & Hd & R & K & Hs & HF).
  assert (Hi : 0 <= ROOTINO < ninodes) by done. assert (Hib : IBLOCK ROOTINO = 2) by done.
  change (Z.of_nat 0 + 1) with ROOTINO in Hd. apply wp_bind, wp_rinode; [apply B1|done|]. cbv zeta. rewrite Hd.
  rewrite din_size_bytes by apply R. rewrite Hs. fold (root_size args). rewrite set_din_size_bytes.
  assert (Hlen : Z.of_nat (length (files args cs)) <= 199) by (change ninodes with 200 in B4; lia).
  assert (Hrs : is_u32 (root_size args)).
  { pose proof (fa_fit _ _ _ _ _ _ _ HF) as Hf. pose proof (fa_nb _ _ _ _ _ _ _ HF) as [_ Hnb].
    unfold root_size, is_u32. change BSIZE with 512 in *. change MAXFILE with 140 in *.
    pose proof (Z.div_mod (Z.of_nat (length (root_bytes args))) 512 ltac:(lia)).
    pose proof (Z.mod_pos_bound (Z.of_nat (length (root_bytes args))) 512 ltac:(lia)). lia. }
  rewrite u32_id by done. apply wp_bind, wp_winode; [apply B1|done|apply length_dinode_bytes, R|].
  intros s1 D1 Hd1 Hne Hv1 Hc1. injection Hc1 as C1 C2 C3 C4. apply wp_bind, wp_get.
  rewrite C2, (po_used _ _ B1), (po_free _ _ B1). pose proof (po_room _ _ B1) as Hroom.
  rewrite (po_free _ _ B1) in Hroom. unfold balloc.
  destruct (first_data + Z.of_nat (length G) <? 512 * 8) eqn:E; cbn [negb].
  2:{ apply Z.ltb_ge in E. change log_start with 1014 in Hroom. lia. }
  change (ninodes / IPB + 3) with 28.
  apply wp_wsect; [done|lia|by rewrite length_set_bits|]. intros s2 D2 Hv2 _.
  assert (Hlow : forall a, a <> 28 -> a <> 2 -> view s2 a = view s a).
  { intros a Ha Hb. rewrite Hv2, vset_ne, Hv1 by congruence. done. }
  assert (Hown : forall a x, owner G a = Some x -> view s2 a = view s a).
  { intros a x Ho%owner_range. unfold first_data in Ho. apply Hlow; lia. }
  assert (Hino : forall i, 0 <= i < ninodes -> dino (view s2) i = dino (view s1) i).
  { intros i Hi'. pose proof (IBLOCK_range i Hi'). unfold dino. rewrite Hv2, vset_ne by lia. done. }
  exists (set_isize (root_size args) ip). split.
  - exact D2.
  - exact B2.
  - exact Hroom.
  - rewrite Hlow by lia. exact B5.
  - rewrite Hv2. apply vset_eq.
  - intros j c Hj. rewrite <- (app_nil_r G). pose proof (lookup_lt_Some _ _ _ Hj) as Hlt.
    assert (Z.of_nat (length cs) <= 198) by (unfold files in Hlen; rewrite length_cons, length_fmap in Hlen; lia).
    eapply file_on_frame; [apply B6; unfold files; simpl; by rewrite list_lookup_fmap, Hj| |by intros; eapply Hown].
    rewrite Hino, Hne; [done|change ROOTINO with 1; lia|change ninodes with 200; lia].
  - rewrite Hino by done. exact Hd1.
  - by apply range_isize.
  - exact K.
  - reflexivity.
  - cbv zeta. rewrite <- (app_nil_r G). destruct HF as [Q1 Q2 Q3 Q4 Q5 Q6 Q7 Q8].
    eapply (file_at_frame (view s)); [by split|]. intros; by eapply Hown.
  - intros a Ha. change log_start with 1014 in *. rewrite Hlow by lia. apply (po_zero _ _ B1). rewrite (po_free _ _ B1). lia.
  - intros i Hi' Hc. rewrite Hino by done. rewrite Hne; [apply B7; [done|rewrite B3; lia]|].
    unfold files in Hc. rewrite length_cons in Hc. change ROOTINO with 1. lia.
Qed.

Lemma main_run creat host image args cs :
  creat image = true -> Forall2 (good host) args cs -> Z.of_nat (length args) <= 198 ->
  first_data + total (files args cs) <= log_start ->
  wp (main creat host (image :: args)) (fun _ s' => exists G ip, finished s' args cs G ip) start.
Proof.
  intros Hcr Hgood Hn Hroom. pose proof (Forall2_length _ _ _ Hgood) as Hlen. unfold main. rewrite Hcr. cbn [negb].
  apply wp_bind, wp_modify, wp_bind, wp_get. cbv zeta.
  set (s0 := Mst _ _ _ _ _). change (negb (nblocks + usedblocks s0 + nlog =? size)) with false. cbv iota.
  apply wp_bind. eapply wp_mono; [by apply zero_all_run|]. cbv beta. intros _ s1 [Hi1 Hc1].
  injection Hc1 as C1 C2 C3 C4. apply wp_bind. eapply wp_mono; [by apply built_empty|]. cbv beta. intros _ s2 B2.
  apply wp_bind. eapply wp_mono; [apply (ialloc_run _ _ _ T_DIR B2); done|]. cbv beta. intros r s3 [-> B3].
  change (negb (1 + Z.of_nat (length (@nil (Z * list Z))) =? ROOTINO)) with false. cbv iota.
  change (1 + Z.of_nat (length (@nil (Z * list Z)))) with ROOTINO. simpl app in B3.
  set (d1 := de_make ROOTINO [46]). set (d2 := de_make ROOTINO [46; 46]).
  assert (H1 : length d1 = 16%nat) by done. assert (H2 : length d2 = 16%nat) by done.
  apply wp_bind. eapply wp_mono; [apply (iappend_run s3 _ [] 0 T_DIR [] d1 B3); done|].
  cbv beta. intros _ s4 (G4 & B4). change (<[0%nat := (T_DIR, [] ++ d1)]> [(T_DIR, [])]) with [(T_DIR, d1)] in B4.
  apply wp_bind. eapply wp_mono; [apply (iappend_run s4 _ G4 0 T_DIR d1 d2 B4); done|].
  cbv beta. intros _ s5 (G5 & B5). change (<[0%nat := (T_DIR, d1 ++ d2)]> [(T_DIR, d1)]) with [(T_DIR, d1 ++ d2)] in B5.
  assert (HF : files args cs = (T_DIR, (d1 ++ d2) ++ entries 1 args) :: [] ++ ((fun c => (T_FILE, c)) <$> cs)).
  { unfold files, root_bytes. by rewrite <- app_assoc. }
  apply wp_bind. eapply wp_mono; [apply (add_files_run host args cs Hgood s5 (d1 ++ d2) [] G5 B5)|].
  - simpl length. rewrite length_fmap. change ninodes with 200. lia.
  - rewrite length_app, H1, H2. change (MAXFILE * BSIZE) with 71680. lia.
  - change (S (length (@nil (Z * list Z)))) with 1%nat. by rewrite <- HF.
  - cbv beta. intros _ s6 (G6 & B6). change (S (length (@nil (Z * list Z)))) with 1%nat in B6. rewrite <- HF in B6.
    eapply wp_mono; [by apply finish_run|]. cbv beta. intros _ s7 (ip & Hf). by exists G6, ip.
Qed.

(** ** The kernel's view *)

(** The inode [ilock] reads. *)
Definition disk_inode (V : Z -> list Z) (inum : Z) : inode :=
  dinode_get (dinode_off inum) (V (IBLOCK inum)) (Inode 1 inum 0 0 0 0 0 0 0 []).

(** File [inum] is there for the kernel, with type [t] and contents [c]. *)
Definition holds (V : Z -> list Z) (inum t : Z) (c : list Z) : Prop :=
  let ip := disk_inode V inum in
  i_type ip = t /\ i_nlink ip = 1 /\ i_size ip = Z.of_nat (length c) /\
  mapped V ip log_start (i_size ip) /\ file_bytes V ip 0 (length c) = c.

Lemma dinode_get_bytes off d ip jp :
  (off + 64 <= length d)%nat -> slice off 64 d = dinode_bytes ip -> inode_range ip ->
  meta (dinode_get off d jp) = meta ip.
Proof.
  intros Hd Hs R. rewrite <- (dinode_get_put off ip jp d Hd R). f_equal. f_equal.
  rewrite dinode_put_splice by (done || apply R). symmetry. apply splice_slice.
  by rewrite length_dinode_bytes by apply R.
Qed.

Lemma file_at_addrs V G j ip ip' nb ind c :
  i_addrs ip' = i_addrs ip -> file_at V G j ip nb ind c -> file_at V G j ip' nb ind c.
Proof. destruct ip, ip'. simpl. intros -> [Q1 Q2 Q3 Q4 Q5 Q6 Q7 Q8]. by split. Qed.

Lemma meta_fields a b : meta a = meta b -> kind_of a = kind_of b /\ i_size a = i_size b /\ i_addrs a = i_addrs b.
Proof. unfold meta, kind_of. intros [= -> -> -> -> -> ->]. done. Qed.

Lemma disk_inode_meta s inum ip :
  disk_ok s -> 0 <= inum < ninodes -> dino (view s) inum = dinode_bytes ip -> inode_range ip ->
  meta (disk_inode (view s) inum) = meta ip.
Proof.
  intros D Hi Hd R. pose proof (IBLOCK_range inum Hi). pose proof (dinode_off_bound inum).
  apply dinode_get_bytes; [|done|done]. rewrite length_view; [lia|done|lia].
Qed.

Lemma file_at_bytes V G j ip nb ind c : file_at V G j ip nb ind c -> file_bytes V ip 0 (length c) = c.
Proof.
  intros F. apply list_eq. intros k. unfold file_bytes. rewrite list_lookup_fmap.
  destruct (decide (k < length c)%nat) as [Hk|Hk].
  - rewrite lookup_seq_lt by done. simpl. rewrite (fa_byte _ _ _ _ _ _ _ F).
    + rewrite Z.add_0_l, Nat2Z.id. destruct (lookup_lt_is_Some_2 c k Hk) as [x ->]. done.
    + pose proof (fa_fit _ _ _ _ _ _ _ F). lia.
  - rewrite lookup_seq_ge by lia. by rewrite lookup_ge_None_2 by lia.
Qed.

Section finished.
  Context (s : mst) (args cs : list (list Z)) (G : list (nat * Z)) (ip : inode).
  Hypothesis Hfin : finished s args cs G ip.
  Hypothesis Hcs : Z.of_nat (length cs) <= 198.
Let V := view s.

Lemma finished_len a : 0 <= a < log_start -> length (V a) = 512%nat.
Proof. intros Ha. apply length_view; [apply Hfin|]. change log_start with 1014 in Ha. lia. Qed.

Lemma finished_inode j x :
  files args cs !! j = Some x ->
  let d := disk_inode V (Z.of_nat j + 1) in
  let nb := blocks (Z.of_nat (length x.2)) in
  kind_of d = (x.1, 0, 0, 1) /\
  i_size d = (if decide (j = 0%nat) then root_size args else Z.of_nat (length x.2)) /\
  file_at V G j d nb (NDIRECT <? nb) x.2.
Proof.
  intros Hj. assert (Hm : forall jp, dino V (Z.of_nat j + 1) = dinode_bytes jp -> inode_range jp ->
    meta (disk_inode V (Z.of_nat j + 1)) = meta jp).
  { intros jp Hd R. apply disk_inode_meta; [apply Hfin| |done|done].
    apply lookup_lt_Some in Hj. unfold files in Hj. rewrite length_cons, length_fmap in Hj. change ninodes with 200. lia. }
  destruct j as [|j].
  - injection Hj as <-. specialize (Hm ip (fi_root _ _ _ _ _ Hfin) (fi_range _ _ _ _ _ Hfin)).
    apply meta_fields in Hm as (M4 & M5 & M6). cbv zeta. cbn [fst snd]. split_and!.
    + rewrite <- (fi_kind _ _ _ _ _ Hfin). exact M4.
    + rewrite M5. apply Hfin.
    + eapply file_at_addrs; [exact M6|]. apply (fi_data _ _ _ _ _ Hfin).
  - unfold files in Hj. simpl in Hj. rewrite list_lookup_fmap in Hj. destruct (cs !! j) as [c|] eqn:Hc; [|done].
    injection Hj as <-. destruct (fi_file _ _ _ _ _ Hfin j c Hc) as (jp & Hd & R & K & Hs & HF).
    specialize (Hm jp Hd R). apply meta_fields in Hm as (M4 & M5 & M6). cbv zeta. cbn [fst snd]. split_and!.
    + rewrite <- K. exact M4.
    + by rewrite M5, Hs.
    + by eapply file_at_addrs.
Qed.

Lemma finished_holds j c : cs !! j = Some c -> holds V (Z.of_nat j + 2) T_FILE c.
Proof.
  intros Hj. destruct (finished_inode (S j) (T_FILE, c)) as (K & Hs & HF).
  { unfold files. simpl. by rewrite list_lookup_fmap, Hj. }
  replace (Z.of_nat (S j) + 1) with (Z.of_nat j + 2) in * by lia. cbn [fst snd] in *. injection K as K1 K2 K3 K4.
  simpl decide in Hs. rewrite decide_False in Hs by done. unfold holds. split_and!; try done.
  - rewrite Hs. eapply file_at_mapped; [exact HF|apply Hfin|apply finished_len|apply blocks_range; lia].
  - by eapply file_at_bytes.
Qed.

Lemma finished_bitmap b : 0 <= b < size -> bfree_at V ninodes b = (first_data + Z.of_nat (length G) <=? b).
Proof.
  change size with 1024. intros Hb. unfold bfree_at.
  assert (BBLOCK b ninodes = 28) as ->.
  { unfold BBLOCK. change BPB with 4096. rewrite Z.div_small by lia. done. }
  change BPB with 4096. rewrite Z.mod_small by lia. unfold V. rewrite (fi_map _ _ _ _ _ Hfin).
  pose proof (fi_room _ _ _ _ _ Hfin) as Hr. change log_start with 1014 in Hr.
  rewrite set_bits_free by (unfold zeroes; rewrite length_replicate; lia). case_decide as Hd.
  - symmetry. apply Z.leb_gt. lia.
  - rewrite bit_free_zeroes by lia. symmetry. apply Z.leb_le. lia.
Qed.

Lemma finished_sb : sb_decode (V 1) = Superblock size nblocks ninodes nlog.
Proof. unfold V. rewrite (fi_sb _ _ _ _ _ Hfin). reflexivity. Qed.

Lemma finished_layout : layout V log_start.
Proof.
  split; rewrite ?finished_sb; cbn [sb_size sb_ninodes]; try done; [|apply finished_len].
  intros b Hb. change size with 1024 in Hb. unfold BBLOCK. change BPB with 4096. rewrite Z.div_small by lia. done.
Qed.

Lemma finished_none i : Z.of_nat (length cs) + 2 <= i < ninodes -> i_type (disk_inode V i) = 0.
Proof.
  intros Hi. change ninodes with 200 in Hi.
  assert (Hd : dino V i = replicate 64 0).
  { apply (fi_none _ _ _ _ _ Hfin); [change ninodes with 200; lia|]. right. unfold files.
    rewrite length_cons, length_fmap. lia. }
  cbn [disk_inode dinode_get i_type]. unfold get16.
  assert (slice (dinode_off i) 2 (V (IBLOCK i)) = take 2 (dino V i)) as ->; [|by rewrite Hd].
  unfold dino, slice. by rewrite take_take.
Qed.
End finished.

(** ** What [main] promises *)
Record image_ok (V : Z -> list Z) (args cs : list (list Z)) : Prop := {
  im_layout : layout V log_start;
  im_sb : sb_decode (V 1) = Superblock size nblocks ninodes nlog;
  (** The bitmap marks the blocks in use and no others. *)
  im_bitmap : forall b, 0 <= b < size -> bfree_at V ninodes b = (first_data + total (files args cs) <=? b);
  (** The log is empty. *)
  im_log : forall a, log_start <= a < size -> V a = zeroes;
  (** Every file is there, whole. *)
  im_files : forall j c, cs !! j = Some c -> holds V (Z.of_nat j + 2) T_FILE c;
  im_free : forall i, Z.of_nat (length cs) + 2 <= i < ninodes -> i_type (disk_inode V i) = 0;
  (** No block is used twice, and those used are marked. *)
  im_disjoint : forall i j x y b d, files args cs !! i = Some x -> files args cs !! j = Some y ->
    0 <= b < blocks (Z.of_nat (length x.2)) -> 0 <= d < blocks (Z.of_nat (length y.2)) ->
    let a := blockof V (disk_inode V (Z.of_nat i + 1)) b in
    bfree_at V ninodes a = false /\
    (a = blockof V (disk_inode V (Z.of_nat j + 1)) d -> i = j /\ b = d);
  (** The root directory. *)
  im_root : let d := disk_inode V ROOTINO in let n := Z.of_nat (length (root_bytes args)) in
    i_type d = T_DIR /\ i_nlink d = 1 /\ i_size d = (n / BSIZE + 1) * BSIZE /\
    file_bytes V d 0 (length (root_bytes args)) = root_bytes args /\
    (n mod BSIZE <> 0 -> mapped V d log_start (i_size d) /\
       forall k, n <= k < i_size d -> file_byte V d k = 0) /\
    (n mod BSIZE = 0 -> n / BSIZE < NDIRECT -> blockof V d (n / BSIZE) = 0);
}.

Lemma blocks_exact n : 0 <= n -> n mod BSIZE <> 0 -> blocks n * BSIZE = (n / BSIZE + 1) * BSIZE.
Proof.
  change BSIZE with 512. intros Hn Hm. unfold blocks. change BSIZE with 512. f_equal.
  pose proof (Z.div_mod n 512 ltac:(lia)). pose proof (Z.mod_pos_bound n 512 ltac:(lia)).
  symmetry. apply (Z.div_unique _ _ _ (n mod 512 - 1)); lia.
Qed.

Lemma finished_root s args cs G ip :
  finished s args cs G ip -> Z.of_nat (length cs) <= 198 ->
  let V := view s in let d := disk_inode V ROOTINO in let n := Z.of_nat (length (root_bytes args)) in
  i_type d = T_DIR /\ i_nlink d = 1 /\ i_size d = (n / BSIZE + 1) * BSIZE /\
  file_bytes V d 0 (length (root_bytes args)) = root_bytes args /\
  (n mod BSIZE <> 0 -> mapped V d log_start (i_size d) /\ forall k, n <= k < i_size d -> file_byte V d k = 0) /\
  (n mod BSIZE = 0 -> n / BSIZE < NDIRECT -> blockof V d (n / BSIZE) = 0).
Proof.
  intros Hf Hcs V d n. destruct (finished_inode s args cs G ip Hf Hcs 0 _ eq_refl) as (K & Hs & HF).
  change (Z.of_nat 0 + 1) with ROOTINO in *. fold V in K, Hs, HF. fold d in K, Hs, HF. cbn [fst snd] in *. fold n in HF.
  rewrite decide_True in Hs by done. unfold root_size in Hs. fold n in Hs. injection K as K1 K2 K3 K4.
  assert (Hn : 0 <= n) by lia. split_and!; try done.
  - by eapply file_at_bytes.
  - intros Hm. pose proof (blocks_exact n Hn Hm) as Hb. rewrite Hs, <- Hb. split.
    + eapply file_at_mapped; [exact HF|apply Hf| |lia]. intros a Ha. by apply (finished_len _ _ _ _ _ Hf).
    + intros k Hk. rewrite (fa_byte _ _ _ _ _ _ _ HF) by lia. by rewrite lookup_ge_None_2 by lia.
  - intros Hm Hd. apply (fa_none _ _ _ _ _ _ _ HF); [|by left].
    destruct (blocks_range n Hn) as [Hb _]. change BSIZE with 512 in *. change NDIRECT with 12 in Hd. change MAXFILE with 140.
    pose proof (Z.div_mod n 512 ltac:(lia)). lia.
Qed.

Lemma finished_image s args cs G ip :
  finished s args cs G ip -> Z.of_nat (length cs) <= 198 -> image_ok (view s) args cs.
Proof.
  intros Hf Hcs. pose proof (fi_used _ _ _ _ _ Hf) as Hu. split.
  - by eapply finished_layout.
  - by eapply finished_sb.
  - intros b Hb. rewrite (finished_bitmap _ _ _ _ _ Hf b Hb). by rewrite Hu.
  - exact (fi_log _ _ _ _ _ Hf).
  - intros j c Hj. by eapply finished_holds.
  - intros i Hi. by eapply finished_none.
  - intros i j x y b d Hi Hj Hb Hd a.
    destruct (finished_inode _ _ _ _ _ Hf Hcs i x Hi) as (_ & _ & Fi).
    destruct (finished_inode _ _ _ _ _ Hf Hcs j y Hj) as (_ & _ & Fj).
    pose proof (fa_block _ _ _ _ _ _ _ Fi b Hb) as Ob. pose proof (fa_block _ _ _ _ _ _ _ Fj d Hd) as Od. fold a in Ob.
    pose proof (owner_range _ _ _ Ob) as Hr. pose proof (fi_room _ _ _ _ _ Hf) as Hroom.
    change log_start with 1014 in Hroom. split.
    + rewrite (finished_bitmap _ _ _ _ _ Hf) by (change size with 1024; unfold first_data in *; lia). apply Z.leb_gt. lia.
    + intros He. rewrite He, Od in Ob. by injection Ob as -> ->.
  - by eapply finished_root.
Qed.

(** C5. mkfs builds a file system the kernel reads: for files without a slash in
    their names that fit, all blocks being needed counted, [main] exits
    normally and leaves an image with the kernel's layout and superblock, in
    which every file is there with its bytes, the root directory lists them,
    the other inodes are free, no block belongs to two files, and the bitmap
    marks exactly the blocks in use. The root directory's size is a block
    more than what its entries fill; where they fill their blocks exactly,
    that block does not exist. *)
Theorem main_spec creat host image args cs :
  creat image = true -> Forall2 (good host) args cs -> Z.of_nat (length args) <= 198 ->
  first_data + total (files args cs) <= log_start ->
  exists s', main creat host (image :: args) start = Ok tt s' /\ image_ok (view s') args cs.
Proof.
  intros Hc Hg Hn Hr. pose proof (Forall2_length _ _ _ Hg) as Hl.
  pose proof (main_run creat host image args cs Hc Hg Hn Hr) as Hw.
  apply wp_outcome in Hw as ([] & s' & Hs & G & ip & Hf). exists s'. split; [done|].
  eapply finished_image; [exact Hf|lia].
Qed.

(** ** Reading the image back *)

Lemma file_bytes_slice V ip n c off m :
  file_bytes V ip 0 n = c -> (off + m <= n)%nat -> file_bytes V ip (Z.of_nat off) m = slice off m c.
Proof.
  intros <- Hm. apply list_eq. intros k. rewrite lookup_slice. unfold file_bytes. rewrite !list_lookup_fmap.
  case_decide as Hk.
  - rewrite !lookup_seq_lt by lia. simpl. f_equal. f_equal. lia.
  - by rewrite lookup_seq_ge by lia.
Qed.

Definition name_of (arg : list Z) : list Z := take (Z.to_nat DIRSIZ) (skip_underscore arg).
Definition names (args : list (list Z)) : list (list Z) := [46] :: [46; 46] :: (name_of <$> args).

Lemma length_names args : length (names args) = (2 + length args)%nat.
Proof. unfold names. by rewrite !length_cons, length_fmap. Qed.

Lemma names_length args k nm : names args !! k = Some nm -> (length nm <= 14)%nat.
Proof.
  destruct k as [|[|k]]; simpl; [by intros [= <-]; simpl; lia..|]. rewrite list_lookup_fmap.
  destruct (args !! k); [|done]. intros [= <-]. unfold name_of. rewrite length_take. change (Z.to_nat DIRSIZ) with 14%nat. lia.
Qed.

Lemma slice_app_16 (x y : list Z) : length x = 16%nat -> slice 0 16 (x ++ y) = x.
Proof. intros H. unfold slice. rewrite drop_0, <- H. apply take_app_length. Qed.

Lemma slice_entries args : forall i j a, args !! j = Some a -> slice (16 * j) 16 (entries i args) = de_of (i + j) a.
Proof.
  induction args as [|b args IH]; intros i [|j] a Hj; try discriminate Hj; cbn [entries].
  - injection Hj as ->. rewrite Nat.add_0_r. apply slice_app_16, length_de_of.
  - replace (16 * S j)%nat with (length (de_of i b) + 16 * j)%nat by (rewrite length_de_of; lia).
    rewrite slice_app_r, (IH (S i) j a Hj). f_equal. lia.
Qed.

(** Entry [k] of the directory: its inode and name. *)
Definition inum_at (k : nat) : Z := if decide (k < 2)%nat then ROOTINO else Z.of_nat k.

Lemma root_entry args k nm :
  names args !! k = Some nm -> slice (16 * k) 16 (root_bytes args) = de_make (inum_at k) nm.
Proof.
  intros Hk. unfold root_bytes. set (d1 := de_make ROOTINO [46]). set (d2 := de_make ROOTINO [46; 46]).
  assert (H1 : length d1 = 16%nat) by done. assert (H2 : length d2 = 16%nat) by done. destruct k as [|[|k]].
  - injection Hk as <-. by apply slice_app_16.
  - injection Hk as <-. replace (16 * 1)%nat with (length d1 + 0)%nat by lia. rewrite slice_app_r.
    by apply slice_app_16.
  - replace (16 * S (S k))%nat with (length d1 + (length d2 + 16 * k))%nat by lia.
    rewrite !slice_app_r. simpl in Hk. rewrite list_lookup_fmap in Hk. destruct (args !! k) as [a|] eqn:Ha; [|done].
    injection Hk as <-. rewrite (slice_entries _ _ _ _ Ha). unfold de_of, inum_at. rewrite decide_False by lia.
    fold (name_of a). f_equal. lia.
Qed.

Section readback.
  Context (V : Z -> list Z) (args cs : list (list Z)).
  Hypothesis Him : image_ok V args cs.
  Hypothesis Hn : Z.of_nat (length args) <= 198.
  Hypothesis Hodd : Z.of_nat (length (root_bytes args)) mod BSIZE <> 0.
  Hypothesis Hnames : Forall (Forall is_char) (names args).
  Hypothesis Hnd : NoDup (names args).
Let root := disk_inode V ROOTINO.

Lemma root_entries k nm :
  names args !! k = Some nm -> entry V root (Z.of_nat k) = de_make (inum_at k) nm.
Proof.
  intros Hk. rewrite <- (root_entry _ _ _ Hk). destruct (im_root _ _ _ Him) as (_ & _ & _ & Hb & _).
  unfold entry. change DIRENT_SIZE with 16. replace (16 * Z.of_nat k) with (Z.of_nat (16 * k)) by lia.
  apply (file_bytes_slice _ _ _ _ _ _ Hb). apply lookup_lt_Some in Hk. rewrite length_names in Hk. rewrite length_root_bytes. change (Z.to_nat 16) with 16%nat. lia.
Qed.

Lemma root_hit nm k nm' :
  Forall is_char nm -> names args !! k = Some nm' -> hit V root nm (Z.of_nat k) = bool_decide (nm = nm').
Proof.
  intros Hc Hk. unfold hit. rewrite (root_entries _ _ Hk).
  pose proof (Forall_lookup_1 _ _ _ _ Hnames Hk) as Hc'. pose proof (names_length _ _ _ Hk) as Hl'.
  assert (Hi : 0 < inum_at k < 2 ^ 16).
  { apply lookup_lt_Some in Hk. rewrite length_names in Hk.
    unfold inum_at. case_decide; [done|lia]. }
  rewrite de_make_inum by (unfold is_u16; lia). rewrite de_make_name by done.
  destruct (inum_at k =? 0) eqn:E; [lia|]. cbn [negb andb]. unfold namecmp. case_bool_decide as Hb.
  - apply Z.eqb_eq. by apply diff_0.
  - apply Z.eqb_neq. by rewrite diff_0.
Qed.

Lemma root_past nm k : Z.of_nat (length (names args)) <= k < i_size root / DIRENT_SIZE -> hit V root nm k = false.
Proof.
  intros Hk. destruct (im_root _ _ _ Him) as (_ & _ & Hs & _ & Hz & _). destruct (Hz Hodd) as [_ Hzero].
  fold root in Hs, Hzero. unfold hit.
  assert (entry V root k = replicate 16 0) as ->; [|done].
  unfold entry, file_bytes. change DIRENT_SIZE with 16 in *. rewrite length_names in Hk.
  rewrite length_root_bytes in *. apply list_eq. intros j. rewrite list_lookup_fmap.
  change (Z.to_nat 16) with 16%nat. destruct (decide (j < 16)%nat) as [Hj|Hj].
  - rewrite lookup_seq_lt, lookup_replicate_2 by done. simpl. f_equal. apply Hzero.
    pose proof (Z.div_mod (i_size root) 16 ltac:(lia)). pose proof (Z.mod_pos_bound (i_size root) 16 ltac:(lia)). lia.
  - rewrite lookup_seq_ge by lia. symmetry. apply lookup_ge_None_2. rewrite length_replicate. lia.
Qed.

  (** *** The kernel over this image *)
  Context {St : Type} {LO : LogOps St} {LL : LogLaws St} (devsw : Z -> @devops St).

Lemma mapped_addrs ip ip' home lim : i_addrs ip' = i_addrs ip -> mapped V ip home lim -> mapped V ip' home lim.
Proof. destruct ip, ip'. simpl. intros -> [M1 M2 M3 M4 M5 M6]. by split. Qed.
Lemma file_bytes_addrs ip ip' off n : i_addrs ip' = i_addrs ip -> file_bytes V ip' off n = file_bytes V ip off n.
Proof. destruct ip, ip'. simpl. by intros ->. Qed.

Lemma lookup_name (k : fs St) dp d j nm :
  fs_rel k V ∅ [] -> ll_home (fs_log k) = log_start -> ic_inodes k !! dp = Some d -> i_dev d = 1 ->
  meta d = meta root -> names args !! j = Some nm -> (2 <= j)%nat ->
  exists k', fs_rel k' V ∅ [] /\ ic_inodes k' = ic_inodes k /\ dirlookup devsw dp nm k =
    (i <- iget 1 (Z.of_nat j) ;; ret (Some (i, DIRENT_SIZE * Z.of_nat j))) k'.
Proof.
  intros R Hh Hd Hdev Hm Hj Hj2. apply meta_fields in Hm as (K & Hs & Ha).
  destruct (im_root _ _ _ Him) as (Ht & _ & Hsz & _ & Hmp & _). destruct (Hmp Hodd) as [Hmap _]. fold root in Ht, Hsz, Hmap.
  assert (Hhit : forall nm i, hit V d nm i = hit V root nm i).
  { intros nm' i. unfold hit, entry. by rewrite (file_bytes_addrs _ _ _ _ Ha). }
  assert (Hent : entry V d (Z.of_nat j) = de_make (inum_at j) nm).
  { rewrite <- (root_entries j nm Hj). unfold entry. by apply file_bytes_addrs. }
  pose proof (Forall_lookup_1 _ _ _ _ Hnames Hj) as Hc. pose proof (lookup_lt_Some _ _ _ Hj) as Hlt.
  set (n := i_size root / DIRENT_SIZE).
  assert (Hn16 : i_size root = DIRENT_SIZE * n /\ Z.of_nat (length (names args)) <= n).
  { unfold n. rewrite Hsz, length_root_bytes, length_names. change BSIZE with 512. change DIRENT_SIZE with 16.
    replace ((Z.of_nat (32 + 16 * length args) / 512 + 1) * 512)
      with ((Z.of_nat (32 + 16 * length args) / 512 + 1) * 32 * 16) by lia. rewrite Z.div_mul by lia.
    pose proof (Z.div_mod (Z.of_nat (32 + 16 * length args)) 512 ltac:(lia)).
    pose proof (Z.mod_pos_bound (Z.of_nat (32 + 16 * length args)) 512 ltac:(lia)). lia. }
  destruct Hn16 as [Hn16 Hn2].
  assert (D : dir_ok k V [] dp d n).
  { split; try done.
    - injection K as ->. done.
    - congruence.
    - lia.
    - rewrite Hh, Hs. eapply mapped_addrs; [exact Ha|exact Hmap].
    - unfold NBUF. simpl. lia. }
  destruct (dirlookup_run devsw V [] dp d n nm k D) as (k' & D' & _ & I' & Hr). exists k'.
  split; [apply D'|]. split; [done|]. destruct Hr as [[Hall _]|(i & Hi & Hhi & _ & Hr)].
  - specialize (Hall (Z.of_nat j) ltac:(lia)). rewrite Hhit, (root_hit nm j nm Hc Hj) in Hall. by rewrite bool_decide_true in Hall.
  - assert (i = Z.of_nat j) as ->.
    2:{ assert (Hij : inum_at j = Z.of_nat j) by (unfold inum_at; by rewrite decide_False by lia).
        rewrite length_names in Hlt. rewrite Hr, Hent, Hij, de_make_inum by (unfold is_u16; lia). done. }
    rewrite Hhit in Hhi. destruct (decide (i < Z.of_nat (length (names args)))) as [Hin|Hin].
    + destruct (lookup_lt_is_Some_2 (names args) (Z.to_nat i)) as [nm' Hnm']; [lia|].
      replace i with (Z.of_nat (Z.to_nat i)) in Hhi by lia. rewrite (root_hit nm _ nm' Hc Hnm') in Hhi.
      apply bool_decide_eq_true in Hhi as ->. pose proof (NoDup_lookup _ _ _ _ Hnd Hj Hnm'). lia.
    + rewrite root_past in Hhi; [done|]. fold n. lia.
Qed.

Lemma read_file (k : fs St) i ip j c n :
  fs_rel k V ∅ [] -> ll_home (fs_log k) = log_start -> ic_inodes k !! i = Some ip -> i_dev ip = 1 ->
  i_inum ip = Z.of_nat j + 2 -> 1 <= i_ref ip -> i_flags ip = 0 -> cs !! j = Some c -> Z.of_nat (length cs) <= 198 ->
  0 <= n < 2 ^ 31 ->
  wp (ilock i ;;; readi devsw i 0 n) (fun r _ => r = (Z.min n (Z.of_nat (length c)), take (Z.to_nat n) c)) k.
Proof.
  intros R Hh Hi Hdev Hin Href Hfl Hj Hcs Hn0. pose proof (lookup_lt_Some _ _ _ Hj) as Hlt.
  destruct (im_files _ _ _ Him j c Hj) as (Ht & _ & Hs & Hmap & Hb). set (dn := disk_inode V (Z.of_nat j + 2)) in *.
  assert (Hib : 2 <= IBLOCK (i_inum ip) <= 26) by (apply IBLOCK_range; rewrite Hin; change ninodes with 200; lia).
  assert (Htype : s16 (get16 (dinode_off (i_inum ip)) (V (IBLOCK (i_inum ip)))) = T_FILE) by (by rewrite Hin).
  apply wp_bind. eapply wp_mono; [eapply (ilock_run k V ∅ [] i ip R Hi Href); [by rewrite Hfl|]|].
  { intros _. rewrite Hh. change log_start with 1014. split_and!; try done; try lia.
    - rewrite map_size_empty. unfold NBUF. simpl. lia.
    - by rewrite Htype. }
  cbv beta. intros _ k1 (R1 & S1 & I1). pose proof S1 as (Hh1 & _). pose proof (lookup_lt_Some _ _ _ Hi) as Hlen.
  set (ip1 := locked_ip V ip) in *.
  assert (Hip1 : i_type ip1 = T_FILE /\ i_size ip1 = i_size dn /\ i_addrs ip1 = i_addrs dn /\ i_dev ip1 = 1).
  { unfold ip1, locked_ip. cbn [set_iflags i_flags]. rewrite has_or_busy, Hfl. cbn [Flag.has].
    change (Flag.has 0 I_VALID) with false. cbv iota. cbn [set_iflags i_type i_size i_addrs i_dev dinode_get i_inum].
    split_and!; [done|..]; rewrite ?Hin; done. }
  destruct Hip1 as (T1 & Z1 & A1 & D1). rewrite Hs in Z1.
  eapply wp_mono; [eapply (readi_run devsw k1 V [] i ip1 0 n R1); try done|].
  - rewrite I1. by apply list_lookup_insert_eq.
  - by rewrite T1.
  - rewrite Hh1, Hh, Z1, <- Hs. by eapply mapped_addrs.
  - unfold NBUF. simpl. lia.
  - rewrite Z1. lia.
  - lia.
  - lia.
  - cbv beta. intros r k2 (-> & _). rewrite Z1, Z.sub_0_r. f_equal. rewrite (file_bytes_addrs _ _ _ _ A1).
    change 0 with (Z.of_nat 0). rewrite (file_bytes_slice V dn (length c) c 0 _ Hb) by lia.
    unfold slice. rewrite drop_0. destruct (decide (n <= Z.of_nat (length c))).
    + by rewrite Z.min_l by done.
    + rewrite Z.min_r by lia. rewrite Nat2Z.id. rewrite !take_ge by lia. done.
Qed.
End readback.

(** *** Booting from it *)
Definition image_disk (s : mst) : disk := Disk size (view s) [].

Lemma boot_image base s args cs :
  base_ok base -> image_ok (view s) args cs ->
  exists k0 k1, boot_log (log0 base (image_disk s)) = Ok tt k0 /\ begin_trans k0 = Ok tt k1 /\
    ll_rel k1 (view s) ∅ [] /\ ll_home k1 = log_start.
Proof.
  intros Hb Him. destruct (boot_run base (image_disk s) log_start nlog (view s)) as (k0 & Hk0 & R & Hbusy & Hst & Hsz & _);
    try done.
  - split; cbn [image_disk disk_get dk_writes written dk_img]; by rewrite (im_sb _ _ _ Him).
  - split; [done|]. exists []. split; [set_solver|]. assert (Hz : disk_get (image_disk s) log_start = zeroes)
      by (apply (im_log _ _ _ Him); done). apply recovers_nil; [by rewrite Hz..|done].
  - destruct (wp_outcome _ _ _ (begin_run k0 _ _ _ _ R Hbusy)) as ([] & k1 & Hk1 & R1 & Hb1 & Hst1 & Hsz1 & _).
    exists k0, k1. split_and!; try done.
    + split; [rewrite Hb1; done|by exists (view s)].
    + cbn [ll_home log_laws]. by rewrite Hst1, Hst.
Qed.

(** C6. A file handed to mkfs is there after booting: the log starts on the
    image, [dirlookup] of the file's name (without its leading underscore,
    cut to the length of a name) in the root directory finds its inode, and
    [ilock] and [readi] of that inode return the bytes of the file. The
    names are distinct, and the entries do not fill their blocks exactly. *)
Theorem mkfs_boot_read creat host image args cs j a c base devsw :
  creat image = true -> Forall2 (good host) args cs -> Z.of_nat (length args) <= 198 ->
  first_data + total (files args cs) <= log_start ->
  Z.of_nat (length (root_bytes args)) mod BSIZE <> 0 ->
  Forall (Forall is_char) (names args) -> NoDup (names args) ->
  args !! j = Some a -> cs !! j = Some c -> base_ok base ->
  exists s' k0 k1, main creat host (image :: args) start = Ok tt s' /\
    boot_log (log0 base (image_disk s')) = Ok tt k0 /\ begin_trans k0 = Ok tt k1 /\
    forall lk l, free lk -> let k := Fs k1 lk l in
    (forall dp d, l !! dp = Some d -> i_dev d = 1 -> meta d = meta (disk_inode (view s') ROOTINO) ->
       exists k', ic_inodes k' = l /\ dirlookup devsw dp (name_of a) k =
         (i <- iget 1 (Z.of_nat j + 2) ;; ret (Some (i, DIRENT_SIZE * (Z.of_nat j + 2)))) k') /\
    (forall i ip n, l !! i = Some ip -> i_dev ip = 1 -> i_inum ip = Z.of_nat j + 2 -> 1 <= i_ref ip ->
       i_flags ip = 0 -> 0 <= n < 2 ^ 31 ->
       wp (ilock i ;;; readi devsw i 0 n)
         (fun r _ => r = (Z.min n (Z.of_nat (length c)), take (Z.to_nat n) c)) k).
Proof.
  intros Hcr Hg Hn Hr Hodd Hnm Hnd Ha Hc Hb. pose proof (Forall2_length _ _ _ Hg) as Hl.
  destruct (wp_outcome _ _ _ (main_run creat host image args cs Hcr Hg Hn Hr)) as ([] & s' & Hs & G & ip0 & Hf).
  pose proof (finished_image _ _ _ _ _ Hf ltac:(lia)) as Him.
  destruct (boot_image base s' args cs Hb Him) as (k0 & k1 & Hk0 & Hk1 & R & Hh). exists s', k0, k1.
  split_and!; try done. intros lk l Hlk k. assert (Rk : fs_rel k (view s') ∅ []) by (by split). split.
  - intros dp d Hd Hdev Hm. assert (Hj : names args !! (2 + j)%nat = Some (name_of a)).
    { unfold names. simpl. by rewrite list_lookup_fmap, Ha. }
    destruct (lookup_name (view s') args cs Him Hn Hodd Hnm Hnd devsw k dp d _ _ Rk Hh Hd Hdev Hm Hj ltac:(lia))
      as (k' & _ & I' & Hlk'). exists k'. split; [done|].
    replace (Z.of_nat j + 2) with (Z.of_nat (2 + j)) by lia. exact Hlk'.
  - intros i ip n Hi Hdev Hin Href Hfl Hn0.
    apply (read_file (view s') args cs Him devsw k i ip j c n); try done. lia.
Qed.

(** *** Two files *)
Definition host2 (arg : list Z) : option (list Z) :=
  if decide (arg = [95; 99; 97; 116]) then Some (replicate (Z.to_nat 7000) 55)
  else if decide (arg = [82]) then Some [104; 105] else None.
Definition args2 : list (list Z) := [[95; 99; 97; 116]; [82]].
Definition cs2 : list (list Z) := [replicate (Z.to_nat 7000) 55; [104; 105]].

Lemma good2 : Forall2 (good host2) args2 cs2.
Proof.
  constructor; [|constructor; [|constructor]]; (split; [reflexivity|split; [reflexivity|]]);
    change (MAXFILE * BSIZE) with 71680; rewrite ?length_replicate; simpl; lia.
Qed.

Lemma total2 : first_data + total (files args2 cs2) <= log_start.
Proof. vm_compute. discriminate. Qed.

Lemma main_spec_witness :
  exists s', main (fun _ => true) host2 ([102] :: args2) start = Ok tt s' /\ image_ok (view s') args2 cs2.
Proof.
  apply (main_spec (fun _ => true) host2 [102] args2 cs2); [reflexivity|exact good2|simpl; lia|exact total2].
Defined.

Lemma mkfs_boot_read_witness :
  exists s' k0 k1, main (fun _ => true) host2 ([102] :: args2) start = Ok tt s' /\
    boot_log (log0 ptable0 (image_disk s')) = Ok tt k0 /\ begin_trans k0 = Ok tt k1 /\
    wp (ilock 0 ;;; readi no_devs 0 0 9) (fun r _ => r = (2, [104; 105]))
      (Fs k1 (Spinlock 0 "icache" None []) [ip0 3 1 0 0 0]).
Proof.
  destruct (mkfs_boot_read (fun _ => true) host2 [102] args2 cs2 1 [82] [104; 105] ptable0 no_devs)
    as (s' & k0 & k1 & H1 & H2 & H3 & H4);
    [reflexivity|exact good2|simpl; lia|exact total2|discriminate|repeat constructor; done| |reflexivity|reflexivity|exact base_ok0|].
  - repeat constructor; set_solver.
  - exists s', k0, k1. split; [exact H1|]. split; [exact H2|]. split; [exact H3|].
    destruct (H4 (Spinlock 0 "icache" None []) [ip0 3 1 0 0 0] eq_refl) as [_ Hread].
    apply (Hread 0%nat (ip0 3 1 0 0 0) 9); [reflexivity..|simpl; lia|reflexivity|lia].
Defined.
