(* ===== verification/Kalloc.v ===== *)
(** The physical page allocator: kalloc.c, on a memory of 4096-byte pages.
    The free list is threaded through the free pages themselves; the theorems
    show that it behaves as a stack of distinct pages. *)
From stdpp Require Import base numbers list strings sets gmap.
From S2P Require Import Prelude Params Spinlock Sched.

(** *** memlayout.h, mmu.h *)
Definition EXTMEM : Z := 0x100000.
Definition PHYSTOP : Z := 0x8000000.
Definition DEVSPACE : Z := 0xFE000000.
Definition KERNBASE : Z := 0x80000000.
Definition KERNLINK : Z := KERNBASE + EXTMEM.
Definition v2p (a : Z) : Z := u32 (a - KERNBASE).
Definition p2v (a : Z) : Z := u32 (a + KERNBASE).

Definition PGSIZE : Z := 4096.
Definition PGROUNDUP (sz : Z) : Z := Z.land (u32 (sz + PGSIZE - 1)) (u32 (Z.lnot (PGSIZE - 1))).
Definition PGROUNDDOWN (a : Z) : Z := Z.land a (u32 (Z.lnot (PGSIZE - 1))).

(** *** The state: the CPU and the process table, [kmem], the memory (a page
    of bytes at each page address that has one) and the messages printed. *)
Record kst := Kst {
  k_base : base;
  km_lock : spinlock;
  km_use_lock : Z;
  km_freelist : Z;
  k_pages : gmap Z (list Z);
  k_out : list string;
}.

Definition set_freelist (r : Z) (s : kst) : kst :=
  Kst (k_base s) (km_lock s) (km_use_lock s) r (k_pages s) (k_out s).
Definition set_use_lock (u : Z) (s : kst) : kst :=
  Kst (k_base s) (km_lock s) u (km_freelist s) (k_pages s) (k_out s).
Definition set_pages (m : gmap Z (list Z)) (s : kst) : kst :=
  Kst (k_base s) (km_lock s) (km_use_lock s) (km_freelist s) m (k_out s).

Definition kmem_lock : Lens kst (cpu * spinlock).
Proof.
  refine {| lget s := (b_cpu (k_base s), km_lock s);
            lset t s := Kst (Base (fst t) (b_lock (k_base s)) (b_procs (k_base s))) (snd t)
              (km_use_lock s) (km_freelist s) (k_pages s) (k_out s) |};
    [by intros []|by intros [[]]|done].
Defined.

(** The page an address lies in, and the place in it. *)
Definition page_of (a : Z) : Z := a - a mod PGSIZE.
Definition page_off (a : Z) : nat := Z.to_nat (a mod PGSIZE).

(** A word of memory; a page must be there. *)
Definition ldw (a : Z) : M kst Z :=
  s <- get ;;
  p <- some (k_pages s !! page_of a) ;;
  if decide (page_off a + 4 <= length p)%nat then ret (get32 (page_off a) p) else fault.
Definition stw (a v : Z) : M kst unit :=
  s <- get ;;
  p <- some (k_pages s !! page_of a) ;;
  if decide (page_off a + 4 <= length p)%nat
  then modify (fun s => set_pages (<[page_of a := put32 (page_off a) v p]> (k_pages s)) s) else fault.

(** [memset(v, c, PGSIZE)] on a whole page. *)
Definition fill_page (v c : Z) : M kst unit :=
  s <- get ;;
  _ <- some (k_pages s !! v) ;;
  modify (fun s => set_pages (<[v := replicate (Z.to_nat PGSIZE) (u8 c)]> (k_pages s)) s).

Section kalloc.
  (** [end], the first address after the kernel (kernel.ld). *)
  Context (kend : Z).

  (** *** kfree; a struct run has only its link. *)
Definition kfree (v : Z) : M kst unit :=
    if negb (v mod PGSIZE =? 0) || (v <? kend) || (v2p v >=? PHYSTOP) then panic "kfree" else
    fill_page v 1 ;;;
    s <- get ;;
    when (negb (km_use_lock s =? 0)) (zoom (L := kmem_lock) acquire) ;;;
    s <- get ;;
    stw v (km_freelist s) ;;;
    modify (set_freelist v) ;;;
    s <- get ;;
    when (negb (km_use_lock s =? 0)) (zoom (L := kmem_lock) release).

  (** *** kalloc *)
Definition kalloc : M kst Z :=
    s <- get ;;
    when (negb (km_use_lock s =? 0)) (zoom (L := kmem_lock) acquire) ;;;
    s <- get ;;
    let r := km_freelist s in
    (if negb (r =? 0) then n <- ldw r ;; modify (set_freelist n) else ret tt) ;;;
    s <- get ;;
    when (negb (km_use_lock s =? 0)) (zoom (L := kmem_lock) release) ;;;
    ret r.

  (** *** freerange, kinit1, kinit2 *)
Fixpoint freerange_from (fuel : nat) (p vend : Z) : M kst unit :=
    match fuel with
    | O => diverge
    | S fuel =>
        if u32 (p + PGSIZE) <=? vend then kfree p ;;; freerange_from fuel (u32 (p + PGSIZE)) vend
        else ret tt
    end.
Definition freerange (vstart vend : Z) : M kst unit :=
    freerange_from (S (Z.to_nat (vend / PGSIZE))) (PGROUNDUP vstart) vend.

Definition kinit1 (vstart vend : Z) : M kst unit :=
    modify (fun s => Kst (k_base s) (initlock "kmem" (km_lock s)) (km_use_lock s) (km_freelist s)
                       (k_pages s) (k_out s)) ;;;
    modify (set_use_lock 0) ;;;
    freerange vstart vend.
Definition kinit2 (vstart vend : Z) : M kst unit :=
    freerange vstart vend ;;;
    modify (set_use_lock 1).
End kalloc.

(** ** The free list *)

(** From [r] the links lead through the pages [l] and end at the null pointer. *)
Fixpoint chain (m : gmap Z (list Z)) (r : Z) (l : list Z) : Prop :=
  match l with
  | [] => r = 0
  | v :: l => r = v /\ v <> 0 /\ v mod PGSIZE = 0 /\
      exists p, m !! v = Some p /\ length p = Z.to_nat PGSIZE /\ chain m (get32 0 p) l
  end.

(** The free pages, the one to be allocated next first. *)
Record kmem_ok (s : kst) (l : list Z) : Prop := {
  ko_chain : chain (k_pages s) (km_freelist s) l;
  ko_nodup : NoDup l;
  ko_pages : forall v p, k_pages s !! v = Some p -> length p = Z.to_nat PGSIZE;
  ko_lock : free (km_lock s);
  ko_cli : 0 <= ncli (b_cpu (k_base s));
}.

(** Changing a page that is not in the list. *)
Lemma chain_insert m l : forall r v p, v ∉ l -> chain m r l -> chain (<[v := p]> m) r l.
Proof.
  induction l as [|a l IH]; intros r v p Hv; simpl; [done|].
  intros (-> & Hz & Hm & q & Hq & Hl & Hc). split_and!; try done. exists q.
  rewrite lookup_insert_ne by set_solver. split_and!; try done. apply IH; [set_solver|done].
Qed.

Lemma page_of_id v : v mod PGSIZE = 0 -> page_of v = v /\ page_off v = 0%nat.
Proof. intros H. unfold page_of, page_off. rewrite H. split; [lia|done]. Qed.

(** Taking and dropping [kmem.lock] when it is in use. *)
Definition relocked (s : kst) : kst :=
  if km_use_lock s =? 0 then s
  else Kst (Base (quiet (b_cpu (k_base s))) (b_lock (k_base s)) (b_procs (k_base s)))
         (dropped (km_lock s)) (km_use_lock s) (km_freelist s) (k_pages s) (k_out s).

(** The state in a section under the lock. *)
Definition km_in (s : kst) : kst :=
  if km_use_lock s =? 0 then s
  else Kst (Base (cli (b_cpu (k_base s))) (b_lock (k_base s)) (b_procs (k_base s)))
         (taken (b_cpu (k_base s)) (km_lock s)) (km_use_lock s) (km_freelist s) (k_pages s) (k_out s).

Lemma km_acquire s :
  free (km_lock s) ->
  when (negb (km_use_lock s =? 0)) (zoom (L := kmem_lock) acquire) s = Ok tt (km_in s).
Proof.
  intros Hf. unfold km_in. destruct (km_use_lock s =? 0); [done|]. cbn [negb when].
  by erewrite zoom_ok by (by apply acquire_ok).
Qed.

Lemma km_release s :
  0 <= ncli (b_cpu (k_base s)) ->
  when (negb (km_use_lock (km_in s) =? 0)) (zoom (L := kmem_lock) release) (km_in s) = Ok tt (relocked s).
Proof.
  intros Hn. unfold km_in, relocked. destruct (km_use_lock s =? 0) eqn:E; cbn [km_use_lock]; rewrite E; [done|].
  cbn [negb when]. by erewrite zoom_ok by (by apply release_taken).
Qed.

(** The section commutes with the changes made in it. *)
Lemma km_in_freelist r s : set_freelist r (km_in s) = km_in (set_freelist r s).
Proof. unfold km_in. cbn [set_freelist km_use_lock]. by destruct (km_use_lock s =? 0). Qed.
Lemma km_in_pages m s : set_pages m (km_in s) = km_in (set_pages m s).
Proof. unfold km_in. cbn [set_pages km_use_lock]. by destruct (km_use_lock s =? 0). Qed.
Lemma km_in_get s : km_freelist (km_in s) = km_freelist s /\ k_pages (km_in s) = k_pages s.
Proof. unfold km_in. by destruct (km_use_lock s =? 0). Qed.
Lemma relocked_get s :
  km_freelist (relocked s) = km_freelist s /\ k_pages (relocked s) = k_pages s /\
  km_use_lock (relocked s) = km_use_lock s /\ k_out (relocked s) = k_out s /\
  ncli (b_cpu (k_base (relocked s))) = ncli (b_cpu (k_base s)).
Proof. unfold relocked. destruct (km_use_lock s =? 0) eqn:E; done. Qed.
Lemma relocked_base s s' : km_use_lock s = km_use_lock s' -> k_base s = k_base s' -> k_base (relocked s) = k_base (relocked s').
Proof. intros E1 E2. unfold relocked. rewrite E1, E2. by destruct (km_use_lock s' =? 0). Qed.
Lemma relocked_free s : free (km_lock s) -> free (km_lock (relocked s)).
Proof. unfold relocked. by destruct (km_use_lock s =? 0). Qed.

Lemma ldw_run s a p :
  k_pages s !! page_of a = Some p -> (page_off a + 4 <= length p)%nat ->
  ldw a s = Ok (get32 (page_off a) p) s.
Proof.
  intros Hp Hl. unfold ldw. erewrite bind_ok by reflexivity. rewrite Hp. cbn [some].
  erewrite bind_ok by reflexivity. by rewrite decide_True.
Qed.

Lemma stw_run s a v p :
  k_pages s !! page_of a = Some p -> (page_off a + 4 <= length p)%nat ->
  stw a v s = Ok tt (set_pages (<[page_of a := put32 (page_off a) v p]> (k_pages s)) s).
Proof.
  intros Hp Hl. unfold stw. erewrite bind_ok by reflexivity. rewrite Hp. cbn [some].
  erewrite bind_ok by reflexivity. by rewrite decide_True.
Qed.

(** *** kalloc *)
(** The page after the first of the list. *)
Definition next_free (s : kst) : Z :=
  if km_freelist s =? 0 then 0 else get32 0 (default [] (k_pages s !! km_freelist s)).
Definition popped (s : kst) : kst := relocked (set_freelist (next_free s) s).

Lemma kalloc_run s l : kmem_ok s l -> kalloc s = Ok (km_freelist s) (popped s).
Proof.
  intros [Hc Hnd Hlen Hf Hn]. destruct (km_in_get s) as [G1 G2]. unfold popped, next_free.
  unfold kalloc. erewrite bind_ok by reflexivity. rewrite (bind_ok _ _ _ _ _ (km_acquire s Hf)).
  erewrite bind_ok by reflexivity. rewrite G1. cbv zeta. destruct l as [|v l]; simpl in Hc.
  - rewrite Hc. change (0 =? 0) with true. cbn [negb].
    erewrite bind_ok by reflexivity. erewrite bind_ok by reflexivity.
    replace (set_freelist 0 s) with s by (destruct s; simpl in *; by rewrite Hc).
    by rewrite (bind_ok _ _ _ _ _ (km_release s Hn)).
  - destruct Hc as (-> & Hz & Hm & p & Hp & Hl & Hc). destruct (page_of_id v Hm) as [Ha Ho].
    destruct (v =? 0) eqn:E; [lia|]. cbn [negb]. rewrite Hp. cbn [default]. erewrite bind_ok.
    2:{ erewrite bind_ok; [reflexivity|]. apply (ldw_run _ v p).
        - rewrite Ha, G2. exact Hp.
        - rewrite Ho, Hl. unfold PGSIZE. lia. }
    rewrite Ho, km_in_freelist. erewrite bind_ok by reflexivity.
    by rewrite (bind_ok _ _ _ _ _ (km_release (set_freelist (get32 0 p) s) Hn)).
Qed.

Lemma popped_ok s l :
  kmem_ok s l -> kmem_ok (popped s) (tail l) /\ k_pages (popped s) = k_pages s /\
    km_use_lock (popped s) = km_use_lock s /\ k_out (popped s) = k_out s.
Proof.
  intros [Hc Hnd Hlen Hf Hn]. unfold popped. set (s1 := set_freelist (next_free s) s).
  destruct (relocked_get s1) as (R1 & R2 & R3 & R4 & R5). rewrite R2, R3, R4. split; [|done].
  split; rewrite ?R1, ?R2, ?R5; try done.
  - unfold s1. cbn [set_freelist km_freelist k_pages]. unfold next_free. destruct l as [|v l]; simpl in Hc.
    + by rewrite Hc.
    + destruct Hc as (-> & Hz & Hm & p & Hp & Hl & Hc). destruct (v =? 0) eqn:E; [lia|]. by rewrite Hp.
  - destruct l; [done|]. by apply NoDup_cons in Hnd as [_ ?].
  - by apply relocked_free.
Qed.

(** What it leaves of the CPU and the process table. *)
Lemma popped_base s : k_base (popped s) =
  if km_use_lock s =? 0 then k_base s else Base (quiet (b_cpu (k_base s))) (b_lock (k_base s)) (b_procs (k_base s)).
Proof. unfold popped, relocked. cbn [set_freelist km_use_lock]. by destruct (km_use_lock s =? 0). Qed.

(** What the allocator's calls do to the CPU and the process table. *)
Definition kquiet (s s' : kst) : Prop :=
  km_use_lock s' = km_use_lock s /\ k_out s' = k_out s /\ (k_base s' = k_base s \/ k_base s' = k_base (relocked s)).

Lemma kquiet_refl s : kquiet s s.
Proof. split_and!; auto. Qed.
Lemma kquiet_trans s1 s2 s3 : kquiet s1 s2 -> kquiet s2 s3 -> kquiet s1 s3.
Proof.
  intros (U1 & O1 & B1) (U2 & O2 & B2). split_and!; [congruence|congruence|]. unfold relocked in *. rewrite U1 in B2.
  destruct (km_use_lock s1 =? 0); cbn [k_base] in *; destruct B1 as [B1|B1], B2 as [B2|B2]; rewrite ?B2, ?B1; auto.
  right. cbn [b_cpu b_lock b_procs]. by rewrite quiet_quiet.
Qed.
#[export] Instance kquiet_preorder : PreOrder kquiet.
Proof. split; [exact kquiet_refl|exact kquiet_trans]. Qed.
Lemma kquiet_pages m s : kquiet s (set_pages m s).
Proof. split_and!; auto. Qed.

Lemma kquiet_popped s : kquiet s (popped s).
Proof.
  unfold popped. destruct (relocked_get (set_freelist (next_free s) s)) as (_ & _ & R3 & R4 & _).
  split_and!; [exact R3|exact R4|right]. by apply relocked_base.
Qed.

Lemma kalloc_some s v l :
  kmem_ok s (v :: l) ->
  exists s', kalloc s = Ok v s' /\ kmem_ok s' l /\ k_pages s' = k_pages s /\
    km_use_lock s' = km_use_lock s /\ k_out s' = k_out s /\ kquiet s s'.
Proof.
  intros H. exists (popped s). destruct (popped_ok s _ H) as (H1 & H2 & H3 & H4). split_and!; try done; [|apply kquiet_popped].
  rewrite (kalloc_run s _ H). f_equal. apply (ko_chain _ _ H).
Qed.

Lemma kalloc_none s :
  kmem_ok s [] ->
  exists s', kalloc s = Ok 0 s' /\ kmem_ok s' [] /\ k_pages s' = k_pages s /\
    km_use_lock s' = km_use_lock s /\ k_out s' = k_out s /\ kquiet s s'.
Proof.
  intros H. exists (popped s). destruct (popped_ok s _ H) as (H1 & H2 & H3 & H4). split_and!; try done; [|apply kquiet_popped].
  rewrite (kalloc_run s _ H). f_equal. apply (ko_chain _ _ H).
Qed.

(** *** kfree *)
Definition freeable (kend v : Z) : Prop :=
  v mod PGSIZE = 0 /\ kend <= v < 2 ^ 32 /\ KERNBASE <= v /\ v - KERNBASE < PHYSTOP.

(** The freed page: filled with ones, then linked to the rest of the list. *)
Definition junk (next : Z) : list Z := put32 0 next (replicate (Z.to_nat PGSIZE) 1).

Lemma length_junk n : length (junk n) = Z.to_nat PGSIZE.
Proof. unfold junk. rewrite length_put32 by (rewrite length_replicate; unfold PGSIZE; lia). apply length_replicate. Qed.

Lemma chain_range m l : forall r, chain m r l -> (forall v, v ∈ l -> is_u32 v) -> is_u32 r.
Proof.
  destruct l as [|a l]; intros r; simpl; [intros -> _; unfold is_u32; lia|].
  intros (-> & _) H. apply H. left.
Qed.

Lemma kfree_run kend s l v p :
  kmem_ok s l -> freeable kend v -> k_pages s !! v = Some p -> v ∉ l ->
  (forall x, x ∈ l -> is_u32 x) ->
  exists s', kfree kend v s = Ok tt s' /\ kmem_ok s' (v :: l) /\
    k_pages s' = <[v := junk (km_freelist s)]> (k_pages s) /\
    km_use_lock s' = km_use_lock s /\ k_out s' = k_out s /\ k_base s' = k_base (relocked s).
Proof.
  intros [Hc Hnd Hlen Hf Hn] (Hm & Hr & Hk & Hphys) Hp Hv Hl32.
  destruct (page_of_id v Hm) as [Ha Ho].
  set (s1 := set_pages (<[v := replicate (Z.to_nat PGSIZE) 1]> (k_pages s)) s).
  destruct (km_in_get s1) as [G1 G2].
  set (s2 := set_freelist v (set_pages (<[v := junk (km_freelist s)]> (k_pages s)) s1)).
  exists (relocked s2). destruct (relocked_get s2) as (R1 & R2 & R3 & R4 & R5).
  assert (Hlu : is_u32 (km_freelist s)) by (by eapply chain_range). split.
  - unfold kfree. rewrite Hm. unfold v2p. unfold KERNBASE in *.
    rewrite u32_id by (unfold is_u32; lia).
    destruct (negb (0 =? 0) || (v <? kend) || (v - 0x80000000 >=? PHYSTOP)) eqn:E; [lia|].
    erewrite bind_ok.
    2:{ unfold fill_page. erewrite bind_ok by reflexivity. rewrite Hp. cbn [some].
        erewrite bind_ok by reflexivity. change (u8 1) with 1. reflexivity. }
    fold s1. erewrite bind_ok by reflexivity. rewrite (bind_ok _ _ _ _ _ (km_acquire s1 Hf)).
    erewrite bind_ok by reflexivity. rewrite G1. cbn [s1 set_pages km_freelist].
    erewrite bind_ok.
    2:{ apply (stw_run _ v _ (replicate (Z.to_nat PGSIZE) 1)).
        - rewrite Ha, G2. apply lookup_insert_eq.
        - rewrite Ho, length_replicate. unfold PGSIZE. lia. }
    rewrite Ha, Ho, G2, km_in_pages. cbn [s1 set_pages k_pages]. rewrite insert_insert_eq.
    erewrite bind_ok by reflexivity. rewrite km_in_freelist. erewrite bind_ok by reflexivity.
    exact (km_release s2 Hn).
  - rewrite R2, R3, R4. split; [|split_and!; try done; exact (relocked_base s2 s eq_refl eq_refl)].
    split; rewrite ?R1, ?R2, ?R5; try done.
    + simpl. split_and!; [done|unfold KERNBASE in *; lia|done|]. exists (junk (km_freelist s)).
      rewrite lookup_insert_eq. split_and!; [done|apply length_junk|].
      unfold junk. rewrite get32_put32_eq by (rewrite length_replicate; unfold PGSIZE; lia).
      rewrite u32_id by done. by apply chain_insert.
    + by apply NoDup_cons.
    + intros w q. cbn [s2 set_freelist set_pages k_pages]. rewrite lookup_insert_Some.
      intros [[_ <-]|[_ Hq]]; [apply length_junk|by eapply Hlen].
    + by apply relocked_free.
Qed.

(** The allocator is a stack of distinct pages. With pages [l] free,
    [kalloc] returns the page freed last and leaves the others, or the null
    pointer when there is none, and changes no page's contents; [kfree] of a
    page that is not free puts it on top, filled with junk, and changes no
    other page. So a page is never handed out twice, and freeing what was
    allocated gives the same list back. *)
Theorem kalloc_kfree (kend : Z) (s : kst) (l : list Z) :
  kmem_ok s l -> (forall x, x ∈ l -> freeable kend x) ->
  (exists r s', kalloc s = Ok r s' /\ kmem_ok s' (tail l) /\ r = default 0 (head l) /\
     k_pages s' = k_pages s /\
     (l <> [] -> exists s'', kfree kend r s' = Ok tt s'' /\ kmem_ok s'' l)) /\
  (forall v p, freeable kend v -> k_pages s !! v = Some p -> v ∉ l ->
     exists s', kfree kend v s = Ok tt s' /\ kmem_ok s' (v :: l) /\
       forall w, w <> v -> k_pages s' !! w = k_pages s !! w).
Proof.
  intros Hok Hfr.
  assert (Hu : forall x, x ∈ l -> is_u32 x).
  { intros x Hx. destruct (Hfr x Hx) as (_ & ? & ? & _). unfold is_u32, KERNBASE in *. lia. }
  split.
  - destruct l as [|v l].
    + destruct (kalloc_none s Hok) as (s' & Hs & Hok' & Hp & _). by exists 0, s'.
    + destruct (kalloc_some s v l Hok) as (s' & Hs & Hok' & Hp & _). exists v, s'.
      split_and!; try done. intros _.
      pose proof (ko_nodup _ _ Hok) as [Hv _]%NoDup_cons.
      destruct (ko_chain _ _ Hok) as (_ & _ & _ & p & Hvp & _).
      destruct (kfree_run kend s' l v p Hok') as (s'' & Hs'' & Hok'' & _); try done.
      * apply Hfr. left.
      * by rewrite Hp.
      * intros x Hx. apply Hu. by right.
      * by exists s''.
  - intros v p Hv Hp Hvl. destruct (kfree_run kend s l v p Hok Hv Hp Hvl Hu) as (s' & Hs & Hok' & Hpg & _).
    exists s'. split_and!; try done. intros w Hw. rewrite Hpg. by apply lookup_insert_ne.
Qed.

(** Two free pages and one in use. *)
Definition kst0 : kst :=
  Kst ptable0 (Spinlock 0 "kmem" None []) 1 0x80200000
    {[ 0x80200000 := junk 0x80201000; 0x80201000 := junk 0; 0x80202000 := replicate 4096 5 ]} [].

Lemma kst0_ok : kmem_ok kst0 [0x80200000; 0x80201000].
Proof.
  split.
  - split_and!; [done|done|done|]. exists (junk 0x80201000). split_and!; [done|done|].
    split_and!; [by vm_compute|done|done|]. exists (junk 0). split_and!; [done|done|by vm_compute].
  - apply NoDup_cons. split; [by rewrite list_elem_of_singleton|apply NoDup_singleton].
  - intros v p. cbn [kst0 k_pages].
    rewrite !lookup_insert_Some, lookup_singleton_Some. intros [[_ <-]|[_ [[_ <-]|[_ [_ <-]]]]];
      [apply length_junk|apply length_junk|apply length_replicate].
  - done.
  - simpl. lia.
Qed.

Lemma kalloc_kfree_witness :
  (exists r s', kalloc kst0 = Ok r s' /\ kmem_ok s' [0x80201000] /\ r = 0x80200000 /\
     k_pages s' = k_pages kst0 /\
     ([0x80200000; 0x80201000] <> [] -> exists s'', kfree 0x80110000 r s' = Ok tt s'' /\
        kmem_ok s'' [0x80200000; 0x80201000])) /\
  (forall v p, freeable 0x80110000 v -> k_pages kst0 !! v = Some p -> v ∉ [0x80200000; 0x80201000] ->
     exists s', kfree 0x80110000 v kst0 = Ok tt s' /\ kmem_ok s' (v :: [0x80200000; 0x80201000]) /\
       forall w, w <> v -> k_pages s' !! w = k_pages kst0 !! w).
Proof.
  apply (kalloc_kfree 0x80110000 kst0 [0x80200000; 0x80201000] kst0_ok).
  intros x Hx. apply elem_of_cons in Hx as [->|Hx%list_elem_of_singleton]; [|subst x];
    (split_and!; [reflexivity|unfold KERNBASE, PHYSTOP; lia..]).
Defined.
