(* ===== verification/Vm.v ===== *)
(** Page tables: vm.c with the address arithmetic of mmu.h, on the memory and
    the page allocator of Kalloc. *)
From stdpp Require Import base numbers list strings sets gmap.
From S2P Require Import Prelude Params Spinlock Sched Kalloc.

Set Warnings "-clear-no-such-hyp".

(** *** mmu.h *)
Definition PDX (va : Z) : Z := Z.land (Z.shiftr va 22) 0x3FF.
Definition PTX (va : Z) : Z := Z.land (Z.shiftr va 12) 0x3FF.
Definition PGADDR (d t o : Z) : Z := u32 (Z.lor (Z.lor (Z.shiftl d 22) (Z.shiftl t 12)) o).
Definition NPDENTRIES : Z := 1024.
Definition NPTENTRIES : Z := 1024.
Definition PTE_V : Z := 0x001.
Definition PTE_EX : Z := 0x008.
Definition PTE_PP : Z := 0x030.
Definition PTE_PP_RWXX : Z := 0x000.
Definition PTE_PP_RDXX : Z := 0x010.
Definition PTE_PP_RWRD : Z := 0x020.
Definition PTE_PP_RWRW : Z := 0x030.
Definition PTE_ADDR (pte : Z) : Z := Z.land pte (u32 (Z.lnot 0xFFF)).
Definition PTE_FLAGS (pte : Z) : Z := Z.land pte 0xFFF.

(** A page's bytes copied, and some bytes stored inside one page. *)
Definition copy_page (dst src : Z) : M kst unit :=
  s <- get ;;
  p <- some (k_pages s !! src) ;;
  _ <- some (k_pages s !! dst) ;;
  modify (fun s => set_pages (<[dst := p]> (k_pages s)) s).
Definition store_bytes (a : Z) (l : list Z) : M kst unit :=
  s <- get ;;
  p <- some (k_pages s !! page_of a) ;;
  if decide (page_off a + length l <= length p)%nat
  then modify (fun s => set_pages (<[page_of a := splice (page_off a) l p]> (k_pages s)) s) else fault.

Section vm.
  (** [end] and [data] (kernel.ld). *)
  Context (kend kdata : Z).

  (** *** walkpgdir: the address of the entry, 0 for the null pointer. *)
Definition walkpgdir (pgdir va : Z) (alloc : bool) : M kst Z :=
    let pde := pgdir + 4 * PDX va in
    e <- ldw pde ;;
    if Flag.has e PTE_V then ret (p2v (PTE_ADDR e) + 4 * PTX va)
    else
      if negb alloc then ret 0 else
      pgtab <- kalloc ;;
      if pgtab =? 0 then ret 0 else
      fill_page pgtab 0 ;;;
      stw pde (Z.lor (Z.lor (Z.lor (v2p pgtab) PTE_V) PTE_PP_RWRW) PTE_EX) ;;;
      ret (pgtab + 4 * PTX va).

  (** *** mappages *)
Fixpoint map_from (fuel : nat) (pgdir a last pa perm : Z) : M kst Z :=
    match fuel with
    | O => diverge
    | S fuel =>
        pte <- walkpgdir pgdir a true ;;
        if pte =? 0 then ret (-1) else
        e <- ldw pte ;;
        if Flag.has e PTE_V then panic "remap" else
        stw pte (Z.lor (Z.lor pa perm) PTE_V) ;;;
        if a =? last then ret 0
        else map_from fuel pgdir (u32 (a + PGSIZE)) last (u32 (pa + PGSIZE)) perm
    end.
Definition mappages (pgdir va size pa perm : Z) : M kst Z :=
    let a := PGROUNDDOWN va in
    let last := PGROUNDDOWN (u32 (va + size - 1)) in
    map_from (Z.to_nat (2 ^ 20)) pgdir a last pa perm.

  (** *** kmap, setupkvm *)
Definition kmap : list (Z * Z * Z * Z) :=
    [(KERNBASE, 0, EXTMEM, PTE_PP_RWXX);
     (KERNLINK, v2p KERNLINK, v2p kdata, Z.lor PTE_PP_RDXX PTE_EX);
     (kdata, v2p kdata, PHYSTOP, PTE_PP_RWXX);
     (DEVSPACE, DEVSPACE, 0, PTE_PP_RWXX)].

Fixpoint map_kernel (l : list (Z * Z * Z * Z)) (pgdir : Z) : M kst Z :=
    match l with
    | [] => ret pgdir
    | (virt, phys_start, phys_end, perm) :: l =>
        r <- mappages pgdir virt (u32 (phys_end - phys_start)) phys_start perm ;;
        if r <? 0 then ret 0 else map_kernel l pgdir
    end.

Definition setupkvm : M kst Z :=
    pgdir <- kalloc ;;
    if pgdir =? 0 then ret 0 else
    fill_page pgdir 0 ;;;
    if p2v PHYSTOP >? DEVSPACE then panic "PHYSTOP too high" else
    map_kernel kmap pgdir.

  (** *** inituvm *)
Definition inituvm (pgdir : Z) (init : list Z) (sz : Z) : M kst unit :=
    if sz >=? PGSIZE then panic "inituvm: more than a page" else
    m <- kalloc ;;
    fill_page m 0 ;;;
    mappages pgdir 0 PGSIZE (v2p m) (Z.lor PTE_PP_RWRW PTE_EX) ;;;
    store_bytes m (take (Z.to_nat sz) init).

  (** *** deallocuvm *)
Fixpoint dealloc_from (fuel : nat) (pgdir a oldsz : Z) : M kst unit :=
    match fuel with
    | O => diverge
    | S fuel =>
        if negb (a <? oldsz) then ret tt else
        pte <- walkpgdir pgdir a false ;;
        if pte =? 0 then dealloc_from fuel pgdir (u32 (u32 (a + (NPTENTRIES - 1) * PGSIZE) + PGSIZE)) oldsz
        else
          e <- ldw pte ;;
          (if Flag.has e PTE_V then
             let pa := PTE_ADDR e in
             if pa =? 0 then panic "kfree" else
             kfree kend (p2v pa) ;;;
             stw pte 0
           else ret tt) ;;;
          dealloc_from fuel pgdir (u32 (a + PGSIZE)) oldsz
    end.
Definition deallocuvm (pgdir oldsz newsz : Z) : M kst Z :=
    if newsz >=? oldsz then ret oldsz else
    dealloc_from (Z.to_nat (2 ^ 20)) pgdir (PGROUNDUP newsz) oldsz ;;;
    ret newsz.

  (** *** allocuvm *)
Definition cprint (msg : string) : M kst unit :=
    modify (fun s => Kst (k_base s) (km_lock s) (km_use_lock s) (km_freelist s) (k_pages s) (k_out s ++ [msg])).

Fixpoint alloc_from (fuel : nat) (pgdir a oldsz newsz : Z) : M kst Z :=
    match fuel with
    | O => diverge
    | S fuel =>
        if negb (a <? newsz) then ret newsz else
        m <- kalloc ;;
        if m =? 0 then
          cprint "allocuvm out of memory\n" ;;;
          deallocuvm pgdir newsz oldsz ;;;
          ret 0
        else
          fill_page m 0 ;;;
          mappages pgdir a PGSIZE (v2p m) (Z.lor PTE_PP_RWRW PTE_EX) ;;;
          alloc_from fuel pgdir (u32 (a + PGSIZE)) oldsz newsz
    end.
Definition allocuvm (pgdir oldsz newsz : Z) : M kst Z :=
    if newsz >=? KERNBASE then ret 0 else
    if newsz <? oldsz then ret oldsz else
    alloc_from (Z.to_nat (2 ^ 20)) pgdir (PGROUNDUP oldsz) oldsz newsz.

  (** *** freevm *)
Definition freevm (pgdir : Z) : M kst unit :=
    if pgdir =? 0 then panic "freevm: no pgdir" else
    deallocuvm pgdir KERNBASE 0 ;;;
    for_ (Z.to_nat NPDENTRIES) (fun i =>
      e <- ldw (pgdir + 4 * Z.of_nat i) ;;
      if Flag.has e PTE_V then kfree kend (p2v (PTE_ADDR e)) else ret tt) ;;;
    kfree kend pgdir.

  (** *** clearpteu *)
Definition clearpteu (pgdir uva : Z) : M kst unit :=
    pte <- walkpgdir pgdir uva false ;;
    if pte =? 0 then panic "clearpteu" else
    e <- ldw pte ;;
    stw pte (Z.land e (u32 (Z.lnot PTE_PP))).

  (** *** copyuvm *)
Fixpoint copy_from (fuel : nat) (pgdir d i sz : Z) : M kst Z :=
    match fuel with
    | O => diverge
    | S fuel =>
        if negb (i <? sz) then ret d else
        pte <- walkpgdir pgdir i false ;;
        if pte =? 0 then panic "copyuvm: pte should exist" else
        e <- ldw pte ;;
        if negb (Flag.has e PTE_V) then panic "copyuvm: page not present" else
        let pa := PTE_ADDR e in
        let flags := PTE_FLAGS e in
        m <- kalloc ;;
        if m =? 0 then freevm d ;;; ret 0 else
        copy_page m (p2v pa) ;;;
        r <- mappages d i PGSIZE (v2p m) flags ;;
        if r <? 0 then freevm d ;;; ret 0 else
        copy_from fuel pgdir d (u32 (i + PGSIZE)) sz
    end.
Definition copyuvm (pgdir sz : Z) : M kst Z :=
    d <- setupkvm ;;
    if d =? 0 then ret 0 else copy_from (Z.to_nat (2 ^ 20)) pgdir d 0 sz.

  (** *** uva2ka: the entry is read whether or not there is one. *)
Definition uva2ka (pgdir uva : Z) : M kst Z :=
    pte <- walkpgdir pgdir uva false ;;
    e <- ldw pte ;;
    if Z.land e PTE_V =? 0 then ret 0 else
    if Z.land e PTE_PP_RWRD =? 0 then ret 0 else
    ret (p2v (PTE_ADDR e)).

  (** *** copyout *)
Fixpoint copyout_from (fuel : nat) (pgdir va : Z) (buf : list Z) (len : Z) : M kst Z :=
    match fuel with
    | O => diverge
    | S fuel =>
        if negb (len >? 0) then ret 0 else
        let va0 := PGROUNDDOWN va in
        pa0 <- uva2ka pgdir va0 ;;
        if pa0 =? 0 then ret (-1) else
        let n := PGSIZE - (va - va0) in
        let n := if n >? len then len else n in
        store_bytes (pa0 + (va - va0)) (take (Z.to_nat n) buf) ;;;
        copyout_from fuel pgdir (u32 (va0 + PGSIZE)) (drop (Z.to_nat n) buf) (len - n)
    end.
Definition copyout (pgdir va : Z) (p : list Z) (len : Z) : M kst Z :=
    copyout_from (S (Z.to_nat len)) pgdir va p len.
End vm.

(** ** Addresses *)

Lemma mask_low n e : 0 <= n -> is_u32 e -> Z.land e (u32 (Z.lnot (Z.ones n))) = e - e mod 2 ^ n.
Proof.
  intros Hn He. unfold is_u32 in He.
  assert (u32 (Z.lnot (Z.ones n)) = Z.land (Z.lnot (Z.ones n)) (Z.ones 32)) as ->
    by (unfold u32; by rewrite Z.land_ones by lia).
  rewrite (Z.land_comm (Z.lnot _)), Z.land_assoc, (Z.land_ones e 32), Z.mod_small by lia.
  rewrite <- Z.ldiff_land, Z.ldiff_ones_r, Z.shiftr_div_pow2, Z.shiftl_mul_pow2 by lia.
  pose proof (Z.div_mod e (2 ^ n) ltac:(lia)). lia.
Qed.
Lemma mask_page e : is_u32 e -> Z.land e (u32 (Z.lnot 0xFFF)) = e - e mod PGSIZE.
Proof. by apply (mask_low 12). Qed.

Lemma PGROUNDDOWN_eq a : is_u32 a -> PGROUNDDOWN a = page_of a.
Proof. apply mask_page. Qed.

Lemma PTE_ADDR_eq e : is_u32 e -> PTE_ADDR e = page_of e.
Proof. apply mask_page. Qed.

Lemma page_of_div a : page_of a = a / PGSIZE * PGSIZE.
Proof. unfold page_of. change PGSIZE with 4096. pose proof (Z.div_mod a 4096 ltac:(lia)). lia. Qed.

Lemma PDX_eq va : PDX va = va / 2 ^ 22 mod 1024.
Proof. unfold PDX. change 0x3FF with (Z.ones 10). by rewrite Z.land_ones, Z.shiftr_div_pow2 by lia. Qed.
Lemma PTX_eq va : PTX va = va / 4096 mod 1024.
Proof. unfold PTX. change 0x3FF with (Z.ones 10). by rewrite Z.land_ones, Z.shiftr_div_pow2 by lia. Qed.

Lemma PDX_range va : 0 <= PDX va < 1024.
Proof. rewrite PDX_eq. apply Z.mod_pos_bound. lia. Qed.
Lemma PTX_range va : 0 <= PTX va < 1024.
Proof. rewrite PTX_eq. apply Z.mod_pos_bound. lia. Qed.

(** A page number is its two indices. *)
Lemma page_indices va : is_u32 va -> va / PGSIZE = 1024 * PDX va + PTX va.
Proof.
  intros Hva. unfold is_u32 in Hva. rewrite PDX_eq, PTX_eq. change PGSIZE with 4096.
  change (2 ^ 22) with (4096 * 1024). rewrite <- Z.div_div by lia.
  rewrite (Z.mod_small (va / 4096 / 1024)).
  - apply Z.div_mod. lia.
  - split; [apply Z.div_pos; [apply Z.div_pos|]; lia|].
    apply Z.div_lt_upper_bound; [lia|]. apply Z.div_lt_upper_bound; lia.
Qed.

(** Two numbers that share no bit. *)
Lemma lor_add a b k : 0 <= k -> 0 <= b < 2 ^ k -> Z.lor (Z.shiftl a k) b = Z.shiftl a k + b.
Proof.
  intros Hk Hb. symmetry. apply Z.add_nocarry_lor.
  apply Z.bits_inj'; intros i Hi; rewrite Z.land_spec, Z.bits_0, Z.shiftl_spec by lia.
  destruct (decide (i < k)); [rewrite Z.testbit_neg_r by lia; done|].
  destruct (decide (b = 0)) as [->|]; [by rewrite Z.bits_0, andb_false_r|].
  rewrite (Z.bits_above_log2 b i); [apply andb_false_r|lia|]. apply Z.log2_lt_pow2; [lia|].
  apply Z.lt_le_trans with (2 ^ k); [lia|]. apply Z.pow_le_mono_r; lia.
Qed.

Lemma PGADDR_indices va : is_u32 va -> PGADDR (PDX va) (PTX va) (va mod PGSIZE) = va.
Proof.
  intros Hva. pose proof (PDX_range va). pose proof (PTX_range va). pose proof (page_indices va Hva).
  change PGSIZE with 4096 in *. pose proof (Z.div_mod va 4096 ltac:(lia)).
  pose proof (Z.mod_pos_bound va 4096 ltac:(lia)). unfold PGADDR.
  replace (Z.shiftl (PDX va) 22) with (Z.shiftl (Z.shiftl (PDX va) 10) 12)
    by (rewrite Z.shiftl_shiftl by lia; done).
  rewrite <- Z.shiftl_lor, (lor_add _ (PTX va) 10), lor_add by (simpl; lia).
  rewrite !Z.shiftl_mul_pow2 by lia. rewrite u32_id; unfold is_u32 in *; lia.
Qed.

(** ** Entries *)

(** A page address with flag bits: both can be read back. *)
Lemma entry_or pa f : pa mod PGSIZE = 0 -> 0 <= f < PGSIZE -> Z.lor pa f = pa + f.
Proof.
  intros Hm Hf. assert (pa = Z.shiftl (pa / PGSIZE) 12) as E.
  { rewrite Z.shiftl_mul_pow2 by lia. change PGSIZE with (2 ^ 12) in *.
    pose proof (Z.div_mod pa (2 ^ 12) ltac:(lia)). lia. }
  rewrite E at 1. rewrite lor_add by (unfold PGSIZE in *; lia). by rewrite <- E.
Qed.

Lemma entry_range pa f : is_u32 pa -> pa mod PGSIZE = 0 -> 0 <= f < PGSIZE -> is_u32 (pa + f).
Proof. unfold is_u32, PGSIZE. intros. pose proof (Z.div_mod pa 4096 ltac:(lia)). lia. Qed.

Lemma entry_addr pa f :
  is_u32 pa -> pa mod PGSIZE = 0 -> 0 <= f < PGSIZE -> PTE_ADDR (Z.lor pa f) = pa.
Proof.
  intros Hu Hm Hf. rewrite entry_or, PTE_ADDR_eq by (auto using entry_range).
  unfold page_of, PGSIZE in *. rewrite <- Z.add_mod_idemp_l, Hm, Z.add_0_l, Z.mod_small; lia.
Qed.

Lemma entry_flags pa f : pa mod PGSIZE = 0 -> 0 <= f < PGSIZE -> PTE_FLAGS (Z.lor pa f) = f.
Proof.
  intros Hm Hf. rewrite entry_or by done. unfold PTE_FLAGS. change 0xFFF with (Z.ones 12).
  rewrite Z.land_ones by lia. change (2 ^ 12) with 4096. unfold PGSIZE in *.
  rewrite <- Z.add_mod_idemp_l, Hm, Z.add_0_l, Z.mod_small; lia.
Qed.

Lemma valid_or e : Flag.has (Z.lor e PTE_V) PTE_V = true.
Proof.
  change PTE_V with (2 ^ 0). rewrite Flag.has_testbit by lia.
  rewrite Z.lor_spec. change (Z.testbit (2 ^ 0) 0) with true. apply orb_true_r.
Qed.

Lemma p2v_v2p v : is_u32 v -> p2v (v2p v) = v.
Proof. intros Hv. unfold p2v, v2p, u32, is_u32 in *. rewrite Zplus_mod_idemp_l. rewrite Z.mod_small; lia. Qed.

Lemma aligned_mod a : is_u32 a -> page_of a mod PGSIZE = 0.
Proof. intros _. rewrite page_of_div. apply Z_mod_mult. Qed.

Lemma p2v_aligned a : a mod PGSIZE = 0 -> p2v a mod PGSIZE = 0.
Proof.
  intros Ha. unfold p2v, u32, KERNBASE. change (2 ^ 32) with (PGSIZE * 2 ^ 20).
  rewrite Z.rem_mul_r by (unfold PGSIZE; lia).
  rewrite (Z.mul_comm PGSIZE), Z_mod_plus_full, Z.mod_mod by (unfold PGSIZE; lia).
  rewrite <- Z.add_mod_idemp_l, Ha by (unfold PGSIZE; lia). done.
Qed.
Lemma v2p_aligned a : a mod PGSIZE = 0 -> v2p a mod PGSIZE = 0.
Proof.
  intros Ha. unfold v2p, u32, KERNBASE. change (2 ^ 32) with (PGSIZE * 2 ^ 20).
  rewrite Z.rem_mul_r by (unfold PGSIZE; lia).
  rewrite (Z.mul_comm PGSIZE), Z_mod_plus_full, Z.mod_mod by (unfold PGSIZE; lia).
  rewrite Zminus_mod, Ha by (unfold PGSIZE; lia). done.
Qed.

(** Word [i] of a page-aligned page. *)
Lemma word_place v i : v mod PGSIZE = 0 -> 0 <= i < 1024 ->
  page_of (v + 4 * i) = v /\ page_off (v + 4 * i) = Z.to_nat (4 * i).
Proof.
  intros Hv Hi. unfold page_of, page_off, PGSIZE in *.
  rewrite <- Z.add_mod_idemp_l, Hv, Z.add_0_l, Z.mod_small by lia. split; [lia|done].
Qed.

(** ** The mapping a page directory denotes *)

(** Word [i] of the page at [v]. *)
Definition word (s : kst) (v i : Z) : Z := get32 (Z.to_nat (4 * i)) (default [] (k_pages s !! v)).
Definition table (e : Z) : Z := p2v (PTE_ADDR e).

(** The entry of [va], 0 when there is no table for it. *)
Definition pte_of (s : kst) (pgdir va : Z) : Z :=
  let e := word s pgdir (PDX va) in
  if Flag.has e PTE_V then word s (table e) (PTX va) else 0.

(** The directory and the tables it points at are allocated pages, and no two
    slots share a table. *)
Record pt_ok (kend : Z) (s : kst) (pgdir : Z) (l : list Z) : Prop := {
  po_kmem : kmem_ok s l;
  po_free : forall x, x ∈ l -> freeable kend x;
  po_bytes : forall v p, k_pages s !! v = Some p -> Forall is_u8 p;
  po_dir : pgdir mod PGSIZE = 0 /\ is_Some (k_pages s !! pgdir) /\ pgdir ∉ l;
  po_tab : forall i, 0 <= i < 1024 -> Flag.has (word s pgdir i) PTE_V = true ->
    (let t := table (word s pgdir i) in t <> 0 /\ is_Some (k_pages s !! t) /\ (t ∉ l) /\ t <> pgdir);
  po_inj : forall i j, 0 <= i < 1024 -> 0 <= j < 1024 ->
    Flag.has (word s pgdir i) PTE_V = true -> Flag.has (word s pgdir j) PTE_V = true ->
    table (word s pgdir i) = table (word s pgdir j) -> i = j;
}.

Lemma word_range kend s pgdir l v i : pt_ok kend s pgdir l -> is_u32 (word s v i).
Proof.
  intros Hok. unfold word. apply get32_range.
  destruct (k_pages s !! v) as [p|] eqn:E; [by eapply po_bytes|apply Forall_nil_2].
Qed.

Lemma table_aligned e : is_u32 e -> table e mod PGSIZE = 0.
Proof. intros He. apply p2v_aligned. rewrite PTE_ADDR_eq by done. by apply aligned_mod. Qed.

Lemma ldw_word kend s pgdir l v i :
  pt_ok kend s pgdir l -> v mod PGSIZE = 0 -> 0 <= i < 1024 -> is_Some (k_pages s !! v) ->
  ldw (v + 4 * i) s = Ok (word s v i) s.
Proof.
  intros Hok Hv Hi [p Hp]. destruct (word_place v i Hv Hi) as [Ea Eo].
  assert (length p = Z.to_nat PGSIZE) as Hl by (by eapply (ko_pages _ _ (po_kmem _ _ _ _ Hok))).
  unfold word. rewrite Hp. rewrite (ldw_run _ _ p), Eo; [done|by rewrite Ea|].
  rewrite Eo, Hl. unfold PGSIZE. lia.
Qed.

(** The state after a word is stored. *)
Definition stored (s : kst) (v i x : Z) : kst :=
  set_pages (<[v := put32 (Z.to_nat (4 * i)) x (default [] (k_pages s !! v))]> (k_pages s)) s.

Lemma stw_word s v i x p :
  v mod PGSIZE = 0 -> 0 <= i < 1024 -> k_pages s !! v = Some p -> length p = Z.to_nat PGSIZE ->
  stw (v + 4 * i) x s = Ok tt (stored s v i x).
Proof.
  intros Hv Hi Hp Hl. destruct (word_place v i Hv Hi) as [Ea Eo]. unfold stored. rewrite Hp.
  rewrite (stw_run _ _ _ p), Eo, Ea; [done|by rewrite Ea|]. rewrite Eo, Hl. unfold PGSIZE. lia.
Qed.

Lemma word_stored s v i x w j p :
  k_pages s !! v = Some p -> length p = Z.to_nat PGSIZE -> 0 <= i < 1024 -> 0 <= j < 1024 ->
  word (stored s v i x) w j = if decide (w = v /\ j = i) then u32 x else word s w j.
Proof.
  intros Hp Hl Hi Hj. unfold word, stored. cbn [set_pages k_pages]. rewrite Hp. simpl.
  destruct (decide (w = v)) as [->|Hw].
  - rewrite lookup_insert_eq, Hp. simpl. case_decide as E.
    + destruct E as [_ ->]. apply get32_put32_eq. rewrite Hl. unfold PGSIZE. lia.
    + apply get32_put32_ne; [rewrite Hl; unfold PGSIZE; lia|]. assert (j <> i) by tauto. lia.
  - rewrite lookup_insert_ne by done. rewrite decide_False by tauto. done.
Qed.

(** Storing into a page that is not free keeps the allocator's invariant. *)
Lemma kmem_ok_stored s l v i x p :
  kmem_ok s l -> v ∉ l -> k_pages s !! v = Some p -> 0 <= i < 1024 -> kmem_ok (stored s v i x) l.
Proof.
  intros Hok Hv Hp Hi. pose proof (ko_pages _ _ Hok _ _ Hp) as Hl. destruct Hok as [Hc Hn Hlen Hf Hcli].
  split; try done; [by apply chain_insert|].
  intros w q. cbn [stored set_pages k_pages]. rewrite Hp. simpl. rewrite lookup_insert_Some.
  intros [[_ <-]|[_ Hq]]; [|by eapply Hlen].
  rewrite length_put32, Hl; [done|]. rewrite Hl. unfold PGSIZE. lia.
Qed.

Lemma bytes_stored s v i x :
  (forall w p, k_pages s !! w = Some p -> Forall is_u8 p) ->
  forall w p, k_pages (stored s v i x) !! w = Some p -> Forall is_u8 p.
Proof.
  intros Hb w p. cbn [stored set_pages k_pages]. rewrite lookup_insert_Some. intros [[_ <-]|[_ H]]; [|by eapply Hb].
  unfold put32. apply Forall_splice; [apply be32_u8|].
  destruct (k_pages s !! v) eqn:E; [by eapply Hb|apply Forall_nil_2].
Qed.

Lemma is_Some_stored s v i x w : is_Some (k_pages s !! w) -> is_Some (k_pages (stored s v i x) !! w).
Proof. intros H. cbn [stored set_pages k_pages]. rewrite lookup_insert_is_Some. destruct (decide (v = w)); auto. Qed.

(** A store into a table changes one entry. *)
Lemma store_pte kend s pgdir l va x :
  pt_ok kend s pgdir l -> Flag.has (word s pgdir (PDX va)) PTE_V = true -> is_u32 va -> is_u32 x ->
  let t := table (word s pgdir (PDX va)) in
  let s' := stored s t (PTX va) x in
  stw (t + 4 * PTX va) x s = Ok tt s' /\ pt_ok kend s' pgdir l /\
  (forall i, 0 <= i < 1024 -> word s' pgdir i = word s pgdir i) /\
  forall va', is_u32 va' -> pte_of s' pgdir va' =
    if decide (va' / PGSIZE = va / PGSIZE) then x else pte_of s pgdir va'.
Proof.
  intros Hok Hv Hva Hx t s'. pose proof (PDX_range va) as HD. pose proof (PTX_range va) as HT.
  destruct (po_tab _ _ _ _ Hok _ HD Hv) as (Ht0 & [p Hp] & Htl & Htd).
  pose proof (ko_pages _ _ (po_kmem _ _ _ _ Hok) _ _ Hp) as Hlen.
  assert (Hw : forall w j, 0 <= j < 1024 -> word s' w j = if decide (w = t /\ j = PTX va) then x else word s w j).
  { intros w j Hj. unfold s'. rewrite (word_stored _ _ _ _ _ _ p) by done. by rewrite u32_id. }
  assert (Hdir : forall i, 0 <= i < 1024 -> word s' pgdir i = word s pgdir i).
  { intros i Hi. rewrite Hw by done. apply decide_False. intros [E _]. by apply Htd. }
  split_and!; [|split|done|].
  - apply (stw_word s t (PTX va) x p); try done. apply table_aligned. by eapply word_range.
  - eapply kmem_ok_stored; try done. by eapply po_kmem.
  - by eapply po_free.
  - apply bytes_stored. by eapply po_bytes.
  - destruct (po_dir _ _ _ _ Hok) as (? & ? & ?). split_and!; try done. by apply is_Some_stored.
  - intros i Hi. rewrite Hdir by done. intros HV.
    destruct (po_tab _ _ _ _ Hok i Hi HV) as (? & ? & ? & ?). split_and!; try done. by apply is_Some_stored.
  - intros i j Hi Hj. rewrite !Hdir by done. by eapply po_inj.
  - intros va' Hva'. pose proof (PDX_range va') as HD'. pose proof (PTX_range va') as HT'.
    pose proof (page_indices va Hva). pose proof (page_indices va' Hva').
    unfold pte_of. rewrite Hdir by done. destruct (decide (va' / PGSIZE = va / PGSIZE)) as [E|E].
    + assert (PDX va' = PDX va) as -> by lia. assert (PTX va' = PTX va) as -> by lia.
      rewrite Hv, Hw by done. by apply decide_True.
    + destruct (Flag.has (word s pgdir (PDX va')) PTE_V) eqn:HV; [|done]. rewrite Hw by done.
      apply decide_False. intros [Et Ep]. apply E. assert (PDX va' = PDX va) by (by eapply po_inj). lia.
Qed.

(** A free page turned into a table. *)
Definition with_table (s : kst) (pgdir d v e : Z) : kst :=
  stored (set_pages (<[v := replicate (Z.to_nat PGSIZE) 0]> (k_pages s)) s) pgdir d e.

Lemma get32_zero n k : get32 k (replicate n 0) = 0.
Proof.
  unfold get32, be_val, slice. rewrite drop_replicate, take_replicate.
  generalize (min 4 (n - k)). intros m. induction m as [|m IH]; [done|]. exact IH.
Qed.

Lemma add_table kend s pgdir d v l e :
  pt_ok kend s pgdir (v :: l) -> 0 <= d < 1024 -> Flag.has (word s pgdir d) PTE_V = false ->
  is_u32 e -> Flag.has e PTE_V = true -> table e = v ->
  forall s1, kmem_ok s1 l -> k_pages s1 = k_pages s ->
  let s' := with_table s1 pgdir d v e in
  pt_ok kend s' pgdir l /\
  (forall i, 0 <= i < 1024 -> word s' pgdir i = if decide (i = d) then e else word s pgdir i) /\
  forall va, is_u32 va -> pte_of s' pgdir va = pte_of s pgdir va.
Proof.
  intros Hok Hd Hinv He HeV Het s1 Hk1 Hpg s'.
  destruct (po_dir _ _ _ _ Hok) as (Hda & [pd Hpd] & Hdl). apply not_elem_of_cons in Hdl as [Hdv Hdl].
  pose proof (ko_nodup _ _ (po_kmem _ _ _ _ Hok)) as [Hvl _]%NoDup_cons.
  pose proof (ko_pages _ _ (po_kmem _ _ _ _ Hok) _ _ Hpd) as Hlen.
  set (s2 := set_pages (<[v := replicate (Z.to_nat PGSIZE) 0]> (k_pages s1)) s1) in *.
  assert (Hpd2 : k_pages s2 !! pgdir = Some pd) by (cbn; rewrite lookup_insert_ne by done; by rewrite Hpg).
  assert (Hk2 : kmem_ok s2 l).
  { destruct Hk1 as [Hc Hn Hl Hf Hcli]. split; try done; [by apply chain_insert|].
    intros w q. cbn. rewrite lookup_insert_Some. intros [[_ <-]|[_ Hq]]; [apply length_replicate|by eapply Hl]. }
  assert (Hw2 : forall w j, w <> v -> word s2 w j = word s w j).
  { intros w j Hwv. unfold word. cbn. rewrite lookup_insert_ne by done. by rewrite Hpg. }
  assert (Hw : forall w j, 0 <= j < 1024 -> word s' w j = if decide (w = pgdir /\ j = d) then e else word s2 w j).
  { intros w j Hj. unfold s', with_table. fold s2. rewrite (word_stored _ _ _ _ _ _ pd) by done. by rewrite u32_id. }
  assert (Hdir : forall i, 0 <= i < 1024 -> word s' pgdir i = if decide (i = d) then e else word s pgdir i).
  { intros i Hi. rewrite Hw by done. destruct (decide (i = d)) as [->|Hne]; [by rewrite decide_True|].
    rewrite decide_False by tauto. by apply Hw2. }
  assert (Hsome : forall w, is_Some (k_pages s !! w) -> is_Some (k_pages s' !! w)).
  { intros w Hs. apply is_Some_stored. cbn. rewrite lookup_insert_is_Some, Hpg. destruct (decide (v = w)); auto. }
  split_and!; [split|done|].
  - by eapply kmem_ok_stored.
  - intros x Hx. eapply po_free; [done|by right].
  - apply bytes_stored. intros w q. cbn. rewrite lookup_insert_Some, Hpg.
    intros [[_ <-]|[_ Hq]]; [|by eapply po_bytes].
    apply Forall_replicate. unfold is_u8. lia.
  - split_and!; try done. by apply Hsome.
  - intros i Hi. rewrite Hdir by done. case_decide as Ei.
    + intros _. rewrite Het. pose proof (po_free _ _ _ _ Hok v ltac:(left)) as (_ & ? & ? & _).
      split_and!; [unfold KERNBASE in *; lia| |done|done].
      apply is_Some_stored. cbn. rewrite lookup_insert_eq. done.
    + intros HV. destruct (po_tab _ _ _ _ Hok i Hi HV) as (? & ? & [? ?]%not_elem_of_cons & ?).
      split_and!; auto.
  - intros i j Hi Hj. rewrite !Hdir by done. repeat case_decide; try congruence.
    + intros _ HV E. destruct (po_tab _ _ _ _ Hok j Hj HV) as (_ & _ & [? ?]%not_elem_of_cons & _). congruence.
    + intros HV _ E. destruct (po_tab _ _ _ _ Hok i Hi HV) as (_ & _ & [? ?]%not_elem_of_cons & _). congruence.
    + by eapply po_inj.
  - intros va Hva. pose proof (PDX_range va) as HD. pose proof (PTX_range va) as HT.
    unfold pte_of. rewrite Hdir by done. case_decide as Ed.
    + rewrite HeV, Ed, Hinv, Het, Hw by done. rewrite decide_False by (intros [? _]; congruence).
      unfold word. cbn. rewrite lookup_insert_eq. apply get32_zero.
    + destruct (Flag.has (word s pgdir (PDX va)) PTE_V) eqn:HV; [|done].
      destruct (po_tab _ _ _ _ Hok _ HD HV) as (_ & _ & [? ?]%not_elem_of_cons & ?).
      rewrite Hw by done. rewrite decide_False by tauto. by apply Hw2.
Qed.

(** A page of the page table itself. *)
Definition pt_page (s : kst) (pgdir v : Z) : Prop :=
  v = pgdir \/ exists i, 0 <= i < 1024 /\ Flag.has (word s pgdir i) PTE_V = true /\ table (word s pgdir i) = v.

(** The pages that were neither free nor part of the page table are as before. *)
Definition data_same (s s' : kst) (pgdir : Z) (l : list Z) : Prop :=
  forall v, v ∉ l -> ~ pt_page s pgdir v -> k_pages s' !! v = k_pages s !! v /\ ~ pt_page s' pgdir v.

Lemma data_same_refl s s' pgdir l : k_pages s' = k_pages s -> data_same s s' pgdir l.
Proof. intros E v _ Hv. split; [by rewrite E|]. unfold pt_page, word in *. by rewrite E. Qed.

Lemma data_same_trans s1 s2 s3 pgdir l l2 :
  data_same s1 s2 pgdir l -> data_same s2 s3 pgdir l2 -> (forall v, v ∈ l2 -> v ∈ l) -> data_same s1 s3 pgdir l.
Proof.
  intros H1 H2 Hl v Hv Hp. destruct (H1 v Hv Hp) as [E1 P1].
  destruct (H2 v (fun h => Hv (Hl v h)) P1) as [E2 P2]. by rewrite E2, E1.
Qed.

(** Pages are taken from the free list only to become part of the page table. *)
Record grew (s s' : kst) (pgdir : Z) (l l' : list Z) : Prop := {
  gr_sub : forall x, x ∈ l' -> x ∈ l;
  gr_all : forall x, x ∈ l -> x ∈ l' \/ pt_page s' pgdir x;
  gr_old : forall x, pt_page s pgdir x -> pt_page s' pgdir x;
  gr_new : forall x, pt_page s' pgdir x -> pt_page s pgdir x \/ x ∈ l;
  gr_some : forall w, is_Some (k_pages s !! w) -> is_Some (k_pages s' !! w);
  gr_quiet : kquiet s s';
}.

Lemma grew_same s s' pgdir l : k_pages s' = k_pages s -> kquiet s s' -> grew s s' pgdir l l.
Proof.
  intros E Q. assert (Hp : forall x, pt_page s' pgdir x <-> pt_page s pgdir x) by (intros x; unfold pt_page, word; by rewrite E).
  split; auto; [intros x; by rewrite Hp|intros x; rewrite Hp; auto|by rewrite E].
Qed.
Lemma grew_trans s1 s2 s3 pgdir l1 l2 l3 : grew s1 s2 pgdir l1 l2 -> grew s2 s3 pgdir l2 l3 -> grew s1 s3 pgdir l1 l3.
Proof.
  intros [A1 B1 C1 D1 E1 F1] [A2 B2 C2 D2 E2 F2]. split; auto.
  - intros x Hx. destruct (B1 x Hx) as [H|H]; auto.
  - intros x Hx. destruct (D2 x Hx) as [H|H]; auto.
  - by etransitivity.
Qed.

Lemma grew_stored s v i x pgdir l :
  (forall j, 0 <= j < 1024 -> word (stored s v i x) pgdir j = word s pgdir j) -> grew s (stored s v i x) pgdir l l.
Proof.
  intros H. assert (Hp : forall y, pt_page (stored s v i x) pgdir y <-> pt_page s pgdir y).
  { intros y. split; (intros [->|(j & Hj & HV & E)]; [by left|right; exists j; specialize (H j Hj)]).
    - by rewrite <- H.
    - by rewrite H. }
  split; auto; [intros y; by rewrite Hp|intros y; rewrite Hp; auto|intros w; apply is_Some_stored|apply kquiet_pages].
Qed.

(** *** walkpgdir *)
Lemma walk_found kend s pgdir l va a :
  pt_ok kend s pgdir l -> Flag.has (word s pgdir (PDX va)) PTE_V = true ->
  walkpgdir pgdir va a s = Ok (table (word s pgdir (PDX va)) + 4 * PTX va) s /\
  table (word s pgdir (PDX va)) + 4 * PTX va <> 0 /\
  ldw (table (word s pgdir (PDX va)) + 4 * PTX va) s = Ok (pte_of s pgdir va) s.
Proof.
  intros Hok HV. pose proof (PDX_range va) as HD. pose proof (PTX_range va) as HT.
  destruct (po_dir _ _ _ _ Hok) as (Hda & Hds & _). destruct (po_tab _ _ _ _ Hok _ HD HV) as (H0 & Hs & _).
  pose proof (table_aligned _ (word_range _ _ _ _ pgdir (PDX va) Hok)) as Ha. split_and!.
  - unfold walkpgdir. rewrite (bind_ok _ _ _ _ _ (ldw_word _ _ _ _ _ _ Hok Hda HD Hds)). by rewrite HV.
  - assert (0 <= table (word s pgdir (PDX va))) by apply u32_range. lia.
  - rewrite (ldw_word _ _ _ _ _ _ Hok Ha HT Hs). unfold pte_of. by rewrite HV.
Qed.

Lemma walk_absent kend s pgdir l va :
  pt_ok kend s pgdir l -> Flag.has (word s pgdir (PDX va)) PTE_V = false ->
  walkpgdir pgdir va false s = Ok 0 s.
Proof.
  intros Hok HV. destruct (po_dir _ _ _ _ Hok) as (Hda & Hds & _).
  unfold walkpgdir. rewrite (bind_ok _ _ _ _ _ (ldw_word _ _ _ _ _ _ Hok Hda (PDX_range va) Hds)). by rewrite HV.
Qed.

Lemma pt_ok_pages kend s s' pgdir l l' :
  pt_ok kend s pgdir l -> kmem_ok s' l' -> k_pages s' = k_pages s -> (forall x, x ∈ l' -> x ∈ l) ->
  pt_ok kend s' pgdir l'.
Proof.
  intros [H1 H2 H3 H4 H5 H6] Hk E Hl.
  assert (Ew : forall v i, word s' v i = word s v i) by (intros; unfold word; by rewrite E).
  split; try done.
  - intros x Hx. auto.
  - by rewrite E.
  - rewrite E. destruct H4 as (? & ? & ?). split_and!; auto.
  - intros i Hi. rewrite Ew, E. intros HV. destruct (H5 i Hi HV) as (? & ? & ? & ?). split_and!; auto.
  - intros i j Hi Hj. rewrite !Ew. by apply H6.
Qed.

Lemma table_entry v :
  v mod PGSIZE = 0 -> is_u32 v ->
  let e := Z.lor (Z.lor (Z.lor (v2p v) PTE_V) PTE_PP_RWRW) PTE_EX in
  is_u32 e /\ Flag.has e PTE_V = true /\ table e = v.
Proof.
  intros Hm Hv e.
  assert (e = Z.lor (v2p v) 0x39) as -> by (unfold e; by rewrite <- !Z.lor_assoc).
  pose proof (v2p_aligned v Hm). assert (is_u32 (v2p v)) by apply u32_range. split_and!.
  - rewrite entry_or by (unfold PGSIZE; lia || done). by apply entry_range.
  - change 0x39 with (Z.lor 0x38 PTE_V). rewrite Z.lor_assoc. apply valid_or.
  - unfold table. rewrite entry_addr by (unfold PGSIZE; lia || done). by apply p2v_v2p.
Qed.

Lemma walk_alloc kend s pgdir l va :
  pt_ok kend s pgdir l -> is_u32 va ->
  (exists s', walkpgdir pgdir va true s = Ok 0 s' /\ l = [] /\ pt_ok kend s' pgdir [] /\ k_pages s' = k_pages s /\
     kquiet s s') \/
  (exists s' l', walkpgdir pgdir va true s = Ok (table (word s' pgdir (PDX va)) + 4 * PTX va) s' /\
     pt_ok kend s' pgdir l' /\ (l' = l \/ l' = tail l) /\
     Flag.has (word s' pgdir (PDX va)) PTE_V = true /\
     (forall va', is_u32 va' -> pte_of s' pgdir va' = pte_of s pgdir va') /\
     data_same s s' pgdir l /\ grew s s' pgdir l l' /\
     (forall i, 0 <= i < 1024 -> i <> PDX va -> word s' pgdir i = word s pgdir i)).
Proof.
  intros Hok Hva. pose proof (PDX_range va) as HD. pose proof (PTX_range va) as HT.
  destruct (po_dir _ _ _ _ Hok) as (Hda & Hds & Hdl).
  destruct (Flag.has (word s pgdir (PDX va)) PTE_V) eqn:HV.
  { right. exists s, l. destruct (walk_found kend s pgdir l va true Hok HV) as (Hw & _ & _).
    split_and!; auto using data_same_refl. apply grew_same; [done|reflexivity]. }
  pose proof (ldw_word _ _ _ _ _ _ Hok Hda HD Hds) as Hld.
  destruct l as [|v l].
  - left. destruct (kalloc_none s (po_kmem _ _ _ _ Hok)) as (s' & Hk & Hok' & Hp & _ & _ & Hq).
    exists s'. split_and!; try done; [|by eapply pt_ok_pages].
    unfold walkpgdir. rewrite (bind_ok _ _ _ _ _ Hld), HV. cbn [negb]. by rewrite (bind_ok _ _ _ _ _ Hk).
  - right. destruct (kalloc_some s v l (po_kmem _ _ _ _ Hok)) as (s1 & Hk & Hok1 & Hp & _ & _ & Hq).
    destruct (ko_chain _ _ (po_kmem _ _ _ _ Hok)) as (_ & Hv0 & Hvm & pv & Hpv & _).
    destruct Hds as [pd Hpd]. pose proof (ko_pages _ _ (po_kmem _ _ _ _ Hok) _ _ Hpd) as Hlen.
    pose proof (po_free _ _ _ _ Hok v ltac:(left)) as (_ & Hvr & Hvk & _).
    destruct (table_entry v Hvm) as (He & HeV & Het); [unfold is_u32, KERNBASE in *; lia|].
    set (e := Z.lor _ _) in He, HeV, Het.
    destruct (add_table kend s pgdir (PDX va) v l e Hok HD HV He HeV Het s1 Hok1 Hp) as (Hok' & Hdir & Hpte).
    set (s' := with_table s1 pgdir (PDX va) v e) in *. exists s', l.
    pose proof (Hdir _ HD) as HdirD. rewrite decide_True in HdirD by done. rewrite HdirD, Het.
    apply not_elem_of_cons in Hdl as [Hdv Hdl]. split_and!; try done; [|by right| | |].
    + unfold walkpgdir. rewrite (bind_ok _ _ _ _ _ Hld), HV. cbn [negb]. rewrite (bind_ok _ _ _ _ _ Hk).
      destruct (v =? 0) eqn:E0; [lia|]. erewrite bind_ok.
      2:{ unfold fill_page. erewrite bind_ok by reflexivity. rewrite Hp, Hpv. reflexivity. }
      change (u8 0) with 0. erewrite bind_ok; [reflexivity|]. unfold s', with_table. rewrite Hp.
      apply (stw_word _ pgdir (PDX va) e pd); try done. cbn. by rewrite lookup_insert_ne.
    + intros w [Hwv Hwl]%not_elem_of_cons Hwp. split.
      * cbn. rewrite lookup_insert_ne by (intros <-; apply Hwp; by left).
        rewrite lookup_insert_ne by done. by rewrite Hp.
      * intros [->|(i & Hi & HiV & Hit)]; [apply Hwp; by left|]. rewrite Hdir in HiV, Hit by done.
        case_decide; [congruence|]. apply Hwp. right. by exists i.
    + split; try done.
      * intros x Hx. by right.
      * intros x [->|Hx]%elem_of_cons; [right; right; exists (PDX va); rewrite HdirD; auto|by left].
      * intros x [->|(i & Hi & HiV & Hit)]; [by left|right]. exists i. rewrite Hdir by done.
        rewrite decide_False by congruence. auto.
      * intros x [->|(i & Hi & HiV & Hit)]; [left; by left|]. rewrite Hdir in HiV, Hit by done.
        case_decide; [right; apply elem_of_cons; left; congruence|left; right; by exists i].
      * intros w Hw. apply is_Some_stored. cbn. rewrite lookup_insert_is_Some, Hp. destruct (decide (v = w)); auto.
    + intros i Hi Hne. rewrite Hdir by done. by apply decide_False.
Qed.

(** *** mappages *)

(** One step of the loop, when there is no entry yet. *)
Lemma map_step kend s pgdir l va e :
  pt_ok kend s pgdir l -> is_u32 va -> is_u32 e -> Flag.has (pte_of s pgdir va) PTE_V = false ->
  (exists s', walkpgdir pgdir va true s = Ok 0 s' /\ l = [] /\ pt_ok kend s' pgdir [] /\ k_pages s' = k_pages s /\
     kquiet s s') \/
  (exists a s1 s' l', walkpgdir pgdir va true s = Ok a s1 /\ a <> 0 /\
     ldw a s1 = Ok (pte_of s pgdir va) s1 /\ stw a e s1 = Ok tt s' /\
     pt_ok kend s' pgdir l' /\ (l' = l \/ l' = tail l) /\
     (forall va', is_u32 va' -> pte_of s' pgdir va' =
        if decide (va' / PGSIZE = va / PGSIZE) then e else pte_of s pgdir va') /\
     data_same s s' pgdir l /\ grew s s' pgdir l l' /\
     (forall i, 0 <= i < 1024 -> i <> PDX va -> word s' pgdir i = word s pgdir i)).
Proof.
  intros Hok Hva He HV. destruct (walk_alloc kend s pgdir l va Hok Hva) as [H|H]; [by left|right].
  destruct H as (s1 & l1 & Hw & Hok1 & Hl1 & HV1 & Hp1 & Hd1 & Hg1 & Hs1).
  destruct (walk_found kend s1 pgdir l1 va true Hok1 HV1) as (_ & Ha0 & Hld).
  destruct (store_pte kend s1 pgdir l1 va e Hok1 HV1 Hva He) as (Hst & Hok2 & Hdir & Hp2).
  eexists _, s1, _, l1. split_and!; try done.
  - rewrite Hld. by rewrite Hp1.
  - intros va' Hva'. rewrite Hp2 by done. case_decide; [done|]. by apply Hp1.
  - eapply data_same_trans; [done| |intros v Hv; exact (Hv : v ∈ l)].
    intros v _ Hv. split.
    + cbn. apply lookup_insert_ne. intros <-. apply Hv. right. exists (PDX va).
      split_and!; [apply PDX_range|apply PDX_range|done|done].
    + intros [->|(i & Hi & HiV & Hit)]; apply Hv; [by left|right]. exists i. by rewrite <- Hdir.
  - eapply grew_trans; [exact Hg1|]. apply grew_stored. intros i Hi. by apply Hdir.
  - intros i Hi Hne. rewrite Hdir by done. by apply Hs1.
Qed.

(** The entry mappages writes. *)
Definition leaf (pa perm : Z) : Z := Z.lor (Z.lor pa perm) PTE_V.

Lemma leaf_facts pa perm :
  is_u32 pa -> pa mod PGSIZE = 0 -> 0 <= perm < PGSIZE ->
  is_u32 (leaf pa perm) /\ PTE_ADDR (leaf pa perm) = pa /\ PTE_FLAGS (leaf pa perm) = Z.lor perm PTE_V.
Proof.
  intros Hu Hm Hp. unfold leaf. rewrite <- Z.lor_assoc.
  assert (0 <= Z.lor perm PTE_V < PGSIZE) as Hb.
  { change PGSIZE with (2 ^ 12) in *. assert (0 <= Z.lor perm PTE_V) by (apply Z.lor_nonneg; unfold PTE_V; lia). split; [done|].
    destruct (Z.eq_dec perm 0) as [->|]; [done|].
    apply Z.log2_lt_pow2; [|rewrite Z.log2_lor by (unfold PTE_V; lia)].
    - assert (Z.lor perm PTE_V <> 0) by (intros [? _]%Z.lor_eq_0_iff; lia).
      lia.
    - apply Z.max_lub_lt; [apply Z.log2_lt_pow2; lia|done]. }
  rewrite entry_addr, entry_flags by done. split_and!; [|done|done].
  rewrite entry_or by done. by apply entry_range.
Qed.

Lemma aligned_u32 x : x mod PGSIZE = 0 -> u32 x mod PGSIZE = 0.
Proof.
  intros Hx. unfold u32. change (2 ^ 32) with (PGSIZE * 2 ^ 20).
  rewrite Z.rem_mul_r by (unfold PGSIZE; lia).
  by rewrite (Z.mul_comm PGSIZE), Z_mod_plus_full, Z.mod_mod by (unfold PGSIZE; lia).
Qed.

Lemma map_run kend pgdir perm (n : nat) : forall fuel s l A pa,
  pt_ok kend s pgdir l -> 0 <= A -> A + Z.of_nat n < 2 ^ 20 -> pa mod PGSIZE = 0 -> 0 <= perm < PGSIZE ->
  is_u32 pa ->
  (forall i, 0 <= i <= Z.of_nat n -> Flag.has (pte_of s pgdir ((A + i) * PGSIZE)) PTE_V = false) ->
  (n < fuel)%nat ->
  exists r s' l',
    map_from fuel pgdir (A * PGSIZE) ((A + Z.of_nat n) * PGSIZE) pa perm s = Ok r s' /\
    pt_ok kend s' pgdir l' /\ grew s s' pgdir l l' /\ data_same s s' pgdir l /\
    (forall i, 0 <= i < 1024 -> ~ (A / 1024 <= i <= (A + Z.of_nat n) / 1024) -> word s' pgdir i = word s pgdir i) /\
    (forall va, is_u32 va -> ~ (A <= va / PGSIZE <= A + Z.of_nat n) -> pte_of s' pgdir va = pte_of s pgdir va) /\
    ((r = 0 /\ forall va, is_u32 va -> A <= va / PGSIZE <= A + Z.of_nat n ->
        pte_of s' pgdir va = leaf (u32 (pa + (va / PGSIZE - A) * PGSIZE)) perm) \/
     (r = -1 /\ l' = [] /\ (length l <= n)%nat /\
      forall va, is_u32 va -> va / PGSIZE = A + Z.of_nat n -> pte_of s' pgdir va = pte_of s pgdir va)).
Proof.
  induction n as [|n IH]; intros fuel s l A pa Hok HA Hn Hpa Hperm Hu Hinv Hfuel;
    (destruct fuel as [|fuel]; [lia|]); cbn [map_from];
    (assert (Hva : is_u32 (A * PGSIZE)) by (unfold is_u32, PGSIZE in *; lia));
    destruct (leaf_facts pa perm Hu Hpa Hperm) as (He & _ & _);
    pose proof (Hinv 0 ltac:(lia)) as Hi0; rewrite Z.add_0_r in Hi0;
    assert (HAd : A * PGSIZE / PGSIZE = A) by (apply Z_div_mult; unfold PGSIZE; lia);
    destruct (map_step kend s pgdir l (A * PGSIZE) _ Hok Hva He Hi0)
      as [(s' & Hw & -> & Hok' & Hp & Hq)|(a & s1 & s2 & l1 & Hw & Ha & Hld & Hst & Hok2 & Hl1 & Hpte & Hd & Hg & Hs)].
  1,3: exists (-1), s', []; rewrite (bind_ok _ _ _ _ _ Hw); split_and!; try done;
    [by apply grew_same|by apply data_same_refl|intros; unfold word; by rewrite Hp|intros; unfold pte_of, word; by rewrite Hp|right; split_and!; [done..|simpl; lia|intros; unfold pte_of, word; by rewrite Hp]].
  all: rewrite (bind_ok _ _ _ _ _ Hw); (destruct (a =? 0) eqn:E0; [lia|]);
    rewrite (bind_ok _ _ _ _ _ Hld), Hi0, (bind_ok _ _ _ _ _ Hst);
    pose proof (gr_sub _ _ _ _ _ Hg) as Hsub; rewrite HAd in Hpte;
    (assert (HD : PDX (A * PGSIZE) = A / 1024)
      by (pose proof (page_indices _ Hva) as HI; rewrite HAd in HI; pose proof (PTX_range (A * PGSIZE));
          apply (Z.div_unique_pos _ _ _ (PTX (A * PGSIZE))); lia)); rewrite HD in Hs.
  - rewrite Z.add_0_r, Z.eqb_refl. exists 0, s2, l1. split_and!; try done.
    + intros i Hi Hni. apply Hs; [done|]. lia.
    + intros va Hv Hne. rewrite Hpte by done. apply decide_False. lia.
    + left. split; [done|]. intros va Hv Hin. rewrite Hpte by done. assert (va / PGSIZE = A) as -> by lia.
      rewrite decide_True by done. rewrite Z.sub_diag, Z.mul_0_l, Z.add_0_r, u32_id; done.
  - destruct (A * PGSIZE =? (A + Z.of_nat (S n)) * PGSIZE) eqn:E1;
      [apply Z.eqb_eq, Z.mul_cancel_r in E1; [lia|done]|].
    assert (u32 (A * PGSIZE + PGSIZE) = (A + 1) * PGSIZE) as ->
      by (rewrite u32_id; [lia|unfold is_u32, PGSIZE in *; lia]).
    replace (A + Z.of_nat (S n)) with (A + 1 + Z.of_nat n) in * by lia.
    destruct (IH fuel s2 l1 (A + 1) (u32 (pa + PGSIZE))) as (r & s' & l' & Hr & Hok' & Hl' & Hd' & Hsl & Hout & Hin);
      try done; try lia.
    + apply aligned_u32. rewrite <- Z.add_mod_idemp_l, Hpa by (unfold PGSIZE; lia). done.
    + apply u32_range.
    + intros i Hi. assert (is_u32 ((A + 1 + i) * PGSIZE)) by (unfold is_u32, PGSIZE in *; lia).
      assert ((A + 1 + i) * PGSIZE / PGSIZE = A + 1 + i) by (apply Z_div_mult; unfold PGSIZE; lia).
      rewrite Hpte, decide_False by (done || lia).
      replace (A + 1 + i) with (A + (i + 1)) by lia. apply Hinv. lia.
    + exists r, s', l'. rewrite Hr. split_and!; try done; [by eapply grew_trans|by eapply data_same_trans| | |].
      * intros i Hi Hni. pose proof (Z.div_le_mono A (A + 1) 1024 ltac:(lia) ltac:(lia)).
        pose proof (Z.div_le_mono (A + 1) (A + 1 + Z.of_nat n) 1024 ltac:(lia) ltac:(lia)).
        rewrite Hsl by (done || lia). apply Hs; [done|]. lia.
      * intros va Hv Hne. rewrite Hout by (done || lia). rewrite Hpte by done. apply decide_False. lia.
      * destruct Hin as [[-> Hin]|(-> & -> & Hlen & Hend)].
        -- left. split; [done|]. intros va Hv Hr2. destruct (decide (va / PGSIZE = A)) as [E|E].
           ++ rewrite Hout by (done || lia). rewrite Hpte, decide_True by done.
              rewrite E, Z.sub_diag, Z.mul_0_l, Z.add_0_r, u32_id; done.
           ++ rewrite Hin by (done || lia). f_equal. unfold u32. rewrite Zplus_mod_idemp_l. f_equal. lia.
        -- right. split_and!; [done..| |].
           ++ destruct Hl1 as [->| ->]; [lia|]. destruct l; simpl in *; lia.
           ++ intros va Hv Hva'. rewrite Hend by (done || lia). rewrite Hpte by done. apply decide_False. lia.
Qed.

Lemma mappages_run (kend : Z) (s : kst) (pgdir : Z) (l : list Z) (va size pa perm : Z) :
  pt_ok kend s pgdir l -> is_u32 va -> 0 < size -> va + size <= 2 ^ 32 ->
  is_u32 pa -> pa mod PGSIZE = 0 -> 0 <= perm < PGSIZE ->
  let first := va / PGSIZE in
  let last := (va + size - 1) / PGSIZE in
  (forall q, first <= q <= last -> Flag.has (pte_of s pgdir (q * PGSIZE)) PTE_V = false) ->
  exists r s' l',
    mappages pgdir va size pa perm s = Ok r s' /\
    pt_ok kend s' pgdir l' /\ grew s s' pgdir l l' /\ data_same s s' pgdir l /\
    (forall i, 0 <= i < 1024 -> ~ (first / 1024 <= i <= last / 1024) -> word s' pgdir i = word s pgdir i) /\
    (forall a, is_u32 a -> ~ (first <= a / PGSIZE <= last) -> pte_of s' pgdir a = pte_of s pgdir a) /\
    ((r = 0 /\ forall a, is_u32 a -> first <= a / PGSIZE <= last ->
        pte_of s' pgdir a = leaf (u32 (pa + (a / PGSIZE - first) * PGSIZE)) perm) \/
     (r = -1 /\ l' = [] /\ Z.of_nat (length l) <= last - first /\
      forall a, is_u32 a -> a / PGSIZE = last -> pte_of s' pgdir a = pte_of s pgdir a)).
Proof.
  intros Hok Hva Hsz Hend Hpu Hpa Hperm first last Hinv. unfold mappages.
  assert (Hlast : 0 <= va + size - 1 < 2 ^ 32) by (unfold is_u32 in *; lia).
  rewrite u32_id by exact Hlast. rewrite !PGROUNDDOWN_eq by done. rewrite !page_of_div. fold first last.
  assert (0 <= first <= last).
  { unfold is_u32, PGSIZE in *. split; [apply Z.div_pos; lia|apply Z.div_le_mono; lia]. }
  assert (last < 2 ^ 20) by (apply Z.div_lt_upper_bound; unfold PGSIZE; lia).
  set (n := Z.to_nat (last - first)).
  replace last with (first + Z.of_nat n) in * by (unfold n; lia).
  destruct (map_run kend pgdir perm n (Z.to_nat (2 ^ 20)) s l first pa)
    as (r & s' & l' & Hr & Hok' & Hl' & Hd & Hsl & Hout & Hres); try done; try lia.
  - intros i Hi. apply Hinv. lia.
  - exists r, s', l'. rewrite Hr. split_and!; try done. destruct Hres as [Hres|(-> & -> & Hlen & Hkept)]; [by left|].
    right. split_and!; [done..|lia|done].
Qed.

(** C26. [mappages] maps a range of pages and nothing else. When no page
    from the one [va] lies in to the one of the last byte has a valid entry,
    it terminates without a panic. If it returns 0, the entry of every
    address in these pages holds the physical address [pa] plus the page's
    distance, with the given permissions and the valid bit; the entries of
    all other addresses are unchanged. It returns -1 only when the free
    pages ran out. Pages that were neither free nor part of the page table
    keep their contents, and the page table stays well formed. *)
Theorem mappages_spec (kend : Z) (s : kst) (pgdir : Z) (l : list Z) (va size pa perm : Z) :
  pt_ok kend s pgdir l -> is_u32 va -> 0 < size -> va + size <= 2 ^ 32 ->
  is_u32 pa -> pa mod PGSIZE = 0 -> 0 <= perm < PGSIZE ->
  let first := va / PGSIZE in
  let last := (va + size - 1) / PGSIZE in
  (forall q, first <= q <= last -> Flag.has (pte_of s pgdir (q * PGSIZE)) PTE_V = false) ->
  exists r s' l',
    mappages pgdir va size pa perm s = Ok r s' /\
    pt_ok kend s' pgdir l' /\ (forall x, x ∈ l' -> x ∈ l) /\ data_same s s' pgdir l /\
    (forall a, is_u32 a -> ~ (first <= a / PGSIZE <= last) -> pte_of s' pgdir a = pte_of s pgdir a) /\
    ((r = 0 /\ forall a, is_u32 a -> first <= a / PGSIZE <= last ->
        PTE_ADDR (pte_of s' pgdir a) = u32 (pa + (a / PGSIZE - first) * PGSIZE) /\
        PTE_FLAGS (pte_of s' pgdir a) = Z.lor perm PTE_V) \/
     (r = -1 /\ l' = [] /\ Z.of_nat (length l) <= last - first)).
Proof.
  intros Hok Hva Hsz Hend Hpu Hpa Hperm first last Hinv.
  destruct (mappages_run kend s pgdir l va size pa perm) as (r & s' & l' & Hr & Hok' & Hg & Hd & _ & Hout & Hres); try done.
  exists r, s', l'. split_and!; try done; [apply Hg|]. destruct Hres as [[-> Hin]|(-> & -> & Hlen & _)]; [left|by right].
  split; [done|]. intros a Ha Hra. rewrite Hin by done. apply leaf_facts; [apply u32_range| |done].
  apply aligned_u32. rewrite <- Z.add_mod_idemp_l, Hpa by (unfold PGSIZE; lia). apply Z_mod_mult.
Qed.

(** An entry user code may go through. *)
Definition user_ok (e : Z) : bool := Flag.has e PTE_V && Flag.has e PTE_PP_RWRD.

(** [uva2ka] translates a user address when its page table exists: the
    kernel address of the page if the entry is valid and open to user code,
    the null pointer if not. When the directory has no table for the address,
    [walkpgdir] returns the null pointer and the code reads the entry through
    it all the same, so [uva2ka], and with it [copyout] of at least one byte,
    follows a null pointer instead of reporting an error. *)
Theorem uva2ka_spec (kend : Z) (s : kst) (pgdir : Z) (l : list Z) (va : Z) :
  pt_ok kend s pgdir l -> is_u32 va -> k_pages s !! 0 = None ->
  (Flag.has (word s pgdir (PDX va)) PTE_V = true ->
     uva2ka pgdir va s =
       Ok (if user_ok (pte_of s pgdir va) then p2v (PTE_ADDR (pte_of s pgdir va)) else 0) s) /\
  (Flag.has (word s pgdir (PDX va)) PTE_V = false ->
     uva2ka pgdir va s = Fault /\
     forall p len, 0 < len -> copyout pgdir (page_of va) p len s = Fault).
Proof.
  intros Hok Hva H0.
  assert (Hnull : forall a, is_u32 a -> PDX a = PDX va -> Flag.has (word s pgdir (PDX va)) PTE_V = false ->
    uva2ka pgdir a s = Fault).
  { intros a Ha E HV. unfold uva2ka. rewrite (bind_ok _ _ _ _ _ (walk_absent kend s pgdir l a Hok ltac:(by rewrite E))).
    unfold bind at 1, ldw. erewrite bind_ok by reflexivity. change (page_of 0) with 0. by rewrite H0. }
  split; intros HV; [|split].
  - destruct (walk_found kend s pgdir l va false Hok HV) as (Hw & _ & Hld). unfold uva2ka.
    rewrite (bind_ok _ _ _ _ _ Hw), (bind_ok _ _ _ _ _ Hld). unfold user_ok, Flag.has.
    destruct (Z.land _ PTE_V =? 0), (Z.land _ PTE_PP_RWRD =? 0); done.
  - by apply Hnull.
  - intros p len Hlen. unfold copyout. cbn [copyout_from]. destruct (negb (len >? 0)) eqn:E; [lia|].
    assert (is_u32 (page_of va)) as Hpv.
    { rewrite page_of_div. unfold is_u32 in *. pose proof (Z.div_pos va PGSIZE ltac:(lia) ltac:(done)).
      pose proof (Z.mul_div_le va PGSIZE ltac:(done)). unfold PGSIZE in *. lia. }
    assert (page_of (page_of va) = page_of va) as Hpp.
    { unfold page_of at 1. rewrite aligned_mod by done. lia. }
    rewrite PGROUNDDOWN_eq by done. rewrite Hpp. unfold bind at 1. rewrite Hnull; try done.
    rewrite !PDX_eq, page_of_div. change (2 ^ 22) with (PGSIZE * 1024).
    rewrite <- !Z.div_div by (unfold PGSIZE; lia). by rewrite Z_div_mult by (unfold PGSIZE; lia).
Qed.

(** A directory whose slot [i] has a table; the table has one user page. *)
Definition vm_at (i : Z) : kst :=
  Kst ptable0 (Spinlock 0 "kmem" None []) 1 0x80200000
    {[ 0x80200000 := junk 0x80201000; 0x80201000 := junk 0;
       0x80300000 := put32 (Z.to_nat (4 * i)) (leaf 0x301000 0x38) (replicate 4096 0);
       0x80301000 := put32 0 (leaf 0x302000 0x38) (replicate 4096 0);
       0x80302000 := replicate 4096 7 ]} [].
Definition vm0 : kst := vm_at 1.

Lemma vm_at_word i j : 0 <= i < 1024 -> 0 <= j < 1024 ->
  word (vm_at i) 0x80300000 j = if decide (j = i) then leaf 0x301000 0x38 else 0.
Proof.
  intros Hi Hj. unfold word. cbn [vm_at k_pages]. rewrite !(lookup_insert_ne _ _ 0x80300000) by done.
  rewrite lookup_insert_eq. unfold from_option, id. case_decide as E.
  - subst j. rewrite get32_put32_eq by (rewrite length_replicate; lia). by vm_compute.
  - rewrite get32_put32_ne, get32_zero; [done|rewrite length_replicate; lia|lia].
Qed.
Lemma vm_at_dir i j : 0 <= i < 1024 -> 0 <= j < 1024 -> Flag.has (word (vm_at i) 0x80300000 j) PTE_V = true -> j = i.
Proof. intros Hi Hj. rewrite vm_at_word by done. by case_decide. Qed.
Lemma vm_at_table i : 0 <= i < 1024 -> table (word (vm_at i) 0x80300000 i) = 0x80301000.
Proof. intros Hi. rewrite vm_at_word, decide_True by done. by vm_compute. Qed.

Definition good_page (p : list Z) : Prop := length p = Z.to_nat PGSIZE /\ Forall is_u8 p.
Lemma good_fill b : is_u8 b -> good_page (replicate 4096 b).
Proof. intros Hb. split; [exact (length_replicate 4096 b)|by apply Forall_replicate]. Qed.
Lemma good_put32 o x p : good_page p -> (o + 4 <= 4096)%nat -> good_page (put32 o x p).
Proof.
  intros [Hl HF] Ho. change (Z.to_nat PGSIZE) with 4096%nat in Hl. split.
  - rewrite length_put32; [exact Hl|]. rewrite Hl. exact Ho.
  - apply Forall_splice; [apply be32_u8|exact HF].
Qed.

Lemma vm_at_some i v : v = 0x80300000 \/ v = 0x80301000 -> is_Some (k_pages (vm_at i) !! v).
Proof. intros [-> | ->]; cbn [vm_at k_pages]; repeat first [rewrite lookup_insert_eq; by eexists|rewrite lookup_insert_ne by done]. Qed.

Lemma vm_at_ok k : 0 <= k < 1024 -> pt_ok 0x80110000 (vm_at k) 0x80300000 [0x80200000; 0x80201000].
Proof.
  intros Hk. assert (forall v p, k_pages (vm_at k) !! v = Some p -> good_page p) as Hpg.
  { intros v p. cbn [vm_at k_pages]. rewrite !lookup_insert_Some, lookup_singleton_Some.
    intros [[_ <-]|[_ [[_ <-]|[_ [[_ <-]|[_ [[_ <-]|[_ [_ <-]]]]]]]]];
      first [apply good_put32; [|lia]|idtac]; (apply good_fill; unfold is_u8; lia). }
  split.
  - split; try done; [| |intros v p Hp; by apply (Hpg v p)].
    + split_and!; [done|done|done|]. exists (junk 0x80201000). split_and!; [done|done|].
      split_and!; [by vm_compute|done|done|]. exists (junk 0). split_and!; [done|done|by vm_compute].
    + apply NoDup_cons. split; [by rewrite list_elem_of_singleton|apply NoDup_singleton].
  - intros x Hx. apply elem_of_cons in Hx as [->|Hx%list_elem_of_singleton]; [|subst x];
    (split_and!; [reflexivity|unfold KERNBASE, PHYSTOP; lia..]).
  - intros v p Hp. by apply (Hpg v p).
  - split_and!; [done|apply vm_at_some; auto|]. rewrite !not_elem_of_cons. split_and!; [done|done|apply not_elem_of_nil].
  - intros i Hi HV. apply vm_at_dir in HV as ->; [|done|done]. rewrite vm_at_table by done.
    split_and!; [done|apply vm_at_some; auto| |done]. rewrite !not_elem_of_cons. split_and!; [done|done|apply not_elem_of_nil].
  - intros i j Hi Hj Hi1 Hj1 _. apply vm_at_dir in Hi1 as ->, Hj1 as ->; done.
Qed.
Lemma vm0_ok : pt_ok 0x80110000 vm0 0x80300000 [0x80200000; 0x80201000].
Proof. by apply vm_at_ok. Qed.

Lemma uva2ka_spec_witness :
  uva2ka 0x80300000 0x400010 vm0 = Ok 0x80302000 vm0 /\ uva2ka 0x80300000 0x10 vm0 = Fault.
Proof.
  split.
  - refine (proj1 (uva2ka_spec 0x80110000 vm0 0x80300000 _ 0x400010 vm0_ok _ _) _);
      [unfold is_u32; lia|reflexivity|by vm_compute].
  - refine (proj1 (proj2 (uva2ka_spec 0x80110000 vm0 0x80300000 _ 0x10 vm0_ok _ _) _));
      [unfold is_u32; lia|reflexivity|by vm_compute].
Defined.

Lemma mappages_spec_witness :
  exists r s' l', mappages 0x80300000 0x401000 0x1800 0x500000 PTE_PP_RWRW vm0 = Ok r s' /\
    pt_ok 0x80110000 s' 0x80300000 l' /\ pte_of s' 0x80300000 0x400010 = pte_of vm0 0x80300000 0x400010.
Proof.
  destruct (mappages_spec 0x80110000 vm0 0x80300000 _ 0x401000 0x1800 0x500000 PTE_PP_RWRW vm0_ok)
    as (r & s' & l' & Hr & Hok & _ & _ & Hout & _);
    [unfold is_u32; lia|lia|lia|unfold is_u32; lia|reflexivity|unfold PTE_PP_RWRW, PGSIZE; lia| |].
  - intros q Hq. change (0x401000 / PGSIZE) with 0x401 in Hq.
    change ((0x401000 + 0x1800 - 1) / PGSIZE) with 0x402 in Hq.
    assert (q = 0x401 \/ q = 0x402) as [-> | ->] by lia; by vm_compute.
  - exists r, s', l'. split_and!; [done|done|]. apply Hout; [unfold is_u32; lia|].
    change (0x401000 / PGSIZE) with 0x401. change (0x400010 / PGSIZE) with 0x400. lia.
Defined.
