(* ===== verification/VmFree.v ===== *)
(** Giving address spaces back: what deallocuvm and freevm (vm.c) return to
    the page allocator. *)
From stdpp Require Import base numbers list strings sets gmap.
From S2P Require Import Prelude Params Spinlock Sched Kalloc Vm.

Set Warnings "-clear-no-such-hyp".

Section free.
  Context (kend : Z) (Hkend : KERNBASE < kend).
  Implicit Types (s : kst).

  (** *** One page back *)
Lemma free_u32 s pgdir l x : pt_ok kend s pgdir l -> x ∈ l -> is_u32 x.
  Proof. intros H Hx. destruct (po_free _ _ _ _ H x Hx) as (_ & ? & ? & _). unfold is_u32, KERNBASE in *. lia. Qed.

Lemma word_other s s' v w i : k_pages s' = <[v := junk (km_freelist s)]> (k_pages s) -> w <> v -> word s' w i = word s w i.
  Proof. intros E Hw. unfold word. rewrite E. by rewrite lookup_insert_ne. Qed.

Lemma junk_u8 x : Forall is_u8 (junk x).
  Proof. unfold junk, put32. apply Forall_splice; [apply be32_u8|]. apply Forall_replicate. unfold is_u8. lia. Qed.
Lemma bytes_freed s s' v x :
    (forall w p, k_pages s !! w = Some p -> Forall is_u8 p) -> k_pages s' = <[v := junk x]> (k_pages s) ->
    forall w p, k_pages s' !! w = Some p -> Forall is_u8 p.
  Proof. intros H -> w p. rewrite lookup_insert_Some. intros [[_ <-]|[_ Hp]]; [apply junk_u8|by eapply H]. Qed.

Lemma pt_ok_free s pgdir l v :
    pt_ok kend s pgdir l -> freeable kend v -> is_Some (k_pages s !! v) -> v ∉ l -> ~ pt_page s pgdir v ->
    exists s', kfree kend v s = Ok tt s' /\ pt_ok kend s' pgdir (v :: l) /\ kquiet s s' /\
      k_pages s' = <[v := junk (km_freelist s)]> (k_pages s) /\
      (forall i, word s' pgdir i = word s pgdir i) /\ forall va, pte_of s' pgdir va = pte_of s pgdir va.
  Proof.
    intros Hok Hv [p Hp] Hl Hpt. pose proof (po_kmem _ _ _ _ Hok) as Hk.
    destruct (kfree_run kend s l v p Hk Hv Hp Hl) as (s' & E & Hk' & Hpg & U & O & B); [intros x; by eapply free_u32|].
    assert (Hd : pgdir <> v) by (intros ->; apply Hpt; by left).
    assert (Hw : forall i, word s' pgdir i = word s pgdir i) by (intros i; by apply (word_other s s' v)).
    assert (Hsome : forall w, is_Some (k_pages s !! w) -> is_Some (k_pages s' !! w)).
    { intros w Hs. rewrite Hpg, lookup_insert_is_Some. destruct (decide (v = w)); auto. }
    assert (Htab : forall i, 0 <= i < 1024 -> Flag.has (word s pgdir i) PTE_V = true -> table (word s pgdir i) <> v).
    { intros i Hi HV ->%eq_sym. apply Hpt. right. by exists i. }
    exists s'. split_and!; try done; [|by split_and!; auto|].
    - destruct (po_dir _ _ _ _ Hok) as (D1 & D2 & D3). split.
      + done.
      + intros x [->|Hx]%elem_of_cons; [done|by eapply po_free].
      + intros w q. rewrite Hpg, lookup_insert_Some. intros [[_ <-]|[_ Hq]]; [|by eapply po_bytes].
        apply junk_u8.
      + split_and!; [done|by apply Hsome|]. by rewrite not_elem_of_cons.
      + intros i Hi. rewrite Hw. intros HV. destruct (po_tab _ _ _ _ Hok i Hi HV) as (T1 & T2 & T3 & T4).
        split_and!; [done|by apply Hsome| |done]. rewrite not_elem_of_cons. split; [by apply Htab|done].
      + intros i j Hi Hj. rewrite !Hw. by eapply po_inj.
    - intros va. unfold pte_of. rewrite Hw. destruct (Flag.has (word s pgdir (PDX va)) PTE_V) eqn:HV; [|done].
      apply (word_other s s' v); [done|]. apply Htab; [apply PDX_range|done].
  Qed.

  (** *** The user pages: the page mapped at page number [n] *)
Definition upage s (pgdir n : Z) : option Z :=
    let e := pte_of s pgdir (n * PGSIZE) in if Flag.has e PTE_V then Some (table e) else None.

  (** The pages mapped in [A, B) are the allocator's, in use, data, and each is
      mapped once. *)
Record uspace s (pgdir : Z) (l : list Z) (A B : Z) : Prop := {
    us_page : forall n v, A <= n < B -> upage s pgdir n = Some v ->
      freeable kend v /\ is_Some (k_pages s !! v) /\ (v ∉ l) /\ ~ pt_page s pgdir v;
    us_inj : forall n m v, A <= n < B -> A <= m < B -> upage s pgdir n = Some v -> upage s pgdir m = Some v -> n = m;
  }.

  (** Freeing some pages [fl]: the entries of [A, B) are cleared, the rest of
      the table and all other pages stay. *)
Record cleared s s' (pgdir : Z) (fl : list Z) (A B : Z) : Prop := {
    cl_quiet : kquiet s s';
    cl_dir : forall i, 0 <= i < 1024 -> word s' pgdir i = word s pgdir i;
    cl_freed : forall v, v ∈ fl <-> exists n, A <= n < B /\ upage s pgdir n = Some v;
    cl_in : forall va, is_u32 va -> A <= va / PGSIZE < B -> Flag.has (pte_of s' pgdir va) PTE_V = false;
    cl_out : forall va, is_u32 va -> ~ A <= va / PGSIZE < B -> pte_of s' pgdir va = pte_of s pgdir va;
    cl_pages : forall w, w ∉ fl -> ~ pt_page s pgdir w -> k_pages s' !! w = k_pages s !! w;
    cl_some : forall w, is_Some (k_pages s !! w) -> is_Some (k_pages s' !! w);
  }.

Lemma pt_page_dir s s' pgdir v :
    (forall i, 0 <= i < 1024 -> word s' pgdir i = word s pgdir i) -> pt_page s' pgdir v <-> pt_page s pgdir v.
  Proof.
    intros H. split; (intros [->|(i & Hi & HV & E)]; [by left|right; exists i; specialize (H i Hi)]).
    - by rewrite <- H.
    - by rewrite H.
  Qed.

Lemma page_num n : (n * PGSIZE) / PGSIZE = n.
  Proof. apply Z_div_mult. done. Qed.
Lemma page_u32 n : 0 <= n < 2 ^ 20 -> is_u32 (n * PGSIZE).
  Proof. unfold is_u32, PGSIZE. lia. Qed.

  (** One mapped page. *)
Lemma dealloc_page s pgdir l A B v :
    pt_ok kend s pgdir l -> uspace s pgdir l A B -> 0 <= A < B -> B <= 2 ^ 20 -> upage s pgdir A = Some v ->
    Flag.has (word s pgdir (PDX (A * PGSIZE))) PTE_V = true ->
    let pte := table (word s pgdir (PDX (A * PGSIZE))) + 4 * PTX (A * PGSIZE) in
    exists s', (kfree kend v ;;; stw pte 0) s = Ok tt s' /\ pt_ok kend s' pgdir (v :: l) /\
      cleared s s' pgdir [v] A (A + 1).
  Proof.
    intros Hok [Hpg Hinj] HA HB Hv HV pte. destruct (Hpg A v ltac:(lia) Hv) as (V1 & V2 & V3 & V4).
    destruct (pt_ok_free s pgdir l v Hok V1 V2 V3 V4) as (s1 & E1 & Hok1 & Q1 & Pg1 & W1 & P1).
    pose proof (page_u32 A ltac:(lia)) as Hva.
    destruct (store_pte kend s1 pgdir (v :: l) (A * PGSIZE) 0 Hok1) as (E2 & Hok2 & W2 & P2);
      [by rewrite W1|done|unfold is_u32; lia|]. rewrite W1 in E2, W2, Hok2, P2. fold pte in E2.
    set (s2 := stored _ _ _ _) in *. exists s2. split_and!; [by rewrite (bind_ok _ _ _ _ _ E1)|done|].
    rewrite page_num in P2. split.
    - etransitivity; [exact Q1|apply kquiet_pages].
    - intros i Hi. rewrite W2 by done. apply W1.
    - intros w. rewrite list_elem_of_singleton. split; [intros ->; exists A; split; [lia|done]|].
      intros (n & Hn & Hw). assert (n = A) as -> by lia. congruence.
    - intros va Hva' Hin. rewrite P2, decide_True by (done || lia). done.
    - intros va Hva' Hout. rewrite P2, decide_False by (done || lia). apply P1.
    - intros w Hw Hnp. rewrite list_elem_of_singleton in Hw. cbn [s2 stored set_pages k_pages].
      rewrite lookup_insert_ne. { rewrite Pg1. by rewrite lookup_insert_ne by congruence. }
      intros <-. apply Hnp. right. exists (PDX (A * PGSIZE)). split_and!; [apply PDX_range|apply PDX_range|done|done].
    - intros w Hw. apply is_Some_stored. rewrite Pg1, lookup_insert_is_Some. destruct (decide (v = w)); auto.
  Qed.

Lemma upage_out s s' pgdir fl A B n :
    cleared s s' pgdir fl A B -> 0 <= n < 2 ^ 20 -> ~ A <= n < B -> upage s' pgdir n = upage s pgdir n.
  Proof.
    intros H Hn Hout. unfold upage. rewrite (cl_out _ _ _ _ _ _ H); [done|by apply page_u32|by rewrite page_num].
  Qed.

Lemma cleared_nil s pgdir A B :
    0 <= A -> B <= 2 ^ 20 -> (forall va, is_u32 va -> A <= va / PGSIZE < B -> Flag.has (pte_of s pgdir va) PTE_V = false) ->
    cleared s s pgdir [] A B.
  Proof.
    intros HA HB Hin. split; try done. intros v. rewrite elem_of_nil. split; [done|]. intros (n & Hn & Hu). unfold upage in Hu.
    rewrite Hin in Hu; [done|apply page_u32; lia|by rewrite page_num].
  Qed.

Lemma cleared_app s s1 s2 pgdir fl1 fl2 A C B :
    0 <= A <= C -> C <= B -> B <= 2 ^ 20 ->
    cleared s s1 pgdir fl1 A C -> cleared s1 s2 pgdir fl2 C B -> cleared s s2 pgdir (fl2 ++ fl1) A B.
  Proof.
    intros HA HC HB H1 H2. split.
    - etransitivity; [apply (cl_quiet _ _ _ _ _ _ H1)|apply (cl_quiet _ _ _ _ _ _ H2)].
    - intros i Hi. rewrite (cl_dir _ _ _ _ _ _ H2), (cl_dir _ _ _ _ _ _ H1) by done. done.
    - intros v. rewrite elem_of_app, (cl_freed _ _ _ _ _ _ H2), (cl_freed _ _ _ _ _ _ H1). split.
      + intros [(n & Hn & Hv)|(n & Hn & Hv)]; exists n; (split; [lia|]); [|done].
        by rewrite <- (upage_out s s1 pgdir fl1 A C n H1) by lia.
      + intros (n & Hn & Hv). destruct (decide (n < C)); [right; exists n; split; [lia|done]|left].
        exists n. split; [lia|]. by rewrite (upage_out s s1 pgdir fl1 A C n H1) by lia.
    - intros va Hva Hin. destruct (decide (va / PGSIZE < C)); [|apply (cl_in _ _ _ _ _ _ H2); [done|lia]].
      rewrite (cl_out _ _ _ _ _ _ H2) by (done || lia). apply (cl_in _ _ _ _ _ _ H1); [done|lia].
    - intros va Hva Hout. rewrite (cl_out _ _ _ _ _ _ H2), (cl_out _ _ _ _ _ _ H1) by (done || lia). done.
    - intros w [Hw2 Hw1]%not_elem_of_app Hnp. rewrite (cl_pages _ _ _ _ _ _ H2); [by apply (cl_pages _ _ _ _ _ _ H1)|done|].
      by rewrite (pt_page_dir s s1 pgdir w (cl_dir _ _ _ _ _ _ H1)).
    - intros w Hw. by apply (cl_some _ _ _ _ _ _ H2), (cl_some _ _ _ _ _ _ H1).
  Qed.

Lemma uspace_cleared s s1 pgdir l fl A C B :
    0 <= A <= C -> B <= 2 ^ 20 -> uspace s pgdir l A B -> cleared s s1 pgdir fl A C -> uspace s1 pgdir (fl ++ l) C B.
  Proof.
    intros HA HB [Hpg Hinj] Hcl. assert (Hu : forall n, C <= n < B -> upage s1 pgdir n = upage s pgdir n).
    { intros n Hn. apply (upage_out s s1 pgdir fl A C n Hcl); lia. }
    split.
    - intros n v Hn Hv. rewrite Hu in Hv by done. destruct (Hpg n v ltac:(lia) Hv) as (V1 & V2 & V3 & V4).
      split_and!; [done|by apply (cl_some _ _ _ _ _ _ Hcl)| |by rewrite (pt_page_dir s s1 pgdir v (cl_dir _ _ _ _ _ _ Hcl))].
      rewrite elem_of_app, (cl_freed _ _ _ _ _ _ Hcl). intros [(m & Hm & Hv')|?]; [|done].
      assert (n = m) by (apply (Hinj n m v); (done || lia)). lia.
    - intros n m v Hn Hm. rewrite !Hu by done. apply Hinj; lia.
  Qed.

  (** *** The loop. It skips a missing table's 4 megabytes from where it is, so
      it must find one missing only at its start. *)
Definition at_table s (pgdir A : Z) : Prop :=
    A mod 1024 = 0 \/ Flag.has (word s pgdir (PDX (A * PGSIZE))) PTE_V = true.

Lemma PDX_page A : 0 <= A < 2 ^ 20 -> PDX (A * PGSIZE) = A / 1024.
  Proof.
    intros HA. rewrite PDX_eq. change (2 ^ 22) with (PGSIZE * 1024). rewrite <- Z.div_div by done. rewrite page_num.
    apply Z.mod_small. split; [apply Z.div_pos; lia|apply Z.div_lt_upper_bound; lia].
  Qed.

Lemma PDX_div va : is_u32 va -> PDX va = va / PGSIZE / 1024.
  Proof.
    intros Hva. rewrite PDX_eq. change (2 ^ 22) with (PGSIZE * 1024). rewrite <- Z.div_div by done.
    unfold is_u32 in Hva. unfold PGSIZE. apply Z.mod_small.
    split; [apply Z.div_pos; [apply Z.div_pos|]; lia|apply Z.div_lt_upper_bound; [lia|apply Z.div_lt_upper_bound; lia]].
  Qed.

Lemma at_table_next s s' pgdir A :
    0 <= A -> A + 1 < 2 ^ 20 -> Flag.has (word s pgdir (PDX (A * PGSIZE))) PTE_V = true ->
    (forall i, 0 <= i < 1024 -> word s' pgdir i = word s pgdir i) -> at_table s' pgdir (A + 1).
  Proof.
    intros HA HB HV Hdir. unfold at_table. destruct (decide ((A + 1) mod 1024 = 0)) as [|Hne]; [by left|right].
    rewrite Hdir by apply PDX_range. rewrite !PDX_page in * by lia. replace ((A + 1) / 1024) with (A / 1024); [done|].
    pose proof (Z.div_mod A 1024). pose proof (Z.mod_pos_bound A 1024). pose proof (Z.div_mod (A + 1) 1024).
    pose proof (Z.mod_pos_bound (A + 1) 1024). nia.
  Qed.

Lemma absent_table s pgdir A va :
    0 <= A < 2 ^ 20 -> A mod 1024 = 0 -> Flag.has (word s pgdir (PDX (A * PGSIZE))) PTE_V = false ->
    is_u32 va -> A <= va / PGSIZE < A + 1024 -> Flag.has (pte_of s pgdir va) PTE_V = false.
  Proof.
    intros HA Hm HV Hva Hin. unfold pte_of. rewrite PDX_page in HV by done. rewrite PDX_div by done.
    replace (va / PGSIZE / 1024) with (A / 1024); [by rewrite HV|].
    pose proof (Z.div_mod A 1024). pose proof (Z.div_mod (va / PGSIZE) 1024). pose proof (Z.mod_pos_bound (va / PGSIZE) 1024). nia.
  Qed.

Definition pages_of (sz : Z) : Z := (sz + PGSIZE - 1) / PGSIZE.
Lemma pages_of_lt n sz : n * PGSIZE < sz <-> n < pages_of sz.
  Proof.
    unfold pages_of. change PGSIZE with 4096. 
    pose proof (Z.div_mod (sz + 4096 - 1) 4096 ltac:(done)). pose proof (Z.mod_pos_bound (sz + 4096 - 1) 4096 ltac:(done)). lia.
  Qed.

Lemma dealloc_run pgdir oldsz (fuel : nat) : forall s l A,
    pt_ok kend s pgdir l -> uspace s pgdir l A (pages_of oldsz) -> 0 <= A <= pages_of oldsz -> pages_of oldsz <= 2 ^ 19 ->
    at_table s pgdir A -> pages_of oldsz - A < Z.of_nat fuel ->
    exists s' fl, dealloc_from kend fuel pgdir (A * PGSIZE) oldsz s = Ok tt s' /\ pt_ok kend s' pgdir (fl ++ l) /\
      cleared s s' pgdir fl A (pages_of oldsz).
  Proof.
    set (B := pages_of oldsz). induction fuel as [|fuel IH]; intros s l A Hok Hus HA HB Hat Hfuel; [lia|]. cbn [dealloc_from].
    assert (Hlt : (A * PGSIZE <? oldsz) = (A <? B)).
    { pose proof (pages_of_lt A oldsz) as H. fold B in H. destruct (Z.ltb_spec (A * PGSIZE) oldsz), (Z.ltb_spec A B); (done || lia). }
    rewrite Hlt. destruct (Z.ltb_spec A B) as [HAB|HAB]; cbn [negb].
    2:{ exists s, []. split_and!; [done|done|]. apply cleared_nil; lia. }
    destruct (Flag.has (word s pgdir (PDX (A * PGSIZE))) PTE_V) eqn:HV.
    - destruct (walk_found kend s pgdir l (A * PGSIZE) false Hok HV) as (Hw & Hpte & Hld).
      rewrite (bind_ok _ _ _ _ _ Hw). destruct (Z.eqb_spec (table (word s pgdir (PDX (A * PGSIZE))) + 4 * PTX (A * PGSIZE)) 0); [done|].
      rewrite (bind_ok _ _ _ _ _ Hld).
      assert (Hnext : u32 (A * PGSIZE + PGSIZE) = (A + 1) * PGSIZE) by (rewrite u32_id; [lia|unfold is_u32, PGSIZE; lia]).
      rewrite Hnext.
      assert (Hstep : exists s1 f1, (if Flag.has (pte_of s pgdir (A * PGSIZE)) PTE_V
         then if PTE_ADDR (pte_of s pgdir (A * PGSIZE)) =? 0 then panic "kfree"
              else kfree kend (p2v (PTE_ADDR (pte_of s pgdir (A * PGSIZE)))) ;;;
                   stw (table (word s pgdir (PDX (A * PGSIZE))) + 4 * PTX (A * PGSIZE)) 0
         else ret tt) s = Ok tt s1 /\ pt_ok kend s1 pgdir (f1 ++ l) /\ cleared s s1 pgdir f1 A (A + 1)).
      { destruct (Flag.has (pte_of s pgdir (A * PGSIZE)) PTE_V) eqn:HVp.
        - assert (Hu : upage s pgdir A = Some (table (pte_of s pgdir (A * PGSIZE)))) by (unfold upage; by rewrite HVp).
          destruct (us_page _ _ _ _ _ Hus A _ ltac:(lia) Hu) as (Hfr & _). destruct Hfr as (_ & Hge & _).
          destruct (Z.eqb_spec (PTE_ADDR (pte_of s pgdir (A * PGSIZE))) 0) as [E0|_].
          { unfold table in Hge. rewrite E0 in Hge. change (p2v 0) with KERNBASE in Hge. lia. }
          destruct (dealloc_page s pgdir l A B _ Hok Hus ltac:(lia) ltac:(lia) Hu HV) as (s1 & E1 & Hok1 & Hcl1).
          eexists s1, [_]. split_and!; [exact E1|exact Hok1|exact Hcl1].
        - exists s, []. split_and!; [done|done|]. apply cleared_nil; [lia|lia|]. intros va Hva Hin.
          assert (Hpg : va / PGSIZE = A) by lia. revert HVp. unfold pte_of. pose proof (page_u32 A ltac:(lia)) as HAu.
          pose proof (page_indices va Hva). pose proof (page_indices _ HAu). rewrite page_num in *.
          pose proof (PDX_range va). pose proof (PTX_range va). pose proof (PDX_range (A * PGSIZE)). pose proof (PTX_range (A * PGSIZE)).
          assert (PDX va = PDX (A * PGSIZE)) as -> by lia. by assert (PTX va = PTX (A * PGSIZE)) as -> by lia. }
      destruct Hstep as (s1 & f1 & E1 & Hok1 & Hcl1). rewrite (bind_ok _ _ _ _ _ E1).
      destruct (IH s1 (f1 ++ l) (A + 1) Hok1) as (s' & f2 & E2 & Hok2 & Hcl2); try lia.
      + apply (uspace_cleared s s1 pgdir l f1 A (A + 1) B); try lia; done.
      + apply (at_table_next s s1 pgdir A); try lia; [done|]. apply (cl_dir _ _ _ _ _ _ Hcl1).
      + exists s', (f2 ++ f1). rewrite <- (app_assoc f2). split_and!; [done|done|]. apply (cleared_app s s1 s' pgdir f1 f2 A (A + 1) B); try done; lia.
    - rewrite (bind_ok _ _ _ _ _ (walk_absent kend s pgdir l _ Hok HV)). cbn [Z.eqb].
      assert (HAm : A mod 1024 = 0) by (destruct Hat as [|Hat]; [done|congruence]).
      assert (Hnext : u32 (u32 (A * PGSIZE + (NPTENTRIES - 1) * PGSIZE) + PGSIZE) = (A + 1024) * PGSIZE).
      { rewrite !u32_id; unfold is_u32, NPTENTRIES, PGSIZE in *; [lia..|]. rewrite u32_id; unfold is_u32; lia. }
      rewrite Hnext. assert (Hnil : forall C, C <= A + 1024 -> C <= B -> cleared s s pgdir [] A C).
      { intros C HC HCB. apply cleared_nil; [lia|lia|]. intros va Hva Hin. apply (absent_table s pgdir A); try done; lia. }
      destruct (decide (A + 1024 < B)) as [Hin|Hout].
      + destruct (IH s l (A + 1024) Hok) as (s' & fl & E & Hok' & Hcl); try lia.
        * apply (uspace_cleared s s pgdir l [] A (A + 1024) B); try lia; [done|]. apply Hnil; lia.
        * left. rewrite <- Z.add_mod_idemp_r by lia. by rewrite Z.add_0_r.
        * exists s', fl. split_and!; [done|done|]. rewrite <- (app_nil_r fl). apply (cleared_app s s s' pgdir [] fl A (A + 1024) B); [lia|lia|lia|apply Hnil; lia|done].
      + exists s, []. split_and!; [|done|apply Hnil; lia]. destruct fuel as [|fuel]; [lia|]. cbn [dealloc_from].
        pose proof (pages_of_lt (A + 1024) oldsz) as H. fold B in H. destruct (Z.ltb_spec ((A + 1024) * PGSIZE) oldsz); [lia|done].
  Qed.

  (** *** freevm: the tables, then the directory *)
Lemma ldw_dir s l v i :
    kmem_ok s l -> v mod PGSIZE = 0 -> 0 <= i < 1024 -> is_Some (k_pages s !! v) -> ldw (v + 4 * i) s = Ok (word s v i) s.
  Proof.
    intros Hk Hv Hi [p Hp]. destruct (word_place v i Hv Hi) as [Ea Eo]. pose proof (ko_pages _ _ Hk _ _ Hp) as Hl.
    unfold word. rewrite Hp. rewrite (ldw_run _ _ p), Eo; [done|by rewrite Ea|]. rewrite Eo, Hl. unfold PGSIZE. lia.
  Qed.

Lemma kfree_plain s l v :
    kmem_ok s l -> freeable kend v -> is_Some (k_pages s !! v) -> v ∉ l -> (forall x, x ∈ l -> freeable kend x) ->
    exists s', kfree kend v s = Ok tt s' /\ kmem_ok s' (v :: l) /\ kquiet s s' /\
      k_pages s' = <[v := junk (km_freelist s)]> (k_pages s).
  Proof.
    intros Hk Hv [p Hp] Hl Hf. destruct (kfree_run kend s l v p Hk Hv Hp Hl) as (s' & E & Hk' & Hpg & U & O & Bs).
    { intros x Hx. destruct (Hf x Hx) as (_ & ? & ? & _). unfold is_u32, KERNBASE in *. lia. }
    exists s'. split_and!; try done. unfold kquiet. auto.
  Qed.

  (** The tables of the first [j] slots. *)
Definition tables s (pgdir j v : Z) : Prop :=
    exists i, 0 <= i < j /\ Flag.has (word s pgdir i) PTE_V = true /\ table (word s pgdir i) = v.

Record torn s s' (pgdir : Z) (l tl : list Z) (j : Z) : Prop := {
    to_kmem : kmem_ok s' (tl ++ l);
    to_free : forall x, x ∈ tl ++ l -> freeable kend x;
    to_quiet : kquiet s s';
    to_list : forall v, v ∈ tl <-> tables s pgdir j v;
    to_dir : forall i, word s' pgdir i = word s pgdir i;
    to_pages : forall w, w ∉ tl -> k_pages s' !! w = k_pages s !! w;
    to_some : forall w, is_Some (k_pages s !! w) -> is_Some (k_pages s' !! w);
    to_bytes : forall w p, k_pages s' !! w = Some p -> Forall is_u8 p;
  }.

Lemma tear_table s s' pgdir l tl j :
    pt_ok kend s pgdir l -> 0 <= j < 1024 ->
    (Flag.has (word s pgdir j) PTE_V = true -> freeable kend (table (word s pgdir j))) ->
    torn s s' pgdir l tl j ->
    wp (e <- ldw (pgdir + 4 * j) ;; if Flag.has e PTE_V then kfree kend (p2v (PTE_ADDR e)) else ret tt)
      (fun _ s2 => exists tl2, torn s s2 pgdir l tl2 (j + 1)) s'.
  Proof.
    intros Hok Hj Hfr [K F Q L D P S B]. destruct (po_dir _ _ _ _ Hok) as (D1 & D2 & D3).
    apply wp_bind. eapply outcome_wp; [by eapply ldw_dir; [..|apply S]|]. rewrite D.
    assert (Hsucc : forall v, tables s pgdir (j + 1) v <->
      tables s pgdir j v \/ Flag.has (word s pgdir j) PTE_V = true /\ table (word s pgdir j) = v).
    { intros v. unfold tables. split.
      - intros (i & Hi & HV & E). destruct (decide (i = j)) as [->|]; [by right|left]. exists i. split_and!; (done || lia).
      - intros [(i & Hi & HV & E)|[HV E]]; [exists i|exists j]; split_and!; (done || lia). }
    destruct (Flag.has (word s pgdir j) PTE_V) eqn:HV.
    2:{ apply wp_ret. exists tl. split; try done. intros v. rewrite L, Hsucc. naive_solver. }
    fold (table (word s pgdir j)). set (t := table (word s pgdir j)) in *.
    destruct (po_tab _ _ _ _ Hok j Hj HV) as (T1 & T2 & T3 & T4). fold t in T1, T2, T3, T4.
    assert (Hnew : t ∉ tl ++ l).
    { rewrite elem_of_app, L. intros [(i & Hi & HVi & E)|?]; [|done].
      assert (i = j) by (apply (po_inj _ _ _ _ Hok); (done || lia)). lia. }
    destruct (kfree_plain s' (tl ++ l) t K (Hfr eq_refl) (S _ T2) Hnew F) as (s2 & E2 & K2 & Q2 & P2).
    eapply outcome_wp; [exact E2|]. exists (t :: tl). split.
    - done.
    - intros x. cbn [app]. intros [->|Hx]%elem_of_cons; [by apply Hfr|by apply F].
    - etransitivity; [exact Q|exact Q2].
    - intros v. rewrite elem_of_cons, L, Hsucc. naive_solver.
    - intros i. rewrite <- D. unfold word. rewrite P2. by rewrite lookup_insert_ne.
    - intros w [Hw1 Hw2]%not_elem_of_cons. rewrite P2, lookup_insert_ne by done. by apply P.
    - intros w Hw. rewrite P2, lookup_insert_is_Some. destruct (decide (t = w)); auto.
    - by eapply bytes_freed.
  Qed.

Definition owned s (pgdir v : Z) : Prop :=
    pt_page s pgdir v \/ exists n, 0 <= n < 2 ^ 19 /\ upage s pgdir n = Some v.

  (** An address space that can be given back. *)
Record space_ok s (pgdir : Z) (l : list Z) : Prop := {
    so_pt : pt_ok kend s pgdir l;
    so_user : uspace s pgdir l 0 (2 ^ 19);
    so_dir : freeable kend pgdir;
    so_tabs : forall v, tables s pgdir 1024 v -> freeable kend v;
  }.

Lemma PGROUNDUP_up sz : 0 <= sz <= 2 ^ 32 - PGSIZE -> PGROUNDUP sz = pages_of sz * PGSIZE.
  Proof.
    intros H. unfold PGROUNDUP, pages_of. unfold PGSIZE in H. rewrite u32_id by (unfold is_u32, PGSIZE; lia).
    change (u32 (Z.lnot (PGSIZE - 1))) with (u32 (Z.lnot 0xFFF)). rewrite mask_page by (unfold is_u32, PGSIZE; lia). apply page_of_div.
  Qed.
Lemma PGROUNDUP_eq sz : 0 <= sz <= KERNBASE -> PGROUNDUP sz = pages_of sz * PGSIZE.
  Proof. intros H. apply PGROUNDUP_up. unfold KERNBASE, PGSIZE in *. lia. Qed.

Lemma pages_of_mono a b : a <= b -> pages_of a <= pages_of b.
  Proof. intros H. unfold pages_of. apply Z.div_le_mono; [done|lia]. Qed.

Lemma deallocuvm_run s pgdir l oldsz newsz :
    pt_ok kend s pgdir l -> 0 <= newsz < oldsz -> oldsz <= KERNBASE ->
    uspace s pgdir l (pages_of newsz) (pages_of oldsz) -> at_table s pgdir (pages_of newsz) ->
    exists s' fl, deallocuvm kend pgdir oldsz newsz s = Ok newsz s' /\ pt_ok kend s' pgdir (fl ++ l) /\
      cleared s s' pgdir fl (pages_of newsz) (pages_of oldsz).
  Proof.
    intros Hok Hsz Hold Hus Hat. unfold deallocuvm. destruct (Z.geb_spec newsz oldsz); [lia|].
    pose proof (pages_of_mono newsz oldsz ltac:(lia)) as Hmono. pose proof (pages_of_mono oldsz KERNBASE Hold) as Hk.
    pose proof (pages_of_mono 0 newsz ltac:(lia)) as H0. change (pages_of KERNBASE) with (2 ^ 19) in Hk. change (pages_of 0) with 0 in H0.
    destruct (dealloc_run pgdir oldsz (Z.to_nat (2 ^ 20)) s l (pages_of newsz) Hok Hus) as (s' & fl & E & Hok' & Hcl); try done; try lia.
    exists s', fl. split_and!; try done. rewrite PGROUNDUP_eq by lia. by rewrite (bind_ok _ _ _ _ _ E).
  Qed.

Lemma freevm_run s pgdir l :
    space_ok s pgdir l ->
    exists s' fl, freevm kend pgdir s = Ok tt s' /\ kmem_ok s' (fl ++ l) /\ kquiet s s' /\
      (forall x, x ∈ fl ++ l -> freeable kend x) /\ (forall v, v ∈ fl <-> owned s pgdir v) /\
      (forall w, ~ owned s pgdir w -> k_pages s' !! w = k_pages s !! w) /\
      (forall w p, k_pages s' !! w = Some p -> Forall is_u8 p).
  Proof.
    intros [Hok Hus Hdir Htab]. pose proof Hdir as (D1 & D2 & D3 & D4). unfold freevm.
    destruct (Z.eqb_spec pgdir 0) as [->|Hd0]; [unfold KERNBASE in *; lia|].
    destruct (deallocuvm_run s pgdir l KERNBASE 0 Hok) as (s1 & ul & E1 & Hok1 & Hcl); [unfold KERNBASE; lia|done|done|by left|].
    change (pages_of 0) with 0 in Hcl. change (pages_of KERNBASE) with (2 ^ 19) in Hcl.
    rewrite (bind_ok _ _ _ _ _ E1).
    assert (Htab1 : forall j v, j <= 1024 -> tables s1 pgdir j v <-> tables s pgdir j v).
    { intros j v Hj. unfold tables. split; intros (i & Hi & HV & E); exists i; rewrite (cl_dir _ _ _ _ _ _ Hcl) in * by lia; done. }
    set (loop := for_ _ _). assert (Hloop : wp loop (fun _ s2 => exists tl, torn s1 s2 pgdir (ul ++ l) tl 1024) s1).
    { change 1024 with (Z.of_nat (Z.to_nat NPDENTRIES)).
      apply (wp_for (fun j s2 => exists tl, torn s1 s2 pgdir (ul ++ l) tl (Z.of_nat j))).
      - exists []. split; [apply (po_kmem _ _ _ _ Hok1)|intros x; apply (po_free _ _ _ _ Hok1)|reflexivity| |auto|auto|auto|
          apply (po_bytes _ _ _ _ Hok1)].
        intros v. rewrite elem_of_nil. split; [done|]. intros (i & Hi & _). simpl in Hi. lia.
      - intros j s2 Hj [tl Htn]. change (Z.to_nat NPDENTRIES) with 1024%nat in Hj. rewrite Nat2Z.inj_succ.
        apply (tear_table s1 s2 pgdir (ul ++ l) tl (Z.of_nat j) Hok1); [lia| |done].
        intros HV. apply Htab. apply Htab1; [done|]. exists (Z.of_nat j). split_and!; (done || lia). }
    destruct (wp_outcome _ _ _ Hloop) as ([] & s2 & E2 & tl & [K F Q L D P S B]). rewrite (bind_ok _ _ _ _ _ E2).
    destruct (po_dir _ _ _ _ Hok1) as (_ & Hds & Hdl).
    assert (Hdt : pgdir ∉ tl).
    { rewrite L. intros (i & Hi & HV & E). destruct (po_tab _ _ _ _ Hok1 i Hi HV) as (_ & _ & _ & Hne). by apply Hne. }
    destruct (kfree_plain s2 (tl ++ ul ++ l) pgdir K Hdir (S _ Hds)) as (s3 & E3 & K3 & Q3 & P3);
      [rewrite elem_of_app; tauto|done|].
    exists s3, (pgdir :: tl ++ ul). cbn [app]. rewrite <- !app_assoc.
    assert (Hown : forall v, v ∈ pgdir :: tl ++ ul <-> owned s pgdir v).
    { intros v. rewrite elem_of_cons, elem_of_app, L, Htab1, (cl_freed _ _ _ _ _ _ Hcl) by done. unfold owned, pt_page, tables. tauto. }
    split_and!; try done.
    - etransitivity; [apply (cl_quiet _ _ _ _ _ _ Hcl)|]. by etransitivity.
    - intros x [->|Hx]%elem_of_cons; [done|by apply F].
    - intros w Hw. assert (Hw' : w ∉ pgdir :: tl ++ ul) by (by rewrite Hown). apply not_elem_of_cons in Hw' as [W1 [W2 W3]%not_elem_of_app].
      rewrite P3, lookup_insert_ne by done. rewrite P by done. apply (cl_pages _ _ _ _ _ _ Hcl); [done|].
      intros Hp. apply Hw. by left.
    - by eapply bytes_freed.
  Qed.
End free.

Section specs.
  Context (kend : Z) (Hkend : KERNBASE < kend).
  Implicit Types (s : kst).

  (** Shrinking a process to [newsz] bytes gives back exactly the pages mapped
      from the first page wholly above [newsz] up to [oldsz], each once, and
      clears their entries; no other entry changes, nor any page that was not
      freed and is not part of the page table. Nothing at all happens when
      [newsz] is not smaller. *)
Theorem deallocuvm_spec s pgdir l oldsz newsz :
    pt_ok kend s pgdir l -> 0 <= newsz -> oldsz <= KERNBASE ->
    uspace kend s pgdir l (pages_of newsz) (pages_of oldsz) -> at_table s pgdir (pages_of newsz) ->
    if decide (oldsz <= newsz) then deallocuvm kend pgdir oldsz newsz s = Ok oldsz s else
    exists s' fl, deallocuvm kend pgdir oldsz newsz s = Ok newsz s' /\ pt_ok kend s' pgdir (fl ++ l) /\ NoDup (fl ++ l) /\
      (forall v, v ∈ fl <-> exists n, pages_of newsz <= n < pages_of oldsz /\ upage s pgdir n = Some v) /\
      (forall n, pages_of newsz <= n < pages_of oldsz -> upage s' pgdir n = None) /\
      (forall va, is_u32 va -> ~ pages_of newsz <= va / PGSIZE < pages_of oldsz -> pte_of s' pgdir va = pte_of s pgdir va) /\
      (forall w, w ∉ fl -> ~ pt_page s pgdir w -> k_pages s' !! w = k_pages s !! w).
  Proof using Hkend.
    intros Hok H0 Hold Hus Hat. case_decide as Hle.
    { unfold deallocuvm. by destruct (Z.geb_spec newsz oldsz); [|lia]. }
    destruct (deallocuvm_run kend Hkend s pgdir l oldsz newsz Hok ltac:(lia) Hold Hus Hat) as (s' & fl & E & Hok' & Hcl).
    exists s', fl. split_and!; [done|done|apply (ko_nodup _ _ (po_kmem _ _ _ _ Hok'))|apply (cl_freed _ _ _ _ _ _ Hcl)| |
      apply (cl_out _ _ _ _ _ _ Hcl)|apply (cl_pages _ _ _ _ _ _ Hcl)].
    intros n Hn. pose proof (pages_of_mono oldsz KERNBASE Hold). pose proof (pages_of_mono 0 newsz H0).
    change (pages_of KERNBASE) with (2 ^ 19) in *. change (pages_of 0) with 0 in *.
    unfold upage. rewrite (cl_in _ _ _ _ _ _ Hcl); [done|apply page_u32; lia|by rewrite page_num].
  Qed.

  (** C15. [freevm] returns an address space to the allocator without loss: the
      pages that become free are exactly the directory, its tables and the
      pages mapped below KERNBASE, each of them once; every other page keeps
      its contents, the kernel pages mapped above KERNBASE among them. *)
Theorem freevm_spec s pgdir l :
    space_ok kend s pgdir l ->
    exists s' fl, freevm kend pgdir s = Ok tt s' /\ kmem_ok s' (fl ++ l) /\ NoDup (fl ++ l) /\
      (forall v, v ∈ fl <-> pt_page s pgdir v \/ exists n, 0 <= n < 2 ^ 19 /\ upage s pgdir n = Some v) /\
      (forall w, w ∉ fl -> k_pages s' !! w = k_pages s !! w).
  Proof using Hkend.
    intros H. destruct (freevm_run kend Hkend s pgdir l H) as (s' & fl & E & K & _ & _ & Hown & Hp & _).
    exists s', fl. split_and!; [done|done|apply (ko_nodup _ _ K)|exact Hown|]. intros w Hw. apply Hp. by rewrite <- Hown.
  Qed.
End specs.

(** *** The address spaces of Vm's examples: one page, at [k] times 4 megabytes *)
Lemma vm_at_upage k n v : 0 <= k < 1024 -> 0 <= n < 2 ^ 20 ->
  upage (vm_at k) 0x80300000 n = Some v <-> n = 1024 * k /\ v = 0x80302000.
Proof.
  intros Hk Hn. unfold upage, pte_of. rewrite PDX_page by done.
  assert (Hd : 0 <= n / 1024 < 1024) by (split; [apply Z.div_pos; lia|apply Z.div_lt_upper_bound; lia]).
  pose proof (Z.div_mod n 1024 ltac:(done)). pose proof (Z.mod_pos_bound n 1024 ltac:(done)).
  destruct (decide (n / 1024 = k)) as [E|E].
  2:{ rewrite vm_at_word, decide_False by done. split; [done|]. intros [-> _]. rewrite Z.mul_comm, Z_div_mult in E by done. done. }
  rewrite E. assert (Flag.has (word (vm_at k) 0x80300000 k) PTE_V = true) as ->
    by (rewrite vm_at_word, decide_True by done; by vm_compute).
  rewrite vm_at_table by done.
  assert (HT : PTX (n * PGSIZE) = n mod 1024) by (rewrite PTX_eq; exact (f_equal (fun x => x mod 1024) (page_num n))). rewrite HT.
  assert (Hw : word (vm_at k) 0x80301000 (n mod 1024) = if decide (n mod 1024 = 0) then leaf 0x302000 0x38 else 0).
  { unfold word. cbn [vm_at k_pages]. rewrite !(lookup_insert_ne _ _ 0x80301000) by done. rewrite lookup_insert_eq.
    unfold from_option, id. case_decide as E0; [rewrite E0; by vm_compute|].
    rewrite get32_put32_ne, get32_zero; [done|rewrite length_replicate; lia|lia]. }
  rewrite Hw. case_decide as E0.
  - change (Flag.has _ PTE_V) with true. cbv iota. change (table (leaf 0x302000 0x38)) with 0x80302000.
    split; [intros [= <-]; split; [lia|done]|]. by intros [_ ->].
  - split; [done|]. intros [-> _]. rewrite Z.mul_comm, Z_mod_mult in E0. done.
Qed.

Lemma vm_at_uspace k A B : 0 <= k < 1024 -> 0 <= A -> B <= 2 ^ 20 ->
  uspace 0x80110000 (vm_at k) 0x80300000 [0x80200000; 0x80201000] A B.
Proof.
  intros Hk HA HB. split.
  - intros n v Hn Hv. apply vm_at_upage in Hv as [_ ->]; [|done|lia]. split_and!.
    + split_and!; [reflexivity|unfold KERNBASE, PHYSTOP; lia..].
    + cbn [vm_at k_pages]. rewrite !lookup_insert_ne by done. rewrite lookup_singleton_eq. by eexists.
    + rewrite !not_elem_of_cons. split_and!; [done|done|apply not_elem_of_nil].
    + intros [?|(i & Hi & HV & E)]; [done|]. apply vm_at_dir in HV as ->; [|done|done]. by rewrite vm_at_table in E.
  - intros n m v Hn Hm Hv Hw. apply vm_at_upage in Hv as [-> _]; [|done|lia]. by apply vm_at_upage in Hw as [-> _]; [|done|lia].
Qed.

Lemma vm_at_space k : 0 <= k < 1024 -> space_ok 0x80110000 (vm_at k) 0x80300000 [0x80200000; 0x80201000].
Proof.
  intros Hk. split; [by apply vm_at_ok|apply vm_at_uspace; lia|split_and!; [reflexivity|unfold KERNBASE, PHYSTOP; lia..]|].
  intros v (i & Hi & HV & E). apply vm_at_dir in HV as ->; [|done|done]. rewrite <- E, vm_at_table by done.
  split_and!; [reflexivity|unfold KERNBASE, PHYSTOP; lia..].
Qed.
Lemma vm0_uspace A B : 0 <= A -> B <= 2 ^ 20 -> uspace 0x80110000 vm0 0x80300000 [0x80200000; 0x80201000] A B.
Proof. by apply vm_at_uspace. Qed.
Lemma vm0_space : space_ok 0x80110000 vm0 0x80300000 [0x80200000; 0x80201000].
Proof. by apply vm_at_space. Qed.

Lemma deallocuvm_spec_witness :
  exists s' fl, deallocuvm 0x80110000 0x80300000 0x401000 0x400000 vm0 = Ok 0x400000 s' /\
    0x80302000 ∈ fl /\ kmem_ok s' (fl ++ [0x80200000; 0x80201000]).
Proof.
  destruct (deallocuvm_spec 0x80110000 ltac:(unfold KERNBASE; lia) vm0 0x80300000 _ 0x401000 0x400000 vm0_ok)
    as (s' & fl & E & Hok & _ & Hfl & _); [lia|unfold KERNBASE; lia|apply vm0_uspace; vm_compute; congruence|by left|].
  exists s', fl. split_and!; [exact E| |apply (po_kmem _ _ _ _ Hok)].
  apply Hfl. exists 1024. split; [vm_compute; split; congruence|by vm_compute].
Defined.

Lemma freevm_spec_witness :
  exists s' fl, freevm 0x80110000 0x80300000 vm0 = Ok tt s' /\ kmem_ok s' (fl ++ [0x80200000; 0x80201000]) /\
    0x80300000 ∈ fl /\ 0x80301000 ∈ fl /\ 0x80302000 ∈ fl.
Proof.
  destruct (freevm_spec 0x80110000 ltac:(unfold KERNBASE; lia) vm0 0x80300000 _ vm0_space) as (s' & fl & E & K & _ & Hfl & _).
  exists s', fl. split_and!; [exact E|exact K|..]; apply Hfl.
  - left. by left.
  - left. right. exists 1. split_and!; [lia|lia|by vm_compute|by vm_compute].
  - right. exists 1024. split; [lia|by vm_compute].
Defined.
