(* ===== verification/VmCopy.v ===== *)
(** Making address spaces: setupkvm, allocuvm, copyuvm and inituvm (vm.c).
    Each page they use comes from the page allocator and ends in exactly one
    place; what runs out of memory is shown to give back, or to lose, exactly
    what the code gives back or loses. *)
From stdpp Require Import base numbers list strings sets gmap sorting.
From S2P Require Import Prelude Params Spinlock Sched Kalloc Vm VmFree.

Set Warnings "-clear-no-such-hyp".

Section make.
  Context (kend : Z).
  Hypothesis Hkend : KERNBASE < kend.
  Implicit Types (s : kst).

  (** Free pages alone, without an address space. *)
Record heap_ok s (l : list Z) : Prop := {
    ho_kmem : kmem_ok s l;
    ho_free : forall x, x ∈ l -> freeable kend x;
    ho_bytes : forall v p, k_pages s !! v = Some p -> Forall is_u8 p;
  }.

Lemma heap_of_pt s pgdir l : pt_ok kend s pgdir l -> heap_ok s l.
  Proof. intros [H1 H2 H3 _ _ _]. by split. Qed.

Lemma free_page s v l : heap_ok s (v :: l) -> freeable kend v /\ is_Some (k_pages s !! v) /\ (v ∉ l) /\ v <> 0.
  Proof.
    intros [Hk Hf _]. destruct (ko_chain _ _ Hk) as (_ & H0 & _ & p & Hp & _).
    pose proof (ko_nodup _ _ Hk) as [Hv _]%NoDup_cons. split_and!; [apply Hf; left|by eexists|done|done].
  Qed.

  (** A page that is not free may be overwritten. *)
Lemma heap_set s l v p :
    heap_ok s l -> v ∉ l -> length p = Z.to_nat PGSIZE -> Forall is_u8 p ->
    heap_ok (set_pages (<[v := p]> (k_pages s)) s) l.
  Proof.
    intros [[Hc Hn Hlen Hf Hcli] Hfr Hb] Hv Hl Hp. split; [split; try done; [by apply chain_insert|]|done|]; intros w q; cbn.
    - rewrite lookup_insert_Some. intros [[_ <-]|[_ Hq]]; [done|by eapply Hlen].
    - rewrite lookup_insert_Some. intros [[_ <-]|[_ Hq]]; [done|by eapply Hb].
  Qed.

Definition zeroed s (v : Z) : kst := set_pages (<[v := replicate (Z.to_nat PGSIZE) 0]> (k_pages s)) s.

Lemma fill_zero s v : is_Some (k_pages s !! v) -> fill_page v 0 s = Ok tt (zeroed s v).
  Proof. intros [p Hp]. unfold fill_page. erewrite bind_ok by reflexivity. by rewrite Hp. Qed.

Lemma heap_zeroed s l v : heap_ok s l -> v ∉ l -> heap_ok (zeroed s v) l.
  Proof. intros H Hv. apply heap_set; [done|done|apply length_replicate|apply Forall_replicate; unfold is_u8; lia]. Qed.

Lemma word_zeroed s v i : word (zeroed s v) v i = 0.
  Proof. unfold word, zeroed. cbn. rewrite lookup_insert_eq. apply get32_zero. Qed.

  (** A page taken from the list. *)
Lemma kalloc_heap s l :
    heap_ok s l ->
    match l with
    | [] => exists s', kalloc s = Ok 0 s' /\ heap_ok s' [] /\ k_pages s' = k_pages s /\ kquiet s s'
    | v :: l => exists s', kalloc s = Ok v s' /\ heap_ok s' l /\ k_pages s' = k_pages s /\ kquiet s s'
    end.
  Proof.
    intros [Hk Hf Hb]. destruct l as [|v l].
    - destruct (kalloc_none s Hk) as (s' & E & Hk' & Hp & _ & _ & Hq). exists s'. split_and!; try done. split; [done|done|by rewrite Hp].
    - destruct (kalloc_some s v l Hk) as (s' & E & Hk' & Hp & _ & _ & Hq). exists s'. split_and!; try done.
      split; [done|intros x Hx; apply Hf; by right|by rewrite Hp].
  Qed.

  (** *** freerange: the whole pages of a range join the free ones. *)
Fixpoint pages_from (a : Z) (n : nat) : list Z := match n with O => [] | S n => a :: pages_from (a + PGSIZE) n end.

Lemma length_pages_from n : forall a, length (pages_from a n) = n.
  Proof. induction n as [|n IH]; intros a; cbn; [done|by rewrite IH]. Qed.
Lemma elem_of_pages_from n : forall a v, a mod PGSIZE = 0 ->
    v ∈ pages_from a n <-> v mod PGSIZE = 0 /\ a <= v < a + Z.of_nat n * PGSIZE.
  Proof.
    induction n as [|n IH]; intros a v Ha; cbn [pages_from]; [rewrite elem_of_nil; lia|].
    rewrite elem_of_cons, IH by (rewrite Z.add_mod, Ha by done; done). unfold PGSIZE in *. split.
    - intros [->|?]; lia.
    - intros [H1 H2]. assert (v = a \/ a + 4096 <= v); [|lia].
      pose proof (Z_div_mod_eq_full v 4096). pose proof (Z_div_mod_eq_full a 4096). lia.
  Qed.

Lemma free_from vend n : forall fuel a s l,
    (n < fuel)%nat -> heap_ok s l -> a mod PGSIZE = 0 -> kend <= a -> KERNBASE <= a -> vend <= KERNBASE + PHYSTOP ->
    a + Z.of_nat n * PGSIZE <= vend < a + (Z.of_nat n + 1) * PGSIZE ->
    (forall v, v ∈ pages_from a n -> is_Some (k_pages s !! v) /\ v ∉ l) ->
    exists s', freerange_from kend fuel a vend s = Ok tt s' /\ heap_ok s' (reverse (pages_from a n) ++ l) /\ kquiet s s' /\
      (forall v, v ∉ pages_from a n -> k_pages s' !! v = k_pages s !! v) /\
      forall v, is_Some (k_pages s !! v) -> is_Some (k_pages s' !! v).
  Proof.
    induction n as [|n IH]; intros [|fuel] a s l Hfuel Hh Ha Hke Hkb Htop Hend Hpg; [lia| |lia|]; cbn [freerange_from].
    all: assert (Eu : u32 (a + PGSIZE) = a + PGSIZE) by (apply u32_id; unfold is_u32, KERNBASE, PHYSTOP, PGSIZE in *; lia); rewrite Eu.
    { destruct (Z.leb_spec (a + PGSIZE) vend); [unfold PGSIZE in *; lia|]. by exists s. }
    destruct (Z.leb_spec (a + PGSIZE) vend); [|unfold PGSIZE in *; lia].
    destruct (Hpg a) as [Hs Hal]; [left|]. pose proof Hh as [Hk Hf Hb].
    assert (Hfr : freeable kend a) by (split_and!; unfold KERNBASE, PHYSTOP, PGSIZE in *; lia).
    destruct (kfree_plain kend s l a Hk Hfr Hs Hal Hf) as (s1 & E & Hk1 & Hq1 & Hp1). rewrite (bind_ok _ _ _ _ _ E).
    assert (Hsome : forall v, is_Some (k_pages s !! v) -> is_Some (k_pages s1 !! v)).
    { intros v Hv. rewrite Hp1, lookup_insert_is_Some. destruct (decide (a = v)); [by left|by right]. }
    assert (Ha1 : (a + PGSIZE) mod PGSIZE = 0) by (rewrite Z.add_mod, Ha by done; done).
    destruct (IH fuel (a + PGSIZE) s1 (a :: l)) as (s' & E' & Hh' & Hq' & Ho' & Hs'); try done; try (unfold PGSIZE in *; lia).
    - split; [done|intros x [->|Hx]%elem_of_cons; auto|]. by eapply bytes_freed.
    - intros v Hv. destruct (Hpg v) as [V1 V2]; [by right|]. split; [by apply Hsome|].
      apply elem_of_pages_from in Hv; [|done]. rewrite not_elem_of_cons. split; [unfold PGSIZE in *; lia|done].
    - exists s'. cbn [pages_from]. rewrite reverse_cons, <- app_assoc. split_and!; [exact E'|exact Hh'|by etransitivity| |by auto].
      intros v [V1 V2]%not_elem_of_cons. by rewrite Ho', Hp1, lookup_insert_ne by done.
  Qed.

Lemma freerange_run s l vstart vend :
    heap_ok s l -> kend <= vstart -> KERNBASE <= vstart -> vstart + PGSIZE <= vend -> vend <= KERNBASE + PHYSTOP -> vend mod PGSIZE = 0 ->
    (forall v, v mod PGSIZE = 0 -> vstart <= v < vend -> is_Some (k_pages s !! v) /\ v ∉ l) ->
    exists s' fl, freerange kend vstart vend s = Ok tt s' /\ heap_ok s' (fl ++ l) /\ kquiet s s' /\
      (forall v, v ∈ fl <-> v mod PGSIZE = 0 /\ vstart <= v < vend) /\ vend - vstart < (Z.of_nat (length fl) + 1) * PGSIZE /\
      (forall v, v ∉ fl -> k_pages s' !! v = k_pages s !! v) /\ forall v, is_Some (k_pages s !! v) -> is_Some (k_pages s' !! v).
  Proof.
    intros Hh Hke Hkb Hle Htop Hal Hpg. unfold freerange.
    assert (Hup : PGROUNDUP vstart = pages_of vstart * PGSIZE) by (apply PGROUNDUP_up; unfold KERNBASE, PHYSTOP, PGSIZE in *; lia).
    rewrite Hup. set (a := pages_of vstart * PGSIZE) in *. assert (Ha : a mod PGSIZE = 0) by apply Z_mod_mult.
    assert (Hrange : vstart <= a < vstart + PGSIZE).
    { unfold a, pages_of. pose proof (Z_div_mod_eq_full (vstart + PGSIZE - 1) PGSIZE). pose proof (Z.mod_pos_bound (vstart + PGSIZE - 1) PGSIZE ltac:(done)).
      unfold PGSIZE in *. lia. }
    set (n := Z.to_nat ((vend - a) / PGSIZE)).
    assert (Hn : vend = a + Z.of_nat n * PGSIZE).
    { unfold n. rewrite Z2Nat.id by (apply Z.div_pos; [lia|done]). rewrite (Z.mul_comm _ PGSIZE), <- Z_div_exact_full_2; [lia|done|].
      rewrite Zminus_mod, Hal, Ha. done. }
    assert (Hin : forall v, v ∈ pages_from a n <-> v mod PGSIZE = 0 /\ vstart <= v < vend).
    { intros v. rewrite elem_of_pages_from, <- Hn by done. split; [lia|]. intros [H1 H2]. split; [done|].
      split; [|lia]. pose proof (Z_div_mod_eq_full v PGSIZE). pose proof (Z_div_mod_eq_full a PGSIZE). unfold PGSIZE in *. lia. }
    destruct (free_from vend n (S (Z.to_nat (vend / PGSIZE))) a s l) as (s' & E & Hh' & Hq & Ho & Hs); try done; try (unfold PGSIZE in *; lia).
    - unfold n. assert ((vend - a) / PGSIZE <= vend / PGSIZE) by (apply Z.div_le_mono; [done|unfold KERNBASE in *; lia]). lia.
    - intros v Hv. apply Hpg; by apply Hin.
    - exists s', (reverse (pages_from a n)). split_and!; try done.
      + intros v. by rewrite elem_of_reverse, Hin.
      + rewrite length_reverse, length_pages_from. unfold PGSIZE in *. lia.
      + intros v Hv. apply Ho. by rewrite elem_of_reverse in Hv.
  Qed.

  (** *** An address space under construction: of the pages [O] at hand in [s0],
      [l] are still free, [lost] were taken and are used for nothing, and the
      rest is the address space. *)
Record raised s0 (O : Z -> Prop) (lost : list Z) s (l : list Z) (d : Z) : Prop := {
    ra_space : space_ok kend s d l;
    ra_all : forall v, O v <-> v ∈ l \/ owned s d v \/ v ∈ lost;
    ra_lost : forall v, v ∈ lost -> (v ∉ l) /\ ~ owned s d v;
    ra_same : forall v, ~ O v -> k_pages s !! v = k_pages s0 !! v;
    ra_some : forall v, is_Some (k_pages s0 !! v) -> is_Some (k_pages s !! v);
    ra_quiet : kquiet s0 s;
  }.

  (** An empty directory. *)
Lemma no_pages s d : (forall i, word s d i = 0) -> (forall va, pte_of s d va = 0) /\ (forall v, pt_page s d v <-> v = d).
  Proof.
    intros H. split.
    - intros va. unfold pte_of. by rewrite H.
    - intros v. split; [|intros ->; by left]. intros [->|(i & _ & HV & _)]; [done|]. by rewrite H in HV.
  Qed.

Lemma empty_space s v l :
    heap_ok s l -> v ∉ l -> freeable kend v -> is_Some (k_pages s !! v) -> (forall i, word s v i = 0) -> space_ok kend s v l.
  Proof.
    intros [H1 H2 H3] Hv Hf Hs H0. destruct (no_pages s v H0) as [Hpte Hpt].
    assert (Hu : forall n, upage s v n = None) by (intros n; unfold upage; by rewrite Hpte).
    split; [split; try done|split|done|].
    - split_and!; [apply Hf|done|done].
    - intros i _. by rewrite H0.
    - intros i j _ _. by rewrite H0.
    - intros n w _. by rewrite Hu.
    - intros n m w _ _. by rewrite Hu.
    - intros w (i & _ & HV & _). by rewrite H0 in HV.
  Qed.

Lemma owned_empty s d v : (forall i, word s d i = 0) -> owned s d v <-> v = d.
  Proof.
    intros H0. destruct (no_pages s d H0) as [Hpte Hpt]. unfold owned. rewrite Hpt. split; [|by left].
    intros [->|(n & _ & Hn)]; [done|]. unfold upage in Hn. by rewrite Hpte in Hn.
  Qed.

  (** *** Mapping more pages; [f] gives the frames of the new user pages. *)
Lemma space_mapped s s' d l l' (f : Z -> option Z) :
    space_ok kend s d l -> pt_ok kend s' d l' -> grew s s' d l l' -> data_same s s' d l ->
    (forall n, 0 <= n < 2 ^ 19 -> upage s' d n = match f n with Some v => Some v | None => upage s d n end) ->
    (forall n v, f n = Some v -> freeable kend v /\ is_Some (k_pages s !! v) /\ (v ∉ l) /\ ~ owned s d v) ->
    (forall n m v, f n = Some v -> f m = Some v -> n = m) -> space_ok kend s' d l'.
  Proof.
    intros [Hpt [Hpg Hinj] Hd Ht] Hpt' Hg Hds Hu Hf Hfi.
    assert (Hnew : forall v, v ∉ l -> ~ pt_page s d v -> is_Some (k_pages s !! v) ->
      is_Some (k_pages s' !! v) /\ (v ∉ l') /\ ~ pt_page s' d v).
    { intros v Hv Hp Hs. split_and!; [by apply (gr_some _ _ _ _ _ Hg)| |exact (proj2 (Hds v Hv Hp))].
      intros H. by apply Hv, (gr_sub _ _ _ _ _ Hg). }
    split; [done|split|done|].
    - intros n v Hn. rewrite Hu by lia. destruct (f n) as [w|] eqn:E.
      + intros [= <-]. destruct (Hf n w E) as (F1 & F2 & F3 & F4). split; [done|]. apply Hnew; try done. intros Hp. apply F4. by left.
      + intros Hv. destruct (Hpg n v Hn Hv) as (F1 & F2 & F3 & F4). split; [done|]. by apply Hnew.
    - intros n m v Hn Hm. rewrite !Hu by lia. destruct (f n) as [w|] eqn:E1, (f m) as [w'|] eqn:E2; intros H1 H2; simplify_eq.
      + by eapply Hfi.
      + exfalso. destruct (Hf n v E1) as (_ & _ & _ & F4). apply F4. right. by exists m.
      + exfalso. destruct (Hf m v E2) as (_ & _ & _ & F4). apply F4. right. by exists n.
      + by eapply Hinj.
    - intros v Htab. assert (Hp : pt_page s' d v) by (right; exact Htab).
      destruct (gr_new _ _ _ _ _ Hg v Hp) as [[->|H]|H]; [done|by apply Ht|exact (po_free _ _ _ _ Hpt v H)].
  Qed.

Lemma owned_mapped s s' d l l' (f : Z -> option Z) v :
    grew s s' d l l' -> (forall n w, f n = Some w -> 0 <= n < 2 ^ 19 /\ upage s d n = None) ->
    (forall n, 0 <= n < 2 ^ 19 -> upage s' d n = match f n with Some w => Some w | None => upage s d n end) ->
    (owned s' d v -> owned s d v \/ v ∈ l \/ exists n, f n = Some v) /\
    (owned s d v \/ (exists n, f n = Some v) -> owned s' d v).
  Proof.
    intros Hg Hf Hu. split.
    - intros [Hp|(n & Hn & Hv)].
      + destruct (gr_new _ _ _ _ _ Hg v Hp); [left; by left|auto].
      + rewrite Hu in Hv by done. destruct (f n) as [w|] eqn:E; [right; right; exists n; congruence|left; right; by exists n].
    - intros [[Hp|(n & Hn & Hv)]|(n & Hn)].
      + left. by apply (gr_old _ _ _ _ _ Hg).
      + right. exists n. split; [done|]. rewrite Hu by done. destruct (f n) as [w|] eqn:E; [|done].
        destruct (Hf n w E). congruence.
      + right. exists n. destruct (Hf n v Hn) as [Hr _]. split; [done|]. by rewrite Hu, Hn by done.
  Qed.

  (** The same for a space under construction; the frames were taken before. *)
Lemma raised_mapped s0 O lost s l d s' l' (f : Z -> option Z) :
    space_ok kend s d l -> (forall v, O v <-> v ∈ l \/ owned s d v \/ (exists n, f n = Some v) \/ v ∈ lost) ->
    (forall v, v ∈ lost -> (v ∉ l) /\ (~ owned s d v) /\ ~ exists n, f n = Some v) ->
    (forall v, ~ O v -> k_pages s !! v = k_pages s0 !! v) -> (forall v, is_Some (k_pages s0 !! v) -> is_Some (k_pages s !! v)) ->
    kquiet s0 s ->
    pt_ok kend s' d l' -> grew s s' d l l' -> data_same s s' d l ->
    (forall n, 0 <= n < 2 ^ 19 -> upage s' d n = match f n with Some v => Some v | None => upage s d n end) ->
    (forall n v, f n = Some v -> 0 <= n < 2 ^ 19 /\ upage s d n = None) ->
    (forall n v, f n = Some v -> freeable kend v /\ is_Some (k_pages s !! v) /\ (v ∉ l) /\ ~ owned s d v) ->
    (forall n m v, f n = Some v -> f m = Some v -> n = m) -> raised s0 O lost s' l' d.
  Proof.
    intros Hsp Hall Hlost Hsame Hsome Hq Hpt' Hg Hds Hu Hf Hfr Hfi.
    assert (Hout : forall v, ~ O v -> (v ∉ l) /\ ~ owned s d v) by (intros v; rewrite Hall; tauto).
    split.
    - by eapply space_mapped.
    - intros v. destruct (owned_mapped s s' d l l' f v Hg Hf Hu) as [O1 O2]. rewrite Hall. split.
      + intros [H|[H|[H|H]]]; [|right; left; auto..|auto]. destruct (gr_all _ _ _ _ _ Hg v H); [by left|right; left; by left].
      + intros [H|[H|H]]; [left; by apply (gr_sub _ _ _ _ _ Hg)| |auto]. destruct (O1 H) as [?|[?|?]]; auto.
    - intros v Hv. destruct (Hlost v Hv) as (H1 & H2 & H3). destruct (owned_mapped s s' d l l' f v Hg Hf Hu) as [O1 _]. split.
      + intros H. by apply H1, (gr_sub _ _ _ _ _ Hg).
      + intros H. by destruct (O1 H) as [?|[?|?]].
    - intros v Hv. destruct (Hout v Hv) as [H1 H2]. rewrite <- Hsame by done. refine (proj1 (Hds v H1 _)). intros H. apply H2. by left.
    - intros v H. by apply (gr_some _ _ _ _ _ Hg), Hsome.
    - by etransitivity; [|apply (gr_quiet _ _ _ _ _ Hg)].
  Qed.

  (** *** The kernel's part of a page table: the pages an entry of kmap names. *)
Definition k_first (k : Z * Z * Z * Z) : Z := let '(virt, _, _, _) := k in virt / PGSIZE.
Definition k_last (k : Z * Z * Z * Z) : Z := let '(virt, ps, pe, _) := k in (virt + u32 (pe - ps) - 1) / PGSIZE.
Definition k_ok (k : Z * Z * Z * Z) : Prop :=
    let '(virt, ps, pe, perm) := k in
    KERNBASE <= virt < 2 ^ 32 /\ 0 < u32 (pe - ps) /\ virt + u32 (pe - ps) <= 2 ^ 32 /\ is_u32 ps /\ ps mod PGSIZE = 0 /\ 0 <= perm < PGSIZE.
Definition kmapped s (d : Z) (k : Z * Z * Z * Z) : Prop :=
    let '(virt, ps, pe, perm) := k in
    forall a, is_u32 a -> k_first k <= a / PGSIZE <= k_last k ->
      pte_of s d a = leaf (u32 (ps + (a / PGSIZE - k_first k) * PGSIZE)) perm.
Definition above (k k' : Z * Z * Z * Z) : Prop := k_last k < k_first k'.

Lemma upage_same s s' d n : 0 <= n < 2 ^ 20 -> pte_of s' d (n * PGSIZE) = pte_of s d (n * PGSIZE) -> upage s' d n = upage s d n.
  Proof. intros _ E. unfold upage. by rewrite E. Qed.

Lemma map_kernel_run s0 O lost d ks : forall s l,
    raised s0 O lost s l d -> Forall k_ok ks -> StronglySorted above ks ->
    (forall k q, k ∈ ks -> k_first k <= q <= k_last k -> Flag.has (pte_of s d (q * PGSIZE)) PTE_V = false) ->
    exists r s' l', map_kernel ks d s = Ok r s' /\ raised s0 O lost s' l' d /\
      (forall n, 0 <= n < 2 ^ 19 -> upage s' d n = upage s d n) /\
      (forall i, 0 <= i < 1024 -> (forall k, k ∈ ks -> ~ k_first k / 1024 <= i <= k_last k / 1024) -> word s' d i = word s d i) /\
      ((r = 0 /\ l' = []) \/
       (r = d /\ (forall k, k ∈ ks -> kmapped s' d k) /\
        forall a, is_u32 a -> (forall k, k ∈ ks -> ~ k_first k <= a / PGSIZE <= k_last k) -> pte_of s' d a = pte_of s d a)).
  Proof using Hkend.
    induction ks as [|k ks IH]; intros s l Hra Hok Hs Hinv; cbn [map_kernel].
    { exists d, s, l. split_and!; try done. right. split_and!; [done|intros k Hk; by apply elem_of_nil in Hk|done]. }
    apply Forall_cons in Hok as [Hk Hok]. inversion Hs as [|? ? Hs' Hab]; subst. rewrite Forall_forall in Hab.
    assert (Hinv0 : forall q, k_first k <= q <= k_last k -> Flag.has (pte_of s d (q * PGSIZE)) PTE_V = false)
      by (intros q Hq; apply (Hinv k); [left|done]).
    destruct k as [[[virt ps] pe] perm]. pose proof Hk as (K1 & K2 & K3 & K4 & K5 & K6).
    set (k := (virt, ps, pe, perm)) in *.
    destruct (mappages_run kend s d l virt (u32 (pe - ps)) ps perm) as (r & s1 & l1 & E & Hpt & Hg & Hds & Hsl & Hout & Hres);
      [apply Hra|unfold is_u32, KERNBASE in *; lia|done..|].
    change (virt / PGSIZE) with (k_first k) in *. change ((virt + u32 (pe - ps) - 1) / PGSIZE) with (k_last k) in *.
    rewrite (bind_ok _ _ _ _ _ E).
    assert (Hhi : 2 ^ 19 <= k_first k) by (unfold k_first, k; apply Z.div_le_lower_bound; [done|unfold PGSIZE, KERNBASE in *; lia]).
    assert (Hu1 : forall n, 0 <= n < 2 ^ 19 -> upage s1 d n = upage s d n).
    { intros n Hn. apply upage_same; [lia|]. apply Hout; [apply page_u32; lia|rewrite page_num; lia]. }
    assert (Hra1 : raised s0 O lost s1 l1 d).
    { destruct Hra as [R1 R2 R3 R4 R5 R6].
      apply (raised_mapped s0 O lost s l d s1 l1 (fun _ => None)); try assumption; try (intros; discriminate).
      - intros v. rewrite R2. split; [tauto|]. intros [?|[?|[[_ ?]|?]]]; (done || tauto).
      - intros v Hv. destruct (R3 v Hv). split_and!; [done|done|]. by intros [_ ?]. }
    destruct Hres as [[-> Hin]|(-> & -> & _)].
    2:{ exists 0, s1, []. split_and!; try done; [|by left]. intros i Hi Hno. apply Hsl; [done|]. apply (Hno k). left. }
    change (0 <? 0) with false. cbv iota.
    destruct (IH s1 l1 Hra1 Hok Hs') as (r & s' & l' & E' & Hra' & Hu' & Hsl' & Hres').
    - intros k' q Hk' Hq. assert (is_u32 (q * PGSIZE)).
      { rewrite Forall_forall in Hok. specialize (Hok k' Hk'). destruct k' as [[[v' p'] e'] m']. destruct Hok as (? & ? & ? & _).
        assert (0 <= k_first (v', p', e', m')) by (apply Z.div_pos; [unfold KERNBASE in *; lia|done]).
        assert (k_last (v', p', e', m') < 2 ^ 20) by (apply Z.div_lt_upper_bound; unfold PGSIZE; lia). apply page_u32. lia. }
      specialize (Hab k' Hk'). unfold above in Hab. rewrite Hout by (done || (rewrite page_num; lia)). apply (Hinv k' q); [by right|done].
    - exists r, s', l'. split_and!; try done; [intros n Hn; by rewrite Hu', Hu1| |].
      { intros i Hi Hno. rewrite Hsl'; [|done|intros k' Hk'; apply Hno; by right]. apply Hsl; [done|]. apply (Hno k). left. }
      destruct Hres' as [?|(-> & Hk' & Hout')]; [by left|right].
      assert (Hbelow : forall a, k_first k <= a / PGSIZE <= k_last k -> forall k', k' ∈ ks -> ~ k_first k' <= a / PGSIZE <= k_last k').
      { intros a Ha k' Hin'. specialize (Hab k' Hin'). unfold above in Hab. lia. }
      split_and!; [done| |].
      + intros k' [->|Hk0]%elem_of_cons; [|by apply Hk']. unfold kmapped, k. fold k. intros a Ha Hr.
        rewrite Hout' by (done || by apply Hbelow). by apply Hin.
      + intros a Ha Hno. rewrite Hout'; [|done|intros k' Hk0; apply Hno; by right]. apply Hout; [done|]. apply (Hno k). left.
  Qed.

  (** *** An address space whose page table a change does not touch *)
Lemma owned_not_free s d l v : space_ok kend s d l -> owned s d v -> v ∉ l.
  Proof.
    intros [Hpt [Hu _] _ _] [[->|(i & Hi & HV & <-)]|(n & Hn & Hv)].
    - apply (po_dir _ _ _ _ Hpt).
    - apply (po_tab _ _ _ _ Hpt i Hi HV).
    - apply (Hu n v Hn Hv).
  Qed.

Lemma space_kept s0 s d l0 l :
    space_ok kend s0 d l0 -> heap_ok s l -> (forall x, x ∈ l -> ~ owned s0 d x) ->
    (forall v, pt_page s0 d v -> k_pages s !! v = k_pages s0 !! v) ->
    (forall n v, 0 <= n < 2 ^ 19 -> upage s0 d n = Some v -> is_Some (k_pages s !! v)) ->
    space_ok kend s d l /\ (forall va, pte_of s d va = pte_of s0 d va) /\ forall v, owned s d v <-> owned s0 d v.
  Proof.
    intros [[P1 P2 P3 (D1 & D2 & D3) P5 P6] [U1 U2] Hd Ht] [Hk Hf Hb] Hl Hsame Hdata.
    assert (Hw : forall i, word s d i = word s0 d i) by (intros i; unfold word; by rewrite Hsame by (by left)).
    assert (Hpt : forall v, pt_page s d v <-> pt_page s0 d v) by (intros v; by apply pt_page_dir).
    assert (Htw : forall i j, 0 <= i < 1024 -> Flag.has (word s0 d i) PTE_V = true ->
      word s (table (word s0 d i)) j = word s0 (table (word s0 d i)) j).
    { intros i j Hi HV. unfold word at 1. rewrite Hsame; [done|]. right. by exists i. }
    assert (Hpte : forall va, pte_of s d va = pte_of s0 d va).
    { intros va. unfold pte_of. rewrite Hw. destruct (Flag.has _ _) eqn:HV; [|done]. apply Htw; [apply PDX_range|done]. }
    assert (Hu : forall n, upage s d n = upage s0 d n) by (intros n; unfold upage; by rewrite Hpte).
    split_and!; [|done|].
    2:{ intros v. unfold owned. rewrite Hpt. by setoid_rewrite Hu. }
    split; [split|split|done|].
    - done.
    - done.
    - done.
    - split_and!; [done|by rewrite Hsame by (by left)|]. intros H. apply (Hl d H). left. by left.
    - intros i Hi. rewrite Hw. intros HV. destruct (P5 i Hi HV) as (? & ? & Hn & ?). split_and!; try done.
      + rewrite Hsame by (right; by exists i). done.
      + intros Hx. apply (Hl _ Hx). left. right. by exists i.
    - intros i j Hi Hj. rewrite !Hw. by apply P6.
    - intros n v Hn. rewrite Hu. intros Hv. destruct (U1 n v Hn Hv) as (? & ? & Hn' & ?).
      rewrite Hpt. split_and!; [done|by eapply Hdata| |done]. intros Hx. apply (Hl _ Hx). right. by exists n.
    - intros n m v Hn Hm. rewrite !Hu. by apply U2.
    - intros v (i & Hi & HV & E). rewrite Hw in HV, E. apply Ht. by exists i.
  Qed.

  (** The same for a change that touches none of its pages. *)
Lemma space_apart s0 s d l0 l :
    space_ok kend s0 d l0 -> heap_ok s l -> (forall x, x ∈ l -> ~ owned s0 d x) ->
    (forall v, owned s0 d v -> k_pages s !! v = k_pages s0 !! v) ->
    space_ok kend s d l /\ (forall va, pte_of s d va = pte_of s0 d va) /\ forall v, owned s d v <-> owned s0 d v.
  Proof.
    intros Hsp Hh Hl Hsame. apply (space_kept s0 s d l0 l); try done.
    - intros v Hv. apply Hsame. by left.
    - intros n v Hn Hv. rewrite Hsame by (right; by exists n). apply (us_page _ _ _ _ _ _ (so_user _ _ _ _ Hsp) n v Hn Hv).
  Qed.

Lemma space_elsewhere s0 s d l0 l :
    space_ok kend s0 d l0 -> heap_ok s l -> (forall x, x ∈ l -> x ∈ l0) ->
    (forall v, owned s0 d v -> k_pages s !! v = k_pages s0 !! v) ->
    space_ok kend s d l /\ (forall va, pte_of s d va = pte_of s0 d va) /\ forall v, owned s d v <-> owned s0 d v.
  Proof. intros Hsp Hh Hl. apply space_apart with l0; try done. intros x Hx Ho. by apply (owned_not_free s0 d l0 x Hsp Ho), Hl. Qed.

  (** *** One more user page: [m] comes from the allocator, is filled with
      [pg] and mapped at page [n]. In between it is used for nothing. *)
Lemma take_page s0 O lost s m l d pg :
    raised s0 O lost s (m :: l) d -> length pg = Z.to_nat PGSIZE -> Forall is_u8 pg ->
    exists s1, kalloc s = Ok m s1 /\ k_pages s1 = k_pages s /\
      let s2 := set_pages (<[m := pg]> (k_pages s1)) s1 in
      raised s0 O (m :: lost) s2 l d /\ (m ∉ lost) /\ (forall va, pte_of s2 d va = pte_of s d va) /\ forall v, pt_page s2 d v <-> pt_page s d v.
  Proof.
    intros [R1 R2 R3 R4 R5 R6] Hlen Hu8.
    assert (Hh : heap_ok s (m :: l)) by (eapply heap_of_pt; apply R1).
    destruct (kalloc_heap s (m :: l) Hh) as (s1 & E1 & Hh1 & Hp1 & Hq1). destruct (free_page s m l Hh) as (Hf & Hs & Hm & Hm0).
    exists s1. split_and!; [done|done|]. set (s2 := set_pages _ _).
    assert (Hpg2 : forall v, v <> m -> k_pages s2 !! v = k_pages s !! v) by (intros v Hv; cbn; by rewrite lookup_insert_ne, Hp1).
    assert (Hom : ~ owned s d m) by (intros Ho; apply (owned_not_free s d _ m R1 Ho); left).
    destruct (space_elsewhere s s2 d (m :: l) l R1) as (Hsp2 & Hpte2 & Hown2).
    { by apply heap_set. }
    { intros x Hx. by right. }
    { intros v Hv. apply Hpg2. intros ->. done. }
    split_and!; [|intros H; destruct (R3 m H) as [H1 _]; apply H1; left|done|].
    2:{ intros v. apply pt_page_dir. intros i Hi. unfold word. by rewrite Hpg2 by (intros ->; apply Hom; left; by left). }
    split; [done| | | | |].
    - intros v. rewrite R2, !elem_of_cons, Hown2. tauto.
    - intros v. rewrite elem_of_cons, Hown2. intros [->|Hv]; [done|]. destruct (R3 v Hv) as [H1 H2]. split; [|done]. intros H. apply H1. by right.
    - intros v Hv. rewrite Hpg2, R4; [done|done|]. intros ->. apply Hv, R2. left. left.
    - intros v Hv. destruct (decide (v = m)) as [->|Hne]; [cbn; by rewrite lookup_insert_eq|]. rewrite Hpg2 by done. by apply R5.
    - etransitivity; [exact R6|]; etransitivity; [exact Hq1|apply kquiet_pages].
  Qed.

  (** One page of the page table at most is new when only the slot [j] of the
      directory changed. *)
Lemma grew_one s s' d l l' j :
    pt_ok kend s d l -> grew s s' d l l' ->
    (forall i, 0 <= i < 1024 -> ~ (j <= i <= j) -> word s' d i = word s d i) -> (length l <= length l' + 1)%nat.
  Proof.
    intros Hpt Hg Hw. change 1%nat with (length [table (word s' d j)]). rewrite <- length_app.
    apply submseteq_length, NoDup_submseteq; [apply (ko_nodup _ _ (po_kmem _ _ _ _ Hpt))|]. intros v Hv.
    destruct (gr_all _ _ _ _ _ Hg v Hv) as [H|H]; [set_solver|]. apply elem_of_app. right.
    destruct H as [->|(i & Hi & HV & <-)]; [by destruct (po_dir _ _ _ _ Hpt) as (_ & _ & ?)|].
    destruct (decide (i = j)) as [->|Hne]; [set_solver|]. rewrite Hw in HV, Hv by lia.
    by destruct (po_tab _ _ _ _ Hpt i Hi HV) as (_ & _ & ? & _).
  Qed.

Lemma place_page s0 O lost s m l d n perm :
    raised s0 O (m :: lost) s l d -> m ∉ lost -> freeable kend m -> is_Some (k_pages s !! m) ->
    0 <= n < 2 ^ 19 -> upage s d n = None -> 0 <= perm < PGSIZE ->
    exists r s' l', mappages d (n * PGSIZE) PGSIZE (v2p m) perm s = Ok r s' /\ ((forall x, x ∈ l' -> x ∈ l) /\ (length l <= length l' + 1)%nat) /\
      (forall a, is_u32 a -> a / PGSIZE <> n -> pte_of s' d a = pte_of s d a) /\
      (forall v, v ∉ l -> ~ pt_page s d v -> k_pages s' !! v = k_pages s !! v) /\
      ((r = 0 /\ raised s0 O lost s' l' d /\ pte_of s' d (n * PGSIZE) = leaf (v2p m) perm /\ upage s' d n = Some m) \/
       (r = -1 /\ l = [] /\ l' = [] /\ raised s0 O (m :: lost) s' [] d /\ upage s' d n = None)).
  Proof using Hkend.
    intros [R1 R2 R3 R4 R5 R6] Hml Hf Hs Hn Hun Hperm. destruct (R3 m ltac:(left)) as [Hm Hom].
    assert (Hlast : (n * PGSIZE + PGSIZE - 1) / PGSIZE = n)
      by (symmetry; apply (Z.div_unique_pos _ _ _ 4095); unfold PGSIZE; lia).
    assert (Hmu : is_u32 m) by (destruct Hf as (_ & ? & ? & _); unfold is_u32, KERNBASE in *; lia).
    destruct (mappages_run kend s d l (n * PGSIZE) PGSIZE (v2p m) perm) as (r & s' & l' & E & Hpt & Hg & Hds & Hslot & Hout & Hres);
      [apply R1|apply page_u32; lia|done|unfold PGSIZE; lia|apply u32_range|apply v2p_aligned, Hf|done| |].
    { intros q Hq. rewrite Hlast, page_num in Hq. assert (q = n) as -> by lia. unfold upage in Hun. by destruct (Flag.has _ _). }
    rewrite Hlast, page_num in *. exists r, s', l'.
    assert (Hout' : forall a, is_u32 a -> a / PGSIZE <> n -> pte_of s' d a = pte_of s d a) by (intros a Ha Hne; apply Hout; [done|lia]).
    assert (Hother : forall k, 0 <= k < 2 ^ 19 -> k <> n -> upage s' d k = upage s d k).
    { intros k Hk Hne. unfold upage. rewrite Hout'; [done|apply page_u32; lia|by rewrite page_num]. }
    assert (Hnu32 : is_u32 (n * PGSIZE)) by (apply page_u32; lia).
    split_and!; [done|apply Hg|by eapply grew_one, Hslot; [apply R1|]|done|intros v Hv Hp; apply (Hds v Hv Hp)|].
    destruct Hres as [[-> Hin]|(-> & -> & Hlen' & Hend)]; [left|right].
    - assert (Hpn : pte_of s' d (n * PGSIZE) = leaf (v2p m) perm).
      { rewrite Hin by (done || (rewrite page_num; lia)). by rewrite page_num, Z.sub_diag, Z.mul_0_l, Z.add_0_r, u32_id by apply u32_range. }
      destruct (leaf_facts (v2p m) perm) as (_ & La & _); [apply u32_range|apply v2p_aligned, Hf|done|].
      assert (Hun' : upage s' d n = Some m).
      { unfold upage. rewrite Hpn. unfold table. rewrite La, p2v_v2p by done. unfold leaf. by rewrite valid_or. }
      split_and!; try done.
      apply (raised_mapped s0 O lost s l d s' l' (fun k => if decide (k = n) then Some m else None)); try assumption.
      + intros v. rewrite R2, elem_of_cons. split.
        * intros [?|[?|[->|?]]]; [auto..|right; right; left; exists n; by rewrite decide_True|auto].
        * intros [?|[?|[[k Hk]|?]]]; [auto..| |auto]. case_decide; simplify_eq. auto.
      + intros v Hv. destruct (R3 v ltac:(by right)) as [H1 H2]. split_and!; [done|done|].
        intros [k Hk]. case_decide; simplify_eq. done.
      + intros k Hk. case_decide as Ek; [by rewrite Ek|by apply Hother].
      + intros k v. case_decide as Ek; [|done]. intros _. by rewrite Ek.
      + intros k v. case_decide; [|done]. by intros [= <-].
      + intros k j v. repeat case_decide; congruence.
    - assert (Hnone : upage s' d n = None) by (unfold upage; rewrite Hend by (done || apply page_num); exact Hun).
      split_and!; [done|destruct l; cbn in Hlen'; [done|lia]|done| |done].
      apply (raised_mapped s0 O (m :: lost) s l d s' [] (fun _ => None)); try assumption; try (intros; discriminate).
      + intros v. rewrite R2. split; [tauto|]. intros [?|[?|[[_ ?]|?]]]; (done || tauto).
      + intros v Hv. destruct (R3 v Hv). split_and!; [done|done|by intros [_ ?]].
      + intros k Hk. destruct (decide (k = n)) as [->|]; [by rewrite Hun|by apply Hother].
  Qed.

Lemma map_user s0 O lost s m l d n pg perm :
    raised s0 O lost s (m :: l) d -> 0 <= n < 2 ^ 19 -> upage s d n = None ->
    length pg = Z.to_nat PGSIZE -> Forall is_u8 pg -> 0 <= perm < PGSIZE ->
    exists s1, kalloc s = Ok m s1 /\ k_pages s1 = k_pages s /\
      let s2 := set_pages (<[m := pg]> (k_pages s1)) s1 in
      exists r s' l', mappages d (n * PGSIZE) PGSIZE (v2p m) perm s2 = Ok r s' /\ ((forall x, x ∈ l' -> x ∈ l) /\ (length l <= length l' + 1)%nat) /\
        (forall a, is_u32 a -> a / PGSIZE <> n -> pte_of s' d a = pte_of s d a) /\
        (forall v, v ∉ m :: l -> ~ pt_page s d v -> k_pages s' !! v = k_pages s !! v) /\
        ((r = 0 /\ raised s0 O lost s' l' d /\ pte_of s' d (n * PGSIZE) = leaf (v2p m) perm /\
          upage s' d n = Some m /\ k_pages s' !! m = Some pg) \/
         (r = -1 /\ l = [] /\ l' = [] /\ raised s0 O (m :: lost) s' [] d /\ upage s' d n = None)).
  Proof using Hkend.
    intros Hra Hn Hun Hlen Hu8 Hperm.
    destruct (take_page s0 O lost s m l d pg Hra Hlen Hu8) as (s1 & E1 & Hp1 & Hra2 & Hml & Hpte & Hpt).
    destruct (free_page s m l) as (Hf & _ & Hm & _); [eapply heap_of_pt; apply Hra|].
    exists s1. split_and!; [done|done|]. set (s2 := set_pages _ _) in *.
    assert (Hpg : k_pages s2 !! m = Some pg) by (cbn; apply lookup_insert_eq).
    assert (Hm_pt : ~ pt_page s2 d m) by (intros H; apply (ra_lost _ _ _ _ _ _ Hra2 m); [left|by left]).
    destruct (place_page s0 O lost s2 m l d n perm Hra2 Hml Hf ltac:(by eexists) Hn) as (r & s' & l' & E & Hl & Hout & Hds & Hres);
      [unfold upage; by rewrite Hpte|done|].
    exists r, s', l'. split_and!; [done|apply Hl|apply Hl|intros a Ha Hne; by rewrite Hout, Hpte| |].
    - intros v [Hv1 Hv2]%not_elem_of_cons Hp. rewrite Hds by (done || by rewrite Hpt). cbn. by rewrite lookup_insert_ne, Hp1.
    - destruct Hres as [(-> & R & P & U)|?]; [left|by right]. split_and!; try done. by rewrite Hds.
  Qed.

  (** *** The first program: a zeroed page at address 0 with [init] copied into
      it. Two free pages are enough, one for a page table. *)
Lemma inituvm_run s0 O s m w l d init :
    raised s0 O [] s (m :: w :: l) d -> upage s d 0 = None -> Z.of_nat (length init) < PGSIZE -> Forall is_u8 init ->
    exists s' l', inituvm d init (Z.of_nat (length init)) s = Ok tt s' /\ raised s0 O [] s' l' d /\ upage s' d 0 = Some m /\
      k_pages s' !! m = Some (init ++ replicate (Z.to_nat PGSIZE - length init) 0) /\
      pte_of s' d 0 = leaf (v2p m) (Z.lor PTE_PP_RWRW PTE_EX) /\
      forall a, is_u32 a -> a / PGSIZE <> 0 -> pte_of s' d a = pte_of s d a.
  Proof using Hkend.
    intros Hra Hun Hlen Hu8. set (pg := replicate (Z.to_nat PGSIZE) 0).
    destruct (map_user s0 O [] s m (w :: l) d 0 pg (Z.lor PTE_PP_RWRW PTE_EX) Hra) as (s1 & E1 & Hp1 & r & s2 & l' & Em & _ & Hout & _ & Hres);
      [lia|done|apply length_replicate|apply Forall_replicate; unfold is_u8; lia|by vm_compute|].
    destruct Hres as [(-> & Hra' & Hpte & Hup & Hpm)|(_ & ? & _)]; [|done].
    assert (Hh : heap_ok s (m :: w :: l)) by (eapply heap_of_pt; apply Hra).
    destruct (free_page s m _ Hh) as (Hf & Hsm & _ & _). destruct (page_of_id m (proj1 Hf)) as [Pa Po].
    set (pg' := splice 0 init pg). set (s' := set_pages (<[m := pg']> (k_pages s2)) s2).
    assert (Hl0 : (length init <= length pg)%nat) by (unfold pg; rewrite length_replicate; unfold PGSIZE in *; lia).
    assert (Epg : pg' = init ++ replicate (Z.to_nat PGSIZE - length init) 0).
    { unfold pg', splice. rewrite take_0. cbn [app]. f_equal. unfold pg. by rewrite drop_replicate. }
    assert (Hl' : length pg' = Z.to_nat PGSIZE).
    { rewrite Epg, length_app, length_replicate. unfold pg in Hl0. rewrite length_replicate in Hl0. lia. }
    exists s', l'. pose proof Hra' as [R1 R2 R3 R4 R5 R6].
    assert (Hml : (m ∉ l') /\ ~ pt_page s2 d m) by (split; apply (us_page _ _ _ _ _ _ (so_user _ _ _ _ R1) 0 m ltac:(lia) Hup)).
    assert (Hh' : heap_ok s' l').
    { apply heap_set; [eapply heap_of_pt; apply R1|apply Hml|done|]. rewrite Epg. apply Forall_app. split; [done|].
      apply Forall_replicate. unfold is_u8. lia. }
    destruct (space_kept s2 s' d l' l' R1 Hh') as (S1 & S2 & S3); [intros x Hx Ho; by apply (owned_not_free s2 d l' x R1 Ho)| | |].
    { intros v Hv. cbn. rewrite lookup_insert_ne; [done|]. intros <-. by apply Hml. }
    { intros n v Hn Hv. cbn. rewrite lookup_insert_is_Some. destruct (decide (m = v)); [by left|right; split; [done|]].
      apply (us_page _ _ _ _ _ _ (so_user _ _ _ _ R1) n v Hn Hv). }
    split_and!.
    - unfold inituvm. destruct (Z.geb_spec (Z.of_nat (length init)) PGSIZE); [lia|]. rewrite (bind_ok _ _ _ _ _ E1).
      rewrite (bind_ok _ _ _ _ _ (fill_zero s1 m ltac:(by rewrite Hp1))). change (0 * PGSIZE) with 0 in Em. rewrite (bind_ok _ _ _ _ _ Em).
      rewrite Nat2Z.id, take_ge by done. unfold store_bytes. erewrite bind_ok by reflexivity. rewrite Pa, Po, Hpm.
      erewrite bind_ok by reflexivity. by rewrite decide_True.
    - split; [done|intros v; rewrite R2, S3; done|by intros v []%elem_of_nil| | |].
      + intros v Hv. cbn. rewrite lookup_insert_ne; [by apply R4|]. intros <-. apply Hv, R2. right. left. right. by exists 0.
      + intros v Hv. cbn. rewrite lookup_insert_is_Some. destruct (decide (m = v)); [by left|right; split; [done|]]. by apply R5.
      + etransitivity; [exact R6|apply kquiet_pages].
    - unfold upage. rewrite S2. exact Hup.
    - cbn. by rewrite lookup_insert_eq, Epg.
    - by rewrite S2.
    - intros a Ha Hne. rewrite S2. by apply Hout.
  Qed.

  (** *** Giving up a space under construction *)
Lemma free_raised s0 l0 lost s l d :
    raised s0 (fun v => v ∈ l0) lost s l d -> NoDup l0 -> NoDup lost ->
    exists s' l', freevm kend d s = Ok tt s' /\ heap_ok s' l' /\ kquiet s0 s' /\
      (forall v, v ∉ l0 -> k_pages s' !! v = k_pages s0 !! v) /\ lost ++ l' ≡ₚ l0.
  Proof using Hkend.
    intros [R1 R2 R3 R4 R5 R6] Hnd Hnl.
    destruct (freevm_run kend Hkend s d l R1) as (s' & fl & E & K & Q & F & Own & P & B).
    exists s', (fl ++ l). split_and!; [done|by split|by etransitivity| |].
    - intros v Hv. rewrite P, R4; [done|done|]. intros H. apply Hv, R2. auto.
    - apply NoDup_Permutation; [apply NoDup_app; split_and!; [done| |apply (ko_nodup _ _ K)]|done|].
      + intros v Hv. destruct (R3 v Hv). rewrite elem_of_app, Own. tauto.
      + intros v. rewrite R2, !elem_of_app, Own. tauto.
  Qed.

  (** *** copyuvm *)

  (** The first [A] pages of [p], as they were in [s0], are copied to [d]; the
      rest of the user part of [d] is empty. *)
Definition copied s0 (p : Z) s (d A : Z) : Prop :=
    (forall n, 0 <= n < A -> exists v v0, upage s d n = Some v /\ upage s0 p n = Some v0 /\ k_pages s !! v = k_pages s0 !! v0 /\
       PTE_FLAGS (pte_of s d (n * PGSIZE)) = PTE_FLAGS (pte_of s0 p (n * PGSIZE))) /\
    (forall n, A <= n < 2 ^ 19 -> upage s d n = None).

Lemma upage_dir s p n v : upage s p n = Some v -> Flag.has (word s p (PDX (n * PGSIZE))) PTE_V = true.
  Proof. unfold upage, pte_of. by destruct (Flag.has (word s p (PDX (n * PGSIZE))) PTE_V). Qed.

Lemma flags_range e : 0 <= PTE_FLAGS e < PGSIZE.
  Proof.
    unfold PTE_FLAGS. change 0xFFF with (Z.ones 12). rewrite Z.land_ones by lia. apply Z.mod_pos_bound. done.
  Qed.

Lemma flags_leaf pa e : is_u32 pa -> pa mod PGSIZE = 0 -> Flag.has e PTE_V = true -> PTE_FLAGS (leaf pa (PTE_FLAGS e)) = PTE_FLAGS e.
  Proof.
    intros Hu Hm HV. destruct (leaf_facts pa (PTE_FLAGS e) Hu Hm (flags_range e)) as (_ & _ & ->).
    change PTE_V with (2 ^ 0) in HV. rewrite Flag.has_testbit in HV by lia.
    apply Z.bits_inj'. intros i Hi. rewrite Z.lor_spec. change PTE_V with (2 ^ 0). rewrite Z.pow2_bits_eqb by lia.
    destruct (Z.eqb_spec 0 i) as [<-|_]; [|by rewrite orb_false_r].
    unfold PTE_FLAGS. rewrite Z.land_spec, HV. by rewrite orb_true_r.
  Qed.

  (** The page at [A] was just mapped to [m], with the contents and the flags
      of the parent's page. *)
Lemma copied_next s0 p s s' d A m l pg v0 :
    space_ok kend s d (m :: l) -> copied s0 p s d A -> 0 <= A < 2 ^ 19 ->
    (forall a, is_u32 a -> a / PGSIZE <> A -> pte_of s' d a = pte_of s d a) ->
    (forall v, v ∉ m :: l -> ~ pt_page s d v -> k_pages s' !! v = k_pages s !! v) ->
    upage s' d A = Some m -> k_pages s' !! m = Some pg -> upage s0 p A = Some v0 -> k_pages s0 !! v0 = Some pg ->
    PTE_FLAGS (pte_of s' d (A * PGSIZE)) = PTE_FLAGS (pte_of s0 p (A * PGSIZE)) -> copied s0 p s' d (A + 1).
  Proof.
    intros Hsp [C1 C2] HA Hout Hdata Hm Hpg Hv0 Hpg0 Hfl.
    assert (Hpte : forall n, 0 <= n < 2 ^ 19 -> n <> A -> pte_of s' d (n * PGSIZE) = pte_of s d (n * PGSIZE)).
    { intros n Hn Hne. apply Hout; [apply page_u32; lia|by rewrite page_num]. }
    split.
    - intros n Hn. destruct (decide (n = A)) as [->|Hne]; [exists m, v0; split_and!; try done; by rewrite Hpg, Hpg0|].
      destruct (C1 n ltac:(lia)) as (v & w & V1 & V2 & V3 & V4). exists v, w. unfold upage. rewrite Hpte by lia.
      split_and!; [done|done| |done]. rewrite Hdata; [done| |].
      + apply (owned_not_free s d _ v Hsp). right. exists n. split; [lia|done].
      + apply (us_page _ _ _ _ _ _ (so_user _ _ _ _ Hsp) n v ltac:(lia) V1).
    - intros n Hn. unfold upage. rewrite Hpte by lia. apply (C2 n). lia.
  Qed.

Lemma copy_run s0 l0 p sz (fuel : nat) :
    space_ok kend s0 p l0 -> 0 <= sz <= KERNBASE -> (forall n, 0 <= n < pages_of sz -> is_Some (upage s0 p n)) ->
    forall s l d A, raised s0 (fun v => v ∈ l0) [] s l d -> copied s0 p s d A ->
    0 <= A <= pages_of sz -> pages_of sz - A < Z.of_nat fuel ->
    exists r s' l', copy_from kend fuel p d (A * PGSIZE) sz s = Ok r s' /\
      ((r = d /\ raised s0 (fun v => v ∈ l0) [] s' l' d /\ copied s0 p s' d (pages_of sz) /\
        forall a, is_u32 a -> 2 ^ 19 <= a / PGSIZE -> pte_of s' d a = pte_of s d a) \/
       (r = 0 /\ heap_ok s' l' /\ kquiet s0 s' /\ (forall v, v ∉ l0 -> k_pages s' !! v = k_pages s0 !! v) /\
        (l' ≡ₚ l0 \/ exists m, m :: l' ≡ₚ l0))).
  Proof using Hkend.
    intros Hsp0 Hsz Hpages. induction fuel as [|fuel IH]; intros s l d A Hra Hcp HA Hfuel; [lia|]. cbn [copy_from].
    pose proof (pages_of_mono sz KERNBASE ltac:(lia)) as HB. change (pages_of KERNBASE) with (2 ^ 19) in HB.
    pose proof (pages_of_lt A sz) as Hlt. destruct (Z.ltb_spec (A * PGSIZE) sz) as [Hin|Hin]; cbn [negb].
    2:{ exists d, s, l. split; [done|]. left. assert (A = pages_of sz) as <- by lia. split_and!; done. }
    assert (HAB : A < pages_of sz) by lia. clear Hlt.
    destruct (Hpages A ltac:(lia)) as [v0 Hv0].
    assert (Hh : heap_ok s l) by (eapply heap_of_pt; apply Hra).
    assert (Hsub : forall x, x ∈ l -> x ∈ l0) by (intros x Hx; apply (ra_all _ _ _ _ _ _ Hra); by left).
    assert (Hnd : NoDup l0) by (apply (ko_nodup _ _ (po_kmem _ _ _ _ (so_pt _ _ _ _ Hsp0)))).
    destruct (space_elsewhere s0 s p l0 l Hsp0 Hh Hsub) as (Hsp & Hpte & _).
    { intros v Hv. apply (ra_same _ _ _ _ _ _ Hra). by apply (owned_not_free s0 p l0). }
    assert (Hv : upage s p A = Some v0) by (unfold upage; rewrite Hpte; exact Hv0).
    destruct (walk_found kend s p l (A * PGSIZE) false (so_pt _ _ _ _ Hsp) (upage_dir _ _ _ _ Hv)) as (Ew & Hw0 & El).
    rewrite (bind_ok _ _ _ _ _ Ew). destruct (Z.eqb_spec (table (word s p (PDX (A * PGSIZE))) + 4 * PTX (A * PGSIZE)) 0); [done|].
    rewrite (bind_ok _ _ _ _ _ El), Hpte. pose proof Hv0 as Hv0'. unfold upage in Hv0'.
    destruct (Flag.has (pte_of s0 p (A * PGSIZE)) PTE_V) eqn:HV; [|done]. injection Hv0' as Ht. cbn [negb]. cbv zeta.
    fold (table (pte_of s0 p (A * PGSIZE))). rewrite Ht.
    destruct (us_page _ _ _ _ _ _ (so_user _ _ _ _ Hsp0) A v0 ltac:(lia) Hv0) as (Hf0 & [pg Hpg0] & Hl0 & _).
    assert (Hpg : k_pages s !! v0 = Some pg) by (rewrite (ra_same _ _ _ _ _ _ Hra) by done; exact Hpg0).
    destruct l as [|m l].
    { destruct (kalloc_heap s [] Hh) as (s1 & E1 & Hh1 & Hp1 & Hq1). rewrite (bind_ok _ _ _ _ _ E1). change (0 =? 0) with true. cbv iota.
      assert (Hra1 : raised s0 (fun v => v ∈ l0) [] s1 [] d).
      { destruct Hra as [R1 R2 R3 R4 R5 R6]. destruct (space_elsewhere s s1 d [] [] R1 Hh1) as (S1 & _ & S3); [done|by rewrite Hp1|].
        split; [done|intros v; by rewrite R2, S3|intros v Hv'; by apply elem_of_nil in Hv'|intros v Hv'; rewrite Hp1; by apply R4|intros v Hv'; rewrite Hp1; by apply R5|by etransitivity]. }
      destruct (free_raised s0 l0 [] s1 [] d Hra1 Hnd) as (s' & l' & E & Hh' & Hq' & Hs' & Hperm); [constructor|].
      exists 0, s', l'. rewrite (bind_ok _ _ _ _ _ E). split; [done|]. right. split_and!; try done. by left. }
    destruct (map_user s0 (fun v => v ∈ l0) [] s m l d A pg (PTE_FLAGS (pte_of s0 p (A * PGSIZE))) Hra) as (s1 & E1 & Hp1 & r & s' & l' & Em & Hl' & Hout & Hdata & Hres).
    { lia. }
    { apply Hcp. lia. }
    { apply (ko_pages _ _ (ho_kmem _ _ Hh) _ _ Hpg). }
    { apply (ho_bytes _ _ Hh _ _ Hpg). }
    { apply flags_range. }
    destruct (free_page s m l Hh) as (_ & [pm Hpm] & _ & Hm0).
    rewrite (bind_ok _ _ _ _ _ E1). destruct (Z.eqb_spec m 0); [done|].
    erewrite bind_ok by (unfold copy_page; erewrite bind_ok by reflexivity; rewrite Hp1, Hpg, Hpm; reflexivity).
    rewrite (bind_ok _ _ _ _ _ Em). destruct Hres as [(-> & Hra' & Hleaf & Hup & Hpm')|(-> & _ & -> & Hra' & _)].
    - change (0 <? 0) with false. cbv iota.
      assert (u32 (A * PGSIZE + PGSIZE) = (A + 1) * PGSIZE) as -> by (rewrite u32_id; unfold is_u32, PGSIZE; lia).
      destruct (IH s' l' d (A + 1) Hra') as (r & s3 & l3 & E3 & Hres3); try lia.
      + apply (copied_next s0 p s s' d A m l pg v0); [apply Hra|exact Hcp|lia|exact Hout|exact Hdata|exact Hup|exact Hpm'|exact Hv0|exact Hpg0|].
        rewrite Hleaf.
        destruct (free_page s m l Hh) as (Hfm & _). apply flags_leaf; [apply u32_range|apply v2p_aligned, Hfm|done].
      + exists r, s3, l3. split; [exact E3|]. destruct Hres3 as [(-> & R & C & K)|?]; [left|by right].
        split_and!; try done. intros a Ha Hge. rewrite K by done. apply Hout; [done|lia].
    - change (-1 <? 0) with true. cbv iota.
      destruct (free_raised s0 l0 [m] s' [] d Hra' Hnd) as (s3 & l3 & E3 & Hh3 & Hq3 & Hs3 & Hperm); [apply NoDup_singleton|].
      exists 0, s3, l3. rewrite (bind_ok _ _ _ _ _ E3). split; [done|]. right. split_and!; try done. right. by exists m.
  Qed.
End make.

Section spaces.
  Context (kend kdata : Z).
  Hypothesis Hkend : KERNBASE < kend.
  (** Where kernel.ld puts [data]. *)
  Hypothesis Hdata : kdata mod PGSIZE = 0 /\ KERNLINK < kdata < KERNBASE + PHYSTOP.
  Implicit Types (s : kst).

Lemma sorted4 a b c d :
    k_last a < k_first b -> k_last b < k_first c -> k_last c < k_first d -> k_first b <= k_last b -> k_first c <= k_last c ->
    StronglySorted above [a; b; c; d].
  Proof. intros. repeat constructor; unfold above; lia. Qed.

Lemma kmap_ok : Forall k_ok (kmap kdata) /\ StronglySorted above (kmap kdata).
  Proof using Hdata.
    destruct Hdata as [Hm Hd]. unfold kmap, KERNLINK, KERNBASE, EXTMEM, PHYSTOP, DEVSPACE in *.
    assert (Hv : v2p kdata = kdata - 0x80000000) by (unfold v2p, KERNBASE; rewrite u32_id; unfold is_u32; lia).
    rewrite Hv. change (v2p (0x80000000 + 0x100000)) with 0x100000. change (0x80000000 + 0x100000) with 0x80100000 in *.
    assert (S1 : u32 (0x100000 - 0) = 0x100000) by done.
    assert (S2 : u32 (kdata - 0x80000000 - 0x100000) = kdata - 0x80100000) by (rewrite u32_id; unfold is_u32; lia).
    assert (S3 : u32 (0x8000000 - (kdata - 0x80000000)) = 0x88000000 - kdata) by (rewrite u32_id; unfold is_u32; lia).
    assert (S4 : u32 (0 - 0xFE000000) = 0x2000000) by done.
    assert (Hq : exists q, kdata = 4096 * q) by (exists (kdata / 4096); apply Z_div_exact_full_2; done).
    destruct Hq as [q ->].
    assert (A2 : (4096 * q - 0x80000000) mod 4096 = 0)
      by (replace (4096 * q - 0x80000000) with ((q - 0x80000) * 4096) by lia; apply Z_mod_mult).
    split.
    - repeat apply Forall_cons_2; [..|apply Forall_nil_2]; unfold k_ok, KERNBASE, is_u32; rewrite ?S1, ?S2, ?S3, ?S4;
        split_and!; try done; try lia; try (by vm_compute).
    - assert (D1 : 4096 * q / 4096 = q) by (rewrite Z.mul_comm; by apply Z_div_mult).
      assert (D2 : (4096 * q - 1) / 4096 = q - 1) by (symmetry; apply (Z.div_unique_pos _ _ _ 4095); lia).
      apply sorted4; unfold k_first, k_last; rewrite ?S1, ?S2, ?S3, ?S4;
        replace (0x80100000 + (4096 * q - 0x80100000) - 1) with (4096 * q - 1) by lia;
        replace (4096 * q + (0x88000000 - 4096 * q) - 1) with 0x87ffffff by lia;
        unfold PGSIZE; rewrite ?D1, ?D2.
      + by vm_compute.
      + lia.
      + by vm_compute.
      + change (0x80100000 / 4096) with 0x80100. lia.
      + change (0x87ffffff / 4096) with 0x87fff. lia.
  Qed.

  (** The directory entries the kernel's part uses, and that no more page
      tables than these are taken. *)
Definition k_slots : list Z := seqZ 512 32 ++ seqZ 1016 8.

Lemma kmap_slots k i : k ∈ kmap kdata -> k_first k / 1024 <= i <= k_last k / 1024 -> i ∈ k_slots.
  Proof using Hdata.
    destruct Hdata as [Hm Hd]. unfold kmap, KERNLINK, KERNBASE, EXTMEM, PHYSTOP, DEVSPACE in *.
    assert (Hv : v2p kdata = kdata - 0x80000000) by (unfold v2p, KERNBASE; rewrite u32_id; unfold is_u32; lia).
    assert (S2 : u32 (kdata - 0x80000000 - 0x100000) = kdata - 0x80100000) by (rewrite u32_id; unfold is_u32; lia).
    assert (S3 : u32 (0x8000000 - (kdata - 0x80000000)) = 0x88000000 - kdata) by (rewrite u32_id; unfold is_u32; lia).
    rewrite !elem_of_cons, elem_of_nil, Hv. unfold k_slots. rewrite elem_of_app, !elem_of_seqZ.
    change (v2p (0x80000000 + 0x100000)) with 0x100000. change (0x80000000 + 0x100000) with 0x80100000 in *.
    assert (Hmono : forall a b, a <= b -> a / PGSIZE / 1024 <= b / PGSIZE / 1024)
      by (intros a b Hab; apply Z.div_le_mono; [lia|]; apply Z.div_le_mono; [done|lia]).
    intros [->|[->|[->|[->|[]]]]]; unfold k_first, k_last; rewrite ?S2, ?S3.
    - change (u32 (0x100000 - 0)) with 0x100000. vm_compute (_ / _ / _). lia.
    - pose proof (Hmono (0x80100000 + (kdata - 0x80100000) - 1) 0x87ffffff ltac:(lia)) as H1.
      change (0x87ffffff / PGSIZE / 1024) with 543 in H1. change (0x80100000 / PGSIZE / 1024) with 512. lia.
    - pose proof (Hmono 0x80100000 kdata ltac:(lia)) as H1. pose proof (Hmono (kdata + (0x88000000 - kdata) - 1) 0x87ffffff ltac:(lia)) as H2.
      change (0x87ffffff / PGSIZE / 1024) with 543 in H2. change (0x80100000 / PGSIZE / 1024) with 512 in H1. lia.
    - change (u32 (0 - 0xFE000000)) with 0x2000000. vm_compute (_ / _ / _). lia.
  Qed.

Lemma few_tables s s' (l l' : list Z) d :
    raised kend s (fun v => v ∈ l) [] s' l' d -> NoDup l -> (forall n, 0 <= n < 2 ^ 19 -> upage s' d n = None) ->
    (forall i, 0 <= i < 1024 -> i ∉ k_slots -> word s' d i = 0) -> (length l <= length l' + 41)%nat.
  Proof.
    intros Hra Hnd Hu Hw. change 41%nat with (length (d :: ((fun i => table (word s' d i)) <$> k_slots))). rewrite <- length_app.
    apply submseteq_length, NoDup_submseteq; [done|]. intros v Hv. rewrite elem_of_app, elem_of_cons, list_elem_of_fmap.
    apply (ra_all _ _ _ _ _ _ _ Hra) in Hv as [?|[[[->|(i & Hi & HV & <-)]|(n & Hn & E)]|[]%elem_of_nil]]; auto.
    - right. right. exists i. split; [done|]. destruct (decide (i ∈ k_slots)) as [|Hno]; [done|]. by rewrite Hw in HV.
    - by rewrite Hu in E.
  Qed.

  (** [setupkvm] with free pages [l]: the kernel mapped and nothing else, or
      the null pointer when the pages ran out, all of them lost. It needs the
      directory and at most 40 page tables. *)
Lemma setupkvm_run s l :
    heap_ok kend s l ->
    exists r s' l', setupkvm kdata s = Ok r s' /\ (length l <= length l' + 41)%nat /\
      ((r = 0 /\ l' = [] /\ heap_ok kend s' [] /\ kquiet s s' /\ (forall v, v ∉ l -> k_pages s' !! v = k_pages s !! v)) \/
       (r <> 0 /\ raised kend s (fun v => v ∈ l) [] s' l' r /\ (forall n, 0 <= n < 2 ^ 19 -> upage s' r n = None) /\
        forall k, k ∈ kmap kdata -> kmapped s' r k)).
  Proof using Hkend Hdata.
    intros Hh. pose proof (kalloc_heap kend s l Hh) as Ha. unfold setupkvm. destruct l as [|d l].
    { destruct Ha as (s1 & E & Hh1 & Hp & Hq). exists 0, s1, []. rewrite (bind_ok _ _ _ _ _ E). split_and!; [done|cbn; lia|].
      left. split_and!; try done. intros v _. by rewrite Hp. }
    destruct Ha as (s1 & E & Hh1 & Hp & Hq). destruct (free_page kend s d l Hh) as (Hf & Hs & Hd & H0).
    assert (Hs1 : is_Some (k_pages s1 !! d)) by (by rewrite Hp).
    rewrite (bind_ok _ _ _ _ _ E). destruct (Z.eqb_spec d 0); [done|]. rewrite (bind_ok _ _ _ _ _ (fill_zero s1 d Hs1)).
    change (p2v PHYSTOP >? DEVSPACE) with false. cbv iota. set (s2 := zeroed s1 d).
    assert (Hw : forall i, word s2 d i = 0) by (intros i; apply word_zeroed).
    assert (Hs2 : is_Some (k_pages s2 !! d)) by (unfold s2, zeroed; cbn; by rewrite lookup_insert_eq).
    assert (Hra : raised kend s (fun v => v ∈ d :: l) [] s2 l d).
    { split.
      - apply empty_space; try done. by apply heap_zeroed.
      - intros v. rewrite elem_of_cons, elem_of_nil, owned_empty by done. tauto.
      - intros v Hv. by apply elem_of_nil in Hv.
      - intros v [Hvd _]%not_elem_of_cons. unfold s2, zeroed. cbn. by rewrite lookup_insert_ne, Hp.
      - intros v Hv. unfold s2, zeroed. cbn. rewrite lookup_insert_is_Some, Hp. destruct (decide (d = v)); auto.
      - etransitivity; [exact Hq|apply kquiet_pages]. }
    destruct (no_pages s2 d Hw) as [Hpte _]. destruct kmap_ok as [Hk1 Hk2].
    destruct (map_kernel_run kend Hkend s (fun v => v ∈ d :: l) [] d (kmap kdata) s2 l Hra Hk1 Hk2) as (r & s' & l' & E' & Hra' & Hu & Hsl & Hres).
    { intros k q _ _. by rewrite Hpte. }
    assert (Hnone : forall n, 0 <= n < 2 ^ 19 -> upage s' d n = None) by (intros m Hm; rewrite Hu by done; unfold upage; by rewrite Hpte).
    exists r, s', l'. split_and!; [exact E'| |].
    { eapply few_tables; [exact Hra'|apply (ko_nodup _ _ (ho_kmem _ _ _ Hh))|exact Hnone|].
      intros i Hi Hno. rewrite Hsl; [apply Hw|done|]. intros k Hk Hr. by apply Hno, (kmap_slots k). }
    destruct Hres as [[-> ->]|(-> & Hk & _)].
    - left. split_and!; [reflexivity|reflexivity| |apply Hra'|apply Hra']. eapply heap_of_pt. apply Hra'.
    - right. split_and!; done.
  Qed.

  (** The copy of an address space for a child. For a space whose first
      [sz] bytes are mapped, [copyuvm] never panics. If it succeeds, the new
      space has the kernel mapped, a page of its own for each page below
      [sz], with the parent's contents and permissions, and nothing else; all
      its pages come from the free list and the rest of the memory, the
      parent's pages first, is as it was. When it runs out of pages it
      returns the null pointer; then either all pages are free again, or all
      but the one that could not be mapped, or, when not even the kernel's
      part could be set up, none. *)
Theorem copyuvm_spec s l p sz :
    space_ok kend s p l -> 0 <= sz <= KERNBASE -> (forall n, 0 <= n < pages_of sz -> is_Some (upage s p n)) ->
    exists r s' l', copyuvm kend kdata p sz s = Ok r s' /\ heap_ok kend s' l' /\ kquiet s s' /\
      (forall v, v ∉ l -> k_pages s' !! v = k_pages s !! v) /\
      ((r <> 0 /\ space_ok kend s' r l' /\ (forall v, v ∈ l <-> v ∈ l' \/ owned s' r v) /\
        (forall n, 0 <= n < pages_of sz -> exists v v0, upage s' r n = Some v /\ upage s p n = Some v0 /\
           k_pages s' !! v = k_pages s !! v0 /\ PTE_FLAGS (pte_of s' r (n * PGSIZE)) = PTE_FLAGS (pte_of s p (n * PGSIZE))) /\
        (forall n, pages_of sz <= n < 2 ^ 19 -> upage s' r n = None) /\
        (forall k, k ∈ kmap kdata -> kmapped s' r k)) \/
       (r = 0 /\ (l' ≡ₚ l \/ (exists m, m :: l' ≡ₚ l) \/ l' = []))).
  Proof using Hkend Hdata.
    intros Hsp Hsz Hpages. unfold copyuvm.
    assert (Hh : heap_ok kend s l) by (eapply heap_of_pt; apply Hsp).
    destruct (setupkvm_run s l Hh) as (d & s1 & l1 & E1 & _ & [(-> & -> & Hh1 & Hq1 & Hs1)|(Hd0 & Hra & Hu & Hk)]); rewrite (bind_ok _ _ _ _ _ E1).
    { exists 0, s1, []. split_and!; try assumption; [reflexivity|]. right. split; [reflexivity|]. right. by right. }
    destruct (Z.eqb_spec d 0) as [?|_]; [done|].
    pose proof (pages_of_mono sz KERNBASE ltac:(lia)) as HB. change (pages_of KERNBASE) with (2 ^ 19) in HB.
    pose proof (pages_of_mono 0 sz ltac:(lia)) as H0. change (pages_of 0) with 0 in H0.
    destruct (copy_run kend Hkend s l p sz (Z.to_nat (2 ^ 20)) Hsp Hsz Hpages s1 l1 d 0 Hra) as (r & s' & l' & E & Hres); try lia.
    { split; [lia|exact Hu]. }
    exists r, s', l'. split; [exact E|]. destruct Hres as [(-> & [R1 R2 R3 R4 R5 R6] & [C1 C2] & HK)|(-> & Hh' & Hq' & Hs' & Hperm)].
    - split_and!; [eapply heap_of_pt; apply R1|assumption|assumption|]. left. split_and!; try assumption.
      + intros v. rewrite R2, elem_of_nil. clear. tauto.
      + intros [[[virt ps] pe] perm] Hin a Ha Hr. destruct kmap_ok as [Hok _]. rewrite Forall_forall in Hok.
        pose proof (Hok _ Hin) as (K1 & _). rewrite HK; [exact (Hk _ Hin a Ha Hr)|done|].
        assert (2 ^ 19 <= virt / PGSIZE) by (apply Z.div_le_lower_bound; [done|unfold PGSIZE, KERNBASE in *; lia]).
        unfold k_first in Hr. lia.
    - split_and!; try assumption. right. split; [reflexivity|]. destruct Hperm; auto.
  Qed.
End spaces.

(** A space with one page, at address 0, and two free pages. *)
Lemma copyuvm_spec_witness :
  exists r s' l', copyuvm 0x80110000 0x80108000 0x80300000 PGSIZE (vm_at 0) = Ok r s' /\ kmem_ok s' l' /\
    k_pages s' !! 0x80302000 = k_pages (vm_at 0) !! 0x80302000.
Proof.
  destruct (copyuvm_spec 0x80110000 0x80108000 ltac:(unfold KERNBASE; lia) ltac:(split; [reflexivity|unfold KERNLINK, KERNBASE, EXTMEM, PHYSTOP; lia])
    (vm_at 0) _ 0x80300000 PGSIZE (vm_at_space 0 ltac:(lia))) as (r & s' & l' & E & H & _ & Hs & _).
  - unfold PGSIZE, KERNBASE. lia.
  - intros n Hn. change (pages_of PGSIZE) with 1 in Hn. exists 0x80302000. apply vm_at_upage; lia.
  - exists r, s', l'. split_and!; [exact E|apply (ho_kmem _ _ _ H)|apply Hs]. rewrite !not_elem_of_cons. split_and!; [done|done|apply not_elem_of_nil].
Defined.
