(* ===== verification/Grep.v ===== *)
(** grep.c: the regular-expression matcher, proved against the language a
    pattern denotes, and the loop that reads a file through a buffer and
    prints the matching lines. *)
From stdpp Require Import base numbers list strings.
From S2P Require Import Prelude Str.

(** A C string is the list of its characters without the final NUL: the
    character a pointer at its end refers to is 0. *)
Definition char0 (s : list Z) : Z := default 0 (head s).

(** *** matchhere and matchstar, which call each other. ['*'] is 42, ['$'] is
    36, ['.'] is 46, ['^'] is 94. *)
Definition star_loop (here : list Z -> bool) (c : Z) : list Z -> bool :=
  fix loop text :=
    if here text then true else
    match text with
    | [] => false
    | x :: text => if (x =? c) || (c =? 46) then loop text else false
    end.

Fixpoint matchhere (re text : list Z) {struct re} : bool :=
  match re with
  | [] => true
  | c :: re1 =>
      let go :=
        if (c =? 36) && (char0 re1 =? 0) then char0 text =? 0 else
        if negb (char0 text =? 0) && ((c =? 46) || (c =? char0 text)) then matchhere re1 (tail text)
        else false in
      match re1 with
      | d :: re2 => if d =? 42 then star_loop (matchhere re2) c text else go
      | [] => go
      end
  end.

Definition matchstar (c : Z) (re text : list Z) : bool := star_loop (matchhere re) c text.

(** *** match *)
Fixpoint match_loop (re text : list Z) : bool :=
  if matchhere re text then true else
  match text with
  | [] => false
  | _ :: text => match_loop re text
  end.
Definition match_ (re text : list Z) : bool :=
  if char0 re =? 94 then matchhere (tail re) text else match_loop re text.

(** *** grep

    The buffer, what is left of the file and what was written to file
    descriptor 1. [read] on a file returns as much as is there. *)
Record gst := Gst { g_buf : mem; g_in : list Z; g_out : list Z }.

Definition buf_lens : Lens gst mem.
Proof.
  refine {| lget s := g_buf s; lset b s := Gst b (g_in s) (g_out s) |}; [done|by intros []|done].
Defined.

Definition BUFSZ : nat := 1024.

Definition read_ (off n : nat) : M gst nat :=
  s <- get ;;
  let x := take n (g_in s) in
  modify (fun s => Gst (splice off x (g_buf s)) (drop n (g_in s)) (g_out s)) ;;;
  ret (length x).
Definition write_ (p n : nat) : M gst unit :=
  modify (fun s => Gst (g_buf s) (g_in s) (g_out s ++ slice p n (g_buf s))).

(** The inner loop, from [p]; it returns the last [p]. *)
Fixpoint grep_lines (fuel : nat) (pattern : list Z) (p : nat) : M gst nat :=
  match fuel with
  | O => diverge
  | S fuel =>
      q <- zoom (L := buf_lens) (Ulib.strchr p 10) ;;
      match q with
      | None => ret p
      | Some q =>
          zoom (L := buf_lens) (store8 q 0) ;;;
          s <- get ;;
          (if match_ pattern (upto0 (drop p (g_buf s))) then
             zoom (L := buf_lens) (store8 q 10) ;;;
             write_ p (q + 1 - p)
           else ret tt) ;;;
          grep_lines fuel pattern (q + 1)
      end
  end.

Fixpoint grep_from (fuel : nat) (pattern : list Z) (m : nat) : M gst unit :=
  match fuel with
  | O => diverge
  | S fuel =>
      n <- read_ m (BUFSZ - m) ;;
      if decide (n = 0)%nat then ret tt else
      let m := (m + n)%nat in
      p <- grep_lines (S BUFSZ) pattern 0 ;;
      let m := if decide (p = 0)%nat then 0%nat else m in
      m <- (if decide (0 < m)%nat
            then zoom (L := buf_lens) (Ulib.memmove 0 p (Z.of_nat (m - p))) ;;; ret (m - p)%nat
            else ret m) ;;
      grep_from fuel pattern m
  end.
Definition grep (pattern : list Z) : M gst unit :=
  s <- get ;; grep_from (S (S (length (g_in s)))) pattern 0.

(** ** The language of a pattern *)

Inductive atom := Lit (c : Z) | Dot.
Inductive item := One (a : atom) | Star (a : atom).

Definition atom_of (c : Z) : atom := if c =? 46 then Dot else Lit c.
Definition atom_ok (a : atom) (x : Z) : Prop :=
  match a with Lit c => x = c | Dot => True end.

(** The pieces of a pattern, and whether it ends with an anchor. *)
Fixpoint items (re : list Z) : list item * bool :=
  match re with
  | [] => ([], false)
  | c :: re1 =>
      let one := if (c =? 36) && (char0 re1 =? 0) then ([], true)
                 else (One (atom_of c) :: fst (items re1), snd (items re1)) in
      match re1 with
      | d :: re2 => if d =? 42 then (Star (atom_of c) :: fst (items re2), snd (items re2)) else one
      | [] => one
      end
  end.

(** The strings a sequence of pieces stands for. *)
Fixpoint lang (l : list item) (w : list Z) : Prop :=
  match l with
  | [] => w = []
  | One a :: l => exists x v, w = x :: v /\ atom_ok a x /\ lang l v
  | Star a :: l => exists u v, w = u ++ v /\ Forall (atom_ok a) u /\ lang l v
  end.

(** A match that starts at the beginning of the text. *)
Definition here (p : list item * bool) (text : list Z) : Prop :=
  exists w rest, text = w ++ rest /\ lang (fst p) w /\ (snd p = true -> rest = []).

Definition chars (s : list Z) : Prop := Forall is_char s.

Lemma char0_nil s : chars s -> (char0 s =? 0) = bool_decide (s = []).
Proof.
  destruct s as [|x s]; [done|]. intros [Hx _]%Forall_cons. unfold char0. simpl.
  by rewrite char_nz.
Qed.

Lemma here_star a l b text :
  here (Star a :: l, b) text <->
  here (l, b) text \/ exists x t, text = x :: t /\ atom_ok a x /\ here (Star a :: l, b) t.
Proof.
  unfold here. cbn [fst snd lang]. split.
  - intros (w & rest & -> & (u & v & -> & Hu & Hv) & Hr). destruct u as [|x u].
    + left. by exists v, rest.
    + right. apply Forall_cons in Hu as [Hx Hu]. exists x, ((u ++ v) ++ rest). split_and!; [done|done|].
      exists (u ++ v), rest. split_and!; [done| |done]. by exists u, v.
  - intros [(w & rest & -> & Hw & Hr)|(x & t & -> & Hx & w & rest & -> & (u & v & -> & Hu & Hv) & Hr)].
    + exists w, rest. split_and!; [done| |done]. exists [], w. split_and!; [done|by apply Forall_nil|done].
    + exists (x :: u ++ v), rest. split_and!; [done| |done]. exists (x :: u), v.
      split_and!; [done|by apply Forall_cons|done].
Qed.

Lemma atom_test c x : ((x =? c) || (c =? 46)) = true <-> atom_ok (atom_of c) x.
Proof.
  unfold atom_of. destruct (c =? 46) eqn:E; simpl.
  - rewrite orb_true_r. tauto.
  - rewrite orb_false_r. apply Z.eqb_eq.
Qed.

Lemma star_loop_spec f c l b text :
  (forall t, chars t -> f t = true <-> here (l, b) t) -> chars text ->
  star_loop f c text = true <-> here (Star (atom_of c) :: l, b) text.
Proof.
  intros Hf. induction text as [|x text IH]; intros Ht; cbn [star_loop]; rewrite here_star, <- (Hf _ Ht).
  - destruct (f []) eqn:E; [tauto|]. split; [done|]. intros [?|(? & ? & ? & _)]; done.
  - destruct (f (x :: text)) eqn:E; [tauto|]. apply Forall_cons in Ht as [_ Ht].
    fold (star_loop f c). destruct ((x =? c) || (c =? 46)) eqn:Ex.
    + rewrite IH by done. split.
      * intros H. right. exists x, text. split_and!; [done|by apply atom_test|done].
      * intros [H|(? & ? & [= -> ->] & _ & H)]; done.
    + split; [done|]. intros [H|(? & ? & [= <- <-] & H%atom_test & _)]; congruence.
Qed.

(** A piece without a star, or the final anchor. *)
Lemma one_step (mh : list Z -> bool) c re1 text :
  (forall t, chars t -> mh t = true <-> here (items re1) t) -> chars text ->
  (if (c =? 36) && (char0 re1 =? 0) then char0 text =? 0 else
   if negb (char0 text =? 0) && ((c =? 46) || (c =? char0 text)) then mh (tail text) else false) = true <->
  here (if (c =? 36) && (char0 re1 =? 0) then ([], true)
        else (One (atom_of c) :: fst (items re1), snd (items re1))) text.
Proof.
  intros Hmh Htext. rewrite (char0_nil text) by done. destruct ((c =? 36) && (char0 re1 =? 0)).
  { rewrite bool_decide_eq_true. unfold here. simpl. split.
    - intros ->. by exists [], [].
    - intros (w & rest & -> & -> & Hr). by rewrite Hr. }
  destruct text as [|x text].
  { simpl. split; [done|]. intros (w & rest & E & (? & ? & -> & _) & _). done. }
  rewrite bool_decide_eq_false_2 by done. cbn [negb andb tail]. unfold char0. cbn [head from_option].
  change (id x) with x. rewrite orb_comm, (Z.eqb_sym c x). apply Forall_cons in Htext as [_ Htext].
  destruct ((x =? c) || (c =? 46)) eqn:Ex.
  - rewrite Hmh by done. split.
    + intros (w & rest & -> & Hw & Hr). exists (x :: w), rest. split_and!; [done| |done].
      exists x, w. split_and!; [done|by apply atom_test|done].
    + intros (w & rest & E & (y & v & -> & _ & Hv) & Hr). injection E as -> ->. by exists v, rest.
  - split; [done|]. intros (w & rest & E & (y & v & -> & Hy%atom_test & Hv) & Hr).
    injection E as <- _. congruence.
Qed.

Lemma matchhere_spec re : forall text, chars re -> chars text ->
  matchhere re text = true <-> here (items re) text.
Proof.
  induction re as [re IH] using (induction_ltof1 _ (@length Z)). unfold ltof in IH.
  intros text Hre Htext. destruct re as [|c re1].
  { simpl. split; [|done]. intros _. by exists [], text. }
  apply Forall_cons in Hre as [Hc Hre1]. cbn [matchhere items].
  pose proof (one_step (matchhere re1) c re1 text (fun t Ht => IH re1 ltac:(simpl; lia) t Hre1 Ht) Htext) as Hone.
  destruct re1 as [|d re2]; [exact Hone|]. destruct (d =? 42); [|exact Hone].
  apply Forall_cons in Hre1 as [_ Hre2].
  apply star_loop_spec; [|done]. intros t Ht. rewrite <- surjective_pairing. apply IH; [simpl; lia|done..].
Qed.

Lemma match_loop_spec re text : chars re -> chars text ->
  match_loop re text = true <-> exists pre rest, text = pre ++ rest /\ here (items re) rest.
Proof.
  intros Hre. induction text as [|x text IH]; intros Ht; cbn [match_loop].
  - destruct (matchhere re []) eqn:E.
    + apply matchhere_spec in E; [|done..]. split; [|done]. intros _. by exists [], [].
    + split; [done|]. intros (pre & rest & [-> ->]%eq_sym%app_eq_nil & H).
      apply matchhere_spec in H; [congruence|done..].
  - pose proof (matchhere_spec re (x :: text) Hre Ht) as Hm. destruct (matchhere re (x :: text)).
    + split; [|done]. intros _. exists [], (x :: text). split; [done|]. by apply Hm.
    + apply Forall_cons in Ht as [_ Ht]. rewrite IH by done. split.
      * intros (pre & rest & -> & H). by exists (x :: pre), rest.
      * intros ([|y pre] & rest & E & H).
        -- simpl in E. subst rest. apply Hm in H. done.
        -- injection E as -> ->. by exists pre, rest.
Qed.

(** The parts of a whole pattern: a leading anchor, the pieces, a final one. *)
Definition parse_re (re : list Z) : bool * (list item * bool) :=
  if char0 re =? 94 then (true, items (tail re)) else (false, items re).

(** C23. [match] decides membership in the language the pattern denotes: it
    succeeds exactly when the text has a part that is a string of the
    pattern's pieces, at the beginning of the text if the pattern starts with
    [^] and at its end if it ends with [$]. *)
Theorem match_spec (re text : list Z) :
  chars re -> chars text ->
  match_ re text = true <->
  exists pre mid post, text = pre ++ mid ++ post /\
    lang (fst (snd (parse_re re))) mid /\
    (fst (parse_re re) = true -> pre = []) /\ (snd (snd (parse_re re)) = true -> post = []).
Proof.
  intros Hre Ht. unfold match_, parse_re. destruct (char0 re =? 94).
  - rewrite matchhere_spec by first [done|destruct re; [done|by apply Forall_cons in Hre as [_ ?]]].
    cbn [fst snd]. split.
    + intros (w & rest & -> & Hw & Hr). exists [], w, rest. done.
    + intros (pre & w & rest & -> & Hw & Hp & Hr). rewrite (Hp eq_refl). by exists w, rest.
  - rewrite match_loop_spec by done. cbn [fst snd]. split.
    + intros (pre & t & -> & w & rest & -> & Hw & Hr). exists pre, w, rest. done.
    + intros (pre & w & rest & -> & Hw & _ & Hr). exists pre, (w ++ rest). split; [done|]. by exists w, rest.
Qed.

(** The pattern [^a.*b$] on [axyb]. *)
Lemma match_spec_witness :
  exists pre mid post, [97; 120; 121; 98] = pre ++ mid ++ post /\
    lang [One (Lit 97); Star Dot; One (Lit 98)] mid /\ (true = true -> pre = []) /\ (true = true -> post = []).
Proof.
  apply (match_spec [94; 97; 46; 42; 98; 36] [97; 120; 121; 98]).
  - repeat constructor; done.
  - repeat constructor; done.
  - vm_compute. reflexivity.
Defined.

(** ** grep *)

(** The lines of a file that end with a newline; [acc] is what has been read
    of the current one. *)
Fixpoint lines (acc d : list Z) : list (list Z) :=
  match d with
  | [] => []
  | x :: d => if x =? 10 then acc :: lines [] d else lines (acc ++ [x]) d
  end.

(** What grep should print. *)
Definition matching (pattern d : list Z) : list Z :=
  concat (map (fun l => l ++ [10]) (List.filter (match_ pattern) (lines [] d))).

Lemma lines_nl l d : Forall (fun x => x <> 10) l -> forall acc, lines acc (l ++ 10 :: d) = (acc ++ l) :: lines [] d.
Proof.
  induction 1 as [|x l Hx Hl IH]; intros acc; simpl; [by rewrite app_nil_r|].
  destruct (x =? 10) eqn:E; [lia|]. by rewrite IH, <- app_assoc.
Qed.
Lemma lines_last l : Forall (fun x => x <> 10) l -> forall acc, lines acc l = [].
Proof. induction 1 as [|x l Hx Hl IH]; intros acc; simpl; [done|]. destruct (x =? 10) eqn:E; [lia|done]. Qed.

Lemma first_nl (d : list Z) :
  Forall (fun x => x <> 10) d \/ exists l d', d = l ++ 10 :: d' /\ Forall (fun x => x <> 10) l.
Proof.
  induction d as [|x d [IH|(l & d' & -> & IH)]]; [left; by apply Forall_nil| |];
    (destruct (decide (x = 10)) as [->|Hx]; [right; exists []; eexists; split; [done|by apply Forall_nil]|]).
  - left. by apply Forall_cons.
  - right. exists (x :: l), d'. split; [done|by apply Forall_cons].
Qed.

(** Characters other than newlines are passed over. *)
Lemma strchr_skip m l : forall p fuel,
  at_ m p l -> Forall (fun x => x <> 10) l -> chars l ->
  Ulib.strchr_loop (length l + fuel) p 10 m = Ulib.strchr_loop fuel (p + length l) 10 m.
Proof.
  induction l as [|x l IH]; intros p fuel Ha Hn Hc; [by rewrite Nat.add_0_r|].
  apply at_cons in Ha as [Hx Ha]. apply Forall_cons in Hn as [Hx10 Hn]. apply Forall_cons in Hc as [Hxc Hc].
  cbn [length Nat.add Ulib.strchr_loop]. erewrite bind_ok by (by apply load8_run).
  rewrite char_nz by done. change (u8 10) with 10. destruct (x =? 10) eqn:E; [lia|].
  rewrite IH by done. by rewrite Nat.add_succ_r.
Qed.

Lemma strchr_enough m l p : at_ m p l -> exists k, S (length m) = (length l + S k)%nat.
Proof.
  intros Ha. destruct l as [|x l]; [exists (length m); done|].
  apply at_bound in Ha; [|done]. exists (length m - length (x :: l))%nat. lia.
Qed.

Lemma strchr_nl m p l :
  at_ m p (l ++ [10]) -> Forall (fun x => x <> 10) l -> chars l ->
  Ulib.strchr p 10 m = Ok (Some (p + length l)%nat) m.
Proof.
  intros Ha Hn Hc. unfold Ulib.strchr. erewrite bind_ok by reflexivity.
  assert (Ha1 : at_ m p l) by (intros i x Hi; apply Ha; by apply lookup_app_l_Some).
  destruct (strchr_enough m l p Ha1) as [k ->]. rewrite strchr_skip by done. cbn [Ulib.strchr_loop].
  erewrite bind_ok by (apply load8_run, Ha; rewrite lookup_app_r, Nat.sub_diag by lia; done). done.
Qed.

Lemma strchr_end m p l :
  cstr m p l -> Forall (fun x => x <> 10) l -> Ulib.strchr p 10 m = Ok None m.
Proof.
  intros (Ha & Hc & H0) Hn. unfold Ulib.strchr. erewrite bind_ok by reflexivity.
  destruct (strchr_enough m l p Ha) as [k ->]. rewrite strchr_skip by done. cbn [Ulib.strchr_loop].
  by erewrite bind_ok by (by apply load8_run).
Qed.

(** No newline and no NUL before the end of the buffer. *)
Lemma strchr_overrun m p l :
  at_ m p l -> Forall (fun x => x <> 10) l -> chars l -> (p + length l = length m)%nat ->
  Ulib.strchr p 10 m = Fault.
Proof.
  intros Ha Hn Hc Hl. unfold Ulib.strchr. erewrite bind_ok by reflexivity.
  destruct (strchr_enough m l p Ha) as [k ->]. rewrite strchr_skip by done. cbn [Ulib.strchr_loop].
  unfold bind, load8. cbn. rewrite Hl. by rewrite lookup_ge_None_2.
Qed.

Lemma slice_at m p l : at_ m p l -> slice p (length l) m = l.
Proof.
  intros Ha. apply list_eq. intros i. rewrite lookup_slice. case_decide as Hi.
  - apply lookup_lt_is_Some_2 in Hi as [x Hx]. by rewrite Hx, (Ha i x Hx).
  - symmetry. apply lookup_ge_None_2. lia.
Qed.

(** What one line adds to the output, and what it leaves in the buffer. *)
Definition line_out (pattern l : list Z) : list Z := if match_ pattern l then l ++ [10] else [].
Definition line_buf (pattern l : list Z) (p : nat) (b : mem) : mem :=
  if match_ pattern l then b else <[(p + length l)%nat := 0]> b.

Lemma grep_line fuel pattern p l b i o :
  at_ b p (l ++ [10]) -> Forall (fun x => x <> 10) l -> chars l ->
  grep_lines (S fuel) pattern p (Gst b i o) =
  grep_lines fuel pattern (p + length l + 1) (Gst (line_buf pattern l p b) i (o ++ line_out pattern l)).
Proof.
  intros Ha Hn Hc. pose proof (at_bound _ _ _ Ha ltac:(by destruct l)) as Hlen. rewrite length_app in Hlen. simpl in Hlen.
  assert (Hq : b !! (p + length l)%nat = Some 10)
    by (apply Ha; rewrite lookup_app_r, Nat.sub_diag by lia; done).
  assert (Hcs : cstr (<[(p + length l)%nat := 0]> b) p l).
  { split_and!; [|done|by apply list_lookup_insert_eq; lia].
    intros j x Hj. pose proof (lookup_lt_Some _ _ _ Hj). rewrite list_lookup_insert_ne by lia.
    apply Ha. by apply lookup_app_l_Some. }
  cbn [grep_lines]. erewrite bind_ok by (apply zoom_ok; by apply strchr_nl). cbn [lset buf_lens].
  erewrite bind_ok by (apply zoom_ok, store8_run; cbn; lia). cbn [lset lget buf_lens g_buf g_in g_out].
  erewrite bind_ok by reflexivity. cbn [g_buf]. change (u8 0) with 0. rewrite (upto0_cstr _ _ _ Hcs).
  unfold line_out, line_buf. destruct (match_ pattern l).
  - erewrite bind_ok; [reflexivity|].
    erewrite bind_ok by (apply zoom_ok, store8_run; cbn; rewrite length_insert; lia).
    cbn [lset lget buf_lens g_buf g_in g_out]. unfold write_, modify. cbn [g_buf g_in g_out].
    rewrite list_insert_insert_eq, (list_insert_id b) by done.
    replace (p + length l + 1 - p)%nat with (length (l ++ [10])) by (rewrite length_app; simpl; lia).
    by rewrite slice_at.
  - erewrite bind_ok by reflexivity. by rewrite app_nil_r.
Qed.

Lemma line_buf_rest pattern l p b q d :
  at_ b q d -> (p + length l < q)%nat -> at_ (line_buf pattern l p b) q d.
Proof.
  intros Ha Hq. unfold line_buf. destruct (match_ pattern l); [done|].
  intros i x Hi. rewrite list_lookup_insert_ne by lia. by apply Ha.
Qed.
Lemma line_buf_len pattern l p b : length (line_buf pattern l p b) = length b.
Proof. unfold line_buf. destruct (match_ pattern l); [done|]. apply length_insert. Qed.
Lemma line_buf_bytes pattern l p b : bytes b -> bytes (line_buf pattern l p b).
Proof. intros Hb. unfold line_buf. destruct (match_ pattern l); [done|]. apply Forall_insert; [done|unfold is_u8; lia]. Qed.

Lemma matching_nl pattern l d : Forall (fun x => x <> 10) l ->
  matching pattern (l ++ 10 :: d) = line_out pattern l ++ matching pattern d.
Proof.
  intros Hl. unfold matching, line_out. rewrite lines_nl by done. simpl. by destruct (match_ pattern l).
Qed.

Lemma at_split m p (l d : list Z) : at_ m p (l ++ d) <-> at_ m p l /\ at_ m (p + length l) d.
Proof.
  revert p. induction l as [|x l IH]; intros p; simpl.
  - rewrite Nat.add_0_r. split; [|tauto]. intros H. split; [intros i x; by rewrite lookup_nil|done].
  - rewrite !at_cons, IH, Nat.add_succ_r. tauto.
Qed.

(** All lines of a buffer that ends with a NUL. *)
Lemma grep_lines_run pattern (n : nat) : forall fuel d p b i o,
  (length d <= n)%nat -> (n < fuel)%nat -> cstr b p d -> bytes b ->
  exists p' b', grep_lines fuel pattern p (Gst b i o) = Ok p' (Gst b' i (o ++ matching pattern d)) /\
    (p' <= p + length d)%nat /\ length b' = length b /\ bytes b'.
Proof.
  induction n as [n IH] using lt_wf_ind. intros fuel d p b i o Hd Hf Hcs Hb.
  destruct fuel as [|fuel]; [lia|]. destruct (first_nl d) as [Hno|(l & d' & -> & Hl)].
  - exists p, b. split_and!; [|lia|done|done]. cbn [grep_lines].
    erewrite bind_ok by (apply zoom_ok; by eapply strchr_end). cbn [lset buf_lens g_in g_out].
    unfold matching. rewrite lines_last by done. by rewrite app_nil_r.
  - destruct Hcs as (Ha & Hc & H0). rewrite length_app in *. cbn [length] in *.
    assert (chars l /\ chars d') as [Hcl Hcd] by (apply Forall_app in Hc as [? [_ ?]%Forall_cons]; done).
    assert (Ha1 : at_ b p (l ++ [10]) /\ at_ b (p + length l + 1) d').
    { change (10 :: d') with ([10] ++ d') in Ha. rewrite app_assoc in Ha. apply at_split in Ha as [? Ha].
      rewrite length_app in Ha. simpl in Ha. by rewrite Nat.add_assoc in Ha. }
    destruct Ha1 as [Ha1 Ha2]. rewrite (grep_line fuel pattern p l) by done.
    destruct (IH (length d') ltac:(lia) fuel d' (p + length l + 1)%nat (line_buf pattern l p b) i
      (o ++ line_out pattern l)) as (p' & b' & E & Hp & Hlen & Hb'); try lia.
    + split_and!; [apply line_buf_rest; [done|lia]|done|].
      assert (at_ b (p + length l + 1 + length d') [0]) as H1.
      { apply at_cons. split; [|intros j x; by rewrite lookup_nil].
        rewrite <- H0. f_equal. lia. }
      apply (line_buf_rest pattern l p) in H1; [|lia]. by apply at_cons in H1 as [? _].
    + by apply line_buf_bytes.
    + exists p', b'. rewrite E, matching_nl, app_assoc by done. rewrite line_buf_len in Hlen. split_and!; [done|lia|done|done].
Qed.

(** On a file of fewer bytes than the buffer, read into a clear buffer,
    grep prints exactly the lines that match, in order; a last line without
    a newline is not printed. *)
Theorem grep_spec (pattern d o : list Z) :
  chars d -> (length d < BUFSZ)%nat ->
  exists b', grep pattern (Gst (replicate BUFSZ 0) d o) = Ok tt (Gst b' [] (o ++ matching pattern d)).
Proof.
  intros Hd Hl. unfold grep. erewrite bind_ok by reflexivity. cbn [g_in grep_from].
  assert (Htd : take (BUFSZ - 0) d = d) by (apply take_ge; lia).
  assert (Hdd : drop (BUFSZ - 0) d = []) by (apply drop_ge; lia).
  erewrite bind_ok by (unfold read_; erewrite bind_ok by reflexivity; reflexivity). cbn [g_buf g_in g_out].
  rewrite Htd, Hdd. case_decide as Hn.
  { apply nil_length_inv in Hn as ->. exists (replicate BUFSZ 0). unfold ret. f_equal. f_equal. by rewrite app_nil_r. }
  set (b := splice 0 d (replicate BUFSZ 0)).
  assert (Hlb : length b = BUFSZ) by (unfold b; rewrite length_splice; rewrite length_replicate; [done|lia]).
  assert (Hcs : cstr b 0 d).
  { split_and!; [|done|].
    - intros i x Hi. pose proof (lookup_lt_Some _ _ _ Hi). unfold b.
      rewrite lookup_splice by (rewrite length_replicate; lia). rewrite decide_True by lia. by rewrite Nat.sub_0_r.
    - unfold b. rewrite lookup_splice by (rewrite length_replicate; lia). rewrite decide_False by lia.
      apply lookup_replicate_2. lia. }
  assert (Hbb : bytes b).
  { apply Forall_splice; [|apply Forall_replicate; unfold is_u8; lia].
    eapply Forall_impl; [exact Hd|]. unfold is_char, is_u8. intros; simpl in *; lia. }
  destruct (grep_lines_run pattern (length d) (S BUFSZ) d 0 b [] o) as (p & b' & E & Hp & Hlb' & Hb'); try done; try lia.
  rewrite (bind_ok _ _ _ _ _ E). cbn [Nat.add].
  assert (Hend : forall m b1, grep_from (S (length d)) pattern m (Gst b1 [] (o ++ matching pattern d)) =
      Ok tt (Gst (splice m [] b1) [] (o ++ matching pattern d))).
  { intros m b1. cbn [grep_from]. unfold read_. cbn. rewrite take_nil, drop_nil. simpl. done. }
  destruct (decide (p = 0)%nat).
  - rewrite decide_False by lia. erewrite bind_ok by reflexivity. eexists. apply Hend.
  - rewrite decide_True by lia. erewrite bind_ok.
    2:{ erewrite bind_ok; [reflexivity|]. apply (zoom_ok (L := buf_lens)). unfold Ulib.memmove. rewrite Nat2Z.id.
        cbn [lget buf_lens g_buf]. erewrite bind_ok by (apply copy_up_run; [done|lia|lia|left; lia]). reflexivity. }
    cbn [lset buf_lens g_in g_out]. eexists. apply Hend.
Qed.

(** On a file of at least the buffer's size, grep reads past the end of
    its buffer: the data fill it, nothing terminates them, and the search
    for the next newline runs on. *)
Theorem grep_overrun (pattern d : list Z) (b o : list Z) :
  length b = BUFSZ -> chars d -> (BUFSZ <= length d)%nat -> grep pattern (Gst b d o) = Fault.
Proof.
  intros Hb Hd Hl. unfold grep. erewrite bind_ok by reflexivity. cbn [g_in grep_from].
  erewrite bind_ok by (unfold read_; erewrite bind_ok by reflexivity; reflexivity). cbn [g_buf g_in g_out].
  rewrite Nat.sub_0_r. set (x := take BUFSZ d). assert (Hx : length x = BUFSZ) by (unfold x; rewrite length_take; lia).
  rewrite decide_False by (rewrite Hx; unfold BUFSZ; lia). rewrite splice_all by lia.
  assert (Hgo : forall n fuel l p b i o, (length l <= n)%nat -> (n < fuel)%nat -> at_ b p l -> chars l ->
    (p + length l = length b)%nat -> grep_lines fuel pattern p (Gst b i o) = Fault).
  { clear. induction n as [n IH] using lt_wf_ind. intros [|fuel] d p b i o Hd Hf Ha Hc Hl; [lia|].
    destruct (first_nl d) as [Hno|(l & d' & -> & Hn)].
    - cbn [grep_lines]. unfold bind at 1, zoom. cbn [lget buf_lens g_buf]. by rewrite (strchr_overrun b p d).
    - rewrite length_app in *. cbn [length] in *. apply Forall_app in Hc as [Hcl [_ Hcd]%Forall_cons].
      change (10 :: d') with ([10] ++ d') in Ha. rewrite app_assoc in Ha. apply at_split in Ha as [Ha1 Ha2].
      rewrite length_app in Ha2. simpl in Ha2. rewrite Nat.add_assoc in Ha2.
      rewrite (grep_line fuel pattern p l) by done. apply (IH (length d')) with d'; try lia; [apply line_buf_rest; [done|lia]|done|].
      rewrite line_buf_len. lia. }
  unfold bind. rewrite (Hgo BUFSZ (S BUFSZ) x 0%nat x); try lia; [done|by intros i y Hi|by apply Forall_take].
Qed.

Lemma grep_spec_witness :
  exists b', grep [97] (Gst (replicate BUFSZ 0) [97; 98; 10; 98; 10; 99; 97; 10; 97] []) =
    Ok tt (Gst b' [] [97; 98; 10; 99; 97; 10]).
Proof.
  apply (grep_spec [97] [97; 98; 10; 98; 10; 99; 97; 10; 97] []); [repeat constructor; done|].
  apply Nat.ltb_lt. reflexivity.
Defined.

Lemma grep_overrun_witness : grep [97] (Gst (replicate BUFSZ 0) (replicate 1500 97) []) = Fault.
Proof.
  apply grep_overrun; [apply length_replicate|apply Forall_replicate; done|].
  rewrite length_replicate. apply Nat.leb_le. reflexivity.
Defined.
