(* ===== verification/Printf.v ===== *)
(** Formatted output: the digit loop printf.c and console.c share, and
    printf.c itself. Numbers are proved to be printed in positional notation
    and to read back with [atoi]; formats to be printed piece by piece. *)
From stdpp Require Import base numbers list strings.
From S2P Require Import Prelude Str.

(** ** Printing numbers *)
Section fmt.
  Context {St : Type}.

  (** Run [f] on each element, in order. *)
Fixpoint each (f : Z -> M St unit) (l : list Z) : M St unit :=
    match l with
    | [] => ret tt
    | x :: l => f x ;;; each f l
    end.

  (** A store at the end of [char buf[16]]. *)
Definition push (buf : list Z) (c : Z) : M St (list Z) :=
    if decide (length buf < 16)%nat then ret (buf ++ [c]) else fault.

  (** [do buf[i++] = digits[x % base]; while((x /= base) != 0)]; a 32-bit
      number has at most 32 digits. *)
Fixpoint digit_loop (fuel : nat) (digits : list Z) (base x : Z) (buf : list Z) : M St (list Z) :=
    match fuel with
    | O => diverge
    | S fuel =>
        d <- some (digits !! Z.to_nat (x mod base)) ;;
        buf <- push buf d ;;
        let x := x / base in
        if x =? 0 then ret buf else digit_loop fuel digits base x buf
    end.

  (** The body of [printint], for either digit table and either [putc];
      ['-'] is 45. *)
Definition printint_with (digits : list Z) (putc : Z -> M St unit) (xx base sgn : Z) : M St unit :=
    let neg := negb (sgn =? 0) && (xx <? 0) in
    let x := if neg then u32 (- xx) else u32 xx in
    buf <- digit_loop 32 digits base x [] ;;
    buf <- (if neg then push buf 45 else ret buf) ;;
    each putc (rev buf).
End fmt.

(** *** printf.c. The state is the bytes written so far, each with its file
    descriptor. *)
Abbreviation written := (list (Z * Z)).

Definition upper : list Z := [48; 49; 50; 51; 52; 53; 54; 55; 56; 57; 65; 66; 67; 68; 69; 70].

Definition putc (fd c : Z) : M written unit := modify (fun o => o ++ [(fd, u8 c)]).
Definition printint (fd xx base sgn : Z) : M written unit := printint_with upper (putc fd) xx base sgn.

(** An argument: an integer, or a string or null pointer. *)
Inductive arg := AInt (z : Z) | AStr (s : option (list Z)).

Definition null_text : list Z := [40; 110; 117; 108; 108; 41]. (* "(null)" *)

(** The loop over the format; [pct] is [state == '%']. *)
Fixpoint printf_from (fd : Z) (fmt : list Z) (pct : bool) (args : list arg) : M written unit :=
  match fmt with
  | [] => ret tt
  | c :: fmt =>
      if negb pct then
        if c =? 37 then printf_from fd fmt true args
        else putc fd c ;;; printf_from fd fmt false args
      else if c =? 100 then
        match args with
        | AInt x :: args => printint fd (s32 x) 10 1 ;;; printf_from fd fmt false args
        | _ => fault
        end
      else if (c =? 120) || (c =? 112) then
        match args with
        | AInt x :: args => printint fd (s32 x) 16 0 ;;; printf_from fd fmt false args
        | _ => fault
        end
      else if c =? 115 then
        match args with
        | AStr s :: args => each (putc fd) (default null_text s) ;;; printf_from fd fmt false args
        | _ => fault
        end
      else if c =? 99 then
        match args with
        | AInt x :: args => putc fd x ;;; printf_from fd fmt false args
        | _ => fault
        end
      else if c =? 37 then putc fd c ;;; printf_from fd fmt false args
      else putc fd 37 ;;; putc fd c ;;; printf_from fd fmt false args
  end.
Definition printf (fd : Z) (fmt : list Z) (args : list arg) : M written unit :=
  printf_from fd fmt false args.

(** ** Positional notation *)

(** The digits of [x], the least significant first. *)
Fixpoint digs (fuel : nat) (base x : Z) : list Z :=
  match fuel with
  | O => []
  | S fuel => x mod base :: if x / base =? 0 then [] else digs fuel base (x / base)
  end.

(** The number a list of digits denotes, the most significant first. *)
Definition num (base : Z) (ds : list Z) : Z := foldl (fun n d => n * base + d) 0 ds.

Lemma num_snoc base ds d : num base (ds ++ [d]) = num base ds * base + d.
Proof. unfold num. by rewrite foldl_app. Qed.

Section digs.
  Context (base : Z) (Hb : 2 <= base).

Lemma digs_num n : forall x, 0 <= x < base ^ Z.of_nat n -> num base (rev (digs n base x)) = x.
  Proof.
    induction n as [|n IH]; intros x Hx; [simpl in *; unfold num; simpl; lia|].
    cbn [digs rev]. rewrite num_snoc. pose proof (Z.div_mod x base ltac:(lia)).
    destruct (x / base =? 0) eqn:E; [cbn [rev]; change (num base []) with 0; lia|]. rewrite IH; [lia|].
    rewrite Nat2Z.inj_succ, Z.pow_succ_r in Hx by lia. split; [apply Z.div_pos; lia|].
    apply Z.div_lt_upper_bound; lia.
  Qed.

Lemma digs_length n : forall x k, 0 <= x < base ^ Z.of_nat k -> (0 < k)%nat -> (length (digs n base x) <= k)%nat.
  Proof.
    induction n as [|n IH]; intros x k Hx Hk; [simpl; lia|]. cbn [digs length].
    destruct (x / base =? 0) eqn:E; [simpl; lia|]. destruct k as [|k]; [lia|].
    rewrite Nat2Z.inj_succ, Z.pow_succ_r in Hx by lia.
    assert (0 <= x / base < base ^ Z.of_nat k)
      by (split; [apply Z.div_pos; lia|apply Z.div_lt_upper_bound; lia]).
    destruct k as [|k]; [simpl in *; lia|]. apply le_n_S, IH; [done|lia].
  Qed.

Lemma digs_range n x : Forall (fun d => 0 <= d < base) (digs n base x).
  Proof.
    revert x. induction n as [|n IH]; intros x; cbn [digs]; [by apply Forall_nil|].
    apply Forall_cons. split; [apply Z.mod_pos_bound; lia|]. destruct (x / base =? 0); [by apply Forall_nil|done].
  Qed.

  (** No leading zero. *)
Lemma digs_top n : forall x, 0 < x < base ^ Z.of_nat n -> exists d l, rev (digs n base x) = d :: l /\ d <> 0.
  Proof.
    induction n as [|n IH]; intros x Hx; [simpl in *; lia|]. cbn [digs rev].
    pose proof (Z.div_mod x base ltac:(lia)). destruct (x / base =? 0) eqn:E.
    - exists (x mod base), []. split; [done|]. apply Z.eqb_eq in E. lia.
    - rewrite Nat2Z.inj_succ, Z.pow_succ_r in Hx by lia.
      assert (0 <= x / base) by (apply Z.div_pos; lia).
      destruct (IH (x / base)) as (d & l & -> & Hd); [split; [lia|apply Z.div_lt_upper_bound; lia]|].
      by exists d, (l ++ [x mod base]).
  Qed.

Lemma digs_32 n x : 0 <= x < 2 ^ Z.of_nat n -> 0 <= x < base ^ Z.of_nat n.
  Proof. intros Hx. split; [lia|]. apply Z.lt_le_trans with (2 ^ Z.of_nat n); [lia|]. apply Z.pow_le_mono_l; lia. Qed.
End digs.

Section run.
  Context {St : Type}.

  (** A digit's character. *)
Definition glyphs (tbl ds : list Z) : list Z := map (fun d => default 0 (tbl !! Z.to_nat d)) ds.

Lemma digit_loop_run tbl base n : forall x buf (s : St),
    2 <= base <= Z.of_nat (length tbl) -> 0 <= x < base ^ Z.of_nat n -> (0 < n)%nat ->
    (length buf + length (digs n base x) <= 16)%nat ->
    digit_loop n tbl base x buf s = Ok (buf ++ glyphs tbl (digs n base x)) s.
  Proof.
    induction n as [|n IH]; intros x buf s Hb Hx Hn Hlen; [lia|]. cbn [digit_loop].
    pose proof (Z.mod_pos_bound x base ltac:(lia)) as Hm.
    destruct (lookup_lt_is_Some_2 tbl (Z.to_nat (x mod base)) ltac:(lia)) as [c Hc].
    rewrite Hc. erewrite bind_ok by reflexivity. cbn [digs] in *.
    unfold push at 1. rewrite decide_True by (cbn [length] in Hlen; lia). erewrite bind_ok by reflexivity.
    cbv zeta. destruct (x / base =? 0) eqn:E; [simpl; by rewrite Hc|].
    rewrite Nat2Z.inj_succ, Z.pow_succ_r in Hx by lia. assert (0 <= x / base) by (apply Z.div_pos; lia).
    assert (x / base < base ^ Z.of_nat n) by (apply Z.div_lt_upper_bound; lia).
    rewrite IH; [|done|lia| |cbn [length] in Hlen; rewrite length_app; simpl; lia].
    - rewrite <- app_assoc. simpl. by rewrite Hc.
    - destruct n; [simpl in *; lia|lia].
  Qed.

  (** The characters [printint] emits. *)
Definition shown (tbl : list Z) (base xx sgn : Z) : list Z :=
    let neg := negb (sgn =? 0) && (xx <? 0) in
    (if neg then [45] else []) ++ glyphs tbl (rev (digs 32 base (if neg then u32 (- xx) else u32 xx))).

Lemma printint_with_run tbl putc xx base sgn (s : St) :
    4 <= base <= Z.of_nat (length tbl) -> (base >= 8)%Z ->
    printint_with tbl putc xx base sgn s = each putc (shown tbl base xx sgn) s.
  Proof.
    intros Hb H8. unfold printint_with, shown.
    set (neg := negb (sgn =? 0) && (xx <? 0)). set (x := if neg then _ else _).
    assert (Hx : 0 <= x < 2 ^ 32) by (unfold x; destruct neg; apply u32_range).
    assert (Hl : (length (digs 32 base x) <= 11)%nat).
    { apply digs_length; [lia| |lia]. split; [lia|]. apply Z.lt_le_trans with (8 ^ 11); [lia|].
      apply Z.pow_le_mono_l. lia. }
    pose proof (digit_loop_run tbl base 32 x [] s ltac:(lia) (digs_32 base ltac:(lia) 32 x Hx) ltac:(lia) ltac:(cbn [length]; lia)) as Hrun.
    rewrite (bind_ok _ _ _ _ _ Hrun). rewrite app_nil_l. unfold glyphs. rewrite map_rev.
    destruct neg.
    - erewrite bind_ok. 2:{ unfold push. rewrite decide_True; [reflexivity|]. rewrite length_map. lia. }
      by rewrite rev_app_distr.
    - by erewrite bind_ok by reflexivity.
  Qed.
End run.

(** ** printf.c *)

Lemma each_putc fd l : forall o, each (putc fd) l o = Ok tt (o ++ map (fun c => (fd, u8 c)) l).
Proof.
  induction l as [|c l IH]; intros o; cbn [each]; [unfold ret; by rewrite app_nil_r|].
  erewrite bind_ok by reflexivity. rewrite IH. by rewrite <- app_assoc.
Qed.

Lemma printint_run fd xx base sgn o : base = 10 \/ base = 16 ->
  printint fd xx base sgn o = Ok tt (o ++ map (fun c => (fd, u8 c)) (shown upper base xx sgn)).
Proof. intros Hb. unfold printint. rewrite printint_with_run by (simpl; lia). apply each_putc. Qed.

Lemma glyph_dec ds : Forall (fun d => 0 <= d < 10) ds -> glyphs upper ds = map (fun d => d + 48) ds.
Proof.
  intros HF. unfold glyphs. apply map_ext_in. intros d Hd%list_elem_of_In.
  rewrite Forall_forall in HF. specialize (HF d Hd).
  assert (d = 0 \/ d = 1 \/ d = 2 \/ d = 3 \/ d = 4 \/ d = 5 \/ d = 6 \/ d = 7 \/ d = 8 \/ d = 9) as H by lia.
  repeat (destruct H as [-> |H]; [done|]). by subst.
Qed.

Lemma digits_val_num ds : digits_val 0 (map (fun d => d + 48) ds) = num 10 ds.
Proof.
  unfold digits_val, num. generalize 0. induction ds as [|d ds IH]; intros n; [done|].
  simpl. rewrite <- IH. f_equal. lia.
Qed.

Lemma map_u8 (fd : Z) l : Forall is_u8 l -> map (fun c => (fd, u8 c)) l = map (pair fd) l.
Proof. induction 1 as [|c l Hc Hl IH]; [done|]. cbn [map]. by rewrite u8_id, IH. Qed.

(** [printint] in base 10 prints an int in decimal: a minus sign if it is
    negative (the smallest int included), then digits that denote its absolute
    value, without a leading zero unless it is 0. The digits of a non-negative
    int, read with [atoi], give the int back. *)
Theorem printint_atoi (fd xx : Z) (o : written) :
  is_s32 xx ->
  exists ds,
    printint fd xx 10 1 o = Ok tt (o ++ map (pair fd) ((if xx <? 0 then [45] else []) ++ ds)) /\
    Forall (fun c => 48 <= c <= 57) ds /\ digits_val 0 ds = Z.abs xx /\
    (forall l, ds = 48 :: l -> l = []) /\
    (forall m p c, 0 <= xx -> at_ m p (ds ++ [c]) -> ~ (48 <= c <= 57) -> Ulib.atoi p m = Ok xx m).
Proof.
  intros Hx. rewrite printint_run by auto. unfold shown. change (negb (1 =? 0)) with true. cbn [andb].
  set (x := if xx <? 0 then u32 (- xx) else u32 xx).
  assert (Hax : x = Z.abs xx).
  { unfold x, is_s32 in *. destruct (xx <? 0) eqn:E; rewrite u32_id; unfold is_u32; lia. }
  assert (Hr : 0 <= x < 10 ^ Z.of_nat 32).
  { apply (digs_32 10 ltac:(lia) 32). unfold is_s32 in Hx. change (2 ^ Z.of_nat 32) with (2 ^ 32). lia. }
  set (D := rev (digs 32 10 x)).
  assert (HD : Forall (fun d => 0 <= d < 10) D).
  { apply Forall_forall. intros d Hd%list_elem_of_In%in_rev%list_elem_of_In.
    pose proof (digs_range 10 ltac:(lia) 32 x) as HF. rewrite Forall_forall in HF. auto. }
  rewrite glyph_dec by done. set (ds := map (fun d => d + 48) D).
  assert (Hds : Forall (fun c => 48 <= c <= 57) ds).
  { unfold ds. rewrite Forall_forall in *. intros c (d & -> & Hd)%list_elem_of_fmap. specialize (HD d Hd). simpl in HD. lia. }
  assert (Hval : digits_val 0 ds = x) by (unfold ds; rewrite digits_val_num; by apply digs_num).
  exists ds. split_and!; [|done|lia| |].
  - rewrite map_u8; [done|]. apply Forall_app. split.
    + destruct (xx <? 0); [repeat constructor; done|by apply Forall_nil].
    + eapply Forall_impl; [exact Hds|]. unfold is_u8. simpl. lia.
  - intros l Hl. destruct (decide (x = 0)) as [E0|E0].
    + unfold ds, D in Hl. rewrite E0 in Hl. vm_compute in Hl. by injection Hl.
    + destruct (digs_top 10 ltac:(lia) 32 x ltac:(lia)) as (d & l' & E & Hd). fold D in E.
      unfold ds in Hl. rewrite E in Hl. injection Hl. lia.
  - intros m p c Hpos Ha Hc. replace xx with (digits_val 0 ds) by lia.
    apply (atoi_spec m p ds c Ha Hds Hc). unfold is_s32 in Hx. lia.
Qed.

Lemma printint_atoi_witness :
  exists ds, printint 1 (-2147483648) 10 1 [] = Ok tt (map (pair 1) (45 :: ds)) /\
    digits_val 0 ds = 2147483648.
Proof.
  destruct (printint_atoi 1 (-2147483648) []) as (ds & E & _ & Hv & _); [unfold is_s32; lia|].
  exists ds. split; [exact E|exact Hv].
Defined.

(** *** Formats *)

(** A piece of a format: a character that stands for itself, a conversion
    with its argument, or a percent sign before a character that is no
    conversion. *)
Inductive piece :=
| PChar (c : Z) | PDec (z : Z) | PHex (z : Z) | PPtr (z : Z) | PStr (s : option (list Z))
| PChr (z : Z) | PPct | POther (c : Z).

Definition piece_fmt (p : piece) : list Z :=
  match p with
  | PChar c => [c] | PDec _ => [37; 100] | PHex _ => [37; 120] | PPtr _ => [37; 112]
  | PStr _ => [37; 115] | PChr _ => [37; 99] | PPct => [37; 37] | POther c => [37; c]
  end.
Definition piece_args (p : piece) : list arg :=
  match p with
  | PDec z | PHex z | PPtr z | PChr z => [AInt z]
  | PStr s => [AStr s]
  | _ => []
  end.
Definition piece_out (p : piece) : list Z :=
  match p with
  | PChar c => [c]
  | PDec z => shown upper 10 (s32 z) 1
  | PHex z | PPtr z => shown upper 16 (s32 z) 0
  | PStr s => default null_text s
  | PChr z => [z]
  | PPct => [37]
  | POther c => [37; c]
  end.
Definition piece_ok (p : piece) : Prop :=
  match p with
  | PChar c => c <> 37
  | POther c => c ∉ [100; 120; 112; 115; 99; 37]
  | _ => True
  end.

(** [printf] prints a format piece by piece, each conversion consuming
    its argument: text as it is, [%d] in signed decimal, [%x] and [%p] in
    hexadecimal, [%s] the string (or "(null)"), [%c] a character, [%%] a
    percent sign, and an unknown sequence unchanged. *)
Theorem printf_spec (fd : Z) (ps : list piece) (o : written) :
  Forall piece_ok ps ->
  printf fd (concat (map piece_fmt ps)) (concat (map piece_args ps)) o =
  Ok tt (o ++ map (fun c => (fd, u8 c)) (concat (map piece_out ps))).
Proof.
  unfold printf. revert o. induction ps as [|p ps IH]; intros o HF.
  - unfold ret. by rewrite app_nil_r.
  - apply Forall_cons in HF as [Hp HF]. cbn [map concat]. rewrite map_app, app_assoc.
    specialize (fun o => IH o HF). destruct p as [c|z|z|z|s|z| |c]; cbn [piece_fmt piece_args piece_out app] in *.
    2-7: cbn [printf_from negb Z.eqb Pos.eqb orb];
      (erewrite bind_ok by first [apply each_putc|apply printint_run; auto|reflexivity]); apply IH.
    + cbn [printf_from negb]. destruct (c =? 37) eqn:E; [simpl in Hp; lia|].
      erewrite bind_ok by reflexivity. apply IH.
    + cbn [printf_from negb]. change (37 =? 37) with true. cbv iota. simpl in Hp. rewrite !not_elem_of_cons in Hp.
      destruct Hp as (? & ? & ? & ? & ? & ? & _).
      rewrite (proj2 (Z.eqb_neq c 100)), (proj2 (Z.eqb_neq c 120)), (proj2 (Z.eqb_neq c 112)),
        (proj2 (Z.eqb_neq c 115)), (proj2 (Z.eqb_neq c 99)), (proj2 (Z.eqb_neq c 37)) by done. cbn [orb].
      erewrite bind_ok by reflexivity. erewrite bind_ok by reflexivity.
      rewrite IH. by rewrite <- !app_assoc.
Qed.

(** ["%d%%, %s\n"] *)
Lemma printf_spec_witness :
  printf 1 [37; 100; 37; 37; 44; 32; 37; 115; 10] [AInt (-7); AStr None] [] =
  Ok tt (map (fun c => (1, u8 c)) [45; 55; 37; 44; 32; 40; 110; 117; 108; 108; 41; 10]).
Proof.
  apply (printf_spec 1 [PDec (-7); PPct; PChar 44; PChar 32; PStr None; PChar 10] []).
  repeat (apply Forall_cons; split; [done|]). by apply Forall_nil.
Defined.
