(* ===== verification/Fifo.v ===== *)
(** Ring buffers addressed by 32-bit counters that only grow and wrap around,
    as the console and the pipes use them: byte number [i] lies in slot
    [i % size], and a size that divides 2^32 makes the wrap-around harmless. *)
From stdpp Require Import base numbers list.
From S2P Require Import Prelude.

Section fifo.
  Context (sz : Z) (Hsz : 0 < sz) (Hdiv : (sz | 2 ^ 32)).

Definition slot (i : Z) : nat := Z.to_nat (i mod sz).

  (** The bytes [q] lie in [buf] from number [r] on. *)
Definition ring (buf : list Z) (r : Z) (q : list Z) : Prop :=
    forall i x, q !! i = Some x -> buf !! slot (r + Z.of_nat i) = Some x.

Lemma slot_u32 i : slot (u32 i) = slot i.
  Proof.
    unfold slot, u32. destruct Hdiv as [k Hk]. f_equal. rewrite Hk, Z.mul_comm.
    assert (0 < k) by nia.
    rewrite Z.rem_mul_r by lia. by rewrite (Z.mul_comm sz), Z_mod_plus_full, Z.mod_mod by lia.
  Qed.

Lemma slot_lt i : (slot i < Z.to_nat sz)%nat.
  Proof. unfold slot. pose proof (Z.mod_pos_bound i sz Hsz). lia. Qed.

Lemma slot_ne i j : 0 < j - i < sz -> slot i <> slot j.
  Proof.
    intros Hij E. unfold slot in E. apply Z2Nat.inj in E; [|apply Z.mod_pos_bound; lia..].
    assert (Hm : (j - i) mod sz = 0) by (rewrite Zminus_mod, E, Z.sub_diag; apply Z.mod_0_l; lia).
    rewrite Z.mod_small in Hm; lia.
  Qed.

  (** A byte after the last. *)
Lemma fifo_push buf r q x :
    ring buf r q -> length buf = Z.to_nat sz -> Z.of_nat (length q) < sz ->
    ring (<[slot (r + Z.of_nat (length q)) := x]> buf) r (q ++ [x]).
  Proof.
    intros R Hb Hq i y. rewrite lookup_app_Some. intros [Hi|[Hge Hi]].
    - pose proof (lookup_lt_Some _ _ _ Hi). rewrite list_lookup_insert_ne; [by apply R|].
      apply not_eq_sym, slot_ne. lia.
    - apply list_lookup_singleton_Some in Hi as [Hi <-]. assert (i = length q) as -> by lia.
      apply list_lookup_insert_eq. rewrite Hb. apply slot_lt.
  Qed.

  (** The first byte. *)
Lemma fifo_take buf r x q :
    ring buf r (x :: q) -> buf !! slot r = Some x /\ ring buf (u32 (r + 1)) q.
  Proof.
    intros R. split.
    - specialize (R 0%nat x eq_refl). by rewrite Z.add_0_r in R.
    - intros i y Hi. specialize (R (S i) y Hi). rewrite <- R. f_equal.
      rewrite <- (slot_u32 (u32 _ + _)), <- (slot_u32 (r + _)). f_equal. unfold u32.
      rewrite Zplus_mod_idemp_l. f_equal. lia.
  Qed.
End fifo.

(** Counters less than 2^32 apart. *)
Lemma counter_diff r n : 0 <= n < 2 ^ 32 -> u32 (u32 (r + n) - r) = n.
Proof. intros Hn. unfold u32. rewrite Zminus_mod_idemp_l. rewrite Z.mod_small; lia. Qed.
Lemma counter_next r n : u32 (u32 (r + n) + 1) = u32 (r + (n + 1)).
Proof. unfold u32. rewrite Zplus_mod_idemp_l. f_equal. lia. Qed.
Lemma counter_eqb r n m : 0 <= n < 2 ^ 32 -> 0 <= m < 2 ^ 32 -> (u32 (r + n) =? u32 (r + m)) = (n =? m).
Proof.
  intros Hn Hm. destruct (n =? m) eqn:E; [apply Z.eqb_eq in E as ->; apply Z.eqb_refl|].
  apply Z.eqb_neq. intros E'. apply Z.eqb_neq in E. apply E.
  rewrite <- (counter_diff r n), <- (counter_diff r m) by done. by rewrite E'.
Qed.
