(* ===== verification/Kbd.v ===== *)
(** kbd.c and kbd.h: the keyboard's scan codes. In this port the status and
    the data of the keyboard are the constant 0, so that [kbdgetc] never gets
    past its first test; the translation that follows it is here as a
    function of the scan code and the modifiers. *)
From stdpp Require Import base numbers list.
From S2P Require Import Prelude.

Set Warnings "-clear-no-such-hyp".

(** *** kbd.h *)
Definition KBD_DIB : Z := 0x01.
Definition SHIFT : Z := Z.shiftl 1 0.
Definition CTL : Z := Z.shiftl 1 1.
Definition ALT : Z := Z.shiftl 1 2.
Definition CAPSLOCK : Z := Z.shiftl 1 3.
Definition NUMLOCK : Z := Z.shiftl 1 4.
Definition SCROLLLOCK : Z := Z.shiftl 1 5.
Definition E0ESC : Z := Z.shiftl 1 6.

(** An array of 256 bytes: the first ones in order, then some by index. *)
Definition table_of (l : list Z) (at_ : list (Z * Z)) : list Z :=
  foldl (fun t p => <[Z.to_nat (fst p) := snd p]> t) (l ++ replicate (256 - length l) 0) at_.

Definition shiftcode : list Z := table_of [] [(0x1D, CTL); (0x2A, SHIFT); (0x36, SHIFT); (0x38, ALT); (0x9D, CTL); (0xB8, ALT)].
Definition togglecode : list Z := table_of [] [(0x3A, CAPSLOCK); (0x45, NUMLOCK); (0x46, SCROLLLOCK)].
Definition normalmap : list Z :=
  table_of
    ([0; 27; 49; 50; 51; 52; 53; 54; 55; 56; 57; 48; 45; 61; 8; 9;
      113; 119; 101; 114; 116; 121; 117; 105; 111; 112; 91; 93; 10; 0; 97; 115;
      100; 102; 103; 104; 106; 107; 108; 59; 39; 96; 0; 92; 122; 120; 99; 118;
      98; 110; 109; 44; 46; 47; 0; 42; 0; 32; 0; 0; 0; 0; 0; 0;
      0; 0; 0; 0; 0; 0; 0; 55; 56; 57; 45; 52; 53; 54; 43; 49;
      50; 51; 48; 46; 0; 0; 0; 0])
    [(0x9C, 10); (0xB5, 47); (0xC8, 226); (0xD0, 227); (0xC9, 230); (0xD1, 231); (0xCB, 228); (0xCD, 229); (0x97, 224); (0xCF, 225); (0xD2, 232); (0xD3, 233)].
Definition shiftmap : list Z :=
  table_of
    ([0; 27; 33; 64; 35; 36; 37; 94; 38; 42; 40; 41; 95; 43; 8; 9;
      81; 87; 69; 82; 84; 89; 85; 73; 79; 80; 123; 125; 10; 0; 65; 83;
      68; 70; 71; 72; 74; 75; 76; 58; 34; 126; 0; 124; 90; 88; 67; 86;
      66; 78; 77; 60; 62; 63; 0; 42; 0; 32; 0; 0; 0; 0; 0; 0;
      0; 0; 0; 0; 0; 0; 0; 55; 56; 57; 45; 52; 53; 54; 43; 49;
      50; 51; 48; 46; 0; 0; 0; 0])
    [(0x9C, 10); (0xB5, 47); (0xC8, 226); (0xD0, 227); (0xC9, 230); (0xD1, 231); (0xCB, 228); (0xCD, 229); (0x97, 224); (0xCF, 225); (0xD2, 232); (0xD3, 233)].
Definition ctlmap : list Z :=
  table_of
    ([0; 0; 0; 0; 0; 0; 0; 0; 0; 0; 0; 0; 0; 0; 0; 0;
      17; 23; 5; 18; 20; 25; 21; 9; 15; 16; 0; 0; 13; 0; 1; 19;
      4; 6; 7; 8; 10; 11; 12; 0; 0; 0; 0; 28; 26; 24; 3; 22;
      2; 14; 13; 0; 0; 239; 0; 0])
    [(0x9C, 13); (0xB5, 239); (0xC8, 226); (0xD0, 227); (0xC9, 230); (0xD1, 231); (0xCB, 228); (0xCD, 229); (0x97, 224); (0xCF, 225); (0xD2, 232); (0xD3, 233)].
Definition charcode : list (list Z) := [normalmap; shiftmap; ctlmap; ctlmap].

(** *** kbdgetc from the data on: the result and [shift] *)
Definition byte_at (t : list Z) (i : Z) : Z := default 0 (t !! Z.to_nat i).
Definition kbd_scan (data shift : Z) : Z * Z :=
  if data =? 0xE0 then (0, Z.lor shift E0ESC) else
  if negb (Z.land data 0x80 =? 0) then
    let data := if negb (Z.land shift E0ESC =? 0) then data else Z.land data 0x7F in
    (0, Z.land shift (u32 (Z.lnot (Z.lor (byte_at shiftcode data) E0ESC))))
  else
  let '(data, shift) :=
    if negb (Z.land shift E0ESC =? 0) then (Z.lor data 0x80, Z.land shift (u32 (Z.lnot E0ESC))) else (data, shift) in
  let shift := Z.lor shift (byte_at shiftcode data) in
  let shift := Z.lxor shift (byte_at togglecode data) in
  let c := byte_at (default [] (charcode !! Z.to_nat (Z.land shift (Z.lor CTL SHIFT)))) data in
  let c :=
    if negb (Z.land shift CAPSLOCK =? 0) then
      if (97 <=? c) && (c <=? 122) then c + (65 - 97)
      else if (65 <=? c) && (c <=? 90) then c + (97 - 65) else c
    else c in
  (c, shift).

(** The whole routine. *)
Definition kbdgetc_full (shift : Z) : Z * Z :=
  let st := 0 in
  if Z.land st KBD_DIB =? 0 then (-1, shift) else
  let data := 0 in
  kbd_scan data shift.

Lemma kbdgetc_none shift : kbdgetc_full shift = (-1, shift).
Proof. done. Qed.

(** ** What the tables give *)

(** A series of codes: the characters (0 for none) and the modifiers. *)
Fixpoint scans (l : list Z) (shift : Z) : list Z * Z :=
  match l with
  | [] => ([], shift)
  | d :: l => let '(c, shift) := kbd_scan d shift in let '(cs, shift) := scans l shift in (c :: cs, shift)
  end.

(** Pressing and releasing a modifier, of either side, in any state of the
    locks, leaves the others as they are and itself off. *)
Definition modifiers : list (list Z * Z) := [([0x2A], SHIFT); ([0x36], SHIFT); ([0x1D], CTL); ([0x38], ALT); ([0xE0; 0x1D], CTL); ([0xE0; 0x38], ALT)].
Definition key_up (l : list Z) : list Z := (fun d => if d =? 0xE0 then d else Z.lor d 0x80) <$> l.

Lemma press_release k bit s :
  (k, bit) ∈ modifiers -> 0 <= s < 64 ->
  snd (scans k s) = Z.lor s bit /\ snd (scans (k ++ key_up k) s) = Z.land s (Z.lnot bit).
Proof.
  intros Hk Hs. assert (Hall : Forall (fun kb => Forall (fun n =>
    snd (scans (fst kb) (Z.of_nat n)) = Z.lor (Z.of_nat n) (snd kb) /\
    snd (scans (fst kb ++ key_up (fst kb)) (Z.of_nat n)) = Z.land (Z.of_nat n) (Z.lnot (snd kb))) (seq 0 64)) modifiers).
  { apply (bool_decide_unpack _). by vm_compute. }
  rewrite Forall_forall in Hall. specialize (Hall _ Hk). rewrite Forall_forall in Hall. specialize (Hall (Z.to_nat s)).
  cbn [fst snd] in Hall. rewrite Z2Nat.id in Hall by lia. apply Hall. apply elem_of_seq. lia.
Qed.

(** Shift and caps lock both turn the letters to capitals, together they
    cancel out. *)
Lemma letters data s :
  0 <= data < 128 -> In (fst (kbd_scan data 0)) (Z.of_nat <$> seq 97 26) -> In s [SHIFT; CAPSLOCK; Z.lor SHIFT CAPSLOCK] ->
  fst (kbd_scan data s) = fst (kbd_scan data 0) - if decide (s = Z.lor SHIFT CAPSLOCK) then 0 else 32.
Proof.
  intros Hd Hl Hs. assert (Hall : Forall (fun n => fst (kbd_scan (Z.of_nat n) 0) ∈ Z.of_nat <$> seq 97 26 ->
    Forall (fun s => fst (kbd_scan (Z.of_nat n) s) = fst (kbd_scan (Z.of_nat n) 0) - if decide (s = Z.lor SHIFT CAPSLOCK) then 0 else 32) [SHIFT; CAPSLOCK; Z.lor SHIFT CAPSLOCK]) (seq 0 128)).
  { apply (bool_decide_unpack _). by vm_compute. }
  rewrite Forall_forall in Hall. specialize (Hall (Z.to_nat data)). cbv zeta in Hall. rewrite Z2Nat.id in Hall by lia.
  apply list_elem_of_In in Hl, Hs. specialize (Hall ltac:(apply elem_of_seq; lia) Hl). rewrite Forall_forall in Hall. by apply Hall.
Qed.
