(* ===== verification/Console.v ===== *)
(** The console: console.c (cprintf, the line editor of consoleintr,
    consoleread, consolewrite), uart.c, kbd.c's interrupt routine and proc.c's
    procdump. The input buffer is proved to implement a queue of committed
    bytes and a line being edited. *)
From stdpp Require Import base numbers list strings.
From S2P Require Import Prelude Params Spinlock Sched Str Printf Fifo.

(** *** [cons], [panicked], [input] (console.c), [uart] (uart.c) and the serial
    port's registers: the bytes stored into [txd], and the values that reads
    of [rxd] will give (0 when the device has nothing more). *)
Record cst := Cst {
  c_base : base;
  cons_lock : spinlock;
  cons_locking : Z;
  panicked : Z;
  in_lock : spinlock;
  in_buf : list Z;
  in_r : Z;
  in_w : Z;
  in_e : Z;
  uart : Z;
  sci_cfg : Z;
  sci_txd : list Z;
  sci_rxd : list Z;
}.

Definition INPUT_BUF : Z := 128.
Definition BACKSPACE : Z := 0x100.
(** [C(x)] for a letter of the given code. *)
Definition Ctl (x : Z) : Z := x - 64.

Definition set_input (buf : list Z) (r w e : Z) (s : cst) : cst :=
  Cst (c_base s) (cons_lock s) (cons_locking s) (panicked s) (in_lock s) buf r w e
    (uart s) (sci_cfg s) (sci_txd s) (sci_rxd s).
Definition set_sci (u cfg : Z) (tx rx : list Z) (s : cst) : cst :=
  Cst (c_base s) (cons_lock s) (cons_locking s) (panicked s) (in_lock s) (in_buf s) (in_r s) (in_w s) (in_e s)
    u cfg tx rx.

Definition cst_base : Lens cst base.
Proof.
  refine {| lget := c_base;
            lset b s := Cst b (cons_lock s) (cons_locking s) (panicked s) (in_lock s) (in_buf s) (in_r s)
              (in_w s) (in_e s) (uart s) (sci_cfg s) (sci_txd s) (sci_rxd s) |}; [done|by intros []|done].
Defined.
Definition console_lock : Lens cst (cpu * spinlock).
Proof.
  refine {| lget s := (b_cpu (c_base s), cons_lock s);
            lset t s := Cst (Base (fst t) (b_lock (c_base s)) (b_procs (c_base s))) (snd t) (cons_locking s)
              (panicked s) (in_lock s) (in_buf s) (in_r s) (in_w s) (in_e s) (uart s) (sci_cfg s)
              (sci_txd s) (sci_rxd s) |}; [by intros []|by intros [[]]|done].
Defined.
Definition input_lock : Lens cst (cpu * spinlock).
Proof.
  refine {| lget s := (b_cpu (c_base s), in_lock s);
            lset t s := Cst (Base (fst t) (b_lock (c_base s)) (b_procs (c_base s))) (cons_lock s)
              (cons_locking s) (panicked s) (snd t) (in_buf s) (in_r s) (in_w s) (in_e s) (uart s)
              (sci_cfg s) (sci_txd s) (sci_rxd s) |}; [by intros []|by intros [[]]|done].
Defined.

(** *** uart.c *)
Definition uartputc (c : Z) : M cst unit :=
  s <- get ;;
  if uart s =? 0 then ret tt else
  modify (fun s => set_sci (uart s) (sci_cfg s) (sci_txd s ++ [u8 c]) (sci_rxd s) s).

Definition read_rxd : M cst Z :=
  s <- get ;;
  match sci_rxd s with
  | [] => ret 0
  | x :: rx => modify (set_sci (uart s) (sci_cfg s) (sci_txd s) rx) ;;; ret x
  end.

Definition uartgetc : M cst Z :=
  s <- get ;;
  if uart s =? 0 then ret (-1) else
  c <- read_rxd ;;
  if negb (Z.land c 0x80000000 =? 0) then ret (u8 (Z.land c 0xff)) else ret (-1).

Definition SCICFG_TEN : Z := 0x1.
Definition SCICFG_REN : Z := 0x2.
Definition SCICFG_BDR_OFFSET : Z := 2.
Definition SCICFG_TIRE_OFFSET : Z := 6.
Definition SCICFG_RIRE_OFFSET : Z := 9.

Definition uartinit : M cst unit :=
  let cfg := Z.shiftl 1 SCICFG_BDR_OFFSET in
  let cfg := Z.lor cfg (Z.lor SCICFG_TEN SCICFG_REN) in
  let cfg := Z.lor cfg (Z.lor (Z.shiftl 1 SCICFG_TIRE_OFFSET) (Z.shiftl 1 SCICFG_RIRE_OFFSET)) in
  modify (fun s => set_sci (uart s) cfg (sci_txd s) (sci_rxd s) s) ;;;
  modify (fun s => set_sci 1 (sci_cfg s) (sci_txd s) (sci_rxd s) s) ;;;
  each uartputc (text "xv6..." ++ [10]).

(** *** cgaputc: its body is commented out. *)
Definition cgaputc (c : Z) : M cst unit := ret tt.

(** *** consputc; ['\b'] is 8. *)
Definition consputc (c : Z) : M cst unit :=
  s <- get ;;
  if negb (panicked s =? 0) then diverge else
  (if c =? BACKSPACE then uartputc 8 ;;; uartputc 32 ;;; uartputc 8 else uartputc c) ;;;
  cgaputc c.

(** *** printint, cprintf *)
Definition lower : list Z := [48; 49; 50; 51; 52; 53; 54; 55; 56; 57; 97; 98; 99; 100; 101; 102].
Definition kprintint (xx base sign : Z) : M cst unit := printint_with lower consputc xx base sign.

Fixpoint cprintf_from (fmt : list Z) (args : list arg) : M cst unit :=
  match fmt with
  | [] => ret tt
  | c :: fmt =>
      if negb (c =? 37) then consputc c ;;; cprintf_from fmt args else
      match fmt with
      | [] => ret tt
      | c :: fmt =>
          if c =? 100 then
            match args with
            | AInt x :: args => kprintint (s32 x) 10 1 ;;; cprintf_from fmt args
            | _ => fault
            end
          else if (c =? 120) || (c =? 112) then
            match args with
            | AInt x :: args => kprintint (s32 x) 16 0 ;;; cprintf_from fmt args
            | _ => fault
            end
          else if c =? 115 then
            match args with
            | AStr s :: args => each consputc (default null_text s) ;;; cprintf_from fmt args
            | _ => fault
            end
          else if c =? 37 then consputc 37 ;;; cprintf_from fmt args
          else consputc 37 ;;; consputc c ;;; cprintf_from fmt args
      end
  end.

(** [fmt] is [None] for a null pointer. *)
Definition cprintf (fmt : option (list Z)) (args : list arg) : M cst unit :=
  s <- get ;;
  let locking := cons_locking s in
  when (negb (locking =? 0)) (zoom (L := console_lock) acquire) ;;;
  match fmt with
  | None => panic "null fmt"
  | Some fmt => cprintf_from fmt args
  end ;;;
  when (negb (locking =? 0)) (zoom (L := console_lock) release).

(** *** panic: the words of [pcs], whose filling in is commented out, are
    whatever is on the stack *)
Fixpoint panic_pcs (pcs : list Z) : M cst unit :=
  match pcs with
  | [] => ret tt
  | pc :: pcs => cprintf (Some (text " %p")) [AInt pc] ;;; panic_pcs pcs
  end.
Definition panic_print (msg : list Z) (pcs : list Z) : M cst unit :=
  modify (fun s => Cst (Base (let c := b_cpu (c_base s) in Cpu (cpu_id c) (ncli c) (intena c) false (cproc c)) (b_lock (c_base s)) (b_procs (c_base s)))
    (cons_lock s) 0 (panicked s) (in_lock s) (in_buf s) (in_r s) (in_w s) (in_e s) (uart s) (sci_cfg s) (sci_txd s) (sci_rxd s)) ;;;
  s <- get ;;
  cprintf (Some (text "cpu%d: panic: ")) [AInt (cpu_id (b_cpu (c_base s)))] ;;;
  cprintf (Some msg) [] ;;;
  cprintf (Some [10]) [] ;;;
  panic_pcs (take 10 pcs) ;;;
  modify (fun s => Cst (c_base s) (cons_lock s) (cons_locking s) 1 (in_lock s) (in_buf s) (in_r s) (in_w s) (in_e s) (uart s) (sci_cfg s) (sci_txd s) (sci_rxd s)).
Definition panic_halt {A} (msg pcs : list Z) : M cst A := panic_print msg pcs ;;; diverge.

(** *** procdump (proc.c) *)
Definition state_name (st : procstate) : string :=
  match st with
  | UNUSED => "unused" | EMBRYO => "embryo" | SLEEPING => "sleep "
  | RUNNABLE => "runble" | RUNNING => "run   " | ZOMBIE => "zombie"
  end.

(** [for(i=0; i<10 && pc[i] != 0; i++)] *)
Fixpoint dump_pcs (pcs : list Z) : M cst unit :=
  match pcs with
  | [] => ret tt
  | pc :: pcs => if pc =? 0 then ret tt else cprintf (Some (text " %p")) [AInt pc] ;;; dump_pcs pcs
  end.

Fixpoint dump_procs (ps : list proc) : M cst unit :=
  match ps with
  | [] => ret tt
  | p :: ps =>
      (if bool_decide (p_state p = UNUSED) then ret tt else
       cprintf (Some (text "%d %s %s"))
         [AInt (p_pid p); AStr (Some (text (state_name (p_state p)))); AStr (Some (upto0 (p_name p)))] ;;;
       (if bool_decide (p_state p = SLEEPING) then dump_pcs getcallerpcs else ret tt) ;;;
       cprintf (Some [10]) []) ;;;
      dump_procs ps
  end.
Definition procdump : M cst unit := s <- get ;; dump_procs (b_procs (c_base s)).

(** *** consoleintr *)

(** [input.buf[i % INPUT_BUF]] *)
Definition buf_at (i : Z) : M cst Z := s <- get ;; some (in_buf s !! Z.to_nat (i mod INPUT_BUF)).

Definition set_e (e : Z) : M cst unit := modify (fun s => set_input (in_buf s) (in_r s) (in_w s) (u32 e) s).

Fixpoint kill_line (fuel : nat) : M cst unit :=
  match fuel with
  | O => diverge
  | S fuel =>
      s <- get ;;
      if in_e s =? in_w s then ret tt else
      c <- buf_at (u32 (in_e s - 1)) ;;
      if c =? 10 then ret tt else
      set_e (in_e s - 1) ;;;
      consputc BACKSPACE ;;;
      kill_line fuel
  end.

(** One character. *)
Definition console_char (c : Z) : M cst unit :=
  if c =? Ctl 80 then procdump
  else if c =? Ctl 85 then s <- get ;; kill_line (S (Z.to_nat (u32 (in_e s - in_w s))))
  else if (c =? Ctl 72) || (c =? 0x7f) then
    s <- get ;;
    if negb (in_e s =? in_w s) then set_e (in_e s - 1) ;;; consputc BACKSPACE else ret tt
  else
    s <- get ;;
    if negb (c =? 0) && (u32 (in_e s - in_r s) <? INPUT_BUF) then
      let c := if c =? 13 then 10 else c in
      modify (fun s => set_input (<[Z.to_nat (in_e s mod INPUT_BUF) := u8 c]> (in_buf s)) (in_r s) (in_w s)
                         (u32 (in_e s + 1)) s) ;;;
      consputc c ;;;
      s <- get ;;
      if (c =? 10) || (c =? Ctl 68) || (in_e s =? u32 (in_r s + INPUT_BUF)) then
        modify (fun s => set_input (in_buf s) (in_r s) (in_e s) (in_e s) s) ;;;
        zoom (L := cst_base) (wakeup ChInput)
      else ret tt
    else ret tt.

Fixpoint console_chars (fuel : nat) (getc : M cst Z) : M cst unit :=
  match fuel with
  | O => diverge
  | S fuel =>
      c <- getc ;;
      if negb (c >=? 0) then ret tt else
      console_char c ;;;
      console_chars fuel getc
  end.

Definition consoleintr (getc : M cst Z) : M cst unit :=
  zoom (L := input_lock) acquire ;;;
  s <- get ;;
  console_chars (S (length (sci_rxd s))) getc ;;;
  zoom (L := input_lock) release.

Definition uartintr : M cst unit := consoleintr uartgetc.

(** *** kbd.c: the status is the constant 0, so the rest of [kbdgetc] is never
    reached. *)
Definition KBS_DIB : Z := 0x01.
Definition kbdgetc : M cst Z := let st := 0 in if Z.land st KBS_DIB =? 0 then ret (-1) else fault.
Definition kbdintr : M cst unit := consoleintr kbdgetc.

(** *** consoleread, consolewrite, consoleinit

    [iunlock] and [ilock] are fs.c's on the inode the call is for, in a state
    that contains the console's. *)
Section device.
  Context {St : Type} (CL : Lens St cst) (iunlock ilock : M St unit).

Definition st_base : Lens St base.
  Proof.
    refine {| lget s := c_base (lget s); lset b s := lset (lset (Lens := cst_base) b (lget s)) s |}.
    - intros. by rewrite lget_lset.
    - intros s. assert (lset (Lens := cst_base) (c_base (lget s)) (lget s) = lget s) as -> by (by destruct (lget s)).
      apply lset_lget.
    - intros. by rewrite lset_lset, lget_lset.
  Defined.
Definition st_lock : Lens St (cpu * spinlock).
  Proof.
    refine {| lget s := lget (Lens := input_lock) (lget s); lset b s := lset (lset (Lens := input_lock) b (lget s)) s |}.
    - intros. rewrite lget_lset. apply lget_lset.
    - intros s. rewrite (lset_lget (Lens := input_lock)). apply lset_lget.
    - intros. by rewrite lset_lset, lget_lset, (lset_lset (Lens := input_lock)).
  Defined.

  (** [while(input.r == input.w)]: the process was killed, or there is input. *)
Fixpoint wait_input (fuel : nat) : M St bool :=
    match fuel with
    | O => diverge
    | S fuel =>
        s <- gets (lget (Lens := CL)) ;;
        if negb (in_r s =? in_w s) then ret false else
        i <- some (cproc (b_cpu (c_base s))) ;;
        p <- some (b_procs (c_base s) !! i) ;;
        if negb (p_killed p =? 0) then ret true else
        sleep st_base ChInput (Some st_lock) ;;;
        wait_input fuel
    end.

  (** The loop returns [None] when the process was killed, or the bytes read. *)
Fixpoint read_chars (n : nat) (target : nat) (dst : list Z) : M St (option (list Z)) :=
    match n with
    | O => ret (Some dst)
    | S n' =>
        killed <- wait_input wakeups ;;
        if killed : bool then ret None else
        c <- zoom (L := CL) (s <- get ;; c <- buf_at (in_r s) ;;
               modify (fun s => set_input (in_buf s) (u32 (in_r s + 1)) (in_w s) (in_e s) s) ;;; ret c) ;;
        if c =? Ctl 68 then
          (if decide (n < target)%nat
           then zoom (L := CL) (modify (fun s => set_input (in_buf s) (u32 (in_r s - 1)) (in_w s) (in_e s) s))
           else ret tt) ;;;
          ret (Some dst)
        else
          let dst := dst ++ [c] in
          if c =? 10 then ret (Some dst) else read_chars n' target dst
    end.

Definition consoleread (n : Z) : M St (Z * list Z) :=
    iunlock ;;;
    zoom (L := CL) (zoom (L := input_lock) acquire) ;;;
    r <- read_chars (Z.to_nat n) (Z.to_nat n) [] ;;
    zoom (L := CL) (zoom (L := input_lock) release) ;;;
    ilock ;;;
    match r with
    | None => ret (-1, [])
    | Some dst => ret (Z.of_nat (length dst), dst)
    end.

Definition consolewrite (buf : list Z) (n : Z) : M St Z :=
    iunlock ;;;
    zoom (L := CL) (zoom (L := console_lock) acquire) ;;;
    zoom (L := CL) (each (fun c => consputc (Z.land c 0xff)) (take (Z.to_nat n) buf)) ;;;
    zoom (L := CL) (zoom (L := console_lock) release) ;;;
    ilock ;;;
    ret n.
End device.

Definition consoleinit : M cst unit :=
  modify (fun s => Cst (c_base s) (initlock "console" (cons_lock s)) (cons_locking s) (panicked s)
    (initlock "input" (in_lock s)) (in_buf s) (in_r s) (in_w s) (in_e s) (uart s) (sci_cfg s)
    (sci_txd s) (sci_rxd s)) ;;;
  modify (fun s => Cst (c_base s) (cons_lock s) 1 (panicked s) (in_lock s) (in_buf s) (in_r s)
    (in_w s) (in_e s) (uart s) (sci_cfg s) (sci_txd s) (sci_rxd s)).

(** ** Output *)

(** The interrupt routine at work: it holds [input.lock], nobody holds the
    console's or the process table's. *)
Record work (c : cpu) (s : cst) : Prop := {
  wk_cpu : b_cpu (c_base s) = cli c;
  wk_ncli : 0 <= ncli c;
  wk_cons : free (cons_lock s);
  wk_ptable : free (b_lock (c_base s));
  wk_panic : panicked s = 0;
}.

(** What printing leaves alone. *)
Definition keeps (s s' : cst) : Prop :=
  in_buf s' = in_buf s /\ in_r s' = in_r s /\ in_w s' = in_w s /\ in_e s' = in_e s /\
  in_lock s' = in_lock s /\ sci_rxd s' = sci_rxd s /\ uart s' = uart s.
#[export] Instance keeps_preorder : PreOrder keeps.
Proof. split; [intros ?; by split_and!|]. unfold keeps. intros ??? (?&?&?&?&?&?&?) (?&?&?&?&?&?&?). split_and!; congruence. Qed.

(** A computation that only sends bytes to the serial port. *)
Definition sent (tx : list Z) (s : cst) : cst := set_sci (uart s) (sci_cfg s) tx (sci_rxd s) s.
Definition emits (m : M cst unit) : Prop :=
  forall s, panicked s = 0 -> exists tx, m s = Ok tt (sent tx s).

Lemma emits_ret : emits (ret tt).
Proof. intros [] _. by eexists. Qed.
Lemma emits_bind m k : emits m -> emits k -> emits (m ;;; k).
Proof.
  intros Hm Hk s Hs. destruct (Hm s Hs) as [tx E]. rewrite (bind_ok _ _ _ _ _ E).
  destruct (Hk (sent tx s) Hs) as [tx' E']. by exists tx'.
Qed.
Lemma emits_each f l : (forall x, emits (f x)) -> emits (each f l).
Proof. intros Hf. induction l as [|x l IH]; cbn [each]; [apply emits_ret|]. by apply emits_bind. Qed.

Lemma emits_uartputc x : emits (uartputc x).
Proof.
  intros s _. unfold uartputc. erewrite bind_ok by reflexivity. destruct (uart s =? 0); [|by eexists].
  exists (sci_txd s). by destruct s.
Qed.
Lemma emits_consputc x : emits (consputc x).
Proof.
  intros s Hs. unfold consputc. erewrite bind_ok by reflexivity. rewrite Hs. change (negb (0 =? 0)) with false. cbv iota.
  apply emits_bind; [|apply emits_ret|done].
  destruct (x =? BACKSPACE); [repeat apply emits_bind|]; apply emits_uartputc.
Qed.
Lemma emits_kprintint xx b sgn : b = 10 \/ b = 16 -> emits (kprintint xx b sgn).
Proof.
  intros Hb s Hs. unfold kprintint. rewrite printint_with_run by (simpl; lia).
  by apply (emits_each consputc _ emits_consputc).
Qed.
#[export] Hint Resolve emits_ret emits_bind emits_each emits_consputc emits_kprintint : kernel.

(** A computation that prints under [cons.lock]. *)
Definition prints (m : M cst unit) : Prop :=
  forall c s, work c s -> wp m (fun _ s' => work c s' /\ keeps s s') s.

Lemma prints_bind m k : prints m -> prints k -> prints (m ;;; k).
Proof.
  intros Hm Hk c s W. apply wp_bind. wp_call (Hm c s W). intros _ s1 [W1 K1].
  wp_call (Hk c s1 W1). intros _ s2 [W2 K2]. split; [done|by transitivity s1].
Qed.
Lemma prints_emits m : emits m -> prints m.
Proof.
  intros Hm c s W. destruct (Hm s (wk_panic _ _ W)) as [tx E]. eapply outcome_wp; [exact E|].
  destruct W. by split.
Qed.
Lemma prints_cprintf fmt args : emits (cprintf_from fmt args) -> prints (cprintf (Some fmt) args).
Proof.
  intros Hp c s W. unfold cprintf. wp_step. wp_step. destruct (negb (cons_locking s =? 0)); cbn [when].
  2:{ apply (prints_bind (ret tt) _ (prints_emits _ emits_ret)); [|done].
      apply prints_bind; apply prints_emits; [done|apply emits_ret]. }
  pose proof (wk_ncli _ _ W) as Hn. destruct s as [[cp pl ps] cl lck pan il ib r w e u cf tx rx].
  destruct W as [Wc _ Wl Wp Wn]. cbn in Wc, Wl, Wp, Wn. subst cp. apply wp_bind.
  eapply outcome_wp; [apply zoom_ok, acquire_ok; exact Wl|]. cbn [lset console_lock fst snd].
  apply wp_bind. edestruct Hp as [tx' E]; [|eapply outcome_wp; [exact E|]]; [exact Wn|].
  eapply outcome_wp; [apply zoom_ok, release_taken; simpl; lia|]. split; [|done].
  split; [exact (quiet_cli c Hn)|done|apply free_dropped|done|done].
Qed.

Lemma prints_procdump : prints procdump.
Proof.
  assert (Hd : forall ps, prints (dump_procs ps)).
  { induction ps as [|p ps IH]; cbn [dump_procs]; [apply prints_emits, emits_ret|].
    apply prints_bind; [|done]. destruct (bool_decide (p_state p = UNUSED)); [apply prints_emits, emits_ret|].
    apply prints_bind; [|apply prints_bind].
    - apply prints_cprintf. change (text "%d %s %s") with [37; 100; 32; 37; 115; 32; 37; 115].
      cbn [cprintf_from Z.eqb Pos.eqb negb orb]. auto 10 with kernel.
    - destruct (bool_decide _); apply prints_emits, emits_ret.
    - apply prints_cprintf. cbn [cprintf_from Z.eqb Pos.eqb negb orb]. auto with kernel. }
  intros c s W. unfold procdump. wp_step. wp_step. by apply Hd.
Qed.

(** ** The line editor *)

(** [q] is committed input not read yet, [l] the line being edited. *)
Record in_rel (s : cst) (q l : list Z) : Prop := {
  ir_len : length (in_buf s) = Z.to_nat INPUT_BUF;
  ir_r : is_u32 (in_r s);
  ir_w : in_w s = u32 (in_r s + Z.of_nat (length q));
  ir_e : in_e s = u32 (in_r s + Z.of_nat (length (q ++ l)));
  ir_room : (length (q ++ l) <= 128)%nat;
  ir_line : Forall (fun c => c <> 10) l;
  ir_buf : forall i x, (q ++ l) !! i = Some x ->
    in_buf s !! Z.to_nat ((in_r s + Z.of_nat i) mod INPUT_BUF) = Some x;
}.

Lemma in_rel_keeps s s' q l : in_rel s q l -> keeps s s' -> in_rel s' q l.
Proof.
  intros [H1 H2 H3 H4 H5 H6 H7] (E1 & E2 & E3 & E4 & _).
  split; rewrite ?E1, ?E2, ?E3, ?E4; done.
Qed.

(** What typing a character does to them. *)
Definition edit (ql : list Z * list Z) (c : Z) : list Z * list Z :=
  let '(q, l) := ql in
  if c =? Ctl 80 then (q, l)
  else if c =? Ctl 85 then (q, [])
  else if (c =? Ctl 72) || (c =? 0x7f) then (q, removelast l)
  else if negb (c =? 0) && bool_decide (length (q ++ l) < 128)%nat then
    let c := if c =? 13 then 10 else c in
    let l := l ++ [c] in
    if (c =? 10) || (c =? Ctl 68) || bool_decide (length (q ++ l) = 128)%nat then (q ++ l, []) else (q, l)
  else (q, l).

Lemma input_divides : (INPUT_BUF | 2 ^ 32).
Proof. by exists (2 ^ 25). Qed.
Lemma mod_u32 x : u32 x mod INPUT_BUF = x mod INPUT_BUF.
Proof.
  pose proof (slot_u32 INPUT_BUF eq_refl input_divides x) as E. unfold slot in E.
  apply Z2Nat.inj in E; [done|apply Z.mod_pos_bound; done..].
Qed.

Lemma in_rel_diff s q l : in_rel s q l ->
  u32 (in_e s - in_w s) = Z.of_nat (length l) /\ u32 (in_e s - in_r s) = Z.of_nat (length (q ++ l)) /\
  (in_e s =? in_w s) = bool_decide (l = []).
Proof.
  intros H. pose proof (ir_room _ _ _ H). rewrite length_app in *.
  assert (Hl : u32 (in_e s - in_w s) = Z.of_nat (length l)).
  { rewrite (ir_e _ _ _ H), (ir_w _ _ _ H), length_app. unfold u32. rewrite <- Zminus_mod, Z.mod_small; lia. }
  split_and!; [done| |].
  - rewrite (ir_e _ _ _ H), length_app. unfold u32. rewrite Zminus_mod_idemp_l, Z.mod_small; lia.
  - case_bool_decide as El.
    + subst l. apply Z.eqb_eq. rewrite (ir_e _ _ _ H), (ir_w _ _ _ H), app_nil_r. done.
    + apply Z.eqb_neq. intros E. rewrite E, Z.sub_diag in Hl. change (u32 0) with 0 in Hl.
      destruct l; [done|simpl in Hl; lia].
Qed.

(** The last character of the line goes. *)
Lemma in_rel_pop s q l x : in_rel s q (l ++ [x]) ->
  in_buf s !! Z.to_nat (u32 (in_e s - 1) mod INPUT_BUF) = Some x /\
  in_rel (set_input (in_buf s) (in_r s) (in_w s) (u32 (in_e s - 1)) s) q l.
Proof.
  intros H. pose proof (ir_room _ _ _ H) as Hr. rewrite app_assoc, length_app in Hr. simpl in Hr.
  assert (He : u32 (in_e s - 1) = u32 (in_r s + Z.of_nat (length (q ++ l)))).
  { rewrite (ir_e _ _ _ H), app_assoc, length_app. cbn [length]. unfold u32. rewrite Zminus_mod_idemp_l. f_equal. lia. }
  rewrite He, mod_u32. split.
  - apply (ir_buf _ _ _ H). rewrite app_assoc, lookup_app_r, Nat.sub_diag by lia. done.
  - destruct H as [H1 H2 H3 H4 H5 H6 H7]. split; cbn; try done; [lia| |].
    + by apply Forall_app in H6 as [? _].
    + intros i y Hi. apply H7. rewrite app_assoc. by apply lookup_app_l_Some.
Qed.

(** A character stored at the end. *)
Lemma push_buf s q l x i y :
  in_rel s q l -> (length (q ++ l) < 128)%nat -> (q ++ l ++ [x]) !! i = Some y ->
  <[Z.to_nat (in_e s mod INPUT_BUF) := x]> (in_buf s) !! Z.to_nat ((in_r s + Z.of_nat i) mod INPUT_BUF) = Some y.
Proof.
  intros R Hlt. rewrite app_assoc, (ir_e _ _ _ R), mod_u32.
  apply (fifo_push INPUT_BUF eq_refl (in_buf s) (in_r s) (q ++ l) x (ir_buf _ _ _ R) (ir_len _ _ _ R)).
  unfold INPUT_BUF. lia.
Qed.

Lemma in_rel_end s q l x : in_rel s q l ->
  u32 (in_e s + 1) = u32 (in_r s + Z.of_nat (length (q ++ l ++ [x]))).
Proof.
  intros R. rewrite (ir_e _ _ _ R), app_assoc, (length_app (q ++ l)). cbn [length].
  unfold u32. rewrite Zplus_mod_idemp_l. f_equal. lia.
Qed.

(** It stays in the line, or everything is committed. *)
Lemma in_rel_push s q l x s' :
  in_rel s q l -> (length (q ++ l) < 128)%nat ->
  in_buf s' = <[Z.to_nat (in_e s mod INPUT_BUF) := x]> (in_buf s) -> in_r s' = in_r s ->
  in_e s' = u32 (in_e s + 1) ->
  (in_w s' = in_w s -> x <> 10 -> in_rel s' q (l ++ [x])) /\
  (in_w s' = u32 (in_e s + 1) -> in_rel s' (q ++ l ++ [x]) []).
Proof.
  intros R Hlt Eb Er Ee. pose proof R as [H1 H2 H3 H4 H5 H6 H7].
  assert (length (q ++ l ++ [x]) <= 128)%nat by (rewrite app_assoc, length_app; simpl; lia).
  split; intros Ew; [intros Hx|]; split; rewrite ?app_nil_r, ?Eb, ?Er, ?Ee, ?Ew, ?length_insert;
    try done; try (by apply in_rel_end); try (intros i y Hi; by apply (push_buf s q l)).
  apply Forall_app. split; [done|]. apply Forall_cons. split; [done|by apply Forall_nil].
Qed.

Definition dev_same (s s' : cst) : Prop :=
  in_lock s' = in_lock s /\ sci_rxd s' = sci_rxd s /\ uart s' = uart s.
Lemma keeps_dev s s' : keeps s s' -> dev_same s s'.
Proof. intros (_ & _ & _ & _ & ? & ? & ?). by split_and!. Qed.
#[export] Instance dev_same_preorder : PreOrder dev_same.
Proof. split; [intros ?; by split_and!|]. intros ??? (?&?&?) (?&?&?). split_and!; congruence. Qed.

Lemma work_input c s buf r w e : work c s -> work c (set_input buf r w e s).
Proof. intros []. by split. Qed.

Lemma wp_consputc c s x (Q : unit -> cst -> Prop) :
  work c s -> (forall s', work c s' -> keeps s s' -> Q tt s') -> wp (consputc x) Q s.
Proof.
  intros W HQ. wp_call (prints_emits _ (emits_consputc x) c s W). intros [] s' [W' K]. by apply HQ.
Qed.

Lemma wp_kill_line c q l : forall n s, (length l < n)%nat -> work c s -> in_rel s q l ->
  wp (kill_line n) (fun _ s' => work c s' /\ in_rel s' q [] /\ dev_same s s') s.
Proof.
  induction l as [|x l IH] using rev_ind; intros [|n] s Hn W R; try (simpl in Hn; lia); cbn [kill_line];
    destruct (in_rel_diff _ _ _ R) as (_ & _ & He); wp_step; wp_step; rewrite He.
  - rewrite bool_decide_eq_true_2 by done. apply wp_ret. by split_and!.
  - rewrite bool_decide_eq_false_2 by (by destruct l). destruct (in_rel_pop _ _ _ _ R) as [Hx R'].
    apply wp_bind. unfold buf_at. wp_step. wp_step. eapply wp_some; [exact Hx|].
    assert (x <> 10) by (pose proof (ir_line _ _ _ R) as HF; apply Forall_app in HF as [_ [? _]%Forall_cons]; done).
    destruct (x =? 10) eqn:E; [lia|]. apply wp_bind. apply wp_modify. apply wp_bind.
    eapply wp_consputc; [by apply work_input|]. intros s' W' K.
    rewrite length_app in Hn. simpl in Hn. wp_call (IH n s'); [lia|done|by eapply in_rel_keeps|].
    intros _ s2 (W2 & R2 & D2). split_and!; try done. etransitivity; [|exact D2].
    apply keeps_dev in K. exact K.
Qed.

Lemma wp_console_char c s q l ch :
  work c s -> in_rel s q l -> is_u8 ch ->
  wp (console_char ch) (fun _ s' => work c s' /\ in_rel s' (edit (q, l) ch).1 (edit (q, l) ch).2 /\ dev_same s s') s.
Proof.
  intros W R Hch. unfold console_char, edit. destruct (in_rel_diff _ _ _ R) as (Hew & Her & Heq).
  destruct (ch =? Ctl 80).
  { wp_call (prints_procdump c s W). intros _ s' [W' K]. split_and!; [done|by eapply in_rel_keeps|by apply keeps_dev]. }
  destruct (ch =? Ctl 85).
  { wp_step. wp_step. rewrite Hew, Nat2Z.id. apply (wp_kill_line c q l); [lia|done|done]. }
  destruct ((ch =? Ctl 72) || (ch =? 0x7f)).
  { wp_step. wp_step. rewrite Heq. destruct l as [|x l _] using rev_ind.
    - rewrite bool_decide_eq_true_2 by done. apply wp_ret. by split_and!.
    - rewrite bool_decide_eq_false_2 by (by destruct l). cbn [negb]. rewrite removelast_last.
      destruct (in_rel_pop _ _ _ _ R) as [_ R']. apply wp_bind. apply wp_modify.
      eapply wp_consputc; [by apply work_input|]. intros s' W' K.
      split_and!; [done|by eapply in_rel_keeps|exact (keeps_dev _ _ K)]. }
  clear Heq. wp_step. wp_step. rewrite Her.
  assert (Hb : (Z.of_nat (length (q ++ l)) <? INPUT_BUF) = bool_decide (length (q ++ l) < 128)%nat).
  { unfold INPUT_BUF. case_bool_decide; [apply Z.ltb_lt|apply Z.ltb_ge]; lia. }
  rewrite Hb. clear Hb. destruct (negb (ch =? 0) && _) eqn:Eg; [|apply wp_ret; by split_and!].
  apply andb_prop in Eg as [_ Hroom%bool_decide_eq_true].
  set (x := if ch =? 13 then 10 else ch). assert (Hx8 : u8 x = x) by (apply u8_id; unfold x, is_u8 in *; destruct (ch =? 13); lia).
  apply wp_bind. apply wp_modify. rewrite Hx8.
  set (s1 := set_input _ _ _ _ s). apply wp_bind. eapply (wp_consputc c s1); [by apply work_input|]. intros s2 W2 K2.
  wp_step. wp_step. destruct K2 as (K1 & K2 & K3 & K4 & K5 & K6 & K7). rewrite K2, K4.
  assert (Hfull : (in_e s1 =? u32 (in_r s1 + INPUT_BUF)) = bool_decide (length (q ++ l ++ [x]) = 128)%nat).
  { rewrite app_assoc, length_app. simpl. rewrite (ir_e _ _ _ R). unfold u32, INPUT_BUF in *.
    rewrite Zplus_mod_idemp_l. case_bool_decide as El.
    - apply Z.eqb_eq. f_equal. lia.
    - apply Z.eqb_neq. intros E.
      assert ((in_r s + Z.of_nat (length (q ++ l)) + 1 - (in_r s + 128)) mod 2 ^ 32 = 0) as H0
        by (rewrite Zminus_mod, E, Z.sub_diag; done).
      apply Z.mod_divide in H0 as [k Hk]; [|done]. rewrite length_app in *. lia. }
  rewrite Hfull. fold x. clearbody x.
  destruct ((x =? 10) || (x =? Ctl 68) || bool_decide (length (q ++ l ++ [x]) = 128)%nat) eqn:Ec.
  - apply wp_bind. apply wp_modify. apply wp_zoom. destruct W2 as [w1 w2 w3 w4 w5]. apply wp_wakeup.
    { split; [done|]. simpl. rewrite w1. simpl. lia. }
    split_and!; [| |by split_and!].
    + split; try done. simpl. rewrite w1. by apply quiet_cli.
    + by apply (in_rel_push s q l x _ R Hroom).
  - assert (x <> 10) by (intros ->; done).
    apply wp_ret. split_and!; [done| |by split_and!]. by apply (in_rel_push s q l x _ R Hroom).
Qed.

(** The device has sent the characters [cs]. *)
Definition arrived (cs : list Z) : list Z := map (Z.lor 0x80000000) cs.

Lemma wp_console_chars c cs : forall n s q l, (length cs < n)%nat ->
  work c s -> in_rel s q l -> Forall is_u8 cs -> sci_rxd s = arrived cs -> uart s <> 0 ->
  wp (console_chars n uartgetc) (fun _ s' => work c s' /\
    in_rel s' (foldl edit (q, l) cs).1 (foldl edit (q, l) cs).2 /\ in_lock s' = in_lock s /\ sci_rxd s' = []) s.
Proof.
  induction cs as [|x cs IH]; intros [|n] s q l Hn W R HF Hrx Hu; try (simpl in Hn; lia); cbn [console_chars].
  - apply wp_bind. unfold uartgetc, read_rxd. wp_step. wp_step. destruct (uart s =? 0) eqn:E; [lia|].
    wp_step. wp_step. wp_step. rewrite Hrx. apply wp_ret. apply wp_ret. apply wp_ret. by split_and!.
  - apply Forall_cons in HF as [Hx HF]. apply wp_bind. unfold uartgetc, read_rxd.
    wp_step. wp_step. destruct (uart s =? 0) eqn:E; [lia|]. wp_step. wp_step. wp_step. rewrite Hrx. cbn [arrived map].
    wp_step. apply wp_modify. apply wp_ret.
    assert ((Z.land (Z.lor 0x80000000 x) 0x80000000 =? 0) = false) as ->.
    { change 0x80000000 with (2 ^ 31). rewrite Flag.land_eqb_0 by lia. by rewrite Z.lor_spec. }
    assert (u8 (Z.land (Z.lor 0x80000000 x) 0xff) = x) as ->.
    { rewrite Z.land_lor_distr_l. change (Z.land 0x80000000 0xff) with 0. rewrite Z.lor_0_l.
      change 0xff with (Z.ones 8). rewrite Z.land_ones by lia. unfold u8. rewrite Z.mod_mod by lia. by apply u8_id. }
    cbn [negb]. apply wp_ret. destruct (x >=? 0) eqn:Ex; [|unfold is_u8 in Hx; lia]. cbn [negb]. apply wp_bind.
    set (s1 := set_sci _ _ _ _ s).
    assert (work c s1) by (by destruct W). assert (in_rel s1 q l) by (by destruct R).
    wp_call (wp_console_char c s1 q l x); [done..|]. intros _ s2 (W2 & R2 & (D1 & D2 & D3)).
    destruct (edit (q, l) x) as [q2 l2] eqn:Ee. wp_call (IH n s2 q2 l2); try done.
    + simpl in Hn. lia.
    + by rewrite D3.
    + cbn [foldl]. rewrite Ee. intros _ s3 (W3 & R3 & L3 & X3). split_and!; [done|done|by rewrite L3, D1|done].
Qed.

(** The console between interrupts: its locks are free. *)
Record cons_idle (s : cst) : Prop := {
  ci_in : free (in_lock s);
  ci_cons : free (cons_lock s);
  ci_base : base_ok (c_base s);
  ci_panic : panicked s = 0;
  ci_uart : uart s <> 0;
}.

(** C27. The console's input buffer, a ring indexed by three counters that
    wrap around, implements a queue of committed bytes and a line being
    edited. When the serial port interrupts with characters [cs], each acts
    as the editor says: backspace and delete take back the last character of
    the line, control-U the whole line, control-P prints the processes,
    others are appended (a carriage return as a newline) while there is room,
    and a newline, control-D or a full buffer commits the line. Nothing
    committed is ever lost or changed. *)
Theorem uartintr_edits (s : cst) (q l cs : list Z) :
  cons_idle s -> in_rel s q l -> Forall is_u8 cs -> sci_rxd s = arrived cs ->
  exists s', uartintr s = Ok tt s' /\ sci_rxd s' = [] /\ free (in_lock s') /\
    in_rel s' (foldl edit (q, l) cs).1 (foldl edit (q, l) cs).2.
Proof.
  intros [I1 I2 [I3 I4] I5 I6] R HF Hrx. destruct s as [[c pl ps] cl lck pan il ib r w e u cf tx rx].
  cbn in I1, I2, I3, I4, I5, I6, Hrx. enough (wp uartintr (fun _ s' => sci_rxd s' = [] /\ free (in_lock s') /\
      in_rel s' (foldl edit (q, l) cs).1 (foldl edit (q, l) cs).2) (Cst (Base c pl ps) cl lck pan il ib r w e u cf tx rx)) as Hwp
    by (apply wp_outcome in Hwp as ([] & s' & ? & ?); by exists s'). unfold uartintr, consoleintr.
  apply wp_bind. eapply outcome_wp; [apply zoom_ok, acquire_ok; exact I1|]. cbn [lset input_lock fst snd].
  wp_step. wp_step. apply wp_bind. cbn [sci_rxd].
  eapply wp_mono; [apply (wp_console_chars c cs _ _ q l); try done|].
  - rewrite Hrx. unfold arrived. rewrite length_map. lia.
  - by destruct R.
  - cbn beta. intros _ [[c' pl' ps'] cl' lck' pan' il' ib' r' w' e' u' cf' tx' rx'] (W & R' & L & X).
    pose proof (wk_cpu _ _ W) as E. cbn in E, L, X. subst.
    eapply outcome_wp; [apply zoom_ok, release_taken; exact I4|]. split_and!; [done|apply free_dropped|by destruct R'].
Qed.

(** A console that holds the committed line [a b \n] and the characters [c d]
    being edited, at counters about to wrap around, with [\b e \r f] arriving. *)
Definition cst0 : cst :=
  Cst ptable0 (Spinlock 0 "console" None []) 1 0 (Spinlock 0 "input" None [])
    (<[126%nat := 97]> (<[127%nat := 98]> (<[0%nat := 10]> (<[1%nat := 99]> (<[2%nat := 100]> (replicate 128 0))))))
    (2 ^ 32 - 2) 1 3 1 0 [] (arrived [8; 101; 13; 102]).

Lemma cst0_rel : in_rel cst0 [97; 98; 10] [99; 100].
Proof.
  split; try done.
  - simpl. lia.
  - repeat (apply Forall_cons; split; [done|]). by apply Forall_nil.
  - intros i x Hi. do 5 (destruct i as [|i]; [injection Hi as <-; reflexivity|]). done.
Qed.

Lemma uartintr_edits_witness :
  exists s', uartintr cst0 = Ok tt s' /\ sci_rxd s' = [] /\ free (in_lock s') /\
    in_rel s' [97; 98; 10; 99; 101; 10] [102].
Proof.
  apply (uartintr_edits cst0 [97; 98; 10] [99; 100] [8; 101; 13; 102]).
  - by split.
  - apply cst0_rel.
  - repeat (apply Forall_cons; split; [done|]). by apply Forall_nil.
  - reflexivity.
Defined.

(** ** Reading *)

(** What a read of [n] bytes gets from committed input [q], and what is left;
    [some_] tells whether the read has returned bytes already. *)
Fixpoint serve (n : nat) (some_ : bool) (q : list Z) : list Z * list Z :=
  match n, q with
  | O, _ => ([], q)
  | _, [] => ([], [])
  | S n, c :: q' =>
      if c =? Ctl 68 then ([], if some_ then q else q')
      else if c =? 10 then ([c], q')
      else let '(d, rest) := serve n true q' in (c :: d, rest)
  end.

(** There is enough input for the read not to wait. *)
Definition enough (n : nat) (q : list Z) : Prop :=
  (n <= length q)%nat \/ 10 ∈ q \/ Ctl 68 ∈ q.

(** The first committed byte is taken, or put back. *)
Lemma in_rel_take s c q l : in_rel s (c :: q) l ->
  in_buf s !! Z.to_nat (in_r s mod INPUT_BUF) = Some c /\
  in_rel (set_input (in_buf s) (u32 (in_r s + 1)) (in_w s) (in_e s) s) q l /\
  u32 (u32 (in_r s + 1) - 1) = in_r s /\ (in_r s =? in_w s) = false.
Proof.
  intros [H1 H2 H3 H4 H5 H6 H7]. split_and!.
  - specialize (H7 0%nat c eq_refl). by rewrite Z.add_0_r in H7.
  - split; cbn; try done.
    + apply u32_range.
    + rewrite H3. unfold u32. rewrite Zplus_mod_idemp_l. f_equal. cbn [length]. lia.
    + rewrite H4. unfold u32. rewrite Zplus_mod_idemp_l. f_equal. cbn [length app]. lia.
    + simpl in H5. lia.
    + exact (proj2 (fifo_take INPUT_BUF eq_refl input_divides _ _ _ _ H7)).
  - unfold u32. rewrite Zminus_mod_idemp_l. rewrite Z.mod_small; unfold is_u32 in H2; lia.
  - apply Z.eqb_neq. intros E. rewrite E in H3 at 1. rewrite H3 in E.
    assert (in_r s = u32 (in_r s + Z.of_nat (length (c :: q)))) as E' by congruence.
    rewrite length_app in H5. cbn [length] in *. unfold u32, is_u32 in *.
    rewrite <- (Z.mod_small (in_r s) (2 ^ 32)) in E' at 1 by lia.
    assert ((in_r s - (in_r s + Z.of_nat (S (length q)))) mod 2 ^ 32 = 0) as H0
      by (rewrite Zminus_mod, E', Z.sub_diag; done).
    apply Z.mod_divide in H0 as [k Hk]; [|done]. lia.
Qed.

(** [consoleread]'s loop hands out committed input in order: up to [n]
    bytes, not past a newline; control-D ends it and is consumed only when the
    read has returned nothing, so that the next read gets it. When there is
    enough input it does not sleep, and the line being edited is untouched. *)
Theorem read_chars_serves {St : Type} (CL : Lens St cst) (n target : nat) (dst : list Z) (s : St) (q l : list Z) :
  in_rel (lget s) q l -> enough n q -> (n <= target)%nat ->
  let '(d, rest) := serve n (bool_decide (n < target)%nat) q in
  exists s', read_chars CL n target dst s = Ok (Some (dst ++ d)) s' /\ in_rel (lget s') rest l.
Proof.
  revert dst s q. induction n as [|n IH]; intros dst s q R He Ht; cbn [serve].
  - exists s. cbn [read_chars]. unfold ret. by rewrite app_nil_r.
  - destruct q as [|c q].
    { destruct He as [He|[He|He]]; [simpl in He; lia|by apply elem_of_nil in He..]. }
    destruct (in_rel_take _ _ _ _ R) as (Hc & R' & Hback & Hrw). cbn [read_chars].
    assert (Hw : wait_input CL wakeups s = Ok false s).
    { unfold wakeups. cbn [wait_input]. erewrite bind_ok by reflexivity. by rewrite Hrw. }
    rewrite (bind_ok _ _ _ _ _ Hw).
    assert (Hrd : zoom (L := CL) (s <- get ;; c <- buf_at (in_r s) ;;
       modify (fun s => set_input (in_buf s) (u32 (in_r s + 1)) (in_w s) (in_e s) s) ;;; ret c) s =
       Ok c (lset (set_input (in_buf (lget s)) (u32 (in_r (lget s) + 1)) (in_w (lget s)) (in_e (lget s)) (lget s)) s)).
    { apply zoom_ok. erewrite bind_ok by reflexivity. erewrite bind_ok.
      2:{ unfold buf_at. erewrite bind_ok by reflexivity. rewrite Hc. reflexivity. }
      by erewrite bind_ok by reflexivity. }
    rewrite (bind_ok _ _ _ _ _ Hrd). set (s2 := lset _ s). destruct (c =? Ctl 68) eqn:E4; [|destruct (c =? 10) eqn:E10].
    + rewrite app_nil_r. destruct (decide (S n < target)%nat) as [Hlt|Hge].
      * rewrite bool_decide_eq_true_2 by done. eexists. erewrite bind_ok by (by apply zoom_ok). split; [reflexivity|].
        unfold s2. rewrite lget_lset. cbn. rewrite !lget_lset. cbn [in_r set_input]. rewrite Hback. by destruct R.
      * rewrite bool_decide_eq_false_2 by done. exists s2. split; [reflexivity|]. unfold s2. by rewrite lget_lset.
    + exists s2. split; [done|]. unfold s2. by rewrite lget_lset.
    + destruct (serve n true q) as [d rest] eqn:Es.
      specialize (IH (dst ++ [c]) s2 q ltac:(unfold s2; by rewrite lget_lset)).
      rewrite bool_decide_eq_true_2, Es in IH by lia. destruct IH as (s' & E & R2).
      * destruct He as [He|[He|He]]; [left; simpl in He; lia|right; left|right; right];
          apply elem_of_cons in He as [<-|He]; done.
      * lia.
      * exists s'. rewrite E, <- app_assoc. done.
Qed.

Lemma read_chars_serves_witness :
  exists s', read_chars (St := cst * Z)
    {| lget := fst; lset c s := (c, snd s); lget_lset _ _ := eq_refl; lset_lget s := match s with (_, _) => eq_refl end;
       lset_lset _ _ _ := eq_refl |} 10 10 [] (cst0, 5) = Ok (Some [97; 98; 10]) s' /\ in_rel (fst s') [] [99; 100].
Proof.
  exact (read_chars_serves (St := cst * Z)
    {| lget := fst; lset c s := (c, snd s); lget_lset _ _ := eq_refl; lset_lget s := match s with (_, _) => eq_refl end;
       lset_lset _ _ _ := eq_refl |} 10 10 [] (cst0, 5) [97; 98; 10] [99; 100] cst0_rel
    (or_intror (or_introl (list_elem_of_further _ _ _ (list_elem_of_further _ _ _ (list_elem_of_here _ _)))))
    (Nat.le_refl 10)).
Defined.

(** After a panic the console is frozen for every CPU. *)
Lemma panic_freezes msg pcs s s' c : panic_print msg pcs s = Ok tt s' -> consputc c s' = Diverge.
Proof.
  unfold panic_print, bind at 1, modify at 1. cbn [obind]. unfold bind at 1, get. cbn [obind].
  match goal with |- (_ ;;; _) ?t = _ -> _ => generalize t end. intros t H.
  assert (Hp : panicked s' = 1).
  { revert H. unfold bind. repeat (match goal with |- obind ?o _ = _ -> _ => destruct o as [[] ?| | | |]; cbn [obind]; [|done|done|done|done] end). by intros [= <-]. }
  unfold consputc, bind, get. cbn [obind]. by rewrite Hp.
Qed.
