(* ===== verification/Pipe.v ===== *)
(** Pipes: pipe.c on one pipe (pipealloc and the freeing of a pipe's page
    involve the file table and the page allocator). A pipe is proved to be
    a bounded first-in first-out queue whose full and empty sides sleep. *)
From stdpp Require Import base numbers list strings.
From S2P Require Import Prelude Params Spinlock Sched Fifo.

Definition PIPESIZE : Z := 512.

(** *** struct pipe *)
Record pipe := Pipe {
  pp_lock : spinlock;
  pp_data : list Z;
  nread : Z;
  nwrite : Z;
  readopen : Z;
  writeopen : Z;
}.

(** The CPU and the process table, and the pipe. *)
Record pst := Pst { pp_base : base; pp : pipe }.

Definition upd_pipe (f : pipe -> pipe) : M pst unit := modify (fun s => Pst (pp_base s) (f (pp s))).
Definition set_nread (n : Z) (p : pipe) : pipe :=
  Pipe (pp_lock p) (pp_data p) n (nwrite p) (readopen p) (writeopen p).
Definition put_byte (c : Z) (p : pipe) : pipe :=
  Pipe (pp_lock p) (<[slot PIPESIZE (nwrite p) := u8 c]> (pp_data p)) (nread p) (u32 (nwrite p + 1))
    (readopen p) (writeopen p).
Definition set_readopen (v : Z) (p : pipe) : pipe :=
  Pipe (pp_lock p) (pp_data p) (nread p) (nwrite p) v (writeopen p).
Definition set_writeopen (v : Z) (p : pipe) : pipe :=
  Pipe (pp_lock p) (pp_data p) (nread p) (nwrite p) (readopen p) v.

Definition pipe_base : Lens pst base.
Proof. refine {| lget := pp_base; lset b s := Pst b (pp s) |}; [done|by intros []|done]. Defined.
Definition set_pp_lock (lk : spinlock) (p : pipe) : pipe :=
  Pipe lk (pp_data p) (nread p) (nwrite p) (readopen p) (writeopen p).
Definition pipe_lock : Lens pst (cpu * spinlock).
Proof.
  refine {| lget s := (b_cpu (pp_base s), pp_lock (pp s));
            lset t s := Pst (Base (fst t) (b_lock (pp_base s)) (b_procs (pp_base s))) (set_pp_lock (snd t) (pp s)) |};
    [by intros []|by intros [[] []]|done].
Defined.

Section pipe.
  (** The pipe's number, which names its sleep channels. *)
  Context (id : nat).

Definition proc_killed : M pst bool :=
    s <- get ;;
    i <- some (cproc (b_cpu (pp_base s))) ;;
    p <- some (b_procs (pp_base s) !! i) ;;
    ret (negb (p_killed p =? 0)).

  (** The fields [pipealloc] initialises. *)
Definition pipeinit (p : pipe) : pipe :=
    Pipe (initlock "pipe" (pp_lock p)) (pp_data p) 0 0 1 1.

  (** *** pipeclose; the result tells whether the page is to be freed. *)
Definition pipeclose (writable : Z) : M pst bool :=
    zoom (L := pipe_lock) acquire ;;;
    (if negb (writable =? 0) then
       upd_pipe (set_writeopen 0) ;;;
       zoom (L := pipe_base) (wakeup (ChNread id))
     else
       upd_pipe (set_readopen 0) ;;;
       zoom (L := pipe_base) (wakeup (ChNwrite id))) ;;;
    s <- get ;;
    if (readopen (pp s) =? 0) && (writeopen (pp s) =? 0)
    then zoom (L := pipe_lock) release ;;; ret true
    else zoom (L := pipe_lock) release ;;; ret false.

  (** *** pipewrite: the inner loop returns [false] when the call is to fail. *)
Fixpoint wait_room (fuel : nat) : M pst bool :=
    match fuel with
    | O => diverge
    | S fuel =>
        s <- get ;;
        if negb (nwrite (pp s) =? u32 (nread (pp s) + PIPESIZE)) then ret true else
        (* p->readopen == 0 || proc()->killed *)
        fail <- (if readopen (pp s) =? 0 then ret true else proc_killed) ;;
        if fail : bool then zoom (L := pipe_lock) release ;;; ret false else
        zoom (L := pipe_base) (wakeup (ChNread id)) ;;;
        sleep pipe_base (ChNwrite id) (Some pipe_lock) ;;;
        wait_room fuel
    end.

Fixpoint write_loop (n : nat) (addr : list Z) : M pst bool :=
    match n with
    | O => ret true
    | S n =>
        ok <- wait_room wakeups ;;
        if ok : bool then
          c <- some (head addr) ;;
          upd_pipe (put_byte c) ;;;
          write_loop n (tail addr)
        else ret false
    end.

Definition pipewrite (addr : list Z) (n : Z) : M pst Z :=
    zoom (L := pipe_lock) acquire ;;;
    ok <- write_loop (Z.to_nat n) addr ;;
    if ok : bool then
      zoom (L := pipe_base) (wakeup (ChNread id)) ;;;
      zoom (L := pipe_lock) release ;;;
      ret n
    else ret (-1).

  (** *** piperead: the bytes put at [addr] are the result's second part. *)
Fixpoint wait_data (fuel : nat) : M pst bool :=
    match fuel with
    | O => diverge
    | S fuel =>
        s <- get ;;
        if negb ((nread (pp s) =? nwrite (pp s)) && negb (writeopen (pp s) =? 0)) then ret true else
        killed <- proc_killed ;;
        if killed : bool then zoom (L := pipe_lock) release ;;; ret false else
        sleep pipe_base (ChNread id) (Some pipe_lock) ;;;
        wait_data fuel
    end.

Fixpoint read_loop (n : nat) (dst : list Z) : M pst (list Z) :=
    match n with
    | O => ret dst
    | S n =>
        s <- get ;;
        if nread (pp s) =? nwrite (pp s) then ret dst else
        c <- some (pp_data (pp s) !! slot PIPESIZE (nread (pp s))) ;;
        upd_pipe (set_nread (u32 (nread (pp s) + 1))) ;;;
        read_loop n (dst ++ [c])
    end.

Definition piperead (n : Z) : M pst (Z * list Z) :=
    zoom (L := pipe_lock) acquire ;;;
    ok <- wait_data wakeups ;;
    if ok : bool then
      dst <- read_loop (Z.to_nat n) [] ;;
      zoom (L := pipe_base) (wakeup (ChNwrite id)) ;;;
      zoom (L := pipe_lock) release ;;;
      ret (Z.of_nat (length dst), dst)
    else ret (-1, []).
End pipe.

(** ** A bounded queue *)

Lemma pipe_divides : (PIPESIZE | 2 ^ 32).
Proof. by exists (2 ^ 23). Qed.

(** The bytes written and not yet read. *)
Record pipe_rel (p : pipe) (q : list Z) : Prop := {
  pr_len : length (pp_data p) = Z.to_nat PIPESIZE;
  pr_read : is_u32 (nread p);
  pr_write : nwrite p = u32 (nread p + Z.of_nat (length q));
  pr_room : (length q <= 512)%nat;
  pr_ring : ring PIPESIZE (pp_data p) (nread p) q;
}.

Lemma pipe_full p q : pipe_rel p q ->
  (nwrite p =? u32 (nread p + PIPESIZE)) = bool_decide (length q = 512)%nat.
Proof.
  intros R. pose proof (pr_room _ _ R). rewrite (pr_write _ _ R), counter_eqb by (unfold PIPESIZE; lia).
  case_bool_decide; [apply Z.eqb_eq|apply Z.eqb_neq]; unfold PIPESIZE; lia.
Qed.
Lemma pipe_empty p q : pipe_rel p q -> (nread p =? nwrite p) = bool_decide (q = []).
Proof.
  intros R. pose proof (pr_room _ _ R). rewrite (pr_write _ _ R).
  assert ((nread p =? u32 (nread p + Z.of_nat (length q))) = (0 =? Z.of_nat (length q))) as ->.
  { rewrite <- (counter_eqb (nread p) 0 (Z.of_nat (length q))) by lia. rewrite Z.add_0_r, (u32_id (nread p)); [done|apply (pr_read _ _ R)]. }
  destruct q; [done|]. by rewrite bool_decide_eq_false_2.
Qed.

Lemma pipe_put p q c : pipe_rel p q -> (length q < 512)%nat -> is_u8 c -> pipe_rel (put_byte c p) (q ++ [c]).
Proof.
  intros [H1 H2 H3 H4 H5] Hq Hc. split; cbn; try done.
  - by rewrite length_insert.
  - rewrite H3, counter_next, length_app. cbn [length]. f_equal. lia.
  - rewrite length_app. simpl. lia.
  - rewrite H3, (slot_u32 PIPESIZE eq_refl pipe_divides), u8_id by done.
    apply (fifo_push PIPESIZE eq_refl); [done|done|unfold PIPESIZE; lia].
Qed.

Lemma pipe_get p c q : pipe_rel p (c :: q) ->
  pp_data p !! slot PIPESIZE (nread p) = Some c /\ pipe_rel (set_nread (u32 (nread p + 1)) p) q.
Proof.
  intros [H1 H2 H3 H4 H5]. destruct (fifo_take PIPESIZE eq_refl pipe_divides _ _ _ _ H5) as [Hc R].
  split; [done|]. split; cbn; try done.
  - apply u32_range.
  - rewrite H3. unfold u32. rewrite Zplus_mod_idemp_l. f_equal. cbn [length]. lia.
  - simpl in H4. lia.
Qed.

(** A call at work: it holds the pipe's lock. *)
Record working (c : cpu) (lk : spinlock) (s : pst) : Prop := {
  wg_cpu : b_cpu (pp_base s) = cli c;
  wg_ncli : 0 <= ncli c;
  wg_lock : pp_lock (pp s) = taken c lk;
  wg_ptable : free (b_lock (pp_base s));
}.

(** What the loops keep. *)
Definition ends (s s' : pst) : Prop :=
  pp_base s' = pp_base s /\ pp_lock (pp s') = pp_lock (pp s) /\
  readopen (pp s') = readopen (pp s) /\ writeopen (pp s') = writeopen (pp s).

(** As long as there is room, bytes go in; the loop then stands before the rest. *)
Lemma write_loop_fill id x : forall s q n rest,
  pipe_rel (pp s) q -> (length q + length x <= 512)%nat -> Forall is_u8 x ->
  exists s', write_loop id (length x + n) (x ++ rest) s = write_loop id n rest s' /\
    pipe_rel (pp s') (q ++ x) /\ ends s s'.
Proof.
  induction x as [|c x IH]; intros s q n rest R Hl HF; cbn [length] in *.
  - exists s. rewrite app_nil_r. by split_and!.
  - apply Forall_cons in HF as [Hc HF]. cbn [Nat.add app write_loop].
    assert (Hw : wait_room id wakeups s = Ok true s).
    { unfold wakeups. cbn [wait_room]. erewrite bind_ok by reflexivity. rewrite (pipe_full _ _ R).
      rewrite bool_decide_eq_false_2 by lia. done. }
    rewrite (bind_ok _ _ _ _ _ Hw). cbn [head]. erewrite bind_ok by reflexivity. erewrite bind_ok by reflexivity.
    cbn [tail]. set (s1 := Pst (pp_base s) (put_byte c (pp s))).
    destruct (IH s1 (q ++ [c]) n rest) as (s' & E & R' & (E1 & E2 & E3 & E4)); try done.
    + apply pipe_put; [done|lia|done].
    + rewrite length_app. simpl. lia.
    + exists s'. rewrite <- app_assoc in R'. by split_and!.
Qed.

Lemma read_loop_run n : forall s q dst,
  pipe_rel (pp s) q ->
  exists s', read_loop n dst s = Ok (dst ++ take n q) s' /\ pipe_rel (pp s') (drop n q) /\ ends s s'.
Proof.
  induction n as [|n IH]; intros s q dst R; cbn [read_loop].
  - exists s. unfold ret. rewrite app_nil_r. by split_and!.
  - erewrite bind_ok by reflexivity. rewrite (pipe_empty _ _ R). destruct q as [|c q].
    + exists s. rewrite bool_decide_eq_true_2 by done. unfold ret. rewrite app_nil_r. by split_and!.
    + rewrite bool_decide_eq_false_2 by done. destruct (pipe_get _ _ _ R) as [Hc R']. rewrite Hc.
      erewrite bind_ok by reflexivity. erewrite bind_ok by reflexivity.
      set (s1 := Pst (pp_base s) _). destruct (IH s1 q (dst ++ [c]) R') as (s' & E & R2 & (E1 & E2 & E3 & E4)).
      exists s'. rewrite E, <- app_assoc. by split_and!.
Qed.

(** *** Between calls *)
Record pipe_idle (s : pst) : Prop := { pi_lock : free (pp_lock (pp s)); pi_base : base_ok (pp_base s) }.

Lemma pipe_acquire s : pipe_idle s ->
  zoom (L := pipe_lock) acquire s =
    Ok tt (Pst (Base (cli (b_cpu (pp_base s))) (b_lock (pp_base s)) (b_procs (pp_base s)))
             (set_pp_lock (taken (b_cpu (pp_base s)) (pp_lock (pp s))) (pp s))).
Proof. intros [Hf _]. by erewrite zoom_ok by (by apply acquire_ok). Qed.

Lemma pipe_release c lk s : working c lk s ->
  zoom (L := pipe_lock) release s =
    Ok tt (Pst (Base (quiet c) (b_lock (pp_base s)) (b_procs (pp_base s))) (set_pp_lock (dropped lk) (pp s))).
Proof.
  intros [H1 H2 H3 _]. erewrite zoom_ok by (cbn [lget pipe_lock]; rewrite H1, H3; by apply release_taken). done.
Qed.

Lemma pipe_wakeup c lk s ch : working c lk s ->
  zoom (L := pipe_base) (wakeup ch) s =
    Ok tt (Pst (Base (cli c) (dropped (b_lock (pp_base s))) (wake ch <$> b_procs (pp_base s))) (pp s)).
Proof.
  intros [H1 H2 _ H4]. erewrite zoom_ok.
  2:{ apply wakeup_run. split; [exact H4|]. cbn. rewrite H1. simpl. lia. }
  cbn. unfold settled. rewrite H1, quiet_cli by done. done.
Qed.

Lemma pipe_rel_lock p q lk : pipe_rel p q -> pipe_rel (set_pp_lock lk p) q.
Proof. intros []. by split. Qed.

(** The state a call leaves when it has woken [ch] and released the lock. *)
Lemma pipe_finish c lk s ch : working c lk s ->
  exists s', (zoom (L := pipe_base) (wakeup ch) ;;; zoom (L := pipe_lock) release) s = Ok tt s' /\
    pp s' = set_pp_lock (dropped lk) (pp s) /\ pipe_idle s' /\
    b_procs (pp_base s') = wake ch <$> b_procs (pp_base s).
Proof.
  intros W. erewrite bind_ok by (by eapply pipe_wakeup). erewrite (pipe_release c lk).
  2:{ destruct W. by split. }
  eexists. split; [reflexivity|]. split_and!; try done. split; [done|]. split; [done|]. apply (wg_ncli _ _ _ W).
Qed.

(** Sleeping gives up the pipe's lock. *)
Lemma pipe_sleep c lk s i p ch :
  working c lk s -> ncli c = 0 -> cproc c = Some i -> b_procs (pp_base s) !! i = Some p ->
  exists s1 k, sleep pipe_base ch (Some pipe_lock) s = Switch s1 k /\
    pp s1 = set_pp_lock (dropped lk) (pp s) /\
    b_procs (pp_base s1) = alter (fun q => set_state SLEEPING (set_chan (Some ch) q)) i (b_procs (pp_base s)).
Proof.
  intros [H1 H2 H3 H4] Hn Hp Hps. destruct s as [[cp plk ps] pi].
  cbn [pp_base pp b_cpu b_lock b_procs] in *. subst cp.
  assert (quiet (cli c) = cli c) as Hq by (apply quiet_cli; lia).
  eexists _, _. split.
  { unfold sleep. erewrite bind_ok by reflexivity.
    replace (cproc (b_cpu (lget (Pst (Base (cli c) plk ps) pi)))) with (Some i) by (by rewrite <- Hp).
    erewrite (bind_ok (bind _ _)).
    2:{ erewrite bind_ok; [|erewrite zoom_ok; [reflexivity|by apply ptable_acquire]].
        erewrite zoom_ok; [reflexivity|]. cbn. rewrite H3. apply (release_taken (cli c)). simpl. lia. }
    unfold bind at 1. erewrite zoom_switch; [reflexivity|].
    cbn [lget pipe_base lset fst snd pipe_lock b_cpu b_lock b_procs pp_base pp]. rewrite Hq.
    erewrite bind_ok by reflexivity. erewrite bind_ok by reflexivity.
    cbn [b_cpu b_lock b_procs]. change (taken (cli c) plk) with (taken c plk).
    unfold bind at 1. erewrite (sched_run c); [reflexivity|lia|exact Hp| |].
    - by rewrite !list_lookup_alter_eq, Hps.
    - done. }
  cbn. split; [done|]. by rewrite alter_alter.
Qed.

(** A full pipe: the writer fails, or wakes the readers and sleeps. *)
Lemma write_full_fails id c lk s q n rest :
  working c lk s -> pipe_rel (pp s) q -> length q = 512%nat -> readopen (pp s) = 0 ->
  exists s', write_loop id (S n) rest s = Ok false s' /\ pipe_idle s' /\ pipe_rel (pp s') q.
Proof.
  intros W R Hq Hro.
  assert (Hf : (nwrite (pp s) =? u32 (nread (pp s) + PIPESIZE)) = true)
    by (rewrite (pipe_full _ _ R); by apply bool_decide_eq_true_2).
  exists (Pst (Base (quiet c) (b_lock (pp_base s)) (b_procs (pp_base s))) (set_pp_lock (dropped lk) (pp s))).
  split_and!; [|split; [done|split; [apply W|apply (wg_ncli _ _ _ W)]]|by apply pipe_rel_lock].
  cbn [write_loop]. unfold bind at 1, wakeups. cbn [wait_room]. erewrite bind_ok by reflexivity.
  rewrite Hf, Hro. cbn [negb Z.eqb]. erewrite bind_ok by reflexivity. cbv iota.
  by erewrite bind_ok by (by eapply pipe_release).
Qed.

Lemma write_full_sleeps id c lk s q n rest i p :
  working c lk s -> pipe_rel (pp s) q -> length q = 512%nat -> readopen (pp s) <> 0 ->
  ncli c = 0 -> cproc c = Some i -> b_procs (pp_base s) !! i = Some p -> p_killed p = 0 -> p_state p = RUNNING ->
  exists s1 k, write_loop id (S n) rest s = Switch s1 k /\ pp s1 = set_pp_lock (dropped lk) (pp s) /\
    exists p', b_procs (pp_base s1) !! i = Some p' /\ p_state p' = SLEEPING /\ p_chan p' = Some (ChNwrite id).
Proof.
  intros W R Hq Hro Hn Hcp Hpi Hkl Hst.
  assert (Hf : (nwrite (pp s) =? u32 (nread (pp s) + PIPESIZE)) = true)
    by (rewrite (pipe_full _ _ R); by apply bool_decide_eq_true_2).
  pose proof (pipe_wakeup c lk s (ChNread id) W) as Hwk. set (s3 := Pst _ (pp s)) in Hwk.
  assert (W3 : working c lk s3) by (destruct W; by split).
  assert (Hp3 : b_procs (pp_base s3) !! i = Some p).
  { cbn. rewrite list_lookup_fmap, Hpi. cbn. f_equal. unfold wake.
    rewrite bool_decide_eq_false_2; [done|]. rewrite Hst. by intros [? _]. }
  destruct (pipe_sleep c lk s3 i p (ChNwrite id) W3 Hn Hcp Hp3) as (s4 & kk & Hsl & Hpp & Hpr).
  eexists _, _. split_and!; [|exact Hpp|].
  - cbn [write_loop]. unfold bind at 1, wakeups. cbn [wait_room]. erewrite bind_ok by reflexivity.
    rewrite Hf. cbn [negb]. destruct (readopen (pp s) =? 0) eqn:Er; [lia|]. erewrite bind_ok.
    2:{ unfold proc_killed. erewrite bind_ok by reflexivity. rewrite (wg_cpu _ _ _ W).
        replace (cproc (cli c)) with (Some i) by (by rewrite <- Hcp). erewrite bind_ok by reflexivity. rewrite Hpi.
        erewrite bind_ok by reflexivity. rewrite Hkl. reflexivity. }
    cbn [Z.eqb negb]. rewrite (bind_ok _ _ _ _ _ Hwk). unfold bind at 1. rewrite Hsl. reflexivity.
  - rewrite Hpr. eexists. rewrite list_lookup_alter_eq, Hp3. by split_and!.
Qed.

(** C28. [pipewrite] of [n] bytes appends to the queue. If they fit, all are
    appended and the readers asleep on the pipe are woken. If not, the queue
    is first filled; then the call fails with -1 when the read end is closed,
    and otherwise gives up the pipe's lock and the CPU with the process asleep
    on the pipe's write channel. *)
Theorem pipewrite_spec (id : nat) (s : pst) (q addr : list Z) (n : nat) :
  pipe_idle s -> pipe_rel (pp s) q -> (n <= length addr)%nat -> Forall is_u8 addr ->
  ((length q + n <= 512)%nat ->
     exists s', pipewrite id addr (Z.of_nat n) s = Ok (Z.of_nat n) s' /\ pipe_idle s' /\
       pipe_rel (pp s') (q ++ take n addr) /\
       b_procs (pp_base s') = wake (ChNread id) <$> b_procs (pp_base s)) /\
  ((length q + n > 512)%nat -> readopen (pp s) = 0 ->
     exists s', pipewrite id addr (Z.of_nat n) s = Ok (-1) s' /\ pipe_idle s' /\
       pipe_rel (pp s') (q ++ take (512 - length q) addr)) /\
  ((length q + n > 512)%nat -> readopen (pp s) <> 0 -> forall i p,
     ncli (b_cpu (pp_base s)) = 0 -> cproc (b_cpu (pp_base s)) = Some i ->
     b_procs (pp_base s) !! i = Some p -> p_killed p = 0 -> p_state p = RUNNING ->
     exists s1 k, pipewrite id addr (Z.of_nat n) s = Switch s1 k /\ free (pp_lock (pp s1)) /\
       pipe_rel (pp s1) (q ++ take (512 - length q) addr) /\
       exists p', b_procs (pp_base s1) !! i = Some p' /\ p_state p' = SLEEPING /\ p_chan p' = Some (ChNwrite id)).
Proof.
  intros I R Hn HF. pose proof (pr_room _ _ R) as Hq. set (c := b_cpu (pp_base s)).
  assert (Hc : 0 <= ncli c) by apply (pi_base _ I).
  unfold pipewrite. rewrite (bind_ok _ _ _ _ _ (pipe_acquire s I)). fold c. rewrite Nat2Z.id.
  set (s1 := Pst _ _). set (k := min n (512 - length q)).
  assert (Hk : length (take k addr) = k) by (rewrite length_take; lia).
  destruct (write_loop_fill id (take k addr) s1 q (n - k) (drop k addr)) as (s2 & E & R2 & E1 & E2 & E3 & E4).
  { by apply pipe_rel_lock. } { rewrite Hk. lia. } { by apply Forall_take. }
  rewrite Hk, take_drop in E. replace (k + (n - k))%nat with n in E by lia.
  assert (W : working c (pp_lock (pp s)) s2) by (split; rewrite ?E1, ?E2; try done; apply (pi_base _ I)).
  split_and!.
  - intros Hfit. replace (n - k)%nat with 0%nat in E by lia. replace k with n in * by lia.
    erewrite bind_ok by (rewrite E; reflexivity). cbv iota.
    destruct (pipe_finish c _ s2 (ChNread id) W) as (s' & Hfin & Hp & I' & Hpr). exists s'. split_and!; try done.
    + unfold bind in *. destruct (zoom (L := pipe_base) (wakeup (ChNread id)) s2) as [[] s3| | | |]; try done.
      cbn [obind] in *. by rewrite Hfin.
    + rewrite Hp. by apply pipe_rel_lock.
    + by rewrite Hpr, E1.
  - intros Hbig Hro. replace k with (512 - length q)%nat in * by lia.
    replace (n - (512 - length q))%nat with (S (n - (512 - length q) - 1)) in E by lia.
    destruct (write_full_fails id c _ s2 _ (n - (512 - length q) - 1) (drop (512 - length q) addr) W R2)
      as (s3 & E5 & I3 & R3); [rewrite length_app, Hk; lia|by rewrite E3|].
    exists s3. split_and!; try done. by erewrite bind_ok by (rewrite E; exact E5).
  - intros Hbig Hro i p Hn0 Hcp Hpi Hkl Hst. replace k with (512 - length q)%nat in * by lia.
    replace (n - (512 - length q))%nat with (S (n - (512 - length q) - 1)) in E by lia.
    destruct (write_full_sleeps id c _ s2 _ (n - (512 - length q) - 1) (drop (512 - length q) addr) i p W R2)
      as (s3 & kk & E5 & Hpp & Hp'); try done; [rewrite length_app, Hk; lia|by rewrite E3|by rewrite E1|].
    eexists s3, _. split_and!; [|by rewrite Hpp|by rewrite Hpp; apply pipe_rel_lock|done].
    unfold bind at 1. by rewrite E, E5.
Qed.

(** C29. [piperead] of up to [n] bytes takes them from the front of the queue,
    in order, and wakes the writers asleep on the pipe; with the write end
    closed and nothing left it returns 0. On an empty pipe whose write end is
    open it gives up the pipe's lock and the CPU with the process asleep on
    the pipe's read channel. *)
Theorem piperead_spec (id : nat) (s : pst) (q : list Z) (n : nat) :
  pipe_idle s -> pipe_rel (pp s) q ->
  (q <> [] \/ writeopen (pp s) = 0 ->
     exists s', piperead id (Z.of_nat n) s = Ok (Z.of_nat (length (take n q)), take n q) s' /\ pipe_idle s' /\
       pipe_rel (pp s') (drop n q) /\
       b_procs (pp_base s') = wake (ChNwrite id) <$> b_procs (pp_base s)) /\
  (q = [] -> writeopen (pp s) <> 0 -> forall i p,
     ncli (b_cpu (pp_base s)) = 0 -> cproc (b_cpu (pp_base s)) = Some i ->
     b_procs (pp_base s) !! i = Some p -> p_killed p = 0 ->
     exists s1 k, piperead id (Z.of_nat n) s = Switch s1 k /\ free (pp_lock (pp s1)) /\ pipe_rel (pp s1) [] /\
       exists p', b_procs (pp_base s1) !! i = Some p' /\ p_state p' = SLEEPING /\ p_chan p' = Some (ChNread id)).
Proof.
  intros I R. set (c := b_cpu (pp_base s)). assert (Hc : 0 <= ncli c) by apply (pi_base _ I).
  unfold piperead. rewrite (bind_ok _ _ _ _ _ (pipe_acquire s I)). fold c. rewrite Nat2Z.id. set (s1 := Pst _ _).
  assert (R1 : pipe_rel (pp s1) q) by (by apply pipe_rel_lock).
  assert (W : working c (pp_lock (pp s)) s1) by (split; try done; apply (pi_base _ I)).
  split.
  - intros Hgo. assert (Hw : wait_data id wakeups s1 = Ok true s1).
    { unfold wakeups. cbn [wait_data]. erewrite bind_ok by reflexivity. rewrite (pipe_empty _ _ R1).
      destruct Hgo as [Hq|Hwo]; [by rewrite bool_decide_eq_false_2|].
      cbn [s1 pp set_pp_lock writeopen]. rewrite Hwo. by rewrite andb_false_r. }
    rewrite (bind_ok _ _ _ _ _ Hw). cbv iota.
    destruct (read_loop_run n s1 q [] R1) as (s2 & E & R2 & E1 & E2 & _). rewrite (bind_ok _ _ _ _ _ E). cbn [app].
    assert (W2 : working c (pp_lock (pp s)) s2) by (destruct W; split; rewrite ?E1, ?E2; done).
    destruct (pipe_finish c _ s2 (ChNwrite id) W2) as (s' & Hfin & Hp & I' & Hpr). exists s'. split_and!; try done.
    + unfold bind in *. destruct (zoom (L := pipe_base) (wakeup (ChNwrite id)) s2) as [[] s3| | | |]; try done.
      cbn [obind] in *. by rewrite Hfin.
    + rewrite Hp. by apply pipe_rel_lock.
    + by rewrite Hpr, E1.
  - intros -> Hwo i p Hn0 Hcp Hpi Hkl.
    destruct (pipe_sleep c _ s1 i p (ChNread id) W Hn0 Hcp Hpi) as (s4 & kk & Hsl & Hpp & Hpr).
    eexists s4, _. split_and!; [|by rewrite Hpp|rewrite Hpp; by apply pipe_rel_lock|].
    + unfold bind at 1, wakeups. cbn [wait_data]. erewrite bind_ok by reflexivity. rewrite (pipe_empty _ _ R1).
      cbn [s1 pp set_pp_lock writeopen]. destruct (writeopen (pp s) =? 0) eqn:Ew; [lia|].
      rewrite bool_decide_eq_true_2 by done. cbn [negb andb]. erewrite bind_ok.
      2:{ unfold proc_killed. erewrite bind_ok by reflexivity. rewrite (wg_cpu _ _ _ W).
          replace (cproc (cli c)) with (Some i) by (by rewrite <- Hcp). erewrite bind_ok by reflexivity.
          change (b_procs (pp_base s1)) with (b_procs (pp_base s)). rewrite Hpi. erewrite bind_ok by reflexivity. rewrite Hkl. reflexivity. }
      cbn [Z.eqb negb]. unfold bind at 1. rewrite Hsl. reflexivity.
    + rewrite Hpr. eexists. cbn [s1 pp_base b_procs]. rewrite list_lookup_alter_eq, Hpi. by split_and!.
Qed.

(** A pipe with two bytes in it, at counters about to wrap around. *)
Definition pst0 : pst :=
  Pst ptable0 (Pipe (Spinlock 0 "pipe" None []) (<[511%nat := 7]> (<[0%nat := 8]> (replicate 512 0)))
    (2 ^ 32 - 1) 1 1 1).

Lemma pst0_rel : pipe_rel (pp pst0) [7; 8].
Proof.
  split; try done; [simpl; lia|]. intros i x Hi.
  do 2 (destruct i as [|i]; [injection Hi as <-; reflexivity|]). done.
Qed.

Lemma pipewrite_spec_witness :
  (exists s', pipewrite 3 [9; 10] 2 pst0 = Ok 2 s' /\ pipe_idle s' /\ pipe_rel (pp s') [7; 8; 9; 10] /\
     b_procs (pp_base s') = wake (ChNread 3) <$> b_procs (pp_base pst0)) /\
  (exists s1 k, pipewrite 3 (replicate 600 1) 600 pst0 = Switch s1 k /\ free (pp_lock (pp s1)) /\
       pipe_rel (pp s1) ([7; 8] ++ take (512 - 2) (replicate 600 1)) /\
       exists p', b_procs (pp_base s1) !! 0%nat = Some p' /\ p_state p' = SLEEPING /\ p_chan p' = Some (ChNwrite 3)).
Proof.
  assert (pipe_idle pst0) as I by (by split). split.
  - apply (proj1 (pipewrite_spec 3 pst0 [7; 8] [9; 10] 2 I pst0_rel (Nat.le_refl 2)
      ltac:(repeat constructor; unfold is_u8; lia))). simpl. lia.
  - apply (proj2 (proj2 (pipewrite_spec 3 pst0 [7; 8] (replicate 600 1) 600 I pst0_rel
      ltac:(rewrite length_replicate; reflexivity) ltac:(apply Forall_replicate; unfold is_u8; lia)))
      ltac:(cbn [length]; lia) ltac:(discriminate) 0%nat (proc0 RUNNING 1 None)); reflexivity.
Defined.

Lemma piperead_spec_witness :
  exists s', piperead 3 1 pst0 = Ok (1, [7]) s' /\ pipe_idle s' /\ pipe_rel (pp s') [8] /\
    b_procs (pp_base s') = wake (ChNwrite 3) <$> b_procs (pp_base pst0).
Proof.
  apply (proj1 (piperead_spec 3 pst0 [7; 8] 1 ltac:(by split) pst0_rel)). left. discriminate.
Defined.
