(* ===== verification/Sh.v ===== *)
(** The shell's parser: sh.c's gettoken, peek and the recursive descent from
    parsecmd to parseexec, and nulterminate. The parser is proved to return on
    every line, to read back what is printed from a syntax tree, and
    nulterminate to leave each word a string of its own. *)
From stdpp Require Import base numbers list strings.
From S2P Require Import Prelude Params Str.

(** *** struct cmd and its variants

    A pointer into the line is the part of the line from there to its end, so
    that two pointers are compared by length; a word is the pair of pointers
    to its first character and past its last. *)
Abbreviation ptr := (list Z).
Abbreviation word := (ptr * ptr)%type.

Definition MAXARGS : nat := 10.

Inductive cmd (W : Type) :=
| EXEC (argv : list W)
| REDIR (c : cmd W) (file : W) (mode fd : Z)
| PIPE (left right : cmd W)
| LIST (left right : cmd W)
| BACK (c : cmd W).
Arguments EXEC {W}. Arguments REDIR {W}. Arguments PIPE {W}. Arguments LIST {W}. Arguments BACK {W}.

(** The descriptors that are redirected are 0 and 1. *)
Fixpoint redirs_std {W} (c : cmd W) : Prop :=
  match c with
  | EXEC _ => True
  | REDIR c _ _ fd => (fd = 0 \/ fd = 1) /\ redirs_std c
  | LIST l r | PIPE l r => redirs_std l /\ redirs_std r
  | BACK c => redirs_std c
  end.

(** *** whitespace, symbols *)
Definition whitespace : list Z := [32; 9; 13; 10; 11].
Definition symbols : list Z := [60; 124; 62; 38; 59; 40; 41].

(** [strchr(l, c)] on a constant string, for a character other than NUL. *)
Definition oneof (l : list Z) (c : Z) : bool := existsb (Z.eqb c) l.

(** [while(s < es && f( *s)) s++]: where the scan stops. *)
Fixpoint scan (f : Z -> bool) (s : ptr) : ptr :=
  match s with
  | [] => []
  | c :: s' => if f c then scan f s' else s
  end.
Definition skip_ws (s : ptr) : ptr := scan (oneof whitespace) s.
Definition in_word (c : Z) : bool := negb (oneof whitespace c) && negb (oneof symbols c).

(** [*s] *)
Definition at0 (s : ptr) : Z := default 0 (head s).

(** *** gettoken: the token and the pointers [*q] and [*eq]. ['a'] is 97,
    ['+'] is 43. *)
Definition gettoken : M ptr (Z * word) :=
  s <- get ;;
  let s := skip_ws s in
  let q := s in
  let '(tok, s) :=
    if at0 s =? 0 then (0, s)
    else if oneof [124; 40; 41; 59; 38; 60] (at0 s) then (at0 s, tail s)
    else if at0 s =? 62 then
      let s := tail s in
      if at0 s =? 62 then (43, tail s) else (62, s)
    else (97, scan in_word s) in
  let eq := s in
  modify (fun _ => skip_ws s) ;;;
  ret (tok, (q, eq)).

(** *** peek *)
Definition peek (toks : list Z) : M ptr bool :=
  s <- get ;;
  let s := skip_ws s in
  modify (fun _ => s) ;;;
  ret (negb (at0 s =? 0) && oneof toks (at0 s)).

(** *** parseredirs. The node being built is passed around as the list of the
    redirections put around it so far, the innermost first: parseexec goes on
    filling in the innermost node while it is inside them. *)
Abbreviation redir := (word * Z * Z)%type.

Fixpoint redir_loop (fuel : nat) (rs : list redir) : M ptr (list redir) :=
  match fuel with
  | O => diverge
  | S fuel =>
      more <- peek [60; 62] ;;
      if more : bool then
        r1 <- gettoken ;;
        r2 <- gettoken ;;
        let tok := r1.1 in
        let '(t, w) := r2 in
        if negb (t =? 97) then panic "missing file for redirection" else
        let rs :=
          if tok =? 60 then rs ++ [(w, O_RDONLY, 0)]
          else if tok =? 62 then rs ++ [(w, Z.lor O_WRONLY O_CREATE, 1)]
          else if tok =? 43 then rs ++ [(w, Z.lor O_WRONLY O_CREATE, 1)]
          else rs in
        redir_loop fuel rs
      else ret rs
  end.
Definition parseredirs (rs : list redir) : M ptr (list redir) :=
  s <- get ;; redir_loop (S (length s)) rs.

(** The node inside its redirections. *)
Definition wrap {W} (c : cmd W) (rs : list (W * Z * Z)) : cmd W :=
  foldl (fun c r => REDIR c r.1.1 r.1.2 r.2) c rs.

(** *** parseexec's loop over the arguments *)
Fixpoint arg_loop (fuel : nat) (argv : list word) (rs : list redir) : M ptr (cmd word) :=
  match fuel with
  | O => diverge
  | S fuel =>
      stop <- peek [124; 41; 38; 59] ;;
      if stop : bool then ret (wrap (EXEC argv) rs) else
      r1 <- gettoken ;;
      let '(tok, w) := r1 in
      if tok =? 0 then ret (wrap (EXEC argv) rs) else
      if negb (tok =? 97) then panic "syntax" else
      let argv := argv ++ [w] in
      if decide (MAXARGS <= length argv)%nat then panic "too many args" else
      rs <- parseredirs rs ;;
      arg_loop fuel argv rs
  end.

(** [while(peek(ps, es, "&"))] of parseline *)
Fixpoint back_loop (fuel : nat) (c : cmd word) : M ptr (cmd word) :=
  match fuel with
  | O => diverge
  | S fuel =>
      amp <- peek [38] ;;
      if amp : bool then gettoken ;;; back_loop fuel (BACK c) else ret c
  end.

(** *** parseline, parsepipe, parseblock, parseexec *)
Fixpoint parseline (fuel : nat) : M ptr (cmd word) :=
  match fuel with
  | O => diverge
  | S fuel =>
      c <- parsepipe fuel ;;
      s <- get ;;
      c <- back_loop (S (length s)) c ;;
      semi <- peek [59] ;;
      if semi : bool then
        gettoken ;;;
        r <- parseline fuel ;;
        ret (LIST c r)
      else ret c
  end
with parsepipe (fuel : nat) : M ptr (cmd word) :=
  match fuel with
  | O => diverge
  | S fuel =>
      c <- parseexec fuel ;;
      bar <- peek [124] ;;
      if bar : bool then
        gettoken ;;;
        r <- parsepipe fuel ;;
        ret (PIPE c r)
      else ret c
  end
with parseblock (fuel : nat) : M ptr (cmd word) :=
  match fuel with
  | O => diverge
  | S fuel =>
      op <- peek [40] ;;
      if negb op then panic "parseblock" else
      gettoken ;;;
      c <- parseline fuel ;;
      cl <- peek [41] ;;
      if negb cl then panic "syntax - missing )" else
      gettoken ;;;
      rs <- parseredirs [] ;;
      ret (wrap c rs)
  end
with parseexec (fuel : nat) : M ptr (cmd word) :=
  match fuel with
  | O => diverge
  | S fuel =>
      op <- peek [40] ;;
      if op : bool then parseblock fuel else
      rs <- parseredirs [] ;;
      s <- get ;;
      arg_loop (S (length s)) [] rs
  end.

(** *** nulterminate, on the line as a buffer; a pointer's position is its
    distance from the line's start. *)
Definition pos (n : nat) (p : ptr) : nat := (n - length p)%nat.

Fixpoint term_words (n : nat) (l : list word) : M mem unit :=
  match l with
  | [] => ret tt
  | w :: l => store8 (pos n w.2) 0 ;;; term_words n l
  end.

Fixpoint nulterminate (n : nat) (c : cmd word) : M mem unit :=
  match c with
  | EXEC argv => term_words n argv
  | REDIR c file _ _ => nulterminate n c ;;; store8 (pos n file.2) 0
  | PIPE l r | LIST l r => nulterminate n l ;;; nulterminate n r
  | BACK c => nulterminate n c
  end.

(** *** parsecmd: the tree and the buffer nulterminate leaves. *)
Definition enough_fuel (s : ptr) : nat := (5 * length s + 5)%nat.

Definition parse (s : list Z) : outcome ptr (cmd word) :=
  (c <- parseline (enough_fuel s) ;;
   peek [] ;;;
   rest <- get ;;
   match rest with
   | [] => ret c
   | _ => panic "syntax"
   end) s.

Definition parsecmd : M mem (cmd word) :=
  buf <- get ;;
  let s := upto0 buf in
  match parse s with
  | Ok c _ => nulterminate (length s) c ;;; ret c
  | Panic m => panic m
  | Diverge => diverge
  | _ => fault
  end.

(** ** Every line is parsed or rejected *)

(** [m] returns with [P], or panics. *)
Definition safe {A} (m : M ptr A) (P : A -> ptr -> Prop) (l : ptr) : Prop :=
  match m l with Ok a l' => P a l' | Panic _ => True | _ => False end.

Lemma safe_ret {A} (a : A) (P : A -> ptr -> Prop) l : P a l -> safe (ret a) P l.
Proof. done. Qed.
Lemma safe_bind {A B} (m : M ptr A) (f : A -> M ptr B) P l : safe m (fun a => safe (f a) P) l -> safe (bind m f) P l.
Proof. unfold safe, bind. by destruct (m l). Qed.
Lemma safe_mono {A} (m : M ptr A) (P Q : A -> ptr -> Prop) l :
  safe m P l -> (forall a l', P a l' -> Q a l') -> safe m Q l.
Proof. unfold safe. destruct (m l); auto. Qed.
Lemma safe_ok {A} (m : M ptr A) (P : A -> ptr -> Prop) l a l' : m l = Ok a l' -> P a l' -> safe m P l.
Proof. unfold safe. by intros ->. Qed.

Lemma scan_suffix f s : scan f s `suffix_of` s.
Proof. induction s as [|c s IH]; simpl; [done|]. destruct (f c); [by apply suffix_cons_r|done]. Qed.
Lemma scan_stop f s : scan f s = [] \/ exists c t, scan f s = c :: t /\ f c = false.
Proof. induction s as [|c s IH]; simpl; [by left|]. destruct (f c) eqn:E; [done|]. right. by exists c, s. Qed.
Lemma suffix_length_le (a b : ptr) : a `suffix_of` b -> (length a <= length b)%nat.
Proof. intros [k ->]. rewrite length_app. lia. Qed.

(** The characters of a word. *)
Definition word_text (w : word) : list Z := take (length w.1 - length w.2) w.1.

Lemma scan_text f s : word_text (s, scan f s) ++ scan f s = s /\ Forall (fun c => f c = true) (word_text (s, scan f s)).
Proof.
  unfold word_text. cbn [fst snd]. induction s as [|c s [IH1 IH2]]; [by split; [|apply Forall_nil]|].
  cbn [scan]. destruct (f c) eqn:E.
  - pose proof (suffix_length_le _ _ (scan_suffix f s)). cbn [length].
    rewrite Nat.sub_succ_l by done. cbn [take app]. rewrite IH1. split; [done|]. by apply Forall_cons.
  - rewrite Nat.sub_diag. split; [done|by apply Forall_nil].
Qed.

(** A word of the line [s]: a part of it without whitespace or symbols, up to
    the next of them. *)
Record word_ok (s : list Z) (w : word) : Prop := {
  wo_start : w.1 `suffix_of` s;
  wo_text : word_text w ++ w.2 = w.1;
  wo_in : Forall (fun c => in_word c = true) (word_text w);
  wo_end : w.2 = [] \/ exists c t, w.2 = c :: t /\ in_word c = false;
}.

Section total.
  (** The line being parsed. *)
  Context (s : list Z).

Lemma gettoken_safe l (P : Z * word -> ptr -> Prop) :
    l `suffix_of` s ->
    (forall tok w l', l' `suffix_of` s -> (length l' <= length l)%nat ->
       (at0 (skip_ws l) <> 0 -> (length l' < length l)%nat) ->
       (tok = 97 -> word_ok s w) -> (tok = 0 <-> at0 (skip_ws l) = 0) -> P (tok, w) l') ->
    safe gettoken P l.
  Proof.
    intros Hl HP. unfold gettoken. apply safe_bind. eapply safe_ok; [reflexivity|]. cbv zeta.
    pose proof (scan_suffix (oneof whitespace) l) as Hq. fold (skip_ws l) in Hq. set (q := skip_ws l) in *.
    assert (Hgo : forall tok e, e `suffix_of` q -> (at0 q <> 0 -> (length e < length q)%nat) ->
      (tok = 97 -> word_ok s (q, e)) -> (tok = 0 <-> at0 q = 0) ->
      safe (modify (fun _ => skip_ws e) ;;; ret (tok, (q, e))) P l).
    { intros tok e He Hlt Hw Ht. apply safe_bind. eapply safe_ok; [reflexivity|]. apply safe_ret.
      pose proof (scan_suffix (oneof whitespace) e) as Hs. fold (skip_ws e) in Hs.
      pose proof (suffix_length_le _ _ Hq). pose proof (suffix_length_le _ _ He). pose proof (suffix_length_le _ _ Hs).
      apply HP; [|lia|intros; lia|done|done]. by transitivity e; [|transitivity q; [|transitivity l]]. }
    assert (Htail : at0 q <> 0 -> tail q `suffix_of` q /\ (length (tail q) < length q)%nat).
    { destruct q; [done|]. intros _. split; [by apply suffix_cons_r|simpl; lia]. }
    destruct (at0 q =? 0) eqn:E0; [apply Hgo; try done; lia|]. apply Z.eqb_neq in E0.
    destruct (Htail E0) as [Ht1 Ht2].
    destruct (oneof [124; 40; 41; 59; 38; 60] (at0 q)) eqn:E1.
    { apply Hgo; [done|done| |done]. intros Ea. rewrite Ea in E1. done. }
    destruct (at0 q =? 62) eqn:E2.
    { destruct (at0 (tail q) =? 62) eqn:E3; [|apply Hgo; done].
      assert (tail (tail q) `suffix_of` tail q) as H3 by (destruct (tail q); [done|by apply suffix_cons_r]).
      pose proof (suffix_length_le _ _ H3). apply Hgo; try done; [by transitivity (tail q)|lia]. }
    destruct (scan_text in_word q) as [Hx1 Hx2].
    apply Hgo; [apply scan_suffix| | |done].
    - intros _. destruct q as [|c q'] eqn:Eq; [done|]. cbn [scan].
      assert (in_word c = true) as ->.
      { unfold in_word. destruct (scan_stop (oneof whitespace) l) as [Hn|(c' & t & Hn & Hc)]; fold (skip_ws l) in Hn.
        - fold q in Hn. congruence.
        - assert (c' = c) as -> by (unfold q in Eq; congruence). rewrite Hc. cbn [negb andb].
          unfold at0 in *. cbn in E0, E1, E2. unfold symbols, oneof in *. cbn in *.
          destruct (c =? 60), (c =? 124), (c =? 62), (c =? 38), (c =? 59), (c =? 40), (c =? 41); done. }
      pose proof (suffix_length_le _ _ (scan_suffix in_word q')). simpl. lia.
    - intros _. split; [by transitivity l|done|done|apply scan_stop].
  Qed.

Lemma peek_safe toks l (P : bool -> ptr -> Prop) :
    l `suffix_of` s ->
    (forall b l', l' `suffix_of` s -> (length l' <= length l)%nat -> (b = true -> at0 (skip_ws l') <> 0) -> P b l') ->
    safe (peek toks) P l.
  Proof.
    intros Hl HP. unfold peek. apply safe_bind. eapply safe_ok; [reflexivity|]. apply safe_bind.
    eapply safe_ok; [reflexivity|]. apply safe_ret. pose proof (scan_suffix (oneof whitespace) l) as Hq.
    apply HP; [by transitivity l|by apply suffix_length_le|].
    intros [H _]%andb_prop. assert (skip_ws (skip_ws l) = skip_ws l) as ->.
    { destruct (scan_stop (oneof whitespace) l) as [Hn|(c & t & Hn & Hc)]; fold (skip_ws l) in Hn; rewrite Hn; [done|].
      unfold skip_ws. cbn [scan]. by rewrite Hc. }
    intros E. rewrite E in H. done.
  Qed.

  (** The words of a tree. *)
Fixpoint words_of (c : cmd word) : list word :=
    match c with
    | EXEC argv => argv
    | REDIR c f _ _ => words_of c ++ [f]
    | PIPE l r | LIST l r => words_of l ++ words_of r
    | BACK c => words_of c
    end.
Definition cmd_ok (c : cmd word) : Prop := Forall (word_ok s) (words_of c) /\ redirs_std c.
Definition redirs_ok (rs : list redir) : Prop := Forall (fun r => word_ok s r.1.1 /\ (r.2 = 0 \/ r.2 = 1)) rs.

Lemma cmd_ok_app c d : cmd_ok c -> cmd_ok d -> cmd_ok (LIST c d) /\ cmd_ok (PIPE c d).
  Proof. intros [] []. split; (split; [by apply Forall_app|done]). Qed.

Lemma wrap_ok rs : forall c, cmd_ok c -> redirs_ok rs -> cmd_ok (wrap c rs).
  Proof.
    induction rs as [|r rs IH]; intros c Hc Hr; [done|]. apply Forall_cons in Hr as [Hr Hrs].
    apply IH; [|done]. destruct Hc as [Hw Hs], Hr as [Hr Hfd]. split; [|done].
    apply Forall_app. split; [done|]. by apply Forall_cons; split; [|apply Forall_nil].
  Qed.

Lemma parseredirs_safe rs l (P : list redir -> ptr -> Prop) :
    l `suffix_of` s -> redirs_ok rs ->
    (forall rs' l', redirs_ok rs' -> l' `suffix_of` s -> (length l' <= length l)%nat -> P rs' l') ->
    safe (parseredirs rs) P l.
  Proof.
    intros Hl Hrs HP. unfold parseredirs. apply safe_bind. eapply safe_ok; [reflexivity|].
    assert (Hgo : forall n l1 rs, (length l1 < n)%nat -> l1 `suffix_of` s -> (length l1 <= length l)%nat ->
      redirs_ok rs -> safe (redir_loop n rs) P l1).
    { clear Hl Hrs rs. induction n as [|n IH]; intros l1 rs Hn Hl1 Hle Hrs; [lia|]. cbn [redir_loop].
      apply safe_bind. apply peek_safe; [done|]. intros [|] l2 Hl2 Hle2 Hne; [|apply safe_ret, HP; try done; lia].
      apply safe_bind. apply gettoken_safe; [done|]. intros tok w1 l3 Hl3 Hle3 Hlt3 _ _.
      apply safe_bind. apply gettoken_safe; [done|]. intros t w l4 Hl4 Hle4 _ Hw _.
      specialize (Hlt3 (Hne eq_refl)). cbv zeta. destruct (negb (t =? 97)) eqn:Et; [done|].
      assert (word_ok s w) by (apply Hw; lia).
      apply IH; [lia|done|lia|]. cbn [fst]. destruct (tok =? 60), (tok =? 62), (tok =? 43); try done;
        (apply Forall_app; split; [done|apply Forall_cons; split; [split; [done|auto]|apply Forall_nil; done]]). }
    apply Hgo; done || lia.
  Qed.

  (** What a parsing routine promises. *)
Definition parses (m : M ptr (cmd word)) (l : ptr) : Prop :=
    safe m (fun c l' => cmd_ok c /\ l' `suffix_of` s /\ (length l' <= length l)%nat) l.

Lemma arg_loop_safe n : forall l argv rs,
    (length l < n)%nat -> l `suffix_of` s -> Forall (word_ok s) argv -> redirs_ok rs -> parses (arg_loop n argv rs) l.
  Proof.
    induction n as [|n IH]; intros l argv rs Hn Hl Ha Hr; [lia|]. unfold parses. cbn [arg_loop]. apply safe_bind.
    apply peek_safe; [done|]. intros [|] l2 Hl2 Hle2 _; [apply safe_ret; split_and!; [by apply wrap_ok|done|done]|].
    apply safe_bind. apply gettoken_safe; [done|]. intros tok w l3 Hl3 Hle3 Hlt3 Hw Ht0. cbv zeta.
    destruct (tok =? 0) eqn:E0; [apply safe_ret; split_and!; [by apply wrap_ok|done|lia]|].
    destruct (negb (tok =? 97)) eqn:Et; [done|]. assert (word_ok s w) by (apply Hw; lia).
    case_decide; [done|]. apply safe_bind. apply parseredirs_safe; [done|done|]. intros rs' l4 Hr4 Hl4 Hle4.
    assert (length l3 < length l2)%nat by (apply Hlt3; intros E%Ht0; lia).
    eapply safe_mono; [apply IH; [lia|done| |done]|].
    - apply Forall_app. split; [done|]. by apply Forall_cons; split; [|apply Forall_nil].
    - intros c l' (? & ? & ?). split_and!; try done. lia.
  Qed.

Lemma back_loop_safe n : forall l c,
    (length l < n)%nat -> l `suffix_of` s -> cmd_ok c -> parses (back_loop n c) l.
  Proof.
    induction n as [|n IH]; intros l c Hn Hl Hc; [lia|]. unfold parses. cbn [back_loop]. apply safe_bind.
    apply peek_safe; [done|]. intros [|] l2 Hl2 Hle2 Hne; [|by apply safe_ret].
    apply safe_bind. apply gettoken_safe; [done|]. intros tok w l3 Hl3 Hle3 Hlt3 _ _.
    specialize (Hlt3 (Hne eq_refl)). eapply safe_mono; [apply IH; [lia|done|done]|].
    intros c' l' (? & ? & ?). split_and!; try done. lia.
  Qed.

Lemma parse_safe n :
    (forall l, (5 * length l + 4 <= n)%nat -> l `suffix_of` s -> parses (parseline n) l) /\
    (forall l, (5 * length l + 3 <= n)%nat -> l `suffix_of` s -> parses (parsepipe n) l) /\
    (forall l, (5 * length l + 1 <= n)%nat -> l `suffix_of` s -> parses (parseblock n) l) /\
    (forall l, (5 * length l + 2 <= n)%nat -> l `suffix_of` s -> parses (parseexec n) l).
  Proof.
    induction n as [|n (IHl & IHp & IHb & IHe)]; [split_and!; intros; lia|].
    split_and!; intros l Hn Hl; unfold parses; cbn [parseline parsepipe parseblock parseexec]; apply safe_bind.
    - eapply safe_mono; [apply IHp; [lia|done]|]. intros c l1 (Hc & Hl1 & Hle1).
      apply safe_bind. eapply safe_ok; [reflexivity|]. apply safe_bind.
      eapply safe_mono; [apply back_loop_safe; [lia|done|done]|]. intros c2 l2 (Hc2 & Hl2 & Hle2).
      apply safe_bind. apply peek_safe; [done|]. intros [|] l3 Hl3 Hle3 Hne; [|apply safe_ret; split_and!; try done; lia].
      apply safe_bind. apply gettoken_safe; [done|]. intros tok w l4 Hl4 Hle4 Hlt4 _ _. specialize (Hlt4 (Hne eq_refl)).
      apply safe_bind. eapply safe_mono; [apply IHl; [lia|done]|]. intros c5 l5 (Hc5 & Hl5 & Hle5).
      apply safe_ret. split_and!; [by apply cmd_ok_app|done|lia].
    - eapply safe_mono; [apply IHe; [lia|done]|]. intros c l1 (Hc & Hl1 & Hle1).
      apply safe_bind. apply peek_safe; [done|]. intros [|] l3 Hl3 Hle3 Hne; [|apply safe_ret; split_and!; try done; lia].
      apply safe_bind. apply gettoken_safe; [done|]. intros tok w l4 Hl4 Hle4 Hlt4 _ _. specialize (Hlt4 (Hne eq_refl)).
      apply safe_bind. eapply safe_mono; [apply IHp; [lia|done]|]. intros c5 l5 (Hc5 & Hl5 & Hle5).
      apply safe_ret. split_and!; [by apply cmd_ok_app|done|lia].
    - apply peek_safe; [done|]. intros [|] l1 Hl1 Hle1 Hne; [|done]. cbn [negb].
      apply safe_bind. apply gettoken_safe; [done|]. intros tok w l2 Hl2 Hle2 Hlt2 _ _. specialize (Hlt2 (Hne eq_refl)).
      apply safe_bind. eapply safe_mono; [apply IHl; [lia|done]|]. intros c3 l3 (Hc3 & Hl3 & Hle3).
      apply safe_bind. apply peek_safe; [done|]. intros [|] l4 Hl4 Hle4 _; [|done]. cbn [negb].
      apply safe_bind. apply gettoken_safe; [done|]. intros tok' w' l5 Hl5 Hle5 _ _ _.
      apply safe_bind. apply parseredirs_safe; [done|by apply Forall_nil|]. intros rs l6 Hr6 Hl6 Hle6.
      apply safe_ret. split_and!; [by apply wrap_ok|done|lia].
    - apply peek_safe; [done|]. intros [|] l1 Hl1 Hle1 _.
      { eapply safe_mono; [apply IHb; [lia|done]|]. intros c l' (? & ? & ?). split_and!; try done. lia. }
      apply safe_bind. apply parseredirs_safe; [done|by apply Forall_nil|]. intros rs l6 Hr6 Hl6 Hle6.
      apply safe_bind. eapply safe_ok; [reflexivity|].
      eapply safe_mono; [apply arg_loop_safe; [lia|done|by apply Forall_nil|done]|].
      intros c l' (? & ? & ?). split_and!; try done. lia.
  Qed.
End total.

(** *** nulterminate *)

(** The buffer with a NUL after each word. *)
Definition zeros (n : nat) (l : list word) (b : mem) : mem := foldl (fun b (w : word) => <[pos n w.2 := 0]> b) b l.

Lemma zeros_app n l l' b : zeros n (l ++ l') b = zeros n l' (zeros n l b).
Proof. unfold zeros. apply foldl_app. Qed.
Lemma length_zeros n l : forall b, length (zeros n l b) = length b.
Proof. induction l as [|w l IH]; intros b; [done|]. cbn. unfold zeros in IH. by rewrite IH, length_insert. Qed.

Lemma lookup_zeros n l : forall b i, (forall w, w ∈ l -> pos n w.2 < length b)%nat ->
  zeros n l b !! i = if decide (i ∈ map (fun w : word => pos n w.2) l) then Some 0 else b !! i.
Proof.
  induction l as [|w l IH] using rev_ind; intros b i Hb; [cbn; by rewrite decide_False by apply not_elem_of_nil|].
  rewrite zeros_app. cbn [zeros foldl]. rewrite map_app. cbn [map].
  assert (Hb' : forall w, w ∈ l -> (pos n w.2 < length b)%nat) by (intros; apply Hb, elem_of_app; by left).
  destruct (decide (i = pos n w.2)) as [->|Hne].
  - rewrite list_lookup_insert_eq by (rewrite length_zeros; apply Hb, elem_of_app; right; by apply list_elem_of_singleton).
    rewrite decide_True; [done|]. apply elem_of_app. right. by apply list_elem_of_singleton.
  - rewrite list_lookup_insert_ne by done. rewrite IH by done.
    destruct (decide (i ∈ map _ l)) as [Hi|Hi].
    + rewrite decide_True; [done|]. apply elem_of_app. by left.
    + rewrite decide_False; [done|]. rewrite elem_of_app, list_elem_of_singleton. tauto.
Qed.

Lemma nulterminate_run n c : forall b, (forall w, w ∈ words_of c -> pos n w.2 < length b)%nat ->
  nulterminate n c b = Ok tt (zeros n (words_of c) b).
Proof.
  induction c as [argv|c IH w m fd|c1 IH1 c2 IH2|c1 IH1 c2 IH2|c IH]; intros b Hb; cbn [nulterminate words_of] in *.
  - revert b Hb. induction argv as [|w argv IH]; intros b Hb; [done|]. cbn [term_words].
    erewrite bind_ok by (apply store8_run, Hb; left). apply IH.
    intros w' Hw'. rewrite length_insert. apply Hb. by right.
  - rewrite (bind_ok _ _ _ _ _ (IH b ltac:(intros; apply Hb, elem_of_app; by left))).
    rewrite store8_run, zeros_app; [done|]. rewrite length_zeros. apply Hb, elem_of_app. right. by apply list_elem_of_singleton.
  - rewrite (bind_ok _ _ _ _ _ (IH1 b ltac:(intros; apply Hb, elem_of_app; by left))).
    rewrite IH2, zeros_app; [done|]. intros. rewrite length_zeros. apply Hb, elem_of_app. by right.
  - rewrite (bind_ok _ _ _ _ _ (IH1 b ltac:(intros; apply Hb, elem_of_app; by left))).
    rewrite IH2, zeros_app; [done|]. intros. rewrite length_zeros. apply Hb, elem_of_app. by right.
  - by apply IH.
Qed.

(** A word's place in the line. *)
Lemma word_at s w : word_ok s w ->
  exists k, s = k ++ word_text w ++ w.2 /\ pos (length s) w.1 = length k /\
    pos (length s) w.2 = (length k + length (word_text w))%nat.
Proof.
  intros [[k Hk] Ht _ _]. exists k. unfold pos. rewrite Hk, <- Ht, !length_app. split_and!; [done|lia|lia].
Qed.

(** No word contains another's end. *)
Lemma ends_outside s w w' i x :
  word_ok s w -> word_ok s w' -> word_text w !! i = Some x ->
  (pos (length s) w.1 + i)%nat <> pos (length s) w'.2.
Proof.
  intros Hw Hw' Hi E. destruct (word_at s w Hw) as (k & Hs & Hp & _). destruct (word_at s w' Hw') as (k' & Hs' & _ & Hp').
  assert (s !! (pos (length s) w.1 + i)%nat = Some x) as Hx.
  { rewrite Hp. rewrite Hs at 1. rewrite lookup_app_r by lia. replace (length k + i - length k)%nat with i by lia.
    by apply lookup_app_l_Some. }
  rewrite E, Hp' in Hx. rewrite Hs' in Hx at 1. rewrite app_assoc, lookup_app_r in Hx by (rewrite length_app; lia).
  rewrite length_app, Nat.sub_diag in Hx. pose proof (wo_in _ _ Hw) as HF. rewrite Forall_lookup in HF. specialize (HF i x Hi).
  destruct (wo_end _ _ Hw') as [En|(c & t & En & Hc)]; rewrite En in Hx; [done|]. injection Hx as ->. congruence.
Qed.

Lemma parsecmd_run (buf : mem) (s : list Z) :
  cstr buf 0 s ->
  (exists m, parse s = Panic m /\ parsecmd buf = Panic m) \/
  exists c l buf', parse s = Ok c l /\ parsecmd buf = Ok c buf' /\ redirs_std c /\
    forall w, w ∈ words_of c -> cstr buf' (pos (length s) w.1) (word_text w) /\
      Forall (fun x => in_word x = true) (word_text w).
Proof.
  intros Hs. pose proof Hs as (Ha & Hc & H0).
  assert (Hlen : (length s < length buf)%nat) by (apply lookup_lt_Some in H0; lia).
  unfold parsecmd. erewrite (bind_ok get) by reflexivity. cbv zeta.
  rewrite (upto0_cstr buf s 0 Hs : upto0 buf = s).
  assert (Hsafe : safe (c <- parseline (enough_fuel s) ;; peek [] ;;; rest <- get ;;
     match rest with [] => ret c | _ => panic "syntax" end) (fun c _ => cmd_ok s c) s).
  { apply safe_bind. eapply safe_mono; [apply (parse_safe s (enough_fuel s)); [unfold enough_fuel; lia|done]|].
    intros c l (Hok & Hl & _). apply safe_bind. apply (peek_safe s); [done|]. intros b l' _ _ _.
    apply safe_bind. eapply safe_ok; [reflexivity|]. by destruct l'. }
  unfold safe in Hsafe. fold (parse s) in Hsafe. destruct (parse s) as [c l|m| | |]; [|by left; exists m|done..].
  right. assert (Hends : forall w, w ∈ words_of c -> (pos (length s) w.2 < length buf)%nat) by (intros; unfold pos; lia).
  exists c, l, (zeros (length s) (words_of c) buf). rewrite (bind_ok _ _ _ _ _ (nulterminate_run _ _ _ Hends)).
  split; [done|]. split; [done|]. destruct Hsafe as [Hsafe Hstd]. split; [exact Hstd|]. intros w Hw. rewrite Forall_forall in Hsafe.
  pose proof (Hsafe w Hw) as Hwok. split; [|apply (wo_in _ _ Hwok)].
  destruct (word_at s w Hwok) as (k & Ek & Hp & Hp2). split_and!.
  - intros i x Hi. rewrite lookup_zeros by done. rewrite decide_False.
    + apply (Ha (pos (length s) w.1 + i)%nat). rewrite Hp. rewrite Ek at 1. rewrite lookup_app_r by lia.
      replace (length k + i - length k)%nat with i by lia. by apply lookup_app_l_Some.
    + intros (w' & E & Hw')%list_elem_of_fmap. apply (ends_outside s w w' i x Hwok (Hsafe w' Hw') Hi). exact E.
  - apply Forall_forall. intros x Hx. rewrite Forall_forall in Hc. apply Hc. rewrite Ek, !elem_of_app. auto.
  - rewrite lookup_zeros by done. rewrite decide_True; [done|]. apply list_elem_of_fmap. exists w. split; [|done]. lia.
Qed.

(** C39. Every command line is dealt with: on a buffer that holds a line,
    [parsecmd] either rejects it or returns a tree, after a bounded number of
    steps. In the buffer it leaves, every argument and file name of the tree
    is a string of its own: the word, terminated by a NUL put over the blank
    or symbol behind it; no word overwrites another. *)
Theorem parsecmd_words (buf : mem) (s : list Z) :
  cstr buf 0 s ->
  (exists m, parsecmd buf = Panic m) \/
  exists c buf', parsecmd buf = Ok c buf' /\
    forall w, w ∈ words_of c -> cstr buf' (pos (length s) w.1) (word_text w) /\
      Forall (fun x => in_word x = true) (word_text w).
Proof.
  intros Hs. destruct (parsecmd_run buf s Hs) as [(m & _ & Hm)|(c & l & buf' & _ & Hc & _ & Hw)]; [left|right]; eauto.
Qed.

Lemma parsecmd_words_witness :
  (exists m, parsecmd (text "ls<f" ++ [0; 0]) = Panic m) \/
  exists c buf', parsecmd (text "ls<f" ++ [0; 0]) = Ok c buf' /\
    forall w, w ∈ words_of c -> cstr buf' (pos 4 w.1) (word_text w) /\
      Forall (fun x => in_word x = true) (word_text w).
Proof.
  apply (parsecmd_words (text "ls<f" ++ [0; 0]) (text "ls<f")). split_and!.
  - intros i x Hi. by apply lookup_app_l_Some.
  - repeat (apply Forall_cons; split; [done|]). by apply Forall_nil.
  - reflexivity.
Defined.

(** ** Printing and parsing *)

(** The syntax of a line. A redirection is [<], [>] or [>>] and a file name;
    a simple command has redirections before and after each of its words. *)
Inductive rop := RIn | ROut | RAppend.
Abbreviation rdir := (rop * list Z)%type.

Inductive line :=
| LEnd (p : pline) (bg : nat)
| LSemi (p : pline) (bg : nat) (l : line)
with pline :=
| PEnd (u : ucmd)
| PBar (u : ucmd) (p : pline)
with ucmd :=
| Block (l : line) (rs : list rdir)
| Simple (rs : list rdir) (ws : list (list Z * list rdir)).

Scheme line_mind := Induction for line Sort Prop
  with pline_mind := Induction for pline Sort Prop
  with ucmd_mind := Induction for ucmd Sort Prop.
Combined Scheme syntax_ind from line_mind, pline_mind, ucmd_mind.

(** Each token is printed with a blank behind it. *)
Definition rop_text (o : rop) : list Z := match o with RIn => [60] | ROut => [62] | RAppend => [62; 62] end.
Definition pr_redirs (rs : list rdir) : list Z := concat (map (fun r : rdir => rop_text r.1 ++ [32] ++ r.2 ++ [32]) rs).
Definition pr_words (ws : list (list Z * list rdir)) : list Z :=
  concat (map (fun w : list Z * list rdir => w.1 ++ [32] ++ pr_redirs w.2) ws).
Definition pr_bg (n : nat) : list Z := concat (replicate n [38; 32]).

Fixpoint pr_line (l : line) : list Z :=
  match l with
  | LEnd p bg => pr_pline p ++ pr_bg bg
  | LSemi p bg l => pr_pline p ++ pr_bg bg ++ [59; 32] ++ pr_line l
  end
with pr_pline (p : pline) : list Z :=
  match p with
  | PEnd u => pr_ucmd u
  | PBar u p => pr_ucmd u ++ [124; 32] ++ pr_pline p
  end
with pr_ucmd (u : ucmd) : list Z :=
  match u with
  | Block l rs => [40; 32] ++ pr_line l ++ [41; 32] ++ pr_redirs rs
  | Simple rs ws => pr_redirs rs ++ pr_words ws
  end.

(** The tree it stands for. Both [>] and [>>] create the file and write to it
    from the start. *)
Definition rop_mode (o : rop) : Z * Z :=
  match o with RIn => (O_RDONLY, 0) | ROut | RAppend => (Z.lor O_WRONLY O_CREATE, 1) end.
Definition rdirs (rs : list rdir) : list (list Z * Z * Z) :=
  map (fun r : rdir => (r.2, (rop_mode r.1).1, (rop_mode r.1).2)) rs.
Fixpoint backs {W} (n : nat) (c : cmd W) : cmd W := match n with O => c | S n => backs n (BACK c) end.

Fixpoint tree_line (l : line) : cmd (list Z) :=
  match l with
  | LEnd p bg => backs bg (tree_pline p)
  | LSemi p bg l => LIST (backs bg (tree_pline p)) (tree_line l)
  end
with tree_pline (p : pline) : cmd (list Z) :=
  match p with
  | PEnd u => tree_ucmd u
  | PBar u p => PIPE (tree_ucmd u) (tree_pline p)
  end
with tree_ucmd (u : ucmd) : cmd (list Z) :=
  match u with
  | Block l rs => wrap (tree_line l) (rdirs rs)
  | Simple rs ws => wrap (EXEC (map fst ws)) (rdirs (rs ++ concat (map snd ws)))
  end.

(** Words are not empty and have no blanks, symbols or NULs; a command has
    fewer than MAXARGS of them. *)
Definition good_word (w : list Z) : Prop := w <> [] /\ Forall (fun c => in_word c = true /\ c <> 0) w.
Definition good_redirs (rs : list rdir) : Prop := Forall (fun r => good_word r.2) rs.

Fixpoint good_line (l : line) : Prop :=
  match l with
  | LEnd p _ => good_pline p
  | LSemi p _ l => good_pline p /\ good_line l
  end
with good_pline (p : pline) : Prop :=
  match p with
  | PEnd u => good_ucmd u
  | PBar u p => good_ucmd u /\ good_pline p
  end
with good_ucmd (u : ucmd) : Prop :=
  match u with
  | Block l rs => good_line l /\ good_redirs rs
  | Simple rs ws => good_redirs rs /\ Forall (fun w => good_word w.1 /\ good_redirs w.2) ws /\
      (length ws < MAXARGS)%nat
  end.

(** The words of a tree as text. *)
Fixpoint cmd_text (c : cmd word) : cmd (list Z) :=
  match c with
  | EXEC argv => EXEC (map word_text argv)
  | REDIR c f m fd => REDIR (cmd_text c) (word_text f) m fd
  | PIPE l r => PIPE (cmd_text l) (cmd_text r)
  | LIST l r => LIST (cmd_text l) (cmd_text r)
  | BACK c => BACK (cmd_text c)
  end.

(** *** Tokens *)

(** The rest of a line, not at a blank. *)
Definition at_token (l : ptr) : Prop := skip_ws l = l.

Lemma at_token_cons c l : oneof whitespace c = false -> at_token (c :: l).
Proof. intros H. unfold at_token, skip_ws. cbn [scan]. by rewrite H. Qed.

Lemma skip_blank l : at_token l -> skip_ws (32 :: l) = l.
Proof. intros H. exact H. Qed.

Lemma gettoken_symbol c l :
  c ∈ [124; 40; 41; 59; 38; 60] -> at_token l -> gettoken (c :: 32 :: l) = Ok (c, (c :: 32 :: l, 32 :: l)) l.
Proof.
  intros Hc Hl. assert (oneof whitespace c = false /\ (c =? 0) = false /\ oneof [124; 40; 41; 59; 38; 60] c = true) as (H1 & H2 & H3).
  { repeat (apply elem_of_cons in Hc as [->|Hc]; [done|]). by apply elem_of_nil in Hc. }
  unfold gettoken. erewrite bind_ok by reflexivity. cbv zeta. rewrite (at_token_cons c _ H1).
  change (at0 (c :: 32 :: l)) with c. rewrite H2, H3. cbn [tail]. by rewrite (skip_blank l Hl).
Qed.

Lemma gettoken_out o l : at_token l -> exists w,
  gettoken (rop_text o ++ 32 :: l) = Ok (match o with RIn => 60 | ROut => 62 | RAppend => 43 end, w) l.
Proof.
  intros Hl. unfold gettoken. destruct o; eexists; (erewrite bind_ok by reflexivity); cbv zeta; cbn [rop_text app]; rewrite at_token_cons by done; cbn -[skip_ws]; rewrite (skip_blank l Hl); reflexivity.
Qed.

Lemma scan_word w l : Forall (fun c => in_word c = true /\ c <> 0) w -> scan in_word (w ++ 32 :: l) = 32 :: l.
Proof. induction 1 as [|c w [Hc _] Hw IH]; [done|]. cbn [app scan]. by rewrite Hc. Qed.

Lemma in_word_spec c : in_word c = true -> oneof whitespace c = false /\ oneof symbols c = false.
Proof. unfold in_word. by intros [?%negb_true_iff ?%negb_true_iff]%andb_prop. Qed.

Lemma gettoken_word w l : good_word w -> at_token l ->
  gettoken (w ++ 32 :: l) = Ok (97, (w ++ 32 :: l, 32 :: l)) l /\ word_text (w ++ 32 :: l, 32 :: l) = w.
Proof.
  intros [Hne HF] Hl. split.
  - unfold gettoken. erewrite bind_ok by reflexivity. cbv zeta.
    destruct w as [|c w]; [done|]. pose proof HF as [[Hc H0] _]%Forall_cons. apply in_word_spec in Hc as [Hw Hs].
    cbn [app]. rewrite (at_token_cons c _ Hw).
    change (at0 (c :: w ++ 32 :: l)) with c. rewrite (proj2 (Z.eqb_neq c 0)) by done.
    assert (oneof [124; 40; 41; 59; 38; 60] c = false /\ (c =? 62) = false) as [-> ->].
    { unfold oneof, symbols in *. cbn [existsb] in *.
      destruct (c =? 60), (c =? 124), (c =? 62), (c =? 38), (c =? 59), (c =? 40), (c =? 41); done. }
    rewrite (scan_word (c :: w) l HF : scan in_word (c :: w ++ 32 :: l) = _).
    by rewrite (skip_blank l Hl).
  - unfold word_text. cbn [fst snd]. rewrite length_app. replace (length w + _ - _)%nat with (length w) by lia.
    apply take_app_length.
Qed.

Lemma peek_at l toks : at_token l -> peek toks l = Ok (negb (at0 l =? 0) && oneof toks (at0 l)) l.
Proof. intros Hl. unfold peek. erewrite bind_ok by reflexivity. cbv zeta. by rewrite Hl. Qed.

(** *** Redirections *)

(** The parser's redirections as text. *)
Definition rtext (rs : list redir) : list (list Z * Z * Z) := map (fun r : redir => (word_text r.1.1, r.1.2, r.2)) rs.

(** Something other than a redirection, or than an argument, follows. *)
Definition no_redir (l : ptr) : Prop := at_token l /\ oneof [60; 62] (at0 l) = false.
Definition stops (l : ptr) : Prop := at_token l /\ (l = [] \/ oneof [124; 41; 38; 59] (at0 l) = true).

Lemma stops_no_redir l : stops l -> no_redir l.
Proof.
  intros [Ht [->|Hs]]; split; try done. unfold oneof in *. cbn in *.
  destruct (at0 l =? 60) eqn:E1; [apply Z.eqb_eq in E1; by rewrite E1 in Hs|].
  destruct (at0 l =? 62) eqn:E2; [apply Z.eqb_eq in E2; by rewrite E2 in Hs|]. done.
Qed.

Lemma at_token_word w l : good_word w -> at_token (w ++ l).
Proof.
  intros [Hne HF]. destruct w as [|c w]; [done|]. apply Forall_cons in HF as [[Hc _] _].
  apply at_token_cons. by apply in_word_spec.
Qed.
Lemma pr_redirs_token rs l : at_token l -> at_token (pr_redirs rs ++ l).
Proof. intros Hl. destruct rs as [|[o f] rs]; [done|]. by destruct o; apply at_token_cons. Qed.

Lemma redir_loop_run rs : forall n acc l,
  good_redirs rs -> no_redir l -> (length (pr_redirs rs ++ l) < n)%nat ->
  exists rs', redir_loop n acc (pr_redirs rs ++ l) = Ok (acc ++ rs') l /\ rtext rs' = rdirs rs.
Proof.
  induction rs as [|[o f] rs IH]; intros [|n] acc l Hg [Hl Hno] Hn; try lia; cbn [redir_loop].
  - exists []. rewrite app_nil_r. split; [|done]. cbn [pr_redirs concat map app].
    rewrite (bind_ok _ _ _ _ _ (peek_at l [60; 62] Hl)), Hno, andb_false_r. done.
  - apply Forall_cons in Hg as [Hf Hg]. cbn [snd] in Hf.
    set (l1 := f ++ 32 :: pr_redirs rs ++ l).
    assert (E : pr_redirs ((o, f) :: rs) ++ l = rop_text o ++ 32 :: l1).
    { unfold pr_redirs, l1. cbn [map concat fst snd]. by rewrite <- !app_assoc. }
    rewrite E in *. assert (Hl1 : at_token l1) by (by apply at_token_word).
    assert (Ht : at_token (rop_text o ++ 32 :: l1)) by (by destruct o; apply at_token_cons).
    rewrite (bind_ok _ _ _ _ _ (peek_at _ [60; 62] Ht)).
    assert (negb (at0 (rop_text o ++ 32 :: l1) =? 0) && oneof [60; 62] (at0 (rop_text o ++ 32 :: l1)) = true) as -> by (by destruct o).
    destruct (gettoken_out o l1 Hl1) as [w Hw]. rewrite (bind_ok _ _ _ _ _ Hw).
    destruct (gettoken_word f (pr_redirs rs ++ l) Hf (pr_redirs_token rs l Hl)) as [Hgw Hwt].
    unfold l1. rewrite (bind_ok _ _ _ _ _ Hgw). cbv zeta. cbn [fst].
    set (r := (f ++ 32 :: pr_redirs rs ++ l, 32 :: pr_redirs rs ++ l)) in *.
    assert (Hn' : (length (pr_redirs rs ++ l) < n)%nat).
    { rewrite length_app in Hn. unfold l1 in Hn. cbn [length] in Hn. rewrite length_app in Hn. cbn [length] in Hn. lia. }
    destruct (IH n (acc ++ [(r, (rop_mode o).1, (rop_mode o).2)]) l Hg (conj Hl Hno) Hn') as (rs' & Hr & Hrt).
    exists ((r, (rop_mode o).1, (rop_mode o).2) :: rs'). rewrite <- app_assoc in Hr. split.
    + destruct o; exact Hr.
    + cbn [rtext map fst snd]. unfold rtext in Hrt. rewrite Hrt, Hwt. done.
Qed.

Lemma parseredirs_run rs acc l : good_redirs rs -> no_redir l ->
  exists rs', parseredirs acc (pr_redirs rs ++ l) = Ok (acc ++ rs') l /\ rtext rs' = rdirs rs.
Proof.
  intros Hg Hl. unfold parseredirs. destruct (redir_loop_run rs (S (length (pr_redirs rs ++ l))) acc l Hg Hl) as (rs' & E & Ht);
    [lia|]. exists rs'. split; [|done]. by erewrite bind_ok by reflexivity.
Qed.

Lemma cmd_text_wrap rs : forall c, cmd_text (wrap c rs) = wrap (cmd_text c) (rtext rs).
Proof. induction rs as [|r rs IH]; intros c; [done|]. cbn. exact (IH _). Qed.

(** *** Arguments *)
Lemma pr_words_token ws l : Forall (fun w => good_word w.1 /\ good_redirs w.2) ws -> at_token l -> at_token (pr_words ws ++ l).
Proof.
  intros HF Hl. destruct ws as [|[w rs] ws]; [done|]. apply Forall_cons in HF as [[Hw _] _].
  unfold pr_words. cbn [map concat fst snd]. rewrite <- !app_assoc. by apply at_token_word.
Qed.

Lemma good_word_at0 w l : good_word w -> (at0 (w ++ l) =? 0) = false /\ oneof symbols (at0 (w ++ l)) = false.
Proof.
  intros [Hne HF]. destruct w as [|c w]; [done|]. apply Forall_cons in HF as [[Hc H0] _].
  split; [by apply Z.eqb_neq|]. by apply in_word_spec.
Qed.

Lemma not_symbol c l : oneof symbols c = false -> (forall x, x ∈ l -> x ∈ symbols) -> oneof l c = false.
Proof.
  intros H Hl. apply not_true_is_false. intros (x & Hx & E)%existsb_exists.
  assert (oneof symbols c = true) as Ht by (apply existsb_exists; exists x; split; [apply list_elem_of_In, Hl; by apply list_elem_of_In|done]).
  congruence.
Qed.

Lemma words_no_redir ws l : Forall (fun w => good_word w.1 /\ good_redirs w.2) ws -> stops l -> no_redir (pr_words ws ++ l).
Proof.
  intros HF Hl. destruct ws as [|[w rs] ws]; [by apply stops_no_redir|].
  split; [apply pr_words_token; [done|apply Hl]|]. apply Forall_cons in HF as [[Hw _] _].
  unfold pr_words. cbn [map concat fst snd]. rewrite <- !app_assoc.
  destruct (good_word_at0 w ([32] ++ pr_redirs rs ++ concat (map (fun w : list Z * list rdir => w.1 ++ [32] ++ pr_redirs w.2) ws) ++ l) Hw) as [_ Hs].
  apply not_symbol; [exact Hs|]. intros x Hx. repeat (apply elem_of_cons in Hx as [->|Hx]; [by apply list_elem_of_In; vm_compute; tauto|]).
  by apply elem_of_nil in Hx.
Qed.

Lemma pr_words_cons w rs ws l : pr_words ((w, rs) :: ws) ++ l = w ++ 32 :: pr_redirs rs ++ pr_words ws ++ l.
Proof. unfold pr_words. cbn [map concat fst snd]. by rewrite <- !app_assoc. Qed.

Lemma arg_loop_run ws : forall n argv rs l,
  Forall (fun w => good_word w.1 /\ good_redirs w.2) ws -> stops l -> (length argv + length ws < MAXARGS)%nat ->
  (length (pr_words ws ++ l) < n)%nat ->
  exists c, arg_loop n argv rs (pr_words ws ++ l) = Ok c l /\
    cmd_text c = wrap (EXEC (map word_text argv ++ map fst ws)) (rtext rs ++ rdirs (concat (map snd ws))).
Proof.
  induction ws as [|[w rs1] ws IH]; intros [|n] argv rs l HF Hl Hmax Hn; try lia; cbn [arg_loop].
  - exists (wrap (EXEC argv) rs). cbn [map concat app rdirs]. rewrite cmd_text_wrap, !app_nil_r. split; [|done].
    change (pr_words [] ++ l) with l. destruct Hl as [Ht Hs]. rewrite (bind_ok _ _ _ _ _ (peek_at l _ Ht)).
    destruct Hs as [->|Hs]; [done|]. rewrite Hs. destruct (at0 l =? 0) eqn:E0; [|done].
    apply Z.eqb_eq in E0. by rewrite E0 in Hs.
  - apply Forall_cons in HF as [[Hw Hr] HF]. cbn [fst snd] in Hw, Hr. rewrite pr_words_cons in *.
    destruct (good_word_at0 w (32 :: pr_redirs rs1 ++ pr_words ws ++ l) Hw) as [E0 Es].
    rewrite (bind_ok _ _ _ _ _ (peek_at _ _ (at_token_word w _ Hw))), E0.
    rewrite (not_symbol _ [124; 41; 38; 59] Es)
      by (intros x Hx; repeat (apply elem_of_cons in Hx as [->|Hx]; [by apply list_elem_of_In; vm_compute; tauto|]); by apply elem_of_nil in Hx).
    cbn [negb andb]. destruct (words_no_redir ws l HF Hl) as [Ht1 Ht2].
    destruct (gettoken_word w (pr_redirs rs1 ++ pr_words ws ++ l) Hw (pr_redirs_token _ _ Ht1)) as [Hg Hwt].
    rewrite (bind_ok _ _ _ _ _ Hg). cbv zeta. cbn [Z.eqb Pos.eqb negb]. set (r := (_, 32 :: _)) in *.
    cbn [length] in Hmax. rewrite decide_False by (rewrite length_app; simpl; lia).
    destruct (parseredirs_run rs1 rs (pr_words ws ++ l) Hr (conj Ht1 Ht2)) as (rs' & Hrs & Hrt).
    rewrite (bind_ok _ _ _ _ _ Hrs).
    destruct (IH n (argv ++ [r]) (rs ++ rs') l HF Hl) as (c & Hc & Hct).
    + rewrite length_app. simpl. lia.
    + rewrite length_app in Hn. cbn [length] in Hn. rewrite length_app in Hn. lia.
    + exists c. split; [exact Hc|]. rewrite Hct. unfold rtext in *. cbn [map concat fst snd].
      rewrite !map_app. cbn [map]. rewrite Hwt, Hrt. unfold rdirs. rewrite map_app, <- !app_assoc. done.
Qed.

Lemma pr_bg_token k l : at_token l -> at_token (pr_bg k ++ l).
Proof. intros Hl. destruct k; [done|]. by apply at_token_cons. Qed.

Lemma back_loop_run k : forall n c l, at_token l -> at0 l <> 38 -> (length (pr_bg k ++ l) < n)%nat ->
  back_loop n c (pr_bg k ++ l) = Ok (backs k c) l.
Proof.
  induction k as [|k IH]; intros [|n] c l Hl Hne Hn; try lia; cbn [back_loop backs].
  - change (pr_bg 0 ++ l) with l. rewrite (bind_ok _ _ _ _ _ (peek_at l _ Hl)).
    assert (oneof [38] (at0 l) = false) as -> by (unfold oneof; cbn [existsb]; rewrite orb_false_r; by apply Z.eqb_neq).
    by rewrite andb_false_r.
  - change (pr_bg (S k) ++ l) with (38 :: 32 :: pr_bg k ++ l) in *.
    rewrite (bind_ok _ _ _ _ _ (peek_at _ [38] (at_token_cons 38 _ eq_refl))). cbn [at0 head from_option].
    change (negb (id 38 =? 0) && oneof [38] (id 38)) with true. cbv iota.
    erewrite bind_ok by (apply gettoken_symbol; [by apply list_elem_of_In; vm_compute; tauto|by apply pr_bg_token]).
    apply IH; [done|done|]. cbn [length] in Hn. lia.
Qed.

Lemma pr_tokens :
  (forall x, good_line x -> forall l, at_token l -> at_token (pr_line x ++ l)) /\
  (forall x, good_pline x -> forall l, at_token l -> at_token (pr_pline x ++ l)) /\
  (forall x, good_ucmd x -> forall l, at_token l -> at_token (pr_ucmd x ++ l)).
Proof.
  apply syntax_ind; cbn [good_line good_pline good_ucmd pr_line pr_pline pr_ucmd].
  - intros p IHp bg Hp l Hl. rewrite <- app_assoc. apply IHp; [done|]. by apply pr_bg_token.
  - intros p IHp bg x IHx [Hp Hx] l Hl. rewrite <- !app_assoc. apply IHp; [done|]. apply pr_bg_token. by apply at_token_cons.
  - auto.
  - intros u IHu p IHp [Hu Hp] l Hl. rewrite <- !app_assoc. apply IHu; [done|]. by apply at_token_cons.
  - intros x IHx rs [Hx Hr] l Hl. by apply at_token_cons.
  - intros rs ws (Hr & Hw & _) l Hl. rewrite <- app_assoc. apply pr_redirs_token. by apply pr_words_token.
Qed.

(** What may follow a whole line, and a pipeline. *)
Definition line_ends (l : ptr) : Prop := at_token l /\ (l = [] \/ at0 l = 41).
Definition pline_ends (l : ptr) : Prop := at_token l /\ (l = [] \/ at0 l = 41 \/ at0 l = 38 \/ at0 l = 59).

Lemma pline_ends_stops l : pline_ends l -> stops l /\ oneof [124] (at0 l) = false.
Proof.
  intros [Ht H]. split; [split; [done|]|].
  - destruct H as [->|[H|[H|H]]]; [by left|right; by rewrite H..].
  - destruct H as [->|[H|[H|H]]]; [done|by rewrite H..].
Qed.

Lemma cmd_text_backs k : forall c, cmd_text (backs k c) = backs k (cmd_text c).
Proof. induction k as [|k IH]; intros c; [done|]. exact (IH (BACK c)). Qed.

Ltac len := cbn [app length] in *; rewrite ?length_app in *; cbn [length] in *; rewrite ?length_app in *; lia.

Lemma exec_run :
  (forall x, good_line x -> forall n l, line_ends l -> (5 * length (pr_line x ++ l) + 4 <= n)%nat ->
     exists c, parseline n (pr_line x ++ l) = Ok c l /\ cmd_text c = tree_line x) /\
  (forall x, good_pline x -> forall n l, pline_ends l -> (5 * length (pr_pline x ++ l) + 3 <= n)%nat ->
     exists c, parsepipe n (pr_pline x ++ l) = Ok c l /\ cmd_text c = tree_pline x) /\
  (forall x, good_ucmd x -> forall n l, stops l -> (5 * length (pr_ucmd x ++ l) + 2 <= n)%nat ->
     exists c, parseexec n (pr_ucmd x ++ l) = Ok c l /\ cmd_text c = tree_ucmd x).
Proof.
  assert (Hbg : forall bg l, pline_ends l -> pline_ends (pr_bg bg ++ l)).
  { intros bg l Hl. destruct bg; [done|]. split; [by apply at_token_cons|]. auto. }
  apply syntax_ind; cbn [good_line good_pline good_ucmd pr_line pr_pline pr_ucmd tree_line tree_pline tree_ucmd].
  - intros p IHp bg Hp [|n] l [Ht He] Hn; [lia|]. rewrite <- app_assoc in *. cbn [parseline].
    assert (pline_ends l) as Hpl by (split; [done|tauto]).
    destruct (IHp Hp n (pr_bg bg ++ l)) as (c & Hc & Hct); [auto|lia|]. rewrite (bind_ok _ _ _ _ _ Hc).
    erewrite bind_ok by reflexivity. erewrite bind_ok by (apply back_loop_run; [done|destruct He as [-> | ->]; done|lia]).
    rewrite (bind_ok _ _ _ _ _ (peek_at l _ Ht)). exists (backs bg c). rewrite cmd_text_backs, Hct. split; [|done].
    destruct He as [->|He]; [done|]. by rewrite He.
  - intros p IHp bg x IHx [Hp Hx] [|n] l [Ht He] Hn; [lia|]. rewrite <- !app_assoc in *. cbn [parseline].
    set (l1 := [59; 32] ++ pr_line x ++ l) in *. assert (Hx1 : at_token (pr_line x ++ l)) by (by apply pr_tokens).
    assert (pline_ends l1) as Hpl by (split; [by apply at_token_cons|auto]).
    destruct (IHp Hp n (pr_bg bg ++ l1)) as (c & Hc & Hct); [auto|lia|]. rewrite (bind_ok _ _ _ _ _ Hc).
    erewrite bind_ok by reflexivity. erewrite bind_ok by (apply back_loop_run; [apply Hpl|done|lia]).
    rewrite (bind_ok _ _ _ _ _ (peek_at l1 _ (proj1 Hpl))). change (negb (at0 l1 =? 0) && oneof [59] (at0 l1)) with true. cbv iota.
    erewrite bind_ok by (apply gettoken_symbol; [by apply list_elem_of_In; vm_compute; tauto|done]).
    destruct (IHx Hx n l) as (c2 & Hc2 & Hct2); [by split|unfold l1 in Hn; len|]. rewrite (bind_ok _ _ _ _ _ Hc2).
    exists (LIST (backs bg c) c2). cbn [cmd_text]. by rewrite cmd_text_backs, Hct, Hct2.
  - intros u IHu Hu [|n] l Hl Hn; [lia|]. cbn [parsepipe]. destruct (pline_ends_stops l Hl) as [Hs H124].
    destruct (IHu Hu n l Hs) as (c & Hc & Hct); [lia|]. rewrite (bind_ok _ _ _ _ _ Hc).
    rewrite (bind_ok _ _ _ _ _ (peek_at l _ (proj1 Hl))), H124, andb_false_r. by exists c.
  - intros u IHu p IHp [Hu Hp] [|n] l Hl Hn; [lia|]. rewrite <- !app_assoc in *. cbn [parsepipe].
    set (l1 := [124; 32] ++ pr_pline p ++ l) in *. assert (Hp1 : at_token (pr_pline p ++ l)) by (by apply pr_tokens, Hl).
    assert (Hs : stops l1) by (split; [by apply at_token_cons|by right]).
    destruct (IHu Hu n l1 Hs) as (c & Hc & Hct); [lia|]. rewrite (bind_ok _ _ _ _ _ Hc).
    rewrite (bind_ok _ _ _ _ _ (peek_at l1 _ (proj1 Hs))). change (negb (at0 l1 =? 0) && oneof [124] (at0 l1)) with true. cbv iota.
    erewrite bind_ok by (apply gettoken_symbol; [by apply list_elem_of_In; vm_compute; tauto|done]).
    destruct (IHp Hp n l Hl) as (c2 & Hc2 & Hct2); [unfold l1 in Hn; len|]. rewrite (bind_ok _ _ _ _ _ Hc2).
    exists (PIPE c c2). cbn [cmd_text]. by rewrite Hct, Hct2.
  - intros x IHx rs [Hx Hr] [|[|n]] l Hl Hn; [lia|lia|]. rewrite <- !app_assoc in *.
    set (l1 := [41; 32] ++ pr_redirs rs ++ l) in *. set (l0 := [40; 32] ++ pr_line x ++ l1) in *.
    assert (Hl1 : line_ends l1) by (split; [by apply at_token_cons|by right]).
    assert (Hx1 : at_token (pr_line x ++ l1)) by (by apply pr_tokens, Hl1).
    assert (Hop : peek [40] l0 = Ok true l0) by (by rewrite (peek_at l0 [40] (at_token_cons 40 _ eq_refl))).
    cbn [parseexec]. rewrite (bind_ok _ _ _ _ _ Hop). cbn [parseblock]. rewrite (bind_ok _ _ _ _ _ Hop). cbn [negb].
    erewrite bind_ok by (apply gettoken_symbol; [by apply list_elem_of_In; vm_compute; tauto|done]).
    destruct (IHx Hx n l1 Hl1) as (c & Hc & Hct); [unfold l0 in Hn; len|]. rewrite (bind_ok _ _ _ _ _ Hc).
    rewrite (bind_ok _ _ _ _ _ (peek_at l1 [41] (proj1 Hl1))). change (negb (at0 l1 =? 0) && oneof [41] (at0 l1)) with true. cbn [negb].
    erewrite bind_ok by (apply gettoken_symbol; [by apply list_elem_of_In; vm_compute; tauto|apply pr_redirs_token, Hl]).
    destruct (parseredirs_run rs [] l Hr (stops_no_redir l Hl)) as (rs' & Hrs & Hrt).
    rewrite (bind_ok _ _ _ _ _ Hrs). exists (wrap c rs'). cbn [app]. by rewrite cmd_text_wrap, Hct, Hrt.
  - intros rs ws (Hr & Hw & Hm) [|n] l Hl Hn; [lia|]. rewrite <- !app_assoc in *. cbn [parseexec].
    assert (Hnr : no_redir (pr_words ws ++ l)) by (by apply words_no_redir).
    assert (Ht : at_token (pr_redirs rs ++ pr_words ws ++ l)) by (apply pr_redirs_token, Hnr).
    rewrite (bind_ok _ _ _ _ _ (peek_at _ [40] Ht)).
    assert (oneof [40] (at0 (pr_redirs rs ++ pr_words ws ++ l)) = false) as H40.
    { destruct rs as [|[[] f] rs]; [|done..]. cbn [pr_redirs map concat app]. destruct ws as [|[w rs] ws].
      - destruct Hl as [_ [->|Hs]]; [done|]. change (pr_words [] ++ l) with l. unfold oneof in *. cbn [existsb] in *.
        destruct (at0 l =? 40) eqn:E; [apply Z.eqb_eq in E; by rewrite E in Hs|done].
      - rewrite pr_words_cons. apply Forall_cons in Hw as [[Hw _] _].
        apply not_symbol; [by apply good_word_at0|]. intros y ->%list_elem_of_singleton. by apply list_elem_of_In; vm_compute; tauto. }
    rewrite H40, andb_false_r. destruct (parseredirs_run rs [] _ Hr Hnr) as (rs' & Hrs & Hrt).
    rewrite (bind_ok _ _ _ _ _ Hrs). erewrite bind_ok by reflexivity. cbn [app].
    destruct (arg_loop_run ws (S (length (pr_words ws ++ l))) [] rs' l Hw Hl) as (c & Hc & Hct); [done|lia|].
    exists c. split; [exact Hc|]. rewrite Hct, Hrt. unfold rdirs. by rewrite map_app.
Qed.

(** C22. Parsing reads back what was printed: for every syntax tree of a line
    (lists, background commands, pipelines, parenthesised blocks, redirections
    and words), the parser applied to its printed form succeeds, consumes the
    whole line and returns the tree's command. The command of [>>] is that of
    [>]. *)
Theorem parse_print (x : line) :
  good_line x -> exists c, parse (pr_line x) = Ok c [] /\ cmd_text c = tree_line x.
Proof.
  intros Hx. destruct (proj1 exec_run x Hx (enough_fuel (pr_line x)) []) as (c & Hc & Hct).
  - split; [done|by left].
  - unfold enough_fuel. rewrite app_nil_r. lia.
  - rewrite app_nil_r in Hc. exists c. split; [|done]. unfold parse. rewrite (bind_ok _ _ _ _ _ Hc). done.
Qed.

Lemma parse_print_witness :
  exists c, parse (pr_line (LSemi (PBar (Block (LEnd (PEnd (Simple [] [([108; 115], [])])) 0) [(RAppend, [102])])
                                        (PEnd (Simple [] [([119; 99], [])]))) 1
                                  (LEnd (PEnd (Simple [(RIn, [103])] [([99; 97; 116], [])])) 0))) = Ok c [] /\
    cmd_text c = LIST (BACK (PIPE (REDIR (EXEC [[108; 115]]) [102] 0x201 1) (EXEC [[119; 99]])))
                      (REDIR (EXEC [[99; 97; 116]]) [103] 0 0).
Proof.
  apply (parse_print (LSemi (PBar (Block (LEnd (PEnd (Simple [] [([108; 115], [])])) 0) [(RAppend, [102])])
                                  (PEnd (Simple [] [([119; 99], [])]))) 1
                            (LEnd (PEnd (Simple [(RIn, [103])] [([99; 97; 116], [])])) 0))).
  cbn; unfold good_redirs, good_word, MAXARGS. split_and!; repeat (apply Forall_cons; split); repeat split;
    try (by apply Forall_nil); cbn; try lia; try discriminate;
    repeat (apply Forall_cons; split; [split; [reflexivity|lia]|]); by apply Forall_nil.
Defined.
