(* ===== verification/User.v ===== *)
(** User programs: a program is a tree of system calls (an interaction
    tree), and [run] is what the kernel makes of it: descriptors, forked
    processes and the calls that reach files and other processes. *)
From stdpp Require Import base numbers list strings.
From ITree Require Import Core.ITreeDefinition.
From S2P Require Import Prelude Params Str Printf.

Set Warnings "-clear-no-such-hyp".

(** ** The system calls (user.h)

    The calls the programs below use: all but getpid, sbrk and uptime. [pipe]
    returns the two descriptors it stores, [read] the bytes it stores;
    [fstat] type, inode number and size; [exit] does not return. *)
Inductive sysE : Type -> Type :=
| Fork : sysE Z
| Exit : sysE Empty_set
| Wait : sysE Z
| Pipe : sysE (Z * Z * Z)
| Write (fd : Z) (b : list Z) : sysE Z
| Read (fd n : Z) : sysE (Z * list Z)
| Close (fd : Z) : sysE Z
| Kill (pid : Z) : sysE Z
| Exec (path : list Z) (argv : list (list Z)) : sysE Z
| Open (path : list Z) (mode : Z) : sysE Z
| Mknod (path : list Z) (major minor : Z) : sysE Z
| Unlink (path : list Z) : sysE Z
| Fstat (fd : Z) : sysE (Z * (Z * Z * Z))
| Link (old new : list Z) : sysE Z
| Mkdir (path : list Z) : sysE Z
| Chdir (path : list Z) : sysE Z
| Dup (fd : Z) : sysE Z
| Sleep (n : Z) : sysE Z.

Abbreviation prog := (itree sysE).

Declare Scope prog_scope.
Delimit Scope prog_scope with prog.
Notation "x <- m ;; k" := (ITree.bind m (fun x => k))
  (at level 20, m at level 99, k at level 200, right associativity) : prog_scope.
Notation "m ;;; k" := (ITree.bind m (fun _ => k)) (at level 100, k at level 200, right associativity) : prog_scope.
Open Scope prog_scope.

Definition call {X} (e : sysE X) : prog X := ITree.trigger e.
Definition exit {A} : prog A := r <- call Exit ;; match r : Empty_set with end.

(** *** printf.c: one [write] for each character *)
Fixpoint puts (w : list (Z * Z)) : prog unit :=
  match w with
  | [] => Ret tt
  | (fd, c) :: w => call (Write fd [c]) ;;; puts w
  end.
Definition printf (fd : Z) (fmt : list Z) (args : list arg) : prog unit :=
  match Printf.printf fd fmt args [] with
  | Ok _ w => puts w
  | _ => ITree.spin
  end.

(** *** gets (ulib.c): the bytes stored before the NUL *)
Fixpoint gets_loop (n : nat) (buf : list Z) : prog (list Z) :=
  match n with
  | O => Ret buf
  | S n =>
      r <- call (Read 0 1) ;;
      match r with
      | (cc, c :: _) =>
          if cc <? 1 then Ret buf else
          let buf := buf ++ [c] in
          if (c =? 10) || (c =? 13) then Ret buf else gets_loop n buf
      | _ => Ret buf
      end
  end.
Definition gets (max : nat) : prog (list Z) := gets_loop (max - 1) [].

(** *** stat (ulib.c) *)
Definition stat (n : list Z) : prog (Z * (Z * Z * Z)) :=
  fd <- call (Open n O_RDONLY) ;;
  if fd <? 0 then Ret (-1, (0, 0, 0)) else
  r <- call (Fstat fd) ;;
  call (Close fd) ;;;
  Ret r.

(** ** The kernel's side

    What a descriptor stands for. A process is known by its path from the
    first one, [cnt] counts its calls whose outcome is not its own, and a
    pipe or child is named after the call that made it. *)
Inductive obj := OFile (path : list Z) (mode : Z) | PipeR (id : list nat) | PipeW (id : list nat).

Record pst := Pst { fds : list (option obj); self : list nat; cnt : nat; input : list (list Z) }.

Definition set_fds (T : list (option obj)) (st : pst) : pst := Pst T (self st) (cnt st) (input st).
Definition counted_call (st : pst) : pst := Pst (fds st) (self st) (S (cnt st)) (input st).
Definition here (st : pst) : list nat := self st ++ [cnt st].

(** What the rest of the system decides: which calls fail, the process ids,
    what [wait] returns and what [fstat] reports. *)
Record oracle := Oracle {
  fails : list nat -> bool;
  pid : list nat -> Z;
  waited : list nat -> Z;
  stats : obj -> Z * Z * Z;
}.

(** The lowest free descriptor. *)
Fixpoint free_fd (T : list (option obj)) : option nat :=
  match T with
  | [] => None
  | None :: _ => Some 0%nat
  | Some _ :: T => S <$> free_fd T
  end.
Definition fd_obj (T : list (option obj)) (fd : Z) : option obj :=
  if fd <? 0 then None else match T !! Z.to_nat fd with Some o => o | None => None end.

(** What a process does that others can see. *)
#[warnings="-register-all"]
Inductive act :=
| AOpen (path : list Z) (mode : Z)
| AWrite (o : obj) (b : list Z)
| AFork (child : list act)
| AWait
| AExec (path : list Z) (argv : list (list Z)) (T : list (option obj))
| AChdir (path : list Z)
| AMknod (path : list Z) (major minor : Z)
| AUnlink (path : list Z)
| ALink (old new : list Z)
| AMkdir (path : list Z)
| AKill (pid : Z)
| ASleep (n : Z)
| AExit.

(** A call that succeeds with 0 and is seen, or fails. *)
Definition emit (a : act) (o : option (list act)) : option (list act) := cons a <$> o.

(** The next read: at most [n] bytes of what comes in; nothing at the end. *)
Definition next_read (n : nat) (l : list (list Z)) : list Z * list (list Z) :=
  match l with
  | [] => ([], [])
  | b :: l => (take n b, match drop n b with [] => l | r => r :: l end)
  end.

Fixpoint run (n : nat) (w : oracle) (st : pst) (t : prog Empty_set) : option (list act) :=
  match n with
  | O => None
  | S n =>
      match observe t with
      | RetF r => match r with end
      | TauF t => run n w st t
      | VisF e k =>
          let bad := fails w (here st) in
          let simple (a : act) (k : Z -> prog Empty_set) : option (list act) :=
            if bad then run n w (counted_call st) (k (-1)) else emit a (run n w (counted_call st) (k 0)) in
          match e in sysE X return (X -> prog Empty_set) -> option (list act) with
          | Fork => fun k =>
              if bad then run n w (counted_call st) (k (-1)) else
              match run n w (Pst (fds st) (here st) 0 (input st)) (k 0), run n w (counted_call st) (k (pid w (here st))) with
              | Some c, Some a => Some (AFork c :: a)
              | _, _ => None
              end
          | Exit => fun _ => Some [AExit]
          | Wait => fun k => emit AWait (run n w (counted_call st) (k (waited w (here st))))
          | Pipe => fun k =>
              let fail := run n w (counted_call st) (k (-1, 0, 0)) in
              if bad then fail else
              match free_fd (fds st) with
              | None => fail
              | Some a =>
                  let T := <[a := Some (PipeR (here st))]> (fds st) in
                  match free_fd T with
                  | None => fail
                  | Some b => run n w (counted_call (set_fds (<[b := Some (PipeW (here st))]> T) st)) (k (0, Z.of_nat a, Z.of_nat b))
                  end
              end
          | Write fd b => fun k =>
              match fd_obj (fds st) fd with
              | Some o => if bad then run n w (counted_call st) (k (-1)) else emit (AWrite o b) (run n w (counted_call st) (k (Z.of_nat (length b))))
              | None => run n w (counted_call st) (k (-1))
              end
          | Read fd m => fun k =>
              match fd_obj (fds st) fd with
              | Some o =>
                  if bad then run n w (counted_call st) (k (-1, [])) else
                  let '(b, l) := next_read (Z.to_nat m) (input st) in
                  run n w (Pst (fds st) (self st) (S (cnt st)) l) (k (Z.of_nat (length b), b))
              | None => run n w (counted_call st) (k (-1, []))
              end
          | Close fd => fun k =>
              match fd_obj (fds st) fd with
              | Some _ => run n w (set_fds (<[Z.to_nat fd := None]> (fds st)) st) (k 0)
              | None => run n w st (k (-1))
              end
          | Dup fd => fun k =>
              match fd_obj (fds st) fd, free_fd (fds st) with
              | Some o, Some a => run n w (set_fds (<[a := Some o]> (fds st)) st) (k (Z.of_nat a))
              | _, _ => run n w st (k (-1))
              end
          | Open path mode => fun k =>
              if bad then run n w (counted_call st) (k (-1)) else
              match free_fd (fds st) with
              | Some a => emit (AOpen path mode) (run n w (counted_call (set_fds (<[a := Some (OFile path mode)]> (fds st)) st)) (k (Z.of_nat a)))
              | None => run n w (counted_call st) (k (-1))
              end
          | Exec path argv => fun k => if bad then run n w (counted_call st) (k (-1)) else Some [AExec path argv (fds st)]
          | Fstat fd => fun k =>
              match fd_obj (fds st) fd with
              | Some o => if bad then run n w (counted_call st) (k (-1, (0, 0, 0))) else run n w (counted_call st) (k (0, stats w o))
              | None => run n w (counted_call st) (k (-1, (0, 0, 0)))
              end
          | Kill p => simple (AKill p)
          | Mknod path a b => simple (AMknod path a b)
          | Unlink path => simple (AUnlink path)
          | Link old new => simple (ALink old new)
          | Mkdir path => simple (AMkdir path)
          | Chdir path => simple (AChdir path)
          | Sleep m => simple (ASleep m)
          end k
      end
  end.

(** ** Running a program *)

Lemma run_observe n w st (t u : prog Empty_set) : observe t = observe u -> run n w st t = run n w st u.
Proof. intros H. destruct n; cbn [run]; [done|]. by rewrite H. Qed.

Lemma observe_bind {A B} (t : prog A) (k : A -> prog B) :
  observe (ITree.bind t k) =
  match observe t with
  | RetF r => observe (k r)
  | TauF t => TauF (ITree.bind t k)
  | VisF e h => VisF e (fun x => ITree.bind (h x) k)
  end.
Proof. unfold observe. cbn. unfold observe. by destruct (_observe t). Qed.

(** More fuel does not change a run that ends. *)
Lemma run_mono n m w : (n <= m)%nat -> forall st t a, run n w st t = Some a -> run m w st t = Some a.
Proof.
  revert m. induction n as [|n IH]; intros [|m] Hm st t a; try lia; cbn [run]; [done|done|].
  assert (IH' : forall st t a, run n w st t = Some a -> run m w st t = Some a) by (apply IH; lia).
  assert (Hem : forall x st t a, emit x (run n w st t) = Some a -> emit x (run m w st t) = Some a).
  { intros x st' t' a' H. unfold emit in *. destruct (run n w st' t') as [b|] eqn:E; [|done]. by rewrite (IH' _ _ _ E). }
  destruct (observe t) as [r|u|X e k]; [done|apply IH'|].
  destruct e; cbv zeta; repeat case_match; simplify_eq; auto; intros Hr;
    repeat match goal with H : run n w _ _ = Some _ |- _ => apply IH' in H end; simplify_eq; auto; congruence.
Qed.

(** Sequencing associates, as far as [run] can tell. *)
Lemma run_assoc n w : forall st A B (t : prog A) (f : A -> prog B) (k : B -> prog Empty_set),
  run n w st (ITree.bind (ITree.bind t f) k) = run n w st (ITree.bind t (fun x => ITree.bind (f x) k)).
Proof.
  induction n as [|n IH]; intros st A B t f k; [done|].
  destruct (observe t) as [r|u|X e g] eqn:E.
  - apply run_observe. by rewrite !observe_bind, E, observe_bind.
  - cbn [run]. rewrite !observe_bind, E. apply IH.
  - cbn [run]. rewrite !observe_bind, E. destruct e; cbv zeta; rewrite ?IH; repeat case_match; rewrite ?IH; done.
Qed.

(** *** Parts of a program

    From [st], [t] does [a] and goes on with [x] in [st']. *)
Definition steps {A} (w : oracle) (st : pst) (t : prog A) (a : list act) (st' : pst) (x : A) : Prop :=
  exists n, forall m k, run (n + m) w st (ITree.bind t k) = app a <$> run m w st' (k x).

(** The process ends, having done [a]. *)
Definition ends (w : oracle) (st : pst) (t : prog Empty_set) (a : list act) : Prop :=
  exists n, run n w st t = Some a.

Lemma fmap_app_id (o : option (list act)) : app [] <$> o = o.
Proof. by destruct o. Qed.
Lemma fmap_app_app a b (o : option (list act)) : app (a ++ b) <$> o = app a <$> (app b <$> o).
Proof. destruct o; [|done]. simpl. by rewrite app_assoc. Qed.

Lemma steps_ret {A} w st (x : A) : steps w st (Ret x) [] st x.
Proof. exists 0%nat. intros m k. rewrite fmap_app_id. by apply run_observe. Qed.

Lemma steps_bind {A B} w st st1 st2 (t : prog A) (f : A -> prog B) a b x y :
  steps w st t a st1 x -> steps w st1 (f x) b st2 y -> steps w st (ITree.bind t f) (a ++ b) st2 y.
Proof.
  intros [n Hn] [m Hm]. exists (n + m)%nat. intros l k. rewrite run_assoc, <- Nat.add_assoc, Hn, Hm.
  symmetry. apply fmap_app_app.
Qed.

Lemma ends_bind {A} w st st' (t : prog A) k a b x :
  steps w st t a st' x -> ends w st' (k x) b -> ends w st (ITree.bind t k) (a ++ b).
Proof. intros [n Hn] [m Hm]. exists (n + m)%nat. by rewrite Hn, Hm. Qed.

Lemma ends_observe w st t u a : observe t = observe u -> ends w st u a -> ends w st t a.
Proof. intros H [n Hn]. exists n. by rewrite (run_observe _ _ _ _ _ H). Qed.

Lemma ends_assoc {A B} w st (t : prog A) (f : A -> prog B) k a :
  ends w st (ITree.bind t (fun x => ITree.bind (f x) k)) a -> ends w st (ITree.bind (ITree.bind t f) k) a.
Proof. intros [n Hn]. exists n. by rewrite run_assoc. Qed.

(** A call whose first step is known. *)
Lemma steps_call {X} w st (e : sysE X) a st' x :
  (forall m k, run (S m) w st (Vis e k) = app a <$> run m w st' (k x)) -> steps w st (call e) a st' x.
Proof.
  intros H. exists 1%nat. intros m k. rewrite (run_observe _ _ _ _ (Vis e (fun y => ITree.bind (Ret y) k))) by done.
  change (1 + m)%nat with (S m). rewrite H. f_equal. by apply run_observe.
Qed.

Lemma emit_app x o : emit x o = app [x] <$> o.
Proof. by destruct o. Qed.

Ltac call_step := apply steps_call; intros; cbn [run observe _observe]; cbv zeta.

Section calls.
  Context (w : oracle) (st : pst).

Lemma close_steps fd o :
  fd_obj (fds st) fd = Some o ->
  steps w st (call (Close fd)) [] (set_fds (<[Z.to_nat fd := None]> (fds st)) st) 0.
Proof. intros H. call_step. by rewrite H, fmap_app_id. Qed.

Lemma dup_steps fd o a :
  fd_obj (fds st) fd = Some o -> free_fd (fds st) = Some a ->
  steps w st (call (Dup fd)) [] (set_fds (<[a := Some o]> (fds st)) st) (Z.of_nat a).
Proof. intros H Ha. call_step. by rewrite H, Ha, fmap_app_id. Qed.

Lemma open_steps path mode a :
  fails w (here st) = false -> free_fd (fds st) = Some a ->
  steps w st (call (Open path mode)) [AOpen path mode]
    (counted_call (set_fds (<[a := Some (OFile path mode)]> (fds st)) st)) (Z.of_nat a).
Proof. intros H Ha. call_step. rewrite H, Ha. apply emit_app. Qed.

Lemma open_fails path mode :
  fails w (here st) = true -> steps w st (call (Open path mode)) [] (counted_call st) (-1).
Proof. intros H. call_step. by rewrite H, fmap_app_id. Qed.

Lemma pipe_steps a b :
  let T := <[a := Some (PipeR (here st))]> (fds st) in
  fails w (here st) = false -> free_fd (fds st) = Some a -> free_fd T = Some b ->
  steps w st (call Pipe) [] (counted_call (set_fds (<[b := Some (PipeW (here st))]> T) st)) (0, Z.of_nat a, Z.of_nat b).
Proof. intros T H Ha Hb. call_step. rewrite H, Ha. fold T. by rewrite Hb, fmap_app_id. Qed.

Lemma pipe_fails : fails w (here st) = true -> steps w st (call Pipe) [] (counted_call st) (-1, 0, 0).
Proof. intros H. call_step. by rewrite H, fmap_app_id. Qed.

Lemma wait_steps : steps w st (call Wait) [AWait] (counted_call st) (waited w (here st)).
Proof. call_step. apply emit_app. Qed.

Lemma write_steps fd b o :
  fd_obj (fds st) fd = Some o -> fails w (here st) = false ->
  steps w st (call (Write fd b)) [AWrite o b] (counted_call st) (Z.of_nat (length b)).
Proof. intros H Hf. call_step. rewrite H, Hf. apply emit_app. Qed.

Lemma write_fails fd b :
  fails w (here st) = true -> steps w st (call (Write fd b)) [] (counted_call st) (-1).
Proof. intros Hf. call_step. destruct (fd_obj (fds st) fd); by rewrite ?Hf, fmap_app_id. Qed.

Lemma read_steps fd m o b l :
  fd_obj (fds st) fd = Some o -> fails w (here st) = false -> next_read (Z.to_nat m) (input st) = (b, l) ->
  steps w st (call (Read fd m)) [] (Pst (fds st) (self st) (S (cnt st)) l) (Z.of_nat (length b), b).
Proof. intros H Hf Hn. call_step. by rewrite H, Hf, Hn, fmap_app_id. Qed.

Lemma ends_exit {A} (k : A -> prog Empty_set) : ends w st (ITree.bind exit k) [AExit].
Proof. by exists 1%nat. Qed.
Lemma ends_exit' : ends w st exit [AExit].
Proof. by exists 1%nat. Qed.

Lemma exec_ends path argv k :
  fails w (here st) = false -> ends w st (ITree.bind (call (Exec path argv)) k) [AExec path argv (fds st)].
Proof. intros H. exists 1%nat. cbn [run]. rewrite observe_bind. cbn. by rewrite H. Qed.

Lemma exec_fails path argv :
  fails w (here st) = true -> steps w st (call (Exec path argv)) [] (counted_call st) (-1).
Proof. intros H. call_step. by rewrite H, fmap_app_id. Qed.

(** The two processes after [fork]. *)
Definition child : pst := Pst (fds st) (here st) 0 (input st).

Lemma fork_ends k c a :
  fails w (here st) = false -> ends w child (k 0) c -> ends w (counted_call st) (k (pid w (here st))) a ->
  ends w st (ITree.bind (call Fork) k) (AFork c :: a).
Proof.
  intros H [n Hn] [m Hm]. exists (S (n + m)). cbn [run]. rewrite observe_bind. cbn. rewrite H. fold child.
  rewrite (run_observe _ _ _ _ (k 0)) by done. rewrite (run_observe _ _ (counted_call st) _ (k (pid w (here st)))) by done.
  rewrite (run_mono n (n + m) w ltac:(lia) _ _ _ Hn), (run_mono m (n + m) w ltac:(lia) _ _ _ Hm). done.
Qed.

Lemma fork_fails : fails w (here st) = true -> steps w st (call Fork) [] (counted_call st) (-1).
Proof. intros H. call_step. by rewrite H, fmap_app_id. Qed.
End calls.

(** Nothing follows a program that does not return. *)
Lemma run_void n w : forall st (t : prog Empty_set) k a,
  run n w st t = Some a -> run n w st (ITree.bind t k) = Some a.
Proof.
  induction n as [|n IH]; intros st t k a; cbn [run]; [done|]. rewrite observe_bind.
  assert (Hem : forall x st t k a, emit x (run n w st t) = Some a -> emit x (run n w st (ITree.bind t k)) = Some a).
  { intros x st' t' k' a' H. unfold emit in *. destruct (run n w st' t') as [b|] eqn:E; [|done]. by rewrite (IH _ _ _ _ E). }
  destruct (observe t) as [r|u|X e g]; [done|apply IH|].
  destruct e; cbv zeta; try (repeat (case_match; simplify_eq); auto; done).
  destruct (fails w (here st)); [apply IH|].
  destruct (run n w _ (g 0)) as [c|] eqn:E1; [|done]. destruct (run n w _ (g (pid w (here st)))) as [b|] eqn:E2; [|done].
  by rewrite (IH _ _ _ _ E1), (IH _ _ _ _ E2).
Qed.
Lemma ends_void w st (t : prog Empty_set) k a : ends w st t a -> ends w st (ITree.bind t k) a.
Proof. intros [n Hn]. exists n. by apply run_void. Qed.

(** *** Loops *)
Lemma ends_tau {A} w st (t : prog A) k a : ends w st (ITree.bind t k) a -> ends w st (ITree.bind (Tau t) k) a.
Proof. intros [n Hn]. exists (S n). cbn [run]. rewrite observe_bind. exact Hn. Qed.

Lemma ends_iter {I R} w st (body : I -> prog (I + R)) i k a :
  ends w st (ITree.bind (body i) (fun lr =>
    ITree.bind match lr with inl j => Tau (ITree.iter body j) | inr r => Ret r end k)) a ->
  ends w st (ITree.bind (ITree.iter body i) k) a.
Proof.
  intros H. apply ends_assoc in H. eapply ends_observe; [|exact H].
  rewrite (observe_bind (ITree.iter body i)), (observe_bind (ITree.bind (body i) _)). done.
Qed.

Lemma ends_ret {A} w st (x : A) k a : ends w st (k x) a -> ends w st (ITree.bind (Ret x) k) a.
Proof. intros H. eapply ends_observe; [|exact H]. done. Qed.

Lemma steps_tau {A} w st (t : prog A) a st' x : steps w st t a st' x -> steps w st (Tau t) a st' x.
Proof. intros [n Hn]. exists (S n). intros m k. cbn [Nat.add run]. rewrite observe_bind. apply Hn. Qed.

Lemma steps_iter {I R} w st (body : I -> prog (I + R)) i a st' x :
  steps w st (ITree.bind (body i) (fun lr => match lr with inl j => Tau (ITree.iter body j) | inr r => Ret r end)) a st' x ->
  steps w st (ITree.iter body i) a st' x.
Proof.
  intros [n Hn]. exists n. intros m k. rewrite <- Hn. apply run_observe.
  rewrite (observe_bind (ITree.iter body i)), (observe_bind (ITree.bind (body i) _)). done.
Qed.
