(* ===== verification/Shell.v ===== *)
(** The shell's other half: sh.c's runcmd and its main loop, as a program of
    system calls. Every command of a line is proved to be run with its
    descriptors wired as the line says, whatever calls fail. *)
From stdpp Require Import base numbers list strings sets.
From ITree Require Import Core.ITreeDefinition.
From S2P Require Import Prelude Params Str Printf Sh User.

Set Warnings "-clear-no-such-hyp".
Open Scope prog_scope.

(** *** panic, fork1 *)
Definition panic {A} (s : list Z) : prog A :=
  User.printf 2 (text "%s" ++ [10]) [AStr (Some s)] ;;;
  exit.

Definition fork1 : prog Z :=
  pid <- call Fork ;;
  if pid =? -1 then panic (text "fork") else Ret pid.

(** *** runcmd. It never returns, so what follows a call of it is not
    reached; a tree of the parser has no null pointers and no other types. *)
Fixpoint runcmd (c : cmd (list Z)) : prog Empty_set :=
  match c with
  | EXEC argv =>
      match argv with
      | [] => exit
      | a0 :: _ =>
          call (Exec a0 argv) ;;;
          User.printf 2 (text "exec %s failed" ++ [10]) [AStr (Some a0)] ;;;
          exit
      end
  | REDIR c file mode fd =>
      call (Close fd) ;;;
      r <- call (Open file mode) ;;
      if r <? 0 then
        User.printf 2 (text "open %s failed" ++ [10]) [AStr (Some file)] ;;;
        exit
      else runcmd c
  | LIST lc rc =>
      pid <- fork1 ;;
      if pid =? 0 then runcmd lc else
      call Wait ;;;
      runcmd rc
  | PIPE lc rc =>
      r <- call Pipe ;;
      let '(r, p0, p1) := r in
      if r <? 0 then panic (text "pipe") else
      pid <- fork1 ;;
      if pid =? 0 then
        call (Close 1) ;;;
        call (Dup p1) ;;;
        call (Close p0) ;;;
        call (Close p1) ;;;
        runcmd lc
      else
      pid <- fork1 ;;
      if pid =? 0 then
        call (Close 0) ;;;
        call (Dup p0) ;;;
        call (Close p0) ;;;
        call (Close p1) ;;;
        runcmd rc
      else
      call (Close p0) ;;;
      call (Close p1) ;;;
      call Wait ;;;
      call Wait ;;;
      exit
  | BACK c =>
      pid <- fork1 ;;
      if pid =? 0 then runcmd c else exit
  end.

(** *** getcmd: what it returns and the buffer, of [nbuf] bytes *)
Definition getcmd (nbuf : nat) : prog (Z * list Z) :=
  User.printf 2 (text "$ ") [] ;;;
  b <- User.gets nbuf ;;
  let buf := b ++ replicate (nbuf - length b) 0 in
  if at0 buf =? 0 then Ret (-1, buf) else Ret (0, buf).

(** *** runcmd(parsecmd(buf)). The words are strings in the buffer that
    nulterminate leaves; what is left of a line that does not parse to its
    end is printed. *)
Fixpoint cmd_map {V W} (f : V -> W) (c : cmd V) : cmd W :=
  match c with
  | EXEC argv => EXEC (map f argv)
  | REDIR c file m fd => REDIR (cmd_map f c) (f file) m fd
  | PIPE l r => PIPE (cmd_map f l) (cmd_map f r)
  | LIST l r => LIST (cmd_map f l) (cmd_map f r)
  | BACK c => BACK (cmd_map f c)
  end.
Definition word_str (n : nat) (buf : mem) (w : word) : list Z := upto0 (drop (pos n w.1) buf).

Definition leftovers (s : list Z) : list Z :=
  match (bind (parseline (enough_fuel s)) (fun _ => bind (peek []) (fun _ => get))) s with
  | Ok rest _ => rest
  | _ => []
  end.

Definition run_line (buf : mem) : prog Empty_set :=
  let s := upto0 buf in
  match parsecmd buf with
  | Ok c buf' => runcmd (cmd_map (word_str (length s) buf') c)
  | Panic m =>
      match leftovers s with
      | [] => panic (text m)
      | rest => User.printf 2 (text "leftovers: %s" ++ [10]) [AStr (Some rest)] ;;; panic (text m)
      end
  | _ => ITree.spin
  end.

(** *** main. ['c'], ['d'] and the blank are 99, 100 and 32. *)
Definition open_console : prog unit :=
  ITree.iter (fun _ =>
    fd <- call (Open (text "console") O_RDWR) ;;
    if negb (fd >=? 0) then Ret (inr tt) else
    if fd >=? 3 then call (Close fd) ;;; Ret (inr tt) else Ret (inl tt)) tt.

Definition is_cd (buf : mem) : bool := bool_decide (take 3 buf = [99; 100; 32]).
Definition cd_path (buf : mem) : list Z :=
  upto0 (drop 3 (<[(length (upto0 buf) - 1)%nat := 0]> buf)).

Definition main_loop : prog unit :=
  ITree.iter (fun _ =>
    r <- getcmd 100 ;;
    let '(r, buf) := r in
    if negb (r >=? 0) then Ret (inr tt) else
    if is_cd buf then
      r <- call (Chdir (cd_path buf)) ;;
      (if r <? 0 then User.printf 2 (text "cannot cd %s" ++ [10]) [AStr (Some (cd_path buf))] else Ret tt) ;;;
      Ret (inl tt)
    else
    pid <- fork1 ;;
    if pid =? 0 then x <- run_line buf ;; match x : Empty_set with end else
    call Wait ;;;
    Ret (inl tt)) tt.

Definition main : prog Empty_set :=
  open_console ;;;
  main_loop ;;;
  exit.

(** ** What a line means

    A process with standard input [i], output [o] and error [e], and nothing
    else open. *)
Definition std (i o e : obj) : list (option obj) := Some i :: Some o :: Some e :: replicate 13 None.

(** What the shell does for a command when every call succeeds. *)
Fixpoint den (i o e : obj) (self : list nat) (k : nat) (c : cmd (list Z)) : list act :=
  match c with
  | EXEC argv => match argv with [] => [AExit] | a0 :: _ => [AExec a0 argv (std i o e)] end
  | REDIR c f m fd =>
      AOpen f m :: (if fd =? 0 then den (OFile f m) o e self (S k) c else den i (OFile f m) e self (S k) c)
  | LIST l r => AFork (den i o e (self ++ [k]) 0 l) :: AWait :: den i o e self (S (S k)) r
  | PIPE l r =>
      let p := self ++ [k] in
      [AFork (den i (PipeW p) e (self ++ [S k]) 0 l);
       AFork (den (PipeR p) o e (self ++ [S (S k)]) 0 r); AWait; AWait; AExit]
  | BACK c => [AFork (den i o e (self ++ [k]) 0 c); AExit]
  end.

(** A process that gives up prints on its standard error and exits. *)
Definition quits (e : obj) (a : list act) : Prop := exists bs, a = (AWrite e <$> bs) ++ [AExit].

(** What is left of [d] when some processes give up. *)
Inductive cutoff (e : obj) : list act -> list act -> Prop :=
| cutoff_nil : cutoff e [] []
| cutoff_quit a d : quits e a -> cutoff e a d
| cutoff_act x a d : cutoff e a d -> cutoff e (x :: a) (x :: d)
| cutoff_fork c c' a d : cutoff e c c' -> cutoff e a d -> cutoff e (AFork c :: a) (AFork c' :: d).
#[export] Hint Constructors cutoff : core.

Lemma cutoff_refl e a : cutoff e a a.
Proof. induction a; auto. Qed.
#[export] Hint Resolve cutoff_refl : core.

(** ** Messages *)
Lemma printf_text fd ps :
  Forall piece_ok ps ->
  User.printf fd (concat (map piece_fmt ps)) (concat (map piece_args ps)) =
  puts (map (fun c => (fd, u8 c)) (concat (map piece_out ps))).
Proof. intros H. unfold User.printf. by rewrite printf_spec. Qed.

(** Printing on an open descriptor, some writes failing. *)
Lemma puts_steps w fd o l : forall st,
  fd_obj (fds st) fd = Some o ->
  exists bs n, steps w st (puts (map (fun c => (fd, u8 c)) l)) (AWrite o <$> bs)
    (Pst (fds st) (self st) n (input st)) tt /\
    ((forall p, fails w p = false) -> bs = (fun c => [u8 c]) <$> l /\ n = (cnt st + length l)%nat).
Proof.
  induction l as [|c l IH]; intros st Ho.
  - exists [], (cnt st). split; [destruct st; apply steps_ret|]. simpl. by rewrite Nat.add_0_r.
  - destruct (IH (counted_call st) Ho) as (bs & n & Hs & Hall). cbn [map puts].
    destruct (fails w (here st)) eqn:E.
    + exists bs, n. split; [|intros H; by rewrite H in E].
      eapply (steps_bind _ _ _ _ _ _ []); [by apply write_fails|exact Hs].
    + exists ([u8 c] :: bs), n. split.
      * rewrite fmap_cons. eapply (steps_bind _ _ _ _ _ _ [_]); [by apply write_steps|exact Hs].
      * intros H. destruct (Hall H) as [-> ->]. split; [done|]. simpl. lia.
Qed.

(** A message on standard error, then [exit]. *)
Lemma complain w st e ps :
  fd_obj (fds st) 2 = Some e -> Forall piece_ok ps ->
  let say := User.printf 2 (concat (map piece_fmt ps)) (concat (map piece_args ps)) in
  exists a, quits e a /\ ends w st (say ;;; exit) a /\
    forall A (k : A -> prog Empty_set), ends w st (ITree.bind (say ;;; exit) k) a.
Proof.
  intros He Hp say. unfold say. rewrite printf_text by done. destruct (puts_steps w 2 e (concat (map piece_out ps)) st He) as (bs & n & Hs & _).
  exists ((AWrite e <$> bs) ++ [AExit]). split; [by exists bs|]. split.
  - eapply ends_bind; [exact Hs|]. apply ends_exit'.
  - intros A k. apply ends_assoc. eapply ends_bind; [exact Hs|]. apply ends_exit.
Qed.

(** ** Runs against the meaning of a line

    The process ends; what it did is [d] as far as it did not give up, and
    all of [d] when no call fails. *)
Definition obeys (w : oracle) (st : pst) (t : prog Empty_set) (e : obj) (d : list act) : Prop :=
  exists a, ends w st t a /\ cutoff e a d /\ ((forall p, fails w p = false) -> a = d).

Section obeys.
  Context (w : oracle) (e : obj).
  Hypothesis Hpid : forall p, 0 < pid w p.

Lemma obeys_exact st t d : ends w st t d -> obeys w st t e d.
Proof. intros H. by exists d. Qed.

Lemma obeys_skip {A} st st' (t : prog A) k x d :
  steps w st t [] st' x -> obeys w st' (k x) e d -> obeys w st (ITree.bind t k) e d.
Proof. intros Hs (a & Ha & Hc & He). exists a. split; [|done]. by eapply (ends_bind _ _ _ _ _ []). Qed.

Lemma obeys_act {A} st st' (t : prog A) k b x d :
  steps w st t [b] st' x -> obeys w st' (k x) e d -> obeys w st (ITree.bind t k) e (b :: d).
Proof.
  intros Hs (a & Ha & Hc & He). exists (b :: a). split; [by eapply (ends_bind _ _ _ _ _ [b])|].
  split; [auto|]. intros H. by rewrite He.
Qed.

(** A call that fails, after which the process gives up. *)
Lemma obeys_quit st t d a : ends w st t a -> quits e a -> fails w (here st) = true -> obeys w st t e d.
Proof. intros Ha Hq Hf. exists a. split; [done|]. split; [auto|]. intros H. by rewrite H in Hf. Qed.

Lemma fork1_obeys st k c d :
  fd_obj (fds st) 2 = Some e ->
  obeys w (child st) (k 0) e c -> obeys w (counted_call st) (k (pid w (here st))) e d ->
  obeys w st (ITree.bind fork1 k) e (AFork c :: d).
Proof.
  intros He (c' & Hc & Hcc & Hce) (a & Ha & Hca & Hae). destruct (fails w (here st)) eqn:Hf.
  - destruct (complain w (counted_call st) e [PStr (Some (text "fork")); PChar 10]) as (q & Hq & _ & Hend);
      [done|by repeat constructor|].
    eapply obeys_quit; [|exact Hq|done]. apply ends_assoc.
    eapply (ends_bind _ _ _ _ _ []); [by apply fork_fails|]. apply Hend.
  - exists (AFork c' :: a). split; [|split; [auto|intros H; by rewrite Hce, Hae]].
    apply ends_assoc. apply fork_ends; [done|..].
    + eapply ends_observe; [|exact Hc]. done.
    + pose proof (Hpid (here st)). destruct (pid w (here st) =? -1) eqn:E; [lia|].
      eapply ends_observe; [|exact Ha]. done.
Qed.
End obeys.

(** *** The two ends of a pipe *)
Section pipe.
  Context (w : oracle) (i o e : obj) (self : list nat) (inp : list (list Z)) (p : list nat).

  (** Both ends open on descriptors 3 and 4. *)
Definition piped (k : nat) : pst :=
    Pst (Some i :: Some o :: Some e :: Some (PipeR p) :: Some (PipeW p) :: replicate 11 None) self k inp.

Lemma left_obeys k t d :
    obeys w (Pst (std i (PipeW p) e) self k inp) t e d ->
    obeys w (piped k) (call (Close 1) ;;; call (Dup 4) ;;; call (Close 3) ;;; call (Close 4) ;;; t) e d.
Proof.
  intros H. repeat (eapply obeys_skip; [first [by eapply close_steps|by eapply dup_steps]|]). exact H.
Qed.

Lemma right_obeys k t d :
    obeys w (Pst (std (PipeR p) o e) self k inp) t e d ->
    obeys w (piped k) (call (Close 0) ;;; call (Dup 3) ;;; call (Close 3) ;;; call (Close 4) ;;; t) e d.
Proof.
  intros H. repeat (eapply obeys_skip; [first [by eapply close_steps|by eapply dup_steps]|]). exact H.
Qed.

Lemma both_obeys k :
    obeys w (piped k) (call (Close 3) ;;; call (Close 4) ;;; call Wait ;;; call Wait ;;; exit) e [AWait; AWait; AExit].
Proof.
  do 2 (eapply obeys_skip; [by eapply close_steps|]). do 2 (eapply obeys_act; [apply wait_steps|]).
  apply obeys_exact, ends_exit'.
Qed.
End pipe.

(** The parent's side of a [fork]. *)
Ltac in_parent Hpid :=
  match goal with |- context [pid ?w ?p =? 0] =>
    rewrite (proj2 (Z.eqb_neq (pid w p) 0)) by (pose proof (Hpid p); lia)
  end.

Lemma runcmd_run w (Hpid : forall p, 0 < pid w p) c : forall i o e self k inp,
  redirs_std c -> obeys w (Pst (std i o e) self k inp) (runcmd c) e (den i o e self k c).
Proof.
  induction c as [argv|c IH f m fd|l IHl r IHr|l IHl r IHr|c IH]; intros i o e self k inp Hr; cbn [runcmd den].
  - destruct argv as [|a0 argv]; [apply obeys_exact, ends_exit'|]. set (st := Pst _ _ _ _).
    destruct (fails w (here st)) eqn:Hf; [|by apply obeys_exact, exec_ends].
    destruct (complain w (counted_call st) e ((PChar <$> text "exec ") ++ [PStr (Some a0)] ++ (PChar <$> text " failed") ++ [PChar 10]))
      as (q & Hq & Hend & _); [done|by repeat constructor|].
    eapply obeys_quit; [|exact Hq|done]. by eapply (ends_bind _ _ _ _ _ []); [by apply exec_fails|].
  - destruct Hr as [Hfd Hr].
    assert (Hclosed : exists st1, steps w (Pst (std i o e) self k inp) (call (Close fd)) [] st1 0 /\
      here st1 = self ++ [k] /\ fd_obj (fds st1) 2 = Some e /\ free_fd (fds st1) = Some (Z.to_nat fd) /\
      obeys w (counted_call (set_fds (<[Z.to_nat fd := Some (OFile f m)]> (fds st1)) st1)) (runcmd c) e
        (if fd =? 0 then den (OFile f m) o e self (S k) c else den i (OFile f m) e self (S k) c)).
    { destruct Hfd as [-> | ->]; (eexists; split; [by eapply close_steps|]); (split_and!; [done..|]);
        [apply (IH (OFile f m) o e self (S k) inp Hr)|apply (IH i (OFile f m) e self (S k) inp Hr)]. }
    destruct Hclosed as (st1 & Hc & Hh & He & Hfree & Hobey). destruct (fails w (self ++ [k])) eqn:Hf.
    + destruct (complain w (counted_call st1) e ((PChar <$> text "open ") ++ [PStr (Some f)] ++ (PChar <$> text " failed") ++ [PChar 10]))
        as (q & Hq & Hend & _); [done|by repeat constructor|].
      eapply obeys_quit; [|exact Hq|exact Hf]. eapply (ends_bind _ _ _ _ _ []); [exact Hc|].
      by eapply (ends_bind _ _ _ _ _ []); [apply open_fails; by rewrite Hh|].
    + eapply obeys_skip; [exact Hc|]. eapply obeys_act; [apply open_steps; [by rewrite Hh|exact Hfree]|].
      cbv beta. rewrite (proj2 (Z.ltb_ge _ _)) by lia. exact Hobey.
  - destruct Hr as [Hl Hr]. set (st := Pst _ _ _ _). destruct (fails w (here st)) eqn:Hf.
    + destruct (complain w (counted_call st) e [PStr (Some (text "pipe")); PChar 10]) as (q & Hq & Hend & _); [done|by repeat constructor|].
      eapply obeys_quit; [|exact Hq|exact Hf]. by eapply (ends_bind _ _ _ _ _ []); [by apply pipe_fails|].
    + eapply obeys_skip; [by eapply pipe_steps|]. cbv beta iota. change (0 <? 0) with false. cbv iota.
      apply fork1_obeys; [done|done|..].
      * apply (left_obeys w i o e (self ++ [S k]) inp (self ++ [k])). by apply IHl.
      * in_parent Hpid.
        apply fork1_obeys; [done|done|..].
        -- apply (right_obeys w i o e (self ++ [S (S k)]) inp (self ++ [k])). by apply IHr.
        -- in_parent Hpid.
           apply (both_obeys w i o e self inp (self ++ [k])).
  - destruct Hr as [Hl Hr]. apply fork1_obeys; [done|done|by apply IHl|]. in_parent Hpid.
    eapply obeys_act; [apply wait_steps|]. by apply IHr.
  - apply fork1_obeys; [done|done|by apply IH|]. in_parent Hpid. apply obeys_exact, ends_exit'.
Qed.

(** ** A session

    The bytes [gets] takes from the input, what is left, and the number of
    reads. *)
Fixpoint line_of (n : nat) (inp : list Z) : list Z * list Z * nat :=
  match n with
  | O => ([], inp, 0%nat)
  | S n =>
      match inp with
      | [] => ([], [], 1%nat)
      | c :: inp =>
          if (c =? 10) || (c =? 13) then ([c], inp, 1%nat)
          else let '(l, r, k) := line_of n inp in (c :: l, r, S k)
      end
  end.

Definition say (e : obj) (l : list Z) : list act := (fun c => AWrite e [u8 c]) <$> l.

(** A line that is no [cd]: the meaning of its tree, or a complaint. *)
Definition line_acts (i o e : obj) (self : list nat) (s : list Z) : list act :=
  match parse s with
  | Ok c _ => den i o e self 0 (cmd_text c)
  | Panic m =>
      say e (match leftovers s with [] => [] | rest => text "leftovers: " ++ rest ++ [10] end ++ text m ++ [10]) ++ [AExit]
  | _ => []
  end.

Fixpoint session (fuel : nat) (i o e : obj) (self : list nat) (k : nat) (inp : list Z) : list act :=
  match fuel with
  | O => []
  | S fuel =>
      say e (text "$ ") ++
      let '(l, rest, r) := line_of 99 inp in
      let k := (k + 2 + r)%nat in
      let buf := l ++ replicate (100 - length l) 0 in
      if at0 buf =? 0 then [AExit]
      else if is_cd buf then AChdir (cd_path buf) :: session fuel i o e self (S k) rest
      else AFork (line_acts i o e (self ++ [k]) (upto0 buf)) :: AWait :: session fuel i o e self (S (S k)) rest
  end.

Lemma line_of_length n : forall inp, let '(l, rest, r) := line_of n inp in
  (length l <= n)%nat /\ (length l + length rest = length inp)%nat /\ (inp <> [] -> n <> 0%nat -> l <> []).
Proof.
  induction n as [|n IH]; intros inp; cbn [line_of]; [by split_and!|].
  destruct inp as [|c inp]; [simpl; split_and!; (lia || done)|]. destruct ((c =? 10) || (c =? 13)); [simpl; split_and!; (lia || done)|].
  specialize (IH inp). destruct (line_of n inp) as [[l rest] r]. destruct IH as (? & ? & _). simpl. split_and!; (lia || done).
Qed.

Lemma line_of_u8 n : forall inp, Forall is_u8 inp ->
  let '(l, rest, r) := line_of n inp in Forall is_u8 l /\ Forall is_u8 rest.
Proof.
  induction n as [|n IH]; intros inp H; cbn [line_of]; [by split; [apply Forall_nil|]|].
  destruct inp as [|c inp]; [by split; apply Forall_nil|]. apply Forall_cons in H as [Hc H].
  destruct ((c =? 10) || (c =? 13)); [by split; [apply Forall_cons; split; [|apply Forall_nil]|]|].
  specialize (IH inp H). destruct (line_of n inp) as [[l rest] r]. destruct IH. by split; [apply Forall_cons|].
Qed.

(** Standard input, byte by byte. *)
Definition typed (inp : list Z) : list (list Z) := (fun c => [c]) <$> inp.

Lemma read1_steps w T self k o c inp :
  fails w (self ++ [k]) = false -> fd_obj T 0 = Some o ->
  steps w (Pst T self k (typed (c :: inp))) (call (Read 0 1)) [] (Pst T self (S k) (typed inp)) (1, [c]).
Proof. intros Hf Ho. by apply (read_steps w (Pst T self k (typed (c :: inp))) 0 1 o [c]). Qed.

Lemma gets_steps w (Hok : forall p, fails w p = false) T self o n : forall acc k inp,
  fd_obj T 0 = Some o ->
  let '(l, rest, r) := line_of n inp in
  steps w (Pst T self k (typed inp)) (gets_loop n acc) [] (Pst T self (k + r) (typed rest)) (acc ++ l).
Proof.
  induction n as [|n IH]; intros acc k inp Ho; cbn [line_of gets_loop].
  - rewrite Nat.add_0_r, app_nil_r. apply steps_ret.
  - destruct inp as [|c inp].
    + rewrite app_nil_r, Nat.add_1_r. eapply (steps_bind _ _ _ _ _ _ [] []); [by eapply read_steps|]. apply steps_ret.
    + destruct ((c =? 10) || (c =? 13)) eqn:E.
      * rewrite Nat.add_1_r. eapply (steps_bind _ _ _ _ _ _ [] []); [by eapply read1_steps|].
        cbv iota. change (1 <? 1) with false. cbv iota zeta. rewrite E. apply steps_ret.
      * specialize (IH (acc ++ [c]) (S k) inp Ho). destruct (line_of n inp) as [[l rest] r].
        rewrite <- app_assoc in IH. rewrite Nat.add_succ_r.
        eapply (steps_bind _ _ _ _ _ _ [] []); [by eapply read1_steps|].
        cbv iota. change (1 <? 1) with false. cbv iota zeta. rewrite E. exact IH.
Qed.

(** *** One line *)
Lemma cmd_map_text f c : (forall w, w ∈ words_of c -> f w = word_text w) -> cmd_map f c = cmd_text c.
Proof.
  induction c as [argv|c IH file m fd|l IHl r IHr|l IHl r IHr|c IH]; cbn [cmd_map cmd_text words_of]; intros H.
  - f_equal. apply map_ext_in. intros w Hw. apply H. by apply list_elem_of_In.
  - rewrite IH, H; [done|set_solver|set_solver].
  - rewrite IHl, IHr; [done|set_solver|set_solver].
  - rewrite IHl, IHr; [done|set_solver|set_solver].
  - by rewrite IH.
Qed.

Lemma redirs_std_text c : redirs_std c -> redirs_std (cmd_text c).
Proof. induction c; cbn [redirs_std cmd_text]; naive_solver. Qed.

Lemma cstr_upto0 buf : Forall is_u8 buf -> 0 ∈ buf -> cstr buf 0 (upto0 buf).
Proof.
  induction buf as [|x buf IH]; intros HF H0; [set_solver|].
  apply Forall_cons in HF as [Hx HF]. cbn [upto0]. destruct (x =? 0) eqn:E.
  - apply cstr_nil. simpl. f_equal. lia.
  - apply cstr_cons. split; [done|]. split; [unfold is_char, is_u8 in *; lia|].
    destruct (IH HF ltac:(set_solver)) as (H1 & H2 & H3). split_and!; [|done|done]. intros i y Hy. exact (H1 i y Hy).
Qed.

Lemma say_puts w (Hok : forall p, fails w p = false) fd o l st :
  fd_obj (fds st) fd = Some o ->
  steps w st (puts (map (fun c => (fd, u8 c)) l)) (say o l) (Pst (fds st) (self st) (cnt st + length l) (input st)) tt.
Proof.
  intros Ho. destruct (puts_steps w fd o l st Ho) as (bs & n & Hs & Hall). destruct (Hall Hok) as [-> ->].
  unfold say. rewrite <- list_fmap_compose in Hs. exact Hs.
Qed.

Lemma say_printf w (Hok : forall p, fails w p = false) fd o ps st :
  fd_obj (fds st) fd = Some o -> Forall piece_ok ps ->
  let l := concat (map piece_out ps) in
  steps w st (User.printf fd (concat (map piece_fmt ps)) (concat (map piece_args ps))) (say o l)
    (Pst (fds st) (self st) (cnt st + length l) (input st)) tt.
Proof. intros Ho Hp l. rewrite printf_text by done. by apply say_puts. Qed.

Lemma say_app e a b : say e (a ++ b) = say e a ++ say e b.
Proof. apply fmap_app. Qed.

Lemma say_panic w (Hok : forall p, fails w p = false) e s st :
  fd_obj (fds st) 2 = Some e -> ends w st (panic s) (say e (s ++ [10]) ++ [AExit]).
Proof.
  intros He. eapply ends_bind; [|apply ends_exit'].
  pose proof (say_printf w Hok 2 e [PStr (Some s); PChar 10] st He ltac:(by repeat constructor)) as H. exact H.
Qed.

Lemma run_line_run w (Hok : forall p, fails w p = false) (Hpid : forall p, 0 < pid w p) i o e self inp buf :
  cstr buf 0 (upto0 buf) ->
  ends w (Pst (std i o e) self 0 inp) (run_line buf) (line_acts i o e self (upto0 buf)).
Proof.
  intros Hs. unfold run_line, line_acts.
  destruct (parsecmd_run buf (upto0 buf) Hs) as [(m & Hp & Hm)|(c & l & buf' & Hp & Hc & Hr & Hw)]; rewrite Hp.
  - rewrite Hm. destruct (leftovers (upto0 buf)) as [|x rest]; [by apply (say_panic w Hok e (text m))|].
    rewrite say_app, <- app_assoc.
    set (ps := (PChar <$> text "leftovers: ") ++ [PStr (Some (x :: rest)); PChar 10]).
    assert (Hps : Forall piece_ok ps) by (by repeat constructor).
    pose proof (say_printf w Hok 2 e ps (Pst (std i o e) self 0 inp) eq_refl Hps) as H.
    eapply ends_bind; [exact H|]. by apply (say_panic w Hok e (text m)).
  - rewrite Hc. rewrite cmd_map_text.
    2:{ intros w' Hw'. destruct (Hw w' Hw') as [Hcs _]. by apply upto0_cstr. }
    destruct (runcmd_run w Hpid (cmd_text c) i o e self 0 inp (redirs_std_text c Hr)) as (a & Ha & _ & He).
    by rewrite <- He.
Qed.

(** *** The main loop *)
Section main.
  Context (w : oracle) (i o e : obj) (self : list nat).
  Hypothesis Hok : forall p, fails w p = false.
  Hypothesis Hpid : forall p, 0 < pid w p.
Let at_ (k : nat) (inp : list Z) : pst := Pst (std i o e) self k (typed inp).

Lemma getcmd_steps k inp :
  let '(l, rest, r) := line_of 99 inp in
  let buf := l ++ replicate (100 - length l) 0 in
  steps w (at_ k inp) (getcmd 100) (say e (text "$ ")) (at_ (k + 2 + r) rest) ((if at0 buf =? 0 then -1 else 0), buf).
Proof.
  pose proof (gets_steps w Hok (std i o e) self i 99 [] (k + 2) inp eq_refl) as Hg.
  destruct (line_of 99 inp) as [[l rest] r]. cbv zeta. unfold getcmd.
  rewrite <- (app_nil_r (say e (text "$ "))). eapply steps_bind.
  - pose proof (say_printf w Hok 2 e [PChar 36; PChar 32] (at_ k inp) eq_refl ltac:(by repeat constructor)) as H. exact H.
  - cbv beta. eapply (steps_bind _ _ _ _ _ _ [] []); [exact Hg|]. cbv beta zeta. rewrite app_nil_l.
    destruct (at0 _ =? 0); apply steps_ret.
Qed.

Lemma chdir_steps path st :
  steps w st (call (Chdir path)) [AChdir path] (counted_call st) 0.
Proof. call_step. rewrite Hok. apply emit_app. Qed.

Lemma main_loop_run : forall fuel k inp,
  (length inp < fuel)%nat -> Forall is_u8 inp ->
  ends w (at_ k inp) (main_loop ;;; exit) (session fuel i o e self k inp).
Proof.
  induction fuel as [|fuel IH]; intros k inp Hf Hu; [lia|]. apply ends_iter. cbn [session].
  pose proof (getcmd_steps k inp) as Hg. pose proof (line_of_length 99 inp) as Hl.
  pose proof (line_of_u8 99 inp Hu) as Hlu. destruct (line_of 99 inp) as [[l rest] r].
  destruct Hl as (Hl1 & Hl2 & Hl3), Hlu as [Hu1 Hu2].
  set (buf := l ++ replicate (100 - length l) 0) in *. apply ends_assoc.
  eapply ends_bind; [exact Hg|]. cbv beta iota zeta. destruct (at0 buf =? 0) eqn:E0.
  { apply ends_ret, ends_ret. apply ends_exit'. }
  assert (Hne : (0 < length l)%nat).
  { destruct l; [|simpl; lia]. unfold buf in E0. done. }
  change (negb (0 >=? 0)) with false. cbv iota. fold main_loop. destruct (is_cd buf) eqn:Ecd.
  - apply ends_assoc. eapply (ends_bind _ _ _ _ _ [_]); [apply chdir_steps|]. cbv beta.
    change (0 <? 0) with false. cbv iota. apply ends_assoc, ends_ret, ends_ret, ends_tau. apply IH; [lia|done].
  - apply ends_assoc, ends_assoc. set (st := at_ (k + 2 + r) rest). apply fork_ends; [apply Hok|..].
    + apply ends_ret. cbv beta. change (0 =? 0) with true. cbv iota. apply ends_assoc, ends_void.
      apply (run_line_run w Hok Hpid i o e (here st) (typed rest) buf). apply cstr_upto0.
      * apply Forall_app. split; [done|]. apply Forall_replicate. done.
      * apply elem_of_app. right. apply elem_of_replicate. split; [done|lia].
    + pose proof (Hpid (here st)) as Hp. rewrite (proj2 (Z.eqb_neq _ _)) by lia. apply ends_ret. cbv beta.
      rewrite (proj2 (Z.eqb_neq _ _)) by lia. apply ends_assoc.
      eapply (ends_bind _ _ _ _ _ [_]); [apply wait_steps|]. apply ends_ret, ends_tau. apply IH; [lia|done].
Qed.

Lemma open_console_steps k inp :
  ends w (at_ (S k) inp) (main_loop ;;; exit) (session (S (length inp)) i o e self (S k) inp) ->
  ends w (at_ k inp) main (AOpen (text "console") O_RDWR :: session (S (length inp)) i o e self (S k) inp).
Proof.
  intros H. unfold main. apply ends_iter, ends_assoc.
  eapply (ends_bind _ _ _ _ _ [_]); [by eapply open_steps|]. cbv beta.
  change (negb (Z.of_nat 3 >=? 0)) with false. change (Z.of_nat 3 >=? 3) with true. cbv iota. apply ends_assoc.
  eapply (ends_bind _ _ _ _ _ []); [by eapply close_steps|]. cbv beta. apply ends_ret, ends_ret. exact H.
Qed.
End main.

(** C20. The shell wires the processes of a command as the line says. Whatever
    calls fail, running a command ends; every process does what the command
    means for it (opening the files of its redirections, forking, waiting,
    and executing each program with exactly standard input, output and error
    open, the two sides of a bar joined by a pipe of their own), or prints a
    message on standard error and exits in the middle of it. When no call
    fails, everything is done. *)
Theorem runcmd_spec w c i o e self k inp :
  (forall p, 0 < pid w p) -> redirs_std c ->
  exists a, ends w (Pst (std i o e) self k inp) (runcmd c) a /\ cutoff e a (den i o e self k c) /\
    ((forall p, fails w p = false) -> a = den i o e self k c).
Proof. intros Hpid Hr. exact (runcmd_run w Hpid c i o e self k inp Hr). Qed.

(** C21. A session with the shell: on any bytes typed at it, with no call
    failing, the shell prompts, reads a line of at most 99 bytes, changes
    directory itself, and for every other line forks a process that runs the
    command the line parses to, or complains and exits, and waits for it;
    it exits at the end of the input. *)
Theorem shell_session w i o e self k inp :
  (forall p, fails w p = false) -> (forall p, 0 < pid w p) -> Forall is_u8 inp ->
  ends w (Pst (std i o e) self k (typed inp)) main
    (AOpen (text "console") O_RDWR :: session (S (length inp)) i o e self (S k) inp).
Proof. intros Hok Hpid Hu. apply open_console_steps; [done|]. apply main_loop_run; (done || lia). Qed.

(** *** [(ls|wc)>f], whose second fork fails, and a line typed *)
Definition calm_world : oracle := Oracle (fun _ => false) (fun _ => 7) (fun _ => 7) (fun _ => (0, 0, 0)).
Definition no_second_fork : oracle :=
  Oracle (fun p => bool_decide (p = [3%nat])) (fun _ => 7) (fun _ => 7) (fun _ => (0, 0, 0)).
Definition console : obj := OFile (text "console") O_RDWR.
Definition ls_wc : cmd (list Z) := REDIR (PIPE (EXEC [text "ls"]) (EXEC [text "wc"])) (text "f") 0x201 1.

Lemma runcmd_spec_witness :
  exists a, ends no_second_fork (Pst (std console console console) [] 0 []) (runcmd ls_wc) a /\
    cutoff console a (den console console console [] 0 ls_wc).
Proof.
  destruct (runcmd_spec no_second_fork ls_wc console console console [] 0 []) as (a & Ha & Hc & _);
    [intros; reflexivity|split; [right; reflexivity|split; exact I]|].
  exists a. split; [exact Ha|exact Hc].
Defined.

Lemma shell_session_witness :
  ends calm_world (Pst (std console console console) [] 0 (typed (text "ls" ++ [10]))) main
    (AOpen (text "console") 2 :: session 4 console console console [] 1 (text "ls" ++ [10])).
Proof.
  apply (shell_session calm_world console console console [] 0 (text "ls" ++ [10]));
    [intros; reflexivity|intros; reflexivity|repeat constructor; discriminate].
Defined.
