(* ===== verification/Uprog.v ===== *)
(** The small user programs, as programs of system calls; cat and wc are
    proved to copy and to count whatever pieces [read] returns. *)
From stdpp Require Import base numbers list strings sets.
From ITree Require Import Core.ITreeDefinition.
From S2P Require Import Prelude Params Str Printf Dir User Shell.

Set Warnings "-clear-no-such-hyp".
Open Scope prog_scope.

(** A format that ends the line. *)
Abbreviation line_ s := (text s ++ [10]).
Abbreviation str s := (AStr (Some s)).

(** *** init.c *)
Module Init.
Definition reap_until (pid : Z) : prog unit :=
  ITree.iter (fun _ =>
    wpid <- call Wait ;;
    if (wpid >=? 0) && negb (wpid =? pid) then User.printf 1 (line_ "zombie!") [] ;;; Ret (inl tt)
    else Ret (inr tt)) tt.

Definition main : prog Empty_set :=
  fd <- call (Open (text "console") O_RDWR) ;;
  (if fd <? 0 then
     call (Mknod (text "console") 1 1) ;;;
     call (Open (text "console") O_RDWR) ;;;
     Ret tt
   else Ret tt) ;;;
  call (Dup 0) ;;;
  call (Dup 0) ;;;
  ITree.forever (
    User.printf 1 (line_ "init: starting sh") [] ;;;
    pid <- call Fork ;;
    if pid <? 0 then
      User.printf 1 (line_ "init: fork failed") [] ;;;
      exit
    else if pid =? 0 then
      call (Exec (text "sh") [text "sh"]) ;;;
      User.printf 1 (line_ "init: exec sh failed") [] ;;;
      exit
    else reap_until pid).
End Init.

(** *** cat.c *)
Module Cat.
Definition cat (fd : Z) : prog unit :=
  n <- ITree.iter (fun _ =>
    r <- call (Read fd 512) ;;
    let '(n, buf) := r in
    if n >? 0 then call (Write 1 buf) ;;; Ret (inl tt) else Ret (inr n)) tt ;;
  if n <? 0 then
    User.printf 1 (line_ "cat: read error") [] ;;;
    exit
  else Ret tt.

Fixpoint cat_files (files : list (list Z)) : prog Empty_set :=
  match files with
  | [] => exit
  | f :: files =>
      fd <- call (Open f 0) ;;
      if fd <? 0 then
        User.printf 1 (line_ "cat: cannot open %s") [str f] ;;;
        exit
      else
      cat fd ;;;
      call (Close fd) ;;;
      cat_files files
  end.

Definition main (argv : list (list Z)) : prog Empty_set :=
  if decide (length argv <= 1)%nat then cat 0 ;;; exit else cat_files (tail argv).
End Cat.

(** *** echo.c *)
Module Echo.
Fixpoint echo_args (l : list (list Z)) : prog Empty_set :=
  match l with
  | [] => exit
  | a :: l =>
      User.printf 1 (text "%s%s") [str a; str (match l with [] => [10] | _ => [32] end)] ;;;
      echo_args l
  end.
Definition main (argv : list (list Z)) : prog Empty_set := echo_args (tail argv).
End Echo.

(** *** kill.c. [atoi] of a string ends at its NUL at the latest, so the last
    case does not arise. *)
Module Killp.
Fixpoint kill_args (l : list (list Z)) : prog Empty_set :=
  match l with
  | [] => exit
  | a :: l =>
      match Ulib.atoi 0 (a ++ [0]) with
      | Ok p _ => call (Kill p) ;;; kill_args l
      | _ => ITree.spin
      end
  end.
Definition main (argv : list (list Z)) : prog Empty_set :=
  if decide (length argv < 1)%nat then
    User.printf 2 (line_ "usage: kill pid...") [] ;;;
    exit
  else kill_args (tail argv).
End Killp.

(** *** ln.c *)
Module Ln.
Definition main (argv : list (list Z)) : prog Empty_set :=
  match argv with
  | [_; old; new] =>
      r <- call (Link old new) ;;
      (if r <? 0 then User.printf 2 (line_ "link %s %s: failed") [str old; str new] else Ret tt) ;;;
      exit
  | _ =>
      User.printf 2 (line_ "Usage: ln old new") [] ;;;
      exit
  end.
End Ln.

(** *** mkdir.c *)
Module Mkdirp.
Fixpoint mkdirs (l : list (list Z)) : prog Empty_set :=
  match l with
  | [] => exit
  | a :: l =>
      r <- call (Mkdir a) ;;
      if r <? 0 then
        User.printf 2 (line_ "mkdir: %s failed to create") [str a] ;;;
        exit
      else mkdirs l
  end.
Definition main (argv : list (list Z)) : prog Empty_set :=
  if decide (length argv < 2)%nat then
    User.printf 2 (line_ "Usage: mkdir files...") [] ;;;
    exit
  else mkdirs (tail argv).
End Mkdirp.

(** *** rm.c *)
Module Rm.
Fixpoint rms (l : list (list Z)) : prog Empty_set :=
  match l with
  | [] => exit
  | a :: l =>
      r <- call (Unlink a) ;;
      if r <? 0 then
        User.printf 2 (line_ "rm: %s failed to delete") [str a] ;;;
        exit
      else rms l
  end.
Definition main (argv : list (list Z)) : prog Empty_set :=
  if decide (length argv < 2)%nat then
    User.printf 2 (line_ "Usage: rm files...") [] ;;;
    exit
  else rms (tail argv).
End Rm.

(** *** wc.c *)
Module Wc.
(** [strchr(" \r\t\n\v", c)], for any character, is false on NUL. *)
Definition blank (c : Z) : bool := existsb (Z.eqb c) [32; 13; 9; 10; 11].

(** [l], [w], [c] and [inword]. *)
Record counts := Counts { nl : Z; nw : Z; nc : Z; inword : bool }.

Definition count1 (s : counts) (x : Z) : counts :=
  let c := s32 (nc s + 1) in
  let l := if x =? 10 then s32 (nl s + 1) else nl s in
  if blank x then Counts l (nw s) c false
  else if inword s then Counts l (nw s) c true
  else Counts l (s32 (nw s + 1)) c true.

Definition wc (fd : Z) (name : list Z) : prog unit :=
  r <- ITree.iter (fun s =>
    r <- call (Read fd 512) ;;
    let '(n, buf) := r in
    if n >? 0 then Ret (inl (foldl count1 s buf)) else Ret (inr (n, s))) (Counts 0 0 0 false) ;;
  let '(n, s) := r in
  if n <? 0 then
    User.printf 1 (line_ "wc: read error") [] ;;;
    exit
  else User.printf 1 (line_ "%d %d %d %s") [AInt (nl s); AInt (nw s); AInt (nc s); str name].

Fixpoint wc_files (files : list (list Z)) : prog Empty_set :=
  match files with
  | [] => exit
  | f :: files =>
      fd <- call (Open f 0) ;;
      if fd <? 0 then
        User.printf 1 (line_ "wc: cannot open %s") [str f] ;;;
        exit
      else
      wc fd f ;;;
      call (Close fd) ;;;
      wc_files files
  end.

Definition main (argv : list (list Z)) : prog Empty_set :=
  if decide (length argv <= 1)%nat then wc 0 [] ;;; exit else wc_files (tail argv).
End Wc.

(** *** zombie.c *)
Module Zombie.
Definition main : prog Empty_set :=
  pid <- call Fork ;;
  (if pid >? 0 then call (Sleep 5) ;;; Ret tt else Ret tt) ;;;
  exit.
End Zombie.

(** *** ls.c *)
Module Ls.
(** What follows the last slash (47). *)
Fixpoint after_slash (p : list Z) : option (list Z) :=
  match p with
  | [] => None
  | c :: p => match after_slash p with Some q => Some q | None => if c =? 47 then Some p else None end
  end.
Definition fmtname (path : list Z) : list Z :=
  let p := default path (after_slash path) in
  if Z.of_nat (length p) >=? DIRSIZ then p else p ++ replicate (Z.to_nat DIRSIZ - length p) 32.

Definition show (path : list Z) (st : Z * Z * Z) : prog unit :=
  let '(type, ino, sz) := st in
  User.printf 1 (line_ "%s %d %d %d") [str (fmtname path); AInt type; AInt ino; AInt sz].

(** The loop over the entries of directory [path]. *)
Definition ls_dir (fd : Z) (path : list Z) : prog unit :=
  ITree.iter (fun _ =>
    r <- call (Read fd DIRENT_SIZE) ;;
    let '(n, de) := r in
    if negb (n =? DIRENT_SIZE) then Ret (inr tt) else
    if de_inum de =? 0 then Ret (inl tt) else
    let buf := path ++ [47] ++ de_name de in
    r <- User.stat buf ;;
    (if fst r <? 0 then User.printf 1 (line_ "ls: cannot stat %s") [str buf] else show buf (snd r)) ;;;
    Ret (inl tt)) tt.

Definition ls (path : list Z) : prog unit :=
  fd <- call (Open path 0) ;;
  if fd <? 0 then User.printf 2 (line_ "ls: cannot open %s") [str path] else
  r <- call (Fstat fd) ;;
  if fst r <? 0 then
    User.printf 2 (line_ "ls: cannot stat %s") [str path] ;;;
    call (Close fd) ;;;
    Ret tt
  else
  (if (snd r).1.1 =? T_FILE then show path (snd r)
   else if (snd r).1.1 =? T_DIR then
     if Z.of_nat (length path) + 1 + DIRSIZ + 1 >? 512 then User.printf 1 (line_ "ls: path too long") []
     else ls_dir fd path
   else Ret tt) ;;;
  call (Close fd) ;;;
  Ret tt.

Fixpoint ls_args (l : list (list Z)) : prog Empty_set :=
  match l with
  | [] => exit
  | a :: l => ls a ;;; ls_args l
  end.
Definition main (argv : list (list Z)) : prog Empty_set :=
  if decide (length argv < 2)%nat then ls (text ".") ;;; exit else ls_args (tail argv).
End Ls.

(** *** forktest.c, with a [printf] of its own *)
Module Forktest.
Definition N : nat := 1000.
Definition printf (fd : Z) (s : list Z) : prog unit := call (Write fd s) ;;; Ret tt.

(** The number of processes forked. *)
Fixpoint fork_loop (fuel n : nat) : prog nat :=
  match fuel with
  | O => Ret n
  | S fuel =>
      pid <- call Fork ;;
      if pid <? 0 then Ret n else
      if pid =? 0 then exit else fork_loop fuel (S n)
  end.
Fixpoint wait_children (n : nat) : prog unit :=
  match n with
  | O => Ret tt
  | S n =>
      r <- call Wait ;;
      if r <? 0 then printf 1 (line_ "wait stopped early") ;;; exit else wait_children n
  end.
Definition forktest : prog unit :=
  printf 1 (line_ "fork test") ;;;
  n <- fork_loop N 0 ;;
  if decide (n = N) then printf 1 (line_ "fork claimed to work N times!") ;;; exit else
  wait_children n ;;;
  r <- call Wait ;;
  if negb (r =? -1) then printf 1 (line_ "wait got too many") ;;; exit else
  printf 1 (line_ "fork test OK").
Definition main : prog Empty_set := forktest ;;; exit.
End Forktest.

(** *** stressfs.c *)
Module Stressfs.
(** How far the loop gets: each child goes on, the parent stops. *)
Fixpoint spread (fuel i : nat) : prog nat :=
  match fuel with
  | O => Ret i
  | S fuel =>
      pid <- call Fork ;;
      if pid >? 0 then Ret i else spread fuel (S i)
  end.
Fixpoint times (n : nat) (t : prog unit) : prog unit :=
  match n with O => Ret tt | S n => t ;;; times n t end.

Definition main : prog Empty_set :=
  User.printf 1 (line_ "stressfs starting") [] ;;;
  let data := replicate 512 97 in
  i <- spread 4 0 ;;
  User.printf 1 (line_ "write %d") [AInt (Z.of_nat i)] ;;;
  let path := text "stressfs" ++ [48 + Z.of_nat i] in
  fd <- call (Open path (Z.lor O_CREATE O_RDWR)) ;;
  times 20 (call (Write fd data) ;;; Ret tt) ;;;
  call (Close fd) ;;;
  User.printf 1 (line_ "read") [] ;;;
  fd <- call (Open path O_RDONLY) ;;
  times 20 (call (Read fd 512) ;;; Ret tt) ;;;
  call (Close fd) ;;;
  call Wait ;;;
  exit.
End Stressfs.

(** ** cat *)

(** The pieces of a file as [read] returns them, then the end. *)
Definition pieces (cs : list (list Z)) : Prop := Forall (fun c => (0 < length c <= 512)%nat) cs.

Lemma next_piece c cs : (0 < length c <= 512)%nat -> next_read 512 (c :: cs) = (c, cs).
Proof. intros Hc. unfold next_read. by rewrite take_ge, drop_ge by lia. Qed.
Lemma next_end rest : next_read 512 ([] :: rest) = ([], rest).
Proof. done. Qed.

Section copy.
  Context (w : oracle) (T : list (option obj)) (self : list nat) (fd : Z) (o' o : obj).
  Hypothesis Hok : forall p, fails w p = false.
  Hypothesis Hfd : fd_obj T fd = Some o'.
  Hypothesis Hout : fd_obj T 1 = Some o.
Let at_ (k : nat) (inp : list (list Z)) : pst := Pst T self k inp.

Lemma read_piece k c rest :
  (0 < length c <= 512)%nat ->
  steps w (at_ k (c :: rest)) (call (Read fd 512)) [] (at_ (S k) rest) (Z.of_nat (length c), c).
Proof. intros Hc. eapply (read_steps w (at_ k (c :: rest))); [exact Hfd|apply Hok|by apply next_piece]. Qed.
Lemma read_end k rest : steps w (at_ k ([] :: rest)) (call (Read fd 512)) [] (at_ (S k) rest) (0, []).
Proof. eapply (read_steps w (at_ k ([] :: rest)) fd 512 _ []); [exact Hfd|apply Hok|done]. Qed.

Lemma cat_steps cs : forall k rest, pieces cs ->
  exists k', steps w (at_ k (cs ++ [] :: rest)) (Cat.cat fd) (AWrite o <$> cs) (at_ k' rest) tt.
Proof.
  intros k rest Hp.
  assert (Hloop : exists k', steps w (at_ k (cs ++ [] :: rest)) (ITree.iter (fun _ =>
      r <- call (Read fd 512) ;;
      let '(n, buf) := r in
      if n >? 0 then call (Write 1 buf) ;;; Ret (inl tt) else Ret (inr n)) tt) (AWrite o <$> cs) (at_ k' rest) 0).
  { revert k. induction Hp as [|c cs Hc Hp IH]; intros k.
    - exists (S k). apply steps_iter.
      eapply (steps_bind _ _ _ _ _ _ [] []); [eapply (steps_bind _ _ _ _ _ _ [] []); [apply read_end|]|]; apply steps_ret.
    - destruct (IH (S (S k))) as (k' & Hk). exists k'. apply steps_iter. rewrite fmap_cons.
      assert (Hb : (Z.of_nat (length c) >? 0) = true) by (apply Z.gtb_lt; lia).
      eapply (steps_bind _ _ _ _ _ _ [AWrite o c]).
      + eapply (steps_bind _ _ _ _ _ _ [] [_]); [by apply read_piece|]. cbv beta iota. rewrite Hb.
        eapply (steps_bind _ _ _ _ _ _ [_] []); [|apply steps_ret].
        apply (write_steps w (at_ (S k) (cs ++ [] :: rest))); [exact Hout|apply Hok].
      + apply steps_tau, Hk. }
  destruct Hloop as (k' & Hloop). exists k'. rewrite <- (app_nil_r (AWrite o <$> cs)).
  eapply steps_bind; [exact Hloop|]. apply steps_ret.
Qed.
End copy.

(** What [cat] does with its files. *)
Definition cat_acts (o : obj) (files : list (list Z)) (css : list (list (list Z))) : list act :=
  concat (zip_with (fun f cs => AOpen f 0 :: (AWrite o <$> cs)) files css).

(** One file: opened on descriptor 3, used and closed. *)
Definition opened (i o e : obj) (f : list Z) : list (option obj) :=
  Some i :: Some o :: Some e :: Some (OFile f 0) :: replicate 12 None.

Lemma file_ends w (Hok : forall p, fails w p = false) i o e self k k' inp rest f (t : Z -> prog unit) bad next a b :
  steps w (Pst (opened i o e f) self (S k) inp) (t 3) a (Pst (opened i o e f) self k' rest) tt ->
  ends w (Pst (std i o e) self k' rest) next b ->
  ends w (Pst (std i o e) self k inp)
    (fd <- call (Open f 0) ;; if fd <? 0 then bad else t fd ;;; call (Close fd) ;;; next) (AOpen f 0 :: a ++ b).
Proof.
  intros Ht Hn. eapply (ends_bind _ _ _ _ _ [_]); [by eapply open_steps|]. cbv beta.
  change (Z.of_nat 3 <? 0) with false. cbv iota. eapply ends_bind; [exact Ht|].
  eapply (ends_bind _ _ _ _ _ []); [by eapply close_steps|]. exact Hn.
Qed.

Lemma cat_files_run w (Hok : forall p, fails w p = false) i o e self files css :
  Forall2 (fun _ cs => pieces cs) files css -> forall k rest,
  ends w (Pst (std i o e) self k (concat ((fun cs => cs ++ [[]]) <$> css) ++ rest)) (Cat.cat_files files)
    (cat_acts o files css ++ [AExit]).
Proof.
  induction 1 as [|f cs files css Hcs HF IH]; intros k rest; [apply ends_exit'|]. cbn [Cat.cat_files cat_acts zip_with].
  rewrite fmap_cons. unfold cat_acts. cbn [zip_with concat]. rewrite <- !app_assoc.
  assert (H3 : fd_obj (opened i o e f) 3 = Some (OFile f 0)) by done. assert (H1 : fd_obj (opened i o e f) 1 = Some o) by done.
  destruct (cat_steps w (opened i o e f) self 3 (OFile f 0) o Hok H3 H1 cs (S k)
    (concat ((fun cs => cs ++ [[]]) <$> css) ++ rest) Hcs) as (k' & Hk).
  eapply (file_ends w Hok i o e self k k' _ _ f Cat.cat); [exact Hk|apply IH].
Qed.

(** [cat] copies: in whatever pieces [read] returns the bytes of its files,
    cat writes the same pieces to standard output, file after file, each
    opened for reading; without arguments it copies standard input. *)
Theorem cat_spec w i o e self k name files css cs :
  (forall p, fails w p = false) -> Forall2 (fun _ cs => pieces cs) files css -> pieces cs ->
  (files <> [] ->
   ends w (Pst (std i o e) self k (concat ((fun cs => cs ++ [[]]) <$> css))) (Cat.main (name :: files))
     (cat_acts o files css ++ [AExit])) /\
  ends w (Pst (std i o e) self k (cs ++ [[]])) (Cat.main [name]) ((AWrite o <$> cs) ++ [AExit]).
Proof.
  intros Hok HF Hcs. split.
  - intros Hne. unfold Cat.main. rewrite decide_False by (destruct files; simpl; [done|lia]).
    pose proof (cat_files_run w Hok i o e self files css HF k []) as H. by rewrite app_nil_r in H.
  - unfold Cat.main. rewrite decide_True by (simpl; lia).
    assert (H0 : fd_obj (std i o e) 0 = Some i) by done. assert (H1 : fd_obj (std i o e) 1 = Some o) by done.
    destruct (cat_steps w (std i o e) self 0 i o Hok H0 H1 cs k [] Hcs) as (k' & Hk).
    eapply ends_bind; [exact Hk|]. apply ends_exit'.
Qed.

Lemma cat_spec_witness :
  ends calm_world (Pst (std console console console) [] 0 [[104; 105]; [10]; []]) (Cat.main [text "cat"; text "f"])
    [AOpen (text "f") 0; AWrite console [104; 105]; AWrite console [10]; AExit].
Proof.
  refine (proj1 (cat_spec calm_world console console console [] 0 (text "cat") [text "f"] [[[104; 105]; [10]]] [] _ _ _) _).
  - intros; reflexivity.
  - constructor; [|constructor]. repeat constructor; simpl; lia.
  - constructor.
  - discriminate.
Defined.

(** ** wc *)

(** The runs of characters between blanks, empty ones included. *)
Fixpoint fields (s : list Z) : list (list Z) :=
  match s with
  | [] => [[]]
  | c :: s =>
      if Wc.blank c then [] :: fields s
      else match fields s with f :: fs => (c :: f) :: fs | [] => [[c]] end
  end.
Definition words_in (s : list Z) : list (list Z) := filter (fun f => f <> []) (fields s).
Definition lines_in (s : list Z) : nat := length (filter (fun c => c = 10) s).

Lemma fields_cons s : exists f fs, fields s = f :: fs.
Proof. destruct s as [|c s]; simpl; [eauto|]. destruct (Wc.blank c); [eauto|]. destruct (fields s); eauto. Qed.

(** The first field is not empty, and [b]: in the middle of a word, that word
    has been counted. *)
Definition counted (b : bool) (s : list Z) : nat :=
  match b, fields s with true, (_ :: _) :: _ => 1 | _, _ => 0 end.

Lemma words_cons x s :
  length (words_in (x :: s)) =
  if Wc.blank x then length (words_in s) else S (length (words_in s) - counted true s).
Proof.
  unfold words_in, counted. cbn [fields]. destruct (fields_cons s) as (f & fs & ->). destruct (Wc.blank x).
  - rewrite filter_cons, decide_False by (intros H; by apply H). done.
  - rewrite !filter_cons, (decide_True (P := x :: f <> [])) by done. destruct f as [|y f].
    + rewrite decide_False by (intros H; by apply H). simpl. lia.
    + rewrite decide_True by done. simpl. lia.
Qed.
Lemma counted_le b s : (counted b s <= length (words_in s))%nat.
Proof.
  unfold counted, words_in. destruct b, (fields s) as [|[|y f] fs]; try lia.
  rewrite filter_cons, decide_True by done. simpl. lia.
Qed.
Lemma lines_cons x s : lines_in (x :: s) = ((if (x =? 10)%Z then 1 else 0) + lines_in s)%nat.
Proof. unfold lines_in. rewrite filter_cons. destruct (x =? 10) eqn:E; [rewrite decide_True by lia|rewrite decide_False by lia]; done. Qed.

Lemma count_words s : forall l w c b,
  0 <= l -> 0 <= w -> 0 <= c -> l + Z.of_nat (length s) < 2 ^ 31 -> w + Z.of_nat (length s) < 2 ^ 31 ->
  c + Z.of_nat (length s) < 2 ^ 31 ->
  let r := foldl Wc.count1 (Wc.Counts l w c b) s in
  Wc.nl r = l + Z.of_nat (lines_in s) /\ Wc.nc r = c + Z.of_nat (length s) /\
  Wc.nw r = w + Z.of_nat (length (words_in s)) - Z.of_nat (counted b s).
Proof.
  induction s as [|x s IH]; intros l w c b Hl Hw Hc Hl2 Hw2 Hc2.
  { assert (length (words_in []) = 0%nat) as -> by done. assert (counted b [] = 0%nat) as -> by (by destruct b).
    cbn. split_and!; lia. }
  rewrite words_cons, lines_cons. pose proof (counted_le true s) as Hle. cbn [foldl length] in *.
  set (l' := if x =? 10 then l + 1 else l).
  assert (Hstep : Wc.count1 (Wc.Counts l w c b) x =
    if Wc.blank x then Wc.Counts l' w (c + 1) false
    else if b then Wc.Counts l' w (c + 1) true else Wc.Counts l' (w + 1) (c + 1) true).
  { unfold Wc.count1. cbn [Wc.nl Wc.nw Wc.nc Wc.inword].
    by rewrite (s32_id (c + 1)), (s32_id (w + 1)), (s32_id (l + 1)) by (unfold is_s32; lia). }
  rewrite Hstep. clear Hstep.
  assert (Hcx : counted b (x :: s) = if b then if Wc.blank x then 0%nat else 1%nat else 0%nat).
  { unfold counted. cbn [fields]. destruct (fields_cons s) as (f & fs & ->). by destruct b, (Wc.blank x). }
  rewrite Hcx.
  assert (Hl' : l' = l + Z.of_nat (if (x =? 10)%Z then 1 else 0)%nat /\ l <= l' <= l + 1) by (unfold l'; destruct (x =? 10); lia).
  destruct (Wc.blank x); [|destruct b].
  - assert (Hcf : counted false s = 0%nat) by done. destruct b, (IH l' w (c + 1) false) as (I1 & I2 & I3); lia.
  - destruct (IH l' w (c + 1) true) as (I1 & I2 & I3); lia.
  - destruct (IH l' (w + 1) (c + 1) true) as (I1 & I2 & I3); lia.
Qed.

(** The line [wc] prints for the contents [s]. *)
Definition dec (n : nat) : list Z := shown upper 10 (Z.of_nat n) 1.
Definition wc_line (s name : list Z) : list Z :=
  dec (lines_in s) ++ [32] ++ dec (length (words_in s)) ++ [32] ++ dec (length s) ++ [32] ++ name ++ [10].

Lemma lines_le s : (lines_in s <= length s)%nat.
Proof. apply length_filter. Qed.
Lemma words_le s : (length (words_in s) <= length s)%nat.
Proof.
  induction s as [|x s IH]; [done|]. rewrite words_cons. pose proof (counted_le true s). simpl. destruct (Wc.blank x); lia.
Qed.

Section count.
  Context (w : oracle) (T : list (option obj)) (self : list nat) (fd : Z) (o' o : obj).
  Hypothesis Hok : forall p, fails w p = false.
  Hypothesis Hfd : fd_obj T fd = Some o'.
  Hypothesis Hout : fd_obj T 1 = Some o.

Lemma wc_loop_steps cs rest : pieces cs -> forall k s,
  exists k', steps w (Pst T self k (cs ++ [] :: rest)) (ITree.iter (fun s =>
      r <- call (Read fd 512) ;;
      let '(n, buf) := r in
      if n >? 0 then Ret (inl (foldl Wc.count1 s buf)) else Ret (inr (n, s))) s) []
    (Pst T self k' rest) (0, foldl Wc.count1 s (concat cs)).
Proof.
  induction 1 as [|c cs Hc Hp IH]; intros k s.
  - exists (S k). apply steps_iter.
    eapply (steps_bind _ _ _ _ _ _ [] []); [eapply (steps_bind _ _ _ _ _ _ [] []); [by eapply read_end|]|]; apply steps_ret.
  - destruct (IH (S k) (foldl Wc.count1 s c)) as (k' & Hk). exists k'. apply steps_iter. cbn [concat]. rewrite foldl_app.
    assert (Hb : (Z.of_nat (length c) >? 0) = true) by (apply Z.gtb_lt; lia).
    eapply (steps_bind _ _ _ _ _ _ [] []).
    + eapply (steps_bind _ _ _ _ _ _ [] []); [by eapply read_piece|]. cbv beta iota. rewrite Hb. apply steps_ret.
    + apply steps_tau, Hk.
Qed.

Lemma wc_steps cs name k rest :
  pieces cs -> Z.of_nat (length (concat cs)) < 2 ^ 31 ->
  exists k', steps w (Pst T self k (cs ++ [] :: rest)) (Wc.wc fd name) (say o (wc_line (concat cs) name)) (Pst T self k' rest) tt.
Proof.
  intros Hp Hlen. destruct (wc_loop_steps cs rest Hp k (Wc.Counts 0 0 0 false)) as (k' & Hk). set (s := concat cs) in *.
  destruct (count_words s 0 0 0 false) as (N1 & N2 & N3); try lia. change (counted false s) with 0%nat in N3.
  pose proof (lines_le s). pose proof (words_le s). set (r := foldl _ _ s) in *.
  set (ps := [PDec (Wc.nl r); PChar 32; PDec (Wc.nw r); PChar 32; PDec (Wc.nc r); PChar 32; PStr (Some name); PChar 10]).
  assert (Hps : Forall piece_ok ps) by (by repeat constructor).
  assert (Hline : concat (map piece_out ps) = wc_line s name).
  { unfold ps, wc_line, dec. cbn [map concat piece_out default]. rewrite app_nil_r.
    rewrite !s32_id by (unfold is_s32; lia). rewrite N1, N2, N3.
    rewrite !Z.add_0_l, Z.sub_0_r. reflexivity. }
  pose proof (say_printf w Hok 1 o ps (Pst T self k' rest) Hout Hps) as H1. cbv zeta in H1. rewrite Hline in H1.
  eexists. rewrite <- (app_nil_l (say o _)). eapply steps_bind; [exact Hk|]. cbv beta iota. exact H1.
Qed.
End count.

Definition wc_acts (o : obj) (files : list (list Z)) (css : list (list (list Z))) : list act :=
  concat (zip_with (fun f cs => AOpen f 0 :: say o (wc_line (concat cs) f)) files css).
Definition short (cs : list (list Z)) : Prop := pieces cs /\ Z.of_nat (length (concat cs)) < 2 ^ 31.

Lemma wc_files_run w (Hok : forall p, fails w p = false) i o e self files css :
  Forall2 (fun _ cs => short cs) files css -> forall k rest,
  ends w (Pst (std i o e) self k (concat ((fun cs => cs ++ [[]]) <$> css) ++ rest)) (Wc.wc_files files)
    (wc_acts o files css ++ [AExit]).
Proof.
  induction 1 as [|f cs files css [Hcs Hl] HF IH]; intros k rest; [apply ends_exit'|]. cbn [Wc.wc_files].
  rewrite fmap_cons. unfold wc_acts. cbn [zip_with concat]. rewrite <- !app_assoc.
  assert (H3 : fd_obj (opened i o e f) 3 = Some (OFile f 0)) by done. assert (H1 : fd_obj (opened i o e f) 1 = Some o) by done.
  destruct (wc_steps w (opened i o e f) self 3 (OFile f 0) o Hok H3 H1 cs f (S k)
    (concat ((fun cs => cs ++ [[]]) <$> css) ++ rest) Hcs Hl) as (k' & Hk).
  eapply (file_ends w Hok i o e self k k' _ _ f (fun fd => Wc.wc fd f)); [exact Hk|apply IH].
Qed.

(** C24. [wc] counts: however [read] cuts its files into pieces, the line printed
    for each of them gives the newlines, the maximal runs of non-blank
    characters and the length of the whole contents, provided that the counts
    fit an int; without arguments it reports standard input under an empty
    name. *)
Theorem wc_spec w i o e self k name files css cs :
  (forall p, fails w p = false) -> Forall2 (fun _ cs => short cs) files css -> short cs ->
  (files <> [] ->
   ends w (Pst (std i o e) self k (concat ((fun cs => cs ++ [[]]) <$> css))) (Wc.main (name :: files))
     (wc_acts o files css ++ [AExit])) /\
  ends w (Pst (std i o e) self k (cs ++ [[]])) (Wc.main [name]) (say o (wc_line (concat cs) []) ++ [AExit]).
Proof.
  intros Hok HF [Hcs Hl]. split.
  - intros Hne. unfold Wc.main. rewrite decide_False by (destruct files; simpl; [done|lia]).
    pose proof (wc_files_run w Hok i o e self files css HF k []) as H. by rewrite app_nil_r in H.
  - unfold Wc.main. rewrite decide_True by (simpl; lia).
    assert (H0 : fd_obj (std i o e) 0 = Some i) by done. assert (H1 : fd_obj (std i o e) 1 = Some o) by done.
    destruct (wc_steps w (std i o e) self 0 i o Hok H0 H1 cs [] k [] Hcs Hl) as (k' & Hk).
    eapply ends_bind; [exact Hk|]. apply ends_exit'.
Qed.

(** "hi", then " yo" and a newline: one line, two words, six characters. *)
Lemma wc_spec_witness :
  ends calm_world (Pst (std console console console) [] 0 [[104; 105]; [32; 121; 111; 10]; []]) (Wc.main [text "wc"; text "f"])
    (AOpen (text "f") 0 :: say console (text "1 2 6 f" ++ [10]) ++ [AExit]).
Proof.
  refine (proj1 (wc_spec calm_world console console console [] 0 (text "wc") [text "f"]
    [[[104; 105]; [32; 121; 111; 10]]] [] _ _ _) _).
  - intros; reflexivity.
  - constructor; [|constructor]. split; [repeat constructor; simpl; lia|reflexivity].
  - split; [constructor|reflexivity].
  - discriminate.
Defined.
