(* ===== verification/Gmain.v ===== *)
(** grep.c as a program: the loop over a descriptor with its calls, and main. *)
From stdpp Require Import base numbers list strings.
From ITree Require Import Core.ITreeDefinition.
From S2P Require Import Prelude Params Str Printf Grep User Shell Uprog.

Set Warnings "-clear-no-such-hyp".
Open Scope prog_scope.

(** The inner loop: the lines of [buf] from [p] on; [p] and [buf] in the end. *)
Fixpoint line_loop (fuel : nat) (pattern : list Z) (p : nat) (buf : list Z) : prog (nat * list Z) :=
  match fuel with
  | O => ITree.spin
  | S fuel =>
      match Ulib.strchr p 10 buf with
      | Ok None _ => Ret (p, buf)
      | Ok (Some q) _ =>
          let buf := <[q := 0]> buf in
          if match_ pattern (upto0 (drop p buf)) then
            let buf := <[q := 10]> buf in
            call (Write 1 (slice p (q + 1 - p) buf)) ;;;
            line_loop fuel pattern (q + 1) buf
          else line_loop fuel pattern (q + 1) buf
      | _ => ITree.spin
      end
  end.

(** [grep] on descriptor [fd], one round and all of it: [m] bytes of [buf] are
    the start of a line. *)
Definition grep_round (pattern : list Z) (fd : Z) (x : nat * list Z) : prog (nat * list Z + list Z) :=
    let '(m, buf) := x in
    r <- call (Read fd (Z.of_nat (BUFSZ - m))) ;;
    let '(n, b) := r in
    if n >? 0 then
      let buf := splice m b buf in
      let m := (m + Z.to_nat n)%nat in
      r <- line_loop (S BUFSZ) pattern 0 buf ;;
      let '(p, buf) := r in
      let m := if decide (p = 0)%nat then 0%nat else m in
      if decide (0 < m)%nat
      then let m := (m - p)%nat in Ret (inl (m, splice 0 (slice p m buf) buf))
      else Ret (inl (m, buf))
    else Ret (inr buf).
Definition grep_fd (pattern : list Z) (fd : Z) (buf : list Z) : prog (list Z) := ITree.iter (grep_round pattern fd) (0%nat, buf).

Fixpoint grep_files (pattern : list Z) (files : list (list Z)) (buf : list Z) : prog Empty_set :=
  match files with
  | [] => exit
  | f :: files =>
      fd <- call (Open f 0) ;;
      if fd <? 0 then
        User.printf 1 (line_ "grep: cannot open %s") [str f] ;;;
        exit
      else
      buf <- grep_fd pattern fd buf ;;
      call (Close fd) ;;;
      grep_files pattern files buf
  end.

Definition grep_main (argv : list (list Z)) : prog Empty_set :=
  match argv with
  | [] | [_] =>
      User.printf 2 (line_ "usage: grep pattern [file ...]") [] ;;;
      exit
  | [_; pattern] => grep_fd pattern 0 (replicate BUFSZ 0) ;;; exit
  | _ :: pattern :: files => grep_files pattern files (replicate BUFSZ 0)
  end.

(** ** The program and the routine on a buffer *)
Lemma strchr_pure p c m o m' : Ulib.strchr p c m = Ok o m' -> m' = m.
Proof.
  unfold Ulib.strchr. erewrite bind_ok by reflexivity. generalize (S (length m)) as fuel. intros fuel. revert p.
  induction fuel as [|fuel IH]; intros p; cbn [Ulib.strchr_loop]; [by unfold diverge|]. unfold load8, bind, get, some, ret, fault.
  cbn [obind]. destruct (m !! p) as [x|]; cbn [obind]; [|done]. destruct (x =? 0); [by intros [= _ <-]|]. destruct (x =? u8 c); [by intros [= _ <-]|apply IH].
Qed.

Section program.
  Context (w : oracle) (T : list (option obj)) (self : list nat) (o : obj) (inp : list (list Z)).
  Hypothesis Hok : forall p, fails w p = false.
  Hypothesis Hout : fd_obj T 1 = Some o.

  (** The program writes, a line at a time, what [grep_lines] does. *)
Lemma line_loop_steps pattern : forall fuel p b i out p' b' i' out' k,
    grep_lines fuel pattern p (Gst b i out) = Ok p' (Gst b' i' out') ->
    exists ws, out' = out ++ concat ws /\
      steps w (Pst T self k inp) (line_loop fuel pattern p b) (AWrite o <$> ws) (Pst T self (k + length ws) inp) (p', b').
  Proof.
    induction fuel as [|fuel IH]; intros p b i out p' b' i' out' k; cbn [grep_lines line_loop]; [by unfold diverge|].
    unfold bind at 1, zoom. cbn [lget lset buf_lens g_buf]. destruct (Ulib.strchr p 10 b) as [q m| | | |] eqn:E; cbn [obind]; try done.
    apply strchr_pure in E as ->. destruct q as [q|].
    2:{ intros [= -> -> _ <-]. exists []. rewrite app_nil_r, Nat.add_0_r. split; [done|apply steps_ret]. }
    unfold store8 at 1, bind, zoom, get, modify, fault, ret. cbn [obind ozoom lget lset buf_lens g_buf g_in g_out].
    destruct (decide (q < length b)%nat) as [Hq|]; cbn [obind ozoom lset buf_lens g_buf g_in g_out]; [|done]. change (u8 0) with 0.
    destruct (match_ pattern _); cbn [obind].
    2:{ intros H. apply (IH _ _ _ _ _ _ _ _ k) in H as (ws & -> & Hs). exists ws. by split. }
    unfold store8, bind, get, modify, fault, ret. cbn [obind ozoom g_buf]. rewrite length_insert, decide_True by done.
    unfold write_, modify. cbn [obind ozoom lset buf_lens g_buf g_in g_out]. change (u8 10) with 10. intros H. apply (IH _ _ _ _ _ _ _ _ (S k)) in H as (ws & -> & Hs).
    exists (slice p (q + 1 - p) (<[q := 10]> (<[q := 0]> b)) :: ws). cbn [concat]. split; [by rewrite app_assoc|]. rewrite fmap_cons.
    eapply (steps_bind _ _ _ _ _ _ [_]); [apply (write_steps w (Pst T self k inp)); [exact Hout|apply Hok]|].
    cbn [length]. rewrite (Nat.add_succ_r k). exact Hs.
  Qed.
End program.

Lemma next_file d : (0 < length d < BUFSZ)%nat -> next_read (Z.to_nat (Z.of_nat (BUFSZ - 0))) [d] = (d, []).
Proof. intros Hl. unfold next_read. rewrite Nat2Z.id, take_ge, drop_ge by lia. done. Qed.

(** A buffer cleared, with the file in front. *)
Lemma file_cstr d : chars d -> (length d < BUFSZ)%nat -> cstr (splice 0 d (replicate BUFSZ 0)) 0 d /\ bytes (splice 0 d (replicate BUFSZ 0)).
Proof.
  intros Hd Hl. split.
  - split_and!; [|done|].
    + intros i x Hi. pose proof (lookup_lt_Some _ _ _ Hi). rewrite lookup_splice by (rewrite length_replicate; lia).
      rewrite decide_True by lia. by rewrite Nat.sub_0_r.
    + rewrite lookup_splice by (rewrite length_replicate; lia). rewrite decide_False by lia. apply lookup_replicate_2. lia.
  - apply Forall_splice; [|apply Forall_replicate; unfold is_u8; lia].
    eapply Forall_impl; [exact Hd|]. unfold is_char, is_u8. intros; simpl in *; lia.
Qed.

Lemma grep_fd_steps w T self o o' pattern fd d k :
  (forall p, fails w p = false) -> fd_obj T 1 = Some o -> fd_obj T fd = Some o' -> chars d -> (0 < length d < BUFSZ)%nat ->
  exists ws b k', concat ws = matching pattern d /\
    steps w (Pst T self k [d]) (grep_fd pattern fd (replicate BUFSZ 0)) (AWrite o <$> ws) (Pst T self k' []) b.
Proof.
  intros Hok Hout Hfd Hd Hl. destruct (file_cstr d Hd ltac:(lia)) as [Hcs Hbb].
  destruct (grep_lines_run pattern (length d) (S BUFSZ) d 0 (splice 0 d (replicate BUFSZ 0)) [] []) as (p & b & E & _); [done|lia|exact Hcs|exact Hbb|].
  destruct (line_loop_steps w T self o [] Hok Hout pattern _ _ _ _ _ _ _ _ _ (S k) E) as (ws & Hws & Hs). cbn in Hws.
  assert (Hend : forall x k', steps w (Pst T self k' []) (ITree.iter (grep_round pattern fd) x) [] (Pst T self (S k') []) (snd x)).
  { intros [m b1] k'. apply steps_iter. eapply (steps_bind _ _ _ _ _ _ [] []).
    - eapply (steps_bind _ _ _ _ _ _ [] []); [eapply (read_steps w (Pst T self k' []) fd _ o' []); [exact Hfd|apply Hok|done]|].
      cbv beta iota. change (Z.of_nat (length []) >? 0) with false. cbv iota. apply steps_ret.
    - apply steps_ret. }
  assert (Hround : exists x, steps w (Pst T self k [d]) (grep_round pattern fd (0%nat, replicate BUFSZ 0)) (AWrite o <$> ws)
    (Pst T self (S k + length ws) []) (inl x)).
  { assert (Hgo : (Z.of_nat (length d) >? 0) = true) by (apply Z.gtb_lt; lia). unfold grep_round.
    rewrite <- (app_nil_r (AWrite o <$> ws)). destruct (decide (p = 0)%nat) as [Hp|Hp]; eexists;
      (eapply (steps_bind _ _ _ _ _ _ [] ((AWrite o <$> ws) ++ [])); [eapply (read_steps w (Pst T self k [d])); [exact Hfd|apply Hok|by apply next_file]|]);
      cbv beta iota; rewrite Hgo, Nat2Z.id; (eapply steps_bind; [exact Hs|]); cbv beta iota zeta.
    - rewrite (decide_True _ _ Hp), decide_False by lia. apply steps_ret.
    - rewrite (decide_False _ _ Hp), decide_True by lia. apply steps_ret. }
  destruct Hround as [x Hround]. exists ws, (snd x), (S (S k + length ws)). split; [by rewrite <- Hws|]. apply steps_iter.
  rewrite <- (app_nil_r (AWrite o <$> ws)). eapply steps_bind; [exact Hround|apply steps_tau, Hend].
Qed.

(** grep on standard input: a file of fewer bytes than the buffer is filtered
    to the lines that match, written one at a time. *)
Theorem grep_main_spec w i o e self k name pattern d :
  (forall p, fails w p = false) -> chars d -> (0 < length d < BUFSZ)%nat ->
  exists ws, concat ws = matching pattern d /\
    ends w (Pst (std i o e) self k [d]) (grep_main [name; pattern]) ((AWrite o <$> ws) ++ [AExit]).
Proof.
  intros Hok Hd Hl. destruct (grep_fd_steps w (std i o e) self o i pattern 0 d k Hok eq_refl eq_refl Hd Hl) as (ws & b & k' & Hws & Hs).
  exists ws. split; [done|]. unfold grep_main. eapply ends_bind; [exact Hs|]. apply ends_exit'.
Qed.

Lemma grep_main_spec_witness :
  exists ws, concat ws = [97; 98; 10; 99; 97; 10] /\
    ends calm_world (Pst (std console console console) [] 0 [[97; 98; 10; 98; 10; 99; 97; 10; 97]]) (grep_main [text "grep"; [97]])
      ((AWrite console <$> ws) ++ [AExit]).
Proof.
  apply (grep_main_spec calm_world console console console [] 0 (text "grep") [97] [97; 98; 10; 98; 10; 99; 97; 10; 97]).
  - intros. reflexivity.
  - repeat constructor; done.
  - unfold BUFSZ. simpl. lia.
Defined.
