(* ===== verification/Usertests.v ===== *)
(** usertests.c: the tests the system comes with, each a program of system
    calls. The buffer [buf] the tests share is passed from one to the next. *)
From stdpp Require Import base numbers list strings.
From ITree Require Import Core.ITreeDefinition Indexed.Sum Interp.Interp.
From S2P Require Import Prelude Params Str Printf Inode Dir Kalloc User Shell Uprog.

Set Warnings "-clear-no-such-hyp".
Open Scope prog_scope.

(** What a few tests do besides the calls of User: getpid and sbrk, bytes and
    words at an address of their own, malloc and free (umalloc.c), link with a
    pointer that need not be a string, and [BadSleep], the call [sleep] with
    the stack pointer anywhere. *)
Inductive memE : Type -> Type :=
| Getpid : memE Z
| Sbrk (n : Z) : memE Z
| Ldb (a : Z) : memE Z
| Stb (a v : Z) : memE unit
| Ldp (a : Z) : memE Z
| Stp (a v : Z) : memE unit
| Malloc (n : Z) : memE Z
| Free (p : Z) : memE unit
| LinkAt (old : list Z) (new : Z) : memE Z
| BadSleep (sp : Z) : memE unit.

Abbreviation test := (itree (sysE +' memE)).

Definition ucall {X} (e : sysE X) : test X := Vis (inl1 e) (fun x => Ret x).
Definition mcall {X} (e : memE X) : test X := Vis (inr1 e) (fun x => Ret x).
Definition quit {A} : test A := r <- ucall Exit ;; match r : Empty_set with end.
Definition say (fd : Z) (fmt : list Z) (args : list arg) : test unit := translate (fun _ e => inl1 e) (User.printf fd fmt args).

(** A message, and the program ends. *)
Definition die {A} (fmt : list Z) (args : list arg) : test A := say 1 fmt args ;;; quit.

(** [for(i = 0; i < n; i++)], from [i] on. *)
Fixpoint for_from {A} (n : nat) (i : Z) (body : Z -> A -> test A) (a : A) : test A :=
  match n with
  | O => Ret a
  | S n => a <- body i a ;; for_from n (i + 1) body a
  end.
Definition for_ (n : nat) (body : Z -> test unit) : test unit := for_from n 0 (fun i _ => body i) tt.

(** *** The globals *)
Definition buf_size : Z := 8192.
Definition buf0 : list Z := replicate (Z.to_nat buf_size) 0.
Definition echoargv : list (list Z) := [text "echo"; text "ALL"; text "TESTS"; text "PASSED"].
Definition CREATE_RDWR : Z := Z.lor O_CREATE O_RDWR.
(** What [read] leaves in a buffer. *)
Definition filled (b buf : list Z) : list Z := splice 0 b buf.

(** *** Simple file system tests *)
Definition opentest : test unit :=
  say 1 (line_ "open test") [] ;;;
  fd <- ucall (Open (text "echo") 0) ;;
  if fd <? 0 then die (line_ "open echo failed!") [] else
  ucall (Close fd) ;;;
  fd <- ucall (Open (text "doesnotexist") 0) ;;
  if fd >=? 0 then die (line_ "open doesnotexist succeeded!") [] else
  say 1 (line_ "open test ok") [].

Definition writetest (buf : list Z) : test (list Z) :=
  say 1 (line_ "small file test") [] ;;;
  fd <- ucall (Open (text "small") CREATE_RDWR) ;;
  (if fd >=? 0 then say 1 (line_ "creat small succeeded; ok") []
   else die (line_ "error: creat small failed!") []) ;;;
  for_ 100 (fun i =>
    r <- ucall (Write fd (text "aaaaaaaaaa")) ;;
    if negb (r =? 10) then die (line_ "error: write aa %d new file failed") [AInt i] else
    r <- ucall (Write fd (text "bbbbbbbbbb")) ;;
    if negb (r =? 10) then die (line_ "error: write bb %d new file failed") [AInt i] else Ret tt) ;;;
  say 1 (line_ "writes ok") [] ;;;
  ucall (Close fd) ;;;
  fd <- ucall (Open (text "small") O_RDONLY) ;;
  (if fd >=? 0 then say 1 (line_ "open small succeeded ok") []
   else die (line_ "error: open small failed!") []) ;;;
  r <- ucall (Read fd 2000) ;;
  let '(i, b) := r in
  (if i =? 2000 then say 1 (line_ "read succeeded ok") [] else die (line_ "read failed") []) ;;;
  ucall (Close fd) ;;;
  r <- ucall (Unlink (text "small")) ;;
  if r <? 0 then die (line_ "unlink small failed") [] else
  say 1 (line_ "small file test ok") [] ;;;
  Ret (filled b buf).

Definition writetest1 (buf : list Z) : test (list Z) :=
  say 1 (line_ "big files test") [] ;;;
  fd <- ucall (Open (text "big") CREATE_RDWR) ;;
  if fd <? 0 then die (line_ "error: creat big failed!") [] else
  buf <- for_from (Z.to_nat MAXFILE) 0 (fun i buf =>
    let buf := put32 0 i buf in
    r <- ucall (Write fd (take 512 buf)) ;;
    if negb (r =? 512) then die (line_ "error: write big file failed") [AInt i] else Ret buf) buf ;;
  ucall (Close fd) ;;;
  fd <- ucall (Open (text "big") O_RDONLY) ;;
  if fd <? 0 then die (line_ "error: open big failed!") [] else
  buf <- ITree.iter (fun nb : Z * list Z =>
    let '(n, buf) := nb in
    r <- ucall (Read fd 512) ;;
    let '(i, b) := r in
    let buf := filled b buf in
    if i =? 0 then
      if n =? MAXFILE - 1 then die (text "read only %d blocks from big") [AInt n] else Ret (inr buf)
    else if negb (i =? 512) then die (line_ "read failed %d") [AInt i] else
    if negb (s32 (get32 0 buf) =? n) then die (line_ "read content of block %d is %d") [AInt n; AInt (s32 (get32 0 buf))] else
    Ret (inl (n + 1, buf))) (0, buf) ;;
  ucall (Close fd) ;;;
  r <- ucall (Unlink (text "big")) ;;
  if r <? 0 then die (line_ "unlink big failed") [] else
  say 1 (line_ "big files ok") [] ;;;
  Ret buf.

Definition createtest : test unit :=
  say 1 (line_ "many creates, followed by unlink test") [] ;;;
  for_ 52 (fun i =>
    fd <- ucall (Open [97; 48 + i] CREATE_RDWR) ;;
    ucall (Close fd) ;;; Ret tt) ;;;
  for_ 52 (fun i => ucall (Unlink [97; 48 + i]) ;;; Ret tt) ;;;
  say 1 (line_ "many creates, followed by unlink; ok") [].

Definition dirtest : test unit :=
  say 1 (line_ "mkdir test") [] ;;;
  r <- ucall (Mkdir (text "dir0")) ;;
  if r <? 0 then die (line_ "mkdir failed") [] else
  r <- ucall (Chdir (text "dir0")) ;;
  if r <? 0 then die (line_ "chdir dir0 failed") [] else
  r <- ucall (Chdir (text "..")) ;;
  if r <? 0 then die (line_ "chdir .. failed") [] else
  r <- ucall (Unlink (text "dir0")) ;;
  if r <? 0 then die (line_ "unlink dir0 failed") [] else
  say 1 (line_ "mkdir test") [].

Definition exectest : test unit :=
  say 1 (line_ "exec test") [] ;;;
  r <- ucall (Exec (text "echo") echoargv) ;;
  if r <? 0 then die (line_ "exec echo failed") [] else Ret tt.

(** *** fork and pipes *)

(** The bytes [seq], [seq + 1], ... cut to eight bits. *)
Definition seq_bytes (seq : Z) (n : nat) : list Z := (fun i => u8 (seq + Z.of_nat i)) <$> List.seq 0 n.

Definition pipe1 (buf : list Z) : test (list Z) :=
  r <- ucall Pipe ;;
  let '(r, fd0, fd1) := r in
  if negb (r =? 0) then die (line_ "pipe() failed") [] else
  pid <- ucall Fork ;;
  if pid =? 0 then
    ucall (Close fd0) ;;;
    for_from 5 0 (fun _ (sb : Z * list Z) =>
      let '(seq, buf) := sb in
      let buf := splice 0 (seq_bytes seq 1033) buf in
      r <- ucall (Write fd1 (take 1033 buf)) ;;
      if negb (r =? 1033) then die (line_ "pipe1 oops 1") [] else Ret (seq + 1033, buf)) (0, buf) ;;;
    quit
  else if pid >? 0 then
    ucall (Close fd1) ;;;
    r <- ITree.iter (fun x : Z * Z * Z * list Z =>
      let '(seq, total, cc, buf) := x in
      r <- ucall (Read fd0 cc) ;;
      let '(n, b) := r in
      let buf := filled b buf in
      if n >? 0 then
        if negb (bool_decide (take (Z.to_nat n) buf = seq_bytes seq (Z.to_nat n))) then
          say 1 (line_ "pipe1 oops 2") [] ;;; Ret (inr (None, buf))
        else
        let cc := cc * 2 in
        Ret (inl (seq + n, total + n, (if cc >? buf_size then buf_size else cc), buf))
      else Ret (inr (Some total, buf))) (0, 0, 1, buf) ;;
    match r with
    | (None, buf) => Ret buf
    | (Some total, buf) =>
        if negb (total =? 5 * 1033) then die (line_ "pipe1 oops 3 total %d") [AInt total] else
        ucall (Close fd0) ;;;
        ucall Wait ;;;
        say 1 (line_ "pipe1 ok") [] ;;;
        Ret buf
    end
  else die (line_ "fork() failed") [].

Definition preempt (buf : list Z) : test (list Z) :=
  say 1 (text "preempt: ") [] ;;;
  pid1 <- ucall Fork ;;
  if pid1 =? 0 then ITree.spin else
  pid2 <- ucall Fork ;;
  if pid2 =? 0 then ITree.spin else
  r <- ucall Pipe ;;
  let '(_, fd0, fd1) := r in
  pid3 <- ucall Fork ;;
  if pid3 =? 0 then
    ucall (Close fd0) ;;;
    r <- ucall (Write fd1 (text "x")) ;;
    (if negb (r =? 1) then say 1 (text "preempt write error") [] else Ret tt) ;;;
    ucall (Close fd1) ;;;
    ITree.spin
  else
  ucall (Close fd1) ;;;
  r <- ucall (Read fd0 buf_size) ;;
  let '(n, b) := r in
  let buf := filled b buf in
  if negb (n =? 1) then say 1 (text "preempt read error") [] ;;; Ret buf else
  ucall (Close fd0) ;;;
  say 1 (text "kill... ") [] ;;;
  ucall (Kill pid1) ;;;
  ucall (Kill pid2) ;;;
  ucall (Kill pid3) ;;;
  say 1 (text "wait... ") [] ;;;
  ucall Wait ;;;
  ucall Wait ;;;
  ucall Wait ;;;
  say 1 (line_ "preempt ok") [] ;;;
  Ret buf.

(** [false] when the function returns early. *)
Fixpoint exitwait_from (n : nat) : test bool :=
  match n with
  | O => Ret true
  | S n =>
      pid <- ucall Fork ;;
      if pid <? 0 then say 1 (line_ "fork failed") [] ;;; Ret false else
      if negb (pid =? 0) then
        r <- ucall Wait ;;
        if negb (r =? pid) then say 1 (line_ "wait wrong pid") [] ;;; Ret false else exitwait_from n
      else quit
  end.
Definition exitwait : test unit :=
  b <- exitwait_from 100 ;;
  if b then say 1 (line_ "exitwait ok") [] else Ret tt.

Definition mem : test unit :=
  say 1 (line_ "mem test") [] ;;;
  ppid <- mcall Getpid ;;
  pid <- ucall Fork ;;
  if pid =? 0 then
    m1 <- ITree.iter (fun m1 =>
      m2 <- mcall (Malloc 10001) ;;
      if negb (m2 =? 0) then mcall (Stp m2 m1) ;;; Ret (inl m2) else Ret (inr m1)) 0 ;;
    ITree.iter (fun m1 =>
      if negb (m1 =? 0) then m2 <- mcall (Ldp m1) ;; mcall (Free m1) ;;; Ret (inl m2) else Ret (inr tt)) m1 ;;;
    m1 <- mcall (Malloc (1024 * 20)) ;;
    if m1 =? 0 then
      say 1 (line_ "couldn't allocate mem?!!") [] ;;;
      ucall (Kill ppid) ;;;
      quit
    else
    mcall (Free m1) ;;;
    say 1 (line_ "mem ok") [] ;;;
    quit
  else ucall Wait ;;; Ret tt.

(** *** More file system tests *)

(** A loop that is left at the first failure. *)
Fixpoint shared_writes (n : nat) (fd : Z) (b : list Z) : test unit :=
  match n with
  | O => Ret tt
  | S n =>
      r <- ucall (Write fd b) ;;
      if negb (r =? 10) then say 1 (line_ "fstests: write sharedfd failed") [] else shared_writes n fd b
  end.
Definition count (c : Z) (l : list Z) : Z := Z.of_nat (length (filter (fun x => x = c) l)).

Definition sharedfd : test unit :=
  say 1 (line_ "sharedfd test") [] ;;;
  ucall (Unlink (text "sharedfd")) ;;;
  fd <- ucall (Open (text "sharedfd") CREATE_RDWR) ;;
  if fd <? 0 then say 1 (text "fstests: cannot open sharedfd for writing") [] else
  pid <- ucall Fork ;;
  let b := replicate 10 (if pid =? 0 then 99 else 112) in
  shared_writes 1000 fd b ;;;
  if pid =? 0 then quit else
  ucall Wait ;;;
  ucall (Close fd) ;;;
  fd <- ucall (Open (text "sharedfd") 0) ;;
  if fd <? 0 then say 1 (line_ "fstests: cannot open sharedfd for reading") [] else
  r <- ITree.iter (fun x : Z * Z * list Z =>
    let '(nc, np, b) := x in
    r <- ucall (Read fd 10) ;;
    let '(n, d) := r in
    let b := filled d b in
    if n >? 0 then Ret (inl (nc + count 99 b, np + count 112 b, b)) else Ret (inr (nc, np))) (0, 0, b) ;;
  let '(nc, np) := r in
  ucall (Close fd) ;;;
  ucall (Unlink (text "sharedfd")) ;;;
  if (nc =? 10000) && (np =? 10000) then say 1 (line_ "sharedfd ok") []
  else die (line_ "sharedfd oops %d %d") [AInt nc; AInt np].

Definition twofiles (buf : list Z) : test (list Z) :=
  say 1 (line_ "twofiles test") [] ;;;
  ucall (Unlink (text "f1")) ;;;
  ucall (Unlink (text "f2")) ;;;
  pid <- ucall Fork ;;
  if pid <? 0 then die (line_ "fork failed") [] else
  let fname := if negb (pid =? 0) then text "f1" else text "f2" in
  fd <- ucall (Open fname CREATE_RDWR) ;;
  if fd <? 0 then die (line_ "create failed") [] else
  let buf := splice 0 (replicate 512 (if negb (pid =? 0) then 112 else 99)) buf in
  for_ 12 (fun _ =>
    n <- ucall (Write fd (take 500 buf)) ;;
    if negb (n =? 500) then die (line_ "write failed %d") [AInt n] else Ret tt) ;;;
  ucall (Close fd) ;;;
  if pid =? 0 then quit else
  ucall Wait ;;;
  buf <- for_from 2 0 (fun i buf =>
    fd <- ucall (Open (if negb (i =? 0) then text "f1" else text "f2") 0) ;;
    r <- ITree.iter (fun x : Z * list Z =>
      let '(total, buf) := x in
      r <- ucall (Read fd buf_size) ;;
      let '(n, b) := r in
      let buf := filled b buf in
      if n >? 0 then
        if negb (bool_decide (Forall (fun c => c = if negb (i =? 0) then 112 else 99) (take (Z.to_nat n) buf)))
        then die (line_ "wrong char") [] else Ret (inl (total + n, buf))
      else Ret (inr (total, buf))) (0, buf) ;;
    let '(total, buf) := r in
    ucall (Close fd) ;;;
    if negb (total =? 12 * 500) then die (line_ "wrong length %d") [AInt total] else Ret buf) buf ;;
  ucall (Unlink (text "f1")) ;;;
  ucall (Unlink (text "f2")) ;;;
  say 1 (line_ "twofiles ok") [] ;;;
  Ret buf.

(** One of the names both processes have created. *)
Definition createdelete_check (i : Z) (name : list Z) : test unit :=
  fd <- ucall (Open name 0) ;;
  if ((i =? 0) || (i >=? 20 / 2)) && (fd <? 0) then die (line_ "oops createdelete %s didn't exist") [str name] else
  if ((i >=? 1) && (i <? 20 / 2)) && (fd >=? 0) then die (line_ "oops createdelete %s did exist") [str name] else
  if fd >=? 0 then ucall (Close fd) ;;; Ret tt else Ret tt.

Definition createdelete : test unit :=
  say 1 (line_ "createdelete test") [] ;;;
  pid <- ucall Fork ;;
  if pid <? 0 then die (line_ "fork failed") [] else
  let c := if negb (pid =? 0) then 112 else 99 in
  for_ 20 (fun i =>
    fd <- ucall (Open [c; 48 + i] CREATE_RDWR) ;;
    if fd <? 0 then die (line_ "create failed") [] else
    ucall (Close fd) ;;;
    if (i >? 0) && (i mod 2 =? 0) then
      r <- ucall (Unlink [c; 48 + i / 2]) ;;
      if r <? 0 then die (line_ "unlink failed") [] else Ret tt
    else Ret tt) ;;;
  if pid =? 0 then quit else
  ucall Wait ;;;
  for_ 20 (fun i => createdelete_check i [112; 48 + i] ;;; createdelete_check i [99; 48 + i]) ;;;
  for_ 20 (fun i => ucall (Unlink [112; 48 + i]) ;;; ucall (Unlink [99; 48 + i]) ;;; Ret tt) ;;;
  say 1 (line_ "createdelete ok") [].

Definition unlinkread (buf : list Z) : test (list Z) :=
  say 1 (line_ "unlinkread test") [] ;;;
  fd <- ucall (Open (text "unlinkread") CREATE_RDWR) ;;
  if fd <? 0 then die (line_ "create unlinkread failed") [] else
  ucall (Write fd (text "hello")) ;;;
  ucall (Close fd) ;;;
  fd <- ucall (Open (text "unlinkread") O_RDWR) ;;
  if fd <? 0 then die (line_ "open unlinkread failed") [] else
  r <- ucall (Unlink (text "unlinkread")) ;;
  if negb (r =? 0) then die (line_ "unlink unlinkread failed") [] else
  fd1 <- ucall (Open (text "unlinkread") CREATE_RDWR) ;;
  ucall (Write fd1 (text "yyy")) ;;;
  ucall (Close fd1) ;;;
  r <- ucall (Read fd buf_size) ;;
  let '(n, b) := r in
  let buf := filled b buf in
  if negb (n =? 5) then die (text "unlinkread read failed") [] else
  if negb (bool_decide (buf !! 0%nat = Some 104)) then die (line_ "unlinkread wrong data") [] else
  r <- ucall (Write fd (take 10 buf)) ;;
  if negb (r =? 10) then die (line_ "unlinkread write failed") [] else
  ucall (Close fd) ;;;
  ucall (Unlink (text "unlinkread")) ;;;
  say 1 (line_ "unlinkread ok") [] ;;;
  Ret buf.

Definition linktest (buf : list Z) : test (list Z) :=
  say 1 (line_ "linktest") [] ;;;
  ucall (Unlink (text "lf1")) ;;;
  ucall (Unlink (text "lf2")) ;;;
  fd <- ucall (Open (text "lf1") CREATE_RDWR) ;;
  if fd <? 0 then die (line_ "create lf1 failed") [] else
  r <- ucall (Write fd (text "hello")) ;;
  if negb (r =? 5) then die (line_ "write lf1 failed") [] else
  ucall (Close fd) ;;;
  r <- ucall (Link (text "lf1") (text "lf2")) ;;
  if r <? 0 then die (line_ "link lf1 lf2 failed") [] else
  ucall (Unlink (text "lf1")) ;;;
  r <- ucall (Open (text "lf1") 0) ;;
  if r >=? 0 then die (line_ "unlinked lf1 but it is still there!") [] else
  fd <- ucall (Open (text "lf2") 0) ;;
  if fd <? 0 then die (line_ "open lf2 failed") [] else
  r <- ucall (Read fd buf_size) ;;
  let '(n, b) := r in
  if negb (n =? 5) then die (line_ "read lf2 failed") [] else
  ucall (Close fd) ;;;
  r <- ucall (Link (text "lf2") (text "lf2")) ;;
  if r >=? 0 then die (line_ "link lf2 lf2 succeeded! oops") [] else
  ucall (Unlink (text "lf2")) ;;;
  r <- ucall (Link (text "lf2") (text "lf1")) ;;
  if r >=? 0 then die (line_ "link non-existant succeeded! oops") [] else
  r <- ucall (Link (text ".") (text "lf1")) ;;
  if r >=? 0 then die (line_ "link . lf1 succeeded! oops") [] else
  say 1 (line_ "linktest ok") [] ;;;
  Ret (filled b buf).

(** The listing of the current directory: [fa] marks the files found, [n]
    counts them; [de] is the entry last read. *)
Definition concreate_list (fd : Z) : test Z :=
  ITree.iter (fun x : list Z * Z * list Z =>
    let '(fa, n, de) := x in
    r <- ucall (Read fd 16) ;;
    let '(cc, b) := r in
    let de := filled b de in
    if negb (cc >? 0) then Ret (inr n) else
    if de_inum de =? 0 then Ret (inl (fa, n, de)) else
    let name := slice 2 14 de in
    if bool_decide (name !! 0%nat = Some 67) && bool_decide (name !! 2%nat = Some 0) then
      let i := default 0 (name !! 1%nat) - 48 in
      if (i <? 0) || (i >=? 40) then die (line_ "concreate weird file %s") [str (cut name)] else
      if negb (default 0 (fa !! Z.to_nat i) =? 0) then die (line_ "concreate duplicate file %s") [str (cut name)] else
      Ret (inl (<[Z.to_nat i := 1]> fa, n + 1, de))
    else Ret (inl (fa, n, de))) (replicate 40 0, 0, replicate 16 0).

Definition concreate : test unit :=
  say 1 (line_ "concreate test") [] ;;;
  for_ 40 (fun i =>
    let file := [67; 48 + i] in
    ucall (Unlink file) ;;;
    pid <- ucall Fork ;;
    (if negb (pid =? 0) && (i mod 3 =? 1) then ucall (Link (text "C0") file) ;;; Ret tt
     else if (pid =? 0) && (i mod 5 =? 1) then ucall (Link (text "C0") file) ;;; Ret tt
     else
       fd <- ucall (Open file CREATE_RDWR) ;;
       if fd <? 0 then die (line_ "concreate create %s failed") [str file] else
       ucall (Close fd) ;;; Ret tt) ;;;
    if pid =? 0 then quit else ucall Wait ;;; Ret tt) ;;;
  fd <- ucall (Open (text ".") 0) ;;
  n <- concreate_list fd ;;
  ucall (Close fd) ;;;
  if negb (n =? 40) then die (line_ "concreate not enough files in directory listing") [] else
  for_ 40 (fun i =>
    let file := [67; 48 + i] in
    pid <- ucall Fork ;;
    if pid <? 0 then die (line_ "fork failed") [] else
    (if ((i mod 3 =? 0) && (pid =? 0)) || ((i mod 3 =? 1) && negb (pid =? 0)) then
       for_ 4 (fun _ => fd <- ucall (Open file 0) ;; ucall (Close fd) ;;; Ret tt)
     else for_ 4 (fun _ => ucall (Unlink file) ;;; Ret tt)) ;;;
    if pid =? 0 then quit else ucall Wait ;;; Ret tt) ;;;
  say 1 (line_ "concreate ok") [].

Definition linkunlink : test unit :=
  say 1 (line_ "linkunlink test") [] ;;;
  ucall (Unlink (text "x")) ;;;
  pid <- ucall Fork ;;
  if pid <? 0 then die (line_ "fork failed") [] else
  for_from 100 0 (fun _ x =>
    let x := u32 (x * 1103515245 + 12345) in
    (if x mod 3 =? 0 then fd <- ucall (Open (text "x") CREATE_RDWR) ;; ucall (Close fd) ;;; Ret tt
     else if x mod 3 =? 1 then ucall (Link (text "cat") (text "x")) ;;; Ret tt
     else ucall (Unlink (text "x")) ;;; Ret tt) ;;;
    Ret x) (if negb (pid =? 0) then 1 else 97) ;;;
  if pid =? 0 then quit else
  ucall Wait ;;;
  say 1 (line_ "linkunlink ok") [].

Definition bigdir_name (i : Z) : list Z := [120; 48 + i / 64; 48 + i mod 64].
Definition bigdir : test unit :=
  say 1 (line_ "bigdir test") [] ;;;
  ucall (Unlink (text "bd")) ;;;
  fd <- ucall (Open (text "bd") O_CREATE) ;;
  if fd <? 0 then die (line_ "bigdir create failed") [] else
  ucall (Close fd) ;;;
  for_ 500 (fun i =>
    r <- ucall (Link (text "bd") (bigdir_name i)) ;;
    if negb (r =? 0) then die (line_ "bigdir link failed") [] else Ret tt) ;;;
  ucall (Unlink (text "bd")) ;;;
  for_ 500 (fun i =>
    r <- ucall (Unlink (bigdir_name i)) ;;
    if negb (r =? 0) then die (text "bigdir unlink failed") [] else Ret tt) ;;;
  say 1 (line_ "bigdir ok") [].

(** The second half of [subdir]: what must fail, and the clearing up. *)
Definition subdir_end : test unit :=
  r <- ucall (Open (text "dd/dd/ff") O_RDONLY) ;;
  if r >=? 0 then die (line_ "open (unlinked) dd/dd/ff succeeded!") [] else
  r <- ucall (Open (text "dd/ff/ff") CREATE_RDWR) ;;
  if r >=? 0 then die (line_ "create dd/ff/ff succeeded!") [] else
  r <- ucall (Open (text "dd/xx/ff") CREATE_RDWR) ;;
  if r >=? 0 then die (line_ "create dd/xx/ff succeeded!") [] else
  r <- ucall (Open (text "dd") O_CREATE) ;;
  if r >=? 0 then die (line_ "create dd succeeded!") [] else
  r <- ucall (Open (text "dd") O_RDWR) ;;
  if r >=? 0 then die (line_ "open dd rdwr succeeded!") [] else
  r <- ucall (Open (text "dd") O_WRONLY) ;;
  if r >=? 0 then die (line_ "open dd wronly succeeded!") [] else
  r <- ucall (Link (text "dd/ff/ff") (text "dd/dd/xx")) ;;
  if r =? 0 then die (line_ "link dd/ff/ff dd/dd/xx succeeded!") [] else
  r <- ucall (Link (text "dd/xx/ff") (text "dd/dd/xx")) ;;
  if r =? 0 then die (line_ "link dd/xx/ff dd/dd/xx succeeded!") [] else
  r <- ucall (Link (text "dd/ff") (text "dd/dd/ffff")) ;;
  if r =? 0 then die (line_ "link dd/ff dd/dd/ffff succeeded!") [] else
  r <- ucall (Mkdir (text "dd/ff/ff")) ;;
  if r =? 0 then die (line_ "mkdir dd/ff/ff succeeded!") [] else
  r <- ucall (Mkdir (text "dd/xx/ff")) ;;
  if r =? 0 then die (line_ "mkdir dd/xx/ff succeeded!") [] else
  r <- ucall (Mkdir (text "dd/dd/ffff")) ;;
  if r =? 0 then die (line_ "mkdir dd/dd/ffff succeeded!") [] else
  r <- ucall (Unlink (text "dd/xx/ff")) ;;
  if r =? 0 then die (line_ "unlink dd/xx/ff succeeded!") [] else
  r <- ucall (Unlink (text "dd/ff/ff")) ;;
  if r =? 0 then die (line_ "unlink dd/ff/ff succeeded!") [] else
  r <- ucall (Chdir (text "dd/ff")) ;;
  if r =? 0 then die (line_ "chdir dd/ff succeeded!") [] else
  r <- ucall (Chdir (text "dd/xx")) ;;
  if r =? 0 then die (line_ "chdir dd/xx succeeded!") [] else
  r <- ucall (Unlink (text "dd/dd/ffff")) ;;
  if negb (r =? 0) then die (line_ "unlink dd/dd/ff failed") [] else
  r <- ucall (Unlink (text "dd/ff")) ;;
  if negb (r =? 0) then die (line_ "unlink dd/ff failed") [] else
  r <- ucall (Unlink (text "dd")) ;;
  if r =? 0 then die (line_ "unlink non-empty dd succeeded!") [] else
  r <- ucall (Unlink (text "dd/dd")) ;;
  if r <? 0 then die (line_ "unlink dd/dd failed") [] else
  r <- ucall (Unlink (text "dd")) ;;
  if r <? 0 then die (line_ "unlink dd failed") [] else
  say 1 (line_ "subdir ok") [].

Definition subdir (buf : list Z) : test (list Z) :=
  say 1 (line_ "subdir test") [] ;;;
  ucall (Unlink (text "ff")) ;;;
  r <- ucall (Mkdir (text "dd")) ;;
  if negb (r =? 0) then die (line_ "subdir mkdir dd failed") [] else
  fd <- ucall (Open (text "dd/ff") CREATE_RDWR) ;;
  if fd <? 0 then die (line_ "create dd/ff failed") [] else
  ucall (Write fd (text "ff")) ;;;
  ucall (Close fd) ;;;
  r <- ucall (Unlink (text "dd")) ;;
  if r >=? 0 then die (line_ "unlink dd (non-empty dir) succeeded!") [] else
  r <- ucall (Mkdir (text "/dd/dd")) ;;
  if negb (r =? 0) then die (line_ "subdir mkdir dd/dd failed") [] else
  fd <- ucall (Open (text "dd/dd/ff") CREATE_RDWR) ;;
  if fd <? 0 then die (line_ "create dd/dd/ff failed") [] else
  ucall (Write fd (text "FF")) ;;;
  ucall (Close fd) ;;;
  fd <- ucall (Open (text "dd/dd/../ff") 0) ;;
  if fd <? 0 then die (line_ "open dd/dd/../ff failed") [] else
  r <- ucall (Read fd buf_size) ;;
  let '(cc, b) := r in
  let buf := filled b buf in
  if negb (cc =? 2) || negb (bool_decide (buf !! 0%nat = Some 102)) then die (line_ "dd/dd/../ff wrong content") [] else
  ucall (Close fd) ;;;
  r <- ucall (Link (text "dd/dd/ff") (text "dd/dd/ffff")) ;;
  if negb (r =? 0) then die (line_ "link dd/dd/ff dd/dd/ffff failed") [] else
  r <- ucall (Unlink (text "dd/dd/ff")) ;;
  if negb (r =? 0) then die (line_ "unlink dd/dd/ff failed") [] else
  r <- ucall (Open (text "dd/dd/ff") O_RDONLY) ;;
  if r >=? 0 then die (line_ "open (unlinked) dd/dd/ff succeeded") [] else
  r <- ucall (Chdir (text "dd")) ;;
  if negb (r =? 0) then die (line_ "chdir dd failed") [] else
  r <- ucall (Chdir (text "dd/../../dd")) ;;
  if negb (r =? 0) then die (line_ "chdir dd/../../dd failed") [] else
  r <- ucall (Chdir (text "dd/../../../dd")) ;;
  if negb (r =? 0) then die (line_ "chdir dd/../../dd failed") [] else
  r <- ucall (Chdir (text "./..")) ;;
  if negb (r =? 0) then die (line_ "chdir ./.. failed") [] else
  fd <- ucall (Open (text "dd/dd/ffff") 0) ;;
  if fd <? 0 then die (line_ "open dd/dd/ffff failed") [] else
  r <- ucall (Read fd buf_size) ;;
  let '(cc, b) := r in
  let buf := filled b buf in
  if negb (cc =? 2) then die (line_ "read dd/dd/ffff wrong len") [] else
  ucall (Close fd) ;;;
  subdir_end ;;;
  Ret buf.

(** [sz] goes from 499 in steps of 471 as long as it is below 12*512. *)
Definition bigwrite (buf : list Z) : test unit :=
  say 1 (line_ "bigwrite test") [] ;;;
  ucall (Unlink (text "bigwrite")) ;;;
  for_ 12 (fun k =>
    let sz := 499 + 471 * k in
    fd <- ucall (Open (text "bigwrite") CREATE_RDWR) ;;
    if fd <? 0 then die (line_ "cannot create bigwrite") [] else
    for_ 2 (fun _ =>
      cc <- ucall (Write fd (take (Z.to_nat sz) buf)) ;;
      if negb (cc =? sz) then die (line_ "write(%d) ret %d") [AInt sz; AInt cc] else Ret tt) ;;;
    ucall (Close fd) ;;;
    ucall (Unlink (text "bigwrite")) ;;; Ret tt) ;;;
  say 1 (line_ "bigwrite ok") [].

Definition bigfile (buf : list Z) : test (list Z) :=
  say 1 (line_ "bigfile test") [] ;;;
  ucall (Unlink (text "bigfile")) ;;;
  fd <- ucall (Open (text "bigfile") CREATE_RDWR) ;;
  if fd <? 0 then die (text "cannot create bigfile") [] else
  buf <- for_from 20 0 (fun i buf =>
    let buf := splice 0 (replicate 600 (u8 i)) buf in
    r <- ucall (Write fd (take 600 buf)) ;;
    if negb (r =? 600) then die (line_ "write bigfile failed") [] else Ret buf) buf ;;
  ucall (Close fd) ;;;
  fd <- ucall (Open (text "bigfile") 0) ;;
  if fd <? 0 then die (line_ "cannot open bigfile") [] else
  r <- ITree.iter (fun x : Z * Z * list Z =>
    let '(i, total, buf) := x in
    r <- ucall (Read fd 300) ;;
    let '(cc, b) := r in
    let buf := filled b buf in
    if cc <? 0 then die (line_ "read bigfile failed") [] else
    if cc =? 0 then Ret (inr (total, buf)) else
    if negb (cc =? 300) then die (line_ "short read bigfile") [] else
    if negb (bool_decide (buf !! 0%nat = Some (i / 2))) || negb (bool_decide (buf !! 299%nat = Some (i / 2)))
    then die (line_ "read bigfile wrong data") [] else
    Ret (inl (i + 1, total + cc, buf))) (0, 0, buf) ;;
  let '(total, buf) := r in
  ucall (Close fd) ;;;
  if negb (total =? 20 * 600) then die (line_ "read bigfile wrong total") [] else
  ucall (Unlink (text "bigfile")) ;;;
  say 1 (line_ "bigfile test ok") [] ;;;
  Ret buf.

Definition fourteen : test unit :=
  say 1 (line_ "fourteen test") [] ;;;
  r <- ucall (Mkdir (text "12345678901234")) ;;
  if negb (r =? 0) then die (line_ "mkdir 12345678901234 failed") [] else
  r <- ucall (Mkdir (text "12345678901234/123456789012345")) ;;
  if negb (r =? 0) then die (line_ "mkdir 12345678901234/123456789012345 failed") [] else
  fd <- ucall (Open (text "123456789012345/123456789012345/123456789012345") O_CREATE) ;;
  if fd <? 0 then die (line_ "create 123456789012345/123456789012345/123456789012345 failed") [] else
  ucall (Close fd) ;;;
  fd <- ucall (Open (text "12345678901234/12345678901234/12345678901234") 0) ;;
  if fd <? 0 then die (line_ "open 12345678901234/12345678901234/12345678901234 failed") [] else
  ucall (Close fd) ;;;
  r <- ucall (Mkdir (text "12345678901234/12345678901234")) ;;
  if r =? 0 then die (line_ "mkdir 12345678901234/12345678901234 succeeded!") [] else
  r <- ucall (Mkdir (text "123456789012345/12345678901234")) ;;
  if r =? 0 then die (line_ "mkdir 12345678901234/123456789012345 succeeded!") [] else
  say 1 (line_ "fourteen ok") [].

Definition rmdot : test unit :=
  say 1 (line_ "rmdot test") [] ;;;
  r <- ucall (Mkdir (text "dots")) ;;
  if negb (r =? 0) then die (line_ "mkdir dots failed") [] else
  r <- ucall (Chdir (text "dots")) ;;
  if negb (r =? 0) then die (line_ "chdir dots failed") [] else
  r <- ucall (Unlink (text ".")) ;;
  if r =? 0 then die (line_ "rm . worked!") [] else
  r <- ucall (Unlink (text "..")) ;;
  if r =? 0 then die (line_ "rm .. worked!") [] else
  r <- ucall (Chdir (text "/")) ;;
  if negb (r =? 0) then die (line_ "chdir / failed") [] else
  r <- ucall (Unlink (text "dots/.")) ;;
  if r =? 0 then die (line_ "unlink dots/. worked!") [] else
  r <- ucall (Unlink (text "dots/..")) ;;
  if r =? 0 then die (line_ "unlink dots/.. worked!") [] else
  r <- ucall (Unlink (text "dots")) ;;
  if negb (r =? 0) then die (line_ "unlink dots failed!") [] else
  say 1 (line_ "rmdot ok") [].

Definition dirfile : test unit :=
  say 1 (line_ "dir vs file") [] ;;;
  fd <- ucall (Open (text "dirfile") O_CREATE) ;;
  if fd <? 0 then die (line_ "create dirfile failed") [] else
  ucall (Close fd) ;;;
  r <- ucall (Chdir (text "dirfile")) ;;
  if r =? 0 then die (line_ "chdir dirfile succeeded!") [] else
  fd <- ucall (Open (text "dirfile/xx") 0) ;;
  if fd >=? 0 then die (line_ "create dirfile/xx succeeded!") [] else
  fd <- ucall (Open (text "dirfile/xx") O_CREATE) ;;
  if fd >=? 0 then die (line_ "create dirfile/xx succeeded!") [] else
  r <- ucall (Mkdir (text "dirfile/xx")) ;;
  if r =? 0 then die (line_ "mkdir dirfile/xx succeeded!") [] else
  r <- ucall (Unlink (text "dirfile/xx")) ;;
  if r =? 0 then die (line_ "unlink dirfile/xx succeeded!") [] else
  r <- ucall (Link (text "README") (text "dirfile/xx")) ;;
  if r =? 0 then die (line_ "link to dirfile/xx succeeded!") [] else
  r <- ucall (Unlink (text "dirfile")) ;;
  if negb (r =? 0) then die (line_ "unlink dirfile failed!") [] else
  fd <- ucall (Open (text ".") O_RDWR) ;;
  if fd >=? 0 then die (line_ "open . for writing succeeded!") [] else
  fd <- ucall (Open (text ".") 0) ;;
  r <- ucall (Write fd (text "x")) ;;
  if r >? 0 then die (line_ "write . succeeded!") [] else
  ucall (Close fd) ;;;
  say 1 (line_ "dir vs file OK") [].

Definition close_if (fd : Z) : test unit := if fd >=? 0 then ucall (Close fd) ;;; Ret tt else Ret tt.
Definition iref : test unit :=
  say 1 (line_ "empty file name") [] ;;;
  for_ 51 (fun _ =>
    r <- ucall (Mkdir (text "irefd")) ;;
    if negb (r =? 0) then die (line_ "mkdir irefd failed") [] else
    r <- ucall (Chdir (text "irefd")) ;;
    if negb (r =? 0) then die (line_ "chdir irefd failed") [] else
    ucall (Mkdir []) ;;;
    ucall (Link (text "README") []) ;;;
    fd <- ucall (Open [] O_CREATE) ;;
    close_if fd ;;;
    fd <- ucall (Open (text "xx") O_CREATE) ;;
    close_if fd ;;;
    ucall (Unlink (text "xx")) ;;; Ret tt) ;;;
  ucall (Chdir (text "/")) ;;;
  say 1 (line_ "empty file name OK") [].

(** *** fork, sbrk and bad pointers *)
Fixpoint fork_until (fuel : nat) (n : Z) : test Z :=
  match fuel with
  | O => Ret n
  | S fuel =>
      pid <- ucall Fork ;;
      if pid <? 0 then Ret n else
      if pid =? 0 then quit else fork_until fuel (n + 1)
  end.
Definition forktest : test unit :=
  say 1 (line_ "fork test") [] ;;;
  n <- fork_until 1000 0 ;;
  if n =? 1000 then die (line_ "fork claimed to work 1000 times!") [] else
  for_ (Z.to_nat n) (fun _ =>
    r <- ucall Wait ;;
    if r <? 0 then die (line_ "wait stopped early") [] else Ret tt) ;;;
  r <- ucall Wait ;;
  if negb (r =? -1) then die (line_ "wait got too many") [] else
  say 1 (line_ "fork test OK") [].

Definition BIG : Z := 100 * 1024 * 1024.
Definition lastaddr : Z := BIG - 1.

(** Less than a page at a time, before and after fork. *)
Definition sbrk_small : test unit :=
  a <- mcall (Sbrk 0) ;;
  a <- for_from 5000 0 (fun i a =>
    b <- mcall (Sbrk 1) ;;
    if negb (b =? a) then die (line_ "sbrk test failed %d %x %x") [AInt i; AInt a; AInt b] else
    mcall (Stb b 1) ;;;
    Ret (u32 (b + 1))) a ;;
  pid <- ucall Fork ;;
  if pid <? 0 then die (line_ "sbrk test fork failed") [] else
  mcall (Sbrk 1) ;;;
  c <- mcall (Sbrk 1) ;;
  if negb (c =? u32 (a + 1)) then die (line_ "sbrk test failed post-fork") [] else
  if pid =? 0 then quit else
  ucall Wait ;;; Ret tt.

(** To 100 megabytes, down a page and up again, and back to [oldbrk]. *)
Definition sbrk_big (oldbrk : Z) : test unit :=
  a <- mcall (Sbrk 0) ;;
  p <- mcall (Sbrk (s32 (BIG - a))) ;;
  if negb (p =? a) then die (line_ "sbrk test failed to grow big address space; enough phys mem?") [] else
  mcall (Stb lastaddr 99) ;;;
  a <- mcall (Sbrk 0) ;;
  c <- mcall (Sbrk (-4096)) ;;
  if c =? 0xffffffff then die (line_ "sbrk could not deallocate") [] else
  c <- mcall (Sbrk 0) ;;
  if negb (c =? u32 (a - 4096)) then die (line_ "sbrk deallocation produced wrong address, a %x c %x") [AInt a; AInt c] else
  a <- mcall (Sbrk 0) ;;
  c <- mcall (Sbrk 4096) ;;
  e <- (if negb (c =? a) then Ret true else t <- mcall (Sbrk 0) ;; Ret (negb (t =? u32 (a + 4096)))) ;;
  if (e : bool) then die (line_ "sbrk re-allocation failed, a %x c %x") [AInt a; AInt c] else
  x <- mcall (Ldb lastaddr) ;;
  if x =? 99 then die (line_ "sbrk de-allocation didn't really deallocate") [] else
  a <- mcall (Sbrk 0) ;;
  t <- mcall (Sbrk 0) ;;
  c <- mcall (Sbrk (s32 (- (t - oldbrk)))) ;;
  if negb (c =? a) then die (line_ "sbrk downsize failed, a %x c %x") [AInt a; AInt c] else Ret tt.

(** Reading the kernel's memory. *)
Definition sbrk_kernel : test unit :=
  for_ 40 (fun k =>
    let a := KERNBASE + 50000 * k in
    ppid <- mcall Getpid ;;
    pid <- ucall Fork ;;
    if pid <? 0 then die (line_ "fork failed") [] else
    if pid =? 0 then
      x <- mcall (Ldb a) ;;
      say 1 (line_ "oops could read %x = %x") [AInt a; AInt x] ;;;
      ucall (Kill ppid) ;;;
      quit
    else ucall Wait ;;; Ret tt).

(** Ten processes that use up the memory. *)
Definition sbrk_full : test Z :=
  r <- ucall Pipe ;;
  let '(r, fd0, fd1) := r in
  if negb (r =? 0) then die (line_ "pipe() failed") [] else
  pids <- for_from 10 0 (fun _ pids =>
    pid <- ucall Fork ;;
    if pid =? 0 then
      t <- mcall (Sbrk 0) ;;
      mcall (Sbrk (s32 (BIG - t))) ;;;
      ucall (Write fd1 (text "x")) ;;;
      ITree.forever (ucall (Sleep 1000))
    else
    (if negb (pid =? -1) then ucall (Read fd0 1) ;;; Ret tt else Ret tt) ;;;
    Ret (pids ++ [pid])) [] ;;
  c <- mcall (Sbrk 4096) ;;
  for_from 10 0 (fun i _ =>
    let pid := default 0 (pids !! Z.to_nat i) in
    if pid =? -1 then Ret tt else ucall (Kill pid) ;;; ucall Wait ;;; Ret tt) tt ;;;
  Ret c.

Definition sbrktest : test unit :=
  say 1 (line_ "sbrk test") [] ;;;
  oldbrk <- mcall (Sbrk 0) ;;
  sbrk_small ;;;
  sbrk_big oldbrk ;;;
  sbrk_kernel ;;;
  c <- sbrk_full ;;
  if c =? 0xffffffff then die (line_ "failed sbrk leaked memory") [] else
  t <- mcall (Sbrk 0) ;;
  (if t >? oldbrk then t <- mcall (Sbrk 0) ;; mcall (Sbrk (s32 (- (t - oldbrk)))) ;;; Ret tt else Ret tt) ;;;
  say 1 (line_ "sbrk test OK") [].

Definition validateint (p : Z) : test unit := mcall (BadSleep p).
Definition validatetest : test unit :=
  say 1 (line_ "validate test") [] ;;;
  for_ (Z.to_nat (1100 * 1024 / 4096 + 1)) (fun k =>
    let p := 4096 * k in
    pid <- ucall Fork ;;
    if pid =? 0 then validateint p ;;; quit else
    ucall (Sleep 0) ;;;
    ucall (Sleep 0) ;;;
    ucall (Kill pid) ;;;
    ucall Wait ;;;
    r <- mcall (LinkAt (text "nosuchfile") p) ;;
    if negb (r =? -1) then die (line_ "link should not succeed") [] else Ret tt) ;;;
  say 1 (line_ "validate ok") [].

(** Nothing writes to [uninit]. *)
Definition uninit : list Z := replicate (Z.to_nat 10000) 0.
Definition bsstest : test unit :=
  say 1 (line_ "bss test") [] ;;;
  if negb (forallb (fun c => c =? 0) uninit) then die (line_ "bss test failed") [] else
  say 1 (line_ "bss test ok") [].

(** *** exec with too many arguments; a full disk *)
Definition bigarg : list Z := line_ "bigargs test: failed" ++ replicate 199 32.
Definition bigargtest : test unit :=
  ucall (Unlink (text "bigarg-ok")) ;;;
  pid <- ucall Fork ;;
  if pid =? 0 then
    say 1 (line_ "bigarg test") [] ;;;
    ucall (Exec (text "echo") (replicate (MAXARG - 1) bigarg)) ;;;
    say 1 (line_ "bigarg test ok") [] ;;;
    fd <- ucall (Open (text "bigarg-ok") O_CREATE) ;;
    ucall (Close fd) ;;;
    quit
  else if pid <? 0 then die (line_ "bigargtest: fork failed") [] else
  ucall Wait ;;;
  fd <- ucall (Open (text "bigarg-ok") 0) ;;
  if fd <? 0 then die (line_ "bigarg test failed!") [] else
  ucall (Close fd) ;;;
  ucall (Unlink (text "bigarg-ok")) ;;;
  Ret tt.

Definition fsfull_name (n : Z) : list Z :=
  [102; 48 + Z.quot n 1000; 48 + Z.quot (Z.rem n 1000) 100; 48 + Z.quot (Z.rem n 100) 10; 48 + Z.rem n 10].
Definition fsfull (buf : list Z) : test unit :=
  say 1 (line_ "fsfull test") [] ;;;
  nfiles <- ITree.iter (fun nfiles =>
    let name := fsfull_name nfiles in
    say 1 (line_ "writing %s") [str name] ;;;
    fd <- ucall (Open name CREATE_RDWR) ;;
    if fd <? 0 then say 1 (line_ "open %s failed") [str name] ;;; Ret (inr nfiles) else
    total <- ITree.iter (fun total =>
      cc <- ucall (Write fd (take 512 buf)) ;;
      if cc <? 512 then Ret (inr total) else Ret (inl (total + cc))) 0 ;;
    say 1 (line_ "wrote %d bytes") [AInt total] ;;;
    ucall (Close fd) ;;;
    if total =? 0 then Ret (inr nfiles) else Ret (inl (nfiles + 1))) 0 ;;
  ITree.iter (fun n =>
    if n >=? 0 then ucall (Unlink (fsfull_name n)) ;;; Ret (inl (n - 1)) else Ret (inr tt)) nfiles ;;;
  say 1 (line_ "fsfull test finished") [].

Definition rand (randstate : Z) : Z := u32 (randstate * 1664525 + 1013904223).

(** *** main *)
Definition main : test Empty_set :=
  say 1 (line_ "usertests starting") [] ;;;
  r <- ucall (Open (text "usertests.ran") 0) ;;
  if r >=? 0 then die (line_ "already ran user tests -- rebuild fs.img") [] else
  fd <- ucall (Open (text "usertests.ran") O_CREATE) ;;
  ucall (Close fd) ;;;
  bigargtest ;;;
  bigwrite buf0 ;;;
  bigargtest ;;;
  bsstest ;;;
  sbrktest ;;;
  validatetest ;;;
  opentest ;;;
  buf <- writetest buf0 ;;
  buf <- writetest1 buf ;;
  createtest ;;;
  mem ;;;
  buf <- pipe1 buf ;;
  buf <- preempt buf ;;
  exitwait ;;;
  rmdot ;;;
  fourteen ;;;
  buf <- bigfile buf ;;
  buf <- subdir buf ;;
  concreate ;;;
  linkunlink ;;;
  buf <- linktest buf ;;
  buf <- unlinkread buf ;;
  createdelete ;;;
  twofiles buf ;;;
  sharedfd ;;;
  dirfile ;;;
  iref ;;;
  forktest ;;;
  bigdir ;;;
  exectest ;;;
  quit.
