(* ===== verification/Umalloc.v ===== *)
(** The user-level allocator of umalloc.c: a circular, address-ordered list
    of free blocks threaded through the blocks' own headers. The arena is
    proved to stay partitioned into disjoint free and allocated blocks. *)
From stdpp Require Import base numbers list strings sets sorting.
From S2P Require Import Prelude Kalloc.

Set Warnings "-clear-no-such-hyp".
#[local] Ltac Zify.zify_post_hook ::= Z.div_mod_to_equations.

(** *** union header: the two words of a header, and its size *)
Definition HEADER : Z := 8.

(** The process: its memory as the words at their addresses, [freep], and the
    end of its memory. The words the allocator touches are the two words of
    block headers, which never overlap. *)
Record ust := Ust { u_mem : Z -> Z; u_freep : Z; u_brk : Z }.

Definition upd (m : Z -> Z) (a v : Z) : Z -> Z := fun x => if x =? a then v else m x.

Definition in_mem (a : Z) (s : ust) : bool := (0 <=? a) && (a + HEADER <=? u_brk s).
Definition hptr (a : Z) : M ust Z := s <- get ;; if in_mem a s then ret (u_mem s a) else fault.
Definition hsize (a : Z) : M ust Z := s <- get ;; if in_mem a s then ret (u_mem s (a + 4)) else fault.
Definition set_word (w a v : Z) : M ust unit :=
  s <- get ;;
  if in_mem a s then modify (fun s => Ust (upd (u_mem s) (a + w) v) (u_freep s) (u_brk s)) else fault.
Definition set_ptr (a v : Z) : M ust unit := set_word 0 a v.
Definition set_size (a v : Z) : M ust unit := set_word 4 a v.
Definition set_freep (p : Z) : M ust unit := modify (fun s => Ust (u_mem s) p (u_brk s)).

(** A bound on the number of blocks. *)
Definition blocks_bound (s : ust) : nat := S (Z.to_nat (u_brk s / HEADER)).

Section umalloc.
  (** The address of the static header [base], and the system call [sbrk]:
      its result and the new end of memory. *)
  Context (BASE : Z) (sbrk : Z -> Z -> Z * Z).

  (** *** free *)
Fixpoint free_loop (fuel : nat) (bp p : Z) : M ust Z :=
    match fuel with
    | O => diverge
    | S fuel =>
        nx <- hptr p ;;
        if (bp >? p) && (bp <? nx) then ret p else
        if (p >=? nx) && ((bp >? p) || (bp <? nx)) then ret p else
        free_loop fuel bp nx
    end.

Definition join_next (bp p : Z) : M ust unit :=
    bsz <- hsize bp ;;
    nx <- hptr p ;;
    if u32 (bp + HEADER * bsz) =? nx then
      nsz <- hsize nx ;;
      set_size bp (u32 (bsz + nsz)) ;;;
      nn <- hptr nx ;;
      set_ptr bp nn
    else set_ptr bp nx.

Definition join_prev (bp p : Z) : M ust unit :=
    psz <- hsize p ;;
    if u32 (p + HEADER * psz) =? bp then
      bsz <- hsize bp ;;
      set_size p (u32 (psz + bsz)) ;;;
      bn <- hptr bp ;;
      set_ptr p bn
    else set_ptr p bp.

Definition free (ap : Z) : M ust unit :=
    let bp := u32 (ap - HEADER) in
    s <- get ;;
    p <- free_loop (2 * blocks_bound s + 2) bp (u_freep s) ;;
    join_next bp p ;;;
    join_prev bp p ;;;
    set_freep p.

  (** *** morecore *)
Definition morecore (nu : Z) : M ust Z :=
    let nu := if nu <? 4096 then 4096 else nu in
    s <- get ;;
    let '(p, brk) := sbrk (s32 (u32 (nu * HEADER))) (u_brk s) in
    modify (fun s => Ust (u_mem s) (u_freep s) brk) ;;;
    if p =? 2 ^ 32 - 1 then ret 0 else
    set_size p nu ;;;
    free (u32 (p + HEADER)) ;;;
    gets u_freep.

  (** *** malloc *)
Definition units_for (nbytes : Z) : Z := u32 (u32 (nbytes + HEADER - 1) / HEADER + 1).

  (** The block [p] is large enough: take it or its tail. *)
Definition carve (nunits prevp p sz : Z) : M ust Z :=
    q <- (if sz =? nunits then
            nx <- hptr p ;;
            set_ptr prevp nx ;;;
            ret p
          else
            let left := u32 (sz - nunits) in
            set_size p left ;;;
            let q := u32 (p + HEADER * left) in
            set_size q nunits ;;;
            ret q) ;;
    set_freep prevp ;;;
    ret (u32 (q + HEADER)).

Fixpoint malloc_loop (fuel : nat) (nunits prevp p : Z) : M ust Z :=
    match fuel with
    | O => diverge
    | S fuel =>
        sz <- hsize p ;;
        if sz >=? nunits then carve nunits prevp p sz else
        f <- gets u_freep ;;
        if p =? f then
          p <- morecore nunits ;;
          if p =? 0 then ret 0 else
          nx <- hptr p ;;
          malloc_loop fuel nunits p nx
        else
          nx <- hptr p ;;
          malloc_loop fuel nunits p nx
    end.

Definition malloc (nbytes : Z) : M ust Z :=
    let nunits := units_for nbytes in
    f <- gets u_freep ;;
    prevp <- (if f =? 0 then
                set_freep BASE ;;;
                set_ptr BASE BASE ;;;
                set_size BASE 0 ;;;
                ret BASE
              else ret f) ;;
    p <- hptr prevp ;;
    s <- get ;;
    malloc_loop (2 * (blocks_bound s + 2)) nunits prevp p.
End umalloc.

(** ** Blocks and the free list *)

(** A block: its address and its length in units of a header. *)
Abbreviation block := (Z * Z)%type.
Definition bend (b : block) : Z := fst b + HEADER * snd b.
Definition disj (b c : block) : Prop := bend b <= fst c \/ bend c <= fst b.

(** The first address of a list of blocks, or [e]. *)
Definition hdp (e : Z) (B : list block) : Z := match B with [] => e | b :: _ => fst b end.

(** The headers of [B] are linked in order, the last one to [e]. *)
Fixpoint lseg (m : Z -> Z) (B : list block) (e : Z) : Prop :=
  match B with
  | [] => True
  | b :: B => m (fst b) = hdp e B /\ m (fst b + 4) = snd b /\ lseg m B e
  end.

(** Address order with no two blocks touching. *)
Definition before (b c : block) : Prop := bend b < fst c.

(** The heap: free blocks [F] in address order after the static header, and
    allocated blocks [A]. *)
Record arena (BASE : Z) (s : ust) (F A : list block) : Prop := {
  ar_base : 0 < BASE /\ BASE + HEADER <= u_brk s /\ u_brk s <= KERNBASE;
  ar_in : forall b, b ∈ F ++ A -> BASE + HEADER <= fst b /\ 1 <= snd b /\ bend b <= u_brk s;
  ar_sorted : StronglySorted before ((BASE, 0) :: F);
  ar_list : lseg (u_mem s) ((BASE, 0) :: F) BASE;
  ar_freep : u_freep s ∈ fst <$> ((BASE, 0) :: F);
  ar_size : forall b, b ∈ A -> u_mem s (fst b + 4) = snd b;
  ar_free : forall b c, b ∈ F -> c ∈ A -> disj b c;
  ar_apart : ForallOrdPairs disj A;
}.

(** The number of units in a list of blocks. *)
Definition units (B : list block) : Z := foldr (fun b n => snd b + n) 0 B.

Lemma units_app B C : units (B ++ C) = units B + units C.
Proof. induction B as [|b B IH]; simpl; [done|]. rewrite IH. lia. Qed.

Lemma hdp_app e B C : hdp e (B ++ C) = hdp (hdp e C) B.
Proof. by destruct B. Qed.

Lemma lseg_app m B C e : lseg m (B ++ C) e <-> lseg m B (hdp e C) /\ lseg m C e.
Proof. induction B as [|b B IH]; simpl; [tauto|]. rewrite hdp_app, IH. tauto. Qed.

(** The list depends on the headers of its blocks only. *)
Lemma lseg_frame m m' B e :
  (forall b, b ∈ B -> m' (fst b) = m (fst b) /\ m' (fst b + 4) = m (fst b + 4)) ->
  lseg m B e -> lseg m' B e.
Proof.
  induction B as [|b B IH]; simpl; [done|]. intros Hm (H1 & H2 & H3).
  destruct (Hm b) as [-> ->]; [left|]. split_and!; [done|done|].
  apply IH; [|done]. intros c Hc. apply Hm. by right.
Qed.

(** One header is rewritten. *)
Definition only_at (a : Z) (m m' : Z -> Z) : Prop := forall w, ~ (a <= w < a + HEADER) -> m' w = m w.

Lemma only_at_upd a w v m : 0 <= w < HEADER -> only_at a m (upd m (a + w) v).
Proof. intros Hw x Hx. unfold upd. destruct (Z.eqb_spec x (a + w)); [lia|done]. Qed.
Lemma only_at_trans a m1 m2 m3 : only_at a m1 m2 -> only_at a m2 m3 -> only_at a m1 m3.
Proof. intros H1 H2 w Hw. by rewrite H2, H1. Qed.
Lemma only_at_header a v v' m : only_at a m (upd (upd m (a + 4) v') a v).
Proof.
  intros x Hx. unfold HEADER in Hx. unfold upd.
  destruct (Z.eqb_spec x a); [lia|]. by destruct (Z.eqb_spec x (a + 4)); [lia|].
Qed.

(** A header elsewhere. *)
Definition elsewhere (a : Z) (b : block) : Prop := fst b + HEADER <= a \/ a + HEADER <= fst b.

Lemma lseg_only_at a m m' B e :
  only_at a m m' -> Forall (elsewhere a) B -> lseg m B e -> lseg m' B e.
Proof.
  intros Hm HB. apply lseg_frame. intros b Hb. rewrite Forall_forall in HB.
  specialize (HB b Hb). unfold elsewhere, HEADER in *. split; apply Hm; unfold HEADER; lia.
Qed.

(** Steps on headers in memory. *)
Section steps.
  Context (s : ust) (a : Z) (Ha : in_mem a s = true).

Lemma hptr_run : hptr a s = Ok (u_mem s a) s.
  Proof. unfold hptr. erewrite bind_ok by reflexivity. by rewrite Ha. Qed.
Lemma hsize_run : hsize a s = Ok (u_mem s (a + 4)) s.
  Proof. unfold hsize. erewrite bind_ok by reflexivity. by rewrite Ha. Qed.
Lemma set_word_run w v : set_word w a v s = Ok tt (Ust (upd (u_mem s) (a + w) v) (u_freep s) (u_brk s)).
  Proof. unfold set_word. erewrite bind_ok by reflexivity. by rewrite Ha. Qed.
End steps.

Lemma word_upd_eq m a v : upd m a v a = v.
Proof. unfold upd. by rewrite Z.eqb_refl. Qed.
Lemma word_upd_ne m a v x : x <> a -> upd m a v x = m x.
Proof. unfold upd. intros. by rewrite (proj2 (Z.eqb_neq x a)). Qed.

(** ** Finding the place of a block *)
Definition stop (bp p nx : Z) : bool :=
  ((bp >? p) && (bp <? nx)) || ((p >=? nx) && ((bp >? p) || (bp <? nx))).

Lemma free_step fuel bp p s :
  in_mem p s = true ->
  free_loop (S fuel) bp p s =
    if stop bp p (u_mem s p) then Ok p s else free_loop fuel bp (u_mem s p) s.
Proof.
  intros Hp. simpl. erewrite bind_ok by (by apply hptr_run). unfold stop.
  destruct (bp >? p), (bp <? u_mem s p), (p >=? u_mem s p); done.
Qed.

Definition increasing (B : list block) : Prop := StronglySorted (fun b c => fst b < fst c) B.

(** Past [bp]: the walk goes on to the end of the list. *)
Lemma free_past bp e s B : forall fuel,
  Forall (fun b => in_mem (fst b) s = true /\ bp < fst b /\ e <= fst b) B -> e < bp -> increasing B ->
  lseg (u_mem s) B e ->
  free_loop (length B + fuel) bp (hdp e B) s = free_loop fuel bp e s.
Proof.
  induction B as [|b B IH]; intros fuel HB He HS HL; [done|].
  apply Forall_cons in HB as [(Hm & Hb & Heb) HB]. apply StronglySorted_inv in HS as [HS HS'].
  destruct HL as (Hp & _ & HL). cbn [length Nat.add hdp]. rewrite free_step, Hp by done.
  replace (stop _ _ _) with false; [by apply IH|]. symmetry. unfold stop.
  destruct B as [|c B]; simpl; [lia|]. apply Forall_cons in HS' as [? _]. lia.
Qed.

(** Before [bp]: the walk stops at the last block. *)
Lemma free_before bp e s : forall B x fuel,
  Forall (fun b => in_mem (fst b) s = true /\ fst b < bp) (B ++ [x]) -> increasing (B ++ [x]) ->
  bp < e \/ e <= fst x -> lseg (u_mem s) (B ++ [x]) e -> (length B < fuel)%nat ->
  free_loop fuel bp (hdp e (B ++ [x])) s = Ok (fst x) s.
Proof.
  induction B as [|b B IH]; intros x fuel HB HS He HL Hf;
    (destruct fuel as [|fuel]; [lia|]); cbn [app hdp lseg] in *;
    apply Forall_cons in HB as [[Hm Hb] HB]; apply StronglySorted_inv in HS as [HS HS'];
    destruct HL as (Hp & _ & HL); rewrite free_step, Hp by done.
  - replace (stop _ _ _) with true; [done|]. unfold stop. simpl. lia.
  - replace (stop _ _ _) with false; [apply IH; simpl in Hf; (done || lia)|]. symmetry. unfold stop.
    assert (H : fst b < hdp e (B ++ [x]) < bp); [|lia].
    destruct B as [|c B]; simpl in *; apply Forall_cons in HS' as [? _]; apply Forall_cons in HB as [[? ?] _]; lia.
Qed.

Lemma split_at bp (F : list block) :
  increasing F -> (forall b, b ∈ F -> fst b <> bp) ->
  exists F1 F2, F = F1 ++ F2 /\ Forall (fun b => fst b < bp) F1 /\ Forall (fun b => bp < fst b) F2.
Proof.
  induction F as [|b F IH]; intros HS Hne; [by exists [], []|].
  apply StronglySorted_inv in HS as [HS HF].
  destruct (Z.lt_ge_cases (fst b) bp).
  - destruct IH as (F1 & F2 & -> & H1 & H2); [done|intros; apply Hne; by right|].
    exists (b :: F1), F2. split_and!; [done|by constructor|done].
  - assert (bp < fst b) by (specialize (Hne b ltac:(left)); lia).
    exists [], (b :: F). split_and!; [done|done|]. constructor; [done|].
    eapply Forall_impl; [done|]. simpl. lia.
Qed.

(** Facts about the blocks of an arena. *)
Section facts.
  Context (BASE : Z) (s : ust) (F A : list block) (H : arena BASE s F A).

Lemma arena_nodes b : b ∈ (BASE, 0) :: F -> BASE <= fst b /\ 0 <= snd b /\ in_mem (fst b) s = true.
  Proof.
    destruct (ar_base _ _ _ _ H) as (? & ? & ?). unfold in_mem, HEADER in *.
    intros [-> | Hb]%elem_of_cons; simpl; [lia|].
    destruct (ar_in _ _ _ _ H b) as (? & ? & Hin); [by apply elem_of_app; left|].
    unfold bend, HEADER in *. lia.
  Qed.

Lemma arena_increasing : increasing ((BASE, 0) :: F).
  Proof.
    assert (HF : forall b, b ∈ (BASE, 0) :: F -> 0 <= snd b) by (intros; by apply arena_nodes).
    pose proof (ar_sorted _ _ _ _ H) as HS. revert HS HF. unfold increasing.
    generalize ((BASE, 0) :: F). clear. induction 1 as [|b B HS IH HB]; intros HF; constructor.
    - apply IH. intros; apply HF; by right.
    - eapply Forall_impl; [done|]. unfold before, bend, HEADER. specialize (HF b ltac:(left)). simpl. lia.
  Qed.

Lemma arena_length : (length F <= Z.to_nat (u_brk s / HEADER))%nat.
  Proof.
    assert (HF : forall b, b ∈ F -> 1 <= snd b /\ bend b <= u_brk s)
      by (intros b Hb; apply (ar_in _ _ _ _ H b), elem_of_app; by left).
    pose proof (ar_sorted _ _ _ _ H) as HS. destruct (ar_base _ _ _ _ H) as (H1 & H2 & _).
    assert (Hlen : forall (G : list block) (c : block), StronglySorted before (c :: G) ->
      (forall b, b ∈ G -> 1 <= snd b /\ bend b <= u_brk s) -> bend c <= u_brk s ->
      HEADER * Z.of_nat (length G) + bend c <= u_brk s).
    { induction G as [|b G IH]; intros c HG HI Hc; simpl; [lia|].
      apply StronglySorted_inv in HG as [HG [Hb _]%Forall_cons].
      specialize (IH b HG). destruct (HI b) as [? ?]; [left|].
      assert (HEADER * Z.of_nat (length G) + bend b <= u_brk s)
        by (apply IH; [intros; apply HI; by right|done]).
      unfold before, bend, HEADER in *. lia. }
    specialize (Hlen F (BASE, 0) HS HF). unfold bend, HEADER in *. simpl in Hlen. lia.
  Qed.
End facts.

Lemma free_finds BASE s F1 F2 A bp C x :
  arena BASE s (F1 ++ F2) A -> BASE < bp ->
  Forall (fun b => fst b < bp) F1 -> Forall (fun b => bp < fst b) F2 ->
  (BASE, 0) :: F1 = C ++ [x] ->
  free_loop (2 * blocks_bound s + 2) bp (u_freep s) s = Ok (fst x) s.
Proof.
  intros HA Hbp H1 H2 Hx.
  pose proof (arena_nodes _ _ _ _ HA) as Hn. pose proof (arena_increasing _ _ _ _ HA) as HS.
  pose proof (arena_length _ _ _ _ HA) as Hlen. rewrite length_app in Hlen.
  pose proof (ar_list _ _ _ _ HA) as HL. pose proof (ar_freep _ _ _ _ HA) as Hf.
  assert (HB1 : Forall (fun b => in_mem (fst b) s = true /\ fst b < bp) (C ++ [x])).
  { rewrite <- Hx, Forall_cons. split; [split; [apply (Hn (BASE, 0)); left|done]|].
    rewrite Forall_forall in *. intros b Hb. split; [|by apply H1].
    apply Hn. right. apply elem_of_app. by left. }
  assert (Hap : (BASE, 0) :: F1 ++ F2 = (C ++ [x]) ++ F2) by (by rewrite <- Hx).
  rewrite Hap in Hn, HS, HL, Hf.
  assert (Hlx : (length C = length F1)%nat) by (apply (f_equal length) in Hx; rewrite length_app in Hx; simpl in Hx; lia).
  apply lseg_app in HL as [HL1 HL2]. unfold increasing in HS. apply StronglySorted_app in HS as (Hlt & HS1 & HS2).
  assert (He : bp < hdp BASE F2 \/ hdp BASE F2 <= fst x).
  { destruct F2 as [|c F2]; simpl; [right|left; by apply Forall_cons in H2 as [? _]].
    apply (Hn x). rewrite app_nil_r. apply elem_of_app. right. left. }
  unfold blocks_bound. rewrite fmap_app, elem_of_app in Hf.
  destruct Hf as [Hf|Hf]; apply list_elem_of_fmap in Hf as (z & -> & Hz).
  - (* at or before the place *)
    assert (exists D1 D2, C ++ [x] = D1 ++ (z :: D2)) as (D1 & D2 & HD)
      by (by apply list_elem_of_split in Hz).
    assert (exists D, z :: D2 = D ++ [x]) as [D HDx].
    { destruct (exists_last (l := z :: D2)) as (D & y & HDy); [done|]. exists D.
      rewrite HDy, app_assoc in HD. by apply app_inj_tail in HD as [_ ->]. }
    rewrite HDx in HD. assert (Hlz : (length D <= length C)%nat)
      by (apply (f_equal length) in HD; rewrite !length_app in HD; simpl in HD; lia).
    rewrite HD in HB1, HL1, HS1. apply Forall_app in HB1 as [_ HB1]. apply lseg_app in HL1 as [_ HL1].
    apply StronglySorted_app in HS1 as (_ & _ & HS1).
    change (fst z) with (hdp (hdp BASE F2) (z :: D2)). rewrite HDx.
    apply free_before; try done. lia.
  - (* after it: first to the end *)
    apply list_elem_of_split in Hz as (D1 & D2 & ->).
    apply lseg_app in HL2 as [_ HL2]. apply StronglySorted_app in HS2 as (_ & _ & HS2).
    change (fst z) with (hdp BASE (z :: D2)).
    assert (Hld : (length (z :: D2) <= length (D1 ++ z :: D2))%nat) by (rewrite length_app; lia).
    replace (2 * S (Z.to_nat (u_brk s / HEADER)) + 2)%nat with
      (length (z :: D2) + (2 * S (Z.to_nat (u_brk s / HEADER)) + 2 - length (z :: D2)))%nat by lia.
    rewrite free_past; try done.
    + change BASE with (fst (BASE, 0)) at 1. replace (fst (BASE, 0)) with (hdp (hdp BASE (D1 ++ z :: D2)) (C ++ [x])) by (by rewrite <- Hx).
      apply free_before; try done. lia.
    + apply Forall_app in H2 as [_ H2]. rewrite Forall_forall in *. intros b Hb. specialize (H2 b Hb).
      split_and!; [|done|]; apply (Hn b); rewrite !elem_of_app; auto.
Qed.

(** ** Joining neighbours *)
Definition glue (b : block) (G : list block) : list block :=
  match G with
  | c :: G' => if bend b =? fst c then (fst b, snd b + snd c) :: G' else b :: G
  | [] => [b]
  end.

Lemma glue_split b G e : exists n G', glue b G = (fst b, n) :: G' /\ hdp e (glue b G) = fst b.
Proof.
  destruct G as [|c G]; simpl; [by exists (snd b), []; destruct b|].
  destruct (bend b =? fst c); [by eexists _, _|]. exists (snd b), (c :: G). by destruct b.
Qed.

Lemma glue_units b G : units (glue b G) = snd b + units G.
Proof. destruct G as [|c G]; simpl; [done|]. destruct (bend b =? fst c); simpl; lia. Qed.

Lemma glue_length b G : (length (glue b G) <= S (length G))%nat.
Proof. destruct G as [|c G]; simpl; [done|]. destruct (bend b =? fst c); simpl; lia. Qed.

Lemma glue_large b G : Forall (fun c => 0 <= snd c) G -> exists d, d ∈ glue b G /\ snd b <= snd d.
Proof.
  destruct G as [|c G]; simpl; [intros _; exists b; split; [left|lia]|]. intros [Hc _]%Forall_cons.
  destruct (bend b =? fst c); eexists; (split; [left|simpl; lia]).
Qed.

(** A property of blocks that joining two adjacent ones keeps. *)
Lemma glue_Forall (P : block -> Prop) b G :
  P b -> Forall P G -> (forall c, P c -> bend b = fst c -> P (fst b, snd b + snd c)) -> Forall P (glue b G).
Proof.
  intros Hb HG HP. destruct G as [|c G]; simpl; [by constructor|].
  apply Forall_cons in HG as [Hc HG].
  destruct (bend b =? fst c) eqn:E; constructor; [apply HP; (done || lia)|done|done|by constructor].
Qed.

Lemma glue_sorted b G :
  StronglySorted before G -> Forall (fun c => bend b <= fst c /\ 0 <= snd c) G ->
  StronglySorted before (glue b G).
Proof.
  intros HS HG. destruct G as [|c G]; simpl; [by repeat constructor|].
  apply StronglySorted_inv in HS as [HS Hc]. apply Forall_cons in HG as [[Hbc Hc0] HG].
  destruct (bend b =? fst c) eqn:E.
  - constructor; [done|]. eapply Forall_impl; [exact Hc|]. unfold before, bend, HEADER in *. simpl. lia.
  - constructor; [by constructor|]. constructor; [unfold before; lia|].
    eapply Forall_impl; [exact Hc|]. unfold before, bend, HEADER in *. simpl. lia.
Qed.

(** A change of memory that leaves [freep] and the break alone. *)
Definition rewrites (a : Z) (s s' : ust) : Prop :=
  u_freep s' = u_freep s /\ u_brk s' = u_brk s /\ only_at a (u_mem s) (u_mem s').

Lemma join_next_run s b p G e :
  in_mem (fst b) s = true -> in_mem p s = true -> u_mem s p = hdp e G -> u_mem s (fst b + 4) = snd b ->
  lseg (u_mem s) G e -> Forall (fun c => elsewhere (fst b) c /\ in_mem (fst c) s = true /\ is_u32 (snd b + snd c)) G ->
  is_u32 (bend b) -> bend b <> e ->
  exists s', join_next (fst b) p s = Ok tt s' /\ rewrites (fst b) s s' /\ lseg (u_mem s') (glue b G) e.
Proof.
  intros Hb Hp Hnx Hsz HL HG Hu He. unfold join_next.
  erewrite bind_ok by (by apply hsize_run). erewrite bind_ok by (by apply hptr_run).
  rewrite Hsz, Hnx. fold (bend b). rewrite (u32_id (bend b)) by done.
  assert (Hne : (bend b =? hdp e G) = false ->
    exists s', set_ptr (fst b) (hdp e G) s = Ok tt s' /\ rewrites (fst b) s s' /\ lseg (u_mem s') (b :: G) e).
  { intros _. eexists. split; [by apply set_word_run|]. cbn [u_mem u_freep u_brk lseg].
    assert (Ho : only_at (fst b) (u_mem s) (upd (u_mem s) (fst b + 0) (hdp e G)))
      by (apply only_at_upd; unfold HEADER; lia).
    split; [done|]. rewrite Z.add_0_r in *. rewrite word_upd_eq, word_upd_ne by lia.
    split_and!; [done|done|]. eapply lseg_only_at; [exact Ho| |done].
    eapply Forall_impl; [exact HG|]. by intros ? []. }
  destruct G as [|c G]; cbn [hdp glue].
  { rewrite (proj2 (Z.eqb_neq _ _) He). apply Hne. by apply Z.eqb_neq. }
  destruct (bend b =? fst c) eqn:E; [|by apply Hne].
  apply Forall_cons in HG as [(Hec & Hmc & Huc) HG]. destruct HL as (Hc1 & Hc2 & HL).
  erewrite bind_ok by (by apply hsize_run). erewrite bind_ok by (by apply set_word_run).
  erewrite bind_ok by (by apply hptr_run). unfold set_ptr. rewrite set_word_run by done.
  cbn [u_mem u_freep u_brk]. eexists. split; [reflexivity|]. rewrite Z.add_0_r, Hc2, u32_id by done.
  assert (Ho : only_at (fst b) (u_mem s)
    (upd (upd (u_mem s) (fst b + 4) (snd b + snd c)) (fst b) (upd (u_mem s) (fst b + 4) (snd b + snd c) (fst c)))).
  { apply only_at_header. }
  unfold rewrites. cbn [u_mem u_freep u_brk]. split; [done|]. cbn [lseg fst snd].
  unfold elsewhere, HEADER in Hec.
  split_and!.
  - rewrite word_upd_eq, word_upd_ne by lia. done.
  - rewrite word_upd_ne by lia. by rewrite word_upd_eq.
  - eapply lseg_only_at; [exact Ho| |done]. eapply Forall_impl; [exact HG|]. by intros ? [].
Qed.

Lemma join_prev_run s x b G e :
  in_mem (fst x) s = true -> in_mem (fst b) s = true -> u_mem s (fst x + 4) = snd x ->
  lseg (u_mem s) (b :: G) e -> Forall (elsewhere (fst x)) (b :: G) ->
  is_u32 (bend x) -> is_u32 (snd x + snd b) ->
  exists s', join_prev (fst b) (fst x) s = Ok tt s' /\ rewrites (fst x) s s' /\ lseg (u_mem s') (glue x (b :: G)) e.
Proof.
  intros Hx Hb Hsz HL HG Hu Hs. unfold join_prev. cbn [glue].
  erewrite bind_ok by (by apply hsize_run). rewrite Hsz. fold (bend x). rewrite (u32_id (bend x)) by done.
  pose proof HL as (Hb1 & Hb2 & HL').
  assert (Heb : elsewhere (fst x) b) by (by apply Forall_cons in HG as [? _]). unfold elsewhere, HEADER in Heb.
  destruct (bend x =? fst b) eqn:E.
  - erewrite bind_ok by (by apply hsize_run). erewrite bind_ok by (by apply set_word_run).
    erewrite bind_ok by (by apply hptr_run). unfold set_ptr. rewrite set_word_run by done.
    cbn [u_mem u_freep u_brk]. eexists. split; [reflexivity|]. rewrite Z.add_0_r, Hb2, u32_id by done.
    assert (Ho : only_at (fst x) (u_mem s)
      (upd (upd (u_mem s) (fst x + 4) (snd x + snd b)) (fst x) (upd (u_mem s) (fst x + 4) (snd x + snd b) (fst b)))).
    { apply only_at_header. }
    unfold rewrites. cbn [u_mem u_freep u_brk lseg fst snd]. split; [done|]. split_and!.
    + rewrite word_upd_eq, word_upd_ne by lia. done.
    + rewrite word_upd_ne by lia. by rewrite word_upd_eq.
    + eapply lseg_only_at; [exact Ho| |done]. by apply Forall_cons in HG as [_ ?].
  - eexists. split; [by apply set_word_run|]. cbn [u_mem u_freep u_brk].
    assert (Ho : only_at (fst x) (u_mem s) (upd (u_mem s) (fst x + 0) (fst b)))
      by (apply only_at_upd; unfold HEADER; lia).
    split; [done|]. change (lseg ?m (x :: b :: G) e) with (m (fst x) = fst b /\ m (fst x + 4) = snd x /\ lseg m (b :: G) e).
    rewrite Z.add_0_r in *. rewrite word_upd_eq, word_upd_ne by lia. split_and!; [done|done|].
    by eapply lseg_only_at.
Qed.

(** The heap's blocks: where they may lie, and apart from the allocated ones. *)
Definition block_ok (BASE brk : Z) (A : list block) (b : block) : Prop :=
  BASE + HEADER <= fst b /\ 1 <= snd b /\ bend b <= brk /\ forall a, a ∈ A -> disj b a.

Lemma block_ok_join BASE brk A b c :
  (forall a, a ∈ A -> 1 <= snd a) ->
  block_ok BASE brk A b -> block_ok BASE brk A c -> bend b = fst c ->
  block_ok BASE brk A (fst b, snd b + snd c).
Proof.
  intros HA (H1 & H2 & H3 & H4) (H5 & H6 & H7 & H8) Hbc. unfold block_ok, bend, HEADER in *.
  split_and!; simpl; [lia|lia|lia|]. intros a Ha. specialize (H4 a Ha). specialize (H8 a Ha).
  specialize (HA a Ha). unfold disj, bend, HEADER in *. simpl. lia.
Qed.

Lemma disj_elsewhere b c : disj b c -> 1 <= snd b -> 1 <= snd c -> elsewhere (fst b) c /\ elsewhere (fst c) b.
Proof. unfold disj, elsewhere, bend, HEADER. lia. Qed.

Section insert.
  Context (BASE : Z) (s : ust) (F A : list block) (b : block) (H : arena BASE s F (b :: A)).

Lemma inserted_in : BASE + HEADER <= fst b /\ 1 <= snd b /\ bend b <= u_brk s.
  Proof. apply (ar_in _ _ _ _ H b), elem_of_app. right. left. Qed.

Lemma inserted_disj c : c ∈ F -> disj c b /\ 1 <= snd c.
  Proof.
    intros Hc. split; [apply (ar_free _ _ _ _ H c b); [done|left]|].
    apply (ar_in _ _ _ _ H c), elem_of_app. by left.
  Qed.

Lemma inserted_large a : a ∈ A -> 1 <= snd a.
  Proof. intros Ha. apply (ar_in _ _ _ _ H a), elem_of_app. right. by right. Qed.

Lemma inserted_ok : Forall (block_ok BASE (u_brk s) A) (b :: F).
  Proof.
    apply Forall_forall. intros c Hc. destruct (ar_in _ _ _ _ H c) as (? & ? & ?); [set_solver|].
    split_and!; [done|done|done|]. intros a Ha. apply elem_of_cons in Hc as [-> | Hc].
    - pose proof (ar_apart _ _ _ _ H) as HA. inversion HA as [|? ? HF]; subst.
      rewrite Forall_forall in HF. by apply HF.
    - apply (ar_free _ _ _ _ H c a); [done|by right].
  Qed.

  (** The blocks before and after it, [x] the last one before. *)
Lemma insert_split : exists F1 F2 C x,
    F = F1 ++ F2 /\ Forall (fun c => fst c < fst b) F1 /\
    Forall (fun c => fst b < fst c /\ bend b <= fst c /\ 0 <= snd c) F2 /\
    (BASE, 0) :: F1 = C ++ [x] /\ bend x <= fst b /\ 0 <= snd x.
  Proof.
    destruct inserted_in as (I1 & I2 & I3).
    pose proof (arena_increasing _ _ _ _ H) as HI. apply StronglySorted_inv in HI as [HI _].
    destruct (split_at (fst b) F HI) as (F1 & F2 & HF & H1 & H2).
    { intros c Hc Heq. destruct (inserted_disj c Hc) as [Hd ?]. unfold disj, bend, HEADER in *. lia. }
    destruct (exists_last (l := (BASE, 0) :: F1)) as (C & x & Hx); [done|].
    exists F1, F2, C, x. split_and!; try done; rewrite Forall_forall in H1, H2.
    - apply Forall_forall. intros c Hc. destruct (inserted_disj c) as [Hd ?]; [set_solver|].
      specialize (H2 c Hc). unfold disj, bend, HEADER in *. lia.
    - assert (Hin : x ∈ (BASE, 0) :: F1) by (rewrite Hx; apply elem_of_app; right; left).
      apply elem_of_cons in Hin as [-> | Hin]; [unfold bend, HEADER in *; simpl; lia|].
      destruct (inserted_disj x) as [Hd ?]; [set_solver|]. specialize (H1 x Hin). unfold disj, bend, HEADER in *. lia.
    - apply (arena_nodes _ _ _ _ H x). rewrite HF.
      assert (Hin : x ∈ (BASE, 0) :: F1) by (rewrite Hx; apply elem_of_app; right; left). set_solver.
  Qed.

  Context (F1 F2 C : list block) (x : block) (HF : F = F1 ++ F2).
  Context (H2 : Forall (fun c => fst b < fst c /\ bend b <= fst c /\ 0 <= snd c) F2).
  Context (Hx : (BASE, 0) :: F1 = C ++ [x]) (Hxb : bend x <= fst b /\ 0 <= snd x).

Lemma insert_after : Forall (fun c => bend x <= fst c /\ 0 <= snd c) (glue b F2).
  Proof.
    destruct inserted_in as (I1 & I2 & I3). apply glue_Forall; simpl; [lia| |lia].
    eapply Forall_impl; [exact H2|]. unfold bend, HEADER in *. simpl. lia.
  Qed.

Lemma insert_sorted : StronglySorted before (C ++ glue x (glue b F2)).
  Proof.
    pose proof (ar_sorted _ _ _ _ H) as HS. rewrite HF, app_comm_cons, Hx in HS.
    apply StronglySorted_app in HS as (Hlt & HS1 & HS2). apply StronglySorted_app in HS1 as (Hlt1 & HS1 & _).
    apply StronglySorted_app. split_and!; [|done|].
    - intros c d Hc Hd. assert (Hcx : before c x) by (apply Hlt1; [done|left]).
      assert (Hxd : Forall (fun d => fst x <= fst d) (glue x (glue b F2))).
      { apply glue_Forall; [done| |done]. eapply Forall_impl; [exact insert_after|].
        unfold bend, HEADER in *. simpl. lia. }
      rewrite Forall_forall in Hxd. specialize (Hxd d Hd). unfold before in *. lia.
    - apply glue_sorted; [|exact insert_after]. apply glue_sorted; [done|].
      eapply Forall_impl; [exact H2|]. simpl. tauto.
  Qed.

Lemma insert_glue_ok : Forall (block_ok BASE (u_brk s) A) (glue b F2).
  Proof.
    pose proof inserted_ok as Hok. rewrite HF in Hok. apply Forall_cons in Hok as [Hokb [_ Hok]%Forall_app].
    apply glue_Forall; [done|done|]. intros c Hc. by apply (block_ok_join _ _ _ _ _ inserted_large).
  Qed.

  (** The block before it is the static header or a free block. *)
Lemma insert_prev : x = (BASE, 0) \/ x ∈ F.
  Proof using HF Hx.
    assert (Hin : x ∈ (BASE, 0) :: F1) by (rewrite Hx; apply elem_of_app; right; left).
    apply elem_of_cons in Hin as [Hin|Hin]; [by left|]. right. rewrite HF. apply elem_of_app. by left.
  Qed.

Lemma insert_elsewhere : Forall (elsewhere (fst x)) (glue b F2).
  Proof.
    pose proof insert_glue_ok as H3. pose proof insert_after as H4. rewrite Forall_forall in H3, H4. apply Forall_forall.
    intros c Hc. destruct (H3 c Hc) as (? & _). destruct (H4 c Hc) as (? & _). right.
    destruct insert_prev as [-> | Hin]; [done|]. destruct (inserted_disj x Hin) as [_ ?].
    unfold bend, HEADER in *. lia.
  Qed.

Lemma insert_tail : exists F', C ++ glue x (glue b F2) = (BASE, 0) :: F' /\
    Forall (block_ok BASE (u_brk s) A) F' /\ exists d, d ∈ F' /\ snd b <= snd d.
  Proof.
    destruct inserted_in as (I1 & I2 & I3).
    pose proof inserted_ok as Hok. apply Forall_cons in Hok as [Hokb Hok].
    pose proof insert_glue_ok as HokG.
    destruct (glue_large b F2) as (d & Hd & Hdb); [eapply Forall_impl; [exact H2|]; simpl; tauto|].
    destruct (glue_split b F2 0) as (n & G & HG & _). rewrite HG in *.
    destruct C as [|c C']; injection Hx as <- Hx'; cbn [app glue fst snd].
    - assert (E : (bend (BASE, 0) =? fst b) = false) by (unfold bend, HEADER in *; simpl; lia).
      rewrite E. eexists. split_and!; [done|done|by exists d].
    - assert (Hokx : block_ok BASE (u_brk s) A x /\ Forall (block_ok BASE (u_brk s) A) C').
      { rewrite HF, Hx', !Forall_app in Hok. destruct Hok as ((HC & Hokx) & _). by apply Forall_cons in Hokx as [? _]. }
      eexists. split_and!; [done| |].
      + apply Forall_app. split; [apply Hokx|]. apply (glue_Forall _ x ((fst b, n) :: G)); [apply Hokx|done|].
        intros e He Hxe. apply block_ok_join; [exact inserted_large|apply Hokx|done|done].
      + destruct (bend x =? fst b); [|exists d; set_solver].
        apply elem_of_cons in Hd as [-> | Hd]; [|exists d; set_solver].
        eexists. split; [apply elem_of_app; right; left|]. simpl in *. lia.
  Qed.
End insert.

(** The allocated blocks keep their contents. *)
Definition kept (A : list block) (s s' : ust) : Prop :=
  forall a w, a ∈ A -> fst a <= w < bend a -> u_mem s' w = u_mem s w.

Lemma kept_trans A s1 s2 s3 : kept A s1 s2 -> kept A s2 s3 -> kept A s1 s3.
Proof. intros H1 H2 a w Ha Hw. by rewrite (H2 a w), (H1 a w). Qed.

Lemma kept_rewrites A a s s' :
  rewrites a s s' -> (forall b, b ∈ A -> bend b <= a \/ a + HEADER <= fst b) -> kept A s s'.
Proof. intros (_ & _ & Ho) HA b w Hb Hw. apply Ho. specialize (HA b Hb). lia. Qed.

Section free.
  Context (BASE : Z) (s : ust) (F A : list block) (b : block) (H : arena BASE s F (b :: A)).
  Context (F1 F2 C : list block) (x : block) (HF : F = F1 ++ F2) (H1 : Forall (fun c => fst c < fst b) F1).
  Context (H2 : Forall (fun c => fst b < fst c /\ bend b <= fst c /\ 0 <= snd c) F2).
  Context (Hx : (BASE, 0) :: F1 = C ++ [x]) (Hxb : bend x <= fst b /\ 0 <= snd x).

Lemma free_nodes c : c ∈ C ++ [x] ++ F2 ->
    BASE <= fst c /\ 0 <= snd c /\ in_mem (fst c) s = true /\ bend c <= u_brk s /\ elsewhere (fst b) c.
  Proof.
    intros Hc. rewrite app_assoc, <- Hx in Hc. destruct (inserted_in _ _ _ _ _ H) as (I1 & I2 & _).
    destruct (arena_nodes _ _ _ _ H c) as (? & ? & ?); [by rewrite HF|].
    destruct (ar_base _ _ _ _ H) as (B1 & B2 & B3). split_and!; [done..| |].
    - rewrite <- app_comm_cons in Hc. apply elem_of_cons in Hc as [-> | Hc]; [unfold bend, HEADER in *; simpl; lia|].
      apply (ar_in _ _ _ _ H c), elem_of_app. left. by rewrite HF.
    - rewrite <- app_comm_cons in Hc. apply elem_of_cons in Hc as [-> | Hc]; [by left|].
      destruct (inserted_disj _ _ _ _ _ H c) as [? ?]; [by rewrite HF|]. by apply disj_elsewhere.
  Qed.

Lemma free_lseg : lseg (u_mem s) C (fst x) /\ u_mem s (fst x) = hdp BASE F2 /\
    u_mem s (fst x + 4) = snd x /\ lseg (u_mem s) F2 BASE.
  Proof.
    pose proof (ar_list _ _ _ _ H) as HL. rewrite HF, app_comm_cons, Hx, <- app_assoc in HL.
    apply lseg_app in HL as [HL1 (? & ? & ?)]. by simpl in HL1.
  Qed.

  (** The two joins. *)
Lemma free_joins : exists s',
    (join_next (fst b) (fst x) ;;; join_prev (fst b) (fst x)) s = Ok tt s' /\
    u_brk s' = u_brk s /\ kept A s s' /\ lseg (u_mem s') (C ++ glue x (glue b F2)) BASE.
  Proof.
    destruct (inserted_in _ _ _ _ _ H) as (I1 & I2 & I3). destruct (ar_base _ _ _ _ H) as (B1 & B2 & B3).
    destruct free_lseg as (HLC & Hpx & Hsx & HL2). unfold KERNBASE in B3.
    assert (Hxn : x ∈ C ++ [x] ++ F2) by (apply elem_of_app; right; left).
    destruct (free_nodes x Hxn) as (X1 & X2 & X3 & X4 & X5).
    assert (Hmb : in_mem (fst b) s = true) by (unfold in_mem, bend, HEADER in *; lia).
    destruct (join_next_run s b (fst x) F2 BASE) as (s1 & E1 & (R1 & R2 & R3) & L1); try done.
    { apply (ar_size _ _ _ _ H). left. }
    { apply Forall_forall. intros c Hc. destruct (free_nodes c) as (? & ? & ? & ? & ?); [set_solver|].
      split_and!; [done|done|]. unfold is_u32, bend, HEADER in *. lia. }
    { unfold is_u32, bend, HEADER in *. lia. }
    { unfold bend, HEADER in *. lia. }
    pose proof (insert_glue_ok _ _ _ _ _ H F1 F2 HF) as Hok.
    pose proof (insert_elsewhere _ _ _ _ _ H F1 F2 C x HF H2 Hx Hxb) as Hels.
    destruct (glue_split b F2 0) as (n & G & HG & _). rewrite HG in *.
    assert (Hm : forall a, in_mem a s1 = in_mem a s) by (intros; unfold in_mem; by rewrite R2).
    destruct (join_prev_run s1 x (fst b, n) G BASE) as (s2 & E2 & (Q1 & Q2 & Q3) & L2); rewrite ?Hm; try done.
    { rewrite R3; [done|]. unfold elsewhere, HEADER in *. lia. }
    { unfold is_u32, bend, HEADER in *. lia. }
    { apply Forall_cons in Hok as [(? & ? & ? & _) _]. unfold is_u32, bend, HEADER in *. simpl in *. lia. }
    exists s2. erewrite bind_ok by exact E1. split_and!; [done|congruence| |].
    - pose proof (inserted_ok _ _ _ _ _ H) as Hall. apply Forall_cons in Hall as [(_ & _ & _ & HbA) HFA].
      apply (kept_trans A s s1 s2); eapply kept_rewrites; try done; intros a Ha;
        pose proof (inserted_large _ _ _ _ _ H a Ha) as Hsa.
      + specialize (HbA a Ha). unfold disj, bend, HEADER in *. lia.
      + destruct (insert_prev _ _ _ _ _ _ HF Hx) as [-> | Hin].
        * right. apply (ar_in _ _ _ _ H a). set_solver.
        * destruct (inserted_disj _ _ _ _ _ H x Hin) as [_ ?]. pose proof (ar_free _ _ _ _ H x a Hin ltac:(by right)).
          unfold disj, bend, HEADER in *. lia.
    - apply lseg_app. destruct (glue_split x ((fst b, n) :: G) BASE) as (_ & _ & _ & ->). split; [|done].
      assert (HC : forall c, c ∈ C -> fst c + HEADER <= fst x).
      { intros c Hc. pose proof (ar_sorted _ _ _ _ H) as HS. rewrite HF, app_comm_cons, Hx in HS.
        apply StronglySorted_app in HS as (_ & HS & _). apply StronglySorted_app in HS as (Hlt & _ & _).
        assert (Hcx : before c x) by (apply Hlt; [done|left]).
        assert (Hxn2 : x <> (BASE, 0)) by (intros Heq; rewrite Heq in Hcx; destruct (free_nodes c) as (? & ? & _); [set_solver|];
          unfold before, bend, HEADER in *; simpl in *; lia).
        destruct (insert_prev _ _ _ _ _ _ HF Hx) as [|Hin]; [done|].
        destruct (ar_in _ _ _ _ H x) as (? & _); [set_solver|].
        assert (c ∈ (BASE, 0) :: F1) as [Hc1|Hc1]%elem_of_cons by (rewrite Hx; set_solver); [by rewrite Hc1|].
        destruct (inserted_disj _ _ _ _ _ H c) as [_ ?]; [set_solver|]. unfold before, bend, HEADER in *. lia. }
      eapply lseg_only_at; [exact Q3| |]; [apply Forall_forall; intros c Hc; left; by apply HC|].
      eapply lseg_only_at; [exact R3| |exact HLC]. apply Forall_forall. intros c Hc. apply free_nodes. set_solver.
  Qed.
End free.

Lemma free_run BASE s F b A :
  arena BASE s F (b :: A) ->
  exists s' F', free (fst b + HEADER) s = Ok tt s' /\ arena BASE s' F' A /\
    units F' = units F + snd b /\ u_brk s' = u_brk s /\ kept A s s' /\ (length F' <= S (length F))%nat /\ exists d, d ∈ F' /\ snd b <= snd d.
Proof.
  intros H. destruct (inserted_in _ _ _ _ _ H) as (I1 & I2 & I3).
  destruct (ar_base _ _ _ _ H) as (B1 & B2 & B3).
  destruct (insert_split _ _ _ _ _ H) as (F1 & F2 & C & x & -> & H1 & H2 & Hx & Hxb).
  pose proof (insert_sorted _ _ _ _ _ H F1 F2 C x eq_refl H2 Hx Hxb) as HSC.
  destruct (insert_tail _ _ _ _ _ H F1 F2 C x eq_refl H2 Hx Hxb) as (F' & HF' & HP & HD).
  destruct (free_joins _ _ _ _ _ H F1 F2 C x eq_refl H1 H2 Hx Hxb) as (s2 & E2 & K2 & K3 & HL).
  exists (Ust (u_mem s2) (fst x) (u_brk s2)), F'. unfold free.
  assert (E : u32 (fst b + HEADER - HEADER) = fst b).
  { rewrite Z.add_simpl_r. apply u32_id. unfold is_u32, KERNBASE, bend, HEADER in *. lia. }
  rewrite E. split_and!.
  - erewrite bind_ok by reflexivity.
    erewrite bind_ok by (eapply free_finds; [exact H|unfold HEADER in *; lia|done| |done];
      eapply Forall_impl; [exact H2|]; simpl; tauto).
    unfold bind in E2 |- *. simpl in E2 |- *. destruct (join_next (fst b) (fst x) s); try done.
    simpl in E2 |- *. rewrite E2. done.
  - rewrite HF' in HSC, HL. rewrite Forall_forall in HP. split; cbn [u_mem u_freep u_brk]; try done.
    + by rewrite K2.
    + rewrite K2. intros c [Hc|Hc]%elem_of_app; [destruct (HP c Hc) as (? & ? & ? & _); done|].
      apply (ar_in _ _ _ _ H c). set_solver.
    + rewrite <- HF', fmap_app. apply elem_of_app. right.
      destruct (glue_split x (glue b F2) 0) as (n & G & -> & _). left.
    + intros a Ha. rewrite (K3 a (fst a + 4) Ha); [apply (ar_size _ _ _ _ H); by right|].
      pose proof (inserted_large _ _ _ _ _ H a Ha). unfold bend, HEADER. lia.
    + intros c a Hc. by apply HP.
    + pose proof (ar_apart _ _ _ _ H) as HA. by inversion HA.
  - apply (f_equal units) in HF', Hx. rewrite units_app, !glue_units in HF'. rewrite units_app in Hx.
    rewrite units_app. simpl in *. lia.
  - done.
  - done.
  - apply (f_equal length) in HF', Hx. rewrite length_app in HF', Hx. pose proof (glue_length b F2).
    pose proof (glue_length x (glue b F2)). rewrite length_app. simpl in *. lia.
  - done.
Qed.

(** ** Taking a block *)
Section carve.
  Context (BASE : Z) (s : ust) (F1 F2 A : list block) (y : block) (H : arena BASE s (F1 ++ y :: F2) A).

Lemma carve_order :
    (forall c, c ∈ F1 -> before c y) /\ (forall c, c ∈ F2 -> before y c) /\ before (BASE, 0) y /\
    StronglySorted before ((BASE, 0) :: F1) /\ StronglySorted before F2 /\
    (forall c d, c ∈ (BASE, 0) :: F1 -> d ∈ F2 -> before c d).
  Proof.
    pose proof (ar_sorted _ _ _ _ H) as HS. rewrite app_comm_cons in HS.
    apply StronglySorted_app in HS as (Hlt & HS1 & HS2). apply StronglySorted_inv in HS2 as [HS2 Hy].
    rewrite Forall_forall in Hy. split_and!; try done.
    - intros c Hc. apply Hlt; [by right|left].
    - apply Hlt; left.
    - intros c d Hc Hd. apply Hlt; [done|by right].
  Qed.

Lemma carve_y : BASE + HEADER <= fst y /\ 1 <= snd y /\ bend y <= u_brk s /\ in_mem (fst y) s = true.
  Proof.
    destruct (ar_in _ _ _ _ H y) as (? & ? & ?); [set_solver|]. destruct (ar_base _ _ _ _ H) as (? & ? & ?).
    split_and!; try done. unfold in_mem, bend, HEADER in *. lia.
  Qed.

  (** Another block of the list. *)
Lemma carve_apart c : c ∈ (BASE, 0) :: F1 ++ F2 -> elsewhere (fst y) c.
  Proof.
    destruct carve_order as (H1 & H2 & _). destruct carve_y as (? & ? & ? & _).
    intros [-> | [Hc|Hc]%elem_of_app]%elem_of_cons; [by left|left|right].
    - specialize (H1 c Hc). destruct (ar_in _ _ _ _ H c) as (_ & ? & _); [set_solver|].
      unfold before, bend, HEADER in *. lia.
    - specialize (H2 c Hc). unfold before, bend, HEADER in *. lia.
  Qed.

Lemma carve_disj c b :
    c ∈ (F1 ++ F2) ++ A -> fst y <= fst b -> bend b <= bend y -> disj c b.
  Proof.
    destruct carve_order as (H1 & H2 & _). unfold disj.
    intros [[Hc|Hc]%elem_of_app|Hc]%elem_of_app Hb1 Hb2.
    - specialize (H1 c Hc). unfold before in H1. lia.
    - specialize (H2 c Hc). unfold before in H2. lia.
    - pose proof (ar_free _ _ _ _ H y c) as Hd. unfold disj in Hd. destruct Hd; [set_solver|done|lia|lia].
  Qed.

  Context (C : list block) (x : block) (Hx : (BASE, 0) :: F1 = C ++ [x]).

Lemma carve_lseg : lseg (u_mem s) C (fst x) /\ u_mem s (fst x) = fst y /\ u_mem s (fst x + 4) = snd x /\
    u_mem s (fst y) = hdp BASE F2 /\ u_mem s (fst y + 4) = snd y /\ lseg (u_mem s) F2 BASE.
  Proof.
    pose proof (ar_list _ _ _ _ H) as HL. rewrite app_comm_cons, Hx, <- app_assoc in HL.
    apply lseg_app in HL as [HL1 (? & ? & ? & ? & ?)]. by simpl in HL1.
  Qed.

Lemma carve_x : in_mem (fst x) s = true /\ fst x ∈ fst <$> ((BASE, 0) :: F1) /\ (x = (BASE, 0) \/ x ∈ F1).
  Proof.
    assert (Hin : x ∈ (BASE, 0) :: F1) by (rewrite Hx; apply elem_of_app; right; left).
    split_and!; [|by apply list_elem_of_fmap_2|by apply elem_of_cons].
    apply (arena_nodes _ _ _ _ H). set_solver.
  Qed.

Lemma carve_all s' :
    u_freep s' = fst x -> u_brk s' = u_brk s -> lseg (u_mem s') ((BASE, 0) :: F1 ++ F2) BASE ->
    kept A s s' -> u_mem s' (fst y + 4) = snd y -> arena BASE s' (F1 ++ F2) (y :: A).
  Proof.
    intros Hf Hb HL HK Hsz. destruct carve_order as (H1 & H2 & H3 & HS1 & HS2 & H12).
    split; rewrite ?Hf, ?Hb; try done.
    - apply (ar_base _ _ _ _ H).
    - intros b Hb'. apply (ar_in _ _ _ _ H b). set_solver.
    - rewrite app_comm_cons. apply StronglySorted_app. split_and!; done.
    - rewrite app_comm_cons, fmap_app. apply elem_of_app. left. apply carve_x.
    - intros b [-> | Hb']%elem_of_cons; [done|]. rewrite (HK b (fst b + 4) Hb'); [by apply (ar_size _ _ _ _ H)|].
      destruct (ar_in _ _ _ _ H b) as (_ & ? & _); [set_solver|]. unfold bend, HEADER. lia.
    - intros c d Hc [-> | Hd]%elem_of_cons; [apply carve_disj; [set_solver|lia|lia]|].
      apply (ar_free _ _ _ _ H); [set_solver|done].
    - constructor; [|apply (ar_apart _ _ _ _ H)]. apply Forall_forall. intros a Ha.
      apply (ar_free _ _ _ _ H); [set_solver|done].
  Qed.

  (** The tail of the block, [n] units of it. *)
Definition rest (n : Z) : block := (fst y, snd y - n).
Definition tail (n : Z) : block := (fst y + HEADER * (snd y - n), n).

Lemma carve_part n s' :
    1 <= n < snd y -> u_freep s' = fst x -> u_brk s' = u_brk s ->
    lseg (u_mem s') ((BASE, 0) :: F1 ++ rest n :: F2) BASE ->
    kept A s s' -> u_mem s' (fst (tail n) + 4) = n -> arena BASE s' (F1 ++ rest n :: F2) (tail n :: A).
  Proof.
    intros Hn Hf Hb HL HK Hsz. destruct carve_order as (H1 & H2 & H3 & HS1 & HS2 & H12).
    destruct carve_y as (Y1 & Y2 & Y3 & _). unfold before, bend, HEADER in *.
    assert (Hr : forall b, b ∈ (F1 ++ rest n :: F2) ++ tail n :: A ->
      b = rest n \/ b = tail n \/ b ∈ (F1 ++ F2) ++ A) by set_solver.
    split; rewrite ?Hf, ?Hb; try done.
    - apply (ar_base _ _ _ _ H).
    - intros b Hb'. destruct (Hr b Hb') as [-> | [-> | Hin]].
      1-2: unfold rest, tail, bend, HEADER in *; simpl; lia.
      apply (ar_in _ _ _ _ H b). set_solver.
    - rewrite app_comm_cons. apply StronglySorted_app. split_and!; [|done|].
      + intros c d Hc [-> | Hd]%elem_of_cons; [|by apply H12].
        apply elem_of_cons in Hc as [-> | Hc]; [exact H3|]. by apply (H1 c).
      + constructor; [done|]. apply Forall_forall. intros c Hc. specialize (H2 c Hc).
        unfold before, rest, bend, HEADER. simpl. lia.
    - rewrite app_comm_cons, fmap_app. apply elem_of_app. left. apply carve_x.
    - intros b [-> | Hb']%elem_of_cons; [done|]. rewrite (HK b (fst b + 4) Hb'); [by apply (ar_size _ _ _ _ H)|].
      destruct (ar_in _ _ _ _ H b) as (_ & ? & _); [set_solver|]. unfold bend, HEADER. lia.
    - intros c d Hc Hd. assert (Hc' : c = rest n \/ c ∈ F1 ++ F2) by set_solver.
      apply elem_of_cons in Hd as [-> | Hd].
      + destruct Hc' as [-> | Hc']; [left; unfold rest, tail, bend, HEADER; simpl; lia|].
        apply carve_disj; [set_solver|unfold tail, bend, HEADER; simpl; lia..].
      + destruct Hc' as [-> | Hc']; [|apply (ar_free _ _ _ _ H); [set_solver|done]].
        pose proof (carve_disj d (rest n)) as Hdis. unfold disj in *.
        destruct Hdis; [set_solver|unfold rest, bend, HEADER; simpl; lia..|by right|by left].
    - constructor; [|apply (ar_apart _ _ _ _ H)]. apply Forall_forall. intros a Ha.
      pose proof (carve_disj a (tail n)) as Hdis. unfold disj in *.
      destruct Hdis; [set_solver|unfold tail, bend, HEADER; simpl; lia..|by right|by left].
  Qed.
End carve.

(** A block was taken from the free ones. *)
Definition took (BASE n : Z) (s : ust) (F A : list block) (p : Z) (s' : ust) : Prop :=
  exists F' q, p = q + HEADER /\ arena BASE s' F' ((q, n) :: A) /\ units F' + n = units F /\
    u_brk s' = u_brk s /\ kept A s s'.

(** Unlinking the whole block. *)
Section whole.
  Context (BASE : Z) (s : ust) (F1 F2 A : list block) (y : block) (H : arena BASE s (F1 ++ y :: F2) A).
  Context (C : list block) (x : block) (Hx : (BASE, 0) :: F1 = C ++ [x]).

Lemma whole_apart : Forall (elsewhere (fst x)) (C ++ F2).
  Proof.
    destruct (carve_x _ _ _ _ _ _ H _ _ Hx) as (_ & _ & X3).
    assert (HS : StronglySorted before (C ++ [x] ++ y :: F2)).
    { pose proof (ar_sorted _ _ _ _ H) as HS. by rewrite app_comm_cons, Hx, <- app_assoc in HS. }
    apply StronglySorted_app in HS as (Hlt & _ & HS). apply StronglySorted_inv in HS as [HS Hxs].
    rewrite Forall_forall in Hxs. apply Forall_forall. intros c [Hc|Hc]%elem_of_app.
    - assert (Hcx : before c x) by (apply Hlt; [done|left]).
      assert (Hc1 : c ∈ (BASE, 0) :: F1) by (rewrite Hx; set_solver). left.
      destruct X3 as [-> | X3].
      { destruct (arena_nodes _ _ _ _ H c) as (? & ? & _); [set_solver|]. unfold before, bend, HEADER in *. simpl in *. lia. }
      destruct (ar_in _ _ _ _ H x) as (? & _); [set_solver|]. apply elem_of_cons in Hc1 as [-> | Hc1]; [done|].
      destruct (ar_in _ _ _ _ H c) as (_ & ? & _); [set_solver|]. unfold before, bend, HEADER in *. lia.
    - assert (Hcx : before x c) by (apply Hxs; by right). right.
      destruct (ar_in _ _ _ _ H c) as (? & _); [set_solver|]. destruct X3 as [-> | X3]; [done|].
      destruct (ar_in _ _ _ _ H x) as (_ & ? & _); [set_solver|]. unfold before, bend, HEADER in *. lia.
  Qed.

Lemma whole_kept s' : rewrites (fst x) s s' -> kept A s s'.
  Proof.
    intros Hr. eapply kept_rewrites; [done|]. intros a Ha.
    destruct (ar_in _ _ _ _ H a) as (? & ? & _); [set_solver|].
    destruct (carve_x _ _ _ _ _ _ H _ _ Hx) as (_ & _ & [-> | X3]); [by right|].
    destruct (ar_in _ _ _ _ H x) as (_ & ? & _); [set_solver|].
    assert (Hd : disj x a) by (apply (ar_free _ _ _ _ H); [set_solver|done]).
    unfold disj, bend, HEADER in *. lia.
  Qed.

Lemma carve_whole : exists p s',
    carve (snd y) (fst x) (fst y) (snd y) s = Ok p s' /\ took BASE (snd y) s (F1 ++ y :: F2) A p s'.
  Proof.
    destruct (carve_y _ _ _ _ _ _ H) as (Y1 & Y2 & Y3 & Y4).
    destruct (carve_x _ _ _ _ _ _ H _ _ Hx) as (X1 & _ & _).
    destruct (carve_lseg _ _ _ _ _ _ H _ _ Hx) as (LC & Lx & Lxs & Ly & Lys & L2).
    destruct (ar_base _ _ _ _ H) as (B1 & B2 & B3). unfold KERNBASE in B3.
    assert (Hax : elsewhere (fst y) x).
    { apply (carve_apart _ _ _ _ _ _ H). rewrite app_comm_cons, Hx. set_solver. }
    unfold carve. rewrite Z.eqb_refl.
    erewrite bind_ok; [|erewrite bind_ok by (by apply hptr_run); erewrite bind_ok by (by apply set_word_run); reflexivity].
    rewrite Ly, Z.add_0_r. cbn [u_mem u_freep u_brk].
    set (s' := Ust (upd (u_mem s) (fst x) (hdp BASE F2)) (fst x) (u_brk s)).
    assert (Ho : only_at (fst x) (u_mem s) (u_mem s')).
    { rewrite <- (Z.add_0_r (fst x)) at 1. cbn [s' u_mem]. rewrite <- (Z.add_0_r (fst x)) at 2.
      rewrite Z.add_0_r at 1. apply only_at_upd. unfold HEADER. lia. }
    exists (fst y + HEADER), s'. split.
    { change (Ok (u32 (fst y + HEADER)) s' = Ok (fst y + HEADER) s'). f_equal. apply u32_id.
      unfold is_u32, bend, HEADER in *. lia. }
    exists (F1 ++ F2), (fst y). rewrite <- surjective_pairing.
    assert (HK : kept A s s') by (intros a w Ha Hw; apply (whole_kept (Ust (u_mem s') (u_freep s) (u_brk s)) ltac:(done) a w Ha Hw)).
    split_and!; [done| | |done|done].
    - eapply (carve_all _ _ F1 F2); try done; cbn [s' u_mem u_freep u_brk].
      + rewrite app_comm_cons, Hx, <- app_assoc. apply lseg_app. pose proof whole_apart as [HxC Hx2]%Forall_app.
        split; [by eapply lseg_only_at|]. cbn [app lseg]. rewrite word_upd_eq, word_upd_ne by lia.
        split_and!; [done|done|by eapply lseg_only_at].
      + rewrite word_upd_ne; [done|]. unfold elsewhere, HEADER in Hax. lia.
    - rewrite !units_app. simpl. lia.
  Qed.
End whole.

(** Splitting the block and taking its tail. *)
Section part.
  Context (BASE : Z) (s : ust) (F1 F2 A : list block) (y : block) (H : arena BASE s (F1 ++ y :: F2) A).
  Context (C : list block) (x : block) (Hx : (BASE, 0) :: F1 = C ++ [x]) (n : Z) (Hn : 1 <= n < snd y).

Definition part_mem : Z -> Z := upd (upd (u_mem s) (fst y + 4) (snd y - n)) (fst (tail y n) + 4) n.

Lemma part_other w : w <> fst y + 4 -> w <> fst (tail y n) + 4 -> part_mem w = u_mem s w.
  Proof using. clear. intros. unfold part_mem. by rewrite !word_upd_ne. Qed.

Lemma part_apart c : c ∈ ((BASE, 0) :: F1) ++ F2 -> fst c + HEADER <= fst y \/ bend y <= fst c.
  Proof.
    destruct (carve_order _ _ _ _ _ _ H) as (O1 & O2 & _). destruct (carve_y _ _ _ _ _ _ H) as (Y1 & _).
    intros [[-> | Hc]%elem_of_cons|Hc]%elem_of_app; [by left|left|right].
    - specialize (O1 c Hc). destruct (ar_in _ _ _ _ H c) as (_ & ? & _); [set_solver|].
      unfold before, bend, HEADER in *. lia.
    - specialize (O2 c Hc). unfold before in O2. lia.
  Qed.

Lemma part_same c : c ∈ ((BASE, 0) :: F1) ++ F2 ->
    part_mem (fst c) = u_mem s (fst c) /\ part_mem (fst c + 4) = u_mem s (fst c + 4).
  Proof.
    intros Hc. pose proof (part_apart c Hc). unfold bend, HEADER in *.
    split; apply part_other; unfold tail, HEADER; simpl; lia.
  Qed.

Lemma carve_tail : exists p s',
    carve n (fst x) (fst y) (snd y) s = Ok p s' /\ took BASE n s (F1 ++ y :: F2) A p s'.
  Proof.
    destruct (carve_y _ _ _ _ _ _ H) as (Y1 & Y2 & Y3 & Y4).
    destruct (carve_lseg _ _ _ _ _ _ H _ _ Hx) as (LC & Lx & Lxs & Ly & Lys & L2).
    destruct (ar_base _ _ _ _ H) as (B1 & B2 & B3). unfold KERNBASE in B3.
    unfold carve. rewrite (proj2 (Z.eqb_neq (snd y) n)) by lia.
    rewrite (u32_id (snd y - n)) by (unfold is_u32, bend, HEADER in *; lia).
    rewrite (u32_id (fst y + HEADER * (snd y - n))) by (unfold is_u32, bend, HEADER in *; lia).
    erewrite bind_ok; [|erewrite bind_ok by (by apply set_word_run); erewrite bind_ok by
      (apply set_word_run; unfold in_mem, bend, HEADER in *; cbn [u_brk]; lia); reflexivity].
    cbn [u_mem u_freep u_brk]. change (fst y + HEADER * (snd y - n)) with (fst (tail y n)). fold part_mem.
    set (s' := Ust part_mem (fst x) (u_brk s)).
    exists (fst (tail y n) + HEADER), s'. split.
    { change (Ok (u32 (fst (tail y n) + HEADER)) s' = Ok (fst (tail y n) + HEADER) s'). f_equal. apply u32_id.
      unfold is_u32, tail, bend, HEADER in *. simpl. lia. }
    exists (F1 ++ rest y n :: F2), (fst (tail y n)).
    assert (HK : kept A s s').
    { intros a w Ha Hw. assert (Hd : disj y a) by (apply (ar_free _ _ _ _ H); [set_solver|done]).
      apply part_other; unfold tail, disj, bend, HEADER in *; simpl; lia. }
    split_and!; [done| | |done|done]; [|rewrite !units_app; simpl; lia].
    change (fst (tail y n), n) with (tail y n). eapply carve_part; try done; cbn [s' u_mem u_freep u_brk].
    - rewrite app_comm_cons, Hx, <- app_assoc. apply lseg_app.
      split; [eapply lseg_frame; [|exact LC]; intros c Hc; apply part_same; rewrite Hx; set_solver|].
      cbn [app lseg]. destruct (part_same x) as [-> ->]; [rewrite Hx; set_solver|]. split_and!; [done|done| | |].
      + unfold rest. cbn [fst]. rewrite part_other; [done|lia|unfold tail, HEADER; simpl; lia].
      + unfold rest, part_mem. cbn [fst snd]. rewrite word_upd_ne by (unfold tail, HEADER; simpl; lia). apply word_upd_eq.
      + eapply lseg_frame; [|exact L2]. intros c Hc. apply part_same. set_solver.
    - apply word_upd_eq.
  Qed.
End part.

Lemma carve_run BASE s F1 F2 A C x y n :
  arena BASE s (F1 ++ y :: F2) A -> (BASE, 0) :: F1 = C ++ [x] -> 1 <= n <= snd y ->
  exists p s', carve n (fst x) (fst y) (snd y) s = Ok p s' /\ took BASE n s (F1 ++ y :: F2) A p s'.
Proof.
  intros H Hx Hn. destruct (Z.eq_dec (snd y) n) as [<-|].
  - by eapply carve_whole.
  - eapply carve_tail; [done|done|lia].
Qed.

(** ** Once around the list *)

Lemma first_large n (l : list block) : Exists (fun c => n <= snd c) l ->
  exists D1 y D2, l = D1 ++ y :: D2 /\ n <= snd y /\ Forall (fun c => snd c < n) D1.
Proof.
  induction l as [|c l IH]; intros Hex; [by apply Exists_nil in Hex|].
  destruct (Z.le_gt_cases n (snd c)); [by exists [], c, l|].
  apply Exists_cons in Hex as [|Hex]; [lia|]. destruct (IH Hex) as (D1 & y & D2 & -> & ? & ?).
  exists (c :: D1), y, D2. split_and!; [done|done|]. constructor; [lia|done].
Qed.

Section lap.
  Context (BASE : Z) (sbrk : Z -> Z -> Z * Z) (n : Z).
  Abbreviation malloc_loop := (malloc_loop sbrk).

Lemma malloc_step fuel prevp p s :
    in_mem p s = true ->
    malloc_loop (S fuel) n prevp p s =
      if u_mem s (p + 4) >=? n then carve n prevp p (u_mem s (p + 4)) s
      else if p =? u_freep s
           then (p <- morecore sbrk n ;; if p =? 0 then ret 0 else nx <- hptr p ;; malloc_loop fuel n p nx) s
           else malloc_loop fuel n p (u_mem s p) s.
  Proof.
    intros Hp. cbn [Umalloc.malloc_loop]. erewrite bind_ok by (by apply hsize_run).
    destruct (_ >=? n); [done|]. erewrite bind_ok by reflexivity.
    destruct (p =? u_freep s); [done|]. by erewrite bind_ok by (by apply hptr_run).
  Qed.

  (** Over blocks that are too small. *)
Lemma small_walk s e : forall D x D' z fuel,
    x :: D = D' ++ [z] -> lseg (u_mem s) (x :: D) e ->
    Forall (fun c => in_mem (fst c) s = true /\ snd c < n /\ fst c <> u_freep s) D ->
    malloc_loop (length D + fuel) n (fst x) (hdp e D) s = malloc_loop fuel n (fst z) e s.
  Proof.
    induction D as [|c D IH]; intros x D' z fuel Hz HL HD.
    - destruct D' as [|? [|]]; simplify_eq/=. done.
    - apply Forall_cons in HD as [(Hm & Hs & Hf) HD]. destruct HL as (_ & _ & HL). pose proof HL as (Hp & Hsz & _).
      destruct D' as [|d D']; injection Hz as -> Hz; [done|]. cbn [length Nat.add hdp].
      rewrite malloc_step, Hsz by done. rewrite (proj2 (Z.eqb_neq (fst c) (u_freep s))) by done.
      replace (snd c >=? n) with false by lia. rewrite Hp. by eapply IH.
  Qed.

  Context (s : ust) (F A : list block) (H : arena BASE s F A) (Hn : 1 <= n).

  (** The list from [freep] on. *)
Lemma rotate : exists z D, u_freep s = fst z /\ z ∈ (BASE, 0) :: F /\ length D = length F /\
    lseg (u_mem s) (z :: D) (fst z) /\ (forall c, c ∈ z :: D <-> c ∈ (BASE, 0) :: F) /\
    Forall (fun c => fst c <> fst z) D.
  Proof.
    pose proof (ar_freep _ _ _ _ H) as Hf. apply list_elem_of_fmap in Hf as (z & Hz & Hin).
    pose proof Hin as Hin'. apply list_elem_of_split in Hin' as (C1 & C2 & HB). exists z, (C2 ++ C1).
    pose proof (ar_list _ _ _ _ H) as HL. pose proof (arena_increasing _ _ _ _ H) as HS.
    assert (Hlen : length ((BASE, 0) :: F) = length (C1 ++ z :: C2)) by (by rewrite HB).
    rewrite length_app in Hlen. simpl in Hlen. unfold increasing in HS.
    assert (Hh : hdp (fst z) C1 = BASE) by (destruct C1; injection HB as <- _; done).
    split_and!; [done|done|rewrite length_app; lia| | |].
    - rewrite HB in HL. apply lseg_app in HL as [HL1 HL2].
      change (z :: C2 ++ C1) with ((z :: C2) ++ C1). apply lseg_app. by rewrite Hh.
    - intros c. rewrite HB. set_solver.
    - rewrite HB in HS. apply StronglySorted_app in HS as (Hlt & _ & HS2). apply StronglySorted_inv in HS2 as [_ HS2].
      rewrite Forall_forall in *. intros c [Hc|Hc]%elem_of_app; [specialize (HS2 c Hc); simpl in HS2; lia|].
      specialize (Hlt c z Hc ltac:(left)). simpl in Hlt. lia.
  Qed.

  (** The block a header points to. *)
Lemma pointed w y : w ∈ (BASE, 0) :: F -> u_mem s (fst w) = fst y -> u_mem s (fst y + 4) = snd y -> BASE < fst y ->
    exists F1 F2 C, F = F1 ++ y :: F2 /\ (BASE, 0) :: F1 = C ++ [w].
  Proof.
    intros Hw Hp Hsz Hy. apply list_elem_of_split in Hw as (E1 & E2 & HB).
    pose proof (ar_list _ _ _ _ H) as HL. rewrite HB in HL. apply lseg_app in HL as [_ (Hw1 & _ & HL)].
    rewrite Hp in Hw1. destruct E2 as [|y' F2]; simpl in Hw1; [lia|]. destruct HL as (_ & Hsz' & _).
    assert (y' = y) as -> by (destruct y, y'; simpl in *; congruence).
    destruct E1 as [|e E1]; injection HB as <- HB.
    - exists [], F2, []. by rewrite HB.
    - exists (E1 ++ [w]), F2, ((BASE, 0) :: E1). rewrite HB. by rewrite <- app_assoc.
  Qed.

Lemma carve_pointed w y :
    w ∈ (BASE, 0) :: F -> u_mem s (fst w) = fst y -> u_mem s (fst y + 4) = snd y -> y ∈ (BASE, 0) :: F ->
    n <= snd y -> exists p s', carve n (fst w) (fst y) (snd y) s = Ok p s' /\ took BASE n s F A p s'.
  Proof.
    intros Hw Hp Hsz Hy Hny. apply elem_of_cons in Hy as [-> | Hy]; [simpl in Hny; lia|].
    destruct (pointed w y Hw Hp Hsz) as (F1 & F2 & C & HF & HC).
    { destruct (ar_in _ _ _ _ H y) as (? & _); [set_solver|]. unfold HEADER in *. lia. }
    rewrite HF. eapply carve_run; [by rewrite <- HF|done|lia].
  Qed.

Lemma lap_found fuel : (exists d, d ∈ F /\ n <= snd d) -> (length F < fuel)%nat ->
    exists p s', malloc_loop fuel n (u_freep s) (u_mem s (u_freep s)) s = Ok p s' /\ took BASE n s F A p s'.
  Proof.
    intros (d & Hd & Hdn) Hfuel. destruct rotate as (z & D & Hz & Hzin & Hlen & HL & Hsame & HD). rewrite Hz.
    assert (Hex : Exists (fun c => n <= snd c) (D ++ [z])).
    { apply Exists_exists. exists d. split; [|done]. assert (d ∈ z :: D) by (apply Hsame; by right). set_solver. }
    destruct (first_large n _ Hex) as (D1 & y & D2 & HD12 & Hy & Hsmall).
    (* D1 is a prefix of D, followed by y *)
    assert (Hpre : exists E, D = D1 ++ E /\ hdp (fst z) E = fst y /\ y ∈ z :: D).
    { destruct (decide (D2 = [])) as [-> | Hne].
      - apply app_inj_tail in HD12 as [-> ->]. exists []. rewrite app_nil_r. split_and!; [done|done|left].
      - destruct (exists_last Hne) as (D3 & w & ->).
        rewrite app_comm_cons, app_assoc in HD12. apply app_inj_tail in HD12 as [-> _].
        exists (y :: D3). split_and!; [done|done|set_solver]. }
    destruct Hpre as (E & HDE & HE & Hyin).
    destruct (exists_last (l := z :: D1)) as (Z1 & w & HZ1); [done|].
    assert (Hall : forall c, c ∈ z :: D -> in_mem (fst c) s = true) by (intros c Hc; apply (arena_nodes _ _ _ _ H), Hsame, Hc).
    pose proof HL as HLD. rewrite HDE in HLD. rewrite app_comm_cons in HLD. apply lseg_app in HLD as [HL1 HL2]. rewrite HE in HL1.
    assert (Hwp : u_mem s (fst w) = fst y) by (rewrite HZ1 in HL1; apply lseg_app in HL1 as [_ (? & _)]; done).
    assert (Hws : w ∈ (BASE, 0) :: F) by (apply Hsame; rewrite HDE; assert (w ∈ z :: D1) by (rewrite HZ1; set_solver); set_solver).
    assert (Hys : u_mem s (fst y + 4) = snd y).
    { pose proof (ar_list _ _ _ _ H) as HLB. apply Hsame, list_elem_of_split in Hyin as (? & ? & HBs).
      rewrite HBs in HLB. apply lseg_app in HLB as [_ (_ & ? & _)]. done. }
    assert (Hzp : u_mem s (fst z) = hdp (fst y) D1) by (by destruct HL1).
    rewrite Hzp. assert (Hl1 : (length D1 <= length D)%nat) by (rewrite HDE, length_app; lia).
    replace fuel with (length D1 + S (fuel - length D1 - 1))%nat by lia.
    rewrite (small_walk s (fst y) D1 z Z1 w); [|done|done|].
    - rewrite malloc_step, Hys by (apply Hall; done). replace (snd y >=? n) with true by lia.
      apply carve_pointed; try done. by apply Hsame.
    - rewrite HDE in HD. apply Forall_app in HD as [HD _]. rewrite Hz, Forall_forall in *. intros c Hc.
      split_and!; [apply Hall; rewrite HDE; set_solver|by apply Hsmall|by apply HD].
  Qed.

Lemma lap_none fuel : (forall d, d ∈ F -> snd d < n) ->
    malloc_loop (length F + S fuel) n (u_freep s) (u_mem s (u_freep s)) s =
      (p <- morecore sbrk n ;; if p =? 0 then ret 0 else nx <- hptr p ;; malloc_loop fuel n p nx) s.
  Proof.
    intros Hsmall. destruct rotate as (z & D & Hz & Hzin & Hlen & HL & Hsame & HD). rewrite Hz.
    assert (Hs : forall c, c ∈ z :: D -> snd c < n /\ in_mem (fst c) s = true).
    { intros c Hc%Hsame. split; [|by apply (arena_nodes _ _ _ _ H)].
      apply elem_of_cons in Hc as [-> | Hc]; [simpl; lia|by apply Hsmall]. }
    destruct (exists_last (l := z :: D)) as (Z1 & w & HZ1); [done|].
    assert (Hzp : u_mem s (fst z) = hdp (fst z) D) by (by destruct HL). rewrite Hzp, <- Hlen.
    rewrite (small_walk s (fst z) D z Z1 w); [|done|done|].
    - destruct (Hs z) as [? ?]; [left|]. rewrite malloc_step by done. destruct HL as (_ & -> & _).
      replace (snd z >=? n) with false by lia. by rewrite Hz, Z.eqb_refl.
    - rewrite Hz, Forall_forall in *. intros c Hc. destruct (Hs c) as [? ?]; [by right|]. split_and!; [done|done|by apply HD].
  Qed.
End lap.

(** ** The system call, and the two operations *)

(** What the allocator relies on: [sbrk] either fails and returns -1, or adds
    that much memory at the end, below the kernel. *)
Definition sbrk_ok (sbrk : Z -> Z -> Z * Z) : Prop :=
  forall n brk, 0 < n < 2 ^ 31 ->
    sbrk n brk = (2 ^ 32 - 1, brk) \/ (sbrk n brk = (brk, brk + n) /\ brk + n <= KERNBASE).

(** [morecore] grew the heap by [g] units. *)
Definition grew (BASE n : Z) (s : ust) (F A : list block) (s' : ust) : Prop :=
  exists F' g, arena BASE s' F' A /\ units F' = units F + g /\ u_brk s' = u_brk s + HEADER * g /\
    kept A s s' /\ (length F' <= S (length F))%nat /\ exists d, d ∈ F' /\ n <= snd d.

Lemma arena_grow BASE s F A g :
  arena BASE s F A -> 1 <= g -> u_brk s + HEADER * g <= KERNBASE ->
  arena BASE (Ust (upd (u_mem s) (u_brk s + 4) g) (u_freep s) (u_brk s + HEADER * g)) F ((u_brk s, g) :: A).
Proof.
  intros H Hg Hb. destruct (ar_base _ _ _ _ H) as (B1 & B2 & B3). pose proof (ar_in _ _ _ _ H) as Hin.
  assert (Hlow : forall b, b ∈ (BASE, 0) :: F ++ A -> fst b + HEADER <= u_brk s).
  { intros b [-> | Hb']%elem_of_cons; [done|]. destruct (Hin b Hb') as (? & ? & ?). unfold bend, HEADER in *. lia. }
  split; cbn [u_mem u_freep u_brk]; try apply H.
  - unfold HEADER in *. lia.
  - intros b Hb'. assert (b = (u_brk s, g) \/ b ∈ F ++ A) as [-> | Hb2] by set_solver.
    + unfold bend, HEADER in *. simpl. lia.
    + destruct (Hin b Hb2) as (? & ? & ?). unfold HEADER in *. lia.
  - eapply lseg_frame; [|apply (ar_list _ _ _ _ H)]. intros b Hb'. specialize (Hlow b ltac:(set_solver)).
    unfold HEADER in *. by rewrite !word_upd_ne by lia.
  - intros b [-> | Hb']%elem_of_cons; [apply word_upd_eq|]. specialize (Hlow b ltac:(set_solver)). unfold HEADER in *.
    rewrite word_upd_ne by lia. by apply (ar_size _ _ _ _ H).
  - intros b c Hb' [-> | Hc]%elem_of_cons; [|by apply (ar_free _ _ _ _ H)].
    left. destruct (Hin b) as (_ & _ & ?); [set_solver|]. done.
  - constructor; [|apply H]. apply Forall_forall. intros a Ha. right.
    destruct (Hin a) as (_ & _ & ?); [set_solver|]. done.
Qed.

Lemma morecore_run BASE sbrk s F A n :
  sbrk_ok sbrk -> arena BASE s F A -> 1 <= n -> HEADER * n < 2 ^ 31 ->
  morecore sbrk n s = Ok 0 s \/
  exists s', morecore sbrk n s = Ok (u_freep s') s' /\ grew BASE n s F A s'.
Proof.
  intros Hs H Hn Hn2. destruct (ar_base _ _ _ _ H) as (B1 & B2 & B3).
  unfold morecore. set (g := if n <? 4096 then 4096 else n).
  assert (Hg : 1 <= g /\ n <= g /\ HEADER * g < 2 ^ 31) by (unfold g, HEADER in *; destruct (Z.ltb_spec n 4096); lia).
  erewrite bind_ok by reflexivity. unfold HEADER in Hg.
  assert (E : s32 (u32 (g * HEADER)) = HEADER * g).
  { unfold HEADER. rewrite u32_id by (unfold is_u32; lia). rewrite s32_id by (unfold is_s32; lia). lia. }
  rewrite E. destruct (Hs (HEADER * g) (u_brk s)) as [-> | [-> Hk]]; [unfold HEADER; lia| |].
  - left. erewrite bind_ok by reflexivity. by destruct s.
  - right. unfold KERNBASE, HEADER in *.
    erewrite bind_ok by reflexivity. rewrite (proj2 (Z.eqb_neq (u_brk s) (2 ^ 32 - 1))) by lia.
    cbn [u_mem u_freep u_brk].
    erewrite bind_ok by (apply set_word_run; unfold in_mem, HEADER; cbn [u_brk]; lia).
    rewrite u32_id by (unfold is_u32; lia). cbn [u_mem u_freep u_brk].
    pose proof (arena_grow BASE s F A g H ltac:(lia) ltac:(unfold KERNBASE, HEADER; lia)) as HG.
    destruct (free_run _ _ _ _ _ HG) as (s' & F' & E1 & HA' & HU & HB & HK & Hlen & (d & Hd1 & Hd2)).
    unfold HEADER in E1. cbn [fst] in E1.
    exists s'. erewrite bind_ok by exact E1. split; [done|]. exists F', g.
    split_and!; [done|done|done| |done|exists d; split; [done|simpl in Hd2; lia]].
    intros a w Ha Hw. rewrite (HK a w Ha Hw). cbn [u_mem]. apply word_upd_ne.
    destruct (ar_in _ _ _ _ H a) as (_ & _ & ?); [set_solver|]. lia.
Qed.

(** The heap before the first call of [malloc], and after. *)
Definition heap (BASE : Z) (s : ust) (F A : list block) : Prop :=
  arena BASE s F A \/
  (u_freep s = 0 /\ F = [] /\ A = [] /\ 0 < BASE /\ BASE + HEADER <= u_brk s /\ u_brk s <= KERNBASE).

(** [malloc]'s results: out of memory, or a block of [n] units at [p - 8]. *)
Definition malloc_fails (BASE : Z) (s : ust) (F A : list block) (p : Z) (s' : ust) : Prop :=
  p = 0 /\ arena BASE s' F A /\ u_brk s' = u_brk s /\ kept A s s'.
Definition malloc_gives (BASE n : Z) (s : ust) (F A : list block) (p : Z) (s' : ust) : Prop :=
  exists F' g, 0 < p /\ arena BASE s' F' ((p - HEADER, n) :: A) /\ units F' + n = units F + g /\
    u_brk s' = u_brk s + HEADER * g /\ kept A s s'.

Lemma took_gives BASE n s0 s F0 F A p s' g :
  took BASE n s F A p s' -> units F = units F0 + g -> u_brk s = u_brk s0 + HEADER * g -> kept A s0 s ->
  malloc_gives BASE n s0 F0 A p s'.
Proof.
  intros (F' & q & -> & HA & HU & HB & HK) HU0 HB0 HK0. exists F', g. rewrite Z.add_simpl_r.
  split_and!; [|done|lia|lia|by eapply kept_trans].
  destruct (ar_in _ _ _ _ HA (q, n)) as (? & _); [set_solver|]. destruct (ar_base _ _ _ _ HA) as (? & _).
  unfold HEADER in *. simpl in *. lia.
Qed.

Lemma malloc_loop_run BASE sbrk s F A n fuel :
  sbrk_ok sbrk -> arena BASE s F A -> 1 <= n -> HEADER * n < 2 ^ 31 -> (2 * length F + 4 <= fuel)%nat ->
  exists p s', malloc_loop sbrk fuel n (u_freep s) (u_mem s (u_freep s)) s = Ok p s' /\
    (malloc_fails BASE s F A p s' \/ malloc_gives BASE n s F A p s').
Proof.
  intros Hs H Hn Hn2 Hfuel. destruct (decide (Exists (fun d => n <= snd d) F)) as [Hex|Hno].
  - apply Exists_exists in Hex as (d & Hd).
    destruct (lap_found BASE sbrk n s F A H Hn fuel) as (p & s' & E & HT); [by exists d|lia|].
    exists p, s'. split; [done|]. right. eapply (took_gives _ _ _ _ _ _ _ _ _ 0); [done|lia|lia|done].
  - assert (Hsmall : forall d, d ∈ F -> snd d < n).
    { intros d Hd. destruct (Z.lt_ge_cases (snd d) n); [done|]. destruct Hno. apply Exists_exists. by exists d. }
    replace fuel with (length F + S (fuel - length F - 1))%nat by lia. rewrite (lap_none BASE _ _ _ _ _ H Hn) by done.
    destruct (morecore_run BASE sbrk s F A n Hs H Hn Hn2) as [E | (s1 & E & F1 & g & HA & HU & HB & HK & Hlen & Hd)].
    + exists 0, s. erewrite bind_ok by exact E. split; [done|]. left. by split_and!.
    + erewrite bind_ok by exact E. pose proof (ar_freep _ _ _ _ HA) as Hf.
      apply list_elem_of_fmap in Hf as (z & Hz & Hzin). destruct (arena_nodes _ _ _ _ HA z Hzin) as (Hz1 & _ & Hzm).
      destruct (ar_base _ _ _ _ HA) as (HB0 & _).
      rewrite (proj2 (Z.eqb_neq (u_freep s1) 0)) by (rewrite Hz; lia).
      erewrite bind_ok by (apply hptr_run; by rewrite Hz).
      destruct (lap_found BASE sbrk n s1 F1 A HA Hn (fuel - length F - 1)) as (p & s' & E' & HT); [done|lia|].
      exists p, s'. split; [done|]. right. by eapply took_gives.
Qed.

Lemma malloc_run BASE sbrk s F A nbytes :
  sbrk_ok sbrk -> heap BASE s F A -> 0 <= nbytes < 2 ^ 31 - 2 * HEADER ->
  exists p s', malloc BASE sbrk nbytes s = Ok p s' /\
    (malloc_fails BASE s F A p s' \/ malloc_gives BASE (units_for nbytes) s F A p s').
Proof.
  intros Hs HH Hb. unfold HEADER in Hb.
  assert (Hn : 1 <= units_for nbytes /\ HEADER * units_for nbytes < 2 ^ 31).
  { unfold units_for, HEADER. rewrite (u32_id (nbytes + 8 - 1)) by (unfold is_u32; lia).
    rewrite u32_id by (unfold is_u32; lia). lia. }
  destruct Hn as [Hn1 Hn2]. unfold malloc. erewrite bind_ok by reflexivity.
  destruct HH as [H | (Hf & -> & -> & B1 & B2 & B3)].
  - pose proof (ar_freep _ _ _ _ H) as Hf. apply list_elem_of_fmap in Hf as (z & Hz & Hzin).
    destruct (arena_nodes _ _ _ _ H z Hzin) as (Hz1 & _ & Hzm). destruct (ar_base _ _ _ _ H) as (HB0 & _).
    rewrite (proj2 (Z.eqb_neq (u_freep s) 0)) by (rewrite Hz; lia). erewrite bind_ok by reflexivity.
    erewrite bind_ok by (apply hptr_run; by rewrite Hz). erewrite bind_ok by reflexivity.
    apply malloc_loop_run; try done. pose proof (arena_length _ _ _ _ H). unfold blocks_bound. lia.
  - rewrite Hf. cbn [Z.eqb]. erewrite bind_ok; [|erewrite bind_ok by reflexivity;
      erewrite bind_ok by (apply set_word_run; unfold in_mem, HEADER in *; cbn [u_brk]; lia);
      erewrite bind_ok by (apply set_word_run; unfold in_mem, HEADER in *; cbn [u_brk]; lia); reflexivity].
    cbn [u_mem u_freep u_brk]. rewrite Z.add_0_r. set (s1 := Ust _ BASE (u_brk s)).
    assert (H : arena BASE s1 [] []).
    { split; cbn [s1 u_mem u_freep u_brk app]; [done|set_solver|repeat constructor| |left|set_solver|set_solver|constructor].
      simpl. rewrite word_upd_ne, word_upd_eq by lia. by rewrite word_upd_eq. }
    erewrite bind_ok by (apply hptr_run; unfold in_mem, HEADER in *; cbn [s1 u_brk]; lia).
    erewrite bind_ok by reflexivity.
    destruct (malloc_loop_run BASE sbrk s1 [] [] (units_for nbytes) (2 * (blocks_bound s1 + 2))) as (p & s' & E & HR); try done.
    { simpl. lia. }
    exists p, s'. split; [done|].
    destruct HR as [(-> & HA & HB & HK) | (F' & g & HA & HU & HB & HC & HK)]; [left|right].
    + split_and!; [done|done|done|]. intros a w Ha. by apply elem_of_nil in Ha.
    + exists F', g. split_and!; try done. intros a w Ha. by apply elem_of_nil in Ha.
Qed.

(** The order in which the allocated blocks are listed does not matter. *)
Lemma disj_sym b c : disj b c -> disj c b.
Proof. unfold disj. tauto. Qed.

#[export] Instance apart_perm : Proper ((≡ₚ) ==> iff) (ForallOrdPairs disj).
Proof.
  assert (Hone : forall A B, A ≡ₚ B -> ForallOrdPairs disj A -> ForallOrdPairs disj B).
  { induction 1 as [|x A B HP IH|x y A|A B C _ IH1 _ IH2]; intros HF.
    - done.
    - inversion HF as [|? ? Hx HF']; subst. constructor; [by rewrite <- HP|by apply IH].
    - inversion HF as [|? ? Hy HF']; subst. inversion HF' as [|? ? Hx HF'']; subst.
      apply Forall_cons in Hy as [Hyx Hy].
      constructor; [constructor; [by apply disj_sym|done]|by constructor].
    - auto. }
  intros A B HP. split; apply Hone; [done|by symmetry].
Qed.

#[export] Instance arena_perm BASE s F : Proper ((≡ₚ) ==> iff) (arena BASE s F).
Proof.
  assert (Hone : forall A B, A ≡ₚ B -> arena BASE s F A -> arena BASE s F B).
  { intros A B HP H. split; try apply H.
    - intros b Hb. apply (ar_in _ _ _ _ H). by rewrite HP.
    - intros b Hb. apply (ar_size _ _ _ _ H). by rewrite HP.
    - intros b c Hb Hc. apply (ar_free _ _ _ _ H); [done|by rewrite HP].
    - rewrite <- HP. apply H. }
  intros A B HP. split; apply Hone; [done|by symmetry].
Qed.


(** C30. [free] always returns; the block it is given, which may be any of the
    allocated ones, joins the free ones, merged with the blocks it touches,
    and the blocks still allocated keep their contents. *)
Theorem free_spec (BASE : Z) (s : ust) (F A1 A2 : list block) (b : block) :
  arena BASE s F (A1 ++ b :: A2) ->
  exists s' F', free (fst b + HEADER) s = Ok tt s' /\ arena BASE s' F' (A1 ++ A2) /\
    units F' = units F + snd b /\ kept (A1 ++ A2) s s'.
Proof.
  rewrite <- Permutation_middle. intros H.
  destruct (free_run _ _ _ _ _ H) as (s' & F' & ? & ? & ? & ? & ? & ?). exists s', F'. by split_and!.
Qed.

(** The size computation of [malloc] wraps: a request within seven bytes
    of four gigabytes is served with a block that has no room at all. *)
Theorem malloc_wraps (BASE : Z) (sbrk : Z -> Z -> Z * Z) (s : ust) (F A : list block) (nbytes : Z) :
  arena BASE s F A -> F <> [] -> 2 ^ 32 - 7 <= nbytes < 2 ^ 32 ->
  exists p s' F', malloc BASE sbrk nbytes s = Ok p s' /\ 0 < p /\ arena BASE s' F' ((p - HEADER, 1) :: A).
Proof.
  intros H HF Hb. assert (Hu : units_for nbytes = 1).
  { unfold units_for, HEADER, u32. lia. }
  destruct F as [|d F0] eqn:EF; [done|]. rewrite <- EF in *.
  assert (Hd : exists d, d ∈ F /\ 1 <= snd d).
  { exists d. assert (d ∈ F) by (rewrite EF; left). split; [done|]. apply (ar_in _ _ _ _ H). set_solver. }
  pose proof (ar_freep _ _ _ _ H) as Hf. apply list_elem_of_fmap in Hf as (z & Hz & Hzin).
  destruct (arena_nodes _ _ _ _ H z Hzin) as (Hz1 & _ & Hzm). destruct (ar_base _ _ _ _ H) as (HB0 & _).
  destruct (lap_found BASE sbrk 1 s F A H ltac:(lia) (2 * (blocks_bound s + 2)) Hd) as (p & s' & E & HT).
  { pose proof (arena_length _ _ _ _ H). unfold blocks_bound. lia. }
  destruct (took_gives _ _ s s F F A p s' 0 HT) as (F' & g & ? & ? & _); [lia|lia|done|].
  exists p, s', F'. split_and!; [|done|done].
  unfold malloc. rewrite Hu. erewrite bind_ok by reflexivity.
  rewrite (proj2 (Z.eqb_neq (u_freep s) 0)) by (rewrite Hz; lia). erewrite bind_ok by reflexivity.
  erewrite bind_ok by (apply hptr_run; by rewrite Hz). by erewrite bind_ok by reflexivity.
Qed.

(** A process with a break at 0x5000 and a kernel that grants what is asked
    for up to one megabyte. *)
Definition sbrk1 (n brk : Z) : Z * Z :=
  if brk + n <=? 0x100000 then (brk, brk + n) else (2 ^ 32 - 1, brk).
Definition ust0 : ust := Ust (fun _ => 0) 0 0x5000.

Lemma sbrk1_ok : sbrk_ok sbrk1.
Proof.
  intros n brk Hn. unfold sbrk1. destruct (Z.leb_spec (brk + n) 0x100000); [right|by left].
  split; [done|]. unfold KERNBASE. lia.
Qed.
Lemma ust0_heap : heap 0x2000 ust0 [] [].
Proof. right. unfold HEADER, KERNBASE. by split_and!. Qed.


(** After one request of 100 bytes: one free block and one allocated. *)
Definition ust1 : ust :=
  Ust (fun a => if a =? 0x2000 then 0x5000 else if a =? 0x5000 then 0x2000 else
                if a =? 0x5004 then 4082 else if a =? 0xcf94 then 14 else 0) 0x2000 0xd000.

Lemma ust1_arena : arena 0x2000 ust1 [(0x5000, 4082)] [(0xcf90, 14)].
Proof.
  split.
  - unfold HEADER, KERNBASE. simpl. lia.
  - intros b Hb. assert (b = (0x5000, 4082) \/ b = (0xcf90, 14)) as [-> | ->] by set_solver;
      unfold bend, HEADER; simpl; lia.
  - repeat constructor.
  - done.
  - left.
  - intros b ->%list_elem_of_singleton. done.
  - intros b c ->%list_elem_of_singleton ->%list_elem_of_singleton. left. done.
  - repeat constructor.
Qed.

Lemma free_spec_witness :
  exists s' F', free 0xcf98 ust1 = Ok tt s' /\ arena 0x2000 s' F' [] /\ units F' = 4096.
Proof.
  destruct (free_spec 0x2000 ust1 [(0x5000, 4082)] [] [] (0xcf90, 14) ust1_arena) as (s' & F' & E & H & HU & _).
  exists s', F'. split; [exact E|]. split; [exact H|]. exact HU.
Defined.

Lemma malloc_wraps_witness :
  exists p s' F', malloc 0x2000 sbrk1 (2 ^ 32 - 1) ust1 = Ok p s' /\ 0 < p /\
    arena 0x2000 s' F' [(p - HEADER, 1); (0xcf90, 14)].
Proof.
  exact (malloc_wraps 0x2000 sbrk1 ust1 [(0x5000, 4082)] [(0xcf90, 14)] (2 ^ 32 - 1) ust1_arena
    ltac:(discriminate) ltac:(lia)).
Defined.
