(* ===== verification/Sys.v ===== *)
(** The whole kernel's state: the file system, the page allocator and the
    memory, the open-file table, the pipes, and the variables of proc.c,
    trap.c and vm.c; how each component runs on its part of it; and how the
    kernel reaches the current process's memory. *)
From stdpp Require Import base numbers list strings gmap.
From S2P Require Import Prelude Params Spinlock Sched BlockIf Inode Kalloc Vm Pipe.

(** *** struct file (file.h); [f_pipe] is the address of the pipe's page and
    [f_ip] an index into the inode cache. *)
Inductive ftype := FD_NONE | FD_PIPE | FD_INODE.
#[export] Instance ftype_eq_dec : EqDecision ftype.
Proof. solve_decision. Defined.

Record file := File {
  f_type : ftype;
  f_ref : Z;
  f_readable : Z;
  f_writable : Z;
  f_pipe : Z;
  f_ip : nat;
  f_off : Z;
}.

Definition set_fref (r : Z) (f : file) : file :=
  File (f_type f) r (f_readable f) (f_writable f) (f_pipe f) (f_ip f) (f_off f).
Definition set_ftype (t : ftype) (f : file) : file :=
  File t (f_ref f) (f_readable f) (f_writable f) (f_pipe f) (f_ip f) (f_off f).
Definition set_foff (o : Z) (f : file) : file :=
  File (f_type f) (f_ref f) (f_readable f) (f_writable f) (f_pipe f) (f_ip f) o.

(** [kmem], the memory and the messages printed: [kst] without the CPU. *)
Record mem := Mem {
  m_lock : spinlock; m_use_lock : Z; m_freelist : Z; m_pages : gmap Z (list Z); m_out : list string;
}.

(** The variables of proc.c ([nextpid], [initproc], forkret's [first]), of
    trap.c ([ticks], [tickslock]) and vm.c ([kpgdir]), and the two page table
    registers. *)
Record vars := Vars {
  v_nextpid : Z; v_initproc : option nat; v_first : Z;
  v_ticks : Z; v_tickslock : spinlock;
  v_kpgdir : Z; v_pdtr : Z; v_ppdtr : Z;
}.

Section sys.
  Context {St : Type} {LO : LogOps St}.

Record sys := Sys {
    y_fs : fs St;
    y_mem : mem;
    ft_lock : spinlock; ft_files : list file;
    y_pipes : gmap Z pipe;
    y_vars : vars;
  }.

Definition set_files (l : list file) (s : sys) : sys :=
    Sys (y_fs s) (y_mem s) (ft_lock s) l (y_pipes s) (y_vars s).
Definition set_pipes (m : gmap Z pipe) (s : sys) : sys :=
    Sys (y_fs s) (y_mem s) (ft_lock s) (ft_files s) m (y_vars s).
Definition set_vars (v : vars) (s : sys) : sys :=
    Sys (y_fs s) (y_mem s) (ft_lock s) (ft_files s) (y_pipes s) v.

  (** *** The parts *)
#[export] Instance y_fs_l : Lens sys (fs St).
  Proof.
    refine {| lget := y_fs; lset t s := Sys t (y_mem s) (ft_lock s) (ft_files s) (y_pipes s) (y_vars s) |};
      [done|by intros []|done].
  Defined.

Definition fs_base (s : fs St) : base := lget (Lens := fs_base_l) s.
Definition put_base (b : base) (s : fs St) : fs St := lset (Lens := fs_base_l) b s.

Lemma fs_base_put b (s : fs St) : fs_base (put_base b s) = b.
  Proof. apply lget_lset. Qed.
Lemma put_base_get (s : fs St) : put_base (fs_base s) s = s.
  Proof. apply lset_lget. Qed.
Lemma put_base_put b b' (s : fs St) : put_base b (put_base b' s) = put_base b s.
  Proof. apply lset_lset. Qed.

Definition y_base (s : sys) : base := fs_base (y_fs s).
Definition set_base (b : base) (s : sys) : sys :=
    Sys (put_base b (y_fs s)) (y_mem s) (ft_lock s) (ft_files s) (y_pipes s) (y_vars s).

Definition y_base_l : Lens sys base.
  Proof.
    refine {| lget := y_base; lset := set_base |}; unfold y_base, set_base.
    - intros. apply fs_base_put.
    - intros []. simpl. by rewrite put_base_get.
    - intros. simpl. by rewrite put_base_put.
  Defined.

  (** A lock of the kernel with the CPU. *)
Definition with_cpu (c : cpu) (b : base) : base := Base c (b_lock b) (b_procs b).

Definition ft_lock_l : Lens sys (cpu * spinlock).
  Proof.
    refine {| lget s := (b_cpu (y_base s), ft_lock s);
              lset t s := Sys (put_base (with_cpu (fst t) (y_base s)) (y_fs s)) (y_mem s) (snd t)
                            (ft_files s) (y_pipes s) (y_vars s) |}; unfold y_base.
    - intros [c lk] s. simpl. by rewrite fs_base_put.
    - intros [f m lk fl pp v]. simpl. f_equal.
      transitivity (put_base (fs_base f) f); [by destruct (fs_base f)|apply put_base_get].
    - intros [c lk] [c' lk'] s. simpl. by rewrite put_base_put, fs_base_put.
  Defined.

Definition ticks_l : Lens sys (cpu * spinlock).
  Proof.
    refine {| lget s := (b_cpu (y_base s), v_tickslock (y_vars s));
              lset t s := let v := y_vars s in
                Sys (put_base (with_cpu (fst t) (y_base s)) (y_fs s)) (y_mem s) (ft_lock s) (ft_files s) (y_pipes s)
                  (Vars (v_nextpid v) (v_initproc v) (v_first v) (v_ticks v) (snd t) (v_kpgdir v) (v_pdtr v) (v_ppdtr v)) |};
      unfold y_base.
    - intros [c lk] s. simpl. by rewrite fs_base_put.
    - intros [f m lk fl pp []]. simpl. f_equal.
      transitivity (put_base (fs_base f) f); [by destruct (fs_base f)|apply put_base_get].
    - intros [c lk] [c' lk'] s. simpl. by rewrite put_base_put, fs_base_put.
  Defined.

Definition y_kst (s : sys) : kst :=
    let m := y_mem s in Kst (y_base s) (m_lock m) (m_use_lock m) (m_freelist m) (m_pages m) (m_out m).
Definition set_kst (k : kst) (s : sys) : sys :=
    Sys (put_base (k_base k) (y_fs s))
      (Mem (km_lock k) (km_use_lock k) (km_freelist k) (k_pages k) (k_out k))
      (ft_lock s) (ft_files s) (y_pipes s) (y_vars s).
Definition y_kst_l : Lens sys kst.
  Proof.
    refine {| lget := y_kst; lset := set_kst |}; unfold y_kst, set_kst, y_base.
    - intros [] s. simpl. by rewrite fs_base_put.
    - intros [f [] lk fl pp v]. simpl. by rewrite put_base_get.
    - intros [] [] s. simpl. by rewrite put_base_put.
  Defined.

Definition on_fs {A} (m : M (fs St) A) : M sys A := zoom (L := y_fs_l) m.
Definition on_base {A} (m : M base A) : M sys A := zoom (L := y_base_l) m.
Definition on_kst {A} (m : M kst A) : M sys A := zoom (L := y_kst_l) m.

  (** A pipe's operation runs on the pipe at its address, which must be there
      each time the process runs. *)
Definition put_pipe (a : Z) (t : pst) (s : sys) : sys :=
    set_pipes (<[a := pp t]> (y_pipes s)) (set_base (pp_base t) s).

Fixpoint opipe {A} (a : Z) (s : sys) (o : outcome pst A) : outcome sys A :=
    match o with
    | Ok r t => Ok r (put_pipe a t s)
    | Panic m => Panic m
    | Switch t k => Switch (put_pipe a t s) (fun s' =>
        match y_pipes s' !! a with
        | Some p => opipe a s' (k (Pst (y_base s') p))
        | None => Fault
        end)
    | Diverge => Diverge
    | Fault => Fault
    end.
Definition on_pipe {A} (a : Z) (m : M pst A) : M sys A := fun s =>
    match y_pipes s !! a with
    | Some p => opipe a s (m (Pst (y_base s) p))
    | None => Fault
    end.

  (** *** The current process *)
Definition cur : M sys nat := on_base myproc.
Definition curproc : M sys proc := on_base (i <- myproc ;; get_proc i).
Definition upd_cur (f : proc -> proc) : M sys unit := on_base (i <- myproc ;; upd_proc i f).

Definition set_ofile (l : list (option nat)) (p : proc) : proc :=
    Proc (p_sz p) (p_pgdir p) (p_kstack p) (p_state p) (p_pid p) (p_parent p) (p_tf p) (p_chan p)
      (p_killed p) l (p_cwd p) (p_name p).
Definition set_cwd (c : option nat) (p : proc) : proc :=
    Proc (p_sz p) (p_pgdir p) (p_kstack p) (p_state p) (p_pid p) (p_parent p) (p_tf p) (p_chan p)
      (p_killed p) (p_ofile p) c (p_name p).
Definition set_tf (t : trapframe) (p : proc) : proc :=
    Proc (p_sz p) (p_pgdir p) (p_kstack p) (p_state p) (p_pid p) (p_parent p) t (p_chan p)
      (p_killed p) (p_ofile p) (p_cwd p) (p_name p).
Definition set_sz (n : Z) (p : proc) : proc :=
    Proc n (p_pgdir p) (p_kstack p) (p_state p) (p_pid p) (p_parent p) (p_tf p) (p_chan p)
      (p_killed p) (p_ofile p) (p_cwd p) (p_name p).
Definition set_pgdir (d : Z) (p : proc) : proc :=
    Proc (p_sz p) d (p_kstack p) (p_state p) (p_pid p) (p_parent p) (p_tf p) (p_chan p)
      (p_killed p) (p_ofile p) (p_cwd p) (p_name p).
Definition set_kstack (k : Z) (p : proc) : proc :=
    Proc (p_sz p) (p_pgdir p) k (p_state p) (p_pid p) (p_parent p) (p_tf p) (p_chan p)
      (p_killed p) (p_ofile p) (p_cwd p) (p_name p).
Definition set_pid (n : Z) (p : proc) : proc :=
    Proc (p_sz p) (p_pgdir p) (p_kstack p) (p_state p) n (p_parent p) (p_tf p) (p_chan p)
      (p_killed p) (p_ofile p) (p_cwd p) (p_name p).
Definition set_parent (q : option nat) (p : proc) : proc :=
    Proc (p_sz p) (p_pgdir p) (p_kstack p) (p_state p) (p_pid p) q (p_tf p) (p_chan p)
      (p_killed p) (p_ofile p) (p_cwd p) (p_name p).
Definition set_pname (n : list Z) (p : proc) : proc :=
    Proc (p_sz p) (p_pgdir p) (p_kstack p) (p_state p) (p_pid p) (p_parent p) (p_tf p) (p_chan p)
      (p_killed p) (p_ofile p) (p_cwd p) n.

  (** *** The current address space

      An address is translated by the table the register holds, as the
      hardware does; an address without a valid entry is a page fault in the
      kernel. *)
Definition translate (pgdir va : Z) : M kst Z :=
    pte <- walkpgdir pgdir va false ;;
    if pte =? 0 then fault else
    e <- ldw pte ;;
    if Flag.has e PTE_V then ret (p2v (PTE_ADDR e)) else fault.

Definition space : M sys Z := gets (fun s => p2v (v_pdtr (y_vars s))).

Definition ldub (va : Z) : M sys Z :=
    pgdir <- space ;;
    page <- on_kst (translate pgdir va) ;;
    s <- get ;;
    p <- some (m_pages (y_mem s) !! page) ;;
    some (p !! page_off va).
Definition stub (va v : Z) : M sys unit :=
    pgdir <- space ;;
    page <- on_kst (translate pgdir va) ;;
    on_kst (store_bytes (page + va mod PGSIZE) [v]).

Fixpoint load (va : Z) (n : nat) : M sys (list Z) :=
    match n with
    | O => ret []
    | S n => c <- ldub va ;; l <- load (u32 (va + 1)) n ;; ret (c :: l)
    end.
Fixpoint store (va : Z) (l : list Z) : M sys unit :=
    match l with
    | [] => ret tt
    | c :: l => stub va c ;;; store (u32 (va + 1)) l
    end.
End sys.
Arguments sys St : clear implicits.

(** ** Running on the parts *)
Create Rewrite HintDb sys.
Section runs.
  Context {St : Type} {LO : LogOps St}.
  Implicit Types (s : sys St).

Lemma y_base_set b s : y_base (set_base b s) = b.
  Proof. apply fs_base_put. Qed.
Lemma set_base_set b b' s : set_base b (set_base b' s) = set_base b s.
  Proof. unfold set_base. simpl. by rewrite put_base_put. Qed.
Lemma set_base_id s : set_base (y_base s) s = s.
  Proof. destruct s. unfold set_base, y_base. simpl. by rewrite put_base_get. Qed.
Lemma set_base_same b s : b = y_base s -> set_base b s = s.
  Proof. intros ->. apply set_base_id. Qed.

Lemma on_base_ok {A} (m : M base A) s a b : m (y_base s) = Ok a b -> on_base m s = Ok a (set_base b s).
  Proof. intros Hm. unfold on_base. by erewrite zoom_ok by exact Hm. Qed.
Lemma on_base_same {A} (m : M base A) s a : m (y_base s) = Ok a (y_base s) -> on_base m s = Ok a s.
  Proof. intros Hm. rewrite (on_base_ok _ _ _ _ Hm). by rewrite set_base_id. Qed.
Lemma on_kst_ok {A} (m : M kst A) s a k : m (y_kst s) = Ok a k -> on_kst m s = Ok a (set_kst k s).
  Proof. intros Hm. unfold on_kst. by erewrite zoom_ok by exact Hm. Qed.
Lemma set_kst_id s : set_kst (y_kst s) s = s.
  Proof. destruct s as [? [] ? ? ? ?]. unfold set_kst, y_kst, y_base. simpl. by rewrite put_base_get. Qed.

  (** The process table, the rest of the base as it is. *)
Definition set_procs (ps : list proc) s : sys St :=
    set_base (Base (b_cpu (y_base s)) (b_lock (y_base s)) ps) s.

Lemma y_base_procs ps s : y_base (set_procs ps s) = Base (b_cpu (y_base s)) (b_lock (y_base s)) ps.
  Proof. apply y_base_set. Qed.
Lemma set_procs_set ps ps' s : set_procs ps (set_procs ps' s) = set_procs ps s.
  Proof. unfold set_procs. rewrite y_base_set. by rewrite set_base_set. Qed.
Lemma set_procs_id s : set_procs (b_procs (y_base s)) s = s.
  Proof. apply set_base_same. by destruct (y_base s). Qed.

Lemma upd_proc_run i f s : on_base (upd_proc i f) s = Ok tt (set_procs (alter f i (b_procs (y_base s))) s).
  Proof. by erewrite on_base_ok by reflexivity. Qed.

  Context (i : nat) (p : proc).
Record current s : Prop := {
    cu_cpu : cproc (b_cpu (y_base s)) = Some i;
    cu_proc : b_procs (y_base s) !! i = Some p;
  }.

Lemma myproc_run s : current s -> myproc (y_base s) = Ok i (y_base s).
  Proof. intros [Hc _]. unfold myproc. erewrite bind_ok by reflexivity. by rewrite Hc. Qed.
Lemma cur_run s : current s -> cur s = Ok i s.
  Proof. intros H. apply on_base_same. by apply myproc_run. Qed.
Lemma curproc_run s : current s -> curproc s = Ok p s.
  Proof.
    intros H. apply on_base_same. rewrite (bind_ok _ _ _ _ _ (myproc_run s H)).
    unfold get_proc. erewrite bind_ok by reflexivity. by rewrite (cu_proc _ H).
  Qed.
Lemma upd_cur_run f s : current s -> upd_cur f s = Ok tt (set_procs (<[i := f p]> (b_procs (y_base s))) s).
  Proof.
    intros H. unfold upd_cur. erewrite on_base_ok.
    2:{ rewrite (bind_ok _ _ _ _ _ (myproc_run s H)). reflexivity. }
    unfold set_procs. do 3 f_equal. apply list_eq. intros j. destruct (decide (j = i)) as [-> | Hne].
    - rewrite list_lookup_alter_eq, list_lookup_insert_eq, (cu_proc _ H); [done|].
      eapply lookup_lt_Some, (cu_proc _ H).
    - by rewrite list_lookup_alter_ne, list_lookup_insert_ne.
  Qed.
End runs.
#[export] Hint Rewrite @y_base_set @set_base_set @y_base_procs @set_procs_set @set_procs_id : sys.
