(* ===== verification/File.v ===== *)
(** Open files: file.c, and the two operations of pipe.c that involve the
    file table and the page allocator (pipealloc, and pipeclose when the last
    end goes away). *)
From stdpp Require Import base numbers list strings sets gmap.
From S2P Require Import Prelude Params Spinlock Sched Bio Cache BlockIf Log Crash Trans Inode FileData Kalloc Vm Pipe Sys.

Section file.
  Context {St : Type} {LO : LogOps St} (devsw : Z -> @devops St) (kend : Z).
  Implicit Types (s : sys St).

Definition getf (f : nat) : M (sys St) file := s <- get ;; some (ft_files s !! f).
Definition updf (f : nat) (g : file -> file) : M (sys St) unit :=
    modify (fun s => set_files (alter g f (ft_files s)) s).

  (** Calls of log.c and fs.c. *)
Definition begin_tr : M (sys St) unit := on_fs (zoom (L := fs_log_l) lo_begin).
Definition commit_tr : M (sys St) unit := on_fs (zoom (L := fs_log_l) lo_commit).

  (** *** fileinit *)
Definition fileinit : M (sys St) unit :=
    modify (fun s => Sys (y_fs s) (y_mem s) (initlock "ftable" (ft_lock s)) (ft_files s) (y_pipes s) (y_vars s)).

  (** *** filealloc: the first file nobody refers to *)
Fixpoint find_file (l : list file) : option nat :=
    match l with
    | [] => None
    | f :: l => if f_ref f =? 0 then Some 0%nat else S <$> find_file l
    end.

Definition filealloc : M (sys St) (option nat) :=
    zoom (L := ft_lock_l) acquire ;;;
    s <- get ;;
    match find_file (ft_files s) with
    | Some f =>
        updf f (set_fref 1) ;;;
        zoom (L := ft_lock_l) release ;;;
        ret (Some f)
    | None =>
        zoom (L := ft_lock_l) release ;;;
        ret None
    end.

  (** *** filedup *)
Definition filedup (f : nat) : M (sys St) nat :=
    zoom (L := ft_lock_l) acquire ;;;
    ff <- getf f ;;
    if f_ref ff <? 1 then panic "filedup" else
    updf f (fun ff => set_fref (f_ref ff + 1) ff) ;;;
    zoom (L := ft_lock_l) release ;;;
    ret f.

  (** *** pipeclose with the freeing of the page. The page's contents are
      written over by [kfree], and the pipe is gone. *)
Definition pipeclose_free (a : Z) (writable : Z) : M (sys St) unit :=
    last <- on_pipe a (pipeclose (Z.to_nat a) writable) ;;
    if last then
      modify (fun s => set_pipes (delete a (y_pipes s)) s) ;;;
      on_kst (kfree kend a)
    else ret tt.

  (** *** fileclose *)
Definition fileclose (f : nat) : M (sys St) unit :=
    zoom (L := ft_lock_l) acquire ;;;
    ff <- getf f ;;
    if f_ref ff <? 1 then panic "fileclose" else
    updf f (fun ff => set_fref (f_ref ff - 1) ff) ;;;
    ff <- getf f ;;
    if f_ref ff >? 0 then zoom (L := ft_lock_l) release else
    updf f (fun ff => set_ftype FD_NONE (set_fref 0 ff)) ;;;
    zoom (L := ft_lock_l) release ;;;
    match f_type ff with
    | FD_PIPE => pipeclose_free (f_pipe ff) (f_writable ff)
    | FD_INODE => begin_tr ;;; on_fs (iput (f_ip ff)) ;;; commit_tr
    | FD_NONE => ret tt
    end.

  (** *** filestat *)
Definition filestat (f : nat) : M (sys St) (option stat) :=
    ff <- getf f ;;
    match f_type ff with
    | FD_INODE =>
        on_fs (ilock (f_ip ff)) ;;;
        st <- on_fs (stati (f_ip ff)) ;;
        on_fs (iunlock (f_ip ff)) ;;;
        ret (Some st)
    | _ => ret None
    end.

  (** *** fileread: the result and the bytes put at [addr] *)
Definition fileread (f : nat) (n : Z) : M (sys St) (Z * list Z) :=
    ff <- getf f ;;
    if f_readable ff =? 0 then ret (-1, []) else
    match f_type ff with
    | FD_PIPE => on_pipe (f_pipe ff) (piperead (Z.to_nat (f_pipe ff)) n)
    | FD_INODE =>
        on_fs (ilock (f_ip ff)) ;;;
        ff <- getf f ;;
        r <- on_fs (readi devsw (f_ip ff) (f_off ff) (u32 n)) ;;
        (if fst r >? 0 then updf f (fun ff => set_foff (u32 (f_off ff + fst r)) ff) else ret tt) ;;;
        on_fs (iunlock (f_ip ff)) ;;;
        ret r
    | FD_NONE => panic "fileread"
    end.

  (** *** filewrite *)
Definition FILE_MAX : Z := ((Z.of_nat LOGSIZE - 1 - 1 - 2) / 2) * 512.

  (** One transaction's worth. *)
Definition write_chunk (f : nat) (src : list Z) (n1 : Z) : M (sys St) Z :=
    begin_tr ;;;
    ff <- getf f ;;
    on_fs (ilock (f_ip ff)) ;;;
    ff <- getf f ;;
    r <- on_fs (writei devsw (f_ip ff) src (f_off ff) (u32 n1)) ;;
    (if r >? 0 then updf f (fun ff => set_foff (u32 (f_off ff + r)) ff) else ret tt) ;;;
    on_fs (iunlock (f_ip ff)) ;;;
    commit_tr ;;;
    ret r.

Fixpoint filewrite_loop (fuel : nat) (f : nat) (addr : list Z) (i n : Z) : M (sys St) Z :=
    match fuel with
    | O => diverge
    | S fuel =>
        if negb (i <? n) then ret i else
        let n1 := if n - i >? FILE_MAX then FILE_MAX else n - i in
        r <- write_chunk f (take (Z.to_nat n1) (drop (Z.to_nat i) addr)) n1 ;;
        if r <? 0 then ret i else
        if negb (r =? n1) then panic "short filewrite" else
        filewrite_loop fuel f addr (i + r) n
    end.

Definition filewrite (f : nat) (addr : list Z) (n : Z) : M (sys St) Z :=
    ff <- getf f ;;
    if f_writable ff =? 0 then ret (-1) else
    match f_type ff with
    | FD_PIPE => on_pipe (f_pipe ff) (pipewrite (Z.to_nat (f_pipe ff)) addr n)
    | FD_INODE =>
        i <- filewrite_loop (S (Z.to_nat n)) f addr 0 n ;;
        ret (if i =? n then n else -1)
    | FD_NONE => panic "filewrite"
    end.

  (** *** pipealloc. The pipe takes over the page; [data] and the lock's
      [pcs] start with what the page holds. *)
Definition pipe_in (page : list Z) : pipe :=
    pipeinit (Pipe (Spinlock 0 "" None ((fun k => get32 (12 + 4 * k) page) <$> seq 0 10))
                   (slice 52 (Z.to_nat PIPESIZE) page) 0 0 0 0).

Definition pipe_end (a readable writable : Z) (ff : file) : file :=
    File FD_PIPE (f_ref ff) readable writable a (f_ip ff) (f_off ff).

Definition pipealloc : M (sys St) (option (nat * nat)) :=
    f0 <- filealloc ;;
    match f0 with
    | None => ret None
    | Some f0 =>
        f1 <- filealloc ;;
        match f1 with
        | None => fileclose f0 ;;; ret None
        | Some f1 =>
            p <- on_kst kalloc ;;
            if p =? 0 then fileclose f0 ;;; fileclose f1 ;;; ret None else
            s <- get ;;
            page <- some (m_pages (y_mem s) !! p) ;;
            modify (fun s => set_pipes (<[p := pipe_in page]> (y_pipes s)) s) ;;;
            updf f0 (pipe_end p 1 0) ;;;
            updf f1 (pipe_end p 0 1) ;;;
            ret (Some (f0, f1))
        end
    end.
End file.

(** ** Reading and writing an inode through an open file *)

(** What an operation on the file system leaves alone. *)
Definition same_rest {St} (s s' : sys St) : Prop :=
  y_mem s' = y_mem s /\ ft_lock s' = ft_lock s /\ y_pipes s' = y_pipes s /\ y_vars s' = y_vars s.

#[export] Instance same_rest_preorder {St} : PreOrder (@same_rest St).
Proof. split; [by intros ?|]. intros x y z (?&?&?&?) (?&?&?&?). unfold same_rest. intuition congruence. Qed.

Lemma set_foff_id ff : set_foff (f_off ff) ff = ff.
Proof. by destruct ff. Qed.

(** Locking and unlocking gives back the inode. *)
Definition unlocked_ip (ip : inode) : inode := set_iflags (Z.land (i_flags ip) (Z.lnot I_BUSY)) ip.

Lemma unlock_lock V ip :
  i_flags ip = I_VALID -> locked_ip V ip = set_iflags 3 ip /\ unlocked_ip (set_iflags 3 ip) = ip.
Proof.
  destruct ip as [? ? ? fl ? ? ? ? ? ?]. cbn [i_flags]. intros ->. split; reflexivity.
Qed.

Lemma mapped_flags V ip home lim fl : mapped V ip home lim -> mapped V (set_iflags fl ip) home lim.
Proof. intros [M1 M2 M3 M4 M5 M6]. by split. Qed.
Lemma apart_flags V ip lim fl : apart V ip lim -> apart V (set_iflags fl ip) lim.
Proof. done. Qed.

Section rw.
  Context {St : Type} {LO : LogOps St} {TL : TransLaws St} (devsw : Z -> @devops St) (cap : nat).
  Implicit Types (s : sys St).

Definition idle s (V : Z -> list Z) : Prop := fs_rel (LL := tl_read cap) (y_fs s) V ∅ [].
Definition opened s (V : Z -> list Z) (L : list Z) : Prop := fs_rel (LL := tl_open) (y_fs s) V ∅ L.
Definition home s : Z := ll_home (LogLaws := tl_open) (fs_log (y_fs s)).

  (** An inode in the cache, valid and not locked, whose first [lim] bytes
      have their blocks; a transaction has room for five sectors. *)
Record ino_ok s (V : Z -> list Z) (i : nat) (ip : inode) (lim : Z) : Prop := {
    ino_idle : idle s V;
    ino_ip : ic_inodes (y_fs s) !! i = Some ip;
    ino_ref : 1 <= i_ref ip;
    ino_flags : i_flags ip = I_VALID;
    ino_dev : i_dev ip = 1;
    ino_type : i_type ip <> T_DEV;
    ino_map : mapped V ip (home s) lim;
    ino_apart : apart V ip lim;
    ino_blk : 0 <= IBLOCK (i_inum ip) < home s /\ IBLOCK (i_inum ip) < 2 ^ 32 /\ IBLOCK (i_inum ip) <> 1;
    ino_data : forall bn, 0 <= bn -> bn * BSIZE < lim -> blockof V ip bn <> 1;
    ino_size : 0 <= i_size ip <= lim;
    ino_room : (5 <= cap)%nat /\ 1 < home s;
  }.

Lemma ino_ok_keep s s' V i ip lim :
    ino_ok s V i ip lim -> idle s' V -> ic_inodes (y_fs s') = ic_inodes (y_fs s) -> home s' = home s ->
    ino_ok s' V i ip lim.
  Proof. intros [] R Hi Hh. split; rewrite ?Hi, ?Hh; done. Qed.

Lemma wp_on_fs {A} (m : M (fs St) A) (P : A -> fs St -> Prop) (Q : A -> sys St -> Prop) s :
    wp m P (y_fs s) -> (forall a t, P a t -> Q a (Sys t (y_mem s) (ft_lock s) (ft_files s) (y_pipes s) (y_vars s))) ->
    wp (on_fs m) Q s.
  Proof. intros Hm HQ. eapply (wp_zoom_call (L := y_fs_l)); [exact Hm|exact HQ]. Qed.

Lemma wp_getf f ff (Q : file -> sys St -> Prop) s : ft_files s !! f = Some ff -> Q ff s -> wp (getf f) Q s.
  Proof. intros Hf HQ. eapply outcome_wp; [|exact HQ]. unfold getf. erewrite bind_ok by reflexivity. by rewrite Hf. Qed.

  (** The offset moves on by what was transferred. *)
Lemma wp_advance f ff k (Q : unit -> sys St -> Prop) s :
    ft_files s !! f = Some ff -> 0 <= k -> is_u32 (f_off ff) -> is_u32 (f_off ff + k) ->
    Q tt (set_files (<[f := set_foff (f_off ff + k) ff]> (ft_files s)) s) ->
    wp (if k >? 0 then updf f (fun ff => set_foff (u32 (f_off ff + k)) ff) else ret tt) Q s.
  Proof.
    intros Hf Hk Ho Hok HQ. destruct (Z.gtb_spec k 0).
    - apply wp_modify. rewrite (alter_ext_at _ (fun _ => set_foff (f_off ff + k) ff) _ _ ff Hf)
        by (by rewrite u32_id).
      replace (alter (fun _ => set_foff (f_off ff + k) ff) f (ft_files s))
        with (<[f := set_foff (f_off ff + k) ff]> (ft_files s)); [done|].
      apply list_eq. intros j. destruct (decide (j = f)) as [-> | Hne].
      + rewrite list_lookup_insert_eq, list_lookup_alter_eq, Hf; [done|]. by eapply lookup_lt_Some.
      + by rewrite list_lookup_insert_ne, list_lookup_alter_ne.
    - apply wp_ret. replace k with 0 in * by lia. rewrite Z.add_0_r, set_foff_id, list_insert_id in HQ by done.
      by destruct s.
  Qed.

  (** Unlocking after the transfer, in either kind of state. *)
Lemma iunlock_back (LL : LogLaws St) s V L i ip (l : list inode) :
    fs_rel (LL := LL) (y_fs s) V ∅ L -> i_flags ip = I_VALID -> 1 <= i_ref ip -> l !! i = Some ip ->
    ic_inodes (y_fs s) = <[i := set_iflags 3 ip]> l ->
    wp (on_fs (iunlock i)) (fun _ s' => fs_rel (LL := LL) (y_fs s') V ∅ L /\ fs_stay (LL := LL) (y_fs s) (y_fs s') /\
      ic_inodes (y_fs s') = l /\ ft_files s' = ft_files s /\ same_rest s s') s.
  Proof.
    intros R Hfl Href Hl HI. destruct (unlock_lock V ip Hfl) as [_ Eu]. pose proof (lookup_lt_Some _ _ _ Hl) as Hlt.
    eapply wp_on_fs; [apply (iunlock_run (LL := LL) _ V ∅ L _ (set_iflags 3 ip) R); [|done|done]|].
    { by rewrite HI, list_lookup_insert_eq. }
    intros [] t (R3 & S3 & I3). cbn [y_fs ft_files]. split_and!; try done.
    rewrite I3, HI. rewrite (alter_insert _ _ _ (set_iflags 3 ip)) by (by rewrite list_lookup_insert_eq).
    rewrite list_insert_insert_eq. fold (unlocked_ip (set_iflags 3 ip)). by rewrite Eu, list_insert_id.
  Qed.

Lemma fileread_run s V i ip lim f ff n :
    ino_ok s V i ip lim -> ft_files s !! f = Some ff -> f_type ff = FD_INODE -> f_ip ff = i ->
    f_readable ff <> 0 -> 0 <= f_off ff <= i_size ip -> f_off ff + u32 n < 2 ^ 32 ->
    let k := Z.min (u32 n) (i_size ip - f_off ff) in
    wp (fileread devsw f n) (fun r s' => r = (k, file_bytes V ip (f_off ff) (Z.to_nat k)) /\
      ino_ok s' V i ip lim /\ ft_files s' = <[f := set_foff (f_off ff + k) ff]> (ft_files s) /\
      ic_inodes (y_fs s') = ic_inodes (y_fs s) /\ same_rest s s') s.
  Proof.
    intros HI Hf Hft <- Hrd Hoff Hn k. pose proof (u32_range n) as Hu. unfold is_u32 in Hu. pose proof HI as [R Hi Href Hfl Hdev Hty Hm Ha Hblk Hdata Hsz Hroom].
    pose proof (mp_max _ _ _ _ Hm) as Hmax. change (MAXFILE * BSIZE) with 71680 in Hmax.
    destruct (unlock_lock V ip Hfl) as [El _]. pose proof (lookup_lt_Some _ _ _ Hi) as Hlt.
    unfold home in Hm. rewrite (tl_home cap) in Hm.
    unfold fileread. apply wp_bind. eapply wp_getf; [exact Hf|].
    destruct (f_readable ff =? 0) eqn:E0; [lia|]. rewrite Hft. apply wp_bind.
    eapply wp_on_fs; [apply (ilock_run (LL := tl_read cap) _ V ∅ [] _ ip R Hi Href); by rewrite Hfl|].
    intros [] t (R1 & S1 & I1). rewrite El in I1. apply wp_bind. eapply wp_getf; [exact Hf|]. apply wp_bind.
    eapply wp_on_fs.
    { cbn [y_fs]. eapply (readi_run (LL := tl_read cap) devsw t V [] (f_ip ff) (set_iflags 3 ip) (f_off ff) (u32 n) R1); try done; try lia.
      - by rewrite I1, list_lookup_insert_eq.
      - destruct S1 as (-> & _). eapply mapped_mono; [|apply mapped_flags, Hm]. simpl. lia.
      - simpl. unfold NBUF. lia. }
    intros ? t2 (-> & R2 & S2 & I2). cbn [fst i_size set_iflags]. fold k.
    apply wp_bind. apply (wp_advance f ff); [exact Hf|lia|unfold is_u32; lia|unfold is_u32; lia|].
    apply wp_bind. wp_call (iunlock_back (tl_read cap) _ V [] (f_ip ff) ip (ic_inodes (y_fs s))); try done.
    { cbn [y_fs set_files]. by rewrite I2. }
    intros [] s' (R3 & S3 & I3 & F3 & K3). apply wp_ret. split_and!; try done.
    - eapply ino_ok_keep; [exact HI|done|done|]. unfold home. rewrite !(tl_home cap).
      destruct S1 as (H1 & _), S2 as (H2 & _), S3 as (H3 & _). cbn [y_fs set_files] in *. congruence.
  Qed.

  (** *** Transactions *)
Definition room s : nat := ll_room (LogLaws := tl_open) (fs_log (y_fs s)).

Lemma begin_tr_run s V :
    idle s V ->
    wp begin_tr (fun _ s' => opened s' V [] /\ room s' = cap /\ home s' = home s /\
      ic_inodes (y_fs s') = ic_inodes (y_fs s) /\ ft_files s' = ft_files s /\ same_rest s s' /\
      calm (y_base s) (y_base s')) s.
  Proof.
    intros [R Hl]. unfold begin_tr. apply (wp_on_fs _ (fun _ t =>
      fs_rel (LL := tl_open) t V ∅ [] /\ ll_room (LogLaws := tl_open) (fs_log t) = cap /\
      ll_home (LogLaws := tl_open) (fs_log t) = home s /\ ic_inodes t = ic_inodes (y_fs s) /\
      calm (y_base s) (fs_base t))).
    { eapply (wp_zoom_call (L := fs_log_l)); [by apply (tl_begin cap)|].
      intros [] t (R' & Hr & Hh & C). split_and!; [done|done|done|done|exact C]. }
    intros [] t (R' & Hr & Hh & HI & C). split_and!; [done..|exact C].
  Qed.

Lemma commit_tr_run s V L :
    opened s V L -> room s = cap -> 1 < home s -> 1 ∉ L ->
    wp commit_tr (fun _ s' => idle s' V /\ home s' = home s /\
      ic_inodes (y_fs s') = ic_inodes (y_fs s) /\ ft_files s' = ft_files s /\ same_rest s s' /\
      calm (y_base s) (y_base s')) s.
  Proof.
    intros [R Hl] Hr Hh HL. unfold commit_tr. apply (wp_on_fs _ (fun _ t =>
      fs_rel (LL := tl_read cap) t V ∅ [] /\
      ll_home (LogLaws := tl_open) (fs_log t) = home s /\ ic_inodes t = ic_inodes (y_fs s) /\
      calm (y_base s) (fs_base t))).
    { eapply (wp_zoom_call (L := fs_log_l)); [by apply (tl_commit _ V L)|].
      intros [] t (R' & Hh' & C). unfold room in Hr. cbn [lget fs_log_l] in R'. rewrite Hr in R'. split_and!; [done|done|done|exact C]. }
    intros [] t (R' & Hh' & HI & C). split_and!; [done..|exact C].
  Qed.

  (** *** One chunk *)
Lemma touched_max off n : 0 <= off -> 0 <= n <= FILE_MAX -> 0 <= touched off n <= 4.
  Proof.
    intros Ho Hn. change FILE_MAX with 1536 in Hn. unfold touched. change BSIZE with 512.
    pose proof (Z.mod_pos_bound off 512 ltac:(lia)). destruct (n =? 0); [lia|].
    split; [apply Z.div_pos; lia|]. assert ((off mod 512 + n + 511) / 512 < 5); [|lia].
    apply Z.div_lt_upper_bound; lia.
  Qed.

  (** The contents after writing [src] at [off]. *)
Definition overwritten (V V' : Z -> list Z) (ip ip' : inode) (lim off : Z) (src : list Z) : Prop :=
    forall j, 0 <= j < lim -> file_byte V' ip' j =
      if decide (off <= j < off + Z.of_nat (length src)) then default 0 (src !! Z.to_nat (j - off)) else file_byte V ip j.

Lemma written_same ip off n :
    i_dev (written_size ip off n) = i_dev ip /\ i_inum (written_size ip off n) = i_inum ip /\
    i_ref (written_size ip off n) = i_ref ip /\ i_flags (written_size ip off n) = i_flags ip /\
    i_type (written_size ip off n) = i_type ip /\ i_addrs (written_size ip off n) = i_addrs ip.
  Proof. unfold written_size. by destruct (_ && _). Qed.

Lemma written_flags ip off n fl : written_size (set_iflags fl ip) off n = set_iflags fl (written_size ip off n).
  Proof. unfold written_size. cbn [i_size set_iflags]. by destruct (_ && _). Qed.

Lemma write_chunk_run s V i ip lim f ff n src :
    ino_ok s V i ip lim -> ft_files s !! f = Some ff -> f_ip ff = i ->
    0 <= f_off ff <= i_size ip -> 0 <= n <= FILE_MAX -> f_off ff + n <= lim -> length src = Z.to_nat n ->
    wp (write_chunk devsw f src n) (fun r s' => r = n /\ exists V', let ip' := written_size ip (f_off ff) n in
      ino_ok s' V' i ip' lim /\ overwritten V V' ip ip' lim (f_off ff) src /\
      ft_files s' = <[f := set_foff (f_off ff + n) ff]> (ft_files s) /\
      ic_inodes (y_fs s') = <[i := ip']> (ic_inodes (y_fs s)) /\ same_rest s s') s.
  Proof.
    intros HI Hf <- Hoff Hn Hlim Hsrc. pose proof HI as [R Hi Href Hfl Hdev Hty Hm Ha Hblk Hdata Hsz Hroom].
    pose proof (mp_max _ _ _ _ Hm) as Hmax. change (MAXFILE * BSIZE) with 71680 in Hmax.
    destruct (unlock_lock V ip Hfl) as [El _]. pose proof (lookup_lt_Some _ _ _ Hi) as Hlt.
    pose proof (touched_max (f_off ff) n ltac:(lia) Hn) as Ht. change FILE_MAX with 1536 in Hn.
    unfold write_chunk. apply wp_bind. wp_call (begin_tr_run s V R).
    intros [] s1 (R1 & Hr1 & Hh1 & I1 & F1 & K1 & _). apply wp_bind. eapply wp_getf; [by rewrite F1|].
    apply wp_bind. rewrite <- I1 in Hi, Hlt.
    eapply wp_on_fs; [apply (ilock_run (LL := tl_open) _ V ∅ [] _ ip R1 Hi Href); by rewrite Hfl|].
    intros [] t (R2 & (Hh2 & Hr2 & _) & I2). rewrite El in I2. apply wp_bind.
    eapply wp_getf; [cbn [ft_files]; by rewrite F1|]. apply wp_bind.
    eapply wp_on_fs.
    { cbn [y_fs]. rewrite (u32_id n) by (unfold is_u32; lia).
      eapply (writei_run (LL := tl_open) devsw t V [] (f_ip ff) (set_iflags 3 ip) (f_off ff) n src lim R2);
        rewrite ?Hh2, ?Hr2; fold (home s1) (room s1); rewrite ?Hh1, ?Hr1; try done; try apply Hblk;
        cbn [length]; unfold NBUF; try lia.
      - by rewrite I2, list_lookup_insert_eq.
      - by apply mapped_flags. }
    intros ? t2 (-> & V' & L' & R3 & (Hh3 & Hr3 & _) & I3 & M3 & F3 & O3 & HL3 & W3).
    rewrite written_flags in *. set (ip' := written_size ip (f_off ff) n) in *.
    destruct (written_same ip (f_off ff) n) as (D1 & D2 & D3 & D4 & D5 & D6). fold ip' in D1, D2, D3, D4, D5, D6.
    apply wp_bind. apply (wp_advance f ff); [cbn [ft_files]; by rewrite F1|lia|unfold is_u32; lia|unfold is_u32; lia|].
    cbn [y_fs ft_files]. apply wp_bind.
    wp_call (iunlock_back tl_open _ V' L' (f_ip ff) ip' (<[f_ip ff := ip']> (ic_inodes (y_fs s)))); try done.
    { congruence. }
    { by rewrite D3. }
    { rewrite list_lookup_insert_eq; [done|]. by rewrite <- I1. }
    { cbn [y_fs set_files]. rewrite I3, I2, I1. by rewrite !list_insert_insert_eq. }
    intros [] s4 (R4 & (Hh4 & Hr4 & _) & I4 & F4 & K4). apply wp_bind. cbn [y_fs set_files] in Hh4, Hr4.
    assert (Hb : forall bn, 0 <= bn -> bn * BSIZE < lim -> blockof V' ip' bn = blockof V ip bn).
    { intros bn Hb1 Hb2. unfold blockof, addr_of. rewrite D6. destruct (bn <? NDIRECT) eqn:E; [done|].
      fold (addr_of ip 12). rewrite O3; [done|apply Ha|]. intros b Hb3 Hb4. apply not_eq_sym.
      apply (mp_data _ _ _ _ Hm); [done|done|]. change NDIRECT with 12 in *. change BSIZE with 512 in *. lia. }
    assert (Hh : home s4 = home s) by (unfold home in *; congruence).
    wp_call (commit_tr_run s4 V' L'); try done.
    { unfold room in *. congruence. }
    { rewrite Hh. apply Hroom. }
    { intros [Hx|[Hx|(bn & Hb1 & Hb2 & Hx)]]%W3; [by apply elem_of_nil in Hx|cbn in Hx; lia|].
      by apply (Hdata bn Hb1 Hb2). }
    intros [] s5 (R5 & Hh5 & I5 & F5 & K5 & _). apply wp_ret. split; [done|]. exists V'. cbv zeta. fold ip'.
    split_and!.
    - split; rewrite ?I5, ?Hh5, ?Hh, ?D1, ?D2, ?D3, ?D4, ?D5; try done.
      + rewrite I4, list_lookup_insert_eq; [done|]. by rewrite <- I1.
      + rewrite Hh2 in M3. fold (home s1) in M3. rewrite Hh1 in M3. by destruct M3.
      + destruct Ha as [A1 A2]. split; rewrite ?D2.
        * intros bn Hb1 Hb2. rewrite Hb by done. by apply A1.
        * unfold addr_of. by rewrite D6.
      + intros bn Hb1 Hb2. rewrite Hb by done. by apply Hdata.
      + unfold ip', written_size. destruct ((n >? 0) && (f_off ff + n >? i_size ip)) eqn:E; simpl; lia.
    - intros j Hj. specialize (F3 j Hj). rewrite Hsrc, Z2Nat.id by lia. exact F3.
    - rewrite F5, F4. cbn [ft_files set_files]. by rewrite F1.
    - by rewrite I5, I4.
    - transitivity s1; [done|]. transitivity s4; [|done].
      destruct K4 as (? & ? & ? & ?). by split_and!.
  Qed.
  (** *** The whole write *)
Lemma written_twice ip off n m :
    0 <= n -> 0 <= m -> off <= i_size ip ->
    written_size (written_size ip off n) (off + n) m = written_size ip off (n + m).
  Proof.
    intros Hn Hm Ho. destruct ip as [? ? ? ? ? ? ? ? sz ?]. unfold written_size. cbn [i_size] in *.
    destruct ((n >? 0) && (off + n >? sz)) eqn:E1; cbn [i_size set_isize];
      destruct ((m >? 0) && _) eqn:E2; destruct ((n + m >? 0) && _) eqn:E3;
      unfold set_isize; cbn [i_size]; try (f_equal; lia); exfalso; lia.
  Qed.

Lemma overwritten_app V V1 V2 ip ip1 ip2 lim off x y :
    overwritten V V1 ip ip1 lim off x -> overwritten V1 V2 ip1 ip2 lim (off + Z.of_nat (length x)) y ->
    overwritten V V2 ip ip2 lim off (x ++ y).
  Proof.
    intros H1 H2 j Hj. rewrite (H2 j Hj), (H1 j Hj), length_app. repeat case_decide; try lia; try done.
    - rewrite lookup_app_r by lia. do 2 f_equal. lia.
    - by rewrite lookup_app_l by lia.
  Qed.

Lemma filewrite_loop_run f i addr n lim : forall fuel s V ip ff k,
    ino_ok s V i ip lim -> ft_files s !! f = Some ff -> f_ip ff = i ->
    0 <= f_off ff <= i_size ip -> 0 <= k <= n -> f_off ff + (n - k) <= lim -> length addr = Z.to_nat n ->
    n - k < Z.of_nat fuel ->
    wp (filewrite_loop devsw fuel f addr k n) (fun r s' => r = n /\ exists V',
      let ip' := written_size ip (f_off ff) (n - k) in
      ino_ok s' V' i ip' lim /\ overwritten V V' ip ip' lim (f_off ff) (drop (Z.to_nat k) addr) /\
      ft_files s' = <[f := set_foff (f_off ff + (n - k)) ff]> (ft_files s) /\
      ic_inodes (y_fs s') = <[i := ip']> (ic_inodes (y_fs s)) /\ same_rest s s') s.
  Proof.
    induction fuel as [|fuel IH]; intros s V ip ff k HI Hf Hfi Hoff Hk Hlim Hlen Hfuel; [lia|].
    cbn [filewrite_loop]. destruct (Z.ltb_spec k n) as [Hlt|Hge]; cbn [negb].
    2:{ apply wp_ret. assert (k = n) as -> by lia. split; [done|]. exists V. cbv zeta.
        replace (n - n) with 0 by lia. rewrite Z.add_0_r, set_foff_id, list_insert_id by done.
        replace (written_size ip (f_off ff) 0) with ip by done. rewrite list_insert_id by apply HI.
        split_and!; try done. intros j Hj. rewrite drop_ge by lia. cbn [length]. by rewrite decide_False by lia. }
    set (n1 := if n - k >? FILE_MAX then FILE_MAX else n - k).
    assert (Hn1 : 0 < n1 <= FILE_MAX /\ n1 <= n - k)
      by (unfold n1; change FILE_MAX with 1536; destruct (Z.gtb_spec (n - k) 1536); lia).
    set (x := take (Z.to_nat n1) (drop (Z.to_nat k) addr)).
    assert (Hx : length x = Z.to_nat n1) by (unfold x; rewrite length_take, length_drop; lia).
    apply wp_bind. wp_call (write_chunk_run s V i ip lim f ff n1 x HI Hf Hfi Hoff); [lia|lia|done|].
    intros ? s1 (-> & V1 & HI1 & O1 & F1 & I1 & K1). destruct (Z.ltb_spec n1 0); [lia|].
    rewrite Z.eqb_refl. cbn [negb]. set (ip1 := written_size ip (f_off ff) n1) in *.
    pose proof (lookup_lt_Some _ _ _ Hf) as Hfl.
    wp_call (IH s1 V1 ip1 (set_foff (f_off ff + n1) ff) (k + n1) HI1); try done; cbn [f_off f_ip set_foff]; try lia.
    { by rewrite F1, list_lookup_insert_eq. }
    { unfold ip1, written_size. destruct ((n1 >? 0) && (f_off ff + n1 >? i_size ip)) eqn:E; simpl; lia. }
    intros ? s2 (-> & V2 & HI2 & O2 & F2 & I2 & K2). split; [done|]. exists V2. cbv zeta. cbv zeta in HI2, I2, O2.
    replace (written_size ip1 (f_off ff + n1) (n - (k + n1))) with (written_size ip (f_off ff) (n - k)) in *.
    2:{ unfold ip1. rewrite written_twice by lia. f_equal. lia. }
    split_and!; try done.
    - replace (drop (Z.to_nat k) addr) with (x ++ drop (Z.to_nat (k + n1)) addr).
      2:{ unfold x. rewrite Z2Nat.inj_add by lia. rewrite <- drop_drop. apply take_drop. }
      eapply overwritten_app; [exact O1|]. rewrite Hx, Z2Nat.id by lia. exact O2.
    - rewrite F2, F1, list_insert_insert_eq. by replace (f_off ff + (n - k)) with (f_off ff + n1 + (n - (k + n1))) by lia.
    - by rewrite I2, I1, list_insert_insert_eq.
    - by transitivity s1.
  Qed.

Lemma filewrite_run s V i ip lim f ff n addr :
    ino_ok s V i ip lim -> ft_files s !! f = Some ff -> f_type ff = FD_INODE -> f_ip ff = i ->
    f_writable ff <> 0 -> 0 <= f_off ff <= i_size ip -> 0 <= n -> f_off ff + n <= lim ->
    length addr = Z.to_nat n ->
    wp (filewrite devsw f addr n) (fun r s' => r = n /\ exists V',
      let ip' := written_size ip (f_off ff) n in
      ino_ok s' V' i ip' lim /\ overwritten V V' ip ip' lim (f_off ff) addr /\
      ft_files s' = <[f := set_foff (f_off ff + n) ff]> (ft_files s) /\
      ic_inodes (y_fs s') = <[i := ip']> (ic_inodes (y_fs s)) /\ same_rest s s') s.
  Proof.
    intros HI Hf Hft Hfi Hw Hoff Hn Hlim Hlen. unfold filewrite. apply wp_bind.
    eapply wp_getf; [exact Hf|]. destruct (f_writable ff =? 0) eqn:E; [lia|]. rewrite Hft. apply wp_bind.
    wp_call (filewrite_loop_run f i addr n lim _ s V ip ff 0 HI Hf Hfi Hoff); try done; try lia.
    intros ? s' (-> & V' & H1 & H2 & H3 & H4 & H5). rewrite Z.sub_0_r in *. apply wp_ret.
    rewrite Z.eqb_refl. split; [done|]. by exists V'.
  Qed.
End rw.

Section rw_specs.
  Context {St : Type} {LO : LogOps St} {TL : TransLaws St} (devsw : Z -> @devops St) (cap : nat).
  Implicit Types (s : sys St).


End rw_specs.

(** ** The file table *)
Section table.
  Context {St : Type} {LO : LogOps St}.
  Implicit Types (s : sys St).

  (** Inside and after a section under [ftable.lock]. *)
Definition ft_in (l : list file) s : sys St :=
    Sys (put_base (with_cpu (cli (b_cpu (y_base s))) (y_base s)) (y_fs s)) (y_mem s)
      (taken (b_cpu (y_base s)) (ft_lock s)) l (y_pipes s) (y_vars s).
Definition ft_out (l : list file) s : sys St :=
    Sys (put_base (with_cpu (quiet (b_cpu (y_base s))) (y_base s)) (y_fs s)) (y_mem s)
      (dropped (ft_lock s)) l (y_pipes s) (y_vars s).

Lemma ft_acquire s : Spinlock.free (ft_lock s) -> zoom (L := ft_lock_l) acquire s = Ok tt (ft_in (ft_files s) s).
  Proof. intros Hf. erewrite zoom_ok by (by apply acquire_ok). done. Qed.

Lemma ft_release l s :
    0 <= ncli (b_cpu (y_base s)) -> zoom (L := ft_lock_l) release (ft_in l s) = Ok tt (ft_out l s).
  Proof.
    intros Hn. unfold ft_in, ft_out. erewrite zoom_ok.
    2:{ cbn [lget ft_lock_l ft_lock]. unfold y_base at 1. cbn [y_fs]. rewrite fs_base_put. by apply release_taken. }
    cbn [lset ft_lock_l fst snd y_fs y_mem ft_files y_pipes y_vars]. rewrite put_base_put.
    unfold y_base at 2. cbn [y_fs]. by rewrite fs_base_put.
  Qed.

Lemma ft_out_base l s : y_base (ft_out l s) = with_cpu (quiet (b_cpu (y_base s))) (y_base s).
  Proof. apply fs_base_put. Qed.
Lemma ft_out_calm l s : calm (y_base s) (y_base (ft_out l s)).
  Proof. rewrite ft_out_base. by split_and!. Qed.

Lemma updf_in f g l s : updf f g (ft_in l s) = Ok tt (ft_in (alter g f l) s).
  Proof. done. Qed.
Lemma getf_in f ff l s : l !! f = Some ff -> getf f (ft_in l s) = Ok ff (ft_in l s).
  Proof. intros Hf. unfold getf. erewrite bind_ok by reflexivity. cbn [ft_in ft_files]. by rewrite Hf. Qed.

Lemma filealloc_run s :
    Spinlock.free (ft_lock s) -> 0 <= ncli (b_cpu (y_base s)) ->
    filealloc s = match find_file (ft_files s) with
                  | Some f => Ok (Some f) (ft_out (alter (set_fref 1) f (ft_files s)) s)
                  | None => Ok None (ft_out (ft_files s) s)
                  end.
  Proof.
    intros Hf Hn. unfold filealloc. rewrite (bind_ok _ _ _ _ _ (ft_acquire s Hf)).
    erewrite bind_ok by reflexivity. cbn [ft_in ft_files]. fold (ft_in (ft_files s) s).
    destruct (find_file (ft_files s)) as [f|].
    - rewrite (bind_ok _ _ _ _ _ (updf_in _ _ _ _)). by rewrite (bind_ok _ _ _ _ _ (ft_release _ _ Hn)).
    - by rewrite (bind_ok _ _ _ _ _ (ft_release _ _ Hn)).
  Qed.

Lemma filedup_run s f ff :
    Spinlock.free (ft_lock s) -> 0 <= ncli (b_cpu (y_base s)) -> ft_files s !! f = Some ff -> 1 <= f_ref ff ->
    filedup f s = Ok f (ft_out (alter (fun ff => set_fref (f_ref ff + 1) ff) f (ft_files s)) s).
  Proof.
    intros Hf Hn Hff Hr. unfold filedup. rewrite (bind_ok _ _ _ _ _ (ft_acquire s Hf)).
    rewrite (bind_ok _ _ _ _ _ (getf_in _ _ _ _ Hff)). destruct (Z.ltb_spec (f_ref ff) 1); [lia|].
    rewrite (bind_ok _ _ _ _ _ (updf_in _ _ _ _)). by rewrite (bind_ok _ _ _ _ _ (ft_release _ _ Hn)).
  Qed.

  (** The file whose last reference goes. *)
Definition closed (ff : file) : file := set_ftype FD_NONE (set_fref 0 ff).

  (** [fileclose] up to what it does with the pipe or the inode. *)
Definition close_rest (kend : Z) (ff : file) : M (sys St) unit :=
    match f_type ff with
    | FD_PIPE => pipeclose_free kend (f_pipe ff) (f_writable ff)
    | FD_INODE => begin_tr ;;; on_fs (iput (f_ip ff)) ;;; commit_tr
    | FD_NONE => ret tt
    end.

Lemma fileclose_run kend s f ff :
    Spinlock.free (ft_lock s) -> 0 <= ncli (b_cpu (y_base s)) -> ft_files s !! f = Some ff -> 1 <= f_ref ff ->
    fileclose kend f s =
      if decide (f_ref ff = 1) then close_rest kend ff (ft_out (alter closed f (ft_files s)) s)
      else Ok tt (ft_out (alter (fun ff => set_fref (f_ref ff - 1) ff) f (ft_files s)) s).
  Proof.
    intros Hf Hn Hff Hr. unfold fileclose. rewrite (bind_ok _ _ _ _ _ (ft_acquire s Hf)).
    rewrite (bind_ok _ _ _ _ _ (getf_in _ _ _ _ Hff)). destruct (Z.ltb_spec (f_ref ff) 1); [lia|].
    rewrite (bind_ok _ _ _ _ _ (updf_in _ _ _ _)).
    set (l1 := alter (fun ff => set_fref (f_ref ff - 1) ff) f (ft_files s)).
    assert (Hl1 : l1 !! f = Some (set_fref (f_ref ff - 1) ff)) by (unfold l1; by rewrite list_lookup_alter_eq, Hff).
    rewrite (bind_ok _ _ _ _ _ (getf_in _ _ l1 _ Hl1)). unfold l1. clear l1 Hl1.
    cbn [f_ref set_fref]. destruct (decide (f_ref ff = 1)) as [H1|H1].
    - destruct (Z.gtb_spec (f_ref ff - 1) 0); [lia|].
      rewrite (bind_ok _ _ _ _ _ (updf_in _ _ _ _)). rewrite (bind_ok _ _ _ _ _ (ft_release _ _ Hn)).
      rewrite alter_alter. by rewrite (alter_ext_at _ closed _ _ ff Hff) by done.
    - destruct (Z.gtb_spec (f_ref ff - 1) 0); [|lia]. by apply ft_release.
  Qed.
End table.

Section last.
  Context {St : Type} {LO : LogOps St} {TL : TransLaws St} (cap : nat).
  Implicit Types (s : sys St).

Lemma idle_base s V b : idle cap s V -> base_ok b -> idle cap (set_base b s) V /\ home (set_base b s) = home s.
  Proof.
    intros [R Hl] Hb. destruct (ll_lset (LogLaws := tl_read cap) _ _ _ _ b R Hb) as (R' & Hh & _).
    split; [by split|]. unfold home. rewrite !(tl_home cap). exact Hh.
  Qed.

Lemma idle_ok s V : idle cap s V -> base_ok (y_base s).
  Proof. intros [R _]. exact (ll_base (LogLaws := tl_read cap) _ _ _ _ R). Qed.

Lemma ft_out_set l s : ft_out l s =
    Sys (y_fs (set_base (with_cpu (quiet (b_cpu (y_base s))) (y_base s)) s)) (y_mem s) (dropped (ft_lock s)) l (y_pipes s) (y_vars s).
  Proof. done. Qed.

Lemma ft_out_idle l s V : idle cap s V -> idle cap (ft_out l s) V /\ home (ft_out l s) = home s.
  Proof.
    intros R. destruct (idle_ok s V R) as [Hb1 Hb2].
    apply (idle_base s V (with_cpu (quiet (b_cpu (y_base s))) (y_base s)) R). by split.
  Qed.

  (** The last close of a file on an inode that stays. *)
Lemma close_inode kend s V ff ip :
    idle cap s V -> 1 < home s -> f_type ff = FD_INODE -> ic_inodes (y_fs s) !! f_ip ff = Some ip ->
    (i_ref ip =? 1) && Flag.has (i_flags ip) I_VALID && (i_nlink ip =? 0) = false ->
    wp (close_rest kend ff) (fun _ s' => idle cap s' V /\ home s' = home s /\
      ic_inodes (y_fs s') = alter (fun ip => set_iref (i_ref ip - 1) ip) (f_ip ff) (ic_inodes (y_fs s)) /\
      ft_files s' = ft_files s /\ same_rest s s' /\ calm (y_base s) (y_base s')) s.
  Proof.
    intros R Hh Hty Hi Hc. unfold close_rest. rewrite Hty. apply wp_bind. wp_call (begin_tr_run cap s V R).
    intros [] s1 (R1 & Hr1 & Hh1 & I1 & F1 & K1 & C1). apply wp_bind. rewrite <- I1 in Hi.
    eapply wp_on_fs; [by apply (iput_run (LL := tl_open) _ V ∅ [] _ ip R1 Hi)|].
    intros [] t (R2 & (Hh2 & Hr2 & C2) & I2).
    wp_call (commit_tr_run cap (Sys t (y_mem s1) (ft_lock s1) (ft_files s1) (y_pipes s1) (y_vars s1)) V []); try done.
    { unfold room in *. cbn [y_fs]. congruence. }
    { unfold home in *. cbn [y_fs]. congruence. }
    { apply not_elem_of_nil. }
    intros [] s3 (R3 & Hh3 & I3 & F3 & K3 & C3). cbn [y_fs ft_files] in *.
    split_and!; try done.
    - unfold home in *. cbn [y_fs] in *. congruence.
    - by rewrite I3, I2, I1.
    - congruence.
    - by transitivity s1.
    - transitivity (y_base s1); [done|]. transitivity (fs_base t); [exact C2|exact C3].
  Qed.
End last.

(** *** The file of FileData, opened twice on a machine that has just booted *)
Definition boot_state : log := run_or boot_log (log0 ptable0 fs_disk).

Lemma boot_state_rel :
  ll_rel (LogLaws := log_read_laws 9) boot_state (disk_get fs_disk) ∅ [] /\ lg_start boot_state = 1014.
Proof.
  destruct (boot_run ptable0 fs_disk 1014 10 (disk_get fs_disk)) as (s & Hs & R & Hb & Hst & Hsz & _);
    [exact base_ok0|split; reflexivity|lia|lia|simpl; lia|simpl; lia|exact fs_disk_durable|].
  unfold boot_state, run_or. rewrite Hs. split; [|exact Hst]. split; [|split; [reflexivity|exact R]].
  split; [exact Hb|]. unfold log_cap. by rewrite Hsz.
Qed.
Opaque boot_state.

Definition file0 : file := File FD_NONE 0 0 0 0 0 0.
Definition ip4 : inode := set_iflags I_VALID ip2.
Definition vars0 : vars := Vars 3 (Some 0%nat) 0 0 (Spinlock 0 "time" None []) 0 0 0.
Definition mem0 : mem := Mem (Spinlock 0 "kmem" None []) 1 0 ∅ [].
Definition sys0 : sys log :=
  Sys (Fs boot_state (Spinlock 0 "icache" None []) [ip4]) mem0 (Spinlock 0 "ftable" None [])
    [File FD_INODE 1 0 1 0 0 600; File FD_INODE 1 1 0 0 0 600; file0] ∅ vars0.

Lemma sys0_ino : ino_ok 9 sys0 (disk_get fs_disk) 0 ip4 1024.
Proof.
  destruct boot_state_rel as [R Hst].
  assert (Hh : home sys0 = 1014) by exact Hst.
  split; rewrite ?Hh.
  - split; [exact R|reflexivity].
  - reflexivity.
  - simpl. lia.
  - reflexivity.
  - reflexivity.
  - discriminate.
  - apply mapped_flags, ip2_mapped; lia.
  - apply apart_flags, ip2_apart.
  - vm_compute. repeat split; discriminate.
  - intros bn H1 H2 Hx. destruct (ip2_blocks bn H1 H2) as [-> | ->]; discriminate Hx.
  - simpl. lia.
  - lia.
Qed.


