(* ===== verification/Proc.v ===== *)
(** Processes: the rest of proc.c (pinit, allocproc, userinit, growproc, fork,
    exit, wait, scheduler, forkret) and the address-space switches of vm.c,
    on the whole kernel's state. *)
From stdpp Require Import base numbers list strings sets gmap.
From S2P Require Import Prelude Params Spinlock Sched Bio Cache BlockIf Log Crash Trans Inode FileData Dir Kalloc Vm Pipe Sys File.

Set Warnings "-clear-no-such-hyp".

(** *** mmu.h *)
Definition PSR_MMUMOD_L2 : Z := 0x2.
Definition PSR_IM : Z := 0x4.
Definition PSR_CMOD_USER : Z := 0x60.
Definition PSR_MMUPS_4KB : Z := 0x80.

(** *** struct trapframe (mist32.h): its 37 words at the top of a stack page *)
Definition TRAPFRAME_SIZE : Z := 4 * 37.
Definition tf_at (page : list Z) : trapframe :=
  let w (k : Z) := get32 (Z.to_nat (KSTACKSIZE - TRAPFRAME_SIZE + 4 * k)) page in
  Trapframe (w 1) (w 2) (w 4) (w 5) (w 35) (w 34) (w 33) (w 32) (w 31) (w 30) (w 29) (w 36)
    (w <$> [0; 3; 6] ++ (Z.of_nat <$> seq 7 22)).
Definition set_r0 (v : Z) (t : trapframe) : trapframe :=
  Trapframe (tf_ppsr t) (tf_ppcr t) (tf_uspr t) (tf_rret t) v (tf_r1 t) (tf_r2 t) (tf_r3 t) (tf_r4 t)
    (tf_r5 t) (tf_r6 t) (tf_trapno t) (tf_saved t).
Definition tf_zero : trapframe := Trapframe 0 0 0 0 0 0 0 0 0 0 0 0 (replicate 25 0).

(** [safestrcpy(p->name, src, sizeof(p->name))] *)
Definition copy_name (src : list Z) (p : proc) : proc :=
  set_pname (splice 0 (take 15 src ++ [0]) (p_name p)) p.

(** The first process of a kind. *)
Fixpoint find_proc (P : proc -> bool) (ps : list proc) : option nat :=
  match ps with
  | [] => None
  | p :: ps => if P p then Some 0%nat else S <$> find_proc P ps
  end.

Definition is_state (st : procstate) (p : proc) : bool := bool_decide (p_state p = st).
Definition child_of (i : nat) (p : proc) : bool := bool_decide (p_parent p = Some i).

Section proc.
  Context {St : Type} {LO : LogOps St} (devsw : Z -> @devops St) (kend kdata : Z).

Definition lock_ptable : M (sys St) unit := on_base (zoom (L := ptable) acquire).
Definition unlock_ptable : M (sys St) unit := on_base (zoom (L := ptable) release).
Definition procs : M (sys St) (list proc) := gets (fun s => b_procs (y_base s)).
Definition updp (i : nat) (f : proc -> proc) : M (sys St) unit := on_base (upd_proc i f).
Definition getp (i : nat) : M (sys St) proc := on_base (get_proc i).
Definition upd_vars (f : vars -> vars) : M (sys St) unit := modify (fun s => set_vars (f (y_vars s)) s).

  (** *** pinit *)
Definition pinit : M (sys St) unit :=
    on_base (modify (fun b => Base (b_cpu b) (initlock "ptable" (b_lock b)) (b_procs b))).

  (** *** vm.c: kvmalloc, switchkvm, switchuvm *)
Definition cpu_l : Lens base cpu.
  Proof. refine {| lget := b_cpu; lset c b := with_cpu c b |}; [done|by intros []|done]. Defined.

Definition set_pdt (d : Z) (v : vars) : vars :=
    Vars (v_nextpid v) (v_initproc v) (v_first v) (v_ticks v) (v_tickslock v) (v_kpgdir v) d d.

Definition switchkvm : M (sys St) unit := upd_vars (fun v => set_pdt (v2p (v_kpgdir v)) v).

Definition kvmalloc : M (sys St) unit :=
    d <- on_kst (setupkvm kdata) ;;
    upd_vars (fun v => Vars (v_nextpid v) (v_initproc v) (v_first v) (v_ticks v) (v_tickslock v) d (v_pdtr v) (v_ppdtr v)) ;;;
    switchkvm.

Definition switchuvm (i : nat) : M (sys St) unit :=
    on_base (zoom (L := cpu_l) pushcli) ;;;
    p <- getp i ;;
    if p_pgdir p =? 0 then panic "switchuvm: no pgdir" else
    upd_vars (set_pdt (v2p (p_pgdir p))) ;;;
    on_base (zoom (L := cpu_l) popcli).

  (** *** allocproc *)
Definition take_pid (v : vars) : vars :=
    Vars (s32 (v_nextpid v + 1)) (v_initproc v) (v_first v) (v_ticks v) (v_tickslock v) (v_kpgdir v) (v_pdtr v) (v_ppdtr v).

Definition allocproc : M (sys St) (option nat) :=
    lock_ptable ;;;
    ps <- procs ;;
    match find_proc (is_state UNUSED) ps with
    | None => unlock_ptable ;;; ret None
    | Some i =>
        updp i (set_state EMBRYO) ;;;
        s <- get ;;
        updp i (set_pid (v_nextpid (y_vars s))) ;;;
        upd_vars take_pid ;;;
        unlock_ptable ;;;
        k <- on_kst kalloc ;;
        updp i (set_kstack k) ;;;
        if k =? 0 then updp i (set_state UNUSED) ;;; ret None else
        s <- get ;;
        page <- some (m_pages (y_mem s) !! k) ;;
        updp i (set_tf (tf_at page)) ;;;
        ret (Some i)
    end.

  (** *** userinit; [init] is the linked-in initcode. *)
Definition userinit (init : list Z) : M (sys St) unit :=
    r <- allocproc ;;
    upd_vars (fun v => Vars (v_nextpid v) r (v_first v) (v_ticks v) (v_tickslock v) (v_kpgdir v) (v_pdtr v) (v_ppdtr v)) ;;;
    i <- some r ;;
    d <- on_kst (setupkvm kdata) ;;
    updp i (set_pgdir d) ;;;
    if d =? 0 then panic "userinit: out of memory?" else
    on_kst (inituvm d init (Z.of_nat (length init))) ;;;
    updp i (set_sz PGSIZE) ;;;
    updp i (set_tf (Trapframe (Z.lor (Z.lor (Z.lor PSR_IM PSR_CMOD_USER) PSR_MMUMOD_L2) PSR_MMUPS_4KB) 0 PGSIZE
                      0 0 0 0 0 0 0 0 0 (replicate 25 0))) ;;;
    updp i (copy_name [105; 110; 105; 116; 99; 111; 100; 101]) ;;;
    c <- on_fs (namei devsw [47]) ;;
    updp i (set_cwd c) ;;;
    updp i (set_state RUNNABLE).

  (** *** growproc *)
Definition growproc (n : Z) : M (sys St) Z :=
    p <- curproc ;;
    sz <- (if n >? 0 then on_kst (allocuvm kend (p_pgdir p) (p_sz p) (u32 (p_sz p + n)))
           else if n <? 0 then on_kst (deallocuvm kend (p_pgdir p) (p_sz p) (u32 (p_sz p + n)))
           else ret (p_sz p)) ;;
    if negb (n =? 0) && (sz =? 0) then ret (-1) else
    upd_cur (set_sz sz) ;;;
    i <- cur ;;
    switchuvm i ;;;
    ret 0.

  (** *** fork *)
Definition dup_files (np : nat) : M (sys St) unit :=
    for_ NOFILE (fun k =>
      p <- curproc ;;
      o <- some (p_ofile p !! k) ;;
      match o with
      | Some f => f' <- filedup f ;; updp np (fun q => set_ofile (<[k := Some f']> (p_ofile q)) q)
      | None => ret tt
      end).

Definition fork : M (sys St) Z :=
    r <- allocproc ;;
    match r with
    | None => ret (-1)
    | Some np =>
        p <- curproc ;;
        d <- on_kst (copyuvm kend kdata (p_pgdir p) (p_sz p)) ;;
        updp np (set_pgdir d) ;;;
        if d =? 0 then
          q <- getp np ;;
          on_kst (kfree kend (p_kstack q)) ;;;
          updp np (set_kstack 0) ;;;
          updp np (set_state UNUSED) ;;;
          ret (-1)
        else
          i <- cur ;;
          p <- curproc ;;
          updp np (set_sz (p_sz p)) ;;;
          updp np (set_parent (Some i)) ;;;
          updp np (set_tf (set_r0 0 (p_tf p))) ;;;
          dup_files np ;;;
          p <- curproc ;;
          c <- some (p_cwd p) ;;
          c <- on_fs (idup c) ;;
          updp np (set_cwd (Some c)) ;;;
          q <- getp np ;;
          let pid := p_pid q in
          updp np (set_state RUNNABLE) ;;;
          p <- curproc ;;
          updp np (copy_name (cut (p_name p))) ;;;
          ret pid
    end.

  (** *** exit *)
Definition close_files : M (sys St) unit :=
    for_ NOFILE (fun fd =>
      p <- curproc ;;
      o <- some (p_ofile p !! fd) ;;
      match o with
      | Some f => fileclose kend f ;;; upd_cur (fun p => set_ofile (<[fd := None]> (p_ofile p)) p)
      | None => ret tt
      end).

  (** A null pointer as the channel wakes nobody: no process sleeps on it. *)
Definition wake_proc (o : option nat) : M (sys St) unit :=
    match o with Some q => on_base (wakeup1 (ChProc q)) | None => ret tt end.

Definition reparent (me : nat) : M (sys St) unit :=
    ps <- procs ;;
    for_ (length ps) (fun k =>
      p <- getp k ;;
      if child_of me p then
        s <- get ;;
        updp k (set_parent (v_initproc (y_vars s))) ;;;
        if is_state ZOMBIE p then wake_proc (v_initproc (y_vars s)) else ret tt
      else ret tt).

Definition exit_body : M (sys St) unit :=
    me <- cur ;;
    s <- get ;;
    if bool_decide (v_initproc (y_vars s) = Some me) then panic "init exiting" else
    close_files ;;;
    p <- curproc ;;
    c <- some (p_cwd p) ;;
    on_fs (iput c) ;;;
    upd_cur (set_cwd None) ;;;
    lock_ptable ;;;
    p <- curproc ;;
    wake_proc (p_parent p) ;;;
    reparent me ;;;
    upd_cur (set_state ZOMBIE) ;;;
    on_base sched.

Definition exit {A} : M (sys St) A := exit_body ;;; panic "zombie exit".

  (** *** wait *)
Definition reap (k : nat) : M (sys St) Z :=
    p <- getp k ;;
    let pid := p_pid p in
    on_kst (kfree kend (p_kstack p)) ;;;
    updp k (set_kstack 0) ;;;
    on_kst (freevm kend (p_pgdir p)) ;;;
    updp k (set_state UNUSED) ;;;
    updp k (set_pid 0) ;;;
    updp k (set_parent None) ;;;
    updp k (fun p => set_pname (<[0%nat := 0]> (p_name p)) p) ;;;
    updp k (set_killed 0) ;;;
    unlock_ptable ;;;
    ret pid.

Fixpoint wait_loop (n : nat) : M (sys St) Z :=
    match n with
    | O => diverge
    | S n =>
        me <- cur ;;
        ps <- procs ;;
        match find_proc (fun p => child_of me p && is_state ZOMBIE p) ps with
        | Some k => reap k
        | None =>
            p <- curproc ;;
            if negb (existsb (child_of me) ps) || negb (p_killed p =? 0) then unlock_ptable ;;; ret (-1)
            else sleep y_base_l (ChProc me) None ;;; wait_loop n
        end
    end.

Definition wait : M (sys St) Z := lock_ptable ;;; wait_loop wakeups.

  (** *** scheduler: one pass over the table, and the endless loop of passes *)
Definition proc_set (o : option nat) : M (sys St) unit := on_base (zoom (L := cpu_l) (modify (set_cproc o))).

Definition run_proc (k : nat) : M (sys St) unit :=
    p <- getp k ;;
    if is_state RUNNABLE p then
      proc_set (Some k) ;;;
      switchuvm k ;;;
      updp k (set_state RUNNING) ;;;
      swtch ;;;
      switchkvm ;;;
      proc_set None
    else ret tt.

Definition scheduler_pass : M (sys St) unit :=
    on_base (zoom (L := cpu_l) (modify (set_ie true))) ;;;
    lock_ptable ;;;
    ps <- procs ;;
    for_ (length ps) run_proc ;;;
    unlock_ptable.

Fixpoint scheduler (passes : nat) : M (sys St) unit :=
    match passes with O => diverge | S n => scheduler_pass ;;; scheduler n end.

  (** *** forkret; [init_log] is [initlog] on the log at hand. *)
Definition forkret (init_log : M St unit) : M (sys St) unit :=
    unlock_ptable ;;;
    s <- get ;;
    if negb (v_first (y_vars s) =? 0) then
      upd_vars (fun v => Vars (v_nextpid v) (v_initproc v) 0 (v_ticks v) (v_tickslock v) (v_kpgdir v) (v_pdtr v) (v_ppdtr v)) ;;;
      on_fs (zoom (L := fs_log_l) init_log)
    else ret tt.
End proc.
