(* ===== verification/Exec.v ===== *)
(** exec: exec.c, with loaduvm of vm.c and the ELF headers of elf.h. *)
From stdpp Require Import base numbers list strings sets gmap.
From S2P Require Import Prelude Params Spinlock Sched Bio Cache BlockIf Log Crash Trans Inode FileData Dir Kalloc Vm Pipe Sys File Proc.

(** *** elf.h *)
Definition ELF_MAGIC : Z := 0x7F454C46.
Definition ELF_PROG_LOAD : Z := 1.
Definition ELFHDR_SIZE : Z := 52.
Definition PROGHDR_SIZE : Z := 32.

Record elfhdr := Elfhdr { e_magic : Z; e_entry : Z; e_phoff : Z; e_phnum : Z }.
Definition elf_decode (d : list Z) : elfhdr := Elfhdr (get32 0 d) (get32 24 d) (get32 28 d) (get16 44 d).

Record proghdr := Proghdr { ph_type : Z; ph_off : Z; ph_vaddr : Z; ph_filesz : Z; ph_memsz : Z }.
Definition ph_decode (d : list Z) : proghdr :=
  Proghdr (get32 0 d) (get32 4 d) (get32 8 d) (get32 16 d) (get32 20 d).

(** The program's name: what follows the last slash. *)
Fixpoint last_elem (s : list Z) (last : list Z) : list Z :=
  match s with
  | [] => last
  | c :: s => if c =? 47 then last_elem s s else last_elem s last
  end.

Definition set_args (argc argv : Z) (t : trapframe) : trapframe :=
  Trapframe (tf_ppsr t) (tf_ppcr t) (tf_uspr t) 0xffffffff (tf_r0 t) argc argv (tf_r3 t) (tf_r4 t)
    (tf_r5 t) (tf_r6 t) (tf_trapno t) (tf_saved t).
Definition set_entry (pc sp : Z) (t : trapframe) : trapframe :=
  Trapframe (tf_ppsr t) pc sp (tf_rret t) (tf_r0 t) (tf_r1 t) (tf_r2 t) (tf_r3 t) (tf_r4 t)
    (tf_r5 t) (tf_r6 t) (tf_trapno t) (tf_saved t).

Section exec.
  Context {St : Type} {LO : LogOps St} (devsw : Z -> @devops St) (kend kdata : Z).
  (** What the uninitialised header on the kernel stack holds. *)
  Context (stack : list Z).

  (** *** loaduvm (vm.c) *)
Fixpoint load_from (fuel : nat) (pgdir addr : Z) (ip : nat) (offset i sz : Z) : M (sys St) Z :=
    match fuel with
    | O => diverge
    | S fuel =>
        if negb (i <? sz) then ret 0 else
        pte <- on_kst (walkpgdir pgdir (u32 (addr + i)) false) ;;
        if pte =? 0 then panic "loaduvm: address should exist" else
        e <- on_kst (ldw pte) ;;
        let pa := PTE_ADDR e in
        let n := if u32 (sz - i) <? PGSIZE then u32 (sz - i) else PGSIZE in
        r <- on_fs (readi devsw ip (u32 (offset + i)) n) ;;
        on_kst (store_bytes (p2v pa) (snd r)) ;;;
        if negb (u32 (fst r) =? n) then ret (-1) else
        load_from fuel pgdir addr ip offset (u32 (i + PGSIZE)) sz
    end.
Definition loaduvm (pgdir addr : Z) (ip : nat) (offset sz : Z) : M (sys St) Z :=
    if negb (addr mod PGSIZE =? 0) then panic "loaduvm: addr must be page aligned" else
    load_from (Z.to_nat (2 ^ 20)) pgdir addr ip offset 0 sz.

  (** *** exec *)
Fixpoint load_segments (n : nat) (ip : nat) (pgdir off sz : Z) : M (sys St) (option Z) :=
    match n with
    | O => ret (Some sz)
    | S n =>
        r <- on_fs (readi devsw ip (u32 off) PROGHDR_SIZE) ;;
        if negb (u32 (fst r) =? PROGHDR_SIZE) then ret None else
        let ph := ph_decode (snd r) in
        if negb (ph_type ph =? ELF_PROG_LOAD) then load_segments n ip pgdir (s32 (off + PROGHDR_SIZE)) sz else
        if ph_memsz ph <? ph_filesz ph then ret None else
        sz <- on_kst (allocuvm kend pgdir sz (u32 (ph_vaddr ph + ph_memsz ph))) ;;
        if sz =? 0 then ret None else
        l <- loaduvm pgdir (ph_vaddr ph) ip (ph_off ph) (ph_filesz ph) ;;
        if l <? 0 then ret None else
        load_segments n ip pgdir (s32 (off + PROGHDR_SIZE)) sz
    end.

  (** The argument strings go below [sp]; the result is the new [sp] and the
      addresses of the strings. *)
Fixpoint push_args (argc : nat) (pgdir sp : Z) (argv : list (list Z)) (ustack : list Z) : M (sys St) (option (Z * list Z)) :=
    match argv with
    | [] => ret (Some (sp, ustack))
    | a :: argv =>
        if (MAXARG <=? argc)%nat then ret None else
        let len := Z.of_nat (length a) + 1 in
        let sp := Z.land (u32 (sp - len)) (u32 (Z.lnot 3)) in
        r <- on_kst (copyout pgdir sp (a ++ [0]) len) ;;
        if r <? 0 then ret None else
        push_args (S argc) pgdir sp argv (ustack ++ [sp])
    end.

Definition bad (pgdir : Z) (ip : option nat) : M (sys St) Z :=
    (if negb (pgdir =? 0) then on_kst (freevm kend pgdir) else ret tt) ;;;
    match ip with Some ip => on_fs (iunlockput ip) | None => ret tt end ;;;
    ret (-1).

  (** The stack and the arguments, once the program is loaded. *)
Definition exec_stack (path : list Z) (argv : list (list Z)) (pgdir sz : Z) (elf : elfhdr) : M (sys St) Z :=
    let sz := PGROUNDUP sz in
    sz <- on_kst (allocuvm kend pgdir sz (u32 (sz + 2 * PGSIZE))) ;;
    if sz =? 0 then bad pgdir None else
    on_kst (clearpteu pgdir (u32 (sz - 2 * PGSIZE))) ;;;
    r <- push_args 0 pgdir sz argv [] ;;
    match r with
    | None => bad pgdir None
    | Some (sp, ustack) =>
        let argc := Z.of_nat (length ustack) in
        upd_cur (fun p => set_tf (set_args argc (u32 (sp - (argc + 1) * 4)) (p_tf p)) p) ;;;
        let sp := u32 (sp - (argc + 1) * 4) in
        r <- on_kst (copyout pgdir sp (words (ustack ++ [0])) ((argc + 1) * 4)) ;;
        if r <? 0 then bad pgdir None else
        upd_cur (copy_name (last_elem path path)) ;;;
        p <- curproc ;;
        let oldpgdir := p_pgdir p in
        upd_cur (set_pgdir pgdir) ;;;
        upd_cur (set_sz sz) ;;;
        upd_cur (fun p => set_tf (set_entry (e_entry elf) sp (p_tf p)) p) ;;;
        i <- cur ;;
        switchuvm i ;;;
        on_kst (freevm kend oldpgdir) ;;;
        ret 0
    end.

Definition exec (path : list Z) (argv : list (list Z)) : M (sys St) Z :=
    o <- on_fs (namei devsw path) ;;
    match o with
    | None => ret (-1)
    | Some ip =>
        on_fs (ilock ip) ;;;
        r <- on_fs (readi devsw ip 0 ELFHDR_SIZE) ;;
        if u32 (fst r) <? ELFHDR_SIZE then bad 0 (Some ip) else
        let elf := elf_decode (splice 0 (snd r) stack) in
        if negb (e_magic elf =? ELF_MAGIC) then bad 0 (Some ip) else
        pgdir <- on_kst (setupkvm kdata) ;;
        if pgdir =? 0 then bad 0 (Some ip) else
        r <- load_segments (Z.to_nat (e_phnum elf)) ip pgdir (s32 (e_phoff elf)) 0 ;;
        match r with
        | None => bad pgdir (Some ip)
        | Some sz =>
            on_fs (iunlockput ip) ;;;
            exec_stack path argv pgdir sz elf
        end
    end.
End exec.
