(* ===== verification/Bootmain.v ===== *)
(** bootmain.c: the boot sector's loader of the x86 original, which the build
    for the mist32 leaves out. Memory is a byte at each address, the disk a
    parameter: the 512 bytes of each sector. The x86 is little endian. *)
From stdpp Require Import base numbers list.
From S2P Require Import Prelude Exec.

Set Warnings "-clear-no-such-hyp".

Definition SECTSIZE : Z := 512.
Definition SCRATCH : Z := 0x10000.
Abbreviation ram := (Z -> Z).

Definition put_bytes (pa : Z) (l : list Z) (m : ram) : ram :=
  fun a => if decide (pa <= a < pa + Z.of_nat (length l)) then default 0 (l !! Z.to_nat (a - pa)) else m a.
Definition word_le (m : ram) (a : Z) : Z := m a + 2 ^ 8 * m (a + 1) + 2 ^ 16 * m (a + 2) + 2 ^ 24 * m (a + 3).
Definition half_le (m : ram) (a : Z) : Z := m a + 2 ^ 8 * m (a + 1).

Section loader.
  Context (disk : Z -> list Z).

  (** *** readsect: the sector number as the four ports get it *)
Definition lba (offset : Z) : Z :=
    u8 offset + 2 ^ 8 * u8 (Z.shiftr offset 8) + 2 ^ 16 * u8 (Z.shiftr offset 16) +
    2 ^ 24 * Z.land (u8 (Z.lor (Z.shiftr offset 24) 0xE0)) 0x0F.
Definition readsect (dst offset : Z) (m : ram) : ram := put_bytes dst (take 512 (disk (lba offset))) m.

  (** *** readseg *)
Fixpoint readseg_from (fuel : nat) (pa epa offset : Z) (m : ram) : option ram :=
    match fuel with
    | O => None
    | S fuel => if pa <? epa then readseg_from fuel (u32 (pa + SECTSIZE)) epa (u32 (offset + 1)) (readsect pa offset m) else Some m
    end.
Definition readseg (pa count offset : Z) (m : ram) : option ram :=
    let epa := u32 (pa + count) in
    let pa := u32 (pa - offset mod SECTSIZE) in
    readseg_from (S (Z.to_nat (count / SECTSIZE + 2))) pa epa (offset / SECTSIZE + 1) m.

  (** *** bootmain: the memory and the entry, [None] for what is no kernel *)
Fixpoint load_ph (n : nat) (ph : Z) (m : ram) : option ram :=
    match n with
    | O => Some m
    | S n =>
        let pa := word_le m (ph + 12) in
        let filesz := word_le m (ph + 16) in
        let memsz := word_le m (ph + 20) in
        match readseg pa filesz (word_le m (ph + 4)) m with
        | None => None
        | Some m =>
            let m := if memsz >? filesz then put_bytes (pa + filesz) (replicate (Z.to_nat (memsz - filesz)) 0) m else m in
            load_ph n (ph + PROGHDR_SIZE) m
        end
    end.
Definition bootmain (m : ram) : option (ram * Z) :=
    match readseg SCRATCH 4096 0 m with
    | None => None
    | Some m =>
        if negb (word_le m SCRATCH =? ELF_MAGIC) then None else
        let ph := SCRATCH + word_le m (SCRATCH + 28) in
        match load_ph (Z.to_nat (half_le m (SCRATCH + 44))) ph m with
        | None => None
        | Some m => Some (m, word_le m (SCRATCH + 24))
        end
    end.

  (** ** What readseg reads *)

  (** Byte [k] of the kernel's file, which starts at sector 1. *)
Definition kernel_byte (k : Z) : Z := default 0 (disk (k / SECTSIZE + 1) !! Z.to_nat (k mod SECTSIZE)).

  Hypothesis Hdisk : forall n, length (disk n) = 512%nat.

Lemma lba_id offset : 0 <= offset < 2 ^ 28 -> lba offset = offset.
  Proof.
    intros H. unfold lba. rewrite !Z.shiftr_div_pow2 by lia.
    assert (Hhi : Z.land (u8 (Z.lor (offset / 2 ^ 24) 0xE0)) 0x0F = offset / 2 ^ 24).
    { assert (Hq : 0 <= offset / 2 ^ 24 < 16) by (split; [apply Z.div_pos; lia|apply Z.div_lt_upper_bound; lia]).
      remember (offset / 2 ^ 24) as q. clear -Hq. assert (q ∈ seqZ 0 16) as Hin by (apply elem_of_seqZ; lia). clear Hq. revert q Hin.
      apply Forall_forall. by vm_compute; repeat constructor. }
    rewrite Hhi. unfold u8. change (2 ^ 8) with 256. change (2 ^ 16) with 65536. change (2 ^ 24) with 16777216. clear Hhi. Z.div_mod_to_equations. lia.
  Qed.

Lemma readsect_byte pa q m a :
    0 <= q -> q + 1 < 2 ^ 28 ->
    readsect pa (q + 1) m a = if decide (pa <= a < pa + SECTSIZE) then kernel_byte (q * SECTSIZE + (a - pa)) else m a.
  Proof using Hdisk.
    intros Hq Hb. unfold readsect, put_bytes. rewrite lba_id, length_take, Hdisk by lia. change (Z.of_nat (512 `min` 512)) with SECTSIZE.
    case_decide as Ha; [|done]. unfold kernel_byte. rewrite lookup_take_lt by (unfold SECTSIZE in *; lia).
    rewrite Z.div_add_l, Z.div_small, Z.add_0_r by (unfold SECTSIZE in *; lia).
    rewrite (Z.add_comm (q * SECTSIZE)), Z_mod_plus_full, Z.mod_small by (unfold SECTSIZE in *; lia). done.
  Qed.

Lemma readseg_from_run epa : forall fuel pa q m,
    0 <= pa -> epa + SECTSIZE < 2 ^ 32 -> 0 <= q -> q + Z.of_nat fuel < 2 ^ 28 -> epa - pa <= SECTSIZE * (Z.of_nat fuel - 1) -> (0 < fuel)%nat -> pa < 2 ^ 32 ->
    exists m', readseg_from fuel pa epa (q + 1) m = Some m' /\
      (forall a, pa <= a < epa -> m' a = kernel_byte (q * SECTSIZE + (a - pa))) /\
      (forall a, a < pa \/ epa + SECTSIZE <= a -> m' a = m a).
  Proof using Hdisk.
    induction fuel as [|fuel IH]; intros pa q m Hpa He Hq Hqf Hf H0 H32; [lia|]. cbn [readseg_from].
    destruct (Z.ltb_spec pa epa) as [Hlt|Hge]; [|exists m; split_and!; [done|lia|done]].
    rewrite (u32_id (pa + SECTSIZE)), (u32_id (q + 1 + 1)) by (unfold is_u32, SECTSIZE in *; lia).
    destruct fuel as [|fuel].
    { unfold SECTSIZE in *. lia. }
    destruct (IH (pa + SECTSIZE) (q + 1) (readsect pa (q + 1) m)) as (m' & E & H1 & H2); [unfold SECTSIZE in *; lia..|].
    exists m'. rewrite E. split; [done|]. split.
    - intros a Ha. destruct (decide (a < pa + SECTSIZE)) as [Hin|Hout].
      + rewrite H2 by lia. rewrite readsect_byte, decide_True by lia. done.
      + rewrite H1 by lia. f_equal. lia.
    - intros a Ha. rewrite H2 by (unfold SECTSIZE in *; lia). rewrite readsect_byte, decide_False by (unfold SECTSIZE in *; lia). done.
  Qed.

  (** [count] bytes of the kernel's file from [offset] on come to [pa]; the
      sectors they are part of may overwrite less than a sector before and
      after them, and nothing else. *)
Theorem readseg_spec pa count offset m :
    0 <= offset < 2 ^ 32 -> 0 <= count -> offset mod SECTSIZE <= pa -> pa + count + SECTSIZE < 2 ^ 32 -> offset + count < 2 ^ 32 ->
    exists m', readseg pa count offset m = Some m' /\
      (forall k, 0 <= k < count -> m' (pa + k) = kernel_byte (offset + k)) /\
      (forall a, a < pa - offset mod SECTSIZE \/ pa + count + SECTSIZE <= a -> m' a = m a).
  Proof using Hdisk.
    intros Ho Hc Hpa He Hoc. pose proof (Z.mod_pos_bound offset SECTSIZE ltac:(done)) as Hm. pose proof (Z.div_mod offset SECTSIZE ltac:(done)) as Hdm.
    unfold readseg. rewrite !u32_id by (unfold is_u32, SECTSIZE in *; lia).
    destruct (readseg_from_run (pa + count) (S (Z.to_nat (count / SECTSIZE + 2))) (pa - offset mod SECTSIZE) (offset / SECTSIZE) m)
      as (m' & E & H1 & H2); [unfold SECTSIZE in *; Z.div_mod_to_equations; lia..|].
    exists m'. rewrite E. split_and!; [done| |exact H2]. intros k Hk. rewrite H1 by (unfold SECTSIZE in *; lia). f_equal. unfold SECTSIZE in *. lia.
  Qed.
End loader.
