(* ===== verification/Syscall.v ===== *)
(** System-call arguments: fetchint, fetchstr, argint, argptr and argstr of
    syscall.c, on the current process's registers and memory. *)
From stdpp Require Import base numbers list strings sets gmap.
From S2P Require Import Prelude Params Spinlock Sched BlockIf Log Inode Dir Kalloc Vm Pipe Sys File.

Section args.
  Context {St : Type} {LO : LogOps St}.

  (** *** fetchint *)
Definition fetchint (addr : Z) : M (sys St) (option Z) :=
    p <- curproc ;;
    if (addr >=? p_sz p) || (u32 (addr + 4) >? p_sz p) then ret None else
    l <- load addr 4 ;;
    ret (Some (s32 (be_val l))).

  (** *** fetchstr: the bytes before the first zero below [ep]. *)
Fixpoint fetch_from (fuel : nat) (s ep : Z) (acc : list Z) : M (sys St) (option (list Z)) :=
    match fuel with
    | O => diverge
    | S fuel =>
        if negb (s <? ep) then ret None else
        c <- ldub s ;;
        if c =? 0 then ret (Some acc) else fetch_from fuel (u32 (s + 1)) ep (acc ++ [c])
    end.
Definition fetchstr (addr : Z) : M (sys St) (option (list Z)) :=
    p <- curproc ;;
    if addr >=? p_sz p then ret None else
    fetch_from (S (Z.to_nat (p_sz p - addr))) addr (p_sz p) [].

  (** *** argint *)
Definition arg_reg (t : trapframe) (n : Z) : option Z :=
    if n =? 0 then Some (tf_r1 t) else if n =? 1 then Some (tf_r2 t) else
    if n =? 2 then Some (tf_r3 t) else if n =? 3 then Some (tf_r4 t) else
    if n =? 4 then Some (tf_r5 t) else if n =? 5 then Some (tf_r6 t) else None.

Definition argint (n : Z) : M (sys St) (option Z) :=
    p <- curproc ;;
    match arg_reg (p_tf p) n with
    | Some v => ret (Some (s32 v))
    | None => on_kst (cprint "argint: fail\n") ;;; ret None
    end.

  (** *** argptr: the pointer, checked against [size] bytes *)
Definition argptr (n size : Z) : M (sys St) (option Z) :=
    o <- argint n ;;
    match o with
    | None => ret None
    | Some i =>
        p <- curproc ;;
        if (u32 i >=? p_sz p) || (u32 (u32 i + size) >? p_sz p) then ret None else ret (Some (u32 i))
    end.

  (** *** argstr *)
Definition argstr (n : Z) : M (sys St) (option (list Z)) :=
    o <- argint n ;;
    match o with
    | None => ret None
    | Some addr => fetchstr (u32 addr)
    end.
End args.

(** ** What the checks accept *)
Section checks.
  Context {St : Type} {LO : LogOps St} (i : nat) (p : proc).
  Implicit Types (s : sys St).

Lemma argint_run s n v : current i p s -> arg_reg (p_tf p) n = Some v -> argint n s = Ok (Some (s32 v)) s.
  Proof. intros H Hv. unfold argint. rewrite (bind_ok _ _ _ _ _ (curproc_run i p s H)). by rewrite Hv. Qed.

Lemma u32_s32 v : is_u32 v -> u32 (s32 v) = v.
  Proof.
    intros Hv. unfold is_u32, u32, s32 in *.
    rewrite Zminus_mod_idemp_l. replace (v + 2 ^ 31 - 2 ^ 31) with v by lia. by apply Z.mod_small.
  Qed.

Lemma argptr_run s n size v : current i p s -> arg_reg (p_tf p) n = Some v -> is_u32 v ->
    argptr n size s = Ok (if (v >=? p_sz p) || (u32 (v + size) >? p_sz p) then None else Some v) s.
  Proof.
    intros H Hv Hu. unfold argptr. rewrite (bind_ok _ _ _ _ _ (argint_run s n v H Hv)), !u32_s32 by done.
    rewrite (bind_ok _ _ _ _ _ (curproc_run i p s H)). by destruct (_ || _).
  Qed.

  (** C36. For a size that is not negative, [argptr] accepts a pointer exactly
      when the whole block lies in the process's memory. *)
Theorem argptr_spec s n size v :
    current i p s -> arg_reg (p_tf p) n = Some v -> is_u32 v -> 0 <= p_sz p <= KERNBASE -> 0 <= size < 2 ^ 31 ->
    argptr n size s = Ok (if decide (v < p_sz p /\ v + size <= p_sz p) then Some v else None) s.
  Proof.
    intros H Hv Hu Hsz Hs. rewrite (argptr_run s n size v H Hv Hu). do 2 f_equal. unfold is_u32, KERNBASE in *.
    case_decide as Hd.
    - rewrite u32_id by (unfold is_u32; lia). by destruct ((v >=? p_sz p) || (v + size >? p_sz p)) eqn:E; [lia|].
    - destruct (Z.geb_spec v (p_sz p)); [done|]. cbn [orb].
      rewrite u32_id by (unfold is_u32; lia). by destruct (Z.gtb_spec (v + size) (p_sz p)); [|lia].
  Qed.

  (** A negative size that does not reach below address 0 is accepted for
      every pointer into the process. *)
Lemma argptr_negative s n size v :
    current i p s -> arg_reg (p_tf p) n = Some v -> is_u32 v -> p_sz p <= KERNBASE ->
    v < p_sz p -> size < 0 -> 0 <= v + size -> argptr n size s = Ok (Some v) s.
  Proof.
    intros H Hv Hu Hsz Hlt Hs Hlow. rewrite (argptr_run s n size v H Hv Hu). unfold is_u32, KERNBASE in *.
    rewrite u32_id by (unfold is_u32; lia). by destruct ((v >=? p_sz p) || (v + size >? p_sz p)) eqn:E; [lia|].
  Qed.
End checks.

(** A process of 0x3000 bytes that passes the address 0x2ff0. *)
Definition procA : proc :=
  Proc 0x3000 0x80300000 0 RUNNING 1 None (Trapframe 0 0 0 0 5 0x2ff0 0 0 0 0 0 0 []) None 0
    (replicate NOFILE None) (Some 0%nat) [].
Definition sysA : sys log :=
  set_base (Base (Cpu 0 0 false false (Some 0%nat)) (Spinlock 0 "ptable" None []) [procA]) sys0.

Lemma argptr_spec_witness :
  argptr 0 16 sysA = Ok (Some 0x2ff0) sysA /\ argptr 0 17 sysA = Ok None sysA.
Proof.
  assert (Hc : current 0 procA sysA) by (split; unfold sysA; by rewrite y_base_set).
  split.
  - apply (argptr_spec 0 procA sysA 0 16 0x2ff0 Hc eq_refl); unfold is_u32, KERNBASE; simpl; lia.
  - apply (argptr_spec 0 procA sysA 0 17 0x2ff0 Hc eq_refl); unfold is_u32, KERNBASE; simpl; lia.
Defined.
