(* ===== verification/Sysfile.v ===== *)
(** The file-system calls: sysfile.c. *)
From stdpp Require Import base numbers list strings sets gmap.
From S2P Require Import Prelude Params Spinlock Sched Bio Cache BlockIf Log Crash Trans Inode FileData Dir Kalloc Vm Pipe Sys File Proc Exec Syscall.

Set Warnings "-clear-no-such-hyp".

Definition set_nlink (n : Z) (ip : inode) : inode := set_imeta (i_major ip) (i_minor ip) n ip.

(** The first free descriptor. *)
Fixpoint find_fd (l : list (option nat)) : option nat :=
  match l with
  | [] => None
  | None :: _ => Some 0%nat
  | Some _ :: l => S <$> find_fd l
  end.

Section sysfile.
  Context {St : Type} {LO : LogOps St} (devsw : Z -> @devops St) (kend kdata : Z) (stack : list Z).
  Abbreviation SYS := (M (sys St)).

Definition fgetip (i : nat) : SYS inode := on_fs (getip i).
Definition fupdip (i : nat) (f : inode -> inode) : SYS unit := on_fs (updip i f).

  (** *** argfd *)
Definition argfd (n : Z) : SYS (option (nat * nat)) :=
    o <- argint n ;;
    match o with
    | None => ret None
    | Some fd =>
        if (fd <? 0) || (fd >=? Z.of_nat NOFILE) then ret None else
        p <- curproc ;;
        f <- some (p_ofile p !! Z.to_nat fd) ;;
        ret ((fun f => (Z.to_nat fd, f)) <$> f)
    end.

  (** *** fdalloc *)
Definition fdalloc (f : nat) : SYS Z :=
    p <- curproc ;;
    match find_fd (p_ofile p) with
    | Some fd => upd_cur (fun p => set_ofile (<[fd := Some f]> (p_ofile p)) p) ;;; ret (Z.of_nat fd)
    | None => ret (-1)
    end.

  (** *** sys_dup *)
Definition sys_dup : SYS Z :=
    o <- argfd 0 ;;
    match o with
    | None => ret (-1)
    | Some (_, f) =>
        fd <- fdalloc f ;;
        if fd <? 0 then ret (-1) else
        filedup f ;;; ret fd
    end.

  (** *** sys_read *)
Definition sys_read : SYS Z :=
    o <- argfd 0 ;;
    match o with
    | None => ret (-1)
    | Some (_, f) =>
        n <- argint 2 ;;
        match n with
        | None => ret (-1)
        | Some n =>
            p <- argptr 1 n ;;
            match p with
            | None => ret (-1)
            | Some p => r <- fileread devsw f n ;; store p (snd r) ;;; ret (fst r)
            end
        end
    end.

  (** *** sys_write; the bytes are fetched when the file takes any. *)
Definition sys_write : SYS Z :=
    o <- argfd 0 ;;
    match o with
    | None => ret (-1)
    | Some (_, f) =>
        n <- argint 2 ;;
        match n with
        | None => ret (-1)
        | Some n =>
            p <- argptr 1 n ;;
            match p with
            | None => ret (-1)
            | Some p =>
                ff <- getf f ;;
                l <- (if f_writable ff =? 0 then ret [] else load p (Z.to_nat n)) ;;
                filewrite devsw f l n
            end
        end
    end.

  (** *** sys_close *)
Definition sys_close : SYS Z :=
    o <- argfd 0 ;;
    match o with
    | None => ret (-1)
    | Some (fd, f) =>
        upd_cur (fun p => set_ofile (<[fd := None]> (p_ofile p)) p) ;;;
        fileclose kend f ;;;
        ret 0
    end.

  (** *** sys_fstat; struct stat's fields at their places *)
Definition STAT_SIZE : Z := 20.
Definition store_stat (p : Z) (st : stat) : SYS unit :=
    store p (be16 (st_type st)) ;;;
    store (u32 (p + 4)) (be32 (st_dev st)) ;;;
    store (u32 (p + 8)) (be32 (st_ino st)) ;;;
    store (u32 (p + 12)) (be16 (st_nlink st)) ;;;
    store (u32 (p + 16)) (be32 (st_size st)).

Definition sys_fstat : SYS Z :=
    o <- argfd 0 ;;
    match o with
    | None => ret (-1)
    | Some (_, f) =>
        p <- argptr 1 STAT_SIZE ;;
        match p with
        | None => ret (-1)
        | Some p =>
            r <- filestat f ;;
            match r with
            | Some st => store_stat p st ;;; ret 0
            | None => ret (-1)
            end
        end
    end.

  (** *** sys_link *)
Definition link_bad (ip : nat) : SYS Z :=
    on_fs (ilock ip) ;;;
    fupdip ip (fun i => set_nlink (s16 (i_nlink i - 1)) i) ;;;
    on_fs (iupdate ip) ;;;
    on_fs (iunlockput ip) ;;;
    commit_tr ;;;
    ret (-1).

Definition link_to (ip : nat) (new : list Z) : SYS Z :=
    begin_tr ;;;
    on_fs (ilock ip) ;;;
    i <- fgetip ip ;;
    if i_type i =? T_DIR then on_fs (iunlockput ip) ;;; commit_tr ;;; ret (-1) else
    fupdip ip (fun i => set_nlink (s16 (i_nlink i + 1)) i) ;;;
    on_fs (iupdate ip) ;;;
    on_fs (iunlock ip) ;;;
    o <- on_fs (nameiparent devsw new) ;;
    match o with
    | None => link_bad ip
    | Some (dp, name) =>
        on_fs (ilock dp) ;;;
        d <- fgetip dp ;;
        i <- fgetip ip ;;
        r <- (if negb (i_dev d =? i_dev i) then ret (-1) else on_fs (dirlink devsw dp name (i_inum i))) ;;
        if r <? 0 then on_fs (iunlockput dp) ;;; link_bad ip else
        on_fs (iunlockput dp) ;;;
        on_fs (iput ip) ;;;
        commit_tr ;;;
        ret 0
    end.

Definition sys_link : SYS Z :=
    old <- argstr 0 ;;
    match old with
    | None => ret (-1)
    | Some old =>
        new <- argstr 1 ;;
        match new with
        | None => ret (-1)
        | Some new =>
            o <- on_fs (namei devsw old) ;;
            match o with None => ret (-1) | Some ip => link_to ip new end
        end
    end.

  (** *** isdirempty *)
Fixpoint isdirempty_from (fuel : nat) (dp : nat) (off : Z) : SYS bool :=
    match fuel with
    | O => diverge
    | S fuel =>
        d <- fgetip dp ;;
        if negb (off <? i_size d) then ret true else
        r <- on_fs (readi devsw dp off DIRENT_SIZE) ;;
        if negb (fst r =? DIRENT_SIZE) then panic "isdirempty: readi" else
        if negb (de_inum (snd r) =? 0) then ret false else
        isdirempty_from fuel dp (off + DIRENT_SIZE)
    end.
Definition isdirempty (dp : nat) : SYS bool :=
    d <- fgetip dp ;;
    isdirempty_from (S (Z.to_nat (i_size d))) dp (2 * DIRENT_SIZE).

  (** *** sys_unlink *)
Definition unlink_bad (dp : nat) : SYS Z := on_fs (iunlockput dp) ;;; commit_tr ;;; ret (-1).

Definition unlink_in (dp : nat) (name : list Z) : SYS Z :=
    begin_tr ;;;
    on_fs (ilock dp) ;;;
    if (namecmp name [46] =? 0) || (namecmp name [46; 46] =? 0) then unlink_bad dp else
    o <- on_fs (dirlookup devsw dp name) ;;
    match o with
    | None => unlink_bad dp
    | Some (ip, off) =>
        on_fs (ilock ip) ;;;
        i <- fgetip ip ;;
        if i_nlink i <? 1 then panic "unlink: nlink < 1" else
        e <- (if i_type i =? T_DIR then isdirempty ip else ret true) ;;
        if negb e then on_fs (iunlockput ip) ;;; unlink_bad dp else
        r <- on_fs (writei devsw dp (replicate (Z.to_nat DIRENT_SIZE) 0) off DIRENT_SIZE) ;;
        if negb (r =? DIRENT_SIZE) then panic "unlink: writei" else
        i <- fgetip ip ;;
        (if i_type i =? T_DIR then
           fupdip dp (fun d => set_nlink (s16 (i_nlink d - 1)) d) ;;;
           on_fs (iupdate dp)
         else ret tt) ;;;
        on_fs (iunlockput dp) ;;;
        fupdip ip (fun i => set_nlink (s16 (i_nlink i - 1)) i) ;;;
        on_fs (iupdate ip) ;;;
        on_fs (iunlockput ip) ;;;
        commit_tr ;;;
        ret 0
    end.

Definition sys_unlink : SYS Z :=
    path <- argstr 0 ;;
    match path with
    | None => ret (-1)
    | Some path =>
        o <- on_fs (nameiparent devsw path) ;;
        match o with None => ret (-1) | Some (dp, name) => unlink_in dp name end
    end.

  (** *** create: the inode, locked *)
Definition create_dots (ip dp : nat) : SYS unit :=
    fupdip dp (fun d => set_nlink (s16 (i_nlink d + 1)) d) ;;;
    on_fs (iupdate dp) ;;;
    i <- fgetip ip ;;
    r <- on_fs (dirlink devsw ip [46] (i_inum i)) ;;
    if r <? 0 then panic "create dots" else
    d <- fgetip dp ;;
    r <- on_fs (dirlink devsw ip [46; 46] (i_inum d)) ;;
    if r <? 0 then panic "create dots" else ret tt.

Definition create (path : list Z) (type major minor : Z) : SYS (option nat) :=
    o <- on_fs (nameiparent devsw path) ;;
    match o with
    | None => ret None
    | Some (dp, name) =>
        on_fs (ilock dp) ;;;
        o <- on_fs (dirlookup devsw dp name) ;;
        match o with
        | Some (ip, _) =>
            on_fs (iunlockput dp) ;;;
            on_fs (ilock ip) ;;;
            i <- fgetip ip ;;
            if (type =? T_FILE) && (i_type i =? T_FILE) then ret (Some ip) else
            on_fs (iunlockput ip) ;;; ret None
        | None =>
            d <- fgetip dp ;;
            ip <- on_fs (ialloc (i_dev d) type) ;;
            on_fs (ilock ip) ;;;
            fupdip ip (set_imeta major minor 1) ;;;
            on_fs (iupdate ip) ;;;
            (if type =? T_DIR then create_dots ip dp else ret tt) ;;;
            i <- fgetip ip ;;
            r <- on_fs (dirlink devsw dp name (i_inum i)) ;;
            if r <? 0 then panic "create: dirlink" else
            on_fs (iunlockput dp) ;;;
            ret (Some ip)
        end
    end.

  (** *** sys_open *)
Definition open_file (ip : nat) (omode : Z) (ff : file) : file :=
    File FD_INODE (f_ref ff) (if Flag.has omode O_WRONLY then 0 else 1)
      (if Flag.has omode O_WRONLY || Flag.has omode O_RDWR then 1 else 0) (f_pipe ff) ip 0.

Definition open_inode (ip : nat) (omode : Z) : SYS Z :=
    o <- filealloc ;;
    match o with
    | None => on_fs (iunlockput ip) ;;; ret (-1)
    | Some f =>
        fd <- fdalloc f ;;
        if fd <? 0 then fileclose kend f ;;; on_fs (iunlockput ip) ;;; ret (-1) else
        on_fs (iunlock ip) ;;;
        updf f (open_file ip omode) ;;;
        ret fd
    end.

Definition sys_open : SYS Z :=
    path <- argstr 0 ;;
    match path with
    | None => ret (-1)
    | Some path =>
        omode <- argint 1 ;;
        match omode with
        | None => ret (-1)
        | Some omode =>
            if Flag.has omode O_CREATE then
              begin_tr ;;;
              o <- create path T_FILE 0 0 ;;
              commit_tr ;;;
              match o with None => ret (-1) | Some ip => open_inode ip omode end
            else
              o <- on_fs (namei devsw path) ;;
              match o with
              | None => ret (-1)
              | Some ip =>
                  on_fs (ilock ip) ;;;
                  i <- fgetip ip ;;
                  if (i_type i =? T_DIR) && negb (omode =? O_RDONLY)
                  then on_fs (iunlockput ip) ;;; ret (-1)
                  else open_inode ip omode
              end
        end
    end.

  (** *** sys_mkdir, sys_mknod *)
Definition made (o : option nat) : SYS Z :=
    match o with
    | None => commit_tr ;;; ret (-1)
    | Some ip => on_fs (iunlockput ip) ;;; commit_tr ;;; ret 0
    end.

Definition sys_mkdir : SYS Z :=
    begin_tr ;;;
    path <- argstr 0 ;;
    match path with
    | None => made None
    | Some path => o <- create path T_DIR 0 0 ;; made o
    end.

Definition sys_mknod : SYS Z :=
    begin_tr ;;;
    path <- argstr 0 ;;
    match path with
    | None => made None
    | Some path =>
        major <- argint 1 ;;
        match major with
        | None => made None
        | Some major =>
            minor <- argint 2 ;;
            match minor with
            | None => made None
            | Some minor => o <- create path T_DEV (s16 major) (s16 minor) ;; made o
            end
        end
    end.

  (** *** sys_chdir *)
Definition sys_chdir : SYS Z :=
    path <- argstr 0 ;;
    match path with
    | None => ret (-1)
    | Some path =>
        o <- on_fs (namei devsw path) ;;
        match o with
        | None => ret (-1)
        | Some ip =>
            on_fs (ilock ip) ;;;
            i <- fgetip ip ;;
            if negb (i_type i =? T_DIR) then on_fs (iunlockput ip) ;;; ret (-1) else
            on_fs (iunlock ip) ;;;
            p <- curproc ;;
            c <- some (p_cwd p) ;;
            on_fs (iput c) ;;;
            upd_cur (set_cwd (Some ip)) ;;;
            ret 0
        end
    end.

  (** *** sys_exec *)
Fixpoint fetch_argv (n : nat) (uargv i : Z) (argv : list (list Z)) : SYS (option (list (list Z))) :=
    match n with
    | O => ret None
    | S n =>
        o <- fetchint (u32 (uargv + 4 * i)) ;;
        match o with
        | None => ret None
        | Some uarg =>
            if uarg =? 0 then ret (Some argv) else
            a <- fetchstr (u32 uarg) ;;
            match a with
            | None => ret None
            | Some a => fetch_argv n uargv (i + 1) (argv ++ [a])
            end
        end
    end.

Definition sys_exec : SYS Z :=
    path <- argstr 0 ;;
    match path with
    | None => ret (-1)
    | Some path =>
        uargv <- argint 1 ;;
        match uargv with
        | None => ret (-1)
        | Some uargv =>
            argv <- fetch_argv MAXARG (u32 uargv) 0 [] ;;
            match argv with
            | None => ret (-1)
            | Some argv => exec devsw kend kdata stack path argv
            end
        end
    end.

  (** *** sys_pipe *)
Definition sys_pipe : SYS Z :=
    fd <- argptr 0 8 ;;
    match fd with
    | None => ret (-1)
    | Some fd =>
        o <- pipealloc kend ;;
        match o with
        | None => ret (-1)
        | Some (rf, wf) =>
            fd0 <- fdalloc rf ;;
            fd1 <- (if fd0 <? 0 then ret (-1) else fdalloc wf) ;;
            if (fd0 <? 0) || (fd1 <? 0) then
              (if fd0 >=? 0 then upd_cur (fun p => set_ofile (<[Z.to_nat fd0 := None]> (p_ofile p)) p) else ret tt) ;;;
              fileclose kend rf ;;;
              fileclose kend wf ;;;
              ret (-1)
            else
              store fd (be32 fd0) ;;;
              store (u32 (fd + 4)) (be32 fd1) ;;;
              ret 0
        end
    end.
End sysfile.

(** ** Reference counts

    Between system calls the reference count of a file is the number of
    descriptors, of all processes, that name it. *)
Fixpoint refs (f : nat) (l : list (option nat)) : Z :=
  match l with
  | [] => 0
  | o :: l => (if decide (o = Some f) then 1 else 0) + refs f l
  end.
Fixpoint all_refs (f : nat) (ps : list proc) : Z :=
  match ps with [] => 0 | p :: ps => refs f (p_ofile p) + all_refs f ps end.

Record files_ok (fl : list file) (ps : list proc) : Prop := {
  fo_len : forall p, p ∈ ps -> length (p_ofile p) = NOFILE;
  fo_in : forall p f, p ∈ ps -> Some f ∈ p_ofile p -> is_Some (fl !! f);
  fo_ref : forall f ff, fl !! f = Some ff -> f_ref ff = all_refs f ps;
}.

Lemma refs_insert f l k o o' :
  l !! k = Some o ->
  refs f (<[k := o']> l) = refs f l - (if decide (o = Some f) then 1 else 0) + (if decide (o' = Some f) then 1 else 0).
Proof.
  revert k. induction l as [|x l IH]; intros k Hk; [by rewrite lookup_nil in Hk|].
  destruct k as [|k]; simpl in *; [injection Hk as ->; lia|]. rewrite (IH k Hk). lia.
Qed.

Lemma refs_pos f l : 0 <= refs f l /\ (Some f ∈ l -> 1 <= refs f l).
Proof.
  induction l as [|x l [IH1 IH2]]; simpl; [split; [lia|]; intros H; by apply elem_of_nil in H|].
  split; [case_decide; lia|]. intros [<-|H]%elem_of_cons; [rewrite decide_True by done; lia|].
  specialize (IH2 H). case_decide; lia.
Qed.

Lemma all_refs_insert f ps i p q :
  ps !! i = Some p -> all_refs f (<[i := q]> ps) = all_refs f ps - refs f (p_ofile p) + refs f (p_ofile q).
Proof.
  revert i. induction ps as [|x ps IH]; intros i Hi; [by rewrite lookup_nil in Hi|].
  destruct i as [|i]; simpl in *; [injection Hi as ->; lia|]. rewrite (IH i Hi). lia.
Qed.

Lemma all_refs_pos f ps : 0 <= all_refs f ps /\ (forall p, p ∈ ps -> Some f ∈ p_ofile p -> 1 <= all_refs f ps).
Proof.
  induction ps as [|x ps [IH1 IH2]]; simpl; [split; [lia|]; intros p H; by apply elem_of_nil in H|].
  pose proof (refs_pos f (p_ofile x)) as [H1 H2]. split; [lia|].
  intros p [-> | Hp]%elem_of_cons Hf; [specialize (H2 Hf); lia|]. specialize (IH2 p Hp Hf). lia.
Qed.

(** Only the descriptors matter. *)
Lemma all_refs_ofile f ps ps' : p_ofile <$> ps' = p_ofile <$> ps -> all_refs f ps' = all_refs f ps.
Proof.
  revert ps'. induction ps as [|x ps IH]; intros [|y ps'] H; try discriminate H; [done|].
  rewrite !fmap_cons in H. apply (inj2 cons) in H as [Hxy H]. simpl. by rewrite (IH ps' H), Hxy.
Qed.

Lemma files_ok_ofile fl ps ps' : p_ofile <$> ps' = p_ofile <$> ps -> files_ok fl ps -> files_ok fl ps'.
Proof.
  intros Hs [H1 H2 H3].
  assert (He : forall p, p ∈ ps' -> exists q, q ∈ ps /\ p_ofile q = p_ofile p).
  { intros p Hp. apply (list_elem_of_fmap_2 p_ofile) in Hp. rewrite Hs in Hp.
    apply list_elem_of_fmap in Hp as (q & Hq & Hin). by exists q. }
  split.
  - intros p (q & Hq & <-)%He. by apply H1.
  - intros p f (q & Hq & <-)%He Hf. by eapply H2.
  - intros f ff Hf. rewrite (all_refs_ofile f ps ps' Hs). by apply H3.
Qed.

Lemma still_ofiles (ps ps' : list proc) : still <$> ps' = still <$> ps -> p_ofile <$> ps' = p_ofile <$> ps.
Proof.
  intros H. apply (f_equal (fmap p_ofile)) in H. rewrite <- !list_fmap_compose in H.
  exact H.
Qed.

Lemma files_ok_still fl ps ps' : still <$> ps' = still <$> ps -> files_ok fl ps -> files_ok fl ps'.
Proof. intros H. by apply files_ok_ofile, still_ofiles. Qed.

(** One descriptor of one process changes, and the counts with it. *)
Lemma files_ok_change fl fl' ps i p k o o' :
  files_ok fl ps -> ps !! i = Some p -> p_ofile p !! k = Some o ->
  (forall f, is_Some (fl !! f) -> is_Some (fl' !! f)) -> (forall f, o' = Some f -> is_Some (fl' !! f)) ->
  (forall f ff', fl' !! f = Some ff' -> exists ff, fl !! f = Some ff /\
     f_ref ff' = f_ref ff - (if decide (o = Some f) then 1 else 0) + (if decide (o' = Some f) then 1 else 0)) ->
  files_ok fl' (<[i := set_ofile (<[k := o']> (p_ofile p)) p]> ps).
Proof.
  intros [H1 H2 H3] Hi Hk Hin Ho' Hr. set (q := set_ofile _ p).
  assert (Hq : forall x, x ∈ <[i := q]> ps -> x = q \/ x ∈ ps).
  { intros x Hx. apply list_elem_of_lookup in Hx as [j Hj]. destruct (decide (j = i)) as [-> | Hne].
    - rewrite list_lookup_insert_eq in Hj by (by eapply lookup_lt_Some). left. congruence.
    - rewrite list_lookup_insert_ne in Hj by done. right. by eapply list_elem_of_lookup_2. }
  assert (Hp : p ∈ ps) by (by eapply list_elem_of_lookup_2). split.
  - intros x [-> | Hx]%Hq; [|by apply H1]. cbn [q set_ofile p_ofile]. rewrite length_insert. by apply H1.
  - intros x f [-> | Hx]%Hq Hf; [|apply Hin; by eapply H2]. cbn [q set_ofile p_ofile] in Hf.
    apply list_elem_of_lookup in Hf as [j Hj]. destruct (decide (j = k)) as [-> | Hne].
    + rewrite list_lookup_insert_eq in Hj by (by eapply lookup_lt_Some). apply Ho'. congruence.
    + rewrite list_lookup_insert_ne in Hj by done. apply Hin. eapply H2; [exact Hp|]. by eapply list_elem_of_lookup_2.
  - intros f ff' Hf. destruct (Hr f ff' Hf) as (ff & Hff & ->). rewrite (all_refs_insert f ps i p q Hi).
    cbn [q set_ofile p_ofile]. rewrite (refs_insert f _ k o o' Hk), (H3 f ff Hff). lia.
Qed.

Lemma find_fd_Some l fd : find_fd l = Some fd -> l !! fd = Some None.
Proof.
  revert fd. induction l as [|[x|] l IH]; intros fd H; simpl in H; [done| |by injection H as <-].
  apply fmap_Some in H as (k & Hk & ->). by apply IH.
Qed.

(** The file a descriptor names. *)
Definition descr (p : proc) (fd : Z) : option nat :=
  if (fd <? 0) || (fd >=? Z.of_nat NOFILE) then None else mjoin (p_ofile p !! Z.to_nat fd).

Section refs.
  Context {St : Type} {LO : LogOps St} (i : nat) (p : proc).
  Implicit Types (s : sys St).

  (** The process and the table at a system call. *)
Record call_ok s : Prop := {
    ca_cur : current i p s;
    ca_lock : Spinlock.free (ft_lock s);
    ca_cli : 0 <= ncli (b_cpu (y_base s));
    ca_files : files_ok (ft_files s) (b_procs (y_base s));
  }.

Lemma argfd_run s n v : call_ok s -> arg_reg (p_tf p) n = Some v ->
    argfd n s = Ok ((fun f => (Z.to_nat (s32 v), f)) <$> descr p (s32 v)) s.
  Proof.
    intros [Hc Hl Hn Hf] Hv. unfold argfd, descr. rewrite (bind_ok _ _ _ _ _ (argint_run i p s n v Hc Hv)).
    destruct ((s32 v <? 0) || (s32 v >=? Z.of_nat NOFILE)) eqn:E; [done|].
    rewrite (bind_ok _ _ _ _ _ (curproc_run i p s Hc)).
    assert (Hlen : length (p_ofile p) = NOFILE) by (eapply fo_len; [done|]; eapply list_elem_of_lookup_2, (cu_proc _ _ _ Hc)).
    destruct (lookup_lt_is_Some_2 (p_ofile p) (Z.to_nat (s32 v))) as [o Ho]; [lia|]. by rewrite Ho.
  Qed.

Lemma descr_in s fd f : call_ok s -> descr p fd = Some f ->
    p_ofile p !! Z.to_nat fd = Some (Some f) /\ exists ff, ft_files s !! f = Some ff /\ 1 <= f_ref ff.
  Proof.
    intros [Hc Hl Hn Hf] Hd. unfold descr in Hd. destruct ((fd <? 0) || _); [done|].
    destruct (p_ofile p !! Z.to_nat fd) as [o|] eqn:Ho; [|done]. simpl in Hd. subst o. split; [done|].
    assert (Hp : p ∈ b_procs (y_base s)) by (eapply list_elem_of_lookup_2, (cu_proc _ _ _ Hc)).
    assert (Hin : Some f ∈ p_ofile p) by (by eapply list_elem_of_lookup_2).
    destruct (fo_in _ _ Hf p f Hp Hin) as [ff Hff]. exists ff. split; [done|].
    rewrite (fo_ref _ _ Hf f ff Hff). by apply (proj2 (all_refs_pos f (b_procs (y_base s))) p).
  Qed.

Lemma fdalloc_run s f : current i p s ->
    fdalloc f s = match find_fd (p_ofile p) with
                  | Some fd => Ok (Z.of_nat fd) (set_procs (<[i := set_ofile (<[fd := Some f]> (p_ofile p)) p]> (b_procs (y_base s))) s)
                  | None => Ok (-1) s
                  end.
  Proof.
    intros Hc. unfold fdalloc. rewrite (bind_ok _ _ _ _ _ (curproc_run i p s Hc)).
    destruct (find_fd (p_ofile p)) as [fd|]; [|done]. by rewrite (bind_ok _ _ _ _ _ (upd_cur_run i p _ s Hc)).
  Qed.

  (** C32. [dup] gives the lowest free descriptor for the same file, or -1
      and no change when the descriptor names no file or none is free; either
      way every file's reference count is again the number of descriptors
      that name it. *)
Theorem sys_dup_spec s v :
    call_ok s -> arg_reg (p_tf p) 0 = Some v ->
    exists r s', sys_dup s = Ok r s' /\ files_ok (ft_files s') (b_procs (y_base s')) /\
      match descr p (s32 v), find_fd (p_ofile p) with
      | Some f, Some fd =>
          r = Z.of_nat fd /\ b_procs (y_base s') = <[i := set_ofile (<[fd := Some f]> (p_ofile p)) p]> (b_procs (y_base s))
      | _, _ => r = -1 /\ s' = s
      end.
  Proof.
    intros Hca Hv. pose proof Hca as [Hc Hl Hn Hf]. unfold sys_dup.
    rewrite (bind_ok _ _ _ _ _ (argfd_run s 0 v Hca Hv)).
    destruct (descr p (s32 v)) as [f|] eqn:Hd; [|by exists (-1), s]. cbn [fmap option_fmap option_map].
    destruct (descr_in s _ f Hca Hd) as (Ho & ff & Hff & Href).
    pose proof (fdalloc_run s f Hc) as Hfd. destruct (find_fd (p_ofile p)) as [fd|] eqn:Hfind.
    2:{ rewrite (bind_ok _ _ _ _ _ Hfd). by exists (-1), s. }
    rewrite (bind_ok _ _ _ _ _ Hfd). destruct (Z.ltb_spec (Z.of_nat fd) 0); [lia|].
    set (s1 := set_procs _ s).
    assert (Hb1 : b_cpu (y_base s1) = b_cpu (y_base s)) by (unfold s1; by rewrite y_base_procs).
    rewrite (bind_ok _ _ _ _ _ (filedup_run s1 f ff Hl ltac:(by rewrite Hb1) Hff Href)).
    eexists _, _. split; [reflexivity|]. rewrite ft_out_base. cbn [with_cpu b_procs ft_files ft_out].
    unfold s1. rewrite y_base_procs. cbn [b_procs]. split; [|done].
    change (ft_files (set_procs _ s)) with (ft_files s).
    eapply (files_ok_change (ft_files s)); [exact Hf|apply Hc|by apply find_fd_Some|..].
    - intros g [gg Hg]. destruct (decide (g = f)) as [-> | Hne].
      + rewrite list_lookup_alter_eq, Hg. by eexists.
      + rewrite list_lookup_alter_ne by done. by eexists.
    - intros g [= <-]. rewrite list_lookup_alter_eq, Hff. by eexists.
    - intros g gg Hg. rewrite decide_False by done. destruct (decide (g = f)) as [-> | Hne].
      + rewrite list_lookup_alter_eq, Hff in Hg. injection Hg as <-. exists ff.
        rewrite decide_True by done. split; [done|]. cbn [f_ref set_fref]. lia.
      + rewrite list_lookup_alter_ne in Hg by done. exists gg. rewrite decide_False by congruence. split; [done|lia].
  Qed.
End refs.

Section close.
  Context {St : Type} {LO : LogOps St} {TL : TransLaws St} (cap : nat) (kend : Z) (i : nat) (p : proc).
  Implicit Types (s : sys St).

  (** Dropping a descriptor and its count. *)
Lemma files_ok_drop fl ps fd f ff (g : file -> file) :
    files_ok fl ps -> ps !! i = Some p -> p_ofile p !! fd = Some (Some f) -> fl !! f = Some ff ->
    f_ref (g ff) = f_ref ff - 1 ->
    files_ok (alter g f fl) (<[i := set_ofile (<[fd := None]> (p_ofile p)) p]> ps).
  Proof.
    intros Hok Hi Hfd Hff Hg. eapply (files_ok_change fl); [exact Hok|exact Hi|exact Hfd|..].
    - intros h [hh Hh]. destruct (decide (h = f)) as [-> | Hne].
      + rewrite list_lookup_alter_eq, Hh. by eexists.
      + rewrite list_lookup_alter_ne by done. by eexists.
    - done.
    - intros h hh Hh. rewrite (decide_False (P := None = Some h)) by done. destruct (decide (h = f)) as [-> | Hne].
      + rewrite list_lookup_alter_eq, Hff in Hh. injection Hh as <-. exists ff.
        rewrite decide_True by done. split; [done|]. lia.
      + rewrite list_lookup_alter_ne in Hh by done. exists hh. rewrite decide_False by congruence. split; [done|lia].
  Qed.

  (** The inode behind a file is not to be freed with it. *)
Definition inode_stays s (ff : file) : Prop :=
    exists ip, ic_inodes (y_fs s) !! f_ip ff = Some ip /\
      (i_ref ip =? 1) && Flag.has (i_flags ip) I_VALID && (i_nlink ip =? 0) = false.

End close.

Section read.
  Context {St : Type} {LO : LogOps St} {TL : TransLaws St} (devsw : Z -> @devops St) (cap : nat) (i : nat) (p : proc).
  Implicit Types (s : sys St).

  (** The arguments of read and write. *)
Record io_args (fd buf n : Z) : Prop := {
    ia_fd : arg_reg (p_tf p) 0 = Some fd;
    ia_buf : arg_reg (p_tf p) 1 = Some buf;
    ia_n : arg_reg (p_tf p) 2 = Some n;
  }.

Lemma sys_read_run s V k ip lim fd buf n f ff :
    call_ok i p s -> ino_ok cap s V k ip lim -> io_args fd buf n -> is_u32 n -> is_u32 buf ->
    descr p (s32 fd) = Some f -> ft_files s !! f = Some ff -> f_type ff = FD_INODE -> f_ip ff = k ->
    f_readable ff <> 0 -> 0 <= f_off ff <= i_size ip -> f_off ff + n < 2 ^ 32 ->
    argptr 1 (s32 n) s = Ok (Some buf) s ->
    let r := Z.min n (i_size ip - f_off ff) in
    exists s1, ino_ok cap s1 V k ip lim /\ ft_files s1 = <[f := set_foff (f_off ff + r) ff]> (ft_files s) /\
      sys_read devsw s = (store buf (file_bytes V ip (f_off ff) (Z.to_nat r)) ;;; ret r) s1.
  Proof.
    intros Hca HI [A0 A1 A2] Hn Hbuf Hd Hff Hty Hk Hrd Hoff Hw Hptr r. unfold sys_read.
    rewrite (bind_ok _ _ _ _ _ (argfd_run i p s 0 fd Hca A0)), Hd. cbn [fmap option_fmap option_map].
    rewrite (bind_ok _ _ _ _ _ (argint_run i p s 2 n (ca_cur _ _ _ Hca) A2)). rewrite (bind_ok _ _ _ _ _ Hptr).
    destruct (wp_outcome _ _ _ (fileread_run devsw cap s V k ip lim f ff (s32 n) HI Hff Hty Hk Hrd Hoff
      ltac:(by rewrite u32_s32))) as (x & s1 & E & -> & HI1 & F1 & _).
    rewrite u32_s32 in * by done. exists s1. split_and!; [done|done|]. by rewrite (bind_ok _ _ _ _ _ E).
  Qed.

  (** C37. [read] with the length -1 is not refused: from the start of a file
      the kernel goes on to store the whole file at the buffer, wherever in
      the process's memory the buffer lies and however little is left after
      it. *)
Theorem sys_read_negative s V k ip lim fd buf f ff :
    call_ok i p s -> ino_ok cap s V k ip lim -> io_args fd buf (2 ^ 32 - 1) ->
    descr p (s32 fd) = Some f -> ft_files s !! f = Some ff -> f_type ff = FD_INODE -> f_ip ff = k ->
    f_readable ff <> 0 -> f_off ff = 0 -> 0 < buf < p_sz p -> p_sz p <= KERNBASE ->
    exists s1, sys_read devsw s = (store buf (file_bytes V ip 0 (Z.to_nat (i_size ip))) ;;; ret (i_size ip)) s1.
  Proof.
    intros Hca HI Ha Hd Hff Hty Hk Hrd Hoff Hbuf Hsz.
    pose proof (mp_max _ _ _ _ (ino_map _ _ _ _ _ _ HI)) as Hmax. change (MAXFILE * BSIZE) with 71680 in Hmax.
    pose proof (ino_size _ _ _ _ _ _ HI) as Hs. unfold KERNBASE in Hsz.
    destruct (sys_read_run s V k ip lim fd buf (2 ^ 32 - 1) f ff Hca HI Ha) as (s1 & _ & _ & E); try done.
    - unfold is_u32. lia.
    - lia.
    - lia.
    - change (s32 (2 ^ 32 - 1)) with (-1).
      apply (argptr_negative i p s 1 (-1) buf (ca_cur _ _ _ Hca) (ia_buf _ _ _ Ha)); unfold is_u32, KERNBASE; lia.
    - exists s1. rewrite E, Hoff. replace (Z.min (2 ^ 32 - 1) (i_size ip - 0)) with (i_size ip) by lia. done.
  Qed.
End read.

(** *** A process with descriptors 0 and 1 open on the file of File *)
Definition proc1 : proc :=
  Proc 0x3000 0x80300000 0 RUNNING 1 None (Trapframe 0 0 0 0 5 1 0x2ff0 (2 ^ 32 - 1) 0 0 0 0 []) None 0
    ([Some 0%nat; Some 1%nat] ++ replicate 14 None) (Some 0%nat) [].
Definition base1 : base := Base (Cpu 0 0 false false (Some 0%nat)) (Spinlock 0 "ptable" None []) [proc1].
Definition sys1 : sys log :=
  set_files [File FD_INODE 1 0 1 0 0 600; File FD_INODE 1 1 0 0 0 0; file0] (set_base base1 sys0).

Lemma ino_ok_files {St} {LO : LogOps St} {TL : TransLaws St} cap (s : sys St) V i ip lim b l :
  ino_ok cap s V i ip lim -> base_ok b -> ino_ok cap (set_files l (set_base b s)) V i ip lim.
Proof.
  intros H Hb. destruct (idle_base cap s V b (ino_idle _ _ _ _ _ _ H) Hb) as [R Hh].
  eapply (ino_ok_keep cap s); [exact H|exact R|reflexivity|exact Hh].
Qed.
Lemma y_base_files {St} {LO : LogOps St} l b (s : sys St) : y_base (set_files l (set_base b s)) = b.
Proof. apply y_base_set. Qed.

Lemma sys1_call : call_ok 0 proc1 sys1.
Proof.
  assert (Hb : y_base sys1 = base1) by apply y_base_files.
  split; rewrite ?Hb; [split; by rewrite Hb|reflexivity|simpl; lia|].
  split.
  - by intros q ->%list_elem_of_singleton.
  - intros q f ->%list_elem_of_singleton Hf. cbn [proc1 p_ofile] in Hf.
    apply elem_of_app in Hf as [Hf|[Hf _]%elem_of_replicate]; [|done].
    rewrite !elem_of_cons, elem_of_nil in Hf. destruct Hf as [[= ->]|[[= ->]|[]]]; by eexists.
  - intros f ff Hf. destruct f as [|[|[|f]]]; try discriminate Hf; injection Hf as <-; reflexivity.
Qed.

Lemma sys1_ino : ino_ok 9 sys1 (disk_get fs_disk) 0 ip4 1024.
Proof. apply ino_ok_files; [exact sys0_ino|]. split; [reflexivity|]. simpl. lia. Qed.

Lemma sys_dup_spec_witness :
  exists r s', sys_dup sys1 = Ok r s' /\ files_ok (ft_files s') (b_procs (y_base s')) /\ r = 2.
Proof.
  destruct (sys_dup_spec 0 proc1 sys1 1 sys1_call eq_refl) as (r & s' & E & F & R & _).
  exists r, s'. split; [exact E|]. split; [exact F|exact R].
Defined.


Lemma sys_read_negative_witness :
  exists s1, sys_read no_devs sys1 =
    (store 0x2ff0 (file_bytes (disk_get fs_disk) ip4 0 700) ;;; ret 700) s1.
Proof.
  apply (sys_read_negative no_devs 9 0 proc1 sys1 (disk_get fs_disk) 0 ip4 1024 1 0x2ff0 1 (File FD_INODE 1 1 0 0 0 0)
    sys1_call sys1_ino); try reflexivity.
  - split; reflexivity.
  - discriminate.
  - simpl. lia.
  - unfold KERNBASE. simpl. lia.
Defined.
