(* ===== verification/Life.v ===== *)
(** The life of a process: what allocproc, exit, wait and the scheduler of
    proc.c do to the process table and to the rest of the kernel. *)
From stdpp Require Import base numbers list strings sets gmap sorting.
From Stdlib Require Import Sorted.
From S2P Require Import Prelude Params Spinlock Sched Bio Cache BlockIf Log Crash Trans Balloc Inode FileData Dir Kalloc Vm VmFree Pipe Sys File Proc Exec Syscall Sysfile.

Set Warnings "-clear-no-such-hyp".

(** ** The process table under its lock *)
Section table.
  Context {St : Type} {LO : LogOps St}.
  Implicit Types (s : sys St) (ps : list proc).

Lemma getp_run k p s : b_procs (y_base s) !! k = Some p -> getp k s = Ok p s.
  Proof.
    intros Hk. apply on_base_same. unfold get_proc. erewrite bind_ok by reflexivity. by rewrite Hk.
  Qed.
Lemma updp_run k f s : updp k f s = Ok tt (set_procs (alter f k (b_procs (y_base s))) s).
  Proof. apply upd_proc_run. Qed.

  (** With [ptable.lock] taken on the CPU [c]. *)
Definition held (c : cpu) (lk : spinlock) ps s : sys St := set_base (Base (cli c) (taken c lk) ps) s.
Definition unheld (c : cpu) (lk : spinlock) ps s : sys St := set_base (Base (quiet c) (dropped lk) ps) s.

Lemma lock_ptable_run s :
    Spinlock.free (b_lock (y_base s)) ->
    lock_ptable s = Ok tt (held (b_cpu (y_base s)) (b_lock (y_base s)) (b_procs (y_base s)) s).
  Proof. intros Hf. unfold lock_ptable. by erewrite on_base_ok by (by apply ptable_acquire). Qed.

Lemma unlock_ptable_run c lk ps s :
    0 <= ncli c -> unlock_ptable (held c lk ps s) = Ok tt (unheld c lk ps s).
  Proof.
    intros Hn. unfold unlock_ptable, held, unheld. erewrite on_base_ok.
    2:{ rewrite y_base_set. by apply ptable_release. }
    by rewrite set_base_set.
  Qed.

Lemma y_base_held c lk ps s : y_base (held c lk ps s) = Base (cli c) (taken c lk) ps.
  Proof. apply y_base_set. Qed.
Lemma y_base_unheld c lk ps s : y_base (unheld c lk ps s) = Base (quiet c) (dropped lk) ps.
  Proof. apply y_base_set. Qed.
Lemma set_procs_held c lk ps ps' s : set_procs ps' (held c lk ps s) = held c lk ps' s.
  Proof. unfold set_procs, held. by rewrite y_base_set, set_base_set. Qed.

Lemma procs_held c lk ps s : procs (held c lk ps s) = Ok ps (held c lk ps s).
  Proof. unfold procs, gets. by rewrite y_base_held. Qed.
Lemma getp_held k p c lk ps s : ps !! k = Some p -> getp k (held c lk ps s) = Ok p (held c lk ps s).
  Proof. intros Hk. apply getp_run. by rewrite y_base_held. Qed.
Lemma updp_held k f c lk ps s : updp k f (held c lk ps s) = Ok tt (held c lk (alter f k ps) s).
  Proof. rewrite updp_run, y_base_held. by rewrite set_procs_held. Qed.
Lemma current_held i p c lk ps s : cproc c = Some i -> ps !! i = Some p -> current i p (held c lk ps s).
  Proof. intros Hc Hp. split; by rewrite y_base_held. Qed.
Lemma upd_cur_held i f c lk ps s p :
    cproc c = Some i -> ps !! i = Some p -> upd_cur f (held c lk ps s) = Ok tt (held c lk (<[i := f p]> ps) s).
  Proof.
    intros Hc Hp. rewrite (upd_cur_run i p f _ (current_held i p c lk ps s Hc Hp)), y_base_held. by rewrite set_procs_held.
  Qed.

  (** *** Waking a parent *)
Definition wake_for (o : option nat) (p : proc) : proc :=
    match o with Some q => wake (ChProc q) p | None => p end.

Lemma wake_proc_held o c lk ps s :
    wake_proc o (held c lk ps s) = Ok tt (held c lk (wake_for o <$> ps) s).
  Proof.
    destruct o as [q|]; simpl; [|by rewrite list_fmap_id].
    erewrite on_base_ok by reflexivity. rewrite y_base_held. cbn [b_cpu b_lock b_procs].
    unfold held. by rewrite set_base_set.
  Qed.

Lemma wake_for_same o p :
    p_parent (wake_for o p) = p_parent p /\ (p_state p = ZOMBIE <-> p_state (wake_for o p) = ZOMBIE).
  Proof. destruct o; [|done]. unfold wake_for, wake. case_bool_decide as H; [|done]. destruct H as [-> _]. done. Qed.

  (** *** reparent: children go to init, which is woken when one of them is a
      zombie *)
Definition adopt (me : nat) (ini : option nat) (p : proc) : proc :=
    if child_of me p then set_parent ini p else p.
Definition orphan (me : nat) (p : proc) : bool := child_of me p && is_state ZOMBIE p.
Definition stir (b : bool) (ini : option nat) (p : proc) : proc := if b then wake_for ini p else p.
Definition adopted (me : nat) (ini : option nat) ps : list proc :=
    stir (existsb (orphan me) ps) ini <$> (adopt me ini <$> ps).

  (** The table after the first [j] turns of the loop. *)
Definition adopted_to (me : nat) (ini : option nat) ps (j : nat) : list proc :=
    stir (existsb (orphan me) (take j ps)) ini <$> (adopt me ini <$> take j ps) ++ drop j ps.

Lemma wake_for_twice o p : wake_for o (wake_for o p) = wake_for o p.
  Proof.
    destruct o as [q|]; [|done]. unfold wake_for, wake.
    destruct (bool_decide (p_state p = SLEEPING /\ p_chan p = Some (ChProc q))) eqn:E; [|by rewrite E].
    by rewrite bool_decide_eq_false_2 by (by intros [? _]).
  Qed.
Lemma stir_parent b ini o p : set_parent o (stir b ini p) = stir b ini (set_parent o p).
  Proof. destruct b, ini; simpl; try done. unfold wake. cbn [set_parent p_state p_chan]. by case_bool_decide. Qed.

Lemma adopted_to_S me ini ps j p :
    ps !! j = Some p ->
    adopted_to me ini ps (S j) =
      (if orphan me p then fmap (wake_for ini) else id) (alter (adopt me ini) j (adopted_to me ini ps j)).
  Proof.
    intros Hj. pose proof (lookup_lt_Some _ _ _ Hj) as Hlt. unfold adopted_to.
    rewrite (take_S_r _ _ _ Hj), existsb_app. cbn [existsb]. rewrite orb_false_r.
    set (b := existsb (orphan me) (take j ps)).
    assert (E : alter (adopt me ini) j (stir b ini <$> (adopt me ini <$> take j ps) ++ p :: drop (S j) ps) =
                stir b ini <$> (adopt me ini <$> take j ps ++ [p]) ++ drop (S j) ps).
    { rewrite !fmap_app, fmap_cons, <- (app_assoc _ _ (stir b ini <$> _)). cbn [fmap list_fmap app].
      assert (Hl : length (stir b ini <$> (adopt me ini <$> take j ps)) = j)
        by (rewrite !length_fmap, length_take; lia).
      rewrite <- Hl at 1. rewrite alter_app_r_alt by lia. rewrite Nat.sub_diag. cbn [alter list_alter app].
      do 2 f_equal. unfold adopt, child_of.
      assert (Hp : p_parent (stir b ini p) = p_parent p) by (destruct b; [apply wake_for_same|done]).
      rewrite Hp. case_bool_decide; [|done]. apply stir_parent. }
    rewrite (drop_S _ _ _ Hj), E. destruct (orphan me p); [|by rewrite orb_false_r].
    rewrite orb_true_r, <- list_fmap_compose. apply list_fmap_ext. intros _ q _. unfold compose, stir.
    destruct b; [|done]. by rewrite wake_for_twice.
  Qed.

Lemma adopted_to_lookup me ini ps j p :
    ps !! j = Some p -> exists b, adopted_to me ini ps j !! j = Some (stir b ini p).
  Proof.
    intros Hj. pose proof (lookup_lt_Some _ _ _ Hj). eexists. unfold adopted_to.
    rewrite list_lookup_fmap, lookup_app_r by (rewrite length_fmap, length_take; lia).
    rewrite length_fmap, length_take, lookup_drop, Nat.min_l by lia.
    by replace (j + (j - j))%nat with j by lia; rewrite Hj.
  Qed.

Lemma stir_orphan me b ini p :
    child_of me (stir b ini p) = child_of me p /\ is_state ZOMBIE (stir b ini p) = is_state ZOMBIE p.
  Proof.
    destruct b; [|done]. destruct (wake_for_same ini p) as [H1 H2]. unfold stir, child_of, is_state.
    rewrite H1. split; [done|]. apply bool_decide_ext. by symmetry.
  Qed.


Lemma reparent_run me c lk ps s :
    reparent me (held c lk ps s) = Ok tt (held c lk (adopted me (v_initproc (y_vars s)) ps) s).
  Proof.
    set (ini := v_initproc (y_vars s)).
    assert (H : wp (reparent me) (fun _ s' => s' = held c lk (adopted_to me ini ps (length ps)) s) (held c lk ps s)).
    { unfold reparent. apply wp_bind. eapply outcome_wp; [apply procs_held|].
      apply (wp_for (fun j s' => s' = held c lk (adopted_to me ini ps j) s)).
      { unfold adopted_to. cbn. by rewrite list_fmap_id. }
      intros j s' Hj ->. destruct (lookup_lt_is_Some_2 ps j Hj) as [p Hp].
      destruct (adopted_to_lookup me ini ps j p Hp) as [b Hb]. destruct (stir_orphan me b ini p) as [E1 E2].
      rewrite (adopted_to_S me ini ps j p Hp). apply wp_bind. eapply outcome_wp; [by apply getp_held|].
      rewrite E1, E2. unfold orphan.
      assert (Ha : child_of me p = true ->
        alter (set_parent ini) j (adopted_to me ini ps j) = alter (adopt me ini) j (adopted_to me ini ps j)).
      { intros Hc. eapply alter_ext_at; [exact Hb|]. unfold adopt. by rewrite E1, Hc. }
      destruct (child_of me p) eqn:Ec; cbn [andb].
      - apply wp_bind, wp_get, wp_bind. eapply outcome_wp; [apply updp_held|].
        change (v_initproc (y_vars (held c lk (adopted_to me ini ps j) s))) with ini. rewrite Ha by done.
        destruct (is_state ZOMBIE p); [|by apply wp_ret]. eapply outcome_wp; [apply wake_proc_held|done].
      - apply wp_ret. f_equal. symmetry.
        rewrite (alter_ext_at _ id _ _ _ Hb) by (unfold adopt; by rewrite E1). by apply list_alter_id. }
    destruct (wp_outcome _ _ _ H) as ([] & s' & E & ->). rewrite E. do 2 f_equal.
    unfold adopted_to, adopted. by rewrite firstn_all, drop_all, app_nil_r.
  Qed.
End table.

(** ** exit *)
Lemma still_ofile p q : still p = still q -> p_ofile p = p_ofile q /\ p_cwd p = p_cwd q /\ p_parent p = p_parent q.
Proof. destruct p, q. by intros [=]. Qed.

Lemma still_lookup (ps ps' : list proc) i p :
  still <$> ps' = still <$> ps -> ps !! i = Some p -> exists p', ps' !! i = Some p' /\ still p' = still p.
Proof.
  intros Hs Hi. assert (H : (still <$> ps') !! i = Some (still p)) by (by rewrite Hs, list_lookup_fmap, Hi).
  rewrite list_lookup_fmap in H. apply fmap_Some in H as (p' & Hp & E). by exists p'.
Qed.

Section exit.
  Context {St : Type} {LO : LogOps St} {TL : TransLaws St} (cap : nat) (kend : Z) (me : nat).
  Implicit Types (s : sys St).

  (** An inode in the cache that has a name, and an open file on one. *)
Definition linked s (i : nat) : Prop := exists ip, ic_inodes (y_fs s) !! i = Some ip /\ i_nlink ip <> 0.
Definition on_inode s (f : nat) : Prop :=
    exists ff, ft_files s !! f = Some ff /\ f_type ff = FD_INODE /\ linked s (f_ip ff).

Definition keeps_linked s s' : Prop := forall i, linked s i -> linked s' i.

Lemma linked_stays s i ip : ic_inodes (y_fs s) !! i = Some ip -> linked s i ->
    (i_ref ip =? 1) && Flag.has (i_flags ip) I_VALID && (i_nlink ip =? 0) = false.
  Proof.
    intros Hi (ip' & Hi' & Hn). rewrite Hi in Hi'. injection Hi' as <-.
    destruct (i_nlink ip =? 0) eqn:E; [lia|]. apply andb_false_r.
  Qed.

Lemma keeps_linked_put s s' i :
    ic_inodes (y_fs s') = alter (fun ip => set_iref (i_ref ip - 1) ip) i (ic_inodes (y_fs s)) -> keeps_linked s s'.
  Proof.
    intros HI j (ip & Hj & Hn). unfold linked. rewrite HI. destruct (decide (j = i)) as [-> | Hne].
    - rewrite list_lookup_alter_eq, Hj. by eexists.
    - rewrite list_lookup_alter_ne by done. by exists ip.
  Qed.

  (** *** Closing a file on an inode that has a name *)
Lemma fileclose_inode s V f ff :
    idle cap s V -> 1 < home s -> Spinlock.free (ft_lock s) -> ft_files s !! f = Some ff -> 1 <= f_ref ff ->
    f_type ff = FD_INODE -> linked s (f_ip ff) ->
    wp (fileclose kend f) (fun _ s' => idle cap s' V /\ home s' = home s /\ keeps_linked s s' /\
      (exists g, ft_files s' = alter g f (ft_files s) /\ f_ref (g ff) = f_ref ff - 1 /\
         (1 < f_ref ff -> f_type (g ff) = FD_INODE /\ f_ip (g ff) = f_ip ff)) /\
      Spinlock.free (ft_lock s') /\ y_vars s' = y_vars s /\ calm (y_base s) (y_base s')) s.
  Proof.
    intros HV Hh Hl Hff Href Hty Hlk. pose proof (idle_ok cap s V HV) as [_ Hn].
    pose proof (fileclose_run kend s f ff Hl Hn Hff Href) as Hrun. destruct (decide (f_ref ff = 1)) as [H1|H1].
    - set (s1 := ft_out (alter closed f (ft_files s)) s) in *.
      destruct (ft_out_idle cap (alter closed f (ft_files s)) s V HV) as [HV1 Hh1]. fold s1 in HV1, Hh1.
      pose proof Hlk as (ip & Hip & Hnl).
      destruct (wp_outcome _ _ _ (close_inode cap kend s1 V ff ip HV1 ltac:(by rewrite Hh1) Hty Hip (linked_stays s _ ip Hip Hlk)))
        as ([] & s' & E & R & Hh' & I & F & (_ & K1 & _ & K2) & C).
      eapply outcome_wp; [exact (eq_trans Hrun E)|]. split_and!; [done|congruence|by eapply keeps_linked_put| |by rewrite K1|done|].
      + exists closed. split_and!; [done|cbn; lia|lia].
      + transitivity (y_base s1); [apply ft_out_calm|done].
    - eapply outcome_wp; [exact Hrun|].
      destruct (ft_out_idle cap (alter (fun ff => set_fref (f_ref ff - 1) ff) f (ft_files s)) s V HV) as [HV1 Hh1].
      split_and!; [done|done|by intros ??| |done|done|apply ft_out_calm]. by eexists.
  Qed.

  (** The kernel while process [me] gives up what it holds: its files and its
      directory are on inodes that have names. *)
Record exiting (V : Z -> list Z) (p : proc) s : Prop := {
    ex_call : call_ok me p s;
    ex_idle : idle cap s V;
    ex_home : 1 < home s;
    ex_open : forall f, Some f ∈ p_ofile p -> on_inode s f;
    ex_cwd : exists c, p_cwd p = Some c /\ linked s c;
  }.

Definition drop_fd (fd : nat) (p : proc) : proc := set_ofile (<[fd := None]> (p_ofile p)) p.

  (** Everything but the file system and the scheduling states. *)
Definition frame (ps : list proc) s s' : Prop :=
    y_vars s' = y_vars s /\ cpu_id (b_cpu (y_base s')) = cpu_id (b_cpu (y_base s)) /\
    ncli (b_cpu (y_base s')) = ncli (b_cpu (y_base s)) /\ still <$> b_procs (y_base s') = still <$> ps.

Lemma still_drop fd p q : still p = still q -> still (drop_fd fd p) = still (drop_fd fd q).
  Proof. destruct p, q. unfold still, drop_fd, set_state, set_ofile. cbn. intros [=]. by subst. Qed.

Lemma close_fd V p s fd f :
    exiting V p s -> p_ofile p !! fd = Some (Some f) ->
    wp (fileclose kend f ;;; upd_cur (drop_fd fd)) (fun _ s' => exists p', exiting V p' s' /\
      still p' = still (drop_fd fd p) /\ frame (<[me := drop_fd fd p]> (b_procs (y_base s))) s s') s.
  Proof.
    intros [[Hc Hl Hn Hf] HV Hh Hop (c & Hcwd & Hlk)] Hfd. pose proof (cu_proc _ _ _ Hc) as Hme.
    assert (Hin : Some f ∈ p_ofile p) by (by eapply list_elem_of_lookup_2).
    assert (Hp : p ∈ b_procs (y_base s)) by (by eapply list_elem_of_lookup_2).
    destruct (Hop f Hin) as (ff & Hff & Hty & Hlf).
    assert (Href : 1 <= f_ref ff)
      by (rewrite (fo_ref _ _ Hf f ff Hff); by apply (proj2 (all_refs_pos f (b_procs (y_base s))) p)).
    apply wp_bind. wp_call (fileclose_inode s V f ff HV Hh Hl Hff Href Hty Hlf).
    intros [] s1 (HV1 & Hh1 & Hk & (g & Hg & Hgr & Hgt) & Hl1 & Hv & (C1 & C2 & C3 & C4)).
    destruct (still_lookup _ _ me p C4 Hme) as (p1 & Hp1 & Es).
    destruct (still_ofile _ _ Es) as (Eo & Ec & _).
    assert (Hc1 : current me p1 s1) by (split; [rewrite C3; apply Hc|done]).
    eapply outcome_wp; [by apply (upd_cur_run me p1)|].
    set (q := drop_fd fd p1). set (ps1 := <[me := q]> (b_procs (y_base s1))).
    assert (Eq : still q = still (drop_fd fd p)) by (by apply still_drop).
    assert (Hps : still <$> ps1 = still <$> <[me := drop_fd fd p]> (b_procs (y_base s)))
      by (unfold ps1; by rewrite !list_fmap_insert, C4, Eq).
    destruct (idle_base cap s1 V (Base (b_cpu (y_base s1)) (b_lock (y_base s1)) ps1) HV1) as [HV2 Hh2].
    { destruct (idle_ok cap s1 V HV1). by split. }
    fold (set_procs ps1 s1) in HV2, Hh2.
    assert (Hfo : files_ok (ft_files s1) ps1).
    { eapply files_ok_still; [exact Hps|]. rewrite Hg. by eapply files_ok_drop. }
    exists q. split_and!; [|done|].
    2:{ unfold frame. rewrite y_base_procs. cbn [b_cpu b_procs]. by split_and!. }
    split.
    - split; rewrite ?y_base_procs; cbn [b_cpu b_procs]; try done; [|by rewrite C2].
      split; rewrite y_base_procs; [cbn [b_cpu]; rewrite C3; apply Hc|]. cbn [b_procs]. unfold ps1.
      rewrite list_lookup_insert_eq; [done|]. by eapply lookup_lt_Some.
    - done.
    - by rewrite Hh2, Hh1.
    - intros h Hh'. assert (Hh0 : Some h ∈ p_ofile p).
      { unfold q, drop_fd in Hh'. cbn [set_ofile p_ofile] in Hh'. rewrite Eo in Hh'.
        apply list_elem_of_lookup in Hh' as [k Hk']. apply list_lookup_insert_Some in Hk' as [(_ & ? & _)|[_ ?]]; [done|].
        by eapply list_elem_of_lookup_2. }
      destruct (Hop h Hh0) as (hh & Hhh & Ht & Hlh). unfold on_inode.
      change (ft_files (set_procs ps1 s1)) with (ft_files s1). rewrite Hg.
      destruct (decide (h = f)) as [-> | Hne].
      + rewrite Hff in Hhh. injection Hhh as <-. rewrite list_lookup_alter_eq, Hff. exists (g ff).
        assert (Hr1 : 1 <= f_ref (g ff)).
        { rewrite (fo_ref _ _ Hfo f (g ff)) by (by rewrite Hg, list_lookup_alter_eq, Hff).
          apply (proj2 (all_refs_pos f ps1) q); [|done]. unfold ps1. eapply list_elem_of_lookup_2.
          rewrite list_lookup_insert_eq; [done|]. by eapply lookup_lt_Some. }
        destruct Hgt as [Ht1 Ht2]; [lia|]. split_and!; [done|done|]. rewrite Ht2. by apply Hk.
      + rewrite list_lookup_alter_ne by done. exists hh. split_and!; [done|done|]. by apply Hk.
    - exists c. cbn [q drop_fd set_ofile p_cwd]. rewrite Ec. split; [done|]. by apply Hk.
  Qed.

  (** *** All of them *)
Definition closed_to (j : nat) (p : proc) : proc := set_ofile (replicate j None ++ drop j (p_ofile p)) p.

Lemma closed_to_S j p o :
    p_ofile p !! j = Some o -> closed_to (S j) p = drop_fd j (closed_to j p) /\ p_ofile (closed_to j p) !! j = Some o.
  Proof.
    intros Hj. unfold closed_to, drop_fd. cbn [set_ofile p_ofile]. rewrite (drop_S _ _ _ Hj). split.
    - unfold set_ofile. cbn. f_equal. rewrite insert_app_r_alt by (rewrite length_replicate; lia).
      rewrite length_replicate, Nat.sub_diag. cbn [insert list_insert].
      by rewrite (cons_middle None), app_assoc, <- replicate_S_end.
    - rewrite lookup_app_r by (rewrite length_replicate; lia). by rewrite length_replicate, Nat.sub_diag.
  Qed.

Lemma drop_fd_none j p : p_ofile p !! j = Some None -> drop_fd j p = p.
  Proof. intros Hj. unfold drop_fd. rewrite list_insert_id by done. by destruct p. Qed.

Lemma close_files_run V p s :
    exiting V p s ->
    wp (close_files kend) (fun _ s' => exists p', exiting V p' s' /\ still p' = still (closed_to NOFILE p) /\
      frame (<[me := closed_to NOFILE p]> (b_procs (y_base s))) s s') s.
  Proof.
    intros He. pose proof (cu_proc _ _ _ (ca_cur _ _ _ (ex_call _ _ _ He))) as Hme.
    assert (Hlen : length (p_ofile p) = NOFILE).
    { eapply fo_len; [apply (ca_files _ _ _ (ex_call _ _ _ He))|]. by eapply list_elem_of_lookup_2. }
    apply (wp_for (fun j s' => exists p', exiting V p' s' /\ still p' = still (closed_to j p) /\
      frame (<[me := closed_to j p]> (b_procs (y_base s))) s s')).
    { exists p. replace (closed_to 0 p) with p by (by destruct p). rewrite list_insert_id by done. by split_and!. }
    intros j s' Hj (p' & He' & Es & Hfr). destruct (lookup_lt_is_Some_2 (p_ofile p) j ltac:(lia)) as [o Ho].
    destruct (closed_to_S j p o Ho) as [E1 E2]. destruct (still_ofile _ _ Es) as (Eo & _).
    apply wp_bind. eapply outcome_wp; [eapply curproc_run, (ca_cur _ _ _ (ex_call _ _ _ He'))|].
    apply wp_bind. eapply wp_some; [by rewrite Eo|]. rewrite E1. destruct o as [f|].
    - wp_call (close_fd V p' s' j f He' ltac:(by rewrite Eo)). intros [] s2 (p2 & He2 & Es2 & Hfr2).
      exists p2. split_and!; [done|rewrite Es2; by apply still_drop|].
      destruct Hfr as (A1 & A2 & A3 & A4), Hfr2 as (B1 & B2 & B3 & B4). split_and!; try congruence.
      rewrite B4, !list_fmap_insert, A4, list_fmap_insert, list_insert_insert_eq. by rewrite (still_drop j p' _ Es).
    - apply wp_ret. rewrite (drop_fd_none j (closed_to j p) E2). by exists p'.
  Qed.

  (** *** The end: the parent and the children are told, and the CPU goes to
      the scheduler for good *)
Definition mourned (ini : option nat) (p : proc) (ps : list proc) : list proc :=
    adopted me ini (wake_for (p_parent p) <$> ps).

Definition die : M (sys St) unit :=
    lock_ptable ;;;
    p <- curproc ;;
    wake_proc (p_parent p) ;;;
    reparent me ;;;
    upd_cur (set_state ZOMBIE) ;;;
    on_base sched.

Lemma mourned_lookup ini p ps k q :
    ps !! k = Some q -> exists b, mourned ini p ps !! k = Some (stir b ini (adopt me ini (wake_for (p_parent p) q))).
  Proof. intros Hk. eexists. unfold mourned, adopted. by rewrite !list_lookup_fmap, Hk. Qed.

Lemma die_run p s :
    current me p s -> Spinlock.free (b_lock (y_base s)) -> ncli (b_cpu (y_base s)) = 0 ->
    let T := mourned (v_initproc (y_vars s)) p (b_procs (y_base s)) in
    exists q k, T !! me = Some q /\
      die s = Switch (held (b_cpu (y_base s)) (b_lock (y_base s)) (<[me := set_state ZOMBIE q]> T) s) k /\
      forall s2, exists s3, k s2 = Ok tt s3.
  Proof.
    intros [Hc Hp] Hf Hn T. destruct (mourned_lookup (v_initproc (y_vars s)) p _ _ _ Hp) as [b Hq]. fold T in Hq.
    set (q := stir b _ _) in Hq. set (c := b_cpu (y_base s)) in *. set (lk := b_lock (y_base s)) in *.
    eexists q, _. split; [done|]. unfold die. rewrite (bind_ok _ _ _ _ _ (lock_ptable_run s Hf)).
    fold c lk. rewrite (bind_ok _ _ _ _ _ (curproc_run me p _ (current_held me p c lk _ s Hc Hp))).
    rewrite (bind_ok _ _ _ _ _ (wake_proc_held _ _ _ _ _)), (bind_ok _ _ _ _ _ (reparent_run _ _ _ _ _)).
    fold (mourned (v_initproc (y_vars s)) p (b_procs (y_base s))). fold T.
    rewrite (bind_ok _ _ _ _ _ (upd_cur_held me _ c lk T s q Hc Hq)). split.
    - unfold on_base. erewrite zoom_switch; [by unfold held; simpl; rewrite set_base_set|].
      cbn [lget y_base_l]. rewrite y_base_held. eapply sched_run; [done|exact Hc| |].
      + rewrite list_lookup_insert_eq; [done|]. by eapply lookup_lt_Some.
      + done.
    - intros s2. simpl. by eexists.
  Qed.

  (** A process that waits for its children. *)
Definition in_wait (x : nat) (p : proc) : Prop := p_state p = SLEEPING /\ p_chan p = Some (ChProc x).

Lemma wake_for_woken x p : ~ in_wait x (wake_for (Some x) p).
  Proof. unfold wake_for, wake, in_wait. case_bool_decide as H; [by intros [? _]|done]. Qed.
Lemma wake_for_wait o x p : in_wait x (wake_for o p) -> in_wait x p.
  Proof. destruct o; [|done]. unfold wake_for, wake, in_wait. case_bool_decide; [by intros [? _]|done]. Qed.
Lemma stir_wait b o x p : in_wait x (stir b o p) -> in_wait x p.
  Proof. destruct b; [apply wake_for_wait|done]. Qed.
Lemma adopt_wait o x p : in_wait x (adopt me o p) -> in_wait x p.
  Proof. unfold adopt. by destruct (child_of me p). Qed.
Lemma stir_still b o p : still (stir b o p) = still p.
  Proof. destruct b, o; try done. simpl. unfold wake. case_bool_decide; by destruct p. Qed.
Lemma adopt_still o p q : still p = still q -> still (adopt me o p) = still (adopt me o q).
  Proof.
    intros E. unfold adopt, child_of. destruct (still_ofile _ _ E) as (_ & _ & ->).
    case_bool_decide; [|done]. destruct p, q. injection E. intros. unfold still, set_state, set_parent. cbn. by subst.
  Qed.
Lemma adopt_parent o p : o <> Some me -> p_parent (adopt me o p) <> Some me.
  Proof. unfold adopt, child_of. by case_bool_decide. Qed.

Lemma mourned_elem ini p ps r :
    r ∈ mourned ini p ps -> exists q, q ∈ ps /\
      r = stir (existsb (orphan me) (wake_for (p_parent p) <$> ps)) ini (adopt me ini (wake_for (p_parent p) q)).
  Proof.
    intros Hr. unfold mourned, adopted in Hr. apply list_elem_of_fmap in Hr as (r1 & -> & Hr).
    apply list_elem_of_fmap in Hr as (r2 & -> & Hr). apply list_elem_of_fmap in Hr as (q & -> & Hr). by exists q.
  Qed.

Lemma mourned_woken ini p ps r x : r ∈ mourned ini p ps -> p_parent p = Some x -> ~ in_wait x r.
  Proof.
    intros (q & Hq & ->)%mourned_elem Hx Hw. apply stir_wait, adopt_wait in Hw. rewrite Hx in Hw. by apply wake_for_woken in Hw.
  Qed.

  (** A zombie passed on to init. *)
Lemma mourned_zombie x p ps k q r :
    ps !! k = Some q -> p_parent q = Some me -> p_state q = ZOMBIE ->
    r ∈ mourned (Some x) p ps -> ~ in_wait x r.
  Proof.
    intros Hk Hp Hz (q' & Hq' & ->)%mourned_elem. set (b := existsb _ _). assert (Hb : b = true).
    { apply existsb_exists. exists (wake_for (p_parent p) q). split.
      - apply list_elem_of_In. apply list_elem_of_fmap_2. by eapply list_elem_of_lookup_2.
      - destruct (wake_for_same (p_parent p) q) as [E1 E2]. unfold orphan, child_of, is_state. rewrite E1.
        apply andb_true_iff. split; apply bool_decide_eq_true_2; [done|by apply E2]. }
    rewrite Hb. apply wake_for_woken.
  Qed.

  (** *** Giving up the directory *)
Lemma put_cwd V p s :
    exiting V p s -> exists c s1 p1, p_cwd p = Some c /\ on_fs (iput c) s = Ok tt s1 /\ current me p1 s1 /\
      still p1 = still p /\ files_ok (ft_files s1) (b_procs (y_base s1)) /\ base_ok (y_base s1) /\
      frame (b_procs (y_base s)) s s1.
  Proof.
    intros [[Hc Hl Hn Hf] HV Hh Hop (c & Hcwd & Hlk)]. pose proof Hlk as (ip & Hip & _).
    assert (H : wp (on_fs (iput c)) (fun _ s1 => idle cap s1 V /\ ft_files s1 = ft_files s /\ y_vars s1 = y_vars s /\
      calm (y_base s) (y_base s1)) s).
    { eapply wp_on_fs; [exact (iput_run (LL := tl_read cap) _ V ∅ [] c ip HV Hip (linked_stays s c ip Hip Hlk))|].
      intros [] t0 (R & (_ & _ & C) & _). split_and!; [exact R|done|done|exact C]. }
    destruct (wp_outcome _ _ _ H) as ([] & s1 & E & R & F & Hv & (C1 & C2 & C3 & C4)).
    destruct (still_lookup _ _ me p C4 (cu_proc _ _ _ Hc)) as (p1 & Hp1 & Es).
    exists c, s1, p1. split_and!; [done|done|split; [rewrite C3; apply Hc|done]|done| |by eapply idle_ok|by split_and!].
    rewrite F. by eapply files_ok_still.
  Qed.


Lemma mourned_ofile ini p ps : p_ofile <$> mourned ini p ps = p_ofile <$> ps.
  Proof.
    unfold mourned, adopted. rewrite <- !list_fmap_compose. apply list_fmap_ext. intros _ q _. unfold compose.
    set (b := existsb _ _). destruct (still_ofile _ _ (stir_still b ini (adopt me ini (wake_for (p_parent p) q)))) as (-> & _).
    assert (Ha : forall r, p_ofile (adopt me ini r) = p_ofile r) by (intros r; unfold adopt; by destruct (child_of me r)).
    rewrite Ha. by destruct (still_ofile _ _ (stir_still true (p_parent p) q)).
  Qed.


Definition bare (p : proc) : proc := set_cwd None (closed_to NOFILE p).

Lemma still_bare p q : still p = still (closed_to NOFILE q) -> still (set_cwd None p) = still (bare q).
  Proof.
    unfold bare. set (r := closed_to NOFILE q). intros E. destruct p, r. unfold still, set_cwd, set_state in *. cbn in *.
    injection E. intros. by subst.
  Qed.

Lemma exit_run V p s :
    exiting V p s -> v_initproc (y_vars s) <> Some me -> ncli (b_cpu (y_base s)) = 0 ->
    exists s3 p3 q k, let T := mourned (v_initproc (y_vars s)) p3 (b_procs (y_base s3)) in
      b_procs (y_base s3) !! me = Some p3 /\ still <$> b_procs (y_base s3) = still <$> <[me := bare p]> (b_procs (y_base s)) /\
      files_ok (ft_files s3) (b_procs (y_base s3)) /\ T !! me = Some q /\
      exit (A := unit) kend s = Switch (held (b_cpu (y_base s3)) (b_lock (y_base s3)) (<[me := set_state ZOMBIE q]> T) s3) k /\
      forall s2, k s2 = Panic "zombie exit".
  Proof.
    intros He Hini Hn. pose proof (ca_cur _ _ _ (ex_call _ _ _ He)) as Hc.
    destruct (wp_outcome _ _ _ (close_files_run V p s He)) as ([] & s1 & E1 & p1 & He1 & Es1 & (V1 & _ & N1 & F1)).
    destruct (put_cwd V p1 s1 He1) as (c & s2 & p2 & Hcwd & E2 & Hc2 & Es2 & Hf2 & [Hb2 _] & (V2 & _ & N2 & F2)).
    set (p3 := set_cwd None p2). set (ps3 := <[me := p3]> (b_procs (y_base s2))). set (s3 := set_procs ps3 s2).
    pose proof (cu_proc _ _ _ Hc2) as Hp2. pose proof (lookup_lt_Some _ _ _ Hp2) as Hlt.
    assert (Hb3 : y_base s3 = Base (b_cpu (y_base s2)) (b_lock (y_base s2)) ps3) by apply y_base_procs.
    assert (Hp3 : ps3 !! me = Some p3) by (unfold ps3; by rewrite list_lookup_insert_eq).
    assert (Hc3 : current me p3 s3) by (split; rewrite Hb3; [apply Hc2|done]).
    destruct (die_run p3 s3 Hc3) as (q & k & Hq & E3 & Hk); [by rewrite Hb3|rewrite Hb3; simpl; congruence|].
    change (v_initproc (y_vars s3)) with (v_initproc (y_vars s2)) in *. rewrite V2, V1 in *.
    exists s3, p3, q. eexists. split_and!.
    - by rewrite Hb3.
    - rewrite Hb3. cbn [b_procs]. unfold ps3, p3. rewrite list_fmap_insert, F2, F1, !list_fmap_insert, list_insert_insert_eq.
      by rewrite (still_bare p2 p) by congruence.
    - rewrite Hb3. cbn [b_procs]. change (ft_files s3) with (ft_files s2). eapply files_ok_ofile; [|exact Hf2].
      unfold ps3. rewrite list_fmap_insert. apply list_insert_id. rewrite list_lookup_fmap. by rewrite Hp2.
    - done.
    - unfold exit. erewrite bind_switch; [reflexivity|]. unfold exit_body. rewrite (bind_ok _ _ _ _ _ (cur_run me p s Hc)).
      erewrite bind_ok by reflexivity. rewrite bool_decide_eq_false_2 by done. rewrite (bind_ok _ _ _ _ _ E1).
      rewrite (bind_ok _ _ _ _ _ (curproc_run me p1 s1 (ca_cur _ _ _ (ex_call _ _ _ He1)))). rewrite Hcwd.
      erewrite bind_ok by reflexivity. rewrite (bind_ok _ _ _ _ _ E2), (bind_ok _ _ _ _ _ (upd_cur_run me p2 _ s2 Hc2)).
      exact E3.
    - intros s4. destruct (Hk s4) as [s5 ->]. reflexivity.
  Qed.

Lemma still_at_me s s3 p p3 :
    b_procs (y_base s3) !! me = Some p3 -> still <$> b_procs (y_base s3) = still <$> <[me := bare p]> (b_procs (y_base s)) ->
    b_procs (y_base s) !! me = Some p ->
    p_ofile p3 = replicate NOFILE None ++ drop NOFILE (p_ofile p) /\ p_cwd p3 = None /\ p_parent p3 = p_parent p.
  Proof.
    intros H3 Hst Hp. destruct (still_lookup _ _ me p3 (eq_sym Hst) H3) as (p0 & Hp0 & E0).
    rewrite list_lookup_insert_eq in Hp0 by (by eapply lookup_lt_Some). injection Hp0 as <-.
    by destruct (still_ofile _ _ E0) as (<- & <- & <-).
  Qed.

Lemma adopt_same ini p : p_ofile (adopt me ini p) = p_ofile p /\ p_cwd (adopt me ini p) = p_cwd p /\
    p_state (adopt me ini p) = p_state p.
  Proof. unfold adopt. by destruct (child_of me p). Qed.

Lemma mourned_me ini p ps q :
    ps !! me = Some p -> mourned ini p ps !! me = Some q -> p_ofile q = p_ofile p /\ p_cwd q = p_cwd p.
  Proof.
    intros Hp Hq. destruct (mourned_lookup ini p _ _ _ Hp) as [b Hb]. rewrite Hq in Hb. injection Hb as ->.
    set (r := wake_for (p_parent p) p). destruct (adopt_same ini r) as (A1 & A2 & _).
    destruct (still_ofile _ _ (stir_still b ini (adopt me ini r))) as (-> & -> & _). rewrite A1, A2.
    by destruct (still_ofile _ _ (stir_still true (p_parent p) p)) as (? & ? & _).
  Qed.

Lemma stir_zombie b ini o p : p_state (stir b ini (adopt me ini (wake_for o p))) = ZOMBIE -> p_state p = ZOMBIE.
  Proof.
    intros H. apply (wake_for_same o). rewrite <- (proj2 (proj2 (adopt_same ini (wake_for o p)))).
    destruct b; [|done]. by apply (wake_for_same ini).
  Qed.

End exit.

(** ** wait *)
Section wait.
  Context {St : Type} {LO : LogOps St} (kend : Z) (me : nat).
  Implicit Types (s : sys St) (ps : list proc).

Definition asleep (ch : chan) (p : proc) : proc := set_state SLEEPING (set_chan (Some ch) p).

  (** [sleep] under [ptable.lock] itself. *)
Lemma sleep_held ch c lk ps s p :
    ncli c = 0 -> cproc c = Some me -> ps !! me = Some p ->
    exists k, sleep y_base_l ch None (held c lk ps s) = Switch (held c lk (alter (asleep ch) me ps) s) k /\
      forall d lk2 ps2 s2, ncli d = 0 -> cproc d = Some me ->
        k (held d lk2 ps2 s2) = Ok tt (held d lk2 (alter (set_chan None) me ps2) s2).
  Proof.
    intros Hn Hc Hp. eexists. split.
    - unfold sleep. erewrite bind_ok by reflexivity. cbn [lget y_base_l]. rewrite y_base_held. cbn [b_cpu].
      change (cproc (cli c)) with (cproc c). rewrite Hc. erewrite bind_ok by reflexivity.
      erewrite bind_switch; [reflexivity|]. erewrite zoom_switch.
      2:{ cbn [lget y_base_l]. rewrite y_base_held. erewrite bind_ok by reflexivity. erewrite bind_ok by reflexivity.
          cbn [b_cpu b_lock b_procs]. erewrite bind_switch; [reflexivity|]. eapply sched_run; [done|exact Hc| |].
          - by rewrite !list_lookup_alter_eq, Hp.
          - done. }
      cbn [lset y_base_l]. unfold held. rewrite set_base_set, alter_alter. reflexivity.
    - intros d lk2 ps2 s2 Hnd Hcd. cbn [lget y_base_l lset]. rewrite y_base_held. cbn [obind b_cpu b_lock b_procs].
      assert (set_intena false (cli d) = cli d) as -> by (unfold set_intena, cli; simpl; by rewrite Hnd).
      erewrite (bind_ok myproc).
      2:{ unfold myproc. erewrite bind_ok by reflexivity. cbn [b_cpu cli cproc]. by rewrite Hcd. }
      cbn [upd_proc modify b_cpu b_lock b_procs ozoom lset y_base_l obind]. unfold held. by rewrite set_base_set.
  Qed.

Lemma find_proc_None P ps : find_proc P ps = None <-> forall q, q ∈ ps -> P q = false.
  Proof.
    induction ps as [|p ps IH]; simpl; [split; [|done]; intros _ q Hq; by apply elem_of_nil in Hq|].
    destruct (P p) eqn:E.
    - split; [done|]. intros H. rewrite (H p) in E; [done|left].
    - rewrite fmap_None, IH. split.
      + intros H q [->|Hq]%elem_of_cons; [done|by apply H].
      + intros H q Hq. apply H. by right.
  Qed.

Lemma find_proc_Some P ps k :
    find_proc P ps = Some k -> exists q, ps !! k = Some q /\ P q = true /\
      forall j r, (j < k)%nat -> ps !! j = Some r -> P r = false.
  Proof.
    revert k. induction ps as [|p ps IH]; intros k; simpl; [done|]. destruct (P p) eqn:E.
    - intros [= <-]. exists p. split_and!; [done|done|lia].
    - intros (j & Hj & ->)%fmap_Some. destruct (IH j Hj) as (q & Hq & HP & Hmin). exists q. split_and!; [done|done|].
      intros [|i] r Hi Hr; [simpl in Hr; by injection Hr as <-|]. apply (Hmin i r); [lia|done].
  Qed.
End wait.

(** ** Taking turns

    A routine run to its end: each time it switches away, the rest of the
    system runs until it is switched back to, which [env] stands for. With
    the result, the states in which it switched away. *)
Fixpoint drive {S A} (env : S -> S) (o : outcome S A) : list S * outcome S A :=
  match o with
  | Switch s k => let '(l, o') := drive env (k (env s)) in (s :: l, o')
  | _ => ([], o)
  end.

Lemma drive_ok {S A} (env : S -> S) (a : A) s : drive env (Ok a s) = ([], Ok a s).
Proof. done. Qed.

Lemma drive_bind {S A B} (env : S -> S) (o : outcome S A) (f : A -> M S B) l a s :
  drive env o = (l, Ok a s) ->
  forall l' o', drive env (f a s) = (l', o') -> drive env (obind o f) = (l ++ l', o').
Proof.
  revert l. induction o as [a' s'|m|s' k IH| |]; intros l H l' o' Hf; try discriminate H; simpl in *.
  - injection H as <- <- <-. by rewrite Hf.
  - destruct (drive env (k (env s'))) as [l1 o1] eqn:E. injection H as <- ->.
    by rewrite (IH _ _ E _ _ Hf).
Qed.

(** ** The scheduler *)
Section scheduler.
  Context {St : Type} {LO : LogOps St}.
  Implicit Types (s t : sys St) (ps : list proc).

  (** Under [ptable.lock], with no other lock. *)
Definition locked_by (d : cpu) (lk : spinlock) ps s : Prop := y_base s = Base (cli d) (taken d lk) ps /\ ncli d = 0.

Definition ready ps : Prop := forall q, q ∈ ps -> p_state q = RUNNABLE -> p_pgdir q <> 0.

  (** Switched to process [i]: it runs, in its own address space. *)
Definition dispatched (i : nat) s : Prop :=
    exists d lk ps p, locked_by d lk ps s /\ cproc d = Some i /\ ps !! i = Some p /\ p_state p = RUNNING /\
      p_pgdir p <> 0 /\ v_pdtr (y_vars s) = v2p (p_pgdir p).

  (** What a process does before it switches back: it holds [ptable.lock] and
      no other; processes that could run still can, and those that can have an
      address space. *)
Definition returned ps (s' : sys St) : Prop :=
    exists d lk ps', locked_by d lk ps' s' /\ length ps' = length ps /\ ready ps' /\
      forall j q, ps !! j = Some q -> p_state q = RUNNABLE ->
        exists q', ps' !! j = Some q' /\ p_state q' = RUNNABLE.
Definition cooperative (env : sys St -> sys St) : Prop :=
    forall i s, dispatched i s -> ready (b_procs (y_base s)) -> returned (b_procs (y_base s)) (env s).

Definition ran (tr : list (sys St)) : list nat := omap (fun s => cproc (b_cpu (y_base s))) tr.

Lemma proc_set_run o d lk ps s :
    locked_by d lk ps s -> proc_set o s = Ok tt (set_base (Base (cli (set_cproc o d)) (taken d lk) ps) s).
  Proof. intros [Hb Hn]. unfold proc_set. erewrite on_base_ok; [reflexivity|]. by rewrite Hb. Qed.

Lemma switchuvm_run i p d lk ps s :
    locked_by d lk ps s -> ps !! i = Some p -> p_pgdir p <> 0 ->
    switchuvm i s = Ok tt (set_vars (set_pdt (v2p (p_pgdir p)) (y_vars s)) s).
  Proof.
    intros [Hb Hn] Hp Hd. unfold switchuvm. set (b1 := Base (cli (cli d)) (taken d lk) ps).
    assert (E1 : on_base (zoom (L := cpu_l) pushcli) s = Ok tt (set_base b1 s)).
    { erewrite on_base_ok; [reflexivity|]. rewrite Hb. erewrite zoom_ok by apply pushcli_ok. done. }
    rewrite (bind_ok _ _ _ _ _ E1).
    rewrite (bind_ok _ _ _ _ _ (getp_run i p (set_base b1 s) ltac:(by rewrite y_base_set))).
    destruct (p_pgdir p =? 0) eqn:E; [lia|]. erewrite bind_ok by reflexivity.
    erewrite on_base_ok.
    2:{ change (y_base (set_vars ?v (set_base b1 s))) with (y_base (set_base b1 s)). rewrite y_base_set.
        erewrite zoom_ok by (apply (popcli_cli (cli d)); simpl; lia). reflexivity. }
    f_equal. rewrite quiet_cli by lia. unfold set_base, set_vars. cbn [y_fs y_mem ft_lock ft_files y_pipes y_vars].
    rewrite put_base_put. change (lset (cli d) b1) with (Base (cli d) (taken d lk) ps).
    rewrite <- Hb. unfold y_base. by rewrite put_base_get.
  Qed.

Lemma locked_set o d lk ps s : locked_by d lk ps s ->
    locked_by (set_cproc o d) lk ps (set_base (Base (cli (set_cproc o d)) (taken d lk) ps) s).
  Proof. intros [_ Hn]. split; [apply y_base_set|done]. Qed.

  (** One turn of the loop. *)
Lemma run_proc_turn env k p d lk ps s :
    cooperative env -> locked_by d lk ps s -> ready ps -> ps !! k = Some p ->
    exists tr s', drive env (run_proc k s) = (tr, Ok tt s') /\ ran tr = (if is_state RUNNABLE p then [k] else []) /\
      (forall t, t ∈ tr -> dispatched k t) /\
      exists d' lk' ps', locked_by d' lk' ps' s' /\ length ps' = length ps /\ ready ps' /\
        forall j q, j <> k -> ps !! j = Some q -> p_state q = RUNNABLE -> exists q', ps' !! j = Some q' /\ p_state q' = RUNNABLE.
  Proof.
    intros Henv Hlk Hr Hp. unfold run_proc. pose proof Hlk as [Hb Hn].
    rewrite (bind_ok _ _ _ _ _ (getp_run k p s ltac:(by rewrite Hb))). unfold is_state. case_bool_decide as Hst.
    2:{ exists [], s. split_and!; [done|done|by intros t ?%elem_of_nil|]. exists d, lk, ps. split_and!; try done. intros j q _ Hq Hs. by exists q. }
    assert (Hd : p_pgdir p <> 0) by (apply Hr; [by eapply list_elem_of_lookup_2|done]).
    rewrite (bind_ok _ _ _ _ _ (proc_set_run _ _ _ _ _ Hlk)). pose proof (locked_set (Some k) _ _ _ _ Hlk) as Hlk1.
    set (d1 := set_cproc (Some k) d) in *. set (s1 := set_base _ s) in *.
    rewrite (bind_ok _ _ _ _ _ (switchuvm_run k p _ _ _ _ Hlk1 Hp Hd)). set (s2 := set_vars _ s1).
    assert (Hb2 : y_base s2 = Base (cli d1) (taken d1 lk) ps) by apply Hlk1.
    rewrite (bind_ok _ _ _ _ _ (updp_run _ _ _)), Hb2. cbn [b_procs]. set (ps3 := alter _ k ps).
    set (s3 := set_procs ps3 s2).
    assert (Hlk3 : locked_by d1 lk ps3 s3) by (split; [unfold s3; by rewrite y_base_procs, Hb2|done]).
    assert (Hp3 : ps3 !! k = Some (set_state RUNNING p)) by (unfold ps3; by rewrite list_lookup_alter_eq, Hp).
    assert (Hdis : dispatched k s3) by (exists d1, lk, ps3, (set_state RUNNING p); by split_and!).
    assert (Hr3 : ready ps3).
    { intros q [j Hj]%list_elem_of_lookup Hq. destruct (decide (j = k)) as [-> | Hne].
      - rewrite Hp3 in Hj. by injection Hj as <-.
      - unfold ps3 in Hj. rewrite list_lookup_alter_ne in Hj by done. apply Hr; [by eapply list_elem_of_lookup_2|done]. }
    destruct (Henv k s3 Hdis) as (d' & lk' & ps' & Hlk' & Hlen & Hr' & Hkeep); [by rewrite (proj1 Hlk3)|].
    rewrite (proj1 Hlk3) in Hlen, Hkeep. cbn [b_procs] in Hlen, Hkeep.
    set (s5 := set_vars (set_pdt (v2p (v_kpgdir (y_vars (env s3)))) (y_vars (env s3))) (env s3)).
    assert (Hlk5 : locked_by d' lk' ps' s5) by exact Hlk'.
    exists [s3], (set_base (Base (cli (set_cproc None d')) (taken d' lk') ps') s5). split_and!.
    - unfold swtch, bind. cbn [obind drive]. unfold bind. cbn [switchkvm upd_vars modify obind]. fold s5.
      by rewrite (proc_set_run None _ _ _ _ Hlk5).
    - unfold ran. cbn [omap list_omap]. by rewrite (proj1 Hlk3).
    - by intros t ->%list_elem_of_singleton.
    - exists (set_cproc None d'), lk', ps'. split_and!; [by apply locked_set|by rewrite Hlen; unfold ps3; rewrite length_alter|done|].
      intros j q Hj Hq Hs. apply (Hkeep j q); [|done]. unfold ps3. by rewrite list_lookup_alter_ne.
  Qed.

Lemma run_all env (n : nat) : forall k d lk ps s,
    cooperative env -> locked_by d lk ps s -> ready ps -> (k + n = length ps)%nat ->
    exists tr s', drive env (for_from k n run_proc s) = (tr, Ok tt s') /\ StronglySorted lt (ran tr) /\
      (forall x, x ∈ ran tr -> (k <= x)%nat) /\ (forall t, t ∈ tr -> exists i, dispatched i t) /\
      (forall j q, (k <= j)%nat -> ps !! j = Some q -> p_state q = RUNNABLE -> j ∈ ran tr) /\
      exists d' lk' ps', locked_by d' lk' ps' s' /\ length ps' = length ps /\ ready ps'.
  Proof.
    induction n as [|n IH]; intros k d lk ps s Henv Hlk Hr Hlen.
    { exists [], s. split_and!; [done|constructor|by intros x ?%elem_of_nil|by intros x ?%elem_of_nil| |by exists d, lk, ps].
      intros j q Hj Hq. apply lookup_lt_Some in Hq. lia. }
    destruct (lookup_lt_is_Some_2 ps k ltac:(lia)) as [p Hp].
    destruct (run_proc_turn env k p d lk ps s Henv Hlk Hr Hp) as (tr1 & s1 & E1 & R1 & D1 & d1 & lk1 & ps1 & Hlk1 & Hlen1 & Hr1 & Hk1).
    destruct (IH (S k) d1 lk1 ps1 s1 Henv Hlk1 Hr1 ltac:(lia)) as (tr2 & s2 & E2 & S2 & B2 & D2 & A2 & d2 & lk2 & ps2 & Hlk2 & Hlen2 & Hr2).
    assert (Hran : ran (tr1 ++ tr2) = (if is_state RUNNABLE p then [k] else []) ++ ran tr2)
      by (rewrite <- R1; apply omap_app).
    exists (tr1 ++ tr2), s2. rewrite Hran. split_and!.
    - cbn [for_from]. exact (drive_bind env (run_proc k s) _ _ _ _ E1 _ _ E2).
    - destruct (is_state RUNNABLE p); [|done]. constructor; [done|]. apply Forall_forall. intros x Hx. specialize (B2 x Hx). lia.
    - intros x [Hx|Hx]%elem_of_app; [|specialize (B2 x Hx); lia].
      destruct (is_state RUNNABLE p); [apply list_elem_of_singleton in Hx; lia|by apply elem_of_nil in Hx].
    - intros t [Ht|Ht]%elem_of_app; [exists k; by apply D1|by apply D2].
    - intros j q Hj Hq Hs. apply elem_of_app. destruct (decide (j = k)) as [-> | Hne].
      + left. rewrite Hp in Hq. injection Hq as <-. unfold is_state. rewrite bool_decide_eq_true_2 by done. left.
      + right. destruct (Hk1 j q Hne Hq Hs) as (q' & Hq' & Hs'). apply (A2 j q'); [lia|done|done].
    - exists d2, lk2, ps2. split_and!; [done|lia|done].
  Qed.

  (** C14. One pass of the scheduler over a table in which every process that can
      run has an address space, whatever the processes do while they run, so
      long as they come back with [ptable.lock] held and take no other process
      out of its turn: the pass ends with the lock free; it switches only to
      processes that are RUNNING in their own address space; it runs each
      process at most once, in the order of the table; and it runs every
      process that could run when the pass began. So no process that can run
      waits longer than the others' turns of two passes. *)
Theorem scheduler_pass_fair env s :
    cooperative env -> base_ok (y_base s) -> ncli (b_cpu (y_base s)) = 0 -> ready (b_procs (y_base s)) ->
    exists tr s', drive env (scheduler_pass s) = (tr, Ok tt s') /\ base_ok (y_base s') /\ ready (b_procs (y_base s')) /\
      StronglySorted lt (ran tr) /\ (forall t, t ∈ tr -> exists i, dispatched i t) /\
      forall j q, b_procs (y_base s) !! j = Some q -> p_state q = RUNNABLE -> j ∈ ran tr.
  Proof.
    intros Henv [Hf Hn0] Hn Hr. unfold scheduler_pass. set (c := set_ie true (b_cpu (y_base s))).
    set (s1 := set_base (with_cpu c (y_base s)) s).
    assert (E1 : on_base (zoom (L := cpu_l) (modify (set_ie true))) s = Ok tt s1) by done.
    assert (Hb1 : y_base s1 = with_cpu c (y_base s)) by apply y_base_set.
    rewrite (bind_ok _ _ _ _ _ E1), (bind_ok _ _ _ _ _ (lock_ptable_run s1 ltac:(by rewrite Hb1))), Hb1.
    cbn [with_cpu b_cpu b_lock b_procs]. rewrite (bind_ok _ _ _ _ _ (procs_held _ _ _ _)).
    set (ps := b_procs (y_base s)) in *. set (s2 := held c (b_lock (y_base s)) ps s1).
    destruct (run_all env (length ps) 0 c (b_lock (y_base s)) ps s2) as (tr & s3 & E & Hs & _ & Hd & Ha & d' & lk' & ps' & [Hb3 Hn3] & _ & Hr');
      [done|split; [apply y_base_held|done]|done|done|].
    assert (E3 : unlock_ptable s3 = Ok tt (unheld d' lk' ps' s3)).
    { rewrite <- (set_base_id s3) at 1. rewrite Hb3. apply unlock_ptable_run. lia. }
    exists tr, (unheld d' lk' ps' s3). rewrite y_base_unheld. split_and!; try done.
    - rewrite <- (app_nil_r tr). apply (drive_bind env (for_ (length ps) run_proc s2) _ _ _ _ E). by rewrite E3.
    - split; [done|]. simpl. lia.
    - intros j q Hj Hq. apply (Ha j q); [lia|done|done].
  Qed.
End scheduler.

(** ** allocproc *)
Section alloc.
  Context {St : Type} {LO : LogOps St}.
  Implicit Types (s : sys St) (ps : list proc).

  (** Live processes have distinct process ids, all handed out before. *)
Record pids_ok ps (next : Z) : Prop := {
    po_range : forall i p, ps !! i = Some p -> p_state p <> UNUSED -> 0 < p_pid p < next;
    po_inj : forall i j p q, ps !! i = Some p -> ps !! j = Some q -> p_state p <> UNUSED -> p_state q <> UNUSED ->
      p_pid p = p_pid q -> i = j;
  }.

Lemma pids_ok_new ps next i p :
    pids_ok ps next -> 0 < next -> p_pid p = next -> pids_ok (<[i := p]> ps) (next + 1).
  Proof.
    intros [H1 H2] Hn Hp. split.
    - intros j q Hj Hs. apply list_lookup_insert_Some in Hj as [(-> & <- & _)|[_ Hj]]; [lia|].
      specialize (H1 j q Hj Hs). lia.
    - intros j k q r Hj Hk Hq Hr E.
      apply list_lookup_insert_Some in Hj as [(-> & <- & _)|[Hij Hj]];
        apply list_lookup_insert_Some in Hk as [(-> & <- & _)|[Hik Hk]]; try done.
      + specialize (H1 k r Hk Hr). lia.
      + specialize (H1 j q Hj Hq). lia.
      + by apply (H2 j k q r).
  Qed.
Lemma pids_ok_unused ps next i p :
    pids_ok ps next -> p_state p = UNUSED -> pids_ok (<[i := p]> ps) (next + 1).
  Proof.
    intros [H1 H2] Hp. split.
    - intros j q Hj Hs. apply list_lookup_insert_Some in Hj as [(-> & <- & _)|[_ Hj]]; [done|].
      specialize (H1 j q Hj Hs). lia.
    - intros j k q r Hj Hk Hq Hr E.
      apply list_lookup_insert_Some in Hj as [(-> & <- & _)|[Hij Hj]]; [done|].
      apply list_lookup_insert_Some in Hk as [(-> & <- & _)|[Hik Hk]]; [done|]. by apply (H2 j k q r).
  Qed.

Definition born (next v : Z) (page : list Z) (p : proc) : proc :=
    set_tf (tf_at page) (set_kstack v (set_pid next (set_state EMBRYO p))).
Definition stillborn (next : Z) (p : proc) : proc :=
    set_state UNUSED (set_kstack 0 (set_pid next (set_state EMBRYO p))).

Lemma y_base_kst k s : y_base (set_kst k s) = k_base k.
  Proof. apply fs_base_put. Qed.
Lemma y_kst_set k s : y_kst (set_kst k s) = k.
  Proof. destruct k. unfold y_kst. rewrite y_base_kst. done. Qed.
Lemma y_kst_base b s : y_kst (set_base b s) =
    Kst b (km_lock (y_kst s)) (km_use_lock (y_kst s)) (km_freelist (y_kst s)) (k_pages (y_kst s)) (k_out (y_kst s)).
  Proof. unfold y_kst. by rewrite y_base_set. Qed.

Lemma kmem_ok_base b s l : kmem_ok (y_kst s) l -> 0 <= ncli (b_cpu b) -> kmem_ok (y_kst (set_base b s)) l.
  Proof. intros [] Hb. by rewrite y_kst_base. Qed.

Lemma alter_at {A} (f : A -> A) i (l : list A) x : l !! i = Some x -> alter f i l = <[i := f x]> l.
  Proof.
    intros Hi. apply list_eq. intros j. destruct (decide (j = i)) as [-> | Hne].
    - rewrite list_lookup_alter_eq, Hi, list_lookup_insert_eq; [done|]. by eapply lookup_lt_Some.
    - by rewrite list_lookup_alter_ne, list_lookup_insert_ne.
  Qed.

  (** Nothing changes but the process table, the memory and the variables of
      proc.c, vm.c and trap.c. *)
Definition outside s s' : Prop :=
    (exists b, y_fs s' = put_base b (y_fs s)) /\ ft_lock s' = ft_lock s /\ ft_files s' = ft_files s /\
    y_pipes s' = y_pipes s /\ cproc (b_cpu (y_base s')) = cproc (b_cpu (y_base s)).

#[export] Instance outside_preorder : PreOrder outside.
  Proof.
    split.
    - intros s. split_and!; try done. exists (y_base s). unfold y_base. by rewrite put_base_get.
    - intros x y z ([b Eb] & ? & ? & ? & ?) ([c Ec] & ? & ? & ? & ?). split_and!; [|congruence..]. exists c. by rewrite Ec, Eb, put_base_put.
  Qed.
Lemma outside_base b s : cproc (b_cpu b) = cproc (b_cpu (y_base s)) -> outside s (set_base b s).
  Proof. intros H. split_and!; try done; [by exists b|]. by rewrite y_base_set. Qed.
Lemma outside_procs ps s : outside s (set_procs ps s).
  Proof. by apply outside_base. Qed.
Lemma outside_kst k s : cproc (b_cpu (k_base k)) = cproc (b_cpu (y_base s)) -> outside s (set_kst k s).
  Proof. intros H. split_and!; try done; [by exists (k_base k)|]. by rewrite y_base_kst. Qed.
Lemma outside_vars v s : outside s (set_vars v s).
  Proof. split_and!; try done. exists (y_base s). unfold y_base. by rewrite put_base_get. Qed.

  (** The slot is taken under the lock; then a page is asked for. *)
Lemma allocproc_take s l i p :
    base_ok (y_base s) -> kmem_ok (y_kst s) l -> find_proc (is_state UNUSED) (b_procs (y_base s)) = Some i ->
    b_procs (y_base s) !! i = Some p ->
    let p1 := set_pid (v_nextpid (y_vars s)) (set_state EMBRYO p) in
    let v := km_freelist (y_kst s) in
    exists s2, b_procs (y_base s2) = <[i := p1]> (b_procs (y_base s)) /\ base_ok (y_base s2) /\
      kmem_ok (y_kst s2) (tail l) /\ m_pages (y_mem s2) = m_pages (y_mem s) /\ y_vars s2 = take_pid (y_vars s) /\
      m_use_lock (y_mem s2) = m_use_lock (y_mem s) /\ outside s s2 /\
      allocproc s = (updp i (set_kstack v) ;;;
        if v =? 0 then updp i (set_state UNUSED) ;;; ret None else
        s <- get ;; page <- some (m_pages (y_mem s) !! v) ;; updp i (set_tf (tf_at page)) ;;; ret (Some i)) s2.
  Proof.
    intros [Hf Hn] Hk Hfind Hp p1 v. set (c := b_cpu (y_base s)) in *. set (lk := b_lock (y_base s)) in *.
    set (ps := b_procs (y_base s)) in *. set (ps1 := <[i := p1]> ps).
    set (s1 := unheld c lk ps1 (set_vars (take_pid (y_vars s)) s)).
    assert (Hk1 : kmem_ok (y_kst s1) l) by (by apply (kmem_ok_base (Base (quiet c) (dropped lk) ps1) (set_vars (take_pid (y_vars s)) s))).
    pose proof (kalloc_run _ _ Hk1) as Ek. destruct (popped_ok _ _ Hk1) as (Hk2 & Hpg & Hul & _).
    set (k2 := popped (y_kst s1)) in *. exists (set_kst k2 s1).
    assert (Hb1 : k_base (y_kst s1) = Base (quiet c) (dropped lk) ps1) by apply y_base_unheld.
    assert (Hb2 : k_base k2 = Base (quiet c) (dropped lk) ps1).
    { unfold k2. rewrite popped_base, Hb1. cbn [b_cpu b_lock b_procs]. rewrite quiet_quiet. by destruct (_ =? 0). }
    rewrite y_base_kst, y_kst_set, Hb2. split_and!; try done.
    - transitivity s1; [|apply outside_kst; by rewrite Hb2, <- Hb1]. etransitivity; [apply (outside_vars (take_pid (y_vars s)))|].
      by apply outside_base.
    - unfold allocproc. rewrite (bind_ok _ _ _ _ _ (lock_ptable_run s Hf)), (bind_ok _ _ _ _ _ (procs_held _ _ _ _)).
      fold ps. rewrite Hfind. rewrite (bind_ok _ _ _ _ _ (updp_held _ _ _ _ _ _)). erewrite bind_ok by reflexivity.
      rewrite (bind_ok _ _ _ _ _ (updp_held _ _ _ _ _ _)). fold c lk. rewrite alter_alter, (alter_at _ _ _ p Hp). fold ps1.
      assert (Ev : upd_vars take_pid (held c lk ps1 s) = Ok tt (held c lk ps1 (set_vars (take_pid (y_vars s)) s))) by reflexivity.
      rewrite (bind_ok _ _ _ _ _ Ev), (bind_ok _ _ _ _ _ (unlock_ptable_run c lk ps1 (set_vars (take_pid (y_vars s)) s) Hn)). fold s1.
      rewrite (bind_ok _ _ _ _ _ (on_kst_ok _ s1 _ _ Ek)). done.
  Qed.

Lemma allocproc_run s l :
    base_ok (y_base s) -> kmem_ok (y_kst s) l ->
    exists r s', allocproc s = Ok r s' /\ base_ok (y_base s') /\ outside s s' /\ m_pages (y_mem s') = m_pages (y_mem s) /\
      m_use_lock (y_mem s') = m_use_lock (y_mem s) /\
      match find_proc (is_state UNUSED) (b_procs (y_base s)) with
      | None => kmem_ok (y_kst s') l /\ r = None /\ b_procs (y_base s') = b_procs (y_base s) /\ y_vars s' = y_vars s
      | Some i => kmem_ok (y_kst s') (tail l) /\ y_vars s' = take_pid (y_vars s) /\
          match l with
          | [] => r = None /\ b_procs (y_base s') = alter (stillborn (v_nextpid (y_vars s))) i (b_procs (y_base s))
          | v :: _ => r = Some i /\ exists page, m_pages (y_mem s) !! v = Some page /\
              b_procs (y_base s') = alter (born (v_nextpid (y_vars s)) v page) i (b_procs (y_base s))
          end
      end.
  Proof.
    intros Hb Hk. destruct (find_proc (is_state UNUSED) (b_procs (y_base s))) as [i|] eqn:Hfind.
    2:{ destruct Hb as [Hf Hn]. exists None, (unheld (b_cpu (y_base s)) (b_lock (y_base s)) (b_procs (y_base s)) s).
        rewrite y_base_unheld. split_and!; [|split; [done|exact Hn]|by apply outside_base|done|done| |done|done|done].
        - unfold allocproc. rewrite (bind_ok _ _ _ _ _ (lock_ptable_run s Hf)), (bind_ok _ _ _ _ _ (procs_held _ _ _ _)).
          rewrite Hfind. by rewrite (bind_ok _ _ _ _ _ (unlock_ptable_run _ _ _ _ Hn)).
        - by apply kmem_ok_base. }
    destruct (find_proc_Some _ _ _ Hfind) as (p & Hp & _ & _).
    destruct (allocproc_take s l i p Hb Hk Hfind Hp) as (s2 & Hps & Hb2 & Hk2 & Hm & Hv & Hul & Hout & E). rewrite E.
    set (p1 := set_pid _ _) in *. pose proof (lookup_lt_Some _ _ _ Hp) as Hlt. destruct l as [|v l].
    - assert (H0 : km_freelist (y_kst s) = 0) by apply (ko_chain _ _ Hk). rewrite H0. cbn [Z.eqb].
      rewrite (bind_ok _ _ _ _ _ (updp_run _ _ _)), (bind_ok _ _ _ _ _ (updp_run _ _ _)), y_base_procs, Hps. cbn [b_procs].
      rewrite alter_alter, (alter_at _ _ _ p1) by (by rewrite list_lookup_insert_eq). rewrite list_insert_insert_eq.
      eexists None, _. split; [reflexivity|]. rewrite !set_procs_set, !y_base_procs. cbn [b_procs].
      split_and!; [by destruct Hb2|etransitivity; [exact Hout|apply outside_procs]|done|done|apply kmem_ok_base; [done|apply Hb2]|done|done|by rewrite (alter_at _ _ _ p Hp)].
    - destruct (ko_chain _ _ Hk) as (H0 & Hz & Hma & page & Hpage & _). rewrite H0. destruct (Z.eqb_spec v 0); [done|].
      rewrite (bind_ok _ _ _ _ _ (updp_run _ _ _)), Hps. erewrite bind_ok by reflexivity.
      change (m_pages (y_mem (set_procs _ s2))) with (m_pages (y_mem s2)). rewrite Hm. unfold y_kst in Hpage. cbn [k_pages] in Hpage.
      rewrite Hpage. erewrite bind_ok by reflexivity. rewrite (bind_ok _ _ _ _ _ (updp_run _ _ _)), y_base_procs. cbn [b_procs].
      rewrite alter_alter, (alter_at _ _ _ p1) by (by rewrite list_lookup_insert_eq). rewrite list_insert_insert_eq.
      eexists (Some i), _. split; [reflexivity|]. rewrite !set_procs_set, !y_base_procs. cbn [b_procs].
      split_and!; [by destruct Hb2|etransitivity; [exact Hout|apply outside_procs]|done|done|apply kmem_ok_base; [done|apply Hb2]|done|done|exists page; split; [done|by rewrite (alter_at _ _ _ p Hp)]].
  Qed.

  (** [allocproc] takes the first unused slot, gives it a process id no live
      process has, and a page for its kernel stack; with no slot free it
      changes nothing, and with no memory it gives the slot back (the process
      id is used up). Live processes keep distinct ids. *)
Theorem allocproc_spec s l :
    base_ok (y_base s) -> kmem_ok (y_kst s) l -> 0 < v_nextpid (y_vars s) < 2 ^ 31 - 1 ->
    pids_ok (b_procs (y_base s)) (v_nextpid (y_vars s)) ->
    exists r s', allocproc s = Ok r s' /\ base_ok (y_base s') /\
      pids_ok (b_procs (y_base s')) (v_nextpid (y_vars s')) /\
      match find_proc (is_state UNUSED) (b_procs (y_base s)) with
      | None => kmem_ok (y_kst s') l /\ r = None /\ b_procs (y_base s') = b_procs (y_base s) /\ y_vars s' = y_vars s
      | Some i => kmem_ok (y_kst s') (tail l) /\ y_vars s' = take_pid (y_vars s) /\
          match l with
          | [] => r = None /\ b_procs (y_base s') = alter (stillborn (v_nextpid (y_vars s))) i (b_procs (y_base s))
          | v :: _ => r = Some i /\ exists page, m_pages (y_mem s) !! v = Some page /\
              b_procs (y_base s') = alter (born (v_nextpid (y_vars s)) v page) i (b_procs (y_base s))
          end
      end.
  Proof.
    intros Hb Hk Hpos Hpid. destruct (allocproc_run s l Hb Hk) as (r & s' & E & Hb' & _ & _ & _ & H). exists r, s'. split_and!; [done|done| |done].
    destruct (find_proc (is_state UNUSED) (b_procs (y_base s))) as [i|] eqn:Hfind; [|by destruct H as (_ & _ & -> & ->)].
    destruct (find_proc_Some _ _ _ Hfind) as (p & Hp & _ & _). destruct H as (_ & -> & H). cbn [take_pid v_nextpid].
    rewrite s32_id by (unfold is_s32; lia). destruct l as [|v l].
    - destruct H as [_ ->]. rewrite (alter_at _ _ _ p Hp). by apply pids_ok_unused.
    - destruct H as (_ & page & _ & ->). rewrite (alter_at _ _ _ p Hp). by apply pids_ok_new; [|lia|].
  Qed.

  (** [kill(0)] finds a slot without a process, and reports success; the next
      process created there is born killed, whatever its id. *)
Theorem kill_zero_unborn s v l i :
    base_ok (y_base s) -> kmem_ok (y_kst s) (v :: l) ->
    find_pid 0 (b_procs (y_base s)) = Some i -> find_proc (is_state UNUSED) (b_procs (y_base s)) = Some i ->
    exists s1 s2 p, on_base (kill 0) s = Ok 0 s1 /\ allocproc s1 = Ok (Some i) s2 /\
      b_procs (y_base s2) !! i = Some p /\ p_pid p = v_nextpid (y_vars s) /\ p_killed p = 1.
  Proof.
    intros Hb Hk Hpid Hun. destruct (find_proc_Some _ _ _ Hun) as (p & Hp & Hst & _). unfold is_state in Hst.
    apply bool_decide_eq_true in Hst. set (ps1 := alter killed_proc i (b_procs (y_base s))). set (b1 := settled (y_base s) ps1).
    assert (E1 : on_base (kill 0) s = Ok 0 (set_base b1 s)).
    { apply on_base_ok. rewrite kill_spec by done. by rewrite Hpid. }
    assert (Hk1 : killed_proc p = set_killed 1 p) by (unfold killed_proc; by rewrite bool_decide_eq_false_2 by (by rewrite Hst)).
    assert (Hps1 : ps1 = <[i := set_killed 1 p]> (b_procs (y_base s))) by (unfold ps1; by rewrite (alter_at _ _ _ p Hp), Hk1).
    assert (Hfind : find_proc (is_state UNUSED) ps1 = Some i).
    { rewrite Hps1. clear -Hp Hun Hst. revert i Hp Hun. induction (b_procs (y_base s)) as [|q ps IH]; intros i Hp Hun; [done|].
      simpl in Hun. destruct i as [|i]; simpl in *.
      - injection Hp as <-. unfold is_state. cbn [set_killed p_state]. by rewrite bool_decide_eq_true_2.
      - destruct (is_state UNUSED q); [done|]. apply fmap_Some in Hun as (j & Hj & [= <-]). by rewrite (IH i Hp Hj). }
    destruct (allocproc_run (set_base b1 s) (v :: l)) as (r & s2 & E2 & _ & _ & _ & _ & H).
    { rewrite y_base_set. by apply settled_ok. }
    { apply kmem_ok_base; [done|]. apply Hb. }
    rewrite y_base_set in H. cbn [b1 settled b_procs] in H. rewrite Hfind in H. destruct H as (_ & _ & -> & page & _ & Hps2).
    assert (Hlt : ps1 !! i = Some (set_killed 1 p)).
    { rewrite Hps1. rewrite list_lookup_insert_eq; [done|]. by eapply lookup_lt_Some. }
    exists (set_base b1 s), s2. eexists. split_and!; [done|done| | |]; [rewrite Hps2, list_lookup_alter_eq, Hlt; reflexivity|done|done].
  Qed.
End alloc.

(** ** wait: a dead child *)
Section reap.
  Context {St : Type} {LO : LogOps St} (kend : Z) (Hkend : KERNBASE < kend) (me : nat).
  Implicit Types (s : sys St) (ps : list proc).

Lemma space_ok_pages (t t' : kst) pgdir l l' :
    space_ok kend t pgdir l -> k_pages t' = k_pages t -> kmem_ok t' l' -> (forall x, x ∈ l' -> x ∈ l) -> space_ok kend t' pgdir l'.
  Proof.
    intros [Hpt [Hp Hi] Hd Ht] E Hk Hl.
    assert (Ew : forall v i, word t' v i = word t v i) by (intros; unfold word; by rewrite E).
    assert (Eu : forall n, upage t' pgdir n = upage t pgdir n) by (intros n; unfold upage, pte_of; by rewrite !Ew).
    split; [by apply (pt_ok_pages kend t t' pgdir l l')|split| done|].
    - intros n v Hn. rewrite Eu, E. intros Hv. destruct (Hp n v Hn Hv) as (V1 & V2 & V3 & V4). split_and!; auto.
      by rewrite (pt_page_dir t t' pgdir v).
    - intros n m v Hn Hm. rewrite !Eu. by apply Hi.
    - intros v (i & Hi' & HV & Ev). apply Ht. exists i. by rewrite <- Ew.
  Qed.

  (** Freeing a page that is not part of the address space. *)
Lemma space_ok_free (t : kst) pgdir l v :
    space_ok kend t pgdir l -> freeable kend v -> is_Some (k_pages t !! v) -> v ∉ l -> ~ owned t pgdir v ->
    exists t', kfree kend v t = Ok tt t' /\ space_ok kend t' pgdir (v :: l) /\ kquiet t t' /\
      (forall w, owned t' pgdir w <-> owned t pgdir w) /\ (forall w, w <> v -> k_pages t' !! w = k_pages t !! w).
  Proof using Hkend.
    intros [Hpt [Hp Hi] Hd Ht] Hv Hs Hl Ho.
    destruct (pt_ok_free kend t pgdir l v Hpt Hv Hs Hl) as (t' & E & Hpt' & Q & Pg & W & P); [intros H; apply Ho; by left|].
    assert (Eu : forall n, upage t' pgdir n = upage t pgdir n) by (intros n; unfold upage; by rewrite P).
    exists t'. split_and!; [done| |done| |].
    - split; [done|split|done|].
      + intros n w Hn. rewrite Eu. intros Hw. destruct (Hp n w Hn Hw) as (V1 & V2 & V3 & V4).
        split_and!; [done| | |by rewrite (pt_page_dir t t' pgdir w)].
        * rewrite Pg, lookup_insert_is_Some. destruct (decide (v = w)); auto.
        * rewrite not_elem_of_cons. split; [|done]. intros ->. apply Ho. right. by exists n.
      + intros n m w Hn Hm. rewrite !Eu. by apply Hi.
      + intros w (i & Hi' & HV & Ev). apply Ht. exists i. by rewrite <- W.
    - intros w. unfold owned. rewrite (pt_page_dir t t' pgdir w) by done. by setoid_rewrite Eu.
    - intros w Hw. rewrite Pg. by rewrite lookup_insert_ne.
  Qed.

Definition reaped (p : proc) : proc :=
    set_killed 0 (set_pname (<[0%nat := 0]> (p_name p)) (set_parent None (set_pid 0 (set_state UNUSED (set_kstack 0 p))))).

  (** A dead child whose memory can be given back. *)
Record corpse (l : list Z) (q : proc) s : Prop := {
    co_space : space_ok kend (y_kst s) (p_pgdir q) l;
    co_stack : freeable kend (p_kstack q) /\ is_Some (m_pages (y_mem s) !! p_kstack q) /\ p_kstack q ∉ l;
    co_apart : ~ owned (y_kst s) (p_pgdir q) (p_kstack q);
  }.

Lemma held_self c lk ps s : y_base s = Base (cli c) (taken c lk) ps -> held c lk ps s = s.
  Proof. intros E. unfold held. apply set_base_same. by rewrite E. Qed.

Lemma kquiet_cli (k k' : kst) c lk ps :
    kquiet k k' -> k_base k = Base (cli c) (taken c lk) ps -> 0 <= ncli c -> k_base k' = Base (cli c) (taken c lk) ps.
  Proof.
    intros (_ & _ & [-> | ->]) E Hn; [done|]. unfold relocked. destruct (km_use_lock k =? 0); [done|]. cbn [k_base]. rewrite E.
    cbn [b_cpu b_lock b_procs]. by rewrite quiet_cli.
  Qed.

Lemma reap_run l k q c lk ps s :
    0 <= ncli c -> y_base s = Base (cli c) (taken c lk) ps -> ps !! k = Some q -> corpse l q s ->
    exists s' fl, reap kend k s = Ok (p_pid q) s' /\ y_base s' = Base (quiet c) (dropped lk) (<[k := reaped q]> ps) /\
      kmem_ok (y_kst s') (fl ++ l) /\ (forall v, v ∈ fl <-> v = p_kstack q \/ owned (y_kst s) (p_pgdir q) v) /\
      (forall w, w ∉ fl -> m_pages (y_mem s') !! w = m_pages (y_mem s) !! w).
  Proof using Hkend.
    intros Hn Hb Hq [Hsp (Hf & Hs & Hl) Hap]. unfold reap. rewrite (bind_ok _ _ _ _ _ (getp_run k q s ltac:(by rewrite Hb))).
    destruct (space_ok_free (y_kst s) (p_pgdir q) l _ Hsp Hf Hs Hl Hap) as (t1 & E1 & Hsp1 & Q1 & O1 & P1).
    rewrite (bind_ok _ _ _ _ _ (on_kst_ok _ s _ _ E1)). set (s1 := set_kst t1 s).
    assert (Hb1 : y_base s1 = Base (cli c) (taken c lk) ps) by (unfold s1; rewrite y_base_kst; by apply (kquiet_cli (y_kst s))).
    rewrite <- (held_self c lk ps s1 Hb1), (bind_ok _ _ _ _ _ (updp_held _ _ _ _ _ _)). set (ps2 := alter (set_kstack 0) k ps).
    set (s2 := held c lk ps2 s1).
    assert (Hk2 : kmem_ok (y_kst s2) (p_kstack q :: l)).
    { apply kmem_ok_base; [|simpl; lia]. unfold s1. rewrite y_kst_set. apply (po_kmem _ _ _ _ (so_pt _ _ _ _ Hsp1)). }
    assert (Hpg2 : k_pages (y_kst s2) = k_pages t1) by done.
    assert (Hsp2 : space_ok kend (y_kst s2) (p_pgdir q) (p_kstack q :: l)) by (by eapply (space_ok_pages t1)).
    destruct (freevm_run kend Hkend (y_kst s2) _ _ Hsp2) as (t3 & fl & E3 & K3 & Q3 & _ & Own & P3 & _).
    rewrite (bind_ok _ _ _ _ _ (on_kst_ok _ s2 _ _ E3)). set (s3 := set_kst t3 s2).
    assert (Hb3 : y_base s3 = Base (cli c) (taken c lk) ps2).
    { unfold s3. rewrite y_base_kst. apply (kquiet_cli (y_kst s2)); [done| |done]. apply y_base_held. }
    rewrite <- (held_self c lk ps2 s3 Hb3). rewrite !(bind_ok _ _ _ _ _ (updp_held _ _ _ _ _ _)).
    rewrite (bind_ok _ _ _ _ _ (unlock_ptable_run _ _ _ _ Hn)). unfold ps2. rewrite !alter_alter, (alter_at _ _ _ q Hq).
    assert (Own2 : forall v, owned (y_kst s2) (p_pgdir q) v <-> owned (y_kst s) (p_pgdir q) v).
    { intros v. rewrite <- O1. unfold owned, pt_page, upage, pte_of, word. by rewrite Hpg2. }
    eexists _, (fl ++ [p_kstack q]). split_and!; [reflexivity|apply y_base_unheld| | |].
    - rewrite <- app_assoc. apply kmem_ok_base; [|simpl; lia]. unfold s3. by rewrite y_kst_set.
    - intros v. rewrite elem_of_app, list_elem_of_singleton, Own, Own2. tauto.
    - intros w [W1 W2]%not_elem_of_app. rewrite list_elem_of_singleton in W2.
      change (m_pages (y_mem (unheld _ _ _ s3))) with (k_pages t3). rewrite P3 by (by rewrite <- Own). exact (P1 w W2).
  Qed.

Lemma corpse_base l q s b : corpse l q s -> 0 <= ncli (b_cpu b) -> corpse l q (set_base b s).
  Proof.
    intros [H1 H2 H3] Hb. split; [|exact H2|exact H3]. eapply (space_ok_pages (y_kst s)); [done|done| |done].
    apply kmem_ok_base; [|done]. apply (po_kmem _ _ _ _ (so_pt _ _ _ _ H1)).
  Qed.

Definition dead_child (q : proc) : bool := child_of me q && is_state ZOMBIE q.

  (** The child in slot [k] is gone: its slot is free, and its stack, its page
      tables and its pages, and nothing else, are back with the allocator. *)
Definition buried (l : list Z) (k : nat) (q : proc) ps s s' : Prop :=
    Spinlock.free (b_lock (y_base s')) /\ b_procs (y_base s') = <[k := reaped q]> ps /\
    exists fl, kmem_ok (y_kst s') (fl ++ l) /\ (forall v, v ∈ fl <-> v = p_kstack q \/ owned (y_kst s) (p_pgdir q) v) /\
      (forall w, w ∉ fl -> m_pages (y_mem s') !! w = m_pages (y_mem s) !! w).

Lemma wait_loop_reap n l k q p c lk ps s :
    0 <= ncli c -> cproc c = Some me -> ps !! me = Some p -> find_proc dead_child ps = Some k -> ps !! k = Some q -> corpse l q s ->
    exists s', wait_loop kend (S n) (held c lk ps s) = Ok (p_pid q) s' /\ buried l k q ps s s'.
  Proof using Hkend.
    intros Hn Hc Hp Hfind Hq Hco. cbn [wait_loop]. rewrite (bind_ok _ _ _ _ _ (cur_run me p _ (current_held me p c lk ps s Hc Hp))).
    rewrite (bind_ok _ _ _ _ _ (procs_held _ _ _ _)). fold dead_child. rewrite Hfind.
    destruct (reap_run l k q c lk ps (held c lk ps s) Hn (y_base_held _ _ _ _) Hq) as (s' & fl & E & Hb & K & Own & P).
    { apply corpse_base; [done|]. simpl. lia. }
    exists s'. split; [done|]. unfold buried. rewrite Hb. split_and!; [done|done|]. by exists fl.
  Qed.

  (** C11. [wait], by what the table shows. With a dead child: its process id, the
      child's slot free again and its memory back with the allocator. With no
      child at all, or when the process has been killed: -1. With live
      children only: it sleeps until it is woken, having gone to sleep under
      [ptable.lock], so that the exit of a child finds it asleep; switched back
      to with a dead child it ends as in the first case. *)
Theorem wait_spec s p :
    current me p s -> Spinlock.free (b_lock (y_base s)) -> ncli (b_cpu (y_base s)) = 0 ->
    match find_proc dead_child (b_procs (y_base s)) with
    | Some k => forall l q, b_procs (y_base s) !! k = Some q -> corpse l q s ->
        exists s', wait kend s = Ok (p_pid q) s' /\ buried l k q (b_procs (y_base s)) s s'
    | None =>
        if negb (existsb (child_of me) (b_procs (y_base s))) || negb (p_killed p =? 0)
        then exists s', wait kend s = Ok (-1) s' /\ b_procs (y_base s') = b_procs (y_base s) /\ Spinlock.free (b_lock (y_base s'))
        else exists s1 r, wait kend s = Switch s1 r /\ holding (b_cpu (y_base s1)) (b_lock (y_base s1)) = true /\
          b_procs (y_base s1) = alter (asleep (ChProc me)) me (b_procs (y_base s)) /\
          forall d lk ps s2 k q p2 l, locked_by d lk ps s2 -> cproc d = Some me -> ps !! me = Some p2 ->
            find_proc dead_child (alter (set_chan None) me ps) = Some k -> alter (set_chan None) me ps !! k = Some q ->
            corpse l q s2 -> exists s', r s2 = Ok (p_pid q) s' /\ buried l k q (alter (set_chan None) me ps) s2 s'
    end.
  Proof using Hkend.
    intros Hcur Hf Hn. pose proof Hcur as [Hc Hp]. unfold wait. change wakeups with (S 63).
    rewrite (bind_ok _ _ _ _ _ (lock_ptable_run s Hf)). set (c := b_cpu (y_base s)) in *. set (lk := b_lock (y_base s)) in *.
    set (ps := b_procs (y_base s)) in *. destruct (find_proc dead_child ps) as [k|] eqn:Hfind.
    { intros l q Hq Hco. apply (wait_loop_reap 63 l k q p c lk ps s); (done || lia). }
    cbn [wait_loop]. rewrite (bind_ok _ _ _ _ _ (cur_run me p _ (current_held me p c lk ps s Hc Hp))).
    rewrite (bind_ok _ _ _ _ _ (procs_held _ _ _ _)). fold dead_child. rewrite Hfind.
    rewrite (bind_ok _ _ _ _ _ (curproc_run me p _ (current_held me p c lk ps s Hc Hp))).
    destruct (negb (existsb (child_of me) ps) || negb (p_killed p =? 0)).
    { rewrite (bind_ok _ _ _ _ _ (unlock_ptable_run c lk ps s ltac:(lia))). eexists. rewrite y_base_unheld. by split_and!. }
    destruct (sleep_held me (ChProc me) c lk ps s p Hn Hc Hp) as (r & E & Hr). rewrite (bind_switch _ _ _ _ _ E).
    eexists _, _. split; [reflexivity|]. rewrite y_base_held. cbn [b_cpu b_lock b_procs]. split_and!; [|done|].
    - unfold holding. cbn [locked taken lk_cpu cli cpu_id]. by rewrite bool_decide_eq_true_2.
    - intros d lk2 ps2 s2 k q p2 l [Hb2 Hnd] Hcd Hp2 Hfind2 Hq2 Hco2.
      pose proof (Hr d lk2 ps2 s2 Hnd Hcd) as H2. rewrite (held_self d lk2 ps2 s2 Hb2) in H2. rewrite H2. cbn [obind].
      apply (wait_loop_reap 62 l k q (set_chan None p2) d lk2 _ s2); try done; [lia|]. by rewrite list_lookup_alter_eq, Hp2.
  Qed.
End reap.

(** ** A directory that is gone

    An inode without a name is freed with its last reference, which writes
    blocks; [exit] gives up the directory outside a transaction. *)
Section orphan.
  Context {St : Type} {LO : LogOps St} {TL : TransLaws St} (cap : nat) (kend : Z) (me : nat).
  Implicit Types (s : sys St).

Lemma bfree_outside (t : St) V b :
    let sb := sb_decode (V 1) in
    ll_rel (LogLaws := tl_read cap) t V ∅ [] -> (0 < cap)%nat -> layout V (ll_home (LogLaws := tl_read cap) t) ->
    0 <= b < sb_size sb -> bfree_at V (sb_ninodes sb) b = false ->
    bfree 1 b t = Panic "write outside of trans".
  Proof.
    intros sb R Hcap Lay Hb Hused. set (bb := BBLOCK b (sb_ninodes sb)). unfold bfree.
    pose proof (lay_home _ _ Lay). pose proof (lay_bitmap _ _ Lay b Hb) as Hbb. fold sb bb in Hbb.
    destruct (wp_outcome _ _ _ (readsb_run (LL := tl_read cap) _ _ _ _ R ltac:(lia) ltac:(done) ltac:(right; rewrite map_size_empty; cbn; unfold NBUF; lia)))
      as (? & t1 & E1 & -> & R1 & (Hh1 & _)).
    rewrite (bind_ok _ _ _ _ _ E1). fold sb bb. rewrite u32_id by (unfold is_u32; lia).
    destruct (wp_outcome _ _ _ (ll_bread (LogLaws := tl_read cap) _ _ _ _ bb R1 ltac:(lia) ltac:(done) ltac:(right; rewrite map_size_empty; cbn; unfold NBUF; lia)))
      as (h & t2 & E2 & Hh & R2 & _).
    rewrite (bind_ok _ _ _ _ _ E2). erewrite bind_ok by reflexivity.
    rewrite (ll_data (LogLaws := tl_read cap) _ _ _ _ h _ _ R2) by (by rewrite lookup_insert_eq).
    unfold bfree_at in Hused. fold bb in Hused. rewrite Hused.
    destruct (wp_outcome _ _ _ (ll_set (LogLaws := tl_read cap) _ _ _ _ h bb _ (bit_clear (Z.to_nat (b mod BPB)) (V bb)) R2 ltac:(by rewrite lookup_insert_eq)))
      as ([] & t3 & E3 & R3 & _).
    rewrite (bind_ok _ _ _ _ _ E3). apply bind_panic. eapply (tl_outside cap); [exact R3|done|]. by rewrite lookup_insert_eq.
  Qed.

  (** The last reference to an inode without a name, whose first block [b] is
      in use. *)
Record doomed s (V : Z -> list Z) (i : nat) (ip : inode) (b : Z) : Prop := {
    dm_idle : idle cap s V;
    dm_cap : (0 < cap)%nat;
    dm_layout : layout V (ll_home (LogLaws := tl_read cap) (fs_log (y_fs s)));
    dm_ip : ic_inodes (y_fs s) !! i = Some ip;
    dm_last : i_ref ip = 1 /\ i_flags ip = I_VALID /\ i_nlink ip = 0 /\ i_dev ip = 1;
    dm_block : i_addrs ip !! 0%nat = Some b /\ b <> 0 /\ 0 <= b < sb_size (sb_decode (V 1));
    dm_used : bfree_at V (sb_ninodes (sb_decode (V 1))) b = false;
  }.

Lemma iput_outside s V i ip b : doomed s V i ip b -> on_fs (iput i) s = Panic "write outside of trans".
  Proof.
    intros [R Hcap Lay Hi (Hr & Hfl & Hn & Hd) (Ha & Hb0 & Hb) Hu]. pose proof R as [Rl Hf].
    unfold on_fs. apply zoom_panic. cbn [lget y_fs_l]. unfold iput.
    rewrite (bind_ok _ _ _ _ _ (ic_acquire _ Hf)).
    rewrite (bind_ok _ _ _ _ _ (getip_run i ip (ic_in (ic_inodes (y_fs s)) (y_fs s)) Hi)).
    rewrite Hr, Hfl, Hn. change ((1 =? 1) && Flag.has I_VALID I_VALID && (0 =? 0)) with true.
    change (Flag.has I_VALID I_BUSY) with false. apply bind_panic. rewrite (bind_ok _ _ _ _ _ (updip_in _ _ _ _)).
    set (l1 := alter _ i (ic_inodes (y_fs s))).
    rewrite (bind_ok _ _ _ _ _ (ic_release l1 (y_fs s) (ll_base (LogLaws := tl_read cap) _ _ _ _ Rl))).
    apply bind_panic. unfold itrunc. apply bind_panic. change (Z.to_nat NDIRECT) with (S 11). unfold for_. cbn [for_from].
    apply bind_panic. set (ip1 := set_iflags (Z.lor (i_flags ip) I_BUSY) ip).
    assert (Hi1 : ic_inodes (ic_out l1 (y_fs s)) !! i = Some ip1) by (cbn [ic_out ic_inodes]; unfold l1; by rewrite list_lookup_alter_eq, Hi).
    rewrite (bind_ok _ _ _ _ _ (getip_run i ip1 _ Hi1)). cbn [ip1 set_iflags i_addrs i_dev]. rewrite Ha.
    erewrite bind_ok by reflexivity. destruct (Z.eqb_spec b 0); [done|]. cbn [negb]. rewrite Hd. apply bind_panic, zoom_panic.
    destruct (ic_out_rel (LL := tl_read cap) l1 (y_fs s) V ∅ [] R) as [[R1 _] (Hh & _)].
    cbn [lget fs_log_l]. apply (bfree_outside _ V); try done. by rewrite Hh.
  Qed.

Lemma close_none p s :
    current me p s -> p_ofile p = replicate NOFILE None -> close_files kend s = Ok tt s.
  Proof.
    intros Hc Ho. assert (H : wp (close_files kend) (fun _ s' => s' = s) s).
    { apply (wp_for (fun _ s' => s' = s)); [done|]. intros j s' Hj ->. apply wp_bind. eapply outcome_wp; [by apply (curproc_run me p)|].
      apply wp_bind. eapply wp_some; [rewrite Ho; by apply lookup_replicate_2|]. by apply wp_ret. }
    by destruct (wp_outcome _ _ _ H) as ([] & s' & E & ->).
  Qed.

  (** C34. A process whose current directory has been removed, and which holds the
      last reference to it, takes the kernel down when it exits: freeing the
      directory's blocks writes to the log, which panics outside a
      transaction. *)
Theorem exit_removed_cwd V p s c ip b :
    current me p s -> v_initproc (y_vars s) <> Some me -> p_ofile p = replicate NOFILE None -> p_cwd p = Some c ->
    doomed s V c ip b -> exit (A := unit) kend s = Panic "write outside of trans".
  Proof.
    intros Hc Hini Ho Hcwd Hd. unfold exit. apply bind_panic. unfold exit_body.
    rewrite (bind_ok _ _ _ _ _ (cur_run me p s Hc)). erewrite bind_ok by reflexivity. rewrite bool_decide_eq_false_2 by done.
    rewrite (bind_ok _ _ _ _ _ (close_none p s Hc Ho)), (bind_ok _ _ _ _ _ (curproc_run me p s Hc)), Hcwd.
    erewrite bind_ok by reflexivity. apply bind_panic. by eapply iput_outside.
  Qed.
End orphan.

(** ** Shrinking to nothing *)
Section shrink.
  Context {St : Type} {LO : LogOps St} (kend : Z) (Hkend : KERNBASE < kend) (me : nat).
  Implicit Types (s : sys St).

  (** [growproc] takes the size 0 for a failure: asked to give back all of a
      process's memory it returns -1, but every page is gone, while the process
      still has its old size. *)
Theorem growproc_to_zero s p l :
    current me p s -> 0 < p_sz p <= KERNBASE -> pt_ok kend (y_kst s) (p_pgdir p) l ->
    uspace kend (y_kst s) (p_pgdir p) l 0 (pages_of (p_sz p)) ->
    exists s' fl, growproc kend (- p_sz p) s = Ok (-1) s' /\ kmem_ok (y_kst s') (fl ++ l) /\
      (forall n, 0 <= n < pages_of (p_sz p) -> upage (y_kst s') (p_pgdir p) n = None) /\
      b_procs (y_base s') = b_procs (y_base s).
  Proof using Hkend.
    intros Hc Hsz Hpt Hus.
    destruct (deallocuvm_run kend Hkend (y_kst s) (p_pgdir p) l (p_sz p) 0 Hpt ltac:(lia) ltac:(lia) Hus ltac:(by left))
      as (t & fl & E & Hpt' & Hcl).
    exists (set_kst t s), fl. rewrite y_kst_set, y_base_kst. split_and!.
    - unfold growproc. rewrite (bind_ok _ _ _ _ _ (curproc_run me p s Hc)). destruct (Z.gtb_spec (- p_sz p) 0); [lia|].
      destruct (Z.ltb_spec (- p_sz p) 0); [|lia]. replace (u32 (p_sz p + - p_sz p)) with 0 by (by rewrite Z.add_opp_diag_r).
      rewrite (bind_ok _ _ _ _ _ (on_kst_ok _ s _ _ E)). destruct (Z.eqb_spec (- p_sz p) 0); [lia|]. reflexivity.
    - apply (po_kmem _ _ _ _ Hpt').
    - intros n Hn. pose proof (pages_of_mono (p_sz p) KERNBASE ltac:(lia)) as Hk. change (pages_of KERNBASE) with (2 ^ 19) in Hk.
      unfold upage. rewrite (cl_in _ _ _ _ _ _ Hcl); [done|apply page_u32; lia|]. rewrite page_num. exact Hn.
    - destruct (cl_quiet _ _ _ _ _ _ Hcl) as (_ & _ & [-> | ->]); [done|]. unfold relocked. by destruct (km_use_lock (y_kst s) =? 0).
  Qed.
End shrink.

(** ** A kernel with six processes

    Init and the shell wait for their children; the shell's child runs, with a
    file open and a dead child of its own; another process can run; one slot
    is free. *)
Definition with_mem {St} (k : kst) (s : sys St) : sys St :=
  Sys (y_fs s) (Mem (km_lock k) (km_use_lock k) (km_freelist k) (k_pages k) (k_out k)) (ft_lock s) (ft_files s) (y_pipes s) (y_vars s).

Definition tf2 : trapframe := Trapframe 0x60 0 0 0 0 3 0 0 0 0 0 0 [].
Definition proc2 (st : procstate) (pid : Z) (par : option nat) (ch : option chan) (fds : list (option nat)) : proc :=
  Proc 0x1000 0x80300000 0x80200000 st pid par tf2 ch 0 fds (Some 0%nat) (replicate 16 0).
Definition no_fds : list (option nat) := replicate NOFILE None.
Definition me2 : proc := proc2 RUNNING 3 (Some 1%nat) None (Some 0%nat :: replicate 15 None).
Definition procs2 : list proc :=
  [proc2 SLEEPING 1 None (Some (ChProc 0)) no_fds; proc2 SLEEPING 2 (Some 0%nat) (Some (ChProc 1)) no_fds; me2;
   proc2 ZOMBIE 4 (Some 2%nat) None no_fds; proc2 RUNNABLE 5 (Some 0%nat) None no_fds; proc2 UNUSED 0 None None no_fds].
Definition cpu2 : cpu := Cpu 0 0 false false (Some 2%nat).
Definition base2 : base := Base cpu2 (Spinlock 0 "ptable" None []) procs2.
Definition vars2 : vars := Vars 6 (Some 0%nat) 0 0 (Spinlock 0 "time" None []) 0 0 0.
(** What does not depend on the memory and the variables. *)
Section around.
  Context {St : Type} {LO : LogOps St} {TL : TransLaws St}.
  Implicit Types (s : sys St).
Definition around (v : vars) (k : kst) s : sys St := set_vars v (with_mem k s).

Lemma around_base v k l b s : y_base (around v k (set_files l (set_base b s))) = b.
  Proof. exact (y_base_set b s). Qed.
Lemma around_idle v k s V cap : idle cap s V -> 1 < home s -> idle cap (around v k s) V /\ 1 < home (around v k s).
  Proof. done. Qed.
Lemma around_linked v k s i : linked s i -> linked (around v k s) i.
  Proof. done. Qed.
Lemma around_kmem v k s l : kmem_ok k l -> 0 <= ncli (b_cpu (y_base s)) -> kmem_ok (y_kst (around v k s)) l.
  Proof. intros [] H. by split. Qed.
Lemma around_space kend v k s pgdir l :
    space_ok kend k pgdir l -> 0 <= ncli (b_cpu (y_base s)) -> space_ok kend (y_kst (around v k s)) pgdir l.
  Proof.
    intros H Hn. eapply space_ok_pages; [exact H|done| |done]. apply around_kmem; [|done]. apply (po_kmem _ _ _ _ (so_pt _ _ _ _ H)).
  Qed.
Lemma around_owned v k s pgdir w : owned (y_kst (around v k s)) pgdir w <-> owned k pgdir w.
  Proof. done. Qed.
Lemma around_pages v k s : m_pages (y_mem (around v k s)) = k_pages k.
  Proof. done. Qed.
End around.

Definition mid2 : sys log := set_files [File FD_INODE 1 0 1 0 0 0; file0] (set_base base2 sys0).
Definition sys2 : sys log := around vars2 (popped vm0) mid2.

Lemma sys2_base : y_base sys2 = base2.
Proof. apply around_base. Qed.
Lemma mid2_base : y_base mid2 = base2.
Proof. apply y_base_files. Qed.

Lemma sys2_idle : idle 9 sys2 (disk_get fs_disk) /\ 1 < home sys2.
Proof.
  assert (Hb : base_ok base2) by (split; [reflexivity|simpl; lia]).
  pose proof (ino_ok_files 9 sys0 (disk_get fs_disk) 0 ip4 1024 base2 [File FD_INODE 1 0 1 0 0 0; file0] sys0_ino Hb) as H.
  fold mid2 in H.
  exact (around_idle vars2 (popped vm0) mid2 (disk_get fs_disk) 9 (ino_idle _ _ _ _ _ _ H) (proj2 (ino_room _ _ _ _ _ _ H))).
Qed.

Lemma sys2_current : current 2 me2 sys2.
Proof. split; by rewrite sys2_base. Qed.

Lemma sys2_linked : linked sys2 0.
Proof. apply around_linked. exists ip4. split; [reflexivity|discriminate]. Qed.

Lemma procs2_files : files_ok [File FD_INODE 1 0 1 0 0 0; file0] procs2.
Proof.
  split.
  - intros q Hq. unfold procs2 in Hq. rewrite !elem_of_cons, elem_of_nil in Hq. by destruct Hq as [->|[->|[->|[->|[->|[->|[]]]]]]].
  - intros q f Hq Hf. unfold procs2 in Hq. rewrite !elem_of_cons, elem_of_nil in Hq.
    destruct Hq as [->|[->|[->|[->|[->|[->|[]]]]]]]; cbn [proc2 me2 p_ofile] in Hf;
      try (apply elem_of_replicate in Hf as [? _]; done).
    apply elem_of_cons in Hf as [[= ->]|[? _]%elem_of_replicate]; [by eexists|done].
  - intros f ff Hf. destruct f as [|[|f]]; try discriminate Hf; injection Hf as <-; reflexivity.
Qed.

Lemma sys2_files : files_ok (ft_files sys2) (b_procs (y_base sys2)).
Proof. rewrite sys2_base. exact procs2_files. Qed.

Lemma sys2_exiting : exiting 9 2 (disk_get fs_disk) me2 sys2.
Proof.
  destruct sys2_idle as [HV Hh]. split; [split|exact HV|exact Hh| |].
  - exact sys2_current.
  - reflexivity.
  - rewrite sys2_base. simpl. lia.
  - exact sys2_files.
  - intros f Hf. cbn [me2 proc2 p_ofile] in Hf. apply elem_of_cons in Hf as [[= ->]|[? _]%elem_of_replicate]; [|done].
    eexists. split_and!; [reflexivity|reflexivity|exact sys2_linked].
  - exists 0%nat. split; [reflexivity|exact sys2_linked].
Qed.

Lemma mem2_ok : kmem_ok (popped vm0) [0x80201000] /\ k_pages (popped vm0) = k_pages vm0.
Proof. destruct (popped_ok vm0 _ (po_kmem _ _ _ _ vm0_ok)) as (H1 & H2 & _). split; [exact H1|exact H2]. Qed.

Lemma mem2_space : space_ok 0x80110000 (popped vm0) 0x80300000 [0x80201000].
Proof.
  destruct mem2_ok as [K E]. eapply space_ok_pages; [exact vm0_space|exact E|exact K|].
  intros x ->%list_elem_of_singleton. right. left.
Qed.

Lemma mem2_stack : ~ owned (popped vm0) 0x80300000 0x80200000.
Proof.
  destruct mem2_ok as [_ E]. unfold owned, pt_page, upage, pte_of, word. rewrite E.
  intros [[H|(i & Hi & HV & Ht)]|(n & Hn & Hu)].
  - discriminate H.
  - apply (vm_at_dir 1 i ltac:(lia) Hi) in HV as ->. revert Ht. vm_compute. discriminate.
  - apply (vm_at_upage 1 n) in Hu as [_ H]; [discriminate H|lia|lia].
Qed.

Lemma sys2_corpse : corpse 0x80110000 [0x80201000] (proc2 ZOMBIE 4 (Some 2%nat) None no_fds) sys2.
Proof.
  destruct mem2_ok as [_ E]. split; cbn [proc2 p_pgdir p_kstack].
  - apply around_space; [exact mem2_space|]. rewrite mid2_base. simpl. lia.
  - split_and!; [split_and!; [reflexivity|unfold KERNBASE, PHYSTOP; lia..]| |].
    + unfold sys2. rewrite around_pages, E. apply not_eq_None_Some. vm_compute. discriminate.
    + by rewrite list_elem_of_singleton.
  - unfold sys2. rewrite around_owned. exact mem2_stack.
Qed.

Lemma wait_spec_witness :
  exists s', wait 0x80110000 sys2 = Ok 4 s' /\
    buried [0x80201000] 3 (proc2 ZOMBIE 4 (Some 2%nat) None no_fds) procs2 sys2 s'.
Proof.
  pose proof (wait_spec 0x80110000 ltac:(unfold KERNBASE; lia) 2 sys2 me2 sys2_current) as H. rewrite sys2_base in H.
  apply (H eq_refl eq_refl [0x80201000] (proc2 ZOMBIE 4 (Some 2%nat) None no_fds) eq_refl sys2_corpse).
Defined.

Lemma procs2_pids : pids_ok procs2 6.
Proof.
  split.
  - intros i p Hi Hs. destruct i as [|[|[|[|[|[|i]]]]]]; simpl in Hi; try discriminate Hi; injection Hi as <-; simpl in *; (done || lia).
  - intros i j p q Hi Hj Hp Hq E.
    destruct i as [|[|[|[|[|[|i]]]]]]; simpl in Hi; try discriminate Hi; injection Hi as <-;
    destruct j as [|[|[|[|[|[|j]]]]]]; simpl in Hj; try discriminate Hj; injection Hj as <-; simpl in *; done.
Qed.

Lemma allocproc_spec_witness :
  exists s', allocproc sys2 = Ok (Some 5%nat) s' /\ pids_ok (b_procs (y_base s')) (v_nextpid (y_vars s')).
Proof.
  assert (K : kmem_ok (y_kst sys2) [0x80201000]).
  { apply around_kmem; [apply mem2_ok|]. rewrite mid2_base. simpl. lia. }
  pose proof (allocproc_spec sys2 [0x80201000]) as H. rewrite sys2_base in H.
  destruct H as (r & s' & E & _ & P & _ & _ & -> & _); [split; [reflexivity|simpl; lia]|exact K|simpl; lia|exact procs2_pids|].
  exists s'. split; [exact E|exact P].
Defined.

Lemma kill_zero_unborn_witness :
  exists s1 s2 p, on_base (kill 0) sys2 = Ok 0 s1 /\ allocproc s1 = Ok (Some 5%nat) s2 /\
    b_procs (y_base s2) !! 5%nat = Some p /\ p_pid p = 6 /\ p_killed p = 1.
Proof.
  assert (K : kmem_ok (y_kst sys2) [0x80201000]).
  { apply around_kmem; [apply mem2_ok|]. rewrite mid2_base. simpl. lia. }
  pose proof (kill_zero_unborn sys2 0x80201000 [] 5) as H. rewrite sys2_base in H.
  apply H; [split; [reflexivity|simpl; lia]|exact K|reflexivity|reflexivity].
Defined.

(** Every process gives the CPU back at once and can run again. *)
Definition polite (s : sys log) : sys log :=
  match cproc (b_cpu (y_base s)) with
  | Some i => set_procs (alter (set_state RUNNABLE) i (b_procs (y_base s))) s
  | None => s
  end.

Lemma polite_cooperative : cooperative polite.
Proof.
  intros i s (d & lk & ps & p & [Hb Hn] & Hc & Hp & Hst & Hd & _) Hr. unfold polite. rewrite Hb in *. cbn [b_cpu b_procs cli cproc] in *.
  rewrite Hc. exists d, lk, (alter (set_state RUNNABLE) i ps). split_and!.
  - split; [|done]. by rewrite y_base_procs, Hb.
  - apply length_alter.
  - intros q [j Hj]%list_elem_of_lookup Hq. destruct (decide (j = i)) as [-> | Hne].
    + rewrite list_lookup_alter_eq, Hp in Hj. by injection Hj as <-.
    + rewrite list_lookup_alter_ne in Hj by done. apply Hr; [by eapply list_elem_of_lookup_2|done].
  - intros j q Hj Hq. destruct (decide (j = i)) as [-> | Hne]; [congruence|]. exists q. by rewrite list_lookup_alter_ne.
Qed.

Definition base3 : base := Base (Cpu 0 0 false true None) (Spinlock 0 "ptable" None []) (<[2%nat := set_state RUNNABLE me2]> procs2).
Lemma scheduler_pass_fair_witness :
  exists tr s', drive polite (scheduler_pass (set_base base3 sys2)) = (tr, Ok tt s') /\ 2%nat ∈ ran tr /\ 4%nat ∈ ran tr.
Proof.
  pose proof (scheduler_pass_fair polite (set_base base3 sys2) polite_cooperative) as H. rewrite y_base_set in H.
  destruct H as (tr & s' & E & _ & _ & _ & _ & Ha); [split; [reflexivity|simpl; lia]|reflexivity| |].
  - intros q Hq _. unfold base3, procs2 in Hq. cbn [b_procs insert list_insert] in Hq. rewrite !elem_of_cons, elem_of_nil in Hq.
    by destruct Hq as [->|[->|[->|[->|[->|[->|[]]]]]]].
  - exists tr, s'. split_and!; [exact E|apply (Ha 2%nat (set_state RUNNABLE me2)); reflexivity|].
    apply (Ha 4%nat (proc2 RUNNABLE 5 (Some 0%nat) None no_fds)); reflexivity.
Defined.

(** A process in a directory that has been removed. *)
Definition ip6 : inode := Inode 1 6 1 I_VALID 1 0 0 0 512 (20 :: replicate 12 0).
Definition base4 : base :=
  Base (Cpu 0 0 false false (Some 1%nat)) (Spinlock 0 "ptable" None [])
    [proc2 SLEEPING 1 None (Some (ChProc 0)) no_fds; proc2 RUNNING 2 (Some 0%nat) None no_fds].
Definition mid4 : sys log :=
  Sys (Fs boot_state (Spinlock 0 "icache" None []) [ip6]) mem0 (Spinlock 0 "ftable" None []) [] ∅ vars0.

Lemma doomed_base {St} {LO : LogOps St} {TL : TransLaws St} cap (s : sys St) V i ip b bs :
  doomed cap s V i ip b -> base_ok bs -> doomed cap (set_base bs s) V i ip b.
Proof.
  intros [R H1 H2 H3 H4 H5 H6] Hb. destruct (idle_base cap s V bs R Hb) as [R' Hh].
  assert (Hh' : ll_home (LogLaws := tl_read cap) (fs_log (y_fs (set_base bs s))) = ll_home (LogLaws := tl_read cap) (fs_log (y_fs s)))
    by (rewrite <- !(tl_home cap); exact Hh).
  split; [exact R'|done| |done|done|done|done]. by rewrite Hh'.
Qed.

Lemma mid4_doomed : doomed 9 mid4 (disk_get fs_disk) 0 ip6 20.
Proof.
  destruct boot_state_rel as [R Hst]. split.
  - split; [exact R|reflexivity].
  - lia.
  - assert (Hh : ll_home (LogLaws := tl_read 9) (fs_log (y_fs mid4)) = 1014) by exact Hst. rewrite Hh. exact fs_layout.
  - reflexivity.
  - by split_and!.
  - split_and!; [reflexivity|discriminate|lia|]. vm_compute. reflexivity.
  - vm_compute. reflexivity.
Qed.

Lemma exit_removed_cwd_witness : exit (A := unit) 0x80110000 (set_base base4 mid4) = Panic "write outside of trans".
Proof.
  apply (exit_removed_cwd 9 0x80110000 1 (disk_get fs_disk) (proc2 RUNNING 2 (Some 0%nat) None no_fds) _ 0 ip6 20).
  - split; by rewrite y_base_set.
  - discriminate.
  - reflexivity.
  - reflexivity.
  - apply doomed_base; [exact mid4_doomed|]. split; [reflexivity|simpl; lia].
Defined.

Lemma growproc_to_zero_witness :
  exists s' fl, growproc 0x80110000 (- 0x1000) sys2 = Ok (-1) s' /\ kmem_ok (y_kst s') (fl ++ [0x80201000]).
Proof.
  destruct (growproc_to_zero 0x80110000 ltac:(unfold KERNBASE; lia) 2 sys2 me2 [0x80201000] sys2_current) as (s' & fl & E & K & _).
  - unfold KERNBASE. simpl. lia.
  - apply (so_pt _ _ _ _ (around_space 0x80110000 vars2 (popped vm0) mid2 0x80300000 _ mem2_space ltac:(rewrite mid2_base; simpl; lia))).
  - destruct (so_user _ _ _ _ (around_space 0x80110000 vars2 (popped vm0) mid2 0x80300000 _ mem2_space ltac:(rewrite mid2_base; simpl; lia))) as [H1 H2].
    change (pages_of (p_sz me2)) with 1. split.
    + intros n v Hn. apply (H1 n v). lia.
    + intros n m v Hn Hm. apply (H2 n m v); lia.
  - exists s', fl. split; [exact E|exact K].
Defined.
