(* ===== verification/Fork.v ===== *)
(** Making a process: fork (proc.c) over the process table, the page
    allocator, the open files and the inode cache. *)
From stdpp Require Import base numbers list strings sets gmap.
From S2P Require Import Prelude Params Spinlock Sched BlockIf Trans Inode Dir Kalloc Vm VmFree VmCopy Sys File Proc Syscall Sysfile Log Life.

Set Warnings "-clear-no-such-hyp".

Section fork.
  Context {St : Type} {LO : LogOps St} (kend kdata : Z).
  Hypothesis Hkend : KERNBASE < kend.
  Hypothesis Hdata : kdata mod PGSIZE = 0 /\ KERNLINK < kdata < KERNBASE + PHYSTOP.
  Implicit Types (s t : sys St).

  (** *** The table while the child's slot is filled in: [me] runs, [ps] is
      the rest, [q] the child so far. *)
  Context (me np : nat) (p : proc) (ps : list proc).
  Hypothesis Hme : ps !! me = Some p.
  Hypothesis Hnp : (np < length ps)%nat.
  Hypothesis Hne : me <> np.

Definition with_child (q : proc) t : sys St := set_procs (<[np := q]> ps) t.

Lemma child_base q t : y_base (with_child q t) = Base (b_cpu (y_base t)) (b_lock (y_base t)) (<[np := q]> ps).
  Proof. apply y_base_procs. Qed.
Lemma child_self q t : b_procs (y_base t) = <[np := q]> ps -> with_child q t = t.
  Proof. intros E. unfold with_child. rewrite <- E. apply set_procs_id. Qed.

Lemma updp_child q f t : updp np f (with_child q t) = Ok tt (with_child (f q) t).
  Proof using Hnp.
    rewrite updp_run, child_base. cbn [b_procs]. rewrite (alter_at f np _ q) by (by apply list_lookup_insert_eq).
    rewrite list_insert_insert_eq. unfold with_child. by rewrite set_procs_set.
  Qed.
Lemma getp_child q t : getp np (with_child q t) = Ok q (with_child q t).
  Proof using Hnp. apply getp_run. rewrite child_base. by apply list_lookup_insert_eq. Qed.
Lemma current_child q t : cproc (b_cpu (y_base t)) = Some me -> current me p (with_child q t).
  Proof using Hme Hne. intros Hc. split; rewrite child_base; [done|]. cbn [b_procs]. by rewrite list_lookup_insert_ne. Qed.

  (** *** The descriptors *)
Definition dup_to (j : nat) (q : proc) : proc := set_ofile (take j (p_ofile p) ++ drop j (p_ofile q)) q.

Record dup_ok (q : proc) t : Prop := {
    du_cpu : cproc (b_cpu (y_base t)) = Some me;
    du_base : base_ok (y_base t);
    du_lock : free (ft_lock t);
    du_files : files_ok (ft_files t) (<[np := q]> ps);
  }.

Lemma dup_to_S j q o :
    length (p_ofile p) = NOFILE -> p_ofile q = replicate NOFILE None -> (j < NOFILE)%nat -> p_ofile p !! j = Some o ->
    dup_to (S j) q = set_ofile (<[j := o]> (p_ofile (dup_to j q))) (dup_to j q) /\ p_ofile (dup_to j q) !! j = Some None.
  Proof.
    intros Hl Hq Hj Ho. unfold dup_to. cbn [set_ofile p_ofile]. rewrite Hq. rewrite !drop_replicate.
    assert (Ht : length (take j (p_ofile p)) = j) by (rewrite length_take; lia).
    replace (NOFILE - j)%nat with (S (NOFILE - S j)) by lia. cbn [replicate]. split.
    - rewrite insert_app_r_alt, Ht, Nat.sub_diag by lia. cbn [insert list_insert]. rewrite (take_S_r _ _ _ Ho), <- app_assoc. done.
    - rewrite lookup_app_r, Ht, Nat.sub_diag by lia. done.
  Qed.

  (** The child gets one more of the files. *)
Lemma dup_one q k f t :
    dup_ok q t -> p_ofile q !! k = Some None -> Some f ∈ p_ofile p ->
    exists t', filedup f (with_child q t) = Ok f (with_child q t') /\
      dup_ok (set_ofile (<[k := Some f]> (p_ofile q)) q) t' /\
      y_mem t' = y_mem t /\ y_vars t' = y_vars t /\ y_pipes t' = y_pipes t /\ exists b, y_fs t' = put_base b (y_fs t).
  Proof using Hme Hnp Hne.
    intros [H1 [H2 H2'] H3 H4] Hk Hin.
    assert (Hp : p ∈ <[np := q]> ps) by (apply (list_elem_of_lookup_2 _ me); by rewrite list_lookup_insert_ne).
    destruct (fo_in _ _ H4 p f Hp Hin) as [ff Hff].
    assert (Href : 1 <= f_ref ff) by (rewrite (fo_ref _ _ H4 f ff Hff); by apply (proj2 (all_refs_pos f (<[np := q]> ps)) p)).
    set (fl := alter (fun ff => set_fref (f_ref ff + 1) ff) f (ft_files t)).
    exists (ft_out fl t). split_and!; try done.
    - rewrite (filedup_run (with_child q t) f ff H3); [|by rewrite child_base|done|done].
      f_equal. unfold ft_out, with_child, set_procs, set_base. cbn [y_fs y_mem ft_lock ft_files y_pipes y_vars].
      unfold y_base. cbn [y_fs]. rewrite !fs_base_put, !put_base_put. done.
    - split; [by rewrite ft_out_base|rewrite ft_out_base; by split|done|].
      cbn [ft_out ft_files]. rewrite <- (list_insert_insert_eq ps np _ q).
      eapply (files_ok_change (ft_files t)); [exact H4|by apply list_lookup_insert_eq|exact Hk|..].
      + intros g [gg Hg]. unfold fl. destruct (decide (g = f)) as [-> | Hg']; [rewrite list_lookup_alter_eq, Hg; by eexists|].
        rewrite list_lookup_alter_ne by done. by eexists.
      + intros g [= <-]. unfold fl. rewrite list_lookup_alter_eq, Hff. by eexists.
      + intros g gg Hg. unfold fl in Hg. rewrite decide_False by done. destruct (decide (g = f)) as [-> | Hg'].
        * rewrite list_lookup_alter_eq, Hff in Hg. injection Hg as <-. exists ff. rewrite decide_True by done. cbn. split; [done|lia].
        * rewrite list_lookup_alter_ne in Hg by done. exists gg. rewrite decide_False by congruence. split; [done|lia].
    - by eexists.
  Qed.

Lemma dup_files_run q t :
    dup_ok q t -> length (p_ofile p) = NOFILE -> p_ofile q = replicate NOFILE None ->
    exists t', dup_files np (with_child q t) = Ok tt (with_child (set_ofile (p_ofile p) q) t') /\
      dup_ok (set_ofile (p_ofile p) q) t' /\
      y_mem t' = y_mem t /\ y_vars t' = y_vars t /\ y_pipes t' = y_pipes t /\ exists b, y_fs t' = put_base b (y_fs t).
  Proof using Hme Hnp Hne.
    intros Hd Hl Hq.
    assert (Hw : wp (dup_files np) (fun _ s' => exists t', s' = with_child (dup_to NOFILE q) t' /\ dup_ok (dup_to NOFILE q) t' /\
      y_mem t' = y_mem t /\ y_vars t' = y_vars t /\ y_pipes t' = y_pipes t /\ exists b, y_fs t' = put_base b (y_fs t)) (with_child q t)).
    { apply (wp_for (fun j s' => exists t', s' = with_child (dup_to j q) t' /\ dup_ok (dup_to j q) t' /\
        y_mem t' = y_mem t /\ y_vars t' = y_vars t /\ y_pipes t' = y_pipes t /\ exists b, y_fs t' = put_base b (y_fs t))).
      { exists t. replace (dup_to 0 q) with q by (by destruct q). split_and!; try done. exists (y_base t). unfold y_base. by rewrite put_base_get. }
      intros j s' Hj (t' & -> & Hd' & E1 & E2 & E3 & b & E4).
      destruct (lookup_lt_is_Some_2 (p_ofile p) j ltac:(lia)) as [o Ho].
      destruct (dup_to_S j q o Hl Hq Hj Ho) as [Es En].
      apply wp_bind. eapply outcome_wp; [apply (curproc_run me p), current_child, Hd'|].
      apply wp_bind. eapply wp_some; [exact Ho|]. destruct o as [f|].
      - destruct (dup_one (dup_to j q) j f t' Hd' En) as (t2 & E & Hd2 & F1 & F2 & F3 & c & F4); [by eapply list_elem_of_lookup_2|].
        apply wp_bind. eapply outcome_wp; [exact E|]. eapply outcome_wp; [apply updp_child|]. exists t2. rewrite Es.
        split_and!; [done|done|congruence..|]. exists c. by rewrite F4, E4, put_base_put.
      - apply wp_ret. exists t'. rewrite Es, list_insert_id by done. replace (set_ofile (p_ofile (dup_to j q)) (dup_to j q)) with (dup_to j q) by done.
        split_and!; try done. by exists b. }
    destruct (wp_outcome _ _ _ Hw) as ([] & s' & E & t' & -> & Hd' & Hrest).
    replace (dup_to NOFILE q) with (set_ofile (p_ofile p) q) in *.
    2:{ unfold dup_to. rewrite Hq, drop_replicate, Nat.sub_diag, app_nil_r, take_ge by lia. done. }
    exists t'. split; [exact E|split; [exact Hd'|exact Hrest]].
  Qed.

  (** *** A call of the memory's *)
Lemma on_kst_child {A} (m : M kst A) q t a k :
    m (y_kst (with_child q t)) = Ok a k -> kquiet (y_kst (with_child q t)) k -> base_ok (y_base t) ->
    on_kst m (with_child q t) = Ok a (with_child q (set_kst k t)) /\ base_ok (y_base (set_kst k t)) /\
    cproc (b_cpu (y_base (set_kst k t))) = cproc (b_cpu (y_base t)) /\ y_kst (with_child q (set_kst k t)) = k.
  Proof.
    intros E (_ & _ & HB) [H1 H2]. rewrite y_base_kst.
    assert (Hb : b_lock (k_base k) = b_lock (y_base t) /\ b_procs (k_base k) = <[np := q]> ps /\
      ncli (b_cpu (k_base k)) = ncli (b_cpu (y_base t)) /\ cproc (b_cpu (k_base k)) = cproc (b_cpu (y_base t))).
    { unfold relocked in HB. destruct (km_use_lock (y_kst (with_child q t)) =? 0); cbn [k_base] in HB;
        change (k_base (y_kst (with_child q t))) with (y_base (with_child q t)) in HB; rewrite child_base in HB; destruct HB as [-> | ->]; done. }
    destruct Hb as (B1 & B2 & B3 & B4).
    assert (Es : set_kst k (with_child q t) = set_kst k t).
    { unfold set_kst, with_child, set_procs, set_base. cbn [y_fs ft_lock ft_files y_pipes y_vars]. by rewrite put_base_put. }
    assert (Ec : with_child q (set_kst k t) = set_kst k t) by (apply child_self; by rewrite y_base_kst).
    split_and!.
    - rewrite (on_kst_ok _ _ _ _ E), Es, Ec. done.
    - split; [by rewrite B1|by rewrite B3].
    - done.
    - rewrite Ec. apply y_kst_set.
  Qed.

  (** *** The current directory *)
Definition more_refs (c : nat) t : sys St :=
    Sys (ic_out (alter (fun ip => set_iref (i_ref ip + 1) ip) c (ic_inodes (y_fs t))) (y_fs t)) (y_mem t) (ft_lock t)
      (ft_files t) (y_pipes t) (y_vars t).

Lemma more_refs_base c t : y_base (more_refs c t) = with_cpu (quiet (b_cpu (y_base t))) (y_base t).
  Proof. unfold y_base, fs_base, more_refs. cbn [y_fs]. cbn [lget fs_base_l ic_out fs_log]. by rewrite lget_lset. Qed.

Lemma idup_child c q t :
    free (ic_lock (y_fs t)) -> base_ok (y_base t) -> on_fs (idup c) (with_child q t) = Ok c (with_child q (more_refs c t)).
  Proof.
    intros Hf [H1 H2]. set (F := y_fs (with_child q t)).
    assert (Hb : lget (fs_log F) = y_base (with_child q t)) by done.
    assert (Hok : base_ok (lget (fs_log F))) by (rewrite Hb, child_base; by split).
    assert (Ei : idup c F = Ok c (ic_out (alter (fun ip => set_iref (i_ref ip + 1) ip) c (ic_inodes F)) F)).
    { unfold idup. rewrite (bind_ok _ _ _ _ _ (ic_acquire F Hf)), (bind_ok _ _ _ _ _ (updip_in _ _ _ _)).
      by rewrite (bind_ok _ _ _ _ _ (ic_release _ F Hok)). }
    unfold on_fs. erewrite zoom_ok by exact Ei. f_equal. unfold with_child at 2, set_procs, set_base. rewrite more_refs_base.
    cbn [with_cpu b_cpu b_lock b_procs more_refs y_mem ft_lock ft_files y_pipes y_vars y_fs lset y_fs_l].
    unfold ic_out at 1. rewrite Hb, child_base. cbn [b_cpu b_lock b_procs]. unfold put_base, F, with_child, set_procs, set_base, put_base.
    cbn [y_fs lset fs_base_l ic_out fs_log ic_lock ic_inodes y_mem ft_lock ft_files y_pipes y_vars]. by rewrite !lset_lset.
  Qed.

  (** *** After the address space has been copied *)
Definition forked (q : proc) : proc :=
    copy_name (cut (p_name p)) (set_state RUNNABLE (set_cwd (p_cwd p) (set_ofile (p_ofile p)
      (set_tf (set_r0 0 (p_tf p)) (set_parent (Some me) (set_sz (p_sz p) q)))))).

Definition fork_rest : M (sys St) Z :=
    i <- cur ;;
    p <- curproc ;;
    updp np (set_sz (p_sz p)) ;;;
    updp np (set_parent (Some i)) ;;;
    updp np (set_tf (set_r0 0 (p_tf p))) ;;;
    dup_files np ;;;
    p <- curproc ;;
    c <- some (p_cwd p) ;;
    c <- on_fs (idup c) ;;
    updp np (set_cwd (Some c)) ;;;
    q <- getp np ;;
    let pid := p_pid q in
    updp np (set_state RUNNABLE) ;;;
    p <- curproc ;;
    updp np (copy_name (cut (p_name p))) ;;;
    ret pid.

Lemma fork_rest_run q t c :
    dup_ok q t -> length (p_ofile p) = NOFILE -> p_ofile q = replicate NOFILE None ->
    p_cwd p = Some c -> free (ic_lock (y_fs t)) ->
    exists t', fork_rest (with_child q t) = Ok (p_pid q) (with_child (forked q) t') /\ dup_ok (forked q) t' /\
      y_mem t' = y_mem t /\ y_vars t' = y_vars t /\ y_pipes t' = y_pipes t /\
      ic_inodes (y_fs t') = alter (fun ip => set_iref (i_ref ip + 1) ip) c (ic_inodes (y_fs t)).
  Proof using Hme Hnp Hne.
    intros Hd Hl Hq Hc Hic. unfold fork_rest.
    assert (Hcur : forall q t, cproc (b_cpu (y_base t)) = Some me -> cur (with_child q t) = Ok me (with_child q t))
      by (intros; by apply (cur_run me p), current_child).
    assert (Hcp : forall q t, cproc (b_cpu (y_base t)) = Some me -> curproc (with_child q t) = Ok p (with_child q t))
      by (intros; by apply (curproc_run me p), current_child).
    rewrite (bind_ok _ _ _ _ _ (Hcur q t (du_cpu _ _ Hd))), (bind_ok _ _ _ _ _ (Hcp q t (du_cpu _ _ Hd))).
    rewrite !(bind_ok _ _ _ _ _ (updp_child _ _ _)).
    set (q1 := set_tf _ _).
    assert (Hd1 : dup_ok q1 t).
    { destruct Hd as [D1 D2 D3 D4]. split; try done. eapply files_ok_ofile; [|exact D4]. by rewrite !list_fmap_insert. }
    destruct (dup_files_run q1 t Hd1 Hl Hq) as (t1 & E1 & Hd2 & M1 & V1 & P1 & b1 & F1).
    rewrite (bind_ok _ _ _ _ _ E1), (bind_ok _ _ _ _ _ (Hcp _ t1 (du_cpu _ _ Hd2))), Hc. erewrite bind_ok by reflexivity.
    assert (Hic1 : free (ic_lock (y_fs t1))) by (by rewrite F1).
    rewrite (bind_ok _ _ _ _ _ (idup_child c _ t1 Hic1 (du_base _ _ Hd2))).
    set (t2 := more_refs c t1).
    assert (Hc2 : cproc (b_cpu (y_base t2)) = Some me) by (unfold t2; rewrite more_refs_base; apply (du_cpu _ _ Hd2)).
    rewrite (bind_ok _ _ _ _ _ (updp_child _ _ _)), (bind_ok _ _ _ _ _ (getp_child _ _)). cbv zeta.
    rewrite (bind_ok _ _ _ _ _ (updp_child _ _ _)), (bind_ok _ _ _ _ _ (Hcp _ t2 Hc2)), (bind_ok _ _ _ _ _ (updp_child _ _ _)).
    exists t2. split_and!; try done.
    - unfold forked. rewrite Hc. done.
    - destruct Hd2 as [D1 [D2 D2'] D3 D4]. split; [done|unfold t2; rewrite more_refs_base; by split|done|].
      eapply files_ok_ofile; [|exact D4]. by rewrite !list_fmap_insert.
    - unfold t2. cbn [more_refs y_fs ic_out ic_inodes]. by rewrite F1.
  Qed.

  (** *** When it could not be *)
Definition fork_undo : M (sys St) Z :=
    q <- getp np ;;
    on_kst (kfree kend (p_kstack q)) ;;;
    updp np (set_kstack 0) ;;;
    updp np (set_state UNUSED) ;;;
    ret (-1).

Lemma fork_undo_run q t l :
    base_ok (y_base t) -> heap_ok kend (y_kst (with_child q t)) l -> freeable kend (p_kstack q) ->
    is_Some (m_pages (y_mem t) !! p_kstack q) -> p_kstack q ∉ l ->
    exists k, fork_undo (with_child q t) = Ok (-1) (with_child (set_state UNUSED (set_kstack 0 q)) (set_kst k t)) /\
      base_ok (y_base (set_kst k t)) /\ cproc (b_cpu (y_base (set_kst k t))) = cproc (b_cpu (y_base t)) /\
      heap_ok kend (y_kst (with_child (set_state UNUSED (set_kstack 0 q)) (set_kst k t))) (p_kstack q :: l) /\
      forall v, v <> p_kstack q -> k_pages k !! v = m_pages (y_mem t) !! v.
  Proof using Hnp.
    intros Hb [Hk Hf Hu] Hfr Hs Hl. unfold fork_undo. rewrite (bind_ok _ _ _ _ _ (getp_child _ _)).
    destruct (kfree_plain kend (y_kst (with_child q t)) l (p_kstack q) Hk Hfr Hs Hl Hf) as (k & E & Hk' & Hq & Hp).
    destruct (on_kst_child _ q t tt k E Hq Hb) as (E' & Hb' & Hc' & Hy). exists k.
    rewrite (bind_ok _ _ _ _ _ E'), !(bind_ok _ _ _ _ _ (updp_child _ _ _)). split_and!; [done|done|done| |].
    - split.
      + apply kmem_ok_base; [by rewrite y_kst_set|apply Hb'].
      + intros x [->|Hx]%elem_of_cons; [done|by apply Hf].
      + change (forall v p0, k_pages k !! v = Some p0 -> Forall is_u8 p0). by eapply bytes_freed.
    - intros v Hv. rewrite Hp, lookup_insert_ne by done. done.
  Qed.
End fork.

(** ** fork *)
Section spec.
  Context {St : Type} {LO : LogOps St} (kend kdata : Z).
  Hypothesis Hkend : KERNBASE < kend.
  Hypothesis Hdata : kdata mod PGSIZE = 0 /\ KERNLINK < kdata < KERNBASE + PHYSTOP.
  Implicit Types (s t : sys St).

Lemma kmem_ok_mem s s' l : y_mem s' = y_mem s -> 0 <= ncli (b_cpu (y_base s')) -> kmem_ok (y_kst s) l -> kmem_ok (y_kst s') l.
  Proof. intros E Hn [K1 K2 K3 K4 K5]. unfold y_kst in *. rewrite E. by split. Qed.

  (** A process at a call of fork: its address space is in order and mapped up
      to its size, the files and the table of processes are consistent, unused
      slots name no files, and it runs with the locks free. *)
Record can_fork s (l : list Z) (me : nat) (p : proc) (c : nat) : Prop := {
    cf_base : base_ok (y_base s);
    cf_cur : current me p s;
    cf_state : p_state p <> UNUSED;
    cf_space : space_ok kend (y_kst s) (p_pgdir p) l;
    cf_sz : 0 <= p_sz p <= KERNBASE;
    cf_mapped : forall n, 0 <= n < pages_of (p_sz p) -> is_Some (upage (y_kst s) (p_pgdir p) n);
    cf_ft : free (ft_lock s);
    cf_files : files_ok (ft_files s) (b_procs (y_base s));
    cf_unused : forall q, q ∈ b_procs (y_base s) -> p_state q = UNUSED -> p_ofile q = replicate NOFILE None;
    cf_ic : free (ic_lock (y_fs s));
    cf_cwd : p_cwd p = Some c;
    cf_next : 0 < v_nextpid (y_vars s) < 2 ^ 31 - 1;
    cf_pids : pids_ok (b_procs (y_base s)) (v_nextpid (y_vars s));
  }.

  (** The child, and what it got. *)
Record is_child s s' (l : list Z) (me : nat) (p : proc) (c np : nat) (q : proc) : Prop := {
    ic_slot : exists q0, b_procs (y_base s) !! np = Some q0 /\ p_state q0 = UNUSED;
    ic_table : b_procs (y_base s') = <[np := q]> (b_procs (y_base s));
    ic_proc : p_state q = RUNNABLE /\ p_pid q = v_nextpid (y_vars s) /\ p_parent q = Some me /\ p_sz q = p_sz p /\
      p_tf q = set_r0 0 (p_tf p) /\ p_ofile q = p_ofile p /\ p_cwd q = Some c;
    ic_refs : ic_inodes (y_fs s') = alter (fun ip => set_iref (i_ref ip + 1) ip) c (ic_inodes (y_fs s));
    ic_space : exists l', space_ok kend (y_kst s') (p_pgdir q) l' /\
      forall v, v ∈ l <-> v = p_kstack q \/ v ∈ l' \/ owned (y_kst s') (p_pgdir q) v;
    ic_copy : forall n, 0 <= n < pages_of (p_sz p) -> exists v v0,
      upage (y_kst s') (p_pgdir q) n = Some v /\ upage (y_kst s) (p_pgdir p) n = Some v0 /\
      m_pages (y_mem s') !! v = m_pages (y_mem s) !! v0 /\
      PTE_FLAGS (pte_of (y_kst s') (p_pgdir q) (n * PGSIZE)) = PTE_FLAGS (pte_of (y_kst s) (p_pgdir p) (n * PGSIZE));
    ic_above : forall n, pages_of (p_sz p) <= n < 2 ^ 19 -> upage (y_kst s') (p_pgdir q) n = None;
  }.

Lemma fork_alloc s l me p c i v l1 :
    can_fork s l me p c -> find_proc (is_state UNUSED) (b_procs (y_base s)) = Some i -> l = v :: l1 ->
    exists s1 q0 q1, allocproc s = Ok (Some i) s1 /\ b_procs (y_base s) !! i = Some q0 /\ p_state q0 = UNUSED /\ i <> me /\
      b_procs (y_base s1) = <[i := q1]> (b_procs (y_base s)) /\ p_kstack q1 = v /\ p_pid q1 = v_nextpid (y_vars s) /\
      p_ofile q1 = replicate NOFILE None /\ base_ok (y_base s1) /\ outside s s1 /\ m_pages (y_mem s1) = m_pages (y_mem s) /\
      kmem_ok (y_kst s1) l1 /\ y_vars s1 = take_pid (y_vars s) /\
      p_ofile <$> <[i := q1]> (b_procs (y_base s)) = p_ofile <$> b_procs (y_base s).
  Proof.
    intros [F1 F2 F3 F4 F5 F6 F7 F8 F9 F10 F11 F12 F13] Hfind ->.
    pose proof (po_kmem _ _ _ _ (so_pt _ _ _ _ F4)) as Hk.
    destruct (find_proc_Some _ _ _ Hfind) as (q0 & Hq0 & Hst & _). unfold is_state in Hst. apply bool_decide_eq_true in Hst.
    destruct (allocproc_run s (v :: l1) F1 Hk) as (r & s1 & E & Hb & Hout & Hpg & _ & H). rewrite Hfind in H.
    destruct H as (Hk1 & Hv & -> & page & Hpage & Hps). rewrite (alter_at _ _ _ q0 Hq0) in Hps.
    assert (Hof : p_ofile q0 = replicate NOFILE None) by (apply F9; [by eapply list_elem_of_lookup_2|done]).
    eexists s1, q0, _. split_and!; try done.
    - intros ->. rewrite (cu_proc _ _ _ F2) in Hq0. congruence.
    - rewrite list_fmap_insert. apply list_insert_id. by rewrite list_lookup_fmap, Hq0.
  Qed.

  (** *** Shared facts *)
Lemma outside_inodes s s' : outside s s' -> ic_inodes (y_fs s') = ic_inodes (y_fs s) /\ ic_lock (y_fs s') = ic_lock (y_fs s).
  Proof. intros ([b ->] & _). done. Qed.

Lemma pages_same (k k' : kst) d : k_pages k' = k_pages k ->
    (forall va, pte_of k' d va = pte_of k d va) /\ (forall n, upage k' d n = upage k d n) /\ (forall v, owned k' d v <-> owned k d v).
  Proof.
    intros E. assert (Ew : forall v i, word k' v i = word k v i) by (intros; unfold word; by rewrite E).
    assert (Ep : forall va, pte_of k' d va = pte_of k d va) by (intros; unfold pte_of; by rewrite !Ew).
    assert (Eu : forall n, upage k' d n = upage k d n) by (intros; unfold upage; by rewrite Ep).
    split_and!; [done|done|]. intros v. unfold owned, pt_page. setoid_rewrite Ew. by setoid_rewrite Eu.
  Qed.

Lemma unused_insert (ps : list proc) i q0 q :
    ps !! i = Some q0 -> p_state q0 = UNUSED -> p_state q = UNUSED ->
    forall k r, p_state r <> UNUSED -> <[i := q]> ps !! k = Some r <-> ps !! k = Some r.
  Proof.
    intros Hi H0 H1 k r Hr. destruct (decide (k = i)) as [->|Hne]; [|by rewrite list_lookup_insert_ne].
    rewrite list_lookup_insert_eq by (by eapply lookup_lt_Some). rewrite Hi. split; intros [= ->]; done.
  Qed.

  (** What holds of [s'] when fork has failed. *)
Definition no_child s s' (l : list Z) (me : nat) (p : proc) : Prop :=
    base_ok (y_base s') /\ current me p s' /\ files_ok (ft_files s') (b_procs (y_base s')) /\
    pids_ok (b_procs (y_base s')) (v_nextpid (y_vars s')) /\
    (forall v, v ∉ l -> m_pages (y_mem s') !! v = m_pages (y_mem s) !! v) /\
    ft_files s' = ft_files s /\ ic_inodes (y_fs s') = ic_inodes (y_fs s) /\
    (forall k q, b_procs (y_base s') !! k = Some q -> p_state q <> UNUSED -> b_procs (y_base s) !! k = Some q) /\
    forall k q, b_procs (y_base s) !! k = Some q -> p_state q <> UNUSED -> b_procs (y_base s') !! k = Some q.

  (** The slot [i] was used in between and is unused again. *)
Lemma slot_back s s' l me p c i q0 q :
    can_fork s l me p c -> b_procs (y_base s) !! i = Some q0 -> p_state q0 = UNUSED ->
    base_ok (y_base s') -> outside s s' -> b_procs (y_base s') = <[i := q]> (b_procs (y_base s)) ->
    p_state q = UNUSED -> p_ofile q = p_ofile q0 -> y_vars s' = take_pid (y_vars s) ->
    (forall v, v ∉ l -> m_pages (y_mem s') !! v = m_pages (y_mem s) !! v) -> no_child s s' l me p.
  Proof.
    intros [F1 F2 F3 F4 F5 F6 F7 F8 F9 F10 F11 F12 F13] Hi H0 Hb Ho Hps Hq Hof Hv Hpg.
    pose proof (unused_insert _ _ _ _ Hi H0 Hq) as Hun. destruct (outside_inodes s s' Ho) as [Hin _].
    pose proof Ho as (_ & _ & Hfl & _ & Hc).
    split_and!; [done| | | |done|done|done| |].
    - split; [rewrite Hc; apply F2|]. rewrite Hps. apply Hun; [done|apply F2].
    - rewrite Hfl, Hps. eapply files_ok_ofile; [|exact F8]. rewrite list_fmap_insert. apply list_insert_id.
      by rewrite list_lookup_fmap, Hi, Hof.
    - rewrite Hv, Hps. cbn [take_pid v_nextpid]. rewrite s32_id by (unfold is_s32; lia). by apply pids_ok_unused.
    - intros k r. rewrite Hps. intros H1 H2. by apply Hun in H1.
    - intros k r. rewrite Hps. intros H1 H2. by apply Hun.
  Qed.

Lemma fork_none s l me p c :
    can_fork s l me p c -> find_proc (is_state UNUSED) (b_procs (y_base s)) = None \/ l = [] ->
    exists s', fork kend kdata s = Ok (-1) s' /\ no_child s s' l me p.
  Proof.
    intros Hcf H. pose proof Hcf as [F1 F2 F3 F4 F5 F6 F7 F8 F9 F10 F11 F12 F13].
    destruct (allocproc_run s l F1 (po_kmem _ _ _ _ (so_pt _ _ _ _ F4))) as (r & s1 & E & Hb & Hout & Hpg & _ & Hr).
    assert (Hn : r = None /\ no_child s s1 l me p).
    { destruct (find_proc (is_state UNUSED) (b_procs (y_base s))) as [i|] eqn:Hfind.
      - destruct H as [H|H]; [done|]. subst l. destruct Hr as (_ & Hv & -> & Hps). split; [done|].
        destruct (find_proc_Some _ _ _ Hfind) as (q0 & Hq0 & Hst & _). unfold is_state in Hst. apply bool_decide_eq_true in Hst.
        rewrite (alter_at _ _ _ q0 Hq0) in Hps. eapply slot_back; try done. intros v _. by rewrite Hpg.
      - destruct Hr as (_ & -> & Hps & Hv). split; [done|]. destruct (outside_inodes s s1 Hout) as [Hin _].
        destruct Hout as (_ & _ & Hfl & _ & Hc). unfold no_child. rewrite Hps, Hv, Hfl, Hpg. split_and!; try done.
        split; [rewrite Hc; apply F2|rewrite Hps; apply F2]. }
    destruct Hn as [-> Hn]. exists s1. split; [|done]. unfold fork. by rewrite (bind_ok _ _ _ _ _ E).
  Qed.

  (** *** After the copy, whichever way it went *)
Lemma fork_failed s l me p c i q0 q1 t l1 v :
    can_fork s (v :: l) me p c -> b_procs (y_base s) !! i = Some q0 -> p_state q0 = UNUSED ->
    base_ok (y_base t) -> outside s t -> y_vars t = take_pid (y_vars s) -> p_kstack q1 = v -> p_ofile q1 = p_ofile q0 ->
    heap_ok kend (y_kst (with_child i (b_procs (y_base s)) q1 t)) l1 -> (forall x, x ∈ l1 -> x ∈ l) ->
    (forall w, w ∉ l -> m_pages (y_mem t) !! w = m_pages (y_mem s) !! w) ->
    exists s', fork_undo kend i (with_child i (b_procs (y_base s)) q1 t) = Ok (-1) s' /\ no_child s s' (v :: l) me p.
  Proof using Hkend.
    intros Hcf Hi H0 Hb Ho Hv Hks Hof Hh Hl Hpg. pose proof (cf_space _ _ _ _ _ Hcf) as Hsp.
    assert (Hs : heap_ok kend (y_kst s) (v :: l)) by (eapply heap_of_pt; apply Hsp).
    destruct (free_page kend (y_kst s) v l Hs) as (Hf & Hsome & Hvl & _).
    assert (Hlt : (i < length (b_procs (y_base s)))%nat) by (by eapply lookup_lt_Some).
    destruct (fork_undo_run kend i (b_procs (y_base s)) Hlt q1 t l1) as (k & E & Hb' & Hc' & Hh' & Hp'); try done.
    - by rewrite Hks.
    - rewrite Hks, Hpg by done. exact Hsome.
    - rewrite Hks. intros H. by apply Hvl, Hl.
    - eexists. split; [exact E|]. eapply (slot_back s _ _ me p c i q0); [done|done|done|..].
      + rewrite child_base. exact Hb'.
      + etransitivity; [exact Ho|]. etransitivity; [apply (outside_kst k); by rewrite <- y_base_kst with (s := t)|]. apply outside_procs.
      + by rewrite child_base.
      + done.
      + done.
      + done.
      + intros w [W1 W2]%not_elem_of_cons. rewrite <- Hpg by done. rewrite <- Hp' by (by rewrite Hks). done.
  Qed.

Lemma fork_done s l v me p c i q0 q1 k l1 d s1 :
    can_fork s (v :: l) me p c -> b_procs (y_base s) !! i = Some q0 -> p_state q0 = UNUSED -> i <> me ->
    outside s s1 -> y_vars s1 = take_pid (y_vars s) ->
    p_kstack q1 = v -> p_pid q1 = v_nextpid (y_vars s) -> p_ofile q1 = replicate NOFILE None ->
    p_ofile <$> <[i := q1]> (b_procs (y_base s)) = p_ofile <$> b_procs (y_base s) ->
    base_ok (y_base (set_kst k s1)) -> cproc (b_cpu (y_base (set_kst k s1))) = Some me ->
    y_kst (with_child i (b_procs (y_base s)) q1 (set_kst k s1)) = k ->
    (forall w, w ∉ l -> k_pages k !! w = m_pages (y_mem s) !! w) ->
    space_ok kend k d l1 -> (forall w, w ∈ l <-> w ∈ l1 \/ owned k d w) ->
    (forall n, 0 <= n < pages_of (p_sz p) -> exists w w0, upage k d n = Some w /\ upage (y_kst s) (p_pgdir p) n = Some w0 /\
       k_pages k !! w = m_pages (y_mem s) !! w0 /\
       PTE_FLAGS (pte_of k d (n * PGSIZE)) = PTE_FLAGS (pte_of (y_kst s) (p_pgdir p) (n * PGSIZE))) ->
    (forall n, pages_of (p_sz p) <= n < 2 ^ 19 -> upage k d n = None) ->
    exists s' q, fork_rest i (with_child i (b_procs (y_base s)) (set_pgdir d q1) (set_kst k s1)) = Ok (v_nextpid (y_vars s)) s' /\
      base_ok (y_base s') /\ current me p s' /\ files_ok (ft_files s') (b_procs (y_base s')) /\
      pids_ok (b_procs (y_base s')) (v_nextpid (y_vars s')) /\
      (forall w, w ∉ v :: l -> m_pages (y_mem s') !! w = m_pages (y_mem s) !! w) /\ is_child s s' (v :: l) me p c i q.
  Proof.
    intros [F1 F2 F3 F4 F5 F6 F7 F8 F9 F10 F11 F12 F13] Hi H0 Hne Ho Hv Hks Hpid Hof Hofs Hb Hc Hy Hpg Hsp Hall Hcopy Habove.
    set (ps := b_procs (y_base s)) in *. assert (Hlt : (i < length ps)%nat) by (by eapply lookup_lt_Some).
    assert (Hme : ps !! me = Some p) by apply F2. destruct (outside_inodes s s1 Ho) as [Hin Hil].
    pose proof Ho as (_ & Hfl & Hff & _ & _).
    assert (Hlen : length (p_ofile p) = NOFILE) by (eapply fo_len; [exact F8|]; by eapply list_elem_of_lookup_2).
    assert (Hd : dup_ok me i ps (set_pgdir d q1) (set_kst k s1)).
    { split; [done|done|cbn; by rewrite Hfl|]. cbn [set_kst ft_files]. rewrite Hff. eapply files_ok_ofile; [|exact F8].
      rewrite <- Hofs, !list_fmap_insert. done. }
    destruct (fork_rest_run me i p ps Hme Hlt (not_eq_sym Hne) (set_pgdir d q1) (set_kst k s1) c Hd Hlen)
      as (t & E & Hdt & Hm & Hvt & _ & Hrefs); [done|done|cbn; by rewrite Hil|].
    set (q := forked me p (set_pgdir d q1)) in *. eexists _, q. split; [rewrite E; do 2 f_equal; exact Hpid|].
    destruct Hdt as [D1 D2 D3 D4]. rewrite child_base. cbn [b_procs].
    assert (Hmem : y_mem (with_child i ps q t) = y_mem (with_child i ps q1 (set_kst k s1))) by exact Hm.
    assert (Hk' : kmem_ok (y_kst (with_child i ps q t)) l1).
    { eapply kmem_ok_mem; [exact Hmem|rewrite child_base; apply D2|]. rewrite Hy. apply (po_kmem _ _ _ _ (so_pt _ _ _ _ Hsp)). }
    assert (Hpages : k_pages (y_kst (with_child i ps q t)) = k_pages k).
    { change (m_pages (y_mem (with_child i ps q t)) = k_pages k). rewrite Hmem. done. }
    destruct (pages_same k (y_kst (with_child i ps q t)) d Hpages) as (Ep & Eu & Eo).
    split_and!; [destruct D2; by split|by apply current_child|exact D4| | |].
    - change (y_vars (with_child i ps q t)) with (y_vars t). rewrite Hvt. change (y_vars (set_kst k s1)) with (y_vars s1).
      rewrite Hv. cbn [take_pid v_nextpid]. rewrite s32_id by (unfold is_s32; lia). apply pids_ok_new; [done|lia|exact Hpid].
    - intros w [_ W2]%not_elem_of_cons. rewrite <- (Hpg w W2), <- Hpages. done.
    - split.
      + by exists q0.
      + by rewrite child_base.
      + split_and!; done.
      + change (ic_inodes (y_fs t) = alter (fun ip => set_iref (i_ref ip + 1) ip) c (ic_inodes (y_fs s))).
        rewrite Hrefs. cbn [set_kst y_fs]. by rewrite <- Hin.
      + exists l1. change (p_pgdir q) with d. split; [by eapply (space_ok_pages kend k)|].
        intros w. rewrite elem_of_cons, Hall, Eo. by change (p_kstack q) with (p_kstack q1); rewrite Hks.
      + change (p_pgdir q) with d. intros n Hn. destruct (Hcopy n Hn) as (w & w0 & C1 & C2 & C3 & C4). exists w, w0.
        rewrite Eu, Ep. split_and!; try done. rewrite <- C3, <- Hpages. done.
      + change (p_pgdir q) with d. intros n Hn. rewrite Eu. by apply Habove.
  Qed.

  (** C8. [fork] never panics. Either it returns the new process id, and the table
      has a new runnable process whose parent is the caller, with the caller's
      registers but 0 as the result, the same open files and directory with
      the reference counts raised, a stack of its own and an address space of
      its own with the same contents and permissions; the free pages that are
      gone are exactly that stack and that address space. Or it returns -1,
      for want of a slot or of memory, and no process came into being.
      Either way the caller, all other processes and all memory in use are as
      before, ids stay distinct and the counts of open files right. *)
Theorem fork_spec s l me p c :
    can_fork s l me p c ->
    exists r s', fork kend kdata s = Ok r s' /\ base_ok (y_base s') /\ current me p s' /\
      files_ok (ft_files s') (b_procs (y_base s')) /\ pids_ok (b_procs (y_base s')) (v_nextpid (y_vars s')) /\
      (forall v, v ∉ l -> m_pages (y_mem s') !! v = m_pages (y_mem s) !! v) /\
      ((r = v_nextpid (y_vars s) /\ exists np q, is_child s s' l me p c np q) \/
       (r = -1 /\ ft_files s' = ft_files s /\ ic_inodes (y_fs s') = ic_inodes (y_fs s) /\
        (forall k q, b_procs (y_base s') !! k = Some q -> p_state q <> UNUSED -> b_procs (y_base s) !! k = Some q) /\
        forall k q, b_procs (y_base s) !! k = Some q -> p_state q <> UNUSED -> b_procs (y_base s') !! k = Some q)).
  Proof using Hkend Hdata.
    intros Hcf. pose proof Hcf as [F1 F2 F3 F4 F5 F6 F7 F8 F9 F10 F11 F12 F13].
    pose proof (po_kmem _ _ _ _ (so_pt _ _ _ _ F4)) as Hk.
    destruct (find_proc (is_state UNUSED) (b_procs (y_base s))) as [i|] eqn:Hfind.
    2:{ destruct (fork_none s l me p c Hcf ltac:(by left)) as (s' & E & N1 & N2 & N3 & N4 & N5 & N6). exists (-1), s'.
        split_and!; try assumption. right. split; [reflexivity|exact N6]. }
    destruct l as [|v l].
    { destruct (fork_none s [] me p c Hcf ltac:(by right)) as (s' & E & N1 & N2 & N3 & N4 & N5 & N6). exists (-1), s'.
      split_and!; try assumption. right. split; [reflexivity|exact N6]. }
    destruct (fork_alloc s (v :: l) me p c i v l Hcf Hfind eq_refl)
      as (s1 & q0 & q1 & E1 & Hq0 & Hst & Hne & Hps & Hks & Hpid & Hof & Hb1 & Hout & Hpg & Hk1 & Hv1 & Hofs).
    set (ps := b_procs (y_base s)) in *. assert (Hi : (i < length ps)%nat) by (by eapply lookup_lt_Some).
    assert (Hme : ps !! me = Some p) by apply F2.
    unfold fork. rewrite (bind_ok _ _ _ _ _ E1). rewrite <- (child_self i ps q1 s1 Hps).
    assert (Hc1 : cproc (b_cpu (y_base s1)) = Some me) by (destruct Hout as (_ & _ & _ & _ & ->); apply F2).
    rewrite (bind_ok _ _ _ _ _ (curproc_run me p _ (current_child me i p ps Hme (not_eq_sym Hne) q1 s1 Hc1))).
    assert (Hy1 : y_kst (with_child i ps q1 s1) = y_kst s1) by (by rewrite (child_self i ps q1 s1 Hps)).
    assert (Hsp1 : space_ok kend (y_kst s1) (p_pgdir p) l).
    { eapply (space_ok_pages kend (y_kst s)); [exact F4|exact Hpg|exact Hk1|]. intros x Hx. by right. }
    destruct (pages_same (y_kst s) (y_kst s1) (p_pgdir p) Hpg) as (Ep & Eu & _).
    destruct (copyuvm_spec kend kdata Hkend Hdata (y_kst s1) l (p_pgdir p) (p_sz p) Hsp1 F5) as (d & k & l1 & E2 & Hh & Hq & Hsame & Hres).
    { intros n Hn. rewrite Eu. by apply F6. }
    rewrite <- Hy1 in E2, Hq. destruct (on_kst_child i ps _ q1 s1 d k E2 Hq Hb1) as (E3 & Hb3 & Hc3 & Hy3).
    rewrite (bind_ok _ _ _ _ _ E3), (bind_ok _ _ _ _ _ (updp_child i ps Hi _ _ _)).
    assert (Hsame' : forall w, w ∉ l -> k_pages k !! w = m_pages (y_mem s) !! w) by (intros w Hw; rewrite <- Hpg; by apply Hsame).
    destruct Hres as [(Hd & Hsp & Hall & Hcopy & Habove & _)|[-> Hperm]].
    - destruct (Z.eqb_spec d 0) as [?|_]; [done|].
      destruct (fork_done s l v me p c i q0 q1 k l1 d s1) as (s' & q & E4 & R1 & R2 & R3 & R4 & R5 & R6); try assumption.
      { by rewrite Hc3. }
      { intros n Hn. destruct (Hcopy n Hn) as (w & w0 & C1 & C2 & C3 & C4). exists w, w0. rewrite Eu in C2. rewrite Ep in C4.
        split_and!; try assumption. rewrite C3. change (m_pages (y_mem s1) !! w0 = m_pages (y_mem s) !! w0). by rewrite Hpg. }
      exists (v_nextpid (y_vars s)), s'. split_and!; try assumption. left. split; [reflexivity|]. by exists i, q.
    - change (0 =? 0) with true. cbv iota.
      assert (Hsub : forall x, x ∈ l1 -> x ∈ l).
      { destruct Hperm as [Hp|[[m Hp]|Hp]]; intros x Hx; [by rewrite <- Hp|rewrite <- Hp; by right|by rewrite Hp in Hx; apply elem_of_nil in Hx]. }
      destruct (fork_failed s l me p c i q0 (set_pgdir 0 q1) (set_kst k s1) l1 v) as (s' & E4 & N1 & N2 & N3 & N4 & N5 & N6); try assumption.
      { etransitivity; [exact Hout|]. apply outside_kst. by rewrite <- y_base_kst with (s := s1). }
      { cbn. rewrite Hof. symmetry. apply F9; [by eapply list_elem_of_lookup_2|done]. }
      { split; [|apply (ho_free _ _ _ Hh)|exact (ho_bytes _ _ _ Hh)].
        apply (kmem_ok_mem (with_child i ps q1 (set_kst k s1))); [reflexivity|rewrite child_base; apply Hb3|]. rewrite Hy3. apply (ho_kmem _ _ _ Hh). }
      exists (-1), s'. split_and!; try assumption. right. split; [reflexivity|exact N6].
  Qed.
End spec.

(** *** The processes of Life's examples; the one that runs has a page at 0 *)
Definition sys3 : sys log := around vars2 (vm_at 0) mid2.

Lemma sys3_can_fork : can_fork 0x80110000 sys3 [0x80200000; 0x80201000] 2 me2 0.
Proof.
  assert (Hb : y_base sys3 = base2) by apply around_base.
  assert (Hsp : space_ok 0x80110000 (y_kst sys3) 0x80300000 [0x80200000; 0x80201000]).
  { apply around_space; [apply vm_at_space; lia|rewrite mid2_base; simpl; lia]. }
  split.
  - rewrite Hb. split; [reflexivity|simpl; lia].
  - split; rewrite Hb; reflexivity.
  - discriminate.
  - exact Hsp.
  - simpl. unfold KERNBASE. lia.
  - intros n Hn. change (pages_of (p_sz me2)) with 1 in Hn. exists 0x80302000.
    change (upage (vm_at 0) 0x80300000 n = Some 0x80302000). apply vm_at_upage; lia.
  - reflexivity.
  - rewrite Hb. exact procs2_files.
  - rewrite Hb. intros q Hq. cbn [b_procs base2] in Hq. unfold procs2 in Hq. rewrite !elem_of_cons, elem_of_nil in Hq.
    by destruct Hq as [->|[->|[->|[->|[->|[->|[]]]]]]].
  - reflexivity.
  - reflexivity.
  - simpl. lia.
  - rewrite Hb. exact procs2_pids.
Qed.

Lemma fork_spec_witness :
  exists r s', fork 0x80110000 0x80108000 sys3 = Ok r s' /\ current 2 me2 s' /\ files_ok (ft_files s') (b_procs (y_base s')) /\
    (r = 6 \/ r = -1).
Proof.
  destruct (fork_spec 0x80110000 0x80108000 ltac:(unfold KERNBASE; lia)
    ltac:(split; [reflexivity|unfold KERNLINK, KERNBASE, EXTMEM, PHYSTOP; lia]) sys3 _ 2 me2 0 sys3_can_fork)
    as (r & s' & E & _ & Hc & Hf & _ & _ & Hr).
  exists r, s'. split_and!; [exact E|exact Hc|exact Hf|]. destruct Hr as [[-> _]|[-> _]]; [left|right]; reflexivity.
Defined.
