(* ===== verification/First.v ===== *)
(** The first process: userinit (proc.c) over the process table, the page
    allocator, the page tables and the inode cache. *)
From stdpp Require Import base numbers list strings sets gmap.
From S2P Require Import Prelude Params Spinlock Sched BlockIf Inode Dir Kalloc Vm VmFree VmCopy Sys File Proc Syscall Sysfile Log Life Fork.

Set Warnings "-clear-no-such-hyp".

Section first.
  Context {St : Type} {LO : LogOps St} (devsw : Z -> @devops St) (kend kdata : Z).
  Hypothesis Hkend : KERNBASE < kend.
  Hypothesis Hdata : kdata mod PGSIZE = 0 /\ KERNLINK < kdata < KERNBASE + PHYSTOP.
  Implicit Types (s t : sys St).

  (** *** The root directory, not in the inode cache yet *)
Definition as_root (ip : inode) : inode :=
    Inode ROOTDEV ROOTINO 1 0 (i_type ip) (i_major ip) (i_minor ip) (i_nlink ip) (i_size ip) (i_addrs ip).

Definition root_in (c : nat) t : sys St :=
    Sys (ic_out (alter as_root c (ic_inodes (y_fs t))) (y_fs t)) (y_mem t) (ft_lock t) (ft_files t) (y_pipes t) (y_vars t).

Lemma root_in_base c t : y_base (root_in c t) = with_cpu (quiet (b_cpu (y_base t))) (y_base t).
  Proof. unfold y_base, fs_base, root_in. cbn [y_fs]. cbn [lget fs_base_l ic_out fs_log]. by rewrite lget_lset. Qed.

Lemma namei_root (F : fs St) c :
    free (ic_lock F) -> base_ok (lget (fs_log F)) ->
    find_ip (cached ROOTDEV ROOTINO) (ic_inodes F) = None -> find_ip (fun ip => i_ref ip =? 0) (ic_inodes F) = Some c ->
    namei devsw [47] F = Ok (Some c) (ic_out (alter as_root c (ic_inodes F)) F).
  Proof.
    intros Hf Hb Hn Hi. unfold namei, namex. change (bool_decide (head [47] = Some 47)) with true. cbv iota.
    assert (Eg : iget ROOTDEV ROOTINO F = Ok c (ic_out (alter as_root c (ic_inodes F)) F)).
    { unfold iget. rewrite (bind_ok _ _ _ _ _ (ic_acquire F Hf)). erewrite bind_ok by reflexivity. cbn [ic_inodes ic_in]. rewrite Hn, Hi.
      rewrite (bind_ok _ _ _ _ _ (updip_in _ _ _ _)). by rewrite (bind_ok _ _ _ _ _ (ic_release _ _ Hb)). }
    erewrite (bind_ok _ _ _ (Some (c, []))); [reflexivity|]. by rewrite (bind_ok _ _ _ _ _ Eg).
  Qed.

Lemma namei_child c np ps q t :
    free (ic_lock (y_fs t)) -> base_ok (y_base t) ->
    find_ip (cached ROOTDEV ROOTINO) (ic_inodes (y_fs t)) = None ->
    find_ip (fun ip => i_ref ip =? 0) (ic_inodes (y_fs t)) = Some c ->
    on_fs (namei devsw [47]) (with_child np ps q t) = Ok (Some c) (with_child np ps q (root_in c t)).
  Proof.
    intros Hf [H1 H2] Hn Hi. set (F := y_fs (with_child np ps q t)).
    assert (Hb : lget (fs_log F) = y_base (with_child np ps q t)) by done.
    assert (Hok : base_ok (lget (fs_log F))) by (rewrite Hb, child_base; by split).
    pose proof (namei_root F c Hf Hok Hn Hi) as Ei. unfold on_fs. erewrite zoom_ok by exact Ei. f_equal. unfold with_child at 2, set_procs, set_base. rewrite root_in_base.
    cbn [with_cpu b_cpu b_lock b_procs root_in y_mem ft_lock ft_files y_pipes y_vars y_fs lset y_fs_l].
    unfold ic_out at 1. rewrite Hb, child_base. cbn [b_cpu b_lock b_procs]. unfold put_base, F, with_child, set_procs, set_base, put_base.
    cbn [y_fs lset fs_base_l ic_out fs_log ic_lock ic_inodes y_mem ft_lock ft_files y_pipes y_vars]. by rewrite !lset_lset.
  Qed.

  (** The log may differ in the CPU and the process table under it. *)
Definition log_base s s' : Prop := exists b, fs_log (y_fs s') = lset b (fs_log (y_fs s)).
Lemma log_base_trans s s1 s2 : log_base s s1 -> log_base s1 s2 -> log_base s s2.
  Proof. intros [b E] [b' E']. exists b'. by rewrite E', E, lset_lset. Qed.

  (** *** What [userinit] makes *)
Definition first_tf : trapframe :=
    Trapframe (Z.lor (Z.lor (Z.lor PSR_IM PSR_CMOD_USER) PSR_MMUMOD_L2) PSR_MMUPS_4KB) 0 PGSIZE 0 0 0 0 0 0 0 0 0 (replicate 25 0).

Record is_first s s' (l : list Z) (init : list Z) (i c : nat) (q : proc) : Prop := {
    if_slot : exists q0, b_procs (y_base s) !! i = Some q0 /\ p_state q0 = UNUSED /\ p_ofile q = p_ofile q0;
    if_table : b_procs (y_base s') = <[i := q]> (b_procs (y_base s));
    if_proc : p_state q = RUNNABLE /\ p_pid q = v_nextpid (y_vars s) /\ p_sz q = PGSIZE /\ p_tf q = first_tf /\ p_cwd q = Some c;
    if_space : exists l', space_ok kend (y_kst s') (p_pgdir q) l' /\
      (forall v, v ∈ l <-> v = p_kstack q \/ v ∈ l' \/ owned (y_kst s') (p_pgdir q) v) /\
      (p_kstack q ∉ l') /\ ~ owned (y_kst s') (p_pgdir q) (p_kstack q);
    if_code : exists v, upage (y_kst s') (p_pgdir q) 0 = Some v /\
      m_pages (y_mem s') !! v = Some (init ++ replicate (Z.to_nat PGSIZE - length init) 0) /\
      pte_of (y_kst s') (p_pgdir q) 0 = leaf (v2p v) (Z.lor PTE_PP_RWRW PTE_EX);
    if_above : forall n, 1 <= n < 2 ^ 19 -> upage (y_kst s') (p_pgdir q) n = None;
    if_kernel : forall k, k ∈ kmap kdata -> kmapped (y_kst s') (p_pgdir q) k;
    if_root : ic_inodes (y_fs s') = alter as_root c (ic_inodes (y_fs s));
    if_vars : y_vars s' = let v := take_pid (y_vars s) in
      Vars (v_nextpid v) (Some i) (v_first v) (v_ticks v) (v_tickslock v) (v_kpgdir v) (v_pdtr v) (v_ppdtr v);
  }.

Lemma first_done s s' (k : kst) l l2 v m init i c q0 q :
    b_procs (y_base s) !! i = Some q0 -> p_state q0 = UNUSED -> p_ofile q = p_ofile q0 ->
    b_procs (y_base s') = <[i := q]> (b_procs (y_base s)) ->
    p_state q = RUNNABLE /\ p_pid q = v_nextpid (y_vars s) /\ p_sz q = PGSIZE /\ p_tf q = first_tf /\ p_cwd q = Some c ->
    p_kstack q = v -> v ∉ l -> (forall x, x ∈ l <-> x ∈ l2 \/ owned k (p_pgdir q) x) ->
    space_ok kend k (p_pgdir q) l2 -> upage k (p_pgdir q) 0 = Some m ->
    k_pages k !! m = Some (init ++ replicate (Z.to_nat PGSIZE - length init) 0) ->
    pte_of k (p_pgdir q) 0 = leaf (v2p m) (Z.lor PTE_PP_RWRW PTE_EX) ->
    (forall n, 1 <= n < 2 ^ 19 -> upage k (p_pgdir q) n = None) -> (forall e, e ∈ kmap kdata -> kmapped k (p_pgdir q) e) ->
    m_pages (y_mem s') = k_pages k -> kmem_ok (y_kst s') l2 ->
    ic_inodes (y_fs s') = alter as_root c (ic_inodes (y_fs s)) ->
    y_vars s' = (let v := take_pid (y_vars s) in
      Vars (v_nextpid v) (Some i) (v_first v) (v_ticks v) (v_tickslock v) (v_kpgdir v) (v_pdtr v) (v_ppdtr v)) ->
    is_first s s' (v :: l) init i c q.
  Proof.
    intros Hi H0 Hof Hps Hq Hks Hvl Hall Hsp Hup Hcode Hleaf Habove Hk Hpg Hkm Hin Hv.
    destruct (pages_same k (y_kst s') (p_pgdir q) Hpg) as (Ep & Eu & Eo). split; try done.
    - by exists q0.
    - exists l2. rewrite Hks, Eo. split_and!.
      + by eapply (space_ok_pages kend k).
      + intros x. by rewrite elem_of_cons, Hall, Eo.
      + intros H. apply Hvl, Hall. by left.
      + intros H. apply Hvl, Hall. by right.
    - exists m. rewrite Eu, Ep, Hpg. done.
    - intros n Hn. rewrite Eu. by apply Habove.
    - intros [[[virt pa] pe] perm] He a Ha Hr. rewrite Ep. by apply (Hk _ He).
  Qed.

  (** The address space: the kernel's part, then the page with the program. *)
Lemma first_space i ps q t l init :
    heap_ok kend (y_kst (with_child i ps q t)) l -> (43 <= length l)%nat -> base_ok (y_base t) ->
    Z.of_nat (length init) < PGSIZE -> Forall is_u8 init ->
    exists d k1 k2 l2 m, let t2 := set_kst k1 t in let q2 := set_pgdir d q in let t3 := set_kst k2 t2 in
      d <> 0 /\ on_kst (setupkvm kdata) (with_child i ps q t) = Ok d (with_child i ps q t2) /\
      on_kst (inituvm d init (Z.of_nat (length init))) (with_child i ps q2 t2) = Ok tt (with_child i ps q2 t3) /\
      base_ok (y_base t3) /\ cproc (b_cpu (y_base t3)) = cproc (b_cpu (y_base t)) /\ y_kst (with_child i ps q2 t3) = k2 /\
      space_ok kend k2 d l2 /\ (forall x, x ∈ l <-> x ∈ l2 \/ owned k2 d x) /\ upage k2 d 0 = Some m /\
      k_pages k2 !! m = Some (init ++ replicate (Z.to_nat PGSIZE - length init) 0) /\
      pte_of k2 d 0 = leaf (v2p m) (Z.lor PTE_PP_RWRW PTE_EX) /\
      (forall n, 1 <= n < 2 ^ 19 -> upage k2 d n = None) /\ (forall e, e ∈ kmap kdata -> kmapped k2 d e) /\
      (forall x, x ∉ l -> k_pages k2 !! x = m_pages (y_mem t) !! x) /\ km_use_lock k2 = m_use_lock (y_mem t).
  Proof using Hkend Hdata.
    clear devsw. intros Hh Hlen Hb Hil Hiu.
    destruct (setupkvm_run kend kdata Hkend Hdata _ l Hh) as (d & k1 & l1 & E1 & Hlen1 & [(_ & -> & _)|(Hd0 & Hra & Hu & Hk)]);
      [cbn in Hlen, Hlen1; lia|].
    destruct (on_kst_child i ps _ q t d k1 E1 (ra_quiet _ _ _ _ _ _ _ Hra) Hb) as (E2 & Hb2 & Hc2 & Hy2).
    set (t2 := set_kst k1 t) in *. set (q2 := set_pgdir d q). set (k1' := y_kst (with_child i ps q2 t2)).
    destruct l1 as [|m [|w l1]]; [cbn in Hlen, Hlen1; lia..|].
    assert (Hsp1 : space_ok kend k1' d (m :: w :: l1)).
    { eapply (space_ok_pages kend k1); [apply Hra|done| |done]. eapply kmem_ok_mem with (s := with_child i ps q t2); [done|rewrite child_base; apply Hb2|].
      rewrite Hy2. apply (po_kmem _ _ _ _ (so_pt _ _ _ _ (ra_space _ _ _ _ _ _ _ Hra))). }
    destruct (pages_same k1 k1' d eq_refl) as (P1 & P2 & P3).
    assert (Hra1 : raised kend k1' (fun x => x ∈ m :: w :: l1 \/ owned k1' d x) [] k1' (m :: w :: l1) d).
    { split; [done|intros x; rewrite elem_of_nil; tauto|by intros x []%elem_of_nil|done|done|reflexivity]. }
    destruct (inituvm_run kend Hkend _ _ _ _ _ _ _ init Hra1) as (k2 & l2 & E3 & Hra2 & Hup & Hcode & Hleaf & Hrest); [by rewrite P2, Hu by lia|done|done|].
    destruct (on_kst_child i ps _ q2 t2 tt k2 E3 (ra_quiet _ _ _ _ _ _ _ Hra2) Hb2) as (E4 & Hb4 & Hc4 & Hy4).
    assert (Hpte : forall a, is_u32 a -> a / PGSIZE <> 0 -> pte_of k2 d a = pte_of k1 d a) by (intros a Ha Hne; by rewrite Hrest, P1).
    exists d, k1, k2, l2, m. cbv zeta. fold t2 q2. split_and!; try done; [by rewrite Hc4|apply Hra2| | | | |].
    - intros x. rewrite (ra_all _ _ _ _ _ _ _ Hra x), <- P3. pose proof (ra_all _ _ _ _ _ _ _ Hra2 x) as H. rewrite elem_of_nil in *. tauto.
    - intros n Hn. unfold upage. rewrite Hpte; [apply (Hu n); lia|apply page_u32; lia|rewrite page_num; lia].
    - intros [[[virt pa] pe] perm] He a Ha Hr. rewrite Hpte; [by apply (Hk _ He)|done|].
      destruct (kmap_ok kdata Hdata) as [Hok _]. rewrite Forall_forall in Hok. destruct (Hok _ He) as (K1 & _).
      assert (2 ^ 19 <= virt / PGSIZE) by (apply Z.div_le_lower_bound; [done|unfold PGSIZE, KERNBASE in *; lia]). unfold k_first in Hr. lia.
    - intros x Hx. rewrite (ra_same _ _ _ _ _ _ _ Hra2); [exact (ra_same _ _ _ _ _ _ _ Hra x Hx)|].
      rewrite P3. intros H. apply Hx. apply (ra_all _ _ _ _ _ _ _ Hra). tauto.
    - destruct (ra_quiet _ _ _ _ _ _ _ Hra2) as (-> & _). change (km_use_lock k1 = m_use_lock (y_mem t)). by destruct (ra_quiet _ _ _ _ _ _ _ Hra) as (-> & _).
  Qed.

  (** [userinit] takes the first unused slot and pages from the free list and
      never panics when 44 pages are free: the stack, at most 41 pages for the
      kernel's part of the page table, a page and a page table for the code. *)
Lemma userinit_run s l init i c :
    base_ok (y_base s) -> heap_ok kend (y_kst s) l -> (44 <= length l)%nat ->
    find_proc (is_state UNUSED) (b_procs (y_base s)) = Some i ->
    free (ic_lock (y_fs s)) -> find_ip (cached ROOTDEV ROOTINO) (ic_inodes (y_fs s)) = None ->
    find_ip (fun ip => i_ref ip =? 0) (ic_inodes (y_fs s)) = Some c ->
    Z.of_nat (length init) < PGSIZE -> Forall is_u8 init ->
    exists s' q, userinit devsw kdata init s = Ok tt s' /\ base_ok (y_base s') /\ is_first s s' l init i c q /\
      (forall v, v ∉ l -> m_pages (y_mem s') !! v = m_pages (y_mem s) !! v) /\
      ft_lock s' = ft_lock s /\ ft_files s' = ft_files s /\ y_pipes s' = y_pipes s /\
      cproc (b_cpu (y_base s')) = cproc (b_cpu (y_base s)) /\ m_use_lock (y_mem s') = m_use_lock (y_mem s) /\
      free (ic_lock (y_fs s')) /\ log_base s s'.
  Proof using Hkend Hdata.
    intros Hb Hh Hlen Hfind Hic Hno Hslot Hil Hiu. destruct l as [|v l]; [cbn in Hlen; lia|].
    destruct (find_proc_Some _ _ _ Hfind) as (q0 & Hq0 & Hst & _). unfold is_state in Hst. apply bool_decide_eq_true in Hst.
    set (ps := b_procs (y_base s)) in *. assert (Hi : (i < length ps)%nat) by (by eapply lookup_lt_Some).
    destruct (allocproc_run s (v :: l) Hb (ho_kmem _ _ _ Hh)) as (r & s1 & E & Hb1 & Hout & Hpg & Hul & H). fold ps in H. rewrite Hfind in H.
    destruct H as (Hk1 & Hv & -> & page & Hpage & Hps). rewrite (alter_at _ _ _ q0 Hq0) in Hps. set (q1 := born _ _ _ _) in Hps.
    destruct (free_page kend (y_kst s) v l Hh) as (Hfv & _ & Hvl & _).
    rewrite <- (child_self i ps q1 s1 Hps) in E. unfold userinit. rewrite (bind_ok _ _ _ _ _ E).
    match goal with |- context [upd_vars ?f] => set (upd := f) end.
    set (t1 := set_vars (upd (y_vars s1)) s1).
    assert (Eu : upd_vars upd (with_child i ps q1 s1) = Ok tt (with_child i ps q1 t1)) by reflexivity.
    rewrite (bind_ok _ _ _ _ _ Eu). erewrite bind_ok by reflexivity.
    assert (Et : with_child i ps q1 t1 = t1) by (apply child_self; exact Hps).
    destruct (first_space i ps q1 t1 l init) as (d & k1 & k2 & l2 & m & Hd0 & E1 & E2 & Hb3 & Hc3 & Hy3 & Hsp & Hall & Hup & Hcode & Hleaf & Habove & Hk & Hsame & Hul3); try done.
    { rewrite Et. split; [exact Hk1|intros x Hx; apply (ho_free _ _ _ Hh); by right|].
      intros w p Hw. apply (ho_bytes _ _ _ Hh w). change (m_pages (y_mem s1) !! w = Some p) in Hw. rewrite Hpg in Hw. exact Hw. }
    { cbn in Hlen. lia. }
    rewrite (bind_ok _ _ _ _ _ E1), (bind_ok _ _ _ _ _ (updp_child i ps Hi _ _ _)). destruct (Z.eqb_spec d 0) as [?|_]; [done|].
    rewrite (bind_ok _ _ _ _ _ E2), !(bind_ok _ _ _ _ _ (updp_child i ps Hi _ _ _)). set (t2 := set_kst k1 t1) in *. set (t3 := set_kst k2 t2) in *.
    destruct (outside_inodes s s1 Hout) as [Hin Hil'].
    rewrite (bind_ok _ _ _ _ _ (namei_child c i ps _ t3 ltac:(by rewrite <- Hil' in Hic) Hb3 ltac:(by rewrite <- Hin in Hno) ltac:(by rewrite <- Hin in Hslot))).
    rewrite !(bind_ok _ _ _ _ _ (updp_child i ps Hi _ _ _)), updp_child by done. set (t4 := root_in c t3).
    match goal with |- context [with_child i ps ?q t4] => set (q3 := q) end.
    assert (Hb5 : base_ok (y_base t4)) by (unfold t4; rewrite root_in_base; destruct Hb3; by split).
    exists (with_child i ps q3 t4), q3. split_and!; [reflexivity| |eapply (first_done s _ k2 l l2 v m init i c q0 q3)|..]; try done; try apply Hout.
    - rewrite child_base. exact Hb5.
    - by rewrite child_base.
    - eapply kmem_ok_mem with (s := with_child i ps (set_pgdir d q1) t3); [done|rewrite child_base; apply Hb5|].
      rewrite Hy3. apply (po_kmem _ _ _ _ (so_pt _ _ _ _ Hsp)).
    - change (alter as_root c (ic_inodes (y_fs s1)) = alter as_root c (ic_inodes (y_fs s))). by rewrite Hin.
    - change (upd (y_vars s1) = upd (take_pid (y_vars s))). by rewrite Hv.
    - intros x [Hx1 Hx2]%not_elem_of_cons. rewrite <- Hpg. exact (Hsame x Hx2).
    - rewrite child_base. cbn [b_cpu]. unfold t4. rewrite root_in_base.
      change (cproc (b_cpu (y_base t3)) = cproc (b_cpu (y_base s))). rewrite Hc3. apply Hout.
    - rewrite <- Hul. exact Hul3.
    - apply (log_base_trans s s1); [destruct Hout as ([b0 E0] & _); exists b0; by rewrite E0|].
      apply (log_base_trans s1 t3); [|apply (log_base_trans t3 t4); by eexists]. apply (log_base_trans s1 t2); by eexists.
  Qed.
End first.
