(* ===== verification/Grow.v ===== *)
(** Growing and shrinking an address space: allocuvm, deallocuvm (vm.c) and
    growproc (proc.c). *)
From stdpp Require Import base numbers list strings sets gmap.
From S2P Require Import Prelude Params Spinlock Sched BlockIf Inode Kalloc Vm VmFree VmCopy Sys File Proc Syscall Sysfile Log Life Fork.

Set Warnings "-clear-no-such-hyp".

Section space.
  Context (kend : Z).
  Hypothesis Hkend : KERNBASE < kend.
  Implicit Types (s : kst).

Lemma raised_self s d l : space_ok kend s d l -> raised kend s (fun v => v ∈ l \/ owned s d v) [] s l d.
  Proof. intros H. split; [done|intros v; rewrite elem_of_nil; tauto|by intros v []%elem_of_nil|done|done|reflexivity]. Qed.

  (** The entry of the page [n] is the same, those of the kernel's part are,
      and the entry [allocuvm] makes for a zeroed page. *)
Definition same_pte s s' (d n : Z) : Prop := pte_of s' d (n * PGSIZE) = pte_of s d (n * PGSIZE).
Definition same_kern s s' (d : Z) : Prop := forall a, is_u32 a -> 2 ^ 19 <= a / PGSIZE -> pte_of s' d a = pte_of s d a.
Definition user_leaf (v : Z) : Z := leaf (v2p v) (Z.lor PTE_PP_RWRW PTE_EX).
Definition zero_leaf s (d n : Z) : Prop :=
    exists v, upage s d n = Some v /\ k_pages s !! v = Some (replicate (Z.to_nat PGSIZE) 0) /\ pte_of s d (n * PGSIZE) = user_leaf v.

  (** *** deallocuvm on a space under construction *)
Lemma dealloc_nothing d oldsz (fuel : nat) : forall s l A,
    pt_ok kend s d l -> (forall n, A <= n < pages_of oldsz -> upage s d n = None) -> 0 <= A -> pages_of oldsz <= 2 ^ 19 ->
    (0 < fuel)%nat -> pages_of oldsz - A < Z.of_nat fuel -> dealloc_from kend fuel d (A * PGSIZE) oldsz s = Ok tt s.
  Proof.
    induction fuel as [|fuel IH]; intros s l A Hok Hno HA HB Hf0 Hfuel; [lia|]; cbn [dealloc_from].
    pose proof (pages_of_lt A oldsz) as Hlt. destruct (Z.ltb_spec (A * PGSIZE) oldsz) as [Hin|]; cbn [negb]; [|done].
    apply Hlt in Hin. destruct (Flag.has (word s d (PDX (A * PGSIZE))) PTE_V) eqn:HV.
    - destruct (walk_found kend s d l (A * PGSIZE) false Hok HV) as (Hw & Hpte & Hld).
      rewrite (bind_ok _ _ _ _ _ Hw). destruct (Z.eqb_spec (table (word s d (PDX (A * PGSIZE))) + 4 * PTX (A * PGSIZE)) 0); [done|].
      rewrite (bind_ok _ _ _ _ _ Hld). specialize (Hno A ltac:(lia)) as Hn. unfold upage in Hn.
      destruct (Flag.has (pte_of s d (A * PGSIZE)) PTE_V); [done|]. erewrite bind_ok by reflexivity.
      assert (u32 (A * PGSIZE + PGSIZE) = (A + 1) * PGSIZE) as -> by (rewrite u32_id; [lia|unfold is_u32, PGSIZE; lia]).
      apply (IH s l); try done; try lia. intros n' Hn'. apply Hno. lia.
    - rewrite (bind_ok _ _ _ _ _ (walk_absent kend s d l _ Hok HV)). cbn [Z.eqb].
      assert (u32 (u32 (A * PGSIZE + (NPTENTRIES - 1) * PGSIZE) + PGSIZE) = (A + 1024) * PGSIZE) as ->.
      { rewrite !u32_id; unfold is_u32, NPTENTRIES, PGSIZE in *; [lia..|]. rewrite u32_id; unfold is_u32; lia. }
      apply (IH s l); try done; try lia. intros n' Hn'. apply Hno. lia.
  Qed.

  (** The pages of a range go back to the allocator. *)
Lemma raised_cleared s0 O lost s l d s' fl A B :
    raised kend s0 O lost s l d -> 0 <= A -> B <= 2 ^ 19 -> pt_ok kend s' d (fl ++ l) -> cleared s s' d fl A B ->
    raised kend s0 O lost s' (fl ++ l) d /\
    (forall n, 0 <= n < 2 ^ 19 -> upage s' d n = if decide (A <= n < B) then None else upage s d n) /\
    forall n v, 0 <= n < 2 ^ 19 -> upage s' d n = Some v -> k_pages s' !! v = k_pages s !! v /\ same_pte s s' d n.
  Proof.
    intros [[P [U1 U2] D T] R2 R3 R4 R5 R6] HA HB Hpt Hcl.
    assert (Hu : forall n, 0 <= n < 2 ^ 19 -> upage s' d n = if decide (A <= n < B) then None else upage s d n).
    { intros n Hn. case_decide; [|apply (upage_out s s' d fl A B n Hcl); lia]. unfold upage.
      rewrite (cl_in _ _ _ _ _ _ Hcl); [done|apply page_u32; lia|by rewrite page_num]. }
    assert (Hfl : forall v, v ∈ fl <-> exists n, A <= n < B /\ upage s d n = Some v) by apply (cl_freed _ _ _ _ _ _ Hcl).
    assert (Hpp : forall v, pt_page s' d v <-> pt_page s d v) by (intros v; apply pt_page_dir, (cl_dir _ _ _ _ _ _ Hcl)).
    assert (Hstay : forall n v, 0 <= n < 2 ^ 19 -> upage s' d n = Some v -> upage s d n = Some v /\ v ∉ fl).
    { intros n v Hn Hv. rewrite Hu in Hv by done. case_decide as Hout; [done|]. split; [done|]. intros (m & Hm & Em)%Hfl.
      apply Hout. by rewrite (U2 n m v Hn ltac:(lia) Hv Em). }
    assert (Hown : forall v, owned s d v <-> owned s' d v \/ v ∈ fl).
    { intros v. unfold owned. rewrite Hpp, Hfl. split.
      - intros [?|(n & Hn & E)]; [auto|]. destruct (decide (A <= n < B)); [eauto|]. left. right. exists n. by rewrite Hu, decide_False.
      - intros [[?|(n & Hn & E)]|(n & Hn & E)]; [auto|destruct (Hstay n v Hn E); eauto|right; exists n; split; [lia|done]]. }
    assert (Hpage : forall n v, 0 <= n < 2 ^ 19 -> upage s' d n = Some v -> k_pages s' !! v = k_pages s !! v).
    { intros n v Hn Hv. destruct (Hstay n v Hn Hv) as [E Hnf]. apply (cl_pages _ _ _ _ _ _ Hcl); [done|]. apply (U1 n v Hn E). }
    split_and!; [|done|].
    2:{ intros n v Hn Hv. split; [by apply (Hpage n)|]. destruct (Hstay n v Hn Hv) as [E _]. apply (cl_out _ _ _ _ _ _ Hcl); [apply page_u32; lia|].
        rewrite page_num. intros Hin. by rewrite Hu, decide_True in Hv. }
    split.
    - split; [done|split|done|].
      + intros n v Hn Hv. destruct (Hstay n v Hn Hv) as [E Hnf]. destruct (U1 n v Hn E) as (F1 & F2 & F3 & F4). rewrite (Hpage n v Hn Hv), Hpp, not_elem_of_app. done.
      + intros n m v Hn Hm E1 E2. destruct (Hstay n v Hn E1), (Hstay m v Hm E2). by apply (U2 n m v).
      + intros v (i & Hi & HV & E). rewrite (cl_dir _ _ _ _ _ _ Hcl) in HV, E by done. apply T. by exists i.
    - intros v. rewrite R2, Hown, elem_of_app. tauto.
    - intros v Hv. destruct (R3 v Hv) as [H1 H2]. rewrite Hown in H2. rewrite not_elem_of_app. tauto.
    - intros v Hv. rewrite <- R4 by done. apply (cl_pages _ _ _ _ _ _ Hcl).
      + intros H. apply Hv, R2. right. left. apply Hown. auto.
      + intros H. apply Hv, R2. right. left. by left.
    - intros v Hv. by apply (cl_some _ _ _ _ _ _ Hcl), R5.
    - etransitivity; [exact R6|apply (cl_quiet _ _ _ _ _ _ Hcl)].
  Qed.

  (** [deallocuvm] when the first page of the range is mapped, or none is. *)
Lemma deallocuvm_raised s0 O lost s l d oldsz newsz :
    raised kend s0 O lost s l d -> 0 <= newsz < oldsz -> oldsz <= KERNBASE ->
    is_Some (upage s d (pages_of newsz)) \/ (forall n, pages_of newsz <= n < pages_of oldsz -> upage s d n = None) ->
    exists s' l', deallocuvm kend d oldsz newsz s = Ok newsz s' /\ raised kend s0 O lost s' l' d /\
      (forall n, 0 <= n < 2 ^ 19 -> upage s' d n = if decide (pages_of newsz <= n < pages_of oldsz) then None else upage s d n) /\
      (forall n v, 0 <= n < 2 ^ 19 -> upage s' d n = Some v -> k_pages s' !! v = k_pages s !! v /\ same_pte s s' d n) /\ same_kern s s' d.
  Proof using Hkend.
    intros Hra Hsz Hold Hfirst.
    pose proof (pages_of_mono newsz oldsz ltac:(lia)) as Hm1. pose proof (pages_of_mono oldsz KERNBASE Hold) as Hm2.
    pose proof (pages_of_mono 0 newsz ltac:(lia)) as Hm3. change (pages_of KERNBASE) with (2 ^ 19) in Hm2. change (pages_of 0) with 0 in Hm3.
    assert (Hpt : pt_ok kend s d l) by apply Hra. destruct Hfirst as [[v Hv]|Hno].
    - destruct (deallocuvm_run kend Hkend s d l oldsz newsz Hpt Hsz Hold) as (s' & fl & E & Hpt' & Hcl).
      { destruct (so_user _ _ _ _ (ra_space _ _ _ _ _ _ _ Hra)) as [U1 U2]. split.
        - intros n w Hn. apply U1. lia.
        - intros n m w Hn Hm. apply U2; lia. }
      { right. by eapply upage_dir. }
      exists s', (fl ++ l). split; [done|]. destruct (raised_cleared s0 O lost s l d s' fl (pages_of newsz) (pages_of oldsz)) as (? & ? & ?); try (done || lia).
      split_and!; try done. intros a Ha Hge. apply (cl_out _ _ _ _ _ _ Hcl); [done|lia].
    - exists s, l. split_and!; [|done| |done|done].
      + unfold deallocuvm. destruct (Z.geb_spec newsz oldsz); [lia|]. rewrite PGROUNDUP_eq by lia.
        erewrite bind_ok; [reflexivity|]. apply (dealloc_nothing d oldsz _ s l); (done || lia).
      + intros n Hn. case_decide; [by apply Hno|done].
  Qed.

  (** *** The message of [allocuvm] *)
Definition said (msg : string) s : kst :=
    Kst (k_base s) (km_lock s) (km_use_lock s) (km_freelist s) (k_pages s) (k_out s ++ [msg]).

Lemma raised_said msg s0 O lost s l d : raised kend s0 O lost s l d -> raised kend (said msg s0) O lost (said msg s) l d.
  Proof.
    intros [R1 R2 R3 R4 R5 (Q1 & Q2 & Q3)].
    destruct (heap_of_pt kend s d l (so_pt _ _ _ _ R1)) as [[H1 H2 H3 H4 H5] H6 H7].
    destruct (space_elsewhere kend s (said msg s) d l l R1) as (S1 & S2 & S3); [by split|done|done|].
    split; [done|intros v; by rewrite R2, S3|intros v Hv; rewrite S3; by apply R3|done|done|].
    split_and!; [done|cbn; by rewrite Q2|]. unfold relocked in *. cbn. by destruct (km_use_lock s0 =? 0).
  Qed.

  (** *** allocuvm. Of the pages from [A0] on, those before [A] have been
      added; the others are as in [s0]. *)
Record grown s0 s d (A0 A : Z) : Prop := {
    gw_new : forall n, A0 <= n < A -> zero_leaf s d n;
    gw_old : forall n, 0 <= n < 2 ^ 19 -> ~ A0 <= n < A -> upage s d n = upage s0 d n;
    gw_data : forall n v, 0 <= n < 2 ^ 19 -> upage s0 d n = Some v -> k_pages s !! v = k_pages s0 !! v /\ same_pte s0 s d n;
    gw_kern : same_kern s0 s d;
  }.

Lemma grown_none s d A : grown s s d A A.
  Proof. split; [lia|done|done|done]. Qed.

  (** After a try to add the page [A]. *)
Lemma grown_step s0 s s' d l A0 A A' m :
    grown s0 s d A0 A -> space_ok kend s d (m :: l) -> 0 <= A0 <= A -> A < 2 ^ 19 -> (forall n, A0 <= n <= A -> upage s0 d n = None) ->
    (forall a, is_u32 a -> a / PGSIZE <> A -> pte_of s' d a = pte_of s d a) ->
    (forall v, v ∉ m :: l -> ~ pt_page s d v -> k_pages s' !! v = k_pages s !! v) ->
    (A' = A /\ upage s' d A = None) \/
    (A' = A + 1 /\ zero_leaf s' d A) -> grown s0 s' d A0 A'.
  Proof.
    intros [G1 G2 G3 G4] Hsp HA0 HA Hno Hout Hdata Hcase.
    assert (Hu : forall n, 0 <= n < 2 ^ 19 -> n <> A -> upage s' d n = upage s d n).
    { intros n Hn Hne. unfold upage. rewrite Hout; [done|apply page_u32; lia|by rewrite page_num]. }
    assert (Hpte : forall n, 0 <= n < 2 ^ 19 -> n <> A -> same_pte s s' d n) by (intros n Hn Hne; apply Hout; [apply page_u32; lia|by rewrite page_num]).
    assert (Hkept : forall n v, 0 <= n < 2 ^ 19 -> upage s d n = Some v -> k_pages s' !! v = k_pages s !! v).
    { intros n v Hn Hv. destruct (us_page _ _ _ _ _ _ (so_user _ _ _ _ Hsp) n v Hn Hv) as (_ & _ & H1 & H2). by apply Hdata. }
    assert (Hnew : forall n, A0 <= n < A -> zero_leaf s' d n).
    { intros n Hn. destruct (G1 n Hn) as (v & V1 & V2 & V3). exists v. rewrite Hu, Hpte by lia. split_and!; [done| |done]. by rewrite (Hkept n v ltac:(lia) V1). }
    split.
    - intros n Hn. destruct (decide (n = A)) as [->|]; [|apply Hnew; lia]. destruct Hcase as [[-> _]|(-> & E)]; [lia|done].
    - intros n Hn Hno'. destruct (decide (n = A)) as [->|].
      + destruct Hcase as [[-> E]|(-> & _)]; [by rewrite E, Hno by lia|lia].
      + rewrite Hu by done. apply G2; lia.
    - intros n v Hn Hv. destruct (decide (A0 <= n <= A)) as [Hin|Hin]; [by rewrite Hno in Hv|].
      destruct (G3 n v Hn Hv) as [<- E2]. split; [apply (Hkept n); [done|]; rewrite G2; [done|done|lia]|].
      unfold same_pte. by rewrite Hpte by lia.
    - intros a Ha Hge. rewrite <- (G4 a Ha Hge). apply Hout; [done|lia].
  Qed.

  (** Out of memory: what has been added goes back. *)
Lemma alloc_fail s0 O lost s d oldsz newsz A fuel :
    let A0 := pages_of oldsz in
    raised kend s0 O lost s [] d -> grown s0 s d A0 A -> 0 <= oldsz < newsz -> newsz < KERNBASE -> A0 <= A <= pages_of newsz ->
    (forall n, A0 <= n < pages_of newsz -> upage s0 d n = None) ->
    forall a, a < newsz ->
    exists s' l', alloc_from kend (S fuel) d a oldsz newsz s = Ok 0 s' /\
      raised kend (said "allocuvm out of memory\n" s0) O lost s' l' d /\ grown s0 s' d A0 A0.
  Proof using Hkend.
    intros A0 Hra [G1 G2 G3 G4] Hsz Hk HA Hno a Ha. cbn [alloc_from]. destruct (Z.ltb_spec a newsz); [|lia]. cbn [negb].
    pose proof (pages_of_mono newsz KERNBASE ltac:(lia)) as HB. change (pages_of KERNBASE) with (2 ^ 19) in HB.
    pose proof (pages_of_mono 0 oldsz ltac:(lia)) as H0. change (pages_of 0) with 0 in H0. fold A0 in H0.
    assert (Hh : heap_ok kend s []) by (eapply heap_of_pt; apply Hra).
    destruct (kalloc_heap kend s [] Hh) as (s1 & E1 & Hh1 & Hp1 & Hq1). rewrite (bind_ok _ _ _ _ _ E1). cbn [Z.eqb].
    assert (Hra1 : raised kend s0 O lost s1 [] d).
    { destruct Hra as [R1 R2 R3 R4 R5 R6]. destruct (space_elsewhere kend s s1 d [] [] R1 Hh1) as (S1 & _ & S3); [done|by rewrite Hp1|].
      split; [done|intros v; by rewrite R2, S3|intros v Hv; rewrite S3; by apply R3|intros v Hv; rewrite Hp1; by apply R4|intros v Hv; rewrite Hp1; by apply R5|by etransitivity]. }
    assert (Hu1 : forall n, upage (said "allocuvm out of memory\n" s1) d n = upage s d n).
    { intros n. apply (pages_same s (said "allocuvm out of memory\n" s1) d). exact Hp1. }
    erewrite bind_ok by reflexivity.
    destruct (deallocuvm_raised _ O lost _ [] d newsz oldsz (raised_said "allocuvm out of memory\n" _ _ _ _ _ _ Hra1)) as (s' & l' & E & Hra' & Hu & Hd & HK);
      [lia|lia| |].
    { fold A0. setoid_rewrite Hu1. destruct (decide (A0 < A)) as [Hlt|Hge].
      - left. destruct (G1 A0 ltac:(lia)) as (v & -> & _). by eexists.
      - right. intros n Hn. rewrite G2; [by apply Hno|lia|lia]. }
    exists s', l'. rewrite (bind_ok _ _ _ _ _ E). split_and!; [done|done|]. fold A0 in Hu. split; [lia| | |].
    - intros n Hn _. rewrite Hu by done. case_decide; [by rewrite Hno|]. rewrite Hu1. apply G2; [done|lia].
    - intros n v Hn Hv. assert (Hin : ~ A0 <= n < pages_of newsz) by (intros H1; by rewrite Hno in Hv).
      assert (Hv' : upage s' d n = Some v) by (rewrite Hu, decide_False, Hu1, G2 by (done || lia); done).
      unfold same_pte in *. destruct (G3 n v Hn Hv) as [<- <-], (Hd n v Hn Hv') as [-> ->]. split; [cbn; by rewrite Hp1|].
      apply (pages_same s (said _ s1) d). exact Hp1.
    - intros b Hb Hge. rewrite (HK b Hb Hge), <- (G4 b Hb Hge). apply (pages_same s (said _ s1) d). exact Hp1.
  Qed.

  (** How it ends, with [N] pages to add and the pages [l] free: all pages
      added; or all but the last, which found no page for its table and is
      lost; or none. Two free pages for each are enough. *)
Definition alloc_end s0 (O : Z -> Prop) d oldsz newsz (l : list Z) (N : Z) (r : Z) s' (l' lost : list Z) : Prop :=
    (r = newsz /\ raised kend s0 O lost s' l' d /\
       ((lost = [] /\ Z.of_nat (length l) <= Z.of_nat (length l') + 2 * N /\ grown s0 s' d (pages_of oldsz) (pages_of newsz)) \/
        (l' = [] /\ length lost = 1%nat /\ Z.of_nat (length l) < 2 * N /\ grown s0 s' d (pages_of oldsz) (pages_of newsz - 1)))) \/
    (r = 0 /\ (length lost <= 1)%nat /\ Z.of_nat (length l) < 2 * N /\ raised kend (said "allocuvm out of memory\n" s0) O lost s' l' d /\
     grown s0 s' d (pages_of oldsz) (pages_of oldsz)).

Lemma alloc_end_step s0 O d oldsz newsz m l l1 N r s' l' lost :
    alloc_end s0 O d oldsz newsz l1 (N - 1) r s' l' lost -> (length l <= length l1 + 1)%nat -> alloc_end s0 O d oldsz newsz (m :: l) N r s' l' lost.
  Proof.
    intros [(E1 & E2 & [(E3 & E4 & E5)|(E3 & E4 & E5 & E6)])|(E1 & E2 & E3 & E4 & E5)] Hl;
      [left; split_and!; [done|done|left]|left; split_and!; [done|done|right]|right]; split_and!; try done; cbn; lia.
  Qed.

Lemma alloc_run s0 O d oldsz newsz (fuel : nat) :
    0 <= oldsz < newsz -> newsz < KERNBASE -> (forall n, pages_of oldsz <= n < pages_of newsz -> upage s0 d n = None) ->
    forall s l A, raised kend s0 O [] s l d -> grown s0 s d (pages_of oldsz) A -> pages_of oldsz <= A <= pages_of newsz ->
    pages_of newsz - A < Z.of_nat fuel ->
    exists r s' l' lost, alloc_from kend fuel d (A * PGSIZE) oldsz newsz s = Ok r s' /\
      alloc_end s0 O d oldsz newsz l (pages_of newsz - A) r s' l' lost.
  Proof using Hkend.
    intros Hsz Hk Hno. induction fuel as [|fuel IH]; intros s l A Hra Hg HA Hfuel; [lia|].
    pose proof (pages_of_mono newsz KERNBASE ltac:(lia)) as HB. change (pages_of KERNBASE) with (2 ^ 19) in HB.
    pose proof (pages_of_mono 0 oldsz ltac:(lia)) as H0. change (pages_of 0) with 0 in H0.
    pose proof (pages_of_lt A newsz) as Hlt. destruct (Z.lt_ge_cases (A * PGSIZE) newsz) as [Hin|Hin].
    2:{ cbn [alloc_from]. destruct (Z.ltb_spec (A * PGSIZE) newsz); [lia|]. exists newsz, s, l, []. split; [done|]. left.
        assert (A = pages_of newsz) as -> by lia. split_and!; [done..|]. left. split_and!; (done || lia). }
    destruct l as [|m l].
    { destruct (alloc_fail s0 O [] s d oldsz newsz A fuel Hra Hg Hsz Hk HA Hno _ Hin) as (s' & l' & E & R & G).
      exists 0, s', l', []. split; [done|]. right. split_and!; (done || cbn; lia). }
    cbn [alloc_from]. destruct (Z.ltb_spec (A * PGSIZE) newsz); [|lia]. cbn [negb].
    destruct (map_user kend Hkend s0 O [] s m l d A (replicate (Z.to_nat PGSIZE) 0) (Z.lor PTE_PP_RWRW PTE_EX) Hra)
      as (s1 & E1 & Hp1 & r & s' & l' & Em & [Hl' Hlen'] & Hout & Hdata & Hres);
      [lia|rewrite (gw_old _ _ _ _ _ Hg) by lia; apply Hno; lia|apply length_replicate|apply Forall_replicate; unfold is_u8; lia|by vm_compute|].
    destruct (free_page kend s m l) as (_ & Hsm & _ & Hm0); [eapply heap_of_pt; apply Hra|].
    rewrite (bind_ok _ _ _ _ _ E1). destruct (Z.eqb_spec m 0); [done|].
    rewrite (bind_ok _ _ _ _ _ (fill_zero s1 m ltac:(by rewrite Hp1))), (bind_ok _ _ _ _ _ Em).
    assert (u32 (A * PGSIZE + PGSIZE) = (A + 1) * PGSIZE) as -> by (rewrite u32_id; unfold is_u32, PGSIZE; lia).
    assert (Hstep : forall A', (A' = A /\ upage s' d A = None) \/ (A' = A + 1 /\ zero_leaf s' d A) -> grown s0 s' d (pages_of oldsz) A').
    { intros A' HA'. eapply (grown_step s0 s s' d l); [exact Hg|apply Hra|lia|lia|intros n0 Hn0; apply Hno; lia|done|done|exact HA']. }
    destruct Hres as [(-> & Hra' & Hpte & Hup & Hpm)|(-> & -> & -> & Hra' & Hup)].
    { destruct (IH s' l' (A + 1) Hra') as (r & s2 & l2 & lost & E2 & H2); [apply Hstep; right; split; [done|by exists m]|lia|lia|].
      exists r, s2, l2, lost. split; [done|]. apply (alloc_end_step _ _ _ _ _ m l l'); [|done].
      by replace (pages_of newsz - A - 1) with (pages_of newsz - (A + 1)) by lia. }
    destruct fuel as [|fuel]; [lia|]. pose proof (Hstep A ltac:(auto)) as Hg'.
    destruct (Z.lt_ge_cases ((A + 1) * PGSIZE) newsz) as [Hin'|Hin'].
    - destruct (alloc_fail s0 O [m] s' d oldsz newsz A fuel Hra' Hg' Hsz Hk HA Hno _ Hin') as (s2 & l2 & E & R & G).
      exists 0, s2, l2, [m]. split; [done|]. right. split_and!; (done || cbn; lia).
    - cbn [alloc_from]. destruct (Z.ltb_spec ((A + 1) * PGSIZE) newsz); [lia|]. exists newsz, s', [], [m]. split; [done|]. left.
      split_and!; [done|done|]. right. pose proof (pages_of_lt (A + 1) newsz). replace (pages_of newsz - 1) with A by lia. split_and!; (done || cbn; lia).
  Qed.

  (** [allocuvm] of a space that is unmapped from [oldsz] on: a size that is
      too large or too small changes nothing. Otherwise, on success, every page
      of the range has a zeroed page of its own, but if the pages ran out at
      the very last table; on failure the range is unmapped again. With two
      free pages for each page of the range it succeeds. What was
      mapped before stays, with its contents, and no page is lost, or one. *)
Theorem allocuvm_spec s l d oldsz newsz :
    space_ok kend s d l -> 0 <= oldsz -> (forall n, pages_of oldsz <= n < 2 ^ 19 -> upage s d n = None) ->
    if decide (KERNBASE <= newsz) then allocuvm kend d oldsz newsz s = Ok 0 s
    else if decide (newsz < oldsz) then allocuvm kend d oldsz newsz s = Ok oldsz s
    else exists r s' l' lost, allocuvm kend d oldsz newsz s = Ok r s' /\
      alloc_end s (fun v => v ∈ l \/ owned s d v) d oldsz newsz l (pages_of newsz - pages_of oldsz) r s' l' lost.
  Proof using Hkend.
    intros Hsp H0 Hno. unfold allocuvm. case_decide as Hbig; destruct (Z.geb_spec newsz KERNBASE); try lia; [done|].
    case_decide as Hsmall; destruct (Z.ltb_spec newsz oldsz); try lia; [done|]. rewrite PGROUNDUP_eq by lia.
    pose proof (pages_of_mono newsz KERNBASE ltac:(lia)) as HB. change (pages_of KERNBASE) with (2 ^ 19) in HB.
    pose proof (pages_of_mono oldsz newsz ltac:(lia)) as Hm. pose proof (pages_of_mono 0 oldsz ltac:(lia)) as Hz. change (pages_of 0) with 0 in Hz.
    destruct (decide (oldsz = newsz)) as [->|Hne].
    - exists newsz, s, l, []. split; [|left; split_and!; [done|by apply raised_self|left; split_and!; [done|lia|apply grown_none]]].
      unfold alloc_from. destruct (Z.to_nat (2 ^ 20)) as [|fuel] eqn:Ef; [lia|]. pose proof (pages_of_lt (pages_of newsz) newsz).
      destruct (Z.ltb_spec (pages_of newsz * PGSIZE) newsz); [lia|done].
    - apply (alloc_run s _ d oldsz newsz (Z.to_nat (2 ^ 20)) ltac:(lia) ltac:(lia) ltac:(intros; apply Hno; lia) s l); [by apply raised_self|apply grown_none|lia|lia].
  Qed.

  (** *** A process's space after a change of its size: [top] pages of it are
      mapped, those there were before as they were, new ones zeroed; [lost]
      pages are neither in it nor free any more. *)
Record resized s s' d (l l' lost : list Z) (sz top : Z) : Prop := {
    rz_space : space_ok kend s' d l';
    rz_all : forall v, v ∈ l \/ owned s d v <-> v ∈ l' \/ owned s' d v \/ v ∈ lost;
    rz_lost : (length lost <= 1)%nat /\ forall v, v ∈ lost -> (v ∉ l') /\ ~ owned s' d v;
    rz_other : forall v, v ∉ l -> ~ owned s d v -> k_pages s' !! v = k_pages s !! v;
    rz_kept : forall i, 0 <= i < top -> i < pages_of sz ->
      exists v, upage s d i = Some v /\ upage s' d i = Some v /\ k_pages s' !! v = k_pages s !! v /\ same_pte s s' d i;
    rz_new : forall i, pages_of sz <= i < top -> zero_leaf s' d i;
    rz_kern : same_kern s s' d;
    rz_high : forall i, top <= i < 2 ^ 19 -> upage s' d i = None;
  }.
  (** Nothing else of the kernel's state but the memory and the messages. *)
Definition kept_base s s' : Prop := km_use_lock s' = km_use_lock s /\ (k_base s' = k_base s \/ k_base s' = k_base (relocked s)).

Lemma resized_pages s s' s2 d l l' lost sz top :
    resized s s' d l l' lost sz top -> k_pages s2 = k_pages s' -> kmem_ok s2 l' -> resized s s2 d l l' lost sz top.
  Proof.
    intros [Z1 Z2 Z3 Z4 Z5 Z6 Z7 Z8] Hpg Hk. destruct (pages_same s' s2 d Hpg) as (Ep & Eu & Eo).
    split; unfold zero_leaf, same_pte, same_kern; setoid_rewrite Eu || idtac; setoid_rewrite Ep || idtac; setoid_rewrite Eo || idtac; rewrite ?Hpg; try done. by eapply (space_ok_pages kend s').
  Qed.

Lemma raised_resized msg s s1 s' d l l' lost sz top :
    s1 = s \/ s1 = said msg s ->
    raised kend s1 (fun v => v ∈ l \/ owned s d v) lost s' l' d -> (length lost <= 1)%nat -> 0 <= sz ->
    (forall i, 0 <= i < top -> i < pages_of sz ->
       exists v, upage s d i = Some v /\ upage s' d i = Some v /\ k_pages s' !! v = k_pages s !! v /\ same_pte s s' d i) ->
    (forall i, pages_of sz <= i < top -> zero_leaf s' d i) ->
    (forall i, top <= i < 2 ^ 19 -> upage s' d i = None) -> same_kern s s' d -> resized s s' d l l' lost sz top /\ kept_base s s'.
  Proof.
    intros Hs1 [R1 R2 R3 R4 R5 (Q1 & _ & Q3)] Hlen Hsz Hk Hn Hh HK.
    assert (Ep : k_pages s1 = k_pages s) by (by destruct Hs1 as [->| ->]).
    assert (Eb : km_use_lock s1 = km_use_lock s /\ k_base s1 = k_base s) by (by destruct Hs1 as [->| ->]). destruct Eb as [Eu Eb].
    split; [split; try done|].
    - intros v H1 H2. rewrite <- Ep. apply R4. tauto.
    - split; [by rewrite Q1, Eu|]. rewrite <- Eb. rewrite <- (relocked_base s1 s Eu Eb). done.
  Qed.

Lemma grown_resized msg s s1 s' d l l' lost sz A :
    s1 = s \/ s1 = said msg s ->
    raised kend s1 (fun v => v ∈ l \/ owned s d v) lost s' l' d -> (length lost <= 1)%nat -> 0 <= sz -> pages_of sz <= A <= 2 ^ 19 ->
    (forall n, 0 <= n < pages_of sz -> is_Some (upage s d n)) -> (forall n, pages_of sz <= n < 2 ^ 19 -> upage s d n = None) ->
    grown s s' d (pages_of sz) A -> resized s s' d l l' lost sz A /\ kept_base s s'.
  Proof.
    intros Hs1 Hra Hlen Hsz HA Hlow Hhigh [G1 G2 G3 G4]. pose proof (pages_of_mono 0 sz Hsz) as Hz. change (pages_of 0) with 0 in Hz.
    eapply raised_resized; try done.
    - intros i Hi Hi2. destruct (Hlow i ltac:(lia)) as [v Hv]. exists v. rewrite G2 by lia. split_and!; try done; apply (G3 i v); (lia || done).
    - intros i Hi. rewrite G2 by lia. apply Hhigh. lia.
  Qed.

Definition grow_call (d sz n : Z) : M kst Z :=
    if n >? 0 then allocuvm kend d sz (u32 (sz + n))
    else if n <? 0 then deallocuvm kend d sz (u32 (sz + n)) else ret sz.

  (** What each size leads to: the result, and how many pages are mapped. *)
Definition grow_case (l : list Z) (sz n r top : Z) (l' lost : list Z) : Prop :=
    let new := sz + n in let short := Z.of_nat (length l) < 2 * (pages_of new - pages_of sz) in
    if decide (n = 0 \/ new < 0) then r = sz /\ top = pages_of sz /\ lost = []
    else if decide (KERNBASE <= new) then r = 0 /\ top = pages_of sz /\ lost = []
    else if decide (n < 0) then r = new /\ top = pages_of new /\ lost = []
    else (r = new /\ top = pages_of new /\ lost = []) \/ (short /\ r = new /\ top = pages_of new - 1 /\ l' = [] /\ length lost = 1%nat) \/
         (short /\ r = 0 /\ top = pages_of sz).

Lemma grow_run s l d sz n :
    space_ok kend s d l -> 0 <= sz <= KERNBASE -> - 2 ^ 31 <= n < 2 ^ 31 ->
    (forall i, 0 <= i < pages_of sz -> is_Some (upage s d i)) -> (forall i, pages_of sz <= i < 2 ^ 19 -> upage s d i = None) ->
    exists r s' l' lost top, grow_call d sz n s = Ok r s' /\ (resized s s' d l l' lost sz top /\ kept_base s s') /\ grow_case l sz n r top l' lost.
  Proof using Hkend.
    intros Hsp Hsz Hn Hlow Hhigh. pose proof (raised_self s d l Hsp) as Hra.
    pose proof (pages_of_mono 0 sz ltac:(lia)) as Hz. change (pages_of 0) with 0 in Hz.
    pose proof (pages_of_mono sz KERNBASE ltac:(lia)) as HK. change (pages_of KERNBASE) with (2 ^ 19) in HK.
    assert (Hsame : resized s s d l l [] sz (pages_of sz) /\ kept_base s s).
    { apply (grown_resized EmptyString s s s d l l [] sz); try assumption; [by left|cbn; lia|lia|lia|apply grown_none]. }
    unfold grow_call, grow_case. cbv zeta. unfold KERNBASE in Hsz, HK. destruct (Z.gtb_spec n 0) as [Hpos|Hpos].
    - assert (u32 (sz + n) = sz + n) as -> by (rewrite u32_id; unfold is_u32; lia).
      pose proof (allocuvm_spec s l d sz (sz + n) Hsp ltac:(lia) Hhigh) as Ha.
      destruct (decide (n = 0 \/ sz + n < 0)) as [?|_]; [lia|]. destruct (decide (KERNBASE <= sz + n)) as [Hbig|Hbig].
      { exists 0, s, l, [], (pages_of sz). done. }
      rewrite (decide_False (P := sz + n < sz)) in Ha by lia. destruct (decide (n < 0)) as [?|_]; [lia|].
      pose proof (pages_of_mono (sz + n) KERNBASE ltac:(lia)) as HB. change (pages_of KERNBASE) with (2 ^ 19) in HB.
      pose proof (pages_of_mono sz (sz + n) ltac:(lia)) as Hm.
      destruct Ha as (r & s' & l' & lost & E & [(-> & R & [(-> & _ & G)|(-> & Hlen & Hlt & G)])|(-> & Hlen & Hlt & R & G)]).
      + exists (sz + n), s', l', [], (pages_of (sz + n)). split; [done|]; split; [|left; done].
        apply (grown_resized EmptyString s s); try assumption; [by left|cbn; lia|lia|lia].
      + exists (sz + n), s', [], lost, (pages_of (sz + n) - 1). split; [done|]; split; [|right; left; done].
        apply (grown_resized EmptyString s s); try assumption; [by left|lia|lia|lia].
      + exists 0, s', l', lost, (pages_of sz). split; [done|]; split; [|right; right; done].
        apply (grown_resized _ s _ s' d l l' lost sz (pages_of sz) (or_intror eq_refl) R); try assumption; lia.
    - destruct (Z.ltb_spec n 0) as [Hneg|Hneg].
      2:{ destruct (decide (n = 0 \/ sz + n < 0)) as [_|?]; [|lia]. exists sz, s, l, [], (pages_of sz). done. }
      destruct (decide (sz + n < 0)) as [Hless|Hless].
      { destruct (decide (n = 0 \/ sz + n < 0)) as [_|?]; [|lia]. assert (Eu : u32 (sz + n) = sz + n + 2 ^ 32) by (unfold u32; rewrite <- (Z.mod_add _ 1) by done; apply Z.mod_small; lia).
        rewrite Eu. exists sz, s, l, [], (pages_of sz). split; [|by split]. unfold deallocuvm. by destruct (Z.geb_spec (sz + n + 2 ^ 32) sz); [|lia]. }
      destruct (decide (n = 0 \/ sz + n < 0)) as [?|_]; [lia|]. destruct (decide (KERNBASE <= sz + n)) as [?|_]; [unfold KERNBASE in *; lia|].
      destruct (decide (n < 0)) as [_|?]; [|lia].
      assert (u32 (sz + n) = sz + n) as -> by (rewrite u32_id; unfold is_u32; lia).
      pose proof (pages_of_mono (sz + n) sz ltac:(lia)) as Hm. pose proof (pages_of_mono 0 (sz + n) ltac:(lia)) as Hz'. change (pages_of 0) with 0 in Hz'.
      destruct (deallocuvm_raised s _ [] s l d sz (sz + n) Hra) as (s' & l' & E & R & Hu & Hd & HKe); [lia|unfold KERNBASE; lia| |].
      { destruct (decide (pages_of (sz + n) < pages_of sz)); [left; apply Hlow; lia|right; lia]. }
      exists (sz + n), s', l', [], (pages_of (sz + n)). split; [done|]; split; [|by split_and!].
      apply (raised_resized EmptyString s s); try assumption; [by left|cbn; lia|lia| |intros; lia|].
      + intros i Hi _. destruct (Hlow i ltac:(lia)) as [v Hv]. assert (Hv' : upage s' d i = Some v) by (rewrite Hu, decide_False by lia; done).
        exists v. split_and!; try done; apply (Hd i v); (lia || done).
      + intros i Hi. rewrite Hu by lia. case_decide; [done|]. apply Hhigh. lia.
  Qed.
End space.

(** ** growproc *)
Section grow.
  Context {St : Type} {LO : LogOps St} (kend : Z).
  Hypothesis Hkend : KERNBASE < kend.
  Implicit Types (s : sys St).

  (** The current process, its memory mapped exactly up to its size. *)
Record can_grow s (l : list Z) (me : nat) (p : proc) : Prop := {
    cg_base : base_ok (y_base s);
    cg_cur : current me p s;
    cg_space : space_ok kend (y_kst s) (p_pgdir p) l;
    cg_sz : 0 <= p_sz p <= KERNBASE;
    cg_low : forall i, 0 <= i < pages_of (p_sz p) -> is_Some (upage (y_kst s) (p_pgdir p) i);
    cg_high : forall i, pages_of (p_sz p) <= i < 2 ^ 19 -> upage (y_kst s) (p_pgdir p) i = None;
  }.

  (** The result, the new size and the number of pages mapped. *)
Definition sbrk_case (l : list Z) (old n r sz top : Z) (l' lost : list Z) : Prop :=
    let new := old + n in let short := Z.of_nat (length l) < 2 * (pages_of new - pages_of old) in
    if decide (n = 0) then r = 0 /\ sz = old /\ top = pages_of old
    else if decide (new < 0) then r = (if decide (old = 0) then -1 else 0) /\ sz = old /\ top = pages_of old
    else if decide (KERNBASE <= new) then r = -1 /\ sz = old /\ top = pages_of old
    else if decide (new = 0) then r = -1 /\ sz = old /\ top = 0
    else if decide (n < 0) then r = 0 /\ sz = new /\ top = pages_of new
    else (r = 0 /\ sz = new /\ ((top = pages_of new /\ lost = []) \/ (short /\ top = pages_of new - 1 /\ l' = [] /\ length lost = 1%nat))) \/
         (short /\ r = -1 /\ sz = old /\ top = pages_of old).

Lemma sbrk_of_grow l old n r top l' lost :
    0 <= old -> grow_case l old n r top l' lost ->
    if negb (n =? 0) && (r =? 0) then sbrk_case l old n (-1) old top l' lost else sbrk_case l old n 0 r top l' lost.
  Proof.
    unfold grow_case, sbrk_case. cbv zeta. intros H0. repeat case_decide; try lia; intros Hc;
      destruct (Z.eqb_spec n 0), (Z.eqb_spec r 0); cbn [negb andb]; try lia; try (subst; split_and!; (done || lia)).
    all: intuition (try lia; try congruence).
    subst top. by replace (old + n) with 0 by lia.
  Qed.

  (** [switchuvm] with [ptable.lock] free. *)
Lemma switch_free i p s :
    base_ok (y_base s) -> b_procs (y_base s) !! i = Some p -> p_pgdir p <> 0 ->
    switchuvm i s = Ok tt (set_vars (set_pdt (v2p (p_pgdir p)) (y_vars s)) (set_base (with_cpu (quiet (b_cpu (y_base s))) (y_base s)) s)).
  Proof.
    intros [_ Hn] Hp Hd. unfold switchuvm. set (b := y_base s) in *. set (b1 := with_cpu (cli (b_cpu b)) b).
    assert (E1 : on_base (zoom (L := cpu_l) pushcli) s = Ok tt (set_base b1 s)).
    { erewrite on_base_ok; [reflexivity|]. erewrite zoom_ok by apply pushcli_ok. done. }
    rewrite (bind_ok _ _ _ _ _ E1).
    rewrite (bind_ok _ _ _ _ _ (getp_run i p (set_base b1 s) ltac:(by rewrite y_base_set))).
    destruct (p_pgdir p =? 0) eqn:E; [lia|]. erewrite bind_ok by reflexivity.
    erewrite on_base_ok.
    2:{ change (y_base (set_vars ?v (set_base b1 s))) with (y_base (set_base b1 s)). rewrite y_base_set.
        erewrite zoom_ok by (apply (popcli_cli (b_cpu b)); done). reflexivity. }
    f_equal. unfold set_base, set_vars. cbn [y_fs y_mem ft_lock ft_files y_pipes y_vars]. by rewrite put_base_put.
  Qed.

Lemma kept_base_ok s k me p :
    kept_base (y_kst s) k -> base_ok (y_base s) -> current me p s ->
    base_ok (k_base k) /\ current me p (set_kst k s) /\ b_procs (k_base k) = b_procs (y_base s).
  Proof.
    intros [_ Hb] Hok [C1 C2]. assert (H : k_base k = y_base s \/ k_base k = Base (quiet (b_cpu (y_base s))) (b_lock (y_base s)) (b_procs (y_base s))).
    { destruct Hb as [Hb|Hb]; [by left|]. rewrite Hb. unfold relocked. destruct (_ =? 0); [by left|by right]. }
    destruct H as [H|H]; (split; [|split; [split; rewrite y_base_kst|]]); rewrite H; done.
  Qed.

  (** The call in growproc is [grow_call] on the memory's part of the state. *)
Lemma grow_call_run s d sz n r k :
    grow_call kend d sz n (y_kst s) = Ok r k ->
    (if n >? 0 then on_kst (allocuvm kend d sz (u32 (sz + n)))
     else if n <? 0 then on_kst (deallocuvm kend d sz (u32 (sz + n))) else ret sz) s = Ok r (set_kst k s).
  Proof.
    unfold grow_call. destruct (n >? 0); [apply on_kst_ok|]. destruct (n <? 0); [apply on_kst_ok|].
    intros [= <- <-]. by rewrite set_kst_id.
  Qed.

  (** C16. [growproc] by [n] bytes. The process's memory is resized; its size
      follows, but when the whole memory was to be given back. Everything else
      of the table is as it was. *)
Theorem growproc_spec s l me p n :
    can_grow s l me p -> - 2 ^ 31 <= n < 2 ^ 31 ->
    exists r s' l' lost sz top, growproc kend n s = Ok r s' /\
      base_ok (y_base s') /\ outside s s' /\ current me (set_sz sz p) s' /\
      b_procs (y_base s') = <[me := set_sz sz p]> (b_procs (y_base s)) /\
      (r = 0 -> v_pdtr (y_vars s') = v2p (p_pgdir p)) /\
      resized kend (y_kst s) (y_kst s') (p_pgdir p) l l' lost (p_sz p) top /\ sbrk_case l (p_sz p) n r sz top l' lost.
  Proof using Hkend.
    intros [F1 F2 F3 F4 F5 F6] Hn.
    destruct (grow_run kend Hkend (y_kst s) l (p_pgdir p) (p_sz p) n F3 F4 Hn F5 F6) as (r & k & l' & lost & top & E & [Hrz Hkb] & Hc).
    destruct (kept_base_ok s k me p Hkb F1 F2) as (B1 & B2 & B3). apply sbrk_of_grow in Hc; [|lia].
    unfold growproc. rewrite (bind_ok _ _ _ _ _ (curproc_run me p s F2)), (bind_ok _ _ _ _ _ (grow_call_run s _ _ n r k E)).
    destruct (negb (n =? 0) && (r =? 0)).
    - assert (Es : set_sz (p_sz p) p = p) by (by destruct p).
      exists (-1), (set_kst k s), l', lost, (p_sz p), top. rewrite Es, y_base_kst, y_kst_set, B3.
      split_and!; try assumption; try done; [|symmetry; apply list_insert_id, (cu_proc _ _ _ F2)].
      split_and!; try done; [by eexists|]. rewrite y_base_kst, (cu_cpu _ _ _ F2). rewrite <- (cu_cpu _ _ _ B2), y_base_kst. done.
    - assert (Hd : p_pgdir p <> 0) by (apply so_dir in F3; unfold freeable, KERNBASE in F3; lia).
      set (ps := <[me := set_sz r p]> (b_procs (y_base s))). set (s2 := set_procs ps (set_kst k s)).
      rewrite (bind_ok _ _ _ _ _ (upd_cur_run me p (set_sz r) _ B2)), y_base_kst, B3. fold ps s2.
      assert (Hb2 : y_base s2 = Base (b_cpu (k_base k)) (b_lock (k_base k)) ps) by (unfold s2; by rewrite y_base_procs, y_base_kst).
      assert (Hc2 : current me (set_sz r p) s2).
      { destruct B2 as [C1 _]. rewrite y_base_kst in C1. split; rewrite Hb2; [done|].
        apply list_lookup_insert_eq. eapply lookup_lt_Some, (cu_proc _ _ _ F2). }
      rewrite (bind_ok _ _ _ _ _ (cur_run me _ s2 Hc2)).
      erewrite bind_ok by (eapply (switch_free me (set_sz r p)); [by rewrite Hb2|apply Hc2|done]).
      set (s3 := set_vars _ _). assert (Hb3 : y_base s3 = Base (quiet (b_cpu (k_base k))) (b_lock (k_base k)) ps).
      { unfold s3. change (y_base (set_vars ?v ?t)) with (y_base t). by rewrite y_base_set, Hb2. }
      assert (Hc3 : current me (set_sz r p) s3) by (destruct Hc2 as [C1 C2]; rewrite Hb2 in C1, C2; split; by rewrite Hb3).
      exists 0, s3, l', lost, r, top. split; [reflexivity|].
      assert (Hk3 : y_kst s3 = Kst (y_base s3) (km_lock k) (km_use_lock k) (km_freelist k) (k_pages k) (k_out k)) by done.
      split_and!; try assumption; [by rewrite Hb3| |by rewrite Hb3|done|].
      + split_and!; try done; [|by rewrite (cu_cpu _ _ _ Hc3), (cu_cpu _ _ _ F2)].
        eexists. unfold s3, s2, set_procs, set_base, set_vars, set_kst. cbn [y_fs]. by rewrite !put_base_put.
      + apply (resized_pages _ _ k); [done|done|]. destruct (po_kmem _ _ _ _ (so_pt _ _ _ _ (rz_space _ _ _ _ _ _ _ _ _ Hrz))).
        rewrite Hk3, Hb3. split; try assumption.
  Qed.
End grow.

(** The process of [sys3] asks for a page more. *)
Lemma sys3_can_grow : can_grow 0x80110000 sys3 [0x80200000; 0x80201000] 2 me2.
Proof.
  pose proof sys3_can_fork as [F1 F2 _ F4 F5 F6]. split; try assumption.
  intros i Hi. change (pages_of (p_sz me2)) with 1 in Hi.
  destruct (upage (y_kst sys3) (p_pgdir me2) i) as [v|] eqn:E; [|done]. exfalso.
  change (upage (vm_at 0) 0x80300000 i = Some v) in E. apply vm_at_upage in E as [? _]; lia.
Qed.

Lemma growproc_spec_witness :
  exists r s' sz, growproc 0x80110000 PGSIZE sys3 = Ok r s' /\ current 2 (set_sz sz me2) s' /\
    r = 0 /\ sz = 2 * PGSIZE.
Proof.
  destruct (growproc_spec 0x80110000 ltac:(unfold KERNBASE; lia) sys3 _ 2 me2 PGSIZE sys3_can_grow ltac:(unfold PGSIZE; lia))
    as (r & s' & l' & lost & sz & top & E & _ & _ & Hc & _ & _ & _ & Hcase).
  exists r, s', sz. split; [exact E|]. split; [exact Hc|]. unfold sbrk_case in Hcase. repeat (destruct (decide _); [discriminate|]).
  destruct Hcase as [(-> & -> & _)|(Hs & _)]; [split; reflexivity|discriminate Hs].
Defined.
