(* ===== verification/Load.v ===== *)
(** Loading a program: exec (exec.c) with loaduvm, allocuvm, clearpteu and
    copyout (vm.c) on an address space under construction. *)
From stdpp Require Import base numbers list strings sets gmap.
From S2P Require Import Prelude Params Spinlock Sched Bio Cache BlockIf Log Crash Trans Inode FileData Dir Namei Kalloc Vm VmFree VmCopy Sys File Proc Exec Life Fork Grow.

Set Warnings "-clear-no-such-hyp".

(** ** Memory as a function from addresses to bytes *)
Definition page_bytes (m : Z -> Z) (n : Z) : list Z := (fun j => m (n * PGSIZE + Z.of_nat j)) <$> seq 0 (Z.to_nat PGSIZE).
Definition over (m : Z -> Z) (a : Z) (x : list Z) (b : Z) : Z :=
  if decide (a <= b < a + Z.of_nat (length x)) then default 0 (x !! Z.to_nat (b - a)) else m b.

Lemma length_page_bytes m n : length (page_bytes m n) = Z.to_nat PGSIZE.
Proof. unfold page_bytes. by rewrite length_fmap, length_seq. Qed.
Lemma page_bytes_ext m m' n : (forall b, n * PGSIZE <= b < (n + 1) * PGSIZE -> m b = m' b) -> page_bytes m n = page_bytes m' n.
Proof.
  intros H. unfold page_bytes. apply list_fmap_ext. intros i j Hj. apply lookup_seq in Hj as [-> ?]. apply H. unfold PGSIZE in *. lia.
Qed.
Lemma page_bytes_zero m n : (forall b, n * PGSIZE <= b -> m b = 0) -> page_bytes m n = replicate (Z.to_nat PGSIZE) 0.
Proof.
  intros H. apply list_eq_same_length with (Z.to_nat PGSIZE); [apply length_replicate|apply length_page_bytes|].
  intros j x y Hj Hx Hy. apply lookup_replicate in Hy as [-> _]. unfold page_bytes in Hx. rewrite list_lookup_fmap in Hx.
  rewrite lookup_seq_lt in Hx by done. cbn in Hx. injection Hx as <-. apply H. lia.
Qed.
Lemma lookup_page_bytes m n (j : nat) : (j < Z.to_nat PGSIZE)%nat -> page_bytes m n !! j = Some (m (n * PGSIZE + Z.of_nat j)).
Proof. intros H. unfold page_bytes. rewrite list_lookup_fmap, lookup_seq_lt by done. done. Qed.

Lemma over_in m a x b : a <= b < a + Z.of_nat (length x) -> x !! Z.to_nat (b - a) = Some (over m a x b).
Proof.
  intros H. unfold over. rewrite decide_True by done. destruct (lookup_lt_is_Some_2 x (Z.to_nat (b - a))) as [y Hy]; [lia|]. by rewrite Hy.
Qed.
Lemma over_out m a x b : ~ a <= b < a + Z.of_nat (length x) -> over m a x b = m b.
Proof. intros H. unfold over. by rewrite decide_False. Qed.
Lemma over_u8 m a x : (forall b, is_u8 (m b)) -> Forall is_u8 x -> forall b, is_u8 (over m a x b).
Proof.
  intros Hm Hx b. destruct (decide (a <= b < a + Z.of_nat (length x))) as [H|H]; [|by rewrite over_out].
  eapply Forall_lookup_1; [exact Hx|by apply over_in].
Qed.

(** Bytes stored inside a page. *)
Lemma splice_page m n (o : nat) x : (o + length x <= Z.to_nat PGSIZE)%nat ->
  splice o x (page_bytes m n) = page_bytes (over m (n * PGSIZE + Z.of_nat o) x) n.
Proof.
  intros Ho. apply list_eq_same_length with (Z.to_nat PGSIZE); [apply length_page_bytes|rewrite length_splice, length_page_bytes; (done || rewrite length_page_bytes; lia)|].
  intros j y z Hj Hy Hz. rewrite lookup_page_bytes in Hz by done. injection Hz as <-. rewrite lookup_splice in Hy by (rewrite length_page_bytes; lia).
  case_decide as Hin.
  - pose proof (over_in m (n * PGSIZE + Z.of_nat o) x (n * PGSIZE + Z.of_nat j) ltac:(lia)) as E.
    replace (Z.to_nat (n * PGSIZE + Z.of_nat j - (n * PGSIZE + Z.of_nat o))) with (j - o)%nat in E by lia. congruence.
  - rewrite over_out by lia. rewrite lookup_page_bytes in Hy by done. congruence.
Qed.

(** ** The address space under construction *)
Section space.
  Context (kend kdata : Z).
  Hypothesis Hkend : KERNBASE < kend.
  Hypothesis Hdata : kdata mod PGSIZE = 0 /\ KERNLINK < kdata < KERNBASE + PHYSTOP.
  Implicit Types (k : kst).

Lemma kmap_above x a : x ∈ kmap kdata -> k_first x <= a / PGSIZE -> 2 ^ 19 <= a / PGSIZE.
  Proof using Hdata.
    intros Hx Hr. destruct (kmap_ok kdata Hdata) as [Hok _]. rewrite Forall_forall in Hok. specialize (Hok _ Hx).
    destruct x as [[[virt ps] pe] perm]. destruct Hok as (K1 & _). unfold k_first in Hr.
    assert (2 ^ 19 <= virt / PGSIZE) by (apply Z.div_le_lower_bound; [done|unfold PGSIZE, KERNBASE in *; lia]). lia.
  Qed.

  (** The entry of a page of the program, or of the page below the stack. *)
Definition entry_for (g n v : Z) : Z := if decide (n = g) then Z.land (user_leaf v) (u32 (Z.lnot PTE_PP)) else user_leaf v.

  (** At page [n] there is a page with the bytes of [m]. *)
Definition page_at k d (g : Z) (m : Z -> Z) (n : Z) : Prop :=
    exists v, upage k d n = Some v /\ k_pages k !! v = Some (page_bytes m n) /\ pte_of k d (n * PGSIZE) = entry_for g n v.

  (** The directory [d] was made from the free pages [l0], of which [l] are
      left. Its first [N] pages are the memory [m], [g] not open to the user,
      and the kernel is mapped above. Pages outside [l0] are as in [P0]. *)
Record built (P0 : gmap Z (list Z)) (l0 : list Z) k (l : list Z) (d g N : Z) (m : Z -> Z) : Prop := {
    bu_raised : raised kend (set_pages P0 k) (fun v => v ∈ l0) [] k l d;
    bu_n : 0 <= N <= 2 ^ 19;
    bu_low : forall n, 0 <= n < N -> page_at k d g m n;
    bu_high : forall n, N <= n < 2 ^ 19 -> upage k d n = None;
    bu_kern : forall x, x ∈ kmap kdata -> kmapped k d x;
    bu_zero : forall b, N * PGSIZE <= b -> m b = 0;
    bu_u8 : forall b, is_u8 (m b);
  }.

Lemma kquiet_self P0 k : kquiet (set_pages P0 k) k.
  Proof. split_and!; [done|done|by left]. Qed.
Lemma raised_from P0 s0 O lost k l d : raised kend s0 O lost k l d -> k_pages s0 = P0 -> raised kend (set_pages P0 k) O lost k l d.
  Proof. intros [R1 R2 R3 R4 R5 R6] <-. split; try done. apply kquiet_self. Qed.

Lemma raised_trans s0 O k l d k' l' :
    raised kend s0 O [] k l d -> raised kend k (fun v => v ∈ l \/ owned k d v) [] k' l' d -> raised kend s0 O [] k' l' d.
  Proof.
    intros [R1 R2 R3 R4 R5 R6] [S1 S2 S3 S4 S5 S6]. split; try done.
    - intros v. rewrite R2, <- S2, elem_of_nil. tauto.
    - intros v Hv. rewrite S4; [by apply R4|]. intros H. apply Hv, R2. tauto.
    - intros v Hv. by apply S5, R5.
    - by etransitivity.
  Qed.

  (** Only the pages matter. *)
Lemma built_pages P0 l0 k k' l d g N m :
    built P0 l0 k l d g N m -> k_pages k' = k_pages k -> kmem_ok k' l -> built P0 l0 k' l d g N m.
  Proof.
    intros [[R1 R2 R3 R4 R5 R6] B2 B3 B4 B5 B6 B7] Hp Hk. destruct (pages_same k k' d Hp) as (Ep & Eu & Eo).
    split; try done.
    - split; [by eapply (space_ok_pages kend k)|intros v; by rewrite R2, Eo|by intros v []%elem_of_nil| | |apply kquiet_self].
      + intros v Hv. rewrite Hp. by apply R4.
      + intros v Hv. rewrite Hp. by apply R5.
    - intros n Hn. destruct (B3 n Hn) as (v & V1 & V2 & V3). exists v. by rewrite Eu, Hp, Ep.
    - intros n Hn. by rewrite Eu, B4.
    - intros [[[virt ps] pe] perm] Hx a Ha Hr. rewrite Ep. by apply (B5 _ Hx).
  Qed.

  (** *** Bytes stored in a page of the program *)
Lemma built_store P0 l0 k l d g N m n (o : nat) x :
    built P0 l0 k l d g N m -> 0 <= n < N -> (o < Z.to_nat PGSIZE)%nat -> (o + length x <= Z.to_nat PGSIZE)%nat -> Forall is_u8 x ->
    exists v k', upage k d n = Some v /\ store_bytes (v + Z.of_nat o) x k = Ok tt k' /\
      built P0 l0 k' l d g N (over m (n * PGSIZE + Z.of_nat o) x) /\ kquiet k k'.
  Proof.
    intros [[R1 R2 R3 R4 R5 R6] B2 B3 B4 B5 B6 B7] Hn Ho' Ho Hx. destruct (B3 n Hn) as (v & V1 & V2 & V3).
    destruct (us_page _ _ _ _ _ _ (so_user _ _ _ _ R1) n v ltac:(lia) V1) as (Hf & _ & Hvl & Hvp).
    set (m' := over m (n * PGSIZE + Z.of_nat o) x). set (k' := set_pages (<[v := page_bytes m' n]> (k_pages k)) k).
    assert (Hm' : forall b, is_u8 (m' b)) by (by apply over_u8).
    exists v, k'. split_and!; [done| | |apply kquiet_pages].
    - assert (Ea : page_of (v + Z.of_nat o) = v /\ page_off (v + Z.of_nat o) = o).
      { unfold page_of, page_off. destruct Hf as (Hm0 & _).
        rewrite Z.add_mod, Hm0, Z.add_0_l, Z.mod_mod, Z.mod_small by (unfold PGSIZE in *; lia). split; lia. }
      unfold store_bytes. erewrite bind_ok by reflexivity. destruct Ea as [-> ->]. rewrite V2. erewrite bind_ok by reflexivity.
      rewrite length_page_bytes, decide_True by done. unfold modify, k', m'. by rewrite splice_page.
    - assert (Hh : heap_ok kend k' l).
      { apply heap_set; [eapply heap_of_pt; apply R1|done|apply length_page_bytes|]. apply Forall_forall. intros y Hy.
        apply list_elem_of_fmap in Hy as (j & -> & _). apply Hm'. }
      assert (Hne : forall w, w <> v -> k_pages k' !! w = k_pages k !! w) by (intros w Hw; cbn; by rewrite lookup_insert_ne).
      destruct (space_kept kend k k' d l l R1 Hh) as (S1 & S2 & S3).
      { intros y Hy Hy'. by eapply owned_not_free. }
      { intros w Hw. apply Hne. by intros ->. }
      { intros j w Hj Hw. destruct (decide (w = v)) as [->|Hwv]; [cbn; by rewrite lookup_insert_eq|]. rewrite Hne by done.
        apply (us_page _ _ _ _ _ _ (so_user _ _ _ _ R1) j w Hj Hw). }
      assert (Eu : forall j, upage k' d j = upage k d j) by (intros j; unfold upage; by rewrite S2).
      assert (Hv0 : v ∈ l0) by (apply R2; right; left; right; exists n; split; [lia|done]).
      split; try done.
      + split; [done|intros w; by rewrite R2, S3|by intros w []%elem_of_nil| | |apply kquiet_self].
        * intros w Hw. rewrite Hne by congruence. by apply R4.
        * intros w Hw. destruct (decide (w = v)) as [->|Hwv]; [cbn; by rewrite lookup_insert_eq|]. rewrite Hne by done. by apply R5.
      + intros j Hj. destruct (B3 j Hj) as (w & W1 & W2 & W3). exists w. rewrite Eu, S2. split_and!; [done| |done].
        destruct (decide (j = n)) as [->|Hjn]; [assert (w = v) as -> by congruence; cbn; by rewrite lookup_insert_eq|].
        assert (Hwv : w <> v).
        { intros ->. apply Hjn. apply (us_inj _ _ _ _ _ _ (so_user _ _ _ _ R1) j n v); (lia || done). }
        rewrite Hne, W2 by done. f_equal. apply page_bytes_ext. intros b Hb. unfold m'. rewrite over_out; [done|].
        unfold PGSIZE in *. lia.
      + intros j Hj. by rewrite Eu, B4.
      + intros [[[virt ps] pe] perm] Hy a Ha Hr. rewrite S2. by apply (B5 _ Hy).
      + intros b Hb. unfold m'. rewrite over_out; [by apply B6|]. unfold PGSIZE in *. lia.
  Qed.

  (** *** allocuvm *)
Lemma built_alloc P0 l0 k l d g m sz newsz :
    built P0 l0 k l d g (pages_of sz) m -> 0 <= sz <= newsz -> newsz < KERNBASE -> ~ pages_of sz <= g < pages_of newsz ->
    2 * (pages_of newsz - pages_of sz) <= Z.of_nat (length l) ->
    exists k' l', allocuvm kend d sz newsz k = Ok newsz k' /\ built P0 l0 k' l' d g (pages_of newsz) m /\ kquiet k k' /\
      Z.of_nat (length l) <= Z.of_nat (length l') + 2 * (pages_of newsz - pages_of sz).
  Proof using Hkend Hdata.
    intros [B1 B2 B3 B4 B5 B6 B7] Hsz Hk Hg Hl. pose proof (allocuvm_spec kend Hkend k l d sz newsz (ra_space _ _ _ _ _ _ _ B1) ltac:(lia) B4) as Ha.
    rewrite decide_False, decide_False in Ha by lia. pose proof (pages_of_mono sz newsz ltac:(lia)) as Hm.
    pose proof (pages_of_mono newsz KERNBASE ltac:(lia)) as HB. change (pages_of KERNBASE) with (2 ^ 19) in HB.
    destruct Ha as (r & k' & l' & lost & E & [(-> & R & [(-> & Hl' & [G1 G2 G3 G4])|(_ & _ & ? & _)])|(_ & _ & ? & _)]); [|lia..].
    exists k', l'. split_and!; [done| |apply R|done]. split; try done; [|lia| | | |].
    - eapply raised_from; [by eapply raised_trans|]. done.
    - intros n Hn. destruct (decide (n < pages_of sz)) as [Hlt|Hge].
      + destruct (B3 n ltac:(lia)) as (v & V1 & V2 & V3). destruct (G3 n v ltac:(lia) V1) as [D1 D2].
        exists v. rewrite G2, D1, D2 by lia. done.
      + destruct (G1 n ltac:(lia)) as (v & V1 & V2 & V3). exists v. split_and!; [done| |].
        * rewrite V2. f_equal. symmetry. apply page_bytes_zero. intros b Hb. apply B6. unfold PGSIZE in *. lia.
        * rewrite V3. unfold entry_for. by rewrite decide_False by lia.
    - intros n Hn. rewrite G2 by lia. apply B4. lia.
    - intros [[[virt ps] pe] perm] Hx a Ha Hr. rewrite G4; [by apply (B5 _ Hx)|done|].
      by apply (kmap_above _ a Hx), Hr.
    - intros b Hb. apply B6. unfold PGSIZE in *. lia.
  Qed.

  (** *** clearpteu *)
Lemma aligned_land pa b : is_u32 pa -> pa mod PGSIZE = 0 -> Z.land pa b = Z.land pa (Z.land (u32 (Z.lnot 0xFFF)) b).
  Proof. intros Hu Hm. rewrite Z.land_assoc, mask_page by done. by rewrite Hm, Z.sub_0_r. Qed.

Lemma user_leaf_facts v : freeable kend v ->
    is_u32 (user_leaf v) /\ PTE_ADDR (user_leaf v) = v2p v /\ Flag.has (user_leaf v) PTE_V = true /\ user_ok (user_leaf v) = true /\
    let e := Z.land (user_leaf v) (u32 (Z.lnot PTE_PP)) in
    is_u32 e /\ PTE_ADDR e = v2p v /\ Flag.has e PTE_V = true /\ user_ok e = false.
  Proof.
    intros Hf. assert (Hu : is_u32 (v2p v)) by apply u32_range. assert (Hm : v2p v mod PGSIZE = 0) by (apply v2p_aligned, Hf).
    assert (El : user_leaf v = Z.lor (v2p v) 0x39) by (unfold user_leaf, leaf; by rewrite <- !Z.lor_assoc).
    assert (Ee : Z.land (user_leaf v) (u32 (Z.lnot PTE_PP)) = Z.lor (v2p v) 9).
    { rewrite El, Z.land_lor_distr_l, (aligned_land _ (u32 _) Hu Hm). change (Z.land (u32 (Z.lnot 4095)) _) with (u32 (Z.lnot 0xFFF)).
      rewrite mask_page, Hm, Z.sub_0_r by done. done. }
    assert (Hb : forall f b, 0 <= f < PGSIZE -> Z.land (u32 (Z.lnot 0xFFF)) b = 0 -> Z.land (Z.lor (v2p v) f) b = Z.land f b).
    { intros f b Hf' Hb. by rewrite Z.land_lor_distr_l, (aligned_land _ b Hu Hm), Hb, Z.land_0_r. }
    cbv zeta. rewrite Ee, El. unfold user_ok, Flag.has. rewrite !Hb by (done || (unfold PGSIZE; lia)).
    rewrite !entry_addr by (done || (unfold PGSIZE; lia)). rewrite !entry_or by (done || (unfold PGSIZE; lia)).
    split_and!; try done; apply entry_range; (done || (unfold PGSIZE; lia)).
  Qed.

Lemma entry_facts g n v : freeable kend v ->
    is_u32 (entry_for g n v) /\ PTE_ADDR (entry_for g n v) = v2p v /\ Flag.has (entry_for g n v) PTE_V = true /\
    user_ok (entry_for g n v) = negb (bool_decide (n = g)).
  Proof.
    intros Hf. destruct (user_leaf_facts v Hf) as (U1 & U2 & U3 & U4 & U5 & U6 & U7 & U8). unfold entry_for.
    destruct (decide (n = g)) as [->|Hne]; [by rewrite bool_decide_true|by rewrite bool_decide_false].
  Qed.

Lemma built_guard P0 l0 k l d N m g :
    built P0 l0 k l d (-1) N m -> 0 <= g < N ->
    exists k', clearpteu d (g * PGSIZE) k = Ok tt k' /\ built P0 l0 k' l d g N m /\ kquiet k k'.
  Proof.
    intros [[R1 R2 R3 R4 R5 R6] B2 B3 B4 B5 B6 B7] Hg. destruct (B3 g Hg) as (v & V1 & V2 & V3).
    assert (Hgu : is_u32 (g * PGSIZE)) by (apply page_u32; lia). pose proof (upage_dir _ _ _ _ V1) as HV.
    destruct (us_page _ _ _ _ _ _ (so_user _ _ _ _ R1) g v ltac:(lia) V1) as (Hf & _ & Hvl & Hvp).
    unfold entry_for in V3. rewrite decide_False in V3 by lia. destruct (user_leaf_facts v Hf) as (U1 & U2 & U3 & U4 & U5 & U6 & U7 & U8).
    set (e := Z.land (user_leaf v) (u32 (Z.lnot PTE_PP))) in *.
    destruct (walk_found kend k d l (g * PGSIZE) false (so_pt _ _ _ _ R1) HV) as (Ew & Hw0 & El).
    destruct (store_pte kend k d l (g * PGSIZE) e (so_pt _ _ _ _ R1) HV Hgu U5) as (Es & Hpt & Hdir & Hpte).
    set (t := table _) in *. set (k' := stored _ _ _ _) in *.
    exists k'. split_and!; [| |apply kquiet_pages].
    { unfold clearpteu. rewrite (bind_ok _ _ _ _ _ Ew). destruct (Z.eqb_spec (t + 4 * PTX (g * PGSIZE)) 0); [done|].
      rewrite (bind_ok _ _ _ _ _ El), V3. exact Es. }
    assert (Hpn : forall n, 0 <= n < 2 ^ 19 -> pte_of k' d (n * PGSIZE) = if decide (n = g) then e else pte_of k d (n * PGSIZE)).
    { intros n Hn. rewrite Hpte, !page_num by (apply page_u32; lia). done. }
    assert (Hu : forall n, 0 <= n < 2 ^ 19 -> upage k' d n = upage k d n).
    { intros n Hn. unfold upage. rewrite Hpn by done. case_decide as En; [|done]. subst n. rewrite V3, U3, U7. unfold table. by rewrite U2, U6. }
    assert (Hpp : forall w, pt_page k' d w <-> pt_page k d w) by (intros w; by apply pt_page_dir).
    assert (Ho : forall w, owned k' d w <-> owned k d w).
    { intros w. unfold owned. rewrite Hpp. split; (intros [?|(n & Hn & E)]; [by left|right; exists n; split; [done|]]); [by rewrite <- Hu|by rewrite Hu]. }
    assert (Ht : pt_page k d t) by (right; exists (PDX (g * PGSIZE)); split_and!; [apply PDX_range..|done|done]).
    assert (Hkp : forall w, w <> t -> k_pages k' !! w = k_pages k !! w) by (intros w Hw; cbn; by rewrite lookup_insert_ne).
    split; try done.
    - split; [split; [done|split|apply (so_dir _ _ _ _ R1)|]|intros w; by rewrite R2, Ho|by intros w []%elem_of_nil| | |apply kquiet_self].
      + intros n w Hn. rewrite Hu, Hpp by done. intros Hw. destruct (us_page _ _ _ _ _ _ (so_user _ _ _ _ R1) n w Hn Hw) as (F1 & F2 & F3 & F4).
        split_and!; try done. by apply is_Some_stored.
      + intros n n' w Hn Hn'. rewrite !Hu by done. by apply (us_inj _ _ _ _ _ _ (so_user _ _ _ _ R1)).
      + intros w (i & Hi & HVi & E). rewrite Hdir in HVi, E by done. apply (so_tabs _ _ _ _ R1). by exists i.
      + intros w Hw. rewrite Hkp; [by apply R4|]. intros ->. apply Hw, R2. right. left. by left.
      + intros w Hw. by apply is_Some_stored, R5.
    - intros n Hn. destruct (B3 n Hn) as (w & W1 & W2 & W3). exists w. rewrite Hu, Hpn by lia. split_and!; [done| |].
      + rewrite Hkp; [done|]. intros ->. destruct (us_page _ _ _ _ _ _ (so_user _ _ _ _ R1) n t ltac:(lia) W1) as (_ & _ & _ & ?). done.
      + unfold entry_for in *. destruct (decide (n = g)) as [->|Hne]; [|rewrite decide_False in W3 by lia; done].
        assert (w = v) as -> by congruence. done.
    - intros n Hn. rewrite Hu by lia. by apply B4.
    - intros [[[virt ps] pe] perm] Hx a Ha Hr. rewrite Hpte, page_num, decide_False by done || (pose proof (kmap_above _ a Hx (proj1 Hr)); lia).
      by apply (B5 _ Hx).
  Qed.

  (** *** uva2ka and copyout *)
Lemma uva2ka_found k d l a :
    pt_ok kend k d l -> Flag.has (word k d (PDX a)) PTE_V = true ->
    uva2ka d a k = Ok (if user_ok (pte_of k d a) then p2v (PTE_ADDR (pte_of k d a)) else 0) k.
  Proof.
    intros Hok HV. destruct (walk_found kend k d l a false Hok HV) as (Ew & _ & El). unfold uva2ka.
    rewrite (bind_ok _ _ _ _ _ Ew), (bind_ok _ _ _ _ _ El). unfold user_ok, Flag.has.
    by destruct (Z.land _ PTE_V =? 0), (Z.land _ PTE_PP_RWRD =? 0).
  Qed.

Lemma uva2ka_page P0 l0 k l d g N m n :
    built P0 l0 k l d g N m -> 0 <= n < N ->
    exists v, upage k d n = Some v /\ freeable kend v /\ uva2ka d (n * PGSIZE) k = Ok (if decide (n = g) then 0 else v) k.
  Proof.
    intros [[R1 _ _ _ _ _] B2 B3 _ _ _ _] Hn. destruct (B3 n Hn) as (v & V1 & V2 & V3). exists v.
    destruct (us_page _ _ _ _ _ _ (so_user _ _ _ _ R1) n v ltac:(lia) V1) as (Hf & _).
    destruct (entry_facts g n v Hf) as (_ & E2 & _ & E4). split_and!; [done|done|].
    rewrite (uva2ka_found k d l) by (apply R1 || by eapply upage_dir). rewrite V3, E2, E4.
    case_decide; [by rewrite bool_decide_true|rewrite bool_decide_false by done]. cbn [negb].
    rewrite p2v_v2p; [done|]. destruct Hf as (_ & ? & ? & _). unfold is_u32, KERNBASE in *. lia.
  Qed.

  (** One round of copyout's loop: [n] is the page, [o] the offset in it. *)
Lemma copyout_step P0 l0 k l d g N m n (o : nat) fuel buf len :
    built P0 l0 k l d g N m -> 0 <= n < N -> n <> g -> (o < Z.to_nat PGSIZE)%nat -> 0 < len -> length buf = Z.to_nat len -> Forall is_u8 buf ->
    let c := Z.min (PGSIZE - Z.of_nat o) len in
    exists k', copyout_from (S fuel) d (n * PGSIZE + Z.of_nat o) buf len k =
        copyout_from fuel d ((n + 1) * PGSIZE) (drop (Z.to_nat c) buf) (len - c) k' /\
      built P0 l0 k' l d g N (over m (n * PGSIZE + Z.of_nat o) (take (Z.to_nat c) buf)) /\ kquiet k k'.
  Proof.
    intros HB Hn Hng Ho Hlen Hbuf Hu8 c. destruct (uva2ka_page _ _ _ _ _ _ _ _ n HB Hn) as (v & V1 & Hf & Eu).
    rewrite decide_False in Eu by done. pose proof (bu_n _ _ _ _ _ _ _ _ HB) as HN.
    assert (Hva : is_u32 (n * PGSIZE + Z.of_nat o)) by (unfold is_u32, PGSIZE in *; lia).
    assert (Hpg : PGROUNDDOWN (n * PGSIZE + Z.of_nat o) = n * PGSIZE).
    { rewrite PGROUNDDOWN_eq, page_of_div by done. f_equal. symmetry. apply (Z.div_unique_pos _ _ _ (Z.of_nat o)); unfold PGSIZE in *; lia. }
    destruct (built_store _ _ _ _ _ _ _ _ n o (take (Z.to_nat c) buf) HB Hn Ho) as (v' & k' & V1' & Es & HB' & Hq).
    { rewrite length_take. unfold c, PGSIZE in *. lia. }
    { by apply Forall_take. }
    assert (v' = v) as -> by congruence. exists k'. split_and!; [|done|done]. cbn [copyout_from].
    destruct (Z.gtb_spec len 0); [|lia]. cbn [negb]. rewrite Hpg, (bind_ok _ _ _ _ _ Eu).
    destruct (Z.eqb_spec v 0) as [->|_]; [destruct Hf as (_ & ? & ? & _); unfold KERNBASE in *; lia|].
    replace (n * PGSIZE + Z.of_nat o - n * PGSIZE) with (Z.of_nat o) by lia.
    replace (if PGSIZE - Z.of_nat o >? len then len else PGSIZE - Z.of_nat o) with c
      by (unfold c; destruct (Z.gtb_spec (PGSIZE - Z.of_nat o) len); lia).
    rewrite (bind_ok _ _ _ _ _ Es). f_equal. rewrite u32_id by (unfold is_u32, PGSIZE in *; lia). lia.
  Qed.

  (** Inside one page that is open to the user. *)
Lemma copyout_in P0 l0 k l d g N m n (o : nat) x :
    built P0 l0 k l d g N m -> 0 <= n < N -> n <> g -> (0 < length x)%nat -> (o + length x <= Z.to_nat PGSIZE)%nat -> Forall is_u8 x ->
    let va := n * PGSIZE + Z.of_nat o in
    exists k', copyout d va x (Z.of_nat (length x)) k = Ok 0 k' /\ built P0 l0 k' l d g N (over m va x) /\ kquiet k k'.
  Proof.
    intros HB Hn Hng Hx Ho Hu8 va. unfold copyout. rewrite Nat2Z.id.
    destruct (copyout_step _ _ _ _ _ _ _ _ n o (length x) x (Z.of_nat (length x)) HB Hn Hng) as (k' & E & HB' & Hq); try (done || lia).
    replace (Z.min (PGSIZE - Z.of_nat o) (Z.of_nat (length x))) with (Z.of_nat (length x)) in * by (unfold PGSIZE in *; lia).
    rewrite Nat2Z.id, take_ge in HB' by done. exists k'. split_and!; [|done|done]. unfold va.
    rewrite E, Z.sub_diag. assert (exists f, length x = S f) as [f ->] by (exists (pred (length x)); lia). done.
  Qed.

  (** Running into the page that is not. *)
Lemma copyout_hits d g N (fuel : nat) : forall P0 l0 k l m va buf len,
    built P0 l0 k l d g N m -> 0 <= va -> va / PGSIZE <= g < N -> g * PGSIZE < va + len -> 0 < len -> len < Z.of_nat fuel -> length buf = Z.to_nat len -> Forall is_u8 buf ->
    exists k' m', copyout_from fuel d va buf len k = Ok (-1) k' /\ built P0 l0 k' l d g N m' /\ kquiet k k'.
  Proof.
    induction fuel as [|fuel IH]; intros P0 l0 k l m va buf len HB H0 Hg Hend Hlen Hfuel Hbuf Hu8; [lia|].
    pose proof (Z.div_mod va PGSIZE ltac:(done)) as Hdm. pose proof (Z.mod_pos_bound va PGSIZE ltac:(done)) as Hmb.
    pose proof (Z.div_pos va PGSIZE H0 ltac:(done)) as Hq0. pose proof (bu_n _ _ _ _ _ _ _ _ HB) as HN.
    destruct (decide (va / PGSIZE = g)) as [Eg|Hne].
    - destruct (uva2ka_page _ _ _ _ _ _ _ _ g HB ltac:(lia)) as (v & _ & _ & Eu). rewrite decide_True in Eu by done.
      exists k, m. split_and!; [|done|apply kquiet_refl]. cbn [copyout_from]. destruct (Z.gtb_spec len 0); [|lia]. cbn [negb].
      rewrite PGROUNDDOWN_eq, page_of_div, Eg by (unfold is_u32, PGSIZE in *; lia). by rewrite (bind_ok _ _ _ _ _ Eu).
    - set (n := va / PGSIZE) in *. set (o := Z.to_nat (va mod PGSIZE)).
      assert (Hc : Z.min (PGSIZE - Z.of_nat o) len = PGSIZE - Z.of_nat o) by (unfold o, PGSIZE in *; lia).
      destruct (copyout_step _ _ _ _ _ _ _ _ n o fuel buf len HB ltac:(lia) Hne ltac:(unfold o, PGSIZE in *; lia) Hlen Hbuf Hu8) as (k1 & E & HB1 & Hq1).
      rewrite Hc in *. assert (Hva : n * PGSIZE + Z.of_nat o = va) by (unfold o; lia). rewrite Hva in *.
      destruct (IH _ _ _ _ _ ((n + 1) * PGSIZE) (drop (Z.to_nat (PGSIZE - Z.of_nat o)) buf) (len - (PGSIZE - Z.of_nat o)) HB1) as (k' & m' & E' & HB' & Hq').
      + unfold PGSIZE; lia.
      + rewrite page_num. lia.
      + unfold o, PGSIZE in *; lia.
      + unfold o, PGSIZE in *; lia.
      + unfold o, PGSIZE in *; lia.
      + rewrite length_drop. unfold o, PGSIZE in *; lia.
      + by apply Forall_drop.
      + exists k', m'. split_and!; [by rewrite E|done|by etransitivity].
  Qed.

  (** At an address of the kernel's devices, where a stack pointer ends up
      that wraps around below 0. *)
Lemma copyout_top P0 l0 k l d g N m va buf len :
    built P0 l0 k l d g N m -> DEVSPACE <= va < 2 ^ 32 -> 0 < len -> copyout d va buf len k = Ok (-1) k.
  Proof.
    clear Hkend Hdata. intros HB Hva Hlen. unfold copyout. cbn [copyout_from]. destruct (Z.gtb_spec len 0); [|lia]. cbn [negb].
    assert (Hu : is_u32 va) by (unfold is_u32, DEVSPACE in *; lia). rewrite PGROUNDDOWN_eq by done. set (a := page_of va).
    assert (Ha : is_u32 a /\ 0xFE000 <= a / PGSIZE < 0x100000).
    { unfold a. rewrite page_of_div, page_num. pose proof (Z.div_le_mono DEVSPACE va PGSIZE ltac:(done) ltac:(lia)).
      pose proof (Z.div_lt_upper_bound va PGSIZE (2 ^ 20) ltac:(done) ltac:(unfold PGSIZE; lia)). change (DEVSPACE / PGSIZE) with 0xFE000 in *.
      unfold is_u32, PGSIZE in *. lia. }
    destruct HB as [[R1 _ _ _ _ _] _ _ _ B5 _ _].
    pose proof (B5 (DEVSPACE, DEVSPACE, 0, PTE_PP_RWXX) ltac:(unfold kmap; set_solver) a (proj1 Ha)) as Hpte.
    change (k_first (DEVSPACE, DEVSPACE, 0, PTE_PP_RWXX)) with 0xFE000 in Hpte. change (k_last (DEVSPACE, DEVSPACE, 0, PTE_PP_RWXX)) with 0xFFFFF in Hpte.
    specialize (Hpte ltac:(lia)). set (pa := u32 _) in Hpte.
    assert (Hpa : is_u32 pa /\ pa mod PGSIZE = 0).
    { split; [apply u32_range|]. apply aligned_u32. rewrite Z.add_mod, Z_mod_mult by done. done. }
    assert (HV : Flag.has (word k d (PDX a)) PTE_V = true).
    { destruct (Flag.has (word k d (PDX a)) PTE_V) eqn:E; [done|]. unfold pte_of in Hpte. rewrite E in Hpte.
      pose proof (valid_or (Z.lor pa PTE_PP_RWXX)) as Hv. unfold leaf in Hpte. rewrite <- Hpte in Hv. discriminate Hv. }
    assert (Hno : user_ok (leaf pa PTE_PP_RWXX) = false).
    { unfold user_ok, leaf. rewrite <- Z.lor_assoc. change (Z.lor PTE_PP_RWXX PTE_V) with 1. unfold Flag.has at 2.
      rewrite Z.land_lor_distr_l, (aligned_land _ PTE_PP_RWRD) by apply Hpa. change (Z.land (u32 (Z.lnot 4095)) PTE_PP_RWRD) with 0.
      rewrite Z.land_0_r. apply andb_false_r. }
    rewrite (bind_ok _ _ _ _ _ (uva2ka_found k d l a (so_pt _ _ _ _ R1) HV)), Hpte, Hno. done.
  Qed.

  (** *** Giving up: the pages are free again, the rest of the memory is as it was *)
Definition regained (P0 : gmap Z (list Z)) (l0 : list Z) (k : kst) : Prop :=
    exists l', heap_ok kend k l' /\ l' ≡ₚ l0 /\ forall v, v ∉ l0 -> k_pages k !! v = P0 !! v.

Lemma dir_not_null k l d : space_ok kend k d l -> d <> 0.
  Proof. intros [_ _ Hd _] ->. destruct Hd as (_ & _ & ? & _). unfold KERNBASE in *. lia. Qed.

  (** *** The new space in the place of the old one *)
Record installed (k0 : kst) (od : Z) (l0 : list Z) (k : kst) (d g N : Z) (m : Z -> Z) : Prop := {
    in_space : exists l, space_ok kend k d l /\ (forall v, v ∈ l0 \/ owned k0 od v <-> v ∈ l \/ owned k d v);
    in_low : forall n, 0 <= n < N -> page_at k d g m n;
    in_high : forall n, N <= n < 2 ^ 19 -> upage k d n = None;
    in_kern : forall x, x ∈ kmap kdata -> kmapped k d x;
    in_other : forall v, v ∉ l0 -> ~ owned k0 od v -> k_pages k !! v = k_pages k0 !! v;
  }.

Lemma free_old k0 od l0 k l d g N m :
    space_ok kend k0 od l0 -> built (k_pages k0) l0 k l d g N m ->
    exists k', freevm kend od k = Ok tt k' /\ kquiet k k' /\ installed k0 od l0 k' d g N m.
  Proof using Hkend.
    clear Hdata. intros Hold [[R1 R2 R3 R4 R5 R6] B2 B3 B4 B5 B6 B7].
    assert (Hdis : forall v, owned k0 od v -> v ∉ l0) by (intros v Hv; by eapply owned_not_free).
    destruct (space_elsewhere kend k0 k od l0 l Hold) as (Hold' & _ & Hown).
    { eapply heap_of_pt. apply R1. }
    { intros x Hx. apply R2. by left. }
    { intros v Hv. apply R4. by apply Hdis. }
    destruct (freevm_run kend Hkend k od l Hold') as (k' & fl & E & K & Q & F & Own & P & B). exists k'. split_and!; [done|done|].
    assert (Hd : forall v, owned k d v -> ~ owned k od v).
    { intros v H1 H2. apply Hown in H2. apply (Hdis v H2), R2. auto. }
    destruct (space_apart kend k k' d l (fl ++ l) R1) as (S1 & S2 & S3).
    { by split. }
    { intros x [Hx|Hx]%elem_of_app Ho; [by apply (Hd x Ho), Own|]. by apply (owned_not_free kend k d l x R1 Ho). }
    { intros v Hv. apply P. by apply Hd. }
    assert (Eu : forall n, upage k' d n = upage k d n) by (intros n; unfold upage; by rewrite S2).
    split.
    - exists (fl ++ l). split; [done|]. intros v. rewrite elem_of_app, Own, Hown, S3, R2, elem_of_nil. tauto.
    - intros n Hn. destruct (B3 n Hn) as (v & V1 & V2 & V3). exists v. rewrite Eu, S2. split_and!; [done| |done].
      rewrite P; [done|]. apply Hd. right. exists n. split; [lia|done].
    - intros n Hn. by rewrite Eu, B4.
    - intros [[[virt ps] pe] perm] Hx a Ha Hr. rewrite S2. by apply (B5 _ Hx).
    - intros v H1 H2. rewrite P by (by rewrite Hown). by apply R4.
  Qed.
End space.

(** ** The system while exec runs *)

(** What neither the file system nor the memory holds. *)
Definition aside {St} (s s' : sys St) : Prop :=
  ft_lock s' = ft_lock s /\ ft_files s' = ft_files s /\ y_pipes s' = y_pipes s /\ y_vars s' = y_vars s.
#[export] Instance aside_preorder {St} : PreOrder (@aside St).
Proof. split; [by intros ?|]. intros x y z (?&?&?&?) (?&?&?&?). unfold aside. intuition congruence. Qed.

Lemma kquiet_calm k k' : kquiet k k' -> calm (k_base k) (k_base k') /\ (base_ok (k_base k) -> base_ok (k_base k')).
Proof.
  intros (_ & _ & H). assert (Hb : k_base k' = k_base k \/ k_base k' = Base (quiet (b_cpu (k_base k))) (b_lock (k_base k)) (b_procs (k_base k))).
  { destruct H as [H|H]; [by left|]. rewrite H. unfold relocked. destruct (_ =? 0); [by left|by right]. }
  by destruct Hb as [->| ->].
Qed.

Section load.
  Context {St : Type} {LO : LogOps St} {TL : TransLaws St} (devsw : Z -> @devops St) (cap : nat) (kend kdata : Z).
  Hypothesis Hkend : KERNBASE < kend.
  Hypothesis Hdata : kdata mod PGSIZE = 0 /\ KERNLINK < kdata < KERNBASE + PHYSTOP.
  Implicit Types (s : sys St).

  (** Since [t0] only the scheduling state of processes, the inodes [Is] and
      the memory have changed. *)
Record during (t0 : sys St) (V : Z -> list Z) (Is : list inode) s : Prop := {
    du_idle : idle cap s V;
    du_home : home s = home t0;
    du_ino : ic_inodes (y_fs s) = Is;
    du_calm : calm (y_base t0) (y_base s);
    du_aside : aside t0 s;
  }.

Lemma idle_fs s s' V : y_fs s' = y_fs s -> idle cap s V -> idle cap s' V /\ home s' = home s.
  Proof. intros E H. unfold idle, home. by rewrite E. Qed.

  (** A call on the memory. *)
Lemma during_kst {A} t0 V Is s (c : M kst A) a k :
    during t0 V Is s -> c (y_kst s) = Ok a k -> kquiet (y_kst s) k ->
    on_kst c s = Ok a (set_kst k s) /\ during t0 V Is (set_kst k s) /\ y_kst (set_kst k s) = k.
  Proof.
    intros [D1 D2 D3 D4 D5] E Hq. destruct (kquiet_calm _ _ Hq) as [Hc Hb]. specialize (Hb (idle_ok cap s V D1)).
    destruct (idle_base cap s V (k_base k) D1 Hb) as [I1 I2].
    split_and!; [by apply on_kst_ok| |apply y_kst_set]. split; [exact I1|unfold home in *; exact (eq_trans I2 D2)|done| |].
    - rewrite y_base_kst. by transitivity (y_base s).
    - by transitivity s.
  Qed.

  (** A call on the file system. *)
Lemma during_fs {A} t0 V Is Is' s (c : M (fs St) A) (Q : A -> Prop) :
    during t0 V Is s ->
    wp c (fun a t => Q a /\ fs_rel (LL := tl_read cap) t V ∅ [] /\ fs_stay (LL := tl_read cap) (y_fs s) t /\ ic_inodes t = Is') (y_fs s) ->
    exists a s', on_fs c s = Ok a s' /\ Q a /\ during t0 V Is' s' /\ y_mem s' = y_mem s.
  Proof.
    intros [D1 D2 D3 D4 D5] Hw. eapply wp_outcome, wp_on_fs; [exact Hw|]. intros a t (HQ & R & (Hh & _ & Hc) & HI).
    split_and!; [done| |done]. split; [done| |done|by transitivity (y_base s)|by transitivity s].
    rewrite <- D2. unfold home. rewrite !(tl_home cap). exact Hh.
  Qed.

Lemma built_mem t0 V Is P0 l0 s s' l d g N m :
    built kend kdata P0 l0 (y_kst s) l d g N m -> y_mem s' = y_mem s -> during t0 V Is s' -> built kend kdata P0 l0 (y_kst s') l d g N m.
  Proof.
    intros HB Hm [D1 _ _ _ _]. eapply built_pages; [exact HB|unfold y_kst; by rewrite Hm|].
    apply (kmem_ok_mem s); [done|apply (idle_ok cap s' V D1)|]. apply (po_kmem _ _ _ _ (so_pt _ _ _ _ (ra_space _ _ _ _ _ _ _ (bu_raised _ _ _ _ _ _ _ _ _ _ HB)))).
  Qed.

Lemma built_ext P0 l0 k l d g N m m' : built kend kdata P0 l0 k l d g N m -> (forall b, m b = m' b) -> built kend kdata P0 l0 k l d g N m'.
  Proof.
    intros [B1 B2 B3 B4 B5 B6 B7] E. split; try done.
    - intros n Hn. destruct (B3 n Hn) as (v & V1 & V2 & V3). exists v. split_and!; [done| |done].
      rewrite V2. f_equal. by apply page_bytes_ext.
    - intros b Hb. rewrite <- E. by apply B6.
    - intros b. rewrite <- E. apply B7.
  Qed.

  (** *** Reading the program's file *)
Record prog_file (V : Z -> list Z) (ip : inode) (h : Z) : Prop := {
    pf_dev : i_dev ip = 1;
    pf_type : i_type ip <> T_DEV;
    pf_map : mapped V ip h (i_size ip);
    pf_size : 0 <= i_size ip;
    pf_bytes : forall b, Forall is_u8 (V b);
  }.
Definition file_read (V : Z -> list Z) (ip : inode) (off n : Z) : Z * list Z :=
    if off >? i_size ip then (-1, []) else let k := Z.min n (i_size ip - off) in (k, file_bytes V ip off (Z.to_nat k)).

Lemma file_byte_u8 V ip k : (forall b, Forall is_u8 (V b)) -> is_u8 (file_byte V ip k).
  Proof.
    intros H. unfold file_byte. destruct (V _ !! _) as [x|] eqn:E; [|unfold is_u8; cbn; lia]. cbn. eapply Forall_lookup_1; [apply H|exact E].
  Qed.
Lemma file_bytes_u8 V ip off n : (forall b, Forall is_u8 (V b)) -> Forall is_u8 (file_bytes V ip off n).
  Proof. intros H. unfold file_bytes. apply Forall_forall. intros x (j & -> & _)%list_elem_of_fmap. by apply file_byte_u8. Qed.

Lemma readi_file t0 V Is s i ip off n :
    during t0 V Is s -> Is !! i = Some ip -> prog_file V ip (home t0) -> 0 <= off -> 0 <= n < 2 ^ 31 ->
    exists s', on_fs (readi devsw i off n) s = Ok (file_read V ip off n) s' /\ during t0 V Is s' /\ y_mem s' = y_mem s.
  Proof.
    intros HD Hi [F1 F2 F3 F4 F5] Hoff Hn. pose proof (mp_max _ _ _ _ F3) as Hmax. change (MAXFILE * BSIZE) with 71680 in Hmax.
    pose proof HD as [D1 D2 D3 _ _]. rewrite <- D3 in Hi.
    destruct (during_fs t0 V Is Is s (readi devsw i off n) (fun a => a = file_read V ip off n) HD) as (a & s' & E & -> & HD' & Hm);
      [|by exists s'].
    unfold file_read. destruct (Z.gtb_spec off (i_size ip)) as [Hgt|Hle].
    - unfold readi. apply wp_bind. eapply wp_getip; [exact Hi|]. destruct (Z.eqb_spec (i_type ip) T_DEV); [done|].
      destruct (Z.gtb_spec off (i_size ip)); [|lia]. cbn [orb]. apply wp_ret. split_and!; [done|apply D1|reflexivity|done].
    - eapply wp_mono; [apply (readi_run (LL := tl_read cap) devsw (y_fs s) V [] i ip off n (D1 : fs_rel _ _ _ _) Hi F1 F2); try lia|].
      + rewrite <- D2 in F3. unfold home in F3. by rewrite (tl_home cap) in F3.
      + cbn. unfold NBUF. lia.
      + intros r t (-> & R & S & I). split_and!; try done. by rewrite I.
  Qed.

  (** *** loaduvm *)

  (** [m] with the [sz] bytes of the file from [off] on at [addr]. *)
Definition loaded (V : Z -> list Z) (ip : inode) (m : Z -> Z) (addr off sz b : Z) : Z :=
    if decide (addr <= b < addr + sz) then file_byte V ip (off + (b - addr)) else m b.

Lemma over_file V ip m addr off (n : nat) b : over m addr (file_bytes V ip off n) b = loaded V ip m addr off (Z.of_nat n) b.
  Proof.
    unfold over, loaded. rewrite length_file_bytes. case_decide; [|done]. unfold file_bytes.
    rewrite list_lookup_fmap, lookup_seq_lt by lia. cbn. f_equal. lia.
  Qed.

  (** One round of loaduvm's loop, at the page [A] of the program. *)
Lemma load_page t0 V Is P0 l0 s i ip l d g N m A off n :
    during t0 V Is s -> Is !! i = Some ip -> prog_file V ip (home t0) -> built kend kdata P0 l0 (y_kst s) l d g N m ->
    0 <= A < N -> 0 <= off -> 0 <= n <= PGSIZE ->
    let k := if off >? i_size ip then 0 else Z.min n (i_size ip - off) in
    exists pte e s', on_kst (walkpgdir d (A * PGSIZE) false) s = Ok pte s /\ pte <> 0 /\ on_kst (ldw pte) s = Ok e s /\
      (r <- on_fs (readi devsw i off n) ;; on_kst (store_bytes (p2v (PTE_ADDR e)) (snd r)) ;;; ret (fst r)) s = Ok (fst (file_read V ip off n)) s' /\
      during t0 V Is s' /\ built kend kdata P0 l0 (y_kst s') l d g N (loaded V ip m (A * PGSIZE) off k).
  Proof.
    intros HD Hi HF HB HA Hoff Hn k. pose proof HB as [[R1 _ _ _ _ _] B2 B3 _ _ _ _]. destruct (B3 A HA) as (v & V1 & V2 & V3).
    destruct (us_page _ _ _ _ _ _ (so_user _ _ _ _ R1) A v ltac:(lia) V1) as (Hf & _).
    destruct (walk_found kend (y_kst s) d l (A * PGSIZE) false (so_pt _ _ _ _ R1) (upage_dir _ _ _ _ V1)) as (Ew & Hw0 & El).
    set (pte := table _ + _) in *. exists pte, (entry_for g A v).
    assert (Hk : forall B (c : M kst B) b, c (y_kst s) = Ok b (y_kst s) -> on_kst c s = Ok b s).
    { intros B c b E. rewrite (on_kst_ok _ _ _ _ E). by rewrite set_kst_id. }
    destruct (readi_file t0 V Is s i ip off n HD Hi HF Hoff ltac:(unfold PGSIZE in *; lia)) as (s1 & Er & HD1 & Hm1).
    destruct (entry_facts kend g A v Hf) as (_ & Ea & _ & _).
    assert (Hp : p2v (PTE_ADDR (entry_for g A v)) = v + Z.of_nat 0).
    { rewrite Ea, p2v_v2p; [lia|]. destruct Hf as (_ & ? & ? & _). unfold is_u32, KERNBASE in *. lia. }
    pose proof (built_mem _ _ _ _ _ _ _ _ _ _ _ _ HB Hm1 HD1) as HB1.
    assert (Hsnd : snd (file_read V ip off n) = file_bytes V ip off (Z.to_nat k) /\ 0 <= k <= PGSIZE).
    { unfold file_read, k. destruct (Z.gtb_spec off (i_size ip)); cbn; split; try done; unfold PGSIZE in *; lia. }
    destruct Hsnd as [Hsnd Hk0].
    destruct (built_store _ _ _ _ _ _ _ _ _ _ A 0 (file_bytes V ip off (Z.to_nat k)) HB1 HA) as (v' & k' & V1' & Es & HB' & Hq);
      [unfold PGSIZE; lia|rewrite length_file_bytes; lia|apply file_bytes_u8, HF|].
    assert (upage (y_kst s1) d A = Some v) as V1s.
    { rewrite <- V1. apply (pages_same (y_kst s) (y_kst s1) d). unfold y_kst. by rewrite Hm1. }
    assert (v' = v) as -> by congruence.
    destruct (during_kst t0 V Is s1 _ tt k' HD1 Es Hq) as (Ek & HD' & Hy).
    exists (set_kst k' s1). split_and!; [by apply Hk|done|apply Hk; by rewrite V3 in El| |done|].
    - rewrite (bind_ok _ _ _ _ _ Er), Hp, Hsnd. by rewrite (bind_ok _ _ _ _ _ Ek).
    - rewrite Hy. eapply built_ext; [exact HB'|]. intros b. rewrite over_file, Z.add_0_r, Z2Nat.id by lia. done.
  Qed.

Lemma bind_then {S A B C} (X : M S A) (Y : A -> M S unit) (f : A -> B) (F : B -> M S C) t b t' :
    (r <- X ;; Y r ;;; ret (f r)) t = Ok b t' -> (r <- X ;; Y r ;;; F (f r)) t = F b t'.
  Proof.
    unfold bind. destruct (X t) as [a t1| | | |]; cbn; try done. destruct (Y a t1) as [[] t2| | | |]; cbn; try done. by intros [= -> ->].
  Qed.

Lemma load_run t0 V Is P0 l0 i ip l d g N A off sz (fuel : nat) :
    Is !! i = Some ip -> prog_file V ip (home t0) -> 0 <= A -> 0 <= sz -> A * PGSIZE + sz <= N * PGSIZE -> N <= 2 ^ 19 -> is_u32 off ->
    forall s m j, during t0 V Is s -> built kend kdata P0 l0 (y_kst s) l d g N m ->
    0 <= j -> j = 0 \/ off + j * PGSIZE <= i_size ip \/ sz <= j * PGSIZE -> pages_of sz - j < Z.of_nat fuel -> (0 < fuel)%nat ->
    exists s' m', load_from devsw fuel d (A * PGSIZE) i off (j * PGSIZE) sz s =
        Ok (if decide (sz <= j * PGSIZE \/ off + sz <= i_size ip) then 0 else -1) s' /\
      during t0 V Is s' /\ built kend kdata P0 l0 (y_kst s') l d g N m' /\
      (sz <= j * PGSIZE \/ off + sz <= i_size ip -> forall b, m' b =
         if decide (A * PGSIZE + j * PGSIZE <= b < A * PGSIZE + sz) then file_byte V ip (off + (b - A * PGSIZE)) else m b).
  Proof.
    intros Hi HF HA Hsz Hend HN Hoff. pose proof (mp_max _ _ _ _ (pf_map _ _ _ HF)) as Hmax. change (MAXFILE * BSIZE) with 71680 in Hmax.
    induction fuel as [|fuel IH]; intros s m j HD HB Hj Hfit Hfuel Hf0; [lia|]. cbn [load_from].
    destruct (Z.ltb_spec (j * PGSIZE) sz) as [Hin|Hout]; cbn [negb].
    2:{ exists s, m. rewrite decide_True by lia. split_and!; [done|done|done|]. intros _ b. by rewrite decide_False by lia. }
    assert (Hoj : u32 (off + j * PGSIZE) = off + j * PGSIZE) by (apply u32_id; unfold is_u32, PGSIZE in *; destruct Hfit as [->|[?|?]]; lia).
    assert (Haj : u32 (A * PGSIZE + j * PGSIZE) = (A + j) * PGSIZE) by (rewrite u32_id; unfold is_u32, PGSIZE in *; lia).
    assert (Hnx : u32 (j * PGSIZE + PGSIZE) = (j + 1) * PGSIZE) by (rewrite u32_id; unfold is_u32, PGSIZE in *; lia).
    assert (Hsj : u32 (sz - j * PGSIZE) = sz - j * PGSIZE) by (apply u32_id; unfold is_u32, PGSIZE in *; lia).
    rewrite Hoj, Haj, Hsj, Hnx. set (n := if sz - j * PGSIZE <? PGSIZE then sz - j * PGSIZE else PGSIZE).
    assert (Hn : n = Z.min (sz - j * PGSIZE) PGSIZE) by (unfold n; destruct (Z.ltb_spec (sz - j * PGSIZE) PGSIZE); lia).
    assert (Hoff0 : 0 <= off + j * PGSIZE) by (unfold is_u32, PGSIZE in *; lia).
    destruct (load_page t0 V Is P0 l0 s i ip l d g N m (A + j) (off + j * PGSIZE) n HD Hi HF HB ltac:(unfold PGSIZE in *; lia) Hoff0 ltac:(unfold PGSIZE in *; lia))
      as (pte & e & s1 & E1 & Hp0 & E2 & E3 & HD1 & HB1).
    rewrite (bind_ok _ _ _ _ _ E1). destruct (Z.eqb_spec pte 0); [done|]. rewrite (bind_ok _ _ _ _ _ E2). cbv zeta.
    pose proof (bind_then _ _ fst (fun z => if negb (u32 z =? n) then ret (-1) else load_from devsw fuel d (A * PGSIZE) i off ((j + 1) * PGSIZE) sz) _ _ _ E3) as Eb.
    cbv beta in Eb. rewrite Eb. clear Eb E3. set (k := if _ >? _ then _ else _) in HB1.
    assert (Hr : fst (file_read V ip (off + j * PGSIZE) n) = if off + j * PGSIZE >? i_size ip then -1 else k).
    { unfold file_read, k. by destruct (off + j * PGSIZE >? i_size ip). }
    rewrite Hr. destruct (decide (off + j * PGSIZE + n <= i_size ip)) as [Hok|Hbad].
    - assert (k = n) as Hk by (unfold k; destruct (Z.gtb_spec (off + j * PGSIZE) (i_size ip)); unfold PGSIZE in *; lia). rewrite Hk in *.
      destruct (Z.gtb_spec (off + j * PGSIZE) (i_size ip)); [unfold PGSIZE in *; lia|].
      assert (u32 n = n) as -> by (apply u32_id; unfold is_u32, PGSIZE in *; lia). rewrite Z.eqb_refl. cbn [negb].
      destruct (IH s1 _ (j + 1) HD1 HB1 ltac:(lia)) as (s' & m' & E & HD' & HB' & Hm').
      { destruct (decide (sz - j * PGSIZE < PGSIZE)); right; [right|left]; unfold PGSIZE in *; lia. }
      { lia. }
      { pose proof (pages_of_lt j sz). lia. }
      exists s', m'. assert (Hiff : (sz <= (j + 1) * PGSIZE \/ off + sz <= i_size ip) <-> (sz <= j * PGSIZE \/ off + sz <= i_size ip)) by (unfold PGSIZE in *; lia).
      split_and!; [|done|done|].
      + rewrite E. f_equal. by apply decide_ext.
      + intros Hfits b. rewrite Hm' by (by apply Hiff). unfold loaded. destruct (decide (A * PGSIZE + j * PGSIZE <= b < A * PGSIZE + sz)) as [Hb|Hb].
        * destruct (decide (A * PGSIZE + (j + 1) * PGSIZE <= b < A * PGSIZE + sz)); [done|]. rewrite decide_True by (unfold PGSIZE in *; lia). f_equal. unfold PGSIZE in *; lia.
        * rewrite !decide_False by (unfold PGSIZE in *; lia). done.
    - exists s1. eexists. split_and!; [|exact HD1|exact HB1|unfold PGSIZE in *; lia].
      rewrite decide_False by (unfold PGSIZE in *; lia).
      destruct (Z.eqb_spec (u32 (if off + j * PGSIZE >? i_size ip then -1 else k)) n) as [Hx|_]; [|done]. exfalso. revert Hx. unfold k.
      destruct (Z.gtb_spec (off + j * PGSIZE) (i_size ip)); [change (u32 (-1)) with 0xFFFFFFFF; unfold PGSIZE in *; lia|].
      rewrite u32_id; unfold is_u32, PGSIZE in *; lia.
  Qed.
End load.

(** ** What the program's file asks for *)
Section plan.
  Context (V : Z -> list Z) (ip : inode).

  (** The program header at [off], if the file is long enough. *)
Definition header_at (off : Z) : option proghdr :=
    if decide (off + PROGHDR_SIZE <= i_size ip) then Some (ph_decode (file_bytes V ip off (Z.to_nat PROGHDR_SIZE))) else None.

Definition seg_end (ph : proghdr) : Z := ph_vaddr ph + ph_memsz ph.

  (** A segment that can be loaded, and one for which nothing worse than a
      refusal happens: aligned, not past the end of the addresses, and with
      two of [room] pages for each page up to its end and of the stack. *)
Definition seg_fits (ph : proghdr) : Prop :=
    ph_filesz ph <= ph_memsz ph /\ seg_end ph < KERNBASE /\ (ph_filesz ph = 0 \/ ph_off ph + ph_filesz ph <= i_size ip).
#[export] Instance seg_fits_dec ph : Decision (seg_fits ph).
  Proof. unfold seg_fits. apply _. Defined.
Definition seg_safe (room : Z) (ph : proghdr) : Prop :=
    ph_type ph = ELF_PROG_LOAD -> ph_filesz ph <= ph_memsz ph ->
    ph_vaddr ph mod PGSIZE = 0 /\ seg_end ph < 2 ^ 32 /\ (seg_end ph < KERNBASE -> 2 * (pages_of (seg_end ph) + 2) <= room).

  (** The size and the contents of the memory after [n] headers from [off] on;
      [None] for a program that is refused. *)
Fixpoint plan (n : nat) (off sz : Z) (m : Z -> Z) : option (Z * (Z -> Z)) :=
    match n with
    | O => Some (sz, m)
    | S n =>
        match header_at off with
        | None => None
        | Some ph =>
            if negb (ph_type ph =? ELF_PROG_LOAD) then plan n (u32 (off + PROGHDR_SIZE)) sz m else
            let sz' := Z.max sz (seg_end ph) in
            if decide (seg_fits ph /\ sz' <> 0)
            then plan n (u32 (off + PROGHDR_SIZE)) sz' (loaded V ip m (ph_vaddr ph) (ph_off ph) (ph_filesz ph))
            else None
        end
    end.
Fixpoint safe (room : Z) (n : nat) (off : Z) : Prop :=
    match n with
    | O => True
    | S n => match header_at off with
             | None => True
             | Some ph => seg_safe room ph /\ safe room n (u32 (off + PROGHDR_SIZE))
             end
    end.
End plan.

Section segments.
  Context {St : Type} {LO : LogOps St} {TL : TransLaws St} (devsw : Z -> @devops St) (cap : nat) (kend kdata : Z).
  Hypothesis Hkend : KERNBASE < kend.
  Hypothesis Hdata : kdata mod PGSIZE = 0 /\ KERNLINK < kdata < KERNBASE + PHYSTOP.
  Implicit Types (s : sys St).

Lemma u32_add_s32 x y : u32 (s32 (x + y)) = u32 (u32 x + y).
  Proof. unfold u32, s32. rewrite Zminus_mod_idemp_l, Z.add_mod_idemp_l by done. f_equal. lia. Qed.

Lemma ph_range V ip off n : (forall b, Forall is_u8 (V b)) -> let ph := ph_decode (file_bytes V ip off n) in
    is_u32 (ph_off ph) /\ is_u32 (ph_vaddr ph) /\ is_u32 (ph_filesz ph) /\ is_u32 (ph_memsz ph).
  Proof. intros H. pose proof (file_bytes_u8 V ip off n H) as Hf. cbv zeta. cbn. split_and!; by apply get32_range. Qed.

  (** A segment's part of the loop, once its sizes have been compared. *)
Definition do_segment (i : nat) (d sz : Z) (ph : proghdr) : M (sys St) (option Z) :=
    sz <- on_kst (allocuvm kend d sz (u32 (ph_vaddr ph + ph_memsz ph))) ;;
    if sz =? 0 then ret None else
    r <- loaduvm devsw d (ph_vaddr ph) i (ph_off ph) (ph_filesz ph) ;;
    if r <? 0 then ret None else ret (Some sz).

  (** What is left after [sz] bytes have been allocated. *)
Definition left_of (room : Z) (l : list Z) (sz : Z) : Prop :=
    room <= Z.of_nat (length l) + 2 * pages_of sz /\ 2 * (pages_of sz + 2) <= room.

Lemma alloc_segment t0 V Is P0 l0 s l d sz m room ph :
    during cap t0 V Is s -> built kend kdata P0 l0 (y_kst s) l d (-1) (pages_of sz) m -> 0 <= sz < KERNBASE -> left_of room l sz ->
    0 <= seg_end ph < KERNBASE -> 2 * (pages_of (seg_end ph) + 2) <= room ->
    let sz' := Z.max sz (seg_end ph) in
    exists s' l', on_kst (allocuvm kend d sz (u32 (seg_end ph))) s = Ok sz' s' /\ during cap t0 V Is s' /\
      built kend kdata P0 l0 (y_kst s') l' d (-1) (pages_of sz') m /\ left_of room l' sz'.
  Proof using Hkend Hdata.
    intros HD HB Hsz Hroom Hend Hneed sz'. rewrite u32_id by (unfold is_u32, KERNBASE in *; lia). unfold left_of in *.
    pose proof (pages_of_mono 0 sz ltac:(lia)) as H0. change (pages_of 0) with 0 in H0.
    destruct (decide (seg_end ph < sz)) as [Hlt|Hge].
    - assert (sz' = sz) as -> by (unfold sz'; lia). exists s, l. split; [|split_and!; (done || lia)].
      erewrite on_kst_ok; [by rewrite set_kst_id|]. unfold allocuvm. destruct (Z.geb_spec (seg_end ph) KERNBASE); [lia|].
      by destruct (Z.ltb_spec (seg_end ph) sz); [|lia].
    - assert (sz' = seg_end ph) as -> by (unfold sz'; lia). pose proof (pages_of_mono sz (seg_end ph) ltac:(lia)) as Hm.
      destruct (built_alloc kend kdata Hkend Hdata P0 l0 (y_kst s) l d (-1) m sz (seg_end ph) HB) as (k' & l' & E & HB' & Hq & Hl); [lia|lia|lia|lia|].
      destruct (during_kst cap t0 V Is s _ _ k' HD E Hq) as (Ek & HD' & Hy).
      exists (set_kst k' s), l'. rewrite Hy. split_and!; (done || lia).
  Qed.

Lemma segment_run t0 V Is P0 l0 i ip s l d sz m room ph :
    Is !! i = Some ip -> prog_file V ip (home t0) ->
    during cap t0 V Is s -> built kend kdata P0 l0 (y_kst s) l d (-1) (pages_of sz) m -> 0 <= sz < KERNBASE -> left_of room l sz ->
    is_u32 (ph_off ph) -> is_u32 (ph_vaddr ph) -> is_u32 (ph_filesz ph) -> is_u32 (ph_memsz ph) ->
    ph_type ph = ELF_PROG_LOAD -> ph_filesz ph <= ph_memsz ph -> seg_safe room ph ->
    let sz' := Z.max sz (seg_end ph) in
    exists r s' l', do_segment i d sz ph s = Ok r s' /\ during cap t0 V Is s' /\
      if decide (seg_fits ip ph /\ sz' <> 0)
      then r = Some sz' /\ sz' < KERNBASE /\ left_of room l' sz' /\
        built kend kdata P0 l0 (y_kst s') l' d (-1) (pages_of sz') (loaded V ip m (ph_vaddr ph) (ph_off ph) (ph_filesz ph))
      else r = None /\ exists N' m', built kend kdata P0 l0 (y_kst s') l' d (-1) N' m'.
  Proof using Hkend Hdata.
    intros Hi HF HD HB Hsz Hroom Ho Hv Hfz Hmz Hty Hle Hsafe sz'. destruct (Hsafe Hty Hle) as (Hal & H32 & Hneed). unfold do_segment.
    fold (seg_end ph). assert (He0 : 0 <= seg_end ph) by (unfold seg_end, is_u32 in *; lia).
    destruct (decide (KERNBASE <= seg_end ph)) as [Hbig|Hbig].
    { exists None, s, l. rewrite decide_False by (unfold seg_fits; lia).
      assert (E : on_kst (allocuvm kend d sz (u32 (seg_end ph))) s = Ok 0 s).
      { erewrite on_kst_ok; [by rewrite set_kst_id|]. unfold allocuvm. rewrite u32_id by done. by destruct (Z.geb_spec (seg_end ph) KERNBASE); [|lia]. }
      rewrite (bind_ok _ _ _ _ _ E). split_and!; [done|done|done|]. by exists (pages_of sz), m. }
    destruct (alloc_segment t0 V Is P0 l0 s l d sz m room ph HD HB Hsz Hroom ltac:(lia) ltac:(apply Hneed; lia)) as (s1 & l1 & E1 & HD1 & HB1 & Hl1).
    rewrite (bind_ok _ _ _ _ _ E1). fold sz' in HB1, Hl1 |- *. destruct (Z.eqb_spec sz' 0) as [Hz|Hz].
    { exists None, s1, l1. rewrite decide_False by tauto. split_and!; [done|done|done|]. by exists (pages_of sz'), m. }
    assert (HA : ph_vaddr ph = ph_vaddr ph / PGSIZE * PGSIZE) by (pose proof (Z.div_mod (ph_vaddr ph) PGSIZE ltac:(done)); lia).
    set (A := ph_vaddr ph / PGSIZE) in *. unfold loaduvm. rewrite Hal. cbn [Z.eqb negb].
    assert (Hcov : sz' <= pages_of sz' * PGSIZE) by (pose proof (pages_of_lt (pages_of sz') sz'); lia).
    pose proof (pages_of_mono sz' KERNBASE ltac:(unfold sz'; lia)) as HK. change (pages_of KERNBASE) with (2 ^ 19) in HK.
    assert (Hfs : ph_filesz ph < KERNBASE) by (unfold seg_end, is_u32 in *; lia).
    pose proof (pages_of_mono (ph_filesz ph) KERNBASE ltac:(lia)) as HK2. change (pages_of KERNBASE) with (2 ^ 19) in HK2.
    destruct (load_run devsw cap kend kdata t0 V Is P0 l0 i ip l1 d (-1) (pages_of sz') A (ph_off ph) (ph_filesz ph) (Z.to_nat (2 ^ 20)) Hi HF
      ltac:(unfold is_u32, PGSIZE in *; lia) ltac:(unfold is_u32 in *; lia) ltac:(unfold sz', seg_end in *; lia) HK Ho s1 m 0 HD1 HB1
      ltac:(lia) ltac:(by left) ltac:(lia) ltac:(lia)) as (s' & m' & E & HD' & HB' & Hm').
    rewrite <- HA, Z.mul_0_l in *. rewrite (bind_ok _ _ _ _ _ E).
    destruct (decide (seg_fits ip ph /\ sz' <> 0)) as [[Hfits _]|Hno].
    - assert (Hc : ph_filesz ph <= 0 \/ ph_off ph + ph_filesz ph <= i_size ip) by (unfold seg_fits, is_u32 in *; lia).
      rewrite decide_True by done. exists (Some sz'), s', l1. split_and!; [done|done|done|unfold sz'; lia|done|].
      eapply built_ext; [exact HB'|]. intros b. rewrite (Hm' Hc). unfold loaded. by rewrite Z.add_0_r.
    - rewrite decide_False by (unfold seg_fits, is_u32 in *; lia). exists None, s', l1. split_and!; [done|done|done|]. by exists (pages_of sz'), m'.
  Qed.

Lemma segment_then {A} i d sz ph (f : Z -> M (sys St) (option A)) s o s' :
    do_segment i d sz ph s = Ok o s' ->
    (sz <- on_kst (allocuvm kend d sz (u32 (ph_vaddr ph + ph_memsz ph))) ;;
     if sz =? 0 then ret None else
     r <- loaduvm devsw d (ph_vaddr ph) i (ph_off ph) (ph_filesz ph) ;;
     if r <? 0 then ret None else f sz) s = match o with None => Ok None s' | Some sz => f sz s' end.
  Proof.
    unfold do_segment, bind. destruct (on_kst _ s) as [z s1| | | |]; cbn; try done. destruct (z =? 0); [by intros [= <- <-]|].
    destruct (loaduvm devsw d _ i _ _ s1) as [r s2| | | |]; cbn; try done. destruct (r <? 0); by intros [= <- <-].
  Qed.

Lemma segs_run t0 V Is P0 l0 i ip d room (n : nat) : 
    Is !! i = Some ip -> prog_file V ip (home t0) ->
    forall s l off sz m, during cap t0 V Is s -> built kend kdata P0 l0 (y_kst s) l d (-1) (pages_of sz) m ->
    0 <= sz < KERNBASE -> left_of room l sz -> safe V ip room n (u32 off) ->
    exists r s' l', load_segments devsw kend n i d off sz s = Ok r s' /\ during cap t0 V Is s' /\
      match plan V ip n (u32 off) sz m with
      | Some (sz', m') => r = Some sz' /\ 0 <= sz' < KERNBASE /\ left_of room l' sz' /\
          built kend kdata P0 l0 (y_kst s') l' d (-1) (pages_of sz') m'
      | None => r = None /\ exists N' m', built kend kdata P0 l0 (y_kst s') l' d (-1) N' m'
      end.
  Proof using Hkend Hdata.
    intros Hi HF. induction n as [|n IH]; intros s l off sz m HD HB Hsz Hl Hsafe; cbn [load_segments plan].
    { by exists (Some sz), s, l. }
    pose proof (u32_range off) as Hou. cbn [safe] in Hsafe.
    destruct (readi_file devsw cap t0 V Is s i ip (u32 off) PROGHDR_SIZE HD Hi HF) as (s1 & E1 & HD1 & Hm1); [apply Hou|by vm_compute|].
    rewrite (bind_ok _ _ _ _ _ E1). pose proof (built_mem _ _ _ _ _ _ _ _ _ _ _ _ _ _ _ HB Hm1 HD1) as HB1.
    unfold header_at in *. case_decide as Hin.
    2:{ exists None, s1, l. assert (Hx : (u32 (fst (file_read V ip (u32 off) PROGHDR_SIZE)) =? PROGHDR_SIZE) = false).
        { apply Z.eqb_neq. unfold file_read. destruct (Z.gtb_spec (u32 off) (i_size ip)); cbn [fst]; [done|].
          rewrite u32_id; unfold is_u32, PROGHDR_SIZE in *; lia. }
        rewrite Hx. cbn [negb]. split_and!; [done|done|done|]. by exists (pages_of sz), m. }
    assert (Hfr : file_read V ip (u32 off) PROGHDR_SIZE = (PROGHDR_SIZE, file_bytes V ip (u32 off) (Z.to_nat PROGHDR_SIZE))).
    { unfold file_read. destruct (Z.gtb_spec (u32 off) (i_size ip)); [unfold PROGHDR_SIZE in *; lia|]. by rewrite Z.min_l by lia. }
    rewrite Hfr. cbn [fst snd]. change (u32 PROGHDR_SIZE =? PROGHDR_SIZE) with true. cbn [negb].
    destruct (ph_range V ip (u32 off) (Z.to_nat PROGHDR_SIZE) (pf_bytes _ _ _ HF)) as (Q1 & Q2 & Q3 & Q4).
    set (ph := ph_decode _) in *. destruct Hsafe as [Hs1 Hs2]. rewrite <- u32_add_s32 in Hs2 |- *.
    destruct (Z.eqb_spec (ph_type ph) ELF_PROG_LOAD) as [Hty|_]; cbn [negb]; [|by apply (IH s1 l)].
    destruct (Z.ltb_spec (ph_memsz ph) (ph_filesz ph)) as [Hlt|Hge].
    { exists None, s1, l. rewrite decide_False by (unfold seg_fits; lia). split_and!; [done|done|done|]. by exists (pages_of sz), m. }
    destruct (segment_run t0 V Is P0 l0 i ip s1 l d sz m room ph Hi HF HD1 HB1 Hsz Hl Q1 Q2 Q3 Q4 Hty Hge Hs1) as (r & s2 & l2 & E2 & HD2 & H2).
    rewrite (segment_then _ _ _ _ _ _ _ _ E2). case_decide as Hfit.
    - destruct H2 as (-> & Hk & Hl2 & HB2). apply (IH s2 l2); try done. lia.
    - destruct H2 as (-> & Hex). by exists None, s2, l2.
  Qed.
End segments.

(** ** The arguments on the stack *)

(** The address of a string below [sp]: the strings' addresses, the lowest of
    them, and the memory with the strings. *)
Definition place (sp : Z) (a : list Z) : Z := (sp - (Z.of_nat (length a) + 1)) / 4 * 4.
Fixpoint arg_ptrs (sp : Z) (argv : list (list Z)) : list Z :=
  match argv with [] => [] | a :: argv => place sp a :: arg_ptrs (place sp a) argv end.
Fixpoint arg_low (sp : Z) (argv : list (list Z)) : Z :=
  match argv with [] => sp | a :: argv => arg_low (place sp a) argv end.
Fixpoint with_args (m : Z -> Z) (sp : Z) (argv : list (list Z)) : Z -> Z :=
  match argv with [] => m | a :: argv => with_args (over m (place sp a) (a ++ [0])) (place sp a) argv end.

Lemma place_below sp a : sp - Z.of_nat (length a) - 4 <= place sp a /\ place sp a + Z.of_nat (length a) + 1 <= sp /\ place sp a mod 4 = 0.
Proof.
  unfold place. rewrite Z_mod_mult. remember (sp - (Z.of_nat (length a) + 1)) as y eqn:Hy. pose proof (Z.div_mod y 4 ltac:(lia)). pose proof (Z.mod_pos_bound y 4 ltac:(lia)). lia.
Qed.
Lemma arg_low_le argv : forall sp, arg_low sp argv <= sp.
Proof.
  induction argv as [|a argv IH]; intros sp; cbn; [lia|]. specialize (IH (place sp a)). pose proof (place_below sp a). lia.
Qed.
Lemma length_arg_ptrs argv : forall sp, length (arg_ptrs sp argv) = length argv.
Proof. induction argv as [|a argv IH]; intros sp; cbn; [done|]. by rewrite IH. Qed.
Lemma arg_ptrs_ge argv : forall sp q, q ∈ arg_ptrs sp argv -> arg_low sp argv <= q < sp.
Proof.
  induction argv as [|a argv IH]; intros sp q; cbn; [by intros []%elem_of_nil|]. pose proof (place_below sp a). pose proof (arg_low_le argv (place sp a)).
  intros [->|Hq]%elem_of_cons; [lia|]. specialize (IH _ _ Hq). lia.
Qed.

(** Addresses outside the strings keep their contents; each string can be
    read back, with its terminating zero. *)
Lemma with_args_out argv : forall m sp b, b < arg_low sp argv \/ sp <= b -> with_args m sp argv b = m b.
Proof.
  induction argv as [|a argv IH]; intros m sp b Hb; cbn in *; [done|]. pose proof (place_below sp a). pose proof (arg_low_le argv (place sp a)).
  rewrite IH by lia. apply over_out. rewrite length_app. cbn. lia.
Qed.
Lemma with_args_read argv : forall m sp (k : nat) a p (j : nat) x,
  argv !! k = Some a -> arg_ptrs sp argv !! k = Some p -> (a ++ [0]) !! j = Some x -> with_args m sp argv (p + Z.of_nat j) = x.
Proof.
  induction argv as [|a0 argv IH]; intros m sp k a p j x Hk Hp Hj; [done|]. cbn [with_args arg_ptrs] in *. destruct k as [|k]; cbn in Hk, Hp.
  - injection Hk as ->. injection Hp as <-. rewrite with_args_out by lia. pose proof (lookup_lt_Some _ _ _ Hj) as Hlt.
    pose proof (over_in m (place sp a) (a ++ [0]) (place sp a + Z.of_nat j) ltac:(lia)) as Ho.
    replace (Z.to_nat (place sp a + Z.of_nat j - place sp a)) with j in Ho by lia. congruence.
  - by eapply IH.
Qed.
Lemma with_args_ext argv : forall m m' sp, (forall b, m b = m' b) -> forall b, with_args m sp argv b = with_args m' sp argv b.
Proof.
  induction argv as [|a argv IH]; intros m m' sp H b; cbn; [apply H|]. apply IH. intros c. unfold over. case_decide; [done|apply H].
Qed.
Lemma arg_low_mod argv : forall sp, sp mod 4 = 0 -> arg_low sp argv mod 4 = 0.
Proof. induction argv as [|a argv IH]; intros sp H; cbn; [done|]. apply IH, place_below. Qed.

(** The code's computation of the address, modulo 2^32. *)
Lemma mask4 x : is_u32 x -> Z.land x (u32 (Z.lnot 3)) = x - x mod 4.
Proof. by apply (mask_low 2). Qed.
Lemma place_code sp a : 0 <= sp < 2 ^ 32 -> Z.of_nat (length a) < 2 ^ 31 ->
  Z.land (u32 (sp - (Z.of_nat (length a) + 1))) (u32 (Z.lnot 3)) = if decide (0 <= place sp a) then place sp a else place sp a + 2 ^ 32.
Proof.
  intros Hsp Ha. rewrite mask4 by apply u32_range. unfold place, u32. set (y := sp - (Z.of_nat (length a) + 1)).
  assert (Hy : - 2 ^ 31 <= y < 2 ^ 32) by (unfold y; lia). clearbody y.
  pose proof (Z.div_mod y 4 ltac:(lia)) as Hdm. pose proof (Z.mod_pos_bound y 4 ltac:(lia)) as Hmb.
  case_decide as Hc.
  - rewrite Z.mod_small by lia. lia.
  - assert (y mod 2 ^ 32 = y + 2 ^ 32) as -> by (symmetry; apply (Z.mod_unique_pos _ _ (-1)); lia).
    replace ((y + 2 ^ 32) mod 4) with (y mod 4) by (change (2 ^ 32) with (2 ^ 30 * 4); by rewrite Z_mod_plus_full). lia.
Qed.

Section stack.
  Context {St : Type} {LO : LogOps St} {TL : TransLaws St} (cap : nat) (kend kdata : Z).
  Implicit Types (s : sys St).

  (** Strings that do not reach below the addresses of the devices. *)
Definition small_args (argv : list (list Z)) : Prop := Forall (fun a => Forall is_u8 a /\ Z.of_nat (length a) < 2 ^ 24) argv.

  (** One string; [G] is the page below the stack's. *)
Lemma push_one t0 V Is P0 l0 s l d G m sp a :
    during cap t0 V Is s -> built kend kdata P0 l0 (y_kst s) l d G (G + 2) m ->
    0 <= G -> (G + 1) * PGSIZE <= sp <= (G + 2) * PGSIZE -> G + 2 < 2 ^ 19 -> Forall is_u8 a -> Z.of_nat (length a) < 2 ^ 24 ->
    let len := Z.of_nat (length a) + 1 in
    exists s' m', on_kst (copyout d (Z.land (u32 (sp - len)) (u32 (Z.lnot 3))) (a ++ [0]) len) s =
        Ok (if decide ((G + 1) * PGSIZE <= place sp a) then 0 else -1) s' /\
      during cap t0 V Is s' /\ built kend kdata P0 l0 (y_kst s') l d G (G + 2) m' /\
      ((G + 1) * PGSIZE <= place sp a -> forall b, m' b = over m (place sp a) (a ++ [0]) b).
  Proof.
    intros HD HB HG Hsp HG2 Ha Hlen len. pose proof (place_below sp a) as (P1 & P2 & P3).
    assert (Hu8 : Forall is_u8 (a ++ [0])) by (apply Forall_app; split; [done|]; repeat constructor; unfold is_u8; lia).
    assert (Hl : length (a ++ [0]) = Z.to_nat len) by (rewrite length_app; cbn; lia).
    unfold len. rewrite place_code by (unfold PGSIZE in *; lia). fold len. destruct (decide ((G + 1) * PGSIZE <= place sp a)) as [Hin|Hout].
    - rewrite decide_True by (unfold PGSIZE in *; lia).
      destruct (copyout_in kend kdata P0 l0 (y_kst s) l d G (G + 2) m (G + 1) (Z.to_nat (place sp a - (G + 1) * PGSIZE)) (a ++ [0]) HB)
        as (k' & E & HB' & Hq); [lia|lia|rewrite Hl; lia|rewrite Hl; unfold PGSIZE in *; lia|done|].
      replace ((G + 1) * PGSIZE + Z.of_nat (Z.to_nat (place sp a - (G + 1) * PGSIZE))) with (place sp a) in * by lia.
      replace (Z.of_nat (length (a ++ [0]))) with len in E by (rewrite Hl; lia).
      destruct (during_kst cap t0 V Is s _ _ k' HD E Hq) as (Ek & HD' & Hy).
      exists (set_kst k' s), (over m (place sp a) (a ++ [0])). rewrite Hy. by split_and!.
    - destruct (decide (0 <= place sp a)) as [H0|H0].
      + destruct (copyout_hits kend kdata d G (G + 2) (S (Z.to_nat len)) P0 l0 (y_kst s) l m (place sp a) (a ++ [0]) len HB H0)
          as (k' & m' & E & HB' & Hq); try (done || lia).
        { split; [|lia]. assert (place sp a / PGSIZE < G + 1); [|lia]. apply Z.div_lt_upper_bound; [done|]. lia. }
        { unfold PGSIZE in *. lia. }
        destruct (during_kst cap t0 V Is s _ _ k' HD E Hq) as (Ek & HD' & Hy).
        exists (set_kst k' s), m'. rewrite Hy. by split_and!.
      + pose proof (copyout_top kend kdata P0 l0 (y_kst s) l d G (G + 2) m (place sp a + 2 ^ 32) (a ++ [0]) len HB) as E.
        specialize (E ltac:(unfold DEVSPACE, PGSIZE in *; lia) ltac:(lia)).
        exists s, m. split_and!; try done. erewrite on_kst_ok by exact E. by rewrite set_kst_id.
  Qed.

Definition args_fit (G : Z) (argc : nat) (sp : Z) (argv : list (list Z)) : Prop :=
    (argc + length argv <= MAXARG)%nat /\ (G + 1) * PGSIZE <= arg_low sp argv.

Lemma push_run t0 V Is P0 l0 l d G argv : 0 <= G -> G + 2 < 2 ^ 19 -> small_args argv ->
    forall s m sp argc ustack, during cap t0 V Is s -> built kend kdata P0 l0 (y_kst s) l d G (G + 2) m ->
    (G + 1) * PGSIZE <= sp <= (G + 2) * PGSIZE -> (argc <= MAXARG)%nat ->
    exists s' m', push_args argc d sp argv ustack s =
        Ok (if decide (args_fit G argc sp argv) then Some (arg_low sp argv, ustack ++ arg_ptrs sp argv) else None) s' /\
      during cap t0 V Is s' /\ built kend kdata P0 l0 (y_kst s') l d G (G + 2) m' /\
      (args_fit G argc sp argv -> forall b, m' b = with_args m sp argv b).
  Proof.
    intros HG HG2. induction argv as [|a argv IH]; intros Hsm s m sp argc ustack HD HB Hsp Hac; cbn [push_args].
    { exists s, m. unfold args_fit. cbn. rewrite decide_True, app_nil_r by lia. by split_and!. }
    apply Forall_cons in Hsm as [[Ha Hlen] Hsm]. pose proof (place_below sp a) as (P1 & P2 & _).
    destruct (Nat.leb_spec MAXARG argc) as [Hmax|Hmax].
    { exists s, m. rewrite decide_False by (unfold args_fit; cbn; lia). split_and!; try done. unfold args_fit. cbn. lia. }
    destruct (push_one t0 V Is P0 l0 s l d G m sp a HD HB HG Hsp HG2 Ha Hlen) as (s1 & m1 & E1 & HD1 & HB1 & Hm1).
    rewrite (bind_ok _ _ _ _ _ E1). rewrite place_code by (unfold PGSIZE in *; lia).
    pose proof (arg_low_le argv (place sp a)) as Hlow. destruct (decide ((G + 1) * PGSIZE <= place sp a)) as [Hin|Hout].
    - rewrite decide_True by (unfold PGSIZE in *; lia). change (0 <? 0) with false. cbv iota.
      destruct (IH Hsm s1 m1 (place sp a) (S argc) (ustack ++ [place sp a]) HD1 HB1 ltac:(lia) ltac:(lia)) as (s' & m' & E & HD' & HB' & Hm').
      assert (Hiff : args_fit G (S argc) (place sp a) argv <-> args_fit G argc sp (a :: argv)) by (unfold args_fit; cbn; lia).
      exists s', m'. split_and!; [|done|done|].
      + rewrite E. f_equal. destruct (decide (args_fit G (S argc) (place sp a) argv)) as [Hf|Hf].
        * rewrite decide_True by tauto. cbn. by rewrite <- app_assoc.
        * rewrite decide_False by tauto. done.
      + intros Hf b. rewrite Hm' by tauto. cbn. apply with_args_ext. by apply Hm1.
    - change (-1 <? 0) with true. cbv iota. exists s1, m1. rewrite decide_False by (unfold args_fit; cbn; lia).
      split_and!; try done. unfold args_fit. cbn. lia.
  Qed.
End stack.

(** ** The process while exec runs *)
Section launch.
  Context {St : Type} {LO : LogOps St} {TL : TransLaws St} (cap : nat) (kend kdata : Z).
  Hypothesis Hkend : KERNBASE < kend.
  Hypothesis Hdata : kdata mod PGSIZE = 0 /\ KERNLINK < kdata < KERNBASE + PHYSTOP.
  Implicit Types (s : sys St).

  (** Since [t0] the process [me] has become [p], up to its scheduling state;
      the memory and the register of the page table may have changed too. *)
Record after (t0 : sys St) (me : nat) (p : proc) (V : Z -> list Z) (Is : list inode) s : Prop := {
    af_idle : idle cap s V;
    af_home : home s = home t0;
    af_ino : ic_inodes (y_fs s) = Is;
    af_cpu : cpu_id (b_cpu (y_base s)) = cpu_id (b_cpu (y_base t0)) /\ ncli (b_cpu (y_base s)) = ncli (b_cpu (y_base t0));
    af_cur : cproc (b_cpu (y_base s)) = Some me /\ (me < length (b_procs (y_base t0)))%nat;
    af_procs : still <$> b_procs (y_base s) = <[me := still p]> (still <$> b_procs (y_base t0));
    af_files : ft_lock s = ft_lock t0 /\ ft_files s = ft_files t0 /\ y_pipes s = y_pipes t0;
  }.

Lemma after_during t0 me p V Is s : during cap t0 V Is s -> current me p t0 -> after t0 me p V Is s.
  Proof.
    intros [D1 D2 D3 (C1 & C2 & C3 & C4) (A1 & A2 & A3 & A4)] [H1 H2]. split; try done.
    - split; [congruence|]. by eapply lookup_lt_Some.
    - rewrite C4, list_insert_id; [done|]. by rewrite list_lookup_fmap, H2.
  Qed.
Lemma after_trans t0 me p V Is s s' : after t0 me p V Is s -> during cap s V Is s' -> after t0 me p V Is s'.
  Proof.
    intros [E1 E2 E3 [E4 E5] [E6 E7] E8 (E9 & E10 & E11)] [D1 D2 D3 (C1 & C2 & C3 & C4) (A1 & A2 & A3 & A4)].
    split; try done; [congruence|split; congruence|split; congruence|congruence|split_and!; congruence].
  Qed.
Lemma during_self V s : idle cap s V -> during cap s V (ic_inodes (y_fs s)) s.
  Proof. intros H. by split. Qed.

Lemma after_current t0 me p V Is s : after t0 me p V Is s -> exists q, current me q s /\ still q = still p.
  Proof.
    intros [_ _ _ _ [Hc Hlt] Hp _]. assert (Hl : (still <$> b_procs (y_base s)) !! me = Some (still p)).
    { rewrite Hp. apply list_lookup_insert_eq. by rewrite length_fmap. }
    rewrite list_lookup_fmap in Hl. destruct (b_procs (y_base s) !! me) as [q|] eqn:E; [|done]. apply (inj Some) in Hl.
    exists q. split; [by split|done].
  Qed.

  (** A change of the process that does not look at its scheduling state. *)
Definition blind (f : proc -> proc) : Prop := forall q, still (f q) = f (still q).

Lemma after_upd t0 me p V Is s f : after t0 me p V Is s -> blind f ->
    exists s', upd_cur f s = Ok tt s' /\ after t0 me (f p) V Is s' /\ y_mem s' = y_mem s /\ y_vars s' = y_vars s.
  Proof.
    intros Ha Hf. destruct (after_current _ _ _ _ _ _ Ha) as (q & Hcur & Hq). rewrite (upd_cur_run me q f s Hcur).
    destruct Ha as [E1 E2 E3 [E4 E5] [E6 E7] E8 E9]. eexists. split; [reflexivity|]. set (ps := <[me := f q]> _).
    destruct (idle_ok cap s V E1) as [O1 O2].
    destruct (idle_base cap s V (Base (b_cpu (y_base s)) (b_lock (y_base s)) ps) E1 ltac:(by split)) as [I1 I2].
    split_and!; [|done|done]. split; try done; [unfold home in *; exact (eq_trans I2 E2)|by rewrite y_base_procs|by rewrite y_base_procs|].
    rewrite y_base_procs. unfold ps. cbn [b_procs]. rewrite list_fmap_insert, E8, list_insert_insert_eq. f_equal. by rewrite Hf, Hq, <- Hf.
  Qed.

Lemma built_after t0 me p V Is P0 l0 s s' l d g N m :
    built kend kdata P0 l0 (y_kst s) l d g N m -> y_mem s' = y_mem s -> after t0 me p V Is s' -> built kend kdata P0 l0 (y_kst s') l d g N m.
  Proof. intros HB Hm Ha. apply (built_mem cap kend kdata s' V (ic_inodes (y_fs s')) P0 l0 s s'); [done|done|]. apply during_self, Ha. Qed.

  (** *** Giving up *)
Lemma after_kst {A} t0 me p V Is s (c : M kst A) a k :
    after t0 me p V Is s -> c (y_kst s) = Ok a k -> kquiet (y_kst s) k ->
    on_kst c s = Ok a (set_kst k s) /\ after t0 me p V Is (set_kst k s) /\ y_kst (set_kst k s) = k.
  Proof.
    intros Ha E Hq. destruct (during_kst cap s V _ s c a k (during_self V s (af_idle _ _ _ _ _ _ Ha)) E Hq) as (Ek & HD & Hy).
    split_and!; [done| |done]. eapply after_trans; [exact Ha|]. by rewrite (af_ino _ _ _ _ _ _ Ha) in HD.
  Qed.

Lemma free_during t0 V Is P0 l0 s l d g N m :
    during cap t0 V Is s -> built kend kdata P0 l0 (y_kst s) l d g N m -> NoDup l0 ->
    exists s', on_kst (freevm kend d) s = Ok tt s' /\ during cap t0 V Is s' /\ regained kend P0 l0 (y_kst s').
  Proof using Hkend.
    intros HD HB Hnd. destruct (free_raised kend Hkend (set_pages P0 (y_kst s)) l0 [] (y_kst s) l d) as (k' & l' & E & Hh & Hq & Hsame & Hperm);
      [apply HB|done|constructor|].
    destruct (during_kst cap t0 V Is s _ tt k' HD E) as (Ek & HD' & Hy).
    { destruct Hq as (Q1 & Q2 & Q3). split_and!; [done|done|]. unfold relocked in *. cbn in *. by destruct (m_use_lock (y_mem s) =? 0). }
    exists (set_kst k' s). rewrite Hy. split_and!; [done|done|]. by exists l'.
  Qed.

Lemma hand_back t0 me p V Is P0 l0 s l d g N m :
    after t0 me p V Is s -> built kend kdata P0 l0 (y_kst s) l d g N m -> NoDup l0 ->
    exists s', bad kend d None s = Ok (-1) s' /\ after t0 me p V Is s' /\ regained kend P0 l0 (y_kst s') /\ y_vars s' = y_vars s.
  Proof using Hkend.
    intros Ha HB Hnd. destruct (free_during s V _ P0 l0 s l d g N m (during_self V s (af_idle _ _ _ _ _ _ Ha)) HB Hnd) as (s' & E & HD' & Hr).
    rewrite (af_ino _ _ _ _ _ _ Ha) in HD'. pose proof (after_trans _ _ _ _ _ _ _ Ha HD') as Ha'. destruct (du_aside _ _ _ _ _ HD') as (_ & _ & _ & Hv).
    exists s'. split_and!; try done. unfold bad. pose proof (dir_not_null kend _ _ _ (ra_space _ _ _ _ _ _ _ (bu_raised _ _ _ _ _ _ _ _ _ _ HB))).
    destruct (Z.eqb_spec d 0); [done|]. cbn [negb]. by rewrite (bind_ok _ _ _ _ _ E).
  Qed.

  (** *** The switch to the new image *)
Definition commit (name : list Z) (d sz entry sp : Z) : M (sys St) Z :=
    upd_cur (copy_name name) ;;;
    p <- curproc ;;
    let oldpgdir := p_pgdir p in
    upd_cur (set_pgdir d) ;;;
    upd_cur (set_sz sz) ;;;
    upd_cur (fun p => set_tf (set_entry entry sp (p_tf p)) p) ;;;
    i <- cur ;;
    switchuvm i ;;;
    on_kst (freevm kend oldpgdir) ;;;
    ret 0.

Definition image_of (name : list Z) (d sz entry sp : Z) (p : proc) : proc :=
    set_tf (set_entry entry sp (p_tf p)) (set_sz sz (set_pgdir d (copy_name name p))).

Lemma after_switch t0 me p V Is s :
    after t0 me p V Is s -> p_pgdir p <> 0 ->
    exists s', switchuvm me s = Ok tt s' /\ after t0 me p V Is s' /\ y_mem s' = y_mem s /\ y_vars s' = set_pdt (v2p (p_pgdir p)) (y_vars s).
  Proof.
    intros Ha Hd. destruct (after_current _ _ _ _ _ _ Ha) as (q & [Hc Hp] & Hq).
    assert (Epg : p_pgdir q = p_pgdir p) by (exact (f_equal p_pgdir Hq)).
    pose proof (idle_ok cap s V (af_idle _ _ _ _ _ _ Ha)) as Hb.
    rewrite (switch_free me q s Hb Hp ltac:(by rewrite Epg)), Epg. eexists. split; [reflexivity|].
    set (b := with_cpu _ _). destruct (idle_base cap s V b (af_idle _ _ _ _ _ _ Ha)) as [I1 I2]; [destruct Hb; by split|].
    destruct Ha as [E1 E2 E3 [E4 E5] [E6 E7] E8 E9]. split_and!; [|done|done].
    assert (Hy : forall v, y_base (set_vars v (set_base b s)) = b) by (intros v; apply y_base_set).
    split; rewrite ?Hy; try done. unfold home in *. exact (eq_trans I2 E2).
  Qed.

Lemma install_run t0 me p V Is s l0 l d g N m name sz entry sp :
    after t0 me p V Is s -> space_ok kend (y_kst t0) (p_pgdir p) l0 ->
    built kend kdata (k_pages (y_kst t0)) l0 (y_kst s) l d g N m ->
    exists s', commit name d sz entry sp s = Ok 0 s' /\ after t0 me (image_of name d sz entry sp p) V Is s' /\
      installed kend kdata (y_kst t0) (p_pgdir p) l0 (y_kst s') d g N m /\ y_vars s' = set_pdt (v2p d) (y_vars s).
  Proof using Hkend.
    intros Ha Hold HB. unfold commit.
    destruct (after_upd t0 me p V Is s (copy_name name) Ha) as (s1 & E1 & Ha1 & M1 & W1); [by intros []|]. rewrite (bind_ok _ _ _ _ _ E1).
    destruct (after_current _ _ _ _ _ _ Ha1) as (q & Hcur & Hq). rewrite (bind_ok _ _ _ _ _ (curproc_run me q s1 Hcur)).
    assert (Epg : p_pgdir q = p_pgdir p) by (exact (f_equal p_pgdir Hq)). rewrite Epg. cbv zeta.
    destruct (after_upd _ _ _ _ _ _ (set_pgdir d) Ha1) as (s2 & E2 & Ha2 & M2 & W2); [by intros []|]. rewrite (bind_ok _ _ _ _ _ E2).
    destruct (after_upd _ _ _ _ _ _ (set_sz sz) Ha2) as (s3 & E3 & Ha3 & M3 & W3); [by intros []|]. rewrite (bind_ok _ _ _ _ _ E3).
    destruct (after_upd _ _ _ _ _ _ (fun p => set_tf (set_entry entry sp (p_tf p)) p) Ha3) as (s4 & E4 & Ha4 & M4 & W4); [by intros []|]. rewrite (bind_ok _ _ _ _ _ E4).
    destruct (after_current _ _ _ _ _ _ Ha4) as (q4 & Hcur4 & _). rewrite (bind_ok _ _ _ _ _ (cur_run me q4 s4 Hcur4)).
    destruct (after_switch _ _ _ _ _ _ Ha4) as (s5 & E5 & Ha5 & M5 & W5).
    { exact (dir_not_null kend _ _ _ (ra_space _ _ _ _ _ _ _ (bu_raised _ _ _ _ _ _ _ _ _ _ HB))). }
    rewrite (bind_ok _ _ _ _ _ E5).
    assert (HB5 : built kend kdata (k_pages (y_kst t0)) l0 (y_kst s5) l d g N m) by (eapply built_after; [exact HB|congruence|exact Ha5]).
    destruct (free_old kend kdata Hkend (y_kst t0) (p_pgdir p) l0 (y_kst s5) l d g N m Hold HB5) as (k' & E6 & Hq6 & Hin).
    destruct (after_kst _ _ _ _ _ s5 _ tt k' Ha5 E6 Hq6) as (E7 & Ha7 & Hy7). rewrite (bind_ok _ _ _ _ _ E7).
    exists (set_kst k' s5). rewrite Hy7. split_and!; [done|exact Ha7|done|]. cbn. rewrite W5. f_equal. congruence.
  Qed.

  (** *** The stack *)
Definition stack_top (G : Z) : Z := (G + 2) * PGSIZE.
Definition stack_sp (G : Z) (argv : list (list Z)) : Z := arg_low (stack_top G) argv - (Z.of_nat (length argv) + 1) * 4.
Definition stack_ok (G : Z) (argv : list (list Z)) : Prop :=
    stack_top G < KERNBASE /\ args_fit G 0 (stack_top G) argv /\ (G + 1) * PGSIZE <= stack_sp G argv.
Definition stack_mem (m : Z -> Z) (G : Z) (argv : list (list Z)) : Z -> Z :=
    over (with_args m (stack_top G) argv) (stack_sp G argv) (words (arg_ptrs (stack_top G) argv ++ [0])).
#[local] Instance stack_ok_dec G argv : Decision (stack_ok G argv).
  Proof. unfold stack_ok, args_fit. apply _. Defined.

Lemma pages_of_mul n : pages_of (n * PGSIZE) = n.
  Proof. unfold pages_of. symmetry. apply (Z.div_unique_pos _ _ _ 4095); unfold PGSIZE; lia. Qed.

Lemma words_u8 l : Forall is_u8 (words l).
  Proof. induction l as [|x l IH]; [constructor|]. change (words (x :: l)) with (be32 x ++ words l). apply Forall_app. split; [apply be32_u8|done]. Qed.

  (** The array of pointers. *)
Lemma push_array t0 me p V Is P0 l0 s l d G m argv :
    after t0 me p V Is s -> built kend kdata P0 l0 (y_kst s) l d G (G + 2) m -> 0 <= G -> args_fit G 0 (stack_top G) argv ->
    exists s' m', on_kst (copyout d (u32 (stack_sp G argv)) (words (arg_ptrs (stack_top G) argv ++ [0])) ((Z.of_nat (length argv) + 1) * 4)) s =
        Ok (if decide ((G + 1) * PGSIZE <= stack_sp G argv) then 0 else -1) s' /\
      after t0 me p V Is s' /\ y_vars s' = y_vars s /\ built kend kdata P0 l0 (y_kst s') l d G (G + 2) m' /\
      ((G + 1) * PGSIZE <= stack_sp G argv -> forall b, m' b = over m (stack_sp G argv) (words (arg_ptrs (stack_top G) argv ++ [0])) b).
  Proof.
    intros Ha HB HG [Hargc Hlow]. pose proof (bu_n _ _ _ _ _ _ _ _ _ _ HB) as HN. set (x := words _).
    assert (Hlen : length x = (4 * (length argv + 1))%nat) by (unfold x; rewrite length_words, length_app, length_arg_ptrs; done).
    assert (Hx : Forall is_u8 x) by apply words_u8. set (sp := stack_sp G argv).
    assert (Hsp : (G + 1) * PGSIZE - 132 <= sp /\ sp + Z.of_nat (length x) <= stack_top G).
    { unfold sp, stack_sp. rewrite Hlen. pose proof (arg_low_le argv (stack_top G)). unfold MAXARG in Hargc. lia. }
    assert (u32 sp = sp) as -> by (apply u32_id; unfold is_u32, stack_top, PGSIZE in *; lia).
    replace ((Z.of_nat (length argv) + 1) * 4) with (Z.of_nat (length x)) by lia.
    destruct (decide ((G + 1) * PGSIZE <= sp)) as [Hin|Hout].
    - destruct (copyout_in kend kdata P0 l0 (y_kst s) l d G (G + 2) m (G + 1) (Z.to_nat (sp - (G + 1) * PGSIZE)) x HB)
        as (k' & E & HB' & Hq); [lia|lia|lia|unfold stack_top, PGSIZE in *; lia|done|].
      replace ((G + 1) * PGSIZE + Z.of_nat (Z.to_nat (sp - (G + 1) * PGSIZE))) with sp in * by lia.
      destruct (after_kst t0 me p V Is s _ _ k' Ha E Hq) as (Ek & Ha' & Hy).
      exists (set_kst k' s), (over m sp x). rewrite Hy. by split_and!.
    - destruct (copyout_hits kend kdata d G (G + 2) (S (Z.to_nat (Z.of_nat (length x)))) P0 l0 (y_kst s) l m sp x (Z.of_nat (length x)) HB)
        as (k' & m' & E & HB' & Hq); try (done || lia).
      { unfold PGSIZE in *; lia. }
      { split; [|lia]. assert (sp / PGSIZE < G + 1); [|lia]. apply Z.div_lt_upper_bound; [done|]. lia. }
      { unfold PGSIZE in *; lia. }
      destruct (after_kst t0 me p V Is s _ _ k' Ha E Hq) as (Ek & Ha' & Hy).
      exists (set_kst k' s), m'. rewrite Hy. by split_and!.
  Qed.

  (** The two pages of the stack. *)
Lemma stack_pages t0 me p V Is P0 l0 s l d sz m room :
    after t0 me p V Is s -> built kend kdata P0 l0 (y_kst s) l d (-1) (pages_of sz) m -> left_of room l sz -> 0 <= sz < KERNBASE ->
    let G := pages_of sz in stack_top G < KERNBASE ->
    exists s1 s2 l', on_kst (allocuvm kend d (PGROUNDUP sz) (u32 (PGROUNDUP sz + 2 * PGSIZE))) s = Ok (stack_top G) s1 /\
      on_kst (clearpteu d (u32 (stack_top G - 2 * PGSIZE))) s1 = Ok tt s2 /\ after t0 me p V Is s2 /\ y_vars s2 = y_vars s /\
      built kend kdata P0 l0 (y_kst s2) l' d G (G + 2) m.
  Proof using Hkend Hdata.
    intros Ha HB [Hl1 Hl2] Hsz G Htop. pose proof (pages_of_mono 0 sz ltac:(lia)) as HG. change (pages_of 0) with 0 in HG.
    rewrite PGROUNDUP_eq by lia. fold G. replace (u32 (G * PGSIZE + 2 * PGSIZE)) with (stack_top G)
      by (unfold stack_top in *; rewrite u32_id; unfold is_u32, KERNBASE, PGSIZE in *; lia).
    replace (pages_of sz) with (pages_of (G * PGSIZE)) in HB by (by rewrite pages_of_mul).
    assert (Et : pages_of (stack_top G) = G + 2) by (unfold stack_top; apply pages_of_mul).
    destruct (built_alloc kend kdata Hkend Hdata P0 l0 (y_kst s) l d (-1) m (G * PGSIZE) (stack_top G) HB) as (k1 & l1 & E1 & HB1 & Hq1 & _).
    { unfold stack_top, PGSIZE in *. lia. }
    { done. }
    { rewrite pages_of_mul. lia. }
    { rewrite Et, pages_of_mul. lia. }
    rewrite Et in HB1. destruct (after_kst _ _ _ _ _ s _ _ k1 Ha E1 Hq1) as (E2 & Ha2 & Hy2).
    destruct (built_guard kend kdata Hdata P0 l0 k1 l1 d (G + 2) m G HB1 ltac:(lia)) as (k2 & E3 & HB3 & Hq3).
    replace (u32 (stack_top G - 2 * PGSIZE)) with (G * PGSIZE)
      by (unfold stack_top in *; rewrite u32_id; unfold is_u32, KERNBASE, PGSIZE in *; lia).
    rewrite <- Hy2 in E3, Hq3. destruct (after_kst _ _ _ _ _ (set_kst k1 s) _ _ k2 Ha2 E3 Hq3) as (E4 & Ha4 & Hy4).
    exists (set_kst k1 s), (set_kst k2 (set_kst k1 s)), l1. rewrite Hy4. by split_and!.
  Qed.

  (** What the process becomes, and what its registers may be after a failure. *)
Definition started (path : list Z) (argv : list (list Z)) (d G entry : Z) (p : proc) : proc :=
    image_of (last_elem path path) d (stack_top G) entry (stack_sp G argv)
      (set_tf (set_args (Z.of_nat (length argv)) (stack_sp G argv) (p_tf p)) p).
Definition failed_tf (G : Z) (argv : list (list Z)) (p : proc) (tf : trapframe) : Prop :=
    tf = p_tf p \/ (args_fit G 0 (stack_top G) argv /\ tf = set_args (Z.of_nat (length argv)) (stack_sp G argv) (p_tf p)).

  (** From the registers on, with the strings in place. *)
Lemma stack_last t0 me p V Is l0 s l d G m path argv entry :
    space_ok kend (y_kst t0) (p_pgdir p) l0 -> after t0 me p V Is s -> y_vars s = y_vars t0 ->
    built kend kdata (k_pages (y_kst t0)) l0 (y_kst s) l d G (G + 2) m -> 0 <= G -> stack_top G < KERNBASE -> args_fit G 0 (stack_top G) argv ->
    let argc := Z.of_nat (length argv) in let sp := u32 (stack_sp G argv) in
    exists r s', (upd_cur (fun p => set_tf (set_args argc sp (p_tf p)) p) ;;;
      r <- on_kst (copyout d sp (words (arg_ptrs (stack_top G) argv ++ [0])) ((argc + 1) * 4)) ;;
      if r <? 0 then bad kend d None else commit (last_elem path path) d (stack_top G) entry sp) s = Ok r s' /\
      if decide ((G + 1) * PGSIZE <= stack_sp G argv)
      then r = 0 /\ after t0 me (started path argv d G entry p) V Is s' /\ y_vars s' = set_pdt (v2p d) (y_vars t0) /\
        installed kend kdata (y_kst t0) (p_pgdir p) l0 (y_kst s') d G (G + 2)
          (over m (stack_sp G argv) (words (arg_ptrs (stack_top G) argv ++ [0])))
      else r = -1 /\ regained kend (k_pages (y_kst t0)) l0 (y_kst s') /\ y_vars s' = y_vars t0 /\
        after t0 me (set_tf (set_args argc (stack_sp G argv) (p_tf p)) p) V Is s'.
  Proof using Hkend.
    intros Hold Ha Hv HB HG Htop Hfit argc sp.
    assert (Hsp : sp = stack_sp G argv).
    { unfold sp. destruct Hfit as [Hc Hlow]. apply u32_id. pose proof (arg_low_le argv (stack_top G)). unfold MAXARG in Hc.
      unfold is_u32, stack_sp, stack_top, KERNBASE, PGSIZE in *. lia. }
    assert (Hnd : NoDup l0) by (apply (ko_nodup _ _ (po_kmem _ _ _ _ (so_pt _ _ _ _ Hold)))).
    destruct (after_upd t0 me p V Is s (fun p => set_tf (set_args argc sp (p_tf p)) p) Ha) as (s1 & E1 & Ha1 & M1 & W1); [by intros []|].
    rewrite (bind_ok _ _ _ _ _ E1). set (p1 := set_tf _ p) in Ha1.
    assert (HB1 : built kend kdata (k_pages (y_kst t0)) l0 (y_kst s1) l d G (G + 2) m) by (by eapply built_after).
    destruct (push_array t0 me p1 V Is _ l0 s1 l d G m argv Ha1 HB1 HG Hfit) as (s2 & m2 & E2 & Ha2 & W2 & HB2 & Hm2).
    fold argc sp in E2. rewrite (bind_ok _ _ _ _ _ E2). destruct (decide ((G + 1) * PGSIZE <= stack_sp G argv)) as [Hin|Hout].
    - change (0 <? 0) with false. cbv iota.
      destruct (install_run t0 me p1 V Is s2 l0 l d G (G + 2) m2 (last_elem path path) (stack_top G) entry sp Ha2 Hold HB2) as (s' & E & Ha' & Hin' & W').
      exists 0, s'. split_and!; [exact E|done| |rewrite W'; congruence|].
      + rewrite Hsp in Ha'. unfold p1 in Ha'. rewrite Hsp in Ha'. exact Ha'.
      + destruct Hin' as [I1 I2 I3 I4 I5]. split; try done. intros n Hn. destruct (I2 n Hn) as (v & V1 & V2 & V3). exists v. split_and!; [done| |done].
        rewrite V2. f_equal. apply page_bytes_ext. intros b _. by apply Hm2.
    - change (-1 <? 0) with true. cbv iota.
      destruct (hand_back t0 me p1 V Is _ l0 s2 l d _ _ m2 Ha2 HB2 Hnd) as (s' & E & Ha' & Hr & Hv').
      exists (-1), s'. split_and!; [exact E|done|done|congruence|]. unfold p1 in Ha'. by rewrite Hsp in Ha'.
  Qed.

Lemma exec_stack_run t0 me p V Is l0 s l d sz m room path argv elf :
    current me p t0 -> space_ok kend (y_kst t0) (p_pgdir p) l0 ->
    after t0 me p V Is s -> y_vars s = y_vars t0 -> built kend kdata (k_pages (y_kst t0)) l0 (y_kst s) l d (-1) (pages_of sz) m ->
    left_of room l sz -> 0 <= sz < KERNBASE -> small_args argv ->
    let G := pages_of sz in
    exists r s', exec_stack kend path argv d sz elf s = Ok r s' /\
      if decide (stack_ok G argv)
      then r = 0 /\ after t0 me (started path argv d G (e_entry elf) p) V Is s' /\ y_vars s' = set_pdt (v2p d) (y_vars t0) /\
        installed kend kdata (y_kst t0) (p_pgdir p) l0 (y_kst s') d G (G + 2) (stack_mem m G argv)
      else r = -1 /\ regained kend (k_pages (y_kst t0)) l0 (y_kst s') /\ y_vars s' = y_vars t0 /\
        exists tf, failed_tf G argv p tf /\ after t0 me (set_tf tf p) V Is s'.
  Proof using Hkend Hdata.
    intros Hcur Hold Ha Hv HB Hl Hsz Hsm G. pose proof (pages_of_mono 0 sz ltac:(lia)) as HG. change (pages_of 0) with 0 in HG. fold G in HG.
    assert (Hnd : NoDup l0) by (apply (ko_nodup _ _ (po_kmem _ _ _ _ (so_pt _ _ _ _ Hold)))).
    assert (Hself : set_tf (p_tf p) p = p) by (by destruct p).
    unfold exec_stack. cbv zeta. destruct (decide (stack_top G < KERNBASE)) as [Htop|Htop].
    2:{ destruct (hand_back t0 me p V Is _ l0 s l d _ _ m Ha HB Hnd) as (s' & E & Ha' & Hr & Hv').
        exists (-1), s'. rewrite decide_False by (unfold stack_ok; tauto). split_and!; try done; [|congruence|exists (p_tf p); rewrite Hself; split; [by left|done]].
        assert (E0 : on_kst (allocuvm kend d (PGROUNDUP sz) (u32 (PGROUNDUP sz + 2 * PGSIZE))) s = Ok 0 s).
        { erewrite on_kst_ok; [by rewrite set_kst_id|]. pose proof (pages_of_mono sz KERNBASE ltac:(lia)) as HK. change (pages_of KERNBASE) with (2 ^ 19) in HK.
          rewrite PGROUNDUP_eq by lia. fold G. rewrite u32_id by (unfold is_u32, PGSIZE in *; lia). unfold allocuvm, stack_top in *.
          destruct (Z.geb_spec (G * PGSIZE + 2 * PGSIZE) KERNBASE); [done|unfold PGSIZE in *; lia]. }
        rewrite (bind_ok _ _ _ _ _ E0). exact E. }
    destruct (stack_pages t0 me p V Is _ l0 s l d sz m room Ha HB Hl Hsz Htop) as (s1 & s2 & l2 & E1 & E2 & Ha2 & Hv2 & HB2). fold G in E1, E2, HB2.
    rewrite (bind_ok _ _ _ _ _ E1). destruct (Z.eqb_spec (stack_top G) 0); [unfold stack_top, PGSIZE in *; lia|]. rewrite (bind_ok _ _ _ _ _ E2).
    assert (HG2 : G + 2 < 2 ^ 19) by (unfold stack_top, KERNBASE, PGSIZE in *; lia).
    destruct (push_run cap kend kdata s2 V _ _ l0 l2 d G argv HG HG2 Hsm s2 m (stack_top G) 0 [] (during_self V s2 (af_idle _ _ _ _ _ _ Ha2)) HB2)
      as (s3 & m3 & E3 & HD3 & HB3 & Hm3); [unfold stack_top, PGSIZE; lia|lia|].
    rewrite (bind_ok _ _ _ _ _ E3). rewrite (af_ino _ _ _ _ _ _ Ha2) in HD3. pose proof (after_trans _ _ _ _ _ _ _ Ha2 HD3) as Ha3.
    assert (Hv3 : y_vars s3 = y_vars t0) by (destruct (du_aside _ _ _ _ _ HD3) as (_ & _ & _ & ->); congruence).
    destruct (decide (args_fit G 0 (stack_top G) argv)) as [Hfit|Hfit].
    2:{ destruct (hand_back t0 me p V Is _ l0 s3 l2 d _ _ m3 Ha3 HB3 Hnd) as (s' & E & Ha' & Hr & Hv').
        exists (-1), s'. rewrite decide_False by (unfold stack_ok; tauto). split_and!; try done; [congruence|exists (p_tf p); rewrite Hself; split; [by left|done]]. }
    cbn [app]. rewrite length_arg_ptrs. fold (stack_sp G argv). set (argc := Z.of_nat (length argv)).
    destruct (stack_last t0 me p V Is l0 s3 l2 d G m3 path argv (e_entry elf) Hold Ha3 Hv3 HB3 HG Htop Hfit) as (r & s' & E & Hres).
    exists r, s'. split; [exact E|]. destruct (decide ((G + 1) * PGSIZE <= stack_sp G argv)) as [Hin|Hout].
    - rewrite decide_True by done. destruct Hres as (-> & H1 & H2 & [I1 I2 I3 I4 I5]). split_and!; try done. split; try done.
      intros j Hj. destruct (I2 j Hj) as (v & V1 & V2 & V3). exists v. split_and!; [done| |done]. rewrite V2. f_equal. apply page_bytes_ext.
      intros b _. unfold stack_mem, over. case_decide; [done|]. by apply Hm3.
    - rewrite decide_False by (unfold stack_ok; tauto). destruct Hres as (-> & H1 & H2 & H3). split_and!; try done. eexists. split; [right; split; [done|reflexivity]|done].
  Qed.
End launch.

(** ** exec *)
Section exec.
  Context {St : Type} {LO : LogOps St} {TL : TransLaws St} (devsw : Z -> @devops St) (cap : nat) (kend kdata : Z).
  Hypothesis Hkend : KERNBASE < kend.
  Hypothesis Hdata : kdata mod PGSIZE = 0 /\ KERNLINK < kdata < KERNBASE + PHYSTOP.
  Implicit Types (s : sys St).

  (** The header, and the memory of the program; [None] for a file that is no
      program or is refused. *)
Definition header_of (V : Z -> list Z) (ip : inode) : elfhdr := elf_decode (file_bytes V ip 0 (Z.to_nat ELFHDR_SIZE)).
Definition program (V : Z -> list Z) (ip : inode) : option (Z * (Z -> Z)) :=
    let elf := header_of V ip in
    if decide (ELFHDR_SIZE <= i_size ip /\ e_magic elf = ELF_MAGIC)
    then plan V ip (Z.to_nat (e_phnum elf)) (u32 (e_phoff elf)) 0 (fun _ => 0) else None.

  (** An inode in the cache that [namei] has returned, as it is when locked. *)
Record ready_ip (t0 : sys St) (V : Z -> list Z) (Is : list inode) (i : nat) (ip0 : inode) : Prop := {
    rd_ip : Is !! i = Some ip0;
    rd_ref : 1 <= i_ref ip0;
    rd_busy : Flag.has (i_flags ip0) I_BUSY = false;
    rd_disk : Flag.has (i_flags ip0) I_VALID = false ->
      let blk := IBLOCK (i_inum ip0) in
      i_dev ip0 = 1 /\ 0 <= blk < home t0 /\ blk < 2 ^ 32 /\ s16 (get16 (dinode_off (i_inum ip0)) (V blk)) <> 0;
    rd_file : prog_file V (locked_ip V ip0) (home t0);
    rd_link : i_nlink (locked_ip V ip0) <> 0;
  }.
Definition dropped_ip (V : Z -> list Z) (ip0 : inode) : inode := let ip := unlocked_ip (locked_ip V ip0) in set_iref (i_ref ip - 1) ip.

Lemma locked_facts V ip : i_ref (locked_ip V ip) = i_ref ip /\ Flag.has (i_flags (locked_ip V ip)) I_BUSY = true.
  Proof.
    unfold locked_ip. cbv zeta. change I_BUSY with (2 ^ 0). rewrite Flag.has_testbit by lia.
    destruct (Flag.has _ I_VALID); cbn [i_ref i_flags set_iflags dinode_get]; (split; [done|]); rewrite !Z.lor_spec; cbn; by rewrite ?orb_true_r.
  Qed.

Lemma lock_run t0 V Is i ip0 s :
    during cap t0 V Is s -> ready_ip t0 V Is i ip0 ->
    exists s', on_fs (ilock i) s = Ok tt s' /\ during cap t0 V (<[i := locked_ip V ip0]> Is) s' /\ y_mem s' = y_mem s.
  Proof.
    intros HD [R1 R2 R3 R4 R5 R6]. pose proof HD as [D1 D2 D3 _ _].
    destruct (during_fs cap t0 V Is (<[i := locked_ip V ip0]> Is) s (ilock i) (fun _ => True) HD) as ([] & s' & E & _ & HD' & Hm); [|by exists s'].
    rewrite <- D3 in R1 |- *. eapply wp_mono; [apply (ilock_run (LL := tl_read cap) (y_fs s) V ∅ [] i ip0 (D1 : fs_rel _ _ _ _) R1 R2 R3)|].
    - intros Hv. destruct (R4 Hv) as (B1 & B2 & B3 & B4). rewrite <- D2 in B2. unfold home in B2. rewrite (tl_home cap) in B2.
      split_and!; try done; try lia. rewrite map_size_empty. cbn. unfold NBUF. lia.
    - intros [] t (R & S & I). by split_and!.
  Qed.

Lemma unlockput_run t0 V Is i ip0 s :
    during cap t0 V (<[i := locked_ip V ip0]> Is) s -> ready_ip t0 V Is i ip0 ->
    exists s', on_fs (iunlockput i) s = Ok tt s' /\ during cap t0 V (<[i := dropped_ip V ip0]> Is) s' /\ y_mem s' = y_mem s.
  Proof.
    intros HD [R1 R2 R3 R4 R5 R6]. pose proof HD as [D1 D2 D3 _ _]. destruct (locked_facts V ip0) as [Fr Fb].
    pose proof (lookup_lt_Some _ _ _ R1) as Hlt.
    destruct (during_fs cap t0 V _ (<[i := dropped_ip V ip0]> Is) s (iunlockput i) (fun _ => True) HD) as ([] & s' & E & _ & HD' & Hm); [|by exists s'].
    unfold iunlockput. apply wp_bind. eapply wp_mono; [apply (iunlock_run (LL := tl_read cap) (y_fs s) V ∅ [] i (locked_ip V ip0) (D1 : fs_rel _ _ _ _))|].
    { rewrite D3. by apply list_lookup_insert_eq. }
    { by rewrite Fr. }
    { done. }
    intros [] t (R & S & I). rewrite D3, (alter_insert _ _ _ (locked_ip V ip0)) in I by (by apply list_lookup_insert_eq).
    rewrite list_insert_insert_eq in I. fold (unlocked_ip (locked_ip V ip0)) in I.
    eapply wp_mono; [apply (iput_run (LL := tl_read cap) t V ∅ [] i (unlocked_ip (locked_ip V ip0)) R)|].
    { rewrite I. by apply list_lookup_insert_eq. }
    { change (i_nlink (unlocked_ip (locked_ip V ip0))) with (i_nlink (locked_ip V ip0)).
      destruct (Z.eqb_spec (i_nlink (locked_ip V ip0)) 0); [done|]. apply andb_false_r. }
    intros [] t2 (R' & S' & I'). split_and!; [done|done|by etransitivity|].
    rewrite I', I, (alter_insert _ _ _ (unlocked_ip (locked_ip V ip0))) by (by apply list_lookup_insert_eq). by rewrite list_insert_insert_eq.
  Qed.

  (** *** A file that is refused *)
Lemma regained_mem V P0 l0 s s' : regained kend P0 l0 (y_kst s) -> y_mem s' = y_mem s -> idle cap s' V -> regained kend P0 l0 (y_kst s').
  Proof.
    intros (l' & [H1 H2 H3] & Hp & Hs) Hm Hi. exists l'. split_and!; [split|done|].
    - apply (kmem_ok_mem s); [done|apply (idle_ok cap s' V Hi)|done].
    - done.
    - unfold y_kst in *. by rewrite Hm.
    - unfold y_kst in *. by rewrite Hm.
  Qed.

Lemma refuse t0 V Is i ip0 P0 l0 s d :
    during cap t0 V (<[i := locked_ip V ip0]> Is) s -> ready_ip t0 V Is i ip0 -> NoDup l0 ->
    (d = 0 /\ regained kend P0 l0 (y_kst s)) \/ (exists l g N m, built kend kdata P0 l0 (y_kst s) l d g N m) ->
    exists s', bad kend d (Some i) s = Ok (-1) s' /\ during cap t0 V (<[i := dropped_ip V ip0]> Is) s' /\ regained kend P0 l0 (y_kst s').
  Proof using Hkend.
    intros HD Hrd Hnd Hmem. assert (H1 : exists s1, (if negb (d =? 0) then on_kst (freevm kend d) else ret tt) s = Ok tt s1 /\
      during cap t0 V (<[i := locked_ip V ip0]> Is) s1 /\ regained kend P0 l0 (y_kst s1)).
    { destruct Hmem as [[-> Hr]|(l & g & N & m & HB)]; [by exists s|].
      pose proof (dir_not_null kend _ _ _ (ra_space _ _ _ _ _ _ _ (bu_raised _ _ _ _ _ _ _ _ _ _ HB))).
      destruct (Z.eqb_spec d 0); [done|]. by apply (free_during cap kend kdata Hkend t0 V _ P0 l0 s l d g N m). }
    destruct H1 as (s1 & E1 & HD1 & Hr1). destruct (unlockput_run t0 V Is i ip0 s1 HD1 Hrd) as (s2 & E2 & HD2 & Hm2).
    exists s2. unfold bad. rewrite (bind_ok _ _ _ _ _ E1), (bind_ok _ _ _ _ _ E2). split_and!; [done|done|].
    eapply regained_mem; [exact Hr1|done|apply HD2].
  Qed.

  (** The new directory. *)
Lemma new_space t0 V Is s l0 room :
    during cap t0 V Is s -> y_mem s = y_mem t0 -> heap_ok kend (y_kst s) l0 -> room + 41 <= Z.of_nat (length l0) -> 4 <= room ->
    exists d s' l', on_kst (setupkvm kdata) s = Ok d s' /\ d <> 0 /\ during cap t0 V Is s' /\
      built kend kdata (k_pages (y_kst t0)) l0 (y_kst s') l' d (-1) (pages_of 0) (fun _ => 0) /\ left_of room l' 0.
  Proof using Hkend Hdata.
    intros HD Hm Hh Hroom H4. destruct (setupkvm_run kend kdata Hkend Hdata (y_kst s) l0 Hh) as (d & k & l' & E & Hlen & [(-> & -> & _)|(Hd & Hra & Hu & Hk)]).
    { cbn in Hlen. lia. }
    destruct (during_kst cap t0 V Is s _ d k HD E (ra_quiet _ _ _ _ _ _ _ Hra)) as (Ek & HD' & Hy).
    exists d, (set_kst k s), l'. rewrite Hy. split_and!; [done|done|done| |unfold left_of; change (pages_of 0) with 0; lia].
    split; try done.
    - eapply raised_from; [exact Hra|]. unfold y_kst. by rewrite Hm.
    - change (pages_of 0) with 0. lia.
  Qed.

  (** *** The whole call *)
  (** How it ends when the file is no program for this system, or its
      arguments do not fit, and when it is. *)
Definition exec_failed (t0 : sys St) me p V Is l0 (tfs : trapframe -> Prop) s : Prop :=
    regained kend (k_pages (y_kst t0)) l0 (y_kst s) /\ y_vars s = y_vars t0 /\
    exists tf, tfs tf /\ after cap t0 me (set_tf tf p) V Is s.
Definition exec_done (t0 : sys St) me p V Is l0 path argv entry G m s : Prop :=
    exists d, after cap t0 me (started path argv d G entry p) V Is s /\ y_vars s = set_pdt (v2p d) (y_vars t0) /\
      installed kend kdata (y_kst t0) (p_pgdir p) l0 (y_kst s) d G (G + 2) (stack_mem m G argv).
Definition exec_result (t0 : sys St) me p V Is l0 path argv ip r s : Prop :=
    match program V ip with
    | None => r = -1 /\ exec_failed t0 me p V Is l0 (eq (p_tf p)) s
    | Some (sz, m) =>
        let G := pages_of sz in
        if decide (stack_ok G argv) then r = 0 /\ exec_done t0 me p V Is l0 path argv (e_entry (header_of V ip)) G m s
        else r = -1 /\ exec_failed t0 me p V Is l0 (failed_tf G argv p) s
    end.

Lemma refused_result t0 me p V Is l0 s :
    current me p t0 -> during cap t0 V Is s -> regained kend (k_pages (y_kst t0)) l0 (y_kst s) -> exec_failed t0 me p V Is l0 (eq (p_tf p)) s.
  Proof.
    intros Hc HD Hr. destruct (du_aside _ _ _ _ _ HD) as (_ & _ & _ & Hv). split_and!; [done|done|].
    exists (p_tf p). split; [done|]. replace (set_tf (p_tf p) p) with p by (by destruct p). by apply after_during.
  Qed.

  (** From the new directory on. *)
Lemma exec_load t0 me p V Is l0 i ip0 s l d path argv room elf :
    current me p t0 -> space_ok kend (y_kst t0) (p_pgdir p) l0 -> small_args argv -> ready_ip t0 V Is i ip0 ->
    let ip := locked_ip V ip0 in
    during cap t0 V (<[i := ip]> Is) s ->
    built kend kdata (k_pages (y_kst t0)) l0 (y_kst s) l d (-1) (pages_of 0) (fun _ => 0) -> left_of room l 0 ->
    safe V ip room (Z.to_nat (e_phnum elf)) (u32 (e_phoff elf)) ->
    exists r s', (r <- load_segments devsw kend (Z.to_nat (e_phnum elf)) i d (s32 (e_phoff elf)) 0 ;;
        match r with
        | None => bad kend d (Some i)
        | Some sz => on_fs (iunlockput i) ;;; exec_stack kend path argv d sz elf
        end) s = Ok r s' /\
      let Is' := <[i := dropped_ip V ip0]> Is in
      match plan V ip (Z.to_nat (e_phnum elf)) (u32 (e_phoff elf)) 0 (fun _ => 0) with
      | None => r = -1 /\ exec_failed t0 me p V Is' l0 (eq (p_tf p)) s'
      | Some (sz, m) =>
          let G := pages_of sz in
          if decide (stack_ok G argv) then r = 0 /\ exec_done t0 me p V Is' l0 path argv (e_entry elf) G m s'
          else r = -1 /\ exec_failed t0 me p V Is' l0 (failed_tf G argv p) s'
      end.
  Proof using Hkend Hdata.
    intros Hc Hold Hsm Hrd ip HD HB Hl Hsafe.
    assert (Hi : <[i := ip]> Is !! i = Some ip) by (apply list_lookup_insert_eq; eapply lookup_lt_Some, Hrd).
    assert (Hnd : NoDup l0) by (apply (ko_nodup _ _ (po_kmem _ _ _ _ (so_pt _ _ _ _ Hold)))).
    assert (Eo : u32 (s32 (e_phoff elf)) = u32 (e_phoff elf)) by (unfold u32, s32; rewrite Zminus_mod_idemp_l; f_equal; lia).
    rewrite <- Eo in Hsafe.
    destruct (segs_run devsw cap kend kdata Hkend Hdata t0 V _ _ l0 i ip d room _ Hi (rd_file _ _ _ _ _ Hrd) s l (s32 (e_phoff elf)) 0 (fun _ => 0) HD HB
      ltac:(unfold KERNBASE; lia) Hl Hsafe) as (r & s1 & l1 & E1 & HD1 & H1).
    rewrite (bind_ok _ _ _ _ _ E1). rewrite Eo in H1. destruct (plan V ip _ _ 0 _) as [[sz m]|].
    - destruct H1 as (-> & Hsz & Hl1 & HB1). destruct (unlockput_run t0 V Is i ip0 s1 HD1 Hrd) as (s2 & E2 & HD2 & Hm2). rewrite (bind_ok _ _ _ _ _ E2).
      assert (HB2 : built kend kdata (k_pages (y_kst t0)) l0 (y_kst s2) l1 d (-1) (pages_of sz) m) by (by eapply built_mem).
      destruct (du_aside _ _ _ _ _ HD2) as (_ & _ & _ & Hv2).
      destruct (exec_stack_run cap kend kdata Hkend Hdata t0 me p V _ l0 s2 l1 d sz m room path argv elf Hc Hold (after_during _ _ _ _ _ _ _ HD2 Hc) Hv2 HB2 Hl1 Hsz Hsm)
        as (r & s' & E & Hres).
      exists r, s'. split; [exact E|]. cbv zeta. destruct (decide (stack_ok (pages_of sz) argv)).
      + destruct Hres as (-> & R1 & R2 & R3). split; [done|]. by exists d.
      + destruct Hres as (-> & R1 & R2 & R3). by split.
    - destruct H1 as (-> & N' & m' & HB1).
      destruct (refuse t0 V Is i ip0 _ l0 s1 d HD1 Hrd Hnd ltac:(right; by exists l1, (-1), N', m')) as (s' & E & HD' & Hr').
      exists (-1), s'. split; [exact E|]. cbv zeta. split; [done|]. by apply refused_result.
  Qed.

  Context (stack : list Z).
  Hypothesis Hstack : length stack = Z.to_nat ELFHDR_SIZE.
Lemma exec_call_run t0 me p V Is l0 i ip0 s path argv room :
    current me p t0 -> space_ok kend (y_kst t0) (p_pgdir p) l0 -> room + 41 <= Z.of_nat (length l0) -> 4 <= room -> small_args argv ->
    on_fs (namei devsw path) t0 = Ok (Some i) s -> during cap t0 V Is s -> y_mem s = y_mem t0 -> ready_ip t0 V Is i ip0 ->
    let ip := locked_ip V ip0 in let elf := header_of V ip in
    safe V ip room (Z.to_nat (e_phnum elf)) (u32 (e_phoff elf)) ->
    exists r s', exec devsw kend kdata stack path argv t0 = Ok r s' /\
      exec_result t0 me p V (<[i := dropped_ip V ip0]> Is) l0 path argv ip r s'.
  Proof using Hkend Hdata Hstack.
    intros Hc Hold Hroom H4 Hsm En HD Hm Hrd ip elf Hsafe. unfold exec, exec_result. rewrite (bind_ok _ _ _ _ _ En).
    destruct (lock_run t0 V Is i ip0 s HD Hrd) as (s1 & E1 & HD1 & Hm1). rewrite (bind_ok _ _ _ _ _ E1). fold ip in HD1.
    assert (Hi : <[i := ip]> Is !! i = Some ip) by (apply list_lookup_insert_eq; eapply lookup_lt_Some, Hrd).
    assert (Hnd : NoDup l0) by (apply (ko_nodup _ _ (po_kmem _ _ _ _ (so_pt _ _ _ _ Hold)))).
    destruct (readi_file devsw cap t0 V _ s1 i ip 0 ELFHDR_SIZE HD1 Hi (rd_file _ _ _ _ _ Hrd)) as (s2 & E2 & HD2 & Hm2); [lia|by vm_compute|].
    rewrite (bind_ok _ _ _ _ _ E2). pose proof (pf_size _ _ _ (rd_file _ _ _ _ _ Hrd)) as Hsz0. fold ip in Hsz0.
    assert (Hmem2 : y_mem s2 = y_mem t0) by congruence.
    assert (Hh2 : heap_ok kend (y_kst s2) l0).
    { destruct (heap_of_pt kend _ _ _ (so_pt _ _ _ _ Hold)) as [K1 K2 K3]. split; [|done|unfold y_kst in *; by rewrite Hmem2].
      apply (kmem_ok_mem t0); [done|apply (idle_ok cap s2 V (du_idle _ _ _ _ _ HD2))|done]. }
    assert (Hr2 : regained kend (k_pages (y_kst t0)) l0 (y_kst s2)) by (exists l0; split_and!; [done|done|]; intros v _; unfold y_kst; by rewrite Hmem2).
    unfold file_read. destruct (Z.gtb_spec 0 (i_size ip)); [lia|]. rewrite Z.sub_0_r. cbn [fst snd].
    assert (Hrefuse : exists s', bad kend 0 (Some i) s2 = Ok (-1) s' /\ exec_failed t0 me p V (<[i := dropped_ip V ip0]> Is) l0 (eq (p_tf p)) s').
    { destruct (refuse t0 V Is i ip0 _ l0 s2 0 HD2 Hrd Hnd ltac:(by left)) as (s' & E & HD' & Hr'). exists s'. split; [done|]. by apply refused_result. }
    unfold program. fold elf. destruct (decide (ELFHDR_SIZE <= i_size ip)) as [Hlong|Hshort].
    2:{ destruct Hrefuse as (s' & E & Hf). exists (-1), s'. rewrite decide_False by tauto. split_and!; try done.
        rewrite u32_id by (unfold is_u32, ELFHDR_SIZE in *; lia). rewrite Z.min_r by lia. by destruct (Z.ltb_spec (i_size ip) ELFHDR_SIZE); [|lia]. }
    rewrite Z.min_l by lia. change (u32 ELFHDR_SIZE <? ELFHDR_SIZE) with false. cbv iota.
    rewrite splice_all by (by rewrite length_file_bytes). fold (header_of V ip). fold elf. cbv zeta.
    destruct (Z.eqb_spec (e_magic elf) ELF_MAGIC) as [Hmag|Hmag]; cbn [negb].
    2:{ destruct Hrefuse as (s' & E & Hf). exists (-1), s'. rewrite decide_False by tauto. by split_and!. }
    rewrite decide_True by done. clear Hrefuse.
    destruct (new_space t0 V _ s2 l0 room HD2 Hmem2 Hh2 Hroom H4) as (d & s3 & l3 & E3 & Hd & HD3 & HB3 & Hl3).
    rewrite (bind_ok _ _ _ _ _ E3). destruct (Z.eqb_spec d 0); [done|].
    by apply (exec_load t0 me p V Is l0 i ip0 s3 l3 d path argv room elf).
  Qed.

  (** *** With the path resolved *)

  (** The file a path names can be loaded or is refused. *)
Definition runnable (V : Z -> list Z) (h room : Z) (o : option (Z * list Z)) : Prop :=
    match o with
    | None => True
    | Some (y, _) =>
        let ip := disk_ip V y in let elf := header_of V ip in
        prog_file V ip h /\ safe V ip room (Z.to_nat (e_phnum elf)) (u32 (e_phoff elf))
    end.

Lemma resolve_good V h : forall es x name y nm, sound V h x es -> resolve V false x es name = Some (y, nm) -> good_ino V h y.
  Proof.
    induction es as [|e es IH]; intros x name y nm [G Hs] E; cbn [resolve] in E; [by injection E as <- _|].
    destruct (i_type (disk_ip V x) =? T_DIR) eqn:Et; [|done]. cbn [negb andb] in E.
    destruct (look V (disk_ip V x) (take (Z.to_nat DIRSIZ) e)) as [z|]; [|done]. eapply IH; [|exact E]. apply Hs; [lia|done].
  Qed.

  (** The inode the path leads to, as exec uses it. *)
Lemma ready_of t0 V f Is i y :
    cache V (bump f y) None Is -> holds Is i y -> good_ino V (home t0) y -> prog_file V (disk_ip V y) (home t0) ->
    (forall z q, f !! z = Some q -> 0 < q) ->
    exists ip0, ready_ip t0 V Is i ip0 /\ locked_ip V ip0 = set_iref (i_ref ip0) (disk_ip V y) /\ cache V f None (<[i := dropped_ip V ip0]> Is).
  Proof.
    intros C (ip0 & Hi & Hr & Hy) [Gb Gt Gl _] Hpf Hpos. destruct (ca_ref _ _ _ _ C i ip0 Hi Hr) as (D1 & D2 & D3).
    rewrite bool_decide_eq_false_2 in D3 by done. pose proof (locked_ip_disk V ip0 y D3 D1 Hy) as El.
    exists ip0. split_and!; [|done|].
    - split; rewrite ?El; try done; [lia|by destruct D3 as [-> | [-> _]]| |].
      + intros _. rewrite Hy. split_and!; [done|lia..|exact Gt].
      + destruct Hpf as [P1 P2 P3 P4 P5]. split; try done. by apply mapped_ref.
    - rewrite <- (unbump_one f y) by done. rewrite Hy in D2. unfold dropped_ip. rewrite El.
      apply (put_cache V _ None _ i (i_ref ip0) y ip0); try done. by right.
  Qed.

Lemma namei_during t0 V f path x :
    idle cap t0 V -> cache V f None (ic_inodes (y_fs t0)) -> (S (size f) < length (ic_inodes (y_fs t0)))%nat ->
    starts (y_fs t0) path x -> sound V (home t0) x (elems path) ->
    exists o s Is, on_fs (namei devsw path) t0 = Ok o s /\ during cap t0 V Is s /\ y_mem s = y_mem t0 /\
      match resolve V false x (elems path) [] with
      | Some (y, _) => exists i, o = Some i /\ holds Is i y /\ cache V (bump f y) None Is
      | None => o = None /\ cache V f None Is
      end.
  Proof.
    intros Hid C Hsz Hst Hgood. assert (HD : during cap t0 V (ic_inodes (y_fs t0)) t0) by (split; try done; reflexivity).
    unfold home in Hgood. rewrite (tl_home cap) in Hgood.
    destruct (namex_run (LL := tl_read cap) devsw V [] ltac:(unfold NBUF; simpl; lia) (y_fs t0) f path false x Hid C Hsz Hst Hgood) as (r & F & E & Hr).
    set (Is := ic_inodes F).
    assert (Hw : wp (namei devsw path) (fun o t => o = fst <$> r /\ fs_rel (LL := tl_read cap) t V ∅ [] /\ fs_stay (LL := tl_read cap) (y_fs t0) t /\
      ic_inodes t = Is) (y_fs t0)).
    { unfold namei. apply wp_bind. eapply outcome_wp; [exact E|]. apply wp_ret.
      destruct (resolve _ _ _ _ _) as [[y nm]|]; [destruct Hr as (i & -> & _ & R & S & _ & _)|destruct Hr as (-> & R & S & _ & _)]; by split_and!. }
    destruct (during_fs cap t0 V _ Is t0 _ (fun o => o = fst <$> r) HD Hw) as (o & s & Es & -> & HD' & Hm).
    exists (fst <$> r), s, Is. split_and!; try done.
    destruct (resolve _ _ _ _ _) as [[y nm]|]; [destruct Hr as (i & -> & Hi & _ & _ & C' & _); by exists i|destruct Hr as (-> & _ & _ & C' & _); done].
  Qed.

End exec.

(** *** A kernel with a program "/a" and 49 free pages *)

(** One more page in the list of free pages. *)
Definition stock_page (v : Z) (k : kst) : kst :=
  Kst (k_base k) (km_lock k) (km_use_lock k) v (<[v := junk (km_freelist k)]> (k_pages k)) (k_out k).
Fixpoint stocked (n : nat) (k : kst) : kst :=
  match n with
  | O => k
  | S n => stock_page (0x80400000 + Z.of_nat n * PGSIZE) (stocked n k)
  end.

Lemma chain_some m : forall l r v, chain m r l -> v ∈ l -> is_Some (m !! v).
Proof.
  induction l as [|a l IH]; intros r v; [by intros _ ?%elem_of_nil|]. intros (_ & _ & _ & p & Hp & _ & Hc) [->|Hv]%elem_of_cons; [by eexists|by eapply IH].
Qed.
Lemma owned_some kend k d l v : space_ok kend k d l -> owned k d v -> is_Some (k_pages k !! v).
Proof.
  intros [Hpt [Hu _] _ _] [[->|(i & Hi & HV & <-)]|(n & Hn & Hv)]; [apply (po_dir _ _ _ _ Hpt)|apply (po_tab _ _ _ _ Hpt i Hi HV)|apply (Hu n v Hn Hv)].
Qed.

Lemma stock_space kend k d l v :
  space_ok kend k d l -> freeable kend v -> k_pages k !! v = None -> space_ok kend (stock_page v k) d (v :: l).
Proof.
  intros Hsp Hv Hno. pose proof (heap_of_pt _ _ _ _ (so_pt _ _ _ _ Hsp)) as [[K1 K2 K3 K4 K5] K6 K7].
  assert (Hl : v ∉ l) by (intros Hin; destruct (chain_some _ _ _ v K1 Hin) as [x Hx]; congruence).
  assert (Ho : forall w, owned k d w -> w <> v) by (intros w Hw ->; destruct (owned_some kend k d l v Hsp Hw) as [x Hx]; congruence).
  assert (Hlu : is_u32 (km_freelist k)) by (eapply chain_range; [exact K1|]; intros x Hx; destruct (K6 x Hx) as (_ & ? & ? & _); unfold is_u32, KERNBASE in *; lia).
  destruct Hv as (V1 & V2 & V3 & V4).
  apply (space_apart kend k _ d l); [done| |intros x [->|Hx]%elem_of_cons Hw; [by apply (Ho v)|by apply (owned_not_free kend k d l x)]|].
  2: { intros w Hw. cbn [stock_page k_pages]. apply lookup_insert_ne. intros <-. by apply (Ho v). }
  split; cbn [stock_page k_pages].
  - split; cbn [stock_page k_pages km_freelist km_lock k_base]; try done.
    + simpl. split_and!; [done|unfold KERNBASE in *; lia|done|]. exists (junk (km_freelist k)).
      rewrite lookup_insert_eq. split_and!; [done|apply length_junk|].
      unfold junk. rewrite get32_put32_eq by (rewrite length_replicate; unfold PGSIZE; lia). rewrite u32_id by done. by apply chain_insert.
    + apply NoDup_cons. by split.
    + intros w p [[_ <-]|[_ Hp]]%lookup_insert_Some; [apply length_junk|by eapply K3].
  - intros x [->|Hx]%elem_of_cons; [exact (conj V1 (conj V2 (conj V3 V4)))|auto].
  - intros w p [[_ <-]|[_ Hp]]%lookup_insert_Some; [apply junk_u8|by eapply K7].
Qed.

Definition stock (n : nat) : list Z := (fun i => 0x80400000 + Z.of_nat i * PGSIZE) <$> reverse (seq 0 n).
Lemma stocked_pages n k v : v < 0x80400000 \/ 0x80400000 + Z.of_nat n * PGSIZE <= v -> k_pages (stocked n k) !! v = k_pages k !! v.
Proof.
  induction n as [|n IH]; [done|]. intros H. cbn [stocked stock_page k_pages]. unfold PGSIZE in *. rewrite lookup_insert_ne by lia. apply IH. lia.
Qed.
Lemma stocked_space n k d l :
  (n <= 1000)%nat -> space_ok 0x80110000 k d l -> (forall v, 0x80400000 <= v -> k_pages k !! v = None) -> space_ok 0x80110000 (stocked n k) d (stock n ++ l).
Proof.
  intros Hn Hsp Hno. induction n as [|n IH]; [done|]. unfold stock. rewrite seq_S, reverse_snoc. cbn [fmap list_fmap app stocked].
  apply stock_space; [apply IH; lia| |].
  - unfold freeable, KERNBASE, PHYSTOP, PGSIZE. split_and!; [|lia..]. rewrite Z.add_mod, Z_mod_mult by done. done.
  - rewrite stocked_pages by (unfold PGSIZE; lia). apply Hno. unfold PGSIZE. lia.
Qed.

Definition prog_bytes : list Z :=
  be32 ELF_MAGIC ++ replicate 20 0 ++ be32 4 ++ be32 52 ++ replicate 12 0 ++ be16 1 ++ replicate 6 0 ++
  be32 ELF_PROG_LOAD ++ be32 84 ++ be32 0 ++ be32 0 ++ be32 8 ++ be32 5000 ++ replicate 8 0 ++ [1; 2; 3; 4; 5; 6; 7; 8] ++ replicate 420 0.
Definition mid5 : sys log :=
  set_base base2 (Sys (Fs (tree_state prog_bytes base2) (Spinlock 0 "icache" None []) (replicate 3 unused)) mem0 (Spinlock 0 "ftable" None []) [] ∅ vars2).
Definition sys5 : sys log := around vars2 (stocked 47 (vm_at 0)) mid5.
Lemma mid5_base : y_base mid5 = base2.
Proof. apply y_base_set. Qed.
Lemma sys5_base : y_base sys5 = base2.
Proof. exact mid5_base. Qed.
Definition file5 : inode := disk_ip (tree_V prog_bytes) 2.

Lemma sys5_idle : idle 9 sys5 (tree_V prog_bytes) /\ home sys5 = 1014.
Proof.
  assert (Hb : base_ok base2) by (split; [reflexivity|simpl; lia]). destruct (tree_rel prog_bytes base2 Hb) as [R Hst].
  set (s := Sys (Fs (tree_state prog_bytes base2) (Spinlock 0 "icache" None []) (replicate 3 unused)) mem0 (Spinlock 0 "ftable" None []) [] ∅ vars2).
  destruct (idle_base 9 s (tree_V prog_bytes) base2 ltac:(split; [exact R|reflexivity]) Hb) as [H1 H2].
  split; [exact H1|]. change (home (set_base base2 s) = 1014). rewrite H2. exact Hst.
Qed.

Lemma tree_V_u8 content : Forall is_u8 content -> forall b, Forall is_u8 (tree_V content b).
Proof.
  intros H b. unfold tree_V, disk_get, tree_disk. cbn [dk_writes written dk_img].
  repeat match goal with |- context [if ?c then _ else _] => destruct c end; try done; apply (bool_decide_unpack _); by vm_compute.
Qed.

Lemma prog_runs : fst <$> program (tree_V prog_bytes) file5 = Some 5000.
Proof. by vm_compute. Qed.
Lemma prog_header : header_of (tree_V prog_bytes) file5 = Elfhdr ELF_MAGIC 4 52 1.
Proof. by vm_compute. Qed.
Lemma prog_runnable : runnable (tree_V prog_bytes) 1014 8 (Some (2, [97])).
Proof.
  cbn [runnable]. fold file5. rewrite prog_header. split.
  - split.
    + by vm_compute.
    + by vm_compute.
    + apply (mapped_one _ _ _ 101); [by vm_compute|by vm_compute|lia|by vm_compute].
    + by vm_compute.
    + apply tree_V_u8. apply (bool_decide_unpack _). by vm_compute.
  - change (Z.to_nat (e_phnum _)) with 1%nat. change (u32 (e_phoff _)) with 52. cbn [safe]. unfold header_at. rewrite decide_True by (by vm_compute).
    split; [|exact I]. replace (ph_decode _) with (Proghdr 1 84 0 8 5000) by (by vm_compute). intros _ _. split_and!; by vm_compute.
Qed.

Lemma sys5_stack : stack_ok (pages_of 5000) [[97]].
Proof. apply (bool_decide_unpack _). by vm_compute. Qed.

