(* ===== verification/Trap.v ===== *)
(** Traps and system calls: sysproc.c, the dispatch of syscall.c and trap.c. *)
From stdpp Require Import base numbers list strings sets gmap.
From S2P Require Import Prelude Params Spinlock Sched Bio Cache BlockIf Log Crash Trans Inode FileData Dir Kalloc Vm Pipe Sys File Proc Exec Syscall Sysfile Life.

(** *** traps.h *)
Definition T_SYSCALL : Z := 64.
Definition IRQ_KMC : Z := 5.
Definition IRQ_TIMER : Z := 36.
Definition IRQ_DPSLS : Z := 37.

(** *** The interrupt descriptor table (trap.c): flags and handler of each
    entry, [idtset], the table register, and how often the hardware has been
    told to load the table. *)
Module Idt.
Definition IDT_FLAGS_VALID : Z := 1.
Definition IDT_FLAGS_ENABLE : Z := 2.

Record idts := Idts { entries : list (Z * Z); idtset : Z; idtr : Z; loads : Z }.

Definition setintvec (irq : nat) (func : Z) (valid enable : bool) (s : idts) : idts :=
  Idts (<[irq := (Z.lor (if valid then IDT_FLAGS_VALID else 0) (if enable then IDT_FLAGS_ENABLE else 0), func)]> (entries s))
    (idtset s) (idtr s) (loads s).

  Section idt.
    (** The entry points of vectors.S, and the address of the table. *)
    Context (vectors : nat -> Z) (idt_addr : Z).

    (** [tvinit] without its last call, which sets up [tickslock]. *)
Fixpoint set_from (i n : nat) (s : idts) : idts :=
      match n with
      | O => s
      | S n =>
          let old := fst (nth i (entries s) (0, 0)) in
          set_from (S i) n (setintvec i (vectors i) true
            (if (i <? 38)%nat then Flag.has old IDT_FLAGS_ENABLE else true) s)
      end.
Definition tvinit (s : idts) : idts :=
      setintvec 64 (vectors 64) true true (set_from 0 64 s).

Definition idtinit (s : idts) : idts := Idts (entries s) 1 (v2p idt_addr) (loads s + 1).
Definition idtenable (irq : nat) (s : idts) : idts :=
      let '(fl, h) := nth irq (entries s) (0, 0) in
      let e := <[irq := (Z.lor fl IDT_FLAGS_ENABLE, h)]> (entries s) in
      Idts e (idtset s) (idtr s) (if idtset s =? 0 then loads s else loads s + 1).
  End idt.
End Idt.

Section trap.
  Context {St : Type} {LO : LogOps St} (devsw : Z -> @devops St) (kend kdata : Z) (stack : list Z).
  Abbreviation SYS := (M (sys St)).

  (** *** sysproc.c *)
Definition sys_fork : SYS Z := fork kend kdata.
Definition sys_exit : SYS Z := exit kend.
Definition sys_wait : SYS Z := wait kend.
Definition sys_kill : SYS Z :=
    pid <- argint 0 ;;
    match pid with None => ret (-1) | Some pid => on_base (kill pid) end.
Definition sys_getpid : SYS Z := p <- curproc ;; ret (p_pid p).
Definition sys_sbrk : SYS Z :=
    n <- argint 0 ;;
    match n with
    | None => ret (-1)
    | Some n =>
        p <- curproc ;;
        let addr := p_sz p in
        r <- growproc kend n ;;
        if r <? 0 then ret (-1) else ret (s32 addr)
    end.

Definition ticks : SYS Z := gets (fun s => v_ticks (y_vars s)).

  (** A tick wakes the sleepers, so [n] rounds are enough. *)
Fixpoint sleep_loop (fuel : nat) (ticks0 n : Z) : SYS Z :=
    match fuel with
    | O => diverge
    | S fuel =>
        t <- ticks ;;
        if negb (u32 (t - ticks0) <? u32 n) then zoom (L := ticks_l) release ;;; ret 0 else
        p <- curproc ;;
        if negb (p_killed p =? 0) then zoom (L := ticks_l) release ;;; ret (-1) else
        sleep y_base_l ChTicks (Some ticks_l) ;;;
        sleep_loop fuel ticks0 n
    end.
Definition sys_sleep : SYS Z :=
    n <- argint 0 ;;
    match n with
    | None => ret (-1)
    | Some n =>
        zoom (L := ticks_l) acquire ;;;
        t <- ticks ;;
        sleep_loop (S (Z.to_nat (u32 n))) t n
    end.
Definition sys_uptime : SYS Z :=
    zoom (L := ticks_l) acquire ;;;
    t <- ticks ;;
    zoom (L := ticks_l) release ;;;
    ret (s32 t).

  (** *** syscall.c: the table and the dispatch. Of the message only the
      fixed part is kept. *)
Definition syscalls (num : Z) : option (SYS Z) :=
    if num =? 1 then Some sys_fork else if num =? 2 then Some sys_exit else
    if num =? 3 then Some sys_wait else if num =? 4 then Some (sys_pipe kend) else
    if num =? 5 then Some (sys_read devsw) else if num =? 6 then Some sys_kill else
    if num =? 7 then Some (sys_exec devsw kend kdata stack) else if num =? 8 then Some sys_fstat else
    if num =? 9 then Some (sys_chdir devsw) else if num =? 10 then Some sys_dup else
    if num =? 11 then Some sys_getpid else if num =? 12 then Some sys_sbrk else
    if num =? 13 then Some sys_sleep else if num =? 14 then Some sys_uptime else
    if num =? 15 then Some (sys_open devsw kend) else if num =? 16 then Some (sys_write devsw) else
    if num =? 17 then Some (sys_mknod devsw) else if num =? 18 then Some (sys_unlink devsw) else
    if num =? 19 then Some (sys_link devsw) else if num =? 20 then Some (sys_mkdir devsw) else
    if num =? 21 then Some (sys_close kend) else None.

Definition set_ret (r : Z) (p : proc) : proc := set_tf (set_r0 (u32 r) (p_tf p)) p.

Definition syscall : SYS unit :=
    p <- curproc ;;
    match syscalls (s32 (tf_r0 (p_tf p))) with
    | Some f => r <- f ;; upd_cur (set_ret r)
    | None => on_kst (cprint "unknown sys call") ;;; upd_cur (set_ret (-1))
    end.

  (** *** trap. The keyboard's and the serial port's handlers work on the
      console's state, and [timereoi] on the timer's registers. *)
  Context (kbdintr uartintr timereoi : SYS unit).

Definition user_mode (tf : trapframe) : bool := Flag.has (tf_ppsr tf) PSR_CMOD_USER.
Definition killed : SYS bool :=
    s <- get ;;
    match cproc (b_cpu (y_base s)) with
    | None => ret false
    | Some _ => p <- curproc ;; ret (negb (p_killed p =? 0))
    end.

Definition tick : SYS unit :=
    s <- get ;;
    (if cpu_id (b_cpu (y_base s)) =? 0 then
       zoom (L := ticks_l) acquire ;;;
       upd_vars (fun v => Vars (v_nextpid v) (v_initproc v) (v_first v) (u32 (v_ticks v + 1)) (v_tickslock v)
                            (v_kpgdir v) (v_pdtr v) (v_ppdtr v)) ;;;
       on_base (wakeup ChTicks) ;;;
       zoom (L := ticks_l) release
     else ret tt) ;;;
    timereoi.

Definition trap_cause (tf : trapframe) : SYS unit :=
    if tf_trapno tf =? IRQ_TIMER then tick else
    if tf_trapno tf =? IRQ_KMC then kbdintr else
    if tf_trapno tf =? IRQ_DPSLS then uartintr else
    s <- get ;;
    if bool_decide (cproc (b_cpu (y_base s)) = None) || negb (user_mode tf)
    then on_kst (cprint "unexpected trap") ;;; panic "trap"
    else on_kst (cprint "kill proc") ;;; upd_cur (set_killed 1).

Definition exit_if_killed (tf : trapframe) : SYS unit :=
    k <- killed ;;
    if k && user_mode tf then exit kend else ret tt.

Definition yield_on_tick (tf : trapframe) : SYS unit :=
    s <- get ;;
    match cproc (b_cpu (y_base s)) with
    | None => ret tt
    | Some _ =>
        p <- curproc ;;
        if is_state RUNNING p && (tf_trapno tf =? IRQ_TIMER) then on_base yield else ret tt
    end.

Definition trap (tf : trapframe) : SYS unit :=
    if tf_trapno tf =? T_SYSCALL then
      p <- curproc ;;
      (if negb (p_killed p =? 0) then exit kend else ret tt) ;;;
      upd_cur (set_tf tf) ;;;
      syscall ;;;
      p <- curproc ;;
      if negb (p_killed p =? 0) then exit kend else ret tt
    else
      trap_cause tf ;;;
      exit_if_killed tf ;;;
      yield_on_tick tf ;;;
      exit_if_killed tf.
End trap.

(** ** Sleeping for some ticks *)
Section ticks.
  Context {St : Type} {LO : LogOps St} (me : nat).
  Implicit Types (s : sys St).

Definition set_tlk (lk : spinlock) s : sys St :=
    let v := y_vars s in
    set_vars (Vars (v_nextpid v) (v_initproc v) (v_first v) (v_ticks v) lk (v_kpgdir v) (v_pdtr v) (v_ppdtr v)) s.

  (** With [tickslock] taken on the CPU [c]. *)
Definition ticking (c : cpu) (tlk : spinlock) s : Prop :=
    b_cpu (y_base s) = cli c /\ v_tickslock (y_vars s) = taken c tlk /\ 0 <= ncli c.

Lemma ticks_acquire s :
    Spinlock.free (v_tickslock (y_vars s)) ->
    zoom (L := ticks_l) acquire s =
      Ok tt (set_tlk (taken (b_cpu (y_base s)) (v_tickslock (y_vars s))) (set_base (with_cpu (cli (b_cpu (y_base s))) (y_base s)) s)).
  Proof. intros Hf. by erewrite zoom_ok by (by apply acquire_ok). Qed.

Lemma ticks_release c tlk s :
    ticking c tlk s -> zoom (L := ticks_l) release s = Ok tt (set_tlk (dropped tlk) (set_base (with_cpu (quiet c) (y_base s)) s)).
  Proof.
    intros (Hc & Ht & Hn). erewrite (zoom_ok (L := ticks_l) release s tt (quiet c, dropped tlk)); [reflexivity|].
    cbn [lget ticks_l]. rewrite Hc, Ht. apply release_taken. lia.
  Qed.

Lemma sleep_ticks c tlk p s :
    ticking c tlk s -> ncli c = 0 -> cproc c = Some me -> Spinlock.free (b_lock (y_base s)) -> b_procs (y_base s) !! me = Some p ->
    exists k,
      sleep y_base_l ChTicks (Some ticks_l) s =
        Switch (set_tlk (dropped tlk) (held c (b_lock (y_base s)) (alter (asleep ChTicks) me (b_procs (y_base s))) s)) k /\
      forall d plk ps s2, locked_by d plk ps s2 -> cproc d = Some me -> Spinlock.free (v_tickslock (y_vars s2)) ->
        k s2 = Ok tt (set_tlk (taken d (v_tickslock (y_vars s2)))
                        (set_base (Base (cli d) (dropped plk) (alter (set_chan None) me ps)) s2)).
  Proof.
    intros (Hc & Ht & _) Hn Hme Hf Hp. set (plk := b_lock (y_base s)) in *. set (ps := b_procs (y_base s)) in *.
    assert (Hb : y_base s = Base (cli c) plk ps) by (unfold plk, ps; rewrite <- Hc; by destruct (y_base s)).
    set (b1 := Base (cli (cli c)) (taken c plk) ps).
    assert (E1 : zoom (L := y_base_l) (zoom (L := ptable) acquire) s = Ok tt (set_base b1 s)).
    { erewrite zoom_ok; [reflexivity|]. cbn [lget y_base_l]. rewrite Hb. by erewrite ptable_acquire. }
    assert (E2 : zoom (L := ticks_l) release (set_base b1 s) = Ok tt (set_tlk (dropped tlk) (held c plk ps s))).
    { erewrite zoom_ok.
      2:{ cbn [lget ticks_l]. rewrite y_base_set. change (v_tickslock (y_vars (set_base b1 s))) with (v_tickslock (y_vars s)).
          rewrite Ht. apply (release_taken (cli c)). simpl. lia. }
      cbn [lset ticks_l fst snd]. rewrite y_base_set. cbn [y_fs y_mem ft_lock ft_files y_pipes y_vars set_base].
      rewrite put_base_put. rewrite quiet_cli by lia. reflexivity. }
    eexists. split.
    - unfold sleep. erewrite bind_ok by reflexivity. cbn [lget y_base_l]. rewrite Hb. cbn [b_cpu]. change (cproc (cli c)) with (cproc c).
      rewrite Hme. erewrite bind_ok by (rewrite (bind_ok _ _ _ _ _ E1); exact E2).
      erewrite bind_switch; [reflexivity|]. erewrite zoom_switch.
      2:{ cbn [lget y_base_l]. change (y_base (set_tlk ?l ?s)) with (y_base s). rewrite y_base_held.
          erewrite bind_ok by reflexivity. erewrite bind_ok by reflexivity. cbn [b_cpu b_lock b_procs].
          erewrite bind_switch; [reflexivity|]. eapply sched_run; [done|exact Hme|by rewrite !list_lookup_alter_eq, Hp|done]. }
      cbn [lset y_base_l]. rewrite alter_alter.
      assert (Est : forall b, set_base b (set_tlk (dropped tlk) (held c plk ps s)) = set_tlk (dropped tlk) (set_base b s)).
      { intros b. unfold set_base, held, set_tlk, set_vars. cbn [y_fs y_mem ft_lock ft_files y_pipes y_vars set_base].
        by rewrite put_base_put. }
      rewrite Est. reflexivity.
    - intros d plk2 ps2 s2 [Hb2 Hnd] Hcd Hfree. cbn [lget y_base_l lset]. rewrite Hb2. cbn [obind b_cpu b_lock b_procs].
      assert (set_intena false (cli d) = cli d) as -> by (unfold set_intena, cli; simpl; by rewrite Hnd).
      erewrite (bind_ok myproc).
      2:{ unfold myproc. erewrite bind_ok by reflexivity. cbn [b_cpu cli cproc]. by rewrite Hcd. }
      cbn [upd_proc modify b_cpu b_lock b_procs ozoom lset y_base_l obind].
      set (ps3 := alter (set_chan None) me ps2). set (s3 := set_base (Base (cli d) (taken d plk2) ps3) s2).
      assert (E3 : zoom (L := y_base_l) (zoom (L := ptable) release) s3 = Ok tt (set_base (Base (quiet d) (dropped plk2) ps3) s2)).
      { unfold s3. erewrite zoom_ok; [|cbn [lget y_base_l]; rewrite y_base_set; apply ptable_release; lia].
        cbn [lset y_base_l]. by rewrite set_base_set. }
      rewrite (bind_ok _ _ _ _ _ E3), ticks_acquire by done. rewrite y_base_set. cbn [b_cpu with_cpu b_lock b_procs].
      rewrite cli_quiet, set_base_set. reflexivity.
  Qed.

  (** Asleep until the next tick. *)
Definition dozing s : Prop :=
    exists c plk ps p, locked_by c plk ps s /\ cproc c = Some me /\ ps !! me = Some p /\
      p_state p = SLEEPING /\ p_chan p = Some ChTicks /\ Spinlock.free (v_tickslock (y_vars s)).

  (** Between falling asleep and being switched back to, the clock has ticked
      or the process has been killed. *)
Definition awake s s' : Prop :=
    exists d plk ps p, locked_by d plk ps s' /\ cproc d = Some me /\ ps !! me = Some p /\
      Spinlock.free (v_tickslock (y_vars s')) /\
      (p_killed p <> 0 \/ exists m, 1 <= m <= 2 ^ 31 /\ v_ticks (y_vars s') = u32 (v_ticks (y_vars s) + m)).
Definition clocked (env : sys St -> sys St) : Prop := forall s, dozing s -> awake s (env s).

Definition elapsed (t0 : Z) s : Z := u32 (v_ticks (y_vars s) - t0).

Lemma elapsed_tick t m t0 : 0 <= m -> u32 (t - t0) + m < 2 ^ 32 -> u32 (u32 (t + m) - t0) = u32 (t - t0) + m.
  Proof.
    intros Hm Hlt. unfold u32 in *. rewrite Zminus_mod_idemp_l. replace (t + m - t0) with (t - t0 + m) by lia.
    rewrite <- Zplus_mod_idemp_l. apply Z.mod_small. pose proof (Z.mod_pos_bound (t - t0) (2 ^ 32)). lia.
  Qed.

  (** How a sleep ends. *)
Definition slept (t0 n r : Z) s' : Prop :=
    Spinlock.free (v_tickslock (y_vars s')) /\ Spinlock.free (b_lock (y_base s')) /\
    (r = 0 /\ u32 n <= elapsed t0 s' \/ r = -1 /\ exists q, b_procs (y_base s') !! me = Some q /\ p_killed q <> 0).

Lemma sleep_loop_drive env t0 n (fuel : nat) : forall s c tlk p,
    clocked env -> 0 <= n < 2 ^ 31 -> ticking c tlk s -> ncli c = 0 -> cproc c = Some me -> Spinlock.free (b_lock (y_base s)) ->
    b_procs (y_base s) !! me = Some p -> (0 < fuel)%nat -> (p_killed p = 0 -> n - elapsed t0 s < Z.of_nat fuel) ->
    exists tr r s', drive env (sleep_loop fuel t0 n s) = (tr, Ok r s') /\ slept t0 n r s' /\ (forall t, t ∈ tr -> dozing t).
  Proof.
    induction fuel as [|fuel IH]; intros s c tlk p Henv Hn Htk Hncli Hc Hf Hp H0 Hfuel; [lia|].
    pose proof Htk as (Hcpu & Ht & _). cbn [sleep_loop]. erewrite bind_ok by reflexivity.
    assert (Hcur : current me p s) by (split; [by rewrite Hcpu|done]).
    assert (Hun : u32 n = n) by (apply u32_id; unfold is_u32; lia).
    assert (Hend : forall r, slept t0 n r (set_tlk (dropped tlk) (set_base (with_cpu (quiet c) (y_base s)) s)) <->
      (r = 0 /\ u32 n <= elapsed t0 s \/ r = -1 /\ exists q, b_procs (y_base s) !! me = Some q /\ p_killed q <> 0)).
    { intros r. unfold slept. change (y_base (set_tlk ?l ?x)) with (y_base x). rewrite y_base_set. cbn [with_cpu b_lock b_procs].
      change (elapsed t0 (set_tlk _ _)) with (elapsed t0 s). split; [by intros (_ & _ & H)|]. by intros H; split_and!. }
    change (u32 (v_ticks (y_vars s) - t0)) with (elapsed t0 s). destruct (Z.ltb_spec (elapsed t0 s) (u32 n)) as [Hlt|Hge]; cbn [negb].
    2:{ eexists [], 0, _. rewrite (bind_ok _ _ _ _ _ (ticks_release c tlk s Htk)). split_and!; [reflexivity| |by intros t ?%elem_of_nil].
        apply Hend. by left. }
    rewrite (bind_ok _ _ _ _ _ (curproc_run me p s Hcur)). destruct (Z.eqb_spec (p_killed p) 0) as [Hk|Hk]; cbn [negb].
    2:{ eexists [], (-1), _. rewrite (bind_ok _ _ _ _ _ (ticks_release c tlk s Htk)). split_and!; [reflexivity| |by intros t ?%elem_of_nil].
        apply Hend. right. split; [done|]. by exists p. }
    destruct (sleep_ticks c tlk p s Htk Hncli Hc Hf Hp) as (k & Es & Hres). rewrite (bind_switch _ _ _ _ _ Es).
    set (ps1 := alter (asleep ChTicks) me (b_procs (y_base s))).
    set (s1 := set_tlk (dropped tlk) (held c (b_lock (y_base s)) ps1 s)).
    assert (Hdoz : dozing s1).
    { exists c, (b_lock (y_base s)), ps1, (asleep ChTicks p). split_and!; try done; [|unfold ps1; by rewrite list_lookup_alter_eq, Hp].
      split; [|done]. exact (y_base_held c (b_lock (y_base s)) ps1 s). }
    destruct (Henv s1 Hdoz) as (d & plk & ps & q & [Hb2 Hnd] & Hcd & Hq & Hfree & Htick). cbn [drive].
    rewrite (Hres d plk ps (env s1) (conj Hb2 Hnd) Hcd Hfree). cbn [obind].
    set (s2 := set_tlk _ _). assert (Hbs : y_base s2 = Base (cli d) (dropped plk) (alter (set_chan None) me ps)) by exact (y_base_set _ _).
    destruct (IH s2 d (v_tickslock (y_vars (env s1))) (set_chan None q)) as (tr & r & s' & E & Hsl & Hd); try done.
    - split_and!; [by rewrite Hbs|done|lia].
    - by rewrite Hbs.
    - rewrite Hbs. cbn [b_procs]. by rewrite list_lookup_alter_eq, Hq.
    - specialize (Hfuel Hk). rewrite Hun in Hlt. lia.
    - cbn [set_chan p_killed]. intros Hk2. destruct Htick as [?|(m & Hm & Hv)]; [done|].
      specialize (Hfuel Hk). unfold elapsed in *. change (v_ticks (y_vars s2)) with (v_ticks (y_vars (env s1))). rewrite Hv.
      change (v_ticks (y_vars s1)) with (v_ticks (y_vars s)). rewrite elapsed_tick; lia.
    - rewrite E. exists (s1 :: tr), r, s'. split_and!; [done|done|]. intros t [->|Ht']%elem_of_cons; [done|by apply Hd].
  Qed.

  (** C35. [sleep(n)] comes back: as long as the process is switched back to only
      after a tick or when it has been killed, the call ends, with 0 when at
      least [n] ticks have passed since it was made (the counter may have
      wrapped) and with -1 only when the process has been killed. Whenever it
      gives up the CPU it is asleep on the clock's channel with [tickslock]
      free, so that the next tick finds it; at the end both locks are free. *)
Theorem sys_sleep_spec env s p v :
    clocked env -> current me p s -> base_ok (y_base s) -> ncli (b_cpu (y_base s)) = 0 ->
    Spinlock.free (v_tickslock (y_vars s)) -> arg_reg (p_tf p) 0 = Some v -> 0 <= s32 v ->
    exists tr r s', drive env (sys_sleep s) = (tr, Ok r s') /\
      slept (v_ticks (y_vars s)) (s32 v) r s' /\ (forall t, t ∈ tr -> dozing t).
  Proof.
    intros Henv Hcur [Hf _] Hn Hfree Hv Hpos. unfold sys_sleep.
    rewrite (bind_ok _ _ _ _ _ (argint_run me p s 0 v Hcur Hv)), (bind_ok _ _ _ _ _ (ticks_acquire s Hfree)).
    set (c := b_cpu (y_base s)) in *. set (s1 := set_tlk _ _). erewrite bind_ok by reflexivity.
    change (v_ticks (y_vars s1)) with (v_ticks (y_vars s)).
    assert (Hb : y_base s1 = with_cpu (cli c) (y_base s)) by exact (y_base_set _ _).
    pose proof (s32_range v) as Hr. unfold is_s32 in Hr. assert (Hu : u32 (s32 v) = s32 v) by (apply u32_id; unfold is_u32; lia).
    eapply (sleep_loop_drive env); [done|lia| |exact Hn| | | |lia|].
    - split_and!; [by rewrite Hb|reflexivity|lia].
    - apply (cu_cpu _ _ _ Hcur).
    - by rewrite Hb.
    - rewrite Hb. apply (cu_proc _ _ _ Hcur).
    - intros _. unfold elapsed. change (v_ticks (y_vars s1)) with (v_ticks (y_vars s)). rewrite Z.sub_diag. change (u32 0) with 0. lia.
  Qed.

  (** *** The tick *)
Definition next_tick (v : vars) : vars :=
    Vars (v_nextpid v) (v_initproc v) (v_first v) (u32 (v_ticks v + 1)) (dropped (v_tickslock v)) (v_kpgdir v) (v_pdtr v) (v_ppdtr v).

Lemma tick_run s (eoi : M (sys St) unit) :
    base_ok (y_base s) -> Spinlock.free (v_tickslock (y_vars s)) ->
    tick eoi s = eoi (if cpu_id (b_cpu (y_base s)) =? 0
                      then set_vars (next_tick (y_vars s)) (set_base (settled (y_base s) (wake ChTicks <$> b_procs (y_base s))) s)
                      else s).
  Proof.
    intros [Hf Hn] Ht. unfold tick. erewrite bind_ok by reflexivity. set (c := b_cpu (y_base s)) in *.
    destruct (cpu_id c =? 0); [|done].
    set (s1 := set_tlk (taken c (v_tickslock (y_vars s))) (set_base (with_cpu (cli c) (y_base s)) s)).
    assert (E1 : zoom (L := ticks_l) acquire s = Ok tt s1) by (by apply ticks_acquire).
    erewrite bind_ok; [reflexivity|]. rewrite (bind_ok _ _ _ _ _ E1). erewrite bind_ok by reflexivity.
    set (s2 := set_vars _ s1).
    assert (Hb : y_base s2 = with_cpu (cli c) (y_base s)) by exact (y_base_set _ _).
    set (b3 := settled (with_cpu (cli c) (y_base s)) (wake ChTicks <$> b_procs (y_base s))).
    assert (E2 : on_base (wakeup ChTicks) s2 = Ok tt (set_base b3 s2)).
    { apply on_base_ok. rewrite Hb. apply wakeup_run. split; [done|]. simpl. lia. }
    rewrite (bind_ok _ _ _ _ _ E2).
    rewrite (ticks_release c (v_tickslock (y_vars s))).
    2:{ split_and!; [rewrite y_base_set; simpl; by rewrite quiet_cli by lia|done|done]. }
    rewrite y_base_set. unfold set_tlk, set_vars, set_base. cbn [y_fs y_mem ft_lock ft_files y_pipes y_vars s2 s1 set_tlk set_vars set_base].
    by rewrite !put_base_put.
  Qed.
End ticks.

(** ** A fault *)
Section fault.
  Context {St : Type} {LO : LogOps St} {TL : TransLaws St} (cap : nat) (devsw : Z -> @devops St) (kend kdata : Z) (stack : list Z).
  Context (kbdintr uartintr timereoi : M (sys St) unit) (me : nat).
  Implicit Types (s : sys St).

  (** Neither a system call nor an interrupt of a known device. *)
Definition is_fault (tf : trapframe) : Prop :=
    tf_trapno tf <> T_SYSCALL /\ tf_trapno tf <> IRQ_TIMER /\ tf_trapno tf <> IRQ_KMC /\ tf_trapno tf <> IRQ_DPSLS.

Lemma trap_is_fault tf s : is_fault tf ->
    trap devsw kend kdata stack kbdintr uartintr timereoi tf s =
    ((s <- get ;;
      if bool_decide (cproc (b_cpu (y_base s)) = None) || negb (user_mode tf)
      then on_kst (cprint "unexpected trap") ;;; panic "trap"
      else on_kst (cprint "kill proc") ;;; upd_cur (set_killed 1)) ;;;
     exit_if_killed kend tf ;;; yield_on_tick tf ;;; exit_if_killed kend tf) s.
  Proof.
    intros (H1 & H2 & H3 & H4). unfold trap, trap_cause. destruct (Z.eqb_spec (tf_trapno tf) T_SYSCALL); [done|].
    destruct (Z.eqb_spec (tf_trapno tf) IRQ_TIMER); [done|]. destruct (Z.eqb_spec (tf_trapno tf) IRQ_KMC); [done|].
    by destruct (Z.eqb_spec (tf_trapno tf) IRQ_DPSLS).
  Qed.

Definition printed (msg : string) s : sys St :=
    let m := y_mem s in
    Sys (y_fs s) (Mem (m_lock m) (m_use_lock m) (m_freelist m) (m_pages m) (m_out m ++ [msg])) (ft_lock s) (ft_files s) (y_pipes s) (y_vars s).

Lemma cprint_run msg s : on_kst (cprint msg) s = Ok tt (printed msg s).
  Proof.
    erewrite on_kst_ok by reflexivity. unfold set_kst, printed, y_kst, y_base.
    cbn [k_base km_lock km_use_lock km_freelist k_pages k_out]. by rewrite put_base_get.
  Qed.

  (** What [exit] needs of a process does not depend on the mark, nor on what
      was printed. *)
Lemma exiting_killed V p s n msg :
    exiting cap me V p s -> exiting cap me V (set_killed n p) (set_procs (<[me := set_killed n p]> (b_procs (y_base s))) (printed msg s)).
  Proof.
    intros [[Hc Hl Hn Hf] HV Hh Hop Hcwd]. pose proof (cu_proc _ _ _ Hc) as Hp. set (s1 := printed msg s).
    assert (HV1 : idle cap s1 V) by exact HV. set (ps := <[me := set_killed n p]> (b_procs (y_base s))).
    destruct (idle_base cap s1 V (Base (b_cpu (y_base s1)) (b_lock (y_base s1)) ps) HV1) as [HV2 Hh2].
    { destruct (idle_ok cap s1 V HV1). by split. }
    fold (set_procs ps s1) in HV2, Hh2.
    assert (Hb : y_base (set_procs ps s1) = Base (b_cpu (y_base s)) (b_lock (y_base s)) ps) by exact (y_base_procs ps s1).
    split; [|done|by rewrite Hh2|done|done]. split; rewrite ?Hb; try done.
    - split; rewrite Hb; [apply Hc|]. cbn [b_procs]. unfold ps. rewrite list_lookup_insert_eq; [done|]. by eapply lookup_lt_Some.
    - cbn [b_procs]. change (ft_files (set_procs ps s1)) with (ft_files s). eapply files_ok_ofile; [|exact Hf]. unfold ps.
      rewrite list_fmap_insert. apply list_insert_id. by rewrite list_lookup_fmap, Hp.
  Qed.

  (** C33. A fault or a stray interrupt. In a user program it ends the program:
      the process is marked killed and exits, becoming a zombie, before it
      runs another instruction. In the kernel, or with no process running, the
      kernel panics. *)
Theorem trap_fault_spec V p s tf :
    is_fault tf -> exiting cap me V p s -> v_initproc (y_vars s) <> Some me -> ncli (b_cpu (y_base s)) = 0 ->
    if user_mode tf then
      exists s1 k q, trap devsw kend kdata stack kbdintr uartintr timereoi tf s = Switch s1 k /\
        (forall s2, k s2 = Panic "zombie exit") /\ b_procs (y_base s1) !! me = Some q /\ p_state q = ZOMBIE
    else trap devsw kend kdata stack kbdintr uartintr timereoi tf s = Panic "trap".
  Proof.
    intros Hft He Hini Hn. rewrite (trap_is_fault tf s Hft). pose proof (ca_cur _ _ _ (ex_call _ _ _ _ _ He)) as Hc.
    destruct (user_mode tf) eqn:Hu.
    2:{ apply bind_panic. erewrite bind_ok by reflexivity. rewrite orb_true_r. by rewrite (bind_ok _ _ _ _ _ (cprint_run _ _)). }
    assert (Hc1 : current me p (printed "kill proc" s)) by (by destruct Hc). set (s1 := set_procs (<[me := set_killed 1 p]> (b_procs (y_base s))) (printed "kill proc" s)).
    assert (E1 : (s <- get ;;
      if bool_decide (cproc (b_cpu (y_base s)) = None) || negb true
      then on_kst (cprint "unexpected trap") ;;; panic "trap"
      else on_kst (cprint "kill proc") ;;; upd_cur (set_killed 1)) s = Ok tt s1).
    { erewrite bind_ok by reflexivity. rewrite (cu_cpu _ _ _ Hc), bool_decide_eq_false_2 by done. cbn [negb orb].
      rewrite (bind_ok _ _ _ _ _ (cprint_run _ _)). apply (upd_cur_run me p _ _ Hc1). }
    rewrite (bind_ok _ _ _ _ _ E1). pose proof (exiting_killed V p s 1 "kill proc" He) as He1. fold s1 in He1.
    pose proof (ca_cur _ _ _ (ex_call _ _ _ _ _ He1)) as Hc2.
    assert (Hn1 : ncli (b_cpu (y_base s1)) = 0) by (unfold s1; by rewrite y_base_procs).
    destruct (exit_run cap kend me V (set_killed 1 p) s1 He1 Hini Hn1) as (s3 & p3 & q & k & _ & _ & _ & Hq & E & Hk).
    eexists _, _, (set_state ZOMBIE q). split_and!.
    - erewrite bind_switch; [reflexivity|]. unfold exit_if_killed. erewrite bind_ok.
      2:{ unfold killed. erewrite bind_ok by reflexivity. rewrite (cu_cpu _ _ _ Hc2).
          by rewrite (bind_ok _ _ _ _ _ (curproc_run me _ s1 Hc2)). }
      rewrite Hu. exact E.
    - intros s2. cbn. by rewrite Hk.
    - rewrite y_base_held. cbn [b_procs]. rewrite list_lookup_insert_eq; [done|]. by eapply lookup_lt_Some.
    - done.
  Qed.
End fault.

(** *** The process of Life sleeps for three ticks, and faults *)
Definition tock (s : sys log) : sys log :=
  let v := y_vars s in
  set_vars (Vars (v_nextpid v) (v_initproc v) (v_first v) (u32 (v_ticks v + 1)) (v_tickslock v) (v_kpgdir v) (v_pdtr v) (v_ppdtr v))
    (set_procs (alter (set_state RUNNING) 2%nat (b_procs (y_base s))) s).

Lemma tock_clocked : clocked 2 tock.
Proof.
  intros s (c & plk & ps & p & [Hb Hn] & Hc & Hp & _ & _ & Hf).
  exists c, plk, (alter (set_state RUNNING) 2%nat ps), (set_state RUNNING p). split_and!.
  - split; [|done]. transitivity (y_base (set_procs (alter (set_state RUNNING) 2%nat (b_procs (y_base s))) s)); [reflexivity|].
    by rewrite y_base_procs, Hb.
  - done.
  - by rewrite list_lookup_alter_eq, Hp.
  - exact Hf.
  - right. exists 1. split; [lia|reflexivity].
Qed.

Lemma sys_sleep_spec_witness :
  exists tr r s', drive tock (sys_sleep sys2) = (tr, Ok r s') /\ slept 2 0 3 r s'.
Proof.
  destruct (sys_sleep_spec 2 tock sys2 me2 3 tock_clocked sys2_current) as (tr & r & s' & E & H & _).
  - rewrite sys2_base. split; [reflexivity|simpl; lia].
  - by rewrite sys2_base.
  - reflexivity.
  - reflexivity.
  - vm_compute. discriminate.
  - exists tr, r, s'. split; [exact E|exact H].
Defined.

Definition fault_frame : trapframe := Trapframe 0x60 0x40 0 0 0 0 0 0 0 0 0 14 [].
Lemma trap_fault_spec_witness :
  exists s1 k q, trap no_devs 0x80110000 0x80108000 [] (ret tt) (ret tt) (ret tt) fault_frame sys2 = Switch s1 k /\
    (forall s2, k s2 = Panic "zombie exit") /\ b_procs (y_base s1) !! 2%nat = Some q /\ p_state q = ZOMBIE.
Proof.
  refine (trap_fault_spec 9 no_devs 0x80110000 0x80108000 [] (ret tt) (ret tt) (ret tt) 2 (disk_get fs_disk) me2 sys2 fault_frame
    _ sys2_exiting _ _).
  - by split_and!.
  - discriminate.
  - by rewrite sys2_base.
Defined.
