(* ===== verification/Testrun.v ===== *)
(** User programs on the kernel: every call of a program goes through the
    kernel's table of system calls, with its arguments in the process's
    registers and memory, on a kernel that runs from an image made by mkfs.
    The file system tests of usertests.c pass there. *)
From stdpp Require Import base numbers list strings sets gmap.
From ITree Require Import Core.ITreeDefinition Indexed.Sum.
From S2P Require Import Prelude Params Spinlock Sched Bio Cache BlockIf Log Crash Trans Str Inode FileData Dir Mkfs Image Kalloc Vm Printf User Uprog Usertests Sys File Proc Syscall Sysfile Trap.

Set Warnings "-clear-no-such-hyp".
Close Scope prog_scope.

(** ** One call *)
Section calls.
  Context {St : Type} {LO : LogOps St} (devsw : Z -> @devops St) (kend kdata : Z).

  (** The number and the arguments in the registers, the trap, the result. *)
Definition set_regs (n a b c : Z) (p : proc) : proc :=
    let t := p_tf p in
    set_tf (Trapframe (tf_ppsr t) (tf_ppcr t) (tf_uspr t) (tf_rret t) n a b c (tf_r4 t) (tf_r5 t) (tf_r6 t) (tf_trapno t) (tf_saved t)) p.
Definition swi (n a b c : Z) : M (sys St) Z :=
    upd_cur (set_regs n (u32 a) (u32 b) (u32 c)) ;;;
    syscall devsw kend kdata (replicate 52 0) ;;;
    p <- curproc ;;
    ret (s32 (tf_r0 (p_tf p))).

  (** Where the program keeps its strings and its buffer. *)
Definition STR1 : Z := 0.
Definition STR2 : Z := PGSIZE.
Definition BUF : Z := 2 * PGSIZE.
Definition with_str (path : list Z) (c : M (sys St) Z) : M (sys St) Z := store STR1 (path ++ [0]) ;;; c.

Definition do_write (fd : Z) (b : list Z) : M (sys St) Z := store BUF b ;;; swi 16 fd BUF (Z.of_nat (length b)).
Definition do_read (fd n : Z) : M (sys St) (Z * list Z) :=
    r <- swi 5 fd BUF n ;;
    b <- load BUF (Z.to_nat r) ;;
    ret (r, b).
Definition do_link (old new : list Z) : M (sys St) Z := store STR2 (new ++ [0]) ;;; with_str old (swi 19 STR1 STR2 0).

  (** ** A program that does not fork

      [None] when a call does not come back, or is one for which another
      process would have to run; otherwise what was written to descriptor 1. *)
Fixpoint on_kernel (n : nat) (t : test Empty_set) (s : sys St) (out : list Z) : option (list Z) :=
    match n with
    | O => None
    | S n =>
        match observe t with
        | RetF r => match r : Empty_set with end
        | TauF t => on_kernel n t s out
        | VisF (inr1 _) _ => None
        | VisF (inl1 e) k =>
            let back (o : outcome (sys St) Z) (k : Z -> test Empty_set) :=
              match o with Ok r s => on_kernel n (k r) s out | _ => None end in
            match e in sysE X return (X -> test Empty_set) -> option (list Z) with
            | Exit => fun _ => Some out
            | Open path mode => back (with_str path (swi 15 STR1 mode 0) s)
            | Close fd => back (swi 21 fd 0 0 s)
            | Dup fd => back (swi 10 fd 0 0 s)
            | Unlink path => back (with_str path (swi 18 STR1 0 0) s)
            | Mkdir path => back (with_str path (swi 20 STR1 0 0) s)
            | Chdir path => back (with_str path (swi 9 STR1 0 0) s)
            | Mknod path major minor => back (with_str path (swi 17 STR1 major minor) s)
            | Link old new => back (do_link old new s)
            | Write fd b => fun k =>
                match do_write fd b s with
                | Ok r s => on_kernel n (k r) s (if (fd =? 1) && (r >=? 0) then out ++ take (Z.to_nat r) b else out)
                | _ => None
                end
            | Read fd m => fun k => match do_read fd m s with Ok r s => on_kernel n (k r) s out | _ => None end
            | _ => fun _ => None
            end k
        end
    end.
End calls.

(** ** A kernel with one process, on an image with two files *)
Definition host3 (arg : list Z) : option (list Z) :=
  if decide (arg = text "_echo") then Some (replicate 100 55) else if decide (arg = text "README") then Some (text "xv6") else None.
Definition image3 : disk :=
  match Mkfs.Mkfs.main (fun _ => true) host3 [text "fs.img"; text "_echo"; text "README"] Mkfs.Mkfs.start with Ok _ s => image_disk s | _ => disk0 end.

(** The console takes whatever is written to it. *)
Definition devsw3 (major : Z) : @devops log := if major =? 1 then Devops None (Some (fun _ _ n => ret n)) else Devops None None.

Definition tf3 : trapframe := Trapframe 0x60 0 0 0 0 0 0 0 0 0 0 0 [].
Definition proc3 : proc :=
  Proc (4 * PGSIZE) 0x80300000 0x80200000 RUNNING 1 None tf3 None 0 (replicate 16 None) (Some 0%nat) (replicate 16 0).
Definition base3 : base := Base (Cpu 0 0 false false (Some 0%nat)) (Spinlock 0 "ptable" None []) [proc3].
Definition table3 : list Z := foldr (fun i t => put32 (4 * i) (leaf (0x302000 + Z.of_nat i * PGSIZE) 0x38) t) (replicate 4096 0) (seq 0 4).
Definition pages3 : gmap Z (list Z) :=
  foldr (fun i m => <[0x80302000 + Z.of_nat i * PGSIZE := replicate 4096 0]> m)
    {[ 0x80300000 := put32 0 (leaf 0x301000 0x38) (replicate 4096 0); 0x80301000 := table3 ]} (seq 0 4).
Definition inodes3 : list inode :=
  Inode 1 1 1 0 0 0 0 0 0 [] :: replicate 49 (Inode 0 0 0 0 0 0 0 0 0 []).
Definition kernel3 : sys log :=
  Sys (Fs (run_or boot_log (log0 base3 image3)) (Spinlock 0 "icache" None []) inodes3)
    (Mem (Spinlock 0 "kmem" None []) 1 0 pages3 []) (Spinlock 0 "ftable" None [])
    (replicate 100 file0) ∅ (Vars 2 (Some 0%nat) 0 0 (Spinlock 0 "time" None []) 0 0x300000 0).

(** The descriptors as init.c sets them up, then [t]. *)
Definition run3 (t : test unit) : option (list Z) :=
  on_kernel devsw3 0x80110000 0x80108000 (Z.to_nat 5000)
    (ucall (Mknod (text "console") 1 1) ;;;
     ucall (Open (text "console") O_RDWR) ;;;
     ucall (Dup 0) ;;;
     ucall (Dup 0) ;;;
     t ;;;
     quit)%prog kernel3 [].

(** The tests of main that use the file system from one process, in its
    order; the ones that write long files are left out. *)
Definition fs_tests : test unit :=
  (opentest ;;;
   createtest ;;;
   rmdot ;;;
   fourteen ;;;
   buf <- subdir buf0 ;;
   buf <- linktest buf ;;
   unlinkread buf ;;;
   dirfile ;;;
   iref)%prog.

Definition fs_report : list Z :=
  line_ "open test" ++ line_ "open test ok" ++
  line_ "many creates, followed by unlink test" ++ line_ "many creates, followed by unlink; ok" ++
  line_ "rmdot test" ++ line_ "rmdot ok" ++
  line_ "fourteen test" ++ line_ "fourteen ok" ++
  line_ "subdir test" ++ line_ "subdir ok" ++
  line_ "linktest" ++ line_ "linktest ok" ++
  line_ "unlinkread test" ++ line_ "unlinkread ok" ++
  line_ "dir vs file" ++ line_ "dir vs file OK" ++
  line_ "empty file name" ++ line_ "empty file name OK".

