(* ===== verification/Boot.v ===== *)
(** Start-up: main.c, and the initialisation it calls that no other file
    models (mp.c, lapic.c, gci.c, timer.c, the disk's ideinit, seginit of
    vm.c), on the state of the whole machine. Every invariant the other files
    assume of the running kernel is shown to hold once start-up is done. *)
From stdpp Require Import base numbers list strings sets gmap sorting.
From S2P Require Import Prelude Params Spinlock Sched Str Printf Bio Cache BlockIf Log Crash Trans Inode FileData Dir Kalloc Vm VmFree VmCopy Console Sys File Proc Syscall Sysfile Life Fork First Trap.

Set Warnings "-clear-no-such-hyp".

(** ** The machine *)

(** The console's variables and the serial port: [cst] without the CPU. *)
Record con := Con {
  n_lock : spinlock; n_locking : Z; n_panicked : Z; n_in_lock : spinlock; n_buf : list Z;
  n_r : Z; n_w : Z; n_e : Z; n_uart : Z; n_cfg : Z; n_txd : list Z; n_rxd : list Z;
}.

(** The variables of mp.c and lapic.c, and the CPU the processor's CPU-local
    pointer names; [cpu_ids] and [cpu_started] are fields of [cpus]. *)
Record mp := Mp { cpu_ids : list Z; cpu_started : list Z; ncpu : Z; ismp : Z; lapic : Z; cpu_here : option nat }.

(** The variables of gci.c ([node_info] and [device_area] of each node), of
    the disk driver and of timer.c. *)
Record devs := Devs {
  gci_hub : Z; gci_hub_nodes : Z; gci_nodes : list (Z * Z);
  mmcc : Z; mmcc_buf : Z; utim64_flags : Z;
}.

(** The kernel, the console, the descriptor table, the device registers (a
    word at each address that has one) and the rest. *)
Record machine := Machine {
  h_sys : sys log; h_con : con; h_idt : Idt.idts; h_io : gmap Z Z; h_mp : mp; h_devs : devs;
}.

Definition set_sys (s : sys log) (h : machine) : machine := Machine s (h_con h) (h_idt h) (h_io h) (h_mp h) (h_devs h).
Definition set_idt (i : Idt.idts) (h : machine) : machine := Machine (h_sys h) (h_con h) i (h_io h) (h_mp h) (h_devs h).
Definition set_io (m : gmap Z Z) (h : machine) : machine := Machine (h_sys h) (h_con h) (h_idt h) m (h_mp h) (h_devs h).
Definition set_mp (m : mp) (h : machine) : machine := Machine (h_sys h) (h_con h) (h_idt h) (h_io h) m (h_devs h).
Definition set_devs (d : devs) (h : machine) : machine := Machine (h_sys h) (h_con h) (h_idt h) (h_io h) (h_mp h) d.

Definition h_sys_l : Lens machine (sys log).
Proof. refine {| lget := h_sys; lset := set_sys |}; [done|by intros []|done]. Defined.
Definition h_cst (h : machine) : cst :=
  let c := h_con h in
  Cst (y_base (h_sys h)) (n_lock c) (n_locking c) (n_panicked c) (n_in_lock c) (n_buf c) (n_r c) (n_w c) (n_e c)
    (n_uart c) (n_cfg c) (n_txd c) (n_rxd c).
Definition set_cst (c : cst) (h : machine) : machine :=
  Machine (set_base (c_base c) (h_sys h))
    (Con (cons_lock c) (cons_locking c) (panicked c) (in_lock c) (in_buf c) (in_r c) (in_w c) (in_e c)
      (uart c) (sci_cfg c) (sci_txd c) (sci_rxd c)) (h_idt h) (h_io h) (h_mp h) (h_devs h).
Definition h_cst_l : Lens machine cst.
Proof.
  refine {| lget := h_cst; lset := set_cst |}; unfold h_cst, set_cst.
  - intros [] h. simpl. by rewrite y_base_set.
  - intros [s [] i io m d]. simpl. by rewrite set_base_id.
  - intros [] [] h. simpl. by rewrite set_base_set.
Defined.

Definition on_sys {A} (m : M (sys log) A) : M machine A := zoom (L := h_sys_l) m.
Definition on_cst {A} (m : M cst A) : M machine A := zoom (L := h_cst_l) m.

(** A device register. *)
Definition reg (a : Z) : M machine Z := h <- get ;; some (h_io h !! a).
Definition set_reg (a v : Z) : M machine unit :=
  h <- get ;;
  _ <- some (h_io h !! a) ;;
  modify (fun h => set_io (<[a := u32 v]> (h_io h)) h).

(** ** mp.c, lapic.c *)
Definition mpinit : M machine unit :=
  h <- get ;;
  let m := h_mp h in
  if decide (1 < length (cpu_ids m))%nat
  then modify (set_mp (Mp (<[1%nat := 1]> (cpu_ids m)) (cpu_started m) 2 0 0 (cpu_here m)))
  else fault.
Definition lapicinit : M machine unit := ret tt.
Definition cpunum : nat := 0.

(** ** seginit (vm.c) *)
Definition seginit : M machine unit :=
  modify (fun h => let m := h_mp h in set_mp (Mp (cpu_ids m) (cpu_started m) (ncpu m) (ismp m) (lapic m) (Some cpunum)) h) ;;;
  on_sys (proc_set None).

(** [cpu()->id] *)
Definition my_cpu : M machine nat := h <- get ;; some (cpu_here (h_mp h)).
Definition my_id : M machine Z := c <- my_cpu ;; h <- get ;; some (cpu_ids (h_mp h) !! c).

(** ** gci.c and gci.h *)
Definition GCI_OFFSET : Z := 0x200.
Definition GCI_HUB_SIZE : Z := 0x400.
Definition GCI_HUB_HEADER_SIZE : Z := 0x100.
Definition GCI_NODE_SIZE : Z := 0x400.
Definition GCI_MMCC_NUM : nat := 2.
Definition MMCC_INITIAL_COMMAND : Z := 0x5a5a.
Definition MMCC_BUFFER_OFFSET : Z := 0x040.
(** [sizeof(struct gci_hub_node)]; its first word is [size]. *)
Definition HUB_NODE_SIZE : Z := 32.

Section devices.
  (** [sriosr()]: where the I/O area starts. *)
  Context (iosr : Z).

Definition set_node (i : nat) (n : Z * Z) : M machine unit :=
    h <- get ;;
    let d := h_devs h in
    if decide (i < length (gci_nodes d))%nat
    then modify (set_devs (Devs (gci_hub d) (gci_hub_nodes d) (<[i := n]> (gci_nodes d)) (mmcc d) (mmcc_buf d) (utim64_flags d)))
    else fault.

Fixpoint gci_from (fuel : nat) (i : nat) (node : Z) : M machine unit :=
    match fuel with
    | O => diverge
    | S fuel =>
        h <- get ;;
        total <- reg (gci_hub (h_devs h)) ;;
        if negb (Z.of_nat i <? total) then ret tt else
        set_node i (node, u32 (node + GCI_NODE_SIZE)) ;;;
        size <- reg (gci_hub_nodes (h_devs h) + HUB_NODE_SIZE * Z.of_nat i) ;;
        gci_from fuel (S i) (u32 (node + size))
    end.
Definition gciinit : M machine unit :=
    h <- get ;;
    let d := h_devs h in
    let hub := u32 (iosr + GCI_OFFSET) in
    let d := Devs hub (u32 (hub + GCI_HUB_HEADER_SIZE)) (gci_nodes d) (mmcc d) (mmcc_buf d) (utim64_flags d) in
    modify (set_devs d) ;;;
    gci_from (S (S (length (gci_nodes d)))) 0 (u32 (hub + GCI_HUB_SIZE)).

(** ** ideinit (ide.c) *)
Definition ideinit : M machine unit :=
    h <- get ;;
    let d := h_devs h in
    n <- some (gci_nodes d !! GCI_MMCC_NUM) ;;
    let a := snd n in
    modify (set_devs (Devs (gci_hub d) (gci_hub_nodes d) (gci_nodes d) a (u32 (a + MMCC_BUFFER_OFFSET)) (utim64_flags d))) ;;;
    set_reg a MMCC_INITIAL_COMMAND.

(** ** timer.c. [mcfg] is the first word of a timer, [cc[0][1]] the fifth and
    [cccfg[0]] the twelfth. *)
Definition DPS_UTIM64A : Z := 0x000.
Definition DPS_UTIM64B : Z := 0x040.
Definition DPS_UTIM64FLAGS : Z := 0x07c.
Definition TIMER_FREQ : Z := 49152000.
Definition TIMER_DIV (x : Z) : Z := (TIMER_FREQ + x / 2) / x.
Definition UTIM64MCFG_ENA : Z := 0x1.
Definition UTIM64CFG_ENA : Z := 0x1.
Definition UTIM64CFG_IE : Z := 0x2.
Definition UTIM64CFG_MODE : Z := 0x8.

Definition timerinit : M machine unit :=
    let a := u32 (iosr + DPS_UTIM64A) in
    let b := u32 (iosr + DPS_UTIM64B) in
    modify (fun h => let d := h_devs h in
      set_devs (Devs (gci_hub d) (gci_hub_nodes d) (gci_nodes d) (mmcc d) (mmcc_buf d) (u32 (iosr + DPS_UTIM64FLAGS))) h) ;;;
    set_reg (a + 16) (TIMER_DIV 100) ;;;
    set_reg (a + 44) (Z.lor (Z.lor UTIM64CFG_MODE UTIM64CFG_IE) UTIM64CFG_ENA) ;;;
    set_reg a UTIM64MCFG_ENA ;;;
    set_reg b 0 ;;;
    modify (fun h => set_idt (Idt.idtenable 36 (h_idt h)) h).

(** ** Registers that are read to tell a device its interrupt was seen: the
    timer's and the serial port's flags, the [int_factor] of a node (its
    third word), and the keyboard controller's scan code. *)
Definition DPS_LSFLAGS : Z := 0x1fc.
Definition timereoi : M machine unit := h <- get ;; reg (utim64_flags (h_devs h)) ;;; ret tt.
Definition uarteoi : M machine Z := reg (u32 (iosr + DPS_LSFLAGS)).
Definition gci_interrupt_ack (i : nat) : M machine Z := h <- get ;; n <- some (gci_nodes (h_devs h) !! i) ;; reg (u32 (fst n + 8)).
Definition gci_kmc_scancode (i : nat) : M machine Z := h <- get ;; n <- some (gci_nodes (h_devs h) !! i) ;; reg (snd n).

  (** uartintr with its acknowledgement. *)
Definition uart_interrupt : M machine unit := on_cst uartintr ;;; uarteoi ;;; ret tt.
End devices.

(** ** main.c *)
Section main.
  (** [end] and [data] of kernel.ld, the routines of devsw, initcode, the
      entry points of vectors.S, the address of the descriptor table and of
      the I/O area. *)
  Context (kend kdata : Z) (devsw : Z -> @devops log) (initcode : list Z) (vectors : nat -> Z) (idt_addr iosr : Z).

Definition startothers : M machine unit := ret tt.

  (** What start-up does with the other parts: consoleinit and uartinit enable
      their interrupts, tvinit sets up [tickslock]. *)
Definition console_up : M machine unit :=
    on_cst consoleinit ;;; modify (fun h => set_idt (Idt.idtenable (Z.to_nat IRQ_KMC) (h_idt h)) h).
Definition uart_up : M machine unit :=
    modify (fun h => set_idt (Idt.idtenable (Z.to_nat IRQ_DPSLS) (h_idt h)) h) ;;; on_cst uartinit.
Definition traps_up : M machine unit :=
    modify (fun h => set_idt (Idt.tvinit vectors (h_idt h)) h) ;;;
    on_sys (upd_vars (fun v => Vars (v_nextpid v) (v_initproc v) (v_first v) (v_ticks v) (initlock "time" (v_tickslock v))
                                 (v_kpgdir v) (v_pdtr v) (v_ppdtr v))).

  (** [mpmain] before it calls [scheduler] *)
Definition mpmain_up : M machine unit :=
    id <- my_id ;;
    on_cst (cprintf (Some (text "cpu%d: starting" ++ [10])) [AInt id]) ;;;
    modify (fun h => set_idt (Idt.idtinit idt_addr (h_idt h)) h) ;;;
    c <- my_cpu ;;
    modify (fun h => let m := h_mp h in
      set_mp (Mp (cpu_ids m) (<[c := 1]> (cpu_started m)) (ncpu m) (ismp m) (lapic m) (cpu_here m)) h).

  (** [main] up to that call *)
Definition start_up : M machine unit :=
    on_sys (on_kst (kinit1 kend kend (p2v (4 * 1024 * 1024)))) ;;;
    on_sys (kvmalloc kdata) ;;;
    mpinit ;;;
    lapicinit ;;;
    seginit ;;;
    id <- my_id ;;
    on_cst (cprintf (Some ([10] ++ text "cpu%d: starting xv6" ++ [10; 10])) [AInt id]) ;;;
    gciinit iosr ;;;
    console_up ;;;
    uart_up ;;;
    on_sys pinit ;;;
    traps_up ;;;
    on_sys (on_fs (zoom (L := fs_log_l) (zoom (L := lg_io_l) binit))) ;;;
    on_sys fileinit ;;;
    on_sys (on_fs iinit) ;;;
    ideinit ;;;
    h <- get ;;
    (if ismp (h_mp h) =? 0 then timerinit iosr else ret tt) ;;;
    startothers ;;;
    on_sys (on_kst (kinit2 kend (p2v (4 * 1024 * 1024)) (p2v PHYSTOP))) ;;;
    on_sys (userinit devsw kdata initcode) ;;;
    mpmain_up.

  (** [main]: start-up, then [scheduler] for so many passes *)
Definition main (passes : nat) : M machine unit := start_up ;;; on_sys (scheduler passes).
End main.

(** ** What start-up sets up: memory *)
Section memory.
  Context {St : Type} {LO : LogOps St} (kend kdata : Z).
  Hypothesis Hkend : KERNBASE < kend.
  Hypothesis Hdata : kdata mod PGSIZE = 0 /\ KERNLINK < kdata < KERNBASE + PHYSTOP.
  (** The kernel leaves room for 42 pages in the first 4 megabytes. *)
  Hypothesis Hroom : kend + 43 * PGSIZE <= p2v (4 * 1024 * 1024).
  Implicit Types (s : sys St) (k : kst).

Lemma set_kst_fs k s : k_base k = y_base s -> y_fs (set_kst k s) = y_fs s.
  Proof. intros E. unfold set_kst. cbn [y_fs]. rewrite E. apply put_base_get. Qed.

  (** The kernel's own page table. *)
Record kernel_up k (l : list Z) (kd : Z) : Prop := {
    ku_space : space_ok kend k kd l;
    ku_kernel : forall e, e ∈ kmap kdata -> kmapped k kd e;
    ku_user : forall n, 0 <= n < 2 ^ 19 -> upage k kd n = None;
  }.

  (** It stays when other pages change hands. *)
Lemma kernel_up_apart k k' l l' kd :
    kernel_up k l kd -> heap_ok kend k' l' -> (forall x, x ∈ l' -> ~ owned k kd x) ->
    (forall v, owned k kd v -> k_pages k' !! v = k_pages k !! v) ->
    kernel_up k' l' kd /\ forall v, owned k' kd v <-> owned k kd v.
  Proof.
    intros [U1 U2 U3] Hh Hl Hsame. destruct (space_apart kend k k' kd l l' U1 Hh Hl Hsame) as (S1 & S2 & S3).
    split; [|done]. split; [done| |].
    - intros [[[virt pa] pe] perm] He a Ha Hr. rewrite S2. by apply (U2 _ He).
    - intros n Hn. unfold upage. rewrite S2. by apply U3.
  Qed.

  (** Memory before start-up: every page the kernel does not use is there. *)
Record mem_raw k : Prop := {
    mr_list : km_freelist k = 0;
    mr_cli : 0 <= ncli (b_cpu (k_base k));
    mr_there : forall v, freeable kend v -> is_Some (k_pages k !! v);
    mr_page : forall v p, k_pages k !! v = Some p -> length p = Z.to_nat PGSIZE /\ Forall is_u8 p;
  }.

Lemma low_freeable v : v mod PGSIZE = 0 -> kend <= v < p2v (4 * 1024 * 1024) -> freeable kend v.
  Proof using Hkend.
    change (p2v (4 * 1024 * 1024)) with 0x80400000. intros H1 H2. split_and!; unfold KERNBASE, PHYSTOP in *; lia.
  Qed.

Lemma kinit1_run k :
    mem_raw k ->
    exists k' l, kinit1 kend kend (p2v (4 * 1024 * 1024)) k = Ok tt k' /\ heap_ok kend k' l /\ (42 <= length l)%nat /\
      (forall v, v ∈ l <-> v mod PGSIZE = 0 /\ kend <= v < p2v (4 * 1024 * 1024)) /\
      (forall v, is_Some (k_pages k !! v) -> is_Some (k_pages k' !! v)) /\ k_base k' = k_base k /\ km_use_lock k' = 0.
  Proof using Hkend Hroom.
    intros [M1 M2 M3 M4]. change (p2v (4 * 1024 * 1024)) with 0x80400000 in *.
    set (k0 := Kst (k_base k) (initlock "kmem" (km_lock k)) 0 (km_freelist k) (k_pages k) (k_out k)).
    assert (Hh : heap_ok kend k0 []).
    { split; [split; cbn; try done; [constructor|intros v p Hv; by destruct (M4 v p Hv)]|by intros x []%elem_of_nil|].
      intros v p Hv. by destruct (M4 v p Hv). }
    destruct (freerange_run kend Hkend k0 [] kend 0x80400000 Hh) as (k' & l & E & Hh' & (Q1 & _ & Q3) & Hin & Hlen & _ & Hs);
      [lia|unfold KERNBASE in *; lia|unfold PGSIZE in *; lia|unfold KERNBASE, PHYSTOP; lia|done| |].
    { intros v V1 V2. split; [|apply not_elem_of_nil]. by apply M3, low_freeable. }
    exists k', l. rewrite app_nil_r in Hh'. split_and!; try done.
    - unfold PGSIZE in *. lia.
    - destruct Q3 as [->| ->]; done.
  Qed.

Lemma kvmalloc_run s l :
    heap_ok kend (y_kst s) l -> (42 <= length l)%nat -> m_use_lock (y_mem s) = 0 ->
    exists s' l' kd, kvmalloc kdata s = Ok tt s' /\ kernel_up (y_kst s') l' kd /\ (forall v, v ∈ l <-> v ∈ l' \/ owned (y_kst s') kd v) /\
      (forall v, is_Some (m_pages (y_mem s) !! v) -> is_Some (m_pages (y_mem s') !! v)) /\
      y_fs s' = y_fs s /\ m_use_lock (y_mem s') = 0 /\ ft_lock s' = ft_lock s /\ ft_files s' = ft_files s /\ y_pipes s' = y_pipes s /\
      y_vars s' = (let v := y_vars s in Vars (v_nextpid v) (v_initproc v) (v_first v) (v_ticks v) (v_tickslock v) kd (v2p kd) (v2p kd)).
  Proof using Hkend Hdata.
    intros Hh Hlen Hul.
    destruct (setupkvm_run kend kdata Hkend Hdata (y_kst s) l Hh) as (d & k & l' & E & Hl & [(_ & -> & _)|(Hd0 & [R1 R2 R3 R4 R5 (Q1 & _ & Q3)] & Hu & Hk)]);
      [cbn in Hl; lia|].
    assert (Hb : k_base k = y_base s).
    { unfold relocked in Q3. change (km_use_lock (y_kst s)) with (m_use_lock (y_mem s)) in Q3. rewrite Hul in Q3. by destruct Q3. }
    unfold kvmalloc. rewrite (bind_ok _ _ _ _ _ (on_kst_ok _ s _ _ E)). set (s1 := set_kst k s).
    assert (Hfs : y_fs s1 = y_fs s) by (by apply set_kst_fs).
    assert (Hk1 : y_kst s1 = k) by apply y_kst_set.
    set (s2 := set_vars (let v := y_vars s in Vars (v_nextpid v) (v_initproc v) (v_first v) (v_ticks v) (v_tickslock v) d (v2p d) (v2p d)) s1).
    assert (Hk2 : y_kst s2 = k) by exact Hk1. exists s2, l', d.
    rewrite Hk2. split_and!; try done.
    - intros v. rewrite R2, elem_of_nil. tauto.
    - change (km_use_lock k = 0). rewrite Q1. exact Hul.
  Qed.

  (** With the pages from 4 megabytes up, the free pages and the kernel's page
      table are all the pages there are. *)
Lemma kinit2_run k l kd :
    kernel_up k l kd -> (forall v, v mod PGSIZE = 0 /\ kend <= v < p2v (4 * 1024 * 1024) <-> v ∈ l \/ owned k kd v) ->
    (forall v, freeable kend v -> is_Some (k_pages k !! v)) -> km_use_lock k = 0 ->
    exists k' l', kinit2 kend (p2v (4 * 1024 * 1024)) (p2v PHYSTOP) k = Ok tt k' /\ kernel_up k' l' kd /\ (44 <= length l')%nat /\
      (forall v, freeable kend v <-> v ∈ l' \/ owned k' kd v) /\ k_base k' = k_base k /\ km_use_lock k' = 1.
  Proof using Hkend Hroom.
    change (p2v (4 * 1024 * 1024)) with 0x80400000 in *. change (p2v PHYSTOP) with 0x88000000 in *. intros Hup Hlow Hs Hul.
    assert (Hh : heap_ok kend k l) by (eapply heap_of_pt; apply Hup).
    destruct (freerange_run kend Hkend k l 0x80400000 0x88000000 Hh) as (k1 & fl & E & Hh' & (Q1 & _ & Q3) & Hin & Hlen & Hsame & _);
      [unfold PGSIZE in *; lia|unfold KERNBASE; lia|unfold PGSIZE; lia|unfold KERNBASE, PHYSTOP; lia|done| |].
    { intros v V1 V2. split; [apply Hs; split_and!; unfold KERNBASE, PHYSTOP, PGSIZE in *; lia|].
      intros H. assert (v mod PGSIZE = 0 /\ kend <= v < 0x80400000) by (apply Hlow; by left). lia. }
    assert (Hown : forall v, owned k kd v -> v ∉ fl ++ l).
    { intros v Ho [H|H]%elem_of_app; [|by apply (owned_not_free kend k kd l v (ku_space _ _ _ Hup) Ho)].
      apply Hin in H. assert (v mod PGSIZE = 0 /\ kend <= v < 0x80400000) by (apply Hlow; by right). lia. }
    set (k' := set_use_lock 1 k1). exists k', (fl ++ l).
    destruct (kernel_up_apart k k' l (fl ++ l) kd Hup) as [Hup' Ho'].
    { destruct Hh' as [[H1 H2 H3 H4 H5] H6 H7]. by split. }
    { intros x Hx Ho. by apply (Hown x Ho). }
    { intros v Ho. apply Hsame. intros H. apply (Hown v Ho). apply elem_of_app. by left. }
    split_and!; [unfold kinit2; by rewrite (bind_ok _ _ _ _ _ E)|done|rewrite length_app; unfold PGSIZE in *; lia| | |done].
    - intros v. rewrite elem_of_app, Ho', Hin. pose proof (Hlow v) as H. unfold freeable, KERNBASE, PHYSTOP, PGSIZE in *. split.
      + intros (F1 & F2 & F3 & F4). destruct (Z.lt_ge_cases v 0x80400000); [destruct (proj1 H ltac:(split; [done|lia])); auto|]. left. left. split; [done|lia].
      + intros [[[H1 H2]|H1]|H1]; [|destruct (proj2 H ltac:(by left))|destruct (proj2 H ltac:(by right))]; split_and!; (done || lia).
    - unfold relocked in Q3. rewrite Hul in Q3. by destruct Q3.
  Qed.
End memory.

(** ** Devices *)
Lemma on_sys_ok {A} (m : M (sys log) A) h a s : m (h_sys h) = Ok a s -> on_sys m h = Ok a (set_sys s h).
Proof. intros E. unfold on_sys. by erewrite zoom_ok by exact E. Qed.
Lemma on_cst_ok {A} (m : M cst A) h a c : m (h_cst h) = Ok a c -> on_cst m h = Ok a (set_cst c h).
Proof. intros E. unfold on_cst. by erewrite zoom_ok by exact E. Qed.
Lemma reg_run h a v : h_io h !! a = Some v -> reg a h = Ok v h.
Proof. intros E. unfold reg. erewrite bind_ok by reflexivity. by rewrite E. Qed.
Lemma set_reg_run h a v : is_Some (h_io h !! a) -> set_reg a v h = Ok tt (set_io (<[a := u32 v]> (h_io h)) h).
Proof. intros [x E]. unfold set_reg. erewrite bind_ok by reflexivity. rewrite E. by erewrite bind_ok by reflexivity. Qed.

(** *** The bus: where node [i] is, from the sizes of those before it *)
Fixpoint node_at (size : nat -> Z) (node : Z) (i : nat) : Z :=
  match i with O => node | S i => u32 (node_at size node i + size i) end.
Definition set_nodes (l : list (Z * Z)) (d : devs) : devs :=
  Devs (gci_hub d) (gci_hub_nodes d) l (mmcc d) (mmcc_buf d) (utim64_flags d).
Definition node_entry (size : nat -> Z) (node : Z) (i : nat) : Z * Z :=
  let a := node_at size node i in (a, u32 (a + GCI_NODE_SIZE)).

Lemma gci_run size node n : forall fuel i h,
  h_io h !! gci_hub (h_devs h) = Some (Z.of_nat (i + n)) -> (i + n <= length (gci_nodes (h_devs h)))%nat ->
  (forall j, (i <= j < i + n)%nat -> h_io h !! (gci_hub_nodes (h_devs h) + HUB_NODE_SIZE * Z.of_nat j) = Some (size j)) -> (n < fuel)%nat ->
  exists l, gci_from fuel i (node_at size node i) h = Ok tt (set_devs (set_nodes l (h_devs h)) h) /\
    length l = length (gci_nodes (h_devs h)) /\
    (forall j, (i <= j < i + n)%nat -> l !! j = Some (node_entry size node j)) /\
    forall j, ~ (i <= j < i + n)%nat -> l !! j = gci_nodes (h_devs h) !! j.
Proof.
  induction n as [|n IH]; intros [|fuel] i h Htot Hlen Hsz Hfuel; [lia| |lia|]; cbn [gci_from].
  all: erewrite bind_ok by reflexivity; rewrite (bind_ok _ _ _ _ _ (reg_run _ _ _ Htot)).
  { destruct (Z.ltb_spec (Z.of_nat i) (Z.of_nat (i + 0))); [lia|]. cbn [negb]. exists (gci_nodes (h_devs h)).
    split_and!; [by destruct h as [? ? ? ? ? []]|done|lia|done]. }
  destruct (Z.ltb_spec (Z.of_nat i) (Z.of_nat (i + S n))); [|lia]. cbn [negb].
  set (l1 := <[i := node_entry size node i]> (gci_nodes (h_devs h))).
  assert (E : set_node i (node_entry size node i) h = Ok tt (set_devs (set_nodes l1 (h_devs h)) h)).
  { unfold set_node. erewrite bind_ok by reflexivity. by rewrite decide_True by lia. }
  rewrite (bind_ok _ _ _ _ _ E), (bind_ok _ _ _ _ _ (reg_run (set_devs (set_nodes l1 (h_devs h)) h) _ _ (Hsz i ltac:(lia)))).
  destruct (IH fuel (S i) (set_devs (set_nodes l1 (h_devs h)) h)) as (l & E' & L1 & L2 & L3).
  - cbn. by replace (S (i + n)) with (i + S n)%nat by lia.
  - cbn. unfold l1. rewrite length_insert. lia.
  - intros j Hj. apply (Hsz j). lia.
  - lia.
  - exists l. cbn [h_devs set_devs set_nodes gci_nodes] in *. unfold l1 in *. rewrite length_insert in L1. split_and!; [exact E'|done| |].
    + intros j Hj. destruct (decide (j = i)) as [->|]; [|apply L2; lia]. rewrite L3, list_lookup_insert_eq by lia. done.
    + intros j Hj. rewrite L3, list_lookup_insert_ne by lia. done.
Qed.

(** *** The messages *)
Definition xv6_text : list Z := [10] ++ text "cpu%d: starting xv6" ++ [10; 10].
Definition cpu_text : list Z := text "cpu%d: starting" ++ [10].

(** Before the serial port is set up a message goes nowhere. *)
Lemma first_message c : cons_locking c = 0 -> panicked c = 0 -> uart c = 0 -> cprintf (Some xv6_text) [AInt 0] c = Ok tt c.
Proof. intros E1 E2 E3. destruct c. cbn in E1, E2, E3. subst. reflexivity. Qed.

Lemma foldl_snoc_app {A} (l : list A) : forall t, foldl (fun t x => t ++ [x]) t l = t ++ l.
Proof. induction l as [|x l IH]; intros t; cbn; [by rewrite app_nil_r|]. by rewrite IH, <- app_assoc. Qed.

Definition announced (c : cst) : cst :=
  let b := c_base c in
  Cst (Base (quiet (b_cpu b)) (b_lock b) (b_procs b)) (dropped (cons_lock c)) (cons_locking c) (panicked c) (in_lock c)
    (in_buf c) (in_r c) (in_w c) (in_e c) (uart c) (sci_cfg c) (sci_txd c ++ text "cpu0: starting" ++ [10]) (sci_rxd c).

Lemma second_message c :
  cons_locking c = 1 -> panicked c = 0 -> uart c = 1 -> free (cons_lock c) -> 0 <= ncli (b_cpu (c_base c)) ->
  cprintf (Some cpu_text) [AInt 0] c = Ok tt (announced c).
Proof.
  intros E1 E2 E3 Hf Hn. destruct c as [[cp pl ps] cl lck pan il ib r w e u cf tx rx]. cbn in E1, E2, E3, Hf, Hn. subst.
  unfold cprintf. erewrite bind_ok by reflexivity. cbn [cons_locking Z.eqb negb when].
  erewrite bind_ok by (apply zoom_ok, acquire_ok; exact Hf). cbn [lset console_lock fst snd c_base b_cpu b_lock b_procs].
  assert (Eb : forall b k, cprintf_from cpu_text [AInt 0] (Cst b k 1 0 il ib r w e 1 cf tx rx) =
    Ok tt (Cst b k 1 0 il ib r w e 1 cf (tx ++ text "cpu0: starting" ++ [10]) rx)).
  { intros b k. transitivity (Ok tt (Cst b k 1 0 il ib r w e 1 cf (foldl (fun t x => t ++ [x]) tx (text "cpu0: starting" ++ [10])) rx)).
    - vm_compute. reflexivity.
    - by rewrite foldl_snoc_app. }
  rewrite (bind_ok _ _ _ _ _ (Eb _ _)). erewrite zoom_ok by (apply release_taken; exact Hn). reflexivity.
Qed.

(** *** The descriptor table after start-up *)
Definition idt_flags (i : nat) : Z :=
  if decide (i ∈ [Z.to_nat IRQ_KMC; Z.to_nat IRQ_TIMER]) then 3 else if decide (37 <= i)%nat then 3 else 1.
Lemma idt_up (vectors : nat -> Z) (idt_addr : Z) (n : Z) :
  let s0 := Idt.Idts (replicate 128 (0, 0)) 0 0 n in
  let s1 := Idt.idtenable (Z.to_nat IRQ_DPSLS) (Idt.idtenable (Z.to_nat IRQ_KMC) s0) in
  Idt.idtinit idt_addr (Idt.idtenable 36 (Idt.tvinit vectors s1)) =
    Idt.Idts (((fun i => (idt_flags i, vectors i)) <$> seq 0 65) ++ replicate 63 (0, 0)) 1 (v2p idt_addr) (n + 1).
Proof.
  cbv zeta. unfold Idt.idtinit.
  assert (E : forall c, Idt.idtenable 36 (Idt.tvinit vectors (Idt.idtenable (Z.to_nat IRQ_DPSLS) (Idt.idtenable (Z.to_nat IRQ_KMC)
    (Idt.Idts (replicate 128 (0, 0)) 0 0 c)))) = Idt.Idts (((fun i => (idt_flags i, vectors i)) <$> seq 0 65) ++ replicate 63 (0, 0)) 0 0 c).
  { intros c. vm_compute. reflexivity. }
  by rewrite E.
Qed.

(** ** Start-up *)
Section up.
  Context (vectors : nat -> Z) (iosr : Z).

  (** *** The registers: a bus with [n] nodes of the given sizes, the third of
      them the disk, and the timers *)
Definition hub : Z := u32 (iosr + GCI_OFFSET).
Definition disk_area (size : nat -> Z) : Z := snd (node_entry size (u32 (hub + GCI_HUB_SIZE)) GCI_MMCC_NUM).
Definition timer_a : Z := u32 (iosr + DPS_UTIM64A).
Definition timer_b : Z := u32 (iosr + DPS_UTIM64B).

Record wired (io : gmap Z Z) (n : nat) (size : nat -> Z) : Prop := {
    wi_total : io !! hub = Some (Z.of_nat n);
    wi_n : (2 < n <= 4)%nat;
    wi_sizes : forall j, (j < n)%nat -> io !! (u32 (hub + GCI_HUB_HEADER_SIZE) + HUB_NODE_SIZE * Z.of_nat j) = Some (size j);
    wi_disk : is_Some (io !! disk_area size);
    wi_timer : is_Some (io !! timer_a) /\ is_Some (io !! (timer_a + 16)) /\ is_Some (io !! (timer_a + 44)) /\ is_Some (io !! timer_b);
  }.

  (** The disk gets its first command; timer A counts to 1/100 s, again and
      again, with interrupts, timer B is off. *)
Definition io_up (size : nat -> Z) (io : gmap Z Z) : gmap Z Z :=
    <[timer_b := 0]> (<[timer_a := 1]> (<[timer_a + 44 := 11]> (<[timer_a + 16 := 491520]> (<[disk_area size := 0x5a5a]> io)))).

Lemma gciinit_run h n size :
    wired (h_io h) n size -> length (gci_nodes (h_devs h)) = 4%nat ->
    exists l, gciinit iosr h = Ok tt (set_devs (Devs hub (u32 (hub + GCI_HUB_HEADER_SIZE)) l (mmcc (h_devs h)) (mmcc_buf (h_devs h)) (utim64_flags (h_devs h))) h) /\
      forall j, (j < n)%nat -> l !! j = Some (node_entry size (u32 (hub + GCI_HUB_SIZE)) j).
  Proof.
    intros [W1 W2 W3 _ _] Hlen. unfold gciinit. erewrite bind_ok by reflexivity. cbv zeta. erewrite bind_ok by reflexivity.
    cbn [gci_nodes]. rewrite Hlen. set (h1 := set_devs _ h).
    destruct (gci_run size (u32 (hub + GCI_HUB_SIZE)) n 6 0 h1) as (l & E & _ & L & _); [exact W1|cbn; lia| |lia|].
    { intros j Hj. apply W3. lia. }
    exists l. split; [exact E|]. intros j Hj. apply L. lia.
  Qed.

Lemma ideinit_run h n a :
    gci_nodes (h_devs h) !! GCI_MMCC_NUM = Some (n, a) -> is_Some (h_io h !! a) ->
    ideinit h = Ok tt (set_io (<[a := 0x5a5a]> (h_io h)) (set_devs (let d := h_devs h in
      Devs (gci_hub d) (gci_hub_nodes d) (gci_nodes d) a (u32 (a + MMCC_BUFFER_OFFSET)) (utim64_flags d)) h)).
  Proof.
    intros E Hs. unfold ideinit. erewrite bind_ok by reflexivity. cbv zeta. rewrite E. erewrite bind_ok by reflexivity. cbn [snd].
    erewrite bind_ok by reflexivity. by rewrite set_reg_run.
  Qed.

Lemma timerinit_run h :
    is_Some (h_io h !! timer_a) /\ is_Some (h_io h !! (timer_a + 16)) /\ is_Some (h_io h !! (timer_a + 44)) /\ is_Some (h_io h !! timer_b) ->
    exists d, timerinit iosr h = Ok tt (Machine (h_sys h) (h_con h) (Idt.idtenable 36 (h_idt h))
      (<[timer_b := 0]> (<[timer_a := 1]> (<[timer_a + 44 := 11]> (<[timer_a + 16 := 491520]> (h_io h))))) (h_mp h) d).
  Proof.
    intros (H1 & H2 & H3 & H4). unfold timerinit. fold timer_a timer_b. cbv zeta. erewrite bind_ok by reflexivity.
    do 4 (erewrite bind_ok; [|apply set_reg_run; cbn; rewrite ?lookup_insert_is_Some'; auto 10]). eexists. reflexivity.
  Qed.

  (** *** Between the kernel's page table and the rest of memory *)
Record middle_up h h' (d : disk) (size : nat -> Z) : Prop := {
    mu_base : y_base (h_sys h') = (let b := y_base (h_sys h) in
      Base (set_cproc None (b_cpu b)) (initlock "ptable" (b_lock b)) (b_procs b));
    mu_mem : y_mem (h_sys h') = y_mem (h_sys h);
    mu_ft : free (ft_lock (h_sys h')) /\ ft_files (h_sys h') = ft_files (h_sys h);
    mu_ic : free (ic_lock (y_fs (h_sys h'))) /\ ic_inodes (y_fs (h_sys h')) = ic_inodes (y_fs (h_sys h));
    mu_cache : cache_rel (lg_io (fs_log (y_fs (h_sys h')))) (disk_get d) ∅ [];
    mu_vars : y_vars (h_sys h') = (let v := y_vars (h_sys h) in
      Vars (v_nextpid v) (v_initproc v) (v_first v) (v_ticks v) (initlock "time" (v_tickslock v)) (v_kpgdir v) (v_pdtr v) (v_ppdtr v));
    mu_con : h_con h' = (let c := h_con h in
      Con (initlock "console" (n_lock c)) 1 0 (initlock "input" (n_in_lock c)) (n_buf c) (n_r c) (n_w c) (n_e c) 1 583
        (n_txd c ++ text "xv6..." ++ [10]) (n_rxd c));
    mu_idt : h_idt h' = Idt.idtenable 36 (Idt.tvinit vectors (Idt.idtenable (Z.to_nat IRQ_DPSLS) (Idt.idtenable (Z.to_nat IRQ_KMC) (h_idt h))));
    mu_io : h_io h' = io_up size (h_io h);
    mu_mp : h_mp h' = Mp (<[1%nat := 1]> (cpu_ids (h_mp h))) (cpu_started (h_mp h)) 2 0 0 (Some 0%nat);
  }.

Lemma console_run h :
    console_up h = Ok tt (Machine (h_sys h) (let c := h_con h in
      Con (initlock "console" (n_lock c)) 1 (n_panicked c) (initlock "input" (n_in_lock c)) (n_buf c) (n_r c) (n_w c) (n_e c) (n_uart c) (n_cfg c)
        (n_txd c) (n_rxd c)) (Idt.idtenable (Z.to_nat IRQ_KMC) (h_idt h)) (h_io h) (h_mp h) (h_devs h)).
  Proof.
    unfold console_up. erewrite bind_ok by (apply on_cst_ok; reflexivity). unfold modify, set_idt, set_cst. cbn [h_sys]. rewrite set_base_same by reflexivity. reflexivity.
  Qed.
Lemma uart_run h :
    uart_up h = Ok tt (Machine (h_sys h) (let c := h_con h in
      Con (n_lock c) (n_locking c) (n_panicked c) (n_in_lock c) (n_buf c) (n_r c) (n_w c) (n_e c) 1 583
        (n_txd c ++ text "xv6..." ++ [10]) (n_rxd c)) (Idt.idtenable (Z.to_nat IRQ_DPSLS) (h_idt h)) (h_io h) (h_mp h) (h_devs h)).
  Proof.
    unfold uart_up. erewrite bind_ok by reflexivity. set (h1 := set_idt _ h).
    assert (E : uartinit (h_cst h1) = Ok tt (set_sci 1 583 (sci_txd (h_cst h1) ++ text "xv6..." ++ [10]) (sci_rxd (h_cst h1)) (h_cst h1))).
    { transitivity (Ok tt (set_sci 1 583 (foldl (fun t x => t ++ [x]) (sci_txd (h_cst h1)) (text "xv6..." ++ [10])) (sci_rxd (h_cst h1)) (h_cst h1))).
      - generalize (h_cst h1). intros []. vm_compute. reflexivity.
      - by rewrite foldl_snoc_app. }
    rewrite (on_cst_ok _ _ _ _ E). unfold set_cst. rewrite set_base_same by reflexivity. reflexivity.
  Qed.

  (** The part of [start_up] in question, before what follows. *)
Definition middle (rest : M machine unit) : M machine unit :=
    mpinit ;;;
    lapicinit ;;;
    seginit ;;;
    id <- my_id ;;
    on_cst (cprintf (Some xv6_text) [AInt id]) ;;;
    gciinit iosr ;;;
    console_up ;;;
    uart_up ;;;
    on_sys pinit ;;;
    traps_up vectors ;;;
    on_sys (on_fs (zoom (L := fs_log_l) (zoom (L := lg_io_l) binit))) ;;;
    on_sys fileinit ;;;
    on_sys (on_fs iinit) ;;;
    ideinit ;;;
    h <- get ;;
    (if ismp (h_mp h) =? 0 then timerinit iosr else ret tt) ;;;
    startothers ;;;
    rest.

Lemma binit_step (s : sys log) d :
    fs_log (y_fs s) = log0 (y_base s) d -> base_ok (y_base s) ->
    exists b, on_fs (zoom (L := fs_log_l) (zoom (L := lg_io_l) binit)) s =
        Ok tt (Sys (Fs (lset (Lens := lg_io_l) b (fs_log (y_fs s))) (ic_lock (y_fs s)) (ic_inodes (y_fs s))) (y_mem s) (ft_lock s) (ft_files s) (y_pipes s) (y_vars s)) /\
      cache_rel b (disk_get d) ∅ [] /\ io_base b = y_base s.
  Proof.
    intros El Hb. destruct (wp_outcome _ _ _ (binit_run (bio0 (y_base s) d) eq_refl)) as ([] & b & E & bs & Eb & _).
    destruct (wp_outcome _ _ _ (binit_cache (y_base s) d Hb)) as ([] & b' & E' & RC & _). rewrite E in E'. injection E' as <-.
    exists b. split_and!; [|done|by rewrite Eb].
    assert (E1 : zoom (L := lg_io_l) binit (fs_log (y_fs s)) = Ok tt (lset (Lens := lg_io_l) b (fs_log (y_fs s))))
      by (apply zoom_ok; rewrite El; exact E).
    unfold on_fs. erewrite zoom_ok; [reflexivity|]. erewrite zoom_ok; [reflexivity|]. exact E1.
  Qed.

  (** The tables' locks, the vectors and the buffer cache. *)
Record tables_up (s s' : sys log) (d : disk) : Prop := {
    tu_base : y_base s' = Base (b_cpu (y_base s)) (initlock "ptable" (b_lock (y_base s))) (b_procs (y_base s));
    tu_mem : y_mem s' = y_mem s;
    tu_ft : free (ft_lock s') /\ ft_files s' = ft_files s;
    tu_ic : free (ic_lock (y_fs s')) /\ ic_inodes (y_fs s') = ic_inodes (y_fs s);
    tu_cache : cache_rel (lg_io (fs_log (y_fs s'))) (disk_get d) ∅ [];
    tu_vars : y_vars s' = (let v := y_vars s in
      Vars (v_nextpid v) (v_initproc v) (v_first v) (v_ticks v) (initlock "time" (v_tickslock v)) (v_kpgdir v) (v_pdtr v) (v_ppdtr v));
  }.

Lemma tables_run (rest : M machine unit) h d :
    fs_log (y_fs (h_sys h)) = log0 (y_base (h_sys h)) d -> 0 <= ncli (b_cpu (y_base (h_sys h))) ->
    exists s', (on_sys pinit ;;; traps_up vectors ;;; on_sys (on_fs (zoom (L := fs_log_l) (zoom (L := lg_io_l) binit))) ;;;
        on_sys fileinit ;;; on_sys (on_fs iinit) ;;; rest) h =
      rest (Machine s' (h_con h) (Idt.tvinit vectors (h_idt h)) (h_io h) (h_mp h) (h_devs h)) /\ tables_up (h_sys h) s' d.
  Proof.
    intros El Hn. set (b := y_base (h_sys h)) in *.
    set (b2 := Base (b_cpu b) (initlock "ptable" (b_lock b)) (b_procs b)). set (s3 := set_base b2 (h_sys h)).
    erewrite bind_ok by (apply on_sys_ok, on_base_ok; reflexivity).
    set (v2 := let v := y_vars (h_sys h) in
      Vars (v_nextpid v) (v_initproc v) (v_first v) (v_ticks v) (initlock "time" (v_tickslock v)) (v_kpgdir v) (v_pdtr v) (v_ppdtr v)).
    set (s4 := set_vars v2 s3). set (idt1 := Idt.tvinit vectors (h_idt h)).
    rewrite (bind_ok _ _ _ tt (Machine s4 (h_con h) idt1 (h_io h) (h_mp h) (h_devs h))) by reflexivity.
    assert (Hb4 : y_base s4 = b2) by apply (y_base_set b2).
    destruct (binit_step s4 d) as (bi & Eb & RC & Hbi).
    { rewrite Hb4. unfold s4, s3. cbn. by rewrite El. }
    { by rewrite Hb4. }
    rewrite (bind_ok _ _ _ _ _ (on_sys_ok _ (Machine s4 _ _ _ _ _) _ _ Eb)). unfold set_sys. cbn [h_con h_idt h_io h_mp h_devs].
    set (fs5 := Fs (lset (Lens := lg_io_l) bi (fs_log (y_fs s4))) (initlock "icache" (ic_lock (y_fs s4))) (ic_inodes (y_fs s4))).
    set (s5 := Sys fs5 (y_mem s4) (initlock "ftable" (ft_lock s4)) (ft_files s4) (y_pipes s4) (y_vars s4)).
    erewrite bind_ok by reflexivity.
    rewrite (bind_ok _ _ _ tt (Machine s5 (h_con h) idt1 (h_io h) (h_mp h) (h_devs h))) by reflexivity.
    exists s5. split; [reflexivity|]. split; try done.
  Qed.

Lemma middle_run rest h d n size :
    fs_log (y_fs (h_sys h)) = log0 (y_base (h_sys h)) d -> 0 <= ncli (b_cpu (y_base (h_sys h))) ->
    n_locking (h_con h) = 0 -> n_panicked (h_con h) = 0 -> n_uart (h_con h) = 0 ->
    cpu_ids (h_mp h) !! 0%nat = Some 0 -> (1 < length (cpu_ids (h_mp h)))%nat -> length (gci_nodes (h_devs h)) = 4%nat -> wired (h_io h) n size ->
    exists h', middle rest h = rest h' /\ middle_up h h' d size.
  Proof.
    intros El Hn C1 C2 C3 Hid Hids Hnodes W. unfold middle.
    set (b := y_base (h_sys h)) in *.
    set (b1 := Base (set_cproc None (b_cpu b)) (b_lock b) (b_procs b)).
    set (mp1 := Mp (<[1%nat := 1]> (cpu_ids (h_mp h))) (cpu_started (h_mp h)) 2 0 0 (Some 0%nat)).
    set (h2 := Machine (set_base b1 (h_sys h)) (h_con h) (h_idt h) (h_io h) mp1 (h_devs h)).
    erewrite bind_ok by (unfold mpinit; erewrite bind_ok by reflexivity; rewrite decide_True by done; reflexivity).
    erewrite bind_ok by reflexivity.
    rewrite (bind_ok _ _ _ tt h2) by reflexivity.
    assert (Em : my_id h2 = Ok 0 h2).
    { unfold my_id. erewrite bind_ok by reflexivity. erewrite bind_ok by reflexivity. cbn. by rewrite list_lookup_insert_ne, Hid. }
    rewrite (bind_ok _ _ _ _ _ Em).
    assert (Ec : on_cst (cprintf (Some xv6_text) [AInt 0]) h2 = Ok tt h2).
    { erewrite on_cst_ok by (by apply first_message). f_equal. apply (lset_lget (Lens := h_cst_l)). }
    rewrite (bind_ok _ _ _ _ _ Ec).
    destruct (gciinit_run h2 n size W Hnodes) as (nodes & Eg & Hl). rewrite (bind_ok _ _ _ _ _ Eg).
    rewrite (bind_ok _ _ _ _ _ (console_run _)), (bind_ok _ _ _ _ _ (uart_run _)).
    cbn [h_sys h_con h_idt h_io h_mp h_devs set_devs h2 n_lock n_locking n_panicked n_in_lock n_buf n_r n_w n_e n_uart n_cfg n_txd n_rxd].
    set (con' := Con _ _ _ _ _ _ _ _ _ _ _ _). set (dv := Devs _ _ _ _ _ _).
    set (idt1 := Idt.idtenable (Z.to_nat IRQ_DPSLS) _).
    match goal with |- context [(_ ;;; _ ;;; _ ;;; _ ;;; _ ;;; ?r) ?x = _] => destruct (tables_run r x d) as (s5 & -> & T) end;
      cbn [h_sys]; rewrite ?y_base_set; [cbn; by rewrite El|exact Hn|]. cbn [h_sys h_con h_idt h_io h_mp h_devs] in *.
    destruct W as [_ W2 _ W4 (T1 & T2 & T3 & T4)].
    pose proof (Hl GCI_MMCC_NUM ltac:(unfold GCI_MMCC_NUM; lia)) as Hdisk.
    rewrite (bind_ok _ _ _ _ _ (ideinit_run (Machine s5 con' (Idt.tvinit vectors idt1) (h_io h) mp1 dv) _ _ Hdisk W4)).
    erewrite bind_ok by reflexivity. cbn [ismp h_mp set_io set_devs mp1 Z.eqb]. change (u32 _) with (disk_area size) at 1. cbn [h_sys h_con h_idt h_io h_mp h_devs].
    match goal with |- context [(timerinit iosr ;;; _) ?x] => destruct (timerinit_run x) as (dv' & Et) end.
    { cbn. rewrite !lookup_insert_is_Some'. auto 10. }
    rewrite (bind_ok _ _ _ _ _ Et). erewrite bind_ok by reflexivity. eexists. split; [reflexivity|].
    destruct T as [B M F I C V]. rewrite y_base_set in B. split; try done.
    change (con' = Con (n_lock con') 1 0 (n_in_lock con') (n_buf con') (n_r con') (n_w con') (n_e con') 1 583 (n_txd con') (n_rxd con')).
    unfold con' at 1. by rewrite C2.
  Qed.
End up.

(** ** The tables before start-up *)
Section fresh.
  Context (ps : list proc).
  Hypothesis Hps : Forall (fun p => p_state p = UNUSED /\ p_ofile p = replicate NOFILE None) ps.

Lemma fresh_find : ps <> [] -> find_proc (is_state UNUSED) ps = Some 0%nat.
  Proof using Hps. destruct Hps as [|p ps' [H _] _]; [done|]. intros _. cbn. unfold is_state. by rewrite bool_decide_true. Qed.
Lemma fresh_pids next : pids_ok ps next.
  Proof using Hps.
    rewrite Forall_forall in Hps. split.
    - intros i p Hi Hs. by destruct (Hps p ltac:(by eapply list_elem_of_lookup_2)).
    - intros i j p q Hi _ Hs _ _. by destruct (Hps p ltac:(by eapply list_elem_of_lookup_2)).
  Qed.
Lemma fresh_refs f : all_refs f ps = 0.
  Proof using Hps. induction ps as [|p ps' IH]; [done|]. apply Forall_cons in Hps as [[_ E] H]. cbn [all_refs]. rewrite E, (IH H). reflexivity. Qed.
Lemma fresh_files fl : Forall (fun f => f_ref f = 0) fl -> files_ok fl ps.
  Proof using Hps.
    intros Hf. assert (Hno : forall p f, p ∈ ps -> Some f ∉ p_ofile p).
    { intros p f Hp H. rewrite Forall_forall in Hps. destruct (Hps p Hp) as [_ E]. rewrite E in H. by apply elem_of_replicate in H as [? _]. }
    split.
    - intros p Hp. rewrite Forall_forall in Hps. destruct (Hps p Hp) as [_ ->]. apply length_replicate.
    - intros p f Hp H. by destruct (Hno p f Hp).
    - intros f ff H. rewrite Forall_forall in Hf. rewrite (Hf ff) by (by eapply list_elem_of_lookup_2).
      by rewrite fresh_refs.
  Qed.
End fresh.

Lemma fresh_inodes l :
  l <> [] -> Forall (fun ip => i_ref ip = 0) l ->
  find_ip (cached ROOTDEV ROOTINO) l = None /\ find_ip (fun ip => i_ref ip =? 0) l = Some 0%nat.
Proof.
  intros Hne H. split.
  - clear Hne. induction H as [|ip l E _ IH]; [done|]. cbn. unfold cached at 1. rewrite E, IH. done.
  - destruct H as [|ip l E _]; [done|]. cbn. by rewrite E.
Qed.

(** ** The whole of start-up *)
Section start.
  Context (kend kdata : Z) (devsw : Z -> @devops log) (initcode : list Z) (vectors : nat -> Z) (idt_addr iosr : Z).
  Hypothesis Hkend : KERNBASE < kend.
  Hypothesis Hdata : kdata mod PGSIZE = 0 /\ KERNLINK < kdata < KERNBASE + PHYSTOP.
  Hypothesis Hroom : kend + 43 * PGSIZE <= p2v (4 * 1024 * 1024).
  Hypothesis Hinit : Z.of_nat (length initcode) < PGSIZE /\ Forall is_u8 initcode.

  (** The machine as the loader leaves it: the variables zero but for
      [nextpid], some disk [d], the device registers as [wired] says. *)
Record loaded (h : machine) (d : disk) (n : nat) (size : nat -> Z) : Prop := {
    ld_mem : mem_raw kend (y_kst (h_sys h));
    ld_log : fs_log (y_fs (h_sys h)) = log0 (y_base (h_sys h)) d;
    ld_inodes : ic_inodes (y_fs (h_sys h)) <> [] /\ Forall (fun ip => i_ref ip = 0) (ic_inodes (y_fs (h_sys h)));
    ld_files : Forall (fun f => f_ref f = 0) (ft_files (h_sys h));
    ld_procs : b_procs (y_base (h_sys h)) <> [] /\
      Forall (fun p => p_state p = UNUSED /\ p_ofile p = replicate NOFILE None) (b_procs (y_base (h_sys h)));
    ld_pid : v_nextpid (y_vars (h_sys h)) = 1;
    ld_con : n_locking (h_con h) = 0 /\ n_panicked (h_con h) = 0 /\ n_uart (h_con h) = 0;
    ld_idt : h_idt h = Idt.Idts (replicate 128 (0, 0)) 0 0 0;
    ld_cpus : cpu_ids (h_mp h) = replicate NCPU 0 /\ cpu_started (h_mp h) = replicate NCPU 0;
    ld_nodes : length (gci_nodes (h_devs h)) = 4%nat;
    ld_io : wired iosr (h_io h) n size;
  }.

  (** The machine once [scheduler] is about to be called. [kd] is the kernel's
      page directory, [q] the first process and [l] the free pages. *)
Definition running (i : nat) (s : sys log) : sys log :=
    let b := y_base s in set_base (Base (set_cproc (Some i) (b_cpu b)) (b_lock b) (b_procs b)) s.

Record booted (h h' : machine) (d : disk) (size : nat -> Z) (kd : Z) (q : proc) (l : list Z) : Prop := {
    bo_kernel : kernel_up kend kdata (y_kst (h_sys h')) l kd;
    bo_pages : forall v, freeable kend v <->
      v ∈ l \/ v = p_kstack q \/ owned (y_kst (h_sys h')) kd v \/ owned (y_kst (h_sys h')) (p_pgdir q) v;
    bo_apart : (p_kstack q ∉ l) /\ ~ owned (y_kst (h_sys h')) kd (p_kstack q) /\ ~ owned (y_kst (h_sys h')) (p_pgdir q) (p_kstack q) /\
      forall v, owned (y_kst (h_sys h')) kd v -> ~ owned (y_kst (h_sys h')) (p_pgdir q) v;
    bo_procs : b_procs (y_base (h_sys h')) = <[0%nat := q]> (b_procs (y_base (h_sys h))) /\
      p_state q = RUNNABLE /\ p_pid q = 1 /\ p_tf q = first_tf;
    bo_code : exists v, upage (y_kst (h_sys h')) (p_pgdir q) 0 = Some v /\
      m_pages (y_mem (h_sys h')) !! v = Some (initcode ++ replicate (Z.to_nat PGSIZE - length initcode) 0);
    bo_fork : can_fork kend (running 0 (h_sys h')) l 0 q 0;
    bo_root : ic_inodes (y_fs (h_sys h')) = alter as_root 0%nat (ic_inodes (y_fs (h_sys h)));
    bo_cache : cache_rel (lg_io (fs_log (y_fs (h_sys h')))) (disk_get d) ∅ [];
    bo_vars : (let v := y_vars (h_sys h') in v_nextpid v = 2 /\ v_initproc v = Some 0%nat /\ free (v_tickslock v) /\
      v_kpgdir v = kd /\ v_pdtr v = v2p kd /\ v_ppdtr v = v2p kd) /\ m_use_lock (y_mem (h_sys h')) = 1;
    bo_con : let c := h_con h' in free (n_lock c) /\ n_locking c = 1 /\ n_panicked c = 0 /\ free (n_in_lock c) /\ n_uart c = 1 /\
      n_txd c = n_txd (h_con h) ++ text "xv6..." ++ [10] ++ text "cpu0: starting" ++ [10];
    bo_idt : h_idt h' = Idt.Idts (((fun i => (idt_flags i, vectors i)) <$> seq 0 65) ++ replicate 63 (0, 0)) 1 (v2p idt_addr) 1;
    bo_io : h_io h' = io_up iosr size (h_io h);
    bo_mp : h_mp h' = Mp (<[1%nat := 1]> (replicate NCPU 0)) (<[0%nat := 1]> (replicate NCPU 0)) 2 0 0 (Some 0%nat);
  }.

  (** *** The last part: the second message, the descriptor table register *)
Lemma mpmain_run h :
    h_mp h = Mp (<[1%nat := 1]> (replicate NCPU 0)) (replicate NCPU 0) 2 0 0 (Some 0%nat) ->
    n_locking (h_con h) = 1 -> n_panicked (h_con h) = 0 -> n_uart (h_con h) = 1 -> free (n_lock (h_con h)) ->
    0 <= ncli (b_cpu (y_base (h_sys h))) ->
    mpmain_up idt_addr h = Ok tt (Machine (let b := y_base (h_sys h) in set_base (Base (quiet (b_cpu b)) (b_lock b) (b_procs b)) (h_sys h))
      (let c := h_con h in Con (dropped (n_lock c)) 1 0 (n_in_lock c) (n_buf c) (n_r c) (n_w c) (n_e c) 1 (n_cfg c)
         (n_txd c ++ text "cpu0: starting" ++ [10]) (n_rxd c)) (Idt.idtinit idt_addr (h_idt h)) (h_io h)
      (Mp (<[1%nat := 1]> (replicate NCPU 0)) (<[0%nat := 1]> (replicate NCPU 0)) 2 0 0 (Some 0%nat)) (h_devs h)).
  Proof.
    destruct h as [s c i io m dv]. cbn [h_mp h_con h_sys h_idt h_io h_devs]. intros -> C1 C2 C3 Cf Hn. unfold mpmain_up.
    rewrite (bind_ok _ _ _ 0 (Machine s c i io (Mp (<[1%nat := 1]> (replicate NCPU 0)) (replicate NCPU 0) 2 0 0 (Some 0%nat)) dv)) by reflexivity.
    erewrite bind_ok by (apply on_cst_ok; by apply second_message).
    destruct c. cbn in C1, C2, C3. subst. reflexivity.
  Qed.

  (** *** The rest of memory and the first process *)
Record manned (s s' : sys log) (kd : Z) (q : proc) (l : list Z) : Prop := {
    ma_base : base_ok (y_base s');
    ma_kernel : kernel_up kend kdata (y_kst s') l kd;
    ma_space : space_ok kend (y_kst s') (p_pgdir q) l;
    ma_pages : forall v, freeable kend v <-> v ∈ l \/ v = p_kstack q \/ owned (y_kst s') kd v \/ owned (y_kst s') (p_pgdir q) v;
    ma_apart : (p_kstack q ∉ l) /\ ~ owned (y_kst s') kd (p_kstack q) /\ ~ owned (y_kst s') (p_pgdir q) (p_kstack q) /\
      forall v, owned (y_kst s') kd v -> ~ owned (y_kst s') (p_pgdir q) v;
    ma_procs : b_procs (y_base s') = <[0%nat := q]> (b_procs (y_base s));
    ma_proc : p_state q = RUNNABLE /\ p_pid q = 1 /\ p_sz q = PGSIZE /\ p_tf q = first_tf /\ p_cwd q = Some 0%nat /\ p_ofile q = replicate NOFILE None;
    ma_code : exists v, upage (y_kst s') (p_pgdir q) 0 = Some v /\
      m_pages (y_mem s') !! v = Some (initcode ++ replicate (Z.to_nat PGSIZE - length initcode) 0);
    ma_root : free (ic_lock (y_fs s')) /\ ic_inodes (y_fs s') = alter as_root 0%nat (ic_inodes (y_fs s)) /\ log_base s s';
    ma_files : ft_lock s' = ft_lock s /\ ft_files s' = ft_files s;
    ma_vars : y_vars s' = (let v := y_vars s in
      Vars 2 (Some 0%nat) (v_first v) (v_ticks v) (v_tickslock v) (v_kpgdir v) (v_pdtr v) (v_ppdtr v)) /\ m_use_lock (y_mem s') = 1;
  }.

Lemma late_run (s : sys log) l kd :
    kernel_up kend kdata (y_kst s) l kd ->
    (forall v, v mod PGSIZE = 0 /\ kend <= v < p2v (4 * 1024 * 1024) <-> v ∈ l \/ owned (y_kst s) kd v) ->
    (forall v, freeable kend v -> is_Some (m_pages (y_mem s) !! v)) -> m_use_lock (y_mem s) = 0 -> base_ok (y_base s) ->
    b_procs (y_base s) <> [] -> Forall (fun p => p_state p = UNUSED /\ p_ofile p = replicate NOFILE None) (b_procs (y_base s)) ->
    free (ic_lock (y_fs s)) -> ic_inodes (y_fs s) <> [] -> Forall (fun ip => i_ref ip = 0) (ic_inodes (y_fs s)) ->
    v_nextpid (y_vars s) = 1 ->
    exists s1 s2 l2 q, on_kst (kinit2 kend (p2v (4 * 1024 * 1024)) (p2v PHYSTOP)) s = Ok tt s1 /\
      userinit devsw kdata initcode s1 = Ok tt s2 /\ manned s s2 kd q l2.
  Proof using Hkend Hdata Hroom Hinit.
    intros Hup Hlow Hs Hul Hb Hp0 Hp Hic Hi0 Hi Hpid.
    destruct (kinit2_run kend kdata Hkend Hroom (y_kst s) l kd Hup Hlow Hs Hul) as (k1 & l1 & E1 & Hup1 & Hlen & Hall & Hb1 & Hul1).
    set (s1 := set_kst k1 s). assert (Hfs : y_fs s1 = y_fs s) by (by apply set_kst_fs).
    assert (Hk1 : y_kst s1 = k1) by apply y_kst_set. assert (Hbs : y_base s1 = y_base s) by (unfold y_base; by rewrite Hfs).
    destruct (fresh_inodes _ Hi0 Hi) as [Hno Hslot].
    destruct (userinit_run devsw kend kdata Hkend Hdata s1 l1 initcode 0 0) as (s2 & q & E2 & Hb2 & [F1 F2 F3 (l2 & F4 & F5 & F6 & F7) F8 F9 F10 F11 F12] & Hsame & Hfl & Hff & _ & _ & Hul2 & Hic2 & Hlb);
      rewrite ?Hfs, ?Hbs, ?Hk1; try assumption; try apply Hinit.
    { eapply heap_of_pt. apply Hup1. }
    { by apply fresh_find. }
    destruct (kernel_up_apart kend kdata k1 (y_kst s2) l1 l2 kd Hup1) as [Hup2 Ho2].
    { eapply heap_of_pt. apply F4. }
    { intros x Hx Ho. apply (owned_not_free kend k1 kd l1 x (ku_space _ _ _ _ _ Hup1) Ho). apply F5. auto. }
    { intros v Ho. rewrite <- Hk1. apply Hsame, (owned_not_free kend k1 kd l1 v (ku_space _ _ _ _ _ Hup1) Ho). }
    assert (Hout : forall v, owned (y_kst s2) kd v -> v ∉ l1) by (intros v Ho; apply (owned_not_free kend k1 kd); [apply Hup1|by apply Ho2]).
    exists s1, s2, l2, q. split_and!; [by apply on_kst_ok|exact E2|]. destruct F3 as (G1 & G2 & G3 & G4 & G5).
    destruct F8 as (v & V1 & V2 & _). destruct F1 as (q0 & Q1 & Q2 & Q3).
    split; try assumption.
    - intros w. rewrite Hall, F5, Ho2. tauto.
    - split_and!; [assumption| |assumption|].
      + intros Ho. apply (Hout _ Ho), F5. auto.
      + intros w Ho Hq. apply (Hout w Ho), F5. auto.
    - by rewrite F2, Hbs.
    - split_and!; try assumption; [rewrite G2; exact Hpid|]. rewrite Q3. rewrite Hbs in Q1. rewrite Forall_forall in Hp.
      apply (Hp q0). by eapply list_elem_of_lookup_2.
    - by exists v.
    - rewrite F11, Hfs. split_and!; [assumption|reflexivity|]. destruct Hlb as [b' Eb]. exists b'. by rewrite Eb, Hfs.
    - split; assumption.
    - split; [|rewrite Hul2; exact Hul1]. rewrite F12. change (y_vars s1) with (y_vars s). cbn. by rewrite Hpid.
  Qed.

  (** Other CPU state under it changes nothing of the memory. *)
Lemma kst_base_pages (s : sys log) b l : kmem_ok (y_kst s) l -> base_ok b -> kmem_ok (y_kst (set_base b s)) l /\ k_pages (y_kst (set_base b s)) = k_pages (y_kst s).
  Proof. intros Hk [_ Hn]. split; [by apply kmem_ok_base|reflexivity]. Qed.

Lemma manned_fork s s' kd q l b :
    manned s s' kd q l -> b_procs (y_base s) <> [] -> Forall (fun p => p_state p = UNUSED /\ p_ofile p = replicate NOFILE None) (b_procs (y_base s)) ->
    Forall (fun f => f_ref f = 0) (ft_files s) -> free (ft_lock s) ->
    b_procs b = b_procs (y_base s') -> base_ok b -> cproc (b_cpu b) = Some 0%nat -> can_fork kend (set_base b s') l 0 q 0.
  Proof.
    intros [M1 M2 M3 M4 M5 M6 (P1 & P2 & P3 & P4 & P5 & P6) (v & V & _) (R1 & _) (L1 & L2) (W & _)] Hp0 Hp Hf Hl Hbp Hb Hc.
    assert (Hlt : (0 < length (b_procs (y_base s)))%nat) by (destruct (b_procs (y_base s)); cbn; [done|lia]).
    destruct (kst_base_pages s' b l (po_kmem _ _ _ _ (so_pt _ _ _ _ M3)) Hb) as [Hk Hpg].
    destruct (pages_same (y_kst s') (y_kst (set_base b s')) (p_pgdir q) Hpg) as (_ & Eu & _).
    split; rewrite ?y_base_set, ?Hbp, ?M6.
    - assumption.
    - split; rewrite y_base_set; [assumption|]. rewrite Hbp, M6. by apply list_lookup_insert_eq.
    - by rewrite P1.
    - eapply (space_ok_pages kend (y_kst s')); [exact M3|exact Hpg|exact Hk|auto].
    - rewrite P3. unfold PGSIZE, KERNBASE. lia.
    - intros m Hm. rewrite P3 in Hm. change (pages_of PGSIZE) with 1 in Hm. assert (m = 0) as -> by lia. rewrite Eu. by exists v.
    - change (free (ft_lock s')). by rewrite L1.
    - change (ft_files (set_base b s')) with (ft_files s'). rewrite L2. eapply files_ok_ofile; [|by apply (fresh_files (b_procs (y_base s)))].
      rewrite list_fmap_insert. apply list_insert_id. rewrite list_lookup_fmap.
      destruct (lookup_lt_is_Some_2 _ _ Hlt) as [q0 Hq0]. rewrite Hq0. rewrite Forall_forall in Hp.
      destruct (Hp q0 ltac:(by eapply list_elem_of_lookup_2)) as [_ E0]. cbn. by rewrite E0, P6.
    - intros r [k Hr]%list_elem_of_lookup_1 Hst. apply list_lookup_insert_Some in Hr as [(_ & <- & _)|[_ Hr]]; [done|].
      rewrite Forall_forall in Hp. apply (Hp r). by eapply list_elem_of_lookup_2.
    - exact R1.
    - exact P5.
    - change (y_vars (set_base b s')) with (y_vars s'). rewrite W. cbn. lia.
    - change (y_vars (set_base b s')) with (y_vars s'). rewrite W. cbn [v_nextpid]. apply (pids_ok_new _ 1); [by apply fresh_pids|lia|done].
  Qed.

  (** What the first part, kinit1 and kvmalloc, leaves. *)
Record early_up (h h' : machine) (kd : Z) (l : list Z) : Prop := {
    eu_rest : h_con h' = h_con h /\ h_idt h' = h_idt h /\ h_io h' = h_io h /\ h_mp h' = h_mp h /\ h_devs h' = h_devs h;
    eu_fs : y_fs (h_sys h') = y_fs (h_sys h);
    eu_files : ft_files (h_sys h') = ft_files (h_sys h);
    eu_kernel : kernel_up kend kdata (y_kst (h_sys h')) l kd;
    eu_low : forall v, v mod PGSIZE = 0 /\ kend <= v < p2v (4 * 1024 * 1024) <-> v ∈ l \/ owned (y_kst (h_sys h')) kd v;
    eu_there : forall v, freeable kend v -> is_Some (m_pages (y_mem (h_sys h')) !! v);
    eu_lock : m_use_lock (y_mem (h_sys h')) = 0;
    eu_vars : y_vars (h_sys h') = (let v := y_vars (h_sys h) in
      Vars (v_nextpid v) (v_initproc v) (v_first v) (v_ticks v) (v_tickslock v) kd (v2p kd) (v2p kd));
  }.

Lemma early_run (rest : M machine unit) h :
    mem_raw kend (y_kst (h_sys h)) ->
    exists h' kd l, (on_sys (on_kst (kinit1 kend kend (p2v (4 * 1024 * 1024)))) ;;; on_sys (kvmalloc kdata) ;;; rest) h = rest h' /\ early_up h h' kd l.
  Proof using Hkend Hdata Hroom.
    intros L1. destruct (kinit1_run kend Hkend Hroom _ L1) as (k1 & l1 & E1 & Hh1 & Hlen1 & Hin1 & Hs1 & Hb1 & Hu1).
    rewrite (bind_ok _ _ _ _ _ (on_sys_ok _ _ _ _ (on_kst_ok _ _ _ _ E1))). set (s1 := set_kst k1 (h_sys h)).
    assert (F1 : y_fs s1 = y_fs (h_sys h)) by (by apply set_kst_fs). assert (K1 : y_kst s1 = k1) by apply y_kst_set.
    destruct (kvmalloc_run kend kdata Hkend Hdata s1 l1) as (s2 & l2 & kd & E2 & Hup & Hown & Hs2 & F2 & Hu2 & T2 & T2' & _ & V2); [by rewrite K1|done|done|].
    rewrite (bind_ok _ _ _ _ _ (on_sys_ok _ (set_sys s1 h) _ _ E2)). exists (set_sys s2 h), kd, l2. split; [reflexivity|].
    split; cbn [h_sys set_sys]; try assumption; [by split_and!|by rewrite F2| |].
    - intros v. rewrite <- Hown. symmetry. apply Hin1.
    - intros v Hv. apply Hs2. apply (Hs1 v). by apply (mr_there _ _ L1).
  Qed.

  (** The first three parts put together. *)
Lemma manned_up h d n size :
    loaded h d n size ->
    exists h3 s5 kd q l, start_up kend kdata devsw initcode vectors idt_addr iosr h = mpmain_up idt_addr (set_sys s5 h3) /\
      manned (h_sys h3) s5 kd q l /\ (exists h2 l2, early_up h h2 kd l2 /\ middle_up vectors iosr h2 h3 d size) .
  Proof using Hkend Hdata Hroom Hinit.
    intros [L1 L2 [L3 L3'] L4 [L5 L5'] L6 (L7 & L7' & L7'') L8 [L9 L9'] L10 L11]. unfold start_up.
    match goal with |- context [(_ ;;; _ ;;; ?r) h = _] => destruct (early_run r h L1) as (h2 & kd & l2 & -> & U) end.
    pose proof U as [(X1 & X2 & X3 & X4 & X5) U2 U3 U4 U5 U6 U7 U8].
    assert (B2 : y_base (h_sys h2) = y_base (h_sys h)) by (unfold y_base; by rewrite U2).
    set (r := on_sys (on_kst (kinit2 kend (p2v (4 * 1024 * 1024)) (p2v PHYSTOP))) ;;; on_sys (userinit devsw kdata initcode) ;;; mpmain_up idt_addr).
    destruct (middle_run vectors iosr r h2 d n size) as (h3 & E3 & Mu);
      rewrite ?B2, ?U2, ?X1, ?X3, ?X4, ?X5, ?L9; try assumption; [apply L1|reflexivity|unfold NCPU; cbn; lia|].
    pose proof Mu as [B3 Y3 [T3 T3'] [I3 I3'] _ V3 _ _ _ _]. cbv zeta in B3. rewrite B2 in B3.
    assert (Hn3 : 0 <= ncli (b_cpu (y_base (h_sys h3)))) by (rewrite B3; apply L1).
    assert (Hp3 : k_pages (y_kst (h_sys h3)) = k_pages (y_kst (h_sys h2))) by (change (m_pages (y_mem (h_sys h3)) = m_pages (y_mem (h_sys h2))); by rewrite Y3).
    pose proof (heap_of_pt _ _ _ _ (so_pt _ _ _ _ (ku_space _ _ _ _ _ U4))) as [H1 H2 H3].
    destruct (kernel_up_apart kend kdata (y_kst (h_sys h2)) (y_kst (h_sys h3)) l2 l2 kd U4) as [K3 O3].
    { split; [by eapply kmem_ok_mem|done|by rewrite Hp3]. }
    { intros x Hx Ho. by apply (owned_not_free kend _ kd l2 x (ku_space _ _ _ _ _ U4) Ho). }
    { intros v _. by rewrite Hp3. }
    destruct (late_run (h_sys h3) l2 kd K3) as (s4 & s5 & l & q & E4 & E5 & Ma); rewrite ?Y3, ?I3', ?U2, ?B3; try assumption.
    { intros v. rewrite O3. apply U5. }
    { split; [reflexivity|apply L1]. }
    { rewrite V3, U8. exact L6. }
    exists h3, s5, kd, q, l. split; [|split; [exact Ma|by exists h2, l2]].
    change (middle vectors iosr r h2 = mpmain_up idt_addr (set_sys s5 h3)). rewrite E3. unfold r.
    rewrite (bind_ok _ _ _ _ _ (on_sys_ok _ _ _ _ E4)), (bind_ok _ _ _ _ _ (on_sys_ok _ (set_sys s4 h3) _ _ E5)). reflexivity.
  Qed.

  (** C7. Start-up takes the machine from what the loader leaves to what every
      other theorem about the kernel assumes. [main] reaches [scheduler]
      without a panic. Then every page above the kernel is in one place: free,
      the first process's stack, the kernel's page table or the first process's
      address space. The kernel's page table maps the kernel and is the one in
      use. The first process has id 1, is runnable, has initcode at address 0
      and the root directory as its current one; once it runs, fork's
      conditions hold. The buffer cache is empty over the disk's contents, all
      locks are free, the interrupts of the keyboard, the timer and the serial
      port are on, the timer runs at 100 Hz, and the serial port got the two
      messages after it was set up. *)
Theorem start_up_spec h d n size :
    loaded h d n size ->
    exists h' kd q l, start_up kend kdata devsw initcode vectors idt_addr iosr h = Ok tt h' /\ booted h h' d size kd q l.
  Proof using Hkend Hdata Hroom Hinit.
    intros L. destruct (manned_up h d n size L) as (h3 & s5 & kd & q & l & E & Ma & h2 & l2 & U & Mu).
    rewrite E. destruct L as [L1 L2 [L3 L3'] L4 [L5 L5'] L6 L7 L8 [L9 L9'] L10 L11].
    destruct U as [(X1 & X2 & X3 & X4 & X5) U2 U3 _ _ _ _ U8]. destruct Mu as [B3 Y3 [T3 T3'] [I3 I3'] C3 V3 N3 D3 O3 P3].
    assert (B2 : y_base (h_sys h2) = y_base (h_sys h)) by (unfold y_base; by rewrite U2). cbv zeta in B3. rewrite B2 in B3.
    rewrite (mpmain_run (set_sys s5 h3)); cbn [h_mp h_con h_sys set_sys]; [|rewrite P3, X4, L9, L9'; reflexivity|rewrite N3; reflexivity..|apply Ma].
    set (qb := Base (quiet (b_cpu (y_base s5))) (b_lock (y_base s5)) (b_procs (y_base s5))).
    assert (Hqb : base_ok qb) by apply (ma_base _ _ _ _ _ Ma).
    eexists _, kd, q, l. split; [reflexivity|]. cbn [h_devs h_io h_idt h_con h_sys set_sys].
    split; cbn [h_devs h_io h_idt h_con h_sys h_mp]; fold qb.
    all: cycle 5.
    - unfold running. rewrite y_base_set, set_base_set. eapply manned_fork; [exact Ma|..]; rewrite ?B3, ?T3', ?U3; (assumption || reflexivity).
    - change (ic_inodes (y_fs (set_base qb s5))) with (ic_inodes (y_fs s5)). destruct Ma as [_ _ _ _ _ _ _ _ (_ & -> & _) _ _]. by rewrite I3', U2.
    - destruct Ma as [_ _ _ _ _ _ _ _ (_ & _ & b & Eb) _ _]. eapply (cache_rel_base (lg_io (fs_log (y_fs (h_sys h3))))); [exact C3| | |].
      + destruct (cr_ok _ _ _ _ C3) as [[_ Hf] _]. split; [exact Hqb|]. cbn. by rewrite Eb.
      + cbn. by rewrite Eb.
      + cbn. by rewrite Eb.
    - change (y_vars (set_base qb s5)) with (y_vars s5). change (y_mem (set_base qb s5)) with (y_mem s5).
      destruct Ma as [_ _ _ _ _ _ _ _ _ _ [W ->]]. rewrite W, V3, U8. by split_and!.
    - rewrite N3, X1. split_and!; try reflexivity. cbn. by rewrite <- app_assoc.
    - rewrite D3, X2, L8. apply idt_up.
    - rewrite O3. by rewrite X3.
    - reflexivity.
    - apply (kernel_up_apart kend kdata (y_kst s5) _ l l kd (ma_kernel _ _ _ _ _ Ma)); [|intros x Hx Ho|done].
      + pose proof (heap_of_pt _ _ _ _ (so_pt _ _ _ _ (ma_space _ _ _ _ _ Ma))) as [H1 H2 H3]. split; [by apply kst_base_pages|done|done].
      + by apply (owned_not_free kend _ kd l x (ku_space _ _ _ _ _ (ma_kernel _ _ _ _ _ Ma)) Ho).
    - apply (ma_pages _ _ _ _ _ Ma).
    - apply (ma_apart _ _ _ _ _ Ma).
    - destruct Ma as [_ _ _ _ _ M6 (P1 & P2 & _ & P4 & _) _ _ _ _]. rewrite y_base_set. cbn [b_procs qb]. rewrite M6, B3. by split_and!.
    - apply (ma_code _ _ _ _ _ Ma).
  Qed.
End start.

(** *** A machine at power-on: 128 megabytes, three nodes on the bus *)
Definition lock0 : spinlock := Spinlock 0 "" None [].
Definition base0 : base :=
  Base (Cpu 0 0 false false None) lock0 (replicate NPROC (Proc 0 0 0 UNUSED 0 None tf0 None 0 (replicate NOFILE None) None [])).
Definition ram (kend : Z) : gmap Z (list Z) :=
  gset_to_gmap (replicate (Z.to_nat PGSIZE) 0) (list_to_set (pages_from kend (Z.to_nat ((KERNBASE + PHYSTOP - kend) / PGSIZE)))).
Definition io0 : gmap Z Z :=
  list_to_map [(0x1200, 3); (0x1300, 0x1000); (0x1320, 0x1000); (0x1340, 0x1000); (0x3a00, 0); (0x1000, 0); (0x1010, 0); (0x102c, 0); (0x1040, 0)].
Definition power_on (m : gmap Z (list Z)) : machine :=
  Machine
    (Sys (Fs (log0 base0 disk0) lock0 (replicate NINODE (Inode 0 0 0 0 0 0 0 0 0 [])))
       (Mem lock0 0 0 m []) lock0 (replicate NFILE file0) ∅ (Vars 1 None 1 0 lock0 0 0 0))
    (Con lock0 0 0 lock0 (replicate 128 0) 0 0 0 0 0 [] [])
    (Idt.Idts (replicate 128 (0, 0)) 0 0 0) io0
    (Mp (replicate NCPU 0) (replicate NCPU 0) 0 0 0 None) (Devs 0 0 (replicate 4 (0, 0)) 0 0 0).

Lemma ram_raw kend :
  kend mod PGSIZE = 0 -> KERNBASE < kend < KERNBASE + PHYSTOP -> mem_raw kend (y_kst (h_sys (power_on (ram kend)))).
Proof.
  intros Hm Hk. set (k := y_kst _). assert (Hp : k_pages k = ram kend) by reflexivity. split.
  - reflexivity.
  - reflexivity.
  - intros v (F1 & F2 & F3 & F4). rewrite Hp. eexists. apply lookup_gset_to_gmap_Some. split; [|reflexivity].
    apply elem_of_list_to_set, elem_of_pages_from; [done|]. rewrite Z2Nat.id by (apply Z.div_pos; [lia|done]).
    rewrite Z.mul_comm, <- Z_div_exact_full_2; [split; [done|lia]|done|]. rewrite Zminus_mod, Hm. reflexivity.
  - intros v p. rewrite Hp. intros [_ <-]%lookup_gset_to_gmap_Some. split; [apply length_replicate|].
    apply Forall_replicate. unfold is_u8. lia.
Qed.

Lemma power_on_loaded kend :
  kend mod PGSIZE = 0 -> KERNBASE < kend < KERNBASE + PHYSTOP -> loaded kend 0x1000 (power_on (ram kend)) disk0 3 (fun _ => 0x1000).
Proof.
  intros Hm Hk. split.
  - by apply ram_raw.
  - reflexivity.
  - split; [discriminate|by apply Forall_replicate].
  - by apply Forall_replicate.
  - split; [discriminate|by apply Forall_replicate].
  - reflexivity.
  - split_and!; reflexivity.
  - reflexivity.
  - split; reflexivity.
  - reflexivity.
  - split; try reflexivity.
    + lia.
    + intros j Hj. assert (j = 0 \/ j = 1 \/ j = 2)%nat as [-> | [-> | ->]] by lia; reflexivity.
    + by exists 0.
    + split_and!; by exists 0.
Qed.

Lemma start_up_spec_witness :
  exists h' kd q l, start_up 0x80110000 0x80108000 no_devs [1; 2; 3] (fun i => Z.of_nat i) 0x80109000 0x1000 (power_on (ram 0x80110000)) = Ok tt h' /\
    p_pid q = 1 /\ kernel_up 0x80110000 0x80108000 (y_kst (h_sys h')) l kd /\ n_txd (h_con h') = text "xv6..." ++ [10] ++ text "cpu0: starting" ++ [10].
Proof.
  destruct (start_up_spec 0x80110000 0x80108000 no_devs [1; 2; 3] (fun i => Z.of_nat i) 0x80109000 0x1000
    ltac:(unfold KERNBASE; lia) ltac:(split; [reflexivity|unfold KERNLINK, KERNBASE, EXTMEM, PHYSTOP; lia]) ltac:(vm_compute; discriminate)
    ltac:(split; [reflexivity|repeat constructor; unfold is_u8; lia])
    _ _ _ _ (power_on_loaded 0x80110000 eq_refl ltac:(unfold KERNBASE, PHYSTOP; lia))) as (h' & kd & q & l & E & B).
  exists h', kd, q, l. split_and!; [exact E|apply (bo_procs _ _ _ _ _ _ _ _ _ _ _ _ _ B)|apply (bo_kernel _ _ _ _ _ _ _ _ _ _ _ _ _ B)|].
  destruct (bo_con _ _ _ _ _ _ _ _ _ _ _ _ _ B) as (_ & _ & _ & _ & _ & H). exact H.
Defined.
